(* ===== verification/_CoqProject ===== *)
-Q . S2P
Prelude.v
Utils.v
LittleEndian.v
ChunkInfo.v
Device.v
BlobMeta.v
AddMore.v
MetaFile.v
MetaOpen.v
BlobCache.v
IoMerge.v
MemCursor.v
CacheRegion.v
CachedFile.v
CachedRead.v
CachedPrefetch.v
PersistMap.v
ChunkMaps.v
StateMap.v
RangeState.v
CacheMap.v
CacheEdges.v
CacheMgr.v
RafsLayout.v
RafsV5.v
RafsBlobTable.v
RafsV5Inode.v
CachedInode.v
CachedDir.v
CachedSuper.v
Overlay.v
RafsV5Io.v
Fs.v
Builder.v
Prefetch.v
Bootstrap.v
ImageTrip.v
RafsV6Inode.v
DirectV6.v
RafsV6Xattr.v
V6Layout.v
V6Dump.v
V6Update.v
V6Image.v
V6Trip.v
V6Edges.v
RafsV6Super.v
RafsV6Blob.v
V6Demo.v
V6Bootstrap.v
V6Io.v
