(* ===== verification/Prelude.v ===== *)
(** * Nydus image service: verification of the image metadata and the storage core

    Nydus serves container images lazily. An image is a metadata tree (RAFS) whose regular files
    are cut into chunks; the chunks live in data blobs on a remote backend. [nydus-image] builds
    the tree layer by layer and dumps it into a bootstrap file. [nydusd] loads the bootstrap,
    answers FUSE requests from it, and turns reads into requests for chunks. The storage crate
    answers those from a local cache file, and downloads the chunks that are not there yet; many
    threads do so at once.

    ** Files

    Foundations.
    - [Prelude]: outcomes of Rust code ([Ok], [Err], panic), machine arithmetic in the dev and
      release profiles, a state monad, lemmas and tactics shared by all files.
    - [Utils]: rounding, [FileMapState], read ahead ([utils/src], [storage/src/utils.rs]).
    - [LittleEndian]: integers in byte lists, the form of every on-disk structure.

    Storage: from a request for chunks to the cache file.
    - [ChunkInfo]: the bit-packed chunk table entries ([storage/src/meta/chunk_info_v1.rs],
      [chunk_info_v2.rs], [zran.rs]); the trait [BlobMetaChunkInfo] is a class with laws.
    - [Device]: blobs, chunk and IO descriptors, IO vectors ([storage/src/device.rs]).
    - [BlobMeta], [AddMore]: queries on the chunk table and the amplification of requests;
      [MetaFile], [MetaOpen]: the meta file of a blob ([storage/src/meta/mod.rs]).
    - [BlobCache]: reading, decompressing and validating chunks, the default methods of the trait;
      [IoMerge]: merging of descriptors into backend requests ([storage/src/cache/mod.rs]).
    - [MemCursor]: scattered user memory ([storage/src/utils.rs]).
    - [CacheRegion]: dispatch of a request to regions; [CachedFile]: the operations of a cache
      entry, its state being the cache file, the chunk map, the outcomes of the system calls to
      come and the tasks that are spawned; [CachedRead]: its invariant and the reads of a user
      against any chunk map that has the laws of [ChunkMapObjLaws]; [CachedPrefetch]:
      prefetching and fetching of ranges ([storage/src/cache/cachedfile.rs]).
    - [PersistMap], [ChunkMaps]: the chunk bitmap and the maps over it; [StateMap],
      [RangeState]: the table of inflight downloads ([storage/src/cache/state]).
    - [CacheMap]: the chunk maps have those laws, so that the theorems of the entry hold for them;
      [CacheEdges]: requests at the edges; [CacheMgr]: creating the entry of a blob and its files
      ([storage/src/cache/filecache/mod.rs], [fscache/mod.rs]).

    Metadata: from the layers of an image to the reply to a FUSE request.
    - [RafsLayout], [RafsV5], [RafsBlobTable], [RafsV5Inode]: the structures of a v5 bootstrap,
      written and read ([rafs/src/metadata/layout]).
    - [CachedInode], [CachedDir], [CachedSuper]: inodes in memory, directories, digests and the
      super block of cached mode ([rafs/src/metadata/cached_v5.rs]); [CachedInode] also has the
      dump of a node by the builder ([src/bin/nydus-image/core/node.rs]).
    - [Overlay]: trees of layers and whiteouts ([src/bin/nydus-image/core/tree.rs]).
    - [RafsV5Io]: IO vectors of a file and their amplification ([layout/v5.rs], [md_v5.rs]).
    - [Fs]: the file system operations ([rafs/src/fs.rs], [rafs/src/metadata/mod.rs]).
    - [Builder]: the array of nodes of a tree, with inode numbers, child indexes and hard links
      ([src/bin/nydus-image/core/bootstrap.rs]); [Prefetch]: prefetch patterns and tables
      ([core/prefetch.rs]); [Bootstrap]: digests, dump and loading of a whole v5 bootstrap;
      [ImageTrip]: from the tree of the builder to the paths of the loaded image.

    RAFS v6: metadata that is read in place, in the format of EROFS.
    - [RafsV6Inode], [RafsV6Xattr]: inodes, directory entries, chunk addresses and extended
      attributes ([rafs/src/metadata/layout/v6.rs]); the trait [RafsV6OndiskInode] is a class.
    - [DirectV6]: lookups and walks in the mapping ([rafs/src/metadata/direct_v6.rs]).
    - [V6Layout]: the allocator and the placement of nodes ([core/context.rs], [core/node.rs]);
      [V6Update]: entries of directories ([core/bootstrap.rs]); [V6Dump]: the dump of a node.
    - [V6Image], [V6Trip]: the bytes of all nodes, and reading them back; [V6Edges]: images at
      the edges of the format.
    - [RafsV6Super], [RafsV6Blob]: super blocks, device slots, blob and prefetch tables;
      [V6Bootstrap]: dump and loading of a whole v6 bootstrap; [V6Io]: the chunk map and the IO
      vectors of a read; [V6Demo]: the image the witnesses of these files use.

    ** How the code is modelled

    A Rust function is a Rocq function of the same name; a method takes [self] as an argument and
    returns the new one. A [Result] is an [outcome], in which a panic is a value of its own:
    theorems that a function returns [Ok] also show that no assertion, index or arithmetic check
    fails. Arithmetic is on [Z] with the width written out ([uadd 64 a b]); its overflow behaviour
    is that of the [Profile]. A file is the list of its bytes and a reader or writer is a state
    monad over it. Atomic operations of concurrent code are the steps of an inductive relation
    on the shared state and the program counters of the threads; invariants hold for all
    interleavings. Traits are classes whose laws the clients assume and the instances prove:
    [BlobMetaChunkInfo] with its laws, [ChunkMap] with [ChunkMapLaws], [RangeBase], [ChunkMapObj]
    with [ChunkMapObjLaws]; [BlobReader] and [BlobCache] are records of operations.
    Shared objects ([Arc]) have an identity where the code depends on it ([ci_arc]).

    Code outside the repository is a parameter: hash functions, decompressors, the backend
    reader, waits of a condition variable, the address of the mapping of a v6 bootstrap, the data
    of the device in [Fs]. The writes and reads of the cache file take their outcomes (an error, or
    the number of bytes) from a list in the state, and are complete when the list is empty.

    ** What the theorems show

    - Concurrency: at most one thread downloads a chunk, no wake-up is lost, the counter of the
      chunk bitmap is exact in the end, and the blocking operation refines the atomic steps.
    - Queries: the chunk search and the range queries terminate, answer every request inside a
      well laid out blob, and return exactly the chunks that cover it; amplification keeps the
      request; merging and dispatch partition it.
    - Cache: an entry is sound when every chunk that is marked ready, and that nobody validates
      again, has its data in the cache file. Every operation keeps it so, with any failures of the
      backend and of the writes and any sound behaviour of the other threads while one waits, and a
      read gives the user exactly the bytes of the image. A prefetch makes its chunks ready. A cache
      that is stopped and opened again is as sound as it was and has the same chunks ready.
    - Memory: [copyv] and the cursors move exactly the bytes they are asked to move.
    - Files: chunk tables, ZRan tables, the blob meta file, the chunk bitmap, super block,
      inode, prefetch and blob tables, extended attributes and inodes are read back as they
      were written; validation accepts exactly the tables that lie inside the file.
    - Trees: applying a layer changes exactly the entries it names; a dumped image is loaded as
      the tree it was; names, paths and directory listings give exactly its entries; digests bind
      a tree to its root.
    - Images: the tree of a builder that is dumped as a v5 bootstrap and loaded gives every path
      what the tree has there. The nodes of a v6 bootstrap never overlap; a tree that is dumped as
      a v6 bootstrap is loaded without an error, and every path of the tree, and no other, is found
      in the mapped file with the data of its node. The v6 theorem is for trees without hard links
      whose names sort behind [..], with inlined data behind inodes of a multiple of 8 bytes, with
      symlinks that are not empty, whose directories do not fill their last block, and without a
      prefetch table when there are no blobs; [V6Edges] and [V6Bootstrap] show what happens
      otherwise.
    - Reads: the IO vectors of a read cover its range exactly, and a read returns the bytes of the
      file, amplified or not.
    - Errors: inputs on which the code panics, leaks or answers wrongly, stated as theorems.

    The theorems on reads through the cache ([cache_setup], [user_request]) are for a cache that
    holds plain data, a blob that is neither ZRan nor legacy stargz, batches of at most 128 MB,
    and digests checked only without a chunk table. Descriptors of a request that are close enough
    to be merged have to be neighbours in the chunk table and in the cache file. Prefetching and
    fetching are shown without direct IO. [CacheEdges] has what happens without the conditions on
    neighbours, validation and ZRan. A cache is stopped by the end of the process; what a loss of
    power does to its files is not covered.

    ** Fuel

    Loops that are not structural take fuel and panic when it runs out, so that a theorem that the
    result is [Ok] shows termination: the searches take the length of their table plus one, the
    walk over a directory its number of children plus one, the amplification of a read the
    largest inode number plus three, since each iteration looks at one more inode; the searches of
    a v6 directory take the number of its blocks, or of the entries of a block, and the steps of
    two more searches over 64 bits, since the bounds of a search wrap in the release profile.

    ** What is not modelled

    Backends and the HTTP API (network), decompression and hashing (libraries), the tables of cache
    objects and the prefetch workers of the cache managers (tokio tasks, rate limits, weak
    references), the direct mode of v5, scanning and chunking of files in the builder (the content
    of a directory on the disk, tar and stargz archives), compaction of blobs, the daemons' sessions
    with FUSE, virtiofs and cachefiles, metrics and command lines. *)
From stdpp Require Export base numbers list gmap strings list_numbers.
From Stdlib Require Export ZArith Lia Bool Zbitwise.
#[global] Open Scope Z_scope.

(** ** Outcomes of fallible code *)

(** A Rust computation returns [Ok], returns [Err] or panics (assertion failure,
    slice index out of range, [unwrap] of an error, [unimplemented!], arithmetic
    overflow when overflow checks are compiled in). *)
Inductive outcome (E A : Type) : Type :=
| Ok (a : A)
| Err (e : E)
| Panic.
Arguments Ok {E A} a.
Arguments Err {E A} e.
Arguments Panic {E A}.

#[export] Instance outcome_ret E : MRet (outcome E) := fun A a => Ok a.
#[export] Instance outcome_bind E : MBind (outcome E) := fun A B f m =>
  match m with Ok a => f a | Err e => Err e | Panic => Panic end.

(** Error values of [std::io::Error] made by the [einval!]-like macros. *)
Inductive errno := EINVAL | EIO | ENOENT | ENOSYS | ENOTDIR | EACCES | ERANGE | ENODATA | EBADF | EINTR | UnexpectedEof | EOTHER.
#[export] Instance errno_eq_dec : EqDecision errno.
Proof. solve_decision. Defined.

Notation io := (outcome errno).

Definition is_ok {E A} (m : outcome E A) : bool :=
  match m with Ok _ => true | _ => false end.
Definition is_err {E A} (m : outcome E A) : bool :=
  match m with Err _ => true | _ => false end.

(** [assert!(b)]. *)
Definition rassert {E} (b : bool) : outcome E unit := if b then Ok tt else Panic.

(** [opt.ok_or_else(|| e)]. *)
Definition ok_or {E A} (o : option A) (e : E) : outcome E A :=
  match o with Some a => Ok a | None => Err e end.

(** [v.len()]. *)
Definition zlen {A} (l : list A) : Z := Z.of_nat (length l).

Lemma zlen_nonneg {A} (l : list A) : 0 <= zlen l.
Proof. unfold zlen. lia. Qed.

Lemma zlen_app {A} (l1 l2 : list A) : zlen (l1 ++ l2) = zlen l1 + zlen l2.
Proof. unfold zlen. rewrite length_app. lia. Qed.

(** Slice indexing [v[i]]: panics out of range. *)
Definition vec_index {E A} (v : list A) (i : Z) : outcome E A :=
  if (i <? 0) then Panic
  else match v !! Z.to_nat i with Some a => Ok a | None => Panic end.

(** ** Machine integers *)

(** Cargo profile the code is compiled with: [overflow_checks = true] is the dev and
    test profile (arithmetic overflow panics, [debug_assert!] is active),
    [false] the release profile (arithmetic wraps around). *)
Class Profile := overflow_checks : bool.
Definition dev_profile : Profile := true.
Definition release_profile : Profile := false.

Definition wrap (w x : Z) : Z := x mod 2 ^ w.
Definition in_range (w x : Z) : Prop := 0 <= x < 2 ^ w.
Definition in_rangeb (w x : Z) : bool := (0 <=? x) && (x <? 2 ^ w).

Section arith.
Context `{Profile} {E : Type}.

Definition overflowing (w x : Z) : outcome E Z :=
  if in_rangeb w x then Ok x
  else if overflow_checks then Panic else Ok (wrap w x).

Definition uadd (w a b : Z) : outcome E Z := overflowing w (a + b).
Definition usub (w a b : Z) : outcome E Z := overflowing w (a - b).
Definition umul (w a b : Z) : outcome E Z := overflowing w (a * b).

(** [debug_assert!(b)]. *)
Definition debug_assert (b : bool) : outcome E unit :=
  if overflow_checks then rassert b else Ok tt.
End arith.

Definition checked_add (w a b : Z) : option Z :=
  if a + b <? 2 ^ w then Some (a + b) else None.

(** Bitwise complement [!x] of a [w]-bit unsigned integer. *)
Definition unot (w x : Z) : Z := Z.lxor x (Z.ones w).

Definition u8_MAX : Z := 255.
Definition u32_MAX : Z := 2 ^ 32 - 1.
Definition u64_MAX : Z := 2 ^ 64 - 1.

(** ** State and error monad

    [&mut self] methods and methods over interior mutability: the state survives an
    [Err], as in the source, where [?] returns without undoing earlier writes. *)
Definition stM (S E A : Type) : Type := S -> outcome E A * S.

Section stM.
Context {S E : Type}.

Definition st_ret {A} (a : A) : stM S E A := fun s => (Ok a, s).
Definition st_bind {A B} (f : A -> stM S E B) (m : stM S E A) : stM S E B :=
  fun s => match m s with
           | (Ok a, s') => f a s'
           | (Err e, s') => (Err e, s')
           | (Panic, s') => (Panic, s')
           end.
Definition st_lift {A} (m : outcome E A) : stM S E A := fun s => (m, s).
Definition st_get {A} (f : S -> A) : stM S E A := fun s => (Ok (f s), s).
Definition st_modify (f : S -> S) : stM S E unit := fun s => (Ok tt, f s).
(** [for x in l { body }] with [?] inside the body. *)
Fixpoint st_for {A} (body : A -> stM S E unit) (l : list A) : stM S E unit :=
  match l with
  | [] => st_ret tt
  | x :: l' => st_bind (fun _ => st_for body l') (body x)
  end.
End stM.

#[export] Instance stM_ret S E : MRet (stM S E) := fun A => st_ret.
#[export] Instance stM_bind S E : MBind (stM S E) := fun A B => st_bind.

(** ** Generic lemmas *)

Lemma bind_Ok {E A B} (m : outcome E A) (f : A -> outcome E B) b :
  m ≫= f = Ok b <-> exists a, m = Ok a /\ f a = Ok b.
Proof. destruct m; simpl; naive_solver. Qed.

Lemma rassert_Ok {E} b u : @rassert E b = Ok u -> b = true.
Proof. by destruct b. Qed.

Lemma in_rangeb_true w x : in_rangeb w x = true <-> in_range w x.
Proof. unfold in_rangeb, in_range. lia. Qed.

Lemma overflowing_in `{Profile} {E} w x : in_range w x -> @overflowing _ E w x = Ok x.
Proof. intros Hx. unfold overflowing. by rewrite (proj2 (in_rangeb_true w x) Hx). Qed.

Lemma uadd_in `{Profile} {E} w a b : in_range w (a + b) -> @uadd _ E w a b = Ok (a + b).
Proof. apply overflowing_in. Qed.

Lemma usub_in `{Profile} {E} w a b : in_range w (a - b) -> @usub _ E w a b = Ok (a - b).
Proof. apply overflowing_in. Qed.

Lemma umul_in `{Profile} {E} w a b : in_range w (a * b) -> @umul _ E w a b = Ok (a * b).
Proof. apply overflowing_in. Qed.

Lemma wrap_small w x : in_range w x -> wrap w x = x.
Proof. intros. by apply Z.mod_small. Qed.

Lemma wrap_range w x : 0 <= w -> in_range w (wrap w x).
Proof. intros. apply Z.mod_pos_bound. by apply Z.pow_pos_nonneg. Qed.

Lemma checked_add_Some w a b c : checked_add w a b = Some c <-> c = a + b /\ a + b < 2 ^ w.
Proof. unfold checked_add. destruct (Z.ltb_spec (a + b) (2 ^ w)); naive_solver lia. Qed.

Lemma ok_or_Ok {E A} (o : option A) (e : E) a : ok_or o e = Ok a <-> o = Some a.
Proof. destruct o; cbn; naive_solver. Qed.

Lemma vec_index_Ok {E A} (v : list A) i a :
  @vec_index E A v i = Ok a <-> 0 <= i /\ v !! Z.to_nat i = Some a.
Proof.
  unfold vec_index. destruct (Z.ltb_spec i 0); [naive_solver lia|].
  destruct (v !! Z.to_nat i); naive_solver.
Qed.

Lemma vec_index_is_Ok {E A} (v : list A) i :
  0 <= i < Z.of_nat (length v) -> exists a, @vec_index E A v i = Ok a /\ v !! Z.to_nat i = Some a.
Proof.
  intros Hi. destruct (lookup_lt_is_Some_2 v (Z.to_nat i)) as [a Ha]; [lia|].
  exists a. split; [|done]. apply vec_index_Ok. split; [lia|done].
Qed.

(** ** Bit-level reasoning *)

Lemma testbit_above n a i : 0 <= a < 2 ^ n -> n <= i -> Z.testbit a i = false.
Proof.
  intros Ha Hi. destruct (Z.leb_spec 0 n).
  - rewrite <- (Z.mod_small a (2 ^ n)) by done. by apply Z.mod_pow2_bits_high.
  - rewrite Z.pow_neg_r in Ha by lia. lia.
Qed.

Lemma testbit_wrap w a i : 0 <= w -> 0 <= i -> Z.testbit (wrap w a) i = (i <? w) && Z.testbit a i.
Proof.
  intros Hw Hi. unfold wrap. destruct (Z.ltb_spec i w).
  - by rewrite Z.mod_pow2_bits_low.
  - by rewrite Z.mod_pow2_bits_high.
Qed.

Lemma testbit_ones_leb w i : 0 <= w -> 0 <= i -> Z.testbit (Z.ones w) i = (i <? w).
Proof.
  intros. destruct (Z.ltb_spec i w); [apply Z.ones_spec_low | apply Z.ones_spec_high]; lia.
Qed.

Lemma testbit_unot w a i : 0 <= w -> 0 <= i ->
  Z.testbit (unot w a) i = xorb (Z.testbit a i) (i <? w).
Proof. intros. unfold unot. by rewrite Z.lxor_spec, testbit_ones_leb. Qed.

Lemma testbit_shiftl a n i : 0 <= i -> Z.testbit (Z.shiftl a n) i = Z.testbit a (i - n).
Proof. apply Z.shiftl_spec. Qed.

Lemma testbit_shiftr a n i : 0 <= i -> Z.testbit (Z.shiftr a n) i = Z.testbit a (i + n).
Proof. apply Z.shiftr_spec. Qed.

(** A number is below [2 ^ w] when its bits from [w] on are clear. *)
Lemma bits_range w a : 0 <= w -> 0 <= a -> (forall i, w <= i -> Z.testbit a i = false) -> in_range w a.
Proof.
  intros Hw Ha Hb. split; [done|].
  assert (a = a mod 2 ^ w) as ->; [|apply Z.mod_pos_bound; by apply Z.pow_pos_nonneg].
  apply Z.bits_inj'. intros i Hi. destruct (Z.ltb_spec i w).
  - by rewrite Z.mod_pow2_bits_low.
  - rewrite Z.mod_pow2_bits_high by lia. by apply Hb.
Qed.

(** Unconditional forms of the [testbit] equations, with the side conditions as
    boolean guards, for the [zbits] tactic. *)
Lemma tb_shiftl a n i : Z.testbit (Z.shiftl a n) i = (0 <=? i) && Z.testbit a (i - n).
Proof.
  destruct (Z.leb_spec 0 i); [by apply Z.shiftl_spec | by apply Z.testbit_neg_r].
Qed.

Lemma tb_shiftr a n i : Z.testbit (Z.shiftr a n) i = (0 <=? i) && Z.testbit a (i + n).
Proof.
  destruct (Z.leb_spec 0 i); [by apply Z.shiftr_spec | by apply Z.testbit_neg_r].
Qed.

Lemma tb_ones w i : 0 <= w -> Z.testbit (Z.ones w) i = (0 <=? i) && (i <? w).
Proof.
  intros. destruct (Z.leb_spec 0 i); [by apply testbit_ones_leb | by apply Z.testbit_neg_r].
Qed.

Lemma tb_wrap w a i : 0 <= w -> Z.testbit (wrap w a) i = (i <? w) && Z.testbit a i.
Proof.
  intros. destruct (Z.leb_spec 0 i); [by apply testbit_wrap |].
  rewrite !Z.testbit_neg_r by lia. by rewrite andb_false_r.
Qed.

Lemma tb_unot w a i : 0 <= w ->
  Z.testbit (unot w a) i = xorb (Z.testbit a i) ((0 <=? i) && (i <? w)).
Proof. intros. unfold unot. by rewrite Z.lxor_spec, tb_ones. Qed.

Lemma in_range_wrap w x : 0 <= w -> wrap w x = x -> in_range w x.
Proof. intros ? <-. by apply wrap_range. Qed.

(** Masks of the on-disk formats, rewritten to shifted blocks of ones. *)
Create HintDb masks.

(** [zbits] proves an equation between bit-vector expressions: it compares the two
    sides bit by bit, splits on the position of the bit with respect to the field
    boundaries and drops the bits above the known ranges. *)
Ltac zbit_norm :=
  repeat match goal with
  | |- context [Z.testbit (Z.lor ?a ?b) ?i] => rewrite (Z.lor_spec a b i)
  | |- context [Z.testbit (Z.land ?a ?b) ?i] => rewrite (Z.land_spec a b i)
  | |- context [Z.testbit (Z.lxor ?a ?b) ?i] => rewrite (Z.lxor_spec a b i)
  | |- context [Z.testbit (wrap ?w ?a) ?i] => rewrite (tb_wrap w a i) by lia
  | |- context [Z.testbit (unot ?w ?a) ?i] => rewrite (tb_unot w a i) by lia
  | |- context [Z.testbit (Z.ones ?w) ?i] => rewrite (tb_ones w i) by lia
  | |- context [Z.testbit (Z.shiftl ?a ?n) ?i] => rewrite (tb_shiftl a n i)
  | |- context [Z.testbit (Z.shiftr ?a ?n) ?i] => rewrite (tb_shiftr a n i)
  | |- context [Z.testbit 0 ?i] => rewrite (Z.testbit_0_l i)
  end.

Ltac zbit_split :=
  repeat match goal with
  | |- context [?a <? ?b] => destruct (Z.ltb_spec a b); try (exfalso; lia)
  | |- context [?a <=? ?b] => destruct (Z.leb_spec a b); try (exfalso; lia)
  end;
  cbn [andb orb negb xorb];
  rewrite ?andb_false_r, ?andb_true_r, ?orb_false_r, ?orb_true_r, ?xorb_false_r, ?xorb_true_r;
  cbn [andb orb negb xorb].

Ltac zbit_atoms i :=
  repeat match goal with
  | |- context [Z.testbit ?x ?j] =>
      assert_fails (unify j i);
      first
        [ rewrite (Z.testbit_neg_r x j) by lia
        | match goal with
          | Hx : in_range ?n x |- _ => rewrite (testbit_above n x j Hx) by lia
          | Hx : 0 <= x < 2 ^ ?n |- _ => rewrite (testbit_above n x j Hx) by lia
          end
        | replace j with i by lia ]
  end;
  repeat match goal with
  | Hx : in_range ?n ?x |- context [Z.testbit ?x i] => rewrite (testbit_above n x i Hx) by lia
  | Hx : 0 <= ?x < 2 ^ ?n |- context [Z.testbit ?x i] => rewrite (testbit_above n x i Hx) by lia
  end.

Ltac zbits :=
  autorewrite with masks;
  apply Z.bits_inj'; let i := fresh "i" in let Hi := fresh "Hi" in intros i Hi;
  zbit_norm; zbit_split; zbit_atoms i;
  cbn [andb orb negb xorb];
  rewrite ?andb_false_r, ?andb_true_r, ?orb_false_r, ?orb_true_r, ?xorb_false_r, ?xorb_true_r,
    ?andb_diag, ?orb_diag;
  try reflexivity; try (f_equal; lia).

(** Range goals [in_range w e] on bit-vector expressions. *)
Ltac zbits_range := apply in_range_wrap; [lia | zbits].

(** Inversion of successful monadic code. *)
Ltac inv_ok :=
  repeat match goal with
  | H : mbind _ _ = Ok _ |- _ =>
      let a := fresh "a" in let Ha := fresh "Ha" in
      apply bind_Ok in H as (a & Ha & H)
  | H : rassert _ = Ok _ |- _ => apply rassert_Ok in H
  | H : ok_or _ _ = Ok _ |- _ => apply ok_or_Ok in H
  | H : Ok _ = Ok _ |- _ => injection H as H; try subst
  | H : Err _ = Ok _ |- _ => discriminate H
  | H : Panic = Ok _ |- _ => discriminate H
  | a : unit |- _ => destruct a
  end.

(** ** Counting *)

Fixpoint zcount {A} (P : A -> bool) (l : list A) : Z :=
  match l with [] => 0 | x :: l => Z.b2z (P x) + zcount P l end.

Lemma zcount_app {A} (P : A -> bool) l1 l2 : zcount P (l1 ++ l2) = zcount P l1 + zcount P l2.
Proof. induction l1 as [|x l1 IH]; cbn; lia. Qed.

Lemma zcount_range {A} (P : A -> bool) l : 0 <= zcount P l <= Z.of_nat (length l).
Proof. induction l as [|x l IH]; cbn [zcount length]; [lia|]. destruct (P x); cbn; lia. Qed.

Lemma zcount_ext {A} (P Q : A -> bool) l : (forall x, x ∈ l -> P x = Q x) -> zcount P l = zcount Q l.
Proof.
  induction l as [|x l IH]; intros Hx; [done|]. cbn. rewrite (Hx x) by left.
  rewrite IH; [done|]. intros y Hy. apply Hx. by right.
Qed.

Lemma zcount_0 {A} (P : A -> bool) l : zcount P l = 0 <-> forall x, x ∈ l -> P x = false.
Proof.
  induction l as [|x l IH]; cbn.
  - split; [|done]. intros _ x Hx. by apply not_elem_of_nil in Hx.
  - pose proof (zcount_range P l). split.
    + intros Hs y Hy. destruct (P x) eqn:E; cbn in Hs; [lia|]. apply elem_of_cons in Hy as [->|Hy]; [done|].
      apply IH; [lia|done].
    + intros Hy. rewrite (Hy x) by left. cbn. apply IH. intros y ?. apply Hy. by right.
Qed.

(** Changing the predicate at one element of a list without duplicates. *)
Lemma zcount_flip {A} (P Q : A -> bool) l x : NoDup l -> x ∈ l -> P x = true -> Q x = false ->
  (forall y, y ∈ l -> y <> x -> Q y = P y) -> zcount Q l = zcount P l - 1.
Proof.
  intros Hd Hx HP HQ Hy. induction Hd as [|z l Hz Hd IH]; [by apply not_elem_of_nil in Hx|].
  cbn. apply elem_of_cons in Hx as [->|Hx].
  - rewrite HP, HQ. rewrite (zcount_ext Q P l); [cbn; lia|]. intros y Hin. apply Hy; [by right|]. by intros ->.
  - rewrite (Hy z); [|left|by intros ->]. rewrite IH; [lia|done|]. intros y Hin. apply Hy. by right.
Qed.

Lemma in_range_lor w a b : 0 <= w -> in_range w a -> in_range w b -> in_range w (Z.lor a b).
Proof.
  intros Hw Ha Hb. apply bits_range; [done | apply Z.lor_nonneg; unfold in_range in *; lia |].
  intros i Hi. rewrite Z.lor_spec, (testbit_above w a), (testbit_above w b); done.
Qed.

Lemma zcount_insert {A} (P : A -> bool) l i x y : l !! i = Some x ->
  zcount P (<[i := y]> l) = zcount P l - Z.b2z (P x) + Z.b2z (P y).
Proof.
  revert i. induction l as [|z l IH]; intros [|i] Hx; try done.
  - injection Hx as ->. cbn. lia.
  - change (<[S i := y]> (z :: l)) with (z :: <[i := y]> l). cbn [zcount].
    rewrite (IH _ Hx). lia.
Qed.
