(* ===== verification/Utils.v ===== *)
(** Arithmetic and file helpers ([utils/src/lib.rs], [utils/src/filemap.rs] and the
    [readahead] of [storage/src/utils.rs]).

    [FileMapState] is the region a file is mapped to: a base address and a size; its accessors
    check an offset with wrapping pointer arithmetic. *)
From S2P Require Import Prelude.

(** ** Rounding *)

Section rounding.
Context `{Profile} {E : Type}.

Definition is_power_of_two (d : Z) : bool := (0 <? d) && (Z.land d (d - 1) =? 0).

(** [(n + d - 1) / d]; the division panics on 0. *)
Definition div_round_up (n d : Z) : outcome E Z :=
  _ ← debug_assert (negb (d =? 0));
  _ ← debug_assert (is_power_of_two d);
  s ← uadd 64 n d;
  s ← usub 64 s 1;
  if d =? 0 then Panic else Ok (s / d).

Definition round_up (n d : Z) : outcome E Z :=
  q ← div_round_up n d; umul 64 q d.

Definition try_round_up_4k (w : Z) (x : Z) : option Z :=
  match checked_add 64 x 4095 with
  | Some v => let z := Z.land v (unot 64 4095) in if z <? 2 ^ w then Some z else None
  | None => None
  end.

Definition round_down_4k (x : Z) : Z := Z.land x (unot 64 4095).
End rounding.

(** ** [FileMapState] *)

(** [base] is the address [mmap] returned, [end] is [base + size]. *)
Record FileMapState := mkFileMap { fm_base : Z; fm_size : Z }.

Section filemap.
Context {E : Type} (einval : E).

Definition fm_end (m : FileMapState) : Z := fm_base m + fm_size m.

(** The check shared by [get_ref], [get_mut], [get_slice] and [validate_range]. *)
Definition bad_range (m : FileMapState) (start e : Z) : bool :=
  (e <? start) || (start <? fm_base m) || (e <? fm_base m) || (fm_end m <? e).

Definition fm_get_ref (m : FileMapState) (offset size_of align_of : Z) : outcome E Z :=
  let start := wrap 64 (fm_base m + offset) in
  let e := wrap 64 (start + size_of) in
  if bad_range m start e || negb (Z.land start (align_of - 1) =? 0)
  then Err einval else Ok start.

Definition fm_get_slice (m : FileMapState) (offset count size_of : Z) : outcome E Z :=
  let start := wrap 64 (fm_base m + offset) in
  if negb (count * size_of <? 2 ^ 64) then Err einval
  else
    let size := count * size_of in
    match checked_add 64 size start with
    | None => Err einval
    | Some _ =>
        let e := wrap 64 (start + size) in
        if bad_range m start e then Err einval else Ok start
    end.

Definition fm_validate_range (m : FileMapState) (offset size : Z) : outcome E Z :=
  let start := wrap 64 (fm_base m + offset) in
  let e := wrap 64 (start + size) in
  if bad_range m start e then Err einval else Ok start.
End filemap.

(** ** [readahead] *)

(** The calls of [libc::readahead], as (offset, count); one 128K window per unit of fuel. *)
Fixpoint readahead_loop `{Profile} {E} (fuel : nat) (offset end_ : Z) : outcome E (list (Z * Z)) :=
  match fuel with
  | O => Panic
  | S fuel =>
      if offset <? end_ then
        let count := Z.min (Z.shiftl 128 10) (end_ - offset) in
        offset' ← uadd 64 offset count;
        rest ← readahead_loop fuel offset' end_;
        Ok ((offset, count) :: rest)
      else Ok []
  end.

Definition readahead `{Profile} {E} (offset end_ : Z) : outcome E (list (Z * Z)) :=
  let offset := round_down_4k offset in
  readahead_loop (S (Z.to_nat ((end_ - offset) / 0x20000 + 1))) offset end_.

(** ** [FileRangeReader] *)

(** [pread] of a regular file: at most [len] bytes from [offset], fewer at the end of file. *)
Definition pread (file : list Z) (offset len : Z) : list Z :=
  take (Z.to_nat len) (drop (Z.to_nat offset) file).

Record FileRangeReader := mkFRR { frr_offset : Z; frr_size : Z }.

(** [read]: the bytes stored in the buffer of [len] bytes and the reader left. *)
Definition frr_read (file : list Z) (len : Z) (r : FileRangeReader) : list Z * FileRangeReader :=
  let size := Z.min (frr_size r) len in
  let data := pread file (frr_offset r) size in
  let n := Z.of_nat (length data) in
  (data, mkFRR (frr_offset r + n) (frr_size r - n)).

(** ** Properties *)

Lemma div_round_up_spec `{Profile} {E} n k : 0 <= k < 63 -> 0 <= n -> n + 2 ^ k < 2 ^ 64 ->
  @div_round_up _ E n (2 ^ k) = Ok ((n + 2 ^ k - 1) / 2 ^ k).
Proof.
  intros Hk Hn Hb. assert (0 < 2 ^ k) by (apply Z.pow_pos_nonneg; lia).
  assert (is_power_of_two (2 ^ k) = true) as Hp.
  { unfold is_power_of_two. rewrite Z.sub_1_r, <- Z.ones_equiv, Z.land_ones, Z.mod_same by lia. lia. }
  unfold div_round_up, debug_assert. rewrite Hp. assert ((2 ^ k =? 0) = false) as -> by lia.
  destruct overflow_checks; cbn [negb rassert mbind outcome_bind mret outcome_ret];
    rewrite uadd_in by (unfold in_range; lia); cbn [mbind outcome_bind];
    rewrite usub_in by (unfold in_range; lia); done.
Qed.

Lemma wrap_add_once a b : in_range 64 a -> in_range 64 b ->
  wrap 64 (a + b) = if a + b <? 2 ^ 64 then a + b else a + b - 2 ^ 64.
Proof.
  unfold in_range, wrap. intros. destruct (Z.ltb_spec (a + b) (2 ^ 64)); [apply Z.mod_small; lia|].
  symmetry. apply (Z.mod_unique_pos _ _ 1); lia.
Qed.

(** A mapped region: [mmap] never returns an area that reaches the top of the address space. *)
Definition fm_wf (m : FileMapState) : Prop :=
  0 < fm_base m /\ 0 <= fm_size m /\ fm_base m + fm_size m < 2 ^ 64.

Lemma bad_range_iff m offset size : fm_wf m -> in_range 64 offset -> in_range 64 size ->
  bad_range m (wrap 64 (fm_base m + offset)) (wrap 64 (wrap 64 (fm_base m + offset) + size)) = false
  <-> offset + size <= fm_size m.
Proof.
  intros (Hb & Hs & He) Ho Hz. unfold bad_range, fm_end.
  rewrite (wrap_add_once (fm_base m)) by (unfold in_range in *; lia).
  unfold in_range in *. destruct (Z.ltb_spec (fm_base m + offset) (2 ^ 64));
    rewrite wrap_add_once by (unfold in_range; lia);
    match goal with |- context [if ?b then _ else _] => destruct b eqn:? end; lia.
Qed.

(** the wrapping checks of [FileMapState::validate_range] and [get_slice] accept exactly the
    ranges inside the mapped region, for every offset and size of the machine, and return their
    address. *)
Theorem filemap_checks_exact m offset count size_of :
  fm_wf m -> in_range 64 offset -> in_range 64 count -> 0 < size_of ->
  (fm_validate_range tt m offset count = Ok (fm_base m + offset) <-> offset + count <= fm_size m) /\
  (fm_get_slice tt m offset count size_of = Ok (fm_base m + offset) <->
     offset + count * size_of <= fm_size m).
Proof.
  intros Hw Ho Hc Hs. pose proof Hw as (Hb & Hz & He). unfold in_range in Ho, Hc.
  assert (forall l, 0 <= l -> offset + l <= fm_size m -> wrap 64 (fm_base m + offset) = fm_base m + offset) as Hst.
  { intros l Hl Hle. rewrite wrap_add_once by (unfold in_range; lia).
    destruct (Z.ltb_spec (fm_base m + offset) (2 ^ 64)); lia. }
  split.
  - unfold fm_validate_range. pose proof (bad_range_iff m offset count Hw Ho Hc) as Hi.
    destruct (bad_range _ _ _); split; intros Hx; [done | by apply Hi in Hx | by apply Hi |].
    by rewrite (Hst count) by lia.
  - unfold fm_get_slice. destruct (Z.ltb_spec (count * size_of) (2 ^ 64)); cbn [negb].
    2: split; [done|lia].
    pose proof (bad_range_iff m offset (count * size_of) Hw Ho) as Hi.
    specialize (Hi ltac:(unfold in_range; nia)). unfold checked_add.
    destruct (Z.ltb_spec (count * size_of + wrap 64 (fm_base m + offset)) (2 ^ 64)) as [Hlt|Hge].
    + destruct (bad_range _ _ _); split; intros Hx; [done | by apply Hi in Hx | by apply Hi |].
      by rewrite (Hst (count * size_of)) by nia.
    + split; [done|]. intros Hx. rewrite (Hst (count * size_of)) in Hge by nia. lia.
Qed.

Lemma filemap_checks_exact_witness :
  fm_validate_range tt (mkFileMap 0x7f0000000000 0x1000) 0xfff 1 = Ok 0x7f0000000fff /\
  fm_validate_range tt (mkFileMap 0x7f0000000000 0x1000) 0x1000 1 = Err tt.
Proof.
  split; [|by vm_compute].
  apply (filemap_checks_exact (mkFileMap 0x7f0000000000 0x1000) 0xfff 1 1); done.
Defined.

(** Windows that follow each other from [o] to [e]. *)
Fixpoint windows (o e : Z) (l : list (Z * Z)) : Prop :=
  match l with
  | [] => e <= o
  | (p, n) :: l => p = o /\ 0 < n <= 0x20000 /\ p + n <= e /\ windows (o + n) e l
  end.

Lemma readahead_loop_Ok `{Profile} {E} fuel offset end_ :
  0 <= offset -> end_ < 2 ^ 64 -> end_ - offset < 0x20000 * (Z.of_nat fuel - 1) + 1 -> (0 < fuel)%nat ->
  exists l, @readahead_loop _ E fuel offset end_ = Ok l /\ windows offset end_ l.
Proof.
  revert offset. induction fuel as [|fuel IH]; intros offset Ho He Hf Hp; [lia|]. cbn [readahead_loop].
  destruct (Z.ltb_spec offset end_); [|exists []; split; [done|cbn; lia]].
  change (Z.shiftl 128 10) with 0x20000.
  rewrite uadd_in by (unfold in_range; lia). cbn [mbind outcome_bind].
  destruct (IH (offset + Z.min 0x20000 (end_ - offset))) as (l & -> & Hl); [lia..|].
  eexists. split; [done|]. cbn [windows]. split_and!; done || lia.
Qed.

Lemma round_down_4k_spec x : in_range 64 x ->
  round_down_4k x = 4096 * (x / 4096) /\ round_down_4k x <= x < round_down_4k x + 4096.
Proof.
  intros Hx. assert (round_down_4k x = Z.shiftl (Z.shiftr x 12) 12) as ->.
  { unfold round_down_4k, unot. change 4095 with (Z.ones 12). apply Z.bits_inj'. intros k Hk.
    rewrite Z.land_spec, Z.lxor_spec, Z.shiftl_spec by done.
    destruct (Z.ltb_spec k 12).
    - rewrite !Z.ones_spec_low, andb_false_r, Z.testbit_neg_r by lia. done.
    - rewrite Z.shiftr_spec, (Z.ones_spec_high 12) by lia. replace (k - 12 + 12) with k by lia.
      destruct (Z.ltb_spec k 64); [by rewrite Z.ones_spec_low, andb_true_r by lia|].
      rewrite (testbit_above 64 x) by done. done. }
  rewrite Z.shiftl_mul_pow2, Z.shiftr_div_pow2 by lia. change (2 ^ 12) with 4096.
  pose proof (Z.div_mod x 4096). pose proof (Z.mod_pos_bound x 4096). lia.
Qed.

(** [readahead] terminates and asks the kernel for windows of at most 128K that follow each
    other without a hole from the 4K page of [offset] up to [end]. *)
Theorem readahead_covers `{Profile} offset end_ : in_range 64 offset -> in_range 64 end_ ->
  exists l, @readahead _ errno offset end_ = Ok l /\ windows (round_down_4k offset) end_ l.
Proof.
  intros Ho He. pose proof (round_down_4k_spec offset Ho) as [Hd Hr]. unfold in_range in *.
  assert (0 <= offset / 4096) by (apply Z.div_pos; lia). unfold readahead.
  apply readahead_loop_Ok; try lia.
  pose proof (Z.div_mod (end_ - round_down_4k offset) 0x20000).
  pose proof (Z.mod_pos_bound (end_ - round_down_4k offset) 0x20000). lia.
Qed.

Lemma readahead_covers_witness :
  @readahead dev_profile errno 0x1234 0x30000 = Ok [(0x1000, 0x20000); (0x21000, 0xf000)].
Proof.
  destruct (@readahead_covers dev_profile 0x1234 0x30000) as (l & E & _); [done..|].
  rewrite E. vm_compute in E. by injection E as <-.
Defined.
