(* ===== verification/LittleEndian.v ===== *)
(** Little-endian integers in byte lists, the on-disk form of the [repr(C)] structures. *)
From S2P Require Import Prelude.

(** The [n] low bytes of [x], least significant first. *)
Fixpoint le_bytes (n : nat) (x : Z) : list Z :=
  match n with O => [] | S n => x mod 256 :: le_bytes n (x / 256) end.

Fixpoint le_num (l : list Z) : Z :=
  match l with [] => 0 | b :: l => b + 256 * le_num l end.

(** [n] bytes of a buffer from [off] on. *)
Definition slice (off n : nat) (buf : list Z) : list Z := take n (drop off buf).

Definition get_le (off n : nat) (buf : list Z) : Z := le_num (slice off n buf).

Lemma length_le_bytes n x : length (le_bytes n x) = n.
Proof. revert x. induction n as [|n IH]; intros x; cbn; [done|]. by rewrite IH. Qed.

Lemma le_bytes_range n x : Forall (in_range 8) (le_bytes n x).
Proof.
  revert x. induction n as [|n IH]; intros x; cbn; constructor; [|apply IH].
  unfold in_range. change (2 ^ 8) with 256. apply Z.mod_pos_bound. lia.
Qed.

Lemma pow256_S n : 256 ^ Z.of_nat (S n) = 256 * 256 ^ Z.of_nat n.
Proof. rewrite Nat2Z.inj_succ, Z.pow_succ_r by lia. done. Qed.

Lemma le_num_bytes n x : 0 <= x < 256 ^ Z.of_nat n -> le_num (le_bytes n x) = x.
Proof.
  revert x. induction n as [|n IH]; intros x Hx; cbn [le_bytes le_num]; [cbn in Hx; lia|].
  rewrite pow256_S in Hx. rewrite IH.
  - pose proof (Z.div_mod x 256). lia.
  - split; [apply Z.div_pos; lia|]. apply Z.div_lt_upper_bound; lia.
Qed.

Lemma le_num_range l : Forall (in_range 8) l -> 0 <= le_num l < 256 ^ Z.of_nat (length l).
Proof.
  induction 1 as [|b l Hb _ IH]; cbn [le_num length]; [cbn; lia|]. rewrite pow256_S.
  unfold in_range in Hb. change (2 ^ 8) with 256 in Hb. nia.
Qed.

Lemma slice_app_here a b c : slice (length a) (length b) (a ++ b ++ c) = b.
Proof. unfold slice. by rewrite drop_app_length, take_app_length. Qed.

Lemma get_le_app a n x c : 0 <= x < 256 ^ Z.of_nat n ->
  get_le (length a) n (a ++ le_bytes n x ++ c) = x.
Proof.
  intros Hx. unfold get_le. pose proof (slice_app_here a (le_bytes n x) c) as E.
  rewrite length_le_bytes in E. rewrite E. by apply le_num_bytes.
Qed.

Lemma length_slice off n buf : (off + n <= length buf)%nat -> length (slice off n buf) = n.
Proof. intros. unfold slice. rewrite length_take, length_drop. lia. Qed.

Lemma slice_slice o1 n1 o2 n2 buf : (o2 + n2 <= n1)%nat -> slice o2 n2 (slice o1 n1 buf) = slice (o1 + o2) n2 buf.
Proof.
  intros Hle. unfold slice. rewrite skipn_firstn_comm, take_take, drop_drop. by rewrite Nat.min_l by lia.
Qed.

(** The bytes of a buffer replaced from [off] on. *)
Definition splice (off : nat) (b buf : list Z) : list Z := take off buf ++ b ++ drop (off + length b) buf.

Lemma length_splice off b buf : (off + length b <= length buf)%nat -> length (splice off b buf) = length buf.
Proof. intros. unfold splice. rewrite !length_app, length_take, length_drop. lia. Qed.

Lemma slice_splice_same off b buf : (off + length b <= length buf)%nat -> slice off (length b) (splice off b buf) = b.
Proof.
  intros. unfold slice, splice. rewrite drop_app_ge by (rewrite length_take; lia).
  rewrite length_take, Nat.min_l, Nat.sub_diag, drop_0 by lia. apply take_app_length.
Qed.

Lemma slice_splice_before o n off b buf : (o + n <= off)%nat -> (off <= length buf)%nat ->
  slice o n (splice off b buf) = slice o n buf.
Proof.
  intros Ho Hl. unfold slice, splice. rewrite drop_app_le by (rewrite length_take; lia).
  rewrite take_app_le by (rewrite length_drop, length_take; lia).
  apply list_eq. intros i.
  destruct (decide (i < n)%nat).
  - rewrite !lookup_take_lt by done. rewrite !lookup_drop. by rewrite lookup_take_lt by lia.
  - rewrite !lookup_take_ge by lia. done.
Qed.

(** Reading fields of a concatenation: skip the fields before, then take the one at the front. *)
Lemma get_le_skip off n l rest : (length l <= off)%nat -> get_le off n (l ++ rest) = get_le (off - length l) n rest.
Proof. intros. unfold get_le, slice. by rewrite drop_app_ge by lia. Qed.

Lemma get_le_skip_bytes off n k x rest : (k <= off)%nat ->
  get_le off n (le_bytes k x ++ rest) = get_le (off - k) n rest.
Proof. intros. rewrite get_le_skip; by rewrite length_le_bytes. Qed.

Lemma get_le_here n x rest : 0 <= x < 256 ^ Z.of_nat n -> get_le 0 n (le_bytes n x ++ rest) = x.
Proof. apply (get_le_app []). Qed.

Lemma slice_skip_bytes off n k x rest : (k <= off)%nat ->
  slice off n (le_bytes k x ++ rest) = slice (off - k) n rest.
Proof. intros. unfold slice. rewrite drop_app_ge; by rewrite length_le_bytes. Qed.

Lemma slice_here l rest : slice 0 (length l) (l ++ rest) = l.
Proof. apply (slice_app_here [] l rest). Qed.

(** Evaluates field reads of a structure written as a concatenation of [le_bytes]. *)
Ltac read_fields :=
  repeat first [ rewrite get_le_here by (unfold in_range in *; cbn; lia)
               | rewrite get_le_skip_bytes by lia; cbn [Nat.sub] ].

(** ** Files as bytes *)

(** Bytes written at an offset; a file that is too short is filled with zeros. *)
Definition pwrite (f : list Z) (off : Z) (data : list Z) : list Z :=
  match data with
  | [] => f
  | _ => splice (Z.to_nat off) data (f ++ replicate (Z.to_nat off + length data - length f) 0)
  end.

(** The byte at an offset; what was never written reads as zero. *)
Definition file_byte (f : list Z) (i : Z) : Z := default 0 (f !! Z.to_nat i).

Lemma byte_at_pwrite f off data i : 0 <= off -> 0 <= i ->
  file_byte (pwrite f off data) i = if (off <=? i) && (i <? off + zlen data) then file_byte data (i - off) else file_byte f i.
Proof.
  intros Ho Hi. destruct (decide (data = [])) as [->|Hne]; [change (zlen []) with 0; by replace ((off <=? i) && (i <? off + 0)) with false by lia|].
  assert (pwrite f off data = splice (Z.to_nat off) data (f ++ replicate (Z.to_nat off + length data - length f) 0)) as -> by (by destruct data).
  unfold file_byte, splice, zlen. set (z := replicate _ 0).
  assert (default 0 ((f ++ z) !! Z.to_nat i) = default 0 (f !! Z.to_nat i)) as Hz.
  { destruct (decide (Z.to_nat i < length f)%nat) as [Hl|Hl]; [by rewrite lookup_app_l|]. rewrite (lookup_ge_None_2 f) by lia. rewrite lookup_app_r by lia.
    destruct (z !! _) as [x|] eqn:E; [|done]. apply lookup_replicate in E as [-> _]. done. }
  assert (length (f ++ z) = Nat.max (length f) (Z.to_nat off + length data))%nat as Hlen by (unfold z; rewrite length_app, length_replicate; lia).
  destruct (Z.leb_spec off i); [destruct (Z.ltb_spec i (off + Z.of_nat (length data)))|]; cbn [andb].
  - rewrite lookup_app_r by (rewrite length_take; lia). rewrite length_take, Nat.min_l by lia. rewrite lookup_app_l by lia. by rewrite Z2Nat.inj_sub by lia.
  - rewrite lookup_app_r by (rewrite length_take; lia). rewrite length_take, Nat.min_l by lia. rewrite lookup_app_r by lia. rewrite lookup_drop, <- Hz. do 2 f_equal. lia.
  - rewrite lookup_app_l by (rewrite length_take; lia). by rewrite lookup_take_lt by lia.
Qed.

Lemma zlen_pwrite f off data : 0 <= off -> data <> [] -> zlen (pwrite f off data) = Z.max (zlen f) (off + zlen data).
Proof.
  intros Ho Hd. assert (pwrite f off data = splice (Z.to_nat off) data (f ++ replicate (Z.to_nat off + length data - length f) 0)) as -> by (by destruct data).
  unfold zlen. rewrite length_splice by (rewrite length_app, length_replicate; lia). rewrite length_app, length_replicate. lia.
Qed.

Definition file_holds (f : list Z) (off : Z) (data : list Z) : Prop := 0 <= off /\ forall i, 0 <= i < zlen data -> file_byte f (off + i) = file_byte data i.

Lemma file_holds_app f off a b : file_holds f off a -> file_holds f (off + zlen a) b -> file_holds f off (a ++ b).
Proof.
  intros [H0 Ha] [_ Hb]. split; [done|]. intros i Hi. rewrite zlen_app in Hi. unfold file_byte at 2. destruct (decide (i < zlen a)) as [Hlt|Hge].
  - rewrite Ha by lia. unfold file_byte. by rewrite lookup_app_l by (unfold zlen in *; lia).
  - replace (off + i) with (off + zlen a + (i - zlen a)) by lia. rewrite Hb by lia. unfold file_byte, zlen in *. rewrite lookup_app_r by lia. do 2 f_equal. lia.
Qed.
