(* ===== verification/ChunkInfo.v ===== *)
(** Chunk compression information entries of a blob ([storage/src/meta]).

    The on-disk entry formats V1 ([chunk_info_v1.rs]) and V2 ([chunk_info_v2.rs]) with
    their bit fields, the ZRan context entries ([zran.rs]) and the [BlobMetaState] the
    entries are validated against.  The trait [BlobMetaChunkInfo] is a type class, its
    bounds are the laws [BlobMetaChunkInfoLaws]; both formats are instances, and the
    query algorithms of [BlobMeta] are proved against the laws only.

    The host is little endian: [u64::from_le] and [u64::to_le] are the identity. *)
From S2P Require Import Prelude.

(** ** Constants *)

Definition RAFS_DEFAULT_CHUNK_SIZE : Z := 1024 * 1024.
Definition RAFS_MAX_CHUNK_SIZE : Z := 1024 * 1024 * 16.
Definition RAFS_MAX_CHUNKS_PER_BLOB : Z := 2 ^ 24.
Definition RAFS_MERGING_SIZE_TO_GAP_SHIFT : Z := 7.

Definition BLOB_METADATA_CHUNK_SIZE_MASK : Z := 0xffffff.
Definition BLOB_META_FEATURE_4K_ALIGNED : Z := 0x1.
Definition BLOB_META_FEATURE_SEPARATE : Z := 0x2.
Definition BLOB_META_FEATURE_CHUNK_INFO_V2 : Z := 0x4.
Definition BLOB_META_FEATURE_ZRAN : Z := 0x8.

Definition V1_CHUNK_COMP_OFFSET_MASK : Z := 0xffffffffff.
Definition V1_CHUNK_UNCOMP_OFFSET_MASK : Z := 0xffffffff000.
Definition V1_CHUNK_SIZE_LOW_MASK : Z := 0x0fffff.
Definition V1_CHUNK_SIZE_HIGH_MASK : Z := 0xf00000.
Definition V1_CHUNK_SIZE_LOW_SHIFT : Z := 44.
Definition V1_CHUNK_SIZE_HIGH_COMP_SHIFT : Z := 20.
Definition V1_CHUNK_SIZE_HIGH_UNCOMP_SHIFT : Z := 12.

Definition CHUNK_V2_COMP_OFFSET_MASK : Z := 0xffffffffff.
Definition CHUNK_V2_COMP_SIZE_SHIFT : Z := 40.
Definition CHUNK_V2_UNCOMP_OFFSET_MASK : Z := 0xffffffff.
Definition CHUNK_V2_UNCOMP_OFFSET_SHIFT : Z := 12.
Definition CHUNK_V2_UNCOMP_SIZE_SHIFT : Z := 32.
Definition CHUNK_V2_FLAG_MASK : Z := Z.shiftl 0xff 56.
Definition CHUNK_V2_FLAG_COMPRESSED : Z := Z.shiftl 0x1 56.
Definition CHUNK_V2_FLAG_ZRAN : Z := Z.shiftl 0x2 56.
Definition CHUNK_V2_FLAG_VALID : Z := Z.shiftl 0x3 56.

(** ** Data *)

Record BlobChunkInfoV1Ondisk := mkV1 { v1_uncomp_info : Z; v1_comp_info : Z }.

Record BlobChunkInfoV2Ondisk := mkV2 {
  v2_uncomp_info : Z;
  v2_comp_info : Z;
  v2_data : Z
}.

Record ZranInflateContext := mkZran {
  in_offset : Z;
  out_offset : Z;
  dict_offset : Z;
  in_len : Z;
  out_len : Z;
  dict_size : Z;
  ctx_byte : Z;
  ctx_bits : Z
}.

Inductive BlobMetaChunkArray :=
| ArrV1 (v : list BlobChunkInfoV1Ondisk)
| ArrV2 (v : list BlobChunkInfoV2Ondisk).

(** The arrays of the source are views of the memory-mapped blob meta file. *)
Record BlobMetaState := mkBlobMetaState {
  ms_blob_index : Z;
  ms_meta_flags : Z;
  ms_compressed_size : Z;
  ms_uncompressed_size : Z;
  ms_chunk_info_array : BlobMetaChunkArray;
  ms_zran_info_array : list ZranInflateContext;
  ms_zran_dict_table : list Z
}.

(** [(val + 0xfff) & !0xfff]; the addition is checked in [round_up_4k]. *)
Definition align_4k (val : Z) : Z := Z.land (val + 0xfff) (unot 64 0xfff).

Definition round_up_4k `{Profile} {E} (val : Z) : outcome E Z :=
  v ← uadd 64 val 0xfff; Ok (Z.land v (unot 64 0xfff)).

(** ** The trait *)

Class BlobMetaChunkInfo (T : Type) := {
  compressed_offset : T -> Z;
  compressed_size : T -> Z;
  uncompressed_offset : T -> Z;
  uncompressed_size : T -> Z;
  is_compressed : T -> bool;
  is_zran : T -> bool;
  get_zran_index : T -> io Z;
  get_zran_offset : T -> io Z;
  get_data : T -> Z;
  validate : T -> BlobMetaState -> io unit
}.

Section provided.
Context {T} `{BlobMetaChunkInfo T}.

(** Provided methods; the sums do not overflow by [compressed_end_range] and
    [uncompressed_end_range]. *)
Definition compressed_end (c : T) : Z := compressed_offset c + compressed_size c.
Definition uncompressed_end (c : T) : Z := uncompressed_offset c + uncompressed_size c.
Definition aligned_uncompressed_end (c : T) : Z := align_4k (uncompressed_end c).
End provided.

(** ** Format V1 *)

Section V1.
Definition v1_default : BlobChunkInfoV1Ondisk := mkV1 0 0.

Definition v1_compressed_offset (c : BlobChunkInfoV1Ondisk) : Z :=
  Z.land (v1_comp_info c) V1_CHUNK_COMP_OFFSET_MASK.

Definition v1_set_compressed_offset (offset : Z) (c : BlobChunkInfoV1Ondisk)
  : io BlobChunkInfoV1Ondisk :=
  _ ← rassert (Z.land offset (unot 64 V1_CHUNK_COMP_OFFSET_MASK) =? 0);
  let ci := Z.land (v1_comp_info c) (unot 64 V1_CHUNK_COMP_OFFSET_MASK) in
  Ok (mkV1 (v1_uncomp_info c) (Z.lor ci (Z.land offset V1_CHUNK_COMP_OFFSET_MASK))).

Definition v1_compressed_size (c : BlobChunkInfoV1Ondisk) : Z :=
  let bit20 := Z.shiftr (v1_comp_info c) V1_CHUNK_SIZE_LOW_SHIFT in
  let bit4 := Z.shiftr (Z.land (v1_comp_info c) 0xf0000000000) V1_CHUNK_SIZE_HIGH_COMP_SHIFT in
  wrap 32 (Z.lor bit4 bit20) + 1.

Definition v1_set_compressed_size (size : Z) (c : BlobChunkInfoV1Ondisk)
  : io BlobChunkInfoV1Ondisk :=
  _ ← rassert ((0 <? size) && (size <=? BLOB_METADATA_CHUNK_SIZE_MASK + 1));
  let size_low := Z.shiftl (Z.land (size - 1) V1_CHUNK_SIZE_LOW_MASK) V1_CHUNK_SIZE_LOW_SHIFT in
  let size_high :=
    Z.shiftl (Z.land (size - 1) V1_CHUNK_SIZE_HIGH_MASK) V1_CHUNK_SIZE_HIGH_COMP_SHIFT in
  let offset := Z.land (v1_comp_info c) V1_CHUNK_COMP_OFFSET_MASK in
  Ok (mkV1 (v1_uncomp_info c) (Z.lor (Z.lor size_low size_high) offset)).

Definition v1_uncompressed_offset (c : BlobChunkInfoV1Ondisk) : Z :=
  Z.land (v1_uncomp_info c) V1_CHUNK_UNCOMP_OFFSET_MASK.

Definition v1_set_uncompressed_offset (offset : Z) (c : BlobChunkInfoV1Ondisk)
  : io BlobChunkInfoV1Ondisk :=
  _ ← rassert (Z.land offset (unot 64 V1_CHUNK_UNCOMP_OFFSET_MASK) =? 0);
  let ui := Z.land (v1_uncomp_info c) (unot 64 V1_CHUNK_UNCOMP_OFFSET_MASK) in
  Ok (mkV1 (Z.lor ui (Z.land offset V1_CHUNK_UNCOMP_OFFSET_MASK)) (v1_comp_info c)).

Definition v1_uncompressed_size (c : BlobChunkInfoV1Ondisk) : Z :=
  let size_high := Z.shiftl (Z.land (v1_uncomp_info c) 0xf00) V1_CHUNK_SIZE_HIGH_UNCOMP_SHIFT in
  let size_low := Z.shiftr (v1_uncomp_info c) V1_CHUNK_SIZE_LOW_SHIFT in
  wrap 32 (Z.lor size_high size_low) + 1.

Definition v1_set_uncompressed_size (size : Z) (c : BlobChunkInfoV1Ondisk)
  : io BlobChunkInfoV1Ondisk :=
  _ ← rassert (negb (size =? 0) && (size <=? BLOB_METADATA_CHUNK_SIZE_MASK + 1));
  let size_low := Z.shiftl (Z.land (size - 1) V1_CHUNK_SIZE_LOW_MASK) V1_CHUNK_SIZE_LOW_SHIFT in
  let size_high :=
    Z.shiftr (Z.land (size - 1) V1_CHUNK_SIZE_HIGH_MASK) V1_CHUNK_SIZE_HIGH_UNCOMP_SHIFT in
  let offset := Z.land (v1_uncomp_info c) V1_CHUNK_UNCOMP_OFFSET_MASK in
  Ok (mkV1 (Z.lor (Z.lor size_low offset) size_high) (v1_comp_info c)).

Definition v1_is_compressed (c : BlobChunkInfoV1Ondisk) : bool :=
  negb (v1_compressed_size c =? v1_uncompressed_size c).

Definition v1_validate (c : BlobChunkInfoV1Ondisk) (st : BlobMetaState) : io unit :=
  if (ms_compressed_size st <? v1_compressed_offset c + v1_compressed_size c)
     || (ms_uncompressed_size st <? v1_uncompressed_offset c + v1_uncompressed_size c)
     || (v1_uncompressed_size c =? 0)
     || (negb (v1_is_compressed c) && negb (v1_uncompressed_size c =? v1_compressed_size c))
  then Err EINVAL else Ok tt.
End V1.

#[export] Instance V1_chunk_info : BlobMetaChunkInfo BlobChunkInfoV1Ondisk := {|
  compressed_offset := v1_compressed_offset;
  compressed_size := v1_compressed_size;
  uncompressed_offset := v1_uncompressed_offset;
  uncompressed_size := v1_uncompressed_size;
  is_compressed := v1_is_compressed;
  is_zran := fun _ => false;
  get_zran_index := fun _ => Panic;   (* unimplemented!() *)
  get_zran_offset := fun _ => Panic;  (* unimplemented!() *)
  get_data := fun _ => 0;
  validate := v1_validate
|}.

(** ** Format V2 *)

Section V2.
Definition v2_default : BlobChunkInfoV2Ondisk := mkV2 0 0 0.

Definition v2_set_compressed (compressed : bool) (c : BlobChunkInfoV2Ondisk)
  : BlobChunkInfoV2Ondisk :=
  mkV2 (if compressed then Z.lor (v2_uncomp_info c) CHUNK_V2_FLAG_COMPRESSED
        else Z.land (v2_uncomp_info c) (unot 64 CHUNK_V2_FLAG_COMPRESSED))
       (v2_comp_info c) (v2_data c).

Definition v2_set_zran (zran : bool) (c : BlobChunkInfoV2Ondisk) : BlobChunkInfoV2Ondisk :=
  mkV2 (if zran then Z.lor (v2_uncomp_info c) CHUNK_V2_FLAG_ZRAN
        else Z.land (v2_uncomp_info c) (unot 64 CHUNK_V2_FLAG_ZRAN))
       (v2_comp_info c) (v2_data c).

Definition v2_set_data (data : Z) (c : BlobChunkInfoV2Ondisk) : BlobChunkInfoV2Ondisk :=
  mkV2 (v2_uncomp_info c) (v2_comp_info c) data.

Definition v2_set_zran_index (index : Z) (c : BlobChunkInfoV2Ondisk) : BlobChunkInfoV2Ondisk :=
  let data := Z.land (v2_data c) (unot 64 0xffffffff00000000) in
  mkV2 (v2_uncomp_info c) (v2_comp_info c) (Z.lor data (Z.shiftl index 32)).

Definition v2_set_zran_offset (offset : Z) (c : BlobChunkInfoV2Ondisk) : BlobChunkInfoV2Ondisk :=
  let data := Z.land (v2_data c) (unot 64 0xffffffff) in
  mkV2 (v2_uncomp_info c) (v2_comp_info c) (Z.lor data offset).

Definition v2_flags (c : BlobChunkInfoV2Ondisk) : Z :=
  wrap 8 (Z.shiftr (Z.land (v2_uncomp_info c) CHUNK_V2_FLAG_MASK) 56).

Definition v2_check_flags (c : BlobChunkInfoV2Ondisk) : Z :=
  wrap 8 (Z.shiftr (Z.land (v2_uncomp_info c) (unot 64 CHUNK_V2_FLAG_VALID)) 56).

Definition v2_compressed_offset (c : BlobChunkInfoV2Ondisk) : Z :=
  Z.land (v2_comp_info c) CHUNK_V2_COMP_OFFSET_MASK.

Definition v2_set_compressed_offset (offset : Z) (c : BlobChunkInfoV2Ondisk)
  : io BlobChunkInfoV2Ondisk :=
  _ ← rassert (Z.land offset (unot 64 CHUNK_V2_COMP_OFFSET_MASK) =? 0);
  let ci := Z.land (v2_comp_info c) (unot 64 CHUNK_V2_COMP_OFFSET_MASK) in
  Ok (mkV2 (v2_uncomp_info c) (Z.lor ci (Z.land offset CHUNK_V2_COMP_OFFSET_MASK)) (v2_data c)).

Definition v2_compressed_size (c : BlobChunkInfoV2Ondisk) : Z :=
  wrap 32 (Z.land (Z.shiftr (v2_comp_info c) CHUNK_V2_COMP_SIZE_SHIFT)
                  BLOB_METADATA_CHUNK_SIZE_MASK).

Definition v2_set_compressed_size (size : Z) (c : BlobChunkInfoV2Ondisk)
  : io BlobChunkInfoV2Ondisk :=
  _ ← rassert (size <=? BLOB_METADATA_CHUNK_SIZE_MASK);
  let ci := Z.land (v2_comp_info c)
              (unot 64 (Z.shiftl BLOB_METADATA_CHUNK_SIZE_MASK CHUNK_V2_COMP_SIZE_SHIFT)) in
  Ok (mkV2 (v2_uncomp_info c) (Z.lor ci (Z.shiftl size CHUNK_V2_COMP_SIZE_SHIFT)) (v2_data c)).

Definition v2_uncompressed_offset (c : BlobChunkInfoV2Ondisk) : Z :=
  Z.shiftl (Z.land (v2_uncomp_info c) CHUNK_V2_UNCOMP_OFFSET_MASK) CHUNK_V2_UNCOMP_OFFSET_SHIFT.

Definition v2_set_uncompressed_offset (offset : Z) (c : BlobChunkInfoV2Ondisk)
  : io BlobChunkInfoV2Ondisk :=
  let off := Z.land (Z.shiftr offset CHUNK_V2_UNCOMP_OFFSET_SHIFT) CHUNK_V2_UNCOMP_OFFSET_MASK in
  _ ← rassert (offset =? Z.shiftl off CHUNK_V2_UNCOMP_OFFSET_SHIFT);
  let ui := Z.land (v2_uncomp_info c) (unot 64 CHUNK_V2_UNCOMP_OFFSET_MASK) in
  Ok (mkV2 (Z.lor ui off) (v2_comp_info c) (v2_data c)).

Definition v2_uncompressed_size (c : BlobChunkInfoV2Ondisk) : Z :=
  let size := Z.shiftr (v2_uncomp_info c) CHUNK_V2_UNCOMP_SIZE_SHIFT in
  wrap 32 (Z.land size BLOB_METADATA_CHUNK_SIZE_MASK) + 1.

Definition v2_set_uncompressed_size (size : Z) (c : BlobChunkInfoV2Ondisk)
  : io BlobChunkInfoV2Ondisk :=
  _ ← rassert (negb (size =? 0) && (size - 1 <=? BLOB_METADATA_CHUNK_SIZE_MASK));
  let ui := Z.land (v2_uncomp_info c)
              (unot 64 (Z.shiftl BLOB_METADATA_CHUNK_SIZE_MASK CHUNK_V2_UNCOMP_SIZE_SHIFT)) in
  Ok (mkV2 (Z.lor ui (Z.shiftl (size - 1) CHUNK_V2_UNCOMP_SIZE_SHIFT))
           (v2_comp_info c) (v2_data c)).

Definition v2_is_compressed (c : BlobChunkInfoV2Ondisk) : bool :=
  negb (Z.land (v2_uncomp_info c) CHUNK_V2_FLAG_COMPRESSED =? 0).

Definition v2_is_zran (c : BlobChunkInfoV2Ondisk) : bool :=
  negb (Z.land (v2_uncomp_info c) CHUNK_V2_FLAG_ZRAN =? 0).

Definition v2_get_zran_index (c : BlobChunkInfoV2Ondisk) : io Z :=
  _ ← rassert (v2_is_zran c); Ok (wrap 32 (Z.shiftr (v2_data c) 32)).

Definition v2_get_zran_offset (c : BlobChunkInfoV2Ondisk) : io Z :=
  _ ← rassert (v2_is_zran c); Ok (wrap 32 (v2_data c)).

Definition v2_validate `{Profile} (c : BlobChunkInfoV2Ondisk) (st : BlobMetaState) : io unit :=
  if (ms_compressed_size st <? v2_compressed_offset c + v2_compressed_size c)
     || (ms_uncompressed_size st <? v2_uncompressed_offset c + v2_uncompressed_size c)
     || (v2_uncompressed_size c =? 0)
     || (negb (v2_is_zran c) && (v2_compressed_size c =? 0))
     || (negb (v2_is_compressed c) && negb (v2_uncompressed_size c =? v2_compressed_size c))
  then Err EINVAL
  else if negb (v2_check_flags c =? 0) then Err EINVAL
  else if (Z.land (ms_meta_flags st) BLOB_META_FEATURE_ZRAN =? 0) && v2_is_zran c
  then Err EINVAL
  else if v2_is_zran c then
    index ← v2_get_zran_index c;
    if Z.of_nat (length (ms_zran_info_array st)) <=? index then Err EINVAL
    else
      ctx ← vec_index (ms_zran_info_array st) index;
      off ← v2_get_zran_offset c;
      if out_len ctx <=? off then Err EINVAL
      else
        e ← uadd 32 off (v2_uncompressed_size c);
        if out_len ctx <? e then Err EINVAL else Ok tt
  else Ok tt.
End V2.

#[export] Instance V2_chunk_info `{Profile} : BlobMetaChunkInfo BlobChunkInfoV2Ondisk := {|
  compressed_offset := v2_compressed_offset;
  compressed_size := v2_compressed_size;
  uncompressed_offset := v2_uncompressed_offset;
  uncompressed_size := v2_uncompressed_size;
  is_compressed := v2_is_compressed;
  is_zran := v2_is_zran;
  get_zran_index := v2_get_zran_index;
  get_zran_offset := v2_get_zran_offset;
  get_data := v2_data;
  validate := v2_validate
|}.

(** ** Building the chunk array *)

(** The [BlobMetaChunkArray] methods of the image builder. *)
Definition arr_len (a : BlobMetaChunkArray) : Z :=
  match a with ArrV1 v => Z.of_nat (length v) | ArrV2 v => Z.of_nat (length v) end.

Definition add_v1 (a : BlobMetaChunkArray) (c_off c_size u_off u_size : Z) : io BlobMetaChunkArray :=
  match a with
  | ArrV1 v =>
      m ← v1_set_compressed_offset c_off v1_default;
      m ← v1_set_compressed_size c_size m;
      m ← v1_set_uncompressed_offset u_off m;
      m ← v1_set_uncompressed_size u_size m;
      Ok (ArrV1 (v ++ [m]))
  | ArrV2 _ => Panic
  end.

Definition add_v2 (a : BlobMetaChunkArray) (c_off c_size u_off u_size : Z)
    (compressed : bool) (data : Z) : io BlobMetaChunkArray :=
  match a with
  | ArrV2 v =>
      m ← v2_set_compressed_offset c_off v2_default;
      m ← v2_set_compressed_size c_size m;
      m ← v2_set_uncompressed_offset u_off m;
      m ← v2_set_uncompressed_size u_size m;
      let m := v2_set_data data (v2_set_compressed compressed m) in
      Ok (ArrV2 (v ++ [m]))
  | ArrV1 _ => Panic
  end.

Definition add_v2_info (a : BlobMetaChunkArray) (c : BlobChunkInfoV2Ondisk)
  : io BlobMetaChunkArray :=
  match a with ArrV2 v => Ok (ArrV2 (v ++ [c])) | ArrV1 _ => Panic end.

(** [ZranContextGenerator::finish_chunk]; [info] is the transaction result of the
    generator, [uncomp_pos] the generator's running offset. *)
Record ZranChunkInfo := mkZranChunkInfo {
  zi_in_pos : Z; zi_in_len : Z; zi_ci_len : Z; zi_ci_index : Z; zi_ci_offset : Z
}.

Definition finish_chunk `{Profile} (info : ZranChunkInfo) (uncomp_pos : Z)
  : io (BlobChunkInfoV2Ondisk * Z) :=
  c ← v2_set_compressed_offset (zi_in_pos info) v2_default;
  c ← v2_set_compressed_size (zi_in_len info) c;
  c ← v2_set_uncompressed_offset uncomp_pos c;
  c ← v2_set_uncompressed_size (zi_ci_len info) c;
  let c := v2_set_zran_index (zi_ci_index info) c in
  let c := v2_set_zran_offset (zi_ci_offset info) c in
  let c := v2_set_compressed true (v2_set_zran true c) in
  r ← round_up_4k (zi_ci_len info);
  pos ← uadd 64 uncomp_pos r;
  Ok (c, pos).

(** ** Bit fields *)

Lemma mask_40 : 0xffffffffff = Z.ones 40. Proof. reflexivity. Qed.
Lemma mask_32_12 : 0xffffffff000 = Z.shiftl (Z.ones 32) 12. Proof. reflexivity. Qed.
Lemma mask_32 : 0xffffffff = Z.ones 32. Proof. reflexivity. Qed.
Lemma mask_32_32 : 0xffffffff00000000 = Z.shiftl (Z.ones 32) 32. Proof. reflexivity. Qed.
Lemma mask_24 : 0xffffff = Z.ones 24. Proof. reflexivity. Qed.
Lemma mask_20 : 0x0fffff = Z.ones 20. Proof. reflexivity. Qed.
Lemma mask_4_20 : 0xf00000 = Z.shiftl (Z.ones 4) 20. Proof. reflexivity. Qed.
Lemma mask_4_40 : 0xf0000000000 = Z.shiftl (Z.ones 4) 40. Proof. reflexivity. Qed.
Lemma mask_4_8 : 0xf00 = Z.shiftl (Z.ones 4) 8. Proof. reflexivity. Qed.
Lemma mask_12 : 0xfff = Z.ones 12. Proof. reflexivity. Qed.
Lemma flag_valid : Z.shiftl 0x3 56 = Z.shiftl (Z.ones 2) 56. Proof. reflexivity. Qed.
Lemma flag_compressed : Z.shiftl 0x1 56 = Z.shiftl (Z.ones 1) 56. Proof. reflexivity. Qed.
Lemma flag_zran : Z.shiftl 0x2 56 = Z.shiftl (Z.ones 1) 57. Proof. reflexivity. Qed.
#[export] Hint Rewrite mask_40 mask_32_12 mask_32 mask_32_32 mask_24 mask_20 mask_4_20 mask_4_40
  mask_4_8 mask_12 flag_valid flag_compressed flag_zran : masks.

Ltac unfold_masks :=
  unfold V1_CHUNK_COMP_OFFSET_MASK, V1_CHUNK_UNCOMP_OFFSET_MASK, V1_CHUNK_SIZE_LOW_MASK,
    V1_CHUNK_SIZE_HIGH_MASK, V1_CHUNK_SIZE_LOW_SHIFT, V1_CHUNK_SIZE_HIGH_COMP_SHIFT,
    V1_CHUNK_SIZE_HIGH_UNCOMP_SHIFT, CHUNK_V2_COMP_OFFSET_MASK, CHUNK_V2_COMP_SIZE_SHIFT,
    CHUNK_V2_UNCOMP_OFFSET_MASK, CHUNK_V2_UNCOMP_OFFSET_SHIFT, CHUNK_V2_UNCOMP_SIZE_SHIFT,
    CHUNK_V2_FLAG_COMPRESSED, CHUNK_V2_FLAG_ZRAN, CHUNK_V2_FLAG_VALID,
    BLOB_METADATA_CHUNK_SIZE_MASK in *.

(** The tested bit fields are zero exactly when the bits are clear. *)
Lemma land_not_mask_0 w m x : 0 <= m <= w -> in_range w x ->
  (Z.land x (unot w (Z.ones m)) =? 0) = true <-> in_range m x.
Proof.
  intros Hm Hx. rewrite Z.eqb_eq. split; intros H.
  - apply bits_range; [lia | apply Hx |]. intros i Hi.
    destruct (Z.ltb_spec i w) as [Hw|Hw].
    + apply (f_equal (fun z => Z.testbit z i)) in H.
      rewrite Z.land_spec, Z.testbit_0_l, tb_unot, tb_ones in H by lia.
      destruct (Z.leb_spec 0 i), (Z.ltb_spec i m), (Z.ltb_spec i w); try lia.
      by rewrite andb_true_r in H.
    + by apply (testbit_above w).
  - apply Z.bits_inj'. intros i Hi. zbit_norm. zbit_split; try done.
    by rewrite (testbit_above m) by (done || lia).
Qed.

Lemma land_bit_test x b : 0 <= b -> negb (Z.land x (Z.shiftl 1 b) =? 0) = Z.testbit x b.
Proof.
  intros Hb. rewrite Z.shiftl_1_l.
  assert (Z.land x (2 ^ b) = if Z.testbit x b then 2 ^ b else 0) as ->.
  { apply Z.bits_inj'. intros i Hi. rewrite Z.land_spec, Z.pow2_bits_eqb by lia.
    destruct (Z.eqb_spec b i) as [->|Hne].
    - destruct (Z.testbit x i) eqn:E; [|by rewrite Z.testbit_0_l].
      by rewrite Z.pow2_bits_eqb, Z.eqb_refl by lia.
    - rewrite andb_false_r. destruct (Z.testbit x b); [|by rewrite Z.testbit_0_l].
      rewrite Z.pow2_bits_eqb by lia. symmetry. by apply Z.eqb_neq. }
  pose proof (Z.pow_pos_nonneg 2 b). destruct (Z.testbit x b); lia.
Qed.

Lemma v2_is_compressed_bit c : v2_is_compressed c = Z.testbit (v2_uncomp_info c) 56.
Proof. apply (land_bit_test _ 56). lia. Qed.

Lemma v2_is_zran_bit c : v2_is_zran c = Z.testbit (v2_uncomp_info c) 57.
Proof. apply (land_bit_test _ 57). lia. Qed.

(** Rounding up to a multiple of 4096. *)
Lemma align_4k_spec x : 0 <= x -> x + 0xfff < 2 ^ 64 ->
  align_4k x = 4096 * ((x + 4095) / 4096) /\ x <= align_4k x < x + 4096.
Proof.
  intros Hx Hb. assert (align_4k x = 4096 * ((x + 4095) / 4096)) as Heq.
  { unfold align_4k. rewrite (Z.mul_comm 4096), <- (Z.shiftr_div_pow2 _ 12), <- (Z.shiftl_mul_pow2 _ 12)
      by lia. assert (in_range 64 (x + 0xfff)) as Hr by (unfold in_range; lia).
    revert Hr. generalize (x + 4095) as y. intros y Hr. zbits. }
  split; [done|]. rewrite Heq. pose proof (Z.div_mod (x + 4095) 4096).
  pose proof (Z.mod_pos_bound (x + 4095) 4096). lia.
Qed.

Lemma round_up_4k_in `{Profile} {E} x : 0 <= x -> x + 0xfff < 2 ^ 64 ->
  @round_up_4k _ E x = Ok (align_4k x).
Proof. intros. unfold round_up_4k. rewrite uadd_in by (unfold in_range; lia). done. Qed.

(** ** Setters and getters *)

Definition v1_wf (c : BlobChunkInfoV1Ondisk) : Prop :=
  in_range 64 (v1_uncomp_info c) /\ in_range 64 (v1_comp_info c).

Definition v2_wf (c : BlobChunkInfoV2Ondisk) : Prop :=
  in_range 64 (v2_uncomp_info c) /\ in_range 64 (v2_comp_info c) /\ in_range 64 (v2_data c).

(** The four fields of an entry as one value. *)
Definition chunk_view {T} `{BlobMetaChunkInfo T} (c : T) : Z * Z * Z * Z :=
  (compressed_offset c, compressed_size c, uncompressed_offset c, uncompressed_size c).

Section V1_facts.
Implicit Types c : BlobChunkInfoV1Ondisk.

Lemma v1_set_compressed_offset_spec off c : v1_wf c -> in_range 40 off ->
  exists c', v1_set_compressed_offset off c = Ok c' /\ v1_wf c' /\
    v1_compressed_offset c' = off /\ v1_compressed_size c' = v1_compressed_size c /\
    v1_uncomp_info c' = v1_uncomp_info c.
Proof.
  intros [Hu Hc] Hoff. unfold v1_set_compressed_offset. unfold_masks.
  rewrite mask_40. rewrite (proj2 (land_not_mask_0 64 40 off ltac:(lia) ltac:(unfold in_range in *; lia))) by done.
  cbn. eexists. split; [done|].
  unfold v1_wf, v1_compressed_offset, v1_compressed_size; unfold_masks; cbn.
  split_and!; [done | zbits_range | zbits | f_equal; zbits | done].
Qed.

Lemma v1_set_compressed_size_spec size c : v1_wf c -> 1 <= size <= 2 ^ 24 ->
  exists c', v1_set_compressed_size size c = Ok c' /\ v1_wf c' /\
    v1_compressed_size c' = size /\ v1_compressed_offset c' = v1_compressed_offset c /\
    v1_uncomp_info c' = v1_uncomp_info c.
Proof.
  intros [Hu Hc] Hs. unfold v1_set_compressed_size. unfold_masks.
  assert ((0 <? size) && (size <=? 0xffffff + 1) = true) as -> by lia. cbn.
  assert (in_range 24 (size - 1)) as Hr by (unfold in_range; lia).
  assert (size = (size - 1) + 1) as E by lia.
  eexists. split; [done|].
  unfold v1_wf, v1_compressed_offset, v1_compressed_size; unfold_masks; cbn.
  rewrite E at 7. revert Hr. generalize (size - 1) as x. intros x Hr.
  split_and!; [done | zbits_range | f_equal; zbits | zbits | done].
Qed.
Lemma v1_set_uncompressed_offset_spec x c : v1_wf c -> in_range 32 x ->
  exists c', v1_set_uncompressed_offset (Z.shiftl x 12) c = Ok c' /\ v1_wf c' /\
    v1_uncompressed_offset c' = Z.shiftl x 12 /\
    v1_uncompressed_size c' = v1_uncompressed_size c /\ v1_comp_info c' = v1_comp_info c.
Proof.
  intros [Hu Hc] Hx. unfold v1_set_uncompressed_offset. unfold_masks.
  assert ((Z.land (Z.shiftl x 12) (unot 64 0xffffffff000) =? 0) = true) as ->
    by (apply Z.eqb_eq; zbits).
  cbn. eexists. split; [done|].
  unfold v1_wf, v1_uncompressed_offset, v1_uncompressed_size; unfold_masks; cbn.
  split_and!; [zbits_range | done | zbits | f_equal; zbits | done].
Qed.

Lemma v1_set_uncompressed_size_spec size c : v1_wf c -> 1 <= size <= 2 ^ 24 ->
  exists c', v1_set_uncompressed_size size c = Ok c' /\ v1_wf c' /\
    v1_uncompressed_size c' = size /\ v1_uncompressed_offset c' = v1_uncompressed_offset c /\
    v1_comp_info c' = v1_comp_info c.
Proof.
  intros [Hu Hc] Hs. unfold v1_set_uncompressed_size. unfold_masks.
  assert (negb (size =? 0) && (size <=? 0xffffff + 1) = true) as -> by lia. cbn.
  assert (in_range 24 (size - 1)) as Hr by (unfold in_range; lia).
  assert (size = (size - 1) + 1) as E by lia.
  eexists. split; [done|].
  unfold v1_wf, v1_uncompressed_offset, v1_uncompressed_size; unfold_masks; cbn.
  rewrite E at 7. revert Hr. generalize (size - 1) as x. intros x Hr.
  split_and!; [zbits_range | done | f_equal; zbits | zbits | done].
Qed.

Lemma v1_ranges c : v1_wf c ->
  in_range 40 (v1_compressed_offset c) /\ 1 <= v1_compressed_size c <= 2 ^ 24 /\
  in_range 44 (v1_uncompressed_offset c) /\ 1 <= v1_uncompressed_size c <= 2 ^ 24 /\
  v1_uncompressed_offset c mod 4096 = 0.
Proof.
  intros [Hu Hc].
  assert (forall y, in_range 24 y -> 1 <= y + 1 <= 2 ^ 24) as H24 by (unfold in_range; lia).
  unfold v1_compressed_offset, v1_compressed_size, v1_uncompressed_offset, v1_uncompressed_size;
    unfold_masks.
  split_and!; try (apply H24); try zbits_range.
  change 4096 with (2 ^ 12). rewrite <- (Z.land_ones _ 12) by lia. zbits.
Qed.
End V1_facts.

Section V2_facts.
Implicit Types c : BlobChunkInfoV2Ondisk.

Lemma v2_set_compressed_offset_spec off c : v2_wf c -> in_range 40 off ->
  exists c', v2_set_compressed_offset off c = Ok c' /\ v2_wf c' /\
    v2_compressed_offset c' = off /\ v2_compressed_size c' = v2_compressed_size c /\
    v2_uncomp_info c' = v2_uncomp_info c /\ v2_data c' = v2_data c.
Proof.
  intros (Hu & Hc & Hd) Hoff. unfold v2_set_compressed_offset. unfold_masks.
  rewrite mask_40, (proj2 (land_not_mask_0 64 40 off ltac:(lia) ltac:(unfold in_range in *; lia)))
    by done.
  cbn. eexists. split; [done|].
  unfold v2_wf, v2_compressed_offset, v2_compressed_size; unfold_masks; cbn.
  split_and!; try done; [zbits_range | zbits | zbits].
Qed.

Lemma v2_set_compressed_size_spec size c : v2_wf c -> in_range 24 size ->
  exists c', v2_set_compressed_size size c = Ok c' /\ v2_wf c' /\
    v2_compressed_size c' = size /\ v2_compressed_offset c' = v2_compressed_offset c /\
    v2_uncomp_info c' = v2_uncomp_info c /\ v2_data c' = v2_data c.
Proof.
  intros (Hu & Hc & Hd) Hs. unfold v2_set_compressed_size. unfold_masks.
  assert ((size <=? 0xffffff) = true) as -> by (unfold in_range in Hs; lia).
  cbn. eexists. split; [done|].
  unfold v2_wf, v2_compressed_offset, v2_compressed_size; unfold_masks; cbn.
  split_and!; try done; [zbits_range | zbits | zbits].
Qed.

Lemma v2_set_uncompressed_offset_spec x c : v2_wf c -> in_range 32 x ->
  exists c', v2_set_uncompressed_offset (Z.shiftl x 12) c = Ok c' /\ v2_wf c' /\
    v2_uncompressed_offset c' = Z.shiftl x 12 /\
    Z.shiftr (v2_uncomp_info c') 32 = Z.shiftr (v2_uncomp_info c) 32 /\
    v2_comp_info c' = v2_comp_info c /\ v2_data c' = v2_data c.
Proof.
  intros (Hu & Hc & Hd) Hx. unfold v2_set_uncompressed_offset. unfold_masks.
  assert (Z.land (Z.shiftr (Z.shiftl x 12) 12) 0xffffffff = x) as -> by zbits.
  rewrite Z.eqb_refl. cbn. eexists. split; [done|].
  unfold v2_wf, v2_uncompressed_offset; unfold_masks; cbn.
  split_and!; try done; [zbits_range | zbits | zbits].
Qed.

Lemma v2_set_uncompressed_size_spec size c : v2_wf c -> 1 <= size <= 2 ^ 24 ->
  exists c', v2_set_uncompressed_size size c = Ok c' /\ v2_wf c' /\
    v2_uncompressed_size c' = size /\ v2_uncompressed_offset c' = v2_uncompressed_offset c /\
    Z.shiftr (v2_uncomp_info c') 56 = Z.shiftr (v2_uncomp_info c) 56 /\
    v2_comp_info c' = v2_comp_info c /\ v2_data c' = v2_data c.
Proof.
  intros (Hu & Hc & Hd) Hs. unfold v2_set_uncompressed_size. unfold_masks.
  assert (negb (size =? 0) && (size - 1 <=? 0xffffff) = true) as -> by lia. cbn.
  assert (in_range 24 (size - 1)) as Hr by (unfold in_range; lia).
  assert (size = (size - 1) + 1) as E by lia.
  eexists. split; [done|].
  unfold v2_wf, v2_uncompressed_offset, v2_uncompressed_size; unfold_masks; cbn.
  rewrite E at 3. revert Hr. generalize (size - 1) as x. intros x Hr.
  split_and!; try done; [zbits_range | f_equal; zbits | zbits | zbits].
Qed.

Lemma v2_set_compressed_spec b c : v2_wf c ->
  let c' := v2_set_compressed b c in
  v2_wf c' /\ v2_is_compressed c' = b /\ v2_is_zran c' = v2_is_zran c /\
  v2_uncompressed_offset c' = v2_uncompressed_offset c /\
  v2_uncompressed_size c' = v2_uncompressed_size c /\ v2_check_flags c' = v2_check_flags c.
Proof.
  intros (Hu & Hc & Hd). cbn zeta. rewrite v2_is_compressed_bit, !v2_is_zran_bit.
  unfold v2_wf, v2_uncompressed_offset, v2_uncompressed_size, v2_check_flags, v2_set_compressed;
    unfold_masks; cbn [v2_uncomp_info v2_comp_info v2_data].
  destruct b; rewrite flag_compressed; (split_and!; try done;
    [zbits_range | zbit_norm; cbn; try apply orb_true_r; try apply andb_false_r
    | zbit_norm; cbn; by rewrite ?orb_false_r, ?andb_true_r | zbits | f_equal; zbits | zbits]).
Qed.

Lemma v2_set_zran_spec b c : v2_wf c ->
  let c' := v2_set_zran b c in
  v2_wf c' /\ v2_is_zran c' = b /\ v2_is_compressed c' = v2_is_compressed c /\
  v2_uncompressed_offset c' = v2_uncompressed_offset c /\
  v2_uncompressed_size c' = v2_uncompressed_size c /\ v2_check_flags c' = v2_check_flags c.
Proof.
  intros (Hu & Hc & Hd). cbn zeta. rewrite v2_is_zran_bit, !v2_is_compressed_bit.
  unfold v2_wf, v2_uncompressed_offset, v2_uncompressed_size, v2_check_flags, v2_set_zran;
    unfold_masks; cbn [v2_uncomp_info v2_comp_info v2_data].
  destruct b; rewrite flag_zran; (split_and!; try done;
    [zbits_range | zbit_norm; cbn; try apply orb_true_r; try apply andb_false_r
    | zbit_norm; cbn; by rewrite ?orb_false_r, ?andb_true_r | zbits | f_equal; zbits | zbits]).
Qed.

Lemma v2_set_zran_index_spec idx c : v2_wf c -> in_range 32 idx ->
  let c' := v2_set_zran_index idx c in
  v2_wf c' /\ wrap 32 (Z.shiftr (v2_data c') 32) = idx /\ wrap 32 (v2_data c') = wrap 32 (v2_data c).
Proof.
  intros (Hu & Hc & Hd) Hi. unfold v2_set_zran_index, v2_wf. cbn [v2_uncomp_info v2_comp_info v2_data].
  split_and!; try done; [zbits_range | zbits | zbits].
Qed.

Lemma v2_set_zran_offset_spec off c : v2_wf c -> in_range 32 off ->
  let c' := v2_set_zran_offset off c in
  v2_wf c' /\ wrap 32 (v2_data c') = off /\
  wrap 32 (Z.shiftr (v2_data c') 32) = wrap 32 (Z.shiftr (v2_data c) 32).
Proof.
  intros (Hu & Hc & Hd) Hi. unfold v2_set_zran_offset, v2_wf. cbn [v2_uncomp_info v2_comp_info v2_data].
  split_and!; try done; [zbits_range | zbits | zbits].
Qed.

(** The flag byte depends on the top byte only. *)
Lemma v2_check_flags_top c1 c2 :
  Z.shiftr (v2_uncomp_info c1) 56 = Z.shiftr (v2_uncomp_info c2) 56 ->
  v2_check_flags c1 = v2_check_flags c2 /\ v2_is_compressed c1 = v2_is_compressed c2 /\
  v2_is_zran c1 = v2_is_zran c2.
Proof.
  intros H. assert (forall i, 56 <= i -> Z.testbit (v2_uncomp_info c1) i = Z.testbit (v2_uncomp_info c2) i)
    as Hb.
  { intros i Hi. apply (f_equal (fun z => Z.testbit z (i - 56))) in H.
    rewrite !Z.shiftr_spec in H by lia. by replace (i - 56 + 56) with i in H by lia. }
  rewrite !v2_is_compressed_bit, !v2_is_zran_bit. split_and!; try (apply Hb; lia).
  unfold v2_check_flags. unfold_masks. f_equal. apply Z.bits_inj'. intros i Hi.
  zbit_norm. by rewrite Hb by lia.
Qed.

Lemma v2_ranges c : v2_wf c ->
  in_range 40 (v2_compressed_offset c) /\ in_range 24 (v2_compressed_size c) /\
  in_range 44 (v2_uncompressed_offset c) /\ 1 <= v2_uncompressed_size c <= 2 ^ 24 /\
  v2_uncompressed_offset c mod 4096 = 0.
Proof.
  intros (Hu & Hc & Hd).
  assert (forall y, in_range 24 y -> 1 <= y + 1 <= 2 ^ 24) as H24 by (unfold in_range; lia).
  unfold v2_compressed_offset, v2_compressed_size, v2_uncompressed_offset, v2_uncompressed_size;
    unfold_masks.
  split_and!; try (apply H24); try zbits_range.
  change 4096 with (2 ^ 12). rewrite <- (Z.land_ones _ 12) by lia. zbits.
Qed.
End V2_facts.

(** ** Laws of the trait *)

(** What the query algorithms rely on: bounds that make the [u64] sums of the provided
    methods exact, 4K alignment of uncompressed offsets, and what [validate] checks. *)
Class BlobMetaChunkInfoLaws (T : Type) `{!BlobMetaChunkInfo T} := {
  wf_chunk : T -> Prop;
  compressed_offset_range c : wf_chunk c -> in_range 40 (compressed_offset c);
  compressed_size_range c : wf_chunk c -> 0 <= compressed_size c <= 2 ^ 24;
  uncompressed_offset_range c : wf_chunk c -> in_range 44 (uncompressed_offset c);
  uncompressed_size_range c : wf_chunk c -> 1 <= uncompressed_size c <= 2 ^ 24;
  uncompressed_offset_aligned c : wf_chunk c -> uncompressed_offset c mod 4096 = 0;
  validate_bounds c st : validate c st = Ok tt ->
    compressed_end c <= ms_compressed_size st /\ uncompressed_end c <= ms_uncompressed_size st;
  validate_zran c st : validate c st = Ok tt -> is_zran c = true ->
    exists idx ctx, get_zran_index c = Ok idx /\ 0 <= idx /\
      ms_zran_info_array st !! Z.to_nat idx = Some ctx
}.

#[export] Program Instance V1_chunk_laws : BlobMetaChunkInfoLaws BlobChunkInfoV1Ondisk :=
  {| wf_chunk := v1_wf |}.
Next Obligation. intros c Hc. apply (v1_ranges c Hc). Qed.
Next Obligation. intros c Hc. cbn. pose proof (v1_ranges c Hc). lia. Qed.
Next Obligation. intros c Hc. apply (v1_ranges c Hc). Qed.
Next Obligation. intros c Hc. apply (v1_ranges c Hc). Qed.
Next Obligation. intros c Hc. apply (v1_ranges c Hc). Qed.
Next Obligation.
  intros c st H. cbn in H. unfold v1_validate in H. case_match eqn:E; [done|].
  rewrite !orb_false_iff in E. unfold compressed_end, uncompressed_end. cbn. lia.
Qed.
Next Obligation. done. Qed.

Lemma v2_validate_Ok `{Profile} c st : v2_validate c st = Ok tt ->
  v2_compressed_offset c + v2_compressed_size c <= ms_compressed_size st /\
  v2_uncompressed_offset c + v2_uncompressed_size c <= ms_uncompressed_size st /\
  v2_check_flags c = 0 /\
  (v2_is_zran c = false -> v2_compressed_size c <> 0) /\
  (v2_is_compressed c = false -> v2_uncompressed_size c = v2_compressed_size c) /\
  (v2_is_zran c = true ->
   exists idx ctx off e, v2_get_zran_index c = Ok idx /\ 0 <= idx /\
     ms_zran_info_array st !! Z.to_nat idx = Some ctx /\ v2_get_zran_offset c = Ok off /\
     off < out_len ctx /\ uadd (E:=errno) 32 off (v2_uncompressed_size c) = Ok e /\ e <= out_len ctx).
Proof.
  unfold v2_validate. case_match eqn:E1; [done|]. case_match eqn:E2; [done|].
  case_match eqn:E3; [done|]. rewrite !orb_false_iff in E1. intros Hz.
  split_and!; [lia | lia | lia | | |].
  - intros Hn. rewrite Hn in E1. lia.
  - intros Hn. rewrite Hn in E1. lia.
  - intros Hzr. rewrite Hzr in Hz. inv_ok. case_match; [done|]. inv_ok.
    apply vec_index_Ok in Ha0 as [Hi Hl]. case_match eqn:E5; [done|]. inv_ok.
    case_match eqn:E6; [done|]. do 4 eexists. split_and!; [done..| lia | done | lia].
Qed.

#[export] Program Instance V2_chunk_laws `{Profile} : BlobMetaChunkInfoLaws BlobChunkInfoV2Ondisk :=
  {| wf_chunk := v2_wf |}.
Next Obligation. intros ? c Hc. apply (v2_ranges c Hc). Qed.
Next Obligation. intros ? c Hc. cbn. pose proof (v2_ranges c Hc). unfold in_range in *. lia. Qed.
Next Obligation. intros ? c Hc. apply (v2_ranges c Hc). Qed.
Next Obligation. intros ? c Hc. apply (v2_ranges c Hc). Qed.
Next Obligation. intros ? c Hc. apply (v2_ranges c Hc). Qed.
Next Obligation. intros ? c st H. apply v2_validate_Ok in H. unfold compressed_end, uncompressed_end. cbn. lia. Qed.
Next Obligation. intros ? c st H Hz. apply v2_validate_Ok in H. naive_solver. Qed.

Section laws.
Context {T} `{BlobMetaChunkInfoLaws T}.

Lemma compressed_end_range (c : T) : wf_chunk c -> in_range 41 (compressed_end c).
Proof.
  intros Hc. pose proof (compressed_offset_range c Hc). pose proof (compressed_size_range c Hc).
  unfold compressed_end, in_range in *. lia.
Qed.

Lemma uncompressed_end_range (c : T) : wf_chunk c -> in_range 45 (uncompressed_end c).
Proof.
  intros Hc. pose proof (uncompressed_offset_range c Hc). pose proof (uncompressed_size_range c Hc).
  unfold uncompressed_end, in_range in *. lia.
Qed.

Lemma aligned_uncompressed_end_spec (c : T) : wf_chunk c ->
  uncompressed_end c <= aligned_uncompressed_end c < uncompressed_end c + 4096 /\
  aligned_uncompressed_end c mod 4096 = 0.
Proof.
  intros Hc. pose proof (uncompressed_end_range c Hc) as Hr. unfold in_range in Hr.
  destruct (align_4k_spec (uncompressed_end c)) as [E Hb]; [lia..|].
  unfold aligned_uncompressed_end. split; [lia|]. rewrite E, Z.mul_comm. by apply Z.mod_mul.
Qed.
End laws.

(** ** Properties *)

(** The arguments the V1 entry can represent. *)
Definition v1_representable (c_off c_size u_off u_size : Z) : bool :=
  (c_off <? 2 ^ 40) && (1 <=? c_size) && (c_size <=? 2 ^ 24) &&
  (u_off <? 2 ^ 44) && (u_off mod 4096 =? 0) && (1 <=? u_size) && (u_size <=? 2 ^ 24).

Lemma aligned_shiftl u : 0 <= u < 2 ^ 44 -> u mod 4096 = 0 ->
  u = Z.shiftl (u / 4096) 12 /\ in_range 32 (u / 4096).
Proof.
  intros Hu Hm. split.
  - rewrite Z.shiftl_mul_pow2 by lia. pose proof (Z.div_mod u 4096). lia.
  - unfold in_range. pose proof (Z.div_mod u 4096). lia.
Qed.

Lemma land_not_mask_0_iff u : in_range 64 u ->
  (Z.land u (unot 64 0xffffffff000) =? 0) = (u <? 2 ^ 44) && (u mod 4096 =? 0).
Proof.
  intros Hu. apply eq_true_iff_eq. rewrite andb_true_iff, Z.ltb_lt, !Z.eqb_eq. split.
  - intros H. assert (u = Z.shiftl (Z.land (Z.shiftr u 12) (Z.ones 32)) 12) as E.
    { apply Z.bits_inj'. intros i Hi. apply (f_equal (fun z => Z.testbit z i)) in H. revert H.
      rewrite mask_32_12. zbit_norm. zbit_split; rewrite ?Z.testbit_0_l; try done;
        try (replace (i - 12 + 12) with i by lia); try done.
      intros _. by apply (testbit_above 64); [|lia]. }
    split; rewrite E.
    + apply (in_range_wrap 44); [lia|]. zbits.
    + change 4096 with (2 ^ 12). rewrite <- (Z.land_ones _ 12) by lia. zbits.
  - intros [H1 H2]. destruct (aligned_shiftl u) as [E Hr]; [unfold in_range in Hu; lia | done|].
    rewrite E. revert Hr. generalize (u / 4096). intros x Hr. zbits.
Qed.

(** The setters as total functions: [Ok] on the values that fit, [Panic] on the others. *)
Lemma v1_set_compressed_offset_total off c : v1_wf c -> in_range 64 off ->
  if off <? 2 ^ 40 then
    exists c', v1_set_compressed_offset off c = Ok c' /\ v1_wf c' /\
      v1_compressed_offset c' = off /\ v1_compressed_size c' = v1_compressed_size c /\
      v1_uncomp_info c' = v1_uncomp_info c
  else v1_set_compressed_offset off c = Panic.
Proof.
  intros Hc Ho. destruct (Z.ltb_spec off (2 ^ 40)).
  - apply v1_set_compressed_offset_spec; unfold in_range in *; lia || done.
  - unfold v1_set_compressed_offset. unfold_masks. rewrite mask_40.
    pose proof (land_not_mask_0 64 40 off ltac:(lia) Ho) as Hn.
    destruct (_ =? 0); [|done]. unfold in_range in *. lia.
Qed.

Lemma v1_set_compressed_size_total size c : v1_wf c ->
  if (1 <=? size) && (size <=? 2 ^ 24) then
    exists c', v1_set_compressed_size size c = Ok c' /\ v1_wf c' /\
      v1_compressed_size c' = size /\ v1_compressed_offset c' = v1_compressed_offset c /\
      v1_uncomp_info c' = v1_uncomp_info c
  else v1_set_compressed_size size c = Panic.
Proof.
  intros Hc. case_match.
  - apply v1_set_compressed_size_spec; [done | lia].
  - unfold v1_set_compressed_size. unfold_masks.
    by assert ((0 <? size) && (size <=? 0xffffff + 1) = false) as -> by lia.
Qed.

Lemma v1_set_uncompressed_offset_total off c : v1_wf c -> in_range 64 off ->
  if (off <? 2 ^ 44) && (off mod 4096 =? 0) then
    exists c', v1_set_uncompressed_offset off c = Ok c' /\ v1_wf c' /\
      v1_uncompressed_offset c' = off /\ v1_uncompressed_size c' = v1_uncompressed_size c /\
      v1_comp_info c' = v1_comp_info c
  else v1_set_uncompressed_offset off c = Panic.
Proof.
  intros Hc Ho. case_match eqn:E.
  - destruct (aligned_shiftl off) as [E' Hr]; [unfold in_range in *; lia..|].
    rewrite E'. by apply v1_set_uncompressed_offset_spec.
  - unfold v1_set_uncompressed_offset. unfold_masks. by rewrite land_not_mask_0_iff, E by done.
Qed.

Lemma v1_set_uncompressed_size_total size c : v1_wf c -> 0 <= size ->
  if (1 <=? size) && (size <=? 2 ^ 24) then
    exists c', v1_set_uncompressed_size size c = Ok c' /\ v1_wf c' /\
      v1_uncompressed_size c' = size /\ v1_uncompressed_offset c' = v1_uncompressed_offset c /\
      v1_comp_info c' = v1_comp_info c
  else v1_set_uncompressed_size size c = Panic.
Proof.
  intros Hc Hs. case_match.
  - apply v1_set_uncompressed_size_spec; [done | lia].
  - unfold v1_set_uncompressed_size. unfold_masks.
    by assert (negb (size =? 0) && (size <=? 0xffffff + 1) = false) as -> by lia.
Qed.

(** appending a V1 entry with [BlobMetaChunkArray::add_v1] either stores offsets and sizes
    that the accessors read back unchanged, or panics; it panics exactly when a value does not
    fit its bit field, so no offset or size is ever silently truncated. *)
Theorem add_v1_roundtrip v c_off c_size u_off u_size :
  in_range 64 c_off -> in_range 32 c_size -> in_range 64 u_off -> in_range 32 u_size ->
  if v1_representable c_off c_size u_off u_size
  then exists c, add_v1 (ArrV1 v) c_off c_size u_off u_size = Ok (ArrV1 (v ++ [c])) /\
         v1_wf c /\ chunk_view c = (c_off, c_size, u_off, u_size)
  else add_v1 (ArrV1 v) c_off c_size u_off u_size = Panic.
Proof.
  intros Hco [Hcs _] Huo [Hus _]. assert (v1_wf v1_default) as Hwf by done.
  unfold v1_representable, add_v1. rewrite <- !andb_assoc.
  pose proof (v1_set_compressed_offset_total c_off _ Hwf Hco) as H1.
  destruct (c_off <? _); [destruct H1 as (c1 & -> & Hwf1 & Ho1 & _)|by rewrite H1].
  pose proof (v1_set_compressed_size_total c_size c1 Hwf1) as H2.
  rewrite (andb_assoc (1 <=? c_size)).
  cbn -[v1_set_compressed_size v1_set_uncompressed_offset v1_set_uncompressed_size].
  destruct ((1 <=? c_size) && _); [destruct H2 as (c2 & -> & Hwf2 & Hs2 & Ho2 & _)|by rewrite H2].
  pose proof (v1_set_uncompressed_offset_total u_off c2 Hwf2 Huo) as H3.
  rewrite (andb_assoc (u_off <? _)). cbn -[v1_set_uncompressed_offset v1_set_uncompressed_size].
  destruct ((u_off <? _) && _); [destruct H3 as (c3 & -> & Hwf3 & Ho3 & _ & Hc3)|by rewrite H3].
  pose proof (v1_set_uncompressed_size_total u_size c3 Hwf3 Hus) as H4.
  cbn -[v1_set_uncompressed_size].
  destruct ((1 <=? u_size) && _); [destruct H4 as (c4 & -> & Hwf4 & Hs4 & Ho4 & Hc4)|by rewrite H4].
  exists c4. split_and!; [done..|]. unfold chunk_view. cbn. rewrite Ho4, Ho3, Hs4.
  unfold v1_compressed_offset, v1_compressed_size in *. rewrite Hc4, Hc3. by rewrite Hs2, Ho2, Ho1.
Qed.

Lemma add_v1_roundtrip_witness :
  exists c, add_v1 (ArrV1 []) 0xffffffffff 0x1000000 0xffffffff000 0x1000000 = Ok (ArrV1 [c]) /\
    v1_wf c /\ chunk_view c = (0xffffffffff, 0x1000000, 0xffffffff000, 0x1000000).
Proof.
  apply (add_v1_roundtrip [] 0xffffffffff 0x1000000 0xffffffff000 0x1000000); by vm_compute.
Defined.

(** The setters of a fresh V2 entry in the order both builders use. *)
Lemma v2_fill c_off c_size u_off u_size :
  in_range 40 c_off -> in_range 24 c_size -> in_range 44 u_off -> u_off mod 4096 = 0 ->
  1 <= u_size <= 2 ^ 24 ->
  exists c1 c2 c3 c4, v2_set_compressed_offset c_off v2_default = Ok c1 /\
    v2_set_compressed_size c_size c1 = Ok c2 /\ v2_set_uncompressed_offset u_off c2 = Ok c3 /\
    v2_set_uncompressed_size u_size c3 = Ok c4 /\ v2_wf c4 /\
    v2_compressed_offset c4 = c_off /\ v2_compressed_size c4 = c_size /\
    v2_uncompressed_offset c4 = u_off /\ v2_uncompressed_size c4 = u_size /\
    v2_check_flags c4 = 0 /\ v2_is_zran c4 = false /\ v2_data c4 = 0.
Proof.
  intros Hco Hcs Huo Hal Hus.
  destruct (v2_set_compressed_offset_spec c_off v2_default) as (c1 & E1 & W1 & O1 & _ & U1 & D1);
    [done..|].
  destruct (v2_set_compressed_size_spec c_size c1) as (c2 & E2 & W2 & S2 & O2 & U2 & D2); [done..|].
  destruct (aligned_shiftl u_off Huo Hal) as [Eu Hr].
  destruct (v2_set_uncompressed_offset_spec (u_off / 4096) c2) as (c3 & E3 & W3 & O3 & T3 & C3 & D3);
    [done..|]. rewrite <- Eu in E3, O3.
  destruct (v2_set_uncompressed_size_spec u_size c3) as (c4 & E4 & W4 & S4 & O4 & T4 & C4 & D4);
    [done..|].
  assert (Z.shiftr (v2_uncomp_info c4) 56 = Z.shiftr (v2_uncomp_info v2_default) 56) as T.
  { rewrite T4. change 56 with (32 + 24). rewrite <- !Z.shiftr_shiftr, T3 by lia. by rewrite U2, U1. }
  apply v2_check_flags_top in T as (F1 & F2 & F3).
  exists c1, c2, c3, c4. unfold v2_compressed_offset, v2_compressed_size in *.
  rewrite C4, C3. split_and!; try done; first [exact F1 | exact F3 | congruence | by rewrite D4, D3, D2, D1].
Qed.

(** a V2 entry appended by [BlobMetaChunkArray::add_v2] reads back with the offsets, sizes,
    compression flag and data it was given, is not a ZRan entry and has no unknown flag. *)
Theorem add_v2_roundtrip v c_off c_size u_off u_size b data :
  in_range 40 c_off -> in_range 24 c_size -> in_range 44 u_off -> u_off mod 4096 = 0 ->
  1 <= u_size <= 2 ^ 24 -> in_range 64 data ->
  exists c, add_v2 (ArrV2 v) c_off c_size u_off u_size b data = Ok (ArrV2 (v ++ [c])) /\ v2_wf c /\
    v2_compressed_offset c = c_off /\ v2_compressed_size c = c_size /\
    v2_uncompressed_offset c = u_off /\ v2_uncompressed_size c = u_size /\
    v2_is_compressed c = b /\ v2_is_zran c = false /\ v2_data c = data /\ v2_check_flags c = 0.
Proof.
  intros Hco Hcs Huo Hal Hus Hd.
  destruct (v2_fill c_off c_size u_off u_size)
    as (c1 & c2 & c3 & c4 & E1 & E2 & E3 & E4 & W & O & S & UO & US & F & Zr & D); [done..|].
  destruct (v2_set_compressed_spec b c4 W) as ((Wu & Wc & _) & B & B2 & B3 & B4 & B5).
  exists (v2_set_data data (v2_set_compressed b c4)).
  unfold add_v2. rewrite E1; cbn. rewrite E2; cbn. rewrite E3; cbn. rewrite E4; cbn.
  split_and!; first [done | exact (eq_trans B3 UO) | exact (eq_trans B4 US) | exact (eq_trans B2 Zr)
    | exact (eq_trans B5 F)].
Qed.

Lemma add_v2_roundtrip_witness :
  exists c, add_v2 (ArrV2 []) 0xffffffffff 0xffffff 0xffffffff000 0x1000000 true 7 = Ok (ArrV2 [c]) /\
    v2_wf c /\ v2_compressed_offset c = 0xffffffffff /\ v2_compressed_size c = 0xffffff /\
    v2_uncompressed_offset c = 0xffffffff000 /\ v2_uncompressed_size c = 0x1000000 /\
    v2_is_compressed c = true /\ v2_is_zran c = false /\ v2_data c = 7 /\ v2_check_flags c = 0.
Proof.
  apply (add_v2_roundtrip [] 0xffffffffff 0xffffff 0xffffffff000 0x1000000 true 7); by vm_compute.
Defined.

(** [ZranContextGenerator::finish_chunk] emits a compressed ZRan entry that reads back with
    the position, size, context index and context offset of the generator's transaction, and
    advances the uncompressed position to the next 4K boundary past the chunk. *)
Theorem finish_chunk_roundtrip `{Profile} info pos :
  in_range 40 (zi_in_pos info) -> in_range 24 (zi_in_len info) -> 1 <= zi_ci_len info <= 2 ^ 24 ->
  in_range 32 (zi_ci_index info) -> in_range 32 (zi_ci_offset info) ->
  in_range 44 pos -> pos mod 4096 = 0 ->
  exists c, finish_chunk info pos = Ok (c, pos + align_4k (zi_ci_len info)) /\ v2_wf c /\
    chunk_view c = (zi_in_pos info, zi_in_len info, pos, zi_ci_len info) /\
    v2_is_compressed c = true /\ v2_is_zran c = true /\ v2_check_flags c = 0 /\
    v2_get_zran_index c = Ok (zi_ci_index info) /\ v2_get_zran_offset c = Ok (zi_ci_offset info).
Proof.
  intros Hip Hil Hcl Hci Hcf Hp Hpa.
  destruct (v2_fill (zi_in_pos info) (zi_in_len info) pos (zi_ci_len info))
    as (c1 & c2 & c3 & c4 & E1 & E2 & E3 & E4 & W & O & S & UO & US & F & Zr & D); [done..|].
  destruct (v2_set_zran_index_spec (zi_ci_index info) c4 W Hci) as (W5 & I5 & O5).
  destruct (v2_set_zran_offset_spec (zi_ci_offset info) _ W5 Hcf) as (W6 & O6 & I6).
  destruct (v2_set_zran_spec true _ W6) as (W7 & Z7 & _ & UO7 & US7 & F7).
  destruct (v2_set_compressed_spec true _ W7) as (W8 & C8 & Z8 & UO8 & US8 & F8).
  pose proof (align_4k_spec (zi_ci_len info) ltac:(lia) ltac:(lia)) as [_ Hal].
  eexists. unfold finish_chunk. rewrite E1; cbn. rewrite E2; cbn. rewrite E3; cbn. rewrite E4; cbn.
  rewrite round_up_4k_in by lia. cbn. rewrite uadd_in by (unfold in_range in *; lia). cbn.
  split; [done|]. split; [exact W8|].
  unfold v2_get_zran_index, v2_get_zran_offset. rewrite C8, Z8, Z7, F8, F7. cbn.
  split_and!; try done.
  - unfold chunk_view. repeat apply (f_equal2 pair); [exact O | exact S
      | exact (eq_trans UO8 (eq_trans UO7 UO)) | exact (eq_trans US8 (eq_trans US7 US))].
  - f_equal. exact (eq_trans I6 I5).
  - f_equal. exact O6.
Qed.

Lemma finish_chunk_roundtrip_witness :
  exists c, @finish_chunk dev_profile (mkZranChunkInfo 0xb8 0x500 0x1234 3 5) 0x2000
              = Ok (c, 0x2000 + align_4k 0x1234) /\ v2_wf c /\
    @chunk_view _ (@V2_chunk_info dev_profile) c = (0xb8, 0x500, 0x2000, 0x1234) /\
    v2_is_compressed c = true /\ v2_is_zran c = true /\ v2_check_flags c = 0 /\
    v2_get_zran_index c = Ok 3 /\ v2_get_zran_offset c = Ok 5.
Proof.
  apply (@finish_chunk_roundtrip dev_profile (mkZranChunkInfo 0xb8 0x500 0x1234 3 5) 0x2000); by vm_compute.
Defined.

(** what [BlobChunkInfoV2Ondisk::validate] guarantees with overflow checks compiled in: the
    chunk lies inside the compressed and uncompressed blob, has only known flags, and a ZRan
    chunk names an existing context and lies inside the data that context decodes to. *)
Theorem v2_validate_sound c st :
  @v2_validate dev_profile c st = Ok tt ->
  v2_compressed_offset c + v2_compressed_size c <= ms_compressed_size st /\
  v2_uncompressed_offset c + v2_uncompressed_size c <= ms_uncompressed_size st /\
  v2_check_flags c = 0 /\
  (v2_is_zran c = true ->
   exists idx ctx off, v2_get_zran_index c = Ok idx /\ v2_get_zran_offset c = Ok off /\
     ms_zran_info_array st !! Z.to_nat idx = Some ctx /\
     off + v2_uncompressed_size c <= out_len ctx).
Proof.
  intros H. apply v2_validate_Ok in H as (H1 & H2 & H3 & _ & _ & H6).
  split_and!; [done..|]. intros Hzr.
  destruct (H6 Hzr) as (idx & ctx & off & e & Hi & _ & Hl & Ho & _ & He & Hle).
  exists idx, ctx, off. split_and!; [done..|]. unfold uadd, overflowing in He.
  destruct (in_rangeb 32 _) eqn:Er; [by inv_ok | done].
Qed.

(** A state whose only ZRan context claims the largest size. *)
Definition zran_max_state : BlobMetaState :=
  mkBlobMetaState 0 0xf 0x1000 0x2000 (ArrV2 []) [mkZran 0 0 0 16 (2 ^ 32 - 1) 0 0 0] [].

Lemma v2_validate_sound_witness :
  v2_compressed_offset (mkV2 (Z.shiftl 3 56) 0 5) + v2_compressed_size (mkV2 (Z.shiftl 3 56) 0 5)
    <= 0x1000 /\
  v2_uncompressed_offset (mkV2 (Z.shiftl 3 56) 0 5) + v2_uncompressed_size (mkV2 (Z.shiftl 3 56) 0 5)
    <= 0x2000 /\
  v2_check_flags (mkV2 (Z.shiftl 3 56) 0 5) = 0 /\
  (v2_is_zran (mkV2 (Z.shiftl 3 56) 0 5) = true ->
   exists idx ctx off, v2_get_zran_index (mkV2 (Z.shiftl 3 56) 0 5) = Ok idx /\
     v2_get_zran_offset (mkV2 (Z.shiftl 3 56) 0 5) = Ok off /\
     ms_zran_info_array zran_max_state !! Z.to_nat idx = Some ctx /\
     off + v2_uncompressed_size (mkV2 (Z.shiftl 3 56) 0 5) <= out_len ctx).
Proof.
  apply (v2_validate_sound (mkV2 (Z.shiftl 3 56) 0 5) zran_max_state). by vm_compute.
Defined.

(** without overflow checks the range test of a ZRan chunk wraps around: an entry whose ZRan
    range ends past the decoded data is accepted by [validate] in the release profile. *)
Theorem v2_validate_release_wraps :
  exists c idx off ctx, v2_wf c /\ @v2_validate release_profile c zran_max_state = Ok tt /\
    v2_get_zran_index c = Ok idx /\ v2_get_zran_offset c = Ok off /\
    ms_zran_info_array zran_max_state !! Z.to_nat idx = Some ctx /\
    out_len ctx < off + v2_uncompressed_size c.
Proof.
  exists (mkV2 (Z.lor (Z.shiftl 3 56) (Z.shiftl 0xfff 32)) 0 0xfffffffe), 0, 0xfffffffe,
    (mkZran 0 0 0 16 (2 ^ 32 - 1) 0 0 0).
  vm_compute. split_and!; congruence.
Qed.
