(* ===== verification/Device.v ===== *)
(** Public data of the storage service ([storage/src/device.rs]).

    Blob configuration, chunk descriptors, IO descriptors, IO vectors and IO ranges: the
    values that flow from the filesystem through the cache to the backend. *)
From S2P Require Import Prelude ChunkInfo.

(** ** Algorithms *)

(** [compress::Algorithm] and the numbers of [algo as u32]. *)
Inductive CompressAlgorithm := CNone | CLz4Block | CGZip | CZstd.
#[export] Instance CompressAlgorithm_eq_dec : EqDecision CompressAlgorithm.
Proof. solve_decision. Defined.

Definition compress_as_u32 (a : CompressAlgorithm) : Z :=
  match a with CNone => 0 | CLz4Block => 1 | CGZip => 2 | CZstd => 3 end.

(** [TryFrom<u32> for Algorithm]. *)
Definition compress_try_from (v : Z) : option CompressAlgorithm :=
  if v =? compress_as_u32 CNone then Some CNone
  else if v =? compress_as_u32 CLz4Block then Some CLz4Block
  else if v =? compress_as_u32 CGZip then Some CGZip
  else if v =? compress_as_u32 CZstd then Some CZstd
  else None.

(** [StorageError] of [storage/src/lib.rs]. *)
Inductive StorageError := Unsupported | Timeout | VolatileSlice | MemOverflow | NotContinuous | CacheIndex (e : errno).

Inductive DigestAlgorithm := Blake3 | Sha256.
#[export] Instance DigestAlgorithm_eq_dec : EqDecision DigestAlgorithm.
Proof. solve_decision. Defined.

(** ** Blob information *)

Definition V5_NO_EXT_BLOB_TABLE : Z := 0x1.

(** [fs_cache_file], an opaque file handle, is not kept. *)
Record BlobInfo := mkBlobInfo {
  bi_blob_index : Z;
  bi_blob_id : string;
  bi_features : Z;
  bi_compressed_size : Z;
  bi_uncompressed_size : Z;
  bi_chunk_size : Z;
  bi_chunk_count : Z;
  bi_compressor : CompressAlgorithm;
  bi_digester : DigestAlgorithm;
  bi_prefetch_offset : Z;
  bi_prefetch_size : Z;
  bi_is_legacy_stargz : bool;
  bi_meta_flags : Z;
  bi_meta_ci_compressor : Z;
  bi_meta_ci_offset : Z;
  bi_meta_ci_compressed_size : Z;
  bi_meta_ci_uncompressed_size : Z;
  bi_meta_ci_zran_offset : Z;
  bi_meta_ci_zran_size : Z;
  bi_meta_ci_zran_count : Z
}.

Definition compute_features (b : BlobInfo) : BlobInfo :=
  let features :=
    if bi_chunk_count b =? 0 then Z.lor (bi_features b) V5_NO_EXT_BLOB_TABLE else bi_features b in
  let legacy :=
    if bool_decide (bi_compressor b = CGZip)
       && (Z.land (bi_meta_flags b) BLOB_META_FEATURE_CHUNK_INFO_V2 =? 0)
    then true else bi_is_legacy_stargz b in
  mkBlobInfo (bi_blob_index b) (bi_blob_id b) features (bi_compressed_size b)
    (bi_uncompressed_size b) (bi_chunk_size b) (bi_chunk_count b) (bi_compressor b) (bi_digester b)
    (bi_prefetch_offset b) (bi_prefetch_size b) legacy (bi_meta_flags b) (bi_meta_ci_compressor b)
    (bi_meta_ci_offset b) (bi_meta_ci_compressed_size b) (bi_meta_ci_uncompressed_size b)
    (bi_meta_ci_zran_offset b) (bi_meta_ci_zran_size b) (bi_meta_ci_zran_count b).

Definition BlobInfo_new (blob_index : Z) (blob_id : string)
    (uncompressed_size compressed_size chunk_size chunk_count blob_features : Z) : BlobInfo :=
  compute_features
    (mkBlobInfo blob_index blob_id blob_features compressed_size uncompressed_size chunk_size
       chunk_count CNone Blake3 0 0 false 0 0 0 0 0 0 0 0).

Definition set_compressor (c : CompressAlgorithm) (b : BlobInfo) : BlobInfo :=
  compute_features
    (mkBlobInfo (bi_blob_index b) (bi_blob_id b) (bi_features b) (bi_compressed_size b)
       (bi_uncompressed_size b) (bi_chunk_size b) (bi_chunk_count b) c (bi_digester b)
       (bi_prefetch_offset b) (bi_prefetch_size b) (bi_is_legacy_stargz b) (bi_meta_flags b)
       (bi_meta_ci_compressor b) (bi_meta_ci_offset b) (bi_meta_ci_compressed_size b)
       (bi_meta_ci_uncompressed_size b) (bi_meta_ci_zran_offset b) (bi_meta_ci_zran_size b)
       (bi_meta_ci_zran_count b)).

Definition set_digester (d : DigestAlgorithm) (b : BlobInfo) : BlobInfo :=
  mkBlobInfo (bi_blob_index b) (bi_blob_id b) (bi_features b) (bi_compressed_size b)
    (bi_uncompressed_size b) (bi_chunk_size b) (bi_chunk_count b) (bi_compressor b) d
    (bi_prefetch_offset b) (bi_prefetch_size b) (bi_is_legacy_stargz b) (bi_meta_flags b)
    (bi_meta_ci_compressor b) (bi_meta_ci_offset b) (bi_meta_ci_compressed_size b)
    (bi_meta_ci_uncompressed_size b) (bi_meta_ci_zran_offset b) (bi_meta_ci_zran_size b)
    (bi_meta_ci_zran_count b).

(** The arguments are [u64], the fields [u32]: [as u32] truncates. *)
Definition set_prefetch_info (offset size : Z) (b : BlobInfo) : BlobInfo :=
  mkBlobInfo (bi_blob_index b) (bi_blob_id b) (bi_features b) (bi_compressed_size b)
    (bi_uncompressed_size b) (bi_chunk_size b) (bi_chunk_count b) (bi_compressor b) (bi_digester b)
    (wrap 32 offset) (wrap 32 size) (bi_is_legacy_stargz b) (bi_meta_flags b)
    (bi_meta_ci_compressor b) (bi_meta_ci_offset b) (bi_meta_ci_compressed_size b)
    (bi_meta_ci_uncompressed_size b) (bi_meta_ci_zran_offset b) (bi_meta_ci_zran_size b)
    (bi_meta_ci_zran_count b).

Definition set_blob_meta_info (flags offset compressed_size uncompressed_size compressor : Z)
    (b : BlobInfo) : BlobInfo :=
  mkBlobInfo (bi_blob_index b) (bi_blob_id b) (bi_features b) (bi_compressed_size b)
    (bi_uncompressed_size b) (bi_chunk_size b) (bi_chunk_count b) (bi_compressor b) (bi_digester b)
    (bi_prefetch_offset b) (bi_prefetch_size b) (bi_is_legacy_stargz b) flags compressor offset
    compressed_size uncompressed_size (bi_meta_ci_zran_offset b) (bi_meta_ci_zran_size b)
    (bi_meta_ci_zran_count b).

Definition set_blob_meta_zran_info (count offset size : Z) (b : BlobInfo) : BlobInfo :=
  mkBlobInfo (bi_blob_index b) (bi_blob_id b) (bi_features b) (bi_compressed_size b)
    (bi_uncompressed_size b) (bi_chunk_size b) (bi_chunk_count b) (bi_compressor b) (bi_digester b)
    (bi_prefetch_offset b) (bi_prefetch_size b) (bi_is_legacy_stargz b) (bi_meta_flags b)
    (bi_meta_ci_compressor b) (bi_meta_ci_offset b) (bi_meta_ci_compressed_size b)
    (bi_meta_ci_uncompressed_size b) offset size count.

Definition meta_ci_compressor (b : BlobInfo) : CompressAlgorithm :=
  if bi_meta_ci_compressor b =? compress_as_u32 CLz4Block then CLz4Block
  else if bi_meta_ci_compressor b =? compress_as_u32 CGZip then CGZip
  else if bi_meta_ci_compressor b =? compress_as_u32 CZstd then CZstd
  else CNone.

Definition meta_ci_is_valid (b : BlobInfo) : bool :=
  negb (bi_meta_ci_compressed_size b =? 0) && negb (bi_meta_ci_uncompressed_size b =? 0).

Definition has_feature (features : Z) (b : BlobInfo) : bool :=
  Z.land (bi_features b) features =? features.

(** ** Chunks *)

(** A [dyn BlobChunkInfo]: the values its accessors return; [chunk_id()], the digest, panics for
    some types of chunks. *)
Record ChunkDesc := mkChunk {
  chunk_digest : option Z;
  chunk_id : Z;
  chunk_blob_index : Z;
  chunk_c_offset : Z;
  chunk_c_size : Z;
  chunk_u_offset : Z;
  chunk_u_size : Z;
  chunk_is_compressed : bool
}.
#[export] Instance ChunkDesc_eq_dec : EqDecision ChunkDesc.
Proof. solve_decision. Defined.

Definition chunk_wf (c : ChunkDesc) : Prop :=
  in_range 32 (chunk_id c) /\ in_range 32 (chunk_blob_index c) /\ in_range 64 (chunk_c_offset c) /\
  in_range 32 (chunk_c_size c) /\ in_range 64 (chunk_u_offset c) /\ in_range 32 (chunk_u_size c).

Section chunk.
Context `{Profile} {E : Type}.
Definition chunk_c_end (c : ChunkDesc) : outcome E Z := uadd 64 (chunk_c_offset c) (chunk_c_size c).
Definition chunk_u_end (c : ChunkDesc) : outcome E Z := uadd 64 (chunk_u_offset c) (chunk_u_size c).
End chunk.

(** ** IO descriptors *)

Record BlobIoDesc := mkIoDesc {
  io_blob : BlobInfo;
  io_chunk : ChunkDesc;
  io_offset : Z;
  io_size : Z;
  io_user : bool
}.

(** [BlobIoDesc::is_continuous]. *)
Definition is_continuous `{Profile} (self next : BlobIoDesc) (max_gap : Z) : io bool :=
  prev_end ← uadd 64 (chunk_c_offset (io_chunk self)) (chunk_c_size (io_chunk self));
  let next_offset := chunk_c_offset (io_chunk next) in
  if (chunk_blob_index (io_chunk self) =? chunk_blob_index (io_chunk next))
     && (prev_end <=? next_offset) then
    if bi_is_legacy_stargz (io_blob next) then
      g ← umul 64 max_gap 8; Ok (next_offset - prev_end <=? g)
    else Ok (next_offset - prev_end <=? max_gap)
  else Ok false.

(** *** IO vectors *)

Record BlobIoVec := mkIoVec {
  iov_blob : BlobInfo;
  iov_size : Z;
  iov_vec : list BlobIoDesc
}.

Definition BlobIoVec_new (b : BlobInfo) : BlobIoVec := mkIoVec b 0 [].

(** The two [assert_eq!] of [push] and [append]. *)
Definition same_blob (a b : BlobInfo) : bool :=
  (bi_blob_index a =? bi_blob_index b) && bool_decide (bi_blob_id a = bi_blob_id b).

Definition BlobIoVec_push (desc : BlobIoDesc) (v : BlobIoVec) : io BlobIoVec :=
  _ ← rassert (same_blob (iov_blob v) (io_blob desc));
  _ ← rassert (bool_decide (is_Some (checked_add 32 (iov_size v) (io_size desc))));
  Ok (mkIoVec (iov_blob v) (iov_size v + io_size desc) (iov_vec v ++ [desc])).

Definition BlobIoVec_append (vec v : BlobIoVec) : io BlobIoVec :=
  _ ← rassert (same_blob (iov_blob v) (iov_blob vec));
  _ ← rassert (bool_decide (is_Some (checked_add 32 (iov_size v) (iov_size vec))));
  Ok (mkIoVec (iov_blob v) (iov_size v + iov_size vec) (iov_vec v ++ iov_vec vec)).

Definition BlobIoVec_reset (v : BlobIoVec) : BlobIoVec := mkIoVec (iov_blob v) 0 [].

Definition blob_io_desc (v : BlobIoVec) (index : Z) : option BlobIoDesc :=
  if index <? Z.of_nat (length (iov_vec v)) then iov_vec v !! Z.to_nat index else None.

Definition is_target_blob (v : BlobIoVec) (blob_index : Z) : bool :=
  bi_blob_index (iov_blob v) =? blob_index.

Definition has_same_blob (v desc : BlobIoVec) : bool :=
  bi_blob_index (iov_blob v) =? bi_blob_index (iov_blob desc).

(** [BlobIoMerge]: one pending IO vector per blob id. *)
Record BlobIoMerge := mkIoMerge { iom_map : gmap string BlobIoVec; iom_current : string }.

Definition BlobIoMerge_append (desc : BlobIoVec) (m : BlobIoMerge) : io BlobIoMerge :=
  match iov_vec desc with
  | [] => Ok m
  | _ =>
      let id := bi_blob_id (iov_blob desc) in
      match iom_map m !! id with
      | Some prev =>
          prev' ← BlobIoVec_append desc prev;
          Ok (mkIoMerge (<[id := prev']> (iom_map m)) id)
      | None => Ok (mkIoMerge (<[id := desc]> (iom_map m)) id)
      end
  end.

Definition get_current_element (m : BlobIoMerge) : option BlobIoVec := iom_map m !! iom_current m.

(** *** Segments, tags and ranges *)

Record BlobIoSegment := mkSeg { seg_offset : Z; seg_len : Z }.

Definition BlobIoSegment_append `{Profile} {E} (offset len : Z) (s : BlobIoSegment)
  : outcome E BlobIoSegment :=
  _ ← rassert (bool_decide (is_Some (checked_add 32 offset len)));
  _ ← rassert (offset =? 0);
  l ← uadd 32 (seg_len s) len;
  Ok (mkSeg (seg_offset s) l).

Definition seg_is_empty (s : BlobIoSegment) : bool := (seg_offset s =? 0) && (seg_len s =? 0).

Inductive BlobIoTag := TagUser (s : BlobIoSegment) | TagInternal.

Definition is_user_io (t : BlobIoTag) : bool := match t with TagUser _ => true | TagInternal => false end.

Record BlobIoRange := mkRange {
  rg_blob_info : BlobInfo;
  rg_blob_offset : Z;
  rg_blob_size : Z;
  rg_chunks : list ChunkDesc;
  rg_tags : list BlobIoTag
}.

Definition tag_from_desc (bio : BlobIoDesc) : BlobIoTag :=
  if io_user bio then TagUser (mkSeg (io_offset bio) (io_size bio)) else TagInternal.

Definition BlobIoRange_new (bio : BlobIoDesc) : io BlobIoRange :=
  let size := chunk_c_size (io_chunk bio) in
  let offset := chunk_c_offset (io_chunk bio) in
  _ ← rassert (bool_decide (is_Some (checked_add 64 offset size)));
  Ok (mkRange (io_blob bio) offset size [io_chunk bio] [tag_from_desc bio]).

Definition BlobIoRange_merge `{Profile} (bio : BlobIoDesc) (max_gap : Z) (r : BlobIoRange)
  : io BlobIoRange :=
  e ← uadd 64 (rg_blob_offset r) (rg_blob_size r);
  let offset := chunk_c_offset (io_chunk bio) in
  let size := chunk_c_size (io_chunk bio) in
  size ← (if e =? offset then
            _ ← rassert (bool_decide (is_Some (checked_add 64 offset size)));
            Ok size
          else
            _ ← rassert ((e <? offset) && (offset - e <=? max_gap));
            uadd 64 size (offset - e));
  _ ← rassert (bool_decide (is_Some (checked_add 64 e size)));
  s ← uadd 64 (rg_blob_size r) size;
  Ok (mkRange (rg_blob_info r) (rg_blob_offset r) s (rg_chunks r ++ [io_chunk bio])
        (rg_tags r ++ [tag_from_desc bio])).

(** ** Properties of IO vectors *)

Definition io_total (l : list BlobIoDesc) : Z := foldr (fun d n => io_size d + n) 0 l.

(** The size field is the sum of the descriptors' sizes, within [u32], and all of them target
    the blob of the vector. *)
Definition iov_ok (v : BlobIoVec) : Prop :=
  iov_size v = io_total (iov_vec v) /\ 0 <= iov_size v < 2 ^ 32 /\
  Forall (fun d => same_blob (iov_blob v) (io_blob d) = true) (iov_vec v).

(** The vectors the public operations build. *)
Inductive iov_reachable : BlobIoVec -> Prop :=
| reach_new b : iov_reachable (BlobIoVec_new b)
| reach_push d v v' : in_range 32 (io_size d) -> iov_reachable v -> BlobIoVec_push d v = Ok v' ->
    iov_reachable v'
| reach_append w v v' : iov_reachable w -> iov_reachable v -> BlobIoVec_append w v = Ok v' ->
    iov_reachable v'
| reach_reset v : iov_reachable v -> iov_reachable (BlobIoVec_reset v).

Lemma io_total_app l1 l2 : io_total (l1 ++ l2) = io_total l1 + io_total l2.
Proof. induction l1 as [|d l1 IH]; cbn; [done|]. unfold io_total in *. lia. Qed.

Lemma same_blob_trans a b c : same_blob a b = true -> same_blob b c = true -> same_blob a c = true.
Proof.
  unfold same_blob. rewrite !andb_true_iff, !bool_decide_eq_true, !Z.eqb_eq. intuition congruence.
Qed.

Lemma checked_add_bd w a b : bool_decide (is_Some (checked_add w a b)) = true <-> a + b < 2 ^ w.
Proof.
  rewrite bool_decide_eq_true. unfold checked_add.
  destruct (Z.ltb_spec (a + b) (2 ^ w)); split; [done | by eexists | by intros [? ?] | lia].
Qed.

Lemma BlobIoVec_append_Ok w v v' : iov_ok w -> iov_ok v -> BlobIoVec_append w v = Ok v' ->
  iov_ok v' /\ iov_vec v' = iov_vec v ++ iov_vec w /\ iov_blob v' = iov_blob v.
Proof.
  intros (Hw & Hwr & Hwb) (Hv & Hvr & Hvb) Hx. unfold BlobIoVec_append in Hx. inv_ok.
  apply checked_add_bd in Ha0. split; [|done]. split_and!; cbn; try lia.
  - rewrite io_total_app. lia.
  - apply Forall_app. split; [done|]. eapply Forall_impl; [exact Hwb|]. cbn.
    intros d. by apply same_blob_trans.
Qed.

(** C33: every [BlobIoVec] built with [new], [push], [append] and [reset] keeps its size equal to
    the sum of the sizes of its descriptors, without overflow, and all its descriptors target
    its blob. *)
Theorem BlobIoVec_invariant v : iov_reachable v -> iov_ok v.
Proof.
  induction 1 as [b | d v v' Hd _ IH Hx | w v v' _ IHw _ IHv Hx | v _ IH].
  - by split_and!; cbn.
  - destruct IH as (Hs & Hr & Hb). unfold BlobIoVec_push in Hx. inv_ok. apply checked_add_bd in Ha0.
    unfold in_range in Hd. split_and!; cbn; try lia.
    + rewrite io_total_app. cbn. lia.
    + apply Forall_app. by split; [|constructor].
  - by destruct (BlobIoVec_append_Ok w v v' IHw IHv Hx).
  - by split_and!; cbn.
Qed.

(** The pending vectors after a sequence of [BlobIoMerge::append]. *)
Fixpoint merge_appends (vs : list BlobIoVec) (m : BlobIoMerge) : io BlobIoMerge :=
  match vs with [] => Ok m | v :: vs => m ← BlobIoMerge_append v m; merge_appends vs m end.

(** The descriptors of the vectors of [vs] that target the blob [id], in order. *)
Definition descs_for (id : string) (vs : list BlobIoVec) : list BlobIoDesc :=
  concat (iov_vec <$> filter (fun v => bi_blob_id (iov_blob v) = id) vs).

Definition pending_descs (id : string) (m : BlobIoMerge) : list BlobIoDesc :=
  match iom_map m !! id with Some v => iov_vec v | None => [] end.

Lemma BlobIoMerge_append_descs v m m' id : BlobIoMerge_append v m = Ok m' ->
  pending_descs id m' = pending_descs id m ++ descs_for id [v].
Proof.
  unfold BlobIoMerge_append, descs_for, pending_descs. rewrite filter_cons, filter_nil.
  destruct (iov_vec v) as [|d l] eqn:E.
  { intros [= <-]. case_decide; cbn; rewrite ?E, ?app_nil_r; done. }
  destruct (iom_map m !! bi_blob_id (iov_blob v)) as [prev|] eqn:Ep; intros Hx.
  - inv_ok. unfold BlobIoVec_append in Ha. inv_ok. cbn.
    case_decide as Hid; [subst id; rewrite lookup_insert_eq, Ep; cbn; by rewrite E, app_nil_r |].
    rewrite lookup_insert_ne by done. by rewrite app_nil_r.
  - injection Hx as <-. cbn. case_decide as Hid.
    + subst id. rewrite lookup_insert_eq, Ep. cbn. by rewrite E, app_nil_r.
    + rewrite lookup_insert_ne by done. by rewrite app_nil_r.
Qed.

(** [BlobIoMerge] loses and reorders nothing: after any sequence of appends the pending
    descriptors of a blob are those of the appended vectors that target it, in order. *)
Theorem BlobIoMerge_collects vs m m' id : merge_appends vs m = Ok m' ->
  pending_descs id m' = pending_descs id m ++ descs_for id vs.
Proof.
  revert m. induction vs as [|v vs IH]; intros m Hx; cbn in Hx.
  - injection Hx as <-. by rewrite app_nil_r.
  - inv_ok. rewrite (IH _ Hx), (BlobIoMerge_append_descs _ _ _ _ Ha), <- app_assoc. f_equal.
    unfold descs_for. rewrite <- concat_app, <- fmap_app, <- filter_app. done.
Qed.

(** the legacy-stargz mark of a gzip blob depends on the order of the setters: with
    [set_blob_meta_info] first the blob with a V2 chunk table is not marked, with
    [set_compressor] first, the order of [rafs/src/metadata/layout/v6.rs], it is marked and
    stays so, because [set_blob_meta_info] does not recompute the features. *)
Theorem legacy_stargz_depends_on_order (b : BlobInfo) (flags off csize usize comp : Z) :
  Z.land (bi_meta_flags b) BLOB_META_FEATURE_CHUNK_INFO_V2 = 0 ->
  Z.land flags BLOB_META_FEATURE_CHUNK_INFO_V2 <> 0 -> bi_is_legacy_stargz b = false ->
  bi_is_legacy_stargz (set_blob_meta_info flags off csize usize comp (set_compressor CGZip b)) = true /\
  bi_is_legacy_stargz (set_compressor CGZip (set_blob_meta_info flags off csize usize comp b)) = false.
Proof.
  intros H1 H2 H3. cbn. rewrite H1, Z.eqb_refl, H3.
  destruct (Z.eqb_spec (Z.land flags BLOB_META_FEATURE_CHUNK_INFO_V2) 0); done.
Qed.

Definition sample_blob (id : string) : BlobInfo := BlobInfo_new 0 id 0x4000 0x2000 0x1000 4 0.
Definition sample_io (id : string) (offset size : Z) : BlobIoDesc :=
  mkIoDesc (sample_blob id) (mkChunk (Some 0) 0 0 0 0x800 0 0x1000 true) offset size true.
Definition sample_iov (id : string) (size : Z) : BlobIoVec :=
  mkIoVec (sample_blob id) size [sample_io id 0 size].

Lemma BlobIoVec_invariant_witness : iov_ok (sample_iov "a" 0x800).
Proof.
  apply BlobIoVec_invariant.
  apply (reach_push (sample_io "a" 0 0x800) (BlobIoVec_new (sample_blob "a"))); [done | constructor |].
  by vm_compute.
Defined.

Lemma BlobIoMerge_collects_witness :
  exists m, merge_appends [sample_iov "a" 1; sample_iov "b" 2; sample_iov "a" 3] (mkIoMerge ∅ EmptyString) = Ok m /\
    pending_descs "a" m = [sample_io "a" 0 1; sample_io "a" 0 3].
Proof.
  destruct (merge_appends [sample_iov "a" 1; sample_iov "b" 2; sample_iov "a" 3] (mkIoMerge ∅ EmptyString))
    as [m| |] eqn:E; [|vm_compute in E; discriminate..].
  exists m. split; [done|].
  rewrite (BlobIoMerge_collects [sample_iov "a" 1; sample_iov "b" 2; sample_iov "a" 3]
    (mkIoMerge ∅ EmptyString) m "a" E). by vm_compute.
Defined.

Lemma legacy_stargz_depends_on_order_witness :
  bi_is_legacy_stargz (set_blob_meta_info BLOB_META_FEATURE_CHUNK_INFO_V2 0 0x100 0x200 0
    (set_compressor CGZip (sample_blob "a"))) = true.
Proof.
  apply (legacy_stargz_depends_on_order (sample_blob "a") BLOB_META_FEATURE_CHUNK_INFO_V2 0 0x100 0x200 0);
    by vm_compute.
Defined.
