(* ===== verification/BlobMeta.v ===== *)
(** Chunk queries on the blob meta data ([storage/src/meta/mod.rs]).

    The binary search [_get_chunk_index_nocheck], the range queries
    [get_chunks_uncompressed] and [get_chunks_compressed], the request amplification
    [add_more_chunks] and the accessors of [BlobMetaState] and [BlobMetaChunk], written
    once over the [BlobMetaChunkInfo] class as the source writes them over the trait.

    A [BlobMetaChunk] is an index into the chunk array of the state; the queries return
    the list of indices. *)
From S2P Require Import Prelude ChunkInfo Device.

Section queries.
Context `{Profile} {T : Type} `{!BlobMetaChunkInfo T}.
Implicit Types (st : BlobMetaState) (arr : list T).

(** One iteration of [while left < right] per unit of fuel; [zlen chunks + 1] units are
    enough ([search_loop_sound]), the fuel is never exhausted in [_get_chunk_index_nocheck]. *)
Fixpoint search_loop (fuel : nat) (arr : list T) (addr : Z) (compressed : bool)
    (size left right : Z) : io Z :=
  match fuel with
  | O => Panic
  | S fuel =>
      if left <? right then
        let mid := left + size / 2 in
        entry ← vec_index arr mid;
        let start := if compressed then compressed_offset entry else uncompressed_offset entry in
        let e := if compressed then compressed_end entry else uncompressed_end entry in
        if addr <? start then search_loop fuel arr addr compressed (mid - left) left mid
        else if e <=? addr then
          search_loop fuel arr addr compressed (right - (mid + 1)) (mid + 1) right
        else Ok mid
      else Err EINVAL
  end.

Definition _get_chunk_index_nocheck (arr : list T) (addr : Z) (compressed : bool) : io Z :=
  search_loop (S (length arr)) arr addr compressed (zlen arr) 0 (zlen arr).

Definition get_chunk_entry st (arr : list T) (index : Z) : io T :=
  _ ← rassert (index <? zlen arr);
  entry ← vec_index arr index;
  _ ← validate entry st;
  Ok entry.

(** [BlobMetaChunk::new]: the chunk is the index. *)
Definition BlobMetaChunk_new (index : Z) : io Z :=
  _ ← rassert (index <=? RAFS_MAX_CHUNKS_PER_BLOB); Ok index.

(** [while index > 0]: walk back to the first chunk of the same ZRan context. *)
Fixpoint zran_rewind st (arr : list T) (zran_index : Z) (index : nat) : io nat :=
  match index with
  | O => Ok O
  | S i =>
      entry ← get_chunk_entry st arr (Z.of_nat i);
      if negb (is_zran entry) then Err EINVAL
      else
        zi ← get_zran_index entry;
        if negb (zi =? zran_index) then Ok index else zran_rewind st arr zran_index i
  end.

(** [for entry in &chunk_info_array[index..]] of [_get_chunks_uncompressed]. *)
Fixpoint zran_collect_uncompressed st (index end_ batch_size : Z) (entries : list T)
    (count zran_last : Z) (vec : list Z) : io (list Z) :=
  match entries with
  | [] => Ok vec
  | entry :: entries =>
      _ ← validate entry st;
      if negb (is_zran entry) then Err EINVAL
      else
        zi ← get_zran_index entry;
        if negb (zi =? zran_last) then
          ctx ← vec_index (ms_zran_info_array st) zi;
          total ← uadd 64 count (out_len ctx);
          if (batch_size <? total) && (end_ <? uncompressed_offset entry) then Ok vec
          else
            chunk ← BlobMetaChunk_new index;
            zran_collect_uncompressed st index end_ batch_size entries total zi (vec ++ [chunk])
        else
          chunk ← BlobMetaChunk_new index;
          zran_collect_uncompressed st index end_ batch_size entries count zran_last (vec ++ [chunk])
  end.

(** The non-ZRan loop [while index + 1 < chunk_info_array.len()]; [entries] is
    [chunk_info_array[index + 1..]]. *)
Fixpoint extend_uncompressed st (end_ batch_end : Z) (entries : list T) (index last_end : Z)
    (vec : list Z) : io (list Z) :=
  match entries with
  | [] => Err EINVAL
  | entry :: entries =>
      let index := index + 1 in
      _ ← validate entry st;
      if negb (uncompressed_offset entry =? last_end) then Err EINVAL
      else if (end_ <=? last_end) && (batch_end <? aligned_uncompressed_end entry) then Ok vec
      else
        chunk ← BlobMetaChunk_new index;
        let vec := vec ++ [chunk] in
        let last_end := aligned_uncompressed_end entry in
        if batch_end <=? last_end then Ok vec
        else extend_uncompressed st end_ batch_end entries index last_end vec
  end.

Definition _get_chunks_uncompressed st (arr : list T) (start end_ batch_end batch_size : Z)
  : io (list Z) :=
  index ← _get_chunk_index_nocheck arr start false;
  entry ← get_chunk_entry st arr index;
  if is_zran entry then
    zran_index ← get_zran_index entry;
    ctx ← vec_index (ms_zran_info_array st) zran_index;
    first ← zran_rewind st arr zran_index (Z.to_nat index);
    zran_collect_uncompressed st (Z.of_nat first) end_ batch_size (drop first arr)
      (out_len ctx) zran_index []
  else
    chunk ← BlobMetaChunk_new index;
    let last_end := aligned_uncompressed_end entry in
    if batch_end <=? last_end then Ok [chunk]
    else extend_uncompressed st end_ batch_end (drop (Z.to_nat (index + 1)) arr) index last_end [chunk].

Fixpoint zran_collect_compressed st (index end_ batch_size pos : Z) (entries : list T)
    (zran_last : Z) (vec : list Z) : io (list Z) :=
  match entries with
  | [] => Ok vec
  | entry :: entries =>
      _ ← validate entry st;
      if negb (is_zran entry) then Err EINVAL
      else
        zi ← get_zran_index entry;
        if negb (zi =? zran_last) then
          ctx ← vec_index (ms_zran_info_array st) zi;
          in_end ← uadd 64 (in_offset ctx) (in_len ctx);
          span ← usub 64 in_end pos;
          if (batch_size <? span) && (end_ <? compressed_offset entry) then Ok vec
          else
            chunk ← BlobMetaChunk_new index;
            zran_collect_compressed st index end_ batch_size pos entries zi (vec ++ [chunk])
        else
          chunk ← BlobMetaChunk_new index;
          zran_collect_compressed st index end_ batch_size pos entries zran_last (vec ++ [chunk])
  end.

Fixpoint extend_compressed st (end_ batch_end : Z) (entries : list T) (index last_end : Z)
    (vec : list Z) : io (list Z) :=
  match entries with
  | [] => Err EINVAL
  | entry :: entries =>
      let index := index + 1 in
      _ ← validate entry st;
      if (end_ <=? last_end) && (batch_end <? compressed_end entry) then Ok vec
      else
        chunk ← BlobMetaChunk_new index;
        let vec := vec ++ [chunk] in
        let last_end := compressed_end entry in
        if batch_end <=? last_end then Ok vec
        else extend_compressed st end_ batch_end entries index last_end vec
  end.

Definition _get_chunks_compressed st (arr : list T) (start end_ batch_end batch_size : Z)
  : io (list Z) :=
  index ← _get_chunk_index_nocheck arr start true;
  entry ← get_chunk_entry st arr index;
  if is_zran entry then
    zran_index ← get_zran_index entry;
    ctx ← vec_index (ms_zran_info_array st) zran_index;
    first ← zran_rewind st arr zran_index (Z.to_nat index);
    zran_collect_compressed st (Z.of_nat first) end_ batch_size (in_offset ctx) (drop first arr)
      zran_index []
  else
    chunk ← BlobMetaChunk_new index;
    let last_end := compressed_end entry in
    if batch_end <=? last_end then Ok [chunk]
    else extend_compressed st end_ batch_end (drop (Z.to_nat (index + 1)) arr) index last_end [chunk].
End queries.

(** ** [BlobMetaChunkArray] and [BlobMetaInfo] *)

Section meta.
Context `{Profile}.

Definition arr_get_chunks_uncompressed (st : BlobMetaState) (start end_ batch_end batch_size : Z)
  : io (list Z) :=
  match ms_chunk_info_array st with
  | ArrV1 v => _get_chunks_uncompressed st v start end_ batch_end batch_size
  | ArrV2 v => _get_chunks_uncompressed st v start end_ batch_end batch_size
  end.

Definition arr_get_chunks_compressed (st : BlobMetaState) (start end_ batch_end batch_size : Z)
  : io (list Z) :=
  match ms_chunk_info_array st with
  | ArrV1 v => _get_chunks_compressed st v start end_ batch_end batch_size
  | ArrV2 v => _get_chunks_compressed st v start end_ batch_end batch_size
  end.

(** [BlobMetaInfo::get_chunks_uncompressed]. *)
Definition get_chunks_uncompressed (st : BlobMetaState) (start size batch_size : Z) : io (list Z) :=
  end_ ← ok_or (checked_add 64 start size) EINVAL;
  if ms_uncompressed_size st <? end_ then Err EINVAL
  else
    let batch_end :=
      if batch_size <=? size then end_
      else Z.min (default end_ (checked_add 64 start batch_size)) (ms_uncompressed_size st) in
    let batch_size := if batch_size <? size then size else batch_size in
    arr_get_chunks_uncompressed st start end_ batch_end batch_size.

(** [BlobMetaInfo::get_chunks_compressed]. *)
Definition get_chunks_compressed (st : BlobMetaState) (start size batch_size : Z) : io (list Z) :=
  end_ ← ok_or (checked_add 64 start size) EINVAL;
  if ms_compressed_size st <? end_ then Err EINVAL
  else
    let batch_end :=
      if batch_size <=? size then end_
      else Z.min (default end_ (checked_add 64 start batch_size)) (ms_compressed_size st) in
    arr_get_chunks_compressed st start end_ batch_end batch_size.

(** Accessors of [BlobMetaChunkArray]: [v[index]] panics out of range. *)
Definition arr_entry {A} (f1 : BlobChunkInfoV1Ondisk -> io A) (f2 : BlobChunkInfoV2Ondisk -> io A)
    (a : BlobMetaChunkArray) (index : Z) : io A :=
  match a with
  | ArrV1 v => c ← vec_index v index; f1 c
  | ArrV2 v => c ← vec_index v index; f2 c
  end.

Definition get_zran_index_at (st : BlobMetaState) (index : Z) : io Z :=
  arr_entry get_zran_index get_zran_index (ms_chunk_info_array st) index.

Definition get_zran_offset_at (st : BlobMetaState) (index : Z) : io Z :=
  arr_entry get_zran_offset get_zran_offset (ms_chunk_info_array st) index.

(** [impl BlobChunkInfo for BlobMetaChunk]: the accessors of the chunk at [index]; its
    [chunk_id] panics. *)
Definition chunk_desc_of {A} `{BlobMetaChunkInfo A} (st : BlobMetaState) (index : Z) (c : A)
  : io ChunkDesc :=
  Ok (mkChunk None index (ms_blob_index st) (compressed_offset c) (compressed_size c)
        (uncompressed_offset c) (uncompressed_size c) (is_compressed c)).

Definition BlobMetaChunk_desc (st : BlobMetaState) (index : Z) : io ChunkDesc :=
  arr_entry (chunk_desc_of st index) (chunk_desc_of st index) (ms_chunk_info_array st) index.

(** [get_zran_context]: the context and its dictionary. *)
Definition get_zran_context (st : BlobMetaState) (zran_index : Z)
  : option (ZranInflateContext * list Z) :=
  if zran_index <? zlen (ms_zran_info_array st) then
    match ms_zran_info_array st !! Z.to_nat zran_index with
    | None => None
    | Some entry =>
        let dict_off := dict_offset entry in
        let size := dict_size entry in
        match checked_add 64 dict_off size with
        | None => None
        | Some e =>
            if zlen (ms_zran_dict_table st) <? e then None
            else Some (entry, take (Z.to_nat size) (drop (Z.to_nat dict_off) (ms_zran_dict_table st)))
        end
    end
  else None.
End meta.

(** ** Request amplification: [_add_more_chunks] *)

Section add_more.
Context `{Profile} {T : Type} `{!BlobMetaChunkInfo T}.

(** [BlobMetaChunk::new(index, state)] as the chunk it denotes. *)
Definition meta_chunk st (index : Z) : io ChunkDesc :=
  i ← BlobMetaChunk_new index; BlobMetaChunk_desc st i.

Fixpoint add_more_zran st (batch_end : Z) (entries : list T) (index last_zran_idx : Z)
    (vec : list ChunkDesc) : io (list ChunkDesc) :=
  match entries with
  | [] => Ok vec
  | entry :: entries =>
      match validate entry st with
      | Panic => Panic
      | Err _ => Err EINVAL
      | Ok _ =>
          if negb (is_zran entry) then Err EINVAL
          else
            zi ← get_zran_index entry;
            if last_zran_idx <? zi then
              next_zran ← uadd 32 last_zran_idx 1;
              if (compressed_end entry + RAFS_MAX_CHUNK_SIZE <=? batch_end) && (zi =? next_zran)
              then
                chunk ← meta_chunk st index;
                add_more_zran st batch_end entries (index + 1) next_zran (vec ++ [chunk])
              else Ok vec
            else
              chunk ← meta_chunk st index;
              add_more_zran st batch_end entries (index + 1) last_zran_idx (vec ++ [chunk])
      end
  end.

(** [for i in chunk.id() + 1..next.id()]: the valid entries between two requested chunks. *)
Fixpoint fill_gap st (arr : list T) (ids : list Z) (vec : list ChunkDesc) : io (list ChunkDesc) :=
  match ids with
  | [] => Ok vec
  | i :: ids =>
      entry ← vec_index arr i;
      match validate entry st with
      | Panic => Panic
      | Err _ => fill_gap st arr ids vec
      | Ok _ => chunk ← meta_chunk st i; fill_gap st arr ids (vec ++ [chunk])
      end
  end.

(** [for idx in 0..chunks.len() - 1], then the push of the last chunk. *)
Fixpoint fill_gaps st (arr : list T) (batch_end : Z) (chunks : list ChunkDesc)
    (vec : list ChunkDesc) : io (list ChunkDesc) :=
  match chunks with
  | [] => Ok vec
  | [last] => Ok (vec ++ [last])
  | chunk :: ((next :: _) as rest) =>
      next_end ← uadd 64 (chunk_c_offset next) (chunk_c_size next);
      let vec := vec ++ [chunk] in
      succ ← uadd 32 (chunk_id chunk) 1;
      vec ← (if negb (succ =? chunk_id next) && (next_end <=? batch_end)
             then fill_gap st arr (seqZ succ (chunk_id next - succ)) vec
             else Ok vec);
      fill_gaps st arr batch_end rest vec
  end.

(** [while last_idx < chunk_info_array.len()]. *)
Fixpoint extend_tail st (batch_end : Z) (entries : list T) (last_idx : Z)
    (vec : list ChunkDesc) : io (list ChunkDesc) :=
  match entries with
  | [] => Ok vec
  | entry :: entries =>
      match validate entry st with
      | Panic => Panic
      | Err _ => Ok vec
      | Ok _ =>
          if batch_end <? compressed_end entry then Ok vec
          else
            chunk ← meta_chunk st last_idx;
            extend_tail st batch_end entries (last_idx + 1) (vec ++ [chunk])
      end
  end.

Definition _add_more_chunks st (arr : list T) (chunks : list ChunkDesc) (max_size : Z)
  : io (list ChunkDesc) :=
  first ← vec_index chunks 0;
  batch_end ← uadd 64 (chunk_c_offset first) max_size;
  let first_idx := chunk_id first in
  first_entry ← get_chunk_entry st arr first_idx;
  last ← vec_index chunks (zlen chunks - 1);
  let last_idx := chunk_id last in
  last_entry ← get_chunk_entry st arr last_idx;
  if is_zran last_entry then
    first_zran_idx ← get_zran_index first_entry;
    last_zran_idx ← get_zran_index last_entry;
    index ← zran_rewind st arr first_zran_idx (Z.to_nat first_idx);
    add_more_zran st batch_end (drop index arr) (Z.of_nat index) last_zran_idx []
  else
    vec ← fill_gaps st arr batch_end chunks [];
    extend_tail st batch_end (drop (Z.to_nat (last_idx + 1)) arr) (last_idx + 1) vec.
End add_more.

Definition add_more_chunks `{Profile} (st : BlobMetaState) (chunks : list ChunkDesc) (max_size : Z)
  : io (list ChunkDesc) :=
  match ms_chunk_info_array st with
  | ArrV1 v => _add_more_chunks st v chunks max_size
  | ArrV2 v => _add_more_chunks st v chunks max_size
  end.

(** ** Correctness of the binary search *)

Section search.
Context `{Profile} {T : Type} `{BlobMetaChunkInfoLaws T}.
Implicit Types (arr : list T) (c : T).

Definition range_lo (compressed : bool) c : Z :=
  if compressed then compressed_offset c else uncompressed_offset c.
Definition range_hi (compressed : bool) c : Z :=
  if compressed then compressed_end c else uncompressed_end c.
Definition holds_addr (compressed : bool) (addr : Z) c : Prop :=
  range_lo compressed c <= addr < range_hi compressed c.

(** Entries in address order, without overlap; holes between them are allowed. *)
Definition chunks_ordered (compressed : bool) arr : Prop :=
  forall i j ci cj, arr !! i = Some ci -> arr !! j = Some cj -> (i < j)%nat ->
    range_hi compressed ci <= range_lo compressed cj.

Lemma range_lo_hi b c : wf_chunk c -> range_lo b c <= range_hi b c.
Proof.
  intros Hc. pose proof (compressed_size_range c Hc). pose proof (uncompressed_size_range c Hc).
  destruct b; unfold range_lo, range_hi, compressed_end, uncompressed_end; lia.
Qed.

Lemma search_loop_mid fuel arr addr b left right :
  0 <= left -> left < right -> right <= zlen arr ->
  exists c, arr !! Z.to_nat (left + (right - left) / 2) = Some c /\
    left <= left + (right - left) / 2 < right /\
    search_loop (S fuel) arr addr b (right - left) left right =
      if addr <? range_lo b c then
        search_loop fuel arr addr b (left + (right - left) / 2 - left) left (left + (right - left) / 2)
      else if range_hi b c <=? addr then
        search_loop fuel arr addr b (right - (left + (right - left) / 2 + 1))
          (left + (right - left) / 2 + 1) right
      else Ok (left + (right - left) / 2).
Proof.
  intros Hl Hlr Hr. assert (0 <= (right - left) / 2 < right - left).
  { pose proof (Z.div_mod (right - left) 2). pose proof (Z.mod_pos_bound (right - left) 2). lia. }
  destruct (vec_index_is_Ok (E:=errno) arr (left + (right - left) / 2)) as (c & Hi & Hc);
    [unfold zlen in *; lia|].
  exists c. split_and!; [done | lia..|]. cbn [search_loop].
  assert ((left <? right) = true) as -> by lia. rewrite Hi. done.
Qed.

(** The loop never panics and never runs out of fuel; a found index holds the address. *)
Lemma search_loop_sound fuel arr addr b left right :
  0 <= left -> left <= right -> right <= zlen arr -> right - left < Z.of_nat fuel ->
  match search_loop fuel arr addr b (right - left) left right with
  | Ok i => 0 <= i < zlen arr /\ exists c, arr !! Z.to_nat i = Some c /\ holds_addr b addr c
  | Err e => e = EINVAL
  | Panic => False
  end.
Proof.
  revert left right. induction fuel as [|fuel IH]; intros left right Hl Hlr Hr Hf; [lia|].
  destruct (Z.eq_dec left right) as [<-|Hne].
  { cbn. by rewrite Z.ltb_irrefl. }
  destruct (search_loop_mid fuel arr addr b left right) as (c & Hc & Hm & ->); [lia..|].
  destruct (Z.ltb_spec addr (range_lo b c)); [apply IH; lia|].
  destruct (Z.leb_spec (range_hi b c) addr); [apply IH; lia|].
  split; [lia|]. exists c. split; [done|]. unfold holds_addr. lia.
Qed.

(** On an ordered array the loop finds the chunk that holds the address. *)
Lemma search_loop_complete fuel arr addr b left right i c :
  Forall wf_chunk arr -> chunks_ordered b arr ->
  0 <= left -> right <= zlen arr -> right - left < Z.of_nat fuel ->
  arr !! i = Some c -> holds_addr b addr c -> left <= Z.of_nat i < right ->
  search_loop fuel arr addr b (right - left) left right = Ok (Z.of_nat i).
Proof.
  intros Hwf Ho. revert left right.
  induction fuel as [|fuel IH]; intros left right Hl Hr Hf Hi Ha Hlr; [lia|].
  destruct (search_loop_mid fuel arr addr b left right) as (c' & Hc & Hm & ->); [lia..|].
  pose proof (range_lo_hi b c' (Forall_lookup_1 _ _ _ _ Hwf Hc)).
  set (mid := left + (right - left) / 2) in *. unfold holds_addr in Ha.
  assert (Z.of_nat i < mid -> range_hi b c <= range_lo b c') as Hlt.
  { intros. apply (Ho i (Z.to_nat mid)); done || lia. }
  assert (mid < Z.of_nat i -> range_hi b c' <= range_lo b c) as Hgt.
  { intros. apply (Ho (Z.to_nat mid) i); done || lia. }
  assert (mid = Z.of_nat i -> c' = c) as Heq.
  { intros ->. rewrite Nat2Z.id in Hc. congruence. }
  case_match eqn:E1; [|case_match eqn:E2].
  - apply IH; try done; try lia. destruct (Z.eq_dec mid (Z.of_nat i)); [|lia].
    rewrite Heq in E1 by done. lia.
  - apply IH; try done; try lia. destruct (Z.eq_dec mid (Z.of_nat i)); [|lia].
    rewrite Heq in E2 by done. lia.
  - f_equal. destruct (Z.lt_trichotomy mid (Z.of_nat i)) as [?|[?|?]]; [|done|]; exfalso.
    + specialize (Hgt ltac:(done)). lia.
    + specialize (Hlt ltac:(done)). lia.
Qed.

(** C20: the binary search over a chunk array terminates without a panic, and on an array
    ordered by address it is exact: it returns the index of the chunk that holds the address
    when there is one, and [EINVAL] when the address falls in a hole or outside the blob. *)
Theorem get_chunk_index_exact arr addr b : Forall wf_chunk arr -> chunks_ordered b arr ->
  (exists i c, _get_chunk_index_nocheck arr addr b = Ok (Z.of_nat i) /\ arr !! i = Some c /\
     holds_addr b addr c) \/
  (_get_chunk_index_nocheck arr addr b = Err EINVAL /\
   forall i c, arr !! i = Some c -> ~ holds_addr b addr c).
Proof.
  intros Hwf Ho. unfold _get_chunk_index_nocheck.
  pose proof (search_loop_sound (S (length arr)) arr addr b 0 (zlen arr)) as Hs.
  rewrite Z.sub_0_r in Hs. specialize (Hs ltac:(lia) ltac:(unfold zlen; lia) ltac:(lia)
    ltac:(unfold zlen; lia)).
  destruct (search_loop _ _ _ _ _ _ _) as [i|e|] eqn:E; [left|right|done].
  - destruct Hs as (Hi & c & Hc & Ha). exists (Z.to_nat i), c. by rewrite Z2Nat.id by lia.
  - split; [by rewrite Hs|]. intros i c Hc Ha.
    pose proof (lookup_lt_Some _ _ _ Hc).
    pose proof (search_loop_complete (S (length arr)) arr addr b 0 (zlen arr) i c Hwf Ho) as Hk.
    rewrite Z.sub_0_r, E in Hk.
    discriminate Hk; unfold zlen; done || lia.
Qed.

Lemma get_chunk_index_complete arr addr b i c : Forall wf_chunk arr -> chunks_ordered b arr ->
  arr !! i = Some c -> holds_addr b addr c -> _get_chunk_index_nocheck arr addr b = Ok (Z.of_nat i).
Proof.
  intros Hwf Ho Hc Ha. pose proof (lookup_lt_Some _ _ _ Hc).
  pose proof (search_loop_complete (S (length arr)) arr addr b 0 (zlen arr) i c Hwf Ho) as Hk.
  rewrite Z.sub_0_r in Hk. apply Hk; unfold zlen; done || lia.
Qed.

Lemma get_chunk_index_sound arr addr b i :
  _get_chunk_index_nocheck arr addr b = Ok i ->
  0 <= i < zlen arr /\ exists c, arr !! Z.to_nat i = Some c /\ holds_addr b addr c.
Proof.
  intros E. pose proof (search_loop_sound (S (length arr)) arr addr b 0 (zlen arr)) as Hs.
  rewrite Z.sub_0_r in Hs. unfold _get_chunk_index_nocheck in E. rewrite E in Hs.
  apply Hs; unfold zlen; lia.
Qed.

Lemma get_chunk_index_no_panic arr addr b : _get_chunk_index_nocheck arr addr b <> Panic.
Proof.
  intros E. pose proof (search_loop_sound (S (length arr)) arr addr b 0 (zlen arr)) as Hs.
  rewrite Z.sub_0_r in Hs. unfold _get_chunk_index_nocheck in E. rewrite E in Hs.
  apply Hs; unfold zlen; lia.
Qed.
End search.

(** ** Coverage of the range queries *)

Section coverage.
Context `{Profile} {T : Type} `{BlobMetaChunkInfoLaws T}.
Implicit Types (st : BlobMetaState) (arr l : list T) (c : T).

(** [l] starts at [e], every entry is valid and starts where the previous one ends after
    4K alignment. *)
Fixpoint chain st (e : Z) l : Prop :=
  match l with
  | [] => True
  | c :: l => uncompressed_offset c = e /\ validate c st = Ok tt /\ chain st (aligned_uncompressed_end c) l
  end.

Fixpoint chain_end (e : Z) l : Z :=
  match l with [] => e | c :: l => chain_end (aligned_uncompressed_end c) l end.

(** The queried chunks are [n] consecutive entries from [i] on that hold [start], are
    contiguous and reach [end_]; beyond the first one, no chunk is fetched that both
    starts after the requested range and ends after the batch. *)
Definition covers_uncompressed st arr (ids : list Z) (start end_ batch_end : Z) : Prop :=
  exists i n c rest, ids = seqZ (Z.of_nat i) (Z.of_nat (S n)) /\
    take (S n) (drop i arr) = c :: rest /\ length rest = n /\
    uncompressed_offset c <= start < uncompressed_end c /\
    chain st (uncompressed_offset c) (c :: rest) /\
    end_ <= chain_end (uncompressed_offset c) (c :: rest) /\
    Forall (fun d => aligned_uncompressed_end d <= batch_end \/ uncompressed_offset d < end_) rest.

Lemma seqZ_snoc_cons (i : Z) n : 0 <= n -> i :: seqZ (i + 1) n = seqZ i (n + 1).
Proof. intros. rewrite (seqZ_cons i (n + 1)) by lia. f_equal. f_equal; lia. Qed.

Lemma extend_uncompressed_Ok st end_ batch_end entries index last_end vec ids :
  end_ <= batch_end ->
  extend_uncompressed st end_ batch_end entries index last_end vec = Ok ids ->
  exists n, ids = vec ++ seqZ (index + 1) (Z.of_nat n) /\ (n <= length entries)%nat /\
    chain st last_end (take n entries) /\ end_ <= chain_end last_end (take n entries) /\
    Forall (fun d => aligned_uncompressed_end d <= batch_end \/ uncompressed_offset d < end_)
      (take n entries).
Proof.
  intros Hb. revert index last_end vec. induction entries as [|c entries IH]; intros index last_end vec; [done|].
  cbn [extend_uncompressed]. intros Hx. inv_ok.
  destruct (Z.eqb_spec (uncompressed_offset c) last_end) as [Ho|]; [|done]. cbn [negb] in Hx.
  destruct ((end_ <=? last_end) && _) eqn:E1.
  { inv_ok. exists 0%nat. rewrite app_nil_r. cbn. split_and!; [done..| lia | constructor | lia | constructor]. }
  inv_ok. unfold BlobMetaChunk_new in Ha0. inv_ok.
  assert (aligned_uncompressed_end c <= batch_end \/ uncompressed_offset c < end_) as Hd by lia.
  destruct (Z.leb_spec batch_end (aligned_uncompressed_end c)) as [E2|E2].
  { inv_ok. exists 1%nat. cbn -[aligned_uncompressed_end]. rewrite take_0. cbn -[aligned_uncompressed_end].
    split_and!; try done; [lia | lia | by constructor]. }
  apply IH in Hx as (n & -> & Hn & Hc & He & Hf). exists (S n). cbn -[aligned_uncompressed_end seqZ Z.of_nat].
  split_and!; try done; [ | lia | by constructor].
  rewrite <- app_assoc. cbn. rewrite seqZ_snoc_cons by lia. do 2 f_equal. lia.
Qed.

Lemma get_chunks_uncompressed_covers st arr start end_ batch_end batch_size ids :
  Forall (fun c => is_zran c = false) arr -> end_ <= batch_end ->
  _get_chunks_uncompressed st arr start end_ batch_end batch_size = Ok ids ->
  covers_uncompressed st arr ids start end_ batch_end.
Proof.
  intros Hz Hb Hx. unfold _get_chunks_uncompressed in Hx. inv_ok.
  apply get_chunk_index_sound in Ha as (Hi & c & Hc & Ha).
  unfold get_chunk_entry in Ha0. inv_ok. apply vec_index_Ok in Ha2 as [_ Hc2].
  rewrite Hc in Hc2. injection Hc2 as <-.
  rewrite (Forall_lookup_1 _ _ _ _ Hz Hc) in Hx. inv_ok. unfold BlobMetaChunk_new in Ha0. inv_ok.
  assert (drop (Z.to_nat a0) arr = c :: drop (Z.to_nat (a0 + 1)) arr) as Hd.
  { rewrite (drop_S arr c _ Hc). f_equal. f_equal. lia. }
  destruct (Z.leb_spec batch_end (aligned_uncompressed_end c)) as [E|E].
  - inv_ok. exists (Z.to_nat a0), 0%nat, c, []. rewrite Hd. cbn -[aligned_uncompressed_end].
    split_and!; try done; [by rewrite Z2Nat.id by lia | apply Ha | apply Ha | lia].
  - apply extend_uncompressed_Ok in Hx as (n & -> & Hn & Hch & He & Hf); [|done].
    exists (Z.to_nat a0), n, c, (take n (drop (Z.to_nat (a0 + 1)) arr)). rewrite Hd.
    cbn -[aligned_uncompressed_end seqZ Z.of_nat].
    rewrite length_take_le, Z2Nat.id by lia.
    split_and!; try done; [ | apply Ha | apply Ha].
    rewrite seqZ_snoc_cons by lia. f_equal. lia.
Qed.

Lemma chain_app st e l1 l2 : chain st e (l1 ++ l2) <-> chain st e l1 /\ chain st (chain_end e l1) l2.
Proof. revert e. induction l1 as [|c l1 IH]; intros e; cbn; [tauto|]. rewrite IH. tauto. Qed.

Lemma chain_end_app e l1 l2 : chain_end e (l1 ++ l2) = chain_end (chain_end e l1) l2.
Proof. revert e. induction l1 as [|c l1 IH]; intros e; cbn; [done|]. by rewrite IH. Qed.

Lemma chain_end_mono st e l : Forall wf_chunk l -> chain st e l -> e <= chain_end e l.
Proof.
  intros Hl. revert e. induction Hl as [|c l Hc Hl IH]; intros e; cbn; [lia|].
  intros (<- & _ & Hch). apply IH in Hch.
  pose proof (aligned_uncompressed_end_spec c Hc). pose proof (uncompressed_size_range c Hc).
  unfold uncompressed_end in *. lia.
Qed.

Lemma chain_ordered st e l : Forall wf_chunk l -> chain st e l -> chunks_ordered false l.
Proof.
  intros Hl Hc i j ci cj Hi Hj Hij.
  assert (l = take i l ++ ci :: drop (S i) l) as E by (by rewrite take_drop_middle).
  assert (drop (S i) l !! (j - S i)%nat = Some cj) as Hj' by (rewrite lookup_drop, <- Hj; f_equal; lia).
  apply take_drop_middle in Hj' as E2. rewrite E, <- E2 in Hc. rewrite E, <- E2 in Hl.
  apply Forall_app in Hl as [_ Hl]. inversion Hl as [|x y Hci Hr]; subst. apply Forall_app in Hr as [Hr _].
  apply chain_app in Hc as [_ [_ [_ Hc]]]. apply chain_app in Hc as [Hm [Ho _]].
  apply chain_end_mono in Hm; [|done]. pose proof (aligned_uncompressed_end_spec ci Hci).
  unfold range_lo, range_hi. lia.
Qed.

Lemma extend_uncompressed_total st end_ batch_end entries index last_end vec :
  chain st last_end entries -> last_end < batch_end -> batch_end <= chain_end last_end entries ->
  index + Z.of_nat (length entries) <= RAFS_MAX_CHUNKS_PER_BLOB ->
  exists ids, extend_uncompressed st end_ batch_end entries index last_end vec = Ok ids.
Proof.
  revert index last_end vec. induction entries as [|c entries IH]; intros index last_end vec; cbn; [lia|].
  intros (<- & -> & Hc) Hlt Hle Hn. cbn. rewrite Z.eqb_refl. cbn.
  destruct (_ && _); [by eexists|]. unfold BlobMetaChunk_new.
  assert ((index + 1 <=? RAFS_MAX_CHUNKS_PER_BLOB) = true) as -> by lia. cbn.
  destruct (Z.leb_spec batch_end (aligned_uncompressed_end c)); [by eexists|].
  apply IH; done || lia.
Qed.

(** A chunk array without ZRan chunks whose entries are valid, laid out back to back at 4K
    boundaries and end where the blob ends. *)
Definition native_layout st arr : Prop :=
  Forall wf_chunk arr /\ Forall (fun c => is_zran c = false) arr /\
  zlen arr <= RAFS_MAX_CHUNKS_PER_BLOB + 1 /\
  exists e, chain st e arr /\ chain_end e arr = ms_uncompressed_size st.

Lemma get_chunks_uncompressed_Ok st arr start end_ batch_end batch_size i c :
  native_layout st arr -> arr !! i = Some c -> holds_addr false start c ->
  batch_end <= ms_uncompressed_size st ->
  exists ids, _get_chunks_uncompressed st arr start end_ batch_end batch_size = Ok ids.
Proof.
  intros (Hwf & Hz & Hn & e & Hch & He) Hc Ha Hb. unfold _get_chunks_uncompressed.
  rewrite (get_chunk_index_complete arr start false i c Hwf (chain_ordered _ _ _ Hwf Hch) Hc Ha).
  pose proof (lookup_lt_Some _ _ _ Hc) as Hi. unfold zlen in *.
  rewrite <- (take_drop_middle _ _ _ Hc) in Hch, He. rewrite chain_end_app in He.
  apply chain_app in Hch as (_ & Ho & Hv & Hch). cbn in He.
  cbn. unfold get_chunk_entry, zlen. assert ((Z.of_nat i <? Z.of_nat (length arr)) = true) as -> by lia. cbn.
  unfold vec_index. rewrite Nat2Z.id, Hc. destruct (Z.ltb_spec (Z.of_nat i) 0); [lia|]. cbn. rewrite Hv. cbn.
  rewrite (Forall_lookup_1 _ _ _ _ Hz Hc). unfold BlobMetaChunk_new.
  assert ((Z.of_nat i <=? RAFS_MAX_CHUNKS_PER_BLOB) = true) as -> by lia. cbn.
  destruct (Z.leb_spec batch_end (aligned_uncompressed_end c)); [by eexists|].
  replace (Z.to_nat (Z.of_nat i + 1)) with (S i) by lia.
  apply extend_uncompressed_total; try done; [lia|]. rewrite length_drop. lia.
Qed.
End coverage.

(** A predicate on the chunk array of a state, at either layout of the entries. *)
Definition on_chunk_array `{Profile}
    (P : forall T (I : BlobMetaChunkInfo T), BlobMetaChunkInfoLaws T -> list T -> Prop) (st : BlobMetaState) : Prop :=
  match ms_chunk_info_array st with
  | ArrV1 v => P BlobChunkInfoV1Ondisk _ _ v
  | ArrV2 v => P BlobChunkInfoV2Ondisk _ _ v
  end.

(** The end of the batch [BlobMetaInfo::get_chunks_uncompressed] computes. *)
Definition query_batch_end (start size batch_size limit : Z) : Z :=
  if batch_size <=? size then start + size
  else Z.min (default (start + size) (checked_add 64 start batch_size)) limit.

Lemma query_batch_end_ge start size batch_size limit : start + size <= limit -> 
  start + size <= query_batch_end start size batch_size limit <= limit.
Proof.
  intros. unfold query_batch_end. destruct (Z.leb_spec batch_size size); [lia|].
  destruct (checked_add 64 start batch_size) as [x|] eqn:E; cbn; [|lia].
  apply checked_add_Some in E as [-> ?]. lia.
Qed.


(** C21: on a blob whose chunks are valid and laid out back to back up to the end of the blob,
    [get_chunks_uncompressed] answers every in-range request that starts inside a chunk:
    it never fails, whatever the batch size. *)
Theorem get_chunks_uncompressed_total `{Profile} st start size batch_size :
  on_chunk_array (fun _ _ _ arr => native_layout st arr /\
    exists i c, arr !! i = Some c /\ holds_addr false start c) st ->
  start + size < 2 ^ 64 -> start + size <= ms_uncompressed_size st ->
  exists ids, get_chunks_uncompressed st start size batch_size = Ok ids.
Proof.
  unfold get_chunks_uncompressed, arr_get_chunks_uncompressed, on_chunk_array. intros Hn Hr Hs.
  assert (checked_add 64 start size = Some (start + size)) as -> by (by apply checked_add_Some). cbn [ok_or mbind outcome_bind].
  destruct (Z.ltb_spec (ms_uncompressed_size st) (start + size)); [lia|].
  fold (query_batch_end start size batch_size (ms_uncompressed_size st)).
  pose proof (query_batch_end_ge start size batch_size (ms_uncompressed_size st) ltac:(done)).
  destruct (ms_chunk_info_array st); destruct Hn as (Hn & i & c & Hc & Ha);
    refine (get_chunks_uncompressed_Ok _ _ _ _ _ _ _ _ Hn Hc Ha _); lia.
Qed.

(** Three compressed chunks of 0x1800, 0x1000 and 0x800 bytes. *)
Definition sample_v2 : list BlobChunkInfoV2Ondisk :=
  Eval vm_compute in
  match a ← add_v2 (ArrV2 []) 0 0x700 0 0x1800 true 0;
        a ← add_v2 a 0x700 0x600 0x2000 0x1000 true 0;
        add_v2 a 0xd00 0x300 0x3000 0x800 true 0 with
  | Ok (ArrV2 v) => v
  | _ => []
  end.
Definition sample_state : BlobMetaState := mkBlobMetaState 0 0 0x1000 0x4000 (ArrV2 sample_v2) [] [].

Ltac eval_Forall := repeat (constructor; [by vm_compute|]); constructor.

Lemma get_chunk_index_exact_witness :
  exists i c, @_get_chunk_index_nocheck _ (@V2_chunk_info dev_profile) sample_v2 0x2345 false = Ok (Z.of_nat i) /\
    sample_v2 !! i = Some c /\ @holds_addr _ (@V2_chunk_info dev_profile) false 0x2345 c.
Proof.
  destruct (@get_chunk_index_exact _ (@V2_chunk_info dev_profile) (@V2_chunk_laws dev_profile)
    sample_v2 0x2345 false) as [Hx|[Hx _]]; [ | | exact Hx | vm_compute in Hx; discriminate].
  - eval_Forall.
  - intros i j ci cj Hi Hj Hij.
    do 3 (destruct i as [|i]; [injection Hi as <-; do 3 (destruct j as [|j]; [injection Hj as <-; (vm_compute; done) || lia|]); done |]).
    done.
Defined.


Lemma get_chunks_uncompressed_total_witness :
  exists ids, @get_chunks_uncompressed dev_profile sample_state 0x2001 0x1200 0x100 = Ok ids.
Proof.
  apply (@get_chunks_uncompressed_total dev_profile sample_state 0x2001 0x1200 0x100); [|by vm_compute..].
  split; [split_and!; [eval_Forall | eval_Forall | by vm_compute |]|].
  - exists 0. by vm_compute.
  - eexists 1%nat, _. split; [reflexivity|]. by vm_compute.
Defined.

(** ** Queries on ZRan blobs *)

(** The chunks of one context in a ZRan query all carry the index the loop started with. *)
Lemma zran_collect_uncompressed_index `{Profile} {T} `{!BlobMetaChunkInfo T} st index end_ batch_size
    (entries : list T) count zran_last vec ids :
  zran_collect_uncompressed st index end_ batch_size entries count zran_last vec = Ok ids ->
  exists n, ids = vec ++ replicate n index.
Proof.
  assert (forall v, exists n, v = v ++ replicate n index) as H0 by (intros v; exists 0%nat; by rewrite app_nil_r).
  revert count zran_last vec. induction entries as [|c entries IH]; intros count zran_last vec Hx; cbn in Hx.
  { inv_ok. apply H0. }
  inv_ok. destruct (negb (is_zran c)); [done|]. inv_ok. unfold BlobMetaChunk_new in Hx.
  destruct (negb _); inv_ok; [destruct (_ && _); inv_ok; [apply H0|]|];
    apply IH in Hx as [n ->]; exists (S n); cbn; by rewrite <- app_assoc.
Qed.

(** One ZRan context of 0x2000 decompressed bytes shared by two chunks of 0x1000 bytes. *)
Definition sample_zran : list BlobChunkInfoV2Ondisk :=
  Eval vm_compute in
  match @finish_chunk dev_profile (mkZranChunkInfo 0 0x800 0x1000 0 0) 0,
        @finish_chunk dev_profile (mkZranChunkInfo 0 0x800 0x1000 0 0x1000) 0x1000 with
  | Ok (a, _), Ok (b, _) => [a; b]
  | _, _ => []
  end.
Definition sample_zran_state : BlobMetaState :=
  mkBlobMetaState 0 BLOB_META_FEATURE_ZRAN 0x1000 0x2000 (ArrV2 sample_zran) [mkZran 0 0 0 0x800 0x2000 0 0 0] [].

