(* ===== verification/AddMore.v ===== *)
(** Request amplification keeps the request ([storage/src/meta/mod.rs], [_add_more_chunks]).

    On a table without ZRan chunks, the list [add_more_chunks] returns contains the requested
    chunks, in order, is strictly ordered by chunk index, holds only entries of the table, and
    every chunk it adds ends within the requested batch. *)
From stdpp Require Import sorting.
From S2P Require Import Prelude ChunkInfo Device BlobMeta.

(** The compressed end of a chunk. *)
Definition c_limit (d : ChunkDesc) : Z := chunk_c_offset d + chunk_c_size d.

Section add_more_spec.
Context `{Profile} {T : Type} `{BlobMetaChunkInfoLaws T}.
Context (st : BlobMetaState) (arr : list T) (req : list ChunkDesc) (batch_end : Z).

(** [arr] is the chunk table of the state. *)
Definition table_of : Prop :=
  forall i, BlobMetaChunk_desc st i = (c ← vec_index arr i; chunk_desc_of st i c).

Definition in_table (d : ChunkDesc) : Prop := BlobMetaChunk_desc st (chunk_id d) = Ok d.

Definition small_ids (n : Z) (vec : list ChunkDesc) : Prop := Forall (fun d => chunk_id d < n) vec.

Record more_inv (n : Z) (vec : list ChunkDesc) : Prop := {
  mi_sorted : StronglySorted Z.lt (chunk_id <$> vec);
  mi_below : small_ids n vec;
  mi_table : Forall in_table vec;
  mi_batch : Forall (fun d => d ∈ req \/ c_limit d <= batch_end) vec
}.

Lemma more_inv_weaken n m vec : more_inv n vec -> n <= m -> more_inv m vec.
Proof. intros [? Hb ? ?] ?. split; try done. apply (Forall_impl _ _ _ Hb). cbn. intros; lia. Qed.

Lemma more_inv_snoc n vec d : more_inv n vec -> n <= chunk_id d -> in_table d ->
  d ∈ req \/ c_limit d <= batch_end -> more_inv (chunk_id d + 1) (vec ++ [d]).
Proof.
  intros [Hs Hb Ht Hq] Hn Hd Hr. split.
  - rewrite fmap_app. apply StronglySorted_app. split_and!; [|done|by repeat constructor].
    intros a b Ha Hb'. apply list_elem_of_fmap in Ha as (x & -> & Hx).
    apply list_elem_of_singleton in Hb' as ->.
    pose proof (proj1 (Forall_forall _ _) Hb x Hx). cbn in *. lia.
  - apply Forall_app. split; [|constructor; [lia|constructor]].
    apply (Forall_impl _ _ _ Hb). cbn. intros; lia.
  - apply Forall_app. by split; [|constructor].
  - apply Forall_app. by split; [|constructor].
Qed.

Lemma meta_chunk_Ok i d : table_of -> meta_chunk st i = Ok d ->
  chunk_id d = i /\ in_table d /\ exists c, arr !! Z.to_nat i = Some c /\ c_limit d = compressed_end c /\
    chunk_c_offset d = compressed_offset c /\ chunk_c_size d = compressed_size c.
Proof.
  intros Ht Hx. unfold meta_chunk, BlobMetaChunk_new in Hx. inv_ok.
  unfold in_table. rewrite Ht in Hx. inv_ok. apply vec_index_Ok in Ha as [? Hc].
  unfold chunk_desc_of in Hx. inv_ok. cbn. rewrite Ht.
  split_and!; [done| |]; [|by exists a0]. rewrite (proj2 (vec_index_Ok _ _ _)) by done. done.
Qed.

Lemma in_table_entry d : table_of -> zlen arr < 2 ^ 32 -> in_table d ->
  exists c, arr !! Z.to_nat (chunk_id d) = Some c /\ 0 <= chunk_id d < 2 ^ 32 - 1 /\
    chunk_c_offset d = compressed_offset c /\ chunk_c_size d = compressed_size c.
Proof.
  intros Ht Hn Hd. unfold in_table in Hd. rewrite Ht in Hd. apply bind_Ok in Hd as (c & Hc & Hd).
  apply vec_index_Ok in Hc as [? Hc]. apply lookup_lt_Some in Hc as Hlt. exists c.
  unfold zlen in Hn. injection Hd as <-. cbn in *. split_and!; done || lia.
Qed.

Lemma fill_gap_inv s k vec r : table_of ->
  (forall i c, s <= i < s + k -> arr !! Z.to_nat i = Some c -> compressed_end c <= batch_end) ->
  more_inv s vec -> 0 <= k -> fill_gap st arr (seqZ s k) vec = Ok r ->
  more_inv (s + k) r /\ exists l, r = vec ++ l.
Proof.
  intros Ht Hc Hi Hk. remember (Z.to_nat k) as n eqn:Hn. revert s k vec Hc Hi Hk Hn.
  induction n as [|n IH]; intros s k vec Hc Hi Hk Hn.
  - assert (k = 0) as -> by lia. cbn. intros [= <-]. rewrite Z.add_0_r. split; [done|]. exists []. by rewrite app_nil_r.
  - rewrite seqZ_cons by lia. cbn [fill_gap]. intros Hx. inv_ok.
    destruct (validate a st); [|..|done].
    + inv_ok. apply meta_chunk_Ok in Ha0 as (<- & Hin & c & Hl & Hlim & _); [|done].
      apply IH in Hx as (Hx & l & ->); [| |eapply more_inv_snoc; try done; try lia|lia..].
      * split; [eapply more_inv_weaken; [done|lia]|]. eexists. by rewrite <- app_assoc.
      * intros i c' Hi'. apply Hc. lia.
      * right. rewrite Hlim. eapply Hc; [|done]. lia.
    + apply IH in Hx as (Hx & Hp); [| |eapply more_inv_weaken; [done|lia]|lia..].
      * split; [eapply more_inv_weaken; [done|lia]|done].
      * intros i c' Hi'. apply Hc. lia.
Qed.

Lemma extend_tail_inv entries idx vec r : table_of -> entries = drop (Z.to_nat idx) arr -> 0 <= idx ->
  more_inv idx vec -> extend_tail st batch_end entries idx vec = Ok r ->
  (exists n, more_inv n r) /\ exists l, r = vec ++ l.
Proof.
  intros Ht. revert idx vec. induction entries as [|c entries IH]; intros idx vec He Hi Hv; cbn.
  - intros [= <-]. split; [by exists idx|]. exists []. by rewrite app_nil_r.
  - destruct (validate c st); [| |done].
    2: { intros [= <-]. split; [by exists idx|]. exists []. by rewrite app_nil_r. }
    destruct (Z.ltb_spec batch_end (compressed_end c)).
    { intros [= <-]. split; [by exists idx|]. exists []. by rewrite app_nil_r. }
    intros Hx. apply bind_Ok in Hx as (d & Ha & Hx).
    apply meta_chunk_Ok in Ha as (<- & Hin & c' & Hl & Hlim & _); [|done].
    assert (drop (Z.to_nat (chunk_id d)) arr = c' :: drop (S (Z.to_nat (chunk_id d))) arr) as Hd by (by apply drop_S).
    rewrite Hd in He. injection He as -> He.
    apply IH in Hx as (Hx & l & ->); [|rewrite He; f_equal; lia|lia|].
    + split; [done|]. eexists. by rewrite <- app_assoc.
    + eapply more_inv_snoc; try done; try lia.
Qed.

Lemma fill_gaps_inv chunks vec r :
  table_of -> Forall wf_chunk arr -> chunks_ordered true arr -> zlen arr < 2 ^ 32 ->
  Forall in_table chunks -> Forall (.∈ req) chunks -> StronglySorted Z.lt (chunk_id <$> chunks) ->
  (forall d, head chunks = Some d -> more_inv (chunk_id d) vec) ->
  fill_gaps st arr batch_end chunks vec = Ok r ->
  (forall d, last chunks = Some d -> more_inv (chunk_id d + 1) r) /\
  exists l, r = vec ++ l /\ chunks `sublist_of` l.
Proof.
  intros Ht Hwf Ho Hlen. revert vec. induction chunks as [|d chunks IH]; intros vec Htab Hreq Hs Hv Hx.
  { injection Hx as <-. split; [done|]. exists []. by rewrite app_nil_r. }
  apply Forall_cons in Htab as [Hd Htab]. apply Forall_cons in Hreq as [Hdr Hreq].
  specialize (Hv d eq_refl). assert (more_inv (chunk_id d + 1) (vec ++ [d])) as Hv'.
  { eapply more_inv_snoc; [done|lia|done|by left]. }
  destruct chunks as [|e chunks].
  { injection Hx as <-. split; [by intros ? [= <-]|]. by exists [d]. }
  cbn [fill_gaps] in Hx. apply StronglySorted_inv in Hs as [Hs Hlt]. apply Forall_cons in Hlt as [Hlt _].
  apply Forall_cons in Htab as Htab'. destruct Htab' as [He _].
  destruct (in_table_entry d) as (cd & Hcd & Hdi & _); [done..|].
  destruct (in_table_entry e) as (ce & Hce & Hei & Heo & Hes); [done..|].
  pose proof (compressed_end_range ce (Forall_lookup_1 _ _ _ _ Hwf Hce)) as Hr.
  unfold compressed_end, in_range in Hr. rewrite Heo, Hes in Hx.
  apply bind_Ok in Hx as (e_end & Hee & Hx). rewrite uadd_in in Hee by (unfold in_range; lia).
  apply bind_Ok in Hx as (succ & Hsucc & Hx). rewrite uadd_in in Hsucc by (unfold in_range; lia).
  injection Hee as <-. injection Hsucc as <-.
  apply bind_Ok in Hx as (vec' & Hg & Hx).
  assert (more_inv (chunk_id e) vec' /\ exists l, vec' = (vec ++ [d]) ++ l) as (Hi & l & ->).
  { destruct (negb _ && _) eqn:E.
    - apply fill_gap_inv in Hg as [Hg ?]; [|done| |done|lia].
      + split; [|done]. eapply more_inv_weaken; [done|lia].
      + intros i c Hi Hc. assert (compressed_end c <= compressed_offset ce) as Hle.
        { eapply (Ho (Z.to_nat i) (Z.to_nat (chunk_id e))); [done..|lia]. }
        pose proof (compressed_size_range ce (Forall_lookup_1 _ _ _ _ Hwf Hce)). lia.
    - injection Hg as <-. split; [eapply more_inv_weaken; [done|lia]|]. exists []. by rewrite app_nil_r. }
  apply IH in Hx as (Hl & l' & -> & Hsub); [|done..|by intros ? [= <-]].
  split; [done|]. exists ([d] ++ l ++ l'). rewrite <- !app_assoc. split; [done|].
  apply sublist_skip. by apply sublist_inserts_l.
Qed.
End add_more_spec.

Lemma _add_more_chunks_inv `{Profile} {T} `{BlobMetaChunkInfoLaws T} st (arr : list T) chunks max_size first r :
  table_of st arr -> Forall wf_chunk arr -> chunks_ordered true arr -> zlen arr < 2 ^ 32 ->
  Forall (fun c => is_zran c = false) arr ->
  Forall (in_table st) chunks -> StronglySorted Z.lt (chunk_id <$> chunks) ->
  head chunks = Some first -> in_range 64 (chunk_c_offset first + max_size) ->
  _add_more_chunks st arr chunks max_size = Ok r ->
  chunks `sublist_of` r /\ exists n, more_inv st chunks (chunk_c_offset first + max_size) n r.
Proof.
  intros Ht Hwf Ho Hlen Hz Htab Hs Hfirst Hmax Hx. unfold _add_more_chunks in Hx.
  apply bind_Ok in Hx as (f & Hf & Hx). apply vec_index_Ok in Hf as [_ Hf].
  destruct chunks as [|f' chunks]; [done|]. injection Hfirst as ->. injection Hf as <-.
  apply bind_Ok in Hx as (be & Hbe & Hx). rewrite uadd_in in Hbe by done. injection Hbe as <-.
  apply bind_Ok in Hx as (fe & _ & Hx). apply bind_Ok in Hx as (l & Hl & Hx).
  apply vec_index_Ok in Hl as [_ Hl]. apply bind_Ok in Hx as (le & Hle & Hx).
  unfold get_chunk_entry in Hle. inv_ok. apply vec_index_Ok in Ha0 as [Hid Hle].
  rewrite (Forall_lookup_1 _ _ _ _ Hz Hle) in Hx. apply bind_Ok in Hx as (vec & Hvec & Hx).
  assert (last (first :: chunks) = Some l) as Hlast.
  { rewrite last_lookup, <- Hl. f_equal. unfold zlen. cbn [length]. lia. }
  apply (fill_gaps_inv _ _ (first :: chunks)) in Hvec as (Hv & v & -> & Hsub); try done.
  - cbn in Hx. apply extend_tail_inv with (req := first :: chunks) (arr := arr) in Hx
      as ((n & Hn) & t & ->); [|done..|lia|by apply Hv].
    split; [by apply sublist_inserts_r|]. by exists n.
  - apply Forall_forall. done.
  - intros d _. split; constructor.
Qed.

(** ** Consecutive requests *)

Section dense.
Context `{Profile} {T : Type} `{BlobMetaChunkInfoLaws T}.
Context (st : BlobMetaState) (arr : list T).
Hypothesis arr_table : table_of st arr.
Hypothesis arr_small : zlen arr <= RAFS_MAX_CHUNKS_PER_BLOB.
Hypothesis arr_valid : Forall (fun c => validate c st = Ok tt /\ is_zran c = false) arr.

(** Chunks of the table with consecutive indices from [n] on. *)
Definition table_run (n : Z) (chunks : list ChunkDesc) : Prop :=
  Forall (in_table st) chunks /\ chunk_id <$> chunks = seqZ n (zlen chunks).

Lemma meta_chunk_run idx c : 0 <= idx -> arr !! Z.to_nat idx = Some c -> exists d, meta_chunk st idx = Ok d.
Proof.
  intros Hi Hc. apply lookup_lt_Some in Hc as Hlt. unfold zlen in arr_small. unfold meta_chunk, BlobMetaChunk_new.
  rewrite (proj2 (Z.leb_le _ _)) by lia. cbn [rassert mbind outcome_bind]. rewrite arr_table.
  rewrite (proj2 (vec_index_Ok _ _ _)) by done. by eexists.
Qed.

Lemma extend_tail_run batch_end entries idx vec : 0 <= idx -> entries = drop (Z.to_nat idx) arr ->
  exists tail, extend_tail st batch_end entries idx vec = Ok (vec ++ tail) /\ table_run idx tail /\
    Forall (fun d => c_limit d <= batch_end) tail.
Proof.
  assert (exists tail, Ok vec = Ok (E := errno) (vec ++ tail) /\ table_run idx tail /\ Forall (fun d => c_limit d <= batch_end) tail) as Hnil.
  { exists []. rewrite app_nil_r. split_and!; [done| |constructor]. by split. }
  revert idx vec Hnil. induction entries as [|c entries IH]; intros idx vec Hnil Hi He; [exact Hnil|].
  symmetry in He. assert (arr !! Z.to_nat idx = Some c) as Hc by (by rewrite <- (Nat.add_0_r (Z.to_nat idx)), <- lookup_drop, He).
  cbn [extend_tail]. destruct (Forall_lookup_1 _ _ _ _ arr_valid Hc) as [-> _]. destruct (Z.ltb_spec batch_end (compressed_end c)); [exact Hnil|].
  destruct (meta_chunk_run idx c Hi Hc) as (d & Ed). rewrite Ed. cbn [mbind outcome_bind].
  apply (meta_chunk_Ok _ _ _ _ arr_table) in Ed as (<- & Hd & c' & Hc' & Hl & _). assert (c' = c) as -> by congruence.
  destruct (IH (chunk_id d + 1) (vec ++ [d])) as (tail & -> & [Ht Hs] & Hb); [|lia| |].
  { exists []. rewrite app_nil_r. split_and!; [done| |constructor]. by split. }
  { replace (Z.to_nat (chunk_id d + 1)) with (Z.to_nat (chunk_id d) + 1)%nat by lia. by rewrite <- drop_drop, He. }
  exists (d :: tail). split_and!; [by rewrite <- app_assoc| |constructor; [lia|done]].
  split; [by constructor|]. rewrite seqZ_cons by (unfold zlen; cbn; lia). cbn [fmap list_fmap]. rewrite Hs. f_equal. f_equal; unfold zlen; cbn; lia.
Qed.

Lemma fill_gaps_run batch_end chunks n vec : table_run n chunks -> zlen arr < 2 ^ 32 ->
  Forall (fun d => in_range 64 (c_limit d)) chunks -> fill_gaps st arr batch_end chunks vec = Ok (vec ++ chunks).
Proof.
  intros [Ht Hs] Hn. revert n vec Ht Hs. induction chunks as [|d chunks IH]; intros n vec Ht Hs Hr; [by rewrite app_nil_r|].
  destruct chunks as [|e chunks]; [done|]. apply Forall_cons in Ht as [Hd Ht]. apply Forall_cons in Hr as [_ Hr].
  rewrite seqZ_cons in Hs by (unfold zlen; cbn; lia). injection Hs as Hdi Hs.
  pose proof Hs as Hs'. rewrite seqZ_cons in Hs' by (unfold zlen; cbn; lia). injection Hs' as Hei _.
  destruct (in_table_entry st arr d) as (_ & _ & Hid & _); [done..|].
  cbn [fill_gaps]. apply Forall_cons in Hr as Hr'. destruct Hr' as [He _]. unfold c_limit in He. rewrite (uadd_in 64 (chunk_c_offset e)) by exact He. cbn [mbind outcome_bind].
  rewrite (uadd_in 32 (chunk_id d)) by (split; lia). cbn [mbind outcome_bind].
  replace (chunk_id d + 1 =? chunk_id e) with true by lia. cbn [negb andb mbind outcome_bind].
  transitivity (Ok (E := errno) ((vec ++ [d]) ++ e :: chunks)); [|by rewrite <- app_assoc].
  refine (IH (chunk_id e) (vec ++ [d]) Ht _ Hr). etransitivity; [exact Hs|]. f_equal; unfold zlen; cbn; lia.
Qed.
End dense.

Lemma table_run_app `{Profile} st n a b : table_run st n a -> table_run st (n + zlen a) b -> table_run st n (a ++ b).
Proof.
  intros [Ha Sa] [Hb Sb]. split; [by apply Forall_app|]. rewrite fmap_app, Sa, Sb, zlen_app.
  pose proof (zlen_nonneg a). pose proof (zlen_nonneg b). by rewrite seqZ_app by lia.
Qed.

Lemma table_run_lookup `{Profile} st n v i c : table_run st n v -> v !! i = Some c -> chunk_id c = n + Z.of_nat i.
Proof.
  intros [_ Hs] Hi. assert ((chunk_id <$> v) !! i = Some (chunk_id c)) as Hc by (by rewrite list_lookup_fmap, Hi).
  rewrite Hs in Hc. by apply lookup_seqZ in Hc as [-> _].
Qed.

Lemma table_run_intro `{Profile} st n v : Forall (in_table st) v -> (forall i c, v !! i = Some c -> chunk_id c = n + Z.of_nat i) ->
  table_run st n v.
Proof.
  intros Ht Hid. split; [done|]. apply list_eq. intros i. rewrite list_lookup_fmap. destruct (v !! i) as [c|] eqn:Ei; cbn; symmetry.
  - apply lookup_seqZ. split; [by apply Hid|]. apply lookup_lt_Some in Ei. unfold zlen. lia.
  - apply lookup_ge_None. rewrite length_seqZ. apply lookup_ge_None in Ei. unfold zlen. lia.
Qed.

Lemma table_run_take `{Profile} st n v k : table_run st n v -> table_run st n (take k v).
Proof.
  intros Hv. apply table_run_intro; [by apply Forall_take, Hv|]. intros i c Hi.
  apply lookup_take_Some in Hi as [Hi _]. by apply (table_run_lookup _ _ _ _ _ Hv).
Qed.

Lemma _add_more_chunks_run `{Profile} {T} `{BlobMetaChunkInfoLaws T} st (arr : list T) chunks max_size first :
  table_of st arr -> zlen arr <= RAFS_MAX_CHUNKS_PER_BLOB -> Forall (fun c => validate c st = Ok tt /\ is_zran c = false) arr ->
  table_run st (chunk_id first) chunks -> head chunks = Some first -> Forall (fun d => in_range 64 (c_limit d)) chunks ->
  in_range 64 (chunk_c_offset first + max_size) ->
  exists tail, _add_more_chunks st arr chunks max_size = Ok (chunks ++ tail) /\
    table_run st (chunk_id first) (chunks ++ tail) /\ Forall (fun d => c_limit d <= chunk_c_offset first + max_size) tail.
Proof.
  intros Ht Hlen Hv Hrun Hfirst Hr Hm. assert (zlen arr < 2 ^ 32) as Hn by (unfold RAFS_MAX_CHUNKS_PER_BLOB in Hlen; lia).
  assert (forall d, d ∈ chunks -> exists c, get_chunk_entry st arr (chunk_id d) = Ok c /\ is_zran c = false /\ 0 <= chunk_id d) as Hentry.
  { intros d Hd. destruct (in_table_entry st arr d) as (c & Hc & Hid & _); [done..|by apply (proj1 (Forall_forall _ _) (proj1 Hrun))|].
    exists c. destruct (Forall_lookup_1 _ _ _ _ Hv Hc) as [Hval Hz]. apply lookup_lt_Some in Hc as Hlt. unfold get_chunk_entry, zlen.
    rewrite (proj2 (Z.ltb_lt _ _)) by lia. cbn [rassert mbind outcome_bind]. rewrite (proj2 (vec_index_Ok _ _ _)) by (split; [lia|done]).
    cbn [mbind outcome_bind]. rewrite Hval. split_and!; [done|done|lia]. }
  destruct (last chunks) as [l|] eqn:El; [|apply last_None in El as ->; done].
  assert (first ∈ chunks) as Hf by (destruct chunks; [done|]; injection Hfirst as ->; left).
  assert (l ∈ chunks) as Hl by (by apply last_Some_elem_of).
  destruct (Hentry first Hf) as (cf & Ef & _ & _). destruct (Hentry l Hl) as (cl & Ecl & Hz & Hl0).
  assert (chunk_id l = chunk_id first + zlen chunks - 1) as Eid.
  { destruct Hrun as [_ Hs]. assert (last (chunk_id <$> chunks) = Some (chunk_id l)) as Hla by (by rewrite fmap_last, El).
    rewrite Hs, last_lookup, length_seqZ in Hla. apply lookup_seqZ in Hla as [-> Hla]. unfold zlen in *. lia. }
  unfold _add_more_chunks. rewrite (proj2 (vec_index_Ok _ 0 first)) by (split; [lia|]; by destruct chunks).
  cbn [mbind outcome_bind]. rewrite uadd_in by done. cbn [mbind outcome_bind]. rewrite Ef. cbn [mbind outcome_bind].
  rewrite (proj2 (vec_index_Ok _ _ l)). 2:{ destruct chunks; [done|]. unfold zlen. cbn [length]. split; [lia|]. rewrite <- El, last_lookup. f_equal. cbn. lia. }
  cbn [mbind outcome_bind]. rewrite Ecl. cbn [mbind outcome_bind]. rewrite Hz.
  rewrite (fill_gaps_run st arr Ht _ chunks (chunk_id first) []) by done. cbn [mbind outcome_bind app].
  destruct (extend_tail_run st arr Ht Hlen Hv (chunk_c_offset first + max_size) _ (chunk_id l + 1) chunks ltac:(lia) eq_refl) as (tail & -> & Htail & Hb).
  exists tail. split_and!; [done| |done]. apply table_run_app; [done|]. by replace (chunk_id first + zlen chunks) with (chunk_id l + 1) by lia.
Qed.

(** On consecutive chunks of a valid table without ZRan entries, [add_more_chunks] appends the
    chunks that follow in the table and fit in the batch. *)
Lemma add_more_chunks_run `{Profile} st chunks max_size first :
  on_chunk_array (fun _ _ _ arr => zlen arr <= RAFS_MAX_CHUNKS_PER_BLOB /\
    Forall (fun c => validate c st = Ok tt /\ is_zran c = false) arr) st ->
  table_run st (chunk_id first) chunks -> head chunks = Some first -> Forall (fun d => in_range 64 (c_limit d)) chunks ->
  in_range 64 (chunk_c_offset first + max_size) ->
  exists tail, add_more_chunks st chunks max_size = Ok (chunks ++ tail) /\
    table_run st (chunk_id first) (chunks ++ tail) /\ Forall (fun d => c_limit d <= chunk_c_offset first + max_size) tail.
Proof.
  unfold on_chunk_array, add_more_chunks. intros Ha. destruct (ms_chunk_info_array st) as [v|v] eqn:E; destruct Ha as [Hlen Hv];
    (apply _add_more_chunks_run; [|done|done]); intros i; unfold BlobMetaChunk_desc; by rewrite E.
Qed.

(** C29: on a table of well-formed, address-ordered chunks without ZRan entries, [add_more_chunks]
    keeps the request: the requested chunks appear in the result in the same order, the result
    is strictly ordered by chunk index, holds table entries only, and every chunk that was not
    requested ends within [max_size] bytes of the start of the first one. *)
Theorem add_more_chunks_keeps_request `{Profile} st chunks max_size first r :
  on_chunk_array (fun _ _ _ arr => Forall wf_chunk arr /\ chunks_ordered true arr /\
    zlen arr < 2 ^ 32 /\ Forall (fun c => is_zran c = false) arr) st ->
  Forall (in_table st) chunks -> StronglySorted Z.lt (chunk_id <$> chunks) ->
  head chunks = Some first -> in_range 64 (chunk_c_offset first + max_size) ->
  add_more_chunks st chunks max_size = Ok r ->
  chunks `sublist_of` r /\ StronglySorted Z.lt (chunk_id <$> r) /\ Forall (in_table st) r /\
  Forall (fun d => d ∈ chunks \/ c_limit d <= chunk_c_offset first + max_size) r.
Proof.
  unfold on_chunk_array, add_more_chunks. intros Ha Htab Hs Hf Hm Hx.
  destruct (ms_chunk_info_array st) as [v|v] eqn:E; destruct Ha as (Hwf & Ho & Hlen & Hz);
    (apply (_add_more_chunks_inv st v chunks max_size first) in Hx as (Hsub & n & []); try done);
    intros i; unfold BlobMetaChunk_desc; by rewrite E.
Qed.

(** The chunks of the sample blob. *)
Definition sample_desc (i : Z) : ChunkDesc :=
  match @BlobMetaChunk_desc dev_profile sample_state i with
  | Ok d => d
  | _ => mkChunk None 0 0 0 0 0 0 false
  end.

Lemma add_more_chunks_keeps_request_witness :
  @add_more_chunks dev_profile sample_state [sample_desc 0; sample_desc 2] 0x1000
    = Ok [sample_desc 0; sample_desc 1; sample_desc 2] /\
  [sample_desc 0; sample_desc 2] `sublist_of` [sample_desc 0; sample_desc 1; sample_desc 2].
Proof.
  split; [by vm_compute|].
  apply (@add_more_chunks_keeps_request dev_profile sample_state _ 0x1000 (sample_desc 0));
    [ | | | reflexivity | by vm_compute | by vm_compute].
  - split_and!; [eval_Forall | | by vm_compute | eval_Forall].
    intros i j ci cj Hi Hj Hij.
    do 3 (destruct i as [|i]; [injection Hi as <-; do 3 (destruct j as [|j]; [injection Hj as <-; (vm_compute; done) || lia|]); done |]).
    done.
  - eval_Forall.
  - repeat constructor; by vm_compute.
Defined.
