(* ===== verification/MetaFile.v ===== *)
(** The blob meta file ([storage/src/meta/mod.rs], [BlobMetaInfo::new] and the header).

    The file holds the chunk table and the optional ZRan tables, padded to 4K, and one page of
    header. [BlobMetaInfo_new] opens it, or builds it from the backend, and returns the tables as
    views of the mapping; the file is the state of the monad, so what a failed call has written
    stays. The backend reader and the decompressor are parameters. *)
From S2P Require Import Prelude Utils LittleEndian ChunkInfo Device BlobMeta.

(** ** On-disk structures *)

Definition BLOB_METADATA_MAGIC : Z := 0xb10bb10b.
Definition BLOB_METADATA_HEADER_SIZE : Z := 0x1000.
Definition BLOB_METADATA_V1_MAX_SIZE : Z := RAFS_MAX_CHUNK_SIZE * 16.
Definition BLOB_METADATA_V2_MAX_SIZE : Z := RAFS_MAX_CHUNK_SIZE * 24.

Record BlobMetaHeaderOndisk := mkMetaHeader {
  s_magic : Z;
  s_features : Z;
  s_ci_compressor : Z;
  s_ci_entries : Z;
  s_ci_offset : Z;
  s_ci_compressed_size : Z;
  s_ci_uncompressed_size : Z;
  s_ci_zran_offset : Z;
  s_ci_zran_size : Z;
  s_ci_zran_count : Z;
  s_reserved : list Z;
  s_magic2 : Z
}.

Definition BlobMetaHeaderOndisk_default : BlobMetaHeaderOndisk :=
  mkMetaHeader BLOB_METADATA_MAGIC 0 (compress_as_u32 CLz4Block) 0 0 0 0 0 0 0 (replicate 4032 0)
    BLOB_METADATA_MAGIC.

(** [as_bytes] and its inverse, the cast of a page of the mapping to the structure. *)
Definition header_as_bytes (h : BlobMetaHeaderOndisk) : list Z :=
  le_bytes 4 (s_magic h) ++ le_bytes 4 (s_features h) ++ le_bytes 4 (s_ci_compressor h) ++
  le_bytes 4 (s_ci_entries h) ++ le_bytes 8 (s_ci_offset h) ++ le_bytes 8 (s_ci_compressed_size h) ++
  le_bytes 8 (s_ci_uncompressed_size h) ++ le_bytes 8 (s_ci_zran_offset h) ++
  le_bytes 8 (s_ci_zran_size h) ++ le_bytes 4 (s_ci_zran_count h) ++ s_reserved h ++
  le_bytes 4 (s_magic2 h).

Definition header_of_bytes (b : list Z) : BlobMetaHeaderOndisk :=
  mkMetaHeader (get_le 0 4 b) (get_le 4 4 b) (get_le 8 4 b) (get_le 12 4 b) (get_le 16 8 b)
    (get_le 24 8 b) (get_le 32 8 b) (get_le 40 8 b) (get_le 48 8 b) (get_le 56 4 b)
    (slice 60 4032 b) (get_le 4092 4 b).

Definition header_flag (mask : Z) (enable : bool) (features : Z) : Z :=
  if enable then Z.lor features mask else Z.land features (unot 32 mask).

Definition with_features (f : Z) (h : BlobMetaHeaderOndisk) : BlobMetaHeaderOndisk :=
  mkMetaHeader (s_magic h) f (s_ci_compressor h) (s_ci_entries h) (s_ci_offset h)
    (s_ci_compressed_size h) (s_ci_uncompressed_size h) (s_ci_zran_offset h) (s_ci_zran_size h)
    (s_ci_zran_count h) (s_reserved h) (s_magic2 h).

Definition is_4k_aligned (h : BlobMetaHeaderOndisk) : bool :=
  negb (Z.land (s_features h) BLOB_META_FEATURE_4K_ALIGNED =? 0).
Definition set_4k_aligned (aligned : bool) (h : BlobMetaHeaderOndisk) : BlobMetaHeaderOndisk :=
  with_features (header_flag BLOB_META_FEATURE_4K_ALIGNED aligned (s_features h)) h.
Definition set_chunk_info_v2 (enable : bool) (h : BlobMetaHeaderOndisk) : BlobMetaHeaderOndisk :=
  with_features (header_flag BLOB_META_FEATURE_CHUNK_INFO_V2 enable (s_features h)) h.
Definition set_ci_separate (enable : bool) (h : BlobMetaHeaderOndisk) : BlobMetaHeaderOndisk :=
  with_features (header_flag BLOB_META_FEATURE_SEPARATE enable (s_features h)) h.
Definition set_ci_zran (enable : bool) (h : BlobMetaHeaderOndisk) : BlobMetaHeaderOndisk :=
  with_features (header_flag BLOB_META_FEATURE_ZRAN enable (s_features h)) h.

Definition header_ci_compressor (h : BlobMetaHeaderOndisk) : CompressAlgorithm :=
  if s_ci_compressor h =? compress_as_u32 CLz4Block then CLz4Block
  else if s_ci_compressor h =? compress_as_u32 CGZip then CGZip
  else if s_ci_compressor h =? compress_as_u32 CZstd then CZstd
  else CNone.

(** The entries of the tables, as the structures of the source are laid out in memory. *)
Definition v1_bytes (c : BlobChunkInfoV1Ondisk) : list Z :=
  le_bytes 8 (v1_uncomp_info c) ++ le_bytes 8 (v1_comp_info c).
Definition v2_bytes (c : BlobChunkInfoV2Ondisk) : list Z :=
  le_bytes 8 (v2_uncomp_info c) ++ le_bytes 8 (v2_comp_info c) ++ le_bytes 8 (v2_data c).
Definition zran_bytes (c : ZranInflateContext) : list Z :=
  le_bytes 8 (in_offset c) ++ le_bytes 8 (out_offset c) ++ le_bytes 8 (dict_offset c) ++
  le_bytes 4 (in_len c) ++ le_bytes 4 (out_len c) ++ le_bytes 4 (dict_size c) ++
  le_bytes 1 (ctx_byte c) ++ le_bytes 1 (ctx_bits c) ++ [0; 0].

Definition v1_of_bytes (b : list Z) : BlobChunkInfoV1Ondisk := mkV1 (get_le 0 8 b) (get_le 8 8 b).
Definition v2_of_bytes (b : list Z) : BlobChunkInfoV2Ondisk :=
  mkV2 (get_le 0 8 b) (get_le 8 8 b) (get_le 16 8 b).
Definition zran_of_bytes (b : list Z) : ZranInflateContext :=
  mkZran (get_le 0 8 b) (get_le 8 8 b) (get_le 16 8 b) (get_le 24 4 b) (get_le 28 4 b)
    (get_le 32 4 b) (get_le 36 1 b) (get_le 37 1 b).

(** [BlobMetaChunkArray::as_byte_slice]. *)
Definition as_byte_slice (a : BlobMetaChunkArray) : list Z :=
  match a with
  | ArrV1 v => concat (v1_bytes <$> v)
  | ArrV2 v => concat (v2_bytes <$> v)
  end.

(** A table of [n] entries of [size] bytes at [off]. *)
Definition table {A} (of_bytes : list Z -> A) (size : nat) (off n : nat) (buf : list Z) : list A :=
  (fun i => of_bytes (slice (off + i * size) size buf)) <$> seq 0 n.

(** ** [ZranContextGenerator::store] *)

(** [ZranContext] of the generator. *)
Record ZranContext := mkZranContext {
  zc_in_offset : Z; zc_out_offset : Z; zc_in_len : Z; zc_out_len : Z;
  zc_ctx_byte : Z; zc_ctx_bits : Z; zc_dict : list Z
}.

(** The loop over the records: each entry points to its dictionary by its running offset. *)
Fixpoint store_contexts (dict_off : Z) (records : list ZranContext) : list ZranInflateContext :=
  match records with
  | [] => []
  | info :: records =>
      mkZran (zc_in_offset info) (zc_out_offset info) dict_off (zc_in_len info) (zc_out_len info)
        (wrap 32 (zlen (zc_dict info))) (zc_ctx_byte info) (zc_ctx_bits info)
      :: store_contexts (dict_off + zlen (zc_dict info)) records
  end.

(** The bytes written, and the returned size and count. *)
Definition zran_store (records : list ZranContext) : list Z * (Z * Z) :=
  let dicts := concat (zc_dict <$> records) in
  (concat (zran_bytes <$> store_contexts 0 records) ++ dicts,
   (zlen records * 40 + zlen dicts, zlen records)).

(** ** [BlobMetaInfo] *)

Section meta_file.
Context `{Profile}.

(** [reader.read(buf, offset)]: the bytes read into a buffer of the given length. *)
Definition BlobReader : Type := Z -> Z -> outcome errno (list Z).

(** [compress::decompress(src, dst, algorithm)]: the bytes written to a buffer of the length. *)
Variable decompress : CompressAlgorithm -> list Z -> Z -> outcome errno (list Z).

(** A buffer of [len] zero bytes with [data] written at its start. *)
Definition fill_buf (len : Z) (data : list Z) : list Z :=
  take (Z.to_nat len) data ++ replicate (Z.to_nat len - length data) 0.

(** What a failed or short read leaves in the buffer is not modelled. *)
Definition read_metadata (b : BlobInfo) (reader : BlobReader) (len : Z) : io (list Z) :=
  if bool_decide (meta_ci_compressor b = CNone) then
    match reader (bi_meta_ci_offset b) len with
    | Ok data =>
        if negb (zlen data =? bi_meta_ci_uncompressed_size b) then Err EIO else Ok (fill_buf len data)
    | Err _ => Err EIO
    | Panic => Panic
    end
  else
    let compressed_size := bi_meta_ci_compressed_size b in
    match reader (bi_meta_ci_offset b) compressed_size with
    | Ok buf =>
        if negb (zlen buf =? compressed_size) then Err EIO
        else data ← decompress (meta_ci_compressor b) buf len; Ok (fill_buf len data)
    | Err _ => Err EIO
    | Panic => Panic
    end.

Definition is_zran_blob (b : BlobInfo) : bool := negb (Z.land (bi_meta_flags b) BLOB_META_FEATURE_ZRAN =? 0).

(** The fields of the header that must match the blob. *)
Definition header_matches (b : BlobInfo) (h : BlobMetaHeaderOndisk) : bool :=
  (s_magic h =? BLOB_METADATA_MAGIC) && (s_magic2 h =? BLOB_METADATA_MAGIC) &&
  (s_ci_entries h =? bi_chunk_count b) && (s_features h =? bi_meta_flags b) &&
  (s_ci_compressor h =? compress_as_u32 (meta_ci_compressor b)) &&
  (s_ci_offset h =? bi_meta_ci_offset b) && (s_ci_compressed_size h =? bi_meta_ci_compressed_size b) &&
  (s_ci_uncompressed_size h =? bi_meta_ci_uncompressed_size b) &&
  (negb (is_zran_blob b) ||
   ((s_ci_zran_count h =? bi_meta_ci_zran_count b) && (s_ci_zran_offset h =? bi_meta_ci_zran_offset b) &&
    (s_ci_zran_size h =? bi_meta_ci_zran_size b))).

Definition ZRAN_V2 : Z := Z.lor BLOB_META_FEATURE_CHUNK_INFO_V2 BLOB_META_FEATURE_ZRAN.

Definition validate_header (b : BlobInfo) (h : BlobMetaHeaderOndisk) : io bool :=
  if negb (header_matches b h) then Ok false
  else
    let chunk_count := bi_chunk_count b in
    if (chunk_count =? 0) || (RAFS_MAX_CHUNKS_PER_BLOB <? chunk_count) then Err EINVAL
    else
      let info_size := s_ci_uncompressed_size h in
      aligned_info_size ← round_up_4k info_size;
      let flags := Z.land (bi_meta_flags b) ZRAN_V2 in
      _ ← (if flags =? ZRAN_V2 then
             if info_size <? chunk_count * 24 then Err EINVAL else Ok tt
           else if flags =? BLOB_META_FEATURE_CHUNK_INFO_V2 then
             if negb (info_size =? chunk_count * 24) || (BLOB_METADATA_V2_MAX_SIZE <? aligned_info_size)
             then Err EINVAL else Ok tt
           else if flags =? 0 then
             if negb (info_size =? chunk_count * 16) || (BLOB_METADATA_V1_MAX_SIZE <? aligned_info_size)
             then Err EINVAL else Ok tt
           else Err EINVAL);
      if is_zran_blob b then
        let offset := bi_meta_ci_zran_offset b in
        if negb (offset =? chunk_count * 24) then Err EINVAL
        else
          e ← uadd 64 offset (bi_meta_ci_zran_size b);
          if info_size <? e then Err EINVAL
          else
            let zran_count := bi_meta_ci_zran_count b in
            let size := zran_count * 40 in
            if chunk_count <? zran_count then Err EINVAL
            else if bi_meta_ci_zran_size b <? size then Err EINVAL
            else Ok true
      else Ok true.

(** [FileMapState::validate_range] on a mapping of the whole file, see [filemap_checks_exact]. *)
Definition validate_range (file : list Z) (offset size : Z) : io unit :=
  if offset + size <=? zlen file then Ok tt else Err EINVAL.

Definition from_file_map (file : list Z) (b : BlobInfo) : io BlobMetaChunkArray :=
  let n := Z.to_nat (bi_chunk_count b) in
  if negb (Z.land (bi_meta_flags b) BLOB_META_FEATURE_CHUNK_INFO_V2 =? 0) then
    _ ← validate_range file 0 (bi_chunk_count b * 24); Ok (ArrV2 (table v2_of_bytes 24 0 n file))
  else
    _ ← validate_range file 0 (bi_chunk_count b * 16); Ok (ArrV1 (table v1_of_bytes 16 0 n file)).

(** The header [new] writes before the magic numbers, over the zeroed page. *)
Definition new_header (b : BlobInfo) (h : BlobMetaHeaderOndisk) : BlobMetaHeaderOndisk :=
  let z := is_zran_blob b in
  mkMetaHeader (s_magic h) (bi_meta_flags b) (compress_as_u32 (meta_ci_compressor b)) (bi_chunk_count b)
    (bi_meta_ci_offset b) (bi_meta_ci_compressed_size b) (bi_meta_ci_uncompressed_size b)
    (if z then bi_meta_ci_zran_offset b else s_ci_zran_offset h)
    (if z then bi_meta_ci_zran_size b else s_ci_zran_size h)
    (if z then bi_meta_ci_zran_count b else s_ci_zran_count h) (s_reserved h) (s_magic2 h).

Definition set_magic (h : BlobMetaHeaderOndisk) : BlobMetaHeaderOndisk :=
  mkMetaHeader BLOB_METADATA_MAGIC (s_features h) (s_ci_compressor h) (s_ci_entries h) (s_ci_offset h)
    (s_ci_compressed_size h) (s_ci_uncompressed_size h) (s_ci_zran_offset h) (s_ci_zran_size h)
    (s_ci_zran_count h) (s_reserved h) BLOB_METADATA_MAGIC.

(** The tables of the state: the tail of [new]. *)
Definition meta_state (b : BlobInfo) (file : list Z) : io BlobMetaState :=
  chunk_infos ← from_file_map file b;
  uncompressed_size ← round_up_4k (bi_uncompressed_size b);
  if is_zran_blob b then
    let zran_offset := bi_meta_ci_zran_offset b in
    let zran_count := bi_meta_ci_zran_count b in
    let zran_size := zran_count * 40 in
    _ ← validate_range file zran_offset zran_size;
    zran_dict_size ← usub 64 (bi_meta_ci_zran_size b) zran_size;
    dict_offset ← uadd 64 zran_offset zran_size;
    _ ← validate_range file dict_offset zran_dict_size;
    Ok (mkBlobMetaState (bi_blob_index b) (bi_meta_flags b) (bi_compressed_size b) uncompressed_size chunk_infos
          (table zran_of_bytes 40 (Z.to_nat zran_offset) (Z.to_nat zran_count) file)
          (slice (Z.to_nat dict_offset) (Z.to_nat zran_dict_size) file))
  else
    Ok (mkBlobMetaState (bi_blob_index b) (bi_meta_flags b) (bi_compressed_size b) uncompressed_size chunk_infos [] []).

(** The header page of the file. *)
Definition header_at (aligned_info_size : Z) (file : list Z) : BlobMetaHeaderOndisk :=
  header_of_bytes (slice (Z.to_nat aligned_info_size) 4096 file).
Definition put_header (aligned_info_size : Z) (h : BlobMetaHeaderOndisk) (file : list Z) : list Z :=
  splice (Z.to_nat aligned_info_size) (header_as_bytes h) file.

(** The part of [new] that builds the file from the backend: the page after the tables is
    cleared first, the magic numbers are written last. *)
Definition build_file (b : BlobInfo) (reader : BlobReader) (info_size aligned_info_size : Z)
  : stM (list Z) errno unit :=
  _ ← st_modify (fun f => take (Z.to_nat info_size) f ++ replicate (length f - Z.to_nat info_size) 0);
  data ← st_lift (read_metadata b reader info_size);
  _ ← st_modify (splice 0 data);
  h ← st_get (header_at aligned_info_size);
  _ ← st_modify (put_header aligned_info_size (new_header b h));
  h ← st_get (header_at aligned_info_size);
  let h := set_magic h in
  _ ← st_modify (put_header aligned_info_size h);
  st_lift (match validate_header b h with Ok _ => Ok tt | Err _ => Panic | Panic => Panic end).

Definition meta_body (b : BlobInfo) (reader : option BlobReader) (info_size aligned_info_size : Z)
  : stM (list Z) errno BlobMetaState :=
  h ← st_get (header_at aligned_info_size);
  valid ← st_lift (validate_header b h);
  _ ← (if (valid : bool) then st_ret tt
       else match reader with
            | None => st_lift (Err ENOENT)
            | Some r => build_file b r info_size aligned_info_size
            end);
  file ← st_get id;
  st_lift (meta_state b file).

(** [BlobMetaInfo::new] on the file of the blob ([None]: it does not exist). *)
Definition BlobMetaInfo_new (b : BlobInfo) (reader : option BlobReader)
  : stM (option (list Z)) errno BlobMetaState := fun f =>
  let chunk_count := bi_chunk_count b in
  if (chunk_count =? 0) || (RAFS_MAX_CHUNKS_PER_BLOB <? chunk_count) then (Err EINVAL, f)
  else
    let info_size := bi_meta_ci_uncompressed_size b in
    let enable_write := match reader with Some _ => true | None => false end in
    match (match f with Some file => Some file | None => if enable_write then Some [] else None end) with
    | None => (Err EINVAL, f)
    | Some file =>
        match (a ← round_up_4k info_size; e ← uadd 64 BLOB_METADATA_HEADER_SIZE a; Ok (a, e)) with
        | Ok (aligned_info_size, expected_size) =>
            let file := if (zlen file =? 0) && enable_write
                        then replicate (Z.to_nat expected_size) 0 else file in
            if negb (zlen file =? expected_size) then (Err EINVAL, Some file)
            else let '(r, file) := meta_body b reader info_size aligned_info_size file in (r, Some file)
        | Err e => (Err e, Some file)
        | Panic => (Panic, Some file)
        end
    end.
End meta_file.

(** ** Round trips of the structures *)

Definition header_wf (h : BlobMetaHeaderOndisk) : Prop :=
  in_range 32 (s_magic h) /\ in_range 32 (s_features h) /\ in_range 32 (s_ci_compressor h) /\
  in_range 32 (s_ci_entries h) /\ in_range 64 (s_ci_offset h) /\ in_range 64 (s_ci_compressed_size h) /\
  in_range 64 (s_ci_uncompressed_size h) /\ in_range 64 (s_ci_zran_offset h) /\
  in_range 64 (s_ci_zran_size h) /\ in_range 32 (s_ci_zran_count h) /\
  length (s_reserved h) = 4032%nat /\ in_range 32 (s_magic2 h).

Lemma length_header_as_bytes h : length (s_reserved h) = 4032%nat -> length (header_as_bytes h) = 4096%nat.
Proof. intros Hr. unfold header_as_bytes. rewrite !length_app, !length_le_bytes, Hr. done. Qed.

Lemma header_roundtrip h : header_wf h -> header_of_bytes (header_as_bytes h) = h.
Proof.
  intros (H1 & H2 & H3 & H4 & H5 & H6 & H7 & H8 & H9 & H10 & Hr & H11).
  assert (slice 60 4032 (header_as_bytes h) = s_reserved h) as Er.
  { unfold header_as_bytes. do 10 (rewrite slice_skip_bytes by lia; cbn [Nat.sub]).
    rewrite <- Hr at 1. apply slice_here. }
  assert (get_le 4092 4 (header_as_bytes h) = s_magic2 h) as Em.
  { unfold header_as_bytes. do 10 (rewrite get_le_skip_bytes by lia; cbn [Nat.sub]).
    rewrite get_le_skip, Hr by lia. cbn [Nat.sub]. rewrite <- (app_nil_r (le_bytes 4 (s_magic2 h))).
    by apply get_le_here. }
  unfold header_of_bytes. rewrite Er, Em. unfold header_as_bytes. read_fields. by destruct h.
Qed.
