(* ===== verification/MetaOpen.v ===== *)
(** Opening the blob meta file ([storage/src/meta/mod.rs], [BlobMetaInfo::new],
    [validate_header], [read_metadata], [from_file_map]): properties of the model of [MetaFile].

    A file that was built or accepted once can be reopened and gives the same tables; a header
    that is accepted describes tables that lie inside the file; the tables read back what the
    builder wrote. *)
From S2P Require Import Prelude Utils LittleEndian ChunkInfo Device BlobMeta MetaFile.

(** ** Building and reopening the file *)

(** The fields of the blob are machine integers and its tables are far from the 64-bit limit. *)
Definition blob_info_wf (b : BlobInfo) : Prop :=
  in_range 32 (bi_chunk_count b) /\ in_range 32 (bi_meta_flags b) /\ in_range 64 (bi_meta_ci_offset b) /\
  in_range 64 (bi_meta_ci_compressed_size b) /\ in_range 62 (bi_meta_ci_uncompressed_size b) /\
  in_range 64 (bi_meta_ci_zran_offset b) /\ in_range 62 (bi_meta_ci_zran_size b) /\
  in_range 32 (bi_meta_ci_zran_count b) /\ in_range 62 (bi_uncompressed_size b).

Definition zero_header : BlobMetaHeaderOndisk := mkMetaHeader 0 0 0 0 0 0 0 0 0 0 (replicate 4032 0) 0.

Lemma compress_as_u32_range c : 0 <= compress_as_u32 c < 4.
Proof. by destruct c. Qed.

Section meta_reopen.
Context `{Profile} (decompress : CompressAlgorithm -> list Z -> Z -> outcome errno (list Z)).
Context (b : BlobInfo) (Hb : blob_info_wf b).

Definition built_header : BlobMetaHeaderOndisk := set_magic (new_header b zero_header).

Lemma new_header_wf : header_wf (new_header b zero_header).
Proof.
  destruct Hb as (H1 & H2 & H3 & H4 & H5 & H6 & H7 & H8 & H9). unfold in_range in *.
  pose proof (compress_as_u32_range (meta_ci_compressor b)).
  assert (length (replicate 4032 0) = 4032%nat) by (apply length_replicate).
  unfold header_wf, new_header, in_range; cbn [s_magic s_features s_ci_compressor s_ci_entries s_ci_offset
    s_ci_compressed_size s_ci_uncompressed_size s_ci_zran_offset s_ci_zran_size s_ci_zran_count s_reserved s_magic2 zero_header].
  destruct (is_zran_blob b); split_and!; first [lia | done].
Qed.

Lemma built_header_wf : header_wf built_header.
Proof.
  pose proof new_header_wf as (_ & H2 & H3 & H4 & H5 & H6 & H7 & H8 & H9 & H10 & H11 & _).
  unfold built_header, set_magic, header_wf. cbn [s_magic s_features s_ci_compressor s_ci_entries s_ci_offset
    s_ci_compressed_size s_ci_uncompressed_size s_ci_zran_offset s_ci_zran_size s_ci_zran_count s_reserved s_magic2].
  split_and!; first [done | by vm_compute].
Qed.

Lemma built_header_matches : header_matches b built_header = true.
Proof.
  unfold header_matches, built_header, set_magic, new_header. cbn [s_magic s_features s_ci_compressor s_ci_entries s_ci_offset
    s_ci_compressed_size s_ci_uncompressed_size s_ci_zran_offset s_ci_zran_size s_ci_zran_count s_reserved s_magic2].
  destruct (is_zran_blob b); rewrite !Z.eqb_refl; done.
Qed.

(** A header that matches is either accepted or an error: it is never ignored. *)
Lemma matches_not_false h : header_matches b h = true -> validate_header b h <> Ok false.
Proof.
  intros Hm Hx. unfold validate_header in Hx. rewrite Hm in Hx. cbn [negb] in Hx.
  destruct (_ || _); [done|]. apply bind_Ok in Hx as (a & _ & Hx). apply bind_Ok in Hx as (u & _ & Hx).
  destruct (is_zran_blob b); [|done]. destruct (negb _); [done|]. apply bind_Ok in Hx as (e & _ & Hx).
  destruct (_ <? e); [done|]. destruct (_ <? _); [done|]. destruct (_ <? _); done.
Qed.

Lemma header_at_put a h file : header_wf h -> (Z.to_nat a + 4096 <= length file)%nat ->
  header_at a (put_header a h file) = h /\ length (put_header a h file) = length file.
Proof.
  intros Hh Hl. pose proof (length_header_as_bytes h) as Hlen.
  assert (length (s_reserved h) = 4032%nat) as Hr by apply Hh. specialize (Hlen Hr).
  unfold header_at, put_header. split; [|apply length_splice; lia].
  rewrite <- Hlen at 1. rewrite slice_splice_same by lia. by apply header_roundtrip.
Qed.

Lemma header_at_zero a data n : (length data <= Z.to_nat a)%nat -> (Z.to_nat a + 4096 <= length data + n)%nat ->
  header_at a (data ++ replicate n 0) = zero_header.
Proof.
  intros Hd Hn. unfold header_at. replace (slice _ _ _) with (replicate 4096 0).
  - by vm_compute.
  - unfold slice. rewrite drop_app_ge, drop_replicate, take_replicate by lia. f_equal. lia.
Qed.

Lemma length_fill_buf len data : length (fill_buf len data) = Z.to_nat len.
Proof. unfold fill_buf. rewrite length_app, length_take, length_replicate. lia. Qed.

Lemma read_metadata_length reader len data :
  read_metadata decompress b reader len = Ok data -> length data = Z.to_nat len.
Proof.
  unfold read_metadata. case_bool_decide.
  - destruct (reader _ _); [|done..]. destruct (negb _); [done|]. intros [= <-]. apply length_fill_buf.
  - destruct (reader _ _); [|done..]. destruct (negb _); [done|]. intros Hx. apply bind_Ok in Hx as (d & _ & Hx).
    injection Hx as <-. apply length_fill_buf.
Qed.

(** A successful build leaves the validated header in its page. *)
Lemma build_file_Ok reader info a file file' :
  0 <= info <= a -> Z.of_nat (length file) = a + 4096 ->
  build_file decompress b reader info a file = (Ok tt, file') ->
  header_at a file' = built_header /\ validate_header b built_header = Ok true /\ length file' = length file.
Proof.
  intros Ha Hl. unfold build_file, mbind, stM_bind, st_bind, st_modify, st_lift, st_get. cbn beta iota.
  destruct (read_metadata decompress b reader info) as [data| |] eqn:Hr; [|done..].
  apply read_metadata_length in Hr.
  assert (splice 0 data (take (Z.to_nat info) file ++ replicate (length file - Z.to_nat info) 0)
    = data ++ replicate (length file - Z.to_nat info) 0) as ->.
  { unfold splice. rewrite take_0, app_nil_l, Nat.add_0_l. f_equal.
    rewrite drop_app_ge; rewrite length_take; [|lia].
    replace (length data - _)%nat with 0%nat by lia. done. }
  set (f2 := data ++ replicate (length file - Z.to_nat info) 0).
  assert (length f2 = length file) as Hl2 by (unfold f2; rewrite length_app, length_replicate; lia).
  assert (header_at a f2 = zero_header) as -> by (apply header_at_zero; lia).
  destruct (header_at_put a (new_header b zero_header) f2 new_header_wf ltac:(lia)) as [-> Hl3].
  fold built_header.
  destruct (header_at_put a built_header (put_header a (new_header b zero_header) f2) built_header_wf ltac:(lia)) as [Hh Hl4].
  destruct (validate_header b built_header) as [[]| |] eqn:Hv; [|by apply matches_not_false in Hv; [|apply built_header_matches]|done..].
  intros [= <-]. rewrite Hh, Hl4, Hl3. done.
Qed.

Definition aligned_info : Z := align_4k (bi_meta_ci_uncompressed_size b).

Lemma sizes_Ok : 0 <= bi_meta_ci_uncompressed_size b <= aligned_info /\ aligned_info < 2 ^ 63 /\
  (a ← @round_up_4k _ errno (bi_meta_ci_uncompressed_size b); e ← uadd 64 BLOB_METADATA_HEADER_SIZE a; Ok (a, e))
    = Ok (aligned_info, BLOB_METADATA_HEADER_SIZE + aligned_info).
Proof.
  destruct Hb as (_ & _ & _ & _ & Hu & _). unfold in_range in Hu. unfold aligned_info.
  pose proof (align_4k_spec (bi_meta_ci_uncompressed_size b) ltac:(lia) ltac:(lia)) as [_ Hal].
  split; [lia|]. split; [lia|]. rewrite round_up_4k_in by lia. cbn [mbind outcome_bind].
  rewrite uadd_in by (unfold in_range, BLOB_METADATA_HEADER_SIZE; lia). done.
Qed.

#[local] Opaque validate_header meta_state build_file header_at.

Lemma meta_body_Ok reader file st file' : zlen file = BLOB_METADATA_HEADER_SIZE + aligned_info ->
  meta_body decompress b reader (bi_meta_ci_uncompressed_size b) aligned_info file = (Ok st, file') ->
  zlen file' = zlen file /\ validate_header b (header_at aligned_info file') = Ok true /\
  meta_state b file' = Ok st.
Proof.
  intros Hl Hx. pose proof sizes_Ok as (Hi & _ & _). unfold zlen, BLOB_METADATA_HEADER_SIZE in *.
  unfold meta_body, mbind, stM_bind, st_bind, st_lift, st_get, st_ret in Hx. cbn beta iota in Hx.
  destruct (validate_header b (header_at aligned_info file)) as [[]| |] eqn:Hv; [| |discriminate Hx..].
  - injection Hx as Hx <-. by split_and!.
  - destruct reader as [r|]; [|discriminate Hx].
    destruct (build_file decompress b r _ _ file) as [[[]| |] f1] eqn:Hbf; [|discriminate Hx..].
    apply build_file_Ok in Hbf as (Hh & Hv' & Hl'); [|exact Hi|lia]. injection Hx as Hx <-.
    rewrite Hh, Hl'. by split_and!.
Qed.

(** The second opening, without a backend, of a file the first one has accepted or built. *)
Lemma meta_body_again file st : validate_header b (header_at aligned_info file) = Ok true ->
  meta_state b file = Ok st ->
  meta_body decompress b None (bi_meta_ci_uncompressed_size b) aligned_info file = (Ok st, file).
Proof.
  intros Hv Hs. unfold meta_body, mbind, stM_bind, st_bind, st_lift, st_get, st_ret. cbn beta iota.
  rewrite Hv. unfold id. rewrite Hs. reflexivity.
Qed.
End meta_reopen.

#[local] Opaque meta_body aligned_info.

(** C30: a blob meta file that [BlobMetaInfo::new] has opened, or built from the backend, can be
    reopened without a backend, and gives the same chunk table, ZRan table and dictionary. *)
Theorem BlobMetaInfo_reopen `{Profile} decompress b reader f st f' : blob_info_wf b ->
  BlobMetaInfo_new decompress b reader f = (Ok st, f') ->
  exists file, f' = Some file /\ BlobMetaInfo_new decompress b None (Some file) = (Ok st, Some file).
Proof.
  intros Hb Hx. pose proof (sizes_Ok b Hb) as (Hi & Ha & Hs). unfold BlobMetaInfo_new in *. rewrite Hs in *.
  destruct ((bi_chunk_count b =? 0) || _); [discriminate Hx|].
  destruct (match f with Some _ => _ | None => _ end) as [file0|]; [|discriminate Hx].
  match type of Hx with context [negb (zlen ?f =? _)] => set (file1 := f) in * end.
  destruct (Z.eqb_spec (zlen file1) (BLOB_METADATA_HEADER_SIZE + aligned_info b)) as [Hl|]; [|discriminate Hx]. cbn [negb] in Hx.
  destruct (meta_body _ _ _ _ _ file1) as [r file2] eqn:Hm. injection Hx as -> <-.
  apply (meta_body_Ok decompress b Hb) in Hm as (Hl2 & Hv & Hst); [|exact Hl].
  exists file2. split; [reflexivity|]. rewrite andb_false_r, Hl2, Hl, Z.eqb_refl. cbn [negb].
  rewrite (meta_body_again decompress b file2 st Hv Hst). reflexivity.
Qed.

#[local] Transparent validate_header meta_state build_file header_at meta_body aligned_info.

(** Bytes of a chunk table entry of the blob. *)
Definition entry_size (b : BlobInfo) : Z :=
  if negb (Z.land (bi_meta_flags b) BLOB_META_FEATURE_CHUNK_INFO_V2 =? 0) then 24 else 16.

Lemma zlen_table {A} (f : list Z -> A) k off n buf : zlen (table f k off n buf) = Z.of_nat n.
Proof. unfold zlen, table. rewrite length_fmap, length_seq. done. Qed.

Lemma from_file_map_Ok file b : 0 <= bi_chunk_count b /\ bi_chunk_count b * entry_size b <= zlen file ->
  exists arr, from_file_map file b = Ok arr /\
    match arr with
    | ArrV1 v => zlen v = bi_chunk_count b /\ 16 * zlen v <= zlen file
    | ArrV2 v => zlen v = bi_chunk_count b /\ 24 * zlen v <= zlen file
    end.
Proof.
  unfold from_file_map, entry_size, validate_range. intros [Hc Hs]. destruct (negb _).
  - assert ((0 + bi_chunk_count b * 24 <=? zlen file) = true) as -> by lia. eexists. split; [reflexivity|].
    cbn beta iota. rewrite !zlen_table. lia.
  - assert ((0 + bi_chunk_count b * 16 <=? zlen file) = true) as -> by lia. eexists. split; [reflexivity|].
    cbn beta iota. rewrite !zlen_table. lia.
Qed.

Lemma flag_bits flags : 0 <= flags ->
  (Z.land flags BLOB_META_FEATURE_CHUNK_INFO_V2 = if Z.testbit flags 2 then 4 else 0) /\
  (Z.land flags BLOB_META_FEATURE_ZRAN = if Z.testbit flags 3 then 8 else 0) /\
  Z.land flags ZRAN_V2 = (if Z.testbit flags 2 then 4 else 0) + (if Z.testbit flags 3 then 8 else 0).
Proof.
  intros Hf. assert (forall k, 0 <= k -> Z.land flags (2 ^ k) = if Z.testbit flags k then 2 ^ k else 0) as Hk.
  { intros k Hk. apply Z.bits_inj'. intros j Hj. rewrite Z.land_spec, Z.pow2_bits_eqb by done.
    destruct (Z.eqb_spec k j) as [<-|Hne].
    - rewrite andb_true_r. destruct (Z.testbit flags k); [by rewrite Z.pow2_bits_true|by rewrite Z.bits_0].
    - rewrite andb_false_r. destruct (Z.testbit flags k); [by rewrite Z.pow2_bits_false|by rewrite Z.bits_0]. }
  pose proof (Hk 2 ltac:(lia)) as H2. pose proof (Hk 3 ltac:(lia)) as H3. change (2 ^ 2) with 4 in H2.
  change (2 ^ 3) with 8 in H3. split; [exact H2|]. split; [exact H3|].
  unfold ZRAN_V2, BLOB_META_FEATURE_CHUNK_INFO_V2, BLOB_META_FEATURE_ZRAN.
  rewrite Z.land_lor_distr_r, H2, H3. destruct (Z.testbit flags 2), (Z.testbit flags 3); done.
Qed.

(** What [validate_header] guarantees of the sizes. *)
Lemma validate_header_true `{Profile} b h : blob_info_wf b -> validate_header b h = Ok true ->
  (0 <= bi_chunk_count b /\ bi_chunk_count b * entry_size b <= bi_meta_ci_uncompressed_size b) /\
  (is_zran_blob b = true ->
     bi_meta_ci_zran_offset b = bi_chunk_count b * 24 /\
     bi_meta_ci_zran_offset b + bi_meta_ci_zran_size b <= bi_meta_ci_uncompressed_size b /\
     bi_meta_ci_zran_count b * 40 <= bi_meta_ci_zran_size b).
Proof.
  intros Hb Hx. pose proof Hb as (Hcc & Hmf & _ & _ & Hui & Hzo & Hzs & Hzc & Hus). unfold in_range in *.
  unfold validate_header in Hx. destruct (header_matches b h) eqn:Hm; [|discriminate Hx]. cbn [negb] in Hx.
  assert (s_ci_uncompressed_size h = bi_meta_ci_uncompressed_size b) as Es.
  { unfold header_matches in Hm. rewrite !andb_true_iff in Hm. lia. }
  rewrite Es in Hx. destruct (_ || _) eqn:Ec; [discriminate Hx|]. rewrite round_up_4k_in in Hx by lia.
  cbn [mbind outcome_bind] in Hx. apply bind_Ok in Hx as (u & Hu & Hx).
  destruct (flag_bits (bi_meta_flags b)) as (F2 & F3 & F23); [lia|]. rewrite F23 in Hu.
  unfold is_zran_blob, entry_size in *. rewrite F3 in *. rewrite F2.
  assert (ZRAN_V2 = 12) as EZ by done. rewrite EZ in Hu. unfold BLOB_META_FEATURE_CHUNK_INFO_V2 in Hu.
  destruct (Z.testbit (bi_meta_flags b) 3) eqn:T3.
  - destruct (Z.testbit (bi_meta_flags b) 2); cbn [Z.add Z.eqb Pos.eqb negb] in Hu |- *; [|discriminate Hu].
    destruct (Z.ltb_spec (bi_meta_ci_uncompressed_size b) (bi_chunk_count b * 24)); [discriminate Hu|].
    cbn [negb Z.eqb] in Hx. destruct (Z.eqb_spec (bi_meta_ci_zran_offset b) (bi_chunk_count b * 24)); [|discriminate Hx].
    cbn [negb] in Hx. rewrite uadd_in in Hx by (unfold in_range; lia). cbn [mbind outcome_bind] in Hx.
    destruct (Z.ltb_spec (bi_meta_ci_uncompressed_size b) (bi_meta_ci_zran_offset b + bi_meta_ci_zran_size b)); [discriminate Hx|].
    destruct (bi_chunk_count b <? bi_meta_ci_zran_count b); [discriminate Hx|].
    destruct (Z.ltb_spec (bi_meta_ci_zran_size b) (bi_meta_ci_zran_count b * 40)); [discriminate Hx|].
    split; [lia|]. intros _. lia.
  - split; [|intros E; discriminate E]. destruct (Z.testbit (bi_meta_flags b) 2).
    + change (4 + 0 =? 12) with false in Hu. change (4 + 0 =? 4) with true in Hu. cbn beta iota in Hu.
      destruct (negb _ || _) eqn:E in Hu; [discriminate Hu|]. change (negb (4 =? 0)) with true. lia.
    + change (0 + 0 =? 12) with false in Hu. change (0 + 0 =? 4) with false in Hu.
      change (0 + 0 =? 0) with true in Hu. cbn beta iota in Hu.
      destruct (negb _ || _) eqn:E in Hu; [discriminate Hu|]. change (negb (0 =? 0)) with false. lia.
Qed.

(** a header that [validate_header] accepts describes tables that lie inside a file of the
    expected size: the chunk table has one entry per chunk, the ZRan table one per context, and
    the dictionary is what is left of the ZRan area, so building the state never fails. *)
Theorem validated_tables_fit `{Profile} b h file : blob_info_wf b ->
  validate_header b h = Ok true ->
  zlen file = BLOB_METADATA_HEADER_SIZE + align_4k (bi_meta_ci_uncompressed_size b) ->
  exists st, meta_state b file = Ok st /\
    zlen (ms_zran_dict_table st) + 40 * zlen (ms_zran_info_array st) <= zlen file /\
    (is_zran_blob b = true -> zlen (ms_zran_info_array st) = bi_meta_ci_zran_count b /\
       zlen (ms_zran_dict_table st) = bi_meta_ci_zran_size b - 40 * bi_meta_ci_zran_count b) /\
    match ms_chunk_info_array st with
    | ArrV1 v => zlen v = bi_chunk_count b /\ 16 * zlen v <= zlen file
    | ArrV2 v => zlen v = bi_chunk_count b /\ 24 * zlen v <= zlen file
    end.
Proof.
  intros Hb Hv Hl. pose proof Hb as (Hcc & Hmf & _ & _ & Hui & Hzo & Hzs & Hzc & Hus). unfold in_range in *.
  pose proof (align_4k_spec (bi_meta_ci_uncompressed_size b) ltac:(lia) ltac:(lia)) as [_ Hal].
  apply validate_header_true in Hv as (Hsz & Hz); [|done]. unfold BLOB_METADATA_HEADER_SIZE in Hl.
  destruct (from_file_map_Ok file b) as (arr & Earr & Harr); [unfold entry_size in *; lia|].
  unfold meta_state. rewrite Earr. cbn [mbind outcome_bind]. rewrite round_up_4k_in by lia. cbn [mbind outcome_bind].
  destruct (is_zran_blob b) eqn:Ez.
  - destruct (Hz eq_refl) as (Ho & Hoz & Hcnt). unfold validate_range.
    assert ((bi_meta_ci_zran_offset b + bi_meta_ci_zran_count b * 40 <=? zlen file) = true) as -> by lia.
    cbn [mbind outcome_bind]. rewrite usub_in by (unfold in_range; lia). cbn [mbind outcome_bind].
    rewrite uadd_in by (unfold in_range; lia). cbn [mbind outcome_bind].
    match goal with |- context [?x <=? zlen file] => assert ((x <=? zlen file) = true) as -> by lia end.
    cbn [mbind outcome_bind]. eexists. split; [reflexivity|].
    cbn [ms_zran_dict_table ms_zran_info_array ms_chunk_info_array].
    assert (zlen (table zran_of_bytes 40 (Z.to_nat (bi_meta_ci_zran_offset b)) (Z.to_nat (bi_meta_ci_zran_count b)) file)
      = bi_meta_ci_zran_count b) as -> by (rewrite zlen_table; lia).
    unfold zlen in *. rewrite length_slice by lia. split; [lia|]. split; [intros _; lia|]. exact Harr.
  - eexists. split; [reflexivity|]. cbn [ms_zran_dict_table ms_zran_info_array ms_chunk_info_array].
    split; [unfold zlen in *; cbn; lia|]. split; [done|]. exact Harr.
Qed.

(** ** The tables read back what the builder wrote *)

Lemma length_concat_enc {A} (enc : A -> list Z) k l : (forall y, length (enc y) = k) ->
  length (concat (enc <$> l)) = (length l * k)%nat.
Proof. intros Hk. induction l as [|y l IH]; cbn; [done|]. rewrite length_app, Hk, IH. lia. Qed.

Lemma slice_concat {A} (enc : A -> list Z) k pre l rest i x :
  (forall y, length (enc y) = k) -> l !! i = Some x ->
  slice (length pre + i * k) k (pre ++ concat (enc <$> l) ++ rest) = enc x.
Proof.
  intros Hk Hi. rewrite <- (take_drop_middle l i x Hi). rewrite fmap_app, concat_app, fmap_cons. cbn [concat].
  rewrite <- !app_assoc, (app_assoc pre).
  assert (length (concat (enc <$> take i l)) = (i * k)%nat) as Hc.
  { apply lookup_lt_Some in Hi. clear -Hk Hi. revert i Hi.
    induction l as [|y l IH]; intros [|i] Hi; cbn in *; [lia|lia|done|].
    rewrite length_app, Hk. specialize (IH i ltac:(lia)). lia. }
  replace (length pre + i * k)%nat with (length (pre ++ concat (enc <$> take i l))) by (rewrite length_app; lia).
  rewrite <- (Hk x). apply slice_app_here.
Qed.

Lemma table_concat {A} (enc : A -> list Z) dec k pre l rest :
  (forall y, length (enc y) = k) -> Forall (fun y => dec (enc y) = y) l ->
  table dec k (length pre) (length l) (pre ++ concat (enc <$> l) ++ rest) = l.
Proof.
  intros Hk Hd. unfold table. apply list_eq. intros i. rewrite list_lookup_fmap.
  destruct (l !! i) as [x|] eqn:E.
  - apply lookup_lt_Some in E as Hlt. rewrite lookup_seq_lt by lia. cbn [fmap option_fmap option_map Nat.add].
    rewrite (slice_concat enc k pre l rest i x Hk E). f_equal. apply (Forall_lookup_1 _ _ _ _ Hd E).
  - apply lookup_ge_None in E. rewrite lookup_seq_ge by lia. done.
Qed.

Lemma v1_bytes_roundtrip c : v1_wf c -> v1_of_bytes (v1_bytes c) = c.
Proof.
  intros [H1 H2]. unfold v1_of_bytes, v1_bytes. rewrite <- (app_nil_r (le_bytes 8 (v1_comp_info c))).
  read_fields. by destruct c.
Qed.

Lemma v2_bytes_roundtrip c : v2_wf c -> v2_of_bytes (v2_bytes c) = c.
Proof.
  intros (H1 & H2 & H3). unfold v2_of_bytes, v2_bytes. rewrite <- (app_nil_r (le_bytes 8 (v2_data c))).
  read_fields. by destruct c.
Qed.

Definition arr_wf (a : BlobMetaChunkArray) : Prop :=
  match a with ArrV1 v => Forall v1_wf v | ArrV2 v => Forall v2_wf v end.

(** The feature flag of the blob selects the layout of the array. *)
Definition layout_flag (a : BlobMetaChunkArray) (flags : Z) : bool :=
  match a with
  | ArrV1 _ => Z.land flags BLOB_META_FEATURE_CHUNK_INFO_V2 =? 0
  | ArrV2 _ => negb (Z.land flags BLOB_META_FEATURE_CHUNK_INFO_V2 =? 0)
  end.

(** the chunk table the builder dumps with [as_byte_slice] at the start of the blob meta file
    is read back entry by entry by [from_file_map], for both layouts of the entries. *)
Theorem chunk_table_roundtrip a rest b : arr_wf a -> layout_flag a (bi_meta_flags b) = true ->
  bi_chunk_count b = arr_len a -> from_file_map (as_byte_slice a ++ rest) b = Ok a.
Proof.
  intros Hw Hf Hc. unfold from_file_map, validate_range, layout_flag in *.
  destruct a as [v|v]; cbn [arr_len as_byte_slice] in *.
  - rewrite Hf. cbn [negb]. rewrite Hc, Nat2Z.id.
    assert (forall y, length (v1_bytes y) = 16%nat) as Hk by (intros y; unfold v1_bytes; by rewrite length_app, !length_le_bytes).
    unfold zlen. rewrite length_app, (length_concat_enc v1_bytes 16%nat v Hk).
    rewrite Nat2Z.inj_add, Nat2Z.inj_mul. match goal with |- context [?x <=? ?y] =>
      assert ((x <=? y) = true) as -> by (pose proof (Nat2Z.is_nonneg (length rest)); apply Z.leb_le; lia) end.
    cbn [mbind outcome_bind]. do 2 f_equal. apply (table_concat v1_bytes v1_of_bytes 16 [] v rest Hk).
    eapply Forall_impl; [exact Hw|]. apply v1_bytes_roundtrip.
  - rewrite Hf. rewrite Hc, Nat2Z.id.
    assert (forall y, length (v2_bytes y) = 24%nat) as Hk by (intros y; unfold v2_bytes; by rewrite !length_app, !length_le_bytes).
    unfold zlen. rewrite length_app, (length_concat_enc v2_bytes 24%nat v Hk).
    rewrite Nat2Z.inj_add, Nat2Z.inj_mul. match goal with |- context [?x <=? ?y] =>
      assert ((x <=? y) = true) as -> by (pose proof (Nat2Z.is_nonneg (length rest)); apply Z.leb_le; lia) end.
    cbn [mbind outcome_bind]. do 2 f_equal. apply (table_concat v2_bytes v2_of_bytes 24 [] v rest Hk).
    eapply Forall_impl; [exact Hw|]. apply v2_bytes_roundtrip.
Qed.

(** ** ZRan contexts *)

Definition zran_context_wf (r : ZranContext) : Prop :=
  in_range 64 (zc_in_offset r) /\ in_range 64 (zc_out_offset r) /\ in_range 32 (zc_in_len r) /\
  in_range 32 (zc_out_len r) /\ in_range 8 (zc_ctx_byte r) /\ in_range 8 (zc_ctx_bits r) /\
  zlen (zc_dict r) < 2 ^ 32.

Definition zran_entry_wf (c : ZranInflateContext) : Prop :=
  in_range 64 (in_offset c) /\ in_range 64 (out_offset c) /\ in_range 64 (dict_offset c) /\
  in_range 32 (in_len c) /\ in_range 32 (out_len c) /\ in_range 32 (dict_size c) /\
  in_range 8 (ctx_byte c) /\ in_range 8 (ctx_bits c).

Lemma zran_bytes_roundtrip c : zran_entry_wf c -> zran_of_bytes (zran_bytes c) = c.
Proof.
  intros (H1 & H2 & H3 & H4 & H5 & H6 & H7 & H8). unfold zran_of_bytes, zran_bytes. read_fields. by destruct c.
Qed.

Lemma store_contexts_lookup records : forall off i r, records !! i = Some r ->
  store_contexts off records !! i =
    Some (mkZran (zc_in_offset r) (zc_out_offset r) (off + zlen (concat (zc_dict <$> take i records)))
            (zc_in_len r) (zc_out_len r) (wrap 32 (zlen (zc_dict r))) (zc_ctx_byte r) (zc_ctx_bits r)).
Proof.
  induction records as [|x records IH]; intros off i r Hi; [done|]. destruct i as [|i].
  - injection Hi as ->. cbn. unfold zlen. cbn. by rewrite Z.add_0_r.
  - cbn [store_contexts lookup list_lookup]. rewrite (IH _ _ _ Hi). cbn [take fmap list_fmap concat].
    unfold zlen. rewrite length_app, Nat2Z.inj_add. do 2 f_equal. lia.
Qed.

Lemma length_store_contexts off records : length (store_contexts off records) = length records.
Proof. revert off. induction records as [|x l IH]; intros off; cbn; [done|]. by rewrite IH. Qed.

Lemma concat_take_le {A} (l : list (list A)) i x : l !! i = Some x ->
  zlen (concat (take i l)) + zlen x <= zlen (concat l).
Proof.
  intros Hi. rewrite <- (take_drop_middle l i x Hi) at 2. rewrite concat_app. cbn [concat].
  unfold zlen. rewrite !length_app. lia.
Qed.

Lemma store_contexts_wf records : Forall zran_context_wf records ->
  zlen (concat (zc_dict <$> records)) < 2 ^ 64 -> Forall zran_entry_wf (store_contexts 0 records).
Proof.
  intros Hw Hd. apply Forall_lookup_2. intros i c Hc.
  assert (i < length records)%nat as Hlt by (apply lookup_lt_Some in Hc; by rewrite length_store_contexts in Hc).
  destruct (lookup_lt_is_Some_2 _ _ Hlt) as [r Hr]. rewrite (store_contexts_lookup _ _ _ _ Hr) in Hc. injection Hc as <-.
  pose proof (Forall_lookup_1 _ _ _ _ Hw Hr) as (W1 & W2 & W3 & W4 & W5 & W6 & W7).
  assert ((zc_dict <$> records) !! i = Some (zc_dict r)) as Hrd by (rewrite list_lookup_fmap, Hr; done).
  apply concat_take_le in Hrd. rewrite <- fmap_take in Hrd. unfold zran_entry_wf. cbn [in_offset out_offset dict_offset in_len out_len dict_size ctx_byte ctx_bits].
  split_and!; try done; [unfold in_range, zlen in *; lia | apply wrap_range; lia].
Qed.

(** The tables of a state loaded from a file that holds the stored data. *)
Lemma stored_tables pre records post : Forall zran_context_wf records ->
  zlen (concat (zc_dict <$> records)) < 2 ^ 64 ->
  table zran_of_bytes 40 (length pre) (length records) (pre ++ (zran_store records).1 ++ post)
    = store_contexts 0 records /\
  slice (length pre + length records * 40) (length (concat (zc_dict <$> records)))
    (pre ++ (zran_store records).1 ++ post) = concat (zc_dict <$> records).
Proof.
  intros Hw Hd. assert (forall y, length (zran_bytes y) = 40%nat) as Hk by (intros y; unfold zran_bytes; by rewrite !length_app, !length_le_bytes).
  unfold zran_store. cbn [fst]. rewrite <- !app_assoc. split.
  - rewrite <- (length_store_contexts 0 records). apply table_concat; [exact Hk|].
    eapply Forall_impl; [by apply store_contexts_wf|]. apply zran_bytes_roundtrip.
  - rewrite app_assoc. replace (length pre + length records * 40)%nat
      with (length (pre ++ concat (zran_bytes <$> store_contexts 0 records))); [apply slice_app_here|].
    rewrite length_app, (length_concat_enc _ 40%nat _ Hk), length_store_contexts. done.
Qed.

(** C31: what [ZranContextGenerator::store] writes is read back by [get_zran_context]: wherever the
    data sits in the blob meta file, context [i] of the loaded tables has the fields of record
    [i] and exactly its dictionary. *)
Theorem zran_store_roundtrip pre records post st i r :
  Forall zran_context_wf records -> zlen (concat (zc_dict <$> records)) < 2 ^ 64 ->
  ms_zran_info_array st = table zran_of_bytes 40 (length pre) (length records)
    (pre ++ (zran_store records).1 ++ post) ->
  ms_zran_dict_table st = slice (length pre + length records * 40) (length (concat (zc_dict <$> records)))
    (pre ++ (zran_store records).1 ++ post) ->
  records !! i = Some r ->
  exists ctx, get_zran_context st (Z.of_nat i) = Some (ctx, zc_dict r) /\
    in_offset ctx = zc_in_offset r /\ out_offset ctx = zc_out_offset r /\ in_len ctx = zc_in_len r /\
    out_len ctx = zc_out_len r /\ ctx_byte ctx = zc_ctx_byte r /\ ctx_bits ctx = zc_ctx_bits r.
Proof.
  intros Hw Hd Ha Ht Hi. destruct (stored_tables pre records post Hw Hd) as [Ea Et].
  rewrite Ea in Ha. rewrite Et in Ht.
  pose proof (store_contexts_lookup records 0 i r Hi) as Hc. apply lookup_lt_Some in Hi as Hlt.
  pose proof (Forall_lookup_1 _ _ _ _ Hw Hi) as (_ & _ & _ & _ & _ & _ & W7).
  assert ((zc_dict <$> records) !! i = Some (zc_dict r)) as Hrd by (rewrite list_lookup_fmap, Hi; done).
  pose proof (concat_take_le _ _ _ Hrd) as Hle. rewrite <- fmap_take in Hle.
  eexists. unfold get_zran_context. rewrite Ha, Ht. unfold zlen in *. rewrite length_store_contexts, Nat2Z.id, Hc.
  assert ((Z.of_nat i <? Z.of_nat (length records)) = true) as -> by lia. cbn [dict_offset dict_size].
  rewrite wrap_small by (unfold in_range; lia). rewrite Z.add_0_l. unfold checked_add.
  match goal with |- context [?x <? 2 ^ 64] => assert ((x <? 2 ^ 64) = true) as -> by lia end.
  match goal with |- context [Z.of_nat (length (concat (zc_dict <$> records))) <? ?y] =>
    assert ((Z.of_nat (length (concat (zc_dict <$> records))) <? y) = false) as -> by lia end.
  rewrite !Nat2Z.id.
  assert (take (length (zc_dict r)) (drop (length (concat (zc_dict <$> take i records))) (concat (zc_dict <$> records)))
    = zc_dict r) as ->.
  { rewrite <- (take_drop_middle _ _ _ Hrd). rewrite concat_app, <- fmap_take, drop_app_length. cbn [concat].
    apply take_app_length. }
  split; [reflexivity|]. by split_and!.
Qed.

(** ** A malformed blob description *)

(** A blob of three chunks with V2 entries, and its meta data on the backend. *)
Definition sample_meta_blob (info_size : Z) : BlobInfo :=
  set_blob_meta_info BLOB_META_FEATURE_CHUNK_INFO_V2 0x1000 info_size info_size (compress_as_u32 CNone)
    (BlobInfo_new 0 "meta" 0x4000 0x1000 0x1000 3 0).
Definition sample_reader : BlobReader := fun _ len =>
  Ok (take (Z.to_nat len) (as_byte_slice (ArrV2 sample_v2) ++ replicate 4096 0)).
Definition no_decompress (_ : CompressAlgorithm) (_ : list Z) (_ : Z) : outcome errno (list Z) := Err EINVAL.

(** a blob description whose meta data size does not match its chunk count makes
    [BlobMetaInfo::new] panic when it builds the file: the check that [validate_header] would
    report as an error is only reached through [assert!(validate_header(..).is_ok())] after the
    magic numbers are written. The next opening of the same file returns the error. *)
Theorem malformed_size_panics :
  exists file, @BlobMetaInfo_new dev_profile no_decompress (sample_meta_blob 100) (Some sample_reader) None
    = (Panic, Some file) /\
  @BlobMetaInfo_new dev_profile no_decompress (sample_meta_blob 100) (Some sample_reader) (Some file)
    = (Err EINVAL, Some file).
Proof.
  destruct (@BlobMetaInfo_new dev_profile no_decompress (sample_meta_blob 100) (Some sample_reader) None)
    as [r f] eqn:E.
  vm_compute in E. injection E as <- <-. eexists. split; [reflexivity|]. by vm_compute.
Qed.

(** ** Witnesses *)

Lemma sample_meta_blob_wf : blob_info_wf (sample_meta_blob 72).
Proof. unfold blob_info_wf. split_and!; by vm_compute. Qed.

Lemma BlobMetaInfo_reopen_witness :
  exists st file, @BlobMetaInfo_new dev_profile no_decompress (sample_meta_blob 72) (Some sample_reader) None
      = (Ok st, Some file) /\
    @BlobMetaInfo_new dev_profile no_decompress (sample_meta_blob 72) None (Some file) = (Ok st, Some file) /\
    ms_chunk_info_array st = ArrV2 sample_v2.
Proof.
  destruct (@BlobMetaInfo_new dev_profile no_decompress (sample_meta_blob 72) (Some sample_reader) None)
    as [[st|e|] f] eqn:E; [|vm_compute in E; discriminate E..].
  destruct (@BlobMetaInfo_reopen dev_profile no_decompress (sample_meta_blob 72) (Some sample_reader) None st f
    sample_meta_blob_wf E) as (file & -> & Hr).
  exists st, file. split; [reflexivity|]. split; [exact Hr|]. vm_compute in E. injection E as <- _. reflexivity.
Defined.

Lemma validated_tables_fit_witness :
  exists st, @meta_state dev_profile (sample_meta_blob 72) (replicate 8192 0) = Ok st.
Proof.
  destruct (@validated_tables_fit dev_profile (sample_meta_blob 72) (built_header (sample_meta_blob 72)) (replicate 8192 0)
    sample_meta_blob_wf) as (st & E & _); [by vm_compute | by vm_compute |].
  exists st. exact E.
Defined.

Lemma chunk_table_roundtrip_witness :
  from_file_map (as_byte_slice (ArrV2 sample_v2) ++ [1; 2; 3]) (sample_meta_blob 72) = Ok (ArrV2 sample_v2).
Proof.
  apply (chunk_table_roundtrip (ArrV2 sample_v2) [1; 2; 3] (sample_meta_blob 72)); [|by vm_compute|by vm_compute].
  repeat (constructor; [by vm_compute|]). constructor.
Defined.

Definition sample_records : list ZranContext :=
  [mkZranContext 10 0 100 200 0 0 [7; 8; 9]; mkZranContext 110 200 100 200 5 3 [1; 2]].

Lemma zran_store_roundtrip_witness :
  exists ctx, get_zran_context (mkBlobMetaState 0 0 0 0 (ArrV2 [])
      (table zran_of_bytes 40 1 2 ([0] ++ (zran_store sample_records).1 ++ [0]))
      (slice 81 5 ([0] ++ (zran_store sample_records).1 ++ [0]))) 1 = Some (ctx, [1; 2]) /\
    in_offset ctx = 110 /\ ctx_bits ctx = 3.
Proof.
  edestruct (zran_store_roundtrip [0] sample_records [0] (mkBlobMetaState 0 0 0 0 (ArrV2 [])
      (table zran_of_bytes 40 1 2 ([0] ++ (zran_store sample_records).1 ++ [0]))
      (slice 81 5 ([0] ++ (zran_store sample_records).1 ++ [0]))) 1%nat)
    as (ctx & E & Ei & _ & _ & _ & _ & Eb); [ | by vm_compute | reflexivity | reflexivity | reflexivity |].
  - repeat (constructor; [by vm_compute|]). constructor.
  - exists ctx. split; [exact E|]. split; [exact Ei | exact Eb].
Defined.
