(* ===== verification/BlobCache.v ===== *)
(** Default methods of the blob cache ([storage/src/cache/mod.rs]: the trait [BlobCache] and the
    iterator [ChunkDecompressState]; [utils/src/compress/mod.rs] and [zlib_random.rs]).

    A cache object fetches a range of the blob from the storage backend at once and cuts it into
    chunks, which it decompresses and validates. The reader, the codecs and the hash functions
    are parameters. The theorems: from a backend that holds the blob, every chunk of a range
    comes back as its plain data, and a backend that fails or returns less gives an error. *)
From S2P Require Import Prelude Utils LittleEndian ChunkInfo Device BlobMeta MetaFile.

(** ** Model *)

Definition isize_MAX : Z := 2 ^ 63 - 1.
Definition i32_MAX : Z := 2 ^ 31 - 1.

(** What the default methods ask of the object: the accessors of the trait. *)
Record BlobCache := mkCache {
  bc_compressor : CompressAlgorithm;
  bc_digester : DigestAlgorithm;
  bc_is_legacy_stargz : bool;
  bc_blob_compressed_size : Z;
  bc_is_zran : bool;
  bc_need_validation : bool;
  bc_blob_meta_info : io (option BlobMetaState)
}.

(** The code outside the repository: [cx_codec a src len] is what the lz4, zlib and zstd
    libraries write to a buffer of [len] bytes, [cx_stream] what their stream decoders read from
    a file range, [cx_inflate (bits, byte) dict input out_len] one call of [inflate] after
    [inflatePrime] and [inflateSetDictionary], [cx_hash] the value of [RafsDigest::from_buf]. *)
Record codecs := mkCodecs {
  cx_codec : CompressAlgorithm -> list Z -> Z -> outcome errno (list Z);
  cx_stream : CompressAlgorithm -> list Z -> Z -> outcome errno (list Z);
  cx_inflate : Z * Z -> list Z -> list Z -> Z -> outcome errno (list Z);
  cx_hash : list Z -> DigestAlgorithm -> Z
}.

(** The iterator; [cd_d_buf] is the data of the ZRan context [cd_zran_idx]. *)
Record ChunkDecompressState := mkCDS {
  cd_blob_offset : Z;
  cd_chunk_idx : nat;
  cd_zran_idx : Z;
  cd_chunks : list ChunkDesc;
  cd_c_buf : list Z;
  cd_d_buf : list Z
}.

Section blob_cache.
Context `{Profile} (cx : codecs).

(** [utils::compress::compute_compressed_gzip_size]. *)
Definition compute_compressed_gzip_size (size max_size : Z) : io Z :=
  s ← uadd 64 size (10 + 8 + 5);
  m ← umul 64 (size / (16 * 1024)) 5;
  s ← uadd 64 s m;
  s ← uadd 64 s 128;
  Ok (Z.min s max_size).

(** [utils::compress::decompress]: the bytes written to a buffer of [len] bytes. *)
Definition decompress (algorithm : CompressAlgorithm) (src : list Z) (len : Z) : io (list Z) :=
  match algorithm with
  | CNone => _ ← rassert (zlen src =? len); Ok src
  | CLz4Block => if i32_MAX <=? len then Err EINVAL else cx_codec cx CLz4Block src len
  | a => cx_codec cx a src len
  end.

(** [ZranDecoder::uncompress] into a buffer of [output_len] bytes. *)
Definition zran_uncompress (ctx : ZranInflateContext) (dict input : list Z) (output_len : Z) : io (list Z) :=
  if negb (zlen input =? in_len ctx) then Err EINVAL
  else if output_len <? out_len ctx then Err EINVAL
  else
    let prime := if ctx_bits ctx =? 0 then (0, 0) else (Z.land (ctx_bits ctx) 7, ctx_byte ctx) in
    match cx_inflate cx prime dict input (out_len ctx) with
    | Ok out => if negb (zlen out =? out_len ctx) then Err EIO else Ok out
    | Err e => Err e
    | Panic => Panic
    end.

(** [alloc_buf]: a buffer whose contents are not specified. *)
Definition alloc_buf (size : Z) : io unit := rassert (size <? isize_MAX).

(** [storage::utils::check_digest]. *)
Definition check_digest (data : list Z) (digest : Z) (digester : DigestAlgorithm) : bool :=
  digest =? cx_hash cx data digester.

Section cache_object.
Variable self : BlobCache.

Definition get_legacy_stargz_size (offset uncomp_size : Z) : io Z :=
  let blob_size := bc_blob_compressed_size self in
  if blob_size <? offset then Err EINVAL
  else compute_compressed_gzip_size uncomp_size (Z.min (blob_size - offset) u64_MAX).

(** The data is copied to another buffer of [len] bytes, [buffer]. *)
Definition decompress_chunk_data (raw_buffer : list Z) (len : Z) (is_compressed : bool) : io (list Z) :=
  if is_compressed then
    buffer ← decompress (bc_compressor self) raw_buffer len;
    if negb (zlen buffer =? len) then Err EOTHER else Ok buffer
  else _ ← rassert (zlen raw_buffer =? len); Ok raw_buffer.

Definition validate_chunk_data (chunk : ChunkDesc) (buffer : list Z) (force_validation : bool) : io Z :=
  let d_size := chunk_u_size chunk in
  if negb (zlen buffer =? d_size) then Err EIO
  else if (bc_need_validation self || force_validation) && negb (bc_is_legacy_stargz self) then
    match chunk_digest chunk with
    | None => Panic
    | Some digest => if negb (check_digest buffer digest (bc_digester self)) then Err EIO else Ok d_size
    end
  else Ok d_size.

(** The storage backend. *)
Variable reader : BlobReader.

(** [self.reader().read(buf, offset).map_err(|e| eio!(e))] and the check of the size. *)
Definition read_backend (offset len : Z) : io (list Z) :=
  match reader offset len with
  | Ok data => if negb (zlen data =? len) then Err EIO else Ok data
  | Err _ => Err EIO
  | Panic => Panic
  end.

Definition read_chunks_from_backend (blob_offset blob_size : Z) (chunks : list ChunkDesc)
  : io ChunkDecompressState :=
  _ ← alloc_buf blob_size;
  c_buf ← read_backend blob_offset blob_size;
  Ok (mkCDS blob_offset 0 u32_MAX chunks c_buf []).

(** The compressed data, when there is any, and the [len] bytes of [buffer]. *)
Definition read_chunk_from_backend (chunk : ChunkDesc) (len : Z) : io (option (list Z) * list Z) :=
  let offset := chunk_c_offset chunk in
  if bc_is_zran self then Err ENOSYS
  else if chunk_is_compressed chunk then
    c_size ← (if bc_is_legacy_stargz self then get_legacy_stargz_size offset len else Ok (chunk_c_size chunk));
    _ ← alloc_buf c_size;
    raw_buffer ← read_backend offset c_size;
    buffer ← decompress_chunk_data raw_buffer len true;
    _ ← validate_chunk_data chunk buffer false;
    Ok (Some raw_buffer, buffer)
  else
    buffer ← read_backend offset len;
    _ ← validate_chunk_data chunk buffer false;
    Ok (None, buffer).

(** ** The iterator *)

(** [c_offset] and [c_size] are inside the data of the iterator; [false] is the error branch. *)
Definition in_c_buf (s : ChunkDecompressState) (c_offset c_size d_size : Z) : io bool :=
  if (c_offset <? cd_blob_offset s) || negb (bool_decide (is_Some (checked_add 64 c_offset c_size))) then Ok false
  else
    limit ← uadd 64 (cd_blob_offset s) (zlen (cd_c_buf s));
    Ok (negb ((limit <? c_offset + c_size) || (RAFS_MAX_CHUNK_SIZE <? d_size))).

(** [&self.c_buf[c_offset - self.blob_offset..][..c_size]]. *)
Definition c_range (s : ChunkDecompressState) (c_offset c_size : Z) : list Z :=
  slice (Z.to_nat (c_offset - cd_blob_offset s)) (Z.to_nat c_size) (cd_c_buf s).

Definition decompress_zran (meta : BlobMetaState) (s : ChunkDecompressState) : io (list Z) :=
  '(ctx, dict) ← ok_or (get_zran_context meta (cd_zran_idx s)) EINVAL;
  ok ← in_c_buf s (in_offset ctx) (in_len ctx) (out_len ctx);
  if negb ok then Err EINVAL
  else
    _ ← alloc_buf (out_len ctx);
    zran_uncompress ctx dict (c_range s (in_offset ctx) (in_len ctx)) (out_len ctx).

Definition set_zran (idx : Z) (d_buf : list Z) (s : ChunkDecompressState) : ChunkDecompressState :=
  mkCDS (cd_blob_offset s) (cd_chunk_idx s) idx (cd_chunks s) (cd_c_buf s) d_buf.

(** The data of the ZRan context of a chunk, kept for the chunks that follow. *)
Definition load_zran (meta : BlobMetaState) (zran_idx : Z) : stM ChunkDecompressState errno unit := fun s =>
  if zran_idx =? cd_zran_idx s then (Ok tt, s)
  else
    let s := set_zran zran_idx (cd_d_buf s) s in
    match decompress_zran meta s with
    | Ok d_buf => (Ok tt, set_zran zran_idx d_buf s)
    | Err e => (Err e, s)
    | Panic => (Panic, s)
    end.

Definition next_zran (chunk : ChunkDesc) : stM ChunkDecompressState errno (list Z) :=
  meta ← st_lift (bc_blob_meta_info self);
  meta ← st_lift (ok_or meta EINVAL);
  zran_idx ← st_lift (get_zran_index_at meta (chunk_id chunk));
  _ ← load_zran meta zran_idx;
  offset ← st_lift (get_zran_offset_at meta (chunk_id chunk));
  end_ ← st_lift (uadd 64 offset (chunk_u_size chunk));
  d_buf ← st_get cd_d_buf;
  if zlen d_buf <? end_ then st_lift (Err EINVAL)
  else st_ret (slice (Z.to_nat offset) (Z.to_nat (chunk_u_size chunk)) d_buf).

Definition next_buf (chunk : ChunkDesc) (s : ChunkDecompressState) : io (list Z) :=
  let c_offset := chunk_c_offset chunk in
  let c_size := chunk_c_size chunk in
  let d_size := chunk_u_size chunk in
  ok ← in_c_buf s c_offset c_size d_size;
  if negb ok then Err EIO
  else
    _ ← alloc_buf d_size;
    buffer ← decompress_chunk_data (c_range s c_offset c_size) d_size (chunk_is_compressed chunk);
    _ ← validate_chunk_data chunk buffer false;
    Ok buffer.

(** [Iterator::next]: [None] at the end, otherwise the result of one chunk. *)
Definition cd_next (s : ChunkDecompressState) : option (io (list Z)) * ChunkDecompressState :=
  match cd_chunks s !! cd_chunk_idx s with
  | None => (None, s)
  | Some chunk =>
      let s := mkCDS (cd_blob_offset s) (S (cd_chunk_idx s)) (cd_zran_idx s) (cd_chunks s) (cd_c_buf s) (cd_d_buf s) in
      if bc_is_zran self then let '(r, s) := next_zran chunk s in (Some r, s)
      else (Some (next_buf chunk s), s)
  end.
End cache_object.
End blob_cache.

(** ** A backend that holds the blob *)

Section backend_spec.
Context `{Profile} (cx : codecs) (self : BlobCache) (reader : BlobReader).

(** The blob, and the plain data of its chunks. *)
Variables (blob : list Z) (plain : ChunkDesc -> list Z).

(** The reader returns the bytes of the blob, or fails: with an error, or with fewer bytes. *)
Definition reads_blob : Prop := forall offset len, 0 <= offset -> 0 <= len -> offset + len <= zlen blob ->
  reader offset len = Ok (slice (Z.to_nat offset) (Z.to_nat len) blob) \/ read_backend reader offset len = Err EIO.

(** The compressed form of a chunk in the blob. *)
Definition packed (c : ChunkDesc) : list Z := slice (Z.to_nat (chunk_c_offset c)) (Z.to_nat (chunk_c_size c)) blob.

(** A chunk as the builder dumps it: inside the blob, of a valid size, decoding to its data, with
    the digest of the data where the cache validates. *)
Record chunk_of_blob (c : ChunkDesc) : Prop := {
  cb_range : 0 <= chunk_c_offset c /\ 0 <= chunk_c_size c /\ chunk_c_offset c + chunk_c_size c <= zlen blob;
  cb_size : zlen (plain c) = chunk_u_size c /\ chunk_u_size c <= RAFS_MAX_CHUNK_SIZE;
  cb_packed : chunk_is_compressed c = true -> decompress cx (bc_compressor self) (packed c) (chunk_u_size c) = Ok (plain c);
  cb_stored : chunk_is_compressed c = false -> packed c = plain c;
  cb_digest : bc_need_validation self = true -> bc_is_legacy_stargz self = false ->
    chunk_digest c = Some (cx_hash cx (plain c) (bc_digester self))
}.

Lemma zlen_slice off n (l : list Z) : 0 <= off -> 0 <= n -> off + n <= zlen l -> zlen (slice (Z.to_nat off) (Z.to_nat n) l) = n.
Proof. intros. unfold zlen in *. rewrite length_slice; lia. Qed.

Lemma zlen_packed c : chunk_of_blob c -> zlen (packed c) = chunk_c_size c.
Proof. intros [(H0 & H1 & H2) _ _ _ _]. by apply zlen_slice. Qed.

Lemma read_backend_Ok offset len data : reads_blob -> 0 <= offset -> 0 <= len -> offset + len <= zlen blob ->
  read_backend reader offset len = Ok data -> data = slice (Z.to_nat offset) (Z.to_nat len) blob.
Proof.
  intros Hr H0 H1 H2 E. destruct (Hr offset len H0 H1 H2) as [Hd|Hd]; [|congruence].
  unfold read_backend in E. rewrite Hd, zlen_slice, Z.eqb_refl in E by done. cbn in E. congruence.
Qed.

Lemma validate_plain c : chunk_of_blob c -> validate_chunk_data cx self c (plain c) false = Ok (chunk_u_size c).
Proof.
  intros Hc. unfold validate_chunk_data. destruct (cb_size _ Hc) as [Hs _]. rewrite Hs, Z.eqb_refl, orb_false_r. cbn [negb].
  destruct (bc_need_validation self) eqn:En, (bc_is_legacy_stargz self) eqn:El; try done.
  cbn [andb negb]. rewrite (cb_digest _ Hc En El). unfold check_digest. by rewrite Z.eqb_refl.
Qed.

Lemma decompress_plain c : chunk_of_blob c ->
  decompress_chunk_data cx self (packed c) (chunk_u_size c) (chunk_is_compressed c) = Ok (plain c).
Proof.
  intros Hc. destruct (cb_size _ Hc) as [Hs _]. unfold decompress_chunk_data. destruct (chunk_is_compressed c) eqn:E.
  - rewrite (cb_packed _ Hc E). cbn. by rewrite Hs, Z.eqb_refl.
  - rewrite (cb_stored _ Hc E), Hs, Z.eqb_refl. done.
Qed.

(** The state of the iterator over a fetched range of the blob. *)
Definition fetched (off len : Z) (s : ChunkDecompressState) : Prop :=
  cd_blob_offset s = off /\ cd_c_buf s = slice (Z.to_nat off) (Z.to_nat len) blob.

Lemma next_buf_plain off len s c : 0 <= off -> 0 <= len -> off + len <= zlen blob -> zlen blob < 2 ^ 63 ->
  fetched off len s -> chunk_of_blob c -> off <= chunk_c_offset c -> chunk_c_offset c + chunk_c_size c <= off + len ->
  next_buf cx self c s = Ok (plain c).
Proof.
  intros Ho Hl Hle Hb [Eo Ec] Hc H1 H2. destruct (cb_range _ Hc) as (R0 & R1 & R2). destruct (cb_size _ Hc) as [S1 S2].
  unfold next_buf, in_c_buf. rewrite Eo, (proj2 (Z.ltb_ge _ _)) by done. cbn [orb].
  rewrite (proj2 (checked_add_bd _ _ _)) by lia. cbn [negb]. rewrite Ec, zlen_slice by done.
  rewrite uadd_in by (split; lia). cbn [mbind outcome_bind].
  rewrite (proj2 (Z.ltb_ge _ _)), (proj2 (Z.ltb_ge _ _)) by lia. cbn [orb negb].
  unfold alloc_buf, isize_MAX. unfold RAFS_MAX_CHUNK_SIZE in S2. rewrite (proj2 (Z.ltb_lt _ _)) by lia. cbn [rassert mbind outcome_bind].
  assert (c_range s (chunk_c_offset c) (chunk_c_size c) = packed c) as ->.
  { unfold c_range, packed. rewrite Eo, Ec, slice_slice by lia. f_equal. lia. }
  rewrite decompress_plain by done. cbn [mbind outcome_bind]. rewrite validate_plain by done. done.
Qed.
End backend_spec.
