(* ===== verification/IoMerge.v ===== *)
(** Merging of IO descriptors into backend requests ([storage/src/cache/mod.rs],
    [BlobIoMergeState]).

    [merge_and_issue] folds a sequence of descriptors into ranges and hands every range to a
    callback; the model returns the list of ranges in the order of the calls. The theorems show
    that the ranges partition the descriptors in order, that each range spans exactly its
    chunks, and that no assertion fires when the blob is not a legacy stargz one. *)
From S2P Require Import Prelude ChunkInfo Device.

(** ** Model *)

Section merge_state.
Context `{Profile}.

(** [size] is the compressed size of the pending descriptors. *)
Record BlobIoMergeState := mkMerge { mg_size : Z; mg_bios : list BlobIoDesc }.

Definition bio_offset (b : BlobIoDesc) : Z := chunk_c_offset (io_chunk b).
Definition bio_size (b : BlobIoDesc) : Z := chunk_c_size (io_chunk b).

Definition BlobIoMergeState_new (bio : BlobIoDesc) : BlobIoMergeState :=
  mkMerge (bio_size bio) [bio].

Definition merge_push (bio : BlobIoDesc) (s : BlobIoMergeState) : io BlobIoMergeState :=
  let start := bio_offset bio in
  size ← (match last (mg_bios s) with
          | Some last =>
              prev ← uadd 64 (bio_offset last) (bio_size last);
              _ ← rassert (prev <=? start);
              _ ← rassert (start - prev <? u32_MAX);
              uadd 32 (wrap 32 (start - prev)) (bio_size bio)
          | None => Ok (bio_size bio)
          end);
  _ ← rassert (bool_decide (is_Some (checked_add 32 (mg_size s) size)));
  total ← uadd 32 (mg_size s) size;
  Ok (mkMerge total (mg_bios s ++ [bio])).

(** [for bio in self.bios[1..].iter()]. *)
Fixpoint merge_all (max_gap : Z) (bios : list BlobIoDesc) (mr : BlobIoRange) : io BlobIoRange :=
  match bios with
  | [] => Ok mr
  | bio :: bios => mr ← BlobIoRange_merge bio max_gap mr; merge_all max_gap bios mr
  end.

(** [issue]: the ranges passed to the callback (one, or none) and the state left. *)
Definition merge_issue (max_gap : Z) (s : BlobIoMergeState)
  : io (list BlobIoRange * BlobIoMergeState) :=
  match mg_bios s with
  | [] => Ok ([], s)
  | bio :: bios =>
      mr ← BlobIoRange_new bio;
      mr ← merge_all max_gap bios mr;
      Ok ([mr], mkMerge 0 [])
  end.

(** [for cur_bio in &bios[1..]]; [prev] is [bios[index - 1]]. *)
Fixpoint merge_loop (max_comp_size max_gap : Z) (prev : BlobIoDesc) (bios : list BlobIoDesc)
    (s : BlobIoMergeState) (out : list BlobIoRange) : io (list BlobIoRange) :=
  match bios with
  | [] => '(rs, _) ← merge_issue max_gap s; Ok (out ++ rs)
  | cur :: bios =>
      cont ← is_continuous prev cur max_gap;
      '(rs, s) ← (if negb cont || (max_comp_size <=? mg_size s)
                  then merge_issue max_gap s else Ok ([], s));
      s ← merge_push cur s;
      merge_loop max_comp_size max_gap cur bios s (out ++ rs)
  end.

Definition merge_and_issue (bios : list BlobIoDesc) (max_comp_size max_gap : Z)
  : io (list BlobIoRange) :=
  match bios with
  | [] => Ok []
  | bio :: rest => merge_loop max_comp_size max_gap bio rest (BlobIoMergeState_new bio) []
  end.
End merge_state.

(** ** Properties *)

Section merge_spec.
Context `{Profile} (max_comp_size max_gap : Z).
Hypothesis Hcomp : 0 <= max_comp_size.
Hypothesis Hgap : 0 <= max_gap.
Hypothesis Hlimit : max_comp_size + max_gap + RAFS_MAX_CHUNK_SIZE < u32_MAX.

(** A descriptor of a chunk the chunk table can hold, on a blob that is not a legacy one. *)
Definition bio_ok (b : BlobIoDesc) : Prop :=
  in_range 40 (bio_offset b) /\ 0 <= bio_size b <= RAFS_MAX_CHUNK_SIZE /\
  bi_is_legacy_stargz (io_blob b) = false.

(** Chunks from [e] on in address order, with holes of at most [max_gap] bytes, in one blob. *)
Fixpoint gap_chain (idx e : Z) (cs : list ChunkDesc) : Prop :=
  match cs with
  | [] => True
  | c :: cs => chunk_blob_index c = idx /\ e <= chunk_c_offset c <= e + max_gap /\
      gap_chain idx (chunk_c_offset c + chunk_c_size c) cs
  end.

Fixpoint gap_end (e : Z) (cs : list ChunkDesc) : Z :=
  match cs with [] => e | c :: cs => gap_end (chunk_c_offset c + chunk_c_size c) cs end.

(** A backend request that starts at its first chunk, ends at its last one, skips holes of at
    most [max_gap] bytes and is bounded by the merging size. *)
Definition range_ok (r : BlobIoRange) : Prop :=
  exists c cs, rg_chunks r = c :: cs /\ rg_blob_offset r = chunk_c_offset c /\
    rg_blob_offset r + rg_blob_size r = gap_end (chunk_c_offset c + chunk_c_size c) cs /\
    gap_chain (chunk_blob_index c) (chunk_c_offset c + chunk_c_size c) cs /\
    rg_blob_size r <= max_comp_size + max_gap + RAFS_MAX_CHUNK_SIZE.

Definition bio_end (b : BlobIoDesc) : Z := bio_offset b + bio_size b.

(** The pending descriptors between two calls of [issue]: [prev] is the last one. *)
Definition pending (prev : BlobIoDesc) (s : BlobIoMergeState) : Prop :=
  exists b bs, mg_bios s = b :: bs /\ Forall bio_ok (b :: bs) /\ last (b :: bs) = Some prev /\
    gap_chain (chunk_blob_index (io_chunk b)) (bio_end b) (io_chunk <$> bs) /\
    mg_size s = bio_end prev - bio_offset b /\
    mg_size s <= max_comp_size + max_gap + RAFS_MAX_CHUNK_SIZE.

Lemma gap_chain_snoc idx e cs c : gap_chain idx e cs -> chunk_blob_index c = idx ->
  gap_end e cs <= chunk_c_offset c <= gap_end e cs + max_gap -> gap_chain idx e (cs ++ [c]).
Proof. revert e. induction cs as [|d cs IH]; intros e; cbn; naive_solver. Qed.

Lemma gap_end_last b bs prev : last (b :: bs) = Some prev ->
  gap_end (bio_end b) (io_chunk <$> bs) = bio_end prev.
Proof.
  revert b. induction bs as [|c bs IH]; intros b; [by intros [= <-]|].
  intros E. apply (IH c). by rewrite <- E.
Qed.

Lemma gap_chain_end_ge idx e bs : Forall bio_ok bs -> gap_chain idx e (io_chunk <$> bs) ->
  e <= gap_end e (io_chunk <$> bs).
Proof.
  intros Hb. revert e. induction Hb as [|b bs Hb Hbs IH]; intros e; cbn; [lia|].
  intros (_ & He & Hc). apply IH in Hc. destruct Hb as (_ & ? & _). unfold bio_size in *. lia.
Qed.

Lemma gap_chain_same_index idx e bs prev : gap_chain idx e (io_chunk <$> bs) -> last bs = Some prev ->
  chunk_blob_index (io_chunk prev) = idx.
Proof.
  revert e. induction bs as [|b bs IH]; intros e; [done|]. cbn. intros (? & _ & Hc).
  destruct bs; [by intros [= <-]|]. eapply IH, Hc.
Qed.

Lemma merge_all_Ok idx bios mr : Forall bio_ok bios -> 0 <= rg_blob_offset mr -> 0 <= rg_blob_size mr ->
  rg_blob_offset mr + rg_blob_size mr < 2 ^ 63 ->
  gap_chain idx (rg_blob_offset mr + rg_blob_size mr) (io_chunk <$> bios) ->
  exists mr', merge_all max_gap bios mr = Ok mr' /\ rg_blob_offset mr' = rg_blob_offset mr /\
    rg_blob_offset mr + rg_blob_size mr' =
      gap_end (rg_blob_offset mr + rg_blob_size mr) (io_chunk <$> bios) /\
    rg_chunks mr' = rg_chunks mr ++ (io_chunk <$> bios) /\
    rg_tags mr' = rg_tags mr ++ (tag_from_desc <$> bios).
Proof.
  intros Hb. revert mr. induction Hb as [|b bios Hb Hbs IH]; intros mr Ho Hs Hm Hc.
  { exists mr. by rewrite !app_nil_r. }
  cbn in Hc. destruct Hc as (_ & He & Hc). destruct Hb as (Hr & Hz & _).
  unfold bio_offset, bio_size, in_range, RAFS_MAX_CHUNK_SIZE in *. cbn [merge_all].
  assert (exists mr1, BlobIoRange_merge b max_gap mr = Ok mr1 /\ rg_blob_offset mr1 = rg_blob_offset mr /\
    rg_blob_offset mr + rg_blob_size mr1 = chunk_c_offset (io_chunk b) + chunk_c_size (io_chunk b) /\
    rg_chunks mr1 = rg_chunks mr ++ [io_chunk b] /\ rg_tags mr1 = rg_tags mr ++ [tag_from_desc b])
    as (mr1 & -> & E1 & E2 & E3 & E4).
  { unfold BlobIoRange_merge. rewrite uadd_in by (unfold in_range; lia). cbn [mbind outcome_bind].
    destruct (Z.eqb_spec (rg_blob_offset mr + rg_blob_size mr) (chunk_c_offset (io_chunk b))) as [Eq|Ne].
    - rewrite <- Eq in *. do 2 (rewrite bool_decide_eq_true_2 by (eexists; apply checked_add_Some; split; [done|lia]); cbn [rassert mbind outcome_bind]).
      rewrite uadd_in by (unfold in_range; lia). eexists. split; [done|]. cbn. split_and!; done || lia.
    - assert ((rg_blob_offset mr + rg_blob_size mr <? chunk_c_offset (io_chunk b)) = true) as -> by lia.
      assert ((chunk_c_offset (io_chunk b) - (rg_blob_offset mr + rg_blob_size mr) <=? max_gap) = true) as -> by lia.
      cbn [rassert mbind outcome_bind andb]. rewrite uadd_in by (unfold in_range; lia). cbn [mbind outcome_bind].
      rewrite bool_decide_eq_true_2 by (eexists; apply checked_add_Some; split; [done|lia]).
      cbn [rassert mbind outcome_bind]. rewrite uadd_in by (unfold in_range; lia).
      eexists. split; [done|]. cbn. split_and!; done || lia. }
  cbn [mbind outcome_bind]. destruct (IH mr1) as (mr' & -> & F1 & F2 & F3 & F4); rewrite ?E1; try lia.
  { by rewrite E2. }
  exists mr'. split; [done|]. cbn. rewrite F3, F4, E3, E4, <- !app_assoc.
  rewrite E1, E2 in F2. split_and!; done || congruence.
Qed.

Lemma issue_pending prev s : pending prev s ->
  exists r, merge_issue max_gap s = Ok ([r], mkMerge 0 []) /\ range_ok r /\
    rg_chunks r = io_chunk <$> mg_bios s /\ rg_tags r = tag_from_desc <$> mg_bios s.
Proof.
  intros (b & bs & E & Hb & Hl & Hc & Hs & Hm). inversion Hb as [|? ? Hb1 Hb2]; subst.
  destruct Hb1 as (Hr & Hz & _). unfold merge_issue, BlobIoRange_new. rewrite E.
  unfold in_range, bio_size, bio_offset, bio_end, RAFS_MAX_CHUNK_SIZE in *.
  rewrite bool_decide_eq_true_2 by (eexists; apply checked_add_Some; split; [done|lia]).
  cbn [rassert mbind outcome_bind].
  edestruct (merge_all_Ok (chunk_blob_index (io_chunk b)) bs) as (r & -> & F1 & F2 & F3 & F4);
    [done|..|]; cbn [rg_blob_offset rg_blob_size]; [lia..|exact Hc|].
  cbn in *. exists r. split; [done|]. rewrite F3, F4. split; [|done].
  exists (io_chunk b), (io_chunk <$> bs). rewrite F3, F1. split_and!; try done.
  pose proof (gap_end_last b bs prev Hl) as Hg.
  unfold bio_end, bio_offset, bio_size, RAFS_MAX_CHUNK_SIZE in *. lia.
Qed.

Lemma pending_new b : bio_ok b -> pending b (BlobIoMergeState_new b).
Proof.
  intros Hb. exists b, []. unfold bio_end. cbn. pose proof Hb as (? & ? & ?).
  split_and!; try done; [|lia..]. constructor; [done|constructor].
Qed.

Lemma pending_size prev s : pending prev s -> 0 <= mg_size s.
Proof.
  intros (b & bs & _ & Hb & Hl & Hc & -> & _). inversion Hb as [|? ? (_ & Hz & _) Hb2]; subst.
  pose proof (gap_chain_end_ge _ _ _ Hb2 Hc). rewrite (gap_end_last _ _ _ Hl) in *. unfold bio_end in *. lia.
Qed.

Lemma is_continuous_Ok prev cur : bio_ok prev -> bio_ok cur ->
  is_continuous prev cur max_gap = Ok
    ((chunk_blob_index (io_chunk prev) =? chunk_blob_index (io_chunk cur)) &&
     (bio_end prev <=? bio_offset cur) && (bio_offset cur - bio_end prev <=? max_gap)).
Proof.
  intros (Hr & Hz & _) (Hr' & Hz' & Hl). unfold is_continuous.
  unfold bio_end, bio_offset, bio_size, in_range, RAFS_MAX_CHUNK_SIZE in *.
  rewrite uadd_in by (unfold in_range; lia). cbn [mbind outcome_bind]. rewrite Hl.
  destruct (_ && _); done.
Qed.

Lemma push_empty cur : bio_ok cur -> merge_push cur (mkMerge 0 []) = Ok (BlobIoMergeState_new cur).
Proof.
  intros (Hr & Hz & _). unfold merge_push, in_range, RAFS_MAX_CHUNK_SIZE in *. cbn [last mg_bios mg_size mbind outcome_bind].
  rewrite bool_decide_eq_true_2 by (eexists; apply checked_add_Some; split; [done|lia]).
  cbn [rassert mbind outcome_bind]. rewrite uadd_in by (unfold in_range; lia). done.
Qed.

Lemma push_pending prev cur s : pending prev s -> bio_ok cur ->
  chunk_blob_index (io_chunk prev) = chunk_blob_index (io_chunk cur) ->
  bio_end prev <= bio_offset cur <= bio_end prev + max_gap -> mg_size s < max_comp_size ->
  exists s', merge_push cur s = Ok s' /\ pending cur s' /\ mg_bios s' = mg_bios s ++ [cur].
Proof.
  intros Hp Hcur Hi Hg Hlt. pose proof (pending_size _ _ Hp) as H0.
  destruct Hp as (b & bs & E & Hb & Hl & Hc & Hs & Hm). pose proof Hcur as (Hr & Hz & _).
  assert (bio_ok prev) as (Hrp & Hzp & _) by (eapply Forall_forall; [exact Hb|]; by apply last_Some_elem_of).
  unfold merge_push. rewrite E, Hl. unfold bio_end, in_range, RAFS_MAX_CHUNK_SIZE in *. pose proof (eq_refl u32_MAX) as Hu.
  unfold u32_MAX in Hlimit, Hu at 1.
  rewrite uadd_in by (unfold in_range; lia). cbn [mbind outcome_bind].
  assert ((bio_offset prev + bio_size prev <=? bio_offset cur) = true) as -> by lia. cbn [rassert mbind outcome_bind].
  assert ((bio_offset cur - (bio_offset prev + bio_size prev) <? u32_MAX) = true) as -> by lia.
  cbn [rassert mbind outcome_bind]. rewrite wrap_small by (unfold in_range; lia).
  rewrite uadd_in by (unfold in_range; lia). cbn [mbind outcome_bind].
  rewrite bool_decide_eq_true_2 by (eexists; apply checked_add_Some; split; [done|lia]).
  cbn [rassert mbind outcome_bind]. rewrite uadd_in by (unfold in_range; lia). cbn [mbind outcome_bind].
  eexists. split; [done|]. split; [|done]. exists b, (bs ++ [cur]). cbn [mg_bios mg_size].
  unfold RAFS_MAX_CHUNK_SIZE, bio_end. split_and!; [done | | | | lia | lia].
  - rewrite app_comm_cons. apply Forall_app. by split; [|constructor].
  - by rewrite app_comm_cons, last_snoc.
  - rewrite fmap_app. apply gap_chain_snoc; [done| |].
    + rewrite <- Hi. destruct bs as [|b' bs]; [by injection Hl as ->|]. symmetry.
      symmetry. eapply gap_chain_same_index; [exact Hc|done].
    + pose proof (gap_end_last _ _ _ Hl) as Hg'. unfold bio_end in Hg'. rewrite Hg'. exact Hg.
Qed.

(** The request that was built from a run of descriptors. *)
Definition built_from (r : BlobIoRange) (part : list BlobIoDesc) : Prop :=
  rg_chunks r = io_chunk <$> part /\ rg_tags r = tag_from_desc <$> part.

Lemma merge_loop_parts bios : forall prev s out, pending prev s -> bio_ok prev -> Forall bio_ok bios ->
  Forall range_ok out ->
  exists rs parts, merge_loop max_comp_size max_gap prev bios s out = Ok (out ++ rs) /\ Forall range_ok (out ++ rs) /\
    Forall2 built_from rs parts /\ concat parts = mg_bios s ++ bios.
Proof.
  induction bios as [|cur bios IH]; intros prev s out Hp Hprev Hb Ho; cbn [merge_loop].
  - destruct (issue_pending prev s Hp) as (r & -> & Hr & Hch & Ht). cbn [mbind outcome_bind].
    exists [r], [mg_bios s]. split; [done|]. split; [by apply Forall_app; split; [|constructor]|]. cbn. by repeat constructor.
  - apply Forall_cons in Hb as [Hcur Hb]. rewrite is_continuous_Ok by done. cbn [mbind outcome_bind].
    destruct (negb _ || _) eqn:E.
    + destruct (issue_pending prev s Hp) as (r & -> & Hr & Hch & Ht). cbn [mbind outcome_bind].
      rewrite push_empty by done. cbn [mbind outcome_bind].
      destruct (IH cur (BlobIoMergeState_new cur) (out ++ [r])) as (rs & parts & -> & Hrs & Hf & Hc);
        [by apply pending_new | done | done | by apply Forall_app; split; [|constructor] | ].
      exists (r :: rs), (mg_bios s :: parts). rewrite <- app_assoc in Hrs |- *. split_and!; [done|done|by constructor|]. cbn. by rewrite Hc.
    + cbn [mbind outcome_bind]. destruct (push_pending prev cur s) as (s' & -> & Hp' & Es'); [done | done | lia | lia | lia |].
      cbn [mbind outcome_bind]. destruct (IH cur s' (out ++ [])) as (rs & parts & -> & Hrs & Hf & Hc);
        [done | done | done | by rewrite app_nil_r |].
      exists rs, parts. rewrite app_nil_r in Hrs |- *. split_and!; [done|done|done|]. rewrite Hc, Es', <- app_assoc. done.
Qed.

Lemma merge_and_issue_parts bios : Forall bio_ok bios ->
  exists rs parts, merge_and_issue bios max_comp_size max_gap = Ok rs /\ Forall range_ok rs /\ Forall2 built_from rs parts /\ concat parts = bios.
Proof.
  intros Hb. destruct bios as [|b bios]; [by exists [], []|]. apply Forall_cons in Hb as [Hb Hbs].
  destruct (merge_loop_parts bios b (BlobIoMergeState_new b) []) as (rs & parts & E & Hrs & Hf & Hc);
    [by apply pending_new | done | done | constructor |]. by exists rs, parts.
Qed.

Lemma built_concat rs parts : Forall2 built_from rs parts ->
  concat (rg_chunks <$> rs) = io_chunk <$> concat parts /\ concat (rg_tags <$> rs) = tag_from_desc <$> concat parts.
Proof.
  induction 1 as [|r part rs parts [E1 E2] _ [IH1 IH2]]; [done|]. cbn [fmap list_fmap concat]. by rewrite !fmap_app, E1, E2, IH1, IH2.
Qed.

(** Neighbours in a request, and the place of its chunks. *)
Lemma gap_chain_next idx e cs i c d : gap_chain idx e cs -> cs !! i = Some c -> cs !! S i = Some d ->
  chunk_blob_index c = chunk_blob_index d /\ chunk_c_offset c + chunk_c_size c <= chunk_c_offset d <= chunk_c_offset c + chunk_c_size c + max_gap.
Proof.
  revert e i. induction cs as [|b cs IH]; intros e [|i] Hg Hc Hd; try done; destruct Hg as (Hb & _ & Hg); [|by apply (IH _ i Hg)].
  injection Hc as ->. destruct cs as [|b' cs]; [done|]. injection Hd as ->. destruct Hg as (-> & ? & _). by rewrite Hb.
Qed.

Lemma gap_chain_inside idx e cs c : Forall (fun d => 0 <= chunk_c_size d) cs -> gap_chain idx e cs ->
  e <= gap_end e cs /\ (c ∈ cs -> e <= chunk_c_offset c /\ chunk_c_offset c + chunk_c_size c <= gap_end e cs).
Proof.
  intros Hs. revert e. induction Hs as [|d cs Hd _ IH]; intros e Hg; [by split; [cbn; lia|intros ?%elem_of_nil]|].
  destruct Hg as (_ & He & Hg). destruct (IH _ Hg) as [I1 I2]. cbn [gap_end]. split; [lia|]. intros [->|Hc]%elem_of_cons; [lia|]. specialize (I2 Hc). lia.
Qed.

Lemma range_ok_chain r : range_ok r -> exists idx, gap_chain idx (rg_blob_offset r) (rg_chunks r) /\
  gap_end (rg_blob_offset r) (rg_chunks r) - rg_blob_offset r <= max_comp_size + max_gap + RAFS_MAX_CHUNK_SIZE.
Proof.
  intros (c & cs & -> & -> & E & Hg & Hs). exists (chunk_blob_index c). cbn [gap_chain gap_end]. split_and!; [done|lia|lia|done|lia].
Qed.

(** C28: [merge_and_issue] always succeeds on descriptors of chunks the chunk table can hold on a
    blob that is not a legacy stargz one, and the ranges it issues partition the descriptors:
    their chunks and tags, concatenated, are those of the descriptors in order; every range
    starts at its first chunk, ends at its last one, targets one blob, skips holes of at most
    [max_gap] bytes and is no longer than the merging limit plus one gap and one chunk. *)
Theorem merge_and_issue_partition bios : Forall bio_ok bios ->
  exists rs, merge_and_issue bios max_comp_size max_gap = Ok rs /\ Forall range_ok rs /\
    concat (rg_chunks <$> rs) = io_chunk <$> bios /\ concat (rg_tags <$> rs) = tag_from_desc <$> bios.
Proof.
  intros Hb. destruct (merge_and_issue_parts bios Hb) as (rs & parts & E & Hrs & Hf & <-). exists rs. split; [done|]. split; [done|].
  by apply built_concat.
Qed.
End merge_spec.

(** A chunk of [size] compressed bytes at [offset]. *)
Definition sample_bio (stargz : bool) (id offset size : Z) : BlobIoDesc :=
  mkIoDesc (set_compressor (if stargz then CGZip else CNone)
              (BlobInfo_new 0 "blob" 0x10000 0x10000 0x1000 8 0))
    (mkChunk (Some 0) id 0 offset size (id * 0x1000) 0x1000 true) 0 0x1000 true.

Lemma merge_and_issue_partition_witness :
  exists rs, @merge_and_issue dev_profile
      [sample_bio false 0 0 0x800; sample_bio false 1 0x900 0x800; sample_bio false 2 0x8000 0x400]
      0x10000 0x1000 = Ok rs /\ length rs = 2%nat /\
    concat (rg_chunks <$> rs) =
      io_chunk <$> [sample_bio false 0 0 0x800; sample_bio false 1 0x900 0x800; sample_bio false 2 0x8000 0x400].
Proof.
  destruct (@merge_and_issue_partition dev_profile 0x10000 0x1000 ltac:(done) ltac:(done) ltac:(done)
    [sample_bio false 0 0 0x800; sample_bio false 1 0x900 0x800; sample_bio false 2 0x8000 0x400])
    as (rs & E & _ & Hc & _).
  - repeat (constructor; [split_and!; by vm_compute|]). constructor.
  - exists rs. split; [exact E|]. split; [|exact Hc]. vm_compute in E. by injection E as <-.
Defined.

(** on a legacy stargz blob two chunks separated by a hole larger than [max_gap] but not
    than [8 * max_gap] are continuous for [BlobIoDesc::is_continuous], so [merge_and_issue]
    collects them in one request, whose construction then panics in [BlobIoRange::merge],
    which asserts the unscaled gap. *)
Theorem merge_and_issue_stargz_panics :
  @is_continuous dev_profile (sample_bio true 0 0 0x800) (sample_bio true 1 0x2000 0x800) 0x1000 = Ok true /\
  @merge_and_issue dev_profile [sample_bio true 0 0 0x800; sample_bio true 1 0x2000 0x800] 0x10000 0x1000
    = Panic /\
  exists rs, @merge_and_issue dev_profile [sample_bio false 0 0 0x800; sample_bio false 1 0x2000 0x800]
    0x10000 0x1000 = Ok rs /\ length rs = 2%nat.
Proof. split_and!; [by vm_compute..|]. eexists. split; [by vm_compute|]. done. Qed.
