(* ===== verification/MemCursor.v ===== *)
(** Scattered memory ([storage/src/utils.rs]): [copyv] and [MemSliceCursor].

    The user's buffer is a sequence of slices. A cursor is the index of a slice and an offset in
    it; [flat_pos] is the byte it stands for in the concatenation of the slices, which is what the
    theorems are about: [consume] hands out exactly the next bytes, and [copyv] writes exactly
    the requested bytes of its sources there. Lengths of slices are natural numbers; a
    subtraction that would wrap is a panic of the model, and is shown not to happen. *)
From S2P Require Import Prelude LittleEndian Device.

(** ** Model *)

Definition nsub {E} (a b : nat) : outcome E nat := if (b <=? a)%nat then Ok (a - b)%nat else Panic.

Section cursor.
Local Open Scope nat_scope.

(** The slices are known by their lengths. *)
Record MemSliceCursor := mkCursor { mc_slices : list nat; mc_index : nat; mc_offset : nat }.

Definition MemSliceCursor_new (slices : list nat) : MemSliceCursor := mkCursor slices 0 0.

(** The [while] loop of [move_cursor]; [rest] is the slices from [index] on. *)
Fixpoint move_loop (rest : list nat) (size index offset : nat) : io (nat * nat) :=
  match rest with
  | [] => Ok (index, offset)
  | len :: rest =>
      if size =? 0 then Ok (index, offset)
      else
        this_left ← nsub len offset;
        match this_left ?= size with
        | Eq => Ok (S index, 0)
        | Gt => Ok (index, offset + size)
        | Lt => move_loop rest (size - this_left) (S index) 0
        end
  end.

Definition move_cursor (size : nat) (c : MemSliceCursor) : io MemSliceCursor :=
  '(index, offset) ← move_loop (drop (mc_index c) (mc_slices c)) size (mc_index c) (mc_offset c);
  Ok (mkCursor (mc_slices c) index offset).

(** An [IoSliceMut]: the slice it points into, its offset there and its length. *)
Record IoSlice := mkIoSlice { ios_slice : nat; ios_offset : nat; ios_len : nat }.

Fixpoint consume_loop (rest : list nat) (size index offset : nat) (vectors : list IoSlice)
  : io (list IoSlice * (nat * nat)) :=
  match rest with
  | [] => Ok (vectors, (index, offset))
  | len :: rest =>
      if size =? 0 then Ok (vectors, (index, offset))
      else
        this_left ← nsub len offset;
        match this_left ?= size with
        | Gt => Ok (vectors ++ [mkIoSlice index offset size], (index, offset + size))
        | Eq => Ok (vectors ++ [mkIoSlice index offset size], (S index, 0))
        | Lt => consume_loop rest (size - this_left) (S index) 0 (vectors ++ [mkIoSlice index offset this_left])
        end
  end.

Definition consume (size : nat) (c : MemSliceCursor) : io (list IoSlice * MemSliceCursor) :=
  '(vectors, (index, offset)) ←
    consume_loop (drop (mc_index c) (mc_slices c)) size (mc_index c) (mc_offset c) [];
  Ok (vectors, mkCursor (mc_slices c) index offset).
End cursor.

Section copyv.
Local Open Scope nat_scope.

(** [FileVolatileSlice::write(buf, addr)] of the fuse-backend-rs crate: the number of bytes
    written and the new contents of the slice, or an error. *)
Variable slice_write : list Z -> list Z -> nat -> option (nat * list Z).

(** [(copied, (dst_index, dst_offset))]. *)
Definition copy_state : Type := nat * (nat * nat).

(** The inner [loop] on one source [s]. Every iteration but the last moves to the next
    destination, so the number of destinations bounds it. *)
Fixpoint copy_source (fuel : nat) (s : list Z) (src_offset buffer_len : nat) (c : copy_state)
  : stM (list (list Z)) StorageError copy_state := fun dst =>
  match fuel with
  | O => (Panic, dst)
  | S fuel =>
      let '(copied, (dst_index, dst_offset)) := c in
      match dst !! dst_index with
      | None => (Err MemOverflow, dst)
      | Some dst_slice =>
          if negb (src_offset + buffer_len <=? length s) then (Panic, dst)
          else
            match slice_write dst_slice (slice src_offset buffer_len s) dst_offset with
            | None => (Err VolatileSlice, dst)
            | Some (written, dst_slice') =>
                let dst := <[dst_index := dst_slice']> dst in
                let copied := copied + written in
                match @nsub StorageError (length dst_slice) dst_offset, @nsub StorageError buffer_len written with
                | Ok dst_left, Ok buffer_left =>
                    let cur := if dst_left =? written then (S dst_index, 0)
                               else (dst_index, dst_offset + written) in
                    if buffer_left =? 0 then (Ok (copied, cur), dst)
                    else copy_source fuel s (src_offset + written) buffer_left (copied, cur) dst
                | _, _ => (Panic, dst)
                end
            end
      end
  end.

(** ['next_source: for s in src]. *)
Fixpoint copy_sources (src : list (list Z)) (src_offset length_ : nat) (c : copy_state)
  : stM (list (list Z)) StorageError copy_state :=
  match src with
  | [] => st_ret c
  | s :: src =>
      avail ← st_lift (nsub (length s) src_offset);
      wanted ← st_lift (nsub length_ c.1);
      n ← st_get (@length (list Z));
      c ← copy_source (S n) s src_offset (Nat.min avail wanted) c;
      copy_sources src 0 length_ c
  end.

Definition copyv (src : list (list Z)) (offset length_ dst_index dst_offset : nat)
  : stM (list (list Z)) StorageError copy_state := fun dst =>
  match src with
  | [] => (Ok (0, (dst_index, dst_offset)), dst)
  | s :: _ =>
      if length_ =? 0 then (Ok (0, (dst_index, dst_offset)), dst)
      else if length s <? offset then (Err MemOverflow, dst)
      else match dst !! dst_index with
           | None => (Err MemOverflow, dst)
           | Some d =>
               if length d <? dst_offset then (Err MemOverflow, dst)
               else copy_sources src offset length_ (0, (dst_index, dst_offset)) dst
           end
  end.
End copyv.

(** ** Positions *)

Section positions.
Local Open Scope nat_scope.

(** The byte a cursor stands for, in the concatenation of the slices. *)
Definition flat_pos (slices : list nat) (index offset : nat) : nat := sum_list (take index slices) + offset.

(** A cursor between the first and the last byte; [offset] may be the length of its slice. *)
Definition cursor_ok (slices : list nat) (index offset : nat) : Prop :=
  index <= length slices /\ offset <= nth index slices 0.

Lemma flat_pos_next slices i len : slices !! i = Some len -> flat_pos slices (S i) 0 = flat_pos slices i len.
Proof.
  intros Hl. unfold flat_pos. rewrite (take_S_r _ _ _ Hl), sum_list_with_app. cbn. lia.
Qed.

Lemma flat_pos_add slices i o n : flat_pos slices i (o + n) = flat_pos slices i o + n.
Proof. unfold flat_pos. lia. Qed.

Lemma sum_take_drop (slices : list nat) i : sum_list slices = sum_list (take i slices) + sum_list (drop i slices).
Proof. by rewrite <- sum_list_with_app, take_drop. Qed.

Lemma flat_pos_end slices i : length slices <= i -> flat_pos slices i 0 = sum_list slices.
Proof. intros Hl. unfold flat_pos. rewrite take_ge by lia. lia. Qed.

Lemma drop_lookup {A} (l : list A) i x rest : drop i l = x :: rest -> l !! i = Some x /\ drop (S i) l = rest.
Proof.
  intros Hd. split; [by rewrite <- (Nat.add_0_r i), <- lookup_drop, Hd|].
  replace (S i) with (i + 1) by lia. by rewrite <- drop_drop, Hd.
Qed.

Lemma cursor_ok_lookup slices i o len : cursor_ok slices i o -> slices !! i = Some len -> o <= len.
Proof. intros [_ Ho] Hl. by rewrite (nth_lookup_Some _ _ _ _ Hl) in Ho. Qed.

Lemma cursor_ok_next slices i len : slices !! i = Some len -> cursor_ok slices (S i) 0.
Proof. intros Hl. apply lookup_lt_Some in Hl. split; lia. Qed.

Lemma cursor_ok_room slices i o len rest : drop i slices = len :: rest -> o <= len ->
  sum_list slices = flat_pos slices i o + (len - o) + sum_list rest.
Proof. intros Hd Ho. rewrite (sum_take_drop slices i), Hd. unfold flat_pos. cbn. lia. Qed.

(** The bytes a list of slices stands for. *)
Definition flat_bytes (slices : list nat) (vs : list IoSlice) : list nat :=
  concat ((fun v => seq (flat_pos slices (ios_slice v) (ios_offset v)) (ios_len v)) <$> vs).

Definition in_slice (slices : list nat) (v : IoSlice) : Prop :=
  exists len, slices !! ios_slice v = Some len /\ ios_offset v + ios_len v <= len.

Lemma flat_bytes_snoc slices vs v : flat_bytes slices (vs ++ [v]) =
  flat_bytes slices vs ++ seq (flat_pos slices (ios_slice v) (ios_offset v)) (ios_len v).
Proof. unfold flat_bytes. rewrite fmap_app, concat_app. cbn. by rewrite app_nil_r. Qed.

Lemma in_slice_snoc slices vs i o n len : Forall (in_slice slices) vs -> slices !! i = Some len -> o + n <= len ->
  Forall (in_slice slices) (vs ++ [mkIoSlice i o n]).
Proof. intros Hvs Hl Hn. apply Forall_app; split; [done|]. constructor; [|constructor]. by exists len. Qed.

Lemma consume_loop_spec slices rest size index offset vs :
  rest = drop index slices -> cursor_ok slices index offset -> Forall (in_slice slices) vs ->
  exists vs' index' offset',
    consume_loop rest size index offset vs = Ok (vs', (index', offset')) /\
    move_loop rest size index offset = Ok (index', offset') /\
    Forall (in_slice slices) vs' /\ cursor_ok slices index' offset' /\
    flat_pos slices index' offset' =
      flat_pos slices index offset + Nat.min size (sum_list slices - flat_pos slices index offset) /\
    flat_bytes slices vs' = flat_bytes slices vs ++
      seq (flat_pos slices index offset) (Nat.min size (sum_list slices - flat_pos slices index offset)).
Proof.
  revert size index offset vs. induction rest as [|len rest IH]; intros size index offset vs Hrest Hok Hvs;
    cbn [consume_loop move_loop].
  - symmetry in Hrest. pose proof (f_equal length Hrest) as Hl. rewrite length_drop in Hl. cbn in Hl.
    destruct Hok as [Hi Ho]. rewrite nth_overflow in Ho by lia. assert (offset = 0) as -> by lia.
    exists vs, index, 0. rewrite flat_pos_end, Nat.sub_diag, Nat.min_0_r by lia. cbn. rewrite app_nil_r.
    split_and!; done || (split; lia) || lia.
  - destruct (Nat.eqb_spec size 0) as [->|Hs].
    { exists vs, index, offset. cbn. rewrite app_nil_r. split_and!; done || lia. }
    symmetry in Hrest. destruct (drop_lookup _ _ _ _ Hrest) as [Hl Hr].
    pose proof (cursor_ok_lookup _ _ _ _ Hok Hl) as Ho. pose proof (cursor_ok_room _ _ _ _ _ Hrest Ho) as Hsum.
    unfold nsub. rewrite (proj2 (Nat.leb_le _ _) Ho). cbn [mbind outcome_bind].
    destruct (Nat.compare_spec (len - offset) size) as [E|E|E].
    + exists (vs ++ [mkIoSlice index offset size]), (S index), 0.
      rewrite flat_bytes_snoc, (flat_pos_next _ _ _ Hl). cbn [ios_slice ios_offset ios_len].
      rewrite Nat.min_l by lia. split_and!; try done.
      * apply in_slice_snoc with len; [done..|lia].
      * by eapply cursor_ok_next.
      * rewrite <- flat_pos_add. f_equal. lia.
    + destruct (IH (size - (len - offset)) (S index) 0 (vs ++ [mkIoSlice index offset (len - offset)]))
        as (vs' & i' & o' & E1 & E2 & Hin & Hok' & Hp & Hb); [done|by eapply cursor_ok_next| |].
      { apply in_slice_snoc with len; [done..|lia]. }
      exists vs', i', o'. rewrite Hb, Hp, (flat_pos_next _ _ _ Hl), flat_bytes_snoc. cbn [ios_slice ios_offset ios_len].
      assert (flat_pos slices index len = flat_pos slices index offset + (len - offset)) as -> by (unfold flat_pos; lia).
      split_and!; try done; [lia|]. rewrite <- app_assoc. f_equal. rewrite <- seq_app. f_equal. lia.
    + exists (vs ++ [mkIoSlice index offset size]), index, (offset + size).
      rewrite flat_bytes_snoc, flat_pos_add. cbn [ios_slice ios_offset ios_len].
      rewrite Nat.min_l by lia. split_and!; try done.
      * apply in_slice_snoc with len; [done..|lia].
      * destruct Hok as [Hi _]. split; [done|]. rewrite (nth_lookup_Some _ _ _ _ Hl). lia.
Qed.

(** A cursor that points at a byte, or past the last one. *)
Definition cursor_strict (slices : list nat) (index offset : nat) : Prop :=
  (index = length slices /\ offset = 0) \/ exists len, slices !! index = Some len /\ offset < len.

Lemma cursor_strict_ok slices i o : cursor_strict slices i o -> cursor_ok slices i o.
Proof.
  intros [[-> ->]|(len & Hl & Ho)]; [split; lia|]. split; [apply lookup_lt_Some in Hl; lia|].
  rewrite (nth_lookup_Some _ _ _ _ Hl). lia.
Qed.

Lemma cursor_strict_next slices i len : Forall (lt 0) slices -> slices !! i = Some len ->
  cursor_strict slices (S i) 0.
Proof.
  intros Hne Hl. apply lookup_lt_Some in Hl. destruct (slices !! S i) as [n|] eqn:E.
  - right. exists n. split; [done|]. by apply (Forall_lookup_1 _ _ _ _ Hne E).
  - left. apply lookup_ge_None in E. split; [lia|done].
Qed.

Lemma move_loop_strict slices rest size index offset r : Forall (lt 0) slices ->
  rest = drop index slices -> cursor_strict slices index offset ->
  move_loop rest size index offset = Ok r -> cursor_strict slices r.1 r.2.
Proof.
  intros Hne. revert size index offset. induction rest as [|len rest IH]; intros size index offset Hrest Hs E;
    cbn [move_loop] in E; [by injection E as <-|].
  destruct (Nat.eqb_spec size 0); [by injection E as <-|].
  symmetry in Hrest. destruct (drop_lookup _ _ _ _ Hrest) as [Hl Hr].
  apply bind_Ok in E as (l & Ha & E). unfold nsub in Ha. destruct (Nat.leb_spec offset len) as [Hle|]; [|discriminate Ha]. injection Ha as <-.
  destruct (Nat.compare_spec (len - offset) size).
  - injection E as <-. by eapply cursor_strict_next.
  - eapply IH; [done|by eapply cursor_strict_next|exact E].
  - injection E as <-. right. exists len. split; [done|]. cbn. lia.
Qed.

Lemma flat_pos_lt slices i o j k : cursor_strict slices i o -> i < j -> j <= length slices ->
  flat_pos slices i o < flat_pos slices j k.
Proof.
  intros [[-> _]|(len & Hl & Ho)] Hij Hj; [lia|]. unfold flat_pos.
  rewrite (sum_take_drop (take j slices) (S i)), take_take, Nat.min_l by lia.
  rewrite (take_S_r _ _ _ Hl), sum_list_with_app. cbn. lia.
Qed.

Lemma flat_pos_inj slices i o j k : cursor_strict slices i o -> cursor_strict slices j k ->
  flat_pos slices i o = flat_pos slices j k -> (i, o) = (j, k).
Proof.
  intros Hi Hj E. pose proof (proj1 (cursor_strict_ok _ _ _ Hi)). pose proof (proj1 (cursor_strict_ok _ _ _ Hj)).
  destruct (Nat.lt_trichotomy i j) as [Hl|[->|Hl]].
  - pose proof (flat_pos_lt _ _ _ _ k Hi Hl). lia.
  - unfold flat_pos in E. f_equal. lia.
  - pose proof (flat_pos_lt _ _ _ _ o Hj Hl). lia.
Qed.

(** [move_cursor] by [n] is the only cursor at the position [n] bytes further. *)
Lemma move_cursor_at slices i o n j k : Forall (lt 0) slices -> cursor_strict slices i o ->
  cursor_strict slices j k -> flat_pos slices j k = flat_pos slices i o + n ->
  flat_pos slices i o + n <= sum_list slices ->
  move_cursor n (mkCursor slices i o) = Ok (mkCursor slices j k).
Proof.
  intros Hne Hi Hj Hp Hle.
  destruct (consume_loop_spec slices _ n i o [] eq_refl (cursor_strict_ok _ _ _ Hi) ltac:(constructor))
    as (_ & i' & o' & _ & E & _ & _ & Hp' & _).
  pose proof (move_loop_strict _ _ _ _ _ _ Hne eq_refl Hi E) as Hs.
  assert ((i', o') = (j, k)) as Heq by (apply (flat_pos_inj slices); [done..|lia]).
  unfold move_cursor. cbn [mc_index mc_slices mc_offset]. rewrite E, Heq. done.
Qed.
End positions.

(** ** Copying *)

Section copy_spec.
Local Open Scope nat_scope.

Lemma splice_mid a o d sl c : o + length d <= length sl ->
  splice (length a + o) d (a ++ sl ++ c) = a ++ splice o d sl ++ c.
Proof.
  intros Ho. unfold splice. rewrite take_app_add. rewrite (take_app_le sl) by lia.
  rewrite <- (Nat.add_assoc (length a)), drop_app_add, (drop_app_le sl) by lia. by rewrite <- !app_assoc.
Qed.

Lemma splice_splice p a b buf : p + length a <= length buf ->
  splice (p + length a) b (splice p a buf) = splice p (a ++ b) buf.
Proof.
  intros Hp. unfold splice. rewrite length_app.
  replace (take (p + length a) (take p buf ++ a ++ drop (p + length a) buf)) with (take p buf ++ a).
  2:{ rewrite <- (length_take_le buf p) at 2 by lia. by rewrite take_app_add, take_app_length. }
  replace (drop (p + length a + length b) (take p buf ++ a ++ drop (p + length a) buf))
    with (drop (p + (length a + length b)) buf); [by rewrite <- !app_assoc|].
  rewrite drop_app_ge, length_take_le, drop_app_ge, drop_drop by (try rewrite length_take; lia). f_equal. lia.
Qed.

Lemma length_concat_sum (l : list (list Z)) : length (concat l) = sum_list (length <$> l).
Proof. induction l as [|x l IH]; [done|]. cbn. by rewrite length_app, IH. Qed.

Lemma write_flat dst i o sl data : dst !! i = Some sl -> o + length data <= length sl ->
  concat (<[i := splice o data sl]> dst) = splice (flat_pos (length <$> dst) i o) data (concat dst).
Proof.
  intros Hl Ho. rewrite insert_take_drop by (by eapply lookup_lt_Some).
  rewrite <- (take_drop_middle dst i sl Hl) at 4. rewrite !concat_app. cbn [concat].
  unfold flat_pos. rewrite <- fmap_take, <- length_concat_sum. by rewrite splice_mid.
Qed.

Variable slice_write : list Z -> list Z -> nat -> option (nat * list Z).

(** The documented behaviour of [write] inside the slice: as many bytes as fit are copied. *)
Hypothesis slice_write_inside : forall sl buf o, o < length sl ->
  slice_write sl buf o = Some (Nat.min (length buf) (length sl - o),
                               splice o (take (length sl - o) buf) sl).

Definition lens (dst : list (list Z)) : list nat := length <$> dst.
Definition room (dst : list (list Z)) (i o : nat) : nat := length (concat dst) - flat_pos (lens dst) i o.

(** The destination after [data] is written at a cursor, and the cursor after it. *)
Definition written_at (dst : list (list Z)) (i o : nat) (data : list Z) (dst' : list (list Z)) (i' o' : nat) : Prop :=
  lens dst' = lens dst /\ concat dst' = splice (flat_pos (lens dst) i o) data (concat dst) /\
  cursor_strict (lens dst) i' o' /\ flat_pos (lens dst) i' o' = flat_pos (lens dst) i o + length data.

Lemma strict_room dst i o : cursor_strict (lens dst) i o -> flat_pos (lens dst) i o + room dst i o = length (concat dst).
Proof.
  intros Hs. unfold room. rewrite length_concat_sum. fold (lens dst).
  destruct Hs as [[-> ->]|(len & Hl & Ho)]; [rewrite flat_pos_end; lia|].
  rewrite (cursor_ok_room (lens dst) i o len (drop (S i) (lens dst))) by (lia || by apply drop_S). lia.
Qed.

Lemma written_trans dst i o a dst1 i1 o1 b dst2 i2 o2 : length a <= room dst i o -> cursor_strict (lens dst) i o ->
  written_at dst i o a dst1 i1 o1 -> written_at dst1 i1 o1 b dst2 i2 o2 -> written_at dst i o (a ++ b) dst2 i2 o2.
Proof.
  intros Ha Hs (L1 & C1 & S1 & P1) (L2 & C2 & S2 & P2). rewrite L1 in *. pose proof (strict_room _ _ _ Hs).
  split_and!; [congruence| |done|].
  - rewrite C2, C1, P1. apply splice_splice. lia.
  - rewrite P2, P1, length_app. lia.
Qed.

Lemma written_room dst i o a dst1 i1 o1 : length a <= room dst i o -> cursor_strict (lens dst) i o ->
  written_at dst i o a dst1 i1 o1 -> room dst1 i1 o1 = room dst i o - length a.
Proof.
  intros Ha Hs (L1 & C1 & S1 & P1). pose proof (strict_room _ _ _ Hs). unfold room at 1.
  rewrite C1, L1, P1, length_splice; lia.
Qed.

(** One [write]: the bytes that fit in the slice are written, and the cursor moves behind them. *)
Lemma write_step dst i o sl buf : Forall (lt 0) (lens dst) -> dst !! i = Some sl -> o < length sl ->
  let n := Nat.min (length buf) (length sl - o) in
  let dst' := <[i := splice o (take (length sl - o) buf) sl]> dst in
  let cur := if length sl - o =? n then (S i, 0) else (i, o + n) in
  written_at dst i o (take n buf) dst' cur.1 cur.2.
Proof.
  intros Hne Hl Ho n dst' cur.
  assert (take (length sl - o) buf = take n buf) as Et.
  { unfold n. destruct (Nat.min_spec (length buf) (length sl - o)) as [[? ->]|[? ->]]; [|done]. by rewrite !take_ge by lia. }
  assert (length (take n buf) = n) as Hn by (rewrite length_take; lia).
  assert (lens dst !! i = Some (length sl)) as Hll by (unfold lens; by rewrite list_lookup_fmap, Hl).
  unfold dst'. rewrite Et. split_and!.
  - unfold lens. rewrite list_fmap_insert, length_splice by lia. apply list_insert_id. exact Hll.
  - apply write_flat; [done|lia].
  - unfold cur. case_match; cbn; [by eapply cursor_strict_next|]. right. exists (length sl). split; [done|].
    destruct (Nat.eqb_spec (length sl - o) n); [done|lia].
  - unfold cur. rewrite Hn. destruct (Nat.eqb_spec (length sl - o) n); cbn [fst snd]; [|unfold flat_pos; lia].
    rewrite (flat_pos_next _ _ _ Hll). unfold flat_pos. lia.
Qed.

Lemma end_room dst : room dst (length (lens dst)) 0 = 0.
Proof. unfold room. rewrite flat_pos_end, length_concat_sum by lia. fold (lens dst). lia. Qed.

Lemma slice_room dst i o sl : dst !! i = Some sl -> o < length sl ->
  cursor_strict (lens dst) i o /\ length sl - o <= room dst i o.
Proof.
  intros Hsl Ho. assert (lens dst !! i = Some (length sl)) as Hl by (unfold lens; by rewrite list_lookup_fmap, Hsl).
  assert (Hs : cursor_strict (lens dst) i o) by (right; by exists (length sl)). split; [done|].
  pose proof (strict_room _ _ _ Hs) as Hroom. rewrite length_concat_sum in Hroom. fold (lens dst) in Hroom.
  rewrite (cursor_ok_room (lens dst) i o (length sl) (drop (S i) (lens dst))) in Hroom by (lia || by apply drop_S). lia.
Qed.

Lemma slice_split so n bl s : n <= bl -> take n (slice so bl s) ++ slice (so + n) (bl - n) s = slice so bl s.
Proof.
  intros Hn. rewrite <- (take_drop n (slice so bl s)) at 2. f_equal. unfold slice.
  by rewrite skipn_firstn_comm, drop_drop.
Qed.

Lemma copy_source_spec fuel s so bl copied i o dst :
  length dst < fuel + i -> so + bl <= length s -> Forall (lt 0) (lens dst) -> cursor_strict (lens dst) i o ->
  if (bl <=? room dst i o) && (0 <? room dst i o) then
    exists dst' i' o', copy_source slice_write fuel s so bl (copied, (i, o)) dst = (Ok (copied + bl, (i', o')), dst') /\
      written_at dst i o (slice so bl s) dst' i' o'
  else exists dst', copy_source slice_write fuel s so bl (copied, (i, o)) dst = (Err MemOverflow, dst').
Proof.
  revert so bl copied i o dst. induction fuel as [|fuel IH]; intros so bl copied i o dst Hf Hso Hne Hs.
  { exfalso. pose proof (proj1 (cursor_strict_ok _ _ _ Hs)) as Hi. unfold lens in Hi. rewrite length_fmap in Hi. lia. }
  cbn [copy_source]. destruct Hs as [[-> ->]|(len & Hl & Ho)].
  { rewrite (lookup_ge_None_2 dst) by (unfold lens; by rewrite length_fmap). rewrite end_room, andb_false_r. by eexists. }
  unfold lens in Hl. rewrite list_lookup_fmap in Hl. destruct (dst !! i) as [sl|] eqn:Hsl; [|done]. injection Hl as <-.
  rewrite (proj2 (Nat.leb_le _ _) Hso). cbn [negb]. rewrite slice_write_inside by done.
  pose proof (write_step dst i o sl (slice so bl s) Hne Hsl Ho) as Hw. cbv zeta in Hw.
  destruct (slice_room dst i o sl Hsl Ho) as [Hs Hsl_room].
  rewrite length_slice in Hw |- * by done. set (n := Nat.min bl (length sl - o)) in *.
  set (dst1 := <[i := _]> dst) in *. set (cur := if length sl - o =? n then (S i, 0) else (i, o + n)) in *.
  assert (length (take n (slice so bl s)) = n) as Hn by (rewrite length_take, length_slice by done; lia).
  unfold nsub. rewrite (proj2 (Nat.leb_le o _)) by lia. rewrite (proj2 (Nat.leb_le n _)) by lia.
  assert (length (take n (slice so bl s)) <= room dst i o) as Hfit by lia.
  pose proof (written_room _ _ _ _ _ _ _ Hfit Hs Hw) as Hr1. rewrite Hn in Hr1.
  fold cur. destruct (Nat.eqb_spec (bl - n) 0) as [Hz|Hz].
  - rewrite (proj2 (Nat.leb_le bl _)), (proj2 (Nat.ltb_lt 0 _)) by lia. cbn [andb].
    exists dst1, cur.1, cur.2. rewrite <- surjective_pairing. split; [do 3 f_equal; lia|].
    rewrite take_ge in Hw by (rewrite length_slice; lia). exact Hw.
  - assert (cur = (S i, 0)) as Ec by (unfold cur; rewrite (proj2 (Nat.eqb_eq _ _)); [done|lia]).
    rewrite Ec in Hw, Hr1 |- *. cbn [fst snd] in Hw, Hr1. pose proof Hw as (Hlens & _ & Hs1 & _).
    specialize (IH (so + n) (bl - n) (copied + n) (S i) 0 dst1). rewrite Hlens in IH.
    assert (length dst1 = length dst) as Hld by (unfold dst1; apply length_insert).
    specialize (IH ltac:(lia) ltac:(lia) Hne Hs1). rewrite Hr1 in IH.
    destruct (Nat.leb_spec bl (room dst i o)) as [Hb|Hb]; cbn [andb].
    + rewrite (proj2 (Nat.ltb_lt 0 _)) by lia. rewrite (proj2 (Nat.leb_le _ _)), (proj2 (Nat.ltb_lt 0 _)) in IH by lia.
      destruct IH as (dst' & i' & o' & E & Hw'). exists dst', i', o'. split; [rewrite E; do 3 f_equal; lia|].
      rewrite <- (slice_split so n bl s) by lia. by eapply written_trans; [rewrite Hn; lia|done..].
    + rewrite (proj2 (Nat.leb_gt _ _)) in IH by lia. exact IH.
Qed.

(** The bytes asked for: [length_] bytes of the sources from [offset] on. *)
Definition wanted_data (src : list (list Z)) (offset length_ : nat) : list Z := take length_ (drop offset (concat src)).

(** The bytes fit, and the sources before the last one leave room for it. *)
Definition fits (src : list (list Z)) (offset length_ : nat) (dst : list (list Z)) (i o : nat) : Prop :=
  length (wanted_data src offset length_) <= room dst i o /\
  length (wanted_data (removelast src) offset length_) < room dst i o.

Lemma wanted_data_cons s src so n : so <= length s ->
  wanted_data (s :: src) so n = slice so (Nat.min (length s - so) n) s ++ wanted_data src 0 (n - Nat.min (length s - so) n).
Proof.
  intros Hso. unfold wanted_data, slice. cbn [concat]. rewrite drop_app_le, drop_0 by done.
  rewrite take_app, length_drop. f_equal; [|f_equal; lia].
  destruct (Nat.min_spec (length s - so) n) as [[? ->]|[? ->]]; [|done].
  by rewrite !take_ge by (rewrite length_drop; lia).
Qed.

Lemma copy_sources_spec src so len copied i o dst :
  src <> [] -> so <= length (hd [] src) -> copied <= len -> Forall (lt 0) (lens dst) -> cursor_strict (lens dst) i o ->
  let data := wanted_data src so (len - copied) in
  (fits src so (len - copied) dst i o ->
   exists dst' i' o', copy_sources slice_write src so len (copied, (i, o)) dst = (Ok (copied + length data, (i', o')), dst') /\
     written_at dst i o data dst' i' o') /\
  (~ fits src so (len - copied) dst i o ->
   exists dst', copy_sources slice_write src so len (copied, (i, o)) dst = (Err MemOverflow, dst')).
Proof.
  revert so copied i o dst. induction src as [|s src IH]; intros so copied i o dst Hsrc Hso Hc Hne Hs data; [done|].
  cbn [hd] in Hso. unfold data, fits. cbn [copy_sources]. unfold mbind, stM_bind, st_bind, st_lift, st_get, nsub.
  rewrite (proj2 (Nat.leb_le _ _) Hso). cbn beta iota. cbn [fst]. rewrite (proj2 (Nat.leb_le _ _) Hc). cbn beta iota.
  set (n := Nat.min (length s - so) (len - copied)) in *.
  pose proof (copy_source_spec (S (length dst)) s so n copied i o dst ltac:(lia) ltac:(lia) Hne Hs) as H1.
  rewrite wanted_data_cons by done. fold n. rewrite length_app, length_slice by lia.
  destruct ((n <=? room dst i o) && (0 <? room dst i o)) eqn:Efit.
  2:{ destruct H1 as (dst' & ->). apply andb_false_iff in Efit as [?%Nat.leb_gt|?%Nat.ltb_ge]; split; [lia| |lia|];
      intros _; by eexists. }
  apply andb_true_iff in Efit as [Hn%Nat.leb_le H0%Nat.ltb_lt]. destruct H1 as (dst1 & i1 & o1 & -> & Hw).
  assert (length (slice so n s) <= room dst i o) as Hfit by (rewrite length_slice; lia).
  destruct src as [|s2 src].
  { cbn [removelast copy_sources]. unfold wanted_data. cbn [concat]. rewrite !drop_nil, !take_nil, !app_nil_r, !Nat.add_0_r.
    cbn [length]. split; [|intros Hf; exfalso; apply Hf; lia]. intros _. by exists dst1, i1, o1. }
  pose proof (written_room _ _ _ _ _ _ _ Hfit Hs Hw) as Hr1. rewrite length_slice in Hr1 by lia.
  pose proof Hw as (Hl1 & _ & Hs1 & _). rewrite <- Hl1 in Hs1, Hne.
  change (removelast (s :: s2 :: src)) with (s :: removelast (s2 :: src)).
  rewrite (wanted_data_cons s (removelast (s2 :: src))) by done. fold n. rewrite length_app, length_slice by lia.
  destruct (IH 0 (copied + n) i1 o1 dst1 ltac:(done) ltac:(lia) ltac:(lia) Hne Hs1) as [Hyes Hno].
  unfold fits in Hyes, Hno. rewrite Hr1 in Hyes, Hno. replace (len - (copied + n)) with (len - copied - n) in * by lia.
  split.
  - intros [Ha Hb]. destruct Hyes as (dst' & i' & o' & -> & Hw'); [lia|]. exists dst', i', o'.
    split; [do 2 f_equal; f_equal; lia|]. by eapply written_trans.
  - intros Hf. apply Hno. lia.
Qed.

(** The checks in front of the loop pass at a byte of the destination. *)
Lemma copyv_sources src offset length_ dst i o d : src <> [] -> 0 < length_ -> offset <= length (hd [] src) ->
  dst !! i = Some d -> o < length d ->
  copyv slice_write src offset length_ i o dst = copy_sources slice_write src offset length_ (0, (i, o)) dst.
Proof.
  intros Hsrc Hlen Hoff Hd Ho. unfold copyv. destruct src as [|s src]; [done|]. cbn [hd] in Hoff.
  rewrite (proj2 (Nat.eqb_neq _ _)), (proj2 (Nat.ltb_ge _ _) Hoff), Hd, (proj2 (Nat.ltb_ge _ _)) by lia. done.
Qed.

(** A cursor with room points at a byte. *)
Lemma room_byte dst i o : cursor_strict (lens dst) i o -> 0 < room dst i o -> exists d, dst !! i = Some d /\ o < length d.
Proof.
  intros [[-> ->]|(len & Hl & Ho)] Hr; [rewrite end_room in Hr; lia|]. unfold lens in Hl. rewrite list_lookup_fmap in Hl.
  destruct (dst !! i) as [d|]; [|done]. injection Hl as <-. by exists d.
Qed.

(** [copyv] of data that fits, with the cursor that [move_cursor] leaves. *)
Lemma copyv_written src offset length_ dst i o : src <> [] -> 0 < length_ -> offset <= length (hd [] src) ->
  Forall (lt 0) (lens dst) -> cursor_strict (lens dst) i o -> fits src offset length_ dst i o ->
  let data := wanted_data src offset length_ in
  exists dst' i' o', copyv slice_write src offset length_ i o dst = (Ok (length data, (i', o')), dst') /\
    written_at dst i o data dst' i' o' /\
    move_cursor (length data) (mkCursor (lens dst) i o) = Ok (mkCursor (lens dst) i' o').
Proof.
  intros Hsrc Hlen Hoff Hne Hs Hf data. destruct (room_byte dst i o Hs) as (d & Hd & Ho); [destruct Hf; lia|].
  rewrite (copyv_sources src offset length_ dst i o d) by done.
  destruct (copy_sources_spec src offset length_ 0 i o dst Hsrc Hoff ltac:(lia) Hne Hs) as [Hyes _].
  rewrite Nat.sub_0_r in Hyes. destruct (Hyes Hf) as (dst' & i' & o' & E & Hw). exists dst', i', o'. split_and!; [exact E|exact Hw|].
  destruct Hw as (_ & _ & Hs' & Hp). pose proof (strict_room _ _ _ Hs) as Hr. apply move_cursor_at; [done..|].
  destruct Hf as [Hf _]. fold data in Hf. rewrite length_concat_sum in Hr. fold (lens dst) in Hr. lia.
Qed.

End copy_spec.

(** [consume] inside the memory. *)
Lemma consume_inside (size : nat) slices i o : Forall (lt 0)%nat slices -> cursor_strict slices i o ->
  (flat_pos slices i o + size <= sum_list slices)%nat ->
  exists vs i' o', consume size (mkCursor slices i o) = Ok (vs, mkCursor slices i' o') /\
    cursor_strict slices i' o' /\ flat_pos slices i' o' = (flat_pos slices i o + size)%nat /\
    Forall (in_slice slices) vs /\ flat_bytes slices vs = seq (flat_pos slices i o) size.
Proof.
  intros Hne Hs Hle. destruct (consume_loop_spec slices _ size i o [] eq_refl (cursor_strict_ok _ _ _ Hs) ltac:(constructor))
    as (vs & i' & o' & E1 & E2 & Hin & _ & Hp & Hb). rewrite Nat.min_l in Hp, Hb by lia.
  exists vs, i', o'. unfold consume. cbn [mc_slices mc_index mc_offset]. rewrite E1. split_and!; try done.
  exact (move_loop_strict _ _ _ _ _ (i', o') Hne eq_refl Hs E2).
Qed.

(** [consume] hands out exactly the next [size] bytes of the memory, or what is left of it:
    every vector lies inside its slice, the vectors cover the bytes from the cursor on in order
    and once, and the cursor is left as [move_cursor] leaves it, behind them. *)
Theorem consume_exact (size : nat) (c : MemSliceCursor) :
  cursor_ok (mc_slices c) (mc_index c) (mc_offset c) ->
  let pos := flat_pos (mc_slices c) (mc_index c) (mc_offset c) in
  let n := Nat.min size (sum_list (mc_slices c) - pos) in
  exists vs c', consume size c = Ok (vs, c') /\ move_cursor size c = Ok c' /\
    mc_slices c' = mc_slices c /\ cursor_ok (mc_slices c) (mc_index c') (mc_offset c') /\
    flat_pos (mc_slices c) (mc_index c') (mc_offset c') = (pos + n)%nat /\
    Forall (in_slice (mc_slices c)) vs /\ flat_bytes (mc_slices c) vs = seq pos n.
Proof.
  intros Hok pos n. destruct (consume_loop_spec (mc_slices c) _ size _ _ [] eq_refl Hok ltac:(constructor))
    as (vs & i & o & E1 & E2 & Hin & Hok' & Hp & Hb).
  exists vs, (mkCursor (mc_slices c) i o). unfold consume, move_cursor. rewrite E1, E2. split_and!; done.
Qed.

(** ** Witnesses *)

(** [VolatileSlice::write]: an error outside the slice. *)
Definition sample_write (sl buf : list Z) (o : nat) : option (nat * list Z) :=
  if (o <? length sl)%nat
  then Some (Nat.min (length buf) (length sl - o), splice o (take (length sl - o) buf) sl) else None.

Lemma sample_write_inside sl buf o : (o < length sl)%nat ->
  sample_write sl buf o = Some (Nat.min (length buf) (length sl - o), splice o (take (length sl - o) buf) sl).
Proof. intros Ho. unfold sample_write. by rewrite (proj2 (Nat.ltb_lt _ _) Ho). Qed.


Lemma consume_exact_witness :
  exists vs c', consume 4 (mkCursor [2; 0; 3; 5]%nat 0 1) = Ok (vs, c') /\
    move_cursor 4 (mkCursor [2; 0; 3; 5]%nat 0 1) = Ok c' /\ flat_bytes [2; 0; 3; 5]%nat vs = [1; 2; 3; 4]%nat.
Proof.
  destruct (consume_exact 4 (mkCursor [2; 0; 3; 5]%nat 0 1)) as (vs & c' & E & Em & _ & _ & _ & _ & Hb).
  - split; cbn; lia.
  - exists vs, c'. split; [exact E|]. split; [exact Em|exact Hb].
Defined.
