(* ===== verification/CacheRegion.v ===== *)
(** Regions of a read request ([storage/src/cache/cachedfile.rs]).

    [dispatch_one_range] looks up every chunk of a request in the chunk map and collects the
    chunks into regions by where their data comes from: the cache file directly, the cache file
    with validation, or the backend. [Region] and [FileIoMergeState] are the collector; the chunk
    map is a trait object, given by its two operations. The theorems show that the regions are
    runs of the request's chunks in order, each spanning exactly its chunks, and that every byte
    the user asked for belongs to one region. *)
From S2P Require Import Prelude ChunkInfo Device.

(** ** Model *)

Inductive RegionStatus := Init | Open | Committed.
#[export] Instance RegionStatus_eq_dec : EqDecision RegionStatus.
Proof. solve_decision. Defined.

Inductive RegionType := CacheFast | CacheSlow | Backend.
#[export] Instance RegionType_eq_dec : EqDecision RegionType.
Proof. solve_decision. Defined.

Definition type_joinable (self other : RegionType) : bool := bool_decide (self = other).

Record Region := mkRegion {
  r_type : RegionType;
  r_status : RegionStatus;
  r_count : Z;
  r_chunks : list ChunkDesc;
  r_tags : list bool;
  r_blob_address : Z;
  r_blob_len : Z;
  r_seg : BlobIoSegment
}.

Definition Region_new (t : RegionType) : Region := mkRegion t Init 0 [] [] 0 0 (mkSeg 0 0).

Definition has_user_io (r : Region) : bool := negb (seg_is_empty (r_seg r)).

Section region.
Context `{Profile}.

Definition Region_with (region : Region) (chunks : list ChunkDesc) : io Region :=
  match chunks, last chunks with
  | first :: _, Some last_ =>
      let blob_address := chunk_c_offset first in
      sz ← usub 64 (chunk_c_offset last_) blob_address;
      _ ← rassert (sz <? u32_MAX);
      blob_len ← uadd 32 sz (chunk_c_size last_);
      Ok (mkRegion (r_type region) (r_status region) (wrap 32 (Z.of_nat (length chunks))) chunks
            (replicate (length chunks) false) blob_address blob_len (r_seg region))
  | _, _ => Panic
  end.

(** The range of the region after a chunk is added. *)
Definition append_range (start len : Z) (r : Region) : outcome StorageError Region :=
  if bool_decide (r_status r = Init) then
    Ok (mkRegion (r_type r) Open 1 (r_chunks r) (r_tags r) start len (r_seg r))
  else
    _ ← rassert (bool_decide (r_status r = Open));
    e ← uadd 64 (r_blob_address r) (r_blob_len r);
    limit ← uadd 64 e RAFS_DEFAULT_CHUNK_SIZE;
    if (limit <? start) || negb (bool_decide (is_Some (checked_add 64 start len))) then Err NotContinuous
    else
      s ← uadd 64 start len;
      sz ← usub 64 s e;
      blob_len ← uadd 32 (r_blob_len r) (wrap 32 sz);
      count ← uadd 32 (r_count r) 1;
      Ok (mkRegion (r_type r) Open count (r_chunks r) (r_tags r) (r_blob_address r) blob_len (r_seg r)).

Definition append_seg (tag : BlobIoTag) (seg : BlobIoSegment) : outcome StorageError BlobIoSegment :=
  match tag with
  | TagUser s =>
      if seg_is_empty seg then Ok (mkSeg (seg_offset s) (seg_len s))
      else BlobIoSegment_append (seg_offset s) (seg_len s) seg
  | TagInternal => Ok seg
  end.

Definition Region_append (start len : Z) (tag : BlobIoTag) (chunk : option ChunkDesc) (r : Region)
  : outcome StorageError Region :=
  _ ← rassert (bool_decide (r_status r <> Committed));
  r ← append_range start len r;
  seg ← append_seg tag (r_seg r);
  let '(chunks, tags) := match chunk with
                         | Some c => (r_chunks r ++ [c], r_tags r ++ [is_user_io tag])
                         | None => (r_chunks r, r_tags r)
                         end in
  Ok (mkRegion (r_type r) (r_status r) (r_count r) chunks tags (r_blob_address r) (r_blob_len r) seg).

Record FileIoMergeState := mkIoMergeState { ms_regions : list Region; ms_last_region_joinable : bool }.

Definition FileIoMergeState_new : FileIoMergeState := mkIoMergeState [] true.

Definition ms_joinable (t : RegionType) (s : FileIoMergeState) : io bool :=
  match last (ms_regions s) with
  | None => Panic
  | Some r => Ok (type_joinable (r_type r) t && ms_last_region_joinable s)
  end.

Definition ms_push (t : RegionType) (start len : Z) (tag : BlobIoTag) (chunk : option ChunkDesc)
  : stM FileIoMergeState errno unit := fun s =>
  let fresh := match ms_joinable t s with Ok j => negb j | _ => true end in
  let s := if fresh then mkIoMergeState (ms_regions s ++ [Region_new t]) true else s in
  let idx := (length (ms_regions s) - 1)%nat in
  match ms_regions s !! idx with
  | None => (Panic, s)
  | Some r =>
      match Region_append start len tag chunk r with
      | Ok r => (Ok tt, mkIoMergeState (<[idx := r]> (ms_regions s)) (ms_last_region_joinable s))
      | Err _ => (Err EINVAL, s)
      | Panic => (Panic, s)
      end
  end.

Definition ms_commit (s : FileIoMergeState) : FileIoMergeState := mkIoMergeState (ms_regions s) false.

Definition ms_reset (s : FileIoMergeState) : FileIoMergeState := mkIoMergeState [] true.
End region.

(** The configuration of the cache file that decides where data comes from. *)
Record cache_flags := mkFlags { cf_is_compressed : bool; cf_need_validation : bool; cf_is_direct_chunkmap : bool }.

Section dispatch.
Context `{Profile} (cf : cache_flags).

(** The chunk map, a [dyn ChunkMap]: the wait inside [check_ready_and_mark_pending] is over when
    it returns. *)
Context {M : Type} (check_ready : ChunkDesc -> stM M StorageError bool) (clear_pending : ChunkDesc -> M -> M).

(** One iteration of the loop over the chunks of the request. *)
Definition dispatch_chunk (ct : ChunkDesc * BlobIoTag) : stM (M * FileIoMergeState) errno unit := fun s =>
  let '(m, ms) := s in
  let '(chunk, tag) := ct in
  let '(r, m) := check_ready chunk m in
  let on_ms (f : stM FileIoMergeState errno unit) := let '(r, ms) := f ms in (r, (m, ms)) in
  let go (is_ready : bool) :=
    if is_ready && negb (cf_is_compressed cf) && negb (cf_need_validation cf) then
      if is_user_io tag
      then on_ms (ms_push CacheFast (chunk_u_offset chunk) (chunk_u_size chunk) tag None)
      else (Ok tt, (m, ms_commit ms))
    else if negb (cf_is_direct_chunkmap cf) || is_ready then
      if is_user_io tag
      then on_ms (ms_push CacheSlow (chunk_u_offset chunk) (chunk_u_size chunk) tag (Some chunk))
      else (Ok tt, ((if is_ready then m else clear_pending chunk m), ms_commit ms))
    else on_ms (ms_push Backend (chunk_c_offset chunk) (chunk_c_size chunk) tag (Some chunk)) in
  match r with
  | Ok b => go b
  | Err Timeout => go false
  | Err _ => (Err EINVAL, (m, ms))
  | Panic => (Panic, (m, ms))
  end.

(** The loop over the chunks of the request; [req.tags[i]] panics when it is missing. *)
Fixpoint dispatch_loop (chunks : list ChunkDesc) (tags : list BlobIoTag) : stM (M * FileIoMergeState) errno unit :=
  match chunks, tags with
  | [], _ => st_ret tt
  | c :: chunks, t :: tags => _ ← dispatch_chunk (c, t); dispatch_loop chunks tags
  | _ :: _, [] => st_lift Panic
  end.

(** The regions of a request. *)
Definition dispatch_regions (req : BlobIoRange) : stM (M * FileIoMergeState) errno unit :=
  dispatch_loop (rg_chunks req) (rg_tags req).
End dispatch.

(** ** Regions as runs of pushes *)

Record io_push := mkPush {
  p_type : RegionType; p_start : Z; p_len : Z; p_tag : BlobIoTag; p_chunk : option ChunkDesc
}.
Definition p_end (p : io_push) : Z := p_start p + p_len p.

Definition user_seg (p : io_push) : option BlobIoSegment :=
  match p_tag p with TagUser s => Some s | TagInternal => None end.
Definition seg_total (l : list BlobIoSegment) : Z := foldr (fun s n => seg_len s + n) 0 l.

(** The segment of a run: it starts where the first user segment starts. *)
Definition run_seg (l : list BlobIoSegment) : BlobIoSegment :=
  match l with [] => mkSeg 0 0 | s :: _ => mkSeg (seg_offset s) (seg_total l) end.

Definition has_chunk (p : io_push) : option bool :=
  match p_chunk p with Some _ => Some (is_user_io (p_tag p)) | None => None end.

(** A region that holds the run [g] of pushes. *)
Record region_spans (r : Region) (g : list io_push) : Prop := {
  rs_first : exists p, head g = Some p /\ r_blob_address r = p_start p;
  rs_last : exists p, last g = Some p /\ r_blob_address r + r_blob_len r = p_end p;
  rs_inside : Forall (fun p => r_blob_address r <= p_start p /\ p_end p <= r_blob_address r + r_blob_len r) g;
  rs_type : Forall (fun p => p_type p = r_type r) g;
  rs_status : r_status r = Open;
  rs_count : r_count r = Z.of_nat (length g);
  rs_chunks : r_chunks r = omap p_chunk g;
  rs_tags : r_tags r = omap has_chunk g;
  rs_seg : r_seg r = run_seg (omap user_seg g)
}.

Definition push_ok (p : io_push) : Prop :=
  0 <= p_start p /\ 0 < p_len p < 2 ^ 32 /\ p_end p < 2 ^ 63 /\
  forall s, p_tag p = TagUser s -> 0 <= seg_offset s /\ 0 < seg_len s /\ seg_offset s + seg_len s < 2 ^ 32.

(** [p] may follow the run [g] in one region. *)
Record may_follow (g : list io_push) (p : io_push) : Prop := {
  mf_adjacent : forall q, last g = Some q -> p_end q <= p_start p <= p_end q + RAFS_DEFAULT_CHUNK_SIZE;
  mf_window : forall q, q ∈ g -> p_end p - p_start q < 2 ^ 32;
  mf_count : Z.of_nat (length g) + 1 < 2 ^ 32;
  mf_offset : forall s, user_seg p = Some s -> omap user_seg g <> [] -> seg_offset s = 0;
  mf_total : seg_total (omap user_seg (g ++ [p])) < 2 ^ 32
}.

Lemma seg_total_app l1 l2 : seg_total (l1 ++ l2) = seg_total l1 + seg_total l2.
Proof. induction l1 as [|s l1 IH]; [done|]. change (seg_len s + seg_total (l1 ++ l2) = seg_len s + seg_total l1 + seg_total l2). lia. Qed.

Lemma seg_total_nonneg g : Forall push_ok g -> 0 <= seg_total (omap user_seg g).
Proof.
  induction 1 as [|p g Hp _ IH]; [done|]. cbn. destruct (user_seg p) as [s|] eqn:E; [|done].
  change (0 <= seg_len s + seg_total (omap user_seg g)). destruct Hp as (_ & _ & _ & Hs).
  unfold user_seg in E. destruct (p_tag p); [|done]. injection E as <-. pose proof (Hs _ eq_refl). lia.
Qed.

Section runs.
Context `{Profile}.

Definition append_push (p : io_push) (r : Region) : outcome StorageError Region :=
  Region_append (p_start p) (p_len p) (p_tag p) (p_chunk p) r.

Lemma append_seg_run g p : Forall push_ok g -> push_ok p -> may_follow g p ->
  append_seg (p_tag p) (run_seg (omap user_seg g)) = Ok (run_seg (omap user_seg (g ++ [p]))).
Proof.
  intros Hg (_ & _ & _ & Hs) Hf. pose proof (mf_total _ _ Hf) as Ht. pose proof (mf_offset _ _ Hf) as Ho.
  pose proof (seg_total_nonneg _ Hg) as Hn. rewrite omap_app in *. cbn [omap list_omap] in *. unfold user_seg in Ho at 1.
  unfold user_seg at 3. unfold user_seg in Ht at 2. destruct (p_tag p) as [s|] eqn:E; [|by rewrite app_nil_r].
  specialize (Hs s eq_refl) as (H0 & H1 & H2). cbn [append_seg]. rewrite seg_total_app in Ht. cbn in Ht.
  destruct (omap user_seg g) as [|s0 l] eqn:El.
  { cbn. by rewrite Z.add_0_r. }
  assert (0 < seg_len s0 /\ 0 <= seg_total l) as [Hs0 Hl].
  { clear -Hg El. assert (Hm : Forall (fun s => 0 < seg_len s) (s0 :: l)).
    { rewrite <- El. clear El. induction Hg as [|p g Hp _ IH]; [constructor|]. cbn.
      unfold user_seg at 1. destruct Hp as (_ & _ & _ & Hs). destruct (p_tag p); [|done]. constructor; [|done].
      pose proof (Hs _ eq_refl). lia. }
    inversion_clear Hm as [|? ? Ha Hb]. split; [done|]. clear -Hb.
    induction Hb as [|s l Hs _ IH]; [done|]. change (0 <= seg_len s + seg_total l). lia. }
  specialize (Ho s eq_refl ltac:(done)). change (seg_total (s0 :: l)) with (seg_len s0 + seg_total l) in *.
  cbn [run_seg app seg_is_empty seg_offset seg_len]. unfold seg_is_empty. cbn [seg_offset seg_len].
  rewrite (proj2 (Z.eqb_neq (seg_total (s0 :: l)) 0)) by (change (seg_total (s0 :: l)) with (seg_len s0 + seg_total l); lia).
  rewrite andb_false_r. unfold BlobIoSegment_append. rewrite Ho.
  rewrite (proj2 (checked_add_bd 32 0 (seg_len s))) by lia. cbn [rassert mbind outcome_bind Z.eqb seg_len seg_offset].
  change (seg_total (s0 :: l ++ [s])) with (seg_total ((s0 :: l) ++ [s])). rewrite seg_total_app. cbn [seg_total foldr].
  rewrite uadd_in; [by rewrite Z.add_0_r|]. fold (seg_total l). split; lia.
Qed.

Lemma region_append_fresh p : push_ok p -> may_follow [] p ->
  exists r, append_push p (Region_new (p_type p)) = Ok r /\ region_spans r [p].
Proof.
  intros Hp Hf. pose proof (append_seg_run [] p ltac:(constructor) Hp Hf : append_seg (p_tag p) (mkSeg 0 0) = _) as Hseg.
  unfold append_push, Region_append. cbn [Region_new r_status]. unfold append_range. cbn [r_status].
  rewrite !bool_decide_true by done. cbn [rassert mbind outcome_bind r_seg Region_new].
  rewrite Hseg. cbn [mbind outcome_bind].
  destruct (p_chunk p) eqn:Ec; (eexists; split; [reflexivity|]); split; cbn; unfold has_chunk, p_end; rewrite ?Ec; eauto;
    constructor; done || lia.
Qed.

Lemma append_range_more r g p : region_spans r g -> Forall push_ok g -> push_ok p -> may_follow g p ->
  append_range (p_start p) (p_len p) r = Ok (mkRegion (r_type r) Open (r_count r + 1) (r_chunks r) (r_tags r)
    (r_blob_address r) (p_end p - r_blob_address r) (r_seg r)).
Proof.
  intros Hr Hg Hp Hf. destruct (rs_last _ _ Hr) as (q & Hq & Ee). destruct (rs_first _ _ Hr) as (q0 & Hq0 & Ea).
  pose proof (mf_adjacent _ _ Hf q Hq) as Hadj. pose proof (mf_count _ _ Hf) as Hc. rewrite <- (rs_count _ _ Hr) in Hc.
  assert (0 <= r_count r) by (rewrite (rs_count _ _ Hr); lia).
  assert (q0 ∈ g) as Hq0' by (destruct g; [done|]; injection Hq0 as ->; left).
  pose proof (mf_window _ _ Hf q0 Hq0') as Hw. pose proof (proj1 (Forall_forall _ _) Hg q0 Hq0') as Hok0.
  pose proof (proj1 (Forall_forall _ _) (rs_inside _ _ Hr) q0 Hq0') as Hin. cbn beta in Hin.
  destruct Hp as (Hp0 & Hp1 & Hp2 & _). destruct Hok0 as (Ho0 & Ho1 & Ho2 & _).
  unfold append_range, p_end, RAFS_DEFAULT_CHUNK_SIZE in *. rewrite (bool_decide_false (r_status r = Init)) by (rewrite (rs_status _ _ Hr); done).
  rewrite (bool_decide_true (r_status r = Open)) by apply (rs_status _ _ Hr). cbn [rassert mbind outcome_bind].
  rewrite (uadd_in 64 (r_blob_address r)) by (split; lia). cbn [mbind outcome_bind].
  rewrite (uadd_in 64 _ (1024 * 1024)) by (split; lia). cbn [mbind outcome_bind].
  rewrite (proj2 (Z.ltb_ge _ _)) by lia. cbn [orb]. rewrite (proj2 (checked_add_bd _ _ _)) by lia. cbn [negb].
  rewrite (uadd_in 64 (p_start p)) by (split; lia). cbn [mbind outcome_bind]. rewrite usub_in by (split; lia).
  cbn [mbind outcome_bind]. rewrite wrap_small by (split; lia). rewrite (uadd_in 32 (r_blob_len r)) by (split; lia).
  cbn [mbind outcome_bind]. rewrite uadd_in by (split; lia). cbn [mbind outcome_bind]. do 2 f_equal. lia.
Qed.

Lemma region_append_more r g p : region_spans r g -> Forall push_ok g -> push_ok p -> may_follow g p ->
  p_type p = r_type r -> exists r', append_push p r = Ok r' /\ region_spans r' (g ++ [p]).
Proof.
  intros Hr Hg Hp Hf Ht. unfold append_push, Region_append.
  rewrite (bool_decide_true (r_status r <> Committed)) by (rewrite (rs_status _ _ Hr); done).
  cbn [rassert mbind outcome_bind]. rewrite (append_range_more r g p) by done. cbn [mbind outcome_bind r_seg r_chunks r_tags].
  rewrite (rs_seg _ _ Hr), append_seg_run by done. cbn [mbind outcome_bind].
  destruct (rs_last _ _ Hr) as (q & Hq & Ee). pose proof (mf_adjacent _ _ Hf q Hq) as Hadj. destruct Hp as (_ & Hlen & _).
  assert (r_blob_address r <= p_start p) as Hadr.
  { apply last_Some_elem_of in Hq. pose proof (proj1 (Forall_forall _ _) (rs_inside _ _ Hr) q Hq) as Hin.
    pose proof (proj1 (Forall_forall _ _) Hg q Hq) as (_ & Hq1 & _). unfold p_end in *. lia. }
  assert (Hspan : Forall (fun p0 => r_blob_address r <= p_start p0 /\
      p_end p0 <= r_blob_address r + (p_end p - r_blob_address r)) (g ++ [p])).
  { apply Forall_app. split; [|constructor; [lia|constructor]]. eapply Forall_impl; [apply (rs_inside _ _ Hr)|].
    cbn beta. intros p0 Hp0. unfold p_end in *. lia. }
  destruct (rs_first _ _ Hr) as (q0 & Hq0 & Ea).
  assert (Hhead : head (g ++ [p]) = Some q0) by (destruct g; [done|exact Hq0]).
  assert (Htype : Forall (fun p0 => p_type p0 = r_type r) (g ++ [p])).
  { apply Forall_app. split; [apply (rs_type _ _ Hr)|by constructor]. }
  assert (Hcount : r_count r + 1 = Z.of_nat (length (g ++ [p]))).
  { rewrite length_app, (rs_count _ _ Hr). cbn. lia. }
  pose proof (omap_app p_chunk g [p]) as Hch. pose proof (omap_app has_chunk g [p]) as Htg.
  rewrite <- (rs_chunks _ _ Hr) in Hch. rewrite <- (rs_tags _ _ Hr) in Htg. cbn in Hch, Htg. unfold has_chunk in Htg at 2.
  destruct (p_chunk p); rewrite ?app_nil_r in Hch, Htg; (eexists; split; [reflexivity|]);
    (split; cbn [r_type r_status r_count r_chunks r_tags r_blob_address r_blob_len r_seg]; try done;
     [by exists q0 | exists p; rewrite last_snoc; split; [done|lia]]).
Qed.

(** A push, or [None] for a commit. *)
Definition do_op (op : option io_push) : stM FileIoMergeState errno unit :=
  match op with
  | Some p => ms_push (p_type p) (p_start p) (p_len p) (p_tag p) (p_chunk p)
  | None => st_modify ms_commit
  end.

Record ops_wf (ops : list (option io_push)) : Prop := {
  ow_each : Forall push_ok (omap id ops);
  ow_adjacent : forall i p q, ops !! i = Some (Some p) -> ops !! S i = Some (Some q) -> p_type p = p_type q ->
    p_end p <= p_start q <= p_end p + RAFS_DEFAULT_CHUNK_SIZE;
  ow_window : forall p q, p ∈ omap id ops -> q ∈ omap id ops -> p_type p = p_type q -> p_end q - p_start p < 2 ^ 32;
  ow_count : Z.of_nat (length ops) < 2 ^ 32;
  ow_offset : forall i j p q s, (i < j)%nat -> ops !! i = Some (Some p) -> ops !! j = Some (Some q) ->
    is_Some (user_seg p) -> user_seg q = Some s -> seg_offset s = 0;
  ow_total : seg_total (omap user_seg (omap id ops)) < 2 ^ 32
}.

(** The pushes [g] are the operations from the [i]th on, one after the other. *)
Definition runs_at (ops : list (option io_push)) (i : nat) (g : list io_push) : Prop :=
  forall k p, g !! k = Some p -> ops !! (i + k)%nat = Some (Some p).

(** The regions hold the pushes so far, each of them a run, and the last one is open for the next
    push only when it holds the previous operation. *)
Definition run_inv (ops : list (option io_push)) (s : FileIoMergeState) : Prop :=
  exists gs, Forall2 region_spans (ms_regions s) gs /\ concat gs = omap id ops /\
    Forall (fun g => exists i, runs_at ops i g) gs /\
    (ms_last_region_joinable s = true -> gs <> [] ->
     exists gs' g i, gs = gs' ++ [g] /\ g <> [] /\ runs_at ops i g /\ (i + length g = length ops)%nat).

Lemma runs_at_more ops i g op : runs_at ops i g -> runs_at (ops ++ [op]) i g.
Proof. intros Hg k p Hk. apply lookup_app_l_Some. by apply Hg. Qed.

Lemma runs_more ops gs op : Forall (fun g => exists i, runs_at ops i g) gs -> Forall (fun g => exists i, runs_at (ops ++ [op]) i g) gs.
Proof. intros Hg. eapply Forall_impl; [exact Hg|]. cbn. intros g [i Hi]. exists i. by apply runs_at_more. Qed.

Lemma runs_at_last ops i g p : runs_at ops i g -> (i + length g = length ops)%nat -> last g = Some p -> last ops = Some (Some p).
Proof.
  intros Hg Hi Hp. rewrite last_lookup in Hp. rewrite last_lookup. assert (0 < length g)%nat by (destruct g; cbn in *; [done|lia]).
  specialize (Hg _ _ Hp). by replace (i + pred (length g))%nat with (pred (length ops)) in Hg by lia.
Qed.

Lemma runs_at_snoc ops i g p : runs_at ops i g -> (i + length g = length ops)%nat -> runs_at (ops ++ [Some p]) i (g ++ [p]).
Proof.
  intros Hg Hi k q Hk. apply lookup_app_Some in Hk as [Hk|[Hl Hk]]; [by apply runs_at_more with (g := g)|].
  apply list_lookup_singleton_Some in Hk as [Ek ->]. rewrite lookup_app_r by lia. by replace (i + k - length ops)%nat with 0%nat by lia.
Qed.

Lemma length_omap_le (ops : list (option io_push)) : (length (omap id ops) <= length ops)%nat.
Proof. induction ops as [|[p|] ops IH]; cbn; lia. Qed.

Lemma follow_fresh ops p : ops_wf (ops ++ [Some p]) -> may_follow [] p.
Proof.
  intros Hw. pose proof (ow_total _ Hw) as Ht. pose proof (ow_each _ Hw) as He. rewrite omap_app in Ht, He. cbn in Ht, He.
  apply Forall_app in He as [He _]. rewrite omap_app, seg_total_app in Ht. pose proof (seg_total_nonneg _ He).
  split; cbn [app]; [done| |cbn; lia|done|lia]. intros q Hq. by apply elem_of_nil in Hq.
Qed.

Lemma follow_last ops p gs g q : ops_wf (ops ++ [Some p]) -> concat (gs ++ [g]) = omap id ops -> last g = Some q ->
  last ops = Some (Some q) -> Forall (fun p0 => p_type p0 = p_type p) g -> may_follow g p.
Proof.
  intros Hw Hc Hg Ho Ht. rewrite concat_app in Hc. cbn in Hc. rewrite app_nil_r in Hc.
  assert (omap id (ops ++ [Some p]) = concat gs ++ g ++ [p]) as Eall by (by rewrite omap_app, <- Hc, <- app_assoc).
  pose proof (ow_each _ Hw) as He. rewrite Eall in He. apply Forall_app in He as [He _].
  split.
  - intros q' Hq'. assert (q' = q) as -> by congruence. apply (ow_adjacent _ Hw (pred (length ops))).
    + rewrite lookup_app_l; [by rewrite <- last_lookup|]. destruct ops; [done|cbn; lia].
    + destruct ops as [|o ops]; [done|]. rewrite lookup_app_r by (cbn; lia). by replace (_ - _)%nat with 0%nat by (cbn; lia).
    + apply last_Some_elem_of in Hg. by apply (proj1 (Forall_forall _ _) Ht).
  - intros q' Hq'. apply (ow_window _ Hw); rewrite ?Eall; [set_solver|set_solver|]. by apply (proj1 (Forall_forall _ _) Ht).
  - pose proof (ow_count _ Hw) as Hn. rewrite length_app in Hn. cbn in Hn.
    assert (length g <= length (omap id ops))%nat by (rewrite <- Hc, length_app; lia).
    pose proof (length_omap_le ops). lia.
  - intros s Hs Hne. destruct (omap user_seg g) as [|s0 l] eqn:Eg; [done|].
    assert (s0 ∈ omap user_seg g) as (p0 & Hp0 & Hs0)%list_elem_of_omap by (rewrite Eg; left).
    assert (p0 ∈ omap id ops) as (op & Hop & Eop)%list_elem_of_omap by (rewrite <- Hc; set_solver).
    cbv [id] in Eop. subst op. apply list_elem_of_lookup_1 in Hop as [i Hi]. pose proof (lookup_lt_Some _ _ _ Hi) as Hlt.
    apply (ow_offset _ Hw i (length ops) p0 p s); [done|by rewrite lookup_app_l|by rewrite list_lookup_middle|by eexists|done].
  - pose proof (ow_total _ Hw) as Hn. rewrite Eall, omap_app, seg_total_app in Hn.
    pose proof (seg_total_nonneg _ He). lia.
Qed.

Lemma push_fresh ops s gs p : ops_wf (ops ++ [Some p]) -> Forall2 region_spans (ms_regions s) gs -> concat gs = omap id ops ->
  Forall (fun g => exists i, runs_at ops i g) gs ->
  let s1 := mkIoMergeState (ms_regions s ++ [Region_new (p_type p)]) true in
  exists r, append_push p (Region_new (p_type p)) = Ok r /\
    run_inv (ops ++ [Some p]) (mkIoMergeState (<[length (ms_regions s) := r]> (ms_regions s1)) true).
Proof.
  intros Hw Hf Hc Hruns s1. pose proof (ow_each _ Hw) as He. rewrite omap_app in He. apply Forall_app in He as [_ He].
  inversion_clear He as [|? ? Hp _]. destruct (region_append_fresh p Hp (follow_fresh _ _ Hw)) as (r & E & Hs).
  exists r. split; [exact E|]. exists (gs ++ [[p]]). cbn [ms_regions s1 ms_last_region_joinable].
  rewrite insert_app_r_alt, Nat.sub_diag by lia. cbn. split_and!.
  - apply Forall2_app; [done|]. by constructor.
  - rewrite concat_app, Hc, omap_app. cbn. done.
  - apply Forall_app. split; [by apply runs_more|]. constructor; [|constructor]. exists (length ops).
    by apply (runs_at_snoc ops (length ops) []); [|cbn; lia].
  - intros _ _. exists gs, [p], (length ops). split_and!; [done|done| |by rewrite length_app].
    by apply (runs_at_snoc ops (length ops) []); [|cbn; lia].
Qed.

Lemma push_join ops s gs r g p i : ops_wf (ops ++ [Some p]) -> ms_regions s = removelast (ms_regions s) ++ [r] ->
  Forall2 region_spans (removelast (ms_regions s)) gs -> region_spans r g -> concat (gs ++ [g]) = omap id ops ->
  Forall (fun g => exists i, runs_at ops i g) gs -> g <> [] -> runs_at ops i g -> (i + length g = length ops)%nat -> r_type r = p_type p ->
  exists r', append_push p r = Ok r' /\
    run_inv (ops ++ [Some p]) (mkIoMergeState (<[(length (ms_regions s) - 1)%nat := r']> (ms_regions s)) true).
Proof.
  intros Hw Hr Hf Hs Hc Hruns Hne Hgi Hi Ht. destruct (last g) as [q|] eqn:Hg; [|by apply last_None in Hg].
  pose proof (runs_at_last _ _ _ _ Hgi Hi Hg) as Ho.
  assert (Forall (fun p0 => p_type p0 = p_type p) g) as Htg by (rewrite <- Ht; apply (rs_type _ _ Hs)).
  pose proof (follow_last ops p gs g q Hw Hc Hg Ho Htg) as Hfol.
  pose proof (ow_each _ Hw) as He. rewrite omap_app, <- Hc, concat_app in He. cbn in He. rewrite app_nil_r in He.
  apply Forall_app in He as [[_ Hge]%Forall_app Hpe]. inversion_clear Hpe as [|? ? Hp _].
  destruct (region_append_more r g p Hs Hge Hp Hfol (eq_sym Ht)) as (r' & E & Hs'). exists r'. split; [exact E|].
  exists (gs ++ [g ++ [p]]). cbn [ms_regions ms_last_region_joinable]. rewrite Hr.
  rewrite length_app, insert_app_r_alt by (cbn; lia). cbn [length].
  replace (length (removelast (ms_regions s)) + 1 - 1 - _)%nat with 0%nat by lia. cbn [list_insert].
  split_and!.
  - apply Forall2_app; [done|]. by constructor.
  - rewrite omap_app, <- Hc, !concat_app. cbn. by rewrite !app_nil_r, app_assoc.
  - apply Forall_app. split; [by apply runs_more|]. constructor; [|constructor]. exists i. by apply runs_at_snoc.
  - intros _ _. exists gs, (g ++ [p]), i. split_and!; [done|by destruct g|by apply runs_at_snoc|rewrite !length_app; cbn; lia].
Qed.

Lemma do_op_step ops op s : run_inv ops s -> ops_wf (ops ++ [op]) ->
  exists s', do_op op s = (Ok tt, s') /\ run_inv (ops ++ [op]) s'.
Proof.
  intros (gs & Hf & Hc & Hruns & Hj) Hw. destruct op as [p|]; cbn [do_op].
  2:{ exists (ms_commit s). split; [done|]. exists gs. cbn. split_and!; [done| |by apply runs_more|done]. by rewrite omap_app, Hc, app_nil_r. }
  unfold ms_push, ms_joinable. destruct (last (ms_regions s)) as [r|] eqn:El.
  - destruct (type_joinable (r_type r) (p_type p) && ms_last_region_joinable s) eqn:Ej; cbn [negb].
    + apply andb_true_iff in Ej as [Et%bool_decide_eq_true Ejl].
      apply last_Some in El as (rs & Er). rewrite Er in Hf. apply Forall2_app_inv_l in Hf as (gs0 & k & Hf0 & Hf1 & ->).
      apply Forall2_cons_inv_l in Hf1 as (g & k' & Hs & Hn & ->). apply Forall2_nil_inv_l in Hn as ->.
      destruct Hj as (gs' & g' & i & E & Hne & Hgi & Hi); [done|by destruct gs0|]. apply app_inj_tail in E as [-> ->].
      apply Forall_app in Hruns as [Hruns _].
      assert (removelast (ms_regions s) = rs) as Erm by (by rewrite Er, removelast_last).
      destruct (push_join ops s gs' r g' p i) as (r' & E & Hinv); [done|by rewrite Erm|by rewrite Erm|done..|].
      assert (ms_regions s !! (length (ms_regions s) - 1)%nat = Some r) as ->.
      { rewrite Er, length_app, lookup_app_r by (cbn; lia). by replace (_ - _)%nat with 0%nat by (cbn; lia). }
      unfold append_push in E. rewrite E. rewrite Ejl. by eexists.
    + destruct (push_fresh ops s gs p Hw Hf Hc Hruns) as (r' & E & Hinv). cbn [ms_regions ms_last_region_joinable] in *.
      rewrite length_app, Nat.add_sub, lookup_app_r, Nat.sub_diag by lia. cbn [lookup list_lookup].
      unfold append_push in E. rewrite E. by eexists.
  - destruct (push_fresh ops s gs p Hw Hf Hc Hruns) as (r' & E & Hinv). cbn [ms_regions ms_last_region_joinable] in *.
    rewrite length_app, Nat.add_sub, lookup_app_r, Nat.sub_diag by lia. cbn [lookup list_lookup].
    unfold append_push in E. rewrite E. by eexists.
Qed.

Lemma ops_wf_prefix a b : ops_wf (a ++ b) -> ops_wf a.
Proof.
  intros [He Ha Hw Hc Ho Ht]. rewrite omap_app in He, Hw, Ht. apply Forall_app in He as [He Hb].
  rewrite omap_app, seg_total_app in Ht. rewrite length_app in Hc. pose proof (seg_total_nonneg _ Hb). split; [done| | |lia| |lia].
  - intros i p q Hp Hq. apply (Ha i); by apply lookup_app_l_Some.
  - intros p q Hp Hq. apply Hw; set_solver.
  - intros i j p q s Hij Hp Hq. apply (Ho i j p); [done|by apply lookup_app_l_Some..].
Qed.
End runs.

(** ** The request *)

Section request.
Context `{Profile} (cf : cache_flags).
Context {M : Type} (check_ready : ChunkDesc -> stM M StorageError bool) (clear_pending : ChunkDesc -> M -> M).

(** In its proper states the chunk map answers for the chunks it knows, or times out. *)
Context (inv : M -> Prop) (known : ChunkDesc -> Prop).
Hypothesis answers : forall c m, inv m -> known c ->
  match (check_ready c m).1 with Ok _ | Err Timeout => inv (check_ready c m).2 | _ => False end.
Hypothesis clears : forall c m, inv m -> known c -> inv (clear_pending c m).

Definition is_ready_of (r : outcome StorageError bool) : bool := match r with Ok b => b | _ => false end.

(** Where a chunk goes; [None]: it is skipped and the current region is closed. *)
Definition classify (b : bool) (ct : ChunkDesc * BlobIoTag) : option io_push :=
  let '(c, t) := ct in
  if b && negb (cf_is_compressed cf) && negb (cf_need_validation cf) then
    if is_user_io t then Some (mkPush CacheFast (chunk_u_offset c) (chunk_u_size c) t None) else None
  else if negb (cf_is_direct_chunkmap cf) || b then
    if is_user_io t then Some (mkPush CacheSlow (chunk_u_offset c) (chunk_u_size c) t (Some c)) else None
  else Some (mkPush Backend (chunk_c_offset c) (chunk_c_size c) t (Some c)).

(** The answers of the chunk map to the chunks of a request, and the map after it: the chunks
    that are not ready and are skipped are no longer pending. *)
Fixpoint readiness (l : list (ChunkDesc * BlobIoTag)) (m : M) : list bool * M :=
  match l with
  | [] => ([], m)
  | (c, t) :: l =>
      let '(r, m) := check_ready c m in
      let b := is_ready_of r in
      let m := if negb b && negb (cf_is_direct_chunkmap cf) && negb (is_user_io t) then clear_pending c m else m in
      let '(bs, m) := readiness l m in
      (b :: bs, m)
  end.

Lemma length_readiness l m : length (readiness l m).1 = length l.
Proof.
  revert m. induction l as [|[c t] l IH]; intros m; [done|]. cbn. destruct (check_ready c m) as [r m1].
  match goal with |- context [readiness l ?m2] => specialize (IH m2); destruct (readiness l m2) end. cbn in *. lia.
Qed.

Lemma dispatch_chunk_do_op c t m ms : inv m -> known c ->
  let r := (check_ready c m).1 in
  let m1 := (check_ready c m).2 in
  let b := is_ready_of r in
  let m2 := if negb b && negb (cf_is_direct_chunkmap cf) && negb (is_user_io t) then clear_pending c m1 else m1 in
  dispatch_chunk cf check_ready clear_pending (c, t) (m, ms) =
    (let '(r, ms) := do_op (classify b (c, t)) ms in (r, (m2, ms))) /\ inv m2.
Proof.
  intros Hm Hc. cbv zeta. unfold dispatch_chunk, classify. pose proof (answers c m Hm Hc) as Ha. destruct (check_ready c m) as [r m1]. cbn [fst snd] in *.
  split.
  2:{ destruct r as [|[]|]; try done; by destruct (negb _ && _ && _); [apply clears|]. }
  destruct r as [[]|[]|]; try done; cbn [is_ready_of negb andb];
    destruct (cf_is_compressed cf), (cf_need_validation cf), (cf_is_direct_chunkmap cf), t; cbn [andb orb negb is_user_io];
    try done; cbn [do_op p_type p_start p_len p_tag p_chunk];
    match goal with |- context [ms_push ?a ?b ?c ?d ?e ?f] => by destruct (ms_push a b c d e f) end.
Qed.

Lemma dispatch_loop_runs chunks tags m ops s :
  length chunks = length tags -> inv m -> Forall known chunks -> run_inv ops s ->
  ops_wf (ops ++ zip_with classify (readiness (zip chunks tags) m).1 (zip chunks tags)) ->
  exists s', dispatch_loop cf check_ready clear_pending chunks tags (m, s) = (Ok tt, ((readiness (zip chunks tags) m).2, s')) /\
    inv (readiness (zip chunks tags) m).2 /\ run_inv (ops ++ zip_with classify (readiness (zip chunks tags) m).1 (zip chunks tags)) s'.
Proof.
  revert tags m ops s. induction chunks as [|c chunks IH]; intros [|t tags] m ops s Hlen Hm Hk Hinv Hw; try done.
  { exists s. cbn. by rewrite app_nil_r. }
  apply Forall_cons in Hk as [Hc Hk].
  cbn [dispatch_loop]. unfold mbind, stM_bind, st_bind. pose proof (dispatch_chunk_do_op c t m s Hm Hc) as Hd. cbv zeta in Hd.
  cbn [zip zip_with readiness] in Hw |- *. destruct (check_ready c m) as [r m1]. cbn [fst snd] in Hd.
  set (b := is_ready_of r) in *. set (m2 := if _ : bool then _ else _) in *.
  destruct (readiness (zip chunks tags) m2) as [bs m3] eqn:Er. cbn [fst snd zip_with] in *.
  rewrite cons_middle, app_assoc in Hw. destruct (do_op_step ops (classify b (c, t)) s Hinv (ops_wf_prefix _ _ Hw)) as (s1 & E & Hinv1).
  destruct Hd as [Hd Hm2]. rewrite Hd, E. specialize (IH tags m2 _ s1 ltac:(cbn in Hlen; lia) Hm2 Hk Hinv1). rewrite Er in IH. cbn [fst snd] in IH.
  destruct (IH Hw) as (s' & E' & Hinv'). exists s'. by rewrite cons_middle, app_assoc.
Qed.

(** The two ranges of a chunk: in the cache file, and in the blob. *)
Definition rng_start (cached : bool) (c : ChunkDesc) : Z := if cached then chunk_u_offset c else chunk_c_offset c.
Definition rng_len (cached : bool) (c : ChunkDesc) : Z := if cached then chunk_u_size c else chunk_c_size c.
Definition rng_end (cached : bool) (c : ChunkDesc) : Z := rng_start cached c + rng_len cached c.

Definition tag_seg (ct : ChunkDesc * BlobIoTag) : option BlobIoSegment :=
  match ct.2 with TagUser s => Some s | TagInternal => None end.

(** A request as [merge_and_issue] makes it: the chunks follow each other with small gaps in the
    blob and in the cache file, and only the first user segment starts inside its chunk. *)
Record request_wf (l : list (ChunkDesc * BlobIoTag)) : Prop := {
  rq_ranges : Forall (fun ct => forall k, 0 <= rng_start k ct.1 /\ 0 < rng_len k ct.1 < 2 ^ 32 /\ rng_end k ct.1 < 2 ^ 63) l;
  rq_segs : Forall (fun ct => forall s, tag_seg ct = Some s ->
    0 <= seg_offset s /\ 0 < seg_len s /\ seg_offset s + seg_len s < 2 ^ 32) l;
  rq_adjacent : forall i x y k, l !! i = Some x -> l !! S i = Some y ->
    rng_end k x.1 <= rng_start k y.1 <= rng_end k x.1 + RAFS_DEFAULT_CHUNK_SIZE;
  rq_window : forall x y k, x ∈ l -> y ∈ l -> rng_end k y.1 - rng_start k x.1 < 2 ^ 32;
  rq_count : Z.of_nat (length l) < 2 ^ 32;
  rq_offset : forall i j x y s, (i < j)%nat -> l !! i = Some x -> l !! j = Some y ->
    is_Some (tag_seg x) -> tag_seg y = Some s -> seg_offset s = 0;
  rq_total : seg_total (omap tag_seg l) < 2 ^ 32
}.

Definition from_cache (p : io_push) : bool := bool_decide (p_type p <> Backend).

Lemma classify_Some b ct p : classify b ct = Some p ->
  p_start p = rng_start (from_cache p) ct.1 /\ p_len p = rng_len (from_cache p) ct.1 /\ p_tag p = ct.2.
Proof.
  destruct ct as [c t]. unfold classify. intros E.
  destruct b, t, (cf_is_compressed cf), (cf_need_validation cf), (cf_is_direct_chunkmap cf); cbn in E; by simplify_eq.
Qed.

Lemma classify_seg b ct : (classify b ct ≫= user_seg) = tag_seg ct.
Proof.
  destruct ct as [c t]. unfold classify.
  by destruct b, t, (cf_is_compressed cf), (cf_need_validation cf), (cf_is_direct_chunkmap cf).
Qed.

Lemma classified_segs bs l : length bs = length l ->
  omap user_seg (omap id (zip_with classify bs l)) = omap tag_seg l.
Proof.
  revert bs. induction l as [|ct l IH]; intros [|b bs] Hl; try done. cbn [zip_with omap list_omap id].
  pose proof (classify_seg b ct) as Hs. rewrite <- Hs, <- (IH bs) by (cbn in Hl; lia). cbv [id].
  destruct (classify b ct) as [p|]; [|done]. cbn. by destruct (user_seg p).
Qed.

Lemma classified_elem bs l p : p ∈ omap id (zip_with classify bs l) -> exists b ct, ct ∈ l /\ classify b ct = Some p.
Proof.
  intros (op & Hop & E)%list_elem_of_omap. apply list_elem_of_lookup_1 in Hop as [i Hi].
  apply lookup_zip_with_Some in Hi as (b & ct & -> & _ & Hl). exists b, ct. split; [by eapply list_elem_of_lookup_2|exact E].
Qed.

Lemma classified_wf bs l : length bs = length l -> request_wf l -> ops_wf (zip_with classify bs l).
Proof.
  intros Hl Hr. split.
  - apply Forall_forall. intros p (b & ct & Hin & E)%classified_elem. apply classify_Some in E as (E1 & E2 & E3).
    pose proof (proj1 (Forall_forall _ _) (rq_ranges _ Hr) ct Hin (from_cache p)) as Hk.
    pose proof (proj1 (Forall_forall _ _) (rq_segs _ Hr) ct Hin) as Hs. unfold push_ok, p_end, rng_end in *. rewrite E1, E2, E3.
    split_and!; [lia..|]. intros s Et. apply Hs. unfold tag_seg. by rewrite Et.
  - intros i p q Hp Hq Ht. apply lookup_zip_with_Some in Hp as (b & x & E & _ & Hx). apply lookup_zip_with_Some in Hq as (b' & y & E' & _ & Hy).
    symmetry in E, E'. apply classify_Some in E as (E1 & E2 & _). apply classify_Some in E' as (E1' & E2' & _).
    pose proof (rq_adjacent _ Hr i x y (from_cache p) Hx Hy) as Ha. unfold p_end, rng_end, from_cache in *. rewrite E1, E2, E1', <- Ht. done.
  - intros p q (b & x & Hx & E)%classified_elem (b' & y & Hy & E')%classified_elem Ht.
    apply classify_Some in E as (E1 & E2 & _). apply classify_Some in E' as (E1' & E2' & _).
    pose proof (rq_window _ Hr x y (from_cache p) Hx Hy). unfold p_end, rng_end, from_cache in *. rewrite E1, E1', E2', <- Ht. done.
  - rewrite length_zip_with. pose proof (rq_count _ Hr). lia.
  - intros i j p q s Hij Hp Hq Hs1 Hs2. apply lookup_zip_with_Some in Hp as (b & x & E & _ & Hx).
    apply lookup_zip_with_Some in Hq as (b' & y & E' & _ & Hy). apply (rq_offset _ Hr i j x y s Hij Hx Hy).
    + rewrite <- (classify_seg b x), <- E. exact Hs1.
    + rewrite <- (classify_seg b' y), <- E'. exact Hs2.
  - rewrite classified_segs by done. apply (rq_total _ Hr).
Qed.

Lemma spans_seg_total rs gs : Forall2 region_spans rs gs ->
  seg_total (r_seg <$> rs) = seg_total (omap user_seg (concat gs)).
Proof.
  induction 1 as [|r g rs gs Hr _ IH]; [done|]. cbn [concat fmap list_fmap]. rewrite omap_app, seg_total_app, <- IH.
  change (seg_len (r_seg r) + seg_total (r_seg <$> rs) = seg_total (omap user_seg g) + seg_total (r_seg <$> rs)).
  rewrite (rs_seg _ _ Hr). by destruct (omap user_seg g).
Qed.

(** The regions of a well-formed request. *)
Lemma dispatch_regions_run req m : inv m -> Forall known (rg_chunks req) ->
  length (rg_chunks req) = length (rg_tags req) -> request_wf (zip (rg_chunks req) (rg_tags req)) ->
  let l := zip (rg_chunks req) (rg_tags req) in
  exists s gs, dispatch_regions cf check_ready clear_pending req (m, FileIoMergeState_new) = (Ok tt, ((readiness l m).2, s)) /\
    inv (readiness l m).2 /\ Forall2 region_spans (ms_regions s) gs /\ concat gs = omap id (zip_with classify (readiness l m).1 l) /\
    Forall (fun g => exists i, runs_at (zip_with classify (readiness l m).1 l) i g) gs.
Proof.
  intros Hm Hk Hlen Hw l. pose proof (classified_wf _ _ (length_readiness l m) Hw) as Hops.
  destruct (dispatch_loop_runs (rg_chunks req) (rg_tags req) m [] FileIoMergeState_new Hlen Hm Hk) as (s & E & Hm' & gs & Hf & Hc & Hruns & _); [|exact Hops|].
  { exists []. split_and!; [constructor|done|constructor|done]. }
  exists s, gs. split_and!; [exact E|exact Hm'|exact Hf|exact Hc|exact Hruns].
Qed.

(** C13: a well-formed request is dispatched without an error. The regions are runs of its chunks,
    in order: every chunk goes where the answer of the chunk map and the configuration send it,
    or is skipped, which only happens to chunks the user did not ask for; each region holds chunks
    that follow each other in the request, starts at its first chunk, ends at its last and
    contains the others; and the lengths of the regions' segments add up to the bytes the user
    asked for. *)
Theorem dispatch_covers_user_io req m : inv m -> Forall known (rg_chunks req) ->
  length (rg_chunks req) = length (rg_tags req) -> request_wf (zip (rg_chunks req) (rg_tags req)) ->
  let l := zip (rg_chunks req) (rg_tags req) in
  exists s gs, dispatch_regions cf check_ready clear_pending req (m, FileIoMergeState_new) = (Ok tt, ((readiness l m).2, s)) /\
    inv (readiness l m).2 /\
    Forall2 region_spans (ms_regions s) gs /\ concat gs = omap id (zip_with classify (readiness l m).1 l) /\
    Forall (fun g => exists i, runs_at (zip_with classify (readiness l m).1 l) i g) gs /\
    seg_total (r_seg <$> ms_regions s) = seg_total (omap tag_seg l).
Proof.
  intros Hm Hk Hlen Hw l. destruct (dispatch_regions_run req m Hm Hk Hlen Hw) as (s & gs & E & Hm' & Hf & Hc & Hruns).
  exists s, gs. split_and!; [exact E|exact Hm'|exact Hf|exact Hc|exact Hruns|]. rewrite (spans_seg_total _ _ Hf), Hc.
  exact (f_equal seg_total (classified_segs _ _ (length_readiness l m))).
Qed.
End request.

(** ** Witness *)

Definition sample_chunk (i : Z) : ChunkDesc := mkChunk (Some 0) i 0 (i * 0x800) 0x800 (i * 0x1000) 0x1000 true.
Definition sample_request : BlobIoRange :=
  mkRange (BlobInfo_new 0 "a" 0x4000 0x2000 0x1000 4 0) 0 0x1800 [sample_chunk 0; sample_chunk 1; sample_chunk 2]
    [TagUser (mkSeg 0x100 0xf00); TagUser (mkSeg 0 0x1000); TagInternal].

(** A chunk map in which the listed chunks are ready, and the others are pending once asked for. *)
Definition sample_check (c : ChunkDesc) : stM (list Z * list Z) StorageError bool := fun m =>
  if bool_decide (chunk_id c ∈ m.1) then (Ok true, m) else (Ok false, (m.1, chunk_id c :: m.2)).
Definition sample_clear (c : ChunkDesc) (m : list Z * list Z) : list Z * list Z := (m.1, filter (fun i => i <> chunk_id c) m.2).

Lemma dispatch_covers_user_io_witness :
  exists s gs, @dispatch_regions dev_profile (mkFlags false false true) _ sample_check sample_clear sample_request ([0], [], FileIoMergeState_new)
      = (Ok tt, ([0], [2; 1], s)) /\ Forall2 region_spans (ms_regions s) gs /\ length gs = 2%nat /\
    seg_total (r_seg <$> ms_regions s) = 0x1f00.
Proof.
  destruct (@dispatch_covers_user_io dev_profile (mkFlags false false true) _ sample_check sample_clear (fun _ => True) (fun _ => True)) with (req := sample_request) (m := ([0], [] : list Z))
    as (s & gs & E & _ & Hf & Hc & _ & Ht).
  - intros c m _ _. unfold sample_check. by case_bool_decide.
  - done.
  - done.
  - by repeat constructor.
  - reflexivity.
  - split.
    + repeat (constructor; [intros []; vm_compute; done|]). constructor.
    + repeat (constructor; [intros ? [= <-]; vm_compute; done || discriminate|]). constructor.
    + intros [|[|[|i]]] x y [] Hx Hy; simplify_eq/=; vm_compute; done.
    + intros x y k Hx Hy. set (l := zip _ _) in Hx, Hy.
      assert (Forall (fun x => Forall (fun y => forall k, rng_end k y.1 - rng_start k x.1 < 2 ^ 32) l) l) as Hl.
      { repeat constructor; intros []; reflexivity. }
      exact (proj1 (Forall_forall _ _) (proj1 (Forall_forall _ _) Hl x Hx) y Hy k).
    + by vm_compute.
    + intros [|[|[|i]]] [|[|[|j]]] x y sg Hij Hx Hy _ Hs; try lia; cbn in Hx, Hy; simplify_eq; cbn in Hs; simplify_eq; reflexivity.
    + by vm_compute.
  - exists s, gs. split; [exact E|]. split; [exact Hf|]. split; [|exact Ht].
    rewrite <- (Forall2_length _ _ _ Hf). vm_compute in E. by injection E as <-.
Defined.
