(* ===== verification/CachedFile.v ===== *)
(** The file cache of a blob ([storage/src/cache/cachedfile.rs], [FileCacheEntry]).

    A read request is cut into ranges; the chunks of a range are looked up in the chunk map and
    read from the cache file or from the storage backend, and what came from the backend is
    written to the cache file by a task that runs later. The state is the cache file, the chunk
    map, and the tasks that were spawned; the user's memory and the cursor in it are the state of
    one read. Other threads run while the chunk map waits for a chunk that is being downloaded:
    the two operations that wait are parameters over the whole state. *)
From stdpp Require Import sorting.
From S2P Require Import Prelude Utils LittleEndian ChunkInfo Device BlobMeta MetaFile BlobCache IoMerge MemCursor CacheRegion.

(** ** The object *)

Record FileCacheEntry := mkEntry {
  fe_cache : BlobCache;
  fe_is_compressed : bool;
  fe_is_direct_chunkmap : bool;
  fe_dio_enabled : bool;
  fe_batch_size : Z;
  fe_merging_size : Z
}.

(** The chunk map, a [dyn ChunkMap]; [mo_range] is its [as_range_map], with the operations that
    do not wait. *)
Record RangeMapObj (M : Type) := mkRangeObj {
  ro_check : Z -> Z -> stM M errno (option (list Z));
  ro_clear_pending : Z -> Z -> stM M errno unit;
  ro_all_ready : M -> bool
}.
Arguments ro_check {M} _ _ _.
Arguments ro_clear_pending {M} _ _ _.
Arguments ro_all_ready {M} _ _.

Class ChunkMapObj (M : Type) := {
  mo_is_ready : M -> ChunkDesc -> io bool;
  mo_set_ready : ChunkDesc -> stM M errno unit;
  mo_clear_pending : ChunkDesc -> M -> M;
  mo_is_persist : bool;
  mo_range : option (RangeMapObj M)
}.

(** A task given to the runtime: the data to write to the cache file for a chunk. *)
Record delayed := mkDelayed { dl_chunk : ChunkDesc; dl_buffer : list Z }.

(** [cs_writes] and [cs_reads] are the outcomes of the system calls on the cache file to come: an
    error, or the number of bytes the call transfers at most. After them a call is complete. *)
Record CacheState (M : Type) := mkCS {
  cs_file : list Z;
  cs_map : M;
  cs_writes : list (errno + nat);
  cs_reads : list (errno + nat);
  cs_spawned : list delayed
}.
Arguments mkCS {M} _ _ _ _ _.
Arguments cs_file {M} _.
Arguments cs_map {M} _.
Arguments cs_writes {M} _.
Arguments cs_reads {M} _.
Arguments cs_spawned {M} _.

(** A read: the cache, the slices of the user's memory and the cursor in them. *)
Record ReadState (M : Type) := mkRS {
  rs_cache : CacheState M;
  rs_mem : list (list Z);
  rs_index : nat;
  rs_offset : nat
}.
Arguments mkRS {M} _ _ _ _.
Arguments rs_cache {M} _.
Arguments rs_mem {M} _.
Arguments rs_index {M} _.
Arguments rs_offset {M} _.

(** [m.map_err(|e| { cleanup; e })]. *)
Definition st_on_err {S E A} (cleanup : S -> S) (m : stM S E A) : stM S E A := fun s =>
  match m s with (Err e, s) => (Err e, cleanup s) | r => r end.

(** A [Result] that is kept instead of returned with [?]. *)
Definition st_try {S E A} (m : stM S E A) : stM S E (E + A) := fun s =>
  match m s with
  | (Ok a, s) => (Ok (inr a), s)
  | (Err e, s) => (Ok (inl e), s)
  | (Panic, s) => (Panic, s)
  end.

(** [res.is_ok()]. *)
Definition res_is_ok {E A} (res : E + A) : bool := match res with inr _ => true | inl _ => false end.

(** [assert_eq!(chunks[idx].id() + 1, chunks[idx + 1].id())] for all neighbours. *)
Fixpoint consecutive `{Profile} (chunks : list ChunkDesc) : io unit :=
  match chunks with
  | c :: ((d :: _) as rest) =>
      i ← uadd 32 (chunk_id c) 1;
      _ ← rassert (i =? chunk_id d);
      consecutive rest
  | _ => Ok tt
  end.

Definition RAFS_MERGING_SIZE_TO_GAP_SHIFT : Z := 7.

(** ** System calls on the cache file *)

Section sys.
(** The loop of [persist_cached_data] around [pwrite]: the bytes written. *)
Fixpoint pwrite_loop (ws : list (errno + nat)) (offset : Z) (buffer file : list Z)
  : io Z * (list (errno + nat) * list Z) :=
  match ws with
  | [] => (Ok (zlen buffer), ([], pwrite file offset buffer))
  | inr n :: ws => let data := take n buffer in (Ok (zlen data), (ws, pwrite file offset data))
  | inl EINTR :: ws => pwrite_loop ws offset buffer file
  | inl e :: ws => (Err e, (ws, file))
  end.

(** [readv]: the bytes [preadv] reads into vectors of [len] bytes. *)
Fixpoint preadv_loop (rs : list (errno + nat)) (file : list Z) (offset len : Z) : io (list Z) * list (errno + nat) :=
  match rs with
  | [] => (Ok (pread file offset len), [])
  | inr n :: rs => (Ok (take n (pread file offset len)), rs)
  | inl EINTR :: rs => preadv_loop rs file offset len
  | inl e :: rs => (Err e, rs)
  end.

(** [Read::read_exact] of [len] bytes on a [FileRangeReader] at [offset] with [size] bytes left. A
    complete read that is short has met the end of the range or of the file, where the next one
    returns nothing. *)
Fixpoint read_exact_loop (rs : list (errno + nat)) (file : list Z) (offset size len : Z) (acc : list Z)
  : io (list Z) * list (errno + nat) :=
  if len =? 0 then (Ok acc, rs)
  else
    let data := pread file offset (Z.min size len) in
    match rs with
    | [] => (if zlen data =? len then Ok (acc ++ data) else Err UnexpectedEof, [])
    | inl EINTR :: rs => read_exact_loop rs file offset size len acc
    | inl e :: rs => (Err e, rs)
    | inr n :: rs =>
        let data := take n data in
        if zlen data =? 0 then (Err UnexpectedEof, rs)
        else read_exact_loop rs file (offset + zlen data) (size - zlen data) (len - zlen data) (acc ++ data)
    end.

(** The bytes of a [preadv] in the memory the vectors point into. *)
Fixpoint scatter (vs : list IoSlice) (data : list Z) (mem : list (list Z)) : list (list Z) :=
  match vs with
  | [] => mem
  | v :: vs =>
      scatter vs (drop (ios_len v) data) (alter (splice (ios_offset v) (take (ios_len v) data)) (ios_slice v) mem)
  end.
End sys.

(** ** Operations *)

Section entry.
Context `{Profile} (cx : codecs) (self : FileCacheEntry) (reader : BlobReader).
Context {M : Type} `{!ChunkMapObj M}.
Implicit Types (chunk : ChunkDesc) (chunks : list ChunkDesc).

(** [chunk_map.check_ready_and_mark_pending] and [bitmap.wait_for_range_ready]: they wait for
    other threads. *)
Variable check_ready : ChunkDesc -> stM (CacheState M) StorageError bool.
Variable wait_for_range_ready : Z -> Z -> stM (CacheState M) errno bool.

Notation cacheM := (stM (CacheState M) errno).
Notation readM := (stM (ReadState M) errno).

Definition set_map (m : M) (s : CacheState M) : CacheState M :=
  mkCS (cs_file s) m (cs_writes s) (cs_reads s) (cs_spawned s).

Definition on_map {A} (f : stM M errno A) : cacheM A := fun s =>
  let '(r, m) := f (cs_map s) in (r, set_map m s).

Definition clear_chunk_pending chunk (s : CacheState M) : CacheState M := set_map (mo_clear_pending chunk (cs_map s)) s.

(** *** Writing to the cache *)

Definition persist_cached_data (offset : Z) (buffer : list Z) : cacheM unit := fun s =>
  let '(r, (ws, file)) := pwrite_loop (cs_writes s) offset buffer (cs_file s) in
  let s := mkCS file (cs_map s) ws (cs_reads s) (cs_spawned s) in
  (n ← r; if negb (n =? zlen buffer) then Err EIO else Ok tt, s).

(** An error of the chunk map is logged. *)
Definition update_chunk_pending_status chunk (success : bool) : cacheM unit := fun s =>
  if success then
    match on_map (mo_set_ready chunk) s with (Err _, s) => (Ok tt, s) | r => r end
  else (Ok tt, clear_chunk_pending chunk s).

Definition persist_chunk_data chunk (buf : list Z) : cacheM unit :=
  res ← st_try (persist_cached_data (chunk_u_offset chunk) buf);
  update_chunk_pending_status chunk (res_is_ok res).

Definition delay_persist_chunk_data chunk (buffer : list Z) (compressed : bool) : cacheM unit :=
  _ ← st_lift (rassert (Bool.eqb (fe_is_compressed self) compressed));
  st_modify (fun s => mkCS (cs_file s) (cs_map s) (cs_writes s) (cs_reads s) (cs_spawned s ++ [mkDelayed chunk buffer])).

(** The closure given to [spawn_blocking]. *)
Definition run_delayed (d : delayed) : cacheM unit :=
  let chunk := dl_chunk d in
  let offset := if fe_is_compressed self then chunk_c_offset chunk else chunk_u_offset chunk in
  res ← st_try (persist_cached_data offset (dl_buffer d));
  update_chunk_pending_status chunk (res_is_ok res).

(** *** Batches of chunks *)

Definition prefetch_batch_size : Z := if fe_merging_size self <? 0x20000 then 0x20000 else fe_merging_size self.
Definition ondemand_batch_size : Z := if fe_batch_size self <? 0x20000 then 0x20000 else fe_batch_size self.

(** The ZRan contexts of the chunks that are not ready. *)
Fixpoint unready_zran (m : M) (meta : BlobMetaState) chunks (acc : list Z) : io (list Z) :=
  match chunks with
  | [] => Ok acc
  | c :: chunks =>
      match mo_is_ready m c with
      | Ok true => unready_zran m meta chunks acc
      | Panic => Panic
      | _ => i ← get_zran_index_at meta (chunk_id c); unready_zran m meta chunks (i :: acc)
      end
  end.

(** [id == bound || set.contains(&meta.get_zran_index(id))]. *)
Definition zran_stop (meta : BlobMetaState) (set : list Z) (bound : Z) chunk : io bool :=
  if chunk_id chunk =? bound then Ok true
  else i ← get_zran_index_at meta (chunk_id chunk); Ok (bool_decide (i ∈ set)).

Fixpoint zran_start (meta : BlobMetaState) (set : list Z) (first : Z) chunks (start : nat) : io nat :=
  match chunks with
  | [] => Ok start
  | c :: chunks => b ← zran_stop meta set first c; if (b : bool) then Ok start else zran_start meta set first chunks (S start)
  end.

(** [while end > start]. *)
Fixpoint zran_end (meta : BlobMetaState) (set : list Z) (last : Z) chunks (start end_ : nat) : io nat :=
  match end_ with
  | O => Ok O
  | S e =>
      if (start <? end_)%nat then
        c ← vec_index chunks (Z.of_nat end_);
        b ← zran_stop meta set last c;
        if (b : bool) then Ok end_ else zran_end meta set last chunks start e
      else Ok end_
  end.

(** [while !chunks.is_empty()] from the last chunk on; [rev] is the chunks in reverse. *)
Fixpoint pop_ready (m : M) (rev : list ChunkDesc) : io (list ChunkDesc) :=
  match rev with
  | [] => Ok []
  | c :: rest =>
      match mo_is_ready m c with
      | Ok true => pop_ready m rest
      | Panic => Panic
      | _ => Ok (reverse rev)
      end
  end.

Definition strip_ready_chunks (meta : BlobMetaState) (old_chunks : option (list ChunkDesc)) (extended : list ChunkDesc)
    (m : M) : io (list ChunkDesc) :=
  if bc_is_zran (fe_cache self) then
    set ← unready_zran m meta extended [];
    first ← (if old_chunks is Some v then c ← vec_index v 0; Ok (chunk_id c) else Ok u32_MAX);
    start ← zran_start meta set first extended 0;
    last ← (if old_chunks is Some v then c ← vec_index v (zlen v - 1); Ok (chunk_id c) else Ok u32_MAX);
    _ ← rassert (negb (bool_decide (extended = [])));
    end_ ← zran_end meta set last extended start (length extended - 1);
    _ ← rassert (start <=? end_)%nat;
    Ok (take (S (end_ - start)) (drop start extended))
  else pop_ready m (reverse extended).

Definition extend_pending_chunks chunks (batch_size : Z) (m : M) : io (option (list ChunkDesc)) :=
  _ ← rassert (negb (bool_decide (chunks = [])));
  meta ← bc_blob_meta_info (fe_cache self);
  match meta with
  | None => Ok None
  | Some bm =>
      v ← add_more_chunks bm chunks batch_size;
      v ← strip_ready_chunks bm (Some chunks) v m;
      Ok (Some v)
  end.

(** The ZRan context of a chunk. *)
Definition zran_context (chunk : option ChunkDesc) : io ZranInflateContext :=
  meta ← bc_blob_meta_info (fe_cache self);
  meta ← ok_or meta EINVAL;
  match chunk with
  | None => Panic
  | Some c =>
      i ← get_zran_index_at meta (chunk_id c);
      '(ctx, _) ← ok_or (get_zran_context meta i) EINVAL;
      Ok ctx
  end.

(** [(start, end, size)]. *)
Definition get_blob_range chunks : io (Z * Z * Z) :=
  _ ← rassert (negb (bool_decide (chunks = [])));
  '(start, end_) ←
    (if bc_is_zran (fe_cache self) then
       ctx ← zran_context (head chunks);
       ctx' ← zran_context (last chunks);
       e ← uadd 64 (in_offset ctx') (in_len ctx');
       Ok (in_offset ctx, e)
     else
       match head chunks, last chunks with
       | Some c, Some d => e ← chunk_c_end d; Ok (chunk_c_offset c, e)
       | _, _ => Panic
       end);
  size ← usub 64 end_ start;
  if u32_MAX <? size then Err EINVAL else Ok (start, end_, size).

(** *** Reading from the cache *)

Definition file_read_exact (offset size len : Z) : cacheM (list Z) := fun s =>
  let '(r, rs) := read_exact_loop (cs_reads s) (cs_file s) offset size len [] in
  (r, mkCS (cs_file s) (cs_map s) (cs_writes s) rs (cs_spawned s)).

(** The data of a chunk in the file cache, in a buffer of its uncompressed size. The stream
    decoders of the libraries see the bytes of the range. *)
Definition read_file_cache chunk : cacheM (list Z) :=
  let cache := fe_cache self in
  buffer ← (if fe_is_compressed self then
              let offset := chunk_c_offset chunk in
              size ← st_lift (if bc_is_legacy_stargz cache then get_legacy_stargz_size cache offset (chunk_u_size chunk)
                              else Ok (chunk_c_size chunk));
              match bc_compressor cache with
              | CLz4Block =>
                  _ ← st_lift (alloc_buf size);
                  buf ← file_read_exact offset size size;
                  d ← st_lift (decompress cx CLz4Block buf (chunk_u_size chunk));
                  if negb (zlen d =? chunk_u_size chunk) then st_lift (Err EINVAL) else st_ret d
              | CNone => file_read_exact offset size (chunk_u_size chunk)
              | a => range ← st_get (fun s => pread (cs_file s) offset size); st_lift (cx_stream cx a range (chunk_u_size chunk))
              end
            else file_read_exact (chunk_u_offset chunk) (chunk_u_size chunk) (chunk_u_size chunk));
  _ ← st_lift (validate_chunk_data cx cache chunk buffer false);
  st_ret buffer.

(** *** The user's memory *)

(** [FileVolatileSlice::write] of the fuse-backend-rs crate, as for [copyv]. *)
Variable slice_write : list Z -> list Z -> nat -> option (nat * list Z).

Definition on_cache {A} (f : cacheM A) : readM A := fun s =>
  let '(r, c) := f (rs_cache s) in (r, mkRS c (rs_mem s) (rs_index s) (rs_offset s)).

Definition cursor_of (s : ReadState M) : MemSliceCursor := mkCursor (length <$> rs_mem s) (rs_index s) (rs_offset s).

(** [copyv] at the cursor, and the move of the cursor behind the bytes. *)
Definition copy_to_user (bufs : list (list Z)) (offset len : Z) (err : errno) : readM Z := fun s =>
  let '(r, mem) := copyv slice_write bufs (Z.to_nat offset) (Z.to_nat len) (rs_index s) (rs_offset s) (rs_mem s) in
  let s := mkRS (rs_cache s) mem (rs_index s) (rs_offset s) in
  match r with
  | Ok (n, _) =>
      match move_cursor n (cursor_of s) with
      | Ok c => (Ok (Z.of_nat n), mkRS (rs_cache s) mem (mc_index c) (mc_offset c))
      | Err e => (Err e, s)
      | Panic => (Panic, s)
      end
  | Err _ => (Err err, s)
  | Panic => (Panic, s)
  end.

Definition dispatch_cache_fast (region : Region) : readM Z := fun s =>
  match @uadd _ errno 64 (r_blob_address region) (seg_offset (r_seg region)),
        consume (Z.to_nat (seg_len (r_seg region))) (cursor_of s) with
  | Ok offset, Ok (iovec, c) =>
      let total := sum_list (ios_len <$> iovec) in
      let cs := rs_cache s in
      let '(r, rs) := preadv_loop (cs_reads cs) (cs_file cs) offset (Z.of_nat total) in
      let cs := mkCS (cs_file cs) (cs_map cs) (cs_writes cs) rs (cs_spawned cs) in
      match r with
      | Ok data => (Ok (zlen data), mkRS cs (scatter iovec data (rs_mem s)) (mc_index c) (mc_offset c))
      | Err e => (Err e, mkRS cs (rs_mem s) (mc_index c) (mc_offset c))
      | Panic => (Panic, s)
      end
  | _, _ => (Panic, s)
  end.

(** The data of a chunk, from the cache file when it is there and valid, otherwise from the
    backend; then it is written to the cache file later. *)
Definition load_chunk chunk : cacheM (list Z) :=
  _ ← st_lift (alloc_buf (chunk_u_size chunk));
  cached ← st_try (read_file_cache chunk);
  match cached with
  | inr d => _ ← on_map (mo_set_ready chunk); st_ret d
  | inl _ =>
      '(c, d) ← st_on_err (clear_chunk_pending chunk)
        (st_lift (read_chunk_from_backend cx (fe_cache self) reader chunk (chunk_u_size chunk)));
      _ ← delay_persist_chunk_data chunk
            (if fe_is_compressed self then match c with Some v => v | None => d end else d) (fe_is_compressed self);
      st_ret d
  end.

Definition read_single_chunk chunk (user_offset size : Z) : readM Z :=
  d ← on_cache (load_chunk chunk);
  copy_to_user [d] user_offset size EOTHER.

(** The loop over the chunks of the region; [first] is [i == 0]. *)
Fixpoint cache_slow_loop (seg : BlobIoSegment) chunks (first : bool) (total_read : Z) : readM Z :=
  match chunks with
  | [] => st_ret total_read
  | c :: chunks =>
      let user_offset := if first then seg_offset seg else 0 in
      a ← st_lift (usub 32 (chunk_u_size c) user_offset);
      b ← st_lift (usub 32 (seg_len seg) (wrap 32 total_read));
      n ← read_single_chunk c user_offset (Z.min a b);
      t ← st_lift (uadd 64 total_read n);
      cache_slow_loop seg chunks false t
  end.

Definition dispatch_cache_slow (region : Region) : readM Z := cache_slow_loop (r_seg region) (r_chunks region) true 0.

(** The region with the chunks [extend_pending_chunks] added; the tags of the old chunks are kept. *)
Definition extend_region (region : Region) (v : list ChunkDesc) : io Region :=
  let tagged := chunk_id <$> omap (fun ct => if (ct.2 : bool) then Some ct.1 else None) (zip (r_chunks region) (r_tags region)) in
  hold ← Region_with region v;
  Ok (mkRegion (r_type hold) (r_status hold) (r_count hold) (r_chunks hold)
        ((fun c => bool_decide (chunk_id c ∈ tagged)) <$> r_chunks hold) (r_blob_address hold) (r_blob_len hold) (r_seg hold)).

(** [for (i, v) in bufs.enumerate()]: the buffers of the chunks the user asked for. There are as
    many items as chunks. *)
Fixpoint hold_bufs (fuel : nat) (region : Region) (i : Z) (ds : ChunkDecompressState) (holder : list (list Z))
  : cacheM (list (list Z)) :=
  match fuel with
  | O => st_lift Panic
  | S fuel =>
      match cd_next cx (fe_cache self) ds with
      | (None, _) => st_ret holder
      | (Some v, ds) =>
          d ← st_lift v;
          tag ← st_lift (vec_index (r_tags region) i);
          let holder := if (tag : bool) then holder ++ [d] else holder in
          _ ← (if negb (fe_is_compressed self) then
                 c ← st_lift (vec_index (r_chunks region) i);
                 delay_persist_chunk_data c d false
               else st_ret tt);
          hold_bufs fuel region (i + 1) ds holder
      end
  end.

Definition clear_all chunks (s : CacheState M) : CacheState M := foldl (fun s c => clear_chunk_pending c s) s chunks.

(** The region that is fetched: extended by chunks that are likely wanted next, and aligned to
    the ZRan contexts of its chunks. *)
Definition fetch_region (r : Region) : cacheM Region := fun s =>
  (v ← extend_pending_chunks (r_chunks r) ondemand_batch_size (cs_map s);
   region ← (if v is Some v then
               if (length (r_chunks r) <? length v)%nat then extend_region r v else Ok r
             else Ok r);
   if bc_is_zran (fe_cache self) then
     '(blob_offset, _, blob_size) ← get_blob_range (r_chunks region);
     Ok (mkRegion (r_type region) (r_status region) (r_count region) (r_chunks region) (r_tags region)
           blob_offset (wrap 32 blob_size) (r_seg region))
   else Ok region, s).

(** The part of [dispatch_backend] after the region is fetched. *)
Definition store_region (region : Region) (bufs : ChunkDecompressState) : cacheM (list (list Z)) :=
  _ ← (if fe_is_compressed self then
         res ← st_try (persist_cached_data (r_blob_address region) (cd_c_buf bufs));
         _ ← st_for (fun c => update_chunk_pending_status c (res_is_ok res)) (r_chunks region);
         st_lift (match res with inr _ => Ok tt | inl e => Err e end)
       else st_ret tt);
  hold_bufs (S (length (r_chunks region))) region 0 bufs [].

Definition dispatch_backend (r : Region) : readM Z :=
  match r_chunks r with
  | [] => st_ret 0
  | _ =>
      if negb (has_user_io r) then _ ← on_cache (st_modify (clear_all (r_chunks r))); st_ret 0
      else
        _ ← st_lift (consecutive (r_chunks r));
        region ← on_cache (fetch_region r);
        bufs ← on_cache (st_on_err (clear_all (r_chunks region))
          (st_lift (read_chunks_from_backend reader (r_blob_address region) (r_blob_len region) (r_chunks region))));
        holder ← on_cache (store_region region bufs);
        copy_to_user holder (seg_offset (r_seg region)) (seg_len (r_seg region)) EIO
  end.

Definition dispatch_region (r : Region) : readM Z :=
  match r_type r with
  | CacheFast => dispatch_cache_fast r
  | CacheSlow => dispatch_cache_slow r
  | Backend => dispatch_backend r
  end.

Fixpoint dispatch_all (regions : list Region) (total_read : Z) : readM Z :=
  match regions with
  | [] => st_ret total_read
  | r :: regions => n ← dispatch_region r; t ← st_lift (uadd 64 total_read n); dispatch_all regions t
  end.

Definition flags_of : cache_flags :=
  mkFlags (fe_is_compressed self) (bc_need_validation (fe_cache self)) (fe_is_direct_chunkmap self).

(** The state of the merge is fresh for every range: it is new in [read] and reset by [read_iter]. *)
Definition dispatch_one_range (req : BlobIoRange) : readM Z :=
  regions ← (fun s =>
    let '(r, (c, ms)) := dispatch_regions flags_of check_ready clear_chunk_pending req (rs_cache s, FileIoMergeState_new) in
    (_ ← r; Ok (ms_regions ms), mkRS c (rs_mem s) (rs_index s) (rs_offset s)));
  dispatch_all regions 0.

(** *** Requests *)

(** [None] when there is nothing to read. *)
Definition merge_requests_for_user (bios : list BlobIoDesc) (max_comp_size : Z) : io (option (list BlobIoRange)) :=
  requests ← merge_and_issue bios max_comp_size (Z.shiftr max_comp_size RAFS_MERGING_SIZE_TO_GAP_SHIFT);
  Ok (if requests is [] then None else Some requests).

(** The loop over the requests; after an error nothing of this request and of the later ones is
    pending. *)
Fixpoint read_requests (requests : list BlobIoRange) (total_read : Z) : readM Z :=
  match requests with
  | [] => st_ret total_read
  | req :: rest =>
      n ← st_on_err (fun s => mkRS (clear_all (concat (rg_chunks <$> requests)) (rs_cache s)) (rs_mem s) (rs_index s) (rs_offset s))
            (dispatch_one_range req);
      t ← st_lift (uadd 64 total_read n);
      read_requests rest t
  end.

Definition read_iter (bios : list BlobIoDesc) : readM Z :=
  requests ← st_lift (merge_requests_for_user bios ondemand_batch_size);
  match requests with
  | None => _ ← on_cache (st_modify (clear_all (io_chunk <$> bios))); st_lift (Err EINVAL)
  | Some requests => read_requests requests 0
  end.

Definition FileCacheEntry_read (iovec : BlobIoVec) (mem : list (list Z)) (s : CacheState M)
  : io Z * (CacheState M * list (list Z)) :=
  let run : readM Z :=
    match iov_vec iovec with
    | [] => st_ret 0
    | [bio] => req ← st_lift (BlobIoRange_new bio); dispatch_one_range req
    | bios => read_iter bios
    end in
  let '(r, s) := run (mkRS s mem 0 0) in (r, (rs_cache s, rs_mem s)).
(** *** Prefetching *)

(** [Ok(true)] of the chunk map; an error is taken for a chunk that is not ready. *)
Definition already_ready chunk : cacheM bool := fun s =>
  match check_ready chunk s with
  | (Ok b, s) => (Ok b, s)
  | (Err _, s) => (Ok false, s)
  | (Panic, s) => (Panic, s)
  end.

(** The chunks to fetch. A map that does not persist the states may have lost the state of a
    chunk that is in the file: its data is checked first. *)
Fixpoint collect_pending chunks : cacheM (list ChunkDesc) :=
  match chunks with
  | [] => st_ret []
  | c :: chunks =>
      ready ← already_ready c;
      fetch ← (if (ready : bool) then st_ret false
               else if mo_is_persist then st_ret true
               else
                 cached ← st_try (read_file_cache c);
                 if res_is_ok cached then _ ← update_chunk_pending_status c true; st_ret false
                 else st_ret true);
      rest ← collect_pending chunks;
      st_ret (if (fetch : bool) then c :: rest else rest)
  end.

(** The number of chunks at the front whose ids are consecutive. *)
Fixpoint run_length chunks : io nat :=
  match chunks with
  | c :: ((d :: _) as rest) =>
      i ← uadd 32 (chunk_id c) 1;
      if chunk_id d =? i then n ← run_length rest; Ok (S n) else Ok 1%nat
  | _ => Ok (length chunks)
  end.

(** [for idx in start..=end] over the decompressed chunks. *)
Fixpoint persist_bufs chunks (bufs : ChunkDecompressState) : cacheM unit :=
  match chunks with
  | [] => st_ret tt
  | c :: rest =>
      match cd_next cx (fe_cache self) bufs with
      | (None, _) => st_lift (Err EINVAL)
      | (Some (Ok buf), bufs) => _ ← persist_chunk_data c buf; persist_bufs rest bufs
      | (Some (Err e), _) => _ ← st_modify (clear_all chunks); st_lift (Err e)
      | (Some Panic, _) => st_lift Panic
      end
  end.

(** One range of consecutive chunks: the bytes fetched. *)
Definition prefetch_run chunks : cacheM Z :=
  '(blob_offset, _, blob_size) ← st_lift (get_blob_range chunks);
  bufs ← st_try (st_lift (read_chunks_from_backend reader blob_offset blob_size chunks));
  match bufs with
  | inl _ => _ ← st_modify (clear_all chunks); st_ret 0
  | inr bufs =>
      _ ← (if fe_is_compressed self then
             res ← st_try (persist_cached_data blob_offset (cd_c_buf bufs));
             st_for (fun c => update_chunk_pending_status c (res_is_ok res)) chunks
           else persist_bufs chunks bufs);
      st_ret blob_size
  end.

(** [while start < pending.len()]: every range has a chunk. *)
Fixpoint prefetch_runs (fuel : nat) (pending : list ChunkDesc) (total_size : Z) : cacheM Z :=
  match fuel, pending with
  | _, [] => st_ret total_size
  | O, _ => st_lift Panic
  | S fuel, _ =>
      n ← st_lift (run_length pending);
      size ← prefetch_run (take n pending);
      total_size ← st_lift (uadd 64 total_size size);
      prefetch_runs fuel (drop n pending) total_size
  end.

Definition prefetch_range (range : BlobIoRange) : cacheM Z :=
  let chunks := rg_chunks range in
  _ ← st_lift (if mo_is_persist then Ok tt else alloc_buf (foldr Z.max 0 (chunk_u_size <$> chunks)));
  pending ← collect_pending chunks;
  prefetch_runs (length pending) pending 0.

(** *** The blob object *)

Definition is_all_data_ready (s : CacheState M) : bool :=
  match mo_range with Some b => ro_all_ready b (cs_map s) | None => false end.

(** The capacity of the buffer of a chunk: [alloc_buf] rounds it up to pages, [to_vec] does not. *)
Definition buf_capacity (zran : bool) (len : Z) : Z := if zran then len else (len + 0xfff) / 0x1000 * 0x1000.

Definition adjust_buffer_for_dio (zran : bool) (buf : list Z) : io (list Z) :=
  let capacity := buf_capacity zran (zlen buf) in
  _ ← rassert (capacity mod 0x1000 =? 0);
  Ok (buf ++ replicate (Z.to_nat (capacity - zlen buf)) 0).

Definition persist_buf chunk (zran : bool) (buf : list Z) : cacheM unit :=
  buf ← st_lift (if fe_dio_enabled self then adjust_buffer_for_dio zran buf else Ok buf);
  persist_chunk_data chunk buf.

(** The [status] entry of every pending chunk is set. *)
Fixpoint mark_status (chunk_index : Z) (pending : list Z) (status : list bool) : io (list bool) :=
  match pending with
  | [] => Ok status
  | id :: pending =>
      i ← usub 32 id chunk_index;
      _ ← rassert (i <? zlen status);
      mark_status chunk_index pending (<[Z.to_nat i := true]> status)
  end.

(** The first and the last chunk to fetch; [None] when there is none. *)
Definition fetch_bounds (chunk_index : Z) (pending : list Z) : option (nat * nat) :=
  if bc_is_zran (fe_cache self) then Some (0%nat, length pending)
  else
    let start := foldr Z.min u32_MAX ((fun id => id - chunk_index) <$> pending) in
    let end_ := foldr Z.max 0 ((fun id => id - chunk_index) <$> pending) in
    if end_ <? start then None else Some (Z.to_nat start, Z.to_nat end_).

(** [if status[idx] { bitmap.clear_range_pending(chunks[idx].id(), 1) }]. *)
Definition clear_status (bitmap : RangeMapObj M) (l : list (ChunkDesc * bool)) : cacheM unit :=
  st_for (fun cs => if (cs.2 : bool) then on_map (ro_clear_pending bitmap (chunk_id cs.1) 1) else st_ret tt) l.

Fixpoint persist_fetched (bitmap : RangeMapObj M) (l : list (ChunkDesc * bool)) (bufs : ChunkDecompressState) : cacheM unit :=
  match l with
  | [] => st_ret tt
  | (c, pending) :: rest =>
      match cd_next cx (fe_cache self) bufs with
      | (None, _) => st_lift (Err EINVAL)
      | (Some (Err e), _) => _ ← clear_status bitmap l; st_lift (Err e)
      | (Some Panic, _) => st_lift Panic
      | (Some (Ok buf), bufs) =>
          _ ← (if (pending : bool) then persist_buf c (bc_is_zran (fe_cache self)) buf else st_ret tt);
          persist_fetched bitmap rest bufs
      end
  end.

(** The chunks that timed out, one by one. *)
Fixpoint retry_chunks chunks : cacheM unit :=
  match chunks with
  | [] => st_ret tt
  | c :: chunks =>
      _ ← (fun s => match check_ready c s with
                    | (Err _, s) => (Err EIO, s)
                    | (Panic, s) => (Panic, s)
                    | (Ok true, s) => (Ok tt, s)
                    | (Ok false, s) =>
                        (_ ← st_lift (alloc_buf (chunk_u_size c));
                         r ← st_try (st_lift (read_chunk_from_backend cx (fe_cache self) reader c (chunk_u_size c)));
                         match r with
                         | inl _ => _ ← st_modify (clear_chunk_pending c); st_lift (Err EIO)
                         | inr (_, buf) => persist_buf c false buf
                         end) s
                    end);
      retry_chunks chunks
  end.

(** The range [start..=end] of the chunks, with the states of the pending ones. *)
Definition fetch_chunks (bitmap : RangeMapObj M) chunks (status : list bool) (start end_ : nat) : cacheM unit :=
  _ ← st_lift (rassert (end_ <? length chunks)%nat);
  let part := take (S (end_ - start)) (drop start chunks) in
  '(blob_offset, _, blob_size) ← st_lift (get_blob_range part);
  bufs ← st_try (st_lift (read_chunks_from_backend reader blob_offset blob_size part));
  match bufs with
  | inl e => _ ← clear_status bitmap (zip chunks status); st_lift (Err e)
  | inr bufs =>
      let l := zip part (drop start status) in
      if fe_is_compressed self then
        res ← st_try (persist_cached_data blob_offset (cd_c_buf bufs));
        st_for (fun cs => if (cs.2 : bool) then update_chunk_pending_status cs.1 (res_is_ok res) else st_ret tt) l
      else persist_fetched bitmap l bufs
  end.

Definition do_fetch_chunks chunks (prefetch : bool) : cacheM unit :=
  match chunks with
  | [] => st_lift Panic
  | first :: _ =>
      _ ← st_lift (consecutive chunks);
      bitmap ← st_lift (ok_or mo_range EINVAL);
      let chunk_index := chunk_id first in
      let count := wrap 32 (zlen chunks) in
      pending ← on_map (ro_check bitmap chunk_index count);
      match pending with
      | None => st_ret tt
      | Some pending =>
          status ← st_lift (mark_status chunk_index pending (replicate (Z.to_nat count) false));
          match fetch_bounds chunk_index pending with
          | None => st_ret tt
          | Some (start, end_) =>
              _ ← fetch_chunks bitmap chunks status start end_;
              ready ← wait_for_range_ready chunk_index count;
              if (ready : bool) then st_ret tt
              else if prefetch then st_lift (Err EIO)
              else retry_chunks chunks
          end
      end
  end.

(** The chunks of a range, without the ready ones at its end. *)
Definition fetch_range (get_chunks : BlobMetaState -> io (list Z)) (prefetch : bool) : cacheM unit :=
  meta ← st_lift (bc_blob_meta_info (fe_cache self));
  meta ← st_lift (ok_or meta EINVAL);
  ids ← st_lift (get_chunks meta);
  chunks ← st_lift (mapM (BlobMetaChunk_desc meta) ids);
  m ← st_get cs_map;
  chunks ← st_lift (strip_ready_chunks meta None chunks m);
  if chunks is [] then st_ret tt else do_fetch_chunks chunks prefetch.

Definition fetch_range_compressed (offset size : Z) : cacheM unit :=
  fetch_range (fun meta => get_chunks_compressed meta offset size prefetch_batch_size) true.

Definition fetch_range_uncompressed (offset size : Z) : cacheM unit :=
  fetch_range (fun meta => get_chunks_uncompressed meta offset size ondemand_batch_size) false.

Fixpoint fetch_runs (fuel : nat) chunks : cacheM unit :=
  match fuel, chunks with
  | _, [] => st_ret tt
  | O, _ => st_lift Panic
  | S fuel, _ =>
      n ← st_lift (run_length chunks);
      _ ← do_fetch_chunks (take n chunks) true;
      fetch_runs fuel (drop n chunks)
  end.

Definition prefetch_chunks (range : BlobIoRange) : cacheM unit :=
  m ← st_get cs_map;
  v ← st_lift (extend_pending_chunks (rg_chunks range) prefetch_batch_size m);
  let chunks := default (rg_chunks range) v in
  fetch_runs (length chunks) chunks.

End entry.
