(* ===== verification/CachedRead.v ===== *)
(** Reads through the file cache are exact ([storage/src/cache/cachedfile.rs]).

    For a cache file of uncompressed data: the bytes of every chunk that is marked ready are in
    the file, whatever the writes to it do, and a read puts exactly the bytes the user asked for
    into the user's memory, wherever they come from, or fails because the backend failed. The
    theorems are against what the chunk map promises ([ChunkMapObjLaws]); other threads may run
    while it waits, as long as they keep the invariant. *)
From S2P Require Import Prelude Utils LittleEndian ChunkInfo Device BlobMeta AddMore MetaFile BlobCache IoMerge MemCursor CacheRegion CachedFile.

(** ** What the chunk map promises *)

(** [ml_same c d]: the two chunks share one state, as chunks with the same index do. *)
Class ChunkMapObjLaws (M : Type) `{!ChunkMapObj M} := {
  ml_wf : M -> Prop;
  ml_knows : M -> ChunkDesc -> Prop;
  ml_ready : M -> ChunkDesc -> bool;
  ml_same : ChunkDesc -> ChunkDesc -> Prop;
  ml_same_refl c : ml_same c c;
  ml_is_ready m c : ml_wf m -> ml_knows m c -> mo_is_ready m c = Ok (ml_ready m c);
  ml_set_ready m c : ml_wf m -> ml_knows m c -> exists m', mo_set_ready c m = (Ok tt, m') /\ ml_wf m' /\
    forall d, ml_knows m d -> ml_knows m' d /\ (ml_ready m' d = true <-> ml_ready m d = true \/ ml_same c d);
  ml_clear m c : ml_wf m -> ml_wf (mo_clear_pending c m) /\
    forall d, ml_knows m d -> ml_knows (mo_clear_pending c m) d /\ ml_ready (mo_clear_pending c m) d = ml_ready m d
}.

(** ** Bytes of a file that are those of an image *)

Section agrees.
Implicit Types (f img : list Z).

Definition agrees img f (lo hi : Z) : Prop := forall i : nat, lo <= Z.of_nat i < hi -> f !! i = img !! i.

Lemma agrees_slice img f off len : 0 <= off -> 0 <= len -> agrees img f off (off + len) ->
  slice (Z.to_nat off) (Z.to_nat len) f = slice (Z.to_nat off) (Z.to_nat len) img.
Proof.
  intros Ho Hl Ha. apply list_eq. intros i. unfold slice. destruct (decide (i < Z.to_nat len)%nat).
  - rewrite !lookup_take_lt, !lookup_drop by done. apply Ha. lia.
  - by rewrite !lookup_take_ge by lia.
Qed.

Lemma lookup_pwrite f off data i : 0 <= off -> (i < length f)%nat \/ off <= Z.of_nat i < off + zlen data ->
  pwrite f off data !! i = if (off <=? Z.of_nat i) && (Z.of_nat i <? off + zlen data) then data !! (i - Z.to_nat off)%nat else f !! i.
Proof.
  intros Ho Hi. unfold zlen in *. destruct (decide (data = [])) as [->|Hne].
  { change (Z.of_nat (length (@nil Z))) with 0. by replace ((off <=? Z.of_nat i) && (Z.of_nat i <? off + 0)) with false by lia. }
  assert (pwrite f off data = splice (Z.to_nat off) data (f ++ replicate (Z.to_nat off + length data - length f) 0)) as -> by (by destruct data).
  set (z := replicate _ 0). assert (length (f ++ z) = Nat.max (length f) (Z.to_nat off + length data)) as Hlen.
  { unfold z. rewrite length_app, length_replicate. lia. }
  unfold splice. destruct (Z.leb_spec off (Z.of_nat i)); [destruct (Z.ltb_spec (Z.of_nat i) (off + Z.of_nat (length data)))|]; cbn [andb].
  - rewrite lookup_app_r by (rewrite length_take; lia). rewrite length_take, Nat.min_l by lia. by rewrite lookup_app_l by lia.
  - rewrite lookup_app_r by (rewrite length_take; lia). rewrite length_take, Nat.min_l by lia. rewrite lookup_app_r by lia.
    rewrite lookup_drop, lookup_app_l by lia. f_equal. lia.
  - rewrite lookup_app_l by (rewrite length_take; lia). rewrite lookup_take_lt by lia. apply lookup_app_l. lia.
Qed.

(** Writing bytes of the image. *)
Lemma agrees_pwrite img f off data lo hi : 0 <= off -> (forall j, (j < length data)%nat -> data !! j = img !! (Z.to_nat off + j)%nat) ->
  0 <= lo -> hi <= zlen img -> agrees img f lo hi \/ off <= lo /\ hi <= off + zlen data -> agrees img (pwrite f off data) lo hi.
Proof.
  intros Ho Hd Hlo Hhi Ha i Hi. unfold zlen in *. destruct (lookup_lt_is_Some_2 img i) as [x Hx]; [lia|].
  assert ((i < length f)%nat \/ off <= Z.of_nat i < off + Z.of_nat (length data)) as Hin.
  { destruct Ha as [Ha|[H1 H2]]; [|right; lia]. left. apply lookup_lt_is_Some_1. rewrite (Ha i Hi), Hx. by eexists. }
  rewrite lookup_pwrite by done. unfold zlen.
  destruct ((off <=? Z.of_nat i) && (Z.of_nat i <? off + Z.of_nat (length data))) eqn:E.
  - rewrite Hd by lia. f_equal. lia.
  - destruct Ha as [Ha|[H1 H2]]; [by apply Ha|lia].
Qed.
End agrees.

(** ** Scattered reads *)

Lemma splice_nil pos (buf : list Z) : splice pos [] buf = buf.
Proof. unfold splice. cbn [app length]. rewrite Nat.add_0_r. apply take_drop. Qed.

(** Vectors that cover a range of the memory in order receive the bytes of the range. *)
Lemma scatter_flat vs data mem pos : Forall (in_slice (lens mem)) vs -> flat_bytes (lens mem) vs = seq pos (length data) ->
  (pos + length data <= length (concat mem))%nat ->
  lens (scatter vs data mem) = lens mem /\ concat (scatter vs data mem) = splice pos data (concat mem).
Proof.
  revert data mem pos. induction vs as [|v vs IH]; intros data mem pos Hin Hb Hle; cbn [scatter].
  { apply (f_equal length) in Hb. rewrite length_seq in Hb. destruct data; [|done]. by rewrite splice_nil. }
  apply Forall_cons in Hin as [(len & Hl & Hn) Hin]. unfold flat_bytes in Hb. cbn [fmap list_fmap concat] in Hb. fold (flat_bytes (lens mem) vs) in Hb.
  pose proof (f_equal length Hb) as Hlen. rewrite length_app, !length_seq in Hlen.
  set (n := ios_len v) in *. set (d := take n data). assert (length d = n) as Hd by (unfold d; rewrite length_take; lia).
  rewrite (seq_app n (length data - n) pos : seq pos (n + (length data - n)) = _) in Hb || rewrite <- (Nat.sub_add n (length data)), Nat.add_comm, seq_app in Hb by lia.
  apply app_inj_1 in Hb as [Hb1 Hb2]; [|by rewrite !length_seq].
  unfold lens in Hl. rewrite list_lookup_fmap in Hl. destruct (mem !! ios_slice v) as [sl|] eqn:Esl; [|done]. injection Hl as <-.
  assert (alter (splice (ios_offset v) d) (ios_slice v) mem = <[ios_slice v := splice (ios_offset v) d sl]> mem) as ->.
  { apply list_eq. intros i. destruct (decide (i = ios_slice v)) as [->|Hne].
    - rewrite list_lookup_alter_eq, Esl, list_lookup_insert_eq by (by eapply lookup_lt_Some). done.
    - by rewrite list_lookup_alter_ne, list_lookup_insert_ne by done. }
  set (mem1 := <[_ := _]> mem). assert (lens mem1 = lens mem) as L1.
  { unfold mem1, lens. rewrite list_fmap_insert, length_splice by lia. apply list_insert_id. by rewrite list_lookup_fmap, Esl. }
  assert (concat mem1 = splice pos d (concat mem)) as C1.
  { unfold mem1. rewrite write_flat by (done || lia). destruct (decide (n = 0%nat)) as [E0|E0].
    - destruct d; [by rewrite !splice_nil|cbn in Hd; lia].
    - f_equal. destruct n as [|n']; [lia|]. by injection Hb1. }
  destruct (IH (drop n data) mem1 (pos + n)%nat) as [L2 C2].
  - by rewrite L1.
  - rewrite L1, length_drop. exact Hb2.
  - rewrite C1, length_splice, length_drop by lia. lia.
  - split; [congruence|]. rewrite C2, C1. rewrite <- Hd at 1. rewrite splice_splice by lia. by unfold d; rewrite take_drop.
Qed.

(** ** The blob and its cache *)

Section cached_read.
Context `{Profile} (cx : codecs) (self : FileCacheEntry) (reader : BlobReader).
Context {M : Type} `{!ChunkMapObj M, !ChunkMapObjLaws M}.
Variable check_ready : ChunkDesc -> stM (CacheState M) StorageError bool.
Variable slice_write : list Z -> list Z -> nat -> option (nat * list Z).

(** The blob in the backend, the plain data that the cache file gets, and the chunks of the blob. *)
Variables (blob img : list Z) (K : ChunkDesc -> Prop).

Notation cache := (fe_cache self).
Definition u_end (c : ChunkDesc) : Z := chunk_u_offset c + chunk_u_size c.
Definition plain (c : ChunkDesc) : list Z := slice (Z.to_nat (chunk_u_offset c)) (Z.to_nat (chunk_u_size c)) img.

(** The chunk table of the blob, when the cache uses it to fetch more than it is asked for: its
    entries are valid and not ZRan ones, describe chunks of the blob, and are in the order of
    their addresses. *)
Record table_ok (st : BlobMetaState) : Prop := {
  tb_array : on_chunk_array (fun _ _ _ arr => zlen arr <= RAFS_MAX_CHUNKS_PER_BLOB /\
    Forall (fun c => validate c st = Ok tt /\ is_zran c = false) arr) st;
  tb_chunks : forall d, in_table st d -> K d;
  tb_order : forall c d, in_table st c -> in_table st d -> chunk_id c < chunk_id d -> c_limit c <= chunk_c_offset d
}.

Record cache_setup : Prop := {
  su_write : forall sl buf o, (o < length sl)%nat ->
    slice_write sl buf o = Some (Nat.min (length buf) (length sl - o), splice o (take (length sl - o) buf) sl);
  su_reader : reads_blob reader blob;
  su_sizes : zlen blob < 2 ^ 62 /\ zlen img < 2 ^ 62;
  su_chunk c : K c -> chunk_of_blob cx cache blob plain c;
  su_place c : K c -> 0 <= chunk_u_offset c /\ 0 < chunk_u_size c /\ u_end c <= zlen img;
  su_mode : fe_is_compressed self = false /\ bc_is_zran cache = false /\ bc_is_legacy_stargz cache = false;
  su_validate : fe_is_direct_chunkmap self = false -> bc_need_validation cache = true;
  su_digest c buf : bc_need_validation cache = true -> K c -> zlen buf = chunk_u_size c ->
    cx_hash cx buf (bc_digester cache) = cx_hash cx (plain c) (bc_digester cache) -> buf = plain c;
  su_same c d : bc_need_validation cache = false -> K c -> K d -> ml_same c d ->
    chunk_u_offset c = chunk_u_offset d /\ chunk_u_size c = chunk_u_size d;
  su_batch : fe_batch_size self <= 2 ^ 27;
  su_meta : bc_blob_meta_info cache = Ok None \/
    exists st, bc_blob_meta_info cache = Ok (Some st) /\ bc_need_validation cache = false /\ table_ok st
}.

(** The invariant: a chunk that is ready and that nobody validates again is in the file, and the
    tasks that wait to be run have the data of their chunks. *)
Record cache_inv (s : CacheState M) : Prop := {
  ci_wf : ml_wf (cs_map s);
  ci_knows c : K c -> ml_knows (cs_map s) c;
  ci_data c : bc_need_validation cache = false -> K c -> ml_ready (cs_map s) c = true ->
    agrees img (cs_file s) (chunk_u_offset c) (u_end c);
  ci_reads : cs_reads s = [];
  ci_spawned : Forall (fun d => K (dl_chunk d) /\ dl_buffer d = plain (dl_chunk d)) (cs_spawned s);
  ci_size : zlen (cs_file s) = zlen img
}.

(** What the other threads and the operations may do to the cache. *)
Definition keeps (s s' : CacheState M) : Prop :=
  cache_inv s' /\ forall c, K c -> ml_ready (cs_map s) c = true -> ml_ready (cs_map s') c = true.

(** [check_ready_and_mark_pending]: while it waits, the other threads keep the invariant. *)
Definition check_keeps : Prop := forall c s, cache_inv s -> K c ->
  match check_ready c s with
  | (Ok b, s') => keeps s s' /\ (b = true -> ml_ready (cs_map s') c = true)
  | (Err Timeout, s') => keeps s s'
  | _ => False
  end.

Lemma keeps_trans s1 s2 s3 : keeps s1 s2 -> keeps s2 s3 -> keeps s1 s3.
Proof. intros [_ H1] [H2 H3]. split; [done|]. intros c Hc Hr. apply H3, H1; done. Qed.

Lemma keeps_refl s : cache_inv s -> keeps s s.
Proof. by split. Qed.

Section with_setup.
Hypothesis setup : cache_setup.

Lemma length_plain c : K c -> zlen (plain c) = chunk_u_size c.
Proof. intros Hc. apply (cb_size _ _ _ _ _ (su_chunk setup c Hc)). Qed.

Lemma plain_lookup c j : K c -> (j < length (plain c))%nat -> plain c !! j = img !! (Z.to_nat (chunk_u_offset c) + j)%nat.
Proof.
  intros Hc Hj. pose proof (length_plain c Hc) as Hl. unfold zlen in Hl. unfold plain, slice. destruct (su_place setup c Hc) as (_ & Hs & _).
  by rewrite lookup_take_lt, lookup_drop by lia.
Qed.

Lemma clear_keeps c s : cache_inv s -> keeps s (clear_chunk_pending c s).
Proof.
  intros Hi. destruct (ml_clear (cs_map s) c (ci_wf _ Hi)) as [Hw Hd]. split.
  - split; [done| | |apply (ci_reads _ Hi)|apply (ci_spawned _ Hi)|apply (ci_size _ Hi)]; cbn [cs_map cs_file clear_chunk_pending set_map].
    + intros d Hk. by apply Hd, (ci_knows _ Hi).
    + intros d Hn Hk Hr. rewrite (proj2 (Hd d (ci_knows _ Hi d Hk))) in Hr. by apply (ci_data _ Hi).
  - intros d Hk Hr. cbn. by rewrite (proj2 (Hd d (ci_knows _ Hi d Hk))).
Qed.

Lemma clear_all_keeps cs s : cache_inv s -> keeps s (clear_all cs s).
Proof.
  revert s. induction cs as [|c cs IH]; intros s Hi; [by apply keeps_refl|]. cbn [clear_all foldl]. fold (clear_all cs (clear_chunk_pending c s)).
  pose proof (clear_keeps c s Hi) as Hc. eapply keeps_trans; [exact Hc|]. apply IH, Hc.
Qed.

(** *** Writes *)

(** Whatever [pwrite] does, the file keeps the bytes of the image it has; a write that is complete
    adds the bytes of the chunk. *)
Lemma pwrite_loop_agrees ws c file : K c ->
  match pwrite_loop ws (chunk_u_offset c) (plain c) file with
  | (r, (_, file')) => r <> Panic /\ (zlen file = zlen img -> zlen file' = zlen img) /\
      forall lo hi, 0 <= lo -> hi <= zlen img ->
        agrees img file lo hi \/ (r = Ok (zlen (plain c)) /\ chunk_u_offset c <= lo /\ hi <= u_end c) -> agrees img file' lo hi
  end.
Proof.
  intros Hc. pose proof (length_plain c Hc) as Hl. destruct (su_place setup c Hc) as (Ho & Hs & He). unfold u_end in *.
  assert (forall d, zlen d <= zlen (plain c) -> zlen file = zlen img -> zlen (pwrite file (chunk_u_offset c) d) = zlen img) as Hsize.
  { intros d Hd Hf. destruct (decide (d = [])) as [->|Hne]; [done|]. rewrite zlen_pwrite by done. lia. }
  induction ws as [|[e|n] ws IH]; cbn [pwrite_loop].
  - split; [done|]. split; [by apply Hsize|]. intros lo hi Hlo Hhi Ha. apply agrees_pwrite; [done|intros j; by apply plain_lookup|done|done|].
    destruct Ha as [Ha|(_ & ? & ?)]; [by left|right; lia].
  - destruct e; try exact IH; (split; [done|]; split; [done|]; intros lo hi Hlo Hhi [Ha|(? & _)]; done).
  - split; [done|]. split; [apply Hsize; unfold zlen; rewrite length_take; lia|]. intros lo hi Hlo Hhi Ha. apply agrees_pwrite; [done| |done|done|].
    + intros j Hj. rewrite length_take in Hj. rewrite lookup_take_lt by lia. apply plain_lookup; [done|lia].
    + destruct Ha as [Ha|(Hn & ? & ?)]; [by left|]. injection Hn as Hn. right. lia.
Qed.

Lemma set_ready_keeps c s : cache_inv s -> K c -> agrees img (cs_file s) (chunk_u_offset c) (u_end c) \/ bc_need_validation cache = true ->
  exists s', on_map (mo_set_ready c) s = (Ok tt, s') /\ keeps s s' /\ ml_ready (cs_map s') c = true /\ cs_writes s' = cs_writes s.
Proof.
  intros Hi Hc Ha. destruct (ml_set_ready (cs_map s) c (ci_wf _ Hi) (ci_knows _ Hi c Hc)) as (m' & E & Hw & Hd).
  unfold on_map. rewrite E. eexists. split; [done|]. split; [split; [split|]|].
  - done.
  - intros d Hk. by apply Hd, (ci_knows _ Hi).
  - cbn [cs_map cs_file set_map]. intros d Hn Hk Hr. apply (proj2 (Hd d (ci_knows _ Hi d Hk))) in Hr as [Hr|Hr]; [by apply (ci_data _ Hi)|].
    destruct (su_same setup c d Hn Hc Hk Hr) as [E1 E2]. unfold u_end. rewrite <- E1, <- E2. destruct Ha as [Ha|]; [exact Ha|congruence].
  - apply (ci_reads _ Hi).
  - apply (ci_spawned _ Hi).
  - apply (ci_size _ Hi).
  - cbn [cs_map set_map]. intros d Hk Hr. apply (proj2 (Hd d (ci_knows _ Hi d Hk))). by left.
  - split; [|done]. apply (proj2 (Hd c (ci_knows _ Hi c Hc))). right. apply ml_same_refl.
Qed.

(** The data of a chunk is written and its state is set, whatever the write does. *)
Lemma persist_chunk_plain c s : cache_inv s -> K c ->
  exists s', persist_chunk_data c (plain c) s = (Ok tt, s') /\ keeps s s' /\
    (cs_writes s = [] -> cs_writes s' = [] /\ ml_ready (cs_map s') c = true).
Proof.
  intros Hi Hc. unfold persist_chunk_data, mbind, stM_bind, st_bind, st_try, persist_cached_data.
  pose proof (pwrite_loop_agrees (cs_writes s) c (cs_file s) Hc) as Hw.
  assert (cs_writes s = [] -> pwrite_loop (cs_writes s) (chunk_u_offset c) (plain c) (cs_file s) =
    (Ok (zlen (plain c)), ([], pwrite (cs_file s) (chunk_u_offset c) (plain c)))) as Hno by (by intros ->).
  destruct (pwrite_loop (cs_writes s) (chunk_u_offset c) (plain c) (cs_file s)) as [r [ws file']]. destruct Hw as (Hp & Hsz & Hw).
  set (s1 := mkCS file' (cs_map s) ws (cs_reads s) (cs_spawned s)).
  assert (keeps s s1) as Hk1.
  { split; [|done]. destruct Hi as [I1 I2 I3 I4 I5 I6]. split; try done; [|by apply Hsz]. intros e Hn He Hr. destruct (su_place setup e He) as (P1 & _ & P2).
    apply Hw; [done|done|]. left. by apply I3. }
  assert (r <> Ok (zlen (plain c)) -> exists s', update_chunk_pending_status c false s1 = (Ok tt, s') /\ keeps s s' /\
    (cs_writes s = [] -> cs_writes s' = [] /\ ml_ready (cs_map s') c = true)) as Hfail.
  { intros Hne. eexists. split; [done|]. split; [eapply keeps_trans; [exact Hk1|]; apply clear_keeps, Hk1|]. intros E. destruct Hne. by injection (Hno E). }
  destruct r as [n|e|]; [|by apply Hfail|done]. cbn [mbind outcome_bind] in *.
  destruct (Z.eqb_spec n (zlen (plain c))) as [->|Hne]; cbn [negb] in *; [|by apply Hfail; congruence].
  cbn [res_is_ok]. unfold update_chunk_pending_status. destruct (set_ready_keeps c s1 (proj1 Hk1) Hc) as (s2 & E & Hk2 & Hready & Hws).
  - left. destruct (su_place setup c Hc) as (P1 & _ & P2). apply Hw; [done|done|]. right. by split.
  - rewrite E. eexists. split; [done|]. split; [exact (keeps_trans _ _ _ Hk1 Hk2)|]. intros Hn. rewrite Hws. cbn. split; [|done]. by injection (Hno Hn).
Qed.

(** A task of the runtime. *)
Lemma run_delayed_keeps d s : cache_inv s -> K (dl_chunk d) -> dl_buffer d = plain (dl_chunk d) ->
  exists s', run_delayed self d s = (Ok tt, s') /\ keeps s s'.
Proof.
  intros Hi Hc Hb. unfold run_delayed. rewrite (proj1 (su_mode setup)), Hb. destruct (persist_chunk_plain (dl_chunk d) s Hi Hc) as (s' & E & Hk & _).
  by exists s'.
Qed.

(** *** Single chunks *)

(** The backend has failed to read a range of the blob. *)
Definition backend_failed : Prop := exists offset len e,
  0 <= offset /\ 0 <= len /\ offset + len <= zlen blob /\ read_backend reader offset len = Err e.

Lemma delay_keeps c s : cache_inv s -> K c ->
  exists s', delay_persist_chunk_data self c (plain c) false s = (Ok tt, s') /\ keeps s s'.
Proof.
  intros Hi Hc. unfold delay_persist_chunk_data. rewrite (proj1 (su_mode setup)). eexists. split; [done|].
  split; [|done]. destruct Hi as [I1 I2 I3 I4 I5 I6]. split; try done. cbn [cs_spawned]. apply Forall_app. split; [done|]. by repeat constructor.
Qed.

Lemma same_state s : cache_inv s -> mkCS (cs_file s) (cs_map s) (cs_writes s) [] (cs_spawned s) = s.
Proof. intros Hi. pose proof (ci_reads _ Hi) as Hr. destruct s. cbn in *. by subst. Qed.

Lemma read_file_cache_plain c s : cache_inv s -> K c -> bc_need_validation cache = true \/ ml_ready (cs_map s) c = true ->
  match read_file_cache cx self c s with
  | (Ok d, s') => s' = s /\ d = plain c
  | (Err _, s') => s' = s
  | (Panic, _) => False
  end.
Proof.
  intros Hi Hc Hv. destruct (su_mode setup) as (Hm & _ & Hst). destruct (su_place setup c Hc) as (P0 & P1 & P2). unfold u_end in P2.
  unfold read_file_cache. rewrite Hm. unfold mbind, stM_bind, st_bind, file_read_exact. rewrite (ci_reads _ Hi). cbn [read_exact_loop].
  rewrite (proj2 (Z.eqb_neq _ _)), Z.min_id by lia. rewrite same_state by done. cbn [app].
  destruct (Z.eqb_spec (zlen (pread (cs_file s) (chunk_u_offset c) (chunk_u_size c))) (chunk_u_size c)) as [El|El]; [|done].
  unfold st_lift, validate_chunk_data. rewrite (proj2 (Z.eqb_eq _ _) El), orb_false_r, Hst. cbn [negb]. rewrite andb_true_r.
  destruct (bc_need_validation cache) eqn:En.
  - rewrite (cb_digest _ _ _ _ _ (su_chunk setup c Hc) En Hst). unfold check_digest.
    destruct (Z.eqb_spec (cx_hash cx (plain c) (bc_digester cache)) (cx_hash cx (pread (cs_file s) (chunk_u_offset c) (chunk_u_size c)) (bc_digester cache))) as [Eh|]; [|done].
    cbn. split; [done|]. apply (su_digest setup c); [done|done|done|by rewrite Eh].
  - destruct Hv as [|Hr]; [done|]. cbn. split; [done|]. apply agrees_slice; [lia|lia|]. by apply (ci_data _ Hi).
Qed.

Lemma read_chunk_plain c : K c ->
  (exists raw, read_chunk_from_backend cx cache reader c (chunk_u_size c) = Ok (raw, plain c)) \/
  (exists e, read_chunk_from_backend cx cache reader c (chunk_u_size c) = Err e) /\ backend_failed.
Proof.
  intros Hc. pose proof (su_chunk setup c Hc) as Hb. destruct (su_mode setup) as (_ & Hz & Hst). destruct (cb_range _ _ _ _ _ Hb) as (R0 & R1 & R2).
  destruct (su_sizes setup) as [S1 _]. pose proof (cb_size _ _ _ _ _ Hb) as [_ S2]. destruct (su_place setup c Hc) as (_ & P1 & _).
  pose proof (validate_plain cx cache blob plain c Hb) as Hval. pose proof (decompress_plain cx cache blob plain c Hb) as Hdec.
  unfold read_chunk_from_backend. rewrite Hz, Hst. destruct (chunk_is_compressed c) eqn:Ec.
  - cbn [mbind outcome_bind]. unfold alloc_buf, isize_MAX. rewrite (proj2 (Z.ltb_lt _ _)) by lia. cbn [rassert mbind outcome_bind].
    destruct (read_backend reader (chunk_c_offset c) (chunk_c_size c)) as [d|e|] eqn:Er.
    + apply (read_backend_Ok reader blob) in Er as ->; [|apply (su_reader setup)|lia..]. cbn [mbind outcome_bind]. fold (packed blob c).
      rewrite Hdec. cbn [mbind outcome_bind]. rewrite Hval. left. by eexists.
    + right. split; [by eexists|]. eexists _, _, e. split_and!; [| | |exact Er]; lia.
    + exfalso. destruct (su_reader setup (chunk_c_offset c) (chunk_c_size c)) as [Hr|Hr]; [lia..| |congruence].
      unfold read_backend in Er. rewrite Hr in Er. by case_match.
  - pose proof (cb_stored _ _ _ _ _ Hb Ec) as Hp. pose proof (zlen_packed cx cache blob plain c Hb) as Hl.
    rewrite Hp, (length_plain c Hc) in Hl. rewrite Hl.
    destruct (read_backend reader (chunk_c_offset c) (chunk_c_size c)) as [d|e|] eqn:Er.
    + apply (read_backend_Ok reader blob) in Er as ->; [|apply (su_reader setup)|lia..]. cbn [mbind outcome_bind]. fold (packed blob c).
      rewrite Hp, Hval. left. by eexists.
    + right. split; [by eexists|]. eexists _, _, e. split_and!; [| | |exact Er]; lia.
    + exfalso. destruct (su_reader setup (chunk_c_offset c) (chunk_c_size c)) as [Hr|Hr]; [lia..| |congruence].
      unfold read_backend in Er. rewrite Hr in Er. by case_match.
Qed.

Lemma load_chunk_plain c s : cache_inv s -> K c -> bc_need_validation cache = true \/ ml_ready (cs_map s) c = true ->
  match load_chunk cx self reader c s with
  | (Ok d, s') => d = plain c /\ keeps s s'
  | (Err _, s') => backend_failed /\ keeps s s'
  | (Panic, _) => False
  end.
Proof.
  intros Hi Hc Hv. pose proof (cb_size _ _ _ _ _ (su_chunk setup c Hc)) as [_ S2]. unfold RAFS_MAX_CHUNK_SIZE in S2.
  unfold load_chunk. unfold mbind at 1, stM_bind at 1, st_bind at 1, st_lift at 1, alloc_buf, isize_MAX. rewrite (proj2 (Z.ltb_lt _ _)) by lia. cbn [rassert].
  unfold mbind at 1, stM_bind at 1, st_bind at 1, st_try. pose proof (read_file_cache_plain c s Hi Hc Hv) as Hr.
  destruct (read_file_cache cx self c s) as [[d|e|] s1]; [destruct Hr as [-> ->]|subst s1|done].
  - destruct (set_ready_keeps c s Hi Hc) as (s2 & E & Hk & _).
    { destruct (bc_need_validation cache) eqn:En; [by right|left]. destruct Hv as [|Hv]; [done|]. by apply (ci_data _ Hi). }
    unfold mbind, stM_bind, st_bind. rewrite E. done.
  - unfold mbind at 1, stM_bind at 1, st_bind at 1, st_on_err, st_lift at 1.
    destruct (read_chunk_plain c Hc) as [(raw & ->)|[(e' & ->) Hf]]; [|split; [done|by apply clear_keeps]].
    rewrite (proj1 (su_mode setup)). destruct (delay_keeps c s Hi Hc) as (s2 & E & Hk).
    unfold mbind, stM_bind, st_bind. rewrite E. done.
Qed.

(** *** The user's memory *)

Definition mem_ok (s : ReadState M) : Prop :=
  Forall (lt 0)%nat (lens (rs_mem s)) /\ cursor_strict (lens (rs_mem s)) (rs_index s) (rs_offset s).

Definition left_room (s : ReadState M) : nat := room (rs_mem s) (rs_index s) (rs_offset s).

Definition written (s : ReadState M) (data : list Z) (s' : ReadState M) : Prop :=
  written_at (rs_mem s) (rs_index s) (rs_offset s) data (rs_mem s') (rs_index s') (rs_offset s').

(** The result of reading [data] to the cursor, added to [base]: the memory has it, or the backend
    has failed. *)
Definition gives (base : Z) (data : list Z) (s : ReadState M) (r : io Z * ReadState M) : Prop :=
  match r with
  | (Ok n, s') => n = base + zlen data /\ written s data s' /\ keeps (rs_cache s) (rs_cache s')
  | (Err _, s') => backend_failed /\ keeps (rs_cache s) (rs_cache s')
  | (Panic, _) => False
  end.

Lemma written_ok s data s' : mem_ok s -> (length data <= left_room s)%nat -> written s data s' ->
  mem_ok s' /\ left_room s' = (left_room s - length data)%nat.
Proof.
  intros [Hne Hs] Hr Hw. split; [|by eapply written_room]. destruct Hw as (L & _ & S & _). split; rewrite L; done.
Qed.

Lemma gives_more base a b s (s1 : ReadState M) r : mem_ok s -> (length a <= left_room s)%nat ->
  written s a s1 -> keeps (rs_cache s) (rs_cache s1) -> gives (base + zlen a) b s1 r -> gives base (a ++ b) s r.
Proof.
  intros [Hne Hs] Hr Hw Hk. destruct r as [[n|e|] s2]; [|intros [Hf Hk2]; split; [done|by eapply keeps_trans]|done].
  intros (-> & Hw2 & Hk2). split_and!; [rewrite zlen_app; lia| |by eapply keeps_trans]. by eapply written_trans.
Qed.

Lemma gives_nil n s : mem_ok s -> cache_inv (rs_cache s) -> gives n [] s (Ok n, s).
Proof.
  intros [_ Hs] Hi. split_and!; [change (zlen []) with 0; lia| |by apply keeps_refl].
  unfold written, written_at. rewrite splice_nil. split_and!; [done|done|done|]. cbn. lia.
Qed.

Lemma copy_to_user_written bufs offset len err s : mem_ok s -> bufs <> [] -> 0 < len -> 0 <= offset <= zlen (hd [] bufs) ->
  fits bufs (Z.to_nat offset) (Z.to_nat len) (rs_mem s) (rs_index s) (rs_offset s) ->
  let data := wanted_data bufs (Z.to_nat offset) (Z.to_nat len) in
  exists s', copy_to_user slice_write bufs offset len err s = (Ok (zlen data), s') /\ written s data s' /\ rs_cache s' = rs_cache s.
Proof.
  intros [Hne Hs] Hb Hl Ho Hf data. unfold zlen in Ho.
  destruct (copyv_written slice_write (su_write setup) bufs (Z.to_nat offset) (Z.to_nat len) (rs_mem s) (rs_index s) (rs_offset s))
    as (mem' & i' & o' & E & Hw & Hm); [done|lia|lia|done|done|done|].
  unfold copy_to_user. rewrite E. unfold cursor_of. cbn [rs_mem rs_index rs_offset].
  pose proof (proj1 Hw) as L. unfold lens in L, Hm. rewrite L, Hm. eexists. split; [done|]. done.
Qed.
(** *** Pieces: the parts of chunks the user asked for *)

Definition piece_bytes (p : ChunkDesc * BlobIoSegment) : list Z :=
  slice (Z.to_nat (chunk_u_offset p.1 + seg_offset p.2)) (Z.to_nat (seg_len p.2)) img.

(** Pieces that follow each other: the first starts [o] bytes into its chunk, the others at the
    start of theirs, and all but the last reach the end of their chunk. *)
Fixpoint pieces (o : Z) (l : list (ChunkDesc * BlobIoSegment)) : Prop :=
  match l with
  | [] => True
  | (c, s) :: rest =>
      K c /\ seg_offset s = o /\ 0 <= o /\ 0 < seg_len s /\ o + seg_len s <= chunk_u_size c /\
      (rest <> [] -> o + seg_len s = chunk_u_size c) /\ pieces 0 rest
  end.

Definition pieces_bytes (l : list (ChunkDesc * BlobIoSegment)) : list Z := concat (piece_bytes <$> l).

Lemma piece_of_plain c s : K c -> 0 <= seg_offset s -> 0 <= seg_len s -> seg_offset s + seg_len s <= chunk_u_size c ->
  slice (Z.to_nat (seg_offset s)) (Z.to_nat (seg_len s)) (plain c) = piece_bytes (c, s).
Proof.
  intros Hc H0 H1 H2. destruct (su_place setup c Hc) as (P0 & _ & _). unfold plain, piece_bytes. cbn [fst snd].
  rewrite slice_slice by lia. f_equal. lia.
Qed.

Lemma zlen_piece c s : K c -> 0 <= seg_offset s -> 0 <= seg_len s -> seg_offset s + seg_len s <= chunk_u_size c ->
  zlen (piece_bytes (c, s)) = seg_len s.
Proof.
  intros Hc H0 H1 H2. rewrite <- piece_of_plain by done. apply zlen_slice; [done|done|]. by rewrite length_plain.
Qed.

Lemma zlen_pieces o l : pieces o l -> zlen (pieces_bytes l) = seg_total l.*2.
Proof.
  revert o. induction l as [|[c s] l IH]; intros o Hp; [done|]. destruct Hp as (Hc & Ho & H0 & H1 & H2 & _ & Hp).
  unfold pieces_bytes. cbn [fmap list_fmap concat]. fold (pieces_bytes l). rewrite zlen_app, (IH 0 Hp).
  rewrite zlen_piece by (done || lia). done.
Qed.

Lemma pieces_each o l : pieces o l -> Forall (fun p => K p.1 /\ 0 < seg_len p.2) l.
Proof.
  revert o. induction l as [|[c s] l IH]; intros o Hp; [constructor|]. destruct Hp as (Hc & _ & _ & H1 & _ & _ & Hp).
  constructor; [done|]. by apply (IH 0).
Qed.

Lemma seg_total_pos (l : list (ChunkDesc * BlobIoSegment)) : Forall (fun p => K p.1 /\ 0 < seg_len p.2) l -> 0 <= seg_total l.*2.
Proof. induction 1 as [|[c s] l [_ Hs] _ IH]; [done|]. change (0 <= seg_len s + seg_total l.*2). cbn in Hs. lia. Qed.

Lemma seg_total_pieces o l : pieces o l -> 0 <= seg_total l.*2.
Proof. intros Hp. rewrite <- (zlen_pieces o l Hp). apply zlen_nonneg. Qed.

(** The pieces of whole chunks copied one after the other. *)
Lemma pieces_wanted o l : pieces o l -> 0 <= o ->
  wanted_data (plain <$> l.*1) (Z.to_nat o) (Z.to_nat (seg_total l.*2)) = pieces_bytes l.
Proof.
  revert o. induction l as [|[c s] l IH]; intros o Hp Ho.
  { unfold wanted_data. cbn. by rewrite drop_nil. }
  destruct Hp as (Hc & Eo & _ & H1 & H2 & Hlast & Hp). pose proof (length_plain c Hc) as Hl. unfold zlen in Hl.
  pose proof (seg_total_pieces 0 l Hp) as Ht. cbn [fmap list_fmap fst snd].
  change (seg_total (s :: l.*2)) with (seg_len s + seg_total l.*2). rewrite wanted_data_cons by lia.
  unfold pieces_bytes. cbn [fmap list_fmap concat]. fold (pieces_bytes l).
  assert (Nat.min (length (plain c) - Z.to_nat o) (Z.to_nat (seg_len s + seg_total l.*2)) = Z.to_nat (seg_len s)) as ->.
  { destruct l as [|q l]; [cbn; lia|]. specialize (Hlast ltac:(done)). lia. }
  f_equal; [rewrite <- Eo; apply piece_of_plain; done || lia|].
  rewrite <- (IH 0 Hp) by lia. f_equal. lia.
Qed.

(** All pieces but the last take the chunks up to their end. *)
Lemma pieces_before_last o l q : pieces o (l ++ [q]) -> 0 <= o ->
  zlen (wanted_data (plain <$> l.*1) (Z.to_nat o) (Z.to_nat (seg_total (l ++ [q]).*2))) <= seg_total l.*2.
Proof.
  intros Hp Ho. destruct l as [|[c s] l]; [unfold wanted_data; cbn; by rewrite drop_nil, take_nil|].
  pose proof (pieces_each _ _ Hp) as Hpos. apply Forall_app in Hpos as [Hpos _]. apply seg_total_pos in Hpos.
  unfold wanted_data, zlen. rewrite length_take, length_drop.
  assert (Z.of_nat (length (concat (plain <$> ((c, s) :: l).*1))) <= o + seg_total ((c, s) :: l).*2) as Hle; [|lia].
  clear Hpos. revert o c s Hp Ho. induction l as [|[d t] l IH]; intros o c s Hp Ho; destruct Hp as (Hc & _ & _ & H1 & H2 & Hlast & Hp).
  - specialize (Hlast ltac:(done)). pose proof (length_plain c Hc) as Hl. unfold zlen in Hl. cbn. rewrite app_nil_r. cbn in *. lia.
  - specialize (Hlast ltac:(done)). pose proof (length_plain c Hc) as Hl. unfold zlen in Hl. specialize (IH 0 d t Hp ltac:(lia)).
    cbn [fmap list_fmap concat fst snd] in *. rewrite length_app. change (seg_total (s :: t :: l.*2)) with (seg_len s + seg_total (t :: l.*2)).
    cbn [fst] in *. lia.
Qed.

Lemma pieces_fit o l s : l <> [] -> pieces o l -> 0 <= o -> seg_total l.*2 <= Z.of_nat (left_room s) ->
  fits (plain <$> l.*1) (Z.to_nat o) (Z.to_nat (seg_total l.*2)) (rs_mem s) (rs_index s) (rs_offset s).
Proof.
  intros Hne Hp Ho Hr. unfold left_room in Hr. split.
  - rewrite pieces_wanted by done. pose proof (zlen_pieces o l Hp) as Hl. unfold zlen in Hl. lia.
  - destruct (exists_last Hne) as (l' & q & ->). rewrite !fmap_app. cbn [fmap list_fmap]. rewrite removelast_last.
    pose proof (pieces_before_last o l' q Hp Ho) as Hb. unfold zlen in Hb. rewrite !fmap_app in Hr, Hb. cbn [fmap list_fmap] in *.
    rewrite seg_total_app in Hr, Hb. rewrite seg_total_app.
    assert (0 < seg_len q.2) as Hq.
    { pose proof (pieces_each _ _ Hp) as Hpos. apply Forall_app in Hpos as [_ Hpos]. apply Forall_inv in Hpos. apply Hpos. }
    change (seg_total [q.2]) with (seg_len q.2 + 0) in *. lia.
Qed.

(** Copying whole chunks copies the pieces. *)
Lemma copy_pieces o l err base s : mem_ok s -> cache_inv (rs_cache s) -> l <> [] -> pieces o l -> 0 <= o ->
  seg_total l.*2 <= Z.of_nat (left_room s) -> base = 0 ->
  gives base (pieces_bytes l) s (copy_to_user slice_write (plain <$> l.*1) o (seg_total l.*2) err s).
Proof.
  intros Hm Hi Hne Hp Ho Hr ->. destruct l as [|[c sg] l]; [done|]. pose proof Hp as (Hc & _ & _ & H1 & H2 & _ & Hp').
  destruct (copy_to_user_written (plain <$> ((c, sg) :: l).*1) o (seg_total ((c, sg) :: l).*2) err s) as (s' & -> & Hw & Hcs); [done|done| | |by apply pieces_fit|].
  - pose proof (seg_total_pieces 0 l Hp'). change (0 < seg_len sg + seg_total l.*2). lia.
  - cbn [fmap list_fmap hd fst]. rewrite length_plain by done. lia.
  - rewrite pieces_wanted in Hw |- * by done. split_and!; [done|done|]. rewrite Hcs. by apply keeps_refl.
Qed.

(** *** From the cache file with validation *)

Lemma read_single_chunk_gives c s o len : mem_ok s -> cache_inv (rs_cache s) -> K c ->
  bc_need_validation cache = true \/ ml_ready (cs_map (rs_cache s)) c = true ->
  0 <= o -> 0 < len -> o + len <= chunk_u_size c -> len <= Z.of_nat (left_room s) ->
  gives 0 (piece_bytes (c, mkSeg o len)) s (read_single_chunk cx self reader slice_write c o len s).
Proof.
  intros Hm Hi Hc Hv Ho Hl Hle Hr. unfold read_single_chunk, mbind, stM_bind, st_bind, on_cache.
  pose proof (load_chunk_plain c (rs_cache s) Hi Hc Hv) as Hload.
  destruct (load_chunk cx self reader c (rs_cache s)) as [[d|e|] cs]; [destruct Hload as [-> Hk]|exact Hload|done].
  set (s1 := mkRS cs (rs_mem s) (rs_index s) (rs_offset s)).
  pose proof (copy_pieces o [(c, mkSeg o len)] EOTHER 0 s1) as Hcopy. cbn [fmap list_fmap fst snd] in Hcopy.
  change (seg_total [mkSeg o len]) with (len + 0) in Hcopy. rewrite Z.add_0_r in Hcopy.
  unfold pieces_bytes in Hcopy. cbn [fmap list_fmap concat] in Hcopy. rewrite app_nil_r in Hcopy.
  specialize (Hcopy Hm (proj1 Hk) ltac:(done)). cbn [pieces seg_offset seg_len] in Hcopy.
  specialize (Hcopy ltac:(split_and!; done || lia) Ho Hr eq_refl).
  destruct (copy_to_user slice_write [plain c] o len EOTHER s1) as [[n|e|] s2]; [|destruct Hcopy as [Hf Hk2]; split; [done|by eapply keeps_trans]|done].
  destruct Hcopy as (-> & Hw & Hk2). split_and!; [done|exact Hw|by eapply keeps_trans].
Qed.

Lemma cache_slow_gives seg l (first : bool) total s : mem_ok s -> cache_inv (rs_cache s) ->
  pieces (if first then seg_offset seg else 0) l -> 0 <= seg_offset seg ->
  Forall (fun p => bc_need_validation cache = true \/ ml_ready (cs_map (rs_cache s)) p.1 = true) l ->
  seg_len seg = total + seg_total l.*2 -> 0 <= total -> seg_len seg < 2 ^ 32 -> seg_total l.*2 <= Z.of_nat (left_room s) ->
  gives total (pieces_bytes l) s (cache_slow_loop cx self reader slice_write seg l.*1 first total s).
Proof.
  revert first total s. induction l as [|[c sg] l IH]; intros first total s Hm Hi Hp Ho Hv Hlen Ht Hw32 Hr.
  { by apply gives_nil. }
  destruct Hp as (Hc & Eo & H0 & H1 & H2 & Hlast & Hp). apply Forall_cons in Hv as [Hv1 Hv]. set (o := if first then seg_offset seg else 0) in *.
  change (seg_total ((c, sg) :: l).*2) with (seg_len sg + seg_total l.*2) in *. pose proof (seg_total_pieces 0 l Hp) as Hn.
  pose proof (cb_size _ _ _ _ _ (su_chunk setup c Hc)) as [_ Hmax]. unfold RAFS_MAX_CHUNK_SIZE in Hmax.
  cbn [fmap list_fmap fst cache_slow_loop]. fold o. unfold mbind, stM_bind, st_bind, st_lift.
  rewrite (usub_in 32 (chunk_u_size c) o) by (split; lia). rewrite (wrap_small 32 total) by (split; lia). rewrite (usub_in 32 (seg_len seg) total) by (split; lia).
  assert (Z.min (chunk_u_size c - o) (seg_len seg - total) = seg_len sg) as ->.
  { destruct l as [|q l]; [cbn in *; lia|]. specialize (Hlast ltac:(done)). lia. }
  pose proof (read_single_chunk_gives c s o (seg_len sg) Hm Hi Hc Hv1 H0 H1 H2 ltac:(lia)) as Hg.
  assert (mkSeg o (seg_len sg) = sg) as E by (rewrite <- Eo; by destruct sg). rewrite E in Hg.
  destruct (read_single_chunk cx self reader slice_write c o (seg_len sg) s) as [[n|e|] s1]; [|exact Hg|done].
  destruct Hg as (-> & Hw & Hk). pose proof (zlen_piece c sg Hc ltac:(lia) ltac:(lia) ltac:(lia)) as Hz.
  rewrite Z.add_0_l, Hz. destruct (su_place setup c Hc). rewrite uadd_in by (split; lia).
  assert (length (piece_bytes (c, sg)) <= left_room s)%nat as Hroom by (unfold zlen in Hz; lia).
  destruct (written_ok s _ s1 Hm Hroom Hw) as [Hm1 Hr1].
  apply (gives_more total (piece_bytes (c, sg)) (pieces_bytes l) s s1); [done|done|exact Hw|exact Hk|]. rewrite Hz.
  apply (IH false); [done|apply Hk|exact Hp|done| |lia|lia|lia|unfold zlen in Hz; lia].
  apply Forall_forall. intros q Hq. destruct (proj1 (Forall_forall _ _) Hv q Hq) as [|Hready]; [by left|right]. apply Hk; [|exact Hready].
  apply (proj1 (Forall_forall _ _) (pieces_each _ _ Hp) q Hq).
Qed.
(** *** Directly from the cache file *)

(** The chunks of the pieces follow each other in the cache file. *)
Fixpoint adjacent (l : list (ChunkDesc * BlobIoSegment)) : Prop :=
  match l with
  | p :: ((q :: _) as rest) => u_end p.1 = chunk_u_offset q.1 /\ adjacent rest
  | _ => True
  end.

Lemma image_slice_join a n m (l : list Z) : 0 <= a -> 0 <= n -> 0 <= m ->
  slice (Z.to_nat a) (Z.to_nat n) l ++ slice (Z.to_nat (a + n)) (Z.to_nat m) l = slice (Z.to_nat a) (Z.to_nat (n + m)) l.
Proof.
  intros Ha Hn Hm. unfold slice. rewrite !Z2Nat.inj_add by lia. by rewrite <- drop_drop, <- take_take_drop.
Qed.

Lemma adjacent_bytes file o c sg l : pieces o ((c, sg) :: l) -> 0 <= o -> adjacent ((c, sg) :: l) ->
  Forall (fun p => agrees img file (chunk_u_offset p.1) (u_end p.1)) ((c, sg) :: l) ->
  let total := seg_total ((c, sg) :: l).*2 in
  pieces_bytes ((c, sg) :: l) = slice (Z.to_nat (chunk_u_offset c + o)) (Z.to_nat total) img /\
  agrees img file (chunk_u_offset c + o) (chunk_u_offset c + o + total).
Proof.
  revert o c sg. induction l as [|[d t] l IH]; intros o c sg Hp Ho Had Hf total; pose proof Hp as (Hc & Eo & _ & H1 & H2 & Hlast & Hp');
    destruct (su_place setup c Hc) as (P0 & _ & _); apply Forall_cons in Hf as [Hf1 Hf]; cbn [fst] in Hf1; unfold u_end in Hf1.
  - assert (total = seg_len sg) as -> by (unfold total; cbn; lia). unfold pieces_bytes, piece_bytes. cbn [fmap list_fmap concat fst snd]. rewrite app_nil_r, Eo.
    split; [done|]. intros i Hi. apply Hf1. lia.
  - destruct Had as [Ea Had]. specialize (Hlast ltac:(done)). destruct (IH 0 d t Hp' ltac:(lia) Had Hf) as [Eb Hag]. cbn [fst] in Ea. unfold u_end in Ea.
    set (rest := seg_total ((d, t) :: l).*2) in *. assert (total = seg_len sg + rest) as -> by done. pose proof (seg_total_pieces 0 _ Hp') as Hn. fold rest in Hn.
    rewrite Z.add_0_r in Eb, Hag. split.
    + unfold pieces_bytes in *. cbn [fmap list_fmap concat] in *. unfold piece_bytes at 1. cbn [fst snd]. rewrite Eo.
      change (piece_bytes (d, t) ++ concat (list_fmap _ _ piece_bytes l)) with (concat (piece_bytes <$> (d, t) :: l)). rewrite Eb.
      replace (chunk_u_offset d) with (chunk_u_offset c + o + seg_len sg) by lia. apply image_slice_join; lia.
    + intros i Hi. destruct (Z.lt_ge_cases (Z.of_nat i) (chunk_u_offset d)); [apply Hf1; lia|apply Hag; lia].
Qed.

Lemma dispatch_cache_fast_gives r o c sg l s : mem_ok s -> cache_inv (rs_cache s) ->
  pieces o ((c, sg) :: l) -> 0 <= o -> adjacent ((c, sg) :: l) -> bc_need_validation cache = false ->
  Forall (fun p => ml_ready (cs_map (rs_cache s)) p.1 = true) ((c, sg) :: l) ->
  r_blob_address r = chunk_u_offset c -> r_seg r = mkSeg o (seg_total ((c, sg) :: l).*2) ->
  seg_total ((c, sg) :: l).*2 <= Z.of_nat (left_room s) ->
  gives 0 (pieces_bytes ((c, sg) :: l)) s (dispatch_cache_fast r s).
Proof.
  intros [Hne Hs] Hi Hp Ho Had Hn Hready Ha Hseg Hroom. set (ps := (c, sg) :: l) in *. set (total := seg_total ps.*2) in *.
  pose proof (pieces_each _ _ Hp) as Heach.
  destruct (adjacent_bytes (cs_file (rs_cache s)) o c sg l Hp Ho Had) as [Eb Hag].
  { apply Forall_forall. intros q Hq. apply (ci_data _ Hi); [done|apply (proj1 (Forall_forall _ _) Heach q Hq)|apply (proj1 (Forall_forall _ _) Hready q Hq)]. }
  fold ps in Eb, Hag. fold total in Eb, Hag. pose proof (seg_total_pieces o ps Hp) as Ht. fold total in Ht.
  pose proof (zlen_pieces o ps Hp) as Hz. fold total in Hz. destruct Hp as (Hc & _ & _ & H1 & H2 & _). destruct (su_place setup c Hc) as (P0 & _ & P2). destruct (su_sizes setup) as [_ S2]. unfold u_end in P2.
  unfold dispatch_cache_fast. rewrite Ha, Hseg. cbn [seg_offset seg_len]. rewrite uadd_in by (split; lia).
  pose proof (strict_room _ _ _ Hs) as Hsum. unfold left_room in Hroom. rewrite length_concat_sum in Hsum. fold (lens (rs_mem s)) in Hsum.
  destruct (consume_inside (Z.to_nat total) (lens (rs_mem s)) (rs_index s) (rs_offset s)) as (vs & i' & o' & E & Hs' & Hp' & Hin & Hb); [done|done|lia|].
  unfold cursor_of. fold (lens (rs_mem s)). rewrite E. rewrite (ci_reads _ Hi). cbn [preadv_loop].
  assert (sum_list (ios_len <$> vs) = Z.to_nat total) as ->.
  { apply (f_equal length) in Hb. rewrite length_seq in Hb. rewrite <- Hb. unfold flat_bytes. clear. induction vs as [|v vs IH]; [done|]. cbn. by rewrite length_app, length_seq, IH. }
  rewrite Z2Nat.id by lia. assert (pread (cs_file (rs_cache s)) (chunk_u_offset c + o) total = pieces_bytes ps) as ->.
  { rewrite Eb. apply agrees_slice; [lia|lia|done]. }
  rewrite same_state by done. destruct (scatter_flat vs (pieces_bytes ps) (rs_mem s) (flat_pos (lens (rs_mem s)) (rs_index s) (rs_offset s))) as [L C]; [done| | |].
  - rewrite Hb. f_equal. unfold zlen in Hz. lia.
  - rewrite length_concat_sum. fold (lens (rs_mem s)). unfold zlen in Hz. lia.
  - split_and!; [lia| |by apply keeps_refl]. split_and!; [exact L|exact C|exact Hs'|]. cbn [rs_index rs_offset mc_index mc_offset]. rewrite Hp'. unfold zlen in Hz. lia.
Qed.
(** *** Parts of a request *)

Definition piece_of (ct : ChunkDesc * BlobIoTag) : option (ChunkDesc * BlobIoSegment) :=
  match ct.2 with TagUser s => Some (ct.1, s) | TagInternal => None end.

(** A request the cache serves: chunks of the blob with consecutive indices, of which the user
    wants one contiguous range; the chunks with the user's data follow each other in the cache
    file. *)
Record cts_ok (l : list (ChunkDesc * BlobIoTag)) : Prop := {
  co_known : Forall (fun ct => K ct.1) l;
  co_segs : Forall (fun ct => forall s, tag_seg ct = Some s ->
    0 <= seg_offset s /\ 0 < seg_len s /\ seg_offset s + seg_len s <= chunk_u_size ct.1) l;
  co_whole : forall i j x y s, (i < j)%nat -> l !! i = Some x -> l !! j = Some y -> tag_seg x = Some s ->
    is_Some (tag_seg y) -> seg_offset s + seg_len s = chunk_u_size x.1;
  co_start : forall i j x y s, (i < j)%nat -> l !! i = Some x -> l !! j = Some y -> is_Some (tag_seg x) ->
    tag_seg y = Some s -> seg_offset s = 0;
  co_ids : forall i x y, l !! i = Some x -> l !! S i = Some y -> chunk_id y.1 = chunk_id x.1 + 1;
  co_id_range : Forall (fun ct => 0 <= chunk_id ct.1 < 2 ^ 32 - 1) l;
  co_adjacent : forall i x y, l !! i = Some x -> l !! S i = Some y -> is_Some (tag_seg x) -> is_Some (tag_seg y) ->
    u_end x.1 = chunk_u_offset y.1;
  co_table : forall st, bc_blob_meta_info cache = Ok (Some st) -> Forall (fun ct => in_table st ct.1) l
}.

(** A part of the request. *)
Lemma cts_ok_part l sub n : cts_ok l -> (forall k x, sub !! k = Some x -> l !! (n + k)%nat = Some x) -> cts_ok sub.
Proof.
  intros [C1 C2 C3 C4 C5 C6 C7 C8] Hsub.
  assert (forall P, Forall P l -> Forall P sub) as Hall.
  { intros P HP. apply Forall_lookup. intros k x Hk. by apply (Forall_lookup_1 _ _ _ _ HP (Hsub _ _ Hk)). }
  split; [by apply Hall|by apply Hall| | | |by apply Hall| |intros st Hst; by apply Hall, C8].
  - intros i j a b s Hij Ha Hb. apply (C3 (n + i)%nat (n + j)%nat a b s); [lia|by apply Hsub..].
  - intros i j a b s Hij Ha Hb. apply (C4 (n + i)%nat (n + j)%nat a b s); [lia|by apply Hsub..].
  - intros i a b Ha Hb. apply (C5 (n + i)%nat); [by apply Hsub|]. rewrite <- Nat.add_succ_r. by apply Hsub.
  - intros i a b Ha Hb. apply (C7 (n + i)%nat); [by apply Hsub|]. rewrite <- Nat.add_succ_r. by apply Hsub.
Qed.

Lemma piece_of_Some ct c s : piece_of ct = Some (c, s) -> ct = (c, TagUser s) /\ tag_seg ct = Some s.
Proof. destruct ct as [d []]; cbn; [|done]. by intros [= -> ->]. Qed.

Lemma omap_piece_segs l : (omap piece_of l).*2 = omap tag_seg l.
Proof. induction l as [|[c []] l IH]; cbn; [done|by rewrite <- IH|done]. Qed.

Lemma cts_pieces l o : cts_ok l -> (forall p rest, omap piece_of l = p :: rest -> seg_offset p.2 = o) -> pieces o (omap piece_of l).
Proof.
  revert o. induction l as [|[c t] l IH]; intros o Hl Ho; [done|].
  assert (cts_ok l) as Hl' by (eapply (cts_ok_part _ _ 1 Hl); done).
  destruct t as [s|]; cbn [omap list_omap piece_of snd] in *; [|by apply IH].
  specialize (Ho _ _ eq_refl). cbn [snd] in Ho. pose proof (Forall_inv (co_known _ Hl)) as Hc. destruct (Forall_inv (co_segs _ Hl) s eq_refl) as (S0 & S1 & S2).
  cbn [fst] in *. cbn [pieces fst].
  assert (forall p rest, omap piece_of l = p :: rest -> exists j y, l !! j = Some y /\ tag_seg y = Some p.2) as Hlater.
  { intros [d sg] rest E. assert ((d, sg) ∈ omap piece_of l) as Hin by (rewrite E; left). apply list_elem_of_omap in Hin as (y & Hy & Ey).
    apply list_elem_of_lookup_1 in Hy as [j Hj]. exists j, y. split; [done|]. by apply piece_of_Some in Ey as [_ ?]. }
  split_and!; [done|done|lia|done|lia| |].
  - intros Hne. destruct (omap piece_of l) as [|p rest] eqn:E; [done|]. destruct (Hlater _ _ eq_refl) as (j & y & Hj & Ey).
    rewrite <- Ho. apply (co_whole _ Hl 0 (S j) (c, TagUser s) y s); [lia|done|done|done|by eexists].
  - apply IH; [done|]. intros p rest E. destruct (Hlater _ _ E) as (j & y & Hj & Ey).
    apply (co_start _ Hl 0 (S j) (c, TagUser s) y p.2); [lia|done|done|by eexists|done].
Qed.

Lemma cts_adjacent l : cts_ok l -> Forall (fun ct => is_user_io ct.2 = true) l -> adjacent (omap piece_of l).
Proof.
  induction l as [|[c t] l IH]; intros Hl Hu; [done|]. assert (cts_ok l) as Hl' by (eapply (cts_ok_part _ _ 1 Hl); done).
  apply Forall_cons in Hu as [Ht Hu]. destruct t as [s|]; [|done]. specialize (IH Hl' Hu). cbn [omap list_omap piece_of snd].
  destruct l as [|[d t] l]; [done|]. apply Forall_inv in Hu as Ht'. destruct t as [s'|]; [|done].
  cbn [omap list_omap piece_of snd adjacent fst] in *. split; [|exact IH].
  by apply (co_adjacent _ Hl 0 (c, TagUser s) (d, TagUser s')); [..|eexists|eexists].
Qed.

(** *** Pushes and the chunks they are for *)

(** The bytes a push stands for. *)
Definition push_bytes (p : io_push) : list Z :=
  match p_tag p with
  | TagUser s => piece_bytes (mkChunk None 0 0 0 0 (match p_chunk p with Some c => chunk_u_offset c | None => p_start p end) 0 false, s)
  | TagInternal => []
  end.

(** [p] is what the chunk and the tag [ct] were pushed as, with an answer of the chunk map that
    still holds. *)
Definition pushed (m : M) (p : io_push) (ct : ChunkDesc * BlobIoTag) : Prop :=
  exists b : bool, (b = true -> ml_ready m ct.1 = true) /\ classify (flags_of self) b ct = Some p.

Definition ct_bytes (ct : ChunkDesc * BlobIoTag) : list Z := pieces_bytes (omap piece_of [ct]).

Lemma pushed_bytes m p ct : pushed m p ct -> push_bytes p = ct_bytes ct.
Proof.
  intros (b & _ & E). destruct ct as [c t]. unfold classify in E.
  destruct b, t, (cf_is_compressed (flags_of self)), (cf_need_validation (flags_of self)), (cf_is_direct_chunkmap (flags_of self)); cbn in E; simplify_eq;
    unfold push_bytes, ct_bytes, pieces_bytes, piece_bytes; cbn; rewrite ?app_nil_r; done.
Qed.

Lemma pieces_bytes_cons ct l : pieces_bytes (omap piece_of (ct :: l)) = ct_bytes ct ++ pieces_bytes (omap piece_of l).
Proof. unfold ct_bytes, pieces_bytes. destruct ct as [c []]; cbn; [by rewrite app_nil_r|done]. Qed.

Lemma pushed_pieces m g sub : Forall2 (pushed m) g sub -> concat (push_bytes <$> g) = pieces_bytes (omap piece_of sub).
Proof.
  induction 1 as [|p ct g sub Hp _ IH]; [done|]. rewrite pieces_bytes_cons. cbn [fmap list_fmap concat]. by rewrite IH, (pushed_bytes _ _ _ Hp).
Qed.

Lemma pushed_segs m g sub : Forall2 (pushed m) g sub -> omap user_seg g = (omap piece_of sub).*2.
Proof.
  rewrite omap_piece_segs. induction 1 as [|p ct g sub (b & _ & E) _ IH]; [done|]. cbn [omap list_omap]. rewrite IH.
  pose proof (classify_seg (flags_of self) b ct) as Hs. rewrite E in Hs. cbn in Hs. by rewrite Hs.
Qed.

(** What the type of a push says about its chunk. *)
Lemma pushed_fast m p ct : pushed m p ct -> p_type p = CacheFast ->
  bc_need_validation cache = false /\ is_user_io ct.2 = true /\ ml_ready m ct.1 = true /\ p_start p = chunk_u_offset ct.1.
Proof.
  intros (b & Hb & E) Ht. destruct ct as [c t]. unfold classify, flags_of in E. cbn in E. rewrite (proj1 (su_mode setup)) in E.
  destruct b, t, (bc_need_validation cache), (fe_is_direct_chunkmap self); cbn in E; simplify_eq; cbn in *; naive_solver.
Qed.

Lemma pushed_slow m p ct : pushed m p ct -> p_type p = CacheSlow ->
  is_user_io ct.2 = true /\ (bc_need_validation cache = true \/ ml_ready m ct.1 = true) /\ p_chunk p = Some ct.1.
Proof.
  intros (b & Hb & E) Ht. destruct ct as [c t]. pose proof (su_validate setup) as Hv. unfold classify, flags_of in E. cbn in E. rewrite (proj1 (su_mode setup)) in E.
  destruct b, t, (bc_need_validation cache), (fe_is_direct_chunkmap self); cbn in E; simplify_eq; cbn in *; naive_solver.
Qed.

Lemma pushed_backend m p ct : pushed m p ct -> p_type p = Backend ->
  p_chunk p = Some ct.1 /\ p_tag p = ct.2 /\ p_start p = chunk_c_offset ct.1 /\ p_end p = c_limit ct.1.
Proof.
  intros (b & Hb & E) Ht. destruct ct as [c t]. unfold classify, flags_of in E. cbn in E. unfold p_end, c_limit.
  destruct b, t, (fe_is_compressed self), (bc_need_validation cache), (fe_is_direct_chunkmap self); cbn in E; simplify_eq; cbn in *; naive_solver.
Qed.

Lemma pushed_fast_all m g sub : Forall2 (pushed m) g sub -> Forall (fun p => p_type p = CacheFast) g ->
  Forall (fun ct => is_user_io ct.2 = true /\ ml_ready m ct.1 = true) sub.
Proof.
  induction 1 as [|p ct g sub Hp Hg IH]; intros Hty; [constructor|]. apply Forall_cons in Hty as [Hty1 Hty].
  constructor; [|by apply IH]. by destruct (pushed_fast _ _ _ Hp Hty1) as (_ & H1 & H2 & _).
Qed.

Lemma pushed_slow_all m g sub : Forall2 (pushed m) g sub -> Forall (fun p => p_type p = CacheSlow) g ->
  Forall (fun ct => is_user_io ct.2 = true /\ (bc_need_validation cache = true \/ ml_ready m ct.1 = true)) sub /\ omap p_chunk g = sub.*1.
Proof.
  induction 1 as [|p ct g sub Hp Hg IH]; intros Hty; [done|]. apply Forall_cons in Hty as [Hty1 Hty].
  destruct (pushed_slow _ _ _ Hp Hty1) as (H1 & H2 & H3). destruct (IH Hty) as [IH1 IH2]. split; [by constructor|]. cbn. by rewrite H3, IH2.
Qed.

Lemma pushed_mono s s' g sub : keeps s s' -> Forall (fun ct => K ct.1) sub -> Forall2 (pushed (cs_map s)) g sub -> Forall2 (pushed (cs_map s')) g sub.
Proof.
  intros [_ Hk] HK Hg. induction Hg as [|p ct g sub (b & Hb & E) _ IH]; [constructor|]. apply Forall_cons in HK as [HK1 HK].
  constructor; [|by apply IH]. exists b. split; [|done]. intros ->. apply Hk; [done|by apply Hb].
Qed.

(** The segment of a region and its pieces. *)
Lemma region_pieces r m g sub : region_spans r g -> Forall2 (pushed m) g sub -> cts_ok sub ->
  r_seg r = run_seg (omap piece_of sub).*2 /\ pieces (seg_offset (r_seg r)) (omap piece_of sub) /\ 0 <= seg_offset (r_seg r) /\
  seg_len (r_seg r) = seg_total (omap piece_of sub).*2.
Proof.
  intros Hr Hg Hs. rewrite (rs_seg _ _ Hr), (pushed_segs _ _ _ Hg).
  assert (pieces (seg_offset (run_seg (omap piece_of sub).*2)) (omap piece_of sub)) as Hp.
  { apply cts_pieces; [done|]. intros p rest ->. done. }
  destruct (omap piece_of sub) as [|[c sg] l]; [done|]. split_and!; [done|exact Hp| |done]. destruct Hp as (_ & E & H0 & _). done.
Qed.

Lemma user_omap sub : Forall (fun ct => is_user_io ct.2 = true) sub -> (omap piece_of sub).*1 = sub.*1.
Proof. induction 1 as [|[c []] sub Hu _ IH]; [done| |done]. cbn. by rewrite IH. Qed.

Lemma region_fast_gives r g sub s : mem_ok s -> cache_inv (rs_cache s) -> region_spans r g -> r_type r = CacheFast ->
  Forall2 (pushed (cs_map (rs_cache s))) g sub -> cts_ok sub -> seg_len (r_seg r) <= Z.of_nat (left_room s) ->
  gives 0 (pieces_bytes (omap piece_of sub)) s (dispatch_cache_fast r s).
Proof.
  intros Hm Hi Hr Ht Hg Hs Hroom. destruct (region_pieces _ _ _ _ Hr Hg Hs) as (Eseg & Hp & Ho & El).
  destruct (rs_first _ _ Hr) as (p0 & Hh & Ea). pose proof (rs_type _ _ Hr) as Hty. rewrite Ht in Hty.
  pose proof (pushed_fast_all _ _ _ Hg Hty) as Hall.
  assert (Forall (fun ct => is_user_io ct.2 = true) sub) as Hu by (eapply Forall_impl; [exact Hall|]; naive_solver).
  pose proof (cts_adjacent _ Hs Hu) as Had.
  assert (Forall (fun p => ml_ready (cs_map (rs_cache s)) p.1 = true) (omap piece_of sub)) as Hready.
  { apply Forall_forall. intros [c sg] (ct & Hct & E)%list_elem_of_omap. apply piece_of_Some in E as [-> _]. apply (proj1 (Forall_forall _ _) Hall _ Hct). }
  destruct g as [|p g]; [done|]. injection Hh as ->. inversion Hg as [|? [c t] ? sub' Hp0 Hg']; subst. apply Forall_inv in Hty. apply Forall_inv in Hu as Hu0. cbn in Hu0.
  destruct t as [sg|]; [|done]. cbn [omap list_omap piece_of snd fst] in *. destruct (pushed_fast _ _ _ Hp0 Hty) as (Hnv & _ & _ & Est). cbn [fst] in Est.
  apply (dispatch_cache_fast_gives r (seg_offset (r_seg r))); [done|done|done|done|done|done|done|congruence| |lia].
  rewrite Eseg at 1. rewrite Eseg. done.
Qed.

Lemma region_slow_gives r g sub s : mem_ok s -> cache_inv (rs_cache s) -> region_spans r g -> r_type r = CacheSlow ->
  Forall2 (pushed (cs_map (rs_cache s))) g sub -> cts_ok sub -> seg_len (r_seg r) <= Z.of_nat (left_room s) -> seg_len (r_seg r) < 2 ^ 32 ->
  gives 0 (pieces_bytes (omap piece_of sub)) s (dispatch_cache_slow cx self reader slice_write r s).
Proof.
  intros Hm Hi Hr Ht Hg Hs Hroom H32. destruct (region_pieces _ _ _ _ Hr Hg Hs) as (Eseg & Hp & Ho & El).
  pose proof (rs_type _ _ Hr) as Hty. rewrite Ht in Hty.
  destruct (pushed_slow_all _ _ _ Hg Hty) as [Hall Ech].
  unfold dispatch_cache_slow. rewrite (rs_chunks _ _ Hr), Ech, <- user_omap by (eapply Forall_impl; [exact Hall|]; naive_solver).
  apply cache_slow_gives; [done|done|done|done| |lia|lia|done|lia].
  apply Forall_forall. intros [c sg] (ct & Hct & E)%list_elem_of_omap. apply piece_of_Some in E as [-> _]. apply (proj1 (Forall_forall _ _) Hall _ Hct).
Qed.
(** *** From the backend *)

Definition held (ct : ChunkDesc * bool) : option (list Z) := if ct.2 then Some (plain ct.1) else None.

(** A region that can be fetched: its chunks are inside its range, which is inside the blob. *)
Record fetches (region : Region) (cs : list ChunkDesc) (ts : list bool) : Prop := {
  fr_chunks : r_chunks region = cs;
  fr_tags : r_tags region = ts;
  fr_length : length ts = length cs;
  fr_known : Forall K cs;
  fr_range : 0 <= r_blob_address region /\ 0 <= r_blob_len region /\ r_blob_address region + r_blob_len region <= zlen blob;
  fr_inside : Forall (fun c => r_blob_address region <= chunk_c_offset c /\ c_limit c <= r_blob_address region + r_blob_len region) cs
}.

Lemma hold_bufs_S fuel region i ds holder : hold_bufs cx self (M := M) (S fuel) region i ds holder =
  match cd_next cx cache ds with
  | (None, _) => st_ret holder
  | (Some v, ds) =>
      d ← st_lift v;
      tag ← st_lift (vec_index (r_tags region) i);
      let holder := if (tag : bool) then holder ++ [d] else holder in
      _ ← (if negb (fe_is_compressed self) then
             c ← st_lift (vec_index (r_chunks region) i);
             delay_persist_chunk_data self c d false
           else st_ret tt);
      hold_bufs cx self fuel region (i + 1) ds holder
  end.
Proof. reflexivity. Qed.

Lemma hold_bufs_run region pre cs pre_ts ts ds holder s :
  fetches region (pre ++ cs) (pre_ts ++ ts) -> length pre = length pre_ts -> cache_inv s ->
  fetched blob (r_blob_address region) (r_blob_len region) ds -> cd_chunks ds = pre ++ cs -> cd_chunk_idx ds = length pre ->
  exists s', hold_bufs cx self (S (length cs)) region (zlen pre) ds holder s = (Ok (holder ++ omap held (zip cs ts)), s') /\ keeps s s'.
Proof.
  intros Hf Hpre. destruct (su_mode setup) as (Hm & Hz & _). destruct (su_sizes setup) as [Hb _]. destruct (fr_range _ _ _ Hf) as (R0 & R1 & R2).
  pose proof (fr_length _ _ _ Hf) as Hlen. rewrite !length_app in Hlen. revert pre pre_ts ts ds holder s Hf Hpre Hlen.
  induction cs as [|c cs IH]; intros pre pre_ts ts ds holder s Hf Hpre Hlen Hi Hd Hc Hidx; rewrite hold_bufs_S.
  { unfold cd_next. rewrite Hc, Hidx, app_nil_r, lookup_ge_None_2 by lia. exists s. cbn. rewrite app_nil_r. split; [done|by apply keeps_refl]. }
  destruct ts as [|t ts]; [cbn in Hlen; lia|]. unfold cd_next. rewrite Hc, Hidx, list_lookup_middle, Hz by done.
  pose proof (fr_known _ _ _ Hf) as HK. apply Forall_app in HK as [_ HK]. apply Forall_inv in HK as HKc.
  pose proof (fr_inside _ _ _ Hf) as Hin. apply Forall_app in Hin as [_ Hin]. apply Forall_inv in Hin as [Hin1 Hin2]. unfold c_limit in Hin2.
  set (ds1 := mkCDS _ _ _ _ _ _). assert (fetched blob (r_blob_address region) (r_blob_len region) ds1) as Hd1 by exact Hd.
  rewrite (next_buf_plain cx (fe_cache self) blob plain (r_blob_address region) (r_blob_len region)) by (done || lia || by apply (su_chunk setup)).
  unfold mbind, stM_bind, st_bind, st_lift. rewrite (fr_tags _ _ _ Hf), (fr_chunks _ _ _ Hf).
  rewrite (proj2 (vec_index_Ok (pre_ts ++ t :: ts) (zlen pre) t)) by (split; [apply zlen_nonneg|]; unfold zlen; rewrite Nat2Z.id, Hpre; by apply list_lookup_middle).
  rewrite (proj2 (vec_index_Ok (pre ++ c :: cs) (zlen pre) c)) by (split; [apply zlen_nonneg|]; unfold zlen; rewrite Nat2Z.id; by apply list_lookup_middle).
  rewrite Hm. cbn [negb]. destruct (delay_keeps c s Hi HKc) as (s1 & E & Hk). unfold delay_persist_chunk_data in E |- *.
  unfold mbind, stM_bind, st_bind, st_lift in E |- *. rewrite Hm in E |- *. cbn [Bool.eqb rassert] in E |- *. rewrite E.
  replace (zlen pre + 1) with (zlen (pre ++ [c])) by (rewrite zlen_app; done).
  destruct (IH (pre ++ [c]) (pre_ts ++ [t]) ts ds1 (if t then holder ++ [plain c] else holder) s1) as (s2 & E2 & Hk2).
  - by rewrite <- !app_assoc.
  - rewrite !length_app. cbn. lia.
  - rewrite !length_app. cbn in *. lia.
  - apply Hk.
  - exact Hd1.
  - cbn. by rewrite <- app_assoc.
  - cbn. rewrite length_app. cbn. lia.
  - exists s2. split; [|by eapply keeps_trans]. cbn [length]. rewrite E2. cbn [zip zip_with omap list_omap]. unfold held at 2. cbn [fst snd].
    destruct t; [by rewrite <- app_assoc|done].
Qed.

Lemma pop_ready_prefix m v : ml_wf m -> Forall (ml_knows m) v -> exists k, pop_ready m (reverse v) = Ok (take k v).
Proof.
  intros Hw. induction v as [|c v IH] using rev_ind; intros Hk; [by exists 0%nat|]. apply Forall_app in Hk as [Hk Hc]. apply Forall_inv in Hc.
  assert (reverse (v ++ [c]) = c :: reverse v) as Er by (by rewrite reverse_app). rewrite Er. cbn [pop_ready]. rewrite (ml_is_ready m c Hw Hc). destruct (ml_ready m c).
  - destruct (IH Hk) as (k & ->). exists (Nat.min k (length v)). rewrite take_app_le by lia.
    destruct (Nat.min_spec k (length v)) as [[_ ->]|[? ->]]; [done|]. by rewrite !take_ge by lia.
  - exists (length (v ++ [c])). rewrite firstn_all. f_equal. by rewrite <- Er, reverse_involutive.
Qed.

(** The region of the request itself. *)
Lemma region_fetches r m g sub : region_spans r g -> r_type r = Backend -> Forall2 (pushed m) g sub -> cts_ok sub ->
  fetches r sub.*1 (is_user_io <$> sub.*2).
Proof.
  intros Hr Ht Hg Hs. pose proof (rs_type _ _ Hr) as Hty. rewrite Ht in Hty.
  assert (omap p_chunk g = sub.*1 /\ omap has_chunk g = is_user_io <$> sub.*2 /\ (fun p => (p_start p, p_end p)) <$> g = (fun ct => (chunk_c_offset ct.1, c_limit ct.1)) <$> sub) as (E1 & E2 & E3).
  { clear Hr. induction Hg as [|p ct g sub' Hp Hg IH]; [done|]. apply Forall_cons in Hty as [Hty1 Hty]. destruct (pushed_backend _ _ _ Hp Hty1) as (H1 & H2 & H3 & H4).
    destruct (IH ltac:(by eapply (cts_ok_part _ _ 1 Hs)) Hty) as (I1 & I2 & I3). cbn. unfold has_chunk at 1. by rewrite H1, H2, H3, H4, I1, I2, I3. }
  assert (Forall (fun ct => r_blob_address r <= chunk_c_offset ct.1 /\ c_limit ct.1 <= r_blob_address r + r_blob_len r) sub) as Hin.
  { pose proof (rs_inside _ _ Hr) as Hin. assert (Forall (fun x => r_blob_address r <= x.1 /\ x.2 <= r_blob_address r + r_blob_len r) ((fun p => (p_start p, p_end p)) <$> g)) as Hin' by (by apply Forall_fmap).
    rewrite E3 in Hin'. by apply Forall_fmap in Hin'. }
  split; [by rewrite (rs_chunks _ _ Hr)|by rewrite (rs_tags _ _ Hr)|by rewrite !length_fmap|by apply Forall_fmap, (co_known _ Hs)| |by apply Forall_fmap].
  destruct (rs_first _ _ Hr) as (p0 & Hh & Ea). destruct (rs_last _ _ Hr) as (p1 & Hl & Ee). apply (f_equal head) in E3 as Eh. apply (f_equal last) in E3 as El.
  rewrite !fmap_last, Hl in El. destruct g as [|q g]; [done|]. injection Hh as ->. destruct sub as [|ct sub]; [done|]. cbn in Eh. injection Eh as Eh _.
  destruct (last (ct :: sub)) as [ct'|] eqn:Ect; [|done]. cbn in El. injection El as _ El. apply last_Some_elem_of in Ect as Hct'.
  pose proof (Forall_inv (co_known _ Hs)) as HK0. pose proof (proj1 (Forall_forall _ _) (co_known _ Hs) ct' Hct') as HK1. cbn beta in HK0, HK1.
  destruct (cb_range _ _ _ _ _ (su_chunk setup _ HK0)) as (A0 & A1 & A2). destruct (cb_range _ _ _ _ _ (su_chunk setup _ HK1)) as (B0 & B1 & B2).
  apply Forall_inv in Hin. unfold c_limit in *. split_and!; lia.
Qed.

(** The tags of an extended region: those of the old chunks, and none of the new ones. *)
Definition user_ids (cs : list ChunkDesc) (ts : list bool) : list Z :=
  chunk_id <$> omap (fun ct => if (ct.2 : bool) then Some ct.1 else None) (zip cs ts).

Lemma elem_of_user_ids sub id : id ∈ user_ids sub.*1 (is_user_io <$> sub.*2) <->
  exists k c t, sub !! k = Some (c, t) /\ is_user_io t = true /\ chunk_id c = id.
Proof.
  unfold user_ids. rewrite list_elem_of_fmap. setoid_rewrite list_elem_of_omap. split.
  - intros (c & -> & [c' b] & Hin & E). cbn in E. destruct b; [|done]. injection E as ->. apply list_elem_of_lookup_1 in Hin as [k Hk].
    apply lookup_zip_with_Some in Hk as (c2 & b2 & [= <- <-] & H1 & H2). rewrite list_lookup_fmap in H1. rewrite <- list_fmap_compose, list_lookup_fmap in H2.
    destruct (sub !! k) as [[c3 t]|] eqn:Ek; [|done]. cbn in H1, H2. injection H1 as <-. injection H2 as Ht. by exists k, c3, t.
  - intros (k & c & t & Hk & Ht & <-). exists c. split; [done|]. exists (c, true). split; [|done]. apply (list_elem_of_lookup_2 _ k).
    apply lookup_zip_with_Some. exists c, true. rewrite <- list_fmap_compose, !list_lookup_fmap, Hk. cbn. by rewrite Ht.
Qed.

Lemma extended_tags st n sub tail : table_run st n (sub.*1 ++ tail) ->
  (fun c => bool_decide (chunk_id c ∈ user_ids sub.*1 (is_user_io <$> sub.*2))) <$> (sub.*1 ++ tail) =
  (is_user_io <$> sub.*2) ++ replicate (length tail) false.
Proof.
  intros Hrun. assert (forall k c t, sub !! k = Some (c, t) -> chunk_id c = n + Z.of_nat k) as Hsub.
  { intros k c t Hk. apply (table_run_lookup _ _ _ _ _ Hrun). apply lookup_app_l_Some. by rewrite list_lookup_fmap, Hk. }
  rewrite fmap_app. f_equal; apply list_eq; intros k.
  - rewrite !list_lookup_fmap. destruct (sub !! k) as [[c t]|] eqn:Ek; [|done]. cbn. f_equal. destruct (is_user_io t) eqn:Et; [apply bool_decide_true|apply bool_decide_false].
    + apply elem_of_user_ids. by exists k, c, t.
    + intros (k' & c' & t' & Hk' & Ht' & Eid)%elem_of_user_ids. pose proof (Hsub _ _ _ Hk'). pose proof (Hsub _ _ _ Ek). assert (k' = k) as -> by lia. congruence.
  - rewrite list_lookup_fmap. destruct (tail !! k) as [c|] eqn:Ek.
    2:{ rewrite lookup_ge_None_2; [done|]. rewrite length_replicate. by apply lookup_ge_None in Ek. }
    cbn. rewrite lookup_replicate_2 by (by eapply lookup_lt_Some). f_equal. apply bool_decide_false. intros (k' & c' & t' & Hk' & _ & Eid)%elem_of_user_ids.
    pose proof (Hsub _ _ _ Hk') as H1. apply lookup_lt_Some in Hk'. assert ((sub.*1 ++ tail) !! (length sub + k)%nat = Some c) as Hc.
    { rewrite lookup_app_r by (rewrite length_fmap; lia). rewrite length_fmap. by replace (length sub + k - length sub)%nat with k by lia. }
    pose proof (table_run_lookup _ _ _ _ _ Hrun Hc). lia.
Qed.

(** Consecutive chunks of the table are between the first and the last one. *)
Lemma table_run_inside st v first d : table_ok st -> table_run st (chunk_id first) v -> head v = Some first -> last v = Some d ->
  forall c, c ∈ v -> K c /\ chunk_c_offset first <= chunk_c_offset c /\ c_limit c <= c_limit d.
Proof.
  intros Ht Hrun Hf Hl c Hc. pose proof (proj1 (Forall_forall _ _) (proj1 Hrun)) as Htab.
  assert (first ∈ v) as Hfi by (destruct v; [done|]; injection Hf as ->; left). apply last_Some_elem_of in Hl as Hd.
  pose proof (tb_chunks _ Ht c (Htab c Hc)) as HKc. pose proof (tb_chunks _ Ht first (Htab first Hfi)) as HKf. pose proof (tb_chunks _ Ht d (Htab d Hd)) as HKd.
  destruct (cb_range _ _ _ _ _ (su_chunk setup c HKc)) as (C0 & C1 & _). destruct (cb_range _ _ _ _ _ (su_chunk setup first HKf)) as (F0 & F1 & _).
  destruct (cb_range _ _ _ _ _ (su_chunk setup d HKd)) as (D0 & D1 & _).
  apply list_elem_of_lookup_1 in Hc as Hi. destruct Hi as [i Hi]. pose proof (table_run_lookup _ _ _ _ _ Hrun Hi) as Ei. apply lookup_lt_Some in Hi as Hlt.
  rewrite last_lookup in Hl. pose proof (table_run_lookup _ _ _ _ _ Hrun Hl) as Ed. split; [done|]. split.
  - destruct i as [|i]; [|pose proof (tb_order _ Ht first c (Htab _ Hfi) (Htab _ Hc) ltac:(lia)) as Hle; unfold c_limit in Hle; lia].
    destruct v; [done|]. injection Hi as ->. injection Hf as ->. lia.
  - destruct (decide (i = pred (length v))) as [->|]; [rewrite Hl in Hi; injection Hi as ->; done|].
    pose proof (tb_order _ Ht c d (Htab _ Hc) (Htab _ Hd) ltac:(lia)) as Hle. unfold c_limit in *. lia.
Qed.

(** The region extended by chunks of the table. *)
Lemma extend_region_fetches st r sub tail first : table_ok st -> fetches r sub.*1 (is_user_io <$> sub.*2) -> tail <> [] ->
  head sub.*1 = Some first -> table_run st (chunk_id first) (sub.*1 ++ tail) ->
  Forall (fun d => c_limit d <= chunk_c_offset first + ondemand_batch_size self) tail ->
  exists region, extend_region r (sub.*1 ++ tail) = Ok region /\ r_seg region = r_seg r /\
    fetches region (sub.*1 ++ tail) ((is_user_io <$> sub.*2) ++ replicate (length tail) false).
Proof.
  intros Ht Hf Hnt Hfirst Hrun Hlim. set (v := sub.*1 ++ tail) in *.
  destruct (last tail) as [d|] eqn:El; [|by apply last_None in El]. assert (last v = Some d) as Ela by (unfold v; by rewrite last_app, El).
  assert (head v = Some first) as Ehd by (unfold v; by destruct sub). apply last_Some_elem_of in El as Hdt. apply last_Some_elem_of in Ela as Hd.
  pose proof (table_run_inside st v first d Ht Hrun Ehd Ela) as Hin. destruct (Hin d Hd) as (HKd & Hfd & _). pose proof (proj1 (Forall_forall _ _) Hlim d Hdt) as Hb.
  assert (first ∈ v) as Hfi by (destruct v; [done|]; injection Ehd as ->; left). destruct (Hin first Hfi) as (HKf & _ & _).
  destruct (cb_range _ _ _ _ _ (su_chunk setup d HKd)) as (D0 & D1 & D2). destruct (cb_range _ _ _ _ _ (su_chunk setup first HKf)) as (F0 & F1 & _).
  assert (ondemand_batch_size self < 2 ^ 31) as Hbatch by (unfold ondemand_batch_size; pose proof (su_batch setup); case_match; lia).
  cbn beta in Hb. unfold c_limit in Hb. unfold extend_region. fold (user_ids (r_chunks r) (r_tags r)). rewrite (fr_chunks _ _ _ Hf), (fr_tags _ _ _ Hf).
  unfold Region_with. destruct v as [|first' rest] eqn:Ev; [done|]. injection Ehd as ->. rewrite Ela.
  rewrite (usub_in 64) by (split; lia). cbn [mbind outcome_bind]. unfold u32_MAX. rewrite (proj2 (Z.ltb_lt _ _)) by lia. cbn [rassert mbind outcome_bind].
  rewrite (uadd_in 32) by (split; lia). cbn [mbind outcome_bind r_chunks r_type r_status r_count r_blob_address r_blob_len r_seg]. eexists. split; [done|]. split; [done|].
  rewrite <- Ev in *. split; cbn [r_chunks r_tags r_blob_address r_blob_len]; [done|by apply extended_tags with st (chunk_id first)| | | |].
  - unfold v. rewrite !length_app, length_replicate, !length_fmap. lia.
  - apply Forall_forall. intros c Hc. by apply Hin.
  - split_and!; lia.
  - apply Forall_forall. intros c Hc. destruct (Hin c Hc) as (_ & G1 & G2). unfold c_limit in *. split; lia.
Qed.

(** The chunks of a request are a run of the table. *)
Lemma cts_run st cts first : bc_blob_meta_info cache = Ok (Some st) -> cts_ok cts -> head cts.*1 = Some first -> table_run st (chunk_id first) cts.*1.
Proof.
  intros Est Hs Hf. apply table_run_intro; [apply Forall_fmap; exact (co_table _ Hs st Est)|].
  assert (forall i x, cts !! i = Some x -> chunk_id x.1 = chunk_id first + Z.of_nat i) as Hid.
  { induction i as [|i IH]; intros x Hx; [destruct cts; [done|]; injection Hx as ->; injection Hf as ->; lia|].
    destruct (lookup_lt_is_Some_2 cts i) as [z Hz]; [apply lookup_lt_Some in Hx; lia|]. rewrite (co_ids _ Hs i z x Hz Hx), (IH z Hz). lia. }
  intros i c Hc. rewrite list_lookup_fmap in Hc. destruct (cts !! i) as [x|] eqn:Ex; [|done]. injection Hc as <-. by apply Hid.
Qed.

(** The chunks [extend_pending_chunks] returns: some of the chunks of the request, or all of them
    and chunks of the table that follow. *)
Lemma extend_pending_run st cts first s : table_ok st -> bc_blob_meta_info cache = Ok (Some st) -> cts_ok cts -> head cts.*1 = Some first -> cache_inv s ->
  exists tail k, extend_pending_chunks self cts.*1 (ondemand_batch_size self) (cs_map s) = Ok (Some (take k (cts.*1 ++ tail))) /\
    table_run st (chunk_id first) (cts.*1 ++ tail) /\ Forall (fun d => c_limit d <= chunk_c_offset first + ondemand_batch_size self) tail.
Proof.
  intros Htab Est Hs Hf Hi. destruct (su_sizes setup) as [S1 _]. destruct (su_mode setup) as (_ & Hz & _).
  assert (0 <= ondemand_batch_size self < 2 ^ 31) as Hbatch by (unfold ondemand_batch_size; pose proof (su_batch setup); destruct (Z.ltb_spec (fe_batch_size self) 0x20000); lia).
  assert (forall c, c ∈ cts.*1 -> 0 <= chunk_c_offset c /\ 0 <= chunk_c_size c /\ c_limit c <= zlen blob) as Hr.
  { intros c (x & -> & Hx)%list_elem_of_fmap. apply (cb_range _ _ _ _ _ (su_chunk setup _ (proj1 (Forall_forall _ _) (co_known _ Hs) x Hx))). }
  assert (first ∈ cts.*1) as Hfi by (destruct cts; [done|]; injection Hf as <-; left).
  destruct (add_more_chunks_run st cts.*1 (ondemand_batch_size self) first) as (tail & Eadd & Hrun & Hlim).
  - apply (tb_array _ Htab).
  - by apply cts_run.
  - done.
  - apply Forall_forall. intros c Hc. destruct (Hr c Hc) as (? & ? & ?). unfold c_limit in *. split; lia.
  - destruct (Hr first Hfi) as (? & ? & ?). unfold c_limit in *. split; lia.
  - destruct (pop_ready_prefix (cs_map s) (cts.*1 ++ tail)) as (k & Ek); [apply Hi| |].
    { eapply Forall_impl; [apply (proj1 Hrun)|]. intros c Hc. by apply (ci_knows _ Hi), (tb_chunks _ Htab). }
    exists tail, k. split; [|done]. unfold extend_pending_chunks. rewrite (bool_decide_false (cts.*1 = [])) by (by destruct cts). cbn [negb rassert mbind outcome_bind].
    rewrite Est. cbn [mbind outcome_bind]. rewrite Eadd. cbn [mbind outcome_bind]. unfold strip_ready_chunks. rewrite Hz, Ek. done.
Qed.

(** The region that is fetched for the region of a request. *)
Lemma fetch_region_run r g sub s : region_spans r g -> r_type r = Backend -> Forall2 (pushed (cs_map s)) g sub -> cts_ok sub -> cache_inv s ->
  exists region tail, fetch_region self r s = (Ok region, s) /\ r_seg region = r_seg r /\
    fetches region (sub.*1 ++ tail) ((is_user_io <$> sub.*2) ++ replicate (length tail) false).
Proof.
  intros Hr Ht Hg Hs Hi. pose proof (region_fetches _ _ _ _ Hr Ht Hg Hs) as Hf. destruct (su_mode setup) as (_ & Hz & _).
  destruct (rs_first _ _ Hr) as (p0 & Hh & _).
  assert (exists first, head sub.*1 = Some first) as (first & Hfirst) by (destruct Hg; [done|]; by eexists).
  assert (exists region tail, Ok r = Ok (E := errno) region /\ r_seg region = r_seg r /\ fetches region (sub.*1 ++ tail) ((is_user_io <$> sub.*2) ++ replicate (length tail) false)) as Hsame.
  { exists r, []. by rewrite !app_nil_r. }
  unfold fetch_region. rewrite (fr_chunks _ _ _ Hf), Hz. destruct (su_meta setup) as [Enone|(st & Est & Hnv & Htab)].
  - unfold extend_pending_chunks. rewrite (bool_decide_false (sub.*1 = [])) by (by destruct sub). cbn [negb rassert mbind outcome_bind]. rewrite Enone.
    destruct Hsame as (region & tail & [= <-] & H1 & H2). by exists r, tail.
  - destruct (extend_pending_run st sub first s Htab Est Hs Hfirst Hi) as (tail & k & -> & Hrun & Hlim). cbn [mbind outcome_bind].
    destruct (Nat.ltb_spec (length sub.*1) (length (take k (sub.*1 ++ tail)))) as [Hlt|_]; [|destruct Hsame as (region & tl & [= <-] & H1 & H2); by exists r, tl].
    rewrite length_take in Hlt. pose proof (table_run_take _ _ _ k Hrun) as Hrun'. rewrite take_app_ge in Hrun' |- * by lia.
    destruct (extend_region_fetches st r sub (take (k - length sub.*1) tail) first) as (region & -> & H1 & H2); [done|done| |done|done|by apply Forall_take|by exists region, (take (k - length sub.*1) tail)].
    intros E. apply (f_equal length) in E. rewrite length_take in E. rewrite length_app in Hlt. cbn in E. lia.
Qed.

(** The buffers of the user's chunks. *)
Lemma held_pieces sub tail : omap held (zip (sub.*1 ++ tail) ((is_user_io <$> sub.*2) ++ replicate (length tail) false)) = plain <$> (omap piece_of sub).*1.
Proof.
  induction sub as [|[c []] sub IH]; cbn; [|by f_equal|done]. induction tail as [|c tail IH]; [done|]. exact IH.
Qed.

Lemma consecutive_cts sub : cts_ok sub -> consecutive sub.*1 = Ok tt.
Proof.
  induction sub as [|x [|y sub] IH]; intros Hs; [done|done|]. pose proof (co_ids _ Hs 0 x y eq_refl eq_refl) as Hid.
  pose proof (Forall_inv (co_id_range _ Hs)) as Hr. cbn beta in Hr. change ((x :: y :: sub).*1) with (x.1 :: y.1 :: sub.*1). cbn [consecutive].
  rewrite (uadd_in 32 (chunk_id x.1)) by (split; lia). cbn [mbind outcome_bind]. rewrite (proj2 (Z.eqb_eq _ _)) by done. cbn [rassert mbind outcome_bind].
  apply IH. by apply (cts_ok_part _ _ 1 Hs).
Qed.

Lemma read_region region cs ts : fetches region cs ts ->
  match read_chunks_from_backend reader (r_blob_address region) (r_blob_len region) cs with
  | Ok ds => fetched blob (r_blob_address region) (r_blob_len region) ds /\ cd_chunks ds = cs /\ cd_chunk_idx ds = 0%nat
  | Err _ => backend_failed
  | Panic => False
  end.
Proof.
  intros Hf. destruct (fr_range _ _ _ Hf) as (R0 & R1 & R2). destruct (su_sizes setup) as [S1 _].
  unfold read_chunks_from_backend, alloc_buf, isize_MAX. rewrite (proj2 (Z.ltb_lt _ _)) by lia. cbn [rassert mbind outcome_bind].
  destruct (read_backend reader (r_blob_address region) (r_blob_len region)) as [d|e|] eqn:Er.
  - apply (read_backend_Ok reader blob) in Er as ->; [done|apply (su_reader setup)|done..].
  - exists (r_blob_address region), (r_blob_len region), e. split_and!; [done|done|done|exact Er].
  - destruct (su_reader setup (r_blob_address region) (r_blob_len region)) as [Hr|Hr]; [done..| |congruence].
    unfold read_backend in Er. rewrite Hr in Er. by case_match.
Qed.

Lemma store_region_run region cs ts ds s : fetches region cs ts -> cache_inv s ->
  fetched blob (r_blob_address region) (r_blob_len region) ds -> cd_chunks ds = cs -> cd_chunk_idx ds = 0%nat ->
  exists s', store_region cx self region ds s = (Ok (omap held (zip cs ts)), s') /\ keeps s s'.
Proof.
  intros Hf Hi Hd Hc Hidx. unfold store_region. rewrite (proj1 (su_mode setup)), (fr_chunks _ _ _ Hf).
  exact (hold_bufs_run region [] cs [] ts ds [] s Hf eq_refl Hi Hd Hc Hidx).
Qed.

(** The user's part of a region that is fetched. *)
Lemma backend_read_gives region tail r g sub s : mem_ok s -> cache_inv (rs_cache s) -> region_spans r g -> Forall2 (pushed (cs_map (rs_cache s))) g sub ->
  cts_ok sub -> omap piece_of sub <> [] -> seg_len (r_seg r) <= Z.of_nat (left_room s) -> r_seg region = r_seg r ->
  fetches region (sub.*1 ++ tail) ((is_user_io <$> sub.*2) ++ replicate (length tail) false) ->
  gives 0 (pieces_bytes (omap piece_of sub)) s
    ((bufs ← on_cache (st_on_err (clear_all (r_chunks region))
        (st_lift (read_chunks_from_backend reader (r_blob_address region) (r_blob_len region) (r_chunks region))));
      holder ← on_cache (store_region cx self region bufs);
      copy_to_user slice_write holder (seg_offset (r_seg region)) (seg_len (r_seg region)) EIO) s).
Proof.
  intros Hm Hi Hr Hg Hs Hne Hroom Eseg Hf. destruct (region_pieces _ _ _ _ Hr Hg Hs) as (_ & Hp & Ho & El).
  unfold mbind, stM_bind, st_bind, on_cache, st_on_err, st_lift. rewrite (fr_chunks _ _ _ Hf). pose proof (read_region _ _ _ Hf) as Hrd.
  destruct (read_chunks_from_backend reader _ _ _) as [ds|e|]; [destruct Hrd as (H1 & H2 & H3)|split; [done|by apply clear_all_keeps]|done].
  cbn [rs_cache rs_mem rs_index rs_offset]. destruct (store_region_run _ _ _ ds (rs_cache s) Hf Hi H1 H2 H3) as (s2 & -> & Hk). rewrite held_pieces, Eseg, El.
  set (s1 := mkRS s2 (rs_mem s) (rs_index s) (rs_offset s)).
  pose proof (copy_pieces (seg_offset (r_seg r)) (omap piece_of sub) EIO 0 s1 Hm (proj1 Hk) Hne Hp Ho ltac:(rewrite <- El; exact Hroom) eq_refl) as Hc.
  destruct (copy_to_user _ _ _ _ _ s1) as [[n|e|] s3]; [|by destruct Hc as [? ?]; split; [|by eapply keeps_trans]|done].
  destruct Hc as (? & ? & ?). split_and!; [done|done|by eapply keeps_trans].
Qed.

Lemma region_backend_gives r g sub s : mem_ok s -> cache_inv (rs_cache s) -> region_spans r g -> r_type r = Backend ->
  Forall2 (pushed (cs_map (rs_cache s))) g sub -> cts_ok sub -> seg_len (r_seg r) <= Z.of_nat (left_room s) ->
  gives 0 (pieces_bytes (omap piece_of sub)) s (dispatch_backend cx self reader slice_write r s).
Proof.
  intros Hm Hi Hr Ht Hg Hs Hroom. destruct (region_pieces _ _ _ _ Hr Hg Hs) as (Eseg & Hp & Ho & El).
  pose proof (region_fetches _ _ _ _ Hr Ht Hg Hs) as Hf. pose proof (consecutive_cts _ Hs) as Hcons.
  destruct (fetch_region_run _ _ _ _ Hr Ht Hg Hs Hi) as (region & tail & Ef & Es & Hf2).
  unfold dispatch_backend, has_user_io, seg_is_empty. rewrite Bool.negb_involutive, (fr_chunks _ _ _ Hf).
  assert (sub.*1 <> []) as Hne by (destruct (rs_first _ _ Hr) as (p & Hh & _); destruct Hg; done).
  destruct (sub.*1) as [|c0 cs0] eqn:Esub; [done|]. clear Hne. rewrite <- Esub in *.
  destruct (Z.eqb_spec (seg_len (r_seg r)) 0) as [E0|E0].
  - destruct (omap piece_of sub) as [|[c sg] l] eqn:Epc; [|exfalso; destruct Hp as (_ & _ & _ & Hp1 & _ & _ & Hp); pose proof (seg_total_pieces 0 l Hp);
      change (seg_total _) with (seg_len sg + seg_total l.*2) in El; lia].
    pose proof (gives_nil 0 s Hm Hi) as (G1 & G2 & _). rewrite Eseg. change (0 = 0 + zlen (A := Z) [] /\ written s [] (mkRS (clear_all sub.*1 (rs_cache s)) (rs_mem s) (rs_index s) (rs_offset s)) /\ keeps (rs_cache s) (clear_all sub.*1 (rs_cache s))). split_and!; [done|exact G2|by apply clear_all_keeps].
  - rewrite andb_false_r. unfold mbind at 1, stM_bind at 1, st_bind at 1, st_lift at 1. rewrite Hcons. unfold mbind at 1, stM_bind at 1, st_bind at 1, on_cache at 1. rewrite Ef.
    replace (mkRS (rs_cache s) (rs_mem s) (rs_index s) (rs_offset s)) with s by (by destruct s).
    apply (backend_read_gives region tail r g sub s); try done. intros E. rewrite E in El. done.
Qed.
(** ** Requests *)

Lemma region_gives r g sub s : mem_ok s -> cache_inv (rs_cache s) -> region_spans r g ->
  Forall2 (pushed (cs_map (rs_cache s))) g sub -> cts_ok sub -> seg_len (r_seg r) <= Z.of_nat (left_room s) -> seg_len (r_seg r) < 2 ^ 32 ->
  gives 0 (pieces_bytes (omap piece_of sub)) s (dispatch_region cx self reader slice_write r s).
Proof.
  intros. unfold dispatch_region. destruct (r_type r) eqn:Et; [by eapply region_fast_gives|by eapply region_slow_gives|by eapply region_backend_gives].
Qed.

Definition sub_bytes (sub : list (ChunkDesc * BlobIoTag)) : list Z := pieces_bytes (omap piece_of sub).

Lemma region_len r m g sub : region_spans r g -> Forall2 (pushed m) g sub -> cts_ok sub -> zlen (sub_bytes sub) = seg_len (r_seg r).
Proof. intros Hr Hg Hs. destruct (region_pieces _ _ _ _ Hr Hg Hs) as (_ & Hp & _ & ->). by apply (zlen_pieces (seg_offset (r_seg r))). Qed.

Lemma pushed_mono_all s s' gs subs : keeps s s' -> Forall cts_ok subs -> Forall2 (Forall2 (pushed (cs_map s))) gs subs ->
  Forall2 (Forall2 (pushed (cs_map s'))) gs subs.
Proof.
  intros Hk Hs Hg. induction Hg as [|g sub gs subs Hg _ IH]; [constructor|]. apply Forall_cons in Hs as [Hs1 Hs].
  constructor; [|by apply IH]. apply (pushed_mono _ _ _ _ Hk); [apply (co_known _ Hs1)|done].
Qed.

Lemma dispatch_all_gives regions gs subs : forall base s, mem_ok s -> cache_inv (rs_cache s) -> Forall2 region_spans regions gs ->
  Forall2 (Forall2 (pushed (cs_map (rs_cache s)))) gs subs -> Forall cts_ok subs ->
  zlen (concat (sub_bytes <$> subs)) <= Z.of_nat (left_room s) -> zlen (concat (sub_bytes <$> subs)) < 2 ^ 32 -> 0 <= base -> base + zlen (concat (sub_bytes <$> subs)) < 2 ^ 64 ->
  gives base (concat (sub_bytes <$> subs)) s (dispatch_all cx self reader slice_write regions base s).
Proof.
  intros base s Hm Hi Hr. revert subs base s Hm Hi. induction Hr as [|r g regions gs Hr _ IH]; intros subs base s Hm Hi Hg Hs Hroom H32 Hb Hbt.
  { inversion Hg; subst. by apply gives_nil. }
  inversion Hg as [|? sub ? subs' Hg1 Hg2]; subst. apply Forall_cons in Hs as [Hs1 Hs]. cbn [fmap list_fmap concat] in *. rewrite zlen_app in Hroom, H32, Hbt.
  pose proof (region_len _ _ _ _ Hr Hg1 Hs1) as El. pose proof (zlen_nonneg (concat (sub_bytes <$> subs'))) as H0. pose proof (zlen_nonneg (sub_bytes sub)) as H1.
  cbn [dispatch_all]. unfold mbind, stM_bind, st_bind. pose proof (region_gives r g sub s Hm Hi Hr Hg1 Hs1 ltac:(lia) ltac:(lia)) as Hgv. fold (sub_bytes sub) in Hgv.
  destruct (dispatch_region _ _ _ _ r s) as [[n|e|] s1]; [destruct Hgv as (-> & Hw & Hk)|exact Hgv|done].
  destruct (written_ok s (sub_bytes sub) s1 Hm ltac:(unfold zlen in *; lia) Hw) as [Hm1 Hroom1]. unfold st_lift. rewrite (uadd_in 64 base) by (split; lia).
  apply (gives_more base (sub_bytes sub) (concat (sub_bytes <$> subs')) s s1); [done|unfold zlen in *; lia|done|done|].
  rewrite Z.add_0_l. apply IH; [done|apply Hk| |done|rewrite Hroom1; unfold zlen in *; lia|lia..].
  by apply (pushed_mono_all (rs_cache s)).
Qed.

(** The answers of the chunk map still hold after all of the request is checked. *)
Lemma readiness_keeps l s : check_keeps -> cache_inv s -> Forall (fun ct => K ct.1) l ->
  let '(bs, s') := readiness (flags_of self) check_ready clear_chunk_pending l s in
  keeps s s' /\ Forall2 (fun (b : bool) ct => b = true -> ml_ready (cs_map s') ct.1 = true) bs l.
Proof.
  intros Hck. revert s. induction l as [|[c t] l IH]; intros s Hi HK; [by split; [apply keeps_refl|]|]. apply Forall_cons in HK as [HKc HK]. cbn [fst] in HKc.
  cbn [readiness]. pose proof (Hck c s Hi HKc) as Hc. destruct (check_ready c s) as [r s1].
  assert (keeps s s1 /\ (is_ready_of r = true -> ml_ready (cs_map s1) c = true)) as [Hk1 Hr1] by (by destruct r as [b|[]|]).
  assert (keeps s1 (if negb (is_ready_of r) && negb (cf_is_direct_chunkmap (flags_of self)) && negb (is_user_io t) then clear_chunk_pending c s1 else s1)) as Hk2.
  { destruct (_ && _); [apply clear_keeps|apply keeps_refl]; apply Hk1. }
  match type of Hk2 with keeps _ ?x => set (s2 := x) in * end. pose proof (IH s2 (proj1 Hk2) HK) as IH2. destruct (readiness _ _ _ l s2) as [bs s3]. destruct IH2 as [Hk3 Hall].
  split; [exact (keeps_trans _ _ _ (keeps_trans _ _ _ Hk1 Hk2) Hk3)|]. constructor; [|done]. cbn [fst]. intros Hb.
  apply Hk3; [done|]. apply Hk2; [done|]. by apply Hr1.
Qed.

(** The chunks of a run of pushes. *)
Lemma run_pushed m bs l g i : Forall2 (fun (b : bool) ct => b = true -> ml_ready m ct.1 = true) bs l ->
  runs_at (zip_with (classify (flags_of self)) bs l) i g -> cts_ok l ->
  exists sub, Forall2 (pushed m) g sub /\ cts_ok sub.
Proof.
  intros Hb Hg Hs. exists (take (length g) (drop i l)). split.
  - apply Forall2_same_length_lookup_2.
    { rewrite length_take, length_drop. destruct g as [|p g] using rev_ind; [done|]. pose proof (Hg (length g) p) as Hl.
      rewrite lookup_app_r, Nat.sub_diag in Hl by done. specialize (Hl eq_refl). apply lookup_lt_Some in Hl. rewrite length_zip_with in Hl. rewrite length_app. cbn. lia. }
    intros k p ct Hp Hct. specialize (Hg k p Hp). apply lookup_zip_with_Some in Hg as (b & ct' & E & Hbk & Hl).
    apply lookup_take_Some in Hct as [Hct _]. rewrite lookup_drop in Hct. assert (ct' = ct) as -> by congruence.
    exists b. split; [|done]. exact (Forall2_lookup_lr _ _ _ _ _ _ Hb Hbk Hl).
  - apply (cts_ok_part l _ i Hs). intros k x Hk. apply lookup_take_Some in Hk as [Hk _]. by rewrite lookup_drop in Hk.
Qed.

Lemma runs_pushed m bs l gs : Forall2 (fun (b : bool) ct => b = true -> ml_ready m ct.1 = true) bs l -> cts_ok l ->
  Forall (fun g => exists i, runs_at (zip_with (classify (flags_of self)) bs l) i g) gs ->
  exists subs, Forall2 (Forall2 (pushed m)) gs subs /\ Forall cts_ok subs.
Proof.
  intros Hb Hs. induction 1 as [|g gs (i & Hg) _ (subs & IH1 & IH2)]; [by exists []|].
  destruct (run_pushed m bs l g i Hb Hg Hs) as (sub & H1 & H2). exists (sub :: subs). split; by constructor.
Qed.

(** Chunks that are skipped have nothing of the user. *)
Lemma skipped_bytes bs l : length bs = length l ->
  concat (push_bytes <$> omap id (zip_with (classify (flags_of self)) bs l)) = sub_bytes l.
Proof.
  revert bs. induction l as [|ct l IH]; intros [|b bs] Hl; try done. unfold sub_bytes. rewrite pieces_bytes_cons. fold (sub_bytes l).
  cbn [zip_with omap list_omap]. rewrite <- (IH bs) by (cbn in Hl; lia). cbv [id]. destruct (classify (flags_of self) b ct) as [p|] eqn:E.
  - cbn [fmap list_fmap concat]. f_equal. destruct ct as [c t]. unfold classify in E.
    destruct b, t, (cf_is_compressed (flags_of self)), (cf_need_validation (flags_of self)), (cf_is_direct_chunkmap (flags_of self)); cbn in E; simplify_eq;
      unfold push_bytes, ct_bytes, pieces_bytes, piece_bytes; cbn; rewrite ?app_nil_r; done.
  - pose proof (classify_seg (flags_of self) b ct) as Hs. rewrite E in Hs. destruct ct as [c []]; [done|]. done.
Qed.

Lemma subs_bytes m gs subs : Forall2 (Forall2 (pushed m)) gs subs -> concat (sub_bytes <$> subs) = concat (push_bytes <$> concat gs).
Proof.
  induction 1 as [|g sub gs subs Hg _ IH]; [done|]. cbn [fmap list_fmap concat]. by rewrite fmap_app, concat_app, <- IH, (pushed_pieces _ _ _ Hg).
Qed.

Lemma zlen_sub_bytes l : cts_ok l -> zlen (sub_bytes l) = seg_total (omap tag_seg l).
Proof.
  intros Hs. rewrite <- omap_piece_segs. destruct (omap piece_of l) as [|p rest] eqn:E; [unfold sub_bytes; by rewrite E|].
  unfold sub_bytes. rewrite E. apply (zlen_pieces (seg_offset p.2)). rewrite <- E. apply cts_pieces; [done|]. intros p' rest' E'. congruence.
Qed.

(** A request as the merging makes it. *)
Record range_served (req : BlobIoRange) : Prop := {
  sv_tags : length (rg_chunks req) = length (rg_tags req);
  sv_wf : request_wf (zip (rg_chunks req) (rg_tags req));
  sv_cts : cts_ok (zip (rg_chunks req) (rg_tags req))
}.

Definition range_bytes (req : BlobIoRange) : list Z := sub_bytes (zip (rg_chunks req) (rg_tags req)).

Lemma dispatch_one_range_gives req s : check_keeps -> mem_ok s -> cache_inv (rs_cache s) -> range_served req ->
  zlen (range_bytes req) <= Z.of_nat (left_room s) ->
  gives 0 (range_bytes req) s (dispatch_one_range cx self reader check_ready slice_write req s).
Proof.
  intros Hck Hm Hi [Hlen Hwf Hs] Hroom. set (l := zip (rg_chunks req) (rg_tags req)) in *.
  pose proof (readiness_keeps l (rs_cache s) Hck Hi (co_known _ Hs)) as Hrd.
  destruct (dispatch_regions_run (flags_of self) check_ready clear_chunk_pending cache_inv K) with (req := req) (m := rs_cache s)
    as (ms & gs & E & _ & Hspan & Hgs & Hruns); [| |done| |done|done|].
  { intros c m Hm' Hc. pose proof (Hck c m Hm' Hc) as Hk. destruct (check_ready c m) as [[b|[]|] m']; cbn; try done; apply Hk. }
  { intros c m Hm' _. by apply clear_keeps. }
  { rewrite <- (fst_zip (rg_chunks req) (rg_tags req)) by lia. apply Forall_fmap, (co_known _ Hs). }
  fold l in E, Hgs, Hruns. pose proof (length_readiness (flags_of self) check_ready clear_chunk_pending l (rs_cache s)) as Hlr.
  destruct (readiness _ _ _ l (rs_cache s)) as [bs s']. cbn [fst snd] in *. destruct Hrd as [Hk Hall].
  destruct (runs_pushed (cs_map s') bs l gs Hall Hs Hruns) as (subs & Hg & Hsubs).
  assert (concat (sub_bytes <$> subs) = sub_bytes l) as Eb by (by rewrite (subs_bytes _ _ _ Hg), Hgs, skipped_bytes).
  unfold dispatch_one_range, mbind, stM_bind, st_bind. rewrite E. cbn [mbind outcome_bind]. set (s1 := mkRS s' (rs_mem s) (rs_index s) (rs_offset s)).
  pose proof (dispatch_all_gives (ms_regions ms) gs subs 0 s1 Hm (proj1 Hk) Hspan Hg Hsubs) as Hd. rewrite Eb in Hd.
  pose proof (rq_total _ Hwf) as H32. rewrite <- zlen_sub_bytes in H32 by done. fold (range_bytes req) in *.
  specialize (Hd Hroom H32 ltac:(lia) ltac:(lia)). destruct (dispatch_all _ _ _ _ _ 0 s1) as [[n|e|] s2]; [|by destruct Hd as [? ?]; split; [|by eapply keeps_trans]|done].
  destruct Hd as (? & ? & ?). split_and!; [done|done|by eapply keeps_trans].
Qed.

Lemma read_requests_gives rs : forall base s, check_keeps -> mem_ok s -> cache_inv (rs_cache s) -> Forall range_served rs ->
  zlen (concat (range_bytes <$> rs)) <= Z.of_nat (left_room s) -> 0 <= base -> base + zlen (concat (range_bytes <$> rs)) < 2 ^ 64 ->
  gives base (concat (range_bytes <$> rs)) s (read_requests cx self reader check_ready slice_write rs base s).
Proof.
  induction rs as [|req rs IH]; intros base s Hck Hm Hi Hs Hroom Hb Hbt; [by apply gives_nil|]. apply Forall_cons in Hs as [Hs1 Hs].
  cbn [fmap list_fmap concat] in *. rewrite zlen_app in Hroom, Hbt. pose proof (zlen_nonneg (concat (range_bytes <$> rs))) as H0. pose proof (zlen_nonneg (range_bytes req)) as H1.
  cbn [read_requests]. unfold mbind, stM_bind, st_bind, st_on_err. pose proof (dispatch_one_range_gives req s Hck Hm Hi Hs1 ltac:(lia)) as Hgv.
  destruct (dispatch_one_range _ _ _ _ _ req s) as [[n|e|] s1]; [destruct Hgv as (-> & Hw & Hk)| |done].
  2:{ destruct Hgv as [Hf Hk]. split; [done|]. eapply keeps_trans; [exact Hk|]. by apply clear_all_keeps, Hk. }
  destruct (written_ok s (range_bytes req) s1 Hm ltac:(unfold zlen in *; lia) Hw) as [Hm1 Hroom1]. unfold st_lift. rewrite (uadd_in 64 base) by (split; lia).
  apply (gives_more base (range_bytes req) (concat (range_bytes <$> rs)) s s1); [done|unfold zlen in *; lia|done|done|].
  rewrite Z.add_0_l. apply IH; [done|done|apply Hk|done|rewrite Hroom1; unfold zlen in *; lia|lia..].
Qed.

(** ** The requests of a read *)

Definition max_gap : Z := Z.shiftr (ondemand_batch_size self) RAFS_MERGING_SIZE_TO_GAP_SHIFT.

(** [y] may be merged with [x] in one request. *)
Definition follows (x y : BlobIoDesc) : Prop :=
  chunk_blob_index (io_chunk x) = chunk_blob_index (io_chunk y) /\ bio_end x <= bio_offset y <= bio_end x + max_gap.

(** The descriptors of a read: the user wants a contiguous range of the chunks, and chunks that
    are close to each other in the blob are neighbours in the chunk table and in the cache file. *)
Record user_request (bios : list BlobIoDesc) : Prop := {
  ur_bios : Forall bio_ok bios;
  ur_known : Forall (fun b => K (io_chunk b) /\ 0 <= chunk_id (io_chunk b) < 2 ^ 32 - 1 /\ 0 < bio_size b) bios;
  ur_segs : Forall (fun b => io_user b = true -> 0 <= io_offset b /\ 0 < io_size b /\ io_offset b + io_size b <= chunk_u_size (io_chunk b)) bios;
  ur_range : forall i j x y, (i < j)%nat -> bios !! i = Some x -> bios !! j = Some y -> io_user x = true -> io_user y = true ->
    io_offset x + io_size x = chunk_u_size (io_chunk x) /\ io_offset y = 0;
  ur_next : forall i x y, bios !! i = Some x -> bios !! S i = Some y -> follows x y ->
    chunk_id (io_chunk y) = chunk_id (io_chunk x) + 1 /\
    u_end (io_chunk x) <= chunk_u_offset (io_chunk y) <= u_end (io_chunk x) + RAFS_DEFAULT_CHUNK_SIZE /\
    (io_user x = true -> io_user y = true -> u_end (io_chunk x) = chunk_u_offset (io_chunk y));
  ur_span : forall i j x y, (i <= j)%nat -> bios !! i = Some x -> bios !! j = Some y ->
    (forall k v w, (i <= k < j)%nat -> bios !! k = Some v -> bios !! S k = Some w -> follows v w) -> u_end (io_chunk y) - chunk_u_offset (io_chunk x) < 2 ^ 32;
  ur_table : forall st, bc_blob_meta_info cache = Ok (Some st) -> Forall (fun b => in_table st (io_chunk b)) bios;
  ur_count : Z.of_nat (length bios) < 2 ^ 32;
  ur_total : seg_total (omap tag_seg ((fun b => (io_chunk b, tag_from_desc b)) <$> bios)) < 2 ^ 32
}.

Definition bio_ct (b : BlobIoDesc) : ChunkDesc * BlobIoTag := (io_chunk b, tag_from_desc b).

Lemma tag_seg_bio b s : tag_seg (bio_ct b) = Some s -> io_user b = true /\ s = mkSeg (io_offset b) (io_size b).
Proof. unfold tag_seg, bio_ct, tag_from_desc. cbn. destruct (io_user b); [|done]. by intros [= <-]. Qed.

Lemma is_user_bio b : is_Some (tag_seg (bio_ct b)) -> io_user b = true.
Proof. intros [s Hs]. by apply tag_seg_bio in Hs as [? _]. Qed.

(** A run of the descriptors whose neighbours may all be merged. *)
Lemma part_cts bios part n : user_request bios -> (forall k x, part !! k = Some x -> bios !! (n + k)%nat = Some x) ->
  (forall i x y, part !! i = Some x -> part !! S i = Some y -> follows x y) -> cts_ok (bio_ct <$> part).
Proof.
  intros Hu Hpart Hfol. destruct Hu as [U1 U2 U3 U4 U5 U6 U7 U8 U9].
  assert (forall P : BlobIoDesc -> Prop, Forall P bios -> Forall P part) as Hall.
  { intros P HP. apply Forall_lookup. intros k x Hk. by apply (Forall_lookup_1 _ _ _ _ HP (Hpart _ _ Hk)). }
  assert (forall i x, (bio_ct <$> part) !! i = Some x -> exists b, x = bio_ct b /\ part !! i = Some b) as Hat.
  { intros i x Hx. rewrite list_lookup_fmap in Hx. destruct (part !! i) as [b|]; [|done]. injection Hx as <-. by exists b. }
  assert (forall i x, part !! S i = Some x -> bios !! S (n + i) = Some x) as HpartS by (intros i x Hx; rewrite <- Nat.add_succ_r; by apply Hpart).
  split.
  - apply Forall_fmap, Hall. eapply Forall_impl; [exact U2|]. by intros b (? & _).
  - apply Forall_fmap, Hall. eapply Forall_impl; [exact U3|]. intros b Hb s [E ->]%tag_seg_bio. by apply Hb.
  - intros i j x y s Hij (b & -> & Hb)%Hat (d & -> & Hd)%Hat [E ->]%tag_seg_bio E2%is_user_bio. apply (U4 (n + i)%nat (n + j)%nat b d); auto with lia.
  - intros i j x y s Hij (b & -> & Hb)%Hat (d & -> & Hd)%Hat E2%is_user_bio [E ->]%tag_seg_bio. apply (U4 (n + i)%nat (n + j)%nat b d); auto with lia.
  - intros i x y (b & -> & Hb)%Hat (d & -> & Hd)%Hat. apply (U5 (n + i)%nat b d); eauto.
  - apply Forall_fmap, Hall. eapply Forall_impl; [exact U2|]. by intros b (_ & ? & _).
  - intros i x y (b & -> & Hb)%Hat (d & -> & Hd)%Hat E1%is_user_bio E2%is_user_bio. destruct (U5 (n + i)%nat b d) as (_ & _ & E); eauto.
  - intros st Hst. apply Forall_fmap, Hall. eapply Forall_impl; [exact (U7 st Hst)|]. done.
Qed.

Lemma seg_total_part bios a part b : user_request bios -> bios = a ++ part ++ b ->
  seg_total (omap tag_seg (bio_ct <$> part)) <= seg_total (omap tag_seg (bio_ct <$> bios)).
Proof.
  intros Hu ->. rewrite !fmap_app, !omap_app, !seg_total_app.
  assert (forall l, Forall (fun b => io_user b = true -> 0 <= io_offset b /\ 0 < io_size b /\ io_offset b + io_size b <= chunk_u_size (io_chunk b)) l ->
    0 <= seg_total (omap tag_seg (bio_ct <$> l))) as Hn.
  { induction 1 as [|x l Hx _ IH]; [done|]. cbn [fmap list_fmap omap list_omap]. destruct (tag_seg (bio_ct x)) as [s|] eqn:E; [|done].
    apply tag_seg_bio in E as [E ->]. destruct (Hx E) as (_ & ? & _). change (0 <= io_size x + seg_total (omap tag_seg (bio_ct <$> l))). lia. }
  pose proof (ur_segs _ Hu) as Hs. apply Forall_app in Hs as [Ha Hs]. apply Forall_app in Hs as [_ Hb]. pose proof (Hn a Ha). pose proof (Hn b Hb). lia.
Qed.

Lemma part_lookup {A} (a part b : list A) k x : part !! k = Some x -> (a ++ part ++ b) !! (length a + k)%nat = Some x.
Proof. intros Hk. rewrite lookup_app_r by lia. rewrite Nat.add_comm, Nat.add_sub. by apply lookup_app_l_Some. Qed.

Lemma part_lookup_inv {A} (a part b : list A) k x : (k < length part)%nat -> (a ++ part ++ b) !! (length a + k)%nat = Some x -> part !! k = Some x.
Proof. intros Hk Hx. rewrite lookup_app_r in Hx by lia. rewrite Nat.add_comm, Nat.add_sub in Hx. by rewrite lookup_app_l in Hx. Qed.

Lemma max_gap_small : 0 <= max_gap <= RAFS_DEFAULT_CHUNK_SIZE /\ 0 <= ondemand_batch_size self <= 2 ^ 27.
Proof.
  assert (0 <= ondemand_batch_size self <= 2 ^ 27) as Hb by (unfold ondemand_batch_size; pose proof (su_batch setup); destruct (Z.ltb_spec (fe_batch_size self) 0x20000); lia).
  split; [|done]. unfold max_gap, RAFS_DEFAULT_CHUNK_SIZE, RAFS_MERGING_SIZE_TO_GAP_SHIFT. rewrite Z.shiftr_div_pow2 by done. split; [apply Z.div_pos; lia|].
  transitivity (2 ^ 27 / 2 ^ 7); [apply Z.div_le_mono; lia|done].
Qed.

Lemma part_order bios a part b : user_request bios -> bios = a ++ part ++ b ->
  (forall i x y, part !! i = Some x -> part !! S i = Some y -> follows x y) ->
  forall i j x y, (i < j)%nat -> part !! i = Some x -> part !! j = Some y -> u_end (io_chunk x) <= chunk_u_offset (io_chunk y).
Proof.
  intros Hu E Hfol.
  assert (forall k x, part !! k = Some x -> bios !! (length a + k)%nat = Some x) as Hpart by (intros k x Hk; rewrite E; by apply part_lookup).
  assert (forall k x y, part !! k = Some x -> part !! S k = Some y -> u_end (io_chunk x) <= chunk_u_offset (io_chunk y)) as Hnext.
  { intros k x y Hx Hy. apply Hpart in Hx as Hx'. apply Hpart in Hy as Hy'. rewrite Nat.add_succ_r in Hy'.
    destruct (ur_next _ Hu _ x y Hx' Hy' (Hfol k x y Hx Hy)) as (_ & ? & _). lia. }
  intros i j x y Hij Hx. revert y. induction Hij as [|j Hij IH]; intros y Hy; [by apply (Hnext i)|].
  destruct (lookup_lt_is_Some_2 part j) as [z Hz]; [apply lookup_lt_Some in Hy; lia|]. specialize (IH z Hz). specialize (Hnext j z y Hz Hy).
  pose proof (Forall_lookup_1 _ _ _ _ (ur_known _ Hu) (Hpart _ _ Hz)) as (Hk & _). destruct (su_place setup _ Hk) as (_ & ? & _). unfold u_end in *. lia.
Qed.

Lemma part_wf bios a part b : user_request bios -> bios = a ++ part ++ b ->
  (forall i x y, part !! i = Some x -> part !! S i = Some y -> follows x y) ->
  (forall x y, x ∈ part -> y ∈ part -> bio_end y - bio_offset x < 2 ^ 32) -> request_wf (bio_ct <$> part).
Proof.
  intros Hu E Hfol Hwin. pose proof (part_order _ _ _ _ Hu E Hfol) as Hord.
  assert (forall k x, part !! k = Some x -> bios !! (length a + k)%nat = Some x) as Hpart by (intros k x Hk; rewrite E; by apply part_lookup).
  pose proof (part_cts bios part (length a) Hu Hpart Hfol) as Hcts. pose proof (max_gap_small) as Hgap.
  assert (forall x, x ∈ part -> K (io_chunk x) /\ 0 < bio_size x /\ bio_ok x) as Hin.
  { intros x Hx. apply list_elem_of_lookup_1 in Hx as [i Hi]. apply Hpart in Hi. pose proof (Forall_lookup_1 _ _ _ _ (ur_known _ Hu) Hi) as (? & _ & ?).
    pose proof (Forall_lookup_1 _ _ _ _ (ur_bios _ Hu) Hi). done. }
  assert (forall i x, (bio_ct <$> part) !! i = Some x -> exists d, x = bio_ct d /\ part !! i = Some d) as Hat.
  { intros i x Hx. rewrite list_lookup_fmap in Hx. destruct (part !! i) as [d|]; [|done]. injection Hx as <-. by exists d. }
  split.
  - apply Forall_fmap, Forall_forall. intros x Hx k. destruct (Hin x Hx) as (HK & H0 & (H1 & H2 & _)). destruct (su_place setup _ HK) as (P0 & P1 & P2).
    pose proof (cb_size _ _ _ _ _ (su_chunk setup _ HK)) as [_ S2]. destruct (su_sizes setup) as [_ S3].
    unfold bio_offset, bio_size, u_end, RAFS_MAX_CHUNK_SIZE, in_range, rng_end, rng_start, rng_len in *. cbn. destruct k; lia.
  - apply Forall_forall. intros ct Hct s Es. pose proof (proj1 (Forall_forall _ _) (co_segs _ Hcts) ct Hct s Es) as (? & ? & ?).
    apply list_elem_of_fmap in Hct as (x & -> & Hx). destruct (Hin x Hx) as (HK & _ & _). pose proof (cb_size _ _ _ _ _ (su_chunk setup _ HK)) as [_ S2].
    unfold RAFS_MAX_CHUNK_SIZE in S2. cbn in *. lia.
  - intros i x y k (d & -> & Hd)%Hat (e & -> & He)%Hat. pose proof (Hfol i d e Hd He) as Hf.
    assert (bios !! S (length a + i) = Some e) as He' by (rewrite <- Nat.add_succ_r; by apply Hpart).
    destruct (ur_next _ Hu (length a + i)%nat d e (Hpart _ _ Hd) He' Hf) as (_ & Hn & _). destruct Hf as [_ Hf].
    unfold rng_end, rng_start, rng_len, u_end, bio_end, bio_offset, bio_size, RAFS_DEFAULT_CHUNK_SIZE in *. destruct k; cbn; lia.
  - intros x y k (d & -> & Hd)%list_elem_of_fmap (e & -> & He)%list_elem_of_fmap. specialize (Hwin d e Hd He).
    destruct k; [|exact Hwin]. change (u_end (io_chunk e) - chunk_u_offset (io_chunk d) < 2 ^ 32).
    destruct (Hin d Hd) as (HKd & _). destruct (su_place setup _ HKd) as (_ & Hd0 & _). destruct (Hin e He) as (HKe & _). destruct (su_place setup _ HKe) as (_ & He0 & _).
    apply list_elem_of_lookup_1 in Hd as [i Hi]. apply list_elem_of_lookup_1 in He as [j Hj]. destruct (decide (i <= j)%nat) as [Hij|Hij].
    + apply (ur_span _ Hu (length a + i)%nat (length a + j)%nat d e); [lia|by apply Hpart..|]. intros m v w Hm Hv Hw.
      replace m with (length a + (m - length a))%nat in Hv, Hw by lia. rewrite <- Nat.add_succ_r in Hw. subst bios.
      apply (Hfol (m - length a)%nat); [eapply part_lookup_inv; [|exact Hv]|eapply part_lookup_inv; [|exact Hw]]; apply lookup_lt_Some in Hj; lia.
    + pose proof (Hord j i e d ltac:(lia) Hj Hi). unfold u_end in *. lia.
  - rewrite length_fmap. pose proof (ur_count _ Hu) as Hc. rewrite E, !length_app in Hc. lia.
  - exact (co_start _ Hcts).
  - eapply Z.le_lt_trans; [by eapply seg_total_part|apply (ur_total _ Hu)].
Qed.

Lemma built_served bios a part b req : user_request bios -> bios = a ++ part ++ b ->
  range_ok (ondemand_batch_size self) max_gap req -> built_from req part ->
  range_served req /\ range_bytes req = sub_bytes (bio_ct <$> part).
Proof.
  intros Hu E Hr [E1 E2]. destruct max_gap_small as [[G0 G1] G2]. unfold RAFS_DEFAULT_CHUNK_SIZE in G1.
  destruct (range_ok_chain _ _ G0 _ Hr) as (idx & Hg & Hsz). unfold RAFS_MAX_CHUNK_SIZE in Hsz.
  assert (zip (rg_chunks req) (rg_tags req) = bio_ct <$> part) as Ez by (rewrite E1, E2; clear; by induction part as [|x part IH]; [|cbn; f_equal]).
  assert (forall i x y, part !! i = Some x -> part !! S i = Some y -> follows x y) as Hfol.
  { intros i x y Hx Hy. apply (gap_chain_next _ _ _ _ i _ _ Hg); rewrite E1, list_lookup_fmap; [by rewrite Hx|by rewrite Hy]. }
  assert (Forall (fun d => 0 <= chunk_c_size d) (rg_chunks req)) as Hnn.
  { rewrite E1. apply Forall_fmap. pose proof (ur_known _ Hu) as Hk. rewrite E in Hk. apply Forall_app in Hk as [_ Hk]. apply Forall_app in Hk as [Hk _].
    eapply Forall_impl; [exact Hk|]. intros x (_ & _ & Hx). unfold bio_size in Hx. cbn. lia. }
  unfold range_bytes. split; [|by rewrite Ez]. split; [by rewrite E1, E2, !length_fmap| |].
  - rewrite Ez. apply (part_wf bios a part b Hu E Hfol). intros x y Hx Hy.
    destruct (gap_chain_inside _ _ _ _ (io_chunk x) Hnn Hg) as [_ Ix]. destruct (gap_chain_inside _ _ _ _ (io_chunk y) Hnn Hg) as [_ Iy].
    rewrite E1 in Ix at 1. rewrite E1 in Iy at 1. specialize (Ix (list_elem_of_fmap_2 _ _ _ Hx)). specialize (Iy (list_elem_of_fmap_2 _ _ _ Hy)).
    unfold bio_end, bio_offset, bio_size. lia.
  - rewrite Ez. apply (part_cts bios part (length a) Hu); [|done]. intros k x Hk. rewrite E. by apply part_lookup.
Qed.

Lemma sub_bytes_app l1 l2 : sub_bytes (l1 ++ l2) = sub_bytes l1 ++ sub_bytes l2.
Proof. unfold sub_bytes, pieces_bytes. by rewrite omap_app, fmap_app, concat_app. Qed.

Lemma all_served bios rs parts a : user_request bios -> bios = a ++ concat parts -> Forall (range_ok (ondemand_batch_size self) max_gap) rs -> Forall2 built_from rs parts ->
  Forall range_served rs /\ concat (range_bytes <$> rs) = sub_bytes (bio_ct <$> concat parts).
Proof.
  intros Hu E Hr Hb. revert a E. induction Hb as [|req part rs parts Hb _ IH]; intros a E; [done|]. apply Forall_cons in Hr as [Hr1 Hr].
  destruct (built_served bios a part (concat parts) req Hu E Hr1 Hb) as [H1 H2]. destruct (IH Hr (a ++ part)) as [I1 I2]; [by rewrite <- app_assoc|].
  split; [by constructor|]. cbn [fmap list_fmap concat]. by rewrite fmap_app, sub_bytes_app, H2, I2.
Qed.

(** The bytes the user asked for. *)
Definition user_bytes (bios : list BlobIoDesc) : list Z := sub_bytes (bio_ct <$> bios).

Lemma zlen_user_bytes bios : user_request bios -> zlen (user_bytes bios) = seg_total (omap tag_seg (bio_ct <$> bios)).
Proof.
  intros Hu. pose proof (ur_known _ Hu) as Hk. pose proof (ur_segs _ Hu) as Hs. unfold user_bytes, sub_bytes. clear Hu. induction Hk as [|b bios (HK & _) _ IH]; [done|].
  apply Forall_cons in Hs as [Hs1 Hs]. specialize (IH Hs). cbn [fmap list_fmap omap list_omap]. 
  assert (piece_of (bio_ct b) = if io_user b then Some (io_chunk b, mkSeg (io_offset b) (io_size b)) else None) as -> by (unfold piece_of, bio_ct, tag_from_desc; cbn; by destruct (io_user b)).
  assert (tag_seg (bio_ct b) = if io_user b then Some (mkSeg (io_offset b) (io_size b)) else None) as -> by (unfold tag_seg, bio_ct, tag_from_desc; cbn; by destruct (io_user b)).
  destruct (io_user b); [|exact IH]. destruct (Hs1 eq_refl) as (? & ? & ?). unfold pieces_bytes in *. cbn [fmap list_fmap concat]. rewrite zlen_app, IH, zlen_piece by (cbn; done || lia). done.
Qed.

Lemma read_iter_gives bios s : check_keeps -> mem_ok s -> cache_inv (rs_cache s) -> user_request bios -> bios <> [] ->
  zlen (user_bytes bios) <= Z.of_nat (left_room s) ->
  gives 0 (user_bytes bios) s (read_iter cx self reader check_ready slice_write bios s).
Proof.
  intros Hck Hm Hi Hu Hne Hroom. destruct max_gap_small as [[G0 G1] G2]. unfold RAFS_DEFAULT_CHUNK_SIZE in G1.
  destruct (merge_and_issue_parts (ondemand_batch_size self) max_gap ltac:(lia) G0 ltac:(unfold RAFS_MAX_CHUNK_SIZE, u32_MAX; lia) bios (ur_bios _ Hu)) as (rs & parts & E & Hrs & Hb & Hc).
  destruct (all_served bios rs parts [] Hu (eq_sym Hc) Hrs Hb) as [Hs Eb]. rewrite Hc in Eb. fold (user_bytes bios) in Eb.
  unfold read_iter, mbind, stM_bind, st_bind, st_lift, merge_requests_for_user. fold max_gap. rewrite E. cbn [mbind outcome_bind].
  destruct rs as [|req rs]; [inversion Hb; by subst|]. rewrite <- Eb. pose proof (zlen_user_bytes bios Hu) as El. pose proof (ur_total _ Hu) as Ht.
  change ((fun b => (io_chunk b, tag_from_desc b)) <$> bios) with (bio_ct <$> bios) in Ht.
  apply read_requests_gives; [done|done|done|done|by rewrite Eb|done|rewrite Eb; lia].
Qed.

Lemma read_single_gives b s : check_keeps -> mem_ok s -> cache_inv (rs_cache s) -> user_request [b] -> zlen (user_bytes [b]) <= Z.of_nat (left_room s) ->
  gives 0 (user_bytes [b]) s ((req ← st_lift (BlobIoRange_new b); dispatch_one_range cx self reader check_ready slice_write req) s).
Proof.
  intros Hck Hm Hi Hu Hroom. pose proof (Forall_inv (ur_bios _ Hu)) as (H1 & H2 & _). destruct max_gap_small as [[G0 _] [G2 _]].
  unfold BlobIoRange_new, in_range, bio_offset, bio_size, RAFS_MAX_CHUNK_SIZE in *. rewrite (proj2 (checked_add_bd _ _ _)) by lia.
  cbn [rassert mbind outcome_bind]. set (req := mkRange _ _ _ _ _). destruct (built_served [b] [] [b] [] req Hu eq_refl) as [Hs Eb]; [|done|].
  { exists (io_chunk b), []. unfold RAFS_MAX_CHUNK_SIZE. cbn. split_and!; try done; lia. }
  fold (user_bytes [b]) in Eb. rewrite <- Eb in *. by apply dispatch_one_range_gives.
Qed.

Definition read_done (s : CacheState M) (mem : list (list Z)) (data : list Z) (r : io Z * (CacheState M * list (list Z))) : Prop :=
  match r with
  | (Ok n, (s', mem')) => n = zlen data /\ lens mem' = lens mem /\ concat mem' = data ++ drop (length data) (concat mem) /\ keeps s s'
  | (Err _, (s', _)) => backend_failed /\ keeps s s'
  | (Panic, _) => False
  end.

Lemma FileCacheEntry_read_done iovec mem s : check_keeps -> cache_inv s -> Forall (lt 0)%nat (lens mem) -> user_request (iov_vec iovec) ->
  zlen (user_bytes (iov_vec iovec)) <= zlen (concat mem) ->
  read_done s mem (user_bytes (iov_vec iovec)) (FileCacheEntry_read cx self reader check_ready slice_write iovec mem s).
Proof.
  intros Hck Hi Hmem Hu Hroom. set (s0 := mkRS s mem 0 0). set (bios := iov_vec iovec) in *.
  assert (mem_ok s0) as Hm.
  { split; [done|]. cbn. destruct mem as [|sl mem]; [by left|right]. exists (length sl). split; [done|]. by apply Forall_inv in Hmem. }
  assert (zlen (user_bytes bios) <= Z.of_nat (left_room s0)) as Hr by (unfold left_room, room, flat_pos, zlen in *; cbn [s0 rs_mem rs_index rs_offset take sum_list] in *; rewrite Nat.sub_0_r; exact Hroom).
  assert (gives 0 (user_bytes bios) s0 (match bios with
    | [] => st_ret 0
    | [bio] => req ← st_lift (BlobIoRange_new bio); dispatch_one_range cx self reader check_ready slice_write req
    | b :: b' :: l => read_iter cx self reader check_ready slice_write (b :: b' :: l) end s0)) as Hg.
  { destruct bios as [|b [|b' bios']]; [by apply gives_nil|by apply read_single_gives|by apply read_iter_gives]. }
  match type of Hg with gives _ _ _ ?r =>
    change (read_done s mem (user_bytes bios) (let '(v, s1) := r in (v, (rs_cache s1, rs_mem s1)))); destruct r as [[n|e|] s1] end; [|exact Hg|done].
  destruct Hg as (-> & Hw & Hk). split_and!; [done|apply Hw| |exact Hk]. destruct Hw as (_ & -> & _). done.
Qed.
End with_setup.
End cached_read.
