(* ===== verification/CachedPrefetch.v ===== *)
(** Prefetching through the file cache ([prefetch_range] of [storage/src/cache/cachedfile.rs]).

    Prefetching keeps the invariant of [CachedRead] whatever the backend, the writes and the other
    threads do, and when the backend and the writes succeed all chunks of the range are ready. *)
From S2P Require Import Prelude Utils LittleEndian ChunkInfo Device BlobMeta AddMore MetaFile BlobCache IoMerge MemCursor CacheRegion CachedFile CachedRead.

Section prefetch.
Context `{Profile} (cx : codecs) (self : FileCacheEntry) (reader : BlobReader).
Context {M : Type} `{!ChunkMapObj M, !ChunkMapObjLaws M}.
Variable check_ready : ChunkDesc -> stM (CacheState M) StorageError bool.
Variables (slice_write : list Z -> list Z -> nat -> option (nat * list Z)) (blob img : list Z) (K : ChunkDesc -> Prop).
Hypothesis setup : cache_setup cx self reader (M := M) slice_write blob img K.
Implicit Types (s : CacheState M) (cs : list ChunkDesc).

Notation cache := (fe_cache self).
Notation keeps := (keeps self img K).
Notation cache_inv := (cache_inv self img K).

(** The chunks of the table, in the order of their indices. *)
Record in_order : Prop := {
  io_ids c : K c -> 0 <= chunk_id c < 2 ^ 32 - 1;
  io_next c d : K c -> K d -> chunk_id d = chunk_id c + 1 -> c_limit c <= chunk_c_offset d
}.
Hypothesis order : in_order.

(** A run of chunks with consecutive indices. *)
Fixpoint id_run cs : Prop :=
  match cs with
  | c :: ((d :: _) as rest) => chunk_id d = chunk_id c + 1 /\ id_run rest
  | _ => True
  end.

Lemma run_length_Ok cs : Forall K cs -> cs <> [] -> exists n, run_length cs = Ok (S n) /\ (S n <= length cs)%nat /\ id_run (take (S n) cs).
Proof.
  intros Hk. induction Hk as [|c cs Hc Hcs IH]; intros Hne; [done|]. destruct cs as [|d cs]; [by exists 0%nat|].
  cbn [run_length]. pose proof (io_ids order c Hc) as Hid. rewrite (uadd_in 32 (chunk_id c)) by (split; lia). cbn [mbind outcome_bind].
  destruct (Z.eqb_spec (chunk_id d) (chunk_id c + 1)) as [E|_]; [|exists 0%nat; cbn; split; [done|lia]].
  destruct (IH ltac:(done)) as (n & En & Hl & Hr). change (run_length (d :: cs)) with (run_length (d :: cs)) in En.
  exists (S n). split; [|split; [cbn in *; lia|by split]].
  revert En. cbn [run_length]. intros ->. done.
Qed.

Lemma run_inside cs c l : Forall K cs -> id_run cs -> last cs = Some l -> c ∈ cs ->
  (forall f, head cs = Some f -> chunk_c_offset f <= chunk_c_offset c) /\ c_limit c <= c_limit l.
Proof.
  intros Hk. revert c. induction Hk as [|f cs Hf Hcs IH]; intros c Hr Hl Hc; [done|].
  assert (forall d, K d -> 0 <= chunk_c_size d) as Hn by (intros d Hd; apply (cb_range _ _ _ _ _ (su_chunk _ _ _ _ _ _ _ setup d Hd))).
  destruct cs as [|d cs].
  - injection Hl as ->. apply list_elem_of_singleton in Hc as ->. split; [by intros ? [= <-]|done].
  - destruct Hr as [Hid Hr]. pose proof (io_next order f d Hf (Forall_inv Hcs) Hid) as Ho. unfold c_limit in *.
    pose proof (Hn f Hf). pose proof (Hn d (Forall_inv Hcs)). specialize (IH c Hr Hl) as IHc.
    destruct (IH d Hr Hl ltac:(left)) as [_ Hdl]. apply elem_of_cons in Hc as [->|Hc].
    + split; [by intros ? [= <-]|lia].
    + destruct (IHc Hc) as [A1 A2]. specialize (A1 d eq_refl). split; [intros ? [= <-]; lia|done].
Qed.

Lemma run_range cs : Forall K cs -> id_run cs -> cs <> [] ->
  (exists start size, get_blob_range self cs = Ok (start, start + size, size) /\ 0 <= size <= u32_MAX /\
     fetches blob K (mkRegion Backend Open 0 cs (replicate (length cs) false) start size (mkSeg 0 0)) cs (replicate (length cs) false)) \/
  (get_blob_range self cs = Err EINVAL /\ 2 ^ 32 <= zlen blob).
Proof.
  intros Hk Hr Hne. destruct (su_mode _ _ _ _ _ _ _ setup) as (_ & Hz & _). destruct (su_sizes _ _ _ _ _ _ _ setup) as [S1 _].
  destruct (last cs) as [l|] eqn:El; [|by apply last_None in El]. destruct (head cs) as [f|] eqn:Ef; [|by destruct cs].
  apply last_Some_elem_of in El as Hl. assert (f ∈ cs) as Hf by (destruct cs; [done|]; injection Ef as ->; left).
  pose proof (proj1 (Forall_forall _ _) Hk) as Hall. destruct (cb_range _ _ _ _ _ (su_chunk _ _ _ _ _ _ _ setup l (Hall l Hl))) as (L0 & L1 & L2).
  destruct (cb_range _ _ _ _ _ (su_chunk _ _ _ _ _ _ _ setup f (Hall f Hf))) as (F0 & F1 & F2).
  destruct (run_inside cs l l Hk Hr El Hl) as [Hfl _]. specialize (Hfl f Ef).
  unfold get_blob_range. rewrite bool_decide_false by done. cbn [negb rassert mbind outcome_bind]. rewrite Hz, Ef, El. unfold chunk_c_end.
  rewrite (uadd_in 64 (chunk_c_offset l)) by (split; lia). cbn [mbind outcome_bind]. rewrite usub_in by (split; lia). cbn [mbind outcome_bind].
  destruct (Z.ltb_spec u32_MAX (chunk_c_offset l + chunk_c_size l - chunk_c_offset f)) as [Hbig|Hsmall].
  - right. split; [done|]. unfold u32_MAX in Hbig. lia.
  - left. eexists _, _. split; [do 2 f_equal; f_equal; lia|]. split; [lia|]. split; cbn; [done|done|by rewrite length_replicate|done|lia|].
    apply Forall_forall. intros c Hc. destruct (run_inside cs c l Hk Hr El Hc) as [H1 H2]. specialize (H1 f Ef). unfold c_limit in *. lia.
Qed.

(** The buffers of a run are written one after the other. *)
Lemma persist_bufs_run start size cs pre ds s : 0 <= start -> 0 <= size -> start + size <= zlen blob -> cache_inv s -> Forall K cs ->
  Forall (fun c => start <= chunk_c_offset c /\ c_limit c <= start + size) cs ->
  fetched blob start size ds -> cd_chunks ds = pre ++ cs -> cd_chunk_idx ds = length pre ->
  exists s', persist_bufs cx self cs ds s = (Ok tt, s') /\ keeps s s' /\
    (cs_writes s = [] -> cs_writes s' = [] /\ Forall (fun c => ml_ready (cs_map s') c = true) cs).
Proof.
  intros R0 R1 R2. destruct (su_mode _ _ _ _ _ _ _ setup) as (_ & Hz & _). destruct (su_sizes _ _ _ _ _ _ _ setup) as [S1 _].
  revert pre ds s. induction cs as [|c cs IH]; intros pre ds s Hi Hk Hin Hd Hc Hidx.
  { exists s. split; [done|]. split; [by apply keeps_refl|]. done. }
  apply Forall_cons in Hk as [Hk1 Hk]. apply Forall_cons in Hin as [[Hin1 Hin2] Hin]. cbn [persist_bufs]. unfold cd_next.
  rewrite Hc, Hidx, list_lookup_middle, Hz by done. set (ds1 := mkCDS _ _ _ _ _ _).
  assert (fetched blob start size ds1) as Hd1 by exact Hd.
  rewrite (next_buf_plain cx cache blob (plain img) start size) by (done || lia || by apply (su_chunk _ _ _ _ _ _ _ setup)).
  destruct (persist_chunk_plain cx self reader slice_write blob img K setup c s Hi Hk1) as (s1 & E1 & Hk1' & Hr1).
  unfold mbind, stM_bind, st_bind. rewrite E1.
  destruct (IH (pre ++ [c]) ds1 s1) as (s2 & E2 & Hk2 & Hr2); [apply Hk1'|done|done|done|cbn; by rewrite <- app_assoc|cbn; rewrite length_app; cbn; lia|].
  exists s2. split; [exact E2|]. split; [by eapply keeps_trans|]. intros Hw. destruct (Hr1 Hw) as [Hw1 Hready]. destruct (Hr2 Hw1) as [Hw2 Hall].
  split; [done|]. constructor; [by apply Hk2|done].
Qed.

Definition all_ready s cs : Prop := Forall (fun c => ml_ready (cs_map s) c = true) cs.

Lemma all_ready_keeps s s' cs : keeps s s' -> Forall K cs -> all_ready s cs -> all_ready s' cs.
Proof.
  intros [_ Hk] HK Hr. unfold all_ready in *. rewrite Forall_forall in HK, Hr |- *. intros c Hc. by apply Hk; [apply HK|apply Hr].
Qed.

(** A backend and writes that succeed from here on. *)
Definition calm s : Prop := ~ backend_failed reader blob /\ cs_writes s = [].

Lemma prefetch_run_keeps cs s : Forall K cs -> id_run cs -> cs <> [] -> cache_inv s ->
  match prefetch_run cx self reader cs s with
  | (Ok n, s') => 0 <= n <= u32_MAX /\ keeps s s' /\ (calm s -> calm s' /\ all_ready s' cs)
  | (Err _, s') => keeps s s' /\ 2 ^ 32 <= zlen blob
  | (Panic, _) => False
  end.
Proof.
  intros Hk Hr Hne Hi. unfold prefetch_run, mbind, stM_bind, st_bind, st_lift.
  destruct (run_range cs Hk Hr Hne) as [(start & size & -> & Hs & Hf)|[-> Hbig]]; [|by split; [apply keeps_refl|]].
  pose proof (read_region cx self reader slice_write blob img K setup _ _ _ Hf) as Hrd. cbn [r_blob_address r_blob_len] in Hrd. unfold st_try.
  destruct (read_chunks_from_backend reader start size cs) as [ds|e|]; [|unfold st_modify, st_ret; split; [unfold u32_MAX; lia|]|done].
  - destruct Hrd as (H1 & H2 & H3). rewrite (proj1 (su_mode _ _ _ _ _ _ _ setup)). destruct (fr_range _ _ _ _ _ Hf) as (R0 & R1 & R2). cbn in R0, R1, R2.
    destruct (persist_bufs_run start size cs [] ds s R0 R1 R2 Hi Hk (fr_inside _ _ _ _ _ Hf) H1 H2 H3) as (s' & -> & Hks & Hw).
    split; [done|]. split; [done|]. intros [Hb Hws]. destruct (Hw Hws). by split; [split|].
  - split; [by apply clear_all_keeps|]. intros [Hb _]. by destruct Hb.
Qed.

Lemma prefetch_runs_keeps fuel cs total s : (length cs <= fuel)%nat -> Forall K cs -> cache_inv s -> 0 <= total -> total + Z.of_nat (length cs) * 2 ^ 32 < 2 ^ 64 ->
  match prefetch_runs cx self reader fuel cs total s with
  | (Ok _, s') => keeps s s' /\ (calm s -> all_ready s' cs)
  | (Err _, s') => keeps s s' /\ 2 ^ 32 <= zlen blob
  | (Panic, _) => False
  end.
Proof.
  revert cs total s. induction fuel as [|fuel IH]; intros [|c cs] total s Hl Hk Hi Ht Hb; try (split; [by apply keeps_refl|intros _; constructor]); [cbn in Hl; lia|].
  cbn [prefetch_runs]. destruct (run_length_Ok (c :: cs) Hk ltac:(done)) as (n & En & Hn & Hr). unfold mbind, stM_bind, st_bind, st_lift. rewrite En.
  set (now := take (S n) (c :: cs)) in *. set (later := drop (S n) (c :: cs)). assert (now ++ later = c :: cs) as Esplit by apply take_drop.
  assert (Forall K now /\ Forall K later) as [Hk1 Hk2] by (apply Forall_app; by rewrite Esplit).
  assert (length later < length (c :: cs))%nat as Hlt by (rewrite <- Esplit, length_app; unfold now; cbn [take length]; lia).
  pose proof (prefetch_run_keeps now s Hk1 Hr ltac:(done) Hi) as Hrun.
  destruct (prefetch_run _ _ _ now s) as [[size|e|] s1]; [destruct Hrun as (Hsz & Hks & Hc1)|exact Hrun|done]. unfold u32_MAX in Hsz.
  rewrite (uadd_in 64 total) by (split; cbn [length] in Hb; lia).
  specialize (IH later (total + size) s1 ltac:(cbn in *; lia) Hk2 (proj1 Hks) ltac:(lia) ltac:(lia)).
  destruct (prefetch_runs _ _ _ fuel later (total + size) s1) as [[t|e|] s2]; [|by destruct IH as [? ?]; split; [eapply keeps_trans|]|done].
  destruct IH as [Hks2 Hc2]. split; [by eapply keeps_trans|]. intros Hcalm. destruct (Hc1 Hcalm) as [Hcalm1 Hready]. rewrite <- Esplit.
  apply Forall_app. split; [by apply (all_ready_keeps s1)|by apply Hc2].
Qed.

(** Only a map whose states are saved is trusted without validation. *)
Hypothesis persists : mo_is_persist (M := M) = false -> bc_need_validation cache = true.

(** While a check waits, the writes of the other threads succeed. *)
Definition check_calm : Prop := forall c s, cs_writes s = [] -> cs_writes (check_ready c s).2 = [].

Lemma already_ready_keeps c s : check_keeps self check_ready img K -> cache_inv s -> K c ->
  exists b s', already_ready check_ready c s = (Ok b, s') /\ keeps s s' /\ (b = true -> ml_ready (cs_map s') c = true) /\
    (check_calm -> cs_writes s = [] -> cs_writes s' = []).
Proof.
  intros Hck Hi Hc. specialize (Hck c s Hi Hc). unfold already_ready. assert (check_calm -> cs_writes s = [] -> cs_writes (check_ready c s).2 = []) as Hw by (intros Hcc; apply Hcc).
  destruct (check_ready c s) as [[b|[]|] s']; try done; [destruct Hck as [Hk Hb]; by exists b, s'|]. by exists false, s'.
Qed.

Lemma collect_pending_keeps cs s : check_keeps self check_ready img K -> cache_inv s -> Forall K cs ->
  exists pending s', collect_pending cx self check_ready cs s = (Ok pending, s') /\ keeps s s' /\ pending ⊆ cs /\ (length pending <= length cs)%nat /\
    (forall c, c ∈ cs -> c ∈ pending \/ ml_ready (cs_map s') c = true) /\ (check_calm -> cs_writes s = [] -> cs_writes s' = []).
Proof.
  intros Hck. revert s. induction cs as [|c cs IH]; intros s Hi Hk.
  { exists [], s. split; [done|]. split; [by apply keeps_refl|]. split_and!; [set_solver|done|set_solver|done]. }
  apply Forall_cons in Hk as [Hc Hk]. destruct (already_ready_keeps c s Hck Hi Hc) as (b & s1 & E1 & Hk1 & Hb & Hw1).
  assert (exists fetch s2, (if b then st_ret false else if mo_is_persist then st_ret true else
    cached ← st_try (read_file_cache cx self c);
    if res_is_ok cached then _ ← update_chunk_pending_status c true; st_ret false else st_ret true) s1 = (Ok fetch, s2) /\ keeps s1 s2 /\
    (fetch = false -> ml_ready (cs_map s2) c = true) /\ cs_writes s2 = cs_writes s1) as (fetch & s2 & E2 & Hk2 & Hf & Hw2).
  { destruct b; [exists false, s1; by split_and!; [|apply keeps_refl, Hk1|intros _; apply Hb|]|].
    destruct (mo_is_persist (M := M)) eqn:Ep; [exists true, s1; by split_and!; [|apply keeps_refl, Hk1| |]|].
    pose proof (read_file_cache_plain cx self reader slice_write blob img K setup c s1 (proj1 Hk1) Hc (or_introl (persists eq_refl))) as Hrd.
    unfold mbind, stM_bind, st_bind, st_try. destruct (read_file_cache cx self c s1) as [[d|e|] s1']; [destruct Hrd as [-> ->]|subst s1'|done]; cbn [res_is_ok].
    - destruct (set_ready_keeps cx self reader slice_write blob img K setup c s1 (proj1 Hk1) Hc (or_intror (persists eq_refl))) as (s2 & E & Hk2 & Hr & Hw).
      unfold update_chunk_pending_status. rewrite E. by exists false, s2.
    - exists true, s1. by split_and!; [|apply keeps_refl, Hk1| |]. }
  destruct (IH s2 (proj1 Hk2) Hk) as (pending & s3 & E3 & Hk3 & Hsub & Hlen & Hall & Hw3).
  exists (if fetch then c :: pending else pending), s3. cbn [collect_pending]. unfold mbind at 1, stM_bind at 1, st_bind at 1. rewrite E1.
  unfold mbind at 1, stM_bind at 1, st_bind at 1. rewrite E2. unfold mbind, stM_bind, st_bind. rewrite E3. split; [done|].
  split; [eapply keeps_trans; [exact Hk1|]; by eapply keeps_trans|]. split_and!; [destruct fetch; set_solver|destruct fetch; cbn; lia| |].
  - intros d [->|Hd]%elem_of_cons; [|destruct (Hall d Hd); [left; destruct fetch; [by right|done]|by right]].
    destruct fetch; [left; by left|]. right. apply Hk3; [done|]. by apply Hf.
  - intros Hcc Hw. apply (Hw3 Hcc). rewrite Hw2. by apply Hw1.
Qed.

Definition prefetch_done s cs (r : io Z * CacheState M) : Prop :=
  match r with
  | (Ok _, s') => keeps s s' /\ (check_calm -> calm s -> all_ready s' cs)
  | (Err _, s') => keeps s s' /\ 2 ^ 32 <= zlen blob
  | (Panic, _) => False
  end.

Lemma prefetch_range_done range s : check_keeps self check_ready img K -> cache_inv s -> Forall K (rg_chunks range) ->
  Z.of_nat (length (rg_chunks range)) < 2 ^ 32 -> prefetch_done s (rg_chunks range) (prefetch_range cx self reader check_ready range s).
Proof.
  intros Hck Hi Hk Hlen. set (cs := rg_chunks range) in *. unfold prefetch_range. fold cs.
  assert ((if mo_is_persist then Ok tt else alloc_buf (foldr Z.max 0 (chunk_u_size <$> cs))) = Ok tt) as Ea.
  { destruct mo_is_persist; [done|]. assert (foldr Z.max 0 (chunk_u_size <$> cs) <= RAFS_MAX_CHUNK_SIZE) as Hm.
    { induction Hk as [|c cs' Hc _ IH]; [done|]. cbn. pose proof (cb_size _ _ _ _ _ (su_chunk _ _ _ _ _ _ _ setup c Hc)) as [_ ?]. cbn in Hlen. lia. }
    unfold alloc_buf, isize_MAX. unfold RAFS_MAX_CHUNK_SIZE in Hm. by rewrite (proj2 (Z.ltb_lt _ _)) by lia. }
  unfold mbind, stM_bind, st_bind, st_lift. rewrite Ea.
  destruct (collect_pending_keeps cs s Hck Hi Hk) as (pending & s1 & -> & Hk1 & Hsub & Hl & Hall & Hw).
  assert (Forall K pending) as Hkp by (apply Forall_forall; intros c Hc; by apply (proj1 (Forall_forall _ _) Hk), Hsub).
  pose proof (prefetch_runs_keeps (length pending) pending 0 s1 ltac:(done) Hkp (proj1 Hk1) ltac:(done) ltac:(lia)) as Hruns.
  destruct (prefetch_runs _ _ _ _ pending 0 s1) as [[t|e|] s2]; [|by destruct Hruns as [? ?]; split; [eapply keeps_trans|]|done].
  destruct Hruns as [Hk2 Hready]. split; [by eapply keeps_trans|]. intros Hcc [Hb Hws]. apply Forall_forall. intros c Hc.
  destruct (Hall c Hc) as [Hin|Hr]; [by apply (proj1 (Forall_forall _ _) (Hready (conj Hb (Hw Hcc Hws))))|].
  apply Hk2; [by apply (proj1 (Forall_forall _ _) Hk)|done].
Qed.

(** ** Fetching ranges for the blob object

    What [do_fetch_chunks] relies on of the range map: it does not change which chunks are ready,
    and it reports chunks of the range only. *)
Record range_laws (bitmap : RangeMapObj M) : Prop := {
  rl_check m cs c n : ml_wf m -> Forall (ml_knows m) cs -> id_run cs -> head cs = Some c -> n = zlen cs ->
    exists res m', ro_check bitmap (chunk_id c) n m = (Ok res, m') /\ ml_wf m' /\
      (forall d, ml_knows m d -> ml_knows m' d /\ ml_ready m' d = ml_ready m d) /\
      forall ids, res = Some ids -> Forall (fun id => chunk_id c <= id < chunk_id c + n) ids;
  rl_clear m c : ml_wf m -> ml_knows m c -> exists m', ro_clear_pending bitmap (chunk_id c) 1 m = (Ok tt, m') /\ ml_wf m' /\
    forall d, ml_knows m d -> ml_knows m' d /\ ml_ready m' d = ml_ready m d
}.

Variable wait_for_range_ready : Z -> Z -> stM (CacheState M) errno bool.

Definition wait_keeps : Prop := forall cs c s, cache_inv s -> Forall K cs -> id_run cs -> head cs = Some c ->
  match wait_for_range_ready (chunk_id c) (zlen cs) s with (Panic, _) => False | (_, s') => keeps s s' end.

(** A change of the map that is not a change of readiness. *)
Lemma same_ready_keeps m s : cache_inv s -> ml_wf m -> (forall d, ml_knows (cs_map s) d -> ml_knows m d /\ ml_ready m d = ml_ready (cs_map s) d) ->
  keeps s (set_map m s).
Proof.
  intros [I1 I2 I3 I4 I5 I6] Hw Hd. split.
  - split; [done| | |done|done|done]; cbn [cs_map cs_file set_map].
    + intros c Hc. by apply Hd, I2.
    + intros c Hn Hc Hr. rewrite (proj2 (Hd c (I2 c Hc))) in Hr. by apply I3.
  - intros c Hc Hr. cbn. by rewrite (proj2 (Hd c (I2 c Hc))).
Qed.

Lemma clear_status_keeps bitmap l s : range_laws bitmap -> cache_inv s -> Forall K l.*1 ->
  exists s', clear_status bitmap l s = (Ok tt, s') /\ keeps s s'.
Proof.
  intros Hb. revert s. induction l as [|[c b] l IH]; intros s Hi Hk; [exists s; split; [done|by apply keeps_refl]|]. apply Forall_cons in Hk as [Hc Hk]. cbn [fst] in Hc.
  assert (exists s1, (if b then on_map (ro_clear_pending bitmap (chunk_id c) 1) else st_ret tt) s = (Ok tt, s1) /\ keeps s s1) as (s1 & E1 & Hk1).
  { destruct b; [|exists s; split; [done|by apply keeps_refl]]. destruct (rl_clear _ Hb (cs_map s) c (ci_wf _ _ _ _ Hi) (ci_knows _ _ _ _ Hi c Hc)) as (m' & E & Hw & Hd).
    unfold on_map. rewrite E. eexists. split; [done|]. by apply same_ready_keeps. }
  destruct (IH s1 (proj1 Hk1) Hk) as (s2 & E2 & Hk2). exists s2. split; [|by eapply keeps_trans].
  unfold clear_status in *. cbn [st_for]. unfold mbind, stM_bind, st_bind. cbn [fst snd]. by rewrite E1.
Qed.

Hypothesis no_dio : fe_dio_enabled self = false.

Lemma persist_buf_keeps c zran s : cache_inv s -> K c -> exists s', persist_buf self c zran (plain img c) s = (Ok tt, s') /\ keeps s s'.
Proof.
  intros Hi Hc. unfold persist_buf, mbind, stM_bind, st_bind, st_lift. rewrite no_dio.
  destruct (persist_chunk_plain cx self reader slice_write blob img K setup c s Hi Hc) as (s' & E & Hk & _). by exists s'.
Qed.

Lemma persist_fetched_run bitmap start size l pre ds s : 0 <= start -> 0 <= size -> start + size <= zlen blob -> cache_inv s -> Forall K l.*1 ->
  Forall (fun c => start <= chunk_c_offset c /\ c_limit c <= start + size) l.*1 ->
  fetched blob start size ds -> cd_chunks ds = pre ++ l.*1 -> cd_chunk_idx ds = length pre ->
  exists s', persist_fetched cx self bitmap l ds s = (Ok tt, s') /\ keeps s s'.
Proof.
  intros R0 R1 R2. destruct (su_mode _ _ _ _ _ _ _ setup) as (_ & Hz & _). destruct (su_sizes _ _ _ _ _ _ _ setup) as [S1 _].
  revert pre ds s. induction l as [|[c b] l IH]; intros pre ds s Hi Hk Hin Hd Hc Hidx.
  { exists s. split; [done|]. by apply keeps_refl. }
  apply Forall_cons in Hk as [Hk1 Hk]. apply Forall_cons in Hin as [[Hin1 Hin2] Hin]. cbn [persist_fetched]. unfold cd_next. cbn [fst fmap list_fmap] in *.
  rewrite Hc, Hidx, list_lookup_middle, Hz by done. set (ds1 := mkCDS _ _ _ _ _ _).
  assert (fetched blob start size ds1) as Hd1 by exact Hd.
  rewrite (next_buf_plain cx cache blob (plain img) start size) by (done || lia || by apply (su_chunk _ _ _ _ _ _ _ setup)).
  assert (exists s1, (if b then persist_buf self c false (plain img c) else st_ret tt) s = (Ok tt, s1) /\ keeps s s1) as (s1 & E1 & Hk1').
  { destruct b; [by apply persist_buf_keeps|]. exists s. split; [done|by apply keeps_refl]. }
  unfold mbind, stM_bind, st_bind. rewrite E1.
  destruct (IH (pre ++ [c]) ds1 s1) as (s2 & E2 & Hk2); [apply Hk1'|done|done|done|cbn; by rewrite <- app_assoc|cbn; rewrite length_app; cbn; lia|].
  exists s2. split; [exact E2|]. by eapply keeps_trans.
Qed.

(** *** The pending chunks *)

Lemma mark_status_Ok i n pending status : zlen status = n -> n < 2 ^ 32 -> 0 <= i -> Forall (fun id => i <= id < i + n) pending -> i + n <= 2 ^ 32 ->
  exists status', mark_status i pending status = Ok status' /\ length status' = length status.
Proof.
  intros Hl Hn Hi Hp Hm. revert status Hl. induction Hp as [|id pending Hid _ IH]; intros status Hl; [by exists status|].
  cbn [mark_status]. rewrite usub_in by (split; lia). cbn [mbind outcome_bind]. rewrite (proj2 (Z.ltb_lt _ _)) by lia. cbn [rassert mbind outcome_bind].
  destruct (IH (<[Z.to_nat (id - i) := true]> status)) as (st' & -> & E); [unfold zlen in *; by rewrite length_insert|]. rewrite length_insert in E. by exists st'.
Qed.

Lemma fetch_bounds_inside i n pending : 0 < n < 2 ^ 32 -> Forall (fun id => i <= id < i + n) pending ->
  match fetch_bounds self i pending with Some (start, end_) => (start <= end_)%nat /\ Z.of_nat end_ < n | None => True end.
Proof.
  intros Hn Hp. unfold fetch_bounds. destruct (su_mode _ _ _ _ _ _ _ setup) as (_ & -> & _).
  assert (Forall (fun x => 0 <= x < n) ((fun id => id - i) <$> pending)) as Hl by (apply Forall_fmap; eapply Forall_impl; [exact Hp|]; cbn; lia).
  generalize dependent ((fun id => id - i) <$> pending). intros l Hl.
  assert (0 <= foldr Z.max 0 l < n) as He by (induction Hl as [|x l Hx _ IH]; cbn; lia).
  assert (0 <= foldr Z.min u32_MAX l) as Hs by (clear He; induction Hl as [|x l Hx _ IH]; cbn; unfold u32_MAX in *; lia).
  destruct (Z.ltb_spec (foldr Z.max 0 l) (foldr Z.min u32_MAX l)); [done|]. lia.
Qed.

Lemma id_run_part cs i n : id_run cs -> id_run (take n (drop i cs)).
Proof.
  assert (forall cs, id_run cs <-> forall j c d, cs !! j = Some c -> cs !! S j = Some d -> chunk_id d = chunk_id c + 1) as Hiff.
  { intros l. induction l as [|c [|d l] IH]; [done|by split; [intros _ [|j] ? ? [=]|]|]. cbn [id_run]. rewrite IH. split.
    - intros [E Hl] [|j] x y Hx Hy; [injection Hx as <-; injection Hy as <-; done|by apply (Hl j)].
    - intros Hl. split; [by apply (Hl 0%nat)|]. intros j x y Hx Hy. by apply (Hl (S j)). }
  rewrite !Hiff. intros Hr j c d Hc Hd. apply lookup_take_Some in Hc as [Hc _]. apply lookup_take_Some in Hd as [Hd _].
  rewrite lookup_drop in Hc, Hd. rewrite Nat.add_succ_r in Hd. by apply (Hr (i + j)%nat).
Qed.

Lemma run_ids_bound cs c : Forall K cs -> id_run cs -> head cs = Some c -> chunk_id c + zlen cs <= 2 ^ 32.
Proof.
  intros Hk. revert c. induction Hk as [|d cs Hd Hcs IH]; intros c Hr Hh; [done|]. injection Hh as ->. pose proof (io_ids order c Hd) as Hid.
  destruct cs as [|e cs]; [unfold zlen; cbn; lia|]. destruct Hr as [E Hr]. specialize (IH e Hr eq_refl). unfold zlen in *. cbn [length] in *. lia.
Qed.

Lemma consecutive_run cs : Forall K cs -> id_run cs -> consecutive cs = Ok tt.
Proof.
  induction 1 as [|c cs Hc Hcs IH]; intros Hr; [done|]. destruct cs as [|d cs]; [done|]. destruct Hr as [E Hr]. pose proof (io_ids order c Hc) as Hid.
  specialize (IH Hr). cbn [consecutive] in IH |- *. rewrite (uadd_in 32 (chunk_id c)) by (split; lia). cbn [mbind outcome_bind].
  rewrite (proj2 (Z.eqb_eq _ _)) by done. exact IH.
Qed.

(** An operation that does not panic and keeps the invariant. *)
Definition safely {A} s (r : io A * CacheState M) : Prop := match r with (Panic, _) => False | (_, s') => keeps s s' end.

Lemma safely_bind {A B} (m : stM (CacheState M) errno A) (k : A -> stM (CacheState M) errno B) s : safely s (m s) ->
  (forall a s', m s = (Ok a, s') -> keeps s s' -> safely s' (k a s')) -> safely s ((x ← m; k x) s).
Proof.
  intros Hm Hk. unfold mbind, stM_bind, st_bind. destruct (m s) as [[a|e|] s'] eqn:E; [|exact Hm|done]. specialize (Hk a s' eq_refl Hm).
  unfold safely in *. destruct (k a s') as [[v|e|] s2]; [|..|done]; by eapply keeps_trans.
Qed.

Lemma fetch_chunks_safe bitmap cs status start end_ s : range_laws bitmap -> cache_inv s -> Forall K cs -> id_run cs -> length status = length cs ->
  (start <= end_ < length cs)%nat -> safely s (fetch_chunks cx self reader bitmap cs status start end_ s).
Proof.
  intros Hb Hi Hk Hr Hl He. unfold fetch_chunks. set (part := take (S (end_ - start)) (drop start cs)).
  assert (length part = S (end_ - start)) as Hpl by (unfold part; rewrite length_take, length_drop; lia).
  assert (Forall K part) as Hkp by (by apply Forall_take, Forall_drop). assert (id_run part) as Hrp by (by apply id_run_part).
  unfold mbind at 1, stM_bind at 1, st_bind at 1, st_lift at 1. rewrite (proj2 (Nat.ltb_lt _ _)) by lia. cbn [rassert].
  unfold mbind at 1, stM_bind at 1, st_bind at 1, st_lift at 1.
  destruct (run_range part Hkp Hrp ltac:(by intros E; rewrite E in Hpl)) as [(off & size & -> & Hs & Hf)|[-> _]]; [|by apply keeps_refl].
  pose proof (read_region cx self reader slice_write blob img K setup _ _ _ Hf) as Hrd. cbn [r_blob_address r_blob_len] in Hrd.
  unfold mbind at 1, stM_bind at 1, st_bind at 1, st_try at 1, st_lift at 1.
  destruct (read_chunks_from_backend reader off size part) as [ds|e|]; [|apply safely_bind|done].
  - destruct Hrd as (H1 & H2 & H3). rewrite (proj1 (su_mode _ _ _ _ _ _ _ setup)). destruct (fr_range _ _ _ _ _ Hf) as (R0 & R1 & R2). cbn in R0, R1, R2.
    assert ((zip part (drop start status)).*1 = part) as Ez by (apply fst_zip; rewrite length_drop; lia).
    destruct (persist_fetched_run bitmap off size (zip part (drop start status)) [] ds s R0 R1 R2 Hi) as (s' & -> & Hks); rewrite ?Ez; try done.
    apply (fr_inside _ _ _ _ _ Hf).
  - destruct (clear_status_keeps bitmap (zip cs status) s Hb Hi) as (s' & -> & Hks); [by rewrite fst_zip by lia|exact Hks].
  - intros _ s' _ Hks. by apply keeps_refl, Hks.
Qed.

Lemma retry_chunks_safe cs s : check_keeps self check_ready img K -> cache_inv s -> Forall K cs -> safely s (retry_chunks cx self reader check_ready cs s).
Proof.
  intros Hck. revert s. induction cs as [|c cs IH]; intros s Hi Hk; [by apply keeps_refl|]. apply Forall_cons in Hk as [Hc Hk]. cbn [retry_chunks].
  apply safely_bind; [|intros [] s' _ Hks; by apply IH; [apply Hks|]]. pose proof (Hck c s Hi Hc) as Hchk.
  pose proof (cb_size _ _ _ _ _ (su_chunk _ _ _ _ _ _ _ setup c Hc)) as [_ Hsz]. unfold RAFS_MAX_CHUNK_SIZE in Hsz.
  destruct (check_ready c s) as [[[]|[]|] s1]; try done; [apply Hchk|]. destruct Hchk as [Hk1 _].
  match goal with |- safely s (?f s1) => assert (safely s1 (f s1)) as Hs; [|unfold safely in *; destruct (f s1) as [[v|e|] s2]; [|..|done]; by eapply keeps_trans] end.
  unfold mbind at 1, stM_bind at 1, st_bind at 1, st_lift at 1, alloc_buf, isize_MAX. rewrite (proj2 (Z.ltb_lt _ _)) by lia. cbn [rassert].
  unfold mbind at 1, stM_bind at 1, st_bind at 1, st_try at 1, st_lift at 1.
  destruct (read_chunk_plain cx self reader slice_write blob img K setup c Hc) as [(raw & ->)|[(e & ->) _]].
  - destruct (persist_buf_keeps c false s1 (proj1 Hk1) Hc) as (s2 & -> & Hks). exact Hks.
  - apply clear_keeps, Hk1.
Qed.

Lemma do_fetch_chunks_safe cs prefetch s : check_keeps self check_ready img K -> wait_keeps -> (forall b, mo_range (M := M) = Some b -> range_laws b) ->
  cache_inv s -> Forall K cs -> id_run cs -> cs <> [] -> zlen cs < 2 ^ 32 ->
  safely s (do_fetch_chunks cx self reader check_ready wait_for_range_ready cs prefetch s).
Proof.
  intros Hck Hwait Hlaws Hi Hk Hr Hne Hlen. destruct cs as [|c rest] eqn:Ecs; [done|]. unfold do_fetch_chunks. rewrite <- Ecs in *.
  assert (K c) as Hc by (rewrite Ecs in Hk; by apply Forall_inv in Hk).
  unfold mbind at 1, stM_bind at 1, st_bind at 1, st_lift at 1. rewrite (consecutive_run cs Hk Hr).
  unfold mbind at 1, stM_bind at 1, st_bind at 1, st_lift at 1. destruct (mo_range (M := M)) as [bitmap|]; [|by apply keeps_refl]. cbn [ok_or].
  pose proof (Hlaws bitmap eq_refl) as Hb. pose proof (zlen_nonneg cs) as H0. rewrite wrap_small by (split; lia).
  assert (0 < zlen cs) as Hpos by (rewrite Ecs; unfold zlen; cbn; lia).
  assert (Forall (ml_knows (cs_map s)) cs) as Hkn by (eapply Forall_impl; [exact Hk|]; intros d; apply (ci_knows _ _ _ _ Hi)).
  destruct (rl_check _ Hb (cs_map s) cs c (zlen cs) (ci_wf _ _ _ _ Hi) Hkn Hr ltac:(by rewrite Ecs) eq_refl) as (res & m' & E & Hw & Hd & Hids).
  unfold mbind at 1, stM_bind at 1, st_bind at 1, on_map. rewrite E. pose proof (same_ready_keeps m' s Hi Hw Hd) as Hk1.
  set (s1 := set_map m' s) in *.
  match goal with |- safely s (?f s1) => assert (safely s1 (f s1)) as Hs; [|unfold safely in *; destruct (f s1) as [[v|e|] s2]; [|..|done]; by eapply keeps_trans] end.
  destruct res as [pending|]; [|apply keeps_refl, Hk1]. specialize (Hids pending eq_refl). pose proof (io_ids order c Hc) as Hidc.
  assert (chunk_id c + zlen cs <= 2 ^ 32) as Hend by (apply (run_ids_bound cs c); [done|done|by rewrite Ecs]).
  destruct (mark_status_Ok (chunk_id c) (zlen cs) pending (replicate (Z.to_nat (zlen cs)) false)) as (status & Est & Hst); [unfold zlen; rewrite length_replicate; lia|lia|lia|done|lia|].
  unfold mbind at 1, stM_bind at 1, st_bind at 1, st_lift at 1. rewrite Est. pose proof (fetch_bounds_inside (chunk_id c) (zlen cs) pending ltac:(lia) Hids) as Hbd.
  destruct (fetch_bounds self (chunk_id c) pending) as [[start end_]|]; [|apply keeps_refl, Hk1].
  apply safely_bind; [apply fetch_chunks_safe; try done; [apply Hk1|rewrite Hst, length_replicate; unfold zlen; lia|unfold zlen in *; lia]|].
  intros _ s2 _ Hk2. apply safely_bind; [apply Hwait; [apply Hk2|done|done|by rewrite Ecs]|]. intros ready s3 _ Hk3. destruct ready; [apply keeps_refl, Hk3|].
  destruct prefetch; [apply keeps_refl, Hk3|]. apply retry_chunks_safe; [done|apply Hk3|done].
Qed.
End prefetch.
