(* ===== verification/PersistMap.v ===== *)
(** The persistent chunk bitmap ([storage/src/cache/state/persist_map.rs]).

    A [PersistMap] is a memory-mapped file: a header of one page, then one bit per chunk, most
    significant bit first. The model keeps the bytes of the mapping, which is shared with the
    file, and the [not_ready_count] of the process; disk and [mmap] failures are not modelled.
    [set_chunk_ready] is given both as the sequential function and as the atomic steps its
    threads interleave. *)
From S2P Require Import Prelude Utils.

(** ** Model *)

Definition MAGIC1 : Z := 0x424D4150.
Definition MAGIC2 : Z := 0x434D4150.
Definition MAGIC_ALL_READY : Z := 0x4D4D4150.
Definition HEADER_SIZE : Z := 4096.

(** Little-endian [u32] at a byte offset. *)
Definition u32_bytes (x : Z) : list Z :=
  [Z.land x 0xff; Z.land (Z.shiftr x 8) 0xff; Z.land (Z.shiftr x 16) 0xff; Z.land (Z.shiftr x 24) 0xff].

Definition byte_at (file : list Z) (i : Z) : Z := default 0 (file !! Z.to_nat i).

Definition get_u32 (file : list Z) (off : Z) : Z :=
  byte_at file off + 0x100 * byte_at file (off + 1) + 0x10000 * byte_at file (off + 2)
  + 0x1000000 * byte_at file (off + 3).

(** The fields of [Header] in the mapping. *)
Definition h_magic (file : list Z) : Z := get_u32 file 0.
Definition h_version (file : list Z) : Z := get_u32 file 4.
Definition h_magic2 (file : list Z) : Z := get_u32 file 8.
Definition h_all_ready (file : list Z) : Z := get_u32 file 12.

Definition set_all_ready (x : Z) (file : list Z) : list Z :=
  take 12 file ++ u32_bytes x ++ drop 16 file.

(** [File::set_len]. *)
Definition set_len (size : Z) (file : list Z) : list Z :=
  take (Z.to_nat size) file ++ replicate (Z.to_nat size - length file) 0.

(** [write_header]: the header is written at the start of the file, whose cursor is 0. *)
Definition Header_bytes : list Z :=
  u32_bytes MAGIC1 ++ u32_bytes 1 ++ u32_bytes MAGIC2 ++ u32_bytes 0 ++ replicate 4080 0.

Definition write_header (size : Z) (file : list Z) : list Z :=
  Header_bytes ++ drop 4096 (set_len size file).

Record PersistMap := mkPM { pm_count : Z; pm_not_ready : Z; pm_file : list Z }.

(** [u8::count_ones]. *)
Definition count_ones (x : Z) : Z :=
  Z.b2z (Z.testbit x 0) + Z.b2z (Z.testbit x 1) + Z.b2z (Z.testbit x 2) + Z.b2z (Z.testbit x 3)
  + Z.b2z (Z.testbit x 4) + Z.b2z (Z.testbit x 5) + Z.b2z (Z.testbit x 6) + Z.b2z (Z.testbit x 7).

Section persist.
Context `{Profile}.

(** [OpenOptions::open] with [read], [write(create)], [create(create)] and
    [truncate(!persist)]: the content of the opened file. Truncation needs write access. *)
Definition open_file (file : option (list Z)) (create persist : bool) : io (list Z) :=
  if negb persist && negb create then Err EINVAL
  else match file with
       | None => if create then Ok [] else Err EINVAL
       | Some content => Ok (if persist then content else [])
       end.

(** [for idx in HEADER_SIZE..expected_size]. *)
Fixpoint count_ready (bitmap : list Z) (ready_count : Z) : io Z :=
  match bitmap with
  | [] => Ok ready_count
  | val :: bitmap => r ← uadd 32 ready_count (count_ones val); count_ready bitmap r
  end.

(** [PersistMap::open] on the file [filename] denotes ([None]: no such file): the map, and the
    content of the file afterwards. A map that is not persistent is removed from the directory. *)
Definition open_body (create : bool) (chunk_count expected_size : Z) (file : list Z) : io PersistMap :=
  '(new_content, file) ←
    (if Z.of_nat (length file) =? 0 then
       if negb create then Err ENOENT else Ok (true, write_header expected_size file)
     else if negb (Z.of_nat (length file) =? expected_size) then Err EINVAL
     else Ok (false, file));
  '(new_content, file) ←
    (if negb (h_magic file =? MAGIC1) then
       if negb create then Err ENOENT
       else if existsb (fun c => negb (c =? 0)) file then Err EINVAL
       else Ok (true, write_header expected_size file)
     else Ok (new_content, file));
  '(not_ready_count, file) ←
    (if 1 <=? h_version file then
       if negb (h_magic2 file =? MAGIC2) then Err EINVAL
       else if h_all_ready file =? MAGIC_ALL_READY then Ok (0, file)
       else if (new_content : bool) then Ok (chunk_count, file)
       else
         ready_count ← count_ready (drop (Z.to_nat HEADER_SIZE) file) 0;
         if chunk_count <=? ready_count then Ok (0, set_all_ready MAGIC_ALL_READY file)
         else r ← usub 32 chunk_count ready_count; Ok (r, file)
     else Ok (chunk_count, file));
  Ok (mkPM chunk_count not_ready_count file).

Definition persist_open (file : option (list Z)) (chunk_count : Z) (create persist : bool)
  : io (PersistMap * option (list Z)) :=
  if chunk_count =? 0 then Err EINVAL
  else
    content ← open_file file create persist;
    bitmap_size ← div_round_up chunk_count 8;
    m ← open_body create chunk_count (HEADER_SIZE + bitmap_size) content;
    Ok (m, if persist then Some (pm_file m) else None).

Definition validate_index (m : PersistMap) (idx : Z) : io Z :=
  if idx <? pm_count m then Ok idx else Err EINVAL.

(** [get_ref(start).unwrap()] panics outside the mapping. *)
Definition read_u8 (m : PersistMap) (idx : Z) : io Z :=
  vec_index (pm_file m) (HEADER_SIZE + Z.shiftr idx 3).

Definition index_to_mask (index : Z) : Z :=
  let pos := 8 - (Z.land index 7 + 1) in wrap 8 (Z.shiftl 1 pos).

(** [write_u8]: the compare-and-exchange, with the map after it. *)
Definition write_u8 (m : PersistMap) (idx current : Z) : io (bool * PersistMap) :=
  let mask := index_to_mask idx in
  let expected := Z.lor current mask in
  let start := HEADER_SIZE + Z.shiftr idx 3 in
  v ← vec_index (pm_file m) start;
  if v =? current
  then Ok (true, mkPM (pm_count m) (pm_not_ready m) (<[Z.to_nat start := expected]> (pm_file m)))
  else Ok (false, m).

Definition pm_is_chunk_ready (m : PersistMap) (index : Z) : io (bool * Z) :=
  let mask := index_to_mask index in
  current ← read_u8 m index;
  Ok (Z.land current mask =? mask, current).

(** [not_ready_count.fetch_sub(1)] wraps; the [mark_all_ready] it may trigger only syncs. *)
Definition fetch_sub_not_ready (m : PersistMap) : PersistMap :=
  mkPM (pm_count m) (wrap 32 (pm_not_ready m - 1)) (pm_file m).

(** The loop of [set_chunk_ready]; without other threads one unit of fuel is enough. *)
Fixpoint set_ready_loop (fuel : nat) (index : Z) (m : PersistMap) : io PersistMap :=
  match fuel with
  | O => Panic
  | S fuel =>
      '(ready, current) ← pm_is_chunk_ready m index;
      if (ready : bool) then Ok m
      else
        '(done, m) ← write_u8 m index current;
        if (done : bool) then Ok (fetch_sub_not_ready m) else set_ready_loop fuel index m
  end.

Definition pm_set_chunk_ready (m : PersistMap) (index : Z) : io PersistMap :=
  index ← validate_index m index;
  set_ready_loop 1 index m.

Definition is_range_all_ready (m : PersistMap) : bool := pm_not_ready m =? 0.
End persist.

(** ** Interleaved threads

    Each thread runs [set_chunk_ready] on a validated index: a load, a compare-and-exchange
    that may fail and return to the load, and the decrement of the counter. *)

Inductive pc := PcLoad (i : Z) | PcCas (i current : Z) | PcSub (i : Z) | PcDone (i : Z).

Inductive pm_step : PersistMap * list pc -> PersistMap * list pc -> Prop :=
| step_load_ready m ts t i cur : ts !! t = Some (PcLoad i) ->
    pm_is_chunk_ready m i = Ok (true, cur) -> pm_step (m, ts) (m, <[t := PcDone i]> ts)
| step_load_clear m ts t i cur : ts !! t = Some (PcLoad i) ->
    pm_is_chunk_ready m i = Ok (false, cur) -> pm_step (m, ts) (m, <[t := PcCas i cur]> ts)
| step_cas_ok m ts t i cur m' : ts !! t = Some (PcCas i cur) ->
    write_u8 m i cur = Ok (true, m') -> pm_step (m, ts) (m', <[t := PcSub i]> ts)
| step_cas_fail m ts t i cur m' : ts !! t = Some (PcCas i cur) ->
    write_u8 m i cur = Ok (false, m') -> pm_step (m, ts) (m', <[t := PcLoad i]> ts)
| step_sub m ts t i : ts !! t = Some (PcSub i) ->
    pm_step (m, ts) (fetch_sub_not_ready m, <[t := PcDone i]> ts).

(** ** Bits and counters *)

Definition bit_pos (i : Z) : Z := 7 - i mod 8.
Definition byte_pos (i : Z) : Z := HEADER_SIZE + i / 8.

(** Whether chunk [i] is marked in the mapping. *)
Definition chunk_bit (file : list Z) (i : Z) : bool := Z.testbit (byte_at file (byte_pos i)) (bit_pos i).

Definition bitmap_len (count : Z) : Z := (count + 7) / 8.

(** Chunks not marked. *)
Definition nclear (m : PersistMap) : Z :=
  zcount (fun i => negb (chunk_bit (pm_file m) i)) (seqZ 0 (pm_count m)).

(** The mapping has its header and one bit per chunk, and its padding bits are clear. *)
Record pm_wf (m : PersistMap) : Prop := {
  wf_count : 0 < pm_count m < 2 ^ 32;
  wf_len : Z.of_nat (length (pm_file m)) = HEADER_SIZE + bitmap_len (pm_count m);
  wf_bytes : Forall (in_range 8) (pm_file m);
  wf_padding i : pm_count m <= i < 8 * bitmap_len (pm_count m) -> chunk_bit (pm_file m) i = false
}.

Lemma bit_pos_range i : 0 <= bit_pos i <= 7.
Proof. unfold bit_pos. pose proof (Z.mod_pos_bound i 8). lia. Qed.

Lemma mask_spec i : 0 <= i -> index_to_mask i = 2 ^ bit_pos i.
Proof.
  intros Hi. unfold index_to_mask. change 7 with (Z.ones 3). rewrite Z.land_ones by lia. change (2 ^ 3) with 8.
  pose proof (bit_pos_range i) as Hp. unfold bit_pos in Hp.
  replace (8 - (i mod 8 + 1)) with (bit_pos i) by (unfold bit_pos; lia). rewrite Z.shiftl_1_l.
  apply wrap_small. unfold bit_pos. split; [apply Z.pow_nonneg; lia|].
  apply Z.pow_lt_mono_r; lia.
Qed.

Lemma land_pow2_test v p : 0 <= p -> (Z.land v (2 ^ p) =? 2 ^ p) = Z.testbit v p.
Proof.
  intros Hp. destruct (Z.testbit v p) eqn:E.
  - apply Z.eqb_eq, Z.bits_inj'. intros k Hk. rewrite Z.land_spec, Z.pow2_bits_eqb by done.
    destruct (Z.eqb_spec p k) as [->|]; [by rewrite E|]. by rewrite andb_false_r.
  - apply Z.eqb_neq. intros Hx. apply (f_equal (fun z => Z.testbit z p)) in Hx.
    rewrite Z.land_spec, E, Z.pow2_bits_true in Hx by done. done.
Qed.

Lemma byte_pos_bound count i : 0 <= i < 8 * bitmap_len count ->
  HEADER_SIZE <= byte_pos i < HEADER_SIZE + bitmap_len count.
Proof. intros. unfold byte_pos. pose proof (Z.div_mod i 8). pose proof (Z.mod_pos_bound i 8). lia. Qed.

Lemma count_le_bits count : 0 <= count -> count <= 8 * bitmap_len count < count + 8.
Proof.
  intros. unfold bitmap_len. pose proof (Z.div_mod (count + 7) 8). pose proof (Z.mod_pos_bound (count + 7) 8). lia.
Qed.

Lemma vec_byte_at {E} (file : list Z) i : 0 <= i < Z.of_nat (length file) ->
  @vec_index E _ file i = Ok (byte_at file i).
Proof.
  intros Hi. destruct (vec_index_is_Ok (E:=E) file i Hi) as (b & -> & Hb). unfold byte_at. by rewrite Hb.
Qed.

Lemma byte_at_range file i : Forall (in_range 8) file -> in_range 8 (byte_at file i).
Proof.
  intros Hf. unfold byte_at. destruct (file !! Z.to_nat i) eqn:E; [|by split].
  by eapply Forall_lookup_1 in E.
Qed.

Lemma is_chunk_ready_spec m i : pm_wf m -> 0 <= i < pm_count m ->
  pm_is_chunk_ready m i = Ok (chunk_bit (pm_file m) i, byte_at (pm_file m) (byte_pos i)).
Proof.
  intros Hw Hi. pose proof (count_le_bits (pm_count m)). pose proof (byte_pos_bound (pm_count m) i).
  unfold pm_is_chunk_ready, read_u8. rewrite Z.shiftr_div_pow2 by lia. change (2 ^ 3) with 8.
  fold (byte_pos i). rewrite vec_byte_at by (rewrite (wf_len m Hw); unfold HEADER_SIZE in *; lia).
  cbn [mbind outcome_bind]. rewrite mask_spec by lia. rewrite land_pow2_test by (pose proof (bit_pos_range i); lia).
  done.
Qed.

(** The file with the bit of chunk [i] set. *)
Definition set_bit (i : Z) (file : list Z) : list Z :=
  <[Z.to_nat (byte_pos i) := Z.lor (byte_at file (byte_pos i)) (2 ^ bit_pos i)]> file.

Lemma chunk_bit_set file i j : 0 <= i -> 0 <= j -> byte_pos i < Z.of_nat (length file) ->
  chunk_bit (set_bit i file) j = chunk_bit file j || (j =? i).
Proof.
  intros Hi Hj Hl. unfold chunk_bit, set_bit, byte_at at 1. pose proof (bit_pos_range j). pose proof (bit_pos_range i).
  assert (0 <= i / 8 /\ 0 <= j / 8) as [? ?] by (split; apply Z.div_pos; lia).
  destruct (decide (byte_pos j = byte_pos i)) as [E|E].
  - rewrite E, list_lookup_insert_eq by (unfold byte_pos, HEADER_SIZE in *; lia). cbn [default from_option id].
    rewrite Z.lor_spec, Z.pow2_bits_eqb by lia. f_equal.
    unfold byte_pos, bit_pos in *. pose proof (Z.div_mod i 8). pose proof (Z.div_mod j 8).
    pose proof (Z.mod_pos_bound i 8). pose proof (Z.mod_pos_bound j 8). lia.
  - rewrite list_lookup_insert_ne by (unfold byte_pos, HEADER_SIZE in *; lia). fold (byte_at file (byte_pos j)).
    destruct (Z.eqb_spec j i) as [->|]; [done|]. by rewrite orb_false_r.
Qed.

Lemma set_bit_wf m i n : pm_wf m -> 0 <= i < pm_count m ->
  pm_wf (mkPM (pm_count m) n (set_bit i (pm_file m))).
Proof.
  intros Hw Hi. pose proof (wf_len m Hw) as Hl. pose proof (count_le_bits (pm_count m)).
  pose proof (byte_pos_bound (pm_count m) i ltac:(lia)) as Hb. split; cbn.
  - apply Hw.
  - unfold set_bit. by rewrite length_insert.
  - unfold set_bit. apply Forall_insert; [apply Hw|]. apply in_range_lor; [done| |].
    + apply byte_at_range, Hw.
    + pose proof (bit_pos_range i). split; [apply Z.pow_nonneg; lia|]. apply Z.pow_lt_mono_r; lia.
  - intros j Hj. rewrite chunk_bit_set by lia. rewrite (wf_padding m Hw) by done. cbn. lia.
Qed.

Lemma nclear_set_bit m i n : pm_wf m -> 0 <= i < pm_count m -> chunk_bit (pm_file m) i = false ->
  nclear (mkPM (pm_count m) n (set_bit i (pm_file m))) = nclear m - 1.
Proof.
  intros Hw Hi Hc. pose proof (wf_len m Hw) as Hl. pose proof (count_le_bits (pm_count m)).
  pose proof (byte_pos_bound (pm_count m) i ltac:(lia)) as Hb.
  unfold nclear; cbn. apply zcount_flip with (x := i).
  - apply NoDup_seqZ.
  - apply elem_of_seqZ. lia.
  - by rewrite Hc.
  - rewrite chunk_bit_set by lia. by rewrite Z.eqb_refl, orb_true_r.
  - intros y Hy Hne. apply elem_of_seqZ in Hy. rewrite chunk_bit_set by lia.
    destruct (Z.eqb_spec y i); [done|]. by rewrite orb_false_r.
Qed.

Lemma write_u8_spec m i current : pm_wf m -> 0 <= i < pm_count m ->
  write_u8 m i current =
    if byte_at (pm_file m) (byte_pos i) =? current
    then Ok (true, mkPM (pm_count m) (pm_not_ready m) (set_bit i (pm_file m))) else Ok (false, m).
Proof.
  intros Hw Hi. pose proof (count_le_bits (pm_count m)). pose proof (byte_pos_bound (pm_count m) i).
  unfold write_u8. rewrite Z.shiftr_div_pow2 by lia. change (2 ^ 3) with 8. fold (byte_pos i).
  rewrite vec_byte_at by (rewrite (wf_len m Hw); unfold HEADER_SIZE in *; lia).
  cbn [mbind outcome_bind]. rewrite mask_spec by lia. destruct (Z.eqb_spec (byte_at (pm_file m) (byte_pos i)) current) as [<-|]; done.
Qed.

Lemma header_set_bit file i : 0 <= i -> take (Z.to_nat HEADER_SIZE) (set_bit i file) = take (Z.to_nat HEADER_SIZE) file.
Proof.
  intros Hi. apply take_insert_ge. unfold byte_pos. assert (0 <= i / 8) by (apply Z.div_pos; lia).
  unfold HEADER_SIZE. lia.
Qed.

(** The counter is exact: the state between calls without other threads. *)
Definition pm_exact (m : PersistMap) : Prop := pm_wf m /\ pm_not_ready m = nclear m.

Lemma nclear_range m : pm_wf m -> 0 <= nclear m <= pm_count m.
Proof.
  intros Hw. pose proof (zcount_range (fun i => negb (chunk_bit (pm_file m) i)) (seqZ 0 (pm_count m))) as Hz.
  rewrite length_seqZ in Hz. pose proof (wf_count m Hw). unfold nclear. lia.
Qed.

Lemma set_bit_exact m i : pm_exact m -> 0 <= i < pm_count m -> chunk_bit (pm_file m) i = false ->
  pm_exact (mkPM (pm_count m) (wrap 32 (pm_not_ready m - 1)) (set_bit i (pm_file m))).
Proof.
  intros [Hw He] Hi Hb. pose proof (set_bit_wf m i (wrap 32 (pm_not_ready m - 1)) Hw Hi) as Hw'.
  split; [done|]. pose proof (nclear_range _ Hw') as Hr. rewrite nclear_set_bit in * by done.
  cbn in *. rewrite He. apply wrap_small. pose proof (wf_count m Hw). unfold in_range. lia.
Qed.

Lemma set_chunk_ready_Ok m i : pm_exact m -> 0 <= i < pm_count m ->
  exists m', pm_set_chunk_ready m i = Ok m' /\ pm_exact m' /\ pm_count m' = pm_count m /\
    take (Z.to_nat HEADER_SIZE) (pm_file m') = take (Z.to_nat HEADER_SIZE) (pm_file m) /\
    forall j, 0 <= j < pm_count m -> chunk_bit (pm_file m') j = chunk_bit (pm_file m) j || (j =? i).
Proof.
  intros [Hw He] Hi. unfold pm_set_chunk_ready, validate_index.
  destruct (Z.ltb_spec i (pm_count m)); [|lia]. cbn [mbind outcome_bind set_ready_loop].
  rewrite is_chunk_ready_spec by (done || lia). cbn [mbind outcome_bind].
  destruct (chunk_bit (pm_file m) i) eqn:Hb.
  - exists m. split_and!; try done. intros j Hj. destruct (Z.eqb_spec j i) as [->|]; [by rewrite Hb|].
    by rewrite orb_false_r.
  - rewrite write_u8_spec, Z.eqb_refl by (done || lia). cbn [mbind outcome_bind]. eexists. split; [done|].
    unfold fetch_sub_not_ready; cbn. split_and!; [by apply set_bit_exact | done | apply header_set_bit; lia |].
    intros j Hj. pose proof (wf_len m Hw) as Hl. pose proof (count_le_bits (pm_count m)).
    pose proof (byte_pos_bound (pm_count m) i ltac:(lia)). by rewrite chunk_bit_set by lia.
Qed.

Lemma set_chunk_ready_Err m i : pm_count m <= i -> pm_set_chunk_ready m i = Err EINVAL.
Proof. intros. unfold pm_set_chunk_ready, validate_index. by destruct (Z.ltb_spec i (pm_count m)); [lia|]. Qed.

(** [set_chunk_ready] rejects an index past the last chunk and otherwise always succeeds: it
    marks that chunk, leaves every other chunk and the header as they were, keeps the padding
    bits clear and keeps the counter equal to the number of chunks that are not ready. *)
Theorem set_chunk_ready_spec m i : pm_exact m -> 0 <= i ->
  if i <? pm_count m then
    exists m', pm_set_chunk_ready m i = Ok m' /\ pm_exact m' /\ pm_count m' = pm_count m /\
      take (Z.to_nat HEADER_SIZE) (pm_file m') = take (Z.to_nat HEADER_SIZE) (pm_file m) /\
      forall j, 0 <= j < pm_count m -> chunk_bit (pm_file m') j = chunk_bit (pm_file m) j || (j =? i)
  else pm_set_chunk_ready m i = Err EINVAL.
Proof.
  intros He Hi. destruct (Z.ltb_spec i (pm_count m)); [by apply set_chunk_ready_Ok|].
  by apply set_chunk_ready_Err.
Qed.

(** ** Interleaved threads: the counter never lags behind the bits *)

Definition is_sub (p : pc) : bool := match p with PcSub _ => true | _ => false end.

Definition thread_ok (m : PersistMap) (p : pc) : Prop :=
  match p with
  | PcLoad i => 0 <= i < pm_count m
  | PcCas i cur => 0 <= i < pm_count m /\ Z.testbit cur (bit_pos i) = false
  | PcSub i | PcDone i => 0 <= i < pm_count m /\ chunk_bit (pm_file m) i = true
  end.

Record conc_inv (s : PersistMap * list pc) : Prop := {
  ci_wf : pm_wf s.1;
  ci_count : pm_not_ready s.1 = nclear s.1 + zcount is_sub s.2;
  ci_le : pm_not_ready s.1 <= pm_count s.1;
  ci_threads : Forall (thread_ok s.1) s.2
}.

Lemma thread_ok_set_bit m i n p : pm_wf m -> 0 <= i < pm_count m -> thread_ok m p ->
  thread_ok (mkPM (pm_count m) n (set_bit i (pm_file m))) p.
Proof.
  intros Hw Hi. pose proof (wf_len m Hw) as Hl. pose proof (count_le_bits (pm_count m)).
  pose proof (byte_pos_bound (pm_count m) i ltac:(lia)).
  destruct p; cbn; try done; intros [Hr Hb]; (split; [done|]); rewrite chunk_bit_set by lia; by rewrite Hb.
Qed.

Lemma conc_inv_step s s' : conc_inv s -> pm_step s s' -> conc_inv s' /\ pm_count s'.1 = pm_count s.1.
Proof.
  intros [Hw Hc Hl Ht] Hs. destruct Hs as [m ts t i cur E Hx|m ts t i cur E Hx|m ts t i cur m' E Hx|m ts t i cur m' E Hx|m ts t i E];
    cbn in *; pose proof (Forall_lookup_1 _ _ _ _ Ht E) as Hi; cbn in Hi.
  - rewrite is_chunk_ready_spec in Hx by done. injection Hx as Hb <-. split; [|done]. split; cbn; try done.
    + rewrite (zcount_insert _ _ _ _ _ E). cbn. lia.
    + by apply Forall_insert.
  - rewrite is_chunk_ready_spec in Hx by done. injection Hx as Hb <-. split; [|done]. split; cbn; try done.
    + rewrite (zcount_insert _ _ _ _ _ E). cbn. lia.
    + by apply Forall_insert.
  - destruct Hi as [Hi Hb]. rewrite write_u8_spec in Hx by done.
    destruct (Z.eqb_spec (byte_at (pm_file m) (byte_pos i)) cur) as [<-|]; [|done]. injection Hx as <-.
    split; [|done]. split; cbn; try done.
    + by apply set_bit_wf.
    + rewrite (zcount_insert _ _ _ _ _ E), (nclear_set_bit m i) by done. cbn. lia.
    + apply Forall_insert; [eapply Forall_impl; [exact Ht|]; intros p; by apply thread_ok_set_bit|].
      cbn. split; [done|]. pose proof (wf_len m Hw) as Hln. pose proof (count_le_bits (pm_count m)).
      pose proof (byte_pos_bound (pm_count m) i ltac:(lia)). rewrite chunk_bit_set by lia.
      by rewrite Z.eqb_refl, orb_true_r.
  - destruct Hi as [Hi Hb]. rewrite write_u8_spec in Hx by done.
    destruct (_ =? _); [done|]. injection Hx as <-. split; [|done]. split; cbn; try done.
    + rewrite (zcount_insert _ _ _ _ _ E). cbn. lia.
    + by apply Forall_insert.
  - pose proof (zcount_insert is_sub ts t (PcSub i) (PcDone i) E) as Hz. cbn in Hz.
    pose proof (zcount_range is_sub (<[t := PcDone i]> ts)) as Hr. pose proof (nclear_range m Hw).
    pose proof (wf_count m Hw). split; [|done].
    assert (wrap 32 (pm_not_ready m - 1) = pm_not_ready m - 1) as Hwr by (apply wrap_small; unfold in_range; lia).
    split; cbn; rewrite ?Hwr.
    + by destruct Hw; split.
    + unfold nclear in *. cbn. lia.
    + lia.
    + apply Forall_insert; [|done]. eapply Forall_impl; [exact Ht|]. by intros [].
Qed.

(** C7: under every interleaving of threads that run [set_chunk_ready], started on a map whose
    counter is exact, the counter never underflows and never drops below the number of chunks
    that are not ready, so [is_range_all_ready] implies that every chunk is marked; a thread
    that has returned has its chunk marked; and when all of them have, the counter is exact. *)
Theorem concurrent_set_chunk_ready m0 idx m ts :
  pm_exact m0 -> Forall (fun i => 0 <= i < pm_count m0) idx ->
  rtc pm_step (m0, PcLoad <$> idx) (m, ts) ->
  pm_count m = pm_count m0 /\ nclear m <= pm_not_ready m <= pm_count m /\
  (is_range_all_ready m = true -> forall i, 0 <= i < pm_count m -> chunk_bit (pm_file m) i = true) /\
  (forall i, PcDone i ∈ ts -> chunk_bit (pm_file m) i = true) /\
  (Forall (fun p => exists i, p = PcDone i) ts -> pm_exact m).
Proof.
  intros [Hw He] Hidx Hsteps.
  assert (conc_inv (m0, PcLoad <$> idx)) as Hinit.
  { split; cbn; [done| | |].
    - rewrite He. assert (zcount is_sub (PcLoad <$> idx) = 0) as ->; [|lia].
      apply zcount_0. intros p Hp. by apply list_elem_of_fmap in Hp as (i & -> & _).
    - rewrite He. apply nclear_range, Hw.
    - apply Forall_fmap. done. }
  assert (conc_inv (m, ts) /\ pm_count m = pm_count m0) as [Hinv Hcnt].
  { clear Hw He Hidx. remember (m0, PcLoad <$> idx) as s0. remember (m, ts) as s1.
    assert (pm_count m = pm_count s1.1 /\ pm_count m0 = pm_count s0.1) as [-> ->] by (by subst).
    clear Heqs0 Heqs1. induction Hsteps as [|s s' s'' Hs _ IH]; [done|].
    apply conc_inv_step in Hs as [Hs Hc]; [|done]. apply IH in Hs as [Hs Hc']. split; congruence. }
  destruct Hinv as [Hw' Hc Hl Ht]. cbn in *. pose proof (zcount_range is_sub ts).
  split; [done|]. split; [lia|]. split; [|split].
  - unfold is_range_all_ready. intros Hall i Hi. pose proof (nclear_range m Hw').
    assert (nclear m = 0) as Hn by lia. unfold nclear in Hn. rewrite zcount_0 in Hn. specialize (Hn i).
    apply negb_false_iff, Hn, elem_of_seqZ. lia.
  - intros i Hi. rewrite Forall_forall in Ht. by apply Ht in Hi as [_ ?].
  - intros Hd. split; [done|]. assert (zcount is_sub ts = 0) as Hz; [|lia].
    apply zcount_0. intros p Hp. rewrite Forall_forall in Hd. by apply Hd in Hp as [i ->].
Qed.

(** ** Opening and reopening *)

(** Bit [i] of a bitmap, most significant bit of each byte first. *)
Definition bitmap_bit (l : list Z) (i : Z) : bool := Z.testbit (byte_at l (i / 8)) (bit_pos i).

Lemma chunk_bit_drop file i : 0 <= i -> chunk_bit file i = bitmap_bit (drop (Z.to_nat HEADER_SIZE) file) i.
Proof.
  intros Hi. unfold chunk_bit, bitmap_bit, byte_at, byte_pos. rewrite lookup_drop. f_equal. do 3 f_equal.
  assert (0 <= i / 8) by (apply Z.div_pos; lia). unfold HEADER_SIZE. lia.
Qed.

Lemma bitmap_bit_shift b l i : 0 <= i -> bitmap_bit (b :: l) (8 + i) = bitmap_bit l i.
Proof.
  intros Hi. unfold bitmap_bit, bit_pos, byte_at. replace (8 + i) with (i + 1 * 8) by lia.
  rewrite Z.div_add, Z.mod_add by lia. assert (0 <= i / 8) by (apply Z.div_pos; lia).
  replace (Z.to_nat (i / 8 + 1)) with (S (Z.to_nat (i / 8))) by lia. done.
Qed.

Lemma zcount_shift (P : Z -> bool) a b n : 0 <= n ->
  zcount P (seqZ (a + b) n) = zcount (fun i => P (a + i)) (seqZ b n).
Proof.
  intros Hn. remember (Z.to_nat n) as k eqn:Hk. revert b n Hn Hk. induction k as [|k IH]; intros b n Hn Hk.
  - assert (n = 0) as -> by lia. done.
  - rewrite !(seqZ_cons _ n) by lia. cbn. f_equal. rewrite <- IH by lia. f_equal. f_equal. lia.
Qed.

Definition sum_ones (l : list Z) : Z := foldr (fun v s => count_ones v + s) 0 l.

Lemma count_ones_bits b l : zcount (bitmap_bit (b :: l)) (seqZ 0 8) = count_ones b.
Proof.
  assert (forall k, 0 <= k < 8 -> bitmap_bit (b :: l) k = Z.testbit b (7 - k)) as Hk.
  { intros k Hk. unfold bitmap_bit, byte_at, bit_pos. by rewrite Z.div_small, Z.mod_small. }
  change (seqZ 0 8) with [0; 1; 2; 3; 4; 5; 6; 7]. cbn [zcount]. rewrite !Hk by lia. unfold count_ones.
  replace (7 - 0) with 7 by lia. replace (7 - 1) with 6 by lia. replace (7 - 2) with 5 by lia.
  replace (7 - 3) with 4 by lia. replace (7 - 4) with 3 by lia. replace (7 - 5) with 2 by lia.
  replace (7 - 6) with 1 by lia. replace (7 - 7) with 0 by lia. lia.
Qed.

Lemma sum_ones_bits l : sum_ones l = zcount (bitmap_bit l) (seqZ 0 (8 * Z.of_nat (length l))).
Proof.
  induction l as [|b l IH]; [done|]. cbn [sum_ones foldr length]. fold (sum_ones l). rewrite IH.
  replace (8 * Z.of_nat (S (length l))) with (8 + 8 * Z.of_nat (length l)) by lia.
  rewrite seqZ_app by lia. rewrite zcount_app, count_ones_bits. f_equal.
  change (0 + 8) with (8 + 0). rewrite zcount_shift by lia. apply zcount_ext. intros i Hi.
  apply elem_of_seqZ in Hi. symmetry. apply bitmap_bit_shift. lia.
Qed.

Lemma count_ones_range b : 0 <= count_ones b.
Proof. unfold count_ones. repeat apply Z.add_nonneg_nonneg; (destruct (Z.testbit _ _); done). Qed.

Lemma count_ready_Ok `{Profile} l n : 0 <= n -> n + sum_ones l < 2 ^ 32 ->
  count_ready l n = Ok (n + sum_ones l).
Proof.
  revert n. induction l as [|b l IH]; intros n Hn Hs; cbn [count_ready sum_ones foldr] in *.
  - f_equal. lia.
  - fold (sum_ones l) in *. pose proof (count_ones_range b). assert (0 <= sum_ones l).
    { rewrite sum_ones_bits. apply zcount_range. }
    rewrite uadd_in by (unfold in_range; lia). cbn [mbind outcome_bind]. rewrite IH by lia. f_equal. lia.
Qed.

Lemma zcount_negb {A} (P : A -> bool) l : zcount P l + zcount (fun x => negb (P x)) l = Z.of_nat (length l).
Proof. induction l as [|x l IH]; cbn [zcount length]; [done|]. destruct (P x); cbn; lia. Qed.

(** On a well-formed map the ones of the bitmap are the ready chunks. *)
Lemma sum_ones_ready m : pm_wf m ->
  sum_ones (drop (Z.to_nat HEADER_SIZE) (pm_file m)) = pm_count m - nclear m.
Proof.
  intros Hw. pose proof (wf_count m Hw). pose proof (count_le_bits (pm_count m)).
  rewrite sum_ones_bits, length_drop.
  replace (8 * Z.of_nat (length (pm_file m) - Z.to_nat HEADER_SIZE))
    with (pm_count m + (8 * bitmap_len (pm_count m) - pm_count m))
    by (pose proof (wf_len m Hw); unfold HEADER_SIZE in *; lia).
  rewrite seqZ_app, zcount_app by lia.
  assert (zcount (bitmap_bit (drop (Z.to_nat HEADER_SIZE) (pm_file m)))
    (seqZ (0 + pm_count m) (8 * bitmap_len (pm_count m) - pm_count m)) = 0) as ->.
  { apply zcount_0. intros i Hi. apply elem_of_seqZ in Hi. rewrite <- chunk_bit_drop by lia.
    apply (wf_padding m Hw). lia. }
  rewrite (zcount_ext _ (chunk_bit (pm_file m))).
  - pose proof (zcount_negb (chunk_bit (pm_file m)) (seqZ 0 (pm_count m))) as Hn.
    rewrite length_seqZ in Hn. unfold nclear. lia.
  - intros i Hi. apply elem_of_seqZ in Hi. symmetry. apply chunk_bit_drop. lia.
Qed.

Definition header_ok (file : list Z) : Prop :=
  h_magic file = MAGIC1 /\ 1 <= h_version file /\ h_magic2 file = MAGIC2.

(** The all-ready mark of the header is only set on a complete map. *)
Definition mark_sound (m : PersistMap) : Prop := h_all_ready (pm_file m) = MAGIC_ALL_READY -> nclear m = 0.

Lemma header_byte file file' i : take (Z.to_nat HEADER_SIZE) file' = take (Z.to_nat HEADER_SIZE) file -> 0 <= i < HEADER_SIZE ->
  byte_at file' i = byte_at file i.
Proof.
  intros E Hi. unfold byte_at. rewrite <- (lookup_take_lt file' (Z.to_nat HEADER_SIZE)), <- (lookup_take_lt file (Z.to_nat HEADER_SIZE)) by lia. by rewrite E.
Qed.

(** What a map must be to be opened again. *)
Definition reopenable (m : PersistMap) : Prop := header_ok (pm_file m) /\ mark_sound m.

Lemma set_chunk_ready_reopenable m i m' : pm_exact m -> 0 <= i < pm_count m -> pm_set_chunk_ready m i = Ok m' -> reopenable m -> reopenable m'.
Proof.
  intros He Hi E [Hh Hs]. destruct (set_chunk_ready_Ok m i He Hi) as (m1 & E1 & _ & Hc & Ht & Hb). assert (m1 = m') as -> by congruence.
  assert (forall j, 0 <= j < HEADER_SIZE -> byte_at (pm_file m') j = byte_at (pm_file m) j) as Hj by (intros j; by apply header_byte).
  unfold HEADER_SIZE in Hj. split.
  - unfold header_ok, h_magic, h_version, h_magic2, get_u32 in *. by rewrite !Hj by lia.
  - unfold mark_sound, h_all_ready, get_u32 in *. rewrite !Hj by lia. intros Ha. specialize (Hs Ha). unfold nclear in *. rewrite Hc.
    apply zcount_0. intros j Hin. pose proof (proj1 (elem_of_seqZ _ _ _) Hin) as Hr. rewrite Hb by lia.
    pose proof (proj1 (zcount_0 _ _) Hs j Hin) as Hz. cbn beta in Hz. by destruct (chunk_bit (pm_file m) j).
Qed.

(** The file of a map that has just been created. *)
Definition fresh_file (count : Z) : list Z := Header_bytes ++ replicate (Z.to_nat (bitmap_len count)) 0.

Lemma bitmap_size_Ok `{Profile} count : 0 < count < 2 ^ 32 -> @div_round_up _ errno count 8 = Ok (bitmap_len count).
Proof.
  intros Hc. change 8 with (2 ^ 3). rewrite div_round_up_spec by lia. unfold bitmap_len.
  change (2 ^ 3) with 8. do 2 f_equal. lia.
Qed.

Lemma bitmap_len_pos count : 0 < count < 2 ^ 32 -> 0 < bitmap_len count <= 2 ^ 29.
Proof. intros. pose proof (count_le_bits count). lia. Qed.

Lemma set_all_ready_spec x file : 16 <= Z.of_nat (length file) ->
  length (set_all_ready x file) = length file /\
  drop (Z.to_nat HEADER_SIZE) (set_all_ready x file) = drop (Z.to_nat HEADER_SIZE) file /\
  (forall i, 0 <= i < 12 -> byte_at (set_all_ready x file) i = byte_at file i).
Proof.
  intros Hl. unfold set_all_ready. assert (length (take 12 file) = 12%nat) as H12 by (rewrite length_take; lia).
  split_and!.
  - rewrite !length_app, H12, length_drop. cbn. lia.
  - rewrite app_assoc, drop_app_ge
      by (rewrite length_app, H12; cbn [length u32_bytes]; unfold HEADER_SIZE; lia).
    rewrite drop_drop. f_equal. rewrite length_app, H12. cbn [length u32_bytes]. unfold HEADER_SIZE. lia.
  - intros i Hi. unfold byte_at. rewrite lookup_app_l by lia. by rewrite lookup_take_lt by lia.
Qed.

Lemma set_all_ready_header x file : 16 <= Z.of_nat (length file) ->
  header_ok file -> header_ok (set_all_ready x file).
Proof.
  intros Hl Hh. destruct (set_all_ready_spec x file Hl) as (_ & _ & Hb).
  unfold header_ok, h_magic, h_version, h_magic2, get_u32 in *. rewrite !Hb by lia. done.
Qed.

(** Two mappings with the same bitmap. *)
Lemma same_bitmap_wf m file n : pm_wf m -> length file = length (pm_file m) -> Forall (in_range 8) file ->
  drop (Z.to_nat HEADER_SIZE) file = drop (Z.to_nat HEADER_SIZE) (pm_file m) ->
  pm_wf (mkPM (pm_count m) n file) /\ nclear (mkPM (pm_count m) n file) = nclear m /\
  forall j, 0 <= j -> chunk_bit file j = chunk_bit (pm_file m) j.
Proof.
  intros Hw Hl Hf Hd.
  assert (forall j, 0 <= j -> chunk_bit file j = chunk_bit (pm_file m) j) as Hj.
  { intros j Hj. by rewrite !chunk_bit_drop, Hd by done. }
  split_and!; [|  | done].
  - split; cbn; [apply Hw | rewrite Hl; apply Hw | done |].
    intros i Hi. pose proof (wf_count m Hw). rewrite Hj by lia. by apply (wf_padding m Hw).
  - unfold nclear; cbn. apply zcount_ext. intros i Hi. apply elem_of_seqZ in Hi. by rewrite Hj by lia.
Qed.

Lemma all_ready_bytes file : Forall (in_range 8) file -> Forall (in_range 8) (set_all_ready MAGIC_ALL_READY file).
Proof.
  intros Hf. unfold set_all_ready. apply Forall_app. split; [by apply Forall_take|].
  apply Forall_app. split; [|by apply Forall_drop]. repeat (constructor; [by vm_compute|]). constructor.
Qed.

Lemma open_body_existing `{Profile} m create : pm_wf m -> header_ok (pm_file m) -> mark_sound m ->
  exists file, open_body create (pm_count m) (HEADER_SIZE + bitmap_len (pm_count m)) (pm_file m)
    = Ok (mkPM (pm_count m) (nclear m) file) /\ header_ok file /\
    (file = pm_file m \/ (file = set_all_ready MAGIC_ALL_READY (pm_file m) /\ nclear m = 0)).
Proof.
  intros Hw (Hm1 & Hv & Hm2) Hs. pose proof (wf_len m Hw) as Hl. pose proof (wf_count m Hw).
  pose proof (bitmap_len_pos (pm_count m)). pose proof (nclear_range m Hw). unfold open_body.
  rewrite Hl. assert ((HEADER_SIZE + bitmap_len (pm_count m) =? 0) = false) as -> by (unfold HEADER_SIZE; lia).
  rewrite Z.eqb_refl. cbn [mbind outcome_bind negb]. rewrite Hm1, Z.eqb_refl. cbn [mbind outcome_bind negb].
  assert ((1 <=? h_version (pm_file m)) = true) as -> by lia. rewrite Hm2, Z.eqb_refl. cbn [negb].
  destruct (Z.eqb_spec (h_all_ready (pm_file m)) MAGIC_ALL_READY) as [Ha|Ha].
  { exists (pm_file m). rewrite (Hs Ha). by split_and!; try left. }
  rewrite count_ready_Ok by (rewrite ?sum_ones_ready; done || lia). rewrite sum_ones_ready by done.
  cbn [mbind outcome_bind]. rewrite Z.add_0_l. destruct (Z.leb_spec (pm_count m) (pm_count m - nclear m)).
  - assert (nclear m = 0) as Hn by lia. eexists. rewrite Hn. split; [done|]. split; [|by right].
    apply set_all_ready_header; [rewrite Hl; unfold HEADER_SIZE; lia | done].
  - rewrite usub_in by (unfold in_range; lia). cbn [mbind outcome_bind].
    exists (pm_file m). split; [do 2 f_equal; lia|]. by split; [|left].
Qed.

(** reopening the file of a map restores it: the chunks marked are the same, and the counter
    is recomputed from the bitmap, so it is exact whatever happened to it before. *)
Theorem persist_reopen `{Profile} m create :
  pm_wf m -> header_ok (pm_file m) -> mark_sound m ->
  exists m', persist_open (Some (pm_file m)) (pm_count m) create true = Ok (m', Some (pm_file m')) /\
    pm_count m' = pm_count m /\ pm_exact m' /\ header_ok (pm_file m') /\ mark_sound m' /\
    forall j, 0 <= j < pm_count m -> chunk_bit (pm_file m') j = chunk_bit (pm_file m) j.
Proof.
  intros Hw Hh Hs. pose proof (wf_count m Hw). destruct (open_body_existing m create Hw Hh Hs) as (file & Ho & Hh' & Hf).
  unfold persist_open. assert ((pm_count m =? 0) = false) as -> by lia.
  cbn [negb andb open_file mbind outcome_bind]. rewrite bitmap_size_Ok by lia. cbn [mbind outcome_bind].
  rewrite Ho. cbn [mbind outcome_bind]. eexists. split; [done|]. cbn.
  assert (length file = length (pm_file m) /\ Forall (in_range 8) file /\
    drop (Z.to_nat HEADER_SIZE) file = drop (Z.to_nat HEADER_SIZE) (pm_file m)) as (Hlen & Hby & Hd).
  { destruct Hf as [->|[-> _]]; [split_and!; [done | apply Hw | done]|].
    destruct (set_all_ready_spec MAGIC_ALL_READY (pm_file m)) as (? & ? & _).
    { rewrite (wf_len m Hw). pose proof (bitmap_len_pos (pm_count m)). unfold HEADER_SIZE. lia. }
    split_and!; [done | apply all_ready_bytes, Hw | done]. }
  destruct (same_bitmap_wf m file (nclear m) Hw Hlen Hby Hd) as (Hw' & Hn & Hj).
  split_and!; [done | split; done | done | | intros j [? _]; by apply Hj].
  unfold mark_sound in *. rewrite Hn. cbn. destruct Hf as [->|[_ ->]]; done.
Qed.

Lemma length_Header_bytes : length Header_bytes = 4096%nat.
Proof. by vm_compute. Qed.

Lemma fresh_header count : header_ok (fresh_file count) /\ h_all_ready (fresh_file count) = 0.
Proof. unfold fresh_file. generalize (replicate (Z.to_nat (bitmap_len count)) 0). intros tl. by vm_compute. Qed.

Lemma fresh_bits count i : 0 <= i -> chunk_bit (fresh_file count) i = false.
Proof.
  intros Hi. rewrite chunk_bit_drop by done. unfold fresh_file.
  change (Z.to_nat HEADER_SIZE) with 4096%nat. rewrite <- length_Header_bytes, drop_app_length.
  unfold bitmap_bit, byte_at. destruct (_ !! _) as [b|] eqn:E; cbn; [|by rewrite Z.testbit_0_l].
  apply lookup_replicate in E as [-> _]. by rewrite Z.testbit_0_l.
Qed.

Lemma fresh_exact count : 0 < count < 2 ^ 32 ->
  pm_exact (mkPM count count (fresh_file count)) /\ nclear (mkPM count count (fresh_file count)) = count.
Proof.
  intros Hc. pose proof (bitmap_len_pos count Hc).
  assert (nclear (mkPM count count (fresh_file count)) = count) as Hn.
  { unfold nclear; cbn [pm_file pm_count]. pose proof (zcount_negb (chunk_bit (fresh_file count)) (seqZ 0 count)) as Hz.
    rewrite length_seqZ in Hz. assert (zcount (chunk_bit (fresh_file count)) (seqZ 0 count) = 0) as H0; [|lia].
    apply zcount_0. intros i Hi. apply elem_of_seqZ in Hi. apply fresh_bits. lia. }
  split; [|done]. split; [|done]. split; cbn [pm_count pm_file]; [done| | |].
  - unfold fresh_file. rewrite length_app, length_Header_bytes, length_replicate. unfold HEADER_SIZE. lia.
  - unfold fresh_file. apply Forall_app. split; [by apply (bool_decide_unpack _); vm_compute|].
    apply Forall_replicate. by split.
  - intros i Hi. apply fresh_bits. lia.
Qed.

Lemma write_header_fresh count file : 0 < count < 2 ^ 32 ->
  file = [] \/ file = replicate (Z.to_nat (HEADER_SIZE + bitmap_len count)) 0 ->
  write_header (HEADER_SIZE + bitmap_len count) file = fresh_file count.
Proof.
  intros Hc Hf. pose proof (bitmap_len_pos count Hc). unfold write_header, fresh_file. f_equal.
  assert (set_len (HEADER_SIZE + bitmap_len count) file = replicate (Z.to_nat (HEADER_SIZE + bitmap_len count)) 0) as ->.
  { unfold set_len. destruct Hf as [->| ->].
    - rewrite take_nil. cbn [app length]. f_equal. lia.
    - rewrite take_replicate, length_replicate, Nat.sub_diag, app_nil_r. f_equal. lia. }
  rewrite drop_replicate. f_equal. unfold HEADER_SIZE. lia.
Qed.

Lemma open_body_fresh `{Profile} count file : 0 < count < 2 ^ 32 ->
  file = [] \/ file = replicate (Z.to_nat (HEADER_SIZE + bitmap_len count)) 0 ->
  open_body true count (HEADER_SIZE + bitmap_len count) file = Ok (mkPM count count (fresh_file count)).
Proof.
  intros Hc Hf. pose proof (bitmap_len_pos count Hc). destruct (fresh_header count) as [(Hm1 & Hv & Hm2) Ha].
  unfold open_body. pose proof (write_header_fresh count file Hc Hf) as Hwr. destruct Hf as [->| ->].
  - change (Z.of_nat (length []) =? 0) with true. cbn [negb mbind outcome_bind]. rewrite Hwr, Hm1, Z.eqb_refl.
    cbn [mbind outcome_bind negb]. assert ((1 <=? h_version (fresh_file count)) = true) as -> by lia.
    rewrite Hm2, Z.eqb_refl, Ha. done.
  - assert (0 < HEADER_SIZE + bitmap_len count) as Hpos by (unfold HEADER_SIZE; lia).
    rewrite length_replicate, Z2Nat.id by lia.
    assert ((HEADER_SIZE + bitmap_len count =? 0) = false) as -> by lia. rewrite Z.eqb_refl. cbn [mbind outcome_bind negb].
    assert (forall i, byte_at (replicate (Z.to_nat (HEADER_SIZE + bitmap_len count)) 0) i = 0) as Hz.
    { intros i. unfold byte_at. destruct (_ !! _) as [b|] eqn:E; cbn; [|done]. by apply lookup_replicate in E as [-> _]. }
    assert (h_magic (replicate (Z.to_nat (HEADER_SIZE + bitmap_len count)) 0) = 0) as ->
      by (unfold h_magic, get_u32; by rewrite !Hz).
    change (0 =? MAGIC1) with false. cbn [mbind outcome_bind negb].
    assert (existsb (fun c => negb (c =? 0)) (replicate (Z.to_nat (HEADER_SIZE + bitmap_len count)) 0) = false) as ->.
    { clear. induction (Z.to_nat (HEADER_SIZE + bitmap_len count)) as [|n IH]; [done|exact IH]. }
    cbn [mbind outcome_bind]. rewrite Hwr. assert ((1 <=? h_version (fresh_file count)) = true) as -> by lia.
    rewrite Hm2, Z.eqb_refl, Ha. done.
Qed.

Lemma persist_open_new `{Profile} count file : 0 < count < 2 ^ 32 ->
  file ∈ [None; Some []; Some (replicate (Z.to_nat (HEADER_SIZE + bitmap_len count)) 0)] ->
  persist_open file count true true = Ok (mkPM count count (fresh_file count), Some (fresh_file count)).
Proof.
  intros Hc Hf. unfold persist_open. assert ((count =? 0) = false) as -> by lia.
  assert (exists c, open_file file true true = Ok c /\
    (c = [] \/ c = replicate (Z.to_nat (HEADER_SIZE + bitmap_len count)) 0)) as (c & -> & Hcc).
  { rewrite !elem_of_cons in Hf. destruct Hf as [->|[->|[->|Hf]]]; [by eexists; split; [|left].. | by eexists; split; [|right] |].
    by apply not_elem_of_nil in Hf. }
  cbn [mbind outcome_bind]. rewrite bitmap_size_Ok by done. cbn [mbind outcome_bind].
  rewrite open_body_fresh by done. done.
Qed.

(** opening with [create] a map whose file is missing, empty, or all zero (the race window
    between extending the file and writing the header) succeeds and gives a map with an exact
    counter, a valid header and no chunk ready. *)
Theorem persist_open_fresh `{Profile} count file : 0 < count < 2 ^ 32 ->
  file ∈ [None; Some []; Some (replicate (Z.to_nat (HEADER_SIZE + bitmap_len count)) 0)] ->
  exists m, persist_open file count true true = Ok (m, Some (pm_file m)) /\
    pm_count m = count /\ pm_exact m /\ nclear m = count /\ header_ok (pm_file m) /\ mark_sound m.
Proof.
  intros Hc Hf. exists (mkPM count count (fresh_file count)).
  destruct (fresh_exact count Hc) as [He Hn]. destruct (fresh_header count) as [Hh Ha].
  split; [by apply persist_open_new|do 4 (split; [done|]); unfold mark_sound; cbn [pm_file]; by rewrite Ha].
Qed.

(** ** Witnesses *)

Definition sample_map : PersistMap := mkPM 20 20 (fresh_file 20).

Lemma sample_map_exact : pm_exact sample_map.
Proof. by apply (fresh_exact 20). Qed.

Lemma set_chunk_ready_spec_witness :
  exists m', pm_set_chunk_ready sample_map 13 = Ok m' /\ pm_exact m' /\
    chunk_bit (pm_file m') 13 = true /\ chunk_bit (pm_file m') 12 = false.
Proof.
  pose proof (set_chunk_ready_spec sample_map 13 sample_map_exact ltac:(done)) as Hx.
  cbn [Z.ltb] in Hx. destruct Hx as (m' & E & He & _ & _ & Hb). exists m'.
  split_and!; [exact E | apply He.. | |].
  - rewrite Hb by (cbn [sample_map pm_count]; lia). by vm_compute.
  - rewrite Hb by (cbn [sample_map pm_count]; lia). by vm_compute.
Defined.

(** Two threads on chunks 3 and 4 of one byte: both load, the first exchange succeeds, the
    second fails and is retried. *)
Lemma sample_race : exists m, rtc (pm_step) (sample_map, PcLoad <$> [3; 4]) (m, [PcDone 3; PcDone 4]).
Proof.
  eexists.
  eapply rtc_l; [eapply (step_load_clear _ _ 0%nat 3); [done | vm_compute; reflexivity]|].
  eapply rtc_l; [eapply (step_load_clear _ _ 1%nat 4); [done | vm_compute; reflexivity]|].
  eapply rtc_l; [eapply (step_cas_ok _ _ 0%nat 3); [done | vm_compute; reflexivity]|].
  eapply rtc_l; [eapply (step_cas_fail _ _ 1%nat 4); [done | vm_compute; reflexivity]|].
  eapply rtc_l; [eapply (step_sub _ _ 0%nat 3); done|].
  eapply rtc_l; [eapply (step_load_clear _ _ 1%nat 4); [done | vm_compute; reflexivity]|].
  eapply rtc_l; [eapply (step_cas_ok _ _ 1%nat 4); [done | vm_compute; reflexivity]|].
  eapply rtc_l; [eapply (step_sub _ _ 1%nat 4); done|]. apply rtc_refl.
Qed.

Lemma concurrent_set_chunk_ready_witness :
  exists m, rtc (pm_step) (sample_map, PcLoad <$> [3; 4]) (m, [PcDone 3; PcDone 4]) /\
    pm_exact m /\ chunk_bit (pm_file m) 4 = true.
Proof.
  destruct sample_race as [m Hr]. exists m. split; [exact Hr|].
  destruct (concurrent_set_chunk_ready sample_map [3; 4] m [PcDone 3; PcDone 4]
    sample_map_exact) as (_ & _ & _ & Hd & He); [by repeat constructor | exact Hr |].
  split; [apply He; by repeat (constructor; [by eexists|]) | apply Hd; right; left].
Defined.

Lemma persist_reopen_witness :
  exists m', @persist_open dev_profile (Some (fresh_file 20)) 20 false true = Ok (m', Some (pm_file m')) /\ pm_exact m'.
Proof.
  destruct (@persist_reopen dev_profile sample_map false) as (m' & E & _ & He & _).
  - apply sample_map_exact.
  - apply (fresh_header 20).
  - intros Ha. vm_compute in Ha. discriminate.
  - exists m'. split; [exact E | exact He].
Defined.

Lemma persist_open_fresh_witness :
  exists m, @persist_open dev_profile (Some []) 20 true true = Ok (m, Some (pm_file m)) /\ nclear m = 20.
Proof.
  destruct (@persist_open_fresh dev_profile 20 (Some [])) as (m & E & _ & _ & Hn & _);
    [done | right; left |]. exists m. split; [exact E | exact Hn].
Defined.
