(* ===== verification/ChunkMaps.v ===== *)
(** Chunk and range state maps ([storage/src/cache/state/mod.rs], [indexed_chunk_map.rs],
    [range_map.rs], [digested_chunk_map.rs], [noop_chunk_map.rs]).

    The [ChunkMap] trait is a class over the type of the map, its default methods are the
    definitions over the class, and [ChunkMapLaws] is what [BlobStateMap] relies on: a map that
    is well formed answers [is_ready] from a view of its state, and [set_ready] marks exactly
    one index of the view. The indexed and the digested map discharge the laws. *)
From S2P Require Import Prelude Utils ChunkInfo Device PersistMap.

(** ** The traits *)

(** [ChunkMap] with the [ChunkIndexGetter] of the same type; [&self] methods over interior
    mutability return the new state. *)
Class ChunkMap (C I : Type) := {
  cm_is_ready : C -> ChunkDesc -> io bool;
  cm_set_ready : C -> ChunkDesc -> outcome errno C;
  cm_get_index : ChunkDesc -> I;
  cm_is_persist : bool
}.

(** ** [IndexedChunkMap] *)

Section indexed.
Context `{Profile}.

(** [{ map: PersistMap }]. *)
Definition IndexedChunkMap : Type := PersistMap.

(** [IndexedChunkMap::new] and [open]: the chunk map file of the blob. *)
Definition IndexedChunkMap_new (file : option (list Z)) (chunk_count : Z) (persist : bool)
  : io (IndexedChunkMap * option (list Z)) := persist_open file chunk_count true persist.

Definition IndexedChunkMap_open (file : option (list Z)) (b : BlobInfo)
  : io (IndexedChunkMap * option (list Z)) := persist_open file (bi_chunk_count b) false true.

Definition idx_is_ready (m : IndexedChunkMap) (chunk : ChunkDesc) : io bool :=
  if is_range_all_ready m then Ok true
  else
    index ← validate_index m (chunk_id chunk);
    '(ready, _) ← pm_is_chunk_ready m index;
    Ok ready.

(** [for idx in 0..count], [idxs] what is left of the range. *)
Fixpoint idx_range_loop (m : IndexedChunkMap) (start_index : Z) (idxs : list Z) : io bool :=
  match idxs with
  | [] => Ok true
  | idx :: idxs =>
      i ← ok_or (checked_add 32 start_index idx) EINVAL;
      index ← validate_index m i;
      '(ready, _) ← pm_is_chunk_ready m index;
      if negb ready then Ok false else idx_range_loop m start_index idxs
  end.

Definition idx_is_range_ready (m : IndexedChunkMap) (start_index count : Z) : io bool :=
  if negb (is_range_all_ready m) then idx_range_loop m start_index (seqZ 0 count) else Ok true.

(** The indices of a range that are not ready: [for index in start_index..end]. *)
Fixpoint collect_not_ready (m : IndexedChunkMap) (idxs : list Z) : io (list Z) :=
  match idxs with
  | [] => Ok []
  | index :: idxs =>
      '(ready, _) ← pm_is_chunk_ready m index;
      vec ← collect_not_ready m idxs;
      Ok (if (ready : bool) then vec else index :: vec)
  end.

Definition some_if_any {A} (vec : list A) : option (list A) :=
  match vec with [] => None | _ => Some vec end.

(** [min(count, u32::MAX - start)]: the last index of the clipped range is below [u32::MAX]. *)
Definition clip_count (start count : Z) : Z := Z.min count (u32_MAX - start).

Definition idx_check_range_ready_and_mark_pending (m : IndexedChunkMap) (start_index count : Z)
  : io (option (list Z)) :=
  if is_range_all_ready m then Ok None
  else
    vec ← collect_not_ready m (seqZ start_index (clip_count start_index count));
    Ok (some_if_any vec).

(** [set_chunk_ready] as a statement: the map survives an error. *)
Definition set_ready_st (index : Z) : stM PersistMap errno unit := fun m =>
  match pm_set_chunk_ready m index with
  | Ok m' => (Ok tt, m')
  | Err e => (Err e, m)
  | Panic => (Panic, m)
  end.

Definition idx_set_range_ready_and_clear_pending (start_index count : Z) : stM IndexedChunkMap errno unit :=
  st_for set_ready_st (seqZ start_index (clip_count start_index count)).
End indexed.

#[export] Instance Indexed_ChunkMap : ChunkMap IndexedChunkMap Z := {
  cm_is_ready := idx_is_ready;
  cm_set_ready m chunk := pm_set_chunk_ready m (chunk_id chunk);
  cm_get_index := chunk_id;
  cm_is_persist := true
}.

(** ** [DigestedChunkMap] and [NoopChunkMap] *)

(** The set of the digests of the cached chunks; the index of a chunk is its digest, [None] where
    [chunk_id()] panics. *)
Record DigestedChunkMap := mkDigested { dm_cache : gset Z }.

#[export] Instance Digested_ChunkMap : ChunkMap DigestedChunkMap (option Z) := {
  cm_is_ready m chunk :=
    match chunk_digest chunk with Some d => Ok (bool_decide (d ∈ dm_cache m)) | None => Panic end;
  cm_set_ready m chunk :=
    match chunk_digest chunk with Some d => Ok (mkDigested ({[d]} ∪ dm_cache m)) | None => Panic end;
  cm_get_index := chunk_digest;
  cm_is_persist := false
}.

Record NoopChunkMap := mkNoop { nm_cached : bool }.

(** [set_ready_and_clear_pending] is the default method of the trait, which panics. *)
#[export] Instance Noop_ChunkMap : ChunkMap NoopChunkMap Z := {
  cm_is_ready m _ := Ok (nm_cached m);
  cm_set_ready _ _ := Panic;
  cm_get_index := chunk_id;
  cm_is_persist := false
}.

(** ** [BlobRangeMap] *)

Section range_map.
Context `{Profile}.

Record BlobRangeMap := mkRangeMap { rm_shift : Z; rm_map : PersistMap }.

Definition BlobRangeMap_new (file : option (list Z)) (count shift : Z) : io (BlobRangeMap * option (list Z)) :=
  _ ← debug_assert (shift <? 64);
  '(m, f) ← persist_open file count true true;
  Ok (mkRangeMap shift m, f).

Definition BlobRangeMap_open (file : option (list Z)) (count shift : Z) : io (BlobRangeMap * option (list Z)) :=
  _ ← debug_assert (shift <? 64);
  '(m, f) ← persist_open file count false true;
  Ok (mkRangeMap shift m, f).

(** Blocks of [2^shift] bytes: the first block of the range, and the one after the last. *)
Definition get_range (r : BlobRangeMap) (start count : Z) : io (Z * Z) :=
  match checked_add 64 start count with
  | Some e =>
      let start_index := Z.shiftr start (rm_shift r) in
      last ← usub 64 e 1;
      let end_index := Z.shiftr last (rm_shift r) in
      if (u32_MAX <? start_index) || (u32_MAX <? end_index) then Err EINVAL
      else
        _ ← validate_index (rm_map r) start_index;
        _ ← validate_index (rm_map r) end_index;
        e ← uadd 32 end_index 1;
        Ok (start_index, e)
  | None => Err EINVAL
  end.

(** [(index as u64) << self.shift]. *)
Definition block_addr (r : BlobRangeMap) (index : Z) : Z := wrap 64 (Z.shiftl index (rm_shift r)).

(** [for index in start_index..end_index]. *)
Fixpoint all_ready_loop (m : PersistMap) (idxs : list Z) : io bool :=
  match idxs with
  | [] => Ok true
  | index :: idxs =>
      '(ready, _) ← pm_is_chunk_ready m index;
      if negb ready then Ok false else all_ready_loop m idxs
  end.

Definition rm_is_range_ready (r : BlobRangeMap) (start count : Z) : io bool :=
  if negb (is_range_all_ready (rm_map r)) then
    '(start_index, end_index) ← get_range r start count;
    all_ready_loop (rm_map r) (seqZ start_index (end_index - start_index))
  else Ok true.

Definition rm_check_range_ready_and_mark_pending (r : BlobRangeMap) (start count : Z)
  : io (option (list Z)) :=
  if is_range_all_ready (rm_map r) then Ok None
  else
    '(start_index, end_index) ← get_range r start count;
    vec ← collect_not_ready (rm_map r) (seqZ start_index (end_index - start_index));
    Ok (some_if_any (block_addr r <$> vec)).

Definition rm_set_range_ready_and_clear_pending (start count : Z) : stM BlobRangeMap errno unit := fun r =>
  if negb (is_range_all_ready (rm_map r)) then
    match get_range r start count with
    | Ok (start_index, end_index) =>
        let '(res, m) := st_for set_ready_st (seqZ start_index (end_index - start_index)) (rm_map r) in
        (res, mkRangeMap (rm_shift r) m)
    | Err e => (Err e, r)
    | Panic => (Panic, r)
    end
  else (Ok tt, r).
End range_map.

(** ** What a chunk map promises *)

Class ChunkMapLaws (C I : Type) `{EqDecision I, !ChunkMap C I} := {
  cm_wf : C -> Prop;
  cm_valid : C -> I -> Prop;
  cm_view : C -> I -> bool;
  cm_is_ready_view c chunk : cm_wf c -> cm_valid c (cm_get_index chunk) ->
    cm_is_ready c chunk = Ok (cm_view c (cm_get_index chunk));
  cm_set_ready_view c chunk : cm_wf c -> cm_valid c (cm_get_index chunk) ->
    exists c', cm_set_ready c chunk = Ok c' /\ cm_wf c' /\ forall i, cm_valid c i ->
      cm_valid c' i /\ cm_view c' i = cm_view c i || bool_decide (i = cm_get_index chunk)
}.

(** On a map with an exact counter, the all-ready shortcut is sound. *)
Lemma all_ready_bit m i : pm_exact m -> is_range_all_ready m = true -> 0 <= i < pm_count m ->
  chunk_bit (pm_file m) i = true.
Proof.
  intros [Hw He] Ha Hi. unfold is_range_all_ready in Ha. apply Z.eqb_eq in Ha. rewrite He in Ha.
  unfold nclear in Ha. rewrite zcount_0 in Ha. specialize (Ha i). apply negb_false_iff, Ha, elem_of_seqZ. lia.
Qed.

Lemma idx_is_ready_Ok m chunk : pm_exact m -> 0 <= chunk_id chunk < pm_count m ->
  idx_is_ready m chunk = Ok (chunk_bit (pm_file m) (chunk_id chunk)).
Proof.
  intros He Hi. unfold idx_is_ready. destruct (is_range_all_ready m) eqn:Ha.
  - by rewrite all_ready_bit by done.
  - unfold validate_index. destruct (Z.ltb_spec (chunk_id chunk) (pm_count m)); [|lia].
    cbn [mbind outcome_bind]. by rewrite is_chunk_ready_spec by (apply He || lia).
Qed.

#[export] Program Instance Indexed_laws : ChunkMapLaws IndexedChunkMap Z := {|
  cm_wf := pm_exact;
  cm_valid m i := 0 <= i < pm_count m;
  cm_view m i := chunk_bit (pm_file m) i
|}.
Next Obligation. cbn. intros c chunk. apply idx_is_ready_Ok. Qed.
Next Obligation.
  cbn. intros c chunk Hw Hv. destruct (set_chunk_ready_Ok c (chunk_id chunk) Hw Hv) as (c' & E & Hw' & Hc & _ & Hb).
  exists c'. split; [done|]. split; [done|]. intros i Hi. rewrite Hc. split; [done|].
  rewrite Hb by done. f_equal. by case_bool_decide; destruct (Z.eqb_spec i (chunk_id chunk)).
Qed.

#[export] Program Instance Digested_laws : ChunkMapLaws DigestedChunkMap (option Z) := {|
  cm_wf _ := True;
  cm_valid _ i := is_Some i;
  cm_view m := from_option (fun d => bool_decide (d ∈ dm_cache m)) false
|}.
Next Obligation. cbn. intros c chunk _ Hi. by destruct (chunk_digest chunk); [|destruct (is_Some_None Hi)]. Qed.
Next Obligation.
  cbn. intros c chunk _ Hi. destruct (chunk_digest chunk) as [d|]; [|destruct (is_Some_None Hi)].
  eexists. split; [done|]. split; [done|]. intros [i|] Hj; [|destruct (is_Some_None Hj)]. split; [done|].
  cbn. rewrite <- bool_decide_or. apply bool_decide_ext. set_solver.
Qed.

(** ** Ranges *)

Lemma set_range_Ok idxs m : pm_exact m -> Forall (fun i => 0 <= i < pm_count m) idxs ->
  exists m', st_for set_ready_st idxs m = (Ok tt, m') /\ pm_exact m' /\ pm_count m' = pm_count m /\
    forall j, 0 <= j < pm_count m -> chunk_bit (pm_file m') j = chunk_bit (pm_file m) j || bool_decide (j ∈ idxs).
Proof.
  revert m. induction idxs as [|i idxs IH]; intros m He Hi.
  - exists m. split_and!; try done. intros j _. by rewrite orb_false_r.
  - apply Forall_cons in Hi as [Hi His]. destruct (set_chunk_ready_Ok m i He Hi) as (m1 & E & He1 & Hc & _ & Hb).
    assert (set_ready_st i m = (Ok tt, m1)) as Es by (unfold set_ready_st; by rewrite E).
    cbn [st_for]. unfold st_bind at 1. rewrite Es.
    destruct (IH m1 He1) as (m' & -> & He' & Hc' & Hb'); [by rewrite Hc|].
    exists m'. split_and!; [done | done.. | congruence |]. intros j Hj. rewrite Hb', Hb by lia.
    rewrite <- orb_assoc. f_equal. destruct (Z.eqb_spec j i) as [->|Hne]; cbn.
    + symmetry. apply bool_decide_eq_true. left.
    + apply bool_decide_ext. rewrite elem_of_cons. naive_solver.
Qed.

Lemma idx_range_loop_Ok m start idxs : pm_exact m ->
  Forall (fun i => 0 <= start + i < pm_count m) idxs ->
  idx_range_loop m start idxs = Ok (forallb (fun i => chunk_bit (pm_file m) (start + i)) idxs).
Proof.
  intros He. pose proof (wf_count m (proj1 He)). induction 1 as [|i idxs Hi _ IH]; [done|]. cbn [idx_range_loop forallb].
  assert (checked_add 32 start i = Some (start + i)) as -> by (apply checked_add_Some; lia).
  cbn [ok_or mbind outcome_bind]. unfold validate_index. destruct (Z.ltb_spec (start + i) (pm_count m)); [|lia].
  cbn [mbind outcome_bind]. rewrite is_chunk_ready_spec by (apply He || lia). cbn [mbind outcome_bind].
  destruct (chunk_bit _ _); [exact IH|done].
Qed.

Lemma forallb_true_iff {A} (P : A -> bool) l : forallb P l = true <-> forall x, x ∈ l -> P x = true.
Proof. rewrite forallb_forall. by setoid_rewrite <- list_elem_of_In. Qed.

Lemma idx_is_range_ready_Ok m start count : pm_exact m -> 0 <= start -> start + count <= pm_count m ->
  exists b, idx_is_range_ready m start count = Ok b /\
    (b = true <-> forall i, start <= i < start + count -> chunk_bit (pm_file m) i = true).
Proof.
  intros He Hs Hc. unfold idx_is_range_ready. destruct (is_range_all_ready m) eqn:Ha; cbn [negb].
  - exists true. split; [done|]. split; [|done]. intros _ i Hi. apply all_ready_bit; done || lia.
  - rewrite idx_range_loop_Ok; [|done|apply Forall_forall; intros i Hi; apply elem_of_seqZ in Hi; lia].
    eexists. split; [done|]. rewrite forallb_true_iff. split.
    + intros Hx i Hi. replace i with (start + (i - start)) by lia. apply Hx, elem_of_seqZ. lia.
    + intros Hx i Hi. apply elem_of_seqZ in Hi. apply Hx. lia.
Qed.

(** [set_range_ready_and_clear_pending] of the indexed map on a range inside the blob always
    succeeds, makes exactly the chunks of the range ready in addition to those already ready,
    and [is_range_ready] then answers true for it. *)
Theorem idx_set_range_ready m start count :
  pm_exact m -> 0 <= start -> 0 <= count -> start + count <= pm_count m ->
  exists m', idx_set_range_ready_and_clear_pending start count m = (Ok tt, m') /\ pm_exact m' /\
    idx_is_range_ready m' start count = Ok true /\
    forall j, 0 <= j < pm_count m ->
      chunk_bit (pm_file m') j = chunk_bit (pm_file m) j || ((start <=? j) && (j <? start + count)).
Proof.
  intros He Hs Hc Hle. pose proof (wf_count m (proj1 He)). unfold idx_set_range_ready_and_clear_pending.
  replace (clip_count start count) with count by (unfold clip_count, u32_MAX; lia).
  destruct (set_range_Ok (seqZ start count) m He) as (m' & E & He' & Hcnt & Hb).
  { apply Forall_forall. intros i Hi. apply elem_of_seqZ in Hi. lia. }
  assert (forall j, 0 <= j < pm_count m -> chunk_bit (pm_file m') j =
    chunk_bit (pm_file m) j || ((start <=? j) && (j <? start + count))) as Hj.
  { intros j Hj. rewrite Hb by done. f_equal. case_bool_decide as Hin; rewrite elem_of_seqZ in Hin; lia. }
  exists m'. split_and!; [done | apply He'.. | | done].
  destruct (idx_is_range_ready_Ok m' start count He') as (b & -> & Hr); [lia..|].
  f_equal. apply Hr. intros i Hi. rewrite Hj by lia. apply orb_true_iff. right. lia.
Qed.

Section get_range_spec.
Context `{Profile} (r : BlobRangeMap).
Hypothesis Hshift : 0 <= rm_shift r < 64.
Hypothesis Hmap : pm_exact (rm_map r).

Definition first_block (start : Z) : Z := start / 2 ^ rm_shift r.
Definition last_block (start count : Z) : Z := (start + count - 1) / 2 ^ rm_shift r.

Lemma block_order start count : 0 <= start -> 0 < count ->
  0 <= first_block start <= last_block start count /\ last_block start count <= start + count - 1.
Proof.
  intros Hs Hc. assert (0 < 2 ^ rm_shift r) by (apply Z.pow_pos_nonneg; lia).
  unfold first_block, last_block. split; [split|].
  - apply Z.div_pos; lia.
  - apply Z.div_le_mono; lia.
  - apply Z.div_le_upper_bound; [lia|]. nia.
Qed.

Lemma get_range_eq start count : in_range 64 start -> 0 < count ->
  get_range r start count =
    if (start + count <? 2 ^ 64) && (last_block start count <? pm_count (rm_map r))
    then Ok (first_block start, last_block start count + 1) else Err EINVAL.
Proof.
  intros Hs Hc. unfold in_range in Hs. pose proof (block_order start count ltac:(lia) Hc) as [Ho Hl].
  pose proof (wf_count _ (proj1 Hmap)). unfold get_range, checked_add.
  destruct (Z.ltb_spec (start + count) (2 ^ 64)); cbn [andb]; [|done].
  rewrite usub_in by (unfold in_range; lia). cbn [mbind outcome_bind].
  rewrite !Z.shiftr_div_pow2 by lia. fold (first_block start). fold (last_block start count).
  unfold u32_MAX, validate_index. destruct (Z.ltb_spec (last_block start count) (pm_count (rm_map r))).
  - assert ((2 ^ 32 - 1 <? first_block start) = false) as -> by lia.
    assert ((2 ^ 32 - 1 <? last_block start count) = false) as -> by lia. cbn [orb].
    assert ((first_block start <? pm_count (rm_map r)) = true) as -> by lia. cbn [mbind outcome_bind].
    rewrite uadd_in by (unfold in_range; lia). done.
  - destruct (_ || _); [done|]. destruct (_ <? _); done.
Qed.
End get_range_spec.

(** [BlobRangeMap::get_range] accepts a non-empty range exactly when it does not overflow and
    ends inside the map, and returns the blocks of [2^shift] bytes that hold it: every byte of
    the range falls in one of them, the first byte in the first and the last byte in the last. *)
Theorem get_range_exact `{Profile} r start count :
  0 <= rm_shift r < 64 -> pm_exact (rm_map r) -> in_range 64 start -> 0 < count ->
  (get_range r start count =
    if (start + count <? 2 ^ 64) && ((start + count - 1) / 2 ^ rm_shift r <? pm_count (rm_map r))
    then Ok (start / 2 ^ rm_shift r, (start + count - 1) / 2 ^ rm_shift r + 1) else Err EINVAL) /\
  forall b e addr, get_range r start count = Ok (b, e) -> start <= addr < start + count ->
    b <= addr / 2 ^ rm_shift r < e.
Proof.
  intros Hsh Hm Hs Hc. pose proof (get_range_eq r Hsh Hm start count Hs Hc) as E.
  split; [done|]. intros b e addr Hx Ha. rewrite E in Hx. destruct (_ && _); [|done].
  injection Hx as <- <-. assert (0 < 2 ^ rm_shift r) by (apply Z.pow_pos_nonneg; lia).
  unfold first_block, last_block. pose proof (Z.div_le_mono start addr (2 ^ rm_shift r)).
  pose proof (Z.div_le_mono addr (start + count - 1) (2 ^ rm_shift r)). lia.
Qed.

Lemma all_ready_loop_Ok m idxs : pm_exact m -> Forall (fun i => 0 <= i < pm_count m) idxs ->
  all_ready_loop m idxs = Ok (forallb (chunk_bit (pm_file m)) idxs).
Proof.
  intros He. induction 1 as [|i idxs Hi _ IH]; [done|]. cbn [all_ready_loop forallb].
  rewrite is_chunk_ready_spec by (apply He || lia). cbn [mbind outcome_bind].
  destruct (chunk_bit _ _); [exact IH|done].
Qed.

(** on a range that ends inside the map, [BlobRangeMap::set_range_ready_and_clear_pending]
    succeeds, and afterwards [is_range_ready] answers true for the range and for every
    non-empty sub-range of it. *)
Theorem range_map_set_then_ready `{Profile} r start count s c :
  0 <= rm_shift r < 64 -> pm_exact (rm_map r) -> in_range 64 start -> 0 < count ->
  start + count < 2 ^ 64 -> (start + count - 1) / 2 ^ rm_shift r < pm_count (rm_map r) ->
  start <= s -> 0 < c -> s + c <= start + count ->
  exists r', rm_set_range_ready_and_clear_pending start count r = (Ok tt, r') /\
    pm_exact (rm_map r') /\ rm_is_range_ready r' s c = Ok true.
Proof.
  intros Hsh He Hs Hc Hov Hin Hs' Hc' Hsub. unfold in_range in Hs.
  pose proof (get_range_eq r Hsh He start count Hs Hc) as E.
  pose proof (block_order r Hsh start count ltac:(lia) Hc). unfold last_block in *.
  assert ((start + count <? 2 ^ 64) = true) as Eo by lia. rewrite Eo in E.
  assert (((start + count - 1) / 2 ^ rm_shift r <? pm_count (rm_map r)) = true) as El by lia. rewrite El in E.
  unfold rm_set_range_ready_and_clear_pending, rm_is_range_ready.
  destruct (is_range_all_ready (rm_map r)) eqn:Ha; cbn [negb].
  { exists r. split_and!; try done; [apply He..|]. by rewrite Ha. }
  rewrite E. cbn [andb].
  destruct (set_range_Ok (seqZ (first_block r start) (last_block r start count + 1 - first_block r start)) (rm_map r) He)
    as (m' & Em & He' & Hcnt & Hb).
  { apply Forall_forall. intros i Hi. apply elem_of_seqZ in Hi. unfold last_block in *. lia. }
  unfold last_block in Em. rewrite Em. eexists. split; [done|]. cbn [rm_map]. split; [done|].
  destruct (is_range_all_ready m'); [done|]. cbn [negb].
  pose proof (get_range_eq (mkRangeMap (rm_shift r) m') Hsh He' s c ltac:(unfold in_range; lia) Hc') as E'.
  assert (0 < 2 ^ rm_shift r) by (apply Z.pow_pos_nonneg; lia).
  pose proof (block_order (mkRangeMap (rm_shift r) m') Hsh s c ltac:(lia) Hc') as [Ho1 _].
  pose proof (Z.div_le_mono (s + c - 1) (start + count - 1) (2 ^ rm_shift r)).
  pose proof (Z.div_le_mono start s (2 ^ rm_shift r)).
  unfold last_block, first_block in *. cbn [rm_shift rm_map] in *. rewrite Hcnt in E'.
  assert ((s + c <? 2 ^ 64) = true) as Eo' by lia. rewrite Eo' in E'.
  assert (((s + c - 1) / 2 ^ rm_shift r <? pm_count (rm_map r)) = true) as El' by lia. rewrite El' in E'.
  rewrite E'. cbn [andb mbind outcome_bind].
  rewrite all_ready_loop_Ok; [|done|apply Forall_forall; intros i Hi; apply elem_of_seqZ in Hi; lia].
  f_equal. apply forallb_true_iff. intros i Hi. apply elem_of_seqZ in Hi. rewrite Hb by lia.
  apply orb_true_iff. right. apply bool_decide_eq_true, elem_of_seqZ. lia.
Qed.

(** ** Unchecked ranges *)

(** [check_range_ready_and_mark_pending] of the indexed map does not validate its range: on a
    map of 20 chunks it reports the padding bits 20 to 23 as chunks that are not ready, and it
    panics on an index past the mapping, where [is_range_ready] returns [EINVAL] for both. *)
Theorem idx_check_range_unchecked :
  idx_check_range_ready_and_mark_pending sample_map 18 4 = Ok (Some [18; 19; 20; 21]) /\
  (exists m, idx_set_range_ready_and_clear_pending 18 2 sample_map = (Ok tt, m) /\
     idx_is_range_ready m 18 4 = Err EINVAL /\ idx_check_range_ready_and_mark_pending m 18 4 = Ok (Some [20; 21])) /\
  idx_check_range_ready_and_mark_pending sample_map 20 8 = Panic.
Proof.
  split; [by vm_compute|]. split; [|by vm_compute].
  destruct (idx_set_range_ready_and_clear_pending 18 2 sample_map) as [res m] eqn:E.
  vm_compute in E. injection E as <- <-. eexists. split; [reflexivity|]. split; by vm_compute.
Qed.

(** [get_range] on the empty range at address 0 computes [end - 1] with [end = 0]: it panics
    when overflow checks are on; with them off the subtraction wraps and the range is
    rejected. *)
Theorem get_range_empty_at_zero :
  @get_range dev_profile (mkRangeMap 12 sample_map) 0 0 = Panic /\
  @get_range release_profile (mkRangeMap 12 sample_map) 0 0 = Err EINVAL /\
  @get_range dev_profile (mkRangeMap 12 sample_map) 1 0 = Ok (0, 1).
Proof. split_and!; by vm_compute. Qed.

(** ** Witnesses *)

Lemma idx_set_range_ready_witness :
  exists m', idx_set_range_ready_and_clear_pending 5 10 sample_map = (Ok tt, m') /\
    idx_is_range_ready m' 5 10 = Ok true.
Proof.
  destruct (idx_set_range_ready sample_map 5 10 sample_map_exact) as (m' & E & _ & Hr & _);
    [done | done | by vm_compute |].
  exists m'. split; [exact E | exact Hr].
Defined.

Lemma get_range_exact_witness :
  @get_range dev_profile (mkRangeMap 12 sample_map) 0x1800 0x1000 = Ok (1, 3).
Proof.
  destruct (@get_range_exact dev_profile (mkRangeMap 12 sample_map) 0x1800 0x1000) as [E _];
    [done | apply sample_map_exact | done | done |].
  rewrite E. by vm_compute.
Defined.

Lemma range_map_set_then_ready_witness :
  exists r', @rm_set_range_ready_and_clear_pending dev_profile 0x1800 0x2000 (mkRangeMap 12 sample_map) = (Ok tt, r') /\
    @rm_is_range_ready dev_profile r' 0x2000 0x1000 = Ok true.
Proof.
  destruct (@range_map_set_then_ready dev_profile (mkRangeMap 12 sample_map) 0x1800 0x2000 0x2000 0x1000)
    as (r' & E & _ & Hr); [done | apply sample_map_exact | done | done | done | by vm_compute | done | done | done |].
  exists r'. split; [exact E | exact Hr].
Defined.
