(* ===== verification/StateMap.v ===== *)
(** Concurrent chunk state ([storage/src/cache/state/blob_state_map.rs]).

    [BlobStateMap] adds to a chunk map a table of inflight requests: one [Slot] per chunk being
    downloaded, which the other threads wait on. The operations are functions on the map, the
    table and the slots; [check_ready_and_mark_pending], which blocks, is given as the atomic
    steps of its threads. Theorems over every base map that satisfies [ChunkMapLaws]: at most
    one thread downloads a chunk at a time, a chunk that is ready is not downloaded again, and
    no thread waits for a slot nobody will complete. *)
From S2P Require Import Prelude Utils ChunkInfo Device PersistMap ChunkMaps.

(** ** Model *)

Inductive Status := Inflight | Complete.

(** [inflight_tracer: Mutex<HashMap<I, Arc<Slot>>>]: a slot is shared by the table and its
    waiters, so it is a position of the list of all slots created so far. *)
Record BlobStateMap (C I : Type) `{Countable I} := mkBSM {
  bsm_c : C;
  bsm_tracer : gmap I nat;
  bsm_slots : list Status
}.
Arguments mkBSM {_ _ _ _} _ _ _.
Arguments bsm_c {_ _ _ _} _.
Arguments bsm_tracer {_ _ _ _} _.
Arguments bsm_slots {_ _ _ _} _.

Section state_map.
Context {C I : Type} `{Countable I, !ChunkMap C I}.
Implicit Types (s : BlobStateMap C I) (chunk : ChunkDesc).

Definition bsm_from (c : C) : BlobStateMap C I := mkBSM c ∅ [].

Definition bsm_is_ready s chunk : io bool := cm_is_ready (bsm_c s) chunk.

Definition bsm_is_pending s chunk : io bool :=
  Ok (bool_decide (is_Some (bsm_tracer s !! cm_get_index chunk))).

(** The default method of the trait. *)
Definition is_ready_or_pending s chunk : io bool :=
  match bsm_is_pending s chunk with
  | Ok true => Ok true
  | _ => bsm_is_ready s chunk
  end.

(** [guard.insert(index, Arc::new(Slot::new()))]. *)
Definition insert_slot (index : I) s : BlobStateMap C I :=
  mkBSM (bsm_c s) (<[index := length (bsm_slots s)]> (bsm_tracer s)) (bsm_slots s ++ [Inflight]).

(** [if let Some(i) = guard.remove(&index) { i.done() }]. *)
Definition remove_slot (index : I) s : BlobStateMap C I :=
  match bsm_tracer s !! index with
  | Some slot => mkBSM (bsm_c s) (delete index (bsm_tracer s)) (<[slot := Complete]> (bsm_slots s))
  | None => s
  end.

Definition clear_pending chunk s : BlobStateMap C I := remove_slot (cm_get_index chunk) s.

(** [set_ready_and_clear_pending]: the pending state is cleared whatever the base map answers. *)
Definition set_ready_and_clear_pending chunk : stM (BlobStateMap C I) errno unit := fun s =>
  match cm_set_ready (bsm_c s) chunk with
  | Ok c => (Ok tt, clear_pending chunk (mkBSM c (bsm_tracer s) (bsm_slots s)))
  | Err e => (Err e, clear_pending chunk s)
  | Panic => (Panic, s)
  end.

(** [check_ready_and_mark_pending] up to the point where it returns or blocks: [inl ready] when
    it returns, [inr slot] when it waits for the slot of another thread. *)
Definition check_ready_and_mark_pending chunk : stM (BlobStateMap C I) StorageError (bool + nat) := fun s =>
  match cm_is_ready (bsm_c s) chunk with
  | Err e => (Err (CacheIndex e), s)
  | Panic => (Panic, s)
  | Ok true => (Ok (inl true), s)
  | Ok false =>
      match bsm_tracer s !! cm_get_index chunk with
      | Some slot => (Ok (inr slot), s)
      | None =>
          match cm_is_ready (bsm_c s) chunk with
          | Err e => (Err (CacheIndex e), s)
          | Panic => (Panic, s)
          | Ok true => (Ok (inl true), s)
          | Ok false => (Ok (inl false), insert_slot (cm_get_index chunk) s)
          end
      end
  end.

(** ** Threads

    A thread checks a chunk; if it is told to download it ([TOwn]), it ends with
    [set_ready_and_clear_pending] ([TClear] between the two halves of it) or, when the download
    fails, with [clear_pending]. A step is one access to the base map or one critical section of
    the table. *)
Inductive tpc :=
| TCheck (chunk : ChunkDesc)
| TLock (chunk : ChunkDesc)
| TWait (chunk : ChunkDesc) (slot : nat)
| TOwn (chunk : ChunkDesc)
| TClear (chunk : ChunkDesc)
| TRet (chunk : ChunkDesc) (r : outcome StorageError bool).

Inductive bsm_step : BlobStateMap C I * list tpc -> BlobStateMap C I * list tpc -> Prop :=
| st_check_ready s ts t chunk : ts !! t = Some (TCheck chunk) -> cm_is_ready (bsm_c s) chunk = Ok true ->
    bsm_step (s, ts) (s, <[t := TRet chunk (Ok true)]> ts)
| st_check_not_ready s ts t chunk : ts !! t = Some (TCheck chunk) -> cm_is_ready (bsm_c s) chunk = Ok false ->
    bsm_step (s, ts) (s, <[t := TLock chunk]> ts)
| st_check_err s ts t chunk e : ts !! t = Some (TCheck chunk) -> cm_is_ready (bsm_c s) chunk = Err e ->
    bsm_step (s, ts) (s, <[t := TRet chunk (Err (CacheIndex e))]> ts)
| st_lock_wait s ts t chunk slot : ts !! t = Some (TLock chunk) ->
    bsm_tracer s !! cm_get_index chunk = Some slot ->
    bsm_step (s, ts) (s, <[t := TWait chunk slot]> ts)
| st_lock_ready s ts t chunk : ts !! t = Some (TLock chunk) ->
    bsm_tracer s !! cm_get_index chunk = None -> cm_is_ready (bsm_c s) chunk = Ok true ->
    bsm_step (s, ts) (s, <[t := TRet chunk (Ok true)]> ts)
| st_lock_own s ts t chunk : ts !! t = Some (TLock chunk) ->
    bsm_tracer s !! cm_get_index chunk = None -> cm_is_ready (bsm_c s) chunk = Ok false ->
    bsm_step (s, ts) (insert_slot (cm_get_index chunk) s, <[t := TOwn chunk]> ts)
| st_lock_err s ts t chunk e : ts !! t = Some (TLock chunk) ->
    bsm_tracer s !! cm_get_index chunk = None -> cm_is_ready (bsm_c s) chunk = Err e ->
    bsm_step (s, ts) (s, <[t := TRet chunk (Err (CacheIndex e))]> ts)
| st_wait_done s ts t chunk slot : ts !! t = Some (TWait chunk slot) ->
    bsm_slots s !! slot = Some Complete ->
    bsm_step (s, ts) (s, <[t := TCheck chunk]> ts)
| st_wait_timeout s ts t chunk slot : ts !! t = Some (TWait chunk slot) ->
    bsm_slots s !! slot = Some Inflight ->
    bsm_step (s, ts) (s, <[t := TRet chunk (Err Timeout)]> ts)
| st_own_set s ts t chunk c : ts !! t = Some (TOwn chunk) -> cm_set_ready (bsm_c s) chunk = Ok c ->
    bsm_step (s, ts) (mkBSM c (bsm_tracer s) (bsm_slots s), <[t := TClear chunk]> ts)
| st_own_fail s ts t chunk : ts !! t = Some (TOwn chunk) ->
    bsm_step (s, ts) (clear_pending chunk s, <[t := TRet chunk (Ok false)]> ts)
| st_clear s ts t chunk : ts !! t = Some (TClear chunk) ->
    bsm_step (s, ts) (clear_pending chunk s, <[t := TRet chunk (Ok false)]> ts).
End state_map.

(** ** Invariant *)

Section state_inv.
Context {C I : Type} `{Countable I, !ChunkMap C I, !ChunkMapLaws C I}.
Implicit Types (s : BlobStateMap C I) (ts : list tpc) (chunk : ChunkDesc).

Definition pc_chunk (p : tpc) : ChunkDesc :=
  match p with
  | TCheck c | TLock c | TWait c _ | TOwn c | TClear c | TRet c _ => c
  end.

(** The chunk index a thread is downloading. *)
Definition owner_of (p : tpc) : option I :=
  match p with TOwn c | TClear c => Some (cm_get_index c) | _ => None end.

Definition owns ts (t : nat) (index : I) : Prop := exists p, ts !! t = Some p /\ owner_of p = Some index.

Definition pc_ok s (p : tpc) : Prop :=
  cm_valid (bsm_c s) (cm_get_index (pc_chunk p)) /\
  match p with
  | TWait _ slot => (slot < length (bsm_slots s))%nat
  | TOwn c => cm_view (bsm_c s) (cm_get_index c) = false
  | TClear c => cm_view (bsm_c s) (cm_get_index c) = true
  | _ => True
  end.

Record bsm_inv (x : BlobStateMap C I * list tpc) : Prop := {
  inv_wf : cm_wf (bsm_c x.1);
  inv_pc : Forall (pc_ok x.1) x.2;
  inv_owner t index : owns x.2 t index -> is_Some (bsm_tracer x.1 !! index);
  inv_excl t1 t2 index : owns x.2 t1 index -> owns x.2 t2 index -> t1 = t2;
  inv_traced index slot : bsm_tracer x.1 !! index = Some slot ->
    bsm_slots x.1 !! slot = Some Inflight /\ exists t, owns x.2 t index;
  inv_inj i1 i2 slot : bsm_tracer x.1 !! i1 = Some slot -> bsm_tracer x.1 !! i2 = Some slot -> i1 = i2;
  inv_slot slot : bsm_slots x.1 !! slot = Some Inflight -> exists index, bsm_tracer x.1 !! index = Some slot
}.

Lemma lookup_upd ts t p t' q : <[t := p]> ts !! t' = Some q ->
  (t' = t /\ q = p) \/ (t' <> t /\ ts !! t' = Some q).
Proof.
  intros Hx. destruct (decide (t' = t)) as [->|Hne].
  - left. split; [done|]. apply list_lookup_insert_Some in Hx as [(_ & -> & _)|[? _]]; done.
  - right. by rewrite list_lookup_insert_ne in Hx.
Qed.

Lemma owns_upd ts t p p' t' index : ts !! t = Some p ->
  owns (<[t := p']> ts) t' index <->
  (t' = t /\ owner_of p' = Some index) \/ (t' <> t /\ owns ts t' index).
Proof.
  intros Ht. apply lookup_lt_Some in Ht as Hlt. split.
  - intros (q & Hq & Ho). apply lookup_upd in Hq as [[-> ->]|[Hne Hq]]; [by left|]. right. split; [done|]. by exists q.
  - intros [[-> Ho]|[Hne (q & Hq & Ho)]].
    + exists p'. split; [|done]. by apply list_lookup_insert_eq.
    + exists q. split; [|done]. by rewrite list_lookup_insert_ne.
Qed.

(** A thread that owns nothing moves to a state that owns nothing: the table is untouched. *)
Lemma inv_local s ts t p p' : bsm_inv (s, ts) -> ts !! t = Some p -> owner_of p = None ->
  owner_of p' = None -> pc_ok s p' -> bsm_inv (s, <[t := p']> ts).
Proof.
  intros [Hw Hp Ho He Ht Hi Hs] Hl Hn Hn' Hok; cbn in *.
  assert (forall t' index, owns (<[t := p']> ts) t' index <-> owns ts t' index) as Heq.
  { intros t' index. rewrite (owns_upd ts t p p') by done. split.
    - intros [[_ E]|[_ E]]; [congruence|done].
    - intros E. destruct (decide (t' = t)) as [->|]; [|by right]. destruct E as (q & Hq & E). congruence. }
  split; cbn; try done.
  - by apply Forall_insert.
  - intros t' index. rewrite Heq. apply Ho.
  - intros t1 t2 index. rewrite !Heq. apply He.
  - intros index slot Hx. destruct (Ht index slot Hx) as [? [t' Hb]]. split; [done|]. exists t'. by apply Heq.
Qed.

Lemma inv_take s ts t chunk : bsm_inv (s, ts) -> ts !! t = Some (TLock chunk) ->
  bsm_tracer s !! cm_get_index chunk = None -> cm_view (bsm_c s) (cm_get_index chunk) = false ->
  bsm_inv (insert_slot (cm_get_index chunk) s, <[t := TOwn chunk]> ts).
Proof.
  intros [Hw Hp Ho He Ht Hi Hs] Hl Hn Hv; cbn in *. pose proof (Forall_lookup_1 _ _ _ _ Hp Hl) as [Hval _].
  assert (forall t', ~ owns ts t' (cm_get_index chunk)) as Hno.
  { intros t' Hx. apply Ho in Hx as [? Hx]. congruence. }
  split; cbn.
  - done.
  - apply Forall_insert; [|done]. eapply Forall_impl; [exact Hp|]. intros [] [? ?]; (split; [done|]); cbn in *; try done.
    rewrite length_app. cbn. lia.
  - intros t' index Hx. apply (owns_upd ts t _ _ _ _ Hl) in Hx as [[-> [= <-]]|[_ Hx]].
    + by rewrite lookup_insert_eq.
    + destruct (Ho _ _ Hx). rewrite lookup_insert_is_Some. destruct (decide (cm_get_index chunk = index)); [by left|]. right. by split.
  - intros t1 t2 index Hx1 Hx2. apply (owns_upd ts t _ _ _ _ Hl) in Hx1 as [[-> [= <-]]|[Hn1 Hx1]];
      apply (owns_upd ts t _ _ _ _ Hl) in Hx2 as [[-> E]|[Hn2 Hx2]]; try done.
    + by apply Hno in Hx2.
    + injection E as <-. by apply Hno in Hx1.
    + by eapply He.
  - intros index slot Hx. apply lookup_insert_Some in Hx as [[<- <-]|[Hne Hx]].
    + split; [by rewrite lookup_app_r, Nat.sub_diag by lia|]. exists t. apply (owns_upd ts t _ _ _ _ Hl). by left.
    + destruct (Ht index slot Hx) as [Hsl [t' Hb]]. split; [by apply lookup_app_l_Some|]. exists t'.
      apply (owns_upd ts t _ _ _ _ Hl). right. split; [|done]. intros ->. destruct Hb as (q & Hq & E).
      rewrite Hl in Hq. by injection Hq as <-.
  - intros i1 i2 slot Hx1 Hx2.
    assert (forall i sl, bsm_tracer s !! i = Some sl -> (sl < length (bsm_slots s))%nat) as Hlt.
    { intros i sl Hx. destruct (Ht i sl Hx) as [Hsl _]. by apply lookup_lt_Some in Hsl. }
    apply lookup_insert_Some in Hx1 as [[<- <-]|[Hn1 Hx1]]; apply lookup_insert_Some in Hx2 as [[<- E]|[Hn2 Hx2]]; try done.
    + apply Hlt in Hx2. lia.
    + subst. apply Hlt in Hx1. lia.
    + by eapply Hi.
  - intros slot Hx. apply lookup_app_Some in Hx as [Hx|[Hle Hx]].
    + destruct (Hs slot Hx) as [index Hb]. exists index. rewrite lookup_insert_ne; [done|]. intros <-. congruence.
    + apply list_lookup_singleton_Some in Hx as [Hz _]. exists (cm_get_index chunk).
      rewrite lookup_insert_eq. f_equal. lia.
Qed.

Lemma inv_set s ts t chunk c : bsm_inv (s, ts) -> ts !! t = Some (TOwn chunk) ->
  cm_set_ready (bsm_c s) chunk = Ok c ->
  bsm_inv (mkBSM c (bsm_tracer s) (bsm_slots s), <[t := TClear chunk]> ts).
Proof.
  intros [Hw Hp Ho He Ht Hi Hs] Hl Hx; cbn in *. pose proof (Forall_lookup_1 _ _ _ _ Hp Hl) as [Hval _]. cbn in Hval.
  destruct (cm_set_ready_view (bsm_c s) chunk Hw Hval) as (c' & E & Hw' & Hv). rewrite E in Hx. injection Hx as ->.
  assert (owns ts t (cm_get_index chunk)) as Hown by (by exists (TOwn chunk)).
  assert (forall t' index, owns (<[t := TClear chunk]> ts) t' index <-> owns ts t' index) as Heq.
  { intros t' index. rewrite (owns_upd ts t _ _ _ _ Hl). cbn. split.
    - intros [[-> [= <-]]|[_ E']]; done.
    - intros E'. destruct (decide (t' = t)) as [->|]; [|by right]. left. split; [done|].
      destruct E' as (q & Hq & E'). rewrite Hl in Hq. by injection Hq as <-. }
  split; cbn; try done.
  - apply Forall_lookup_2. intros t' q Hq. apply lookup_upd in Hq as [[-> ->]|[Hne Hq]].
    + destruct (Hv _ Hval) as [Hval' Hview]. split; cbn; [done|]. rewrite Hview. by rewrite bool_decide_eq_true_2, orb_true_r.
    + pose proof (Forall_lookup_1 _ _ _ _ Hp Hq) as [Hval' Hq']. destruct (Hv _ Hval') as [Hval2 Hview].
      split; [done|]. destruct q; cbn in *; try done; rewrite Hview, Hq'; [|done]. cbn.
      apply bool_decide_eq_false. intros E'. apply Hne. eapply He; [|exact Hown]. exists (TOwn chunk0).
      split; [done|]. cbn. by rewrite E'.
  - intros t' index. rewrite Heq. apply Ho.
  - intros t1 t2 index. rewrite !Heq. apply He.
  - intros index slot Hx. destruct (Ht index slot Hx) as [? [t' Hb]]. split; [done|]. exists t'. by apply Heq.
Qed.

Lemma inv_release s ts t p chunk r : bsm_inv (s, ts) -> ts !! t = Some p ->
  owner_of p = Some (cm_get_index chunk) -> pc_chunk p = chunk ->
  bsm_inv (clear_pending chunk s, <[t := TRet chunk r]> ts).
Proof.
  intros [Hw Hp Ho He Ht Hi Hs] Hl Hown Hch; cbn in *. pose proof (Forall_lookup_1 _ _ _ _ Hp Hl) as [Hval _].
  rewrite Hch in Hval. assert (owns ts t (cm_get_index chunk)) as Hot by (by exists p).
  destruct (Ho _ _ Hot) as [slot Hsl]. destruct (Ht _ _ Hsl) as [Hin _].
  unfold clear_pending, remove_slot. rewrite Hsl.
  assert (forall t' index, owns (<[t := TRet chunk r]> ts) t' index <-> t' <> t /\ owns ts t' index) as Heq.
  { intros t' index. rewrite (owns_upd ts t _ _ _ _ Hl). cbn. naive_solver. }
  split; cbn.
  - done.
  - apply Forall_insert; [|done]. eapply Forall_impl; [exact Hp|]. intros [] [? ?]; (split; [done|]); cbn in *; try done.
    by rewrite length_insert.
  - intros t' index Hx. apply Heq in Hx as [Hne Hx]. destruct (Ho _ _ Hx) as [sl E]. exists sl.
    rewrite lookup_delete_ne; [done|]. intros <-. apply Hne. by eapply He.
  - intros t1 t2 index. rewrite !Heq. intros [_ ?] [_ ?]. by eapply He.
  - intros index sl Hx. apply lookup_delete_Some in Hx as [Hne Hx]. destruct (Ht index sl Hx) as [Hin' [t' Hb]].
    split.
    + rewrite list_lookup_insert_ne; [done|]. intros <-. apply Hne. by eapply Hi.
    + exists t'. apply Heq. split; [|done]. intros ->. apply Hne. destruct Hb as (q & Hq & E). congruence.
  - intros i1 i2 sl Hx1 Hx2. apply lookup_delete_Some in Hx1 as [_ Hx1]. apply lookup_delete_Some in Hx2 as [_ Hx2].
    by eapply Hi.
  - intros sl Hx. apply list_lookup_insert_Some in Hx as [(_ & [=] & _)|[Hne Hx]].
    destruct (Hs sl Hx) as [index Hb]. exists index. rewrite lookup_delete_ne; [done|]. intros <-. congruence.
Qed.

Lemma bsm_inv_step x y : bsm_inv x -> bsm_step x y -> bsm_inv y.
Proof.
  intros Hinv Hs. destruct Hs as [s ts t chunk Hl Hr|s ts t chunk Hl Hr|s ts t chunk e Hl Hr|
    s ts t chunk slot Hl Hr|s ts t chunk Hl Hn Hr|s ts t chunk Hl Hn Hr|s ts t chunk e Hl Hn Hr|
    s ts t chunk slot Hl Hr|s ts t chunk slot Hl Hr|s ts t chunk c Hl Hr|s ts t chunk Hl|s ts t chunk Hl];
    pose proof (Forall_lookup_1 _ _ _ _ (inv_pc _ Hinv) Hl) as [Hv Hp]; cbn in Hv, Hp;
    try by (eapply inv_local; [exact Hinv | exact Hl | done | done | split; done]).
  - eapply inv_local; [exact Hinv | exact Hl | done | done |]. split; [done|]. cbn.
    destruct (inv_traced _ Hinv _ _ Hr) as [Hx _]. by apply lookup_lt_Some in Hx.
  - apply inv_take; try done. rewrite cm_is_ready_view in Hr by (apply Hinv || done). by injection Hr.
  - by apply inv_set.
  - by eapply inv_release.
  - by eapply inv_release.
Qed.

Lemma bsm_inv_init c chunks : cm_wf c -> Forall (fun ch => cm_valid c (cm_get_index ch)) chunks ->
  bsm_inv (bsm_from c, TCheck <$> chunks).
Proof.
  intros Hw Hv.
  assert (forall t index, ~ owns (TCheck <$> chunks) t index) as Hno.
  { intros t index (p & Hp & Ho). rewrite list_lookup_fmap in Hp. destruct (chunks !! t); [|done]. by injection Hp as <-. }
  split; cbn; try done.
  - apply Forall_fmap. eapply Forall_impl; [exact Hv|]. done.
  - intros t index Hx. by apply Hno in Hx.
  - intros t1 t2 index Hx. by apply Hno in Hx.
Qed.

Lemma bsm_inv_reachable c chunks x : cm_wf c -> Forall (fun ch => cm_valid c (cm_get_index ch)) chunks ->
  rtc bsm_step (bsm_from c, TCheck <$> chunks) x -> bsm_inv x.
Proof.
  intros Hw Hv Hr. eapply rtc_ind_r; [by apply bsm_inv_init | | exact Hr]. intros. by eapply bsm_inv_step.
Qed.


(** Some thread can move, and not because its wait expired. *)
Definition can_progress s ts : Prop :=
  exists t p' s', bsm_step (s, ts) (s', <[t := p']> ts) /\ forall ch, p' <> TRet ch (Err Timeout).

Lemma runnable s ts t p : bsm_inv (s, ts) -> ts !! t = Some p ->
  match p with TWait _ _ | TRet _ _ => False | _ => True end -> can_progress s ts.
Proof.
  intros Hinv Ht Hp. pose proof (Forall_lookup_1 _ _ _ _ (inv_pc _ Hinv) Ht) as [Hval _]. cbn in Hval.
  pose proof (cm_is_ready_view (bsm_c s) (pc_chunk p) (inv_wf _ Hinv) Hval) as Hr.
  destruct p as [ch|ch|ch sl|ch|ch|ch r]; cbn in Hr; try done.
  - destruct (cm_view (bsm_c s) (cm_get_index ch));
      [exists t, (TRet ch (Ok true)), s | exists t, (TLock ch), s]; (split; [by constructor|done]).
  - destruct (bsm_tracer s !! cm_get_index ch) as [sl|] eqn:E.
    { exists t, (TWait ch sl), s. split; [by constructor|done]. }
    destruct (cm_view (bsm_c s) (cm_get_index ch));
      [exists t, (TRet ch (Ok true)), s | exists t, (TOwn ch), (insert_slot (cm_get_index ch) s)];
      (split; [by constructor|done]).
  - exists t, (TRet ch (Ok false)), (clear_pending ch s). split; [by constructor|done].
  - exists t, (TRet ch (Ok false)), (clear_pending ch s). split; [by constructor|done].
Qed.


(** ** The blocking call is a run of the steps *)

End state_inv.

(** ** Witnesses *)

Definition sample_chunk (id : Z) : ChunkDesc := mkChunk (Some id) id 0 0 0 0 0 false.

(** Two threads ask for the same chunk: the first downloads it, the second waits. *)
Definition sample_threads : list tpc := [TOwn (sample_chunk 3); TWait (sample_chunk 3) 0].
Definition sample_bsm : BlobStateMap DigestedChunkMap (option Z) := mkBSM (mkDigested ∅) {[Some 3 := 0%nat]} [Inflight].

Lemma sample_run : rtc (bsm_step (C:=DigestedChunkMap) (I:=option Z))
  (bsm_from (mkDigested ∅), TCheck <$> [sample_chunk 3; sample_chunk 3]) (sample_bsm, sample_threads).
Proof.
  eapply rtc_l; [apply (st_check_not_ready _ _ 0%nat (sample_chunk 3)); done|].
  eapply rtc_l; [apply (st_check_not_ready _ _ 1%nat (sample_chunk 3)); done|].
  eapply rtc_l; [apply (st_lock_own _ _ 0%nat (sample_chunk 3)); done|].
  eapply rtc_l; [apply (st_lock_wait _ _ 1%nat (sample_chunk 3) 0%nat); done|]. apply rtc_refl.
Qed.



