(* ===== verification/RangeState.v ===== *)
(** Range operations of the concurrent state map ([storage/src/cache/state/blob_state_map.rs],
    the two [RangeMap] implementations of [BlobStateMap]).

    The two implementations differ in the base map and in how a range is turned into indices;
    [RangeBase] is that difference, and the operations are written once over it. A wait for a
    slot lets the other threads run: it is a parameter that returns whether it timed out and
    the state afterwards. *)
From S2P Require Import Prelude Utils ChunkInfo Device PersistMap ChunkMaps StateMap.

(** ** Model *)

(** What [BlobStateMap] uses of a base [RangeMap]; [rb_clear_indices] and [rb_wait_indices] are
    the keys of the table for the chunks or blocks of a range, [rb_clip] the count the wait
    works with. *)
Class RangeBase (C : Type) := {
  rb_all_ready : C -> bool;
  rb_is_range_ready : C -> Z -> Z -> io bool;
  rb_check : C -> Z -> Z -> io (option (list Z));
  rb_set : Z -> Z -> stM C errno unit;
  rb_clip : Z -> Z -> Z;
  rb_clear_indices : C -> Z -> Z -> io (list Z);
  rb_wait_indices : C -> Z -> Z -> io (list Z)
}.

#[export] Instance Indexed_RangeBase : RangeBase IndexedChunkMap := {
  rb_all_ready := is_range_all_ready;
  rb_is_range_ready := idx_is_range_ready;
  rb_check := idx_check_range_ready_and_mark_pending;
  rb_set := idx_set_range_ready_and_clear_pending;
  rb_clip := clip_count;
  rb_clear_indices _ start count := Ok (seqZ start (clip_count start count));
  rb_wait_indices _ start count := Ok (seqZ start (clip_count start count))
}.

Definition block_indices (r : BlobRangeMap) (range : Z * Z) : list Z :=
  block_addr r <$> seqZ range.1 (range.2 - range.1).

#[export] Instance Range_RangeBase `{Profile} : RangeBase BlobRangeMap := {
  rb_all_ready r := is_range_all_ready (rm_map r);
  rb_is_range_ready := rm_is_range_ready;
  rb_check := rm_check_range_ready_and_mark_pending;
  rb_set := rm_set_range_ready_and_clear_pending;
  rb_clip _ count := count;
  rb_clear_indices r start count :=
    match get_range r start count with
    | Ok v => Ok (block_indices r v)
    | Err _ => _ ← debug_assert false; Ok []
    | Panic => Panic
    end;
  rb_wait_indices r start count := v ← get_range r start count; Ok (block_indices r v)
}.

Section range_state.
Context {C : Type} `{!RangeBase C}.
Implicit Types (s : BlobStateMap C Z).

Definition bsm_is_range_all_ready s : bool := rb_all_ready (bsm_c s).

Definition bsm_is_range_ready s (start count : Z) : io bool := rb_is_range_ready (bsm_c s) start count.

(** [for index in pending.iter()]; the error of the double check leaves the slots inserted. *)
Fixpoint mark_loop (pending res : list Z) s : io (list Z) * BlobStateMap C Z :=
  match pending with
  | [] => (Ok res, s)
  | index :: pending =>
      match bsm_tracer s !! index with
      | Some _ => mark_loop pending res s
      | None =>
          match rb_is_range_ready (bsm_c s) index 1 with
          | Ok false => mark_loop pending (res ++ [index]) (insert_slot index s)
          | Ok true => mark_loop pending res s
          | Err e => (Err e, s)
          | Panic => (Panic, s)
          end
      end
  end.

Definition check_range_ready_and_mark_pending (start count : Z)
  : stM (BlobStateMap C Z) errno (option (list Z)) := fun s =>
  match rb_check (bsm_c s) start count with
  | Err e => (Err e, s)
  | Panic => (Panic, s)
  | Ok None | Ok (Some []) => (Ok None, s)
  | Ok (Some pending) =>
      let '(r, s') := mark_loop pending [] s in (res ← r; Ok (Some res), s')
  end.

Definition clear_slots (idxs : list Z) s : BlobStateMap C Z :=
  foldl (fun s i => remove_slot i s) s idxs.

Definition clear_range_pending (start count : Z) : stM (BlobStateMap C Z) errno unit := fun s =>
  match rb_clear_indices (bsm_c s) start count with
  | Ok idxs => (Ok tt, clear_slots idxs s)
  | Err e => (Err e, s)
  | Panic => (Panic, s)
  end.

Definition set_range_ready_and_clear_pending (start count : Z) : stM (BlobStateMap C Z) errno unit := fun s =>
  let '(res, c) := rb_set start count (bsm_c s) in
  match res with
  | Panic => (Panic, mkBSM c (bsm_tracer s) (bsm_slots s))
  | _ =>
      match clear_range_pending start count (mkBSM c (bsm_tracer s) (bsm_slots s)) with
      | (Ok _, s') => (res, s')
      | (r, s') => (r, s')
      end
  end.

(** [wait slot s]: the other threads run until the slot is complete or the wait times out. *)
Variable wait : nat -> BlobStateMap C Z -> bool * BlobStateMap C Z.

(** The loop of [wait_for_range_ready]: [Some false] when it returns from inside the loop. *)
Fixpoint wait_loop (idxs : list Z) s : io (option bool) * BlobStateMap C Z :=
  match idxs with
  | [] => (Ok None, s)
  | index :: idxs =>
      match bsm_tracer s !! index with
      | None => wait_loop idxs s
      | Some slot =>
          let '(timed_out, s) := wait slot s in
          if (timed_out : bool) then (Ok None, s)
          else match rb_is_range_ready (bsm_c s) index 1 with
               | Ok false => (Ok (Some false), s)
               | Ok true => wait_loop idxs s
               | Err e => (Err e, s)
               | Panic => (Panic, s)
               end
      end
  end.

Definition wait_for_range_ready (start count : Z) : stM (BlobStateMap C Z) errno bool := fun s =>
  let count := rb_clip start count in
  match rb_is_range_ready (bsm_c s) start count with
  | Err e => (Err e, s)
  | Panic => (Panic, s)
  | Ok true => (Ok true, s)
  | Ok false =>
      match rb_wait_indices (bsm_c s) start count with
      | Err e => (Err e, s)
      | Panic => (Panic, s)
      | Ok idxs =>
          match wait_loop idxs s with
          | (Ok None, s) => (rb_is_range_ready (bsm_c s) start count, s)
          | (Ok (Some b), s) => (Ok b, s)
          | (Err e, s) => (Err e, s)
          | (Panic, s) => (Panic, s)
          end
      end
  end.
End range_state.

(** ** Properties on the indexed map *)

Section indexed_range.
Implicit Types (s : BlobStateMap IndexedChunkMap Z) (m : IndexedChunkMap).

Lemma collect_not_ready_Ok m idxs : pm_exact m -> Forall (fun i => 0 <= i < pm_count m) idxs ->
  collect_not_ready m idxs = Ok (filter (fun i => chunk_bit (pm_file m) i = false) idxs).
Proof.
  intros He. induction 1 as [|i idxs Hi _ IH]; [done|]. cbn [collect_not_ready].
  rewrite is_chunk_ready_spec by (apply He || lia). cbn [mbind outcome_bind]. rewrite IH. cbn [mbind outcome_bind].
  rewrite filter_cons. by destruct (chunk_bit (pm_file m) i).
Qed.

(** A chunk this call should download: not ready, and not inflight in another thread. *)
Definition wanted s (i : Z) : Prop := chunk_bit (pm_file (bsm_c s)) i = false /\ bsm_tracer s !! i = None.

Lemma one_ready m i : pm_exact m -> 0 <= i < pm_count m ->
  idx_is_range_ready m i 1 = Ok (chunk_bit (pm_file m) i).
Proof.
  intros He Hi. destruct (idx_is_range_ready_Ok m i 1 He) as (b & -> & Hb); [lia..|]. f_equal.
  destruct (chunk_bit (pm_file m) i) eqn:E.
  - apply Hb. intros j Hj. by replace j with i by lia.
  - destruct b; [|done]. by rewrite (proj1 Hb eq_refl i) in E by lia.
Qed.

Lemma mark_loop_Ok pending s : forall res, pm_exact (bsm_c s) -> NoDup pending ->
  Forall (fun i => 0 <= i < pm_count (bsm_c s)) pending ->
  exists new s', mark_loop pending res s = (Ok (res ++ new), s') /\ bsm_c s' = bsm_c s /\
    NoDup new /\ (forall i, i ∈ new <-> i ∈ pending /\ wanted s i) /\
    (forall i, is_Some (bsm_tracer s' !! i) <-> is_Some (bsm_tracer s !! i) \/ i ∈ new).
Proof.
  revert s. induction pending as [|p pending IH]; intros s res He Hd Hv.
  { exists [], s. rewrite app_nil_r. split_and!; first [done | by apply NoDup_nil | intros i; rewrite elem_of_nil; tauto]. }
  apply NoDup_cons in Hd as [Hp Hd]. apply Forall_cons in Hv as [Hpv Hv]. cbn [mark_loop].
  assert (~ wanted s p -> exists new s', mark_loop pending res s = (Ok (res ++ new), s') /\ bsm_c s' = bsm_c s /\
    NoDup new /\ (forall i, i ∈ new <-> i ∈ p :: pending /\ wanted s i) /\
    (forall i, is_Some (bsm_tracer s' !! i) <-> is_Some (bsm_tracer s !! i) \/ i ∈ new)) as Hskip.
  { intros Hnw. destruct (IH s res He Hd Hv) as (new & s' & -> & Hc & Hnd & Hin & Htr).
    exists new, s'. split_and!; try done. intros i. rewrite Hin, elem_of_cons. naive_solver. }
  destruct (bsm_tracer s !! p) as [sl|] eqn:E; [apply Hskip; intros [_ ?]; congruence|].
  cbn [rb_is_range_ready Indexed_RangeBase]. rewrite one_ready by done.
  destruct (chunk_bit (pm_file (bsm_c s)) p) eqn:Eb; [apply Hskip; intros [? _]; congruence|].
  destruct (IH (insert_slot p s) (res ++ [p])) as (new & s' & -> & Hc & Hnd & Hin & Htr); [done..|].
  assert (forall i, wanted (insert_slot p s) i <-> wanted s i /\ i <> p) as Hw.
  { intros i. unfold wanted, insert_slot; cbn. rewrite lookup_insert_None. naive_solver. }
  exists (p :: new), s'. rewrite <- app_assoc. split_and!; try done.
  - constructor; [|done]. rewrite Hin. tauto.
  - intros i. rewrite !elem_of_cons, Hin, Hw. unfold wanted. destruct (decide (i = p)) as [->|]; naive_solver.
  - intros i. rewrite Htr. cbn. rewrite lookup_insert_is_Some, elem_of_cons. destruct (decide (i = p)) as [->|]; naive_solver.
Qed.

Lemma check_range_Ok s start count :
  pm_exact (bsm_c s) -> 0 <= start -> start + count <= pm_count (bsm_c s) ->
  exists res s', check_range_ready_and_mark_pending start count s = (Ok res, s') /\ bsm_c s' = bsm_c s /\
    match res with
    | None => s' = s /\ forall i, start <= i < start + count -> chunk_bit (pm_file (bsm_c s)) i = true
    | Some l => NoDup l /\
        (forall i, i ∈ l <-> start <= i < start + count /\ wanted s i) /\
        (forall i, is_Some (bsm_tracer s' !! i) <-> is_Some (bsm_tracer s !! i) \/ i ∈ l)
    end.
Proof.
  intros He Hs Hc. pose proof (wf_count _ (proj1 He)). unfold check_range_ready_and_mark_pending.
  cbn [rb_check Indexed_RangeBase]. unfold idx_check_range_ready_and_mark_pending.
  destruct (is_range_all_ready (bsm_c s)) eqn:Ha.
  { exists None, s. split_and!; try done. intros i Hi. apply all_ready_bit; done || lia. }
  replace (clip_count start count) with count by (unfold clip_count, u32_MAX; lia).
  assert (Forall (fun i => 0 <= i < pm_count (bsm_c s)) (seqZ start count)) as Hv.
  { apply Forall_forall. intros i Hi. apply elem_of_seqZ in Hi. lia. }
  rewrite collect_not_ready_Ok by done. cbn [mbind outcome_bind].
  set (pend := filter (fun i => chunk_bit (pm_file (bsm_c s)) i = false) (seqZ start count)).
  assert (forall i, i ∈ pend <-> chunk_bit (pm_file (bsm_c s)) i = false /\ start <= i < start + count) as Hpend.
  { intros i. unfold pend. by rewrite list_elem_of_filter, elem_of_seqZ. }
  destruct pend as [|p pend'] eqn:Ep; cbn [some_if_any].
  - exists None, s. split_and!; try done. intros i Hi. specialize (Hpend i). rewrite elem_of_nil in Hpend.
    destruct (chunk_bit _ i) eqn:E; [done|]. destruct (proj2 Hpend); done.
  - rewrite <- Ep in *. destruct (mark_loop_Ok pend s []) as (new & s' & -> & Hc' & Hnd & Hin & Htr).
    + done.
    + apply NoDup_filter, NoDup_seqZ.
    + apply Forall_forall. intros i Hi. apply Hpend in Hi. lia.
    + exists (Some new), s'. split_and!; try done. intros i. rewrite Hin, Hpend. unfold wanted. tauto.
Qed.

(** C32: on a range inside the blob, [check_range_ready_and_mark_pending] always succeeds; it
    answers [None] only when every chunk of the range is ready, and otherwise returns, without
    duplicates, exactly the chunks of the range that are neither ready nor inflight, which it
    has marked as pending; nothing else becomes pending and no chunk changes its readiness. *)
Theorem check_range_marks_pending s start count :
  pm_exact (bsm_c s) -> 0 <= start -> start + count <= pm_count (bsm_c s) ->
  exists res s', check_range_ready_and_mark_pending start count s = (Ok res, s') /\ bsm_c s' = bsm_c s /\
    match res with
    | None => s' = s /\ forall i, start <= i < start + count -> chunk_bit (pm_file (bsm_c s)) i = true
    | Some l => NoDup l /\
        (forall i, i ∈ l <-> start <= i < start + count /\ wanted s i) /\
        (forall i, is_Some (bsm_tracer s' !! i) <-> is_Some (bsm_tracer s !! i) \/ i ∈ l)
    end.
Proof. by apply check_range_Ok. Qed.

Lemma clear_slots_tracer idxs s i :
  bsm_tracer (clear_slots idxs s) !! i = (if bool_decide (i ∈ idxs) then None else bsm_tracer s !! i) /\
  bsm_c (clear_slots idxs s) = bsm_c s.
Proof.
  revert s. induction idxs as [|j idxs IH]; intros s; [done|].
  change (clear_slots (j :: idxs) s) with (clear_slots idxs (remove_slot j s)). destruct (IH (remove_slot j s)) as [-> ->].
  unfold remove_slot. destruct (bsm_tracer s !! j) as [sl|] eqn:E; cbn; (split; [|done]).
  - destruct (decide (i = j)) as [->|Hne].
    + rewrite lookup_delete_eq, (bool_decide_eq_true_2 (j ∈ j :: idxs)) by left. by case_bool_decide.
    + rewrite lookup_delete_ne by done. rewrite (bool_decide_ext (i ∈ j :: idxs) (i ∈ idxs)); [done|].
      rewrite elem_of_cons. naive_solver.
  - destruct (decide (i = j)) as [->|Hne].
    + rewrite E, (bool_decide_eq_true_2 (j ∈ j :: idxs)) by left. by case_bool_decide.
    + rewrite (bool_decide_ext (i ∈ j :: idxs) (i ∈ idxs)); [done|]. rewrite elem_of_cons. naive_solver.
Qed.

(** on a range inside the blob, [set_range_ready_and_clear_pending] succeeds, makes every
    chunk of the range ready, and leaves no chunk of the range pending; the pending chunks
    outside the range are the same as before. *)
Theorem set_range_clears_pending s start count :
  pm_exact (bsm_c s) -> 0 <= start -> 0 <= count -> start + count <= pm_count (bsm_c s) ->
  exists s', set_range_ready_and_clear_pending start count s = (Ok tt, s') /\ pm_exact (bsm_c s') /\
    (forall i, start <= i < start + count -> chunk_bit (pm_file (bsm_c s')) i = true) /\
    forall i, bsm_tracer s' !! i =
      if bool_decide (start <= i < start + count) then None else bsm_tracer s !! i.
Proof.
  intros He Hs Hc Hle. pose proof (wf_count _ (proj1 He)). unfold set_range_ready_and_clear_pending.
  cbn [rb_set Indexed_RangeBase]. unfold idx_set_range_ready_and_clear_pending.
  replace (clip_count start count) with count by (unfold clip_count, u32_MAX; lia).
  destruct (set_range_Ok (seqZ start count) (bsm_c s) He) as (m' & -> & He' & Hcnt & Hb).
  { apply Forall_forall. intros i Hi. apply elem_of_seqZ in Hi. lia. }
  unfold clear_range_pending. cbn [rb_clear_indices Indexed_RangeBase bsm_c].
  replace (clip_count start count) with count by (unfold clip_count, u32_MAX; lia).
  set (s1 := @mkBSM IndexedChunkMap Z _ _ m' (bsm_tracer s) (bsm_slots s)).
  exists (clear_slots (seqZ start count) s1). split; [reflexivity|].
  pose proof (clear_slots_tracer (seqZ start count) s1) as Ht.
  rewrite (proj2 (Ht 0)). split; [done|]. split.
  - intros i Hi. rewrite Hb by lia. apply orb_true_iff. right. apply bool_decide_eq_true, elem_of_seqZ. lia.
  - intros i. rewrite (proj1 (Ht i)). by rewrite (bool_decide_ext _ _ (elem_of_seqZ start count i)).
Qed.

(** when [wait_for_range_ready] answers true, every chunk of the range is ready, whatever the
    other threads did while it waited and whether or not a wait timed out. *)
Theorem wait_for_range_sound (wait : nat -> BlobStateMap IndexedChunkMap Z -> bool * BlobStateMap IndexedChunkMap Z)
    s s' start count :
  pm_exact (bsm_c s') -> 0 <= start -> start + count <= pm_count (bsm_c s') ->
  wait_for_range_ready wait start count s = (Ok true, s') ->
  forall i, start <= i < start + count -> chunk_bit (pm_file (bsm_c s')) i = true.
Proof.
  intros He Hs Hc Hx i Hi. pose proof (wf_count _ (proj1 He)).
  assert (idx_is_range_ready (bsm_c s') start count = Ok true) as Hr.
  { unfold wait_for_range_ready in Hx. cbn [rb_clip rb_is_range_ready rb_wait_indices Indexed_RangeBase] in Hx.
    assert (clip_count start count = count) as Hclip by (unfold clip_count, u32_MAX; lia). rewrite !Hclip in Hx.
    destruct (idx_is_range_ready (bsm_c s) start count) as [[]| |] eqn:E; try done.
    { by injection Hx as <-. }
    assert (forall idxs s, (wait_loop wait idxs s).1 <> Ok (Some true)) as Hno.
    { clear. induction idxs as [|j idxs IH]; intros s; [done|]. cbn. destruct (bsm_tracer s !! j); [|apply IH].
      destruct (wait n s) as [[] s1]; [done|]. destruct (idx_is_range_ready _ _ _) as [[]| |]; [apply IH|done..]. }
    specialize (Hno (seqZ start count) s).
    destruct (wait_loop _ _ _) as [[[[]|]| |] s1]; try done.
    injection Hx as Hx <-. exact Hx. }
  destruct (idx_is_range_ready_Ok (bsm_c s') start count He Hs Hc) as (b & E & Hb).
  rewrite Hr in E. injection E as <-. by apply Hb.
Qed.

End indexed_range.

(** ** Witnesses *)

Definition sample_range_state : BlobStateMap IndexedChunkMap Z := mkBSM sample_map {[6 := 0%nat]} [Inflight].

Lemma check_range_marks_pending_witness :
  exists s', check_range_ready_and_mark_pending 5 3 sample_range_state = (Ok (Some [5; 7]), s') /\
    bsm_c s' = sample_map.
Proof.
  destruct (check_range_marks_pending sample_range_state 5 3) as (res & s' & E & Hc & _);
    [apply sample_map_exact | done | by vm_compute |].
  exists s'. split; [|exact Hc]. rewrite E. f_equal.
  apply (f_equal fst) in E. vm_compute in E. exact (eq_sym E).
Defined.

Lemma set_range_clears_pending_witness :
  exists s', set_range_ready_and_clear_pending 5 3 sample_range_state = (Ok tt, s') /\
    chunk_bit (pm_file (bsm_c s')) 6 = true.
Proof.
  destruct (set_range_clears_pending sample_range_state 5 3) as (s' & E & _ & Hb & _);
    [apply sample_map_exact | done | done | by vm_compute |].
  exists s'. split; [exact E|]. apply Hb. lia.
Defined.

(** The owner of slot 0 marks chunk 6 while the caller waits. *)
Definition sample_wait (slot : nat) (s : BlobStateMap IndexedChunkMap Z) : bool * BlobStateMap IndexedChunkMap Z :=
  (false, (set_range_ready_and_clear_pending 5 3 s).2).

Lemma wait_for_range_sound_witness :
  chunk_bit (pm_file (bsm_c (wait_for_range_ready sample_wait 5 3 sample_range_state).2)) 7 = true.
Proof.
  assert (sample_exact : pm_exact (bsm_c (wait_for_range_ready sample_wait 5 3 sample_range_state).2)).
  { destruct (set_chunk_ready_Ok sample_map 5 sample_map_exact) as (m1 & E1 & H1 & C1 & _); [cbn [sample_map pm_count]; lia|].
    destruct (set_chunk_ready_Ok m1 6 H1) as (m2 & E2 & H2 & C2 & _); [rewrite C1; cbn [sample_map pm_count]; lia|].
    destruct (set_chunk_ready_Ok m2 7 H2) as (m3 & E3 & H3 & C3 & _); [rewrite C2, C1; cbn [sample_map pm_count]; lia|].
    assert (bsm_c (wait_for_range_ready sample_wait 5 3 sample_range_state).2 = m3) as ->; [|exact H3].
    vm_compute in E1. injection E1 as <-. vm_compute in E2. injection E2 as <-. vm_compute in E3.
    injection E3 as <-. by vm_compute. }
  apply (wait_for_range_sound sample_wait sample_range_state
    (wait_for_range_ready sample_wait 5 3 sample_range_state).2 5 3 sample_exact).
  - done.
  - by vm_compute.
  - by vm_compute.
  - done.
Defined.
