(* ===== verification/CacheMap.v ===== *)
(** The chunk maps of a file cache ([storage/src/cache/state/blob_state_map.rs] behind
    [storage/src/cache/cachedfile.rs]).

    The cache of [CachedFile] works on a [dyn ChunkMap]; the maps it gets are [BlobStateMap]s over
    an indexed or a digested map. They keep the promises of [ChunkMapObjLaws], and their
    [check_ready_and_mark_pending], with what the other threads do while it waits, keeps the
    invariant of the cache. The last part evaluates reads on small caches. *)
From S2P Require Import Prelude Utils LittleEndian ChunkInfo Device BlobMeta AddMore MetaFile BlobCache IoMerge MemCursor CacheRegion CachedFile CachedRead CachedPrefetch PersistMap ChunkMaps StateMap RangeState.

(** ** The maps as objects *)

Section state_map_obj.
Context {C I : Type} `{Countable I, !ChunkMap C I}.

Definition bsm_object (range : option (RangeMapObj (BlobStateMap C I))) : ChunkMapObj (BlobStateMap C I) := {|
  mo_is_ready := bsm_is_ready;
  mo_set_ready := set_ready_and_clear_pending;
  mo_clear_pending := StateMap.clear_pending;
  mo_is_persist := cm_is_persist (C := C);
  mo_range := range
|}.

(** *** [check_ready_and_mark_pending] with its waits

    An entry of the script is what a wait meets: it times out, or the other threads run until the
    slot is complete, and the check starts again. A wait after the script times out. *)
Fixpoint check_and_wait (script : list (option (CacheState (BlobStateMap C I) -> CacheState (BlobStateMap C I)))) (chunk : ChunkDesc)
  : stM (CacheState (BlobStateMap C I)) StorageError bool := fun s =>
  match check_ready_and_mark_pending chunk (cs_map s) with
  | (Ok (inl b), m) => (Ok b, set_map m s)
  | (Ok (inr slot), m) =>
      match script with
      | Some others :: script => check_and_wait script chunk (others s)
      | _ => (Err Timeout, s)
      end
  | (Err e, _) => (Err e, s)
  | (Panic, _) => (Panic, s)
  end.

Context `{!ChunkMapLaws C I}.
Implicit Types (m : BlobStateMap C I).

(** More of the base map that [set_ready] keeps. *)
Context (extra : C -> Prop).
Hypothesis extra_set : forall c chunk c', cm_wf c -> cm_valid c (cm_get_index chunk) -> cm_set_ready c chunk = Ok c' -> extra c -> extra c'.

Lemma remove_slot_c index m : bsm_c (remove_slot index m) = bsm_c m.
Proof. unfold remove_slot. by destruct (bsm_tracer m !! index). Qed.

Lemma insert_slot_c index m : bsm_c (insert_slot index m) = bsm_c m.
Proof. done. Qed.

Definition bsm_object_laws range : @ChunkMapObjLaws (BlobStateMap C I) (bsm_object range).
Proof.
  refine {| ml_wf m := cm_wf (bsm_c m) /\ extra (bsm_c m); ml_knows m c := cm_valid (bsm_c m) (cm_get_index c);
    ml_ready m c := cm_view (bsm_c m) (cm_get_index c); ml_same c d := cm_get_index (C := C) d = cm_get_index c |}.
  - done.
  - intros m c [Hw _] Hv. by apply cm_is_ready_view.
  - intros m c [Hw He] Hv. destruct (cm_set_ready_view (bsm_c m) c Hw Hv) as (c' & E & Hw' & Hd).
    cbn. unfold set_ready_and_clear_pending. rewrite E. eexists. split; [done|]. unfold StateMap.clear_pending. rewrite remove_slot_c. split; [split; [done|by apply (extra_set _ _ _ Hw Hv E)]|].
    intros d Hkd. destruct (Hd _ Hkd) as [Hv' Hview]. split; [done|]. cbn [bsm_c]. rewrite Hview, orb_true_iff, bool_decide_eq_true. done.
  - intros m c Hw. cbn. unfold StateMap.clear_pending. rewrite remove_slot_c. done.
Defined.
End state_map_obj.

(** [as_range_map]: only the map over an [IndexedChunkMap] is a range map of chunks. *)
#[export] Instance Indexed_object : ChunkMapObj (BlobStateMap IndexedChunkMap Z) :=
  bsm_object (Some (mkRangeObj _ check_range_ready_and_mark_pending clear_range_pending bsm_is_range_all_ready)).

#[export] Instance Digested_object : ChunkMapObj (BlobStateMap DigestedChunkMap (option Z)) := bsm_object None.

(** A map of [count] chunks that can be opened again. *)
Definition saved_map (count : Z) (m : IndexedChunkMap) : Prop := reopenable m /\ pm_count m = count.

Lemma set_ready_saved count (m : IndexedChunkMap) chunk m' : cm_wf m -> cm_valid m (cm_get_index chunk) -> cm_set_ready m chunk = Ok m' ->
  saved_map count m -> saved_map count m'.
Proof.
  intros Hw Hv E [Hr Hc]. split; [by apply (set_chunk_ready_reopenable m (chunk_id chunk))|].
  destruct (set_chunk_ready_Ok m (chunk_id chunk) Hw Hv) as (m1 & E1 & _ & Hc1 & _). cbn in E. congruence.
Qed.

Definition Indexed_object_laws (count : Z) : ChunkMapObjLaws (BlobStateMap IndexedChunkMap Z) := bsm_object_laws (saved_map count) (set_ready_saved count) _.

#[export] Instance Digested_object_laws : ChunkMapObjLaws (BlobStateMap DigestedChunkMap (option Z)) :=
  bsm_object_laws (fun _ => True) (fun _ _ _ _ _ _ H => H) _.

(** *** The range map of chunks *)

Section indexed_range.
Variable count : Z.
Let Laws : ChunkMapObjLaws (BlobStateMap IndexedChunkMap Z) := Indexed_object_laws count.
#[local] Existing Instance Laws.
Implicit Types m : BlobStateMap IndexedChunkMap Z.

Lemma id_run_inside m cs c : Forall (ml_knows m) cs -> id_run cs -> head cs = Some c -> 0 <= chunk_id c /\ chunk_id c + zlen cs <= pm_count (bsm_c m).
Proof.
  intros Hk. revert c. induction Hk as [|d cs Hd _ IH]; intros c Hr Hh; [done|]. injection Hh as ->. cbn in Hd.
  destruct cs as [|e cs]; [unfold zlen; cbn; lia|]. destruct Hr as [E Hr]. destruct (IH e Hr eq_refl). unfold zlen in *. cbn [length] in *. lia.
Qed.

Lemma same_base_ready m m' : ml_wf m -> bsm_c m' = bsm_c m -> ml_wf m' /\ forall d, ml_knows m d -> ml_knows m' d /\ ml_ready m' d = ml_ready m d.
Proof. intros Hw E. cbn in *. by rewrite E. Qed.

Lemma indexed_range_laws b : mo_range (M := BlobStateMap IndexedChunkMap Z) = Some b -> range_laws b.
Proof.
  intros [= <-]. split.
  - intros m cs c n Hw Hk Hr Hh ->. destruct (id_run_inside m cs c Hk Hr Hh) as [H0 H1].
    destruct (check_range_Ok m (chunk_id c) (zlen cs) (proj1 Hw) H0 H1) as (res & m' & E & Ec & Hres). exists res, m'. split; [exact E|].
    destruct (same_base_ready m m' Hw Ec) as [H2 H3]. split; [done|]. split; [done|]. intros ids ->. destruct Hres as (_ & Hin & _).
    apply Forall_forall. intros i Hi. by apply Hin in Hi as [? _].
  - intros m c Hw Hk. eexists. split; [done|]. apply same_base_ready; [done|]. cbn. apply (clear_slots_tracer _ _ 0).
Qed.

(** [wait_for_range_ready] when no other thread completes a chunk: every wait times out. *)
Definition wait_timeout (start n : Z) : stM (CacheState (BlobStateMap IndexedChunkMap Z)) errno bool :=
  on_map (RangeState.wait_for_range_ready (fun _ m => (true, m)) start n).

Lemma wait_loop_timeout idxs m : wait_loop (fun _ m => (true, m)) idxs m = (Ok None, m).
Proof. induction idxs as [|i idxs IH]; [done|]. cbn [wait_loop]. by destruct (bsm_tracer m !! i). Qed.

Lemma wait_timeout_keeps self img K : wait_keeps self img K wait_timeout.
Proof.
  intros cs c s Hi Hk Hr Hh. assert (Forall (ml_knows (cs_map s)) cs) as Hkn by (eapply Forall_impl; [exact Hk|]; intros d; apply (ci_knows _ _ _ _ Hi)).
  destruct (id_run_inside (cs_map s) cs c Hkn Hr Hh) as [H0 H1]. pose proof (CachedRead.ci_wf _ _ _ _ Hi) as [Hw _]. pose proof (wf_count _ (proj1 Hw)) as Hcount.
  unfold wait_timeout, on_map, RangeState.wait_for_range_ready. cbn [rb_clip rb_is_range_ready rb_wait_indices Indexed_RangeBase].
  replace (clip_count (chunk_id c) (zlen cs)) with (zlen cs) by (unfold clip_count, u32_MAX; lia).
  destruct (idx_is_range_ready_Ok (bsm_c (cs_map s)) (chunk_id c) (zlen cs) Hw H0 H1) as (b & E & _). rewrite E. 
  assert (set_map (cs_map s) s = s) as Es by (by destruct s). destruct b; rewrite ?wait_loop_timeout, ?E, Es; by apply keeps_refl.
Qed.
End indexed_range.

(** ** The check keeps the invariant of the cache *)

Section check.
Context `{Profile} {C I : Type} `{Countable I, !ChunkMap C I, !ChunkMapLaws C I} (range : option (RangeMapObj (BlobStateMap C I))).
Context (extra : C -> Prop).
Context (extra_set : forall c chunk c', cm_wf c -> cm_valid c (cm_get_index chunk) -> cm_set_ready c chunk = Ok c' -> extra c -> extra c').
Context (self : FileCacheEntry) (img : list Z) (K : ChunkDesc -> Prop).
Let Obj : ChunkMapObj (BlobStateMap C I) := bsm_object range.
#[local] Existing Instance Obj.
Let Laws : ChunkMapObjLaws (BlobStateMap C I) := bsm_object_laws extra extra_set range.
#[local] Existing Instance Laws.
Implicit Types s : CacheState (BlobStateMap C I).

(** The other threads keep the invariant. *)
Definition others_keep (others : CacheState (BlobStateMap C I) -> CacheState (BlobStateMap C I)) : Prop :=
  forall s, cache_inv self img K s -> keeps self img K s (others s).

Lemma set_tracer_keeps s tracer slots : cache_inv self img K s -> keeps self img K s (set_map (mkBSM (bsm_c (cs_map s)) tracer slots) s).
Proof. intros [I1 I2 I3 I4 I5 I6]. split; [|done]. by split. Qed.

Lemma check_once c s : cache_inv self img K s -> K c ->
  (exists b m, check_ready_and_mark_pending c (cs_map s) = (Ok (inl b), m) /\ keeps self img K s (set_map m s) /\ (b = true -> ml_ready m c = true)) \/
  exists slot, check_ready_and_mark_pending c (cs_map s) = (Ok (inr slot), cs_map s).
Proof.
  intros Hi Hc. unfold check_ready_and_mark_pending.
  rewrite (cm_is_ready_view _ _ (proj1 (CachedRead.ci_wf _ _ _ _ Hi)) (ci_knows _ _ _ _ Hi c Hc)).
  destruct (cm_view (bsm_c (cs_map s)) (cm_get_index c)) eqn:Ev; [|destruct (bsm_tracer (cs_map s) !! cm_get_index c) as [slot|]].
  - left. eexists _, _. split; [done|]. split; [|done]. replace (set_map (cs_map s) s) with s by (by destruct s). by apply keeps_refl.
  - right. by exists slot.
  - left. eexists _, _. split; [done|]. split; [by apply set_tracer_keeps|done].
Qed.

(** [check_ready_and_mark_pending] of the state maps keeps the invariant when the other threads
    do, and a chunk it reports ready is ready. *)
Lemma check_and_wait_keeps script : Forall (fun o => forall f, o = Some f -> others_keep f) script ->
  check_keeps self (check_and_wait script) img K.
Proof.
  intros Hs. induction Hs as [|o script Ho _ IH]; intros c s Hi Hc; cbn [check_and_wait];
    (destruct (check_once c s Hi Hc) as [(b & m & -> & Hk & Hb)|(slot & ->)]; [by split|]); [by apply keeps_refl|].
  destruct o as [f|]; [|by apply keeps_refl]. pose proof (Ho f eq_refl s Hi) as Hf. specialize (IH c (f s) (proj1 Hf) Hc).
  destruct (check_and_wait script c (f s)) as [[b|[]|] s']; try done; [destruct IH as [IH Hb]; split; [|done]|]; by eapply keeps_trans.
Qed.
End check.

(** ** A cache over its life *)

Section cache_life.
Context `{Profile} (cx : codecs) (self : FileCacheEntry) (reader : BlobReader).
Context {M : Type} `{!ChunkMapObj M, !ChunkMapObjLaws M}.
Context (slice_write : list Z -> list Z -> nat -> option (nat * list Z)) (blob img : list Z) (K : ChunkDesc -> Prop).
Hypothesis setup : cache_setup cx self reader (M := M) slice_write blob img K.


(** What happens to a cache: a read, a prefetch or the fetch of a run of chunks, with what the
    other threads do while it waits, or one of the tasks of the runtime is run. *)
Inductive cache_event :=
| EvRead (check_ready : ChunkDesc -> stM (CacheState M) StorageError bool) (iovec : BlobIoVec) (mem : list (list Z))
| EvPrefetch (check_ready : ChunkDesc -> stM (CacheState M) StorageError bool) (range : BlobIoRange)
| EvFetch (check_ready : ChunkDesc -> stM (CacheState M) StorageError bool) (wait : Z -> Z -> stM (CacheState M) errno bool)
    (chunks : list ChunkDesc) (prefetch : bool)
| EvTask (i : nat).

Definition event_ok (ev : cache_event) : Prop :=
  match ev with
  | EvRead check_ready iovec mem => check_keeps self check_ready img K /\ Forall (lt 0)%nat (lens mem) /\
      user_request self K (iov_vec iovec) /\ zlen (user_bytes img (iov_vec iovec)) <= zlen (concat mem)
  | EvPrefetch check_ready range => check_keeps self check_ready img K /\ Forall K (rg_chunks range) /\ Z.of_nat (length (rg_chunks range)) < 2 ^ 32
  | EvFetch check_ready wait chunks _ => check_keeps self check_ready img K /\ wait_keeps self img K wait /\
      Forall K chunks /\ id_run chunks /\ chunks <> [] /\ zlen chunks < 2 ^ 32
  | EvTask _ => True
  end.

Definition take_task (i : nat) (s : CacheState M) : CacheState M :=
  mkCS (cs_file s) (cs_map s) (cs_writes s) (cs_reads s) (delete i (cs_spawned s)).

Definition run_event (s : CacheState M) (ev : cache_event) : CacheState M :=
  match ev with
  | EvRead check_ready iovec mem => (FileCacheEntry_read cx self reader check_ready slice_write iovec mem s).2.1
  | EvPrefetch check_ready range => (prefetch_range cx self reader check_ready range s).2
  | EvFetch check_ready wait chunks prefetch => (do_fetch_chunks cx self reader check_ready wait chunks prefetch s).2
  | EvTask i => match cs_spawned s !! i with Some d => (run_delayed self d (take_task i s)).2 | None => s end
  end.

(** A task of the runtime, run in any state. *)
Lemma run_task_keeps i s : cache_inv self img K s -> keeps self img K s (run_event s (EvTask i)).
Proof.
  intros Hi. cbn [run_event]. destruct (cs_spawned s !! i) as [d|] eqn:Ed; [|by apply keeps_refl].
  assert (keeps self img K s (take_task i s)) as Ht.
  { destruct Hi as [I1 I2 I3 I4 I5 I6]. split; [|done]. split; try done. cbn. by apply Forall_delete. }
  destruct (Forall_lookup_1 _ _ _ _ (ci_spawned _ _ _ _ Hi) Ed) as [Hk Hb].
  destruct (run_delayed_keeps cx self reader slice_write blob img K setup d (take_task i s)) as (s' & -> & Hs); [apply Ht|done|done|].
  exact (keeps_trans _ _ _ _ _ _ Ht Hs).
Qed.

(** What the prefetching operations ask for besides. *)
Record fetch_setup : Prop := {
  fs_order : in_order K;
  fs_persists : mo_is_persist (M := M) = false -> bc_need_validation (fe_cache self) = true;
  fs_no_dio : fe_dio_enabled self = false;
  fs_range b : mo_range (M := M) = Some b -> range_laws b
}.
Hypothesis fsetup : fetch_setup.

(** C15: A prefetch of a range of chunks never panics and keeps the cache sound. It fails only for a
    blob of 4 GB or more, and when neither the backend nor a write to the cache file fails, all the
    chunks of the range are ready afterwards. *)
Theorem prefetch_range_ready check_ready range s : check_keeps self check_ready img K -> cache_inv self img K s -> Forall K (rg_chunks range) ->
  Z.of_nat (length (rg_chunks range)) < 2 ^ 32 ->
  prefetch_done self reader check_ready blob img K s (rg_chunks range) (prefetch_range cx self reader check_ready range s).
Proof. apply (prefetch_range_done _ _ _ _ slice_write); [done|apply fsetup|apply fsetup]. Qed.

Lemma run_event_inv s ev : cache_inv self img K s -> event_ok ev -> cache_inv self img K (run_event s ev).
Proof.
  intros Hi. destruct ev as [check iovec mem|check range|check wait cs prefetch|i]; cbn [event_ok run_event].
  - intros (Hck & Hmem & Hu & Hr). pose proof (FileCacheEntry_read_done cx self reader check slice_write blob img K setup iovec mem s Hck Hi Hmem Hu Hr) as Hd.
    destruct (FileCacheEntry_read _ _ _ _ _ _ _ s) as [[n|e|] [s' mem']]; [|apply Hd|done]. by destruct Hd as (_ & _ & _ & ? & _).
  - intros (Hck & Hk & Hl).
    pose proof (prefetch_range_done cx self reader check slice_write blob img K setup (fs_order fsetup) (fs_persists fsetup) range s Hck Hi Hk Hl) as Hd.
    destruct (prefetch_range _ _ _ _ range s) as [[n|e|] s']; [apply Hd|apply Hd|done].
  - intros (Hck & Hw & Hk & Hr & Hne & Hl).
    pose proof (do_fetch_chunks_safe cx self reader check slice_write blob img K setup (fs_order fsetup) wait (fs_no_dio fsetup) cs prefetch s Hck Hw (fs_range fsetup) Hi Hk Hr Hne Hl) as Hd.
    destruct (do_fetch_chunks _ _ _ _ _ cs prefetch s) as [[n|e|] s']; [apply Hd|apply Hd|done].
  - intros _. by apply run_task_keeps.
Qed.

Lemma run_events_inv evs s : cache_inv self img K s -> Forall event_ok evs -> cache_inv self img K (foldl run_event s evs).
Proof.
  revert s. induction evs as [|ev evs IH]; intros s Hi He; [done|]. apply Forall_cons in He as [He1 He]. cbn [foldl]. apply IH; [|done]. by apply run_event_inv.
Qed.

(** C3: Over any sequence of reads, prefetches, fetches and delayed writes, in any order, with any
    failures of the backend and of the writes, the cache stays sound, and every read in it returns
    exactly the bytes the user asked for, or fails when the backend does. *)
Theorem cache_life_exact evs s : cache_inv self img K s -> Forall event_ok evs ->
  cache_inv self img K (foldl run_event s evs) /\
  forall before check_ready iovec mem after, evs = before ++ EvRead check_ready iovec mem :: after ->
    let now := foldl run_event s before in
    read_done self reader blob img K now mem (user_bytes img (iov_vec iovec)) (FileCacheEntry_read cx self reader check_ready slice_write iovec mem now).
Proof.
  intros Hi He. split; [by apply run_events_inv|]. intros before check iovec mem after ->. apply Forall_app in He as [He Hr]. apply Forall_inv in Hr as (Hck & Hmem & Hu & Hroom).
  apply FileCacheEntry_read_done; try done. by apply run_events_inv.
Qed.
End cache_life.

(** ** Caches to evaluate *)

#[local] Instance sample_laws : ChunkMapObjLaws (BlobStateMap IndexedChunkMap Z) := Indexed_object_laws 20.

(** A codec that doubles every byte, and a digest that adds them up. *)
Definition sample_codecs : codecs :=
  mkCodecs (fun _ src _ => Ok (b ← src; [b; b])) (fun _ _ _ => Err ENOSYS) (fun _ _ _ _ => Err ENOSYS) (fun buf _ => foldr Z.add 0 buf).

(** Three chunks, the second of them stored as it is. *)
Definition sample_blob : list Z := [1; 2; 5; 6; 7; 8; 9; 3].
Definition sample_image : list Z := [1; 1; 2; 2; 5; 6; 7; 8; 9; 9; 3; 3].

Definition sample_chunks : list ChunkDesc :=
  [mkChunk (Some 6) 0 0 0 2 0 4 true; mkChunk (Some 26) 1 0 2 4 4 4 false; mkChunk (Some 24) 2 0 6 2 8 4 true].

Definition sample_reader (blob : list Z) : BlobReader := fun offset len => Ok (slice (Z.to_nat offset) (Z.to_nat len) blob).

Definition sample_entry : FileCacheEntry :=
  mkEntry (mkCache CZstd Blake3 false 0 false false (Ok None)) false true false RAFS_DEFAULT_CHUNK_SIZE 0.

Definition sample_info : BlobInfo := set_compressor CZstd (BlobInfo_new 0 "blob" 12 8 4 20 0).

Definition sample_bios : list BlobIoDesc :=
  [mkIoDesc sample_info (mkChunk (Some 6) 0 0 0 2 0 4 true) 1 3 true;
   mkIoDesc sample_info (mkChunk (Some 26) 1 0 2 4 4 4 false) 0 4 true;
   mkIoDesc sample_info (mkChunk (Some 24) 2 0 6 2 8 4 true) 0 2 true].

Definition sample_iovec : BlobIoVec := mkIoVec sample_info 9 sample_bios.

(** An empty cache; the second write to it fails and the third one is short. *)
Definition sample_cache : CacheState (BlobStateMap IndexedChunkMap Z) :=
  mkCS (replicate 12 0) (bsm_from sample_map) [inr 4096%nat; inl EIO; inr 3%nat] [] [].

Lemma sample_setup : @cache_setup dev_profile sample_codecs sample_entry (sample_reader sample_blob) (BlobStateMap IndexedChunkMap Z) Indexed_object sample_laws
  sample_write sample_blob sample_image (fun c => c ∈ sample_chunks).
Proof.
  assert (forall P : ChunkDesc -> Prop, Forall P sample_chunks -> forall c, c ∈ sample_chunks -> P c) as Hall by (intros P HP; by apply Forall_forall).
  split; [exact sample_write_inside|intros offset len _ _ _; by left|by split; vm_compute| | |done|done|done| |done|by left].
  - apply Hall. repeat (constructor; [split; [by vm_compute|by split; vm_compute|try done|try done|done]|]). constructor.
  - apply Hall. repeat (constructor; [by vm_compute|]). constructor.
  - intros c d _ Hc Hd Hs. pose proof (Hall (fun c => chunk_u_offset c = 4 * chunk_id c /\ chunk_u_size c = 4) ltac:(by repeat constructor)) as Hp.
    destruct (Hp c Hc) as [-> ->]. destruct (Hp d Hd) as [-> ->]. cbn in Hs. by rewrite Hs.
Qed.

Lemma sample_inv (c : CacheState (BlobStateMap IndexedChunkMap Z)) : cs_map c = bsm_from sample_map -> cs_reads c = [] -> cs_spawned c = [] -> zlen (cs_file c) = 12 ->
  cache_inv sample_entry sample_image (fun c => c ∈ sample_chunks) c.
Proof.
  intros Em Er Es Ez. assert (forall P : ChunkDesc -> Prop, Forall P sample_chunks -> forall c, c ∈ sample_chunks -> P c) as Hall by (intros P HP; by apply Forall_forall).
  split; rewrite ?Em; [by split; [apply sample_map_exact|by split; [split; vm_compute|]]| | |done|by rewrite Es|by rewrite Ez].
  - apply Hall. by repeat constructor.
  - intros d _ Hd Hr. pose proof (Hall (fun d => chunk_bit (pm_file sample_map) (chunk_id d) = false) ltac:(by repeat constructor) d Hd) as Hn. cbn in Hr, Hn. congruence.
Qed.

Lemma sample_request : @user_request dev_profile sample_entry (fun c => c ∈ sample_chunks) sample_bios.
Proof.
  split.
  - repeat (constructor; [by vm_compute|]). constructor.
  - repeat (constructor; [by split; [repeat constructor|]|]). constructor.
  - repeat (constructor; [by vm_compute|]). constructor.
  - intros [|[|[|i]]] [|[|[|j]]] x y Hij Hx Hy; try lia; try done; injection Hx as <-; injection Hy as <-; done.
  - intros [|[|[|i]]] x y Hx Hy; try done; injection Hx as <-; injection Hy as <-; done.
  - intros [|[|[|i]]] [|[|[|j]]] x y Hij Hx Hy; try lia; try done; injection Hx as <-; injection Hy as <-; done.
  - done.
  - done.
  - done.
Qed.

(** The other thread that runs while a read waits: it is the runtime, with its oldest task. *)
Definition sample_others : CacheState (BlobStateMap IndexedChunkMap Z) -> CacheState (BlobStateMap IndexedChunkMap Z) :=
  fun s => @run_event dev_profile sample_codecs sample_entry (sample_reader sample_blob) _ Indexed_object sample_write s (EvTask 0).

Definition sample_mem : list (list Z) := [[0; 0; 0; 0]; [0; 0; 0; 0; 0; 0; 0]].

Lemma sample_check : check_keeps sample_entry (check_and_wait [Some sample_others]) sample_image (fun c => c ∈ sample_chunks).
Proof.
  apply check_and_wait_keeps. constructor; [|constructor]. intros f [= <-] s. exact (@run_task_keeps dev_profile _ _ _ _ _ _ _ _ _ _ sample_setup 0 s).
Qed.


Lemma sample_fetch_setup : @fetch_setup sample_entry _ Indexed_object sample_laws (fun c => c ∈ sample_chunks).
Proof.
  assert (forall P : ChunkDesc -> Prop, Forall P sample_chunks -> forall c, c ∈ sample_chunks -> P c) as Hall by (intros P HP; by apply Forall_forall).
  split; [split|done|done|apply indexed_range_laws].
  - apply Hall. by repeat constructor.
  - assert (Forall (fun c => Forall (fun d => chunk_id d = chunk_id c + 1 -> c_limit c <= chunk_c_offset d) sample_chunks) sample_chunks) as Hn
      by (repeat (constructor; [by repeat (constructor; [done|])|]); constructor).
    intros c d Hc Hd. exact (proj1 (Forall_forall _ _) (Hall _ Hn c Hc) d Hd).
Qed.

Definition sample_range : BlobIoRange := mkRange sample_info 0 8 sample_chunks (replicate 3 TagInternal).

Lemma sample_calm : check_calm (check_and_wait (C := IndexedChunkMap) (I := Z) []).
Proof.
  intros c s Hw. cbn [check_and_wait]. by destruct (check_ready_and_mark_pending c (cs_map s)) as [[[]| |] m].
Qed.

Lemma sample_never_fails : ~ backend_failed (sample_reader sample_blob) sample_blob.
Proof.
  intros (offset & len & e & H0 & H1 & H2 & E). unfold read_backend, sample_reader in E. by rewrite zlen_slice, Z.eqb_refl in E.
Qed.

Definition sample_fresh : CacheState (BlobStateMap IndexedChunkMap Z) := mkCS (replicate 12 0) (bsm_from sample_map) [] [] [].

Lemma prefetch_range_ready_witness :
  let r := @prefetch_range dev_profile sample_codecs sample_entry (sample_reader sample_blob) _ Indexed_object (check_and_wait [])
    sample_range sample_fresh in
  r.1 = Ok 8 /\ cs_file r.2 = sample_image /\ Forall (fun c => ml_ready (cs_map r.2) c = true) sample_chunks.
Proof.
  intros r. split; [by vm_compute|]. split; [by vm_compute|].
  pose proof (@prefetch_range_ready dev_profile sample_codecs sample_entry (sample_reader sample_blob) _ Indexed_object sample_laws sample_write
    sample_blob sample_image (fun c => c ∈ sample_chunks) sample_setup sample_fetch_setup (check_and_wait []) sample_range
    sample_fresh ltac:(by apply check_and_wait_keeps) ltac:(by apply sample_inv) ltac:(by apply Forall_forall) ltac:(done)) as Hd.
  fold r in Hd. assert (r.1 = Ok 8) as Er by (by vm_compute). destruct r as [r1 s']. cbn [fst snd] in *. subst r1.
  apply (proj2 Hd sample_calm). split; [exact sample_never_fails|done].
Defined.

(** A second read that waits for the first one's tasks: one of them writes its chunk, the others
    fail; then everything is fetched. *)
Definition sample_events : list (cache_event (M := BlobStateMap IndexedChunkMap Z)) :=
  [EvRead (check_and_wait [Some sample_others]) sample_iovec sample_mem; EvRead (check_and_wait [Some sample_others]) sample_iovec sample_mem;
   EvFetch (check_and_wait []) wait_timeout sample_chunks true; EvPrefetch (check_and_wait []) sample_range].

Lemma sample_events_ok : Forall (@event_ok dev_profile sample_entry _ Indexed_object sample_laws sample_image (fun c => c ∈ sample_chunks)) sample_events.
Proof.
  assert (check_keeps sample_entry (check_and_wait (C := IndexedChunkMap) (I := Z) []) sample_image (fun c => c ∈ sample_chunks)) as Hck
    by (by apply check_and_wait_keeps).
  assert (Forall (fun c => c ∈ sample_chunks) sample_chunks) as Hk by (by apply Forall_forall).
  assert (@event_ok dev_profile sample_entry _ Indexed_object sample_laws sample_image (fun c => c ∈ sample_chunks)
    (EvRead (check_and_wait [Some sample_others]) sample_iovec sample_mem)) as Hread
    by (split; [exact sample_check|]; split; [by repeat constructor|]; split; [exact sample_request|]; by vm_compute).
  apply Forall_cons_2; [exact Hread|]. apply Forall_cons_2; [exact Hread|]. apply Forall_cons_2; [|apply Forall_cons_2; [|constructor]].
  - split; [exact Hck|]. split; [apply wait_timeout_keeps|]. by split_and!.
  - by split_and!.
Qed.

Lemma cache_life_exact_witness :
  let now := @run_event dev_profile sample_codecs sample_entry (sample_reader sample_blob) _ Indexed_object sample_write sample_cache
    (EvRead (check_and_wait [Some sample_others]) sample_iovec sample_mem) in
  let r := @FileCacheEntry_read dev_profile sample_codecs sample_entry (sample_reader sample_blob) _ Indexed_object (check_and_wait [Some sample_others]) sample_write
    sample_iovec sample_mem now in
  read_done sample_entry (sample_reader sample_blob) sample_blob sample_image (fun c => c ∈ sample_chunks) now sample_mem [1; 2; 2; 5; 6; 7; 8; 9; 9] r /\
  r.1 = Ok 9 /\ cs_file r.2.1 = [1; 1; 2; 2; 0; 0; 0; 0; 9; 9; 3; 0].
Proof.
  intros now r. split; [|by split; vm_compute].
  destruct (@cache_life_exact dev_profile sample_codecs sample_entry (sample_reader sample_blob) _ Indexed_object sample_laws sample_write
    sample_blob sample_image (fun c => c ∈ sample_chunks) sample_setup sample_fetch_setup sample_events sample_cache) as [_ Hr];
    [by apply sample_inv| |exact (Hr [EvRead (check_and_wait [Some sample_others]) sample_iovec sample_mem] (check_and_wait [Some sample_others]) sample_iovec sample_mem _ eq_refl)].
  exact sample_events_ok.
Defined.
