(* ===== verification/CacheEdges.v ===== *)
(** Where reads through the file cache go wrong ([storage/src/cache/cachedfile.rs]).

    [CacheMap.cached_read_exact] asks that chunks which are close to each other in the blob are
    neighbours in the chunk table and in the cache file, and that the cache does not validate the
    chunks of a blob's chunk table. The evaluations of this file show what the code does
    otherwise, and what the operations of the blob object do with chunks another thread
    downloads. *)
From S2P Require Import Prelude Utils LittleEndian ChunkInfo Device BlobMeta AddMore MetaFile BlobCache IoMerge MemCursor CacheRegion CachedFile CachedRead CachedPrefetch PersistMap ChunkMaps StateMap RangeState CacheMap.

#[local] Existing Instance dev_profile.

(** A cache in which the three chunks are ready, one in which none is. *)
Definition filled_cache : CacheState (BlobStateMap IndexedChunkMap Z) :=
  mkCS sample_image (foldl (fun m c => (mo_set_ready c m).2) (bsm_from sample_map) sample_chunks) [] [] [].

Definition empty_cache : CacheState (BlobStateMap IndexedChunkMap Z) := mkCS (replicate (Z.to_nat 0x4000) 0) (bsm_from sample_map) [] [] [].

(** A file made of the first and the third chunk. *)
Definition gap_iovec : BlobIoVec :=
  mkIoVec sample_info 8
    [mkIoDesc sample_info (mkChunk (Some 6) 0 0 0 2 0 4 true) 0 4 true;
     mkIoDesc sample_info (mkChunk (Some 24) 2 0 6 2 8 4 true) 0 4 true].

Definition read_gap (s : CacheState (BlobStateMap IndexedChunkMap Z)) : io Z * list (list Z) :=
  let '(r, (_, mem)) := FileCacheEntry_read sample_codecs sample_entry (sample_reader sample_blob) (check_and_wait []) sample_write
    gap_iovec [[0; 0; 0; 0; 0; 0; 0; 0]] s in (r, mem).

(** A file whose chunks are not neighbours in the blob, with a small chunk of another file
    between them: the two descriptors are merged, and reading the file from the backend panics in
    the assertion of [dispatch_backend] that the chunks of a region have consecutive indices. *)
Theorem merged_gap_panics : read_gap empty_cache = (Panic, [[0; 0; 0; 0; 0; 0; 0; 0]]).
Proof. by vm_compute. Qed.


(** ** Validation and read amplification *)

Definition zero_codecs : codecs :=
  mkCodecs (fun _ _ len => Ok (replicate (Z.to_nat len) 0)) (fun _ _ _ => Err ENOSYS) (fun _ _ _ len => Ok (replicate (Z.to_nat len) 0)) (fun buf _ => foldr Z.add 0 buf).

Definition validating_entry (meta : option BlobMetaState) : FileCacheEntry :=
  mkEntry (mkCache CZstd Sha256 false 0x1000 false true (Ok meta)) false true false 0 0.

Definition first_chunk : BlobIoDesc := mkIoDesc sample_info (mkChunk (Some 0) 0 0 0 0x700 0 0x1800 true) 0 4 true.

Definition read_first (cx : codecs) (self : FileCacheEntry) : io Z * CacheState (BlobStateMap IndexedChunkMap Z) :=
  let '(r, (s, _)) := FileCacheEntry_read cx self (sample_reader (replicate (Z.to_nat 0x1000) 0)) (check_and_wait []) sample_write
    (mkIoVec sample_info 4 [first_chunk]) [[0; 0; 0; 0]] empty_cache in (r, s).

(** A cache that validates the chunks of a blob with a chunk table: [dispatch_backend] adds the
    chunks that follow in the table, which have no digest, and validating them panics. The chunk
    of the user is fine. *)
Theorem amplified_validation_panics :
  (read_first zero_codecs (validating_entry (Some sample_state))).1 = Panic /\ (read_first zero_codecs (validating_entry None)).1 = Ok 4.
Proof. by split; vm_compute. Qed.

(** ** Chunks left pending *)

(** A read of one chunk that fails behind the backend leaves the chunk pending: only [read_iter]
    cleans up, [read] with one descriptor does not. *)
Definition broken_codecs : codecs :=
  mkCodecs (fun _ _ _ => Err EIO) (fun _ _ _ => Err ENOSYS) (fun _ _ _ _ => Err ENOSYS) (fun buf _ => foldr Z.add 0 buf).

Theorem failed_read_leaves_pending :
  (read_first broken_codecs (validating_entry None)).1 = Err EIO /\
  bsm_is_pending (cs_map (read_first broken_codecs (validating_entry None)).2) (io_chunk first_chunk) = Ok true /\
  (check_and_wait [] (io_chunk first_chunk) (read_first broken_codecs (validating_entry None)).2).1 = Err Timeout.
Proof. by split_and!; vm_compute. Qed.

(** ** Fetching ranges *)

Definition fetch (self : FileCacheEntry) (chunks : list ChunkDesc) (prefetch : bool) : CacheState (BlobStateMap IndexedChunkMap Z) -> io unit * CacheState (BlobStateMap IndexedChunkMap Z) :=
  do_fetch_chunks zero_codecs self (sample_reader (replicate (Z.to_nat 0x1000) 0)) (check_and_wait []) (fun _ _ s => (Ok true, s)) chunks prefetch.

(** A chunk another thread downloads: fetching it on demand succeeds at once, without waiting for
    the other thread, while the chunk is not ready. *)
Theorem fetch_in_flight_succeeds :
  let c := io_chunk first_chunk in
  let s := (check_and_wait [] c empty_cache).2 in
  (fetch (validating_entry None) [c] false s).1 = Ok tt /\
  mo_is_ready (cs_map (fetch (validating_entry None) [c] false s).2) c = Ok false.
Proof. by split; vm_compute. Qed.

(** *** ZRan blobs *)

Definition zran_entry : FileCacheEntry :=
  mkEntry (mkCache CGZip Sha256 false 0x1000 true false (Ok (Some sample_zran_state))) false true false 0 0.

Definition zran_chunk (i : Z) : ChunkDesc := mkChunk None i 0 0 0x800 (i * 0x1000) 0x1000 true.

Lemma zran_chunk_desc : BlobMetaChunk_desc sample_zran_state 0 = Ok (zran_chunk 0) /\ BlobMetaChunk_desc sample_zran_state 1 = Ok (zran_chunk 1).
Proof. by split; vm_compute. Qed.

Definition fetch_zran (s : CacheState (BlobStateMap IndexedChunkMap Z)) : io unit :=
  (fetch_range_uncompressed zero_codecs zran_entry (sample_reader (replicate (Z.to_nat 0x1000) 0)) (check_and_wait []) (fun _ _ s => (Ok true, s)) 0 0x1000 s).1.

Definition ready_zran : CacheState (BlobStateMap IndexedChunkMap Z) :=
  mkCS (replicate (Z.to_nat 0x2000) 0) (foldl (fun m c => (mo_set_ready c m).2) (bsm_from sample_map) [zran_chunk 0; zran_chunk 1]) [] [] [].

(** The two chunks of a ZRan context, none of them ready: [do_fetch_chunks] takes the number of
    pending chunks for the index of the last one. *)
Theorem zran_fetch_panics : (fetch zran_entry [zran_chunk 0; zran_chunk 1] true empty_cache).1 = Panic.
Proof. by vm_compute. Qed.

(** A range of a ZRan blob that is in the cache: [strip_ready_chunks] finds no chunk to keep. *)
Theorem zran_ready_range_panics : fetch_zran ready_zran = Panic.
Proof. by vm_compute. Qed.
