(* ===== verification/CacheMgr.v ===== *)
(** Creating and reopening file caches ([storage/src/cache/filecache/mod.rs],
    [storage/src/cache/fscache/mod.rs] and [FileCacheMeta] of [storage/src/cache/cachedfile.rs]).

    [new_file_cache] and [new_fs_cache] work on the files of a blob: its data, its chunk map and
    its chunk table. A cache that is created in an empty directory, used for any sequence of
    reads and writes and stopped at any time is opened again with every chunk that was ready, and
    serves the right bytes. *)
From S2P Require Import Prelude Utils LittleEndian ChunkInfo Device BlobMeta AddMore MetaFile BlobCache IoMerge MemCursor CacheRegion CachedFile CachedRead CachedPrefetch PersistMap ChunkMaps StateMap RangeState CacheMap.

(** ** Model *)

(** The files [<id>.blob.data], [<id>.chunk_map] and [<id>.blob.meta] of the work directory. *)
Record BlobFiles := mkFiles {
  bf_data : option (list Z);
  bf_chunk_map : option (list Z);
  bf_meta : option (list Z)
}.

(** What [FileCacheMgr] and [FsCacheMgr] keep of the configuration. *)
Record FileCacheMgr := mkMgr {
  mgr_validate : bool;
  mgr_disable_indexed_map : bool;
  mgr_is_compressed : bool;
  mgr_merging_size : Z
}.

(** The [dyn ChunkMap] of an entry. *)
Inductive chunk_map :=
| IndexedMap (m : BlobStateMap IndexedChunkMap Z)
| DigestedMap (m : BlobStateMap DigestedChunkMap (option Z)).

(** The state of the meta data once its thread has ended: by itself or in a panic. *)
Inductive FileCacheMeta := MetaReady (m : BlobMetaState) | MetaFailed | MetaLost.

Section cache_mgr.
Context `{Profile}.
(** As for [BlobMetaInfo::new]. *)
Variable decompress : CompressAlgorithm -> list Z -> Z -> outcome errno (list Z).

Definition DOWNLOAD_META_RETRY_COUNT : nat := 20.

(** The thread of [FileCacheMeta::new]; [reader n] is the reader at the [n]th attempt. *)
Fixpoint download_meta (b : BlobInfo) (reader : nat -> BlobReader) (todo retry : nat) (file : option (list Z)) : FileCacheMeta * option (list Z) :=
  match todo with
  | O => (MetaFailed, file)
  | S todo =>
      match BlobMetaInfo_new decompress b (Some (reader retry)) file with
      | (Ok m, file) => (MetaReady m, file)
      | (Err _, file) => download_meta b reader todo (S retry) file
      | (Panic, file) => (MetaLost, file)
      end
  end.

Definition FileCacheMeta_new (b : BlobInfo) (reader : nat -> BlobReader) : stM BlobFiles errno FileCacheMeta := fun f =>
  let '(m, file) := download_meta b reader DOWNLOAD_META_RETRY_COUNT 0 (bf_meta f) in
  (Ok m, mkFiles (bf_data f) (bf_chunk_map f) file).

(** [FileCacheEntry::get_blob_meta_info] with the loop of [get_blob_meta], which waits for the
    thread. When the thread has died the loop does not end, so that the caller returns nothing. *)
Definition get_blob_meta_info (meta : option FileCacheMeta) : io (option BlobMetaState) :=
  match meta with
  | None => Ok None
  | Some (MetaReady m) => Ok (Some m)
  | Some MetaFailed => Err EINVAL
  | Some MetaLost => Panic
  end.

(** [size] is what [BlobReader::blob_size] returns. *)
Definition get_blob_size (b : BlobInfo) (size : outcome errno Z) : io Z :=
  if bi_is_legacy_stargz b then match size with Err _ => Err EINVAL | r => r end else Ok 0.

(** [IndexedChunkMap::new] on the file of the blob. *)
Definition open_indexed (b : BlobInfo) (persist : bool) : stM BlobFiles errno IndexedChunkMap := fun f =>
  match IndexedChunkMap_new (bf_chunk_map f) (bi_chunk_count b) persist with
  | Ok (m, file) => (Ok m, mkFiles (bf_data f) file (bf_meta f))
  | Err e => (Err e, f)
  | Panic => (Panic, f)
  end.

Definition create_chunk_map (mgr : FileCacheMgr) (b : BlobInfo) : stM BlobFiles errno (chunk_map * bool) :=
  let is_v5 := negb (meta_ci_is_valid b) in
  if (is_v5 && mgr_disable_indexed_map mgr) || has_feature V5_NO_EXT_BLOB_TABLE b
  then st_ret (DigestedMap (bsm_from (mkDigested ∅)), false)
  else m ← open_indexed b true; st_ret (IndexedMap (bsm_from m), true).

Definition is_zran_blob (b : BlobInfo) : bool := negb (Z.land (bi_meta_flags b) BLOB_META_FEATURE_ZRAN =? 0).

(** The size of the cache file is set when it is new and checked otherwise. *)
Definition size_data_file (size : Z) : stM BlobFiles errno unit := fun f =>
  let file := default [] (bf_data f) in
  if zlen file =? 0 then (Ok tt, mkFiles (Some (set_len size file)) (bf_chunk_map f) (bf_meta f))
  else if negb (size =? 0) && negb (zlen file =? size) then (Err EINVAL, f)
  else (Ok tt, f).

(** [reader] and [size] are what the backend answers for the blob. *)
Definition new_file_cache (mgr : FileCacheMgr) (b : BlobInfo) (reader : outcome errno (nat -> BlobReader)) (size : outcome errno Z)
  : stM BlobFiles errno (FileCacheEntry * chunk_map) :=
  _ ← st_modify (fun f => mkFiles (Some (default [] (bf_data f))) (bf_chunk_map f) (bf_meta f));
  '(map, is_direct_chunkmap) ← create_chunk_map mgr b;
  reader ← st_lift (match reader with Err _ => Err EIO | r => r end);
  blob_compressed_size ← st_lift (get_blob_size b size);
  let is_compressed := mgr_is_compressed mgr && negb (bool_decide (bi_compressor b = CNone)) in
  let need_validation := (mgr_validate mgr || negb is_direct_chunkmap) && negb (bi_is_legacy_stargz b) in
  _ ← size_data_file (if is_compressed then bi_compressed_size b else bi_uncompressed_size b);
  meta ← (if meta_ci_is_valid b then m ← FileCacheMeta_new b reader; st_ret (Some m) else st_ret None);
  st_ret (mkEntry (mkCache (bi_compressor b) (bi_digester b) (bi_is_legacy_stargz b) blob_compressed_size (is_zran_blob b) need_validation
                     (get_blob_meta_info meta))
            is_compressed is_direct_chunkmap false RAFS_DEFAULT_CHUNK_SIZE (mgr_merging_size mgr), map).

(** [file] tells whether the blob has a file of fscache. The chunk map is not saved. *)
Definition new_fs_cache (mgr : FileCacheMgr) (b : BlobInfo) (file : bool) (reader : outcome errno (nat -> BlobReader)) (size : outcome errno Z)
  : stM BlobFiles errno (FileCacheEntry * chunk_map) :=
  if has_feature V5_NO_EXT_BLOB_TABLE b then st_lift (Err EINVAL)
  else if negb file then st_lift (Err EINVAL)
  else
    m ← open_indexed b false;
    reader ← st_lift (match reader with Err _ => Err EIO | r => r end);
    blob_compressed_size ← st_lift (get_blob_size b size);
    if negb (meta_ci_is_valid b) then st_lift (Err ENOSYS)
    else
      meta ← FileCacheMeta_new b reader;
      st_ret (mkEntry (mkCache (bi_compressor b) (bi_digester b) (bi_is_legacy_stargz b) blob_compressed_size (is_zran_blob b)
                         (mgr_validate mgr && negb (bi_is_legacy_stargz b)) (get_blob_meta_info (Some meta)))
                false true true RAFS_DEFAULT_CHUNK_SIZE (mgr_merging_size mgr), IndexedMap (bsm_from m)).
End cache_mgr.

(** ** Creating, stopping and opening a cache *)

Section restart.
Context `{Profile} (decompress : CompressAlgorithm -> list Z -> Z -> outcome errno (list Z)) (mgr : FileCacheMgr) (b : BlobInfo).
Context (img : list Z) (K : ChunkDesc -> Prop).

(** A blob whose data is cached as it is, with a map of its chunk indices. *)
Record cacheable : Prop := {
  cf_plain : mgr_is_compressed mgr = false \/ bi_compressor b = CNone;
  cf_direct : (negb (meta_ci_is_valid b) && mgr_disable_indexed_map mgr) || has_feature V5_NO_EXT_BLOB_TABLE b = false;
  cf_legacy : bi_is_legacy_stargz b = false;
  cf_count : 0 < bi_chunk_count b < 2 ^ 32;
  cf_size : 0 < bi_uncompressed_size b /\ zlen img = bi_uncompressed_size b;
  cf_chunks c : K c -> 0 <= chunk_id c < bi_chunk_count b
}.
Hypothesis ok : cacheable.

Let Laws : ChunkMapObjLaws (BlobStateMap IndexedChunkMap Z) := Indexed_object_laws (bi_chunk_count b).
#[local] Existing Instance Laws.

Definition plain_entry (meta : option FileCacheMeta) : FileCacheEntry :=
  mkEntry (mkCache (bi_compressor b) (bi_digester b) false 0 (is_zran_blob b) (mgr_validate mgr) (get_blob_meta_info meta))
    false true false RAFS_DEFAULT_CHUNK_SIZE (mgr_merging_size mgr).

Lemma size_data_file_Ok data cm meta : data = [] \/ zlen data = bi_uncompressed_size b ->
  size_data_file (bi_uncompressed_size b) (mkFiles (Some data) cm meta) =
    (Ok tt, mkFiles (Some (if decide (data = []) then replicate (Z.to_nat (bi_uncompressed_size b)) 0 else data)) cm meta).
Proof.
  destruct (cf_size ok) as [Hs _]. intros [->|E]; unfold size_data_file; cbn [bf_data from_option id].
  - change (zlen [] =? 0) with true. cbn. unfold set_len. by rewrite take_nil, Nat.sub_0_r.
  - rewrite E, (proj2 (Z.eqb_neq _ _)), Z.eqb_refl, andb_false_r by lia. destruct (decide (data = [])) as [->|]; [|done]. change (zlen []) with 0 in E. lia.
Qed.

Lemma new_file_cache_Ok reader size data cm meta m cm' : data = [] \/ zlen data = bi_uncompressed_size b ->
  IndexedChunkMap_new cm (bi_chunk_count b) true = Ok (m, cm') ->
  exists fm meta', new_file_cache decompress mgr b (Ok reader) size (mkFiles (Some data) cm meta) =
    (Ok (plain_entry fm, IndexedMap (bsm_from m)),
     mkFiles (Some (if decide (data = []) then replicate (Z.to_nat (bi_uncompressed_size b)) 0 else data)) cm' meta').
Proof.
  intros Hd Em. unfold new_file_cache, create_chunk_map. rewrite (cf_direct ok). unfold mbind, stM_bind, st_bind, st_modify, st_ret, st_lift.
  cbn [bf_data bf_chunk_map bf_meta from_option id]. unfold open_indexed. cbn [bf_chunk_map]. rewrite Em. cbn [bf_data bf_meta].
  unfold get_blob_size. rewrite (cf_legacy ok).
  assert (mgr_is_compressed mgr && negb (bool_decide (bi_compressor b = CNone)) = false) as ->.
  { destruct (cf_plain ok) as [->| ->]; [done|]. by rewrite bool_decide_true, andb_false_r. }
  cbn [negb]. rewrite orb_false_r, andb_true_r, size_data_file_Ok by done. unfold FileCacheMeta_new.
  destruct (meta_ci_is_valid b).
  - cbn [bf_meta bf_data bf_chunk_map]. destruct (download_meta _ _ _ _ _ _) as [fm file]. by eexists _, _.
  - by eexists None, _.
Qed.

(** A state of a cache that has just been opened. *)
Definition opened (file : list Z) (m : BlobStateMap IndexedChunkMap Z) (writes : list (errno + nat)) : CacheState (BlobStateMap IndexedChunkMap Z) :=
  mkCS file m writes [] [].

Lemma opened_inv self m file writes : pm_exact m -> saved_map (bi_chunk_count b) m -> zlen file = zlen img ->
  (forall c, bc_need_validation (fe_cache self) = false -> K c -> chunk_bit (pm_file m) (chunk_id c) = true -> agrees img file (chunk_u_offset c) (u_end c)) ->
  cache_inv self img K (opened file (bsm_from m) writes).
Proof.
  intros He Hs Hf Hd. split; [by split| |exact Hd|done|constructor|done]. intros c Hc. cbn. rewrite (proj2 Hs). by apply (cf_chunks ok).
Qed.

Lemma new_file_cache_fresh reader size meta :
  exists fm meta', new_file_cache decompress mgr b (Ok reader) size (mkFiles None None meta) =
    (Ok (plain_entry fm, IndexedMap (bsm_from (mkPM (bi_chunk_count b) (bi_chunk_count b) (fresh_file (bi_chunk_count b))))),
     mkFiles (Some (replicate (Z.to_nat (bi_uncompressed_size b)) 0)) (Some (fresh_file (bi_chunk_count b))) meta') /\
    forall writes, cache_inv (plain_entry fm) img K (opened (replicate (Z.to_nat (bi_uncompressed_size b)) 0)
      (bsm_from (mkPM (bi_chunk_count b) (bi_chunk_count b) (fresh_file (bi_chunk_count b)))) writes).
Proof.
  pose proof (cf_count ok) as Hc. destruct (cf_size ok) as [Hs Hz].
  destruct (new_file_cache_Ok reader size [] None meta _ _ (or_introl eq_refl) (persist_open_new _ None Hc ltac:(left))) as (fm & meta' & E).
  exists fm, meta'. split; [exact E|]. intros writes. destruct (fresh_exact _ Hc) as [He Hn]. destruct (fresh_header (bi_chunk_count b)) as [Hh Ha].
  apply opened_inv; [done|split; [split; [done|]|done]| |].
  - unfold mark_sound. cbn [pm_file]. by rewrite Ha.
  - unfold zlen. rewrite length_replicate. unfold zlen in Hz. lia.
  - intros c _ Hk Hb. cbn [pm_file] in Hb. rewrite fresh_bits in Hb; [done|]. apply (cf_chunks ok c Hk).
Qed.

(** The files of a cache that was stopped. *)
Lemma new_file_cache_reopen self (s : CacheState (BlobStateMap IndexedChunkMap Z)) reader size meta : cache_inv self img K s -> bc_need_validation (fe_cache self) = mgr_validate mgr ->
  exists fm m meta', new_file_cache decompress mgr b (Ok reader) size (mkFiles (Some (cs_file s)) (Some (pm_file (bsm_c (cs_map s)))) meta) =
    (Ok (plain_entry fm, IndexedMap (bsm_from m)), mkFiles (Some (cs_file s)) (Some (pm_file m)) meta') /\
    (forall writes, cache_inv (plain_entry fm) img K (opened (cs_file s) (bsm_from m) writes)) /\
    forall c, K c -> ml_ready (bsm_from m) c = ml_ready (cs_map s) c.
Proof.
  intros Hi Hv. destruct (CachedRead.ci_wf _ _ _ _ Hi) as [He [[Hh Hs] Hc]]. destruct (cf_size ok) as [Hsz Hz]. pose proof (ci_size _ _ _ _ Hi) as Hf.
  destruct (persist_reopen (bsm_c (cs_map s)) true (proj1 He) Hh Hs) as (m & E & Hcm & He' & Hh' & Hs' & Hb). rewrite Hc in E, Hcm, Hb.
  destruct (new_file_cache_Ok reader size (cs_file s) (Some (pm_file (bsm_c (cs_map s)))) meta m (Some (pm_file m))) as (fm & meta' & En); [right; lia|exact E|].
  rewrite decide_False in En by (intros Ef; rewrite Ef in Hf; change (zlen []) with 0 in Hf; lia).
  exists fm, m, meta'. split; [exact En|]. assert (forall c, K c -> chunk_bit (pm_file m) (chunk_id c) = chunk_bit (pm_file (bsm_c (cs_map s))) (chunk_id c)) as Hbit.
  { intros c Hk. apply Hb. by apply (cf_chunks ok). }
  split; [|exact Hbit]. intros writes. apply opened_inv; [done|by split|done|]. intros c Hnv Hk Hr. rewrite Hbit in Hr by done.
  apply (ci_data _ _ _ _ Hi); [rewrite Hv; exact Hnv|done|exact Hr].
Qed.

(** C5: The cache of a blob is opened without files, used by any sequence of reads, prefetches, fetches
    and delayed writes, stopped, and opened again on the files it left. Both openings succeed; the
    second one finds the chunks ready that were ready before and no others, leaves the cache file as
    it is, and each chunk it finds ready has its data in the file. *)
Theorem file_cache_restart reader size meta :
  exists self m data cm meta', new_file_cache decompress mgr b (Ok reader) size (mkFiles None None meta) = (Ok (self, IndexedMap m), mkFiles (Some data) cm meta') /\
  forall cx rdr slice_write blob evs writes, cache_setup (M := BlobStateMap IndexedChunkMap Z) cx self rdr slice_write blob img K -> in_order K ->
  Forall (event_ok self img K) evs ->
  let s := foldl (run_event cx self rdr slice_write) (opened data m writes) evs in
  forall reader' size', exists self' m' cm' meta'',
    new_file_cache decompress mgr b (Ok reader') size' (mkFiles (Some (cs_file s)) (Some (pm_file (bsm_c (cs_map s)))) meta') =
      (Ok (self', IndexedMap m'), mkFiles (Some (cs_file s)) cm' meta'') /\
    (forall writes', cache_inv self' img K (opened (cs_file s) m' writes')) /\
    forall c, K c -> ml_ready m' c = ml_ready (cs_map s) c.
Proof.
  destruct (new_file_cache_fresh reader size meta) as (fm & meta' & E & Hi). eexists _, _, _, _, meta'. split; [exact E|].
  intros cx rdr slice_write blob evs writes Hsetup Hord Hev s reader' size'.
  destruct (new_file_cache_reopen (plain_entry fm) s reader' size' meta') as (fm' & m' & meta'' & E' & Hi' & Hr); [|done|by eexists _, _, _, _].
  apply (run_events_inv cx _ rdr slice_write blob img K Hsetup); [|apply Hi|done].
  split; [done|done|done|apply indexed_range_laws].
Qed.
End restart.

(** ** A cache to evaluate *)

Definition sample_mgr : FileCacheMgr := mkMgr false false false 0.

Lemma sample_cacheable : cacheable sample_mgr sample_info sample_image (fun c => c ∈ sample_chunks).
Proof.
  split; [by left|done|done|done|done|]. intros c Hc. revert c Hc.
  assert (Forall (fun c => 0 <= chunk_id c < bi_chunk_count sample_info) sample_chunks) as Hall by (by repeat constructor). by apply Forall_forall.
Qed.

(** The cache after [sample_events]. *)
Definition sample_stopped : CacheState (BlobStateMap IndexedChunkMap Z) :=
  foldl (@run_event dev_profile sample_codecs sample_entry (sample_reader sample_blob) _ Indexed_object sample_write)
    (opened (replicate 12 0) (bsm_from sample_map) [inr 4096%nat; inl EIO; inr 3%nat]) sample_events.

Lemma file_cache_restart_witness :
  exists self' m' cm' meta'',
    @new_file_cache dev_profile (fun _ _ _ => Err EINVAL) sample_mgr sample_info (Ok (fun _ => sample_reader sample_blob)) (Ok 8)
      (mkFiles (Some (cs_file sample_stopped)) (Some (pm_file (bsm_c (cs_map sample_stopped)))) None) =
      (Ok (self', IndexedMap m'), mkFiles (Some (cs_file sample_stopped)) cm' meta'') /\
    cache_inv (ChunkMapObjLaws0 := Indexed_object_laws 20) self' sample_image (fun c => c ∈ sample_chunks) (opened (cs_file sample_stopped) m' []) /\
    @ml_ready _ Indexed_object (Indexed_object_laws 20) m' (mkChunk (Some 6) 0 0 0 2 0 4 true) = true.
Proof.
  destruct (@file_cache_restart dev_profile (fun _ _ _ => Err EINVAL) sample_mgr sample_info sample_image (fun c => c ∈ sample_chunks) sample_cacheable
    (fun _ => sample_reader sample_blob) (Ok 8) None) as (self & m & data & cm & meta' & E & Hr).
  vm_compute in E. injection E as <- <- <- _ <-.
  destruct (Hr sample_codecs (sample_reader sample_blob) sample_write sample_blob sample_events [inr 4096%nat; inl EIO; inr 3%nat] sample_setup
    (fs_order _ _ sample_fetch_setup) sample_events_ok (fun _ => sample_reader sample_blob) (Ok 8))
    as (self' & m' & cm' & meta'' & E' & Hi & Hready).
  exists self', m', cm', meta''. split; [exact E'|]. split; [apply Hi|]. rewrite Hready by (by left). by vm_compute.
Defined.
