(* ===== verification/RafsLayout.v ===== *)
(** RAFS metadata layout helpers ([rafs/src/metadata/layout/mod.rs], [rafs/src/lib.rs]).

    Byte strings, the writer of the bootstrap with its alignment checks, extended attributes and
    their on-disk form, and the ranges used to validate the tables of a super block. A file name
    or attribute name is an [OsStr], the list of its bytes. The theorem shows that the
    attributes stored by [store_v5] are found again by the parsers. *)
From S2P Require Import Prelude LittleEndian ChunkInfo.

(** ** Strings *)

(** [str::from_utf8]: the well-formed byte sequences of the Unicode standard. *)
Definition cont_byte (b : Z) : bool := (0x80 <=? b) && (b <=? 0xbf).
Definition between (lo hi b : Z) : bool := (lo <=? b) && (b <=? hi).

Fixpoint utf8_valid (l : list Z) : bool :=
  match l with
  | [] => true
  | a :: l1 =>
      if a <? 0x80 then utf8_valid l1
      else
        match l1 with
        | [] => false
        | b :: l2 =>
            if between 0xc2 0xdf a then cont_byte b && utf8_valid l2
            else
              match l2 with
              | [] => false
              | c :: l3 =>
                  if between 0xe0 0xef a then
                    between (if a =? 0xe0 then 0xa0 else 0x80) (if a =? 0xed then 0x9f else 0xbf) b &&
                    cont_byte c && utf8_valid l3
                  else
                    match l3 with
                    | [] => false
                    | d :: l4 =>
                        between 0xf0 0xf4 a &&
                        between (if a =? 0xf0 then 0x90 else 0x80) (if a =? 0xf4 then 0x8f else 0xbf) b &&
                        cont_byte c && cont_byte d && utf8_valid l4
                    end
              end
        end
  end.

Definition from_utf8 (l : list Z) : io (list Z) := if utf8_valid l then Ok l else Err EINVAL.

(** The bytes before the first NUL, and those after it when there is one. *)
Fixpoint split_nul (l : list Z) : list Z * option (list Z) :=
  match l with
  | [] => ([], None)
  | b :: l => if b =? 0 then ([], Some l) else let '(a, r) := split_nul l in (b :: a, r)
  end.

Definition parse_string (buf : list Z) : io (list Z * list Z) :=
  origin ← from_utf8 buf;
  let '(a, b) := split_nul origin in
  Ok (a, default [] b).

(** ** The writer of the bootstrap

    [RafsIoWrite]: the data written so far; the position is its end. *)
Definition write_all (data : list Z) : stM (list Z) errno unit := st_modify (fun w => w ++ data).

Definition write_padding (size : Z) : stM (list Z) errno unit :=
  if 64 <? size then st_lift (Err EINVAL) else write_all (replicate (Z.to_nat size) 0).

Definition validate_alignment (size alignment : Z) : stM (list Z) errno Z := fun w =>
  if negb (alignment =? 0) &&
     (negb (Z.land size (alignment - 1) =? 0) || negb (Z.land (Z.of_nat (length w)) (alignment - 1) =? 0))
  then (Err EINVAL, w) else (Ok size, w).

Definition RAFSV5_ALIGNMENT : Z := 8.

Definition rafsv5_align (size : Z) : Z :=
  if Z.land size (RAFSV5_ALIGNMENT - 1) =? 0 then size
  else size + (RAFSV5_ALIGNMENT - Z.land size (RAFSV5_ALIGNMENT - 1)).

(** ** Extended attributes *)

Section parse_xattr.
Context {S : Type} (cb : S -> list Z -> list Z -> S * bool).

(** The [while i < size] loop. Every iteration consumes at least the four bytes of a length. *)
Fixpoint parse_loop (fuel : nat) (size : nat) (i : nat) (rest_data : list Z) (s : S) : io S :=
  match fuel with
  | O => Panic
  | Datatypes.S fuel =>
      if negb (i <? size)%nat then Ok s
      else if (length rest_data <? 4)%nat then Err EINVAL
      else
        let pair_size := Z.to_nat (le_num (take 4 rest_data)) in
        let rest := drop 4 rest_data in
        let i := (i + 4)%nat in
        if (length rest <? pair_size)%nat then Err EINVAL
        else
          let pair := take pair_size rest in
          let rest := drop pair_size rest in
          let '(s, go_on) := match split_nul pair with
                             | (name, Some value) => cb s name value
                             | (_, None) => (s, true)
                             end in
          if (go_on : bool) then parse_loop fuel size (i + pair_size) rest s else Ok s
  end.

Definition parse_xattr (data : list Z) (size : nat) (s : S) : io S :=
  if (length data <? size)%nat then Err EINVAL
  else parse_loop (Datatypes.S size) size 0 (take size data) s.
End parse_xattr.

Definition parse_xattr_names (data : list Z) (size : nat) : io (list (list Z)) :=
  parse_xattr (fun result name _ => (result ++ [name], true)) data size [].

Definition parse_xattr_value (data : list Z) (size : nat) (name : list Z) : io (option (list Z)) :=
  parse_xattr (fun value name' value' => if bool_decide (name' = name) then (Some value', false) else (value, true))
    data size None.

(** The bytes of the prefixes [user.], [security.], [trusted.], [system.posix_acl_access] and
    [system.posix_acl_default]. *)
Definition bytes_of_string (s : string) : list Z :=
  (fun c => Z.of_N (Ascii.N_of_ascii c)) <$> String.list_ascii_of_string s.

Definition RAFS_XATTR_PREFIXES : list (list Z) :=
  bytes_of_string <$> ["user."; "security."; "trusted."; "system.posix_acl_access"; "system.posix_acl_default"]%string.

(** [RafsXAttrs]. *)
Notation RafsXAttrs := (gmap (list Z) (list Z)) (only parsing).

Definition xattrs_get (name : list Z) (x : RafsXAttrs) : option (list Z) := x !! name.
Definition xattrs_remove (name : list Z) (x : RafsXAttrs) : RafsXAttrs := delete name x.

Definition has_prefix (p name : list Z) : bool :=
  (length p <? length name)%nat && bool_decide (take (length p) name = p).

Definition xattrs_add (name value : list Z) (x : RafsXAttrs) : io RafsXAttrs :=
  if (255 <? Z.of_nat (length name)) || (0x10000 <? Z.of_nat (length value)) then Err EINVAL
  else if existsb (fun p => has_prefix p name) RAFS_XATTR_PREFIXES then Ok (<[name := value]> x)
  else Err EINVAL.

(** [iter] is the order in which the hash map enumerates its pairs. *)
Definition pair_size (kv : list Z * list Z) : Z := Z.of_nat (length kv.1) + 1 + Z.of_nat (length kv.2).
Definition xattrs_size (iter : list (list Z * list Z)) : Z := foldr (fun kv n => 4 + pair_size kv + n) 0 iter.

Definition aligned_size_v5 (iter : list (list Z * list Z)) : Z := rafsv5_align (xattrs_size iter).

Fixpoint store_pairs (iter : list (list Z * list Z)) (size : Z) : stM (list Z) errno Z :=
  match iter with
  | [] => st_ret size
  | (key, value) :: iter =>
      _ ← write_all (le_bytes 4 (wrap 32 (pair_size (key, value))));
      _ ← write_all key;
      _ ← write_all [0];
      _ ← write_all value;
      store_pairs iter (size + 4 + Z.of_nat (length key) + 1 + Z.of_nat (length value))
  end.

Definition store_v5 (iter : list (list Z * list Z)) : stM (list Z) errno Z :=
  size ← (match iter with
          | [] => st_ret 0
          | _ => _ ← write_all (le_bytes 8 (xattrs_size iter)); store_pairs iter 8
          end);
  let padding := rafsv5_align size - size in
  _ ← write_padding padding;
  validate_alignment (size + padding) RAFSV5_ALIGNMENT.

(** ** Ranges of the metadata blob *)

Record MetaRange := mkMetaRange { mr_start : Z; mr_size : Z }.

Definition MetaRange_new (start size : Z) (aligned_size : bool) : io MetaRange :=
  let mask := RAFSV5_ALIGNMENT - 1 in
  if (Z.land start mask =? 0) && (negb aligned_size || (Z.land size mask =? 0)) &&
     bool_decide (is_Some (checked_add 64 start size))
  then Ok (mkMetaRange start size) else Err EINVAL.

Section meta_range.
Context `{Profile}.
Definition mr_end (r : MetaRange) : io Z := uadd 64 (mr_start r) (mr_size r).

Definition is_subrange_of (self other : MetaRange) : io bool :=
  if mr_start other <=? mr_start self then e ← mr_end self; e' ← mr_end other; Ok (e <=? e') else Ok false.

Definition intersect_with (self other : MetaRange) : io bool :=
  e' ← mr_end other;
  if mr_start self <? e' then e ← mr_end self; Ok (mr_start other <? e) else Ok false.
End meta_range.

(** ** Alignment *)

Lemma land7 x : Z.land x (RAFSV5_ALIGNMENT - 1) = x mod 8.
Proof. change (RAFSV5_ALIGNMENT - 1) with (Z.ones 3). by rewrite Z.land_ones. Qed.

Lemma rafsv5_align_spec x : 0 <= x -> rafsv5_align x mod 8 = 0 /\ x <= rafsv5_align x < x + 8.
Proof.
  intros Hx. unfold rafsv5_align. rewrite land7. change RAFSV5_ALIGNMENT with 8.
  pose proof (Z.mod_pos_bound x 8 ltac:(lia)). destruct (Z.eqb_spec (x mod 8) 0) as [E|E]; [lia|].
  split; [|lia]. rewrite (Z.div_mod x 8) at 1 by lia.
  replace (8 * (x / 8) + x mod 8 + (8 - x mod 8)) with ((x / 8 + 1) * 8) by lia. apply Z.mod_mul. lia.
Qed.

Lemma validate_alignment_Ok size (w : list Z) : size mod 8 = 0 -> Z.of_nat (length w) mod 8 = 0 ->
  validate_alignment size RAFSV5_ALIGNMENT w = (Ok size, w).
Proof. intros H1 H2. unfold validate_alignment. rewrite !land7, H1, H2. done. Qed.

(** ** Round trip of the attributes *)

Definition pair_bytes (kv : list Z * list Z) : list Z := le_bytes 4 (pair_size kv) ++ kv.1 ++ 0 :: kv.2.
Definition pairs_bytes (iter : list (list Z * list Z)) : list Z := concat (pair_bytes <$> iter).

(** Names without a NUL, and pairs that fit their length field. *)
Definition pair_ok (kv : list Z * list Z) : Prop := Forall (fun b => b <> 0) kv.1 /\ pair_size kv < 2 ^ 32.

Lemma split_nul_app l r : Forall (fun b => b <> 0) l -> split_nul (l ++ 0 :: r) = (l, Some r).
Proof.
  induction 1 as [|b l Hb _ IH]; [done|]. cbn. rewrite (proj2 (Z.eqb_neq _ _) Hb), IH. done.
Qed.

Lemma length_pair_bytes kv : Z.of_nat (length (pair_bytes kv)) = 4 + pair_size kv.
Proof. unfold pair_bytes, pair_size. rewrite !length_app, length_le_bytes. cbn. lia. Qed.

Lemma length_pairs_bytes iter : Z.of_nat (length (pairs_bytes iter)) = xattrs_size iter.
Proof.
  induction iter as [|kv iter IH]; [done|]. unfold pairs_bytes in *. cbn [fmap list_fmap concat].
  rewrite length_app, Nat2Z.inj_add, IH, length_pair_bytes. done.
Qed.

Lemma st_bind_run {S E A B} (m : stM S E A) (f : A -> stM S E B) s a s' :
  m s = (Ok a, s') -> (m ≫= f) s = f a s'.
Proof. intros E1. unfold mbind, stM_bind, st_bind. by rewrite E1. Qed.

Lemma store_pairs_run iter size w : Forall pair_ok iter ->
  store_pairs iter size w = (Ok (size + xattrs_size iter), w ++ pairs_bytes iter).
Proof.
  intros Hok. revert size w. induction Hok as [|[k v] iter [_ Hs] _ IH]; intros size w.
  { cbn. rewrite app_nil_r. unfold st_ret. do 2 f_equal. lia. }
  cbn [store_pairs]. unfold write_all. do 4 (erewrite st_bind_run by reflexivity). rewrite IH.
  rewrite wrap_small by (split; [unfold pair_size; lia|done]).
  change (xattrs_size ((k, v) :: iter)) with (4 + pair_size (k, v) + xattrs_size iter).
  f_equal; [f_equal; unfold pair_size; cbn [fst snd]; lia|]. unfold pairs_bytes. cbn. unfold pair_bytes. by rewrite <- !app_assoc.
Qed.

Section parse_spec.
Context {S : Type} (cb : S -> list Z -> list Z -> S * bool).

(** The callback on the pairs, up to the one where it stops. *)
Fixpoint visit (iter : list (list Z * list Z)) (s : S) : S :=
  match iter with
  | [] => s
  | (k, v) :: iter => let '(s, go_on) := cb s k v in if (go_on : bool) then visit iter s else s
  end.

Lemma parse_loop_pairs fuel size i iter s : Forall pair_ok iter ->
  (length (pairs_bytes iter) < fuel)%nat -> (i + length (pairs_bytes iter) = size)%nat ->
  parse_loop cb fuel size i (pairs_bytes iter) s = Ok (visit iter s).
Proof.
  intros Hok. revert fuel i s. induction Hok as [|[k v] iter [Hk Hs] _ IH]; intros fuel i s Hf Hi.
  { destruct fuel as [|fuel]; [cbn in Hf; lia|]. cbn [parse_loop]. by rewrite (proj2 (Nat.ltb_ge _ _)) by (cbn in Hi; lia). }
  destruct fuel as [|fuel]; [lia|]. cbn [parse_loop]. unfold pairs_bytes in *. cbn [fmap list_fmap concat] in *.
  rewrite length_app in Hf, Hi. pose proof (length_pair_bytes (k, v)) as Hl. cbn [fst snd] in *.
  assert (0 <= pair_size (k, v)) by (unfold pair_size; lia).
  set (rest := concat (pair_bytes <$> iter)) in *.
  rewrite (proj2 (Nat.ltb_lt i size)) by lia. cbn [negb].
  rewrite (proj2 (Nat.ltb_ge (length (pair_bytes (k, v) ++ rest)) 4)) by (rewrite length_app; lia).
  assert (take 4 (pair_bytes (k, v) ++ rest) = le_bytes 4 (pair_size (k, v))) as ->.
  { unfold pair_bytes. rewrite <- !app_assoc. by rewrite <- (length_le_bytes 4 (pair_size (k, v))) at 1; rewrite take_app_length. }
  assert (drop 4 (pair_bytes (k, v) ++ rest) = (k ++ 0 :: v) ++ rest) as ->.
  { unfold pair_bytes. rewrite <- !app_assoc. rewrite <- (length_le_bytes 4 (pair_size (k, v))) at 1. by rewrite drop_app_length. }
  rewrite le_num_bytes by (change (256 ^ Z.of_nat 4) with (2 ^ 32); lia).
  assert (Z.to_nat (pair_size (k, v)) = length (k ++ 0 :: v)) as En.
  { unfold pair_size. rewrite length_app. cbn. lia. }
  rewrite En, (proj2 (Nat.ltb_ge _ _)) by (rewrite (length_app (k ++ 0 :: v)); lia).
  rewrite take_app_length, drop_app_length, split_nul_app by done. cbn [visit].
  destruct (cb s k v) as [s' []]; [|done]. apply IH; [lia|]. rewrite length_app in En. cbn in En. rewrite length_app. cbn. lia.
Qed.

Lemma parse_xattr_pairs iter tail s : Forall pair_ok iter ->
  parse_xattr cb (pairs_bytes iter ++ tail) (length (pairs_bytes iter)) s = Ok (visit iter s).
Proof.
  intros Hok. unfold parse_xattr. rewrite (proj2 (Nat.ltb_ge _ _)) by (rewrite length_app; lia).
  rewrite take_app_length. apply parse_loop_pairs; [done|lia|lia].
Qed.
End parse_spec.

Lemma visit_names iter acc :
  visit (fun result name (_ : list Z) => (result ++ [name], true)) iter acc = acc ++ iter.*1.
Proof.
  revert acc. induction iter as [|[k v] iter IH]; intros acc; cbn; [by rewrite app_nil_r|]. by rewrite IH, <- app_assoc.
Qed.

Lemma visit_value iter name :
  visit (fun value name' value' => if bool_decide (name' = name) then (Some value', false) else (value, true)) iter None
  = (list_to_map iter : gmap (list Z) (list Z)) !! name.
Proof.
  induction iter as [|[k v] iter IH]; [done|]. cbn [visit]. rewrite list_to_map_cons. case_bool_decide as E.
  - subst k. by rewrite lookup_insert_eq.
  - by rewrite lookup_insert_ne, IH.
Qed.

Lemma store_v5_run iter w : iter <> [] -> Forall pair_ok iter -> Z.of_nat (length w) mod 8 = 0 ->
  let size := rafsv5_align (8 + xattrs_size iter) in
  let pad := replicate (Z.to_nat (size - (8 + xattrs_size iter))) 0 in
  store_v5 iter w = (Ok size, w ++ le_bytes 8 (xattrs_size iter) ++ pairs_bytes iter ++ pad) /\
  Z.of_nat (length (le_bytes 8 (xattrs_size iter) ++ pairs_bytes iter ++ pad)) = size.
Proof.
  intros Hne Hok Hw size pad. pose proof (length_pairs_bytes iter) as Hlen.
  destruct (rafsv5_align_spec (8 + xattrs_size iter) ltac:(lia)) as [Hm Hb]. fold size in Hm, Hb.
  assert (Z.of_nat (length (le_bytes 8 (xattrs_size iter) ++ pairs_bytes iter ++ pad)) = size) as Hsz.
  { unfold pad. rewrite !length_app, length_le_bytes, length_replicate. lia. }
  split; [|exact Hsz]. unfold store_v5. destruct iter as [|kv iter]; [done|].
  erewrite st_bind_run. 2:{ erewrite st_bind_run by reflexivity. by apply store_pairs_run. }
  fold size. unfold write_padding. rewrite (proj2 (Z.ltb_ge _ _)) by lia.
  erewrite st_bind_run by reflexivity. fold pad. rewrite <- !app_assoc. replace (8 + _ + _) with size by lia.
  apply validate_alignment_Ok; [done|]. rewrite length_app, Nat2Z.inj_add, Hsz, Z.add_mod, Hw, Hm by lia. done.
Qed.

(** extended attributes survive the bootstrap: whatever order the hash map enumerates them
    in, [store_v5] at an aligned position writes an aligned block whose first eight bytes are
    the size of the attributes; on the rest [parse_xattr_names] lists every name once, and
    [parse_xattr_value] finds the value of every attribute and nothing else. *)
Theorem xattrs_roundtrip (x : RafsXAttrs) iter w :
  x <> ∅ -> iter ≡ₚ map_to_list x -> Forall pair_ok iter -> xattrs_size iter < 2 ^ 64 -> Z.of_nat (length w) mod 8 = 0 ->
  exists size data, store_v5 iter w = (Ok size, w ++ data) /\ size = Z.of_nat (length data) /\ size mod 8 = 0 /\
    parse_xattr_names (drop 8 data) (Z.to_nat (get_le 0 8 data)) = Ok iter.*1 /\
    forall name, parse_xattr_value (drop 8 data) (Z.to_nat (get_le 0 8 data)) name = Ok (xattrs_get name x).
Proof.
  intros Hx Hp Hok Hsize Hw.
  assert (iter <> []) as Hne. { intros ->. apply Permutation_nil in Hp. by apply map_to_list_empty_iff in Hp. }
  destruct (store_v5_run iter w Hne Hok Hw) as [Hrun Hlen]. cbv zeta in Hrun, Hlen.
  set (pad := replicate _ 0) in *. pose proof (length_pairs_bytes iter) as Hb.
  destruct (rafsv5_align_spec (8 + xattrs_size iter) ltac:(lia)) as [Hm _].
  eexists _, _. split; [exact Hrun|]. split; [by rewrite Hlen|]. split; [exact Hm|].
  rewrite get_le_here by (change (256 ^ Z.of_nat 8) with (2 ^ 64); lia).
  replace (Z.to_nat (xattrs_size iter)) with (length (pairs_bytes iter)) by lia.
  assert (drop 8 (le_bytes 8 (xattrs_size iter) ++ pairs_bytes iter ++ pad) = pairs_bytes iter ++ pad) as ->.
  { rewrite <- (length_le_bytes 8 (xattrs_size iter)) at 1. by rewrite drop_app_length. }
  unfold parse_xattr_names, parse_xattr_value. split.
  - rewrite parse_xattr_pairs by done. by rewrite visit_names.
  - intros name. rewrite parse_xattr_pairs, visit_value by done. do 2 f_equal.
    assert ((list_to_map iter : gmap (list Z) (list Z)) = x) as ->; [|done].
    rewrite <- (list_to_map_to_list x). apply list_to_map_proper; [|done]. rewrite Hp. apply NoDup_fst_map_to_list.
Qed.

(** ** Witness *)

Definition sample_xattrs : RafsXAttrs := {[ bytes_of_string "user.a" := [1; 0; 2]; bytes_of_string "user.b" := [] ]}.

Definition sample_iter : list (list Z * list Z) := [(bytes_of_string "user.b", []); (bytes_of_string "user.a", [1; 0; 2])].

Lemma xattrs_roundtrip_witness :
  exists data, store_v5 sample_iter [] = (Ok 40, data) /\
    parse_xattr_value (drop 8 data) (Z.to_nat (get_le 0 8 data)) (bytes_of_string "user.a") = Ok (Some [1; 0; 2]) /\
    parse_xattr_value (drop 8 data) (Z.to_nat (get_le 0 8 data)) (bytes_of_string "user") = Ok None.
Proof.
  destruct (xattrs_roundtrip sample_xattrs sample_iter []) as (size & data & E & _ & _ & _ & Hv).
  - apply insert_non_empty.
  - vm_compute. reflexivity.
  - repeat (constructor; [split; [repeat (constructor; [discriminate|]); constructor | reflexivity]|]). constructor.
  - reflexivity.
  - reflexivity.
  - assert (size = 40) as -> by (vm_compute in E; congruence).
    exists data. split; [exact E|]. split; rewrite Hv; vm_compute; reflexivity.
Defined.
