(* ===== verification/RafsV5.v ===== *)
(** RAFS v5 super block and tables ([rafs/src/metadata/layout/v5.rs], flags of
    [rafs/src/metadata/mod.rs]).

    The super block names the tables of the bootstrap by offset and size; [validate] is what
    stands between a bootstrap and the code that maps its tables. The tables are written by the
    builder and loaded by the daemon. The theorems show that [validate] accepts exactly the
    super blocks whose tables are aligned, inside the metadata and disjoint, and that the inode,
    prefetch and blob tables are read back as they were written. *)
From S2P Require Import Prelude Utils LittleEndian ChunkInfo Device RafsLayout.

(** ** Super block flags *)

Definition COMPRESSION_NONE : Z := 0x1.
Definition COMPRESSION_LZ4 : Z := 0x2.
Definition HASH_BLAKE3 : Z := 0x4.
Definition HASH_SHA256 : Z := 0x8.
Definition EXPLICIT_UID_GID : Z := 0x10.
Definition HAS_XATTR : Z := 0x20.
Definition COMPRESSION_GZIP : Z := 0x40.
Definition COMPRESSION_ZSTD : Z := 0x80.

(** [bitflags]: [contains] and [from_bits]. *)
Definition flags_contain (flags f : Z) : bool := Z.land flags f =? f.
Definition flags_from_bits (bits : Z) : option Z := if Z.land bits (unot 64 0xff) =? 0 then Some bits else None.

Definition flags_digester (flags : Z) : DigestAlgorithm :=
  if flags_contain flags HASH_BLAKE3 then Blake3
  else if flags_contain flags HASH_SHA256 then Sha256
  else Blake3.
Definition digester_flags (d : DigestAlgorithm) : Z :=
  match d with Blake3 => HASH_BLAKE3 | Sha256 => HASH_SHA256 end.

Definition flags_compressor (flags : Z) : CompressAlgorithm :=
  if flags_contain flags COMPRESSION_NONE then CNone
  else if flags_contain flags COMPRESSION_LZ4 then CLz4Block
  else if flags_contain flags COMPRESSION_GZIP then CGZip
  else if flags_contain flags COMPRESSION_ZSTD then CZstd
  else CLz4Block.
Definition compressor_flags (c : CompressAlgorithm) : Z :=
  match c with
  | CNone => COMPRESSION_NONE | CLz4Block => COMPRESSION_LZ4
  | CGZip => COMPRESSION_GZIP | CZstd => COMPRESSION_ZSTD
  end.

(** ** Super block *)

Definition RAFSV5_SUPERBLOCK_SIZE : Z := 8192.
Definition RAFSV5_EXT_BLOB_ENTRY_SIZE : Z := 64.
Definition RAFSV5_SUPER_MAGIC : Z := 0x52414653.
Definition RAFS_SUPER_VERSION_V5 : Z := 0x500.
Definition RAFS_SUPER_VERSION_V6 : Z := 0x600.

Record RafsV5SuperBlock := mkV5Super {
  v5_magic : Z;
  v5_version : Z;
  v5_sb_size : Z;
  v5_block_size : Z;
  v5_flags : Z;
  v5_inodes_count : Z;
  v5_inode_table_offset : Z;
  v5_prefetch_table_offset : Z;
  v5_blob_table_offset : Z;
  v5_inode_table_entries : Z;
  v5_prefetch_table_entries : Z;
  v5_blob_table_size : Z;
  v5_extended_blob_table_entries : Z;
  v5_extended_blob_table_offset : Z;
  v5_reserved : list Z
}.

Definition RafsV5SuperBlock_default : RafsV5SuperBlock :=
  mkV5Super RAFSV5_SUPER_MAGIC RAFS_SUPER_VERSION_V5 RAFSV5_SUPERBLOCK_SIZE RAFS_DEFAULT_CHUNK_SIZE
    0 0 0 0 0 0 0 0 0 0 (replicate (Z.to_nat (RAFSV5_SUPERBLOCK_SIZE - 80)) 0).

Definition with_flags (f : Z) (sb : RafsV5SuperBlock) : RafsV5SuperBlock :=
  mkV5Super (v5_magic sb) (v5_version sb) (v5_sb_size sb) (v5_block_size sb) f (v5_inodes_count sb)
    (v5_inode_table_offset sb) (v5_prefetch_table_offset sb) (v5_blob_table_offset sb)
    (v5_inode_table_entries sb) (v5_prefetch_table_entries sb) (v5_blob_table_size sb)
    (v5_extended_blob_table_entries sb) (v5_extended_blob_table_offset sb) (v5_reserved sb).

Definition clear_flag (f flags : Z) : Z := Z.land flags (unot 64 f).

Definition v5_set_compressor (c : CompressAlgorithm) (sb : RafsV5SuperBlock) : RafsV5SuperBlock :=
  let f := clear_flag COMPRESSION_NONE (v5_flags sb) in
  let f := clear_flag COMPRESSION_LZ4 f in
  let f := clear_flag COMPRESSION_GZIP f in
  let f := clear_flag COMPRESSION_ZSTD f in
  with_flags (Z.lor f (compressor_flags c)) sb.

Definition v5_set_digester (d : DigestAlgorithm) (sb : RafsV5SuperBlock) : RafsV5SuperBlock :=
  let f := clear_flag HASH_BLAKE3 (v5_flags sb) in
  let f := clear_flag HASH_SHA256 f in
  with_flags (Z.lor f (digester_flags d)) sb.

Definition v5_set_explicit_uidgid (sb : RafsV5SuperBlock) : RafsV5SuperBlock :=
  with_flags (Z.lor (v5_flags sb) EXPLICIT_UID_GID) sb.
Definition v5_set_has_xattr (sb : RafsV5SuperBlock) : RafsV5SuperBlock :=
  with_flags (Z.lor (v5_flags sb) HAS_XATTR) sb.

Definition is_rafs_v5 (sb : RafsV5SuperBlock) : bool :=
  (v5_magic sb =? RAFSV5_SUPER_MAGIC) && (v5_version sb =? RAFS_SUPER_VERSION_V5).

Section validate.
Context `{Profile}.

(** [a || b] on conditions that may panic. *)
Definition or_else (a b : io bool) : io bool := x ← a; if (x : bool) then Ok true else b.
Definition nb (a : io bool) : io bool := x ← a; Ok (negb x).

(** The tables named by the super block, the second half of [validate]. *)
Definition v5_validate_tables (sb : RafsV5SuperBlock) (meta_range : MetaRange) : io unit :=
  let inode_table_size := v5_inode_table_entries sb * 4 in
  inode_range ← MetaRange_new (v5_inode_table_offset sb) inode_table_size false;
  bad ← or_else (Ok (v5_inode_table_entries sb <? v5_inodes_count sb)) (nb (is_subrange_of inode_range meta_range));
  if (bad : bool) then Err EINVAL else
  blob_range ← MetaRange_new (v5_blob_table_offset sb) (v5_blob_table_size sb) false;
  bad ← or_else (nb (is_subrange_of blob_range meta_range)) (intersect_with blob_range inode_range);
  if (bad : bool) then Err EINVAL else
  let ext_size := v5_extended_blob_table_entries sb * RAFSV5_EXT_BLOB_ENTRY_SIZE in
  ext_range ← MetaRange_new (v5_extended_blob_table_offset sb) ext_size true;
  bad ← (if ext_size =? 0 then Ok false
         else or_else (nb (is_subrange_of ext_range meta_range))
                (or_else (intersect_with ext_range inode_range) (intersect_with ext_range blob_range)));
  if (bad : bool) then Err EINVAL else
  let prefetch_size := v5_prefetch_table_entries sb * 4 in
  prefetch_range ← MetaRange_new (v5_prefetch_table_offset sb) prefetch_size false;
  bad ← (if prefetch_size =? 0 then Ok false
         else or_else (nb (is_subrange_of prefetch_range meta_range))
                (or_else (intersect_with prefetch_range inode_range)
                   (or_else (intersect_with prefetch_range blob_range)
                      (if ext_size =? 0 then Ok false else intersect_with prefetch_range ext_range))));
  if (bad : bool) then Err EINVAL else Ok tt.

Definition v5_validate (sb : RafsV5SuperBlock) (meta_size : Z) : io unit :=
  if negb (is_rafs_v5 sb) then Err EINVAL
  else if negb (v5_sb_size sb =? RAFSV5_SUPERBLOCK_SIZE) || (meta_size <=? RAFSV5_SUPERBLOCK_SIZE) then Err EINVAL
  else if negb (is_power_of_two (v5_block_size sb)) || (v5_block_size sb <? 0x1000) ||
          ((RAFS_MAX_CHUNK_SIZE <? v5_block_size sb) && negb (v5_block_size sb =? Z.shiftl 4 20)) then Err EINVAL
  else if bool_decide (flags_from_bits (v5_flags sb) = None) then Err EINVAL
  else
    meta_range ← MetaRange_new RAFSV5_SUPERBLOCK_SIZE (meta_size - RAFSV5_SUPERBLOCK_SIZE) true;
    v5_validate_tables sb meta_range.
End validate.

(** The bytes of the structure, and the cast of a buffer to it. *)
Definition v5_sb_bytes (sb : RafsV5SuperBlock) : list Z :=
  le_bytes 4 (v5_magic sb) ++ le_bytes 4 (v5_version sb) ++ le_bytes 4 (v5_sb_size sb) ++
  le_bytes 4 (v5_block_size sb) ++ le_bytes 8 (v5_flags sb) ++ le_bytes 8 (v5_inodes_count sb) ++
  le_bytes 8 (v5_inode_table_offset sb) ++ le_bytes 8 (v5_prefetch_table_offset sb) ++
  le_bytes 8 (v5_blob_table_offset sb) ++ le_bytes 4 (v5_inode_table_entries sb) ++
  le_bytes 4 (v5_prefetch_table_entries sb) ++ le_bytes 4 (v5_blob_table_size sb) ++
  le_bytes 4 (v5_extended_blob_table_entries sb) ++ le_bytes 8 (v5_extended_blob_table_offset sb) ++
  v5_reserved sb.

Definition v5_sb_of_bytes (b : list Z) : RafsV5SuperBlock :=
  mkV5Super (get_le 0 4 b) (get_le 4 4 b) (get_le 8 4 b) (get_le 12 4 b) (get_le 16 8 b) (get_le 24 8 b)
    (get_le 32 8 b) (get_le 40 8 b) (get_le 48 8 b) (get_le 56 4 b) (get_le 60 4 b) (get_le 64 4 b)
    (get_le 68 4 b) (get_le 72 8 b) (slice 80 (Z.to_nat (RAFSV5_SUPERBLOCK_SIZE - 80)) b).

(** [RafsStore::store] of the super block, and [RafsV5SuperBlock::read]. *)
Definition v5_sb_store (sb : RafsV5SuperBlock) : stM (list Z) errno Z :=
  _ ← write_all (v5_sb_bytes sb);
  validate_alignment (Z.of_nat (length (v5_sb_bytes sb))) RAFSV5_ALIGNMENT.

(** [read_exact] on a [RafsIoReader]: the state is what is left to read. *)
Definition read_exact (n : nat) : stM (list Z) errno (list Z) := fun r =>
  if (n <=? length r)%nat then (Ok (take n r), drop n r) else (Err UnexpectedEof, r).

Definition v5_sb_read : stM (list Z) errno RafsV5SuperBlock :=
  b ← read_exact (Z.to_nat RAFSV5_SUPERBLOCK_SIZE); st_ret (v5_sb_of_bytes b).

(** ** Flags *)

Lemma flags_contain_bit f k : 0 <= k -> flags_contain f (2 ^ k) = Z.testbit f k.
Proof.
  intros Hk. unfold flags_contain. rewrite Z.land_comm.
  destruct (Z.testbit f k) eqn:E.
  - apply Z.eqb_eq. apply Z.bits_inj'. intros i Hi. rewrite Z.land_spec.
    destruct (Z.eq_dec i k) as [->|Hne]; [by rewrite E, andb_true_r|]. by rewrite Z.pow2_bits_false by done.
  - apply Z.eqb_neq. intros Heq. assert (Z.testbit (Z.land (2 ^ k) f) k = true) as Ht by (rewrite Heq; by apply Z.pow2_bits_true).
    rewrite Z.land_spec, E, andb_false_r in Ht. done.
Qed.

Lemma clear_flag_bit f k i : 0 <= k -> 0 <= i -> Z.testbit (clear_flag (2 ^ k) f) i = Z.testbit f i && negb (i =? k) && (i <? 64) || Z.testbit f i && (64 <=? i) && (i =? k).
Proof.
  intros Hk Hi. unfold clear_flag. rewrite Z.land_spec, testbit_unot by lia. rewrite Z.pow2_bits_eqb by done. rewrite (Z.eqb_sym k i).
  destruct (Z.testbit f i), (Z.eqb_spec i k), (Z.ltb_spec i 64), (Z.leb_spec 64 i); cbn; done || lia.
Qed.

Lemma set_compressor_flags c f :
  let f' := Z.lor (clear_flag COMPRESSION_ZSTD (clear_flag COMPRESSION_GZIP (clear_flag COMPRESSION_LZ4 (clear_flag COMPRESSION_NONE f))))
              (compressor_flags c) in
  flags_compressor f' = c /\ flags_digester f' = flags_digester f.
Proof.
  intros f'. unfold flags_compressor, flags_digester.
  change COMPRESSION_NONE with (2 ^ 0) in *. change COMPRESSION_LZ4 with (2 ^ 1) in *. change HASH_BLAKE3 with (2 ^ 2).
  change HASH_SHA256 with (2 ^ 3). change COMPRESSION_GZIP with (2 ^ 6) in *. change COMPRESSION_ZSTD with (2 ^ 7) in *.
  rewrite !flags_contain_bit by lia. unfold f'. rewrite !Z.lor_spec, !clear_flag_bit by lia.
  destruct c; cbn -[Z.testbit Z.pow]; change COMPRESSION_NONE with (2 ^ 0); change COMPRESSION_LZ4 with (2 ^ 1);
    change COMPRESSION_GZIP with (2 ^ 6); change COMPRESSION_ZSTD with (2 ^ 7); rewrite !Z.pow2_bits_eqb by lia; cbn;
    rewrite ?orb_false_r, ?andb_false_r, ?andb_true_r; cbn; rewrite ?orb_false_r, ?andb_true_r; done.
Qed.

Lemma set_digester_flags d f :
  let f' := Z.lor (clear_flag HASH_SHA256 (clear_flag HASH_BLAKE3 f)) (digester_flags d) in
  flags_digester f' = d /\ flags_compressor f' = flags_compressor f.
Proof.
  intros f'. unfold flags_compressor, flags_digester.
  change COMPRESSION_NONE with (2 ^ 0). change COMPRESSION_LZ4 with (2 ^ 1). change HASH_BLAKE3 with (2 ^ 2) in *.
  change HASH_SHA256 with (2 ^ 3) in *. change COMPRESSION_GZIP with (2 ^ 6). change COMPRESSION_ZSTD with (2 ^ 7).
  rewrite !flags_contain_bit by lia. unfold f'. rewrite !Z.lor_spec, !clear_flag_bit by lia.
  destruct d; cbn -[Z.testbit Z.pow]; change HASH_BLAKE3 with (2 ^ 2); change HASH_SHA256 with (2 ^ 3);
    rewrite !Z.pow2_bits_eqb by lia; cbn;
    rewrite ?orb_false_r, ?andb_false_r, ?andb_true_r; cbn; rewrite ?orb_false_r, ?andb_true_r; done.
Qed.

(** the algorithms recorded in the super block flags are read back: after [set_compressor] and
    [set_digester] the flags convert to exactly those algorithms, whatever the flags were before,
    and neither setter disturbs the other's choice. *)
Theorem v5_flags_roundtrip c d sb :
  let sb' := v5_set_digester d (v5_set_compressor c sb) in
  flags_compressor (v5_flags sb') = c /\ flags_digester (v5_flags sb') = d /\
  flags_digester (v5_flags (v5_set_compressor c sb)) = flags_digester (v5_flags sb).
Proof.
  destruct (set_compressor_flags c (v5_flags sb)) as [Hc Hd].
  destruct (set_digester_flags d (v5_flags (v5_set_compressor c sb))) as [Hd' Hc']. split_and!; [etransitivity; [exact Hc' | exact Hc] | exact Hd' | exact Hd].
Qed.

(** ** What [validate] checks *)

(** A table of [size] bytes at [off]. *)
Definition table_ok (off size : Z) : Prop := off mod 8 = 0 /\ off + size < 2 ^ 64.
Definition in_meta (meta_size off size : Z) : Prop := RAFSV5_SUPERBLOCK_SIZE <= off /\ off + size <= meta_size.
Definition tables_disjoint (off1 size1 off2 size2 : Z) : Prop := off2 + size2 <= off1 \/ off1 + size1 <= off2.

Record v5_tables_valid (sb : RafsV5SuperBlock) (meta_size : Z) : Prop := {
  vv_inode : table_ok (v5_inode_table_offset sb) (v5_inode_table_entries sb * 4) /\
    v5_inodes_count sb <= v5_inode_table_entries sb /\
    in_meta meta_size (v5_inode_table_offset sb) (v5_inode_table_entries sb * 4);
  vv_blob : table_ok (v5_blob_table_offset sb) (v5_blob_table_size sb) /\
    in_meta meta_size (v5_blob_table_offset sb) (v5_blob_table_size sb) /\
    tables_disjoint (v5_blob_table_offset sb) (v5_blob_table_size sb)
      (v5_inode_table_offset sb) (v5_inode_table_entries sb * 4);
  vv_ext : table_ok (v5_extended_blob_table_offset sb) (v5_extended_blob_table_entries sb * 64) /\
    (v5_extended_blob_table_entries sb <> 0 ->
     in_meta meta_size (v5_extended_blob_table_offset sb) (v5_extended_blob_table_entries sb * 64) /\
     tables_disjoint (v5_extended_blob_table_offset sb) (v5_extended_blob_table_entries sb * 64)
       (v5_inode_table_offset sb) (v5_inode_table_entries sb * 4) /\
     tables_disjoint (v5_extended_blob_table_offset sb) (v5_extended_blob_table_entries sb * 64)
       (v5_blob_table_offset sb) (v5_blob_table_size sb));
  vv_prefetch : table_ok (v5_prefetch_table_offset sb) (v5_prefetch_table_entries sb * 4) /\
    (v5_prefetch_table_entries sb <> 0 ->
     in_meta meta_size (v5_prefetch_table_offset sb) (v5_prefetch_table_entries sb * 4) /\
     tables_disjoint (v5_prefetch_table_offset sb) (v5_prefetch_table_entries sb * 4)
       (v5_inode_table_offset sb) (v5_inode_table_entries sb * 4) /\
     tables_disjoint (v5_prefetch_table_offset sb) (v5_prefetch_table_entries sb * 4)
       (v5_blob_table_offset sb) (v5_blob_table_size sb) /\
     (v5_extended_blob_table_entries sb <> 0 ->
      tables_disjoint (v5_prefetch_table_offset sb) (v5_prefetch_table_entries sb * 4)
        (v5_extended_blob_table_offset sb) (v5_extended_blob_table_entries sb * 64)))
}.

Record v5_valid (sb : RafsV5SuperBlock) (meta_size : Z) : Prop := {
  vv_magic : v5_magic sb = RAFSV5_SUPER_MAGIC;
  vv_version : v5_version sb = RAFS_SUPER_VERSION_V5;
  vv_sb_size : v5_sb_size sb = RAFSV5_SUPERBLOCK_SIZE;
  vv_meta_size : RAFSV5_SUPERBLOCK_SIZE < meta_size /\ meta_size mod 8 = 0;
  vv_block_size : is_power_of_two (v5_block_size sb) = true /\ 0x1000 <= v5_block_size sb <= RAFS_MAX_CHUNK_SIZE;
  vv_flags : Z.land (v5_flags sb) (unot 64 0xff) = 0;
  vv_tables : v5_tables_valid sb meta_size
}.

Definition v5_sb_wf (sb : RafsV5SuperBlock) : Prop :=
  in_range 32 (v5_magic sb) /\ in_range 32 (v5_version sb) /\ in_range 32 (v5_sb_size sb) /\
  in_range 32 (v5_block_size sb) /\ in_range 64 (v5_flags sb) /\ in_range 64 (v5_inodes_count sb) /\
  in_range 64 (v5_inode_table_offset sb) /\ in_range 64 (v5_prefetch_table_offset sb) /\
  in_range 64 (v5_blob_table_offset sb) /\ in_range 32 (v5_inode_table_entries sb) /\
  in_range 32 (v5_prefetch_table_entries sb) /\ in_range 32 (v5_blob_table_size sb) /\
  in_range 32 (v5_extended_blob_table_entries sb) /\ in_range 64 (v5_extended_blob_table_offset sb) /\
  length (v5_reserved sb) = Z.to_nat (RAFSV5_SUPERBLOCK_SIZE - 80).

Lemma MetaRange_new_cases start size al :
  (MetaRange_new start size al = Ok (mkMetaRange start size) /\
   start mod 8 = 0 /\ start + size < 2 ^ 64 /\ (al = true -> size mod 8 = 0)) \/
  (MetaRange_new start size al = Err EINVAL /\
   ~ (start mod 8 = 0 /\ start + size < 2 ^ 64 /\ (al = true -> size mod 8 = 0))).
Proof.
  unfold MetaRange_new. rewrite !land7. destruct (Z.eqb_spec (start mod 8) 0) as [E1|E1]; [|right; split; [done|naive_solver]].
  assert (negb al || (size mod 8 =? 0) = true <-> (al = true -> size mod 8 = 0)) as Ha.
  { destruct al; cbn; [rewrite Z.eqb_eq|]; naive_solver. }
  destruct (negb al || (size mod 8 =? 0)).
  2:{ right. split; [done|]. intros (_ & _ & Hal). naive_solver. }
  destruct (bool_decide (is_Some (checked_add 64 start size))) eqn:E2; cbn [andb].
  - apply checked_add_bd in E2. left. naive_solver.
  - right. split; [done|]. intros (_ & Hlt & _). by apply checked_add_bd in Hlt; rewrite Hlt in E2.
Qed.

Section validate_spec.
Context `{Profile}.

Definition range_ok (r : MetaRange) : Prop := 0 <= mr_start r /\ 0 <= mr_size r /\ mr_start r + mr_size r < 2 ^ 64.

Lemma is_subrange_of_Ok a b : range_ok a -> range_ok b ->
  is_subrange_of a b = Ok ((mr_start b <=? mr_start a) && (mr_start a + mr_size a <=? mr_start b + mr_size b)).
Proof.
  intros (? & ? & ?) (? & ? & ?). unfold is_subrange_of, mr_end. rewrite !uadd_in by (split; lia). by destruct (_ <=? _).
Qed.

Lemma intersect_with_Ok a b : range_ok a -> range_ok b ->
  intersect_with a b = Ok ((mr_start a <? mr_start b + mr_size b) && (mr_start b <? mr_start a + mr_size a)).
Proof.
  intros (? & ? & ?) (? & ? & ?). unfold intersect_with, mr_end. rewrite !uadd_in by (split; lia). cbn [mbind outcome_bind].
  by destruct (_ <? _).
Qed.

(** A condition that rejects exactly when [P] fails. *)
Definition tests (x : io bool) (P : Prop) : Prop := exists b, x = Ok b /\ (b = false <-> P).

Lemma tests_or x y P Q : tests x P -> tests y Q -> tests (or_else x y) (P /\ Q).
Proof.
  intros (a & -> & Ha) (b & -> & Hb). unfold or_else. cbn [mbind outcome_bind].
  destruct a; [exists true|exists b]; split; try done; naive_solver.
Qed.

Lemma tests_unless c x P : (c = false -> tests x P) -> tests (if c then Ok false else x) (c = false -> P).
Proof. intros Hx. destruct c; [by exists false|]. destruct (Hx eq_refl) as (b & -> & Hb). exists b. naive_solver. Qed.

Lemma tests_outside meta_size off size : RAFSV5_SUPERBLOCK_SIZE < meta_size < 2 ^ 64 -> range_ok (mkMetaRange off size) ->
  tests (nb (is_subrange_of (mkMetaRange off size) (mkMetaRange RAFSV5_SUPERBLOCK_SIZE (meta_size - RAFSV5_SUPERBLOCK_SIZE))))
    (in_meta meta_size off size).
Proof.
  intros Hm Hr. unfold nb. rewrite is_subrange_of_Ok; [|done|unfold range_ok, RAFSV5_SUPERBLOCK_SIZE in *; cbn; lia].
  cbn [mbind outcome_bind mr_start mr_size]. eexists. split; [reflexivity|]. unfold in_meta.
  destruct (Z.leb_spec RAFSV5_SUPERBLOCK_SIZE off); cbn; [|split; [done|lia]]. destruct (Z.leb_spec (off + size) (RAFSV5_SUPERBLOCK_SIZE + (meta_size - RAFSV5_SUPERBLOCK_SIZE))); cbn; split; lia || done.
Qed.

Lemma tests_meets o1 s1 o2 s2 : range_ok (mkMetaRange o1 s1) -> range_ok (mkMetaRange o2 s2) ->
  tests (intersect_with (mkMetaRange o1 s1) (mkMetaRange o2 s2)) (tables_disjoint o1 s1 o2 s2).
Proof.
  intros H1 H2. rewrite intersect_with_Ok by done. eexists. split; [reflexivity|]. cbn [mr_start mr_size]. unfold tables_disjoint.
  rewrite andb_false_iff, !Z.ltb_ge. done.
Qed.
End validate_spec.

Lemma block_size_check b :
  negb (is_power_of_two b) || (b <? 0x1000) || ((RAFS_MAX_CHUNK_SIZE <? b) && negb (b =? Z.shiftl 4 20)) = false <->
  is_power_of_two b = true /\ 0x1000 <= b <= RAFS_MAX_CHUNK_SIZE.
Proof.
  unfold RAFS_MAX_CHUNK_SIZE. change (Z.shiftl 4 20) with 4194304.
  destruct (is_power_of_two b); cbn [negb orb]; [|naive_solver].
  destruct (Z.ltb_spec b 0x1000), (Z.ltb_spec (1024 * 1024 * 16) b), (Z.eqb_spec b 4194304); cbn; naive_solver lia.
Qed.

Lemma flags_from_bits_None f : flags_from_bits f = None <-> Z.land f (unot 64 0xff) <> 0.
Proof. unfold flags_from_bits. destruct (Z.eqb_spec (Z.land f (unot 64 0xff)) 0); naive_solver. Qed.

Lemma mod8_sub a : (a - RAFSV5_SUPERBLOCK_SIZE) mod 8 = 0 <-> a mod 8 = 0.
Proof. unfold RAFSV5_SUPERBLOCK_SIZE. rewrite Zminus_mod. change (8192 mod 8) with 0. rewrite Z.sub_0_r, Z.mod_mod by lia. done. Qed.

(** A table is aligned and does not overflow, or the validation stops with [EINVAL]. *)
Ltac table_step off size al proj R :=
  let A := fresh "A" in
  destruct (MetaRange_new_cases off size al) as [(-> & A)|[-> A]]; cbn [mbind outcome_bind];
  [ assert (range_ok (mkMetaRange off size)) as R by (unfold range_ok; cbn; lia)
  | right; split; [reflexivity|]; intros Hv; apply A; destruct (proj _ _ Hv) as [[? ?] _]; split; [done|split; [done|]] ].

Lemma mod8_mul64 n : (n * 64) mod 8 = 0.
Proof. replace (n * 64) with (n * 8 * 8) by lia. apply Z.mod_mul. lia. Qed.

Lemma v5_validate_tables_cases `{Profile} sb meta_size : v5_sb_wf sb -> RAFSV5_SUPERBLOCK_SIZE < meta_size < 2 ^ 64 ->
  let r := v5_validate_tables sb (mkMetaRange RAFSV5_SUPERBLOCK_SIZE (meta_size - RAFSV5_SUPERBLOCK_SIZE)) in
  (r = Ok tt /\ v5_tables_valid sb meta_size) \/ (r = Err EINVAL /\ ~ v5_tables_valid sb meta_size).
Proof.
  intros (_ & _ & _ & _ & _ & _ & R1 & R2 & R3 & R4 & R5 & R6 & R7 & R8 & _) Rm. unfold in_range in *. cbv zeta.
  unfold v5_validate_tables. change RAFSV5_EXT_BLOB_ENTRY_SIZE with 64.
  table_step (v5_inode_table_offset sb) (v5_inode_table_entries sb * 4) false vv_inode RI; [|done].
  assert (tests (Ok (v5_inode_table_entries sb <? v5_inodes_count sb)) (v5_inodes_count sb <= v5_inode_table_entries sb)) as TC.
  { eexists. split; [reflexivity|apply Z.ltb_ge]. }
  destruct (tests_or _ _ _ _ TC (tests_outside meta_size _ _ Rm RI)) as (c & -> & T1). destruct c; cbn [mbind outcome_bind].
  { right. split; [done|]. intros Hv. by discriminate (proj2 T1 (proj2 (vv_inode _ _ Hv))). }
  table_step (v5_blob_table_offset sb) (v5_blob_table_size sb) false vv_blob RB; [|done].
  destruct (tests_or _ _ _ _ (tests_outside meta_size _ _ Rm RB) (tests_meets _ _ _ _ RB RI)) as (c & -> & T2).
  destruct c; cbn [mbind outcome_bind].
  { right. split; [done|]. intros Hv. by discriminate (proj2 T2 (proj2 (vv_blob _ _ Hv))). }
  table_step (v5_extended_blob_table_offset sb) (v5_extended_blob_table_entries sb * 64) true vv_ext RE; [|intros _; apply mod8_mul64].
  destruct (tests_unless (v5_extended_blob_table_entries sb * 64 =? 0) _ _ (fun _ => tests_or _ _ _ _ (tests_outside meta_size _ _ Rm RE)
    (tests_or _ _ _ _ (tests_meets _ _ _ _ RE RI) (tests_meets _ _ _ _ RE RB)))) as (c & -> & T3).
  destruct c; cbn [mbind outcome_bind].
  { right. split; [done|]. intros Hv. discriminate (proj2 T3). intros Hz%Z.eqb_neq. apply (vv_ext _ _ Hv). lia. }
  table_step (v5_prefetch_table_offset sb) (v5_prefetch_table_entries sb * 4) false vv_prefetch RP; [|done].
  destruct (tests_unless (v5_prefetch_table_entries sb * 4 =? 0) _ _ (fun _ => tests_or _ _ _ _ (tests_outside meta_size _ _ Rm RP)
    (tests_or _ _ _ _ (tests_meets _ _ _ _ RP RI) (tests_or _ _ _ _ (tests_meets _ _ _ _ RP RB)
      (tests_unless (v5_extended_blob_table_entries sb * 64 =? 0) _ _ (fun _ => tests_meets _ _ _ _ RP RE)))))) as (c & -> & T4).
  destruct c; cbn [mbind outcome_bind].
  - right. split; [done|]. intros Hv. discriminate (proj2 T4). intros Hz%Z.eqb_neq.
    destruct (vv_prefetch _ _ Hv) as [_ (Hp1 & Hp2 & Hp3 & Hp4)]; [lia|]. split_and!; [done..|]. intros Hy%Z.eqb_neq. apply Hp4. lia.
  - left. split; [done|]. pose proof (proj1 T1 eq_refl). pose proof (proj1 T2 eq_refl). pose proof (proj1 T3 eq_refl) as HT3.
    pose proof (proj1 T4 eq_refl) as HT4. split; (split; [split; apply A || apply A0 || apply A1 || apply A2|]); [done|done| |].
    + intros Hz. apply HT3. apply Z.eqb_neq. lia.
    + intros Hz. destruct HT4 as (Hp1 & Hp2 & Hp3 & Hp4); [apply Z.eqb_neq; lia|]. split_and!; [done..|].
      intros Hy. apply Hp4. apply Z.eqb_neq. lia.
Qed.

Lemma v5_validate_cases `{Profile} sb meta_size : v5_sb_wf sb -> in_range 64 meta_size ->
  (v5_validate sb meta_size = Ok tt /\ v5_valid sb meta_size) \/ (v5_validate sb meta_size = Err EINVAL /\ ~ v5_valid sb meta_size).
Proof.
  intros Hwf Rm.
  unfold v5_validate, is_rafs_v5. unfold in_range in Rm.
  destruct (Z.eqb_spec (v5_magic sb) RAFSV5_SUPER_MAGIC); [|right; split; [done|]; intros []; done].
  destruct (Z.eqb_spec (v5_version sb) RAFS_SUPER_VERSION_V5); [|right; split; [done|]; intros []; done].
  destruct (Z.eqb_spec (v5_sb_size sb) RAFSV5_SUPERBLOCK_SIZE); [|right; split; [done|]; intros []; done].
  destruct (Z.leb_spec meta_size RAFSV5_SUPERBLOCK_SIZE); [right; split; [done|]; intros []; lia|]. cbn [negb orb andb].
  match goal with |- context [if ?c then _ else _] => destruct c eqn:Eb end.
  { right. split; [done|]. intros Hv. by rewrite (proj2 (block_size_check _) (vv_block_size _ _ Hv)) in Eb. }
  apply block_size_check in Eb.
  case_bool_decide as Ef. { right. split; [done|]. intros Hv. by apply flags_from_bits_None in Ef; apply Ef, Hv. }
  rewrite flags_from_bits_None in Ef. apply dec_stable in Ef.
  destruct (MetaRange_new_cases RAFSV5_SUPERBLOCK_SIZE (meta_size - RAFSV5_SUPERBLOCK_SIZE) true) as [(-> & _ & _ & Hm)|[-> Hm]].
  2:{ right. split; [done|]. intros Hv. apply Hm. split_and!; [done|lia|]. intros _. apply mod8_sub, Hv. }
  specialize (Hm eq_refl). rewrite mod8_sub in Hm. cbn [mbind outcome_bind].
  destruct (v5_validate_tables_cases sb meta_size Hwf ltac:(lia)) as [[-> Ht]|[-> Ht]].
  - left. split; [done|]. by split.
  - right. split; [done|]. intros Hv. apply Ht, Hv.
Qed.

(** [RafsV5SuperBlock::validate] is exact and never panics, whatever the profile: it accepts a
    super block exactly when the magic, version and size are right, the chunk size is a power of
    two between 4K and 16M, no unknown flag is set, and every table is aligned, does not
    overflow, lies between the super block and the end of the metadata, and overlaps no other
    table; otherwise it returns [EINVAL]. *)
Theorem v5_validate_exact `{Profile} sb meta_size : v5_sb_wf sb -> in_range 64 meta_size ->
  (v5_validate sb meta_size = Ok tt <-> v5_valid sb meta_size) /\
  (v5_validate sb meta_size = Err EINVAL <-> ~ v5_valid sb meta_size).
Proof. intros Hwf Rm. destruct (v5_validate_cases sb meta_size Hwf Rm) as [[-> Hv]|[-> Hv]]; split; split; done. Qed.

Lemma v5_sb_roundtrip sb : v5_sb_wf sb -> v5_sb_of_bytes (v5_sb_bytes sb) = sb.
Proof.
  intros (H1 & H2 & H3 & H4 & H5 & H6 & H7 & H8 & H9 & H10 & H11 & H12 & H13 & H14 & Hr).
  assert (slice 80 (Z.to_nat (RAFSV5_SUPERBLOCK_SIZE - 80)) (v5_sb_bytes sb) = v5_reserved sb) as Er.
  { unfold v5_sb_bytes. do 14 (rewrite slice_skip_bytes by lia; cbn [Nat.sub]).
    rewrite <- Hr. rewrite <- (app_nil_r (v5_reserved sb)) at 2. apply slice_here. }
  unfold v5_sb_of_bytes. rewrite Er. unfold v5_sb_bytes. read_fields. by destruct sb.
Qed.

(** ** Inode table *)

(** [RafsV5InodeTable]: the offsets in units of eight bytes. *)
Notation RafsV5InodeTable := (list Z) (only parsing).

Definition InodeTable_new (entries : Z) : RafsV5InodeTable := replicate (Z.to_nat (rafsv5_align (entries * 4) / 4)) 0.

Definition InodeTable_size (t : RafsV5InodeTable) : Z := rafsv5_align (Z.of_nat (length t) * 4).

Definition InodeTable_set (ino offset : Z) (t : RafsV5InodeTable) : io RafsV5InodeTable :=
  if (ino =? 0) || (Z.of_nat (length t) <? ino) then Err EINVAL
  else if (offset <=? RAFSV5_SUPERBLOCK_SIZE) || negb (Z.land offset 7 =? 0) then Err EINVAL
  else Ok (<[Z.to_nat (ino - 1) := Z.shiftr offset 3]> t).

Definition InodeTable_get (ino : Z) (t : RafsV5InodeTable) : io Z :=
  if (ino =? 0) || (Z.of_nat (length t) <? ino) then Err ENOENT
  else
    offset ← vec_index t (ino - 1);
    if (offset <=? Z.shiftr RAFSV5_SUPERBLOCK_SIZE 3) || (Z.shiftl 1 29 <=? offset) then Err EINVAL
    else Ok (wrap 32 (Z.shiftl offset 3)).

(** [align_to::<u8>()] of a vector of [u32], and back. *)
Definition u32s_bytes (t : list Z) : list Z := concat (le_bytes 4 <$> t).
Definition u32s_of_bytes (n : nat) (b : list Z) : list Z := (fun i => get_le (i * 4) 4 b) <$> seq 0 n.

Definition InodeTable_store (t : RafsV5InodeTable) : stM (list Z) errno Z :=
  _ ← write_all (u32s_bytes t);
  validate_alignment (Z.of_nat (length (u32s_bytes t))) RAFSV5_ALIGNMENT.

(** [load] fills the table from the reader. *)
Definition InodeTable_load (t : RafsV5InodeTable) : stM (list Z) errno RafsV5InodeTable :=
  data ← read_exact (length t * 4); st_ret (u32s_of_bytes (length t) data).

(** ** Prefetch table *)

Notation RafsV5PrefetchTable := (list Z) (only parsing).
Definition PrefetchTable_size (t : RafsV5PrefetchTable) : Z := rafsv5_align (Z.of_nat (length t) * 4).
Definition PrefetchTable_add_entry (ino : Z) (t : RafsV5PrefetchTable) : RafsV5PrefetchTable := t ++ [ino].

Definition PrefetchTable_store (t : RafsV5PrefetchTable) : stM (list Z) errno Z :=
  let data := u32s_bytes t in
  _ ← write_all data;
  let cur_len := Z.of_nat (length t) * 4 in
  let padding_bytes := rafsv5_align cur_len - cur_len in
  _ ← write_padding padding_bytes;
  st_ret (Z.of_nat (length data) + padding_bytes).

(** [load_prefetch_table_from]: seeks to [offset] of the file first. *)
Definition load_prefetch_table_from (offset entries : nat) : stM (list Z) errno (RafsV5PrefetchTable * Z) := fun file =>
  match read_exact (entries * 4) (drop offset file) with
  | (Ok data, _) => (Ok (u32s_of_bytes entries data, Z.of_nat (entries * 4)), file)
  | (Err e, _) => (Err e, file)
  | (Panic, _) => (Panic, file)
  end.

(** ** Properties of the tables *)

Lemma shiftr3 x : Z.shiftr x 3 = x / 8.
Proof. by rewrite Z.shiftr_div_pow2. Qed.
Lemma shiftl3 x : Z.shiftl x 3 = x * 8.
Proof. by rewrite Z.shiftl_mul_pow2. Qed.

(** an offset stored in the inode table is read back. [set] accepts exactly the inode numbers
    of the table and the offsets behind the super block that are multiples of eight; [get] then
    returns that offset, and the other inodes are not affected. *)
Theorem inode_table_set_get (t : RafsV5InodeTable) ino offset : in_range 64 ino -> in_range 32 offset ->
  match InodeTable_set ino offset t with
  | Ok t' => InodeTable_get ino t' = Ok offset /\ length t' = length t /\
      forall ino', in_range 64 ino' -> ino' <> ino -> InodeTable_get ino' t' = InodeTable_get ino' t
  | Err e => e = EINVAL /\ ~ (1 <= ino <= Z.of_nat (length t) /\ RAFSV5_SUPERBLOCK_SIZE < offset /\ offset mod 8 = 0)
  | Panic => False
  end.
Proof.
  intros [Hi _] [Ho0 Ho]. unfold InodeTable_set.
  destruct (Z.eqb_spec ino 0); cbn [orb]; [split; [done|lia]|]. destruct (Z.ltb_spec (Z.of_nat (length t)) ino); [split; [done|lia]|].
  change (Z.land offset 7) with (Z.land offset (RAFSV5_ALIGNMENT - 1)). rewrite land7.
  destruct (Z.leb_spec offset RAFSV5_SUPERBLOCK_SIZE); cbn [orb]; [split; [done|lia]|].
  destruct (Z.eqb_spec (offset mod 8) 0) as [Hm|]; cbn [negb]; [|split; [done|lia]].
  assert (8 * (offset / 8) = offset) as Hd by (pose proof (Z.div_mod offset 8 ltac:(lia)); lia).
  unfold InodeTable_get. rewrite length_insert. split_and!; [| done |].
  - rewrite (proj2 (Z.eqb_neq _ _)), (proj2 (Z.ltb_ge _ _)) by lia. cbn [orb].
    rewrite (proj2 (vec_index_Ok _ _ (Z.shiftr offset 3))) by (split; [lia|]; apply list_lookup_insert_eq; lia).
    cbn [mbind outcome_bind]. rewrite !shiftr3, shiftl3. change (Z.shiftl 1 29) with 536870912. unfold RAFSV5_SUPERBLOCK_SIZE in *.
    change (8192 / 8) with 1024. rewrite (proj2 (Z.leb_gt _ _)), (proj2 (Z.leb_gt _ _)) by lia. cbn [orb].
    rewrite wrap_small by (split; lia). f_equal. lia.
  - intros ino' [Hi' _] Hne. destruct (Z.eqb_spec ino' 0); cbn [orb]; [done|]. case_match; [done|].
    unfold vec_index. rewrite (proj2 (Z.ltb_ge (ino' - 1) 0)) by lia. by rewrite list_lookup_insert_ne by lia.
Qed.

Lemma u32s_roundtrip (t : list Z) tail : Forall (in_range 32) t -> u32s_of_bytes (length t) (u32s_bytes t ++ tail) = t.
Proof.
  unfold u32s_of_bytes, u32s_bytes. intros Ht. apply list_eq. intros i.
  rewrite list_lookup_fmap. destruct (decide (i < length t)%nat) as [Hi|Hi].
  2:{ rewrite lookup_seq_ge, (lookup_ge_None_2 t) by lia. done. }
  destruct (lookup_lt_is_Some_2 t i Hi) as [x Hx]. rewrite lookup_seq_lt, Hx by lia. change (Some (get_le (i * 4) 4 (concat (le_bytes 4 <$> t) ++ tail)) = Some x). f_equal.
  rewrite <- (take_drop_middle t i x Hx), fmap_app, concat_app, fmap_cons. cbn [concat]. rewrite <- !app_assoc.
  assert (length (concat (le_bytes 4 <$> take i t)) = (i * 4)%nat) as <-.
  { rewrite length_concat. rewrite <- list_fmap_compose.
    assert (forall l : list Z, sum_list (length ∘ le_bytes 4 <$> l) = (length l * 4)%nat) as Hl.
    { induction l as [|y l IH]; [done|]. cbn in *. lia. }
    rewrite Hl, length_take. lia. }
  rewrite get_le_app; [done|]. apply (Forall_lookup_1 _ _ _ _ Ht Hx).
Qed.

Lemma length_u32s_bytes (t : list Z) : length (u32s_bytes t) = (length t * 4)%nat.
Proof. unfold u32s_bytes. induction t as [|x t IH]; [done|]. cbn [fmap list_fmap concat]. rewrite length_app, length_le_bytes, IH. cbn. lia. Qed.

Lemma inode_table_run (t : RafsV5InodeTable) w tail :
  Forall (in_range 32) t -> Z.of_nat (length w) mod 8 = 0 -> Z.of_nat (length t) mod 2 = 0 ->
  InodeTable_store t w = (Ok (InodeTable_size t), w ++ u32s_bytes t) /\ InodeTable_size t = Z.of_nat (length t) * 4 /\
  InodeTable_load (replicate (length t) 0) (u32s_bytes t ++ tail) = (Ok t, tail).
Proof.
  intros Ht Hw Hev.
  assert ((Z.of_nat (length t) * 4) mod 8 = 0) as Hm.
  { rewrite (Z.div_mod (Z.of_nat (length t)) 2), Hev by lia. replace ((_ + 0) * 4) with ((Z.of_nat (length t) / 2) * 8) by lia. apply Z.mod_mul. lia. }
  assert (InodeTable_size t = Z.of_nat (length t) * 4) as -> by (unfold InodeTable_size, rafsv5_align; rewrite land7, Hm; done).
  split; [|split; [done|]].
  - unfold InodeTable_store. erewrite st_bind_run by reflexivity. rewrite length_u32s_bytes, Nat2Z.inj_mul.
    apply validate_alignment_Ok; [done|]. rewrite length_app, Nat2Z.inj_add, length_u32s_bytes, Nat2Z.inj_mul, Z.add_mod, Hw by lia.
    change (Z.of_nat 4) with 4. by rewrite Hm.
  - unfold InodeTable_load. rewrite length_replicate. erewrite st_bind_run.
    2:{ unfold read_exact. rewrite (proj2 (Nat.leb_le _ _)) by (rewrite length_app, length_u32s_bytes; lia). reflexivity. }
    rewrite <- length_u32s_bytes, take_app_length, drop_app_length. unfold st_ret. do 2 f_equal.
    rewrite <- (app_nil_r (u32s_bytes t)). by apply u32s_roundtrip.
Qed.

Definition prefetch_bytes (p : RafsV5PrefetchTable) : list Z :=
  u32s_bytes p ++ replicate (Z.to_nat (PrefetchTable_size p - Z.of_nat (length p) * 4)) 0.

Lemma prefetch_table_run (p : RafsV5PrefetchTable) w tail : Forall (in_range 32) p ->
  PrefetchTable_store p w = (Ok (PrefetchTable_size p), w ++ prefetch_bytes p) /\
  Z.of_nat (length (prefetch_bytes p)) = PrefetchTable_size p /\
  load_prefetch_table_from (length w) (length p) (w ++ prefetch_bytes p ++ tail) =
    (Ok (p, Z.of_nat (length p) * 4), w ++ prefetch_bytes p ++ tail).
Proof.
  intros Hp. unfold prefetch_bytes.
  pose proof (rafsv5_align_spec (Z.of_nat (length p) * 4) ltac:(lia)) as [Hm Hb].
  set (pad := PrefetchTable_size p - Z.of_nat (length p) * 4).
  unfold PrefetchTable_size in *. split_and!.
  - unfold PrefetchTable_store. erewrite st_bind_run by reflexivity. unfold write_padding. fold pad.
    rewrite (proj2 (Z.ltb_ge _ _)) by (unfold pad; lia). erewrite st_bind_run by reflexivity. rewrite <- app_assoc.
    unfold st_ret. do 2 f_equal. rewrite length_u32s_bytes. unfold pad. lia.
  - rewrite length_app, length_replicate, length_u32s_bytes. unfold pad. lia.
  - unfold load_prefetch_table_from. rewrite drop_app_length. unfold read_exact.
    rewrite (proj2 (Nat.leb_le _ _)) by (rewrite !length_app, length_u32s_bytes; lia).
    rewrite <- length_u32s_bytes, <- app_assoc, take_app_length. do 3 f_equal; [|rewrite length_u32s_bytes; lia].
    rewrite <- (app_nil_r (u32s_bytes p)). by apply u32s_roundtrip.
Qed.

(** the inode and prefetch tables survive the bootstrap: an inode table of the size [new]
    allocates is stored at an aligned position without an error and loaded back entry by entry;
    a prefetch table is stored with its padding and loaded back from its offset. *)
Theorem v5_tables_roundtrip (t : RafsV5InodeTable) (p : RafsV5PrefetchTable) w tail :
  Forall (in_range 32) t -> Forall (in_range 32) p -> Z.of_nat (length w) mod 8 = 0 -> Z.of_nat (length t) mod 2 = 0 ->
  (exists data, InodeTable_store t w = (Ok (InodeTable_size t), w ++ data) /\
     InodeTable_load (replicate (length t) 0) (data ++ tail) = (Ok t, tail)) /\
  (exists data, PrefetchTable_store p w = (Ok (PrefetchTable_size p), w ++ data) /\
     Z.of_nat (length data) = PrefetchTable_size p /\
     load_prefetch_table_from (length w) (length p) (w ++ data ++ tail) =
       (Ok (p, Z.of_nat (length p) * 4), w ++ data ++ tail)).
Proof.
  intros Ht Hp Hw Hev. split.
  - exists (u32s_bytes t). destruct (inode_table_run t w tail Ht Hw Hev) as (E1 & _ & E2). done.
  - exists (prefetch_bytes p). apply (prefetch_table_run p w tail Hp).
Qed.

(** ** Witnesses *)

Definition sample_v5_sb : RafsV5SuperBlock :=
  mkV5Super RAFSV5_SUPER_MAGIC RAFS_SUPER_VERSION_V5 8192 0x100000 (Z.lor COMPRESSION_LZ4 HASH_BLAKE3)
    2 8192 8280 8200 2 1 16 1 8216 (replicate (Z.to_nat 8112) 0).

Lemma v5_validate_exact_witness : v5_valid sample_v5_sb 8288 /\ ~ v5_valid sample_v5_sb 8280.
Proof.
  assert (v5_sb_wf sample_v5_sb) as Hwf by (unfold v5_sb_wf; split_and!; vm_compute; done).
  split.
  - apply (@v5_validate_exact dev_profile sample_v5_sb 8288 Hwf); [by vm_compute|]. vm_compute. reflexivity.
  - apply (@v5_validate_exact dev_profile sample_v5_sb 8280 Hwf); [by vm_compute|]. vm_compute. reflexivity.
Defined.

Lemma inode_table_set_get_witness :
  exists t, InodeTable_set 3 0x2010 (InodeTable_new 3) = Ok t /\ InodeTable_get 3 t = Ok 0x2010.
Proof.
  pose proof (inode_table_set_get (InodeTable_new 3) 3 0x2010 ltac:(by vm_compute) ltac:(by vm_compute)) as Hs.
  destruct (InodeTable_set 3 0x2010 (InodeTable_new 3)) as [t|e|] eqn:E; [|vm_compute in E; discriminate E..].
  exists t. split; [reflexivity|apply Hs].
Defined.

Lemma v5_tables_roundtrip_witness :
  exists data, InodeTable_store [1024; 1060] [] = (Ok 8, data) /\
    InodeTable_load [0; 0] (data ++ [9]) = (Ok [1024; 1060], [9]).
Proof.
  destruct (v5_tables_roundtrip [1024; 1060] [7; 8; 9] [] [9]) as [(data & E1 & E2) _].
  - repeat (constructor; [by vm_compute|]). constructor.
  - repeat (constructor; [by vm_compute|]). constructor.
  - reflexivity.
  - reflexivity.
  - exists data. split; [exact E1 | exact E2].
Defined.
