(* ===== verification/RafsBlobTable.v ===== *)
(** RAFS v5 blob tables ([rafs/src/metadata/layout/v5.rs]).

    The blob table lists the blobs of an image: a frame of two prefetch numbers and the blob id,
    frames being separated by NUL bytes; the extended table holds the sizes of the blobs. The
    theorem shows that the table of blobs the builder stores is the table the daemon loads. *)
From S2P Require Import Prelude Utils LittleEndian ChunkInfo Device RafsLayout RafsV5.

Definition string_of_bytes (l : list Z) : string :=
  String.string_of_list_ascii ((fun b => Ascii.ascii_of_N (Z.to_N b)) <$> l).

(** ** Extended table *)

(** [RafsV5ExtBlobEntry] without its reserved bytes, which [new] clears. *)
Record RafsV5ExtBlobEntry := mkExtBlob { eb_chunk_count : Z; eb_uncompressed_size : Z; eb_compressed_size : Z }.

Definition ExtBlobTable_size (t : list RafsV5ExtBlobEntry) : Z := rafsv5_align (RAFSV5_EXT_BLOB_ENTRY_SIZE * Z.of_nat (length t)).

Definition ExtBlobTable_add (chunk_count cache_size compressed_size : Z) (t : list RafsV5ExtBlobEntry) : list RafsV5ExtBlobEntry :=
  t ++ [mkExtBlob chunk_count cache_size compressed_size].

Definition ExtBlobTable_get (blob_index : Z) (t : list RafsV5ExtBlobEntry) : option RafsV5ExtBlobEntry :=
  if (Z.of_nat (length t) =? 0) || (Z.of_nat (length t) <=? blob_index) then None else t !! Z.to_nat blob_index.

Definition ext_blob_bytes (e : RafsV5ExtBlobEntry) : list Z :=
  le_bytes 4 (eb_chunk_count e) ++ [0; 0; 0; 0] ++ le_bytes 8 (eb_uncompressed_size e) ++
  le_bytes 8 (eb_compressed_size e) ++ replicate 40 0.

Fixpoint store_ext_entries (t : list RafsV5ExtBlobEntry) (size : Z) : stM (list Z) errno Z :=
  match t with
  | [] => st_ret size
  | e :: t => _ ← write_all (ext_blob_bytes e); store_ext_entries t (size + RAFSV5_EXT_BLOB_ENTRY_SIZE)
  end.

Definition ExtBlobTable_store (t : list RafsV5ExtBlobEntry) : stM (list Z) errno Z :=
  size ← store_ext_entries t 0;
  let padding := rafsv5_align size - size in
  _ ← write_padding padding;
  validate_alignment (size + padding) RAFSV5_ALIGNMENT.

Definition ext_blob_of_bytes (b : list Z) : RafsV5ExtBlobEntry := mkExtBlob (get_le 0 4 b) (get_le 8 8 b) (get_le 16 8 b).

Definition ExtBlobTable_load (count : nat) : stM (list Z) errno (list RafsV5ExtBlobEntry) :=
  data ← read_exact (count * 64);
  st_ret ((fun i => ext_blob_of_bytes (slice (i * 64) 64 data)) <$> seq 0 count).

(** ** Blob table *)

Record RafsV5BlobTable := mkBlobTable { bt_entries : list BlobInfo; bt_extended : list RafsV5ExtBlobEntry }.

Definition BlobTable_new : RafsV5BlobTable := mkBlobTable [] [].

Definition frame_size (b : BlobInfo) : Z := 8 + Z.of_nat (length (bytes_of_string (bi_blob_id b))).

Definition BlobTable_size (t : RafsV5BlobTable) : Z :=
  match bt_entries t with
  | [] => 0
  | _ => rafsv5_align (foldr (fun b n => frame_size b + 1 + n) 0 (bt_entries t) - 1)
  end.

(** The [BlobInfo] both [add] and [load] make. *)
Definition v5_blob_info (index : Z) (blob_id : string) (prefetch_offset prefetch_size chunk_size chunk_count
    uncompressed_size compressed_size blob_features flags : Z) : BlobInfo :=
  set_prefetch_info prefetch_offset prefetch_size
    (set_digester (flags_digester flags)
       (set_compressor (flags_compressor flags)
          (BlobInfo_new index blob_id uncompressed_size compressed_size chunk_size chunk_count blob_features))).

Definition BlobTable_add (blob_id : string) (prefetch_offset prefetch_size chunk_size chunk_count
    uncompressed_size compressed_size blob_features flags : Z) (t : RafsV5BlobTable) : Z * RafsV5BlobTable :=
  let blob_index := wrap 32 (Z.of_nat (length (bt_entries t))) in
  (blob_index,
   mkBlobTable
     (bt_entries t ++ [v5_blob_info blob_index blob_id prefetch_offset prefetch_size chunk_size chunk_count
                         uncompressed_size compressed_size blob_features flags])
     (ExtBlobTable_add chunk_count uncompressed_size compressed_size (bt_extended t))).

Definition BlobTable_get (blob_index : Z) (t : RafsV5BlobTable) : io BlobInfo :=
  if wrap 32 (Z.of_nat (length (bt_entries t))) <=? blob_index then Err ENOENT else vec_index (bt_entries t) blob_index.

(** The frames of the blobs; the last one has no separator. *)
Definition frame (b : BlobInfo) : list Z :=
  le_bytes 4 (bi_prefetch_offset b) ++ le_bytes 4 (bi_prefetch_size b) ++ bytes_of_string (bi_blob_id b).

Fixpoint store_blobs (l : list BlobInfo) (size : Z) : stM (list Z) errno Z :=
  match l with
  | [] => st_ret size
  | [b] => _ ← write_all (frame b); st_ret (size + frame_size b)
  | b :: l => _ ← write_all (frame b); _ ← write_all [0]; store_blobs l (size + frame_size b + 1)
  end.

Definition BlobTable_store (t : RafsV5BlobTable) : stM (list Z) errno Z :=
  size ← store_blobs (bt_entries t) 0;
  let padding := rafsv5_align size - size in
  _ ← write_padding padding;
  validate_alignment (size + padding) RAFSV5_ALIGNMENT.

(** The size of the id at the start of [buf], up to the first NUL or the end. *)
Fixpoint id_len (buf : list Z) : nat :=
  match buf with [] => O | b :: buf => if b =? 0 then O else S (id_len buf) end.

(** The [while buf.len() > 8] loop of [load]; every iteration consumes a frame. *)
Fixpoint load_blobs (fuel : nat) (chunk_size flags : Z) (ext : list RafsV5ExtBlobEntry) (buf : list Z)
    (entries : list BlobInfo) : io (list BlobInfo) :=
  match fuel with
  | O => Panic
  | S fuel =>
      if (length buf <=? 8)%nat then Ok entries
      else
        let readahead_offset := get_le 0 4 buf in
        let readahead_size := get_le 4 4 buf in
        let pos := (8 + id_len (drop 8 buf))%nat in
        blob_id ← from_utf8 (slice 8 (pos - 8) buf);
        let buf := if (pos =? length buf)%nat then drop pos buf else drop (pos + 1) buf in
        let index := length entries in
        '(chunk_count, uncompressed_size, compressed_size, features) ←
          (match ext with
           | [] => Ok (0, 0, 0, V5_NO_EXT_BLOB_TABLE)
           | _ => match ext !! index with
                  | None => Err EINVAL
                  | Some e => Ok (eb_chunk_count e, eb_uncompressed_size e, eb_compressed_size e, 0)
                  end
           end);
        load_blobs fuel chunk_size flags ext buf
          (entries ++ [v5_blob_info (wrap 32 (Z.of_nat index)) (string_of_bytes blob_id) readahead_offset readahead_size
                         chunk_size chunk_count uncompressed_size compressed_size features flags])
  end.

Definition BlobTable_load (blob_table_size chunk_size flags : Z) (t : RafsV5BlobTable) : stM (list Z) errno RafsV5BlobTable :=
  if blob_table_size =? 0 then st_ret t
  else
    data ← read_exact (Z.to_nat blob_table_size);
    entries ← st_lift (load_blobs (S (length data)) chunk_size flags (bt_extended t) data (bt_entries t));
    st_ret (mkBlobTable entries (bt_extended t)).

(** ** Round trip *)

(** Blob ids are not empty, have no NUL and are strings. *)
Definition id_ok (id : string) : Prop :=
  bytes_of_string id <> [] /\ Forall (fun b => b <> 0) (bytes_of_string id) /\ utf8_valid (bytes_of_string id) = true.

(** The tables a builder makes for an image with one chunk size and one set of flags. *)
Inductive table_built (chunk_size flags : Z) : RafsV5BlobTable -> Prop :=
| built_new : table_built chunk_size flags BlobTable_new
| built_add t id prefetch_offset prefetch_size chunk_count usize csize : table_built chunk_size flags t -> id_ok id ->
    in_range 32 prefetch_offset -> in_range 32 prefetch_size -> Z.of_nat (length (bt_entries t)) < 2 ^ 32 ->
    table_built chunk_size flags (BlobTable_add id prefetch_offset prefetch_size chunk_size chunk_count usize csize 0 flags t).2.

Lemma bytes_of_string_cons c s : bytes_of_string (String c s) = Z.of_N (Ascii.N_of_ascii c) :: bytes_of_string s.
Proof. done. Qed.

Lemma string_of_bytes_of_string s : string_of_bytes (bytes_of_string s) = s.
Proof.
  induction s as [|c s IH]; [done|]. rewrite bytes_of_string_cons. unfold string_of_bytes in *. cbn [fmap list_fmap String.string_of_list_ascii].
  rewrite IH. f_equal. by rewrite N2Z.id, Ascii.ascii_N_embedding.
Qed.

(** What an entry of such a table is. *)
Definition entry_ok (chunk_size flags : Z) (ext : list RafsV5ExtBlobEntry) (i : nat) (b : BlobInfo) : Prop :=
  exists e id po ps, ext !! i = Some e /\ id_ok id /\ in_range 32 po /\ in_range 32 ps /\ Z.of_nat i < 2 ^ 32 /\
    b = v5_blob_info (Z.of_nat i) id po ps chunk_size (eb_chunk_count e) (eb_uncompressed_size e) (eb_compressed_size e) 0 flags.

Lemma built_entries chunk_size flags t : table_built chunk_size flags t ->
  length (bt_entries t) = length (bt_extended t) /\
  forall i b, bt_entries t !! i = Some b -> entry_ok chunk_size flags (bt_extended t) i b.
Proof.
  induction 1 as [|t id po ps cc us cs _ [Hl Hi] Hid Hpo Hps Hn]; [done|].
  cbn [BlobTable_add snd bt_entries bt_extended]. unfold ExtBlobTable_add. rewrite !length_app. split; [cbn; lia|].
  intros i b [Hb|[Hlt Hb]]%lookup_app_Some.
  - destruct (Hi i b Hb) as (e & id' & po' & ps' & He & Hr). exists e, id', po', ps'. split; [by apply lookup_app_l_Some|done].
  - apply list_lookup_singleton_Some in Hb as [Hz <-]. assert (i = length (bt_entries t)) as -> by lia.
    exists (mkExtBlob cc us cs), id, po, ps. rewrite Hl at 1. rewrite list_lookup_middle by done. rewrite wrap_small by (split; lia). done.
Qed.

Fixpoint frames (l : list BlobInfo) : list Z :=
  match l with [] => [] | [b] => frame b | b :: l => frame b ++ 0 :: frames l end.

Lemma frames_cons b l : frames (b :: l) = frame b ++ match l with [] => [] | _ => 0 :: frames l end.
Proof. destruct l; [cbn; by rewrite app_nil_r|done]. Qed.

Lemma length_frame b : Z.of_nat (length (frame b)) = frame_size b.
Proof. unfold frame, frame_size. rewrite !length_app, !length_le_bytes. lia. Qed.

Lemma store_blobs_run l size w :
  store_blobs l size w = (Ok (size + Z.of_nat (length (frames l))), w ++ frames l).
Proof.
  revert size w. induction l as [|b l IH]; intros size w.
  { cbn. rewrite app_nil_r. unfold st_ret. do 2 f_equal. lia. }
  destruct l as [|b2 l].
  { cbn [store_blobs frames]. erewrite st_bind_run by reflexivity. unfold st_ret. by rewrite length_frame. }
  change (store_blobs (b :: b2 :: l) size) with
    (_ ← write_all (frame b); _ ← write_all [0]; store_blobs (b2 :: l) (size + frame_size b + 1)).
  do 2 (erewrite st_bind_run by reflexivity). rewrite IH.
  change (frames (b :: b2 :: l)) with (frame b ++ 0 :: frames (b2 :: l)). rewrite <- !app_assoc. cbn [app].
  f_equal. rewrite length_app. cbn [length]. rewrite <- (length_frame b). f_equal. lia.
Qed.

Lemma frames_size t : bt_entries t <> [] ->
  foldr (fun b n => frame_size b + 1 + n) 0 (bt_entries t) - 1 = Z.of_nat (length (frames (bt_entries t))).
Proof.
  intros Hne. generalize dependent (bt_entries t). induction l as [|b l IH]; [done|]. intros _.
  rewrite frames_cons, length_app. cbn [foldr]. pose proof (length_frame b). destruct l as [|b2 l]; [cbn [foldr length]; lia|].
  specialize (IH ltac:(done)). cbn [length]. lia.
Qed.

Lemma id_len_app l r : Forall (fun b => b <> 0) l -> (r = [] \/ exists r', r = 0 :: r') -> id_len (l ++ r) = length l.
Proof.
  intros Hl Hr. induction Hl as [|b l Hb _ IH]; cbn [app id_len length].
  - destruct Hr as [->|(r' & ->)]; done.
  - by rewrite (proj2 (Z.eqb_neq _ _) Hb), IH.
Qed.

(** One iteration of the loop reads one frame. *)
Lemma load_one fuel chunk_size flags ext b r entries : entry_ok chunk_size flags ext (length entries) b ->
  (r = [] \/ exists r', r = 0 :: r') ->
  load_blobs (S fuel) chunk_size flags ext (frame b ++ r) entries = load_blobs fuel chunk_size flags ext (tl r) (entries ++ [b]).
Proof.
  intros (e & id & po & ps & He & (Hne & Hnul & Hutf) & Hpo & Hps & Hi & ->) Hr. cbn [load_blobs].
  set (b := v5_blob_info _ _ _ _ _ _ _ _ _ _). set (idb := bytes_of_string id) in *.
  assert (frame b = le_bytes 4 po ++ le_bytes 4 ps ++ idb) as Ef by (unfold frame, b; cbn; by rewrite !wrap_small by done).
  assert (0 < length idb)%nat as Hid by (destruct idb; [done|cbn; lia]).
  assert (length (frame b) = 8 + length idb)%nat as Hlf by (rewrite Ef, !length_app, !length_le_bytes; lia).
  rewrite (proj2 (Nat.leb_gt _ _)) by (rewrite length_app; lia).
  assert (drop 8 (frame b ++ r) = idb ++ r) as Hd.
  { rewrite Ef, <- !app_assoc. rewrite (app_assoc (le_bytes 4 po)). apply drop_app_length'. by rewrite length_app, !length_le_bytes. }
  rewrite Hd, id_len_app by done. unfold slice. rewrite Hd. replace (8 + length idb - 8)%nat with (length idb) by lia.
  rewrite take_app_length. unfold from_utf8. rewrite Hutf. cbn [mbind outcome_bind].
  assert (match ext with [] => Ok (0, 0, 0, V5_NO_EXT_BLOB_TABLE) | _ :: _ => match ext !! length entries with
      | Some e => Ok (eb_chunk_count e, eb_uncompressed_size e, eb_compressed_size e, 0) | None => Err EINVAL end end
    = @Ok errno _ (eb_chunk_count e, eb_uncompressed_size e, eb_compressed_size e, 0)) as ->
    by (destruct ext; [done|by rewrite He]).
  cbn [mbind outcome_bind].
  assert (get_le 0 4 (frame b ++ r) = po) as ->.
  { rewrite Ef, <- !app_assoc. apply get_le_here. apply Hpo. }
  assert (get_le 4 4 (frame b ++ r) = ps) as ->.
  { rewrite Ef, <- !app_assoc. rewrite get_le_skip_bytes by lia. apply get_le_here. apply Hps. }
  rewrite wrap_small by (split; lia). unfold idb. rewrite string_of_bytes_of_string. fold b idb.
  f_equal. rewrite <- Hlf. destruct Hr as [->|(r' & ->)].
  - rewrite app_nil_r, Nat.eqb_refl. rewrite drop_all. done.
  - rewrite (proj2 (Nat.eqb_neq _ _)) by (rewrite length_app; cbn; lia).
    rewrite drop_app_add. done.
Qed.

Lemma load_blobs_frames fuel chunk_size flags ext l pad entries :
  (forall i b, l !! i = Some b -> entry_ok chunk_size flags ext (length entries + i) b) ->
  (length l < fuel)%nat -> (pad < 8)%nat ->
  load_blobs fuel chunk_size flags ext (frames l ++ replicate pad 0) entries = Ok (entries ++ l).
Proof.
  revert fuel pad entries. induction l as [|b l IH]; intros fuel pad entries Hl Hf Hp.
  { destruct fuel as [|fuel]; [cbn in Hf; lia|]. cbn [frames app load_blobs].
    rewrite (proj2 (Nat.leb_le _ _)) by (rewrite length_replicate; lia). by rewrite app_nil_r. }
  destruct fuel as [|fuel]; [lia|]. rewrite frames_cons, <- app_assoc. rewrite load_one.
  2:{ replace (length entries) with (length entries + 0)%nat by lia. by apply Hl. }
  2:{ destruct l; [destruct pad; [by left|right; by eexists]|right; by eexists]. }
  assert (forall i c, l !! i = Some c -> entry_ok chunk_size flags ext (length (entries ++ [b]) + i) c) as Hl'.
  { intros i c Hc. rewrite length_app. cbn. replace (length entries + 1 + i)%nat with (length entries + S i)%nat by lia. by apply Hl. }
  cbn in Hf. destruct l as [|b2 l].
  - specialize (IH fuel (pred pad) (entries ++ [b]) Hl' ltac:(cbn; lia) ltac:(lia)). cbn [frames app] in IH.
    replace (tl ([] ++ replicate pad 0)) with (replicate (pred pad) 0) by (by destruct pad). rewrite IH. by rewrite app_nil_r.
  - change (tl ((0 :: frames (b2 :: l)) ++ replicate pad 0)) with (frames (b2 :: l) ++ replicate pad 0).
    rewrite IH by (done || lia). by rewrite <- app_assoc.
Qed.

Lemma frames_nonempty b l : (0 < length (frames (b :: l)))%nat.
Proof. rewrite frames_cons, length_app. pose proof (length_frame b). unfold frame_size in *. lia. Qed.

Definition blob_table_bytes (t : RafsV5BlobTable) : list Z :=
  frames (bt_entries t) ++ replicate (Z.to_nat (BlobTable_size t - Z.of_nat (length (frames (bt_entries t))))) 0.

Lemma blob_table_run chunk_size flags t w tail :
  table_built chunk_size flags t -> Z.of_nat (length w) mod 8 = 0 ->
  BlobTable_store t w = (Ok (BlobTable_size t), w ++ blob_table_bytes t) /\
  Z.of_nat (length (blob_table_bytes t)) = BlobTable_size t /\ BlobTable_size t mod 8 = 0 /\
  BlobTable_load (BlobTable_size t) chunk_size flags (mkBlobTable [] (bt_extended t)) (blob_table_bytes t ++ tail) = (Ok t, tail).
Proof.
  intros Hb Hw. destruct (built_entries _ _ _ Hb) as [Hlen Hent].
  destruct (rafsv5_align_spec (Z.of_nat (length (frames (bt_entries t)))) ltac:(lia)) as [Hm Hr].
  assert (BlobTable_size t = rafsv5_align (Z.of_nat (length (frames (bt_entries t))))) as Hsize.
  { unfold BlobTable_size. destruct (bt_entries t) as [|b l] eqn:El; [done|]. rewrite <- El. f_equal. apply frames_size. by rewrite El. }
  unfold blob_table_bytes. set (pad := Z.to_nat (BlobTable_size t - Z.of_nat (length (frames (bt_entries t))))).
  assert (Z.of_nat (length (frames (bt_entries t) ++ replicate pad 0)) = BlobTable_size t) as Hdata.
  { rewrite length_app, length_replicate. unfold pad. lia. }
  split_and!; [|exact Hdata|by rewrite Hsize|].
  - unfold BlobTable_store. erewrite st_bind_run by apply store_blobs_run. rewrite Z.add_0_l, <- Hsize. unfold write_padding.
    rewrite (proj2 (Z.ltb_ge _ _)) by lia. erewrite st_bind_run by reflexivity. fold pad. rewrite <- app_assoc.
    replace (_ + _) with (BlobTable_size t) by lia. apply validate_alignment_Ok; [by rewrite Hsize|].
    rewrite length_app, Nat2Z.inj_add, Hdata, Z.add_mod, Hw, Hsize, Hm by lia. done.
  - unfold BlobTable_load. destruct t as [[|b l] ext]; cbn [bt_entries bt_extended] in *; [by destruct ext|].
    pose proof (frames_nonempty b l). rewrite (proj2 (Z.eqb_neq _ _)) by lia.
    erewrite st_bind_run. 2:{ unfold read_exact. rewrite (proj2 (Nat.leb_le _ _)) by (rewrite length_app; lia). reflexivity. }
    replace (Z.to_nat (BlobTable_size _)) with (length (frames (b :: l) ++ replicate pad 0)) by lia.
    rewrite take_app_length, drop_app_length. erewrite st_bind_run; [reflexivity|]. unfold st_lift. f_equal.
    apply (load_blobs_frames _ chunk_size flags ext (b :: l) pad []); [exact Hent| |unfold pad; lia].
    assert (forall l, length l <= length (frames l))%nat as Hle.
    { clear. induction l as [|b l IH]; [done|]. rewrite frames_cons, length_app. pose proof (length_frame b). unfold frame_size in *.
      destruct l; cbn [length] in *; lia. }
    specialize (Hle (b :: l)). rewrite length_app. lia.
Qed.

(** C27: the blob table survives the bootstrap. A table built with [add] is stored at an aligned
    position without an error, in exactly [size] bytes; loading it into a table that has the
    extended entries gives back the same blobs, with their ids, sizes, prefetch ranges and
    algorithms, and leaves the reader behind the table. *)
Theorem blob_table_roundtrip chunk_size flags t w tail :
  table_built chunk_size flags t -> Z.of_nat (length w) mod 8 = 0 ->
  exists data, BlobTable_store t w = (Ok (BlobTable_size t), w ++ data) /\
    Z.of_nat (length data) = BlobTable_size t /\
    BlobTable_load (BlobTable_size t) chunk_size flags (mkBlobTable [] (bt_extended t)) (data ++ tail) = (Ok t, tail).
Proof.
  intros Hb Hw. exists (blob_table_bytes t). destruct (blob_table_run chunk_size flags t w tail Hb Hw) as (E1 & E2 & _ & E3). done.
Qed.

(** The algorithms are all the flags decide. *)
Lemma table_built_flags chunk_size f f' t : table_built chunk_size f t -> flags_compressor f = flags_compressor f' ->
  flags_digester f = flags_digester f' -> table_built chunk_size f' t.
Proof.
  intros Hb Hc Hd. induction Hb as [|t id po ps cc us cs Hb IH Hid Hpo Hps Hn]; [constructor|].
  replace (BlobTable_add id po ps chunk_size cc us cs 0 f t) with (BlobTable_add id po ps chunk_size cc us cs 0 f' t); [by constructor|].
  unfold BlobTable_add, v5_blob_info. by rewrite Hc, Hd.
Qed.

(** *** The extended table *)

Definition ext_blob_wf (e : RafsV5ExtBlobEntry) : Prop :=
  in_range 32 (eb_chunk_count e) /\ in_range 64 (eb_uncompressed_size e) /\ in_range 64 (eb_compressed_size e).

Definition ext_bytes (t : list RafsV5ExtBlobEntry) : list Z := concat (ext_blob_bytes <$> t).

Lemma length_ext_blob_bytes e : length (ext_blob_bytes e) = 64%nat.
Proof. unfold ext_blob_bytes. by rewrite !length_app, !length_le_bytes, length_replicate. Qed.

Lemma length_ext_bytes t : length (ext_bytes t) = (length t * 64)%nat.
Proof. unfold ext_bytes. induction t as [|e t IH]; [done|]. rewrite fmap_cons, concat_cons, length_app, length_ext_blob_bytes, IH. cbn. lia. Qed.

Lemma store_ext_entries_run t size w : store_ext_entries t size w = (Ok (size + 64 * Z.of_nat (length t)), w ++ ext_bytes t).
Proof.
  revert size w. induction t as [|e t IH]; intros size w.
  { cbn. unfold st_ret. rewrite app_nil_r. do 2 f_equal. lia. }
  cbn [store_ext_entries]. erewrite st_bind_run by reflexivity. rewrite IH. unfold ext_bytes. rewrite fmap_cons, concat_cons, app_assoc.
  f_equal. f_equal. unfold RAFSV5_EXT_BLOB_ENTRY_SIZE. cbn [length]. lia.
Qed.

Lemma ext_blob_of_bytes_run e : ext_blob_wf e -> ext_blob_of_bytes (ext_blob_bytes e) = e.
Proof.
  intros (H1 & H2 & H3). unfold ext_blob_of_bytes, ext_blob_bytes. destruct e as [c u s]. cbn [eb_chunk_count eb_uncompressed_size eb_compressed_size] in *. f_equal.
  - apply get_le_here. exact H1.
  - rewrite get_le_skip_bytes, (get_le_skip _ _ [0; 0; 0; 0]) by (cbn; lia). apply get_le_here. exact H2.
  - rewrite get_le_skip_bytes, (get_le_skip _ _ [0; 0; 0; 0]), get_le_skip_bytes by (cbn; lia). apply get_le_here. exact H3.
Qed.

(** A stored extended table needs no padding, and is loaded back. *)
Lemma ext_table_run t w tail : Forall ext_blob_wf t -> Z.of_nat (length w) mod 8 = 0 ->
  ExtBlobTable_store t w = (Ok (ExtBlobTable_size t), w ++ ext_bytes t) /\ Z.of_nat (length (ext_bytes t)) = ExtBlobTable_size t /\
  ExtBlobTable_load (length t) (ext_bytes t ++ tail) = (Ok t, tail).
Proof.
  intros Ht Hw. set (n := 64 * Z.of_nat (length t)). assert (n mod 8 = 0) as Hm by (unfold n; rewrite Z.mul_comm; apply mod8_mul64).
  assert (rafsv5_align n = n) as Ha by (unfold rafsv5_align; rewrite land7; by rewrite Hm).
  assert (ExtBlobTable_size t = n) as -> by exact Ha. assert (Z.of_nat (length (ext_bytes t)) = n) as Hl by (rewrite length_ext_bytes; unfold n; lia).
  split_and!; [|done|].
  - unfold ExtBlobTable_store. erewrite st_bind_run by apply store_ext_entries_run. rewrite Z.add_0_l. fold n. rewrite Ha, Z.sub_diag. unfold write_padding.
    erewrite st_bind_run by reflexivity. cbn [replicate Z.to_nat]. rewrite app_nil_r, Z.add_0_r. apply validate_alignment_Ok; [done|].
    by rewrite length_app, Nat2Z.inj_add, Hl, Z.add_mod, Hw, Hm by lia.
  - unfold ExtBlobTable_load. rewrite <- length_ext_bytes. erewrite st_bind_run.
    2:{ unfold read_exact. rewrite (proj2 (Nat.leb_le _ _)) by (rewrite length_app; lia). reflexivity. }
    rewrite take_app_length, drop_app_length. unfold st_ret. do 2 f_equal. clear Hw Hm Ha Hl n.
    apply list_eq. intros i. rewrite list_lookup_fmap. destruct (decide (i < length t)%nat) as [Hi|Hi].
    2:{ by rewrite lookup_seq_ge, (lookup_ge_None_2 t) by lia. }
    destruct (lookup_lt_is_Some_2 t i Hi) as [e He]. rewrite lookup_seq_lt, He by lia. cbn [fmap option_fmap option_map].
    change (Some (ext_blob_of_bytes (slice (i * 64) 64 (ext_bytes t))) = Some e). f_equal.
    rewrite <- (take_drop_middle t i e He). unfold ext_bytes. rewrite fmap_app, concat_app, fmap_cons, concat_cons. fold (ext_bytes (take i t)) (ext_bytes (drop (S i) t)).
    replace (i * 64)%nat with (length (ext_bytes (take i t))) by (rewrite length_ext_bytes, length_take; lia).
    unfold slice. rewrite drop_app_length, <- (length_ext_blob_bytes e), take_app_length. apply ext_blob_of_bytes_run. by eapply Forall_lookup_1.
Qed.

(** ** Witness *)

Definition sample_blob_table : RafsV5BlobTable :=
  (BlobTable_add "bb" 1 2 0x1000 5 0x5000 0x3000 0 0x6 (BlobTable_add "aaa" 0 0 0x1000 4 0x4000 0x2000 0 0x6 BlobTable_new).2).2.

Lemma blob_table_roundtrip_witness :
  exists data, BlobTable_store sample_blob_table [] = (Ok 24, data) /\
    BlobTable_load 24 0x1000 0x6 (mkBlobTable [] (bt_extended sample_blob_table)) data = (Ok sample_blob_table, []).
Proof.
  destruct (blob_table_roundtrip 0x1000 0x6 sample_blob_table [] []) as (data & E1 & _ & E2).
  - repeat (constructor; try (by vm_compute)); try discriminate; intros; repeat (constructor; try (vm_compute; discriminate)).
  - reflexivity.
  - exists data. rewrite app_nil_r in E2. split; [exact E1 | exact E2].
Defined.
