(* ===== verification/RafsV5Inode.v ===== *)
(** RAFS v5 inodes and chunks on disk ([rafs/src/metadata/layout/v5.rs]).

    An inode of the bootstrap is a 128 byte structure, its name, the target of a symlink, the
    extended attributes and the chunks of a regular file, each padded to eight bytes. The lemmas
    give the bytes the stores write and show that the structures are read back as they were
    written. *)
From S2P Require Import Prelude Utils LittleEndian ChunkInfo Device RafsLayout RafsV5.

(** ** File modes *)

Definition S_IFMT : Z := 0xf000.
Definition S_IFSOCK : Z := 0xc000.
Definition S_IFLNK : Z := 0xa000.
Definition S_IFREG : Z := 0x8000.
Definition S_IFBLK : Z := 0x6000.
Definition S_IFDIR : Z := 0x4000.
Definition S_IFCHR : Z := 0x2000.
Definition S_IFIFO : Z := 0x1000.

Definition mode_is (kind mode : Z) : bool := Z.land mode S_IFMT =? kind.

(** ** Inode *)

(** [RafsV5InodeFlags]. *)
Definition INODE_SYMLINK : Z := 0x1.
Definition INODE_HARDLINK : Z := 0x2.
Definition INODE_XATTR : Z := 0x4.
Definition INODE_HAS_HOLE : Z := 0x8.

(** A digest is the number its 32 bytes make. *)
Record RafsV5Inode := mkV5Inode {
  v5i_digest : Z;
  v5i_parent : Z;
  v5i_ino : Z;
  v5i_uid : Z;
  v5i_gid : Z;
  v5i_projid : Z;
  v5i_mode : Z;
  v5i_size : Z;
  v5i_blocks : Z;
  v5i_flags : Z;
  v5i_nlink : Z;
  v5i_child_index : Z;
  v5i_child_count : Z;
  v5i_name_size : Z;
  v5i_symlink_size : Z;
  v5i_rdev : Z;
  v5i_mtime_nsec : Z;
  v5i_mtime : Z;
  v5i_reserved : Z
}.

Definition v5i_set_name_size (name_len : Z) (i : RafsV5Inode) : RafsV5Inode :=
  mkV5Inode (v5i_digest i) (v5i_parent i) (v5i_ino i) (v5i_uid i) (v5i_gid i) (v5i_projid i) (v5i_mode i) (v5i_size i)
    (v5i_blocks i) (v5i_flags i) (v5i_nlink i) (v5i_child_index i) (v5i_child_count i) (wrap 16 name_len)
    (v5i_symlink_size i) (v5i_rdev i) (v5i_mtime_nsec i) (v5i_mtime i) (v5i_reserved i).
Definition v5i_set_symlink_size (symlink_len : Z) (i : RafsV5Inode) : RafsV5Inode :=
  mkV5Inode (v5i_digest i) (v5i_parent i) (v5i_ino i) (v5i_uid i) (v5i_gid i) (v5i_projid i) (v5i_mode i) (v5i_size i)
    (v5i_blocks i) (v5i_flags i) (v5i_nlink i) (v5i_child_index i) (v5i_child_count i) (v5i_name_size i)
    (wrap 16 symlink_len) (v5i_rdev i) (v5i_mtime_nsec i) (v5i_mtime i) (v5i_reserved i).

(** [RafsV5Inode::size]: the size on disk without attributes and chunks. *)
Definition v5i_disk_size (i : RafsV5Inode) : Z := 128 + (rafsv5_align (v5i_name_size i) + rafsv5_align (v5i_symlink_size i)).

Definition v5i_is_dir (i : RafsV5Inode) : bool := mode_is S_IFDIR (v5i_mode i).
Definition v5i_is_symlink (i : RafsV5Inode) : bool := mode_is S_IFLNK (v5i_mode i).
Definition v5i_is_reg (i : RafsV5Inode) : bool := mode_is S_IFREG (v5i_mode i).
Definition v5i_is_chrdev (i : RafsV5Inode) : bool := mode_is S_IFCHR (v5i_mode i).
Definition v5i_is_blkdev (i : RafsV5Inode) : bool := mode_is S_IFBLK (v5i_mode i).
Definition v5i_is_fifo (i : RafsV5Inode) : bool := mode_is S_IFIFO (v5i_mode i).
Definition v5i_is_sock (i : RafsV5Inode) : bool := mode_is S_IFSOCK (v5i_mode i).
Definition v5i_is_hardlink (i : RafsV5Inode) : bool := v5i_is_reg i && (1 <? v5i_nlink i).
Definition v5i_has_hardlink (i : RafsV5Inode) : bool := flags_contain (v5i_flags i) INODE_HARDLINK.
Definition v5i_has_xattr (i : RafsV5Inode) : bool := flags_contain (v5i_flags i) INODE_XATTR.
Definition v5i_has_hole (i : RafsV5Inode) : bool := flags_contain (v5i_flags i) INODE_HAS_HOLE.

Definition v5i_bytes (i : RafsV5Inode) : list Z :=
  le_bytes 32 (v5i_digest i) ++ le_bytes 8 (v5i_parent i) ++ le_bytes 8 (v5i_ino i) ++ le_bytes 4 (v5i_uid i) ++
  le_bytes 4 (v5i_gid i) ++ le_bytes 4 (v5i_projid i) ++ le_bytes 4 (v5i_mode i) ++ le_bytes 8 (v5i_size i) ++
  le_bytes 8 (v5i_blocks i) ++ le_bytes 8 (v5i_flags i) ++ le_bytes 4 (v5i_nlink i) ++ le_bytes 4 (v5i_child_index i) ++
  le_bytes 4 (v5i_child_count i) ++ le_bytes 2 (v5i_name_size i) ++ le_bytes 2 (v5i_symlink_size i) ++
  le_bytes 4 (v5i_rdev i) ++ le_bytes 4 (v5i_mtime_nsec i) ++ le_bytes 8 (v5i_mtime i) ++ le_bytes 8 (v5i_reserved i).

Definition v5i_of_bytes (b : list Z) : RafsV5Inode :=
  mkV5Inode (get_le 0 32 b) (get_le 32 8 b) (get_le 40 8 b) (get_le 48 4 b) (get_le 52 4 b) (get_le 56 4 b) (get_le 60 4 b)
    (get_le 64 8 b) (get_le 72 8 b) (get_le 80 8 b) (get_le 88 4 b) (get_le 92 4 b) (get_le 96 4 b) (get_le 100 2 b)
    (get_le 102 2 b) (get_le 104 4 b) (get_le 108 4 b) (get_le 112 8 b) (get_le 120 8 b).

Definition v5i_load : stM (list Z) errno RafsV5Inode := b ← read_exact 128; st_ret (v5i_of_bytes b).

(** [seek_to_next_aligned]: skips the padding behind what was read; a seek past the end of the
    file leaves nothing to read. *)
Definition seek_to_next_aligned (last_read_len alignment : Z) : stM (list Z) errno unit :=
  let suffix := Z.land last_read_len (alignment - 1) in
  let offset := if suffix =? 0 then 0 else alignment - suffix in
  st_modify (fun r => drop (Z.to_nat offset) r).

Definition v5i_load_file_name (i : RafsV5Inode) : stM (list Z) errno (list Z) :=
  name_buf ← read_exact (Z.to_nat (v5i_name_size i));
  _ ← seek_to_next_aligned (Z.of_nat (length name_buf)) RAFSV5_ALIGNMENT;
  st_ret name_buf.

(** [RafsV5InodeWrapper]. *)
Record RafsV5InodeWrapper := mkV5Wrapper { w_name : list Z; w_symlink : option (list Z); w_inode : RafsV5Inode }.

Definition store_padded `{Profile} (field_size : Z) (data : list Z) (size : Z) : stM (list Z) errno Z :=
  _ ← write_all data;
  padding ← st_lift (usub 64 (rafsv5_align field_size) (zlen data));
  _ ← write_padding padding;
  st_ret (size + zlen data + padding).

Definition wrapper_store `{Profile} (w : RafsV5InodeWrapper) : stM (list Z) errno Z :=
  _ ← write_all (v5i_bytes (w_inode w));
  size ← store_padded (v5i_name_size (w_inode w)) (w_name w) 128;
  size ← (match w_symlink w with
          | Some symlink => store_padded (v5i_symlink_size (w_inode w)) symlink size
          | None => st_ret size
          end);
  validate_alignment size RAFSV5_ALIGNMENT.

(** ** Chunks *)

Record RafsV5ChunkInfo := mkV5Chunk {
  v5c_block_id : Z;
  v5c_blob_index : Z;
  v5c_flags : Z;
  v5c_compressed_size : Z;
  v5c_uncompressed_size : Z;
  v5c_compressed_offset : Z;
  v5c_uncompressed_offset : Z;
  v5c_file_offset : Z;
  v5c_index : Z;
  v5c_reserved : Z
}.
#[export] Instance RafsV5ChunkInfo_eq_dec : EqDecision RafsV5ChunkInfo.
Proof. solve_decision. Defined.

Definition v5c_bytes (c : RafsV5ChunkInfo) : list Z :=
  le_bytes 32 (v5c_block_id c) ++ le_bytes 4 (v5c_blob_index c) ++ le_bytes 4 (v5c_flags c) ++
  le_bytes 4 (v5c_compressed_size c) ++ le_bytes 4 (v5c_uncompressed_size c) ++ le_bytes 8 (v5c_compressed_offset c) ++
  le_bytes 8 (v5c_uncompressed_offset c) ++ le_bytes 8 (v5c_file_offset c) ++ le_bytes 4 (v5c_index c) ++
  le_bytes 4 (v5c_reserved c).

Definition v5c_of_bytes (b : list Z) : RafsV5ChunkInfo :=
  mkV5Chunk (get_le 0 32 b) (get_le 32 4 b) (get_le 36 4 b) (get_le 40 4 b) (get_le 44 4 b) (get_le 48 8 b)
    (get_le 56 8 b) (get_le 64 8 b) (get_le 72 4 b) (get_le 76 4 b).

Definition v5c_load : stM (list Z) errno RafsV5ChunkInfo := b ← read_exact 80; st_ret (v5c_of_bytes b).

Definition v5c_store (c : RafsV5ChunkInfo) : stM (list Z) errno Z :=
  _ ← write_all (v5c_bytes c);
  validate_alignment (zlen (v5c_bytes c)) RAFSV5_ALIGNMENT.

(** ** Reading back *)

Definition v5i_wf (i : RafsV5Inode) : Prop :=
  in_range 256 (v5i_digest i) /\ in_range 64 (v5i_parent i) /\ in_range 64 (v5i_ino i) /\ in_range 32 (v5i_uid i) /\
  in_range 32 (v5i_gid i) /\ in_range 32 (v5i_projid i) /\ in_range 32 (v5i_mode i) /\ in_range 64 (v5i_size i) /\
  in_range 64 (v5i_blocks i) /\ in_range 64 (v5i_flags i) /\ in_range 32 (v5i_nlink i) /\ in_range 32 (v5i_child_index i) /\
  in_range 32 (v5i_child_count i) /\ in_range 16 (v5i_name_size i) /\ in_range 16 (v5i_symlink_size i) /\
  in_range 32 (v5i_rdev i) /\ in_range 32 (v5i_mtime_nsec i) /\ in_range 64 (v5i_mtime i) /\ in_range 64 (v5i_reserved i).

Definition v5c_wf (c : RafsV5ChunkInfo) : Prop :=
  in_range 256 (v5c_block_id c) /\ in_range 32 (v5c_blob_index c) /\ in_range 32 (v5c_flags c) /\
  in_range 32 (v5c_compressed_size c) /\ in_range 32 (v5c_uncompressed_size c) /\ in_range 64 (v5c_compressed_offset c) /\
  in_range 64 (v5c_uncompressed_offset c) /\ in_range 64 (v5c_file_offset c) /\ in_range 32 (v5c_index c) /\
  in_range 32 (v5c_reserved c).

Lemma length_v5i_bytes i : length (v5i_bytes i) = 128%nat.
Proof. unfold v5i_bytes. by rewrite !length_app, !length_le_bytes. Qed.

Lemma length_v5c_bytes c : length (v5c_bytes c) = 80%nat.
Proof. unfold v5c_bytes. by rewrite !length_app, !length_le_bytes. Qed.

Lemma read_exact_app n l r : length l = n -> read_exact n (l ++ r) = (Ok l, r).
Proof.
  intros <-. unfold read_exact. rewrite (proj2 (Nat.leb_le _ _)) by (rewrite length_app; lia).
  by rewrite take_app_length, drop_app_length.
Qed.

Lemma v5i_load_bytes i r : v5i_wf i -> v5i_load (v5i_bytes i ++ r) = (Ok i, r).
Proof.
  intros (H1 & H2 & H3 & H4 & H5 & H6 & H7 & H8 & H9 & H10 & H11 & H12 & H13 & H14 & H15 & H16 & H17 & H18 & H19).
  unfold v5i_load. erewrite st_bind_run by (apply read_exact_app, length_v5i_bytes). unfold st_ret. do 2 f_equal.
  unfold v5i_of_bytes, v5i_bytes. rewrite <- (app_nil_r (le_bytes 8 (v5i_reserved i))). read_fields. by destruct i.
Qed.

Lemma v5c_roundtrip c : v5c_wf c -> v5c_of_bytes (v5c_bytes c) = c.
Proof.
  intros (H1 & H2 & H3 & H4 & H5 & H6 & H7 & H8 & H9 & H10).
  unfold v5c_of_bytes, v5c_bytes. rewrite <- (app_nil_r (le_bytes 4 (v5c_reserved c))). read_fields. by destruct c.
Qed.

Lemma v5c_load_bytes c r : v5c_wf c -> v5c_load (v5c_bytes c ++ r) = (Ok c, r).
Proof.
  intros Hc. unfold v5c_load. erewrite st_bind_run by (apply read_exact_app, length_v5c_bytes). unfold st_ret. by rewrite (v5c_roundtrip c Hc).
Qed.

(** A field padded to eight bytes. *)
Definition padded (data : list Z) : list Z := data ++ replicate (Z.to_nat (rafsv5_align (zlen data) - zlen data)) 0.

Lemma length_padded data : zlen (padded data) = rafsv5_align (zlen data).
Proof.
  unfold padded, zlen. rewrite length_app, length_replicate. destruct (rafsv5_align_spec (zlen data) (zlen_nonneg data)) as [_ H]. unfold zlen in *. lia.
Qed.

Lemma store_padded_run `{Profile} data size w :
  store_padded (zlen data) data size w = (Ok (size + rafsv5_align (zlen data)), w ++ padded data).
Proof.
  destruct (rafsv5_align_spec (zlen data) (zlen_nonneg data)) as [_ Hr].
  unfold store_padded. erewrite st_bind_run by reflexivity. erewrite st_bind_run.
  2:{ unfold st_lift. by rewrite (usub_in 64 (rafsv5_align (zlen data))) by (split; lia). }
  unfold write_padding. rewrite (proj2 (Z.ltb_ge _ _)) by lia. erewrite st_bind_run by reflexivity.
  unfold st_ret, padded. rewrite <- app_assoc. do 2 f_equal. lia.
Qed.

Lemma seek_padded (data r : list Z) :
  seek_to_next_aligned (zlen data) RAFSV5_ALIGNMENT (replicate (Z.to_nat (rafsv5_align (zlen data) - zlen data)) 0 ++ r) = (Ok tt, r).
Proof.
  unfold seek_to_next_aligned, st_modify. f_equal.
  assert ((if Z.land (zlen data) (RAFSV5_ALIGNMENT - 1) =? 0 then 0 else RAFSV5_ALIGNMENT - Z.land (zlen data) (RAFSV5_ALIGNMENT - 1))
    = rafsv5_align (zlen data) - zlen data) as -> by (unfold rafsv5_align; case_match; lia).
  apply drop_app_length'. by rewrite length_replicate.
Qed.

(** The bytes of an inode, its name and its symlink. *)
Definition wrapper_bytes (w : RafsV5InodeWrapper) : list Z :=
  v5i_bytes (w_inode w) ++ padded (w_name w) ++ match w_symlink w with Some s => padded s | None => [] end.

Definition wrapper_ok (w : RafsV5InodeWrapper) : Prop :=
  v5i_wf (w_inode w) /\ v5i_name_size (w_inode w) = zlen (w_name w) /\
  v5i_symlink_size (w_inode w) = match w_symlink w with Some s => zlen s | None => 0 end.

Lemma length_wrapper_bytes w : wrapper_ok w -> zlen (wrapper_bytes w) = v5i_disk_size (w_inode w).
Proof.
  intros (_ & Hn & Hs). unfold wrapper_bytes, v5i_disk_size. rewrite Hn, Hs. unfold zlen in *. rewrite !length_app, length_v5i_bytes.
  pose proof (length_padded (w_name w)). destruct (w_symlink w) as [s|]; [pose proof (length_padded s)|]; unfold zlen in *; cbn [length]; [lia|].
  change (rafsv5_align 0) with 0. lia.
Qed.

Lemma wrapper_store_run `{Profile} w out : wrapper_ok w -> zlen out mod 8 = 0 ->
  wrapper_store w out = (Ok (v5i_disk_size (w_inode w)), out ++ wrapper_bytes w) /\ zlen (out ++ wrapper_bytes w) mod 8 = 0.
Proof.
  intros Hok Ho. pose proof (length_wrapper_bytes w Hok) as Hlen. destruct Hok as (Hwf & Hn & Hs).
  assert (v5i_disk_size (w_inode w) mod 8 = 0) as Hm.
  { unfold v5i_disk_size. destruct Hwf as (_ & _ & _ & _ & _ & _ & _ & _ & _ & _ & _ & _ & _ & H14 & H15 & _).
    destruct (rafsv5_align_spec (v5i_name_size (w_inode w)) ltac:(apply H14)) as [M1 _].
    destruct (rafsv5_align_spec (v5i_symlink_size (w_inode w)) ltac:(apply H15)) as [M2 _].
    rewrite Z.add_mod, (Z.add_mod (rafsv5_align _)), M1, M2 by lia. done. }
  assert (zlen (out ++ wrapper_bytes w) mod 8 = 0) as Ha.
  { unfold zlen in *. rewrite length_app, Nat2Z.inj_add, Z.add_mod, Ho, Hlen, Hm by lia. done. }
  split; [|exact Ha]. unfold wrapper_store, wrapper_bytes in *. erewrite st_bind_run by reflexivity.
  rewrite Hn. erewrite st_bind_run by apply store_padded_run.
  erewrite (st_bind_run (match w_symlink w with Some _ => _ | None => _ end)).
  2:{ instantiate (1 := (out ++ v5i_bytes (w_inode w) ++ padded (w_name w) ++ match w_symlink w with Some s => padded s | None => [] end)).
      instantiate (1 := v5i_disk_size (w_inode w)). unfold v5i_disk_size. rewrite Hn, Hs. destruct (w_symlink w) as [s|].
      - rewrite store_padded_run, <- !app_assoc. do 2 f_equal. lia.
      - rewrite app_nil_r, <- app_assoc. change (rafsv5_align 0) with 0. unfold st_ret. do 2 f_equal. lia. }
  apply validate_alignment_Ok; [done|exact Ha].
Qed.

Lemma v5c_store_run c out : zlen out mod 8 = 0 ->
  v5c_store c out = (Ok 80, out ++ v5c_bytes c) /\ zlen (out ++ v5c_bytes c) mod 8 = 0.
Proof.
  intros Ho. assert (zlen (out ++ v5c_bytes c) mod 8 = 0) as Ha.
  { unfold zlen in *. rewrite length_app, length_v5c_bytes, Nat2Z.inj_add, Z.add_mod, Ho by lia. done. }
  split; [|exact Ha]. unfold v5c_store. erewrite st_bind_run by reflexivity. unfold zlen. rewrite length_v5c_bytes.
  by apply validate_alignment_Ok.
Qed.
