(* ===== verification/CachedInode.v ===== *)
(** Cached RAFS v5 inodes ([rafs/src/metadata/cached_v5.rs], the inode part;
    [src/bin/nydus-image/core/node.rs], [dump_bootstrap_v5]).

    An inode is read from the bootstrap into memory with its name, symlink target, extended
    attributes and chunks. Directories hold their children, shared through [Arc]; [ci_arc] is
    the identity of the allocation. The theorem shows that an inode is loaded as it was dumped by
    the builder. *)
From S2P Require Import Prelude Utils LittleEndian ChunkInfo Device RafsLayout RafsV5 RafsBlobTable RafsV5Inode.

(** ** Data *)

Record CachedChunkInfoV5 := mkCachedChunk {
  cc_block_id : Z;
  cc_blob_index : Z;
  cc_index : Z;
  cc_file_offset : Z;
  cc_compressed_offset : Z;
  cc_uncompressed_offset : Z;
  cc_compressed_size : Z;
  cc_uncompressed_size : Z;
  cc_flags : Z
}.

Definition cc_from (c : RafsV5ChunkInfo) : CachedChunkInfoV5 :=
  mkCachedChunk (v5c_block_id c) (v5c_blob_index c) (v5c_index c) (v5c_file_offset c) (v5c_compressed_offset c)
    (v5c_uncompressed_offset c) (v5c_compressed_size c) (v5c_uncompressed_size c) (v5c_flags c).

(** The fields of [CachedInodeV5] that [load] fills. *)
Record InodeData := mkInodeData {
  i_ino : Z;
  i_name : list Z;
  i_digest : Z;
  i_parent : Z;
  i_mode : Z;
  i_projid : Z;
  i_uid : Z;
  i_gid : Z;
  i_flags : Z;
  i_size : Z;
  i_blocks : Z;
  i_nlink : Z;
  i_child_idx : Z;
  i_child_cnt : Z;
  i_chunksize : Z;
  i_rdev : Z;
  i_mtime_nsec : Z;
  i_mtime : Z;
  i_target : list Z;
  i_xattr : gmap (list Z) (list Z);
  i_data : list CachedChunkInfoV5
}.

(** An [Arc<CachedInodeV5>]. *)
Inductive CachedInodeV5 := mkCached { ci_arc : nat; ci_data : InodeData; i_child : list CachedInodeV5 }.

Definition RAFS_V5_ROOT_INODE : Z := 1.
Definition RAFS_MAX_NAME : Z := 255.

Definition is_dir (i : InodeData) : bool := mode_is S_IFDIR (i_mode i).
Definition is_symlink (i : InodeData) : bool := mode_is S_IFLNK (i_mode i).
Definition is_reg (i : InodeData) : bool := mode_is S_IFREG (i_mode i).
Definition is_hardlink (i : InodeData) : bool := negb (is_dir i) && (1 <? i_nlink i).
Definition has_xattr (i : InodeData) : bool := flags_contain (i_flags i) INODE_XATTR.
Definition has_hole (i : InodeData) : bool := flags_contain (i_flags i) INODE_HAS_HOLE.
Definition is_empty_size (i : InodeData) : bool := i_size i =? 0.

Section inode.
Context `{Profile}.

(** ** Loading *)

Definition load_name (name_size : Z) : stM (list Z) errno (list Z) :=
  if 0 <? name_size then
    name_buf ← read_exact (Z.to_nat name_size);
    _ ← seek_to_next_aligned name_size RAFSV5_ALIGNMENT;
    st_ret name_buf
  else st_ret [].

Definition load_symlink (symlink : bool) (symlink_size : Z) : stM (list Z) errno (list Z) :=
  if symlink && (0 <? symlink_size) then
    symbol_buf ← read_exact (Z.to_nat symlink_size);
    _ ← seek_to_next_aligned symlink_size RAFSV5_ALIGNMENT;
    st_ret symbol_buf
  else st_ret [].

(** [rafsv5_align] on a size that is not known to be small. *)
Definition align_usize (size : Z) : io Z :=
  if Z.land size (RAFSV5_ALIGNMENT - 1) =? 0 then Ok size
  else uadd 64 size (RAFSV5_ALIGNMENT - Z.land size (RAFSV5_ALIGNMENT - 1)).

(** [vec![0u8; n]] panics when [n] is more than [isize::MAX]. *)
Definition alloc_check (n : Z) : io unit := rassert (n <? 2 ^ 63).

Definition load_xattr (has : bool) : stM (list Z) errno (gmap (list Z) (list Z)) :=
  if has then
    b ← read_exact 8;
    let size := get_le 0 8 b in
    aligned_size ← st_lift (align_usize size);
    _ ← st_lift (alloc_check aligned_size);
    xattr_buf ← read_exact (Z.to_nat aligned_size);
    st_lift (parse_xattr (fun m name value => (<[name := value]> m, true)) xattr_buf (Z.to_nat size) ∅)
  else st_ret ∅.

Fixpoint load_chunks (n : nat) : stM (list Z) errno (list CachedChunkInfoV5) :=
  match n with
  | O => st_ret []
  | S n => c ← v5c_load; l ← load_chunks n; st_ret (cc_from c :: l)
  end.

Definition load_chunk_info (reg : bool) (child_cnt : Z) : stM (list Z) errno (list CachedChunkInfoV5) :=
  if reg && (0 <? child_cnt) then load_chunks (Z.to_nat child_cnt) else st_ret [].

Definition copy_from_ondisk (inode : RafsV5Inode) (name target : list Z) (xattr : gmap (list Z) (list Z))
    (data : list CachedChunkInfoV5) (chunk_size : Z) : InodeData :=
  mkInodeData (v5i_ino inode) name (v5i_digest inode) (v5i_parent inode) (v5i_mode inode) (v5i_projid inode) (v5i_uid inode)
    (v5i_gid inode) (v5i_flags inode) (v5i_size inode) (v5i_blocks inode) (v5i_nlink inode) (v5i_child_index inode)
    (v5i_child_count inode) chunk_size (v5i_rdev inode) (v5i_mtime_nsec inode) (v5i_mtime inode) target xattr data.

(** Integer division: panics when the divisor is zero. *)
Definition udiv (a b : Z) : io Z := if b =? 0 then Panic else Ok (a / b).

Definition ci_validate (i : InodeData) (chunk_size : Z) : io unit :=
  if (i_ino i =? 0) || (i_nlink i =? 0) || (negb (i_ino i =? RAFS_V5_ROOT_INODE) && (i_parent i =? 0))
     || (RAFS_MAX_NAME <? zlen (i_name i)) || (zlen (i_name i) =? 0) then Err EINVAL
  else if negb (is_hardlink i) && (i_ino i <=? i_parent i) then Err EINVAL
  else if is_reg i then
    a ← uadd 64 (i_size i) chunk_size;
    b ← usub 64 a 1;
    chunks ← udiv b chunk_size;
    if negb (has_hole i) && negb (chunks =? zlen (i_data i)) then Err EINVAL
    else
      c ← uadd 64 (i_size i) 511;
      let blocks := c / 512 in
      if negb (blocks =? i_blocks i) && negb (i_blocks i =? 0) then Err EINVAL else Ok tt
  else if is_dir i then
    if negb (i_child_cnt i =? 0) && (i_child_idx i <=? i_ino i) then Err EINVAL else Ok tt
  else if is_symlink i && (zlen (i_target i) =? 0) then Err EINVAL
  else Ok tt.

Definition ci_load (chunk_size : Z) : stM (list Z) errno InodeData :=
  inode ← v5i_load;
  name ← load_name (v5i_name_size inode);
  target ← load_symlink (mode_is S_IFLNK (v5i_mode inode)) (v5i_symlink_size inode);
  xattr ← load_xattr (v5i_has_xattr inode);
  data ← load_chunk_info (mode_is S_IFREG (v5i_mode inode)) (v5i_child_count inode);
  let self := copy_from_ondisk inode name target xattr data chunk_size in
  _ ← st_lift (ci_validate self chunk_size);
  st_ret self.

(** ** What the builder writes *)

(** The parts of a builder's [Node] that [dump_bootstrap_v5] stores; the attributes in the order
    the hash map enumerates them. *)
Record DumpedNode := mkDumped { dn_wrapper : RafsV5InodeWrapper; dn_xattrs : list (list Z * list Z); dn_chunks : list RafsV5ChunkInfo }.

Fixpoint store_chunks (l : list RafsV5ChunkInfo) : stM (list Z) errno unit :=
  match l with [] => st_ret tt | c :: l => _ ← v5c_store c; store_chunks l end.

(** The result tells whether the node sets [ctx.has_xattr]. *)
Definition dump_bootstrap_v5 (n : DumpedNode) : stM (list Z) errno bool :=
  _ ← wrapper_store (dn_wrapper n);
  has_xattr ← (match dn_xattrs n with [] => st_ret false | _ => _ ← store_v5 (dn_xattrs n); st_ret true end);
  if v5i_is_reg (w_inode (dn_wrapper n)) && negb (v5i_child_count (w_inode (dn_wrapper n)) =? zlen (dn_chunks n))
  then st_lift (Err EOTHER)
  else _ ← store_chunks (dn_chunks n); st_ret has_xattr.

(** What [load] makes of a node. *)
Definition cached_node (chunk_size : Z) (n : DumpedNode) : InodeData :=
  copy_from_ondisk (w_inode (dn_wrapper n)) (w_name (dn_wrapper n)) (default [] (w_symlink (dn_wrapper n)))
    (list_to_map (dn_xattrs n)) (cc_from <$> dn_chunks n) chunk_size.

(** ** Loading what was dumped *)

Definition node_ok (chunk_size : Z) (n : DumpedNode) : Prop :=
  let inode := w_inode (dn_wrapper n) in
  wrapper_ok (dn_wrapper n) /\ (is_Some (w_symlink (dn_wrapper n)) <-> v5i_is_symlink inode = true) /\
  v5i_has_xattr inode = negb (bool_decide (dn_xattrs n = [])) /\ Forall pair_ok (dn_xattrs n) /\ NoDup (dn_xattrs n).*1 /\
  xattrs_size (dn_xattrs n) + 8 < 2 ^ 63 /\ Forall v5c_wf (dn_chunks n) /\
  (v5i_is_reg inode = true -> v5i_child_count inode = zlen (dn_chunks n)) /\ (v5i_is_reg inode = false -> dn_chunks n = []) /\
  ci_validate (cached_node chunk_size n) chunk_size = Ok tt.

Definition xattr_bytes (iter : list (list Z * list Z)) : list Z :=
  match iter with
  | [] => []
  | _ => le_bytes 8 (xattrs_size iter) ++ pairs_bytes iter ++
         replicate (Z.to_nat (rafsv5_align (8 + xattrs_size iter) - (8 + xattrs_size iter))) 0
  end.

Definition node_bytes (n : DumpedNode) : list Z :=
  wrapper_bytes (dn_wrapper n) ++ xattr_bytes (dn_xattrs n) ++ concat (v5c_bytes <$> dn_chunks n).

Lemma store_chunks_run l out : zlen out mod 8 = 0 -> store_chunks l out = (Ok tt, out ++ concat (v5c_bytes <$> l)).
Proof.
  revert out. induction l as [|c l IH]; intros out Ho; [cbn; by rewrite app_nil_r|].
  destruct (v5c_store_run c out Ho) as [E Ha]. cbn [store_chunks]. erewrite st_bind_run by exact E.
  rewrite IH by exact Ha. rewrite fmap_cons, concat_cons, app_assoc. done.
Qed.

Lemma length_chunks_bytes l : Z.of_nat (length (concat (v5c_bytes <$> l))) = 80 * zlen l.
Proof. induction l as [|c l IH]; [done|]. rewrite fmap_cons, concat_cons, length_app, length_v5c_bytes. unfold zlen in *. cbn [length]. lia. Qed.

Lemma align_header n : 0 <= n -> rafsv5_align (8 + n) = 8 + rafsv5_align n.
Proof.
  intros Hn. destruct (rafsv5_align_spec n Hn) as [M R]. destruct (rafsv5_align_spec (8 + n) ltac:(lia)) as [M2 R2].
  apply Z.mod_divide in M as [a Ha], M2 as [b Hb]; lia.
Qed.

Lemma dump_run chunk_size n out : node_ok chunk_size n -> zlen out mod 8 = 0 ->
  dump_bootstrap_v5 n out = (Ok (negb (bool_decide (dn_xattrs n = []))), out ++ node_bytes n) /\ zlen (out ++ node_bytes n) mod 8 = 0.
Proof.
  intros (Hw & _ & _ & Hp & _ & _ & _ & Hcnt & Hnr & _) Ho.
  destruct (wrapper_store_run (dn_wrapper n) out Hw Ho) as [E1 A1].
  set (out1 := out ++ wrapper_bytes (dn_wrapper n)) in *.
  assert (exists b, (match dn_xattrs n with [] => st_ret false | _ => _ ← store_v5 (dn_xattrs n); st_ret true end) out1
      = (@Ok errno _ b, out1 ++ xattr_bytes (dn_xattrs n)) /\ b = negb (bool_decide (dn_xattrs n = [])) /\
      zlen (out1 ++ xattr_bytes (dn_xattrs n)) mod 8 = 0) as (b & E2 & Hb & A2).
  { destruct (dn_xattrs n) as [|kv l] eqn:El; [exists false; rewrite app_nil_r; done|]. exists true. rewrite <- El in Hp |- *.
    destruct (store_v5_run (dn_xattrs n) out1 ltac:(by rewrite El) Hp A1) as [E L]. cbv zeta in E, L.
    erewrite st_bind_run by exact E. rewrite El. split; [done|]. split; [by rewrite bool_decide_eq_false_2|].
    rewrite El in L. unfold zlen in *. cbn [xattr_bytes]. rewrite length_app, Nat2Z.inj_add, L, Z.add_mod, A1 by lia.
    rewrite (proj1 (rafsv5_align_spec (8 + xattrs_size (kv :: l)) ltac:(pose proof (length_pairs_bytes (kv :: l)); lia))). done. }
  split.
  - unfold dump_bootstrap_v5. erewrite st_bind_run by exact E1. erewrite st_bind_run by exact E2.
    destruct (v5i_is_reg _) eqn:Er; cbn [andb]; [rewrite Hcnt, Z.eqb_refl by done; cbn [negb]|];
      (erewrite st_bind_run by (by apply store_chunks_run)); unfold st_ret, node_bytes, out1; rewrite Hb, <- !app_assoc; done.
  - unfold node_bytes. rewrite !app_assoc. fold out1. unfold zlen in *. rewrite length_app, Nat2Z.inj_add, Z.add_mod, A2 by lia.
    rewrite length_chunks_bytes.
    replace (80 * zlen (dn_chunks n)) with (0 + (10 * zlen (dn_chunks n)) * 8) by lia. by rewrite Z_mod_plus_full.
Qed.

Lemma load_name_run name r : in_range 16 (zlen name) -> load_name (zlen name) (padded name ++ r) = (Ok name, r).
Proof.
  intros Hn. unfold load_name. destruct (Z.ltb_spec 0 (zlen name)).
  - unfold padded. rewrite <- app_assoc. erewrite st_bind_run by (apply read_exact_app; unfold zlen; lia).
    erewrite st_bind_run by apply seek_padded. done.
  - destruct name; [done|unfold zlen in *; cbn in *; lia].
Qed.

Lemma load_symlink_run b s r : in_range 16 (zlen (default [] s)) -> (is_Some s <-> b = true) ->
  load_symlink b (match s with Some s => zlen s | None => 0 end) (match s with Some s => padded s | None => [] end ++ r)
  = (Ok (default [] s), r).
Proof.
  intros Hn Hb. destruct s as [s|]; cbn [default].
  - assert (b = true) as -> by (apply Hb; by eexists). unfold load_symlink. cbn [andb]. exact (load_name_run s r Hn).
  - unfold load_symlink. rewrite (andb_comm b). done.
Qed.

Lemma visit_insert (iter : list (list Z * list Z)) (m : gmap (list Z) (list Z)) : NoDup iter.*1 ->
  visit (fun m name value => (<[name := value]> m, true)) iter m = list_to_map iter ∪ m.
Proof.
  revert m. induction iter as [|[k v] iter IH]; intros m; intros Hnd; cbn [visit]; [cbn; by rewrite (left_id_L ∅ (∪))|].
  rewrite fmap_cons in Hnd. apply NoDup_cons in Hnd as [Hk Hnd]. rewrite IH by done. rewrite list_to_map_cons, <- insert_union_l. symmetry. apply insert_union_r.
  by apply not_elem_of_list_to_map_1.
Qed.

Lemma load_xattr_run iter r : Forall pair_ok iter -> NoDup iter.*1 -> xattrs_size iter + 8 < 2 ^ 63 ->
  load_xattr (negb (bool_decide (iter = []))) (xattr_bytes iter ++ r) = (Ok (list_to_map iter), r).
Proof.
  intros Hp Hnd Hs. destruct iter as [|kv l]; [done|]. rewrite bool_decide_eq_false_2 by done. cbn [negb].
  unfold load_xattr. set (iter := kv :: l) in *. pose proof (length_pairs_bytes iter) as Hl.
  destruct (rafsv5_align_spec (xattrs_size iter) ltac:(lia)) as [M R].
  pose proof (align_header (xattrs_size iter) ltac:(lia)) as E8.
  change (xattr_bytes iter) with (le_bytes 8 (xattrs_size iter) ++ pairs_bytes iter ++
    replicate (Z.to_nat (rafsv5_align (8 + xattrs_size iter) - (8 + xattrs_size iter))) 0).
  rewrite E8. set (pad := replicate _ 0). rewrite <- !app_assoc.
  erewrite st_bind_run by (apply read_exact_app, length_le_bytes).
  assert (get_le 0 8 (le_bytes 8 (xattrs_size iter)) = xattrs_size iter) as ->.
  { rewrite <- (app_nil_r (le_bytes _ _)). apply get_le_here. change (256 ^ Z.of_nat 8) with (2 ^ 64). lia. }
  assert (align_usize (xattrs_size iter) = Ok (rafsv5_align (xattrs_size iter))) as ->.
  { unfold align_usize, rafsv5_align in *. destruct (Z.land _ _ =? 0); [done|]. apply (uadd_in 64 (xattrs_size iter)). split; lia. }
  erewrite (st_bind_run (st_lift (Ok _))) by reflexivity.
  assert (alloc_check (rafsv5_align (xattrs_size iter)) = Ok tt) as -> by (unfold alloc_check; by rewrite (proj2 (Z.ltb_lt _ _)) by lia).
  erewrite (st_bind_run (st_lift (Ok _))) by reflexivity. rewrite app_assoc.
  erewrite st_bind_run by (apply read_exact_app; unfold pad; rewrite length_app, length_replicate; lia).
  unfold st_lift. f_equal. replace (Z.to_nat (xattrs_size iter)) with (length (pairs_bytes iter)) by lia.
  rewrite parse_xattr_pairs, visit_insert by done. by rewrite (right_id_L ∅ (∪)).
Qed.

Lemma load_chunks_run l r : Forall v5c_wf l -> load_chunks (length l) (concat (v5c_bytes <$> l) ++ r) = (Ok (cc_from <$> l), r).
Proof.
  induction 1 as [|c l Hc _ IH]; [done|]. cbn [length load_chunks]. rewrite fmap_cons, concat_cons, <- app_assoc.
  erewrite st_bind_run by (by apply v5c_load_bytes). by erewrite st_bind_run by exact IH.
Qed.

(** Loading the bytes of a node gives the node. *)
Lemma ci_load_node chunk_size n r : node_ok chunk_size n -> ci_load chunk_size (node_bytes n ++ r) = (Ok (cached_node chunk_size n), r).
Proof.
  intros ((Hwf & Hns & Hss) & Hsym & Hx & Hp & Hnd & Hxs & Hc & Hcnt & Hnr & Hval).
  pose proof Hwf as (_ & _ & _ & _ & _ & _ & _ & _ & _ & _ & _ & _ & _ & H14 & H15 & _).
  unfold ci_load, node_bytes, wrapper_bytes. rewrite <- !app_assoc. erewrite st_bind_run by (by apply v5i_load_bytes).
  rewrite Hns in H14 |- *. erewrite st_bind_run by (by apply load_name_run).
  rewrite Hss in H15 |- *. erewrite st_bind_run by (apply load_symlink_run; [by destruct (w_symlink _)|exact Hsym]).
  rewrite Hx. erewrite st_bind_run by (by apply load_xattr_run).
  assert (load_chunk_info (mode_is S_IFREG (v5i_mode (w_inode (dn_wrapper n)))) (v5i_child_count (w_inode (dn_wrapper n)))
      (concat (v5c_bytes <$> dn_chunks n) ++ r) = (Ok (cc_from <$> dn_chunks n), r)) as E.
  { unfold load_chunk_info, v5i_is_reg in *. destruct (mode_is _ _) eqn:Er; cbn [andb].
    - rewrite Hcnt by done. destruct (Z.ltb_spec 0 (zlen (dn_chunks n))).
      + unfold zlen. rewrite Nat2Z.id. by apply load_chunks_run.
      + destruct (dn_chunks n); [done|unfold zlen in *; cbn [length] in *; lia].
    - by rewrite Hnr by done. }
  erewrite st_bind_run by exact E. fold (cached_node chunk_size n). rewrite Hval. by erewrite st_bind_run by reflexivity.
Qed.

End inode.


(** ** Witness *)

Definition sample_chunk (i : Z) : RafsV5ChunkInfo := mkV5Chunk (7 + i) 0 1 0x800 0x1000 (0x800 * i) (0x1000 * i) (0x1000 * i) i 0.

Definition sample_node : DumpedNode :=
  mkDumped (mkV5Wrapper (bytes_of_string "file") None
            (mkV5Inode 99 1 2 0 0 0 0x81a4 0x2000 16 INODE_XATTR 1 0 2 4 0 0 0 5 0))
    [(bytes_of_string "user.a", [1; 2])] [sample_chunk 0; sample_chunk 1].

Ltac solve_ranges := split_and!; (split; [apply Z.leb_le | apply Z.ltb_lt]; vm_compute; reflexivity).

