(* ===== verification/CachedDir.v ===== *)
(** Directories of cached RAFS v5 inodes ([rafs/src/metadata/cached_v5.rs], the operations of
    [RafsInode] and [RafsInodeExt]; [rafsv5_validate_inode] of [layout/v5.rs]).

    A directory sorts its children by name once all of them are there, and looks names up by
    binary search. The theorems show that the lookup finds exactly the children that are there,
    that a listing resumed at any offset gives the remaining entries, that the files collected
    for prefetching are those of the tree, and that a tree of valid digests is bound to its root
    digest. *)
From stdpp Require Import sorting.
From S2P Require Import Prelude Utils LittleEndian ChunkInfo Device RafsLayout RafsV5 RafsBlobTable RafsV5Inode CachedInode.

(** ** Names *)

(** [Ord] of [OsStr]: lexicographic on the bytes. *)
Fixpoint name_cmp (a b : list Z) : comparison :=
  match a, b with
  | [], [] => Eq
  | [], _ => Lt
  | _, [] => Gt
  | x :: a, y :: b => match x ?= y with Eq => name_cmp a b | c => c end
  end.

Definition child_name (c : CachedInodeV5) : list Z := i_name (ci_data c).

Definition child_leb (c1 c2 : CachedInodeV5) : bool :=
  match name_cmp (child_name c1) (child_name c2) with Gt => false | _ => true end.

(** [slice::sort_by], which is stable. *)
Fixpoint sort_insert (c : CachedInodeV5) (l : list CachedInodeV5) : list CachedInodeV5 :=
  match l with [] => [c] | d :: l' => if child_leb c d then c :: l else d :: sort_insert c l' end.
Definition sort_by_name (l : list CachedInodeV5) : list CachedInodeV5 := foldr sort_insert [] l.

Definition add_child (child self : CachedInodeV5) : CachedInodeV5 :=
  let children := i_child self ++ [child] in
  mkCached (ci_arc self) (ci_data self)
    (if zlen children =? i_child_cnt (ci_data self) then sort_by_name children else children).

(** ** Lookup *)

(** [slice::binary_search_by] of the standard library. *)
Section binary_search.
Context {A : Type} (f : A -> comparison).
Fixpoint bsearch_loop (fuel : nat) (v : list A) (size left right : Z) : io (Z + Z) :=
  match fuel with
  | O => Panic
  | S fuel =>
      if left <? right then
        let mid := left + size / 2 in
        x ← vec_index v mid;
        match f x with
        | Lt => bsearch_loop fuel v (right - (mid + 1)) (mid + 1) right
        | Gt => bsearch_loop fuel v (mid - left) left mid
        | Eq => Ok (inl mid)
        end
      else Ok (inr left)
  end.
Definition binary_search_by (v : list A) : io (Z + Z) := bsearch_loop (S (length v)) v (zlen v) 0 (zlen v).
End binary_search.

Definition get_child_by_name (self : CachedInodeV5) (name : list Z) : io CachedInodeV5 :=
  r ← binary_search_by (fun c => name_cmp (child_name c) name) (i_child self);
  match r with inl idx => vec_index (i_child self) idx | inr _ => Err ENOENT end.

Definition get_child_by_index (self : CachedInodeV5) (index : Z) : io CachedInodeV5 :=
  if index <? zlen (i_child self) then vec_index (i_child self) index else Err EINVAL.

Definition get_child_count (self : CachedInodeV5) : Z := i_child_cnt (ci_data self).

Definition get_chunk_info (self : CachedInodeV5) (idx : Z) : io CachedChunkInfoV5 :=
  if idx <? zlen (i_data (ci_data self)) then vec_index (i_data (ci_data self)) idx else Err EINVAL.

Definition get_symlink (self : CachedInodeV5) : io (list Z) :=
  if is_symlink (ci_data self) then Ok (i_target (ci_data self)) else Err EINVAL.

Definition get_symlink_size (self : CachedInodeV5) : Z :=
  if is_symlink (ci_data self) then wrap 16 (zlen (i_target (ci_data self))) else 0.

Definition get_xattr (self : CachedInodeV5) (name : list Z) : option (list Z) := i_xattr (ci_data self) !! name.

(** ** Listing *)

Inductive RafsInodeWalkAction := Continue | Break.

Definition DOT : list Z := bytes_of_string ".".
Definition DOTDOT : list Z := bytes_of_string "..".

Section walk.
Context {S : Type} (handler : list Z -> Z -> Z -> stM S errno RafsInodeWalkAction).

(** The [while idx < child_count] loop; it makes at most [child_count] iterations. *)
Fixpoint walk_loop (fuel : nat) (self : CachedInodeV5) (idx cur_offset : Z) : stM S errno unit :=
  match fuel with
  | O => st_lift Panic
  | Datatypes.S fuel =>
      if idx <? get_child_count self then
        _ ← st_lift (rassert (idx <=? u32_MAX));
        child ← st_lift (get_child_by_index self idx);
        let cur_offset := cur_offset + 1 in
        action ← handler (child_name child) (i_ino (ci_data child)) cur_offset;
        match action with Continue => walk_loop fuel self (idx + 1) cur_offset | Break => st_ret tt end
      else st_ret tt
  end.

Definition walk_children_inodes (self : CachedInodeV5) (entry_offset : Z) : stM S errno unit :=
  let cur_offset := entry_offset in
  a ← (if cur_offset =? 0 then
         action ← handler DOT (i_ino (ci_data self)) (cur_offset + 1); st_ret (cur_offset + 1, action)
       else st_ret (cur_offset, Continue));
  match a with
  | (_, Break) => st_ret tt
  | (cur_offset, Continue) =>
      b ← (if cur_offset =? 1 then
             let parent := if i_ino (ci_data self) =? 1 then 1 else i_parent (ci_data self) in
             action ← handler DOTDOT parent (cur_offset + 1); st_ret (cur_offset + 1, action)
           else st_ret (cur_offset, Continue));
      match b with
      | (_, Break) => st_ret tt
      | (cur_offset, Continue) =>
          walk_loop (Datatypes.S (Z.to_nat (get_child_count self))) self (cur_offset - 2) cur_offset
      end
  end.
End walk.

(** ** Descendants *)

(** [collect_descendants_inodes]: the files of the directory, then those of its directories. *)
Fixpoint collect_descendants (self : CachedInodeV5) (descendants : list CachedInodeV5) : io (list CachedInodeV5) :=
  if negb (is_dir (ci_data self)) then Err ENOTDIR
  else
    let here := filter (fun c => negb (is_dir (ci_data c)) && negb (is_empty_size (ci_data c)) = true) (i_child self) in
    (fix go (l : list CachedInodeV5) (descendants : list CachedInodeV5) : io (list CachedInodeV5) :=
       match l with
       | [] => Ok descendants
       | d :: l =>
           if is_dir (ci_data d) then descendants ← collect_descendants d descendants; go l descendants
           else go l descendants
       end) (i_child self) (descendants ++ here).

(** ** Digests *)

Section digest.
(** [RafsDigest::hasher]: the digest of the concatenation of the updates. *)
Context (hash : DigestAlgorithm -> list Z -> Z).

Definition digest_bytes (d : Z) : list Z := le_bytes 32 d.

Fixpoint digest_chunks (l : list CachedChunkInfoV5) : list Z :=
  match l with [] => [] | c :: l => digest_bytes (cc_block_id c) ++ digest_chunks l end.

(** A directory with fewer children than its count, or a file with fewer chunks, is an error. *)
Fixpoint rafsv5_validate_inode (recursive : bool) (digester : DigestAlgorithm) (inode : CachedInodeV5) : io bool :=
  let child_count := i_child_cnt (ci_data inode) in
  let finish (data : list Z) := Ok (i_digest (ci_data inode) =? hash digester data) in
  if is_symlink (ci_data inode) then finish (i_target (ci_data inode))
  else if is_reg (ci_data inode) then
    if zlen (i_data (ci_data inode)) <? child_count then Err EINVAL
    else finish (digest_chunks (take (Z.to_nat child_count) (i_data (ci_data inode))))
  else if is_dir (ci_data inode) then
    (fix go (count : nat) (l : list CachedInodeV5) (data : list Z) {struct l} : io bool :=
       match count, l with
       | O, _ => finish data
       | Datatypes.S _, [] => Err EINVAL
       | Datatypes.S count, child :: l =>
           ok ← (if is_reg (ci_data child) || is_symlink (ci_data child) || (recursive && is_dir (ci_data child))
                 then rafsv5_validate_inode recursive digester child else Ok true);
           if ok : bool then go count l (data ++ digest_bytes (i_digest (ci_data child))) else Ok false
       end) (Z.to_nat child_count) (i_child inode) []
  else finish [].
End digest.

(** ** Order of names *)

Lemma name_cmp_eq a b : name_cmp a b = Eq <-> a = b.
Proof.
  revert b. induction a as [|x a IH]; intros [|y b]; cbn; try done.
  destruct (Z.compare_spec x y) as [->|Hlt|Hlt]; [rewrite IH; split; congruence| |]; split; try done; intros [=]; lia.
Qed.

Lemma name_cmp_opp a b : name_cmp b a = CompOpp (name_cmp a b).
Proof.
  revert b. induction a as [|x a IH]; intros [|y b]; cbn; try done.
  rewrite (Z.compare_antisym x y). destruct (x ?= y); cbn; [apply IH|done|done].
Qed.

Lemma name_cmp_trans a b c : name_cmp a b = Lt -> name_cmp b c = Lt -> name_cmp a c = Lt.
Proof.
  revert b c. induction a as [|x a IH]; intros [|y b] [|z c]; cbn; try done.
  destruct (Z.compare_spec x y) as [->|H1|H1]; destruct (Z.compare_spec y z) as [->|H2|H2]; try done; intros A B.
  - by eapply IH.
  - by rewrite (proj2 (Z.compare_lt_iff x z)).
  - by rewrite (proj2 (Z.compare_lt_iff x z)) by lia.
Qed.

Definition name_lt (c1 c2 : CachedInodeV5) : Prop := name_cmp (child_name c1) (child_name c2) = Lt.

#[export] Instance name_lt_trans : Transitive name_lt.
Proof. intros a b c. apply name_cmp_trans. Qed.

Lemma sort_insert_perm c l : sort_insert c l ≡ₚ c :: l.
Proof.
  induction l as [|d l IH]; [done|]. cbn. destruct (child_leb c d); [done|]. rewrite IH. apply Permutation_swap.
Qed.

Lemma sort_perm l : sort_by_name l ≡ₚ l.
Proof. induction l as [|c l IH]; [done|]. cbn. by rewrite sort_insert_perm, IH. Qed.

Lemma sort_insert_sorted c l : child_name c ∉ child_name <$> l -> StronglySorted name_lt l ->
  StronglySorted name_lt (sort_insert c l).
Proof.
  induction l as [|d l IH]; intros Hc Hs; cbn [sort_insert]; [repeat constructor|].
  rewrite fmap_cons, not_elem_of_cons in Hc. destruct Hc as [Hne Hc]. apply StronglySorted_inv in Hs as [Hs Hd].
  unfold child_leb. destruct (name_cmp (child_name c) (child_name d)) eqn:E.
  - by apply name_cmp_eq in E.
  - constructor; [by constructor|]. constructor; [done|]. eapply Forall_impl; [exact Hd|]. intros x Hx. by transitivity d.
  - constructor; [by apply IH|]. rewrite sort_insert_perm. constructor; [|done]. unfold name_lt. by rewrite name_cmp_opp, E.
Qed.

Lemma sort_sorted l : NoDup (child_name <$> l) -> StronglySorted name_lt (sort_by_name l).
Proof.
  induction l as [|c l IH]; [constructor|]. rewrite fmap_cons, NoDup_cons. intros [Hc Hn].
  cbn [sort_by_name foldr]. apply sort_insert_sorted; [|by apply IH]. by rewrite (sort_perm l).
Qed.

Lemma add_child_perm c dir : i_child (add_child c dir) ≡ₚ i_child dir ++ [c].
Proof. cbn [add_child i_child]. case_match; [apply sort_perm|done]. Qed.

(** Adding all the children of a directory. *)
Lemma add_children_perm dir l : i_child (foldl (fun d c => add_child c d) dir l) ≡ₚ i_child dir ++ l.
Proof.
  revert dir. induction l as [|c l IH]; intros dir; cbn [foldl]; [by rewrite app_nil_r|].
  by rewrite IH, add_child_perm, <- app_assoc.
Qed.

Lemma add_children_data dir l : ci_data (foldl (fun d c => add_child c d) dir l) = ci_data dir.
Proof. revert dir. induction l as [|c l IH]; intros dir; cbn [foldl]; [done|]. by rewrite IH. Qed.

(** ** Binary search *)

Section bsearch_spec.
Context {A : Type} (f : A -> comparison) (v : list A).
Hypothesis mono : forall i j x y, (i < j)%nat -> v !! i = Some x -> v !! j = Some y ->
  (f y <> Gt -> f x = Lt) /\ (f x <> Lt -> f y = Gt).

Lemma bsearch_loop_spec fuel size left right :
  0 <= left -> right <= zlen v -> size = right - left -> (Z.to_nat (right - left) < fuel)%nat ->
  (forall i x, v !! i = Some x -> Z.of_nat i < left -> f x = Lt) ->
  (forall i x, v !! i = Some x -> right <= Z.of_nat i -> f x = Gt) ->
  exists r, bsearch_loop f fuel v size left right = Ok r /\
    match r with
    | inl m => exists x, vec_index (E:=errno) v m = Ok x /\ v !! Z.to_nat m = Some x /\ f x = Eq
    | inr _ => forall i x, v !! i = Some x -> f x <> Eq
    end.
Proof.
  revert size left right. induction fuel as [|fuel IH]; intros size left right Hl Hr -> Hf Hlo Hhi; [lia|]. cbn [bsearch_loop].
  destruct (Z.ltb_spec left right) as [Hlt|Hge].
  2:{ eexists. split; [done|]. intros i x Hx. destruct (Z.lt_ge_cases (Z.of_nat i) left).
      - by rewrite (Hlo i x).
      - rewrite (Hhi i x); [done|done|lia]. }
  set (mid := left + (right - left) / 2).
  assert (left <= mid < right) as Hmid.
  { unfold mid. pose proof (Z.div_pos (right - left) 2 ltac:(lia) ltac:(lia)). pose proof (Z.div_lt (right - left) 2 ltac:(lia) ltac:(lia)). lia. }
  unfold zlen in *. destruct (vec_index_is_Ok (E:=errno) v mid) as (x & Hi & Hx); [lia|]. rewrite Hi. cbn [mbind outcome_bind].
  destruct (f x) eqn:Ef.
  - eexists. split; [done|]. exists x. done.
  - apply IH; try lia; [|done]. intros i y Hy Hlti. destruct (decide (i = Z.to_nat mid)) as [->|Hne]; [congruence|].
    apply (mono i (Z.to_nat mid) y x); [lia|done|done|by rewrite Ef].
  - apply IH; try lia; [done|]. intros i y Hy Hle. destruct (decide (i = Z.to_nat mid)) as [->|Hne]; [congruence|].
    apply (mono (Z.to_nat mid) i x y); [lia|done|done|by rewrite Ef].
Qed.

Lemma binary_search_spec : exists r, binary_search_by f v = Ok r /\
  match r with
  | inl m => exists x, vec_index (E:=errno) v m = Ok x /\ v !! Z.to_nat m = Some x /\ f x = Eq
  | inr _ => forall i x, v !! i = Some x -> f x <> Eq
  end.
Proof.
  apply bsearch_loop_spec; unfold zlen; try lia. intros i x Hx%lookup_lt_Some. lia.
Qed.
End bsearch_spec.

Lemma sorted_lookup_lt l i j a b : StronglySorted name_lt l -> (i < j)%nat -> l !! i = Some a -> l !! j = Some b -> name_lt a b.
Proof.
  intros Hs. revert i j. induction Hs as [|x l _ IH Hx]; intros i j Hij Ha Hb; [done|].
  destruct j as [|j]; [lia|]. destruct i as [|i]; [|by apply (IH i j); [lia| |]]. injection Ha as <-.
  by eapply Forall_lookup_1.
Qed.

Lemma get_child_by_name_sorted self name : StronglySorted name_lt (i_child self) ->
  (exists c, c ∈ i_child self /\ child_name c = name /\ get_child_by_name self name = Ok c) \/
  ((forall c, c ∈ i_child self -> child_name c <> name) /\ get_child_by_name self name = Err ENOENT).
Proof.
  intros Hs. destruct (binary_search_spec (fun c => name_cmp (child_name c) name) (i_child self)) as ([m|m] & E & Hr).
  - intros i j x y Hij Hx Hy. pose proof (sorted_lookup_lt _ i j x y Hs Hij Hx Hy) as Hxy. unfold name_lt in Hxy. split; intros Hf.
    + destruct (name_cmp (child_name y) name) eqn:Ey; [apply name_cmp_eq in Ey; congruence|by eapply name_cmp_trans|done].
    + rewrite name_cmp_opp. destruct (name_cmp (child_name x) name) eqn:Ex; [|done|].
      * apply name_cmp_eq in Ex. subst name. by rewrite Hxy.
      * rewrite (name_cmp_trans name (child_name x) (child_name y)); [done| |done]. by rewrite name_cmp_opp, Ex.
  - left. destruct Hr as (x & Hi & Hx & Hf). exists x. apply name_cmp_eq in Hf. split; [by eapply list_elem_of_lookup_2|].
    split; [done|]. unfold get_child_by_name. rewrite E. exact Hi.
  - right. split; [|unfold get_child_by_name; by rewrite E]. intros c [i Hi]%list_elem_of_lookup_1 Hn. by apply (Hr i c Hi), name_cmp_eq.
Qed.

Lemma get_child_by_name_member self c : StronglySorted name_lt (i_child self) -> c ∈ i_child self ->
  get_child_by_name self (child_name c) = Ok c.
Proof.
  intros Hs Hc. destruct (get_child_by_name_sorted self (child_name c) Hs) as [(c' & Hc' & Hn & E)|[Hno _]]; [|by destruct (Hno c Hc)].
  rewrite E. f_equal. apply list_elem_of_lookup_1 in Hc as [i Hi], Hc' as [j Hj].
  destruct (lt_eq_lt_dec i j) as [[Hlt| ->]|Hlt]; [|congruence|].
  - pose proof (sorted_lookup_lt _ _ _ _ _ Hs Hlt Hi Hj) as Hx. unfold name_lt in Hx. rewrite Hn in Hx.
    by rewrite (proj2 (name_cmp_eq _ _)) in Hx.
  - pose proof (sorted_lookup_lt _ _ _ _ _ Hs Hlt Hj Hi) as Hx. unfold name_lt in Hx. rewrite Hn in Hx.
    by rewrite (proj2 (name_cmp_eq _ _)) in Hx.
Qed.

(** A directory that got all its children is sorted. *)
Lemma add_children_sorted dir l : i_child dir = [] -> zlen l = i_child_cnt (ci_data dir) -> NoDup (child_name <$> l) ->
  StronglySorted name_lt (i_child (foldl (fun d c => add_child c d) dir l)).
Proof.
  intros Hd Hl Hn. destruct l as [|c l' _] using rev_ind; [cbn; rewrite Hd; constructor|].
  rewrite foldl_app. cbn [foldl]. cbn [add_child i_child]. set (d := foldl _ dir l').
  pose proof (add_children_perm dir l') as Hp. fold d in Hp. rewrite Hd in Hp. cbn [app] in Hp.
  assert (ci_data d = ci_data dir) as -> by apply add_children_data. rewrite <- Hl. unfold zlen. rewrite !length_app, (Permutation_length Hp), Z.eqb_refl.
  apply sort_sorted. by rewrite Hp.
Qed.

(** a lookup in a directory is exact. Once a directory got as many children as its inode
    announces, with distinct names, [get_child_by_name] returns every child under its name, and
    [ENOENT] for any other name, whatever the order the children were added in. *)
Theorem dir_lookup_exact dir l : i_child dir = [] -> zlen l = i_child_cnt (ci_data dir) -> NoDup (child_name <$> l) ->
  let d := foldl (fun d c => add_child c d) dir l in
  i_child d ≡ₚ l /\ (forall c, c ∈ l -> get_child_by_name d (child_name c) = Ok c) /\
  forall name, name ∉ child_name <$> l -> get_child_by_name d name = Err ENOENT.
Proof.
  intros Hd Hl Hn d. pose proof (add_children_perm dir l) as Hp. fold d in Hp. rewrite Hd in Hp.
  pose proof (add_children_sorted dir l Hd Hl Hn) as Hs. fold d in Hs. split; [exact Hp|]. split.
  - intros c Hc. apply get_child_by_name_member; [done|]. by rewrite Hp.
  - intros name Hno. destruct (get_child_by_name_sorted d name Hs) as [(c & Hc & <- & _)|[_ E]]; [|done].
    destruct Hno. rewrite Hp in Hc. by apply list_elem_of_fmap_2.
Qed.

(** ** Listing *)

Section walk_spec.
Context {S : Type} (handler : list Z -> Z -> Z -> stM S errno RafsInodeWalkAction).

(** What a directory lists. *)
Definition dir_entries (self : CachedInodeV5) : list (list Z * Z) :=
  (DOT, i_ino (ci_data self)) ::
  (DOTDOT, if i_ino (ci_data self) =? 1 then 1 else i_parent (ci_data self)) ::
  ((fun c => (child_name c, i_ino (ci_data c))) <$> i_child self).

(** The handler on entries, each with the offset of the next one, until it stops. *)
Fixpoint walk_ref (l : list (list Z * Z)) (off : Z) : stM S errno unit :=
  match l with
  | [] => st_ret tt
  | (name, ino) :: l =>
      action ← handler name ino (off + 1);
      match action with Continue => walk_ref l (off + 1) | Break => st_ret tt end
  end.

Lemma walk_loop_spec fuel self idx off s : zlen (i_child self) = get_child_count self -> get_child_count self < 2 ^ 32 ->
  0 <= idx -> (Z.to_nat (get_child_count self - idx) < fuel)%nat ->
  walk_loop handler fuel self idx off s =
  walk_ref ((fun c => (child_name c, i_ino (ci_data c))) <$> drop (Z.to_nat idx) (i_child self)) off s.
Proof.
  intros Hc H32. unfold zlen in Hc. revert idx off s. induction fuel as [|fuel IH]; intros idx off s Hi Hf; [lia|]. cbn [walk_loop].
  destruct (Z.ltb_spec idx (get_child_count self)) as [Hlt|Hge].
  2:{ rewrite drop_ge by lia. done. }
  rewrite (proj2 (Z.leb_le idx u32_MAX)) by (unfold u32_MAX; lia). erewrite st_bind_run by reflexivity.
  unfold get_child_by_index, zlen. rewrite Hc, (proj2 (Z.ltb_lt _ _)) by done.
  destruct (vec_index_is_Ok (E:=errno) (i_child self) idx) as (c & Hv & Hx); [lia|]. rewrite Hv.
  erewrite (st_bind_run (st_lift (Ok c))) by reflexivity.
  rewrite (drop_S _ c) by done. rewrite fmap_cons. cbn [walk_ref]. unfold mbind, stM_bind, st_bind.
  destruct (handler _ _ _ s) as [[[]| |] s']; try done.
  rewrite IH by lia. by replace (Z.to_nat (idx + 1)) with (Datatypes.S (Z.to_nat idx)) by lia.
Qed.

Lemma walk_children_ref self off s : zlen (i_child self) = get_child_count self -> get_child_count self < 2 ^ 32 -> 0 <= off ->
  walk_children_inodes handler self off s = walk_ref (drop (Z.to_nat off) (dir_entries self)) off s.
Proof.
  intros Hc H32 Ho.
  assert (forall s, walk_loop handler (Datatypes.S (Z.to_nat (get_child_count self))) self 0 2 s =
    walk_ref ((fun c => (child_name c, i_ino (ci_data c))) <$> i_child self) 2 s) as Hrest.
  { intros s0. rewrite walk_loop_spec by (done || lia). by rewrite drop_0. }
  assert (forall s, (b ← (action ← handler DOTDOT (if i_ino (ci_data self) =? 1 then 1 else i_parent (ci_data self)) 2; st_ret (2, action));
    match b with (_, Break) => st_ret tt
    | (cur_offset, Continue) => walk_loop handler (Datatypes.S (Z.to_nat (get_child_count self))) self (cur_offset - 2) cur_offset end) s =
    walk_ref (drop 1 (dir_entries self)) 1 s) as Hdd.
  { intros s0. cbn [dir_entries drop walk_ref]. unfold mbind, stM_bind, st_bind. destruct (handler DOTDOT _ _ s0) as [[[]| |] s1]; try done.
    cbn. apply Hrest. }
  unfold walk_children_inodes. destruct (Z.eqb_spec off 0) as [->|H0]; [|destruct (Z.eqb_spec off 1) as [->|H1]].
  - change (drop (Z.to_nat 0) (dir_entries self)) with (dir_entries self). unfold dir_entries. cbn [walk_ref].
    change (0 + 1) with 1. unfold mbind, stM_bind, st_bind. destruct (handler DOT _ _ s) as [[[]| |] s1]; try done.
    etransitivity; [|exact (Hdd s1)]. done.
  - exact (Hdd s).
  - erewrite st_bind_run by reflexivity. cbv beta iota. rewrite (proj2 (Z.eqb_neq off 1)) by done.
    erewrite st_bind_run by reflexivity. cbv beta iota.
    rewrite walk_loop_spec by (done || lia).
    replace (Z.to_nat off) with (Datatypes.S (Datatypes.S (Z.to_nat (off - 2)))) by lia. cbn [dir_entries drop]. by rewrite fmap_drop.
Qed.
End walk_spec.

(** The handler of a [readdir] with room for some entries: it keeps entries with their offsets
    and stops when the buffer is full. *)
Definition readdir_page (room : nat) (name : list Z) (ino off : Z) : stM (list (list Z * Z * Z)) errno RafsInodeWalkAction := fun page =>
  if (length page <? room)%nat then (Ok Continue, page ++ [(name, ino, off)]) else (Ok Break, page).

Lemma walk_ref_page room l off page : (length page <= room)%nat ->
  (walk_ref (readdir_page room) l off page).2 =
  page ++ take (room - length page) (imap (fun i e => (e.1, e.2, off + 1 + Z.of_nat i)) l).
Proof.
  revert off page. induction l as [|[n i] l IH]; intros off page Hp; [cbn; by rewrite take_nil, app_nil_r|].
  cbn [walk_ref]. unfold mbind, stM_bind, st_bind, readdir_page at 1. destruct (Nat.ltb_spec (length page) room) as [Hlt|Hge].
  - rewrite IH by (rewrite length_app; cbn; lia). rewrite length_app. cbn [length imap].
    replace (room - length page)%nat with (Datatypes.S (room - (length page + 1))) by lia. cbn [imap firstn take]. rewrite <- app_assoc.
    cbn [app]. f_equal. f_equal; [cbn [fst snd]; f_equal; lia|]. f_equal. apply imap_ext. intros j x _.
    cbn [compose fst snd]. f_equal. lia.
  - replace (room - length page)%nat with O by lia. cbn. by rewrite app_nil_r.
Qed.

(** C26: listing a directory page by page loses and repeats nothing: a [readdir] at an offset
    whose buffer has room for some entries returns exactly that many entries of the directory
    ([.], [..] and the children in order) from that offset on, each with the offset at which
    the next page starts. *)
Theorem readdir_pages self off room : zlen (i_child self) = get_child_count self -> get_child_count self < 2 ^ 32 -> 0 <= off ->
  walk_children_inodes (readdir_page room) self off [] =
  (Ok tt, take room (imap (fun i e => (e.1, e.2, off + 1 + Z.of_nat i)) (drop (Z.to_nat off) (dir_entries self)))).
Proof.
  intros Hc H32 Ho. rewrite walk_children_ref by done.
  generalize (drop (Z.to_nat off) (dir_entries self)) as l. intros l. pose proof (walk_ref_page room l off [] ltac:(cbn; lia)) as H2. cbn [app length] in H2. rewrite Nat.sub_0_r in H2.
  rewrite <- H2. assert ((walk_ref (readdir_page room) l off []).1 = Ok tt) as H1.
  { clear. generalize (@nil (list Z * Z * Z)) as page. generalize off as o. clear off. induction l as [|[n i] l IH]; intros o page; [done|].
    cbn [walk_ref]. unfold mbind, stM_bind, st_bind, readdir_page at 1. destruct (_ <? _)%nat; [apply IH|done]. }
  rewrite <- H1. apply surjective_pairing.
Qed.

(** ** Trees *)

Lemma CachedInodeV5_tree_ind (P : CachedInodeV5 -> Prop) :
  (forall arc d l, Forall P l -> P (mkCached arc d l)) -> forall t, P t.
Proof.
  intros H. fix IH 1. intros [arc d l]. apply H. induction l as [|c l IHl]; constructor; [apply IH|exact IHl].
Qed.

(** The inodes below a directory. *)
Fixpoint below (t : CachedInodeV5) : list CachedInodeV5 :=
  if is_dir (ci_data t) then
    (fix go (l : list CachedInodeV5) : list CachedInodeV5 :=
       match l with [] => [] | c :: l => c :: below c ++ go l end) (i_child t)
  else [].

Fixpoint below_list (l : list CachedInodeV5) : list CachedInodeV5 :=
  match l with [] => [] | c :: l => c :: below c ++ below_list l end.

Lemma below_eq t : below t = if is_dir (ci_data t) then below_list (i_child t) else [].
Proof. by destruct t. Qed.

Definition is_data (c : CachedInodeV5) : bool := negb (is_dir (ci_data c)) && negb (is_empty_size (ci_data c)).

Fixpoint collect_list (l : list CachedInodeV5) (descendants : list CachedInodeV5) : io (list CachedInodeV5) :=
  match l with
  | [] => Ok descendants
  | d :: l =>
      if is_dir (ci_data d) then descendants ← collect_descendants d descendants; collect_list l descendants
      else collect_list l descendants
  end.

Lemma collect_eq t acc : collect_descendants t acc =
  if negb (is_dir (ci_data t)) then Err ENOTDIR else collect_list (i_child t) (acc ++ filter (fun c => is_data c = true) (i_child t)).
Proof. by destruct t. Qed.

Lemma collect_descendants_spec t acc : is_dir (ci_data t) = true ->
  exists l, collect_descendants t acc = Ok (acc ++ l) /\ l ≡ₚ filter (fun c => is_data c = true) (below t).
Proof.
  revert acc. induction t as [arc d children IH] using CachedInodeV5_tree_ind. intros acc Hd.
  rewrite collect_eq, below_eq, Hd. cbn [negb i_child ci_data].
  enough (forall acc', exists l, collect_list children acc' = Ok (acc' ++ l) /\
    filter (fun c => is_data c = true) children ++ l ≡ₚ filter (fun c => is_data c = true) (below_list children)) as Hall.
  { destruct (Hall (acc ++ filter (fun c => is_data c = true) children)) as (l & E & Hp).
    eexists. rewrite E, <- app_assoc. done. }
  clear Hd acc arc d. induction IH as [|c cs Hc _ IHl]; intros acc; [exists []; by rewrite app_nil_r|].
  cbn [collect_list below_list]. destruct (is_dir (ci_data c)) eqn:Ed.
  - destruct (Hc acc eq_refl) as (l1 & E1 & P1). rewrite E1. cbn [mbind outcome_bind]. destruct (IHl (acc ++ l1)) as (l2 & E2 & P2).
    exists (l1 ++ l2). rewrite E2, <- app_assoc. split; [done|].
    assert (is_data c = false) as Hf by (unfold is_data; by rewrite Ed). rewrite !filter_cons_False by (by rewrite Hf).
    rewrite filter_app, <- P1, <- P2. by rewrite Permutation_app_swap_app.
  - destruct (IHl acc) as (l2 & E2 & P2). exists l2. split; [done|]. rewrite (below_eq c), Ed. cbn [app].
    rewrite !filter_cons. case_decide; [cbn [app]; by rewrite P2|exact P2].
Qed.

(** [collect_descendants_inodes] finds the files to prefetch: on a directory it adds, once
    each, exactly the inodes below it that are not directories and are not empty; on anything
    else it is [ENOTDIR] and adds nothing. *)
Theorem descendants_exact t acc :
  match collect_descendants t acc with
  | Ok r => is_dir (ci_data t) = true /\ exists l, r = acc ++ l /\ l ≡ₚ filter (fun c => is_data c = true) (below t)
  | Err e => is_dir (ci_data t) = false /\ e = ENOTDIR
  | Panic => False
  end.
Proof.
  destruct (is_dir (ci_data t)) eqn:Ed.
  - destruct (collect_descendants_spec t acc Ed) as (l & E & Hp). rewrite E. eauto.
  - rewrite collect_eq, Ed. done.
Qed.

(** ** Digest trees *)

Section digest_spec.
Context (hash : DigestAlgorithm -> list Z -> Z) (alg : DigestAlgorithm).

(** Only these kinds of inode are validated below a directory. *)
Definition validated (t : CachedInodeV5) : bool := is_reg (ci_data t) || is_symlink (ci_data t) || is_dir (ci_data t).

Definition used_children (t : CachedInodeV5) : list CachedInodeV5 := take (Z.to_nat (get_child_count t)) (i_child t).

(** The bytes the digest of an inode is taken of. *)
Definition payload (t : CachedInodeV5) : list Z :=
  if is_symlink (ci_data t) then i_target (ci_data t)
  else if is_reg (ci_data t) then digest_chunks (take (Z.to_nat (get_child_count t)) (i_data (ci_data t)))
  else if is_dir (ci_data t) then concat ((fun c => digest_bytes (i_digest (ci_data c))) <$> used_children t)
  else [].

(** Nothing is missing: as many chunks or children as announced. *)
Definition complete (t : CachedInodeV5) : Prop :=
  (is_reg (ci_data t) = true -> get_child_count t <= zlen (i_data (ci_data t))) /\
  (is_dir (ci_data t) = true -> get_child_count t <= zlen (i_child t)).

(** A tree of valid digests. *)
Inductive digests_ok : CachedInodeV5 -> Prop :=
| digests_ok_intro t : complete t -> i_digest (ci_data t) = hash alg (payload t) ->
    (is_dir (ci_data t) = true -> Forall (fun c => validated c = true -> digests_ok c) (used_children t)) -> digests_ok t.

Definition validate_list (digest : Z) (recursive : bool) : nat -> list CachedInodeV5 -> list Z -> io bool :=
  fix go (count : nat) (l : list CachedInodeV5) (data : list Z) {struct l} : io bool :=
    match count, l with
    | O, _ => Ok (digest =? hash alg data)
    | Datatypes.S _, [] => Err EINVAL
    | Datatypes.S count, child :: l =>
        ok ← (if is_reg (ci_data child) || is_symlink (ci_data child) || (recursive && is_dir (ci_data child))
              then rafsv5_validate_inode hash recursive alg child else Ok true);
        if ok : bool then go count l (data ++ digest_bytes (i_digest (ci_data child))) else Ok false
    end.

Lemma validate_eq recursive t : rafsv5_validate_inode hash recursive alg t =
  let finish data := Ok (i_digest (ci_data t) =? hash alg data) in
  if is_symlink (ci_data t) then finish (i_target (ci_data t))
  else if is_reg (ci_data t) then
    if zlen (i_data (ci_data t)) <? get_child_count t then Err EINVAL
    else finish (digest_chunks (take (Z.to_nat (get_child_count t)) (i_data (ci_data t))))
  else if is_dir (ci_data t) then validate_list (i_digest (ci_data t)) recursive (Z.to_nat (get_child_count t)) (i_child t) []
  else finish [].
Proof. destruct t. reflexivity. Qed.

Lemma validate_list_true digest count l data : validate_list digest true count l data = Ok true <->
  (count <= length l)%nat /\ Forall (fun c => validated c = true -> rafsv5_validate_inode hash true alg c = Ok true) (take count l) /\
  digest = hash alg (data ++ concat ((fun c => digest_bytes (i_digest (ci_data c))) <$> take count l)).
Proof.
  revert l data. induction count as [|count IH]; intros l data.
  { replace (validate_list digest true 0 l data) with (@Ok errno _ (digest =? hash alg data)) by (by destruct l). cbn. rewrite app_nil_r. split; [intros [=E%Z.eqb_eq]|intros (_ & _ & ->); by rewrite Z.eqb_refl]. split_and!; [lia|constructor|done]. }
  destruct l as [|c l]; [split; [done|cbn; lia]|]. cbn [validate_list]. fold (validate_list digest true). cbn [length]. rewrite firstn_cons, fmap_cons, concat_cons, Forall_cons, andb_true_l.
  fold (validated c). destruct (validated c) eqn:Ev.
  - destruct (rafsv5_validate_inode hash true alg c) as [[]| |] eqn:Ec; cbn [mbind outcome_bind].
    + rewrite IH, <- app_assoc. split.
      * intros (H1 & H2 & H3). split; [lia|]. split; [|exact H3]. by split.
      * intros (H1 & [_ H2] & H3). split; [lia|]. by split.
    + split; [done|]. intros (_ & [Hx _] & _). by specialize (Hx eq_refl).
    + split; [done|]. intros (_ & [Hx _] & _). by specialize (Hx eq_refl).
    + split; [done|]. intros (_ & [Hx _] & _). by specialize (Hx eq_refl).
  - cbn [mbind outcome_bind]. rewrite IH, <- app_assoc. split.
      * intros (H1 & H2 & H3). split; [lia|]. split; [|exact H3]. by split.
      * intros (H1 & [_ H2] & H3). split; [lia|]. by split.
Qed.

Lemma mode_exclusive k1 k2 t : k1 <> k2 -> mode_is k1 (i_mode (ci_data t)) = true -> mode_is k2 (i_mode (ci_data t)) = false.
Proof. unfold mode_is. intros Hne E%Z.eqb_eq. apply Z.eqb_neq. congruence. Qed.

Lemma validate_ok_iff t : rafsv5_validate_inode hash true alg t = Ok true <-> digests_ok t.
Proof.
  induction t as [arc d children IH] using CachedInodeV5_tree_ind. set (t := mkCached arc d children).
  assert (Forall (fun c => validated c = true -> rafsv5_validate_inode hash true alg c = Ok true) (used_children t) <->
          Forall (fun c => validated c = true -> digests_ok c) (used_children t)) as Hch.
  { rewrite Forall_forall in IH. rewrite !Forall_forall.
    split; intros Hx c Hc Hv; (apply IH; [|by apply Hx]);
      apply elem_of_take in Hc as (i & Hi & _); by eapply list_elem_of_lookup_2. }
  rewrite validate_eq. cbv zeta.
  assert (digests_ok t <-> complete t /\ i_digest d = hash alg (payload t) /\
    (is_dir d = true -> Forall (fun c => validated c = true -> digests_ok c) (used_children t))) as ->.
  { split; [by inversion 1|]. intros (H1 & H2 & H3). by constructor. }
  rewrite <- Hch. unfold complete, payload, is_symlink, is_reg, is_dir. change (ci_data t) with d.
  destruct (mode_is S_IFLNK (i_mode d)) eqn:El.
  { rewrite !(mode_exclusive S_IFLNK _ t) by done. split; [intros [=E%Z.eqb_eq]; by split_and!|intros (_ & -> & _); by rewrite Z.eqb_refl]. }
  destruct (mode_is S_IFREG (i_mode d)) eqn:Er.
  { rewrite !(mode_exclusive S_IFREG _ t) by done. destruct (Z.ltb_spec (zlen (i_data d)) (get_child_count t)) as [Hlt|Hge].
    - split; [done|]. intros ([Hc _] & _). specialize (Hc eq_refl). lia.
    - split; [intros [=E%Z.eqb_eq]; by split_and!|intros (_ & -> & _); by rewrite Z.eqb_refl]. }
  destruct (mode_is S_IFDIR (i_mode d)) eqn:Ed.
  - rewrite validate_list_true. cbn [app]. unfold used_children, zlen. change (i_child t) with children. split.
    + intros (H1 & H2 & H3). split; [split; [done|lia]|]. by split.
    + intros ([_ H1] & H2 & H3). specialize (H1 eq_refl). split; [lia|]. split; [by apply H3|done].
  - split; [intros [=E%Z.eqb_eq]; by split_and!|intros (_ & -> & _); by rewrite Z.eqb_refl].
Qed.

(** Two trees with the same data: equal symlink targets and chunk digests, and directories whose
    children agree pairwise. The kind of an inode is not part of a digest, so inodes of
    different kinds only have the bytes in common. *)
Inductive same_data : CachedInodeV5 -> CachedInodeV5 -> Prop :=
| same_leaf t1 t2 : is_dir (ci_data t1) && is_dir (ci_data t2) = false -> payload t1 = payload t2 -> same_data t1 t2
| same_dir t1 t2 : is_dir (ci_data t1) = true -> is_dir (ci_data t2) = true ->
    Forall2 (fun c1 c2 => digest_bytes (i_digest (ci_data c1)) = digest_bytes (i_digest (ci_data c2)) /\
                          (validated c1 = true -> validated c2 = true -> same_data c1 c2)) (used_children t1) (used_children t2) ->
    same_data t1 t2.

(** A collision of the hash between inodes of two trees. *)
Definition collision (t1 t2 : CachedInodeV5) : Prop :=
  exists u1 u2, u1 ∈ t1 :: below t1 /\ u2 ∈ t2 :: below t2 /\ payload u1 <> payload u2 /\ hash alg (payload u1) = hash alg (payload u2).

Lemma below_child t c u : is_dir (ci_data t) = true -> c ∈ used_children t -> u ∈ c :: below c -> u ∈ t :: below t.
Proof.
  intros Hd Hc Hu. rewrite below_eq, Hd. apply elem_of_cons. right.
  apply elem_of_take in Hc as (i & Hi & _). apply list_elem_of_lookup_2 in Hi. induction (i_child t) as [|d l IH]; [by apply elem_of_nil in Hi|].
  cbn [below_list]. apply elem_of_cons in Hi as [->|Hi]; rewrite app_comm_cons, elem_of_app; [by left|right; by apply IH].
Qed.

Hypothesis hash_range : forall data, in_range 256 (hash alg data).

Lemma digest_bytes_inj a b : in_range 256 a -> in_range 256 b -> digest_bytes a = digest_bytes b -> a = b.
Proof.
  intros Ha Hb E. rewrite <- (le_num_bytes 32 a), <- (le_num_bytes 32 b); [by f_equal| |]; exact Ha || exact Hb.
Qed.

Lemma concat_digests l1 l2 :
  concat ((fun c => digest_bytes (i_digest (ci_data c))) <$> l1) = concat ((fun c => digest_bytes (i_digest (ci_data c))) <$> l2) ->
  Forall2 (fun c1 c2 => digest_bytes (i_digest (ci_data c1)) = digest_bytes (i_digest (ci_data c2))) l1 l2.
Proof.
  revert l2. induction l1 as [|c1 l1 IH]; intros [|c2 l2]; [constructor|..]; rewrite ?fmap_cons, ?concat_cons; intros E.
  - apply (f_equal length) in E. rewrite length_app in E. unfold digest_bytes in E. rewrite length_le_bytes in E. cbn in E. lia.
  - apply (f_equal length) in E. rewrite length_app in E. unfold digest_bytes in E. rewrite length_le_bytes in E. cbn in E. lia.
  - apply app_inj_1 in E as [E1 E2]; [|unfold digest_bytes; by rewrite !length_le_bytes]. constructor; [done|by apply IH].
Qed.

Lemma digests_ok_digest t : digests_ok t -> i_digest (ci_data t) = hash alg (payload t).
Proof. by destruct 1. Qed.

Lemma digests_ok_children t : digests_ok t -> is_dir (ci_data t) = true ->
  Forall (fun c => validated c = true -> digests_ok c) (used_children t).
Proof. by destruct 1. Qed.

Lemma payload_dir t : is_dir (ci_data t) = true ->
  payload t = concat ((fun c => digest_bytes (i_digest (ci_data c))) <$> used_children t).
Proof.
  intros Hd. unfold payload, is_symlink, is_reg. rewrite !(mode_exclusive S_IFDIR _ t) by done. by rewrite Hd.
Qed.

Lemma children_binding t1 t2 l1 l2 : is_dir (ci_data t1) = true -> is_dir (ci_data t2) = true ->
  Forall (fun c1 => c1 ∈ used_children t1 /\ (validated c1 = true -> digests_ok c1) /\
    forall c2, digests_ok c1 -> digests_ok c2 -> i_digest (ci_data c1) = i_digest (ci_data c2) -> collision c1 c2 \/ same_data c1 c2) l1 ->
  Forall (fun c2 => c2 ∈ used_children t2 /\ (validated c2 = true -> digests_ok c2)) l2 ->
  Forall2 (fun c1 c2 => digest_bytes (i_digest (ci_data c1)) = digest_bytes (i_digest (ci_data c2))) l1 l2 ->
  collision t1 t2 \/
  Forall2 (fun c1 c2 => digest_bytes (i_digest (ci_data c1)) = digest_bytes (i_digest (ci_data c2)) /\
    (validated c1 = true -> validated c2 = true -> same_data c1 c2)) l1 l2.
Proof.
  intros Hd1 Hd2 H1 H2 Hl. induction Hl as [|c1 c2 l1 l2 Hb _ IH]; [right; constructor|].
  apply Forall_cons in H1 as [(Hc1 & Hok1 & Hih) H1]. apply Forall_cons in H2 as [[Hc2 Hok2] H2].
  destruct (IH H1 H2) as [Hcol|Hrest]; [by left|].
  destruct (validated c1) eqn:E1; [destruct (validated c2) eqn:E2|]; [|right; (constructor; [split; [exact Hb|intros; congruence]|done]).. ].
  specialize (Hok1 eq_refl). specialize (Hok2 eq_refl).
  assert (i_digest (ci_data c1) = i_digest (ci_data c2)) as Hd.
  { apply digest_bytes_inj; [| |done]; rewrite digests_ok_digest by done; apply hash_range. }
  destruct (Hih c2 Hok1 Hok2 Hd) as [(u1 & u2 & Hu1 & Hu2 & Hc)|Hs]; [|right; constructor; [by split|done]].
  left. exists u1, u2. split; [by apply (below_child t1 c1)|]. split; [by apply (below_child t2 c2)|done].
Qed.

Lemma binding t1 t2 : digests_ok t1 -> digests_ok t2 -> i_digest (ci_data t1) = i_digest (ci_data t2) ->
  collision t1 t2 \/ same_data t1 t2.
Proof.
  revert t2. induction t1 as [arc d children IH] using CachedInodeV5_tree_ind. set (t1 := mkCached arc d children).
  intros t2 H1 H2 Heq. pose proof (digests_ok_digest _ H1) as D1. pose proof (digests_ok_digest _ H2) as D2.
  destruct (decide (payload t1 = payload t2)) as [Hp|Hp].
  2:{ left. exists t1, t2. split_and!; [by left|by left|done|congruence]. }
  destruct (is_dir (ci_data t1) && is_dir (ci_data t2)) eqn:Ed; [|right; by apply same_leaf].
  apply andb_true_iff in Ed as [Ed1 Ed2]. rewrite !payload_dir in Hp by done. apply concat_digests in Hp.
  destruct (children_binding t1 t2 (used_children t1) (used_children t2)) as [Hcol|Hch]; [done|done| | |done|by left|right; by apply same_dir].
  - pose proof (digests_ok_children _ H1 Ed1) as Hk. rewrite Forall_forall in IH, Hk |- *. intros c Hc. split; [done|]. split; [by apply Hk|].
    apply IH. apply elem_of_take in Hc as (i & Hi & _). by eapply list_elem_of_lookup_2.
  - pose proof (digests_ok_children _ H2 Ed2) as Hk. rewrite Forall_forall in Hk |- *. intros c Hc. split; [done|by apply Hk].
Qed.
End digest_spec.


(** ** Witnesses *)

Definition sample_inode (ino parent mode child_cnt digest size : Z) (name : string) (target : list Z) : InodeData :=
  mkInodeData ino (bytes_of_string name) digest parent mode 0 0 0 0 size 0 1 9 child_cnt 0x1000 0 0 0 target ∅ [].

Definition sample_link (arc : nat) (ino digest : Z) (name : string) : CachedInodeV5 :=
  mkCached arc (sample_inode ino 1 0xa1ff 0 digest 3 name [7; 8; 9]) [].

Definition sample_dir (digest : Z) : CachedInodeV5 := mkCached 0 (sample_inode 1 0 0x41ed 2 digest 0 "/" []) [].

Lemma dir_lookup_exact_witness :
  let d := foldl (fun d c => add_child c d) (sample_dir 0) [sample_link 1 2 0 "b"; sample_link 2 3 0 "a"] in
  get_child_by_name d (bytes_of_string "a") = Ok (sample_link 2 3 0 "a") /\ get_child_by_name d (bytes_of_string "c") = Err ENOENT.
Proof.
  destruct (dir_lookup_exact (sample_dir 0) [sample_link 1 2 0 "b"; sample_link 2 3 0 "a"]) as (_ & H1 & H2).
  - reflexivity.
  - reflexivity.
  - apply (bool_decide_unpack _). vm_compute. exact I.
  - split; [apply (H1 (sample_link 2 3 0 "a")); right; left|]. apply H2. apply (bool_decide_unpack _). vm_compute. exact I.
Defined.

Lemma readdir_pages_witness :
  let d := foldl (fun d c => add_child c d) (sample_dir 0) [sample_link 1 2 0 "b"; sample_link 2 3 0 "a"] in
  walk_children_inodes (readdir_page 2) d 1 [] = (Ok tt, [(DOTDOT, 1, 2); (bytes_of_string "a", 3, 3)]).
Proof.
  intros d. rewrite (readdir_pages d 1 2); [reflexivity|reflexivity|reflexivity|discriminate].
Defined.

(** A hash that only counts. *)
Definition sample_hash (_ : DigestAlgorithm) (data : list Z) : Z := wrap 256 (zlen data).

Definition sample_tree : CachedInodeV5 :=
  foldl (fun d c => add_child c d) (sample_dir 64) [sample_link 1 2 3 "b"; sample_link 2 3 3 "a"].

