(* ===== verification/CachedSuper.v ===== *)
(** The cached RAFS v5 super block ([rafs/src/metadata/cached_v5.rs], [CachedSuperBlockV5];
    [RafsSuperMeta] of [rafs/src/metadata/mod.rs]).

    All inodes are read in the order of the bootstrap, parents before children. A file joins its
    parent at once; directories join theirs at the end and in reverse order, because [Arc::get_mut]
    panics once an inode is shared. The theorem shows that loading the bootstrap of an image never
    panics and builds the tree the builder dumped: every directory finds exactly its children. *)
From stdpp Require Import sorting.
From S2P Require Import Prelude Utils LittleEndian ChunkInfo Device RafsLayout RafsV5 RafsBlobTable RafsV5Inode CachedInode CachedDir.

(** ** Meta data *)

Record RafsSuperMeta := mkSuperMeta {
  sm_magic : Z;
  sm_version : Z;
  sm_sb_size : Z;
  sm_root_inode : Z;
  sm_chunk_size : Z;
  sm_inodes_count : Z;
  sm_flags : Z;
  sm_inode_table_entries : Z;
  sm_inode_table_offset : Z;
  sm_blob_table_size : Z;
  sm_blob_table_offset : Z;
  sm_extended_blob_table_offset : Z;
  sm_extended_blob_table_entries : Z;
  sm_prefetch_table_offset : Z;
  sm_prefetch_table_entries : Z;
  sm_attr_timeout : Z;
  sm_entry_timeout : Z;
  sm_is_chunk_dict : bool;
  sm_meta_blkaddr : Z;
  sm_root_nid : Z;
  sm_chunk_table_offset : Z;
  sm_chunk_table_size : Z
}.

Definition meta_is_v5 (m : RafsSuperMeta) : bool := sm_version m =? RAFS_SUPER_VERSION_V5.
Definition meta_is_v6 (m : RafsSuperMeta) : bool := sm_version m =? RAFS_SUPER_VERSION_V6.

Definition meta_explicit_uidgid (m : RafsSuperMeta) : bool := flags_contain (sm_flags m) EXPLICIT_UID_GID.
Definition meta_has_xattr (m : RafsSuperMeta) : bool := flags_contain (sm_flags m) HAS_XATTR.

Definition get_compressor (m : RafsSuperMeta) : CompressAlgorithm :=
  if meta_is_v5 m || meta_is_v6 m then flags_compressor (sm_flags m) else CNone.
Definition get_digester (m : RafsSuperMeta) : DigestAlgorithm :=
  if meta_is_v5 m || meta_is_v6 m then flags_digester (sm_flags m) else Blake3.

(** ** Super block *)

Record CachedSuperBlockV5 := mkCachedSuper {
  s_blob : RafsV5BlobTable;
  s_meta : RafsSuperMeta;
  s_inodes : gmap Z CachedInodeV5;
  s_max_inode : Z;
  s_validate_inode : bool
}.

Definition CachedSuperBlockV5_new (meta : RafsSuperMeta) (validate_inode : bool) : CachedSuperBlockV5 :=
  mkCachedSuper BlobTable_new meta ∅ RAFS_V5_ROOT_INODE validate_inode.

Definition with_inodes (f : gmap Z CachedInodeV5 -> gmap Z CachedInodeV5) (self : CachedSuperBlockV5) : CachedSuperBlockV5 :=
  mkCachedSuper (s_blob self) (s_meta self) (f (s_inodes self)) (s_max_inode self) (s_validate_inode self).

Definition get_node (self : CachedSuperBlockV5) (ino : Z) : io CachedInodeV5 := ok_or (s_inodes self !! ino) ENOENT.

(** [hash_inode] returns the inode it was given. *)
Definition hash_inode (inode : CachedInodeV5) (self : CachedSuperBlockV5) : CachedSuperBlockV5 :=
  let ino := i_ino (ci_data inode) in
  let self := mkCachedSuper (s_blob self) (s_meta self) (s_inodes self)
                (if s_max_inode self <? ino then ino else s_max_inode self) (s_validate_inode self) in
  let keep := is_hardlink (ci_data inode) &&
              match s_inodes self !! ino with Some i => negb (zlen (i_data (ci_data i)) =? 0) | None => false end in
  if keep then self else with_inodes <[ino := inode]> self.

(** The allocations a tree keeps alive. *)
Fixpoint arcs (t : CachedInodeV5) : list nat :=
  ci_arc t :: (fix go (l : list CachedInodeV5) : list nat := match l with [] => [] | c :: l => arcs c ++ go l end) (i_child t).
Definition child_arcs (t : CachedInodeV5) : list nat := concat (arcs <$> i_child t).

(** An inode of the map is also held by a parent in the map, or by the inode being added. *)
Definition arc_shared (arc : nat) (child : CachedInodeV5) (self : CachedSuperBlockV5) : bool :=
  existsb (Nat.eqb arc) (arcs child) ||
  existsb (fun kt => existsb (Nat.eqb arc) (child_arcs kt.2)) (map_to_list (s_inodes self)).

(** [Arc::get_mut(parent).unwrap()] panics when the parent is shared. *)
Definition add_into_parent (child : CachedInodeV5) (self : CachedSuperBlockV5) : io CachedSuperBlockV5 :=
  let parent := i_parent (ci_data child) in
  match s_inodes self !! parent with
  | None => Ok self
  | Some p => if arc_shared (ci_arc p) child self then Panic else Ok (with_inodes <[parent := add_child child p]> self)
  end.

Section load.
Context `{Profile}.

(** The loop over the inode table; [arc] numbers the allocations. *)
Fixpoint load_inodes (n arc : nat) (self : CachedSuperBlockV5) (dir_ino_set : list Z)
    : stM (list Z) errno (CachedSuperBlockV5 * list Z) := fun r =>
  match n with
  | O => (Ok (self, dir_ino_set), r)
  | S n =>
      match ci_load (sm_chunk_size (s_meta self)) r with
      | (Ok data, r) =>
          let inode := mkCached arc data [] in
          let self := hash_inode inode self in
          if is_dir data then load_inodes n (S arc) self (dir_ino_set ++ [i_ino data]) r
          else match add_into_parent inode self with
               | Ok self => load_inodes n (S arc) self dir_ino_set r
               | Err e => (Err e, r)
               | Panic => (Panic, r)
               end
      | (Err UnexpectedEof, r) => (Ok (self, dir_ino_set), r)
      | (Err e, r) => (Err e, r)
      | (Panic, r) => (Panic, r)
      end
  end.

Fixpoint add_dirs (inos : list Z) (self : CachedSuperBlockV5) : io CachedSuperBlockV5 :=
  match inos with
  | [] => Ok self
  | ino :: inos => child ← get_node self ino; self ← add_into_parent child self; add_dirs inos self
  end.

Definition load_all_inodes (self : CachedSuperBlockV5) : stM (list Z) errno CachedSuperBlockV5 :=
  '(self, dir_ino_set) ← load_inodes (Z.to_nat (sm_inode_table_entries (s_meta self))) 0 self [];
  st_lift (add_dirs (rev dir_ino_set) self).

Definition cs_get_inode (self : CachedSuperBlockV5) (ino : Z) : io CachedInodeV5 := ok_or (s_inodes self !! ino) ENOENT.

Definition cs_get_max_ino (self : CachedSuperBlockV5) : Z := s_max_inode self.

Definition cs_destroy (self : CachedSuperBlockV5) : CachedSuperBlockV5 := with_inodes (fun _ => ∅) self.

(** [RafsSuperBlock::load] on the bytes of the bootstrap; a seek positions the reader. *)
Definition cs_load (hash : DigestAlgorithm -> list Z -> Z) (self : CachedSuperBlockV5) (file : list Z) : io CachedSuperBlockV5 :=
  let meta := s_meta self in
  b ← (read_exact 4 (drop (Z.to_nat (sm_inode_table_offset meta)) file)).1;
  let inode_offset := wrap 32 (Z.shiftl (get_le 0 4 b) 3) in
  extended ← (if 0 <? sm_extended_blob_table_offset meta then
                (ExtBlobTable_load (Z.to_nat (sm_extended_blob_table_entries meta))
                   (drop (Z.to_nat (sm_extended_blob_table_offset meta)) file)).1
              else Ok []);
  blob_table ← (BlobTable_load (sm_blob_table_size meta) (sm_chunk_size meta) (sm_flags meta) (mkBlobTable [] extended)
                  (drop (Z.to_nat (sm_blob_table_offset meta)) file)).1;
  let self := mkCachedSuper blob_table meta (s_inodes self) (s_max_inode self) (s_validate_inode self) in
  self ← (load_all_inodes self (drop (Z.to_nat inode_offset) file)).1;
  inode ← cs_get_inode self RAFS_V5_ROOT_INODE;
  valid ← (if s_validate_inode self then rafsv5_validate_inode hash true (get_digester meta) inode else Ok true);
  if valid : bool then Ok self else Err EINVAL.

End load.

(** ** Loading an image *)

(** The inodes of an image in the order of the bootstrap: directories have inode numbers of
    their own (files may share one, as hard links), and every inode but the root comes after the
    directory it is in. *)
Definition tree_order (l : list InodeData) : Prop :=
  (forall i j d n, l !! i = Some d -> l !! j = Some n -> is_dir d = true -> i_ino d = i_ino n -> i = j) /\
  (forall i n, l !! i = Some n -> i_ino n <> 0 /\
     (i_parent n = 0 \/ exists j p, (j < i)%nat /\ l !! j = Some p /\ is_dir p = true /\ i_ino p = i_parent n)).

(** Directories announce the number of their children, whose names are distinct. *)
Definition children_of (ino : Z) (l : list InodeData) : list InodeData := filter (fun n => i_parent n = ino) l.

Definition image_ok (l : list InodeData) : Prop :=
  tree_order l /\ forall d, d ∈ l -> is_dir d = true ->
    i_child_cnt d = zlen (children_of (i_ino d) l) /\ NoDup (i_name <$> children_of (i_ino d) l).

Definition files_of (ino : Z) (l : list InodeData) : list InodeData := filter (fun n => i_parent n = ino /\ is_dir n = false) l.
Definition dirs_of (ino : Z) (l : list InodeData) : list InodeData := filter (fun n => i_parent n = ino /\ is_dir n = true) l.

Definition grown (arc : nat) (d : InodeData) (adds : list CachedInodeV5) : CachedInodeV5 :=
  foldl (fun t c => add_child c t) (mkCached arc d []) adds.

Lemma grown_snoc arc d adds c : add_child c (grown arc d adds) = grown arc d (adds ++ [c]).
Proof. unfold grown. by rewrite foldl_app. Qed.

Lemma grown_data arc d adds : ci_data (grown arc d adds) = d.
Proof. apply (add_children_data (mkCached arc d [])). Qed.

Lemma grown_arc arc d adds : ci_arc (grown arc d adds) = arc.
Proof. unfold grown. induction adds as [|c adds IH] using rev_ind; [done|]. by rewrite foldl_app. Qed.

Lemma grown_child arc d adds : i_child (grown arc d adds) ≡ₚ adds.
Proof. apply (add_children_perm (mkCached arc d [])). Qed.

Lemma arcs_eq t : arcs t = ci_arc t :: child_arcs t.
Proof.
  destruct t as [arc d l]. unfold child_arcs. cbn [arcs ci_arc i_child]. f_equal. induction l as [|c l IH]; [done|].
  rewrite fmap_cons, concat_cons, <- IH. done.
Qed.

Lemma child_arcs_grown arc d adds a : a ∈ child_arcs (grown arc d adds) <-> a ∈ concat (arcs <$> adds).
Proof. unfold child_arcs. by rewrite (grown_child arc d adds). Qed.

Lemma existsb_nat a l : existsb (Nat.eqb a) l = true <-> a ∈ l.
Proof.
  rewrite existsb_exists. split; [intros (x & Hx & ->%Nat.eqb_eq); by apply list_elem_of_In|].
  intros Ha. exists a. split; [by apply list_elem_of_In|apply Nat.eqb_refl].
Qed.

Lemma arc_shared_false arc child self : arc ∉ arcs child ->
  (forall k t, s_inodes self !! k = Some t -> arc ∉ child_arcs t) -> arc_shared arc child self = false.
Proof.
  intros H1 H2. unfold arc_shared. apply orb_false_iff. split; [by apply not_true_is_false; rewrite existsb_nat|].
  apply not_true_is_false. rewrite existsb_exists. intros ([k t] & Hin & Ha%existsb_nat).
  apply list_elem_of_In, elem_of_map_to_list in Hin. by apply (H2 k t).
Qed.

Lemma elem_of_concat_arcs a (l : list CachedInodeV5) : a ∈ concat (arcs <$> l) <-> exists c, c ∈ l /\ a ∈ arcs c.
Proof.
  induction l as [|c l IH]; [split; [by intros ?%elem_of_nil|by intros (c & ?%elem_of_nil & _)]|].
  rewrite fmap_cons, concat_cons, elem_of_app, IH. split.
  - intros [Ha|(c' & Hc & Ha)]; [exists c; split; [by left|done]|exists c'; split; [by right|done]].
  - intros (c' & [->|Hc]%elem_of_cons & Ha); [by left|right; eauto].
Qed.

Section image.
Context (l : list InodeData) (Hord : tree_order l).

Lemma dir_unique i j d n : l !! i = Some d -> l !! j = Some n -> is_dir d = true -> i_ino d = i_ino n -> i = j.
Proof. apply Hord. Qed.

(** *** The loop over the inodes *)

Fixpoint add_nodes (nodes : list InodeData) (arc : nat) (self : CachedSuperBlockV5) (dirs : list Z)
    : io (CachedSuperBlockV5 * list Z) :=
  match nodes with
  | [] => Ok (self, dirs)
  | n :: nodes =>
      let inode := mkCached arc n [] in
      let self := hash_inode inode self in
      if is_dir n then add_nodes nodes (S arc) self (dirs ++ [i_ino n])
      else self ← add_into_parent inode self; add_nodes nodes (S arc) self dirs
  end.

(** After the inodes of [pre] were hashed and those of [added] joined their parents: directories
    have the files of [added] that are in them, and only files are shared. *)
Definition loaded (added pre : list InodeData) (m : gmap Z CachedInodeV5) : Prop :=
  (forall i d, pre !! i = Some d -> is_dir d = true -> exists adds, m !! i_ino d = Some (grown i d adds) /\
     ci_data <$> adds = files_of (i_ino d) added) /\
  (forall k t, m !! k = Some t -> pre !! ci_arc t = Some (ci_data t) /\ i_ino (ci_data t) = k /\
     Forall (fun c => i_child c = [] /\ pre !! ci_arc c = Some (ci_data c) /\ is_dir (ci_data c) = false) (i_child t)) /\
  (forall n, n ∈ pre -> is_Some (m !! i_ino n)).

Lemma files_of_snoc ino pre n : files_of ino (pre ++ [n]) =
  files_of ino pre ++ (if decide (i_parent n = ino /\ is_dir n = false) then [n] else []).
Proof. unfold files_of. by rewrite filter_app. Qed.

Lemma prefix_lookup pre n suf i x : l = pre ++ n :: suf -> (pre ++ [n]) !! i = Some x -> l !! i = Some x.
Proof. intros -> Hx. rewrite cons_middle, app_assoc. by apply lookup_app_l_Some. Qed.

(** The children of a directory come after it. *)
Lemma no_files_before pre n suf : l = pre ++ n :: suf -> is_dir n = true -> files_of (i_ino n) pre = [].
Proof.
  intros El Hd. unfold files_of. destruct (filter _ pre) as [|f fs] eqn:E; [done|].
  assert (f ∈ filter (fun x => i_parent x = i_ino n /\ is_dir x = false) pre) as Hf by (rewrite E; by left).
  apply list_elem_of_filter in Hf as [[Hp _] Hf]. apply list_elem_of_lookup_1 in Hf as [i Hi].
  assert (l !! i = Some f) as Hi' by (rewrite El; by apply lookup_app_l_Some).
  assert (l !! length pre = Some n) as Hn by (rewrite El; by apply list_lookup_middle).
  destruct Hord as [_ H2]. destruct (H2 i f Hi') as [_ [H0|(j & p & Hj & Hjp & Hpd & Hpi)]].
  - destruct (H2 _ _ Hn) as [Hn0 _]. congruence.
  - assert (length pre = j) by (apply (dir_unique (length pre) j n p); [done|done|done|congruence]).
    apply lookup_lt_Some in Hi. lia.
Qed.

Lemma loaded_hash pre n suf m : l = pre ++ n :: suf -> loaded pre pre (s_inodes m) ->
  loaded pre (pre ++ [n]) (s_inodes (hash_inode (mkCached (length pre) n []) m)).
Proof.
  intros El (Ha & Hb & Hc).
  assert (forall k t, s_inodes m !! k = Some t -> (pre ++ [n]) !! ci_arc t = Some (ci_data t) /\ i_ino (ci_data t) = k /\
     Forall (fun c => i_child c = [] /\ (pre ++ [n]) !! ci_arc c = Some (ci_data c) /\ is_dir (ci_data c) = false) (i_child t)) as Hb'.
  { intros k t Ht. destruct (Hb k t Ht) as (H1 & H2 & H3). split; [by apply lookup_app_l_Some|]. split; [done|].
    eapply Forall_impl; [exact H3|]. intros c (C1 & C2 & C3). split; [done|]. split; [by apply lookup_app_l_Some|done]. }
  unfold hash_inode. cbn [ci_data]. set (keep := is_hardlink n && _). destruct keep eqn:Ek; cbn [with_inodes s_inodes].
  - unfold keep in Ek. apply andb_true_iff in Ek as [Eh Em]. apply andb_true_iff in Eh as [Ed _]. apply negb_true_iff in Ed.
    cbn [s_inodes] in Em. split; [|split; [exact Hb'|]].
    + intros i d Hi Hd. apply Ha; [|done]. apply lookup_app_Some in Hi as [Hi|[_ [_ <-]%list_lookup_singleton_Some]]; [done|congruence].
    + intros x [Hx|Hx]%elem_of_app; [by apply Hc|]. apply list_elem_of_singleton in Hx as ->.
      destruct (s_inodes m !! i_ino n); [done|discriminate].
  - split; [|split].
    + intros i d Hi Hd. assert (l !! i = Some d) as Hl by (by eapply prefix_lookup).
      apply lookup_app_Some in Hi as [Hi|[Hge Hi]].
      * rewrite lookup_insert_ne; [by apply Ha|]. intros Heq.
        assert (i = length pre) by (apply (dir_unique i (length pre) d n); [done|rewrite El; by apply list_lookup_middle|done|done]).
        apply lookup_lt_Some in Hi. lia.
      * apply list_lookup_singleton_Some in Hi as [Hz <-]. assert (i = length pre) as -> by lia.
        exists []. split; [by rewrite lookup_insert_eq|]. by rewrite (no_files_before pre n suf).
    + intros k t Ht. apply lookup_insert_Some in Ht as [[<- <-]|[_ Ht]]; [|by apply Hb'].
      cbn [ci_arc ci_data i_child]. split; [by apply list_lookup_middle|]. split; [done|constructor].
    + intros x [Hx|Hx]%elem_of_app.
      * destruct (decide (i_ino n = i_ino x)) as [<-|Hne]; [by rewrite lookup_insert_eq|rewrite lookup_insert_ne by done; by apply Hc].
      * apply list_elem_of_singleton in Hx as ->. by rewrite lookup_insert_eq.
Qed.

(** The parent of an inode that is not the root. *)
Lemma parent_dir i n : l !! i = Some n -> i_parent n <> 0 ->
  exists j p, (j < i)%nat /\ l !! j = Some p /\ is_dir p = true /\ i_ino p = i_parent n.
Proof. intros Hi Hp. destruct Hord as [_ H2]. destruct (H2 i n Hi) as [_ [H0|Hj]]; [done|exact Hj]. Qed.

Lemma ino_nonzero i n : l !! i = Some n -> i_ino n <> 0.
Proof. intros Hi. destruct Hord as [_ H2]. by destruct (H2 i n Hi). Qed.

Lemma loaded_add pre n suf m : l = pre ++ n :: suf -> is_dir n = false -> loaded pre (pre ++ [n]) (s_inodes m) ->
  exists f, add_into_parent (mkCached (length pre) n []) m = Ok (with_inodes f m) /\
    loaded (pre ++ [n]) (pre ++ [n]) (f (s_inodes m)).
Proof.
  intros El Hf (Ha & Hb & Hc). assert (l !! length pre = Some n) as Hn by (rewrite El; by apply list_lookup_middle).
  unfold add_into_parent. cbn [ci_data]. destruct (decide (i_parent n = 0)) as [E0|Hp0].
  { assert (s_inodes m !! i_parent n = None) as ->.
    { destruct (s_inodes m !! i_parent n) as [t|] eqn:Et; [|done]. destruct (Hb _ _ Et) as (H1 & H2 & _).
      eapply prefix_lookup in H1; [|exact El]. apply ino_nonzero in H1. congruence. }
    exists (fun m => m). split; [by destruct m|]. split; [|by split]. intros i d Hi Hd. rewrite files_of_snoc, decide_False.
    - rewrite app_nil_r. by apply Ha.
    - intros [Hp _]. eapply prefix_lookup in Hi; [|exact El]. apply ino_nonzero in Hi. congruence. }
  destruct (parent_dir _ _ Hn Hp0) as (j & p & Hj & Hjp & Hpd & Hpi).
  assert ((pre ++ [n]) !! j = Some p) as Hjp'.
  { rewrite El in Hjp. rewrite lookup_app_l in Hjp |- * by done. done. }
  destruct (Ha j p Hjp' Hpd) as (adds & Em & Ead). rewrite <- Hpi, Em, grown_arc.
  assert (forall k t, s_inodes m !! k = Some t -> j ∉ child_arcs t) as Hns.
  { intros k t Ht (c & Hcc & Hac)%elem_of_concat_arcs. destruct (Hb k t Ht) as (_ & _ & H3). rewrite Forall_forall in H3.
    destruct (H3 c Hcc) as (C1 & C2 & C3). rewrite arcs_eq in Hac. unfold child_arcs in Hac. rewrite C1 in Hac.
    apply list_elem_of_singleton in Hac as ->. congruence. }
  rewrite arc_shared_false; [| |done].
  2:{ rewrite arcs_eq. cbn. intros ->%list_elem_of_singleton. lia. }
  exists <[i_ino p := add_child (mkCached (length pre) n []) (grown j p adds)]>. split; [done|]. split; [|split].
  - intros i d Hi Hd. pose proof (prefix_lookup _ _ _ _ _ El Hi) as Hl. rewrite files_of_snoc. destruct (decide (i = j)) as [->|Hne].
    + assert (d = p) as -> by congruence. exists (adds ++ [mkCached (length pre) n []]). split; [by rewrite lookup_insert_eq, grown_snoc|].
      rewrite fmap_app, Ead, decide_True by done. done.
    + assert (i_ino d <> i_ino p) by (intros Heq; apply Hne; by apply (dir_unique i j d p)).
      rewrite lookup_insert_ne by done. rewrite decide_False, app_nil_r by (intros [Heq _]; congruence). by apply Ha.
  - intros k t Ht. apply lookup_insert_Some in Ht as [[<- <-]|[_ Ht]]; [|by apply Hb].
    destruct (Hb _ _ Em) as (H1 & H2 & H3). split; [exact H1|]. split; [exact H2|].
    rewrite grown_snoc, grown_child. rewrite grown_child in H3. apply Forall_app. split; [done|].
    apply Forall_singleton. split; [done|]. split; [by apply list_lookup_middle|done].
  - intros x Hx. destruct (decide (i_ino p = i_ino x)) as [<-|Hne]; [by rewrite lookup_insert_eq|].
    rewrite lookup_insert_ne by done. by apply Hc.
Qed.

Definition same_super (a b : CachedSuperBlockV5) : Prop :=
  s_blob a = s_blob b /\ s_meta a = s_meta b /\ s_validate_inode a = s_validate_inode b.

Lemma add_nodes_spec suf pre m dirs : l = pre ++ suf -> loaded pre pre (s_inodes m) ->
  exists m', add_nodes suf (length pre) m dirs = Ok (m', dirs ++ (i_ino <$> filter (fun n => is_dir n = true) suf)) /\
    loaded l l (s_inodes m') /\ same_super m' m.
Proof.
  revert pre m dirs. induction suf as [|n suf IH]; intros pre m dirs El Hld.
  { exists m. rewrite app_nil_r in El. rewrite <- El in Hld. cbn. by rewrite app_nil_r. }
  pose proof (loaded_hash pre n suf m El Hld) as Hh. cbn [add_nodes].
  assert (l = (pre ++ [n]) ++ suf) as El' by (by rewrite <- app_assoc).
  replace (S (length pre)) with (length (pre ++ [n])) by (rewrite length_app; cbn; lia).
  set (m1 := hash_inode _ m) in *. assert (same_super m1 m) as Hs1 by (unfold m1, hash_inode; by case_match).
  rewrite filter_cons. destruct (is_dir n) eqn:Ed.
  - rewrite decide_True by done. destruct (IH (pre ++ [n]) m1 (dirs ++ [i_ino n]) El') as (m' & E & Hl & Hs).
    { destruct Hh as (Ha & Hb & Hc). split; [|by split]. intros i d Hi Hd. rewrite files_of_snoc, decide_False, app_nil_r by (rewrite Ed; by intros [_ ?]).
      by apply Ha. }
    exists m'. rewrite E, fmap_cons, <- app_assoc. split; [done|]. split; [done|]. unfold same_super in *. intuition congruence.
  - rewrite decide_False by done. destruct (loaded_add pre n suf m1 El Ed Hh) as (f & Ef & Hf). rewrite Ef. cbn [mbind outcome_bind].
    destruct (IH (pre ++ [n]) (with_inodes f m1) dirs El' Hf) as (m' & E & Hl & Hs). exists m'. rewrite E.
    split; [done|]. split; [done|]. unfold same_super in *. cbn in Hs. intuition congruence.
Qed.

(** *** The loop over the directories *)

(** When the directories of [suf] joined their parents: directories have all their files and
    these directories, which are final; the directories of [pre] are not shared. *)
Definition joined (pre suf : list InodeData) (m : gmap Z CachedInodeV5) : Prop :=
  (forall i d, l !! i = Some d -> is_dir d = true -> exists adds, m !! i_ino d = Some (grown i d adds) /\
     ci_data <$> adds ≡ₚ files_of (i_ino d) l ++ dirs_of (i_ino d) suf /\
     Forall (fun c => is_dir (ci_data c) = true ->
       m !! i_ino (ci_data c) = Some c /\ l !! ci_arc c = Some (ci_data c) /\ (length pre <= ci_arc c)%nat) adds) /\
  (forall k t, m !! k = Some t -> l !! ci_arc t = Some (ci_data t) /\ i_ino (ci_data t) = k /\
     Forall (fun a => forall d, l !! a = Some d -> is_dir d = true -> (length pre <= a)%nat) (child_arcs t)) /\
  (forall n, n ∈ l -> is_Some (m !! i_ino n)).

Lemma loaded_joined m : loaded l l m -> joined l [] m.
Proof.
  intros (Ha & Hb & Hc). split; [|split; [|done]].
  - intros i d Hi Hd. destruct (Ha i d Hi Hd) as (adds & Em & Ead). exists adds. split; [done|].
    split; [by rewrite Ead, app_nil_r|]. rewrite Forall_forall. intros c Hcc Hcd.
    assert (ci_data c ∈ files_of (i_ino d) l) as Hin by (rewrite <- Ead; by apply list_elem_of_fmap_2).
    apply list_elem_of_filter in Hin as [[_ Hf] _]. congruence.
  - intros k t Ht. destruct (Hb k t Ht) as (H1 & H2 & H3). split; [done|]. split; [done|].
    rewrite Forall_forall in H3. rewrite Forall_forall. intros a (c & Hcc & Hac)%elem_of_concat_arcs d Had Hd.
    destruct (H3 c Hcc) as (C1 & C2 & C3). rewrite arcs_eq in Hac. unfold child_arcs in Hac. rewrite C1 in Hac.
    apply list_elem_of_singleton in Hac as ->. congruence.
Qed.

Lemma joined_file pre x suf m : is_dir x = false -> joined (pre ++ [x]) suf m -> joined pre (x :: suf) m.
Proof.
  intros Hx (Ha & Hb & Hc). rewrite length_app in Ha, Hb. split; [|split; [|done]].
  - intros i d Hi Hd. destruct (Ha i d Hi Hd) as (adds & Em & Ead & Hall). exists adds. split; [done|].
    split; [unfold dirs_of; rewrite filter_cons_False by (rewrite Hx; by intros [_ ?]); exact Ead|].
    eapply Forall_impl; [exact Hall|]. cbn. intros c Hcc Hcd. destruct (Hcc Hcd) as (C1 & C2 & C3). split; [done|]. split; [done|lia].
  - intros k t Ht. destruct (Hb k t Ht) as (H1 & H2 & H3). split; [done|]. split; [done|].
    eapply Forall_impl; [exact H3|]. cbn. intros a Hax d Had Hd. specialize (Hax d Had Hd). lia.
Qed.

Lemma dirs_of_cons ino x suf : is_dir x = true -> dirs_of ino (x :: suf) = (if decide (i_parent x = ino) then [x] else []) ++ dirs_of ino suf.
Proof.
  intros Hx. unfold dirs_of. rewrite filter_cons. case_decide as H1; case_decide as H2; [done|by destruct H1|by destruct H1|done].
Qed.

Lemma joined_dir pre x suf m : l = pre ++ x :: suf -> is_dir x = true -> joined (pre ++ [x]) suf (s_inodes m) ->
  exists c f, get_node m (i_ino x) = Ok c /\ add_into_parent c m = Ok (with_inodes f m) /\ joined pre (x :: suf) (f (s_inodes m)).
Proof.
  intros El Hx (Ha & Hb & Hc). assert (l !! length pre = Some x) as Hxl by (rewrite El; by apply list_lookup_middle).
  destruct (Ha _ _ Hxl Hx) as (xadds & Ex & _ & _). set (c := grown (length pre) x xadds) in *.
  assert (ci_data c = x) as Dc by apply grown_data. assert (ci_arc c = length pre) as Ac by apply grown_arc.
  exists c. unfold get_node, add_into_parent. rewrite Ex, Dc. rewrite length_app in Ha, Hb. cbn [length] in Ha, Hb.
  destruct (decide (i_parent x = 0)) as [E0|Hp0].
  { assert (s_inodes m !! i_parent x = None) as ->.
    { destruct (s_inodes m !! i_parent x) as [t|] eqn:Et; [|done]. destruct (Hb _ _ Et) as (H1 & H2 & _). apply ino_nonzero in H1. congruence. }
    exists (fun m => m). split; [done|]. split; [by destruct m|]. split; [|split; [|done]].
    - intros i d Hi Hd. destruct (Ha i d Hi Hd) as (adds & Em & Ead & Hall). exists adds. split; [done|].
      rewrite dirs_of_cons, decide_False by (done || (apply ino_nonzero in Hi; congruence)). split; [exact Ead|].
      eapply Forall_impl; [exact Hall|]. cbn. intros c' Hcc Hcd. destruct (Hcc Hcd) as (C1 & C2 & C3). split; [done|]. split; [done|lia].
    - intros k t Ht. destruct (Hb k t Ht) as (H1 & H2 & H3). split; [done|]. split; [done|].
      eapply Forall_impl; [exact H3|]. cbn. intros a Hax d Had Hd. specialize (Hax d Had Hd). lia. }
  destruct (parent_dir _ _ Hxl Hp0) as (j & p & Hj & Hjp & Hpd & Hpi).
  destruct (Ha j p Hjp Hpd) as (adds & Em & Ead & Hall). rewrite <- Hpi, Em, grown_arc.
  assert (forall k t, s_inodes m !! k = Some t -> j ∉ child_arcs t) as Hns.
  { intros k t Ht Hin. destruct (Hb k t Ht) as (_ & _ & H3). rewrite Forall_forall in H3. specialize (H3 j Hin p Hjp Hpd). lia. }
  rewrite arc_shared_false; [| |done].
  2:{ rewrite arcs_eq, Ac. intros [->|Hin]%elem_of_cons; [lia|]. by apply (Hns _ _ Ex). }
  exists <[i_ino p := add_child c (grown j p adds)]>. split; [done|]. split; [done|].
  assert (forall i d, l !! i = Some d -> is_dir d = true -> i <> j -> i_ino p <> i_ino d) as Hdiff
    by (intros i d Hi Hd Hij Heq; apply Hij; by apply (dir_unique i j d p)).
  split; [|split].
  - intros i d Hi Hd.
    assert (forall adds', Forall (fun c => is_dir (ci_data c) = true -> s_inodes m !! i_ino (ci_data c) = Some c /\ l !! ci_arc c = Some (ci_data c) /\
        (length pre + 1 <= ci_arc c)%nat) adds' ->
      Forall (fun c' => is_dir (ci_data c') = true ->
        <[i_ino p := add_child c (grown j p adds)]> (s_inodes m) !! i_ino (ci_data c') = Some c' /\ l !! ci_arc c' = Some (ci_data c') /\
        (length pre <= ci_arc c')%nat) adds') as Hmono.
    { intros adds' Hf. eapply Forall_impl; [exact Hf|]. cbn. intros c' Hcc Hcd. destruct (Hcc Hcd) as (C1 & C2 & C3).
      rewrite lookup_insert_ne by (apply (Hdiff (ci_arc c')); [done|done|lia]). split; [done|]. split; [done|lia]. }
    rewrite dirs_of_cons by done. destruct (decide (i = j)) as [->|Hne].
    + assert (d = p) as -> by congruence. exists (adds ++ [c]). split; [by rewrite lookup_insert_eq, grown_snoc|]. split.
      * rewrite fmap_app, Ead, decide_True, <- app_assoc by congruence. f_equiv. cbn [fmap list_fmap app]. rewrite Dc. symmetry. apply Permutation_cons_append.
      * apply Forall_app. split; [by apply Hmono|]. apply Forall_singleton. intros _. rewrite Dc, Ac.
        rewrite lookup_insert_ne by (apply (Hdiff (length pre)); [done|done|lia]). by split_and!.
    + pose proof (Hdiff i d Hi Hd Hne). destruct (Ha i d Hi Hd) as (adds' & Em' & Ead' & Hall'). exists adds'.
      rewrite lookup_insert_ne by done. split; [done|]. rewrite decide_False by congruence. split; [exact Ead'|by apply Hmono].
  - assert (forall t, Forall (fun a => forall d, l !! a = Some d -> is_dir d = true -> (length pre + 1 <= a)%nat) (child_arcs t) ->
      Forall (fun a => forall d, l !! a = Some d -> is_dir d = true -> (length pre <= a)%nat) (child_arcs t)) as Hweak.
    { intros t Ht. eapply Forall_impl; [exact Ht|]. cbn. intros a Hax d Had Hd. specialize (Hax d Had Hd). lia. }
    intros k t Ht. apply lookup_insert_Some in Ht as [[<- <-]|[_ Ht]].
    + destruct (Hb _ _ Em) as (H1 & H2 & H3). split; [exact H1|]. split; [exact H2|]. apply Hweak in H3. rewrite Forall_forall in H3 |- *.
      intros a Hin d Had Hd. rewrite grown_snoc in Hin. apply child_arcs_grown, elem_of_concat_arcs in Hin as (c' & [Hin|Hin]%elem_of_app & Hac).
      * refine (H3 a _ d Had Hd). apply child_arcs_grown, elem_of_concat_arcs. eauto.
      * apply list_elem_of_singleton in Hin as ->. rewrite arcs_eq, Ac in Hac. apply elem_of_cons in Hac as [->|Hac]; [done|].
        destruct (Hb _ _ Ex) as (_ & _ & Hx3). apply Hweak in Hx3. rewrite Forall_forall in Hx3. by apply (Hx3 a Hac d).
    + destruct (Hb _ _ Ht) as (H1 & H2 & H3). split; [exact H1|]. split; [exact H2|]. by apply Hweak.
  - intros n Hin. destruct (decide (i_ino p = i_ino n)) as [<-|Hne]; [by rewrite lookup_insert_eq|].
    rewrite lookup_insert_ne by done. by apply Hc.
Qed.

Lemma add_dirs_spec pre suf m : l = pre ++ suf -> joined pre suf (s_inodes m) ->
  exists m', add_dirs (rev (i_ino <$> filter (fun n => is_dir n = true) pre)) m = Ok m' /\ joined [] l (s_inodes m') /\ same_super m' m.
Proof.
  revert suf m. induction pre as [|x pre IH] using rev_ind; intros suf m El Hj.
  { exists m. cbn [app] in El. rewrite <- El in Hj. done. }
  rewrite <- app_assoc in El. cbn [app] in El. rewrite filter_app, filter_cons. destruct (is_dir x) eqn:Ex.
  - rewrite decide_True by done. rewrite fmap_app, rev_app_distr. cbn [fmap list_fmap rev app add_dirs filter list_filter].
    destruct (joined_dir pre x suf m El Ex Hj) as (c & f & E1 & E2 & Hj'). rewrite E1. cbn [mbind outcome_bind]. rewrite E2. cbn [mbind outcome_bind].
    destruct (IH (x :: suf) (with_inodes f m) El Hj') as (m' & E & Hj2 & Hs). exists m'. by rewrite E.
  - rewrite decide_False by done. cbn [filter list_filter]. rewrite app_nil_r. apply (IH (x :: suf)); [done|]. by apply joined_file.
Qed.
End image.

(** *** The tree *)

Lemma files_dirs_children ino l : files_of ino l ++ dirs_of ino l ≡ₚ children_of ino l.
Proof.
  unfold files_of, dirs_of, children_of. induction l as [|n l IH]; [done|]. rewrite !filter_cons.
  destruct (is_dir n) eqn:Ed.
  - rewrite decide_False by (by intros [_ ?]). destruct (decide (i_parent n = ino)) as [E|E].
    + rewrite decide_True by done. rewrite <- IH. symmetry. apply Permutation_middle.
    + rewrite decide_False by (by intros [? _]). exact IH.
  - rewrite (decide_False (P := i_parent n = ino /\ false = true)) by (by intros [_ ?]). destruct (decide (i_parent n = ino)) as [E|E].
    + rewrite decide_True by done. cbn [app]. by rewrite IH.
    + rewrite decide_False by (by intros [? _]). exact IH.
Qed.

(** What the loaded tree answers for a directory [d] of the image [l]. *)
Definition dir_exact (l : list InodeData) (self : CachedSuperBlockV5) (d : InodeData) : Prop :=
  exists t, cs_get_inode self (i_ino d) = Ok t /\ ci_data t = d /\ ci_data <$> i_child t ≡ₚ children_of (i_ino d) l /\
    (forall n, n ∈ l -> i_parent n = i_ino d -> exists c, get_child_by_name t (i_name n) = Ok c /\ ci_data c = n /\
       (is_dir n = true -> cs_get_inode self (i_ino n) = Ok c)) /\
    (forall name, name ∉ i_name <$> children_of (i_ino d) l -> get_child_by_name t name = Err ENOENT) /\
    StronglySorted name_lt (i_child t).

Lemma joined_dir_exact l self d : image_ok l -> joined l [] l (s_inodes self) -> d ∈ l -> is_dir d = true -> dir_exact l self d.
Proof.
  intros [Hord Himg] (Ha & _ & _) Hin Hd. destruct (Himg d Hin Hd) as [Hcnt Hnd]. apply list_elem_of_lookup_1 in Hin as [i Hi].
  destruct (Ha i d Hi Hd) as (adds & Em & Hp & Hall). rewrite files_dirs_children in Hp.
  assert (child_name <$> adds ≡ₚ i_name <$> children_of (i_ino d) l) as Hnames.
  { rewrite <- Hp, <- list_fmap_compose. done. }
  assert (StronglySorted name_lt (i_child (grown i d adds))) as Hs.
  { apply (add_children_sorted (mkCached i d [])); [done| |by rewrite Hnames].
    cbn [ci_data]. rewrite Hcnt. unfold zlen. by rewrite <- (Permutation_length Hp), length_fmap. }
  exists (grown i d adds). split; [unfold cs_get_inode; by rewrite Em|]. split; [apply grown_data|].
  split; [by rewrite grown_child|]. split; [|split; [|done]].
  - intros n Hn Hpar. assert (n ∈ ci_data <$> adds) as Hna by (rewrite Hp; by apply list_elem_of_filter).
    apply list_elem_of_fmap_1 in Hna as (c & -> & Hc). exists c. split.
    + apply get_child_by_name_member; [done|]. by rewrite grown_child.
    + split; [done|]. intros Hcd. rewrite Forall_forall in Hall. destruct (Hall c Hc Hcd) as [Hm _]. unfold cs_get_inode. by rewrite Hm.
  - intros name Hno. destruct (get_child_by_name_sorted (grown i d adds) name Hs) as [(c & Hc & <- & _)|[_ E]]; [|done].
    destruct Hno. rewrite <- Hnames. apply list_elem_of_fmap_2. by rewrite grown_child in Hc.
Qed.

Lemma add_into_parent_super child m m' : add_into_parent child m = Ok m' -> same_super m' m.
Proof. unfold add_into_parent. repeat case_match; intros; simplify_eq; done. Qed.

Lemma hash_inode_super inode m : same_super (hash_inode inode m) m.
Proof. unfold hash_inode. by case_match. Qed.

(** Reading the inodes one after the other. *)
Lemma load_inodes_nodes `{Profile} ns N arc self dirs tail x : Forall (node_ok (sm_chunk_size (s_meta self))) ns ->
  N = length ns \/ (length ns <= N)%nat /\ tail = [] ->
  add_nodes (cached_node (sm_chunk_size (s_meta self)) <$> ns) arc self dirs = Ok x ->
  load_inodes N arc self dirs (concat (node_bytes <$> ns) ++ tail) = (Ok x, tail).
Proof.
  intros Hok. remember (sm_chunk_size (s_meta self)) as cs eqn:Ecs. revert N arc self dirs Ecs.
  induction Hok as [|n ns Hn _ IH]; intros N arc self dirs Ecs HN Hadd.
  - cbn in Hadd |- *. injection Hadd as <-. destruct HN as [->|[_ ->]]; [done|]. by destruct N.
  - destruct N as [|N]; [by destruct HN as [|[HN%Nat.le_0_r _]]|].
    assert (N = length ns \/ (length ns <= N)%nat /\ tail = []) as HN'
      by (destruct HN as [HN|[HN ->]]; cbn [length] in HN; [left|right; split; [|done]]; lia).
    cbn [load_inodes]. rewrite fmap_cons, concat_cons, <- app_assoc, <- Ecs, ci_load_node by done.
    rewrite fmap_cons in Hadd. cbn [add_nodes] in Hadd. destruct (is_dir (cached_node cs n)).
    + apply IH; [|exact HN'|done]. by destruct (hash_inode_super (mkCached arc (cached_node cs n) []) self) as (_ & -> & _).
    + apply bind_Ok in Hadd as (m & Em & Hadd). rewrite Em. apply IH; [|exact HN'|done].
      destruct (add_into_parent_super _ _ _ Em) as (_ & -> & _).
      by destruct (hash_inode_super (mkCached arc (cached_node cs n) []) self) as (_ & -> & _).
Qed.

Lemma load_all_inodes_tree `{Profile} (self : CachedSuperBlockV5) ns tail :
  let cs := sm_chunk_size (s_meta self) in
  let l := cached_node cs <$> ns in
  s_inodes self = ∅ -> Forall (node_ok cs) ns -> image_ok l ->
  (sm_inode_table_entries (s_meta self) = zlen ns \/ zlen ns <= sm_inode_table_entries (s_meta self) /\ tail = []) ->
  exists self', load_all_inodes self (concat (node_bytes <$> ns) ++ tail) = (Ok self', tail) /\ same_super self' self /\
    (forall d, d ∈ l -> is_dir d = true -> dir_exact l self' d) /\
    (forall n, n ∈ l -> exists t, cs_get_inode self' (i_ino n) = Ok t /\ ci_data t ∈ l /\ i_ino (ci_data t) = i_ino n).
Proof.
  intros cs l He Hok Himg HN. pose proof Himg as [Hord _].
  destruct (add_nodes_spec l Hord l [] self []) as (m1 & E1 & Hl1 & Hs1); [done| |].
  { rewrite He. split; [|split]; [intros i d Hi; by rewrite lookup_nil in Hi|by intros k t ?%lookup_empty_Some|by intros n ?%elem_of_nil]. }
  destruct (add_dirs_spec l Hord l [] m1) as (m2 & E2 & Hj & Hs2); [by rewrite app_nil_r|by apply loaded_joined|].
  exists m2. split; [|split; [|split]].
  - unfold load_all_inodes. erewrite st_bind_run.
    2:{ apply (load_inodes_nodes ns); [done| |exact E1]. unfold zlen in HN. destruct HN as [HN|[HN ->]]; [left|right; split; [|done]]; lia. }
    cbv beta iota. unfold st_lift. cbn [app]. by rewrite E2.
  - unfold same_super in *. intuition congruence.
  - intros d Hd Hdir. by apply joined_dir_exact.
  - intros n Hn. destruct Hj as (_ & Hb & Hc). destruct (Hc n Hn) as [t Ht]. exists t. unfold cs_get_inode. rewrite Ht.
    destruct (Hb _ _ Ht) as (H1 & H2 & _). split; [done|]. split; [by eapply list_elem_of_lookup_2|done].
Qed.

(** ** Digests of a loaded image *)

Section signed.
Context (hash : DigestAlgorithm -> list Z -> Z) (alg : DigestAlgorithm) (l : list InodeData).

Definition data_lt (a b : InodeData) : Prop := name_cmp (i_name a) (i_name b) = Lt.

(** The digests of an image are those of its content: a directory has the digest of the digests
    of its children, which are stored in the order of their names. *)
Record image_signed : Prop := {
  sg_dir d : d ∈ l -> is_dir d = true -> StronglySorted data_lt (children_of (i_ino d) l) /\
    i_digest d = hash alg (concat ((fun c => digest_bytes (i_digest c)) <$> children_of (i_ino d) l));
  sg_reg d : d ∈ l -> is_reg d = true -> i_child_cnt d = zlen (i_data d) /\ i_digest d = hash alg (digest_chunks (i_data d));
  sg_symlink d : d ∈ l -> is_symlink d = true -> i_digest d = hash alg (i_target d)
}.

Lemma data_sorted_unique (l1 l2 : list InodeData) : StronglySorted data_lt l1 -> StronglySorted data_lt l2 -> l1 ≡ₚ l2 -> l1 = l2.
Proof.
  apply StronglySorted_unique_strong. intros a b _ _ Hab Hba. unfold data_lt in *. exfalso.
  assert (name_cmp (i_name a) (i_name a) = Lt) as Haa by (by eapply name_cmp_trans). by rewrite (proj2 (name_cmp_eq _ _) eq_refl) in Haa.
Qed.

Lemma file_digests_ok t : image_signed -> ci_data t ∈ l -> is_dir (ci_data t) = false -> validated t = true -> digests_ok hash alg t.
Proof.
  intros Hs Hin Hd Hv. constructor; [split; [|by rewrite Hd]| |by rewrite Hd].
  - intros Hr. destruct (sg_reg Hs _ Hin Hr) as [Hc _]. unfold get_child_count. by rewrite Hc.
  - unfold payload. destruct (is_symlink (ci_data t)) eqn:El; [by apply sg_symlink|]. destruct (is_reg (ci_data t)) eqn:Er.
    + destruct (sg_reg Hs _ Hin Er) as [Hc ->]. unfold get_child_count. rewrite Hc. unfold zlen. by rewrite Nat2Z.id, firstn_all.
    + unfold validated in Hv. rewrite El, Er, Hd in Hv. done.
Qed.

(** The children of a loaded directory, in the order of the image. *)
Lemma dir_exact_children self d t : image_ok l -> image_signed -> dir_exact l self d -> d ∈ l -> is_dir d = true ->
  cs_get_inode self (i_ino d) = Ok t ->
  ci_data t = d /\ ci_data <$> i_child t = children_of (i_ino d) l /\ get_child_count t = zlen (i_child t) /\
  forall c, c ∈ i_child t -> is_dir (ci_data c) = true -> cs_get_inode self (i_ino (ci_data c)) = Ok c.
Proof.
  intros Himg Hs (t' & Et & Ed & Hp & Hin & _ & Hsort) Hd Hdir E. rewrite Et in E. injection E as ->.
  assert (ci_data <$> i_child t = children_of (i_ino d) l) as Hch.
  { apply data_sorted_unique; [|by apply sg_dir|done]. clear -Hsort. induction Hsort as [|c cs _ IH Hc]; [constructor|].
    rewrite fmap_cons. constructor; [exact IH|]. by apply Forall_fmap. }
  split; [done|]. split; [done|]. split.
  - unfold get_child_count. destruct Himg as [_ Himg]. destruct (Himg d Hd Hdir) as [Hc _]. rewrite Ed, Hc, <- Hch.
    unfold zlen. by rewrite length_fmap.
  - intros c Hc Hcd. assert (ci_data c ∈ children_of (i_ino d) l) as [Hpar Hcl]%list_elem_of_filter by (rewrite <- Hch; by apply list_elem_of_fmap_2).
    destruct (Hin _ Hcl Hpar) as (c' & Ec' & _ & Hg). fold (child_name c) in Ec'. rewrite (get_child_by_name_member t c) in Ec' by done.
    injection Ec' as <-. by apply Hg.
Qed.

Lemma signed_digests_ok self : image_ok l -> image_signed -> (forall d, d ∈ l -> is_dir d = true -> dir_exact l self d) ->
  forall d t, d ∈ l -> is_dir d = true -> cs_get_inode self (i_ino d) = Ok t -> digests_ok hash alg t.
Proof.
  intros Himg Hs Hdirs. assert (forall n i d t, (length l - i < n)%nat -> l !! i = Some d -> is_dir d = true -> cs_get_inode self (i_ino d) = Ok t -> digests_ok hash alg t) as Hn.
  2:{ intros d t (i & Hi)%list_elem_of_lookup_1. apply (Hn (S (length l - i)) i); [lia|done]. }
  induction n as [|n IH]; intros i d t Hlt Hi Hdir Et; [lia|]. assert (d ∈ l) as Hd by (by eapply list_elem_of_lookup_2).
  destruct (dir_exact_children self d t Himg Hs (Hdirs d Hd Hdir) Hd Hdir Et) as (Ed & Hch & Hcnt & Hsub).
  assert (used_children t = i_child t) as Hu by (unfold used_children; rewrite Hcnt; unfold zlen; by rewrite Nat2Z.id, firstn_all).
  pose proof (mode_exclusive S_IFDIR S_IFLNK t ltac:(done)) as Hl. pose proof (mode_exclusive S_IFDIR S_IFREG t ltac:(done)) as Hr.
  fold (is_dir (ci_data t)) (is_symlink (ci_data t)) (is_reg (ci_data t)) in Hl, Hr. rewrite Ed in Hl, Hr. specialize (Hl Hdir). specialize (Hr Hdir).
  constructor; rewrite ?Ed.
  - split; rewrite Ed; [by rewrite Hr|]. intros _. lia.
  - unfold payload. rewrite Ed, Hl, Hr, Hdir, Hu. destruct (sg_dir Hs d Hd Hdir) as [_ ->]. by rewrite <- Hch, <- list_fmap_compose.
  - intros _. rewrite Hu. apply Forall_forall. intros c Hc Hv.
    assert (ci_data c ∈ children_of (i_ino d) l) as [Hpar Hcl]%list_elem_of_filter by (rewrite <- Hch; by apply list_elem_of_fmap_2).
    destruct (is_dir (ci_data c)) eqn:Ecd; [|by apply file_digests_ok]. pose proof Hcl as (j & Hj)%list_elem_of_lookup_1.
    destruct Himg as [[Hord1 Hord2] _]. destruct (Hord2 j _ Hj) as [_ [H0|(k & p & Hk & Hkp & Hpd & Hpi)]].
    { destruct (Hord2 i d Hi) as [Hnz _]. congruence. }
    assert (k = i) as -> by (apply (Hord1 k i p d); [done|done|done|congruence]). pose proof (lookup_lt_Some _ _ _ Hj).
    apply (IH j (ci_data c)); [lia|done|done|]. by apply Hsub.
Qed.

(** A signed image passes the validation of its root. *)
Lemma signed_validates self r t : image_ok l -> image_signed -> (forall d, d ∈ l -> is_dir d = true -> dir_exact l self d) ->
  r ∈ l -> is_dir r = true -> cs_get_inode self (i_ino r) = Ok t -> rafsv5_validate_inode hash true alg t = Ok true.
Proof. intros Himg Hs Hdirs Hr Hd Et. apply validate_ok_iff. by eapply signed_digests_ok. Qed.
End signed.

(** C11: the cached super block holds the tree of the image. Reading the inodes of an image in
    bootstrap order, with as many table entries as inodes (or more, at the end of the file),
    never fails or panics on a shared [Arc]; afterwards every directory is found by its number
    with exactly the children dumped for it: each is looked up under its name, directories as
    the very inode the table holds, and any other name is [ENOENT]. *)
Theorem cached_super_holds_tree `{Profile} (self : CachedSuperBlockV5) ns tail :
  let cs := sm_chunk_size (s_meta self) in
  let l := cached_node cs <$> ns in
  s_inodes self = ∅ -> Forall (node_ok cs) ns -> image_ok l ->
  (sm_inode_table_entries (s_meta self) = zlen ns \/ zlen ns <= sm_inode_table_entries (s_meta self) /\ tail = []) ->
  exists self', load_all_inodes self (concat (node_bytes <$> ns) ++ tail) = (Ok self', tail) /\ same_super self' self /\
    (forall d, d ∈ l -> is_dir d = true -> dir_exact l self' d) /\
    (forall n, n ∈ l -> exists t, cs_get_inode self' (i_ino n) = Ok t /\ ci_data t ∈ l /\ i_ino (ci_data t) = i_ino n).
Proof. apply load_all_inodes_tree. Qed.

(** ** Witnesses *)

Definition tiny_node (ino parent mode nlink child_index child_count : Z) (name : string) : DumpedNode :=
  mkDumped (mkV5Wrapper (bytes_of_string name) None
            (mkV5Inode 5 parent ino 0 0 0 mode 0 0 0 nlink child_index child_count (zlen (bytes_of_string name)) 0 0 0 0 0)) [] [].

Definition tiny_meta (entries : Z) : RafsSuperMeta :=
  mkSuperMeta 0 RAFS_SUPER_VERSION_V5 0 0 0x1000 3 0 entries 0 0 0 0 0 0 0 0 0 false 0 0 0 0.

Definition tiny_image : list DumpedNode :=
  [tiny_node 1 0 0x41ed 3 2 1 "/"; tiny_node 2 1 0x41ed 2 3 1 "d"; tiny_node 3 2 0x81a4 1 0 0 "f"].

Lemma tiny_node_ok n : n ∈ tiny_image -> node_ok (H := dev_profile) 0x1000 n.
Proof.
  intros Hn. repeat (apply elem_of_cons in Hn as [->|Hn]); [..|by apply elem_of_nil in Hn];
    (split_and!; try reflexivity; try discriminate; [split_and!; [solve_ranges|reflexivity|reflexivity]| |constructor|constructor|constructor];
     split; [by intros [? ?]|discriminate]).
Qed.

Lemma tiny_image_ok : image_ok (cached_node 0x1000 <$> tiny_image).
Proof.
  split; [split|].
  - intros [|[|[|i]]] [|[|[|j]]] d n Hi Hj Hd He; cbn in Hi, Hj; try done; simplify_eq; vm_compute in He; discriminate.
  - intros [|[|[|i]]] n Hi; cbn in Hi; simplify_eq; (split; [discriminate|]); [by left|right..].
    + exists 0%nat. eexists. split; [lia|]. split; [reflexivity|]. split; reflexivity.
    + exists 1%nat. eexists. split; [lia|]. split; [reflexivity|]. split; reflexivity.
  - intros d Hd _. apply list_elem_of_fmap_1 in Hd as (n & -> & Hn).
    repeat (apply elem_of_cons in Hn as [->|Hn]); [..|by apply elem_of_nil in Hn];
      (split; [reflexivity|]); apply (bool_decide_unpack _); vm_compute; exact I.
Qed.

Lemma cached_super_holds_tree_witness :
  exists self', @load_all_inodes dev_profile (CachedSuperBlockV5_new (tiny_meta 4) false) (concat (node_bytes <$> tiny_image)) = (Ok self', []) /\
    dir_exact (cached_node 0x1000 <$> tiny_image) self' (cached_node 0x1000 (tiny_node 2 1 0x41ed 2 3 1 "d")).
Proof.
  destruct (@cached_super_holds_tree dev_profile (CachedSuperBlockV5_new (tiny_meta 4) false) tiny_image []) as (self' & E & _ & Hd & _).
  - reflexivity.
  - apply Forall_forall. exact tiny_node_ok.
  - exact tiny_image_ok.
  - right. split; [discriminate|reflexivity].
  - exists self'. split; [rewrite app_nil_r in E; exact E|]. apply Hd; [right; left|reflexivity].
Defined.

(** loading a malformed bootstrap can panic. An inode whose parent is a regular file passes
    the validation of inodes, but the file is shared with its directory by then, so
    [Arc::get_mut(parent).unwrap()] panics. *)
Theorem file_as_parent_panics :
  let nodes := [tiny_node 1 0 0x41ed 3 2 1 "/"; tiny_node 2 1 0x81a4 1 0 0 "f"; tiny_node 3 2 0x81a4 1 0 0 "g"] in
  Forall (node_ok (H := release_profile) 0x1000) nodes /\
  (@load_all_inodes release_profile (CachedSuperBlockV5_new (tiny_meta 3) false) (concat (node_bytes <$> nodes))).1 = Panic.
Proof.
  split; [|reflexivity].
  repeat (constructor;
    [split_and!; try reflexivity; try discriminate; [split_and!; [solve_ranges|reflexivity|reflexivity]| |constructor|constructor|constructor];
     split; [by intros [? ?]|discriminate]|]). constructor.
Qed.
