(* ===== verification/Overlay.v ===== *)
(** Overlay of image layers ([src/bin/nydus-image/core/tree.rs]; whiteouts of
    [src/bin/nydus-image/core/node.rs]).

    A layer is applied to the tree of the layers below node by node: a node replaces the node at
    its path or is added to its directory, a whiteout file removes a file or hides the content of
    a directory. The theorems state this on the paths of the tree: applying a node changes what
    is found at its path, and nothing else. They also show where the code departs from it. *)
From S2P Require Import Prelude Utils LittleEndian ChunkInfo Device RafsLayout RafsV5 RafsBlobTable RafsV5Inode.

(** ** Nodes *)

Notation name := (list Z) (only parsing).
(** The components of an absolute path below the root. *)
Notation path := (list (list Z)) (only parsing).

Inductive OverlayKind := Lower | UpperAddition | UpperOpaque | UpperRemoval | UpperModification.
#[export] Instance OverlayKind_eq_dec : EqDecision OverlayKind.
Proof. solve_decision. Defined.

Inductive WhiteoutType := OciOpaque | OciRemoval | OverlayFsOpaque | OverlayFsRemoval.
#[export] Instance WhiteoutType_eq_dec : EqDecision WhiteoutType.
Proof. solve_decision. Defined.

Inductive WhiteoutSpec := SpecOci | SpecOverlayfs | SpecNone.
#[export] Instance WhiteoutSpec_eq_dec : EqDecision WhiteoutSpec.
Proof. solve_decision. Defined.

Definition is_removal (t : WhiteoutType) : bool := bool_decide (t = OciRemoval) || bool_decide (t = OverlayFsRemoval).

(** A builder's [Node], without the RAFS v6 fields, the change time and the explicit uid/gid flag. *)
Record Node := mkNode {
  n_index : Z;
  n_src_dev : Z;
  n_src_ino : Z;
  n_rdev : Z;
  n_inode : RafsV5Inode;
  n_chunks : list RafsV5ChunkInfo;
  n_xattrs : gmap (list Z) (list Z);
  n_symlink : option (list Z);
  n_overlay : OverlayKind;
  n_source : path;
  n_path : path;
  n_layer_idx : Z
}.

Definition with_overlay (o : OverlayKind) (n : Node) : Node :=
  mkNode (n_index n) (n_src_dev n) (n_src_ino n) (n_rdev n) (n_inode n) (n_chunks n) (n_xattrs n) (n_symlink n) o
    (n_source n) (n_path n) (n_layer_idx n).

Definition ROOT_PATH_NAME : name := bytes_of_string "/".
Definition OCISPEC_WHITEOUT_PREFIX : name := bytes_of_string ".wh.".
Definition OCISPEC_WHITEOUT_OPAQUE : name := bytes_of_string ".wh..wh..opq".
Definition OVERLAYFS_WHITEOUT_OPAQUE : name := bytes_of_string "trusted.overlay.opaque".

Definition node_is_dir (n : Node) : bool := v5i_is_dir (n_inode n).

(** [Node::name]: [file_name] of a path that is not the root. *)
Definition node_name (n : Node) : name :=
  if bool_decide (n_path n = n_source n) then ROOT_PATH_NAME else default [] (last (n_path n)).

Fixpoint strip_prefix (root p : path) : option path :=
  match root, p with
  | [], _ => Some p
  | r :: root, x :: p => if bool_decide (r = x) then strip_prefix root p else None
  | _ :: _, [] => None
  end.

Definition generate_target (p root : path) : path := match strip_prefix root p with Some t => t | None => p end.

Definition generate_target_vec (target : path) : list name := ROOT_PATH_NAME :: target.

Definition target_vec (n : Node) : list name := generate_target_vec (generate_target (n_path n) (n_source n)).

(** ** Whiteouts *)

(** The device numbers of Linux: [major] and [minor] of [libc]. *)
Definition major_dev (dev : Z) : Z := Z.lor (Z.land (Z.shiftr dev 8) 0xfff) (Z.land (Z.shiftr dev 32) 0xfffff000).
Definition minor_dev (dev : Z) : Z := Z.lor (Z.land dev 0xff) (Z.land (Z.shiftr dev 12) 0xffffff00).

Definition is_overlayfs_whiteout (spec : WhiteoutSpec) (n : Node) : bool :=
  bool_decide (spec = SpecOverlayfs) && v5i_is_chrdev (n_inode n) && (major_dev (n_rdev n) =? 0) && (minor_dev (n_rdev n) =? 0).

Definition is_overlayfs_opaque (spec : WhiteoutSpec) (n : Node) : bool :=
  if negb (bool_decide (spec = SpecOverlayfs)) || negb (node_is_dir n) then false
  else match n_xattrs n !! OVERLAYFS_WHITEOUT_OPAQUE with
       | Some v => utf8_valid v && bool_decide (v = bytes_of_string "y")
       | None => false
       end.

Definition starts_with (prefix s : name) : bool := bool_decide (take (length prefix) s = prefix).

Definition whiteout_type (spec : WhiteoutSpec) (n : Node) : option WhiteoutType :=
  if bool_decide (n_overlay n = Lower) then None
  else match spec with
       | SpecOci =>
           if utf8_valid (node_name n) then
             if bool_decide (node_name n = OCISPEC_WHITEOUT_OPAQUE) then Some OciOpaque
             else if starts_with OCISPEC_WHITEOUT_PREFIX (node_name n) then Some OciRemoval
             else None
           else None
       | SpecOverlayfs =>
           if is_overlayfs_whiteout spec n then Some OverlayFsRemoval
           else if is_overlayfs_opaque spec n then Some OverlayFsOpaque
           else None
       | SpecNone => None
       end.

Definition origin_name (t : WhiteoutType) (n : Node) : option name :=
  if utf8_valid (node_name n) then
    if bool_decide (t = OciRemoval) then Some (drop (length OCISPEC_WHITEOUT_PREFIX) (node_name n))
    else if bool_decide (t = OverlayFsRemoval) then Some (node_name n)
    else None
  else None.

(** [target.path().parent()] and the file name of it. *)
Definition parent_name (n : Node) : option name :=
  match n_path n with [] => None | _ => last (removelast (n_path n)) end.

(** ** Tree *)

Inductive Tree := mkTree { t_node : Node; t_children : list Tree }.

Definition Tree_new (node : Node) : Tree := mkTree node [].

(** [Tree::iterate]: the nodes in depth-first order; a callback that returns [false] skips the
    rest of the subtree of its node. *)
Section iterate.
Context {S : Type} (cb : Node -> S -> bool * S).
Fixpoint iterate (t : Tree) (s : S) : S :=
  let '(go_on, s) := cb (t_node t) s in
  if go_on : bool then
    (fix go (l : list Tree) (s : S) : S := match l with [] => s | c :: l => go l (iterate c s) end) (t_children t) s
  else s.
End iterate.

(** [Tree::remove]: whether something was removed, and the tree. *)
Section remove.
Context (target : Node) (wt : WhiteoutType) (origin parent : option name).
Fixpoint remove (t : Tree) : bool * Tree :=
  let target_paths := target_vec target in
  let target_paths_len := length target_paths in
  let node_paths := target_vec (t_node t) in
  let depth := length node_paths in
  if (target_paths_len <=? depth)%nat || negb (bool_decide (node_paths !! (depth - 1)%nat = target_paths !! (depth - 1)%nat)) then (false, t)
  else if (depth =? 1)%nat &&
          (bool_decide (wt = OciOpaque) && (target_paths_len =? 2)%nat || bool_decide (wt = OverlayFsOpaque) && (target_paths_len =? 1)%nat)
  then (true, mkTree (with_overlay UpperOpaque (t_node t)) [])
  else
    let '(found, children) :=
      (fix go (l : list Tree) : bool * list Tree :=
         match l with
         | [] => (false, [])
         | child :: rest =>
             let next (c : Tree) := let '(found, rest') := go rest in (found, c :: rest') in
             let descend (_ : unit) :=
               if node_is_dir (t_node child) then
                 let '(found, child') := remove child in
                 if found : bool then (true, child' :: rest) else next child'
               else next child in
             let opaque (_ : unit) := (true, mkTree (with_overlay UpperOpaque (t_node child)) [] :: rest) in
             if (depth =? target_paths_len - 1)%nat && is_removal wt && bool_decide (origin = Some (node_name (t_node child)))
             then (true, rest)
             else if bool_decide (wt = OciOpaque) && (2 <=? target_paths_len)%nat && (depth =? target_paths_len - 2)%nat then
               if bool_decide (parent = Some (node_name (t_node child))) then opaque tt else descend tt
             else if bool_decide (wt = OverlayFsOpaque) && (depth =? target_paths_len - 1)%nat &&
                     bool_decide (node_name target = node_name (t_node child)) then opaque tt
             else descend tt
         end) (t_children t) in
    (found, mkTree (t_node t) children).
End remove.

(** [Tree::apply] below the whiteout handling. *)
Section apply.
Context (target : Node).
Fixpoint apply_node (t : Tree) : bool * Tree :=
  let target_paths := target_vec target in
  let target_paths_len := length target_paths in
  let depth := length (target_vec (t_node t)) in
  if bool_decide (n_path target = []) then (true, mkTree (with_overlay UpperModification target) (t_children t))
  else
    let '(found, children) :=
      (if (depth <? target_paths_len)%nat then
         (fix go (l : list Tree) : bool * list Tree :=
            match l with
            | [] => (false, [])
            | child :: rest =>
                let next (c : Tree) := let '(found, rest') := go rest in (found, c :: rest') in
                if negb (bool_decide (target_paths !! depth = Some (node_name (t_node child)))) then next child
                else if (depth =? target_paths_len - 1)%nat then
                  (true, mkTree (with_overlay UpperModification target) (t_children child) :: rest)
                else if node_is_dir (t_node child) then
                  let '(found, child') := apply_node child in
                  if found : bool then (true, child' :: rest) else next child'
                else next child
            end) (t_children t)
       else (false, t_children t)) in
    if found : bool then (true, mkTree (t_node t) children)
    else if (depth =? target_paths_len - 1)%nat && bool_decide (target_paths !! (depth - 1)%nat = Some (node_name (t_node t)))
    then (true, mkTree (t_node t) (children ++ [Tree_new (with_overlay UpperAddition target)]))
    else (false, mkTree (t_node t) children).
End apply.

(** [Tree::apply]. The recursive calls pass [handle_whiteout] on, but a whiteout never gets
    that far while it is set. *)
Definition apply (target : Node) (handle_whiteout : bool) (spec : WhiteoutSpec) (t : Tree) : bool * Tree :=
  match (if handle_whiteout then whiteout_type spec target else None) with
  | Some OverlayFsOpaque =>
      let '(_, t) := remove target OverlayFsOpaque (origin_name OverlayFsOpaque target) (parent_name target) t in apply_node target t
  | Some wt => remove target wt (origin_name wt target) (parent_name target) t
  | None => apply_node target t
  end.

(** A layer: the nodes in order. *)
Definition apply_all (spec : WhiteoutSpec) (nodes : list Node) (t : Tree) : Tree := foldl (fun t n => (apply n true spec t).2) t nodes.

(** ** Paths of a tree *)

Fixpoint child (x : name) (l : list Tree) : option Tree :=
  match l with [] => None | c :: l => if bool_decide (node_name (t_node c) = x) then Some c else child x l end.

(** What is at a path; only directories are searched. *)
Fixpoint subtree (t : Tree) (p : path) : option Tree :=
  match p with
  | [] => Some t
  | x :: p =>
      if node_is_dir (t_node t) then match child x (t_children t) with Some c => subtree c p | None => None end
      else None
  end.

Definition find (t : Tree) (p : path) : option Node := t_node <$> subtree t p.

Definition names (l : list Tree) : list name := (fun c => node_name (t_node c)) <$> l.

(** A node knows its path [q], by components and by name. *)
Definition node_at (q : path) (n : Node) : Prop := target_vec n = ROOT_PATH_NAME :: q /\ last (ROOT_PATH_NAME :: q) = Some (node_name n).

(** A tree at the path [q]: every node knows its path, siblings have distinct names. *)
Inductive tree_at : path -> Tree -> Prop :=
| tree_at_intro q n cs : node_at q n -> NoDup (names cs) -> Forall (fun c => tree_at (q ++ [node_name (t_node c)]) c) cs ->
    tree_at q (mkTree n cs).

Definition set_child (x : name) (c' : Tree) (l : list Tree) : list Tree :=
  (fun c => if bool_decide (node_name (t_node c) = x) then c' else c) <$> l.

Lemma child_Some x l c : child x l = Some c -> c ∈ l /\ node_name (t_node c) = x.
Proof.
  induction l as [|d l IH]; [done|]. cbn. case_bool_decide as E; [intros [= ->]; split; [by left|done]|].
  intros (Hc & Hn)%IH. split; [by right|done].
Qed.

Lemma child_None x l : child x l = None -> x ∉ names l.
Proof.
  induction l as [|d l IH]; [intros _; apply not_elem_of_nil|]. cbn. case_bool_decide as E; [done|].
  intros Hn. apply not_elem_of_cons. split; [done|by apply IH].
Qed.

Lemma set_child_absent x c' l : x ∉ names l -> set_child x c' l = l.
Proof.
  induction l as [|d l IH]; [done|]. unfold names, set_child in *. rewrite fmap_cons, not_elem_of_cons. intros [Hd Hl].
  rewrite fmap_cons, bool_decide_eq_false_2 by done. by rewrite IH.
Qed.

Lemma child_set_child x y c' l : node_name (t_node c') = x -> is_Some (child x l) ->
  child y (set_child x c' l) = if bool_decide (y = x) then Some c' else child y l.
Proof.
  intros Hn Hs. destruct (decide (y = x)) as [->|Hne].
  - rewrite (bool_decide_eq_true_2 (x = x)) by done. revert Hs. induction l as [|d l IH]; [by intros [? ?]|].
    unfold set_child. rewrite fmap_cons. cbn [child]. case_bool_decide as E.
    + intros _. by rewrite bool_decide_eq_true_2.
    + rewrite bool_decide_eq_false_2 by done. exact IH.
  - rewrite (bool_decide_eq_false_2 (y = x)) by done. clear Hs. induction l as [|d l IH]; [done|].
    unfold set_child. rewrite fmap_cons. cbn [child]. destruct (decide (node_name (t_node d) = x)) as [E|E].
    + rewrite (bool_decide_eq_true_2 (_ = x)) by done. rewrite (bool_decide_eq_false_2 (_ = y)) by congruence.
      rewrite (bool_decide_eq_false_2 (_ = y)) by congruence. exact IH.
    + rewrite (bool_decide_eq_false_2 (_ = x)) by done. case_bool_decide; [done|exact IH].
Qed.

Lemma names_set_child x c' l : node_name (t_node c') = x -> names (set_child x c' l) = names l.
Proof.
  intros Hn. unfold names, set_child. rewrite <- list_fmap_compose. apply list_fmap_ext. intros _ c _. cbn. case_bool_decide; congruence.
Qed.

Lemma child_app x l c : child x (l ++ [c]) = match child x l with Some d => Some d | None => if bool_decide (node_name (t_node c) = x) then Some c else None end.
Proof. induction l as [|d l IH]; [done|]. cbn [app child]. rewrite IH. destruct (bool_decide (node_name (t_node d) = x)); done. Qed.

Lemma tree_at_child q t x c : tree_at q t -> child x (t_children t) = Some c -> tree_at (q ++ [x]) c.
Proof.
  intros Ht (Hc & <-)%child_Some. destruct Ht as [q n cs _ _ Hf]. rewrite Forall_forall in Hf. by apply Hf.
Qed.

Lemma tree_at_node q t : tree_at q t -> node_at q (t_node t).
Proof. by destruct 1. Qed.

Lemma tree_at_names q t : tree_at q t -> NoDup (names (t_children t)).
Proof. by destruct 1. Qed.

(** ** Applying a node *)

Section apply_spec.
Context (target : Node).

Definition apply_list (depth : nat) : list Tree -> bool * list Tree :=
  fix go (l : list Tree) : bool * list Tree :=
    match l with
    | [] => (false, [])
    | child :: rest =>
        let next (c : Tree) := let '(found, rest') := go rest in (found, c :: rest') in
        if negb (bool_decide (target_vec target !! depth = Some (node_name (t_node child)))) then next child
        else if (depth =? length (target_vec target) - 1)%nat then
          (true, mkTree (with_overlay UpperModification target) (t_children child) :: rest)
        else if node_is_dir (t_node child) then
          let '(found, child') := apply_node target child in
          if found : bool then (true, child' :: rest) else next child'
        else next child
    end.

Lemma apply_node_eq t : apply_node target t =
  let len := length (target_vec target) in
  let depth := length (target_vec (t_node t)) in
  if bool_decide (n_path target = []) then (true, mkTree (with_overlay UpperModification target) (t_children t))
  else
    let '(found, children) := if (depth <? len)%nat then apply_list depth (t_children t) else (false, t_children t) in
    if found : bool then (true, mkTree (t_node t) children)
    else if (depth =? len - 1)%nat && bool_decide (target_vec target !! (depth - 1)%nat = Some (node_name (t_node t)))
    then (true, mkTree (t_node t) (children ++ [Tree_new (with_overlay UpperAddition target)]))
    else (false, mkTree (t_node t) children).
Proof. destruct t. reflexivity. Qed.

Lemma Tree_tree_ind (P : Tree -> Prop) : (forall n cs, Forall P cs -> P (mkTree n cs)) -> forall t, P t.
Proof.
  intros H. fix IH 1. intros [n cs]. apply H. induction cs as [|c cs IHc]; constructor; [apply IH|exact IHc].
Qed.

(** Nothing changes when the node is not applied. *)
Lemma apply_node_false t : (apply_node target t).1 = false -> (apply_node target t).2 = t.
Proof.
  induction t as [n cs IH] using Tree_tree_ind. rewrite apply_node_eq. cbn [t_node t_children]. cbv zeta.
  assert (forall depth, (apply_list depth cs).1 = false -> (apply_list depth cs).2 = cs) as Hl.
  { intros depth. induction IH as [|c cs Hc _ IHl]; [done|]. cbn [apply_list]. fold (apply_list depth).
    destruct (negb _); [destruct (apply_list depth cs) as [[] l]; [done|cbn in *; intros _; by rewrite IHl]|].
    destruct (_ =? _)%nat; [done|].
    destruct (node_is_dir (t_node c)); [|destruct (apply_list depth cs) as [[] l]; [done|cbn in *; intros _; by rewrite IHl]].
    destruct (apply_node target c) as [[] c']; [done|]. cbn in Hc. rewrite Hc by done.
    destruct (apply_list depth cs) as [[] l]; [done|cbn in *; intros _; by rewrite IHl]. }
  case_bool_decide; [done|]. destruct (_ <? _)%nat.
  - specialize (Hl (length (target_vec n))). destruct (apply_list _ cs) as [[] l]; [done|]. cbn in Hl. rewrite Hl by done. by destruct (_ && _).
  - by destruct (_ && _).
Qed.

Lemma apply_list_spec depth x l : target_vec target !! depth = Some x -> NoDup (names l) ->
  apply_list depth l =
  match child x l with
  | None => (false, l)
  | Some c =>
      if (depth =? length (target_vec target) - 1)%nat then
        (true, set_child x (mkTree (with_overlay UpperModification target) (t_children c)) l)
      else if node_is_dir (t_node c) then
        let '(found, c') := apply_node target c in if found : bool then (true, set_child x c' l) else (false, l)
      else (false, l)
  end.
Proof.
  intros Hx. induction l as [|d l IH]; [done|]. unfold names. rewrite fmap_cons, NoDup_cons. intros [Hd Hnd].
  cbn [apply_list child]. fold (apply_list depth). rewrite Hx. destruct (decide (node_name (t_node d) = x)) as [E|E].
  - rewrite (bool_decide_eq_true_2 (Some x = _)) by congruence. rewrite (bool_decide_eq_true_2 (_ = x)) by done. cbn [negb].
    rewrite E in Hd. assert (forall c', set_child x c' (d :: l) = c' :: l) as Hset.
    { intros c'. unfold set_child. rewrite fmap_cons, bool_decide_eq_true_2 by done. f_equal. by apply set_child_absent. }
    assert (apply_list depth l = (false, l)) as Hrest.
    { rewrite IH by done. destruct (child x l) as [c|] eqn:Ec; [|done]. apply child_Some in Ec as [Hc Hn]. destruct Hd.
      rewrite <- Hn. by apply (list_elem_of_fmap_2 (fun c => node_name (t_node c))). }
    rewrite !Hset. destruct (_ =? _)%nat; [done|]. rewrite Hrest. destruct (node_is_dir (t_node d)); [|done].
    pose proof (apply_node_false d) as Hf. destruct (apply_node target d) as [[] d']; [by rewrite Hset|]. cbn in Hf. by rewrite Hf.
  - rewrite (bool_decide_eq_false_2 (Some x = _)) by congruence. rewrite (bool_decide_eq_false_2 (_ = x)) by done. cbn [negb].
    rewrite IH by done. assert (forall c', set_child x c' (d :: l) = d :: set_child x c' l) as Hset.
    { intros c'. unfold set_child. rewrite fmap_cons. by rewrite bool_decide_eq_false_2. }
    destruct (child x l) as [c|]; [|done]. rewrite !Hset. destruct (_ =? _)%nat; [done|]. destruct (node_is_dir (t_node c)); [|done].
    destruct (apply_node target c) as [[] c']; [by rewrite Hset|done].
Qed.

(** What is found at [p] after the target was put at [P]: the target at [P]; below it the
    children that were there before, as long as the target is a directory; elsewhere what was
    there before. *)
Definition put (P : path) (t : Tree) (p : path) : option Node :=
  match strip_prefix P p with
  | Some [] => Some (with_overlay (if bool_decide (is_Some (subtree t P)) then UpperModification else UpperAddition) target)
  | Some r => match subtree t P with Some s => find (mkTree target (t_children s)) r | None => None end
  | None => find t p
  end.

Lemma find_overlay o cs y r : find (mkTree (with_overlay o target) cs) (y :: r) = find (mkTree target cs) (y :: r).
Proof. done. Qed.

Lemma find_cons t y p : node_is_dir (t_node t) = true ->
  find t (y :: p) = match child y (t_children t) with Some c => find c p | None => None end.
Proof. intros Hd. unfold find. cbn [subtree]. rewrite Hd. by destruct (child y _). Qed.

Lemma tree_at_set q n l x c' : tree_at q (mkTree n l) -> node_name (t_node c') = x -> tree_at (q ++ [x]) c' ->
  tree_at q (mkTree n (set_child x c' l)).
Proof.
  inversion 1 as [? ? ? Hn Hd Hf]. intros Hx Hc. constructor; [done|by rewrite names_set_child|].
  rewrite Forall_forall in Hf |- *. intros c (d & -> & Hin)%list_elem_of_fmap_1. case_bool_decide; [by rewrite Hx|by apply Hf].
Qed.

Lemma put_here x n l c' : node_is_dir n = true -> (forall p, find c' p = put [x] (mkTree n l) (x :: p)) ->
  forall l', (forall y, child y l' = if bool_decide (y = x) then Some c' else child y l) ->
  forall p, find (mkTree n l') p = put [x] (mkTree n l) p.
Proof.
  intros Hd Hc l' Hl [|y p]; [done|]. rewrite find_cons by done. cbn [t_children]. rewrite Hl. case_bool_decide as E; [by subst; apply Hc|].
  unfold put. cbn [strip_prefix]. rewrite bool_decide_eq_false_2 by congruence. by rewrite find_cons.
Qed.

Lemma apply_node_last q t x : tree_at q t -> node_at (q ++ [x]) target -> n_path target <> [] -> node_is_dir (t_node t) = true ->
  exists t', apply_node target t = (true, t') /\ tree_at q t' /\ t_node t' = t_node t /\ forall p, find t' p = put [x] t p.
Proof.
  intros Ht [Hv Hname] Hp Hd. pose proof (tree_at_node _ _ Ht) as [Hq Hqn]. pose proof (tree_at_names _ _ Ht) as Hnd.
  assert (node_name target = x) as Hx by (rewrite app_comm_cons, last_snoc in Hname; congruence).
  rewrite apply_node_eq. cbv zeta. rewrite (bool_decide_eq_false_2 (n_path target = [])) by done. rewrite Hq.
  assert (length (target_vec target) = S (S (length q))) as Hlen by (rewrite Hv; cbn; rewrite length_app; cbn; lia).
  rewrite Hlen. cbn [length]. rewrite (proj2 (Nat.ltb_lt _ _)) by lia.
  erewrite apply_list_spec; [|rewrite Hv, app_comm_cons; by apply (list_lookup_middle (_ :: q) [] x)|done].
  rewrite Hlen. replace (S (S (length q)) - 1)%nat with (S (length q)) by lia. rewrite Nat.eqb_refl.
  destruct t as [n l]. cbn [t_node t_children] in *. destruct (child x l) as [c|] eqn:Ec.
  - pose proof (tree_at_child _ _ _ _ Ht Ec) as Htc. eexists. split; [reflexivity|]. split; [|split; [done|]].
    + apply tree_at_set; [done|done|]. inversion Htc; subst. by constructor.
    + eapply put_here; [done| |intros y; apply child_set_child; [done|by rewrite Ec]].
      intros p. unfold put. cbn [strip_prefix]. rewrite bool_decide_eq_true_2 by done. cbn [subtree t_node]. rewrite Hd. cbn [t_children].
      rewrite Ec. destruct p; [|done]. by rewrite bool_decide_eq_true_2 by done.
  - assert (target_vec target !! length q = Some (node_name n)) as Hl.
    { rewrite Hv, app_comm_cons, lookup_app_l by (cbn; lia). rewrite <- Hqn, last_lookup. done. }
    cbn [andb Nat.sub]. rewrite Nat.sub_0_r, (bool_decide_eq_true_2 (_ !! _ = _)) by done.
    eexists. split; [reflexivity|]. split; [|split; [done|]].
    + inversion Ht as [? ? ? Hn Hnd' Hf]; subst. constructor; [done| |].
      * unfold names. rewrite fmap_app. apply NoDup_app. split; [done|]. split; [|apply NoDup_singleton].
        intros y Hy Hy2. apply list_elem_of_singleton in Hy2 as ->. by apply (child_None _ _ Ec).
      * apply Forall_app. split; [done|]. apply Forall_singleton. constructor; [done|apply NoDup_nil_2|constructor].
    + apply (put_here x n l (Tree_new (with_overlay UpperAddition target))); [done| |].
      * intros p. unfold put. cbn [strip_prefix]. rewrite bool_decide_eq_true_2 by done. cbn [subtree t_node]. rewrite Hd. cbn [t_children].
        rewrite Ec. destruct p; [done|]. unfold find. cbn. by case_match.
      * intros y. rewrite child_app. change (node_name (t_node (Tree_new (with_overlay UpperAddition target)))) with (node_name target). rewrite Hx.
        destruct (decide (y = x)) as [->|E]; [by rewrite Ec, bool_decide_eq_true_2|].
        rewrite (bool_decide_eq_false_2 (y = x)), (bool_decide_eq_false_2 (x = y)) by congruence. by destruct (child y l).
Qed.

Definition dir_at (t : Tree) (p : path) : bool := match subtree t p with Some d => node_is_dir (t_node d) | None => false end.

Lemma dir_at_cons t x p : node_is_dir (t_node t) = true ->
  dir_at t (x :: p) = match child x (t_children t) with Some c => dir_at c p | None => false end.
Proof. intros Hd. unfold dir_at. cbn [subtree]. rewrite Hd. by destruct (child x _). Qed.

Lemma dir_at_file t p : node_is_dir (t_node t) = false -> dir_at t p = false.
Proof. intros Hd. destruct p; unfold dir_at; cbn [subtree]; rewrite Hd; done. Qed.

Lemma apply_node_spec P q t x : tree_at q t -> node_at (q ++ P ++ [x]) target -> n_path target <> [] -> node_is_dir (t_node t) = true ->
  if dir_at t P then
    exists t', apply_node target t = (true, t') /\ tree_at q t' /\ t_node t' = t_node t /\ forall p, find t' p = put (P ++ [x]) t p
  else apply_node target t = (false, t).
Proof.
  revert q t. induction P as [|y P IH]; intros q t Ht Htarget Hp Hd.
  { unfold dir_at. cbn [subtree]. rewrite Hd. by apply apply_node_last. }
  rewrite dir_at_cons by done. pose proof (tree_at_node _ _ Ht) as [Hq _]. pose proof (tree_at_names _ _ Ht) as Hnd.
  pose proof Htarget as [Hv _].
  assert (length (target_vec target) = S (S (S (length q + length P)))) as Hlen by (rewrite Hv; cbn; rewrite !length_app; cbn; rewrite !length_app; cbn; lia).
  assert (target_vec target !! S (length q) = Some y) as Hy.
  { rewrite Hv. cbn [app]. rewrite app_comm_cons. by apply (list_lookup_middle (_ :: q)). }
  assert (apply_node target t = match child y (t_children t) with
    | Some c => if node_is_dir (t_node c) then
        let '(found, c') := apply_node target c in
        if found : bool then (true, mkTree (t_node t) (set_child y c' (t_children t))) else (false, t)
      else (false, t)
    | None => (false, t) end) as ->.
  { rewrite apply_node_eq. cbv zeta. rewrite (bool_decide_eq_false_2 (n_path target = [])) by done. rewrite Hq. cbn [length].
    rewrite Hlen, (proj2 (Nat.ltb_lt _ _)) by lia. rewrite (apply_list_spec _ y) by done. rewrite Hlen, (proj2 (Nat.eqb_neq _ _)) by lia.
    destruct t as [n l]. cbn [t_node t_children andb]. destruct (child y l) as [c|]; [|done]. destruct (node_is_dir (t_node c)); [|done].
    by destruct (apply_node target c) as [[] c']. }
  destruct t as [n l]. cbn [t_node t_children] in *. destruct (child y l) as [c|] eqn:Ec; [|done].
  destruct (node_is_dir (t_node c)) eqn:Edc; [|by rewrite dir_at_file].
  pose proof (tree_at_child _ _ _ _ Ht Ec) as Htc. specialize (IH (q ++ [y]) c Htc). rewrite <- app_assoc in IH.
  specialize (IH Htarget Hp Edc). destruct (dir_at c P); [|by rewrite IH]. destruct IH as (c' & -> & Htc' & Hn' & Hf).
  assert (node_name (t_node c') = y) as Hname by (rewrite Hn'; by apply child_Some in Ec as [_ ?]).
  eexists. split; [reflexivity|]. split; [by apply tree_at_set|]. split; [done|].
  intros [|z p]; [done|]. rewrite find_cons by done. cbn [t_children]. rewrite child_set_child by (done || by rewrite Ec).
  unfold put. cbn [app strip_prefix subtree t_node t_children]. rewrite Hd. destruct (decide (z = y)) as [->|Hne].
  - rewrite !(bool_decide_eq_true_2 (y = y)), Ec by done. rewrite Hf. unfold put. destruct (strip_prefix _ p) as [[|]|]; [done|done|].
    rewrite find_cons by done. cbn [t_children]. by rewrite Ec.
  - rewrite (bool_decide_eq_false_2 (z = y)), (bool_decide_eq_false_2 (y = z)) by congruence. by rewrite find_cons.
Qed.
End apply_spec.

(** ** Whiteouts *)

(** The first child that is removed ([Some None]) or replaced. *)
Fixpoint splice_first (f : Tree -> option (option Tree)) (l : list Tree) : bool * list Tree :=
  match l with
  | [] => (false, [])
  | c :: l =>
      match f c with
      | Some None => (true, l)
      | Some (Some c') => (true, c' :: l)
      | None => let '(found, l') := splice_first f l in (found, c :: l')
      end
  end.

Definition del_child (x : name) (l : list Tree) : list Tree := filter (fun c => node_name (t_node c) <> x) l.

Lemma del_child_absent x l : x ∉ names l -> del_child x l = l.
Proof.
  induction l as [|d l IH]; [done|]. unfold names, del_child. rewrite fmap_cons, not_elem_of_cons. intros [Hd Hl].
  rewrite filter_cons_True by done. f_equal. by apply IH.
Qed.

Lemma child_del_child x y l : child y (del_child x l) = if bool_decide (y = x) then None else child y l.
Proof.
  unfold del_child. induction l as [|d l IH]; [by case_bool_decide|]. rewrite filter_cons. destruct (decide (node_name (t_node d) = x)) as [E|E].
  - rewrite decide_False by (by intros ?). rewrite IH. cbn [child]. case_bool_decide as E2; [done|]. by rewrite (bool_decide_eq_false_2 (_ = y)) by congruence.
  - rewrite decide_True by done. cbn [child]. rewrite IH. destruct (decide (node_name (t_node d) = y)) as [E2|E2].
    + rewrite !(bool_decide_eq_true_2 (_ = y)), (bool_decide_eq_false_2 (y = x)) by congruence. done.
    + by rewrite !(bool_decide_eq_false_2 (node_name _ = y)) by done.
Qed.

(** Only the child named [y] is hit. *)
Lemma splice_first_child f y l : NoDup (names l) -> (forall c, c ∈ l -> node_name (t_node c) <> y -> f c = None) ->
  splice_first f l =
  match child y l with
  | Some c => match f c with
              | Some None => (true, del_child y l)
              | Some (Some c') => (true, set_child y c' l)
              | None => (false, l)
              end
  | None => (false, l)
  end.
Proof.
  induction l as [|d l IH]; [done|]. unfold names. rewrite fmap_cons, NoDup_cons. intros [Hd Hnd] Hf. cbn [splice_first child].
  assert (forall c, c ∈ l -> node_name (t_node c) <> y -> f c = None) as Hf' by (intros c Hc; apply Hf; by right).
  destruct (decide (node_name (t_node d) = y)) as [E|E].
  - rewrite (bool_decide_eq_true_2 (_ = y)) by done. rewrite E in Hd. destruct (f d) as [[c'|]|] eqn:Ef.
    + unfold set_child. rewrite fmap_cons, bool_decide_eq_true_2 by done. fold (set_child y c' l). by rewrite set_child_absent.
    + unfold del_child. rewrite filter_cons_False by (by intros ?). fold (del_child y l). by rewrite del_child_absent.
    + rewrite IH by done. destruct (child y l) as [c|] eqn:Ec; [|done]. apply child_Some in Ec as [Hc Hn]. destruct Hd.
      rewrite <- Hn. by apply (list_elem_of_fmap_2 (fun c => node_name (t_node c))).
  - rewrite (bool_decide_eq_false_2 (_ = y)) by done. rewrite (Hf d) by (done || by left). rewrite IH by done.
    destruct (child y l) as [c|]; [|done]. destruct (f c) as [[c'|]|] eqn:Ef; [| |done].
    + unfold set_child. by rewrite fmap_cons, bool_decide_eq_false_2.
    + unfold del_child. by rewrite filter_cons_True by done.
Qed.

Section remove_spec.
Context (target : Node) (wt : WhiteoutType) (origin parent : option name).

Definition remove_step (depth : nat) (c : Tree) : option (option Tree) :=
  let len := length (target_vec target) in
  let descend (_ : unit) :=
    if node_is_dir (t_node c) then
      let '(found, c') := remove target wt origin parent c in if found : bool then Some (Some c') else None
    else None in
  let opaque (_ : unit) := Some (Some (mkTree (with_overlay UpperOpaque (t_node c)) [])) in
  if (depth =? len - 1)%nat && is_removal wt && bool_decide (origin = Some (node_name (t_node c))) then Some None
  else if bool_decide (wt = OciOpaque) && (2 <=? len)%nat && (depth =? len - 2)%nat then
    if bool_decide (parent = Some (node_name (t_node c))) then opaque tt else descend tt
  else if bool_decide (wt = OverlayFsOpaque) && (depth =? len - 1)%nat && bool_decide (node_name target = node_name (t_node c)) then opaque tt
  else descend tt.

Definition remove_list (depth : nat) : list Tree -> bool * list Tree :=
  fix go (l : list Tree) : bool * list Tree :=
    match l with
    | [] => (false, [])
    | child :: rest =>
        let next (c : Tree) := let '(found, rest') := go rest in (found, c :: rest') in
        let descend (_ : unit) :=
          if node_is_dir (t_node child) then
            let '(found, child') := remove target wt origin parent child in
            if found : bool then (true, child' :: rest) else next child'
          else next child in
        let opaque (_ : unit) := (true, mkTree (with_overlay UpperOpaque (t_node child)) [] :: rest) in
        let len := length (target_vec target) in
        if (depth =? len - 1)%nat && is_removal wt && bool_decide (origin = Some (node_name (t_node child)))
        then (true, rest)
        else if bool_decide (wt = OciOpaque) && (2 <=? len)%nat && (depth =? len - 2)%nat then
          if bool_decide (parent = Some (node_name (t_node child))) then opaque tt else descend tt
        else if bool_decide (wt = OverlayFsOpaque) && (depth =? len - 1)%nat && bool_decide (node_name target = node_name (t_node child)) then opaque tt
        else descend tt
    end.

Lemma remove_raw t : remove target wt origin parent t =
  let len := length (target_vec target) in
  let depth := length (target_vec (t_node t)) in
  if (len <=? depth)%nat || negb (bool_decide (target_vec (t_node t) !! (depth - 1)%nat = target_vec target !! (depth - 1)%nat)) then (false, t)
  else if (depth =? 1)%nat &&
          (bool_decide (wt = OciOpaque) && (len =? 2)%nat || bool_decide (wt = OverlayFsOpaque) && (len =? 1)%nat)
  then (true, mkTree (with_overlay UpperOpaque (t_node t)) [])
  else let '(found, children) := remove_list depth (t_children t) in (found, mkTree (t_node t) children).
Proof. destruct t. reflexivity. Qed.

Definition keeps (c : Tree) : Prop := (remove target wt origin parent c).1 = false -> (remove target wt origin parent c).2 = c.

(** The loop over the children, where a child that nothing is removed from stays as it is. *)
Lemma remove_list_splice depth l : Forall keeps l -> remove_list depth l = splice_first (remove_step depth) l.
Proof.
  induction 1 as [|c l Hc _ IH]; [done|]. cbn [remove_list splice_first]. fold (remove_list depth). rewrite IH.
  assert ((if node_is_dir (t_node c) then
      let '(found, c') := remove target wt origin parent c in
      if found : bool then (true, c' :: l) else let '(found, l') := splice_first (remove_step depth) l in (found, c' :: l')
    else let '(found, l') := splice_first (remove_step depth) l in (found, c :: l')) =
    match (if node_is_dir (t_node c) then let '(found, c') := remove target wt origin parent c in if found : bool then Some (Some c') else None else None) with
    | Some None => (true, l) | Some (Some c') => (true, c' :: l)
    | None => let '(found, l') := splice_first (remove_step depth) l in (found, c :: l') end) as Hd.
  { unfold keeps in Hc. destruct (node_is_dir (t_node c)); [|done]. destruct (remove target wt origin parent c) as [[] c']; [done|].
    cbn in Hc. by rewrite Hc. }
  set (r := splice_first (remove_step depth) l) in *. unfold remove_step.
  destruct ((depth =? _)%nat && is_removal wt && _); [done|]. destruct (bool_decide (wt = OciOpaque) && _ && _).
  - destruct (bool_decide _); [done|exact Hd].
  - destruct (bool_decide (wt = OverlayFsOpaque) && _ && _); [done|exact Hd].
Qed.

Lemma splice_first_false f l : (splice_first f l).1 = false -> (splice_first f l).2 = l.
Proof.
  induction l as [|c l IH]; [done|]. cbn. destruct (f c) as [[]|]; [done|done|]. destruct (splice_first f l) as [[] l']; [done|].
  cbn in *. intros _. by rewrite IH.
Qed.

Lemma remove_keeps t : keeps t.
Proof.
  induction t as [n cs IH] using Tree_tree_ind. unfold keeps. rewrite remove_raw. cbv zeta. cbn [t_node t_children].
  destruct (_ || _); [done|]. destruct (_ && _); [done|]. rewrite remove_list_splice by done.
  pose proof (splice_first_false (remove_step (length (target_vec n))) cs) as Hs. destruct (splice_first _ cs) as [[] l]; [done|]. cbn in *. intros _. by rewrite Hs.
Qed.

Lemma remove_eq t : remove target wt origin parent t =
  let len := length (target_vec target) in
  let depth := length (target_vec (t_node t)) in
  if (len <=? depth)%nat || negb (bool_decide (target_vec (t_node t) !! (depth - 1)%nat = target_vec target !! (depth - 1)%nat)) then (false, t)
  else if (depth =? 1)%nat &&
          (bool_decide (wt = OciOpaque) && (len =? 2)%nat || bool_decide (wt = OverlayFsOpaque) && (len =? 1)%nat)
  then (true, mkTree (with_overlay UpperOpaque (t_node t)) [])
  else let '(found, children) := splice_first (remove_step depth) (t_children t) in (found, mkTree (t_node t) children).
Proof. rewrite remove_raw. cbv zeta. rewrite remove_list_splice; [done|]. apply Forall_true, remove_keeps. Qed.

Lemma tree_at_length q t : tree_at q t -> length (target_vec (t_node t)) = S (length q).
Proof. intros Ht. by destruct (tree_at_node _ _ Ht) as [-> _]. Qed.

(** A subtree that is not on the path of the target. *)
Lemma remove_skip q y z R c : tree_at (q ++ [z]) c -> z <> y -> target_vec target = ROOT_PATH_NAME :: q ++ y :: R ->
  remove target wt origin parent c = (false, c).
Proof.
  intros Hc Hzy Hv. rewrite remove_eq. cbv zeta. rewrite (tree_at_length _ _ Hc). destruct (tree_at_node _ _ Hc) as [-> _].
  rewrite Hv, length_app. cbn [length]. replace (S (length q + 1) - 1)%nat with (S (length q)) by lia.
  rewrite !app_comm_cons, !(list_lookup_middle (_ :: q)) by done. by rewrite (bool_decide_eq_false_2 (Some z = Some y)), orb_true_r by congruence.
Qed.

(** A subtree as deep as the target. *)
Lemma remove_deep q c : tree_at q c -> (length (target_vec target) <= S (length q))%nat -> remove target wt origin parent c = (false, c).
Proof.
  intros Hc Hl. rewrite remove_eq. cbv zeta. rewrite (tree_at_length _ _ Hc), (proj2 (Nat.leb_le _ _)) by done. done.
Qed.

(** Above the target the node on its path passes the checks. *)
Lemma remove_on_path q t R : tree_at q t -> target_vec target = ROOT_PATH_NAME :: q ++ R -> R <> [] ->
  (q = [] -> wt = OciOpaque -> length R <> 1%nat) ->
  remove target wt origin parent t =
  let '(found, children) := splice_first (remove_step (S (length q))) (t_children t) in (found, mkTree (t_node t) children).
Proof.
  intros Ht Hv HR Hroot. rewrite remove_eq. cbv zeta. rewrite (tree_at_length _ _ Ht). destruct (tree_at_node _ _ Ht) as [-> _]. rewrite Hv.
  destruct R as [|r R]; [done|]. cbn [length]. rewrite length_app. cbn [length]. rewrite (proj2 (Nat.leb_gt _ _)) by lia.
  replace (S (length q) - 1)%nat with (length q) by lia. rewrite app_comm_cons, lookup_app_l by (cbn; lia).
  rewrite (bool_decide_eq_true_2 (_ = _)) by done. cbn [negb orb]. destruct (Nat.eqb_spec (S (length q)) 1) as [Hq|Hq]; [|done].
  assert (q = []) as -> by (destruct q; [done|cbn in Hq; lia]). cbn [andb length] in *. destruct (bool_decide_reflect (wt = OciOpaque)) as [Ho|Ho].
  - destruct R as [|r2 R]; [by destruct (Hroot eq_refl Ho)|]. cbn. by rewrite andb_false_r.
  - cbn. by rewrite andb_false_r.
Qed.

Lemma child_named q t x c : tree_at q t -> c ∈ t_children t -> node_name (t_node c) = x -> tree_at (q ++ [x]) c.
Proof. intros Ht Hc <-. destruct Ht as [q n cs _ _ Hf]. rewrite Forall_forall in Hf. by apply Hf. Qed.

(** Going down towards the target. *)
Lemma remove_descend q t y R : tree_at q t -> target_vec target = ROOT_PATH_NAME :: q ++ y :: R ->
  (is_removal wt = true -> R <> []) -> (wt = OciOpaque -> (2 <= length R)%nat) -> wt <> OverlayFsOpaque ->
  remove target wt origin parent t =
  match child y (t_children t) with
  | Some c => if node_is_dir (t_node c) then
      let '(found, c') := remove target wt origin parent c in
      if found : bool then (true, mkTree (t_node t) (set_child y c' (t_children t))) else (false, t)
    else (false, t)
  | None => (false, t)
  end.
Proof.
  intros Ht Hv Hrem Hop Hovl. rewrite (remove_on_path q t (y :: R)); [|done|done|done|intros _ Ho; specialize (Hop Ho); cbn; lia].
  assert (length (target_vec target) = S (length q + S (length R))) as Hlen by (rewrite Hv; cbn; by rewrite length_app).
  assert (forall c, remove_step (S (length q)) c = if node_is_dir (t_node c) then
      let '(found, c') := remove target wt origin parent c in if found : bool then Some (Some c') else None else None) as Hstep.
  { intros c. unfold remove_step. rewrite Hlen. rewrite (bool_decide_eq_false_2 (wt = OverlayFsOpaque)) by done. cbn [andb].
    assert ((S (length q) =? S (length q + S (length R)) - 1)%nat && is_removal wt = false) as ->.
    { destruct (is_removal wt); [|by rewrite andb_false_r]. rewrite andb_true_r. apply Nat.eqb_neq. destruct R; [by destruct Hrem|]. cbn. lia. }
    cbn [andb]. destruct (bool_decide_reflect (wt = OciOpaque)) as [Ho|Ho]; [|done]. specialize (Hop Ho).
    rewrite (proj2 (Nat.eqb_neq (S (length q)) _)) by lia. by rewrite andb_false_r. }
  erewrite (splice_first_child _ y); [|by eapply tree_at_names|].
  2:{ intros c Hc Hne. rewrite Hstep. destruct (node_is_dir (t_node c)); [|done].
      by rewrite (remove_skip q y (node_name (t_node c)) R) by (by eapply child_named || done). }
  destruct t as [n l]. cbn [t_node t_children]. destruct (child y l) as [c|]; [|done]. rewrite Hstep.
  destruct (node_is_dir (t_node c)); [|done]. by destruct (remove target wt origin parent c) as [[] c'].
Qed.
End remove_spec.

(** A removal of [x] in the directory of the whiteout file. *)
Lemma remove_last target wt x parent w q t : is_removal wt = true -> tree_at q t -> node_is_dir (t_node t) = true ->
  target_vec target = ROOT_PATH_NAME :: q ++ [w] ->
  remove target wt (Some x) parent t =
  match child x (t_children t) with Some _ => (true, mkTree (t_node t) (del_child x (t_children t))) | None => (false, t) end.
Proof.
  intros Hwt Ht Hd Hv. assert (wt <> OciOpaque /\ wt <> OverlayFsOpaque) as [Hno1 Hno2] by (by destruct wt).
  rewrite (remove_on_path _ _ _ _ q t [w]) by done.
  assert (length (target_vec target) = S (S (length q))) as Hlen by (rewrite Hv; cbn; rewrite length_app; cbn; lia).
  assert (forall c, c ∈ t_children t -> remove_step target wt (Some x) parent (S (length q)) c =
    if bool_decide (node_name (t_node c) = x) then Some None else None) as Hstep.
  { intros c Hc. unfold remove_step. rewrite Hlen. replace (S (S (length q)) - 1)%nat with (S (length q)) by lia. rewrite Nat.eqb_refl, Hwt.
    rewrite (bool_decide_eq_false_2 (wt = OciOpaque)), (bool_decide_eq_false_2 (wt = OverlayFsOpaque)) by done. cbn [andb].
    destruct (decide (node_name (t_node c) = x)) as [E|E].
    - by rewrite !bool_decide_eq_true_2 by congruence.
    - rewrite !bool_decide_eq_false_2 by congruence. destruct (node_is_dir (t_node c)); [|done].
      erewrite remove_deep; [done|by eapply child_named|]. rewrite Hlen, length_app. cbn. lia. }
  erewrite (splice_first_child _ x); [|by eapply tree_at_names|intros c Hc Hne; rewrite Hstep by done; by rewrite bool_decide_eq_false_2].
  destruct t as [n l]. cbn [t_node t_children] in *. destruct (child x l) as [c|] eqn:Ec; [|done].
  pose proof (child_Some _ _ _ Ec) as [Hc Hn]. rewrite Hstep by done. by rewrite bool_decide_eq_true_2.
Qed.

(** What a whiteout at [P] hides. *)
Definition hidden (P : path) (t : Tree) (p : path) : option Node := match strip_prefix P p with Some _ => None | None => find t p end.

Lemma subtree_None t P p : subtree t P = None -> hidden P t p = find t p.
Proof.
  intros Hs. unfold hidden. destruct (strip_prefix P p) as [r|] eqn:E; [|done]. symmetry. revert t p Hs E.
  induction P as [|x P IH]; intros t p Hs E; [done|]. destruct p as [|y p]; [done|]. cbn in E. case_bool_decide; [|done]. subst y.
  cbn [subtree] in Hs. unfold find. cbn [subtree]. destruct (node_is_dir (t_node t)); [|done].
  destruct (child x (t_children t)); [|done]. by eapply IH.
Qed.

Lemma hidden_cons y P n l c : node_is_dir n = true -> child y l = Some c ->
  forall c' l', (forall p, find c' p = hidden P c p) -> (forall z, child z l' = if bool_decide (z = y) then Some c' else child z l) ->
  forall p, find (mkTree n l') p = hidden (y :: P) (mkTree n l) p.
Proof.
  intros Hd Hc c' l' Hf Hl [|z p]; [done|]. unfold hidden. cbn [strip_prefix]. rewrite !find_cons by done. cbn [t_children]. rewrite Hl.
  destruct (decide (z = y)) as [->|Hne].
  - rewrite !bool_decide_eq_true_2 by done. by rewrite Hf, Hc.
  - by rewrite !bool_decide_eq_false_2 by congruence.
Qed.

(** A removal of [x] in the directory [Q], written as a whiteout file there. *)
Lemma remove_spec target wt x parent w Q q t : is_removal wt = true -> tree_at q t -> node_is_dir (t_node t) = true ->
  target_vec target = ROOT_PATH_NAME :: q ++ Q ++ [w] ->
  let r := remove target wt (Some x) parent t in
  tree_at q r.2 /\ t_node r.2 = t_node t /\ (r.1 = false -> subtree t (Q ++ [x]) = None) /\ forall p, find r.2 p = hidden (Q ++ [x]) t p.
Proof.
  intros Hwt. assert (wt <> OciOpaque /\ wt <> OverlayFsOpaque) as [Hno1 Hno2] by (by destruct wt).
  assert (forall q t P, tree_at q t -> subtree t P = None ->
    tree_at q t /\ t_node t = t_node t /\ (false = false -> subtree t P = None) /\ forall p, find t p = hidden P t p) as Hnothing
    by (intros q' t' P Ht HP; split_and!; [done|done|done|intros p; by rewrite subtree_None]).
  revert q t. induction Q as [|y Q IH]; intros q t Ht Hd Hv r; unfold r.
  - rewrite (remove_last _ _ _ _ w q) by done. cbn [app]. destruct t as [n l]. cbn [t_node t_children] in *.
    destruct (child x l) as [c|] eqn:Ec; [|apply Hnothing; [done|]; cbn [subtree t_node t_children]; by rewrite Hd, Ec].
    cbn [fst snd]. split; [|split; [done|split; [done|]]].
    + inversion Ht as [? ? ? Hn0 Hnd Hf]; subst. constructor; [done| |].
      * unfold names, del_child. eapply sublist_NoDup; [exact Hnd|]. apply fmap_sublist, sublist_filter.
      * rewrite Forall_forall in Hf |- *. intros d [_ Hin]%list_elem_of_filter. by apply Hf.
    + intros [|y p]; [done|]. unfold hidden. rewrite !find_cons by done. cbn [t_children strip_prefix]. rewrite child_del_child.
      destruct (decide (y = x)) as [->|Hne]; [by rewrite !bool_decide_eq_true_2|]. by rewrite !bool_decide_eq_false_2 by congruence.
  - rewrite (remove_descend _ _ _ _ q t y (Q ++ [w])); [|done|done|intros _; by destruct Q|done|done].
    destruct t as [n l]. cbn [t_node t_children app] in *.
    destruct (child y l) as [c|] eqn:Ec; [|apply Hnothing; [done|]; cbn [subtree t_node t_children]; by rewrite Hd, Ec].
    destruct (node_is_dir (t_node c)) eqn:Edc.
    2:{ apply Hnothing; [done|]. cbn [subtree t_node t_children]. rewrite Hd, Ec. destruct Q; cbn [app subtree]; by rewrite Edc. }
    pose proof (tree_at_child _ _ _ _ Ht Ec) as Htc. specialize (IH (q ++ [y]) c Htc Edc). rewrite <- app_assoc in IH. specialize (IH Hv).
    cbv zeta in IH. destruct (remove target wt (Some x) parent c) as [[] c']; cbn [fst snd] in *; destruct IH as (Ht' & Hn' & Hb & Hf).
    + assert (node_name (t_node c') = y) as Hname by (rewrite Hn'; by apply child_Some in Ec as [_ ?]).
      split; [by apply tree_at_set|]. split; [done|]. split; [done|]. eapply hidden_cons; [done|done|exact Hf|].
      intros z. apply child_set_child; [done|by rewrite Ec].
    + apply Hnothing; [done|]. cbn [subtree t_node t_children]. rewrite Hd, Ec. by apply Hb.
Qed.

(** An opaque directory [Q]: its content is hidden. *)
Definition emptied (Q : path) (t : Tree) (p : path) : option Node :=
  match strip_prefix Q p, find t Q with
  | Some [], Some d => Some (with_overlay UpperOpaque d)
  | Some _, _ => None
  | None, _ => find t p
  end.

Lemma emptied_None t Q p : subtree t Q = None -> emptied Q t p = find t p.
Proof.
  intros Hs. rewrite <- (subtree_None t Q p Hs). unfold emptied, hidden. assert (find t Q = None) as -> by (unfold find; by rewrite Hs).
  by destruct (strip_prefix Q p) as [[]|].
Qed.

Lemma emptied_cons y Q n l c : node_is_dir n = true -> child y l = Some c ->
  forall c' l', (forall p, find c' p = emptied Q c p) -> (forall z, child z l' = if bool_decide (z = y) then Some c' else child z l) ->
  forall p, find (mkTree n l') p = emptied (y :: Q) (mkTree n l) p.
Proof.
  intros Hd Hc c' l' Hf Hl [|z p]; [done|]. unfold emptied. cbn [strip_prefix]. rewrite !find_cons by done. cbn [t_children]. rewrite Hl, Hc.
  destruct (decide (z = y)) as [->|Hne].
  - rewrite !bool_decide_eq_true_2 by done. rewrite Hf, Hc. done.
  - rewrite !bool_decide_eq_false_2 by congruence. by destruct (child z l).
Qed.

Lemma opaque_last target origin w y q t : tree_at q t -> target_vec target = ROOT_PATH_NAME :: q ++ y :: [w] ->
  remove target OciOpaque origin (Some y) t =
  match child y (t_children t) with
  | Some c => (true, mkTree (t_node t) (set_child y (mkTree (with_overlay UpperOpaque (t_node c)) []) (t_children t)))
  | None => (false, t)
  end.
Proof.
  intros Ht Hv. rewrite (remove_on_path _ _ _ _ q t (y :: [w])) by done.
  assert (length (target_vec target) = S (S (S (length q)))) as Hlen by (rewrite Hv; cbn; rewrite length_app; cbn; lia).
  assert (forall c, c ∈ t_children t -> remove_step target OciOpaque origin (Some y) (S (length q)) c =
    if bool_decide (node_name (t_node c) = y) then Some (Some (mkTree (with_overlay UpperOpaque (t_node c)) [])) else None) as Hstep.
  { intros c Hc. unfold remove_step. rewrite Hlen. cbn [is_removal]. rewrite (proj2 (Nat.eqb_neq (S (length q)) _)) by lia. cbn [andb].
    rewrite (bool_decide_eq_true_2 (OciOpaque = OciOpaque)) by done. replace (S (S (S (length q))) - 2)%nat with (S (length q)) by lia.
    rewrite Nat.eqb_refl. cbn [andb Nat.leb]. destruct (decide (node_name (t_node c) = y)) as [E|E].
    - by rewrite !bool_decide_eq_true_2 by congruence.
    - rewrite !bool_decide_eq_false_2 by congruence. destruct (node_is_dir (t_node c)); [|done].
      by rewrite (remove_skip _ _ _ _ q y (node_name (t_node c)) [w]) by (by eapply child_named || done). }
  erewrite (splice_first_child _ y); [|by eapply tree_at_names|intros c Hc Hne; rewrite Hstep by done; by rewrite bool_decide_eq_false_2].
  destruct t as [n l]. cbn [t_node t_children] in *. destruct (child y l) as [c|] eqn:Ec; [|done].
  pose proof (child_Some _ _ _ Ec) as [Hc Hn]. rewrite Hstep by done. by rewrite bool_decide_eq_true_2.
Qed.

Lemma opaque_below target origin w Q q t : Q <> [] -> tree_at q t -> node_is_dir (t_node t) = true ->
  target_vec target = ROOT_PATH_NAME :: q ++ Q ++ [w] ->
  let r := remove target OciOpaque origin (last Q) t in
  tree_at q r.2 /\ t_node r.2 = t_node t /\ (r.1 = false -> subtree t Q = None) /\ forall p, find r.2 p = emptied Q t p.
Proof.
  assert (forall q t P, tree_at q t -> subtree t P = None ->
    tree_at q t /\ t_node t = t_node t /\ (false = false -> subtree t P = None) /\ forall p, find t p = emptied P t p) as Hnothing
    by (intros q' t' P Ht HP; split_and!; [done|done|done|intros p; by rewrite emptied_None]).
  intros HQ. revert q t. induction Q as [|y Q IH]; [done|]. intros q t Ht Hd Hv r. unfold r. destruct Q as [|y2 Q].
  - cbn [last]. rewrite (opaque_last _ _ w y q) by done. destruct t as [n l]. cbn [t_node t_children] in *.
    destruct (child y l) as [c|] eqn:Ec; [|apply Hnothing; [done|]; cbn [subtree t_node t_children]; by rewrite Hd, Ec].
    pose proof (tree_at_child _ _ _ _ Ht Ec) as Htc. pose proof (child_Some _ _ _ Ec) as [_ Hn]. cbn [fst snd]. split; [|split; [done|split; [done|]]].
    + apply tree_at_set; [done|done|]. inversion Htc as [? ? ? Hna _ _]; subst. constructor; [exact Hna|apply NoDup_nil_2|constructor].
    + eapply (emptied_cons y [] n l c); [done|done| |intros z; apply child_set_child; [done|by rewrite Ec]].
      intros p. unfold emptied. cbn [strip_prefix]. destruct p; [done|]. unfold find. cbn. by case_match.
  - change (last (y :: y2 :: Q)) with (last (y2 :: Q)).
    rewrite (remove_descend _ _ _ _ q t y ((y2 :: Q) ++ [w])); [|done|done|done|intros _; rewrite length_app; cbn; lia|done].
    destruct t as [n l]. cbn [t_node t_children] in *.
    destruct (child y l) as [c|] eqn:Ec; [|apply Hnothing; [done|]; cbn [subtree t_node t_children]; by rewrite Hd, Ec].
    destruct (node_is_dir (t_node c)) eqn:Edc; [|apply Hnothing; [done|]; cbn [subtree t_node t_children]; by rewrite Hd, Ec, Edc].
    pose proof (tree_at_child _ _ _ _ Ht Ec) as Htc. specialize (IH ltac:(done) (q ++ [y]) c Htc Edc). rewrite <- app_assoc in IH. specialize (IH Hv).
    cbv zeta in IH. destruct (remove target OciOpaque origin _ c) as [[] c']; cbn [fst snd] in *; destruct IH as (Ht' & Hn' & Hb & Hf).
    + assert (node_name (t_node c') = y) as Hname by (rewrite Hn'; by apply child_Some in Ec as [_ ?]).
      split; [by apply tree_at_set|]. split; [done|]. split; [done|]. eapply emptied_cons; [done|done|exact Hf|].
      intros z. apply child_set_child; [done|by rewrite Ec].
    + apply Hnothing; [done|]. change (subtree (mkTree n l) (y :: y2 :: Q) = None). cbn [subtree t_node t_children]. rewrite Hd, Ec. by apply Hb.
Qed.

(** ** Layers *)

Lemma strip_prefix_app a b : strip_prefix a (a ++ b) = Some b.
Proof. induction a as [|x a IH]; [done|]. cbn. by rewrite bool_decide_eq_true_2. Qed.

(** A node of a layer at [Q], named [x]. *)
Lemma layer_node target Q x : n_path target = n_source target ++ Q ++ [x] ->
  node_at (Q ++ [x]) target /\ node_name target = x /\ n_path target <> [] /\ (Q <> [] -> parent_name target = last Q).
Proof.
  intros Hp. assert (n_path target <> n_source target) as Hne.
  { intros E. rewrite Hp in E. apply (f_equal length) in E. rewrite !length_app in E. cbn in E. lia. }
  assert (node_name target = x) as Hx.
  { unfold node_name. rewrite bool_decide_eq_false_2 by done. by rewrite Hp, app_assoc, last_snoc. }
  split; [split|split; [done|split]].
  - unfold target_vec, generate_target. by rewrite Hp, strip_prefix_app.
  - by rewrite app_comm_cons, last_snoc, Hx.
  - rewrite Hp. by destruct (n_source target); [destruct Q|].
  - intros HQ. unfold parent_name. rewrite Hp. destruct (n_source target ++ Q ++ [x]) eqn:E; [by destruct (n_source target); [destruct Q|]|].
    rewrite <- E, app_assoc, removelast_last. destruct Q as [|y Q _] using rev_ind; [done|]. by rewrite app_assoc, !last_snoc.
Qed.

(** What is found at [p] after a node of an OCI layer was applied. *)
Definition oci_ref (target : Node) (Q : path) (x : name) (t : Tree) (p : path) : option Node :=
  match whiteout_type SpecOci target with
  | Some OciOpaque => emptied Q t p
  | Some _ => hidden (Q ++ [drop 4 x]) t p
  | None => if dir_at t Q then put target (Q ++ [x]) t p else find t p
  end.

Lemma whiteout_oci target wt : whiteout_type SpecOci target = Some wt ->
  utf8_valid (node_name target) = true /\ (wt = OciOpaque \/ wt = OciRemoval).
Proof. unfold whiteout_type. repeat case_match; intros; simplify_eq; eauto. Qed.

Lemma opaque_root target origin parent x t : tree_at [] t -> target_vec target = [ROOT_PATH_NAME; x] ->
  remove target OciOpaque origin parent t = (true, mkTree (with_overlay UpperOpaque (t_node t)) []).
Proof.
  intros Ht Hv. rewrite remove_eq. cbv zeta. destruct (tree_at_node _ _ Ht) as [-> _]. rewrite Hv. done.
Qed.


(** the root of an upper layer is not overlaid. When a layer is built from a directory the
    root node has the path of this directory, which is never [/]: applying it changes nothing,
    so the metadata of the root stay those of the lowest layer; and an opaque root directory, as
    overlayfs marks it, does not hide the lower layers, because the check of the depth comes
    first. *)
Theorem upper_root_not_applied target spec origin parent t : tree_at [] t ->
  n_path target = n_source target -> n_path target <> [] ->
  apply target false spec t = (false, t) /\ remove target OverlayFsOpaque origin parent t = (false, t).
Proof.
  intros Ht Hp Hne. destruct (tree_at_node _ _ Ht) as [Hv _].
  assert (target_vec target = [ROOT_PATH_NAME]) as Htv.
  { unfold target_vec, generate_target. rewrite Hp. rewrite <- (app_nil_r (n_source target)) at 2. by rewrite strip_prefix_app. }
  split.
  - cbn [apply]. rewrite apply_node_eq. cbv zeta. rewrite (bool_decide_eq_false_2 (n_path target = [])) by done. rewrite Hv, Htv. by destruct t.
  - rewrite remove_eq. cbv zeta. by rewrite Hv, Htv.
Qed.

(** ** Witnesses *)

Definition overlay_raw (mode : Z) : RafsV5Inode := mkV5Inode 0 0 0 0 0 0 mode 0 0 0 1 0 0 0 0 0 0 0 0.
Definition overlay_node (mode layer : Z) (p : path) : Node :=
  mkNode 0 0 0 0 (overlay_raw mode) [] ∅ None (if layer =? 0 then Lower else UpperAddition) [] p layer.
Definition DIR : Z := 0x41ed.
Definition FILE : Z := 0x81a4.

(** The tree [/a/b] of the lowest layer. *)
Definition overlay_tree : Tree :=
  mkTree (overlay_node DIR 0 [])
    [mkTree (overlay_node DIR 0 [[97]]) [Tree_new (overlay_node FILE 0 [[97]; [98]])]].

Lemma overlay_tree_at : tree_at [] overlay_tree.
Proof.
  repeat first [apply NoDup_nil_2 | apply NoDup_singleton | constructor | split | reflexivity].
Qed.


Lemma upper_root_not_applied_witness :
  let root := mkNode 0 0 0 0 (overlay_raw 0x41c0) [] {[ OVERLAYFS_WHITEOUT_OPAQUE := bytes_of_string "y" ]} None UpperAddition [[115]] [[115]] 1 in
  whiteout_type SpecOverlayfs root = Some OverlayFsOpaque /\ apply root true SpecOverlayfs overlay_tree = (false, overlay_tree).
Proof.
  intros root. destruct (upper_root_not_applied root SpecOverlayfs None (parent_name root) overlay_tree) as [E1 E2].
  - exact overlay_tree_at.
  - reflexivity.
  - discriminate.
  - split; [reflexivity|]. change (apply root true SpecOverlayfs overlay_tree) with
      (let '(_, t) := remove root OverlayFsOpaque None (parent_name root) overlay_tree in apply_node root t). rewrite E2. exact E1.
Defined.

