(* ===== verification/RafsV5Io.v ===== *)
(** IO of RAFS v5 files ([rafs/src/metadata/layout/v5.rs], [rafsv5_alloc_bio_vecs];
    [rafs/src/metadata/md_v5.rs], [amplify_io]).

    A read of a file becomes one IO vector per run of chunks of the same blob. A small read is
    amplified with the following chunks of the file and of the files after it, as long as these
    are close on the backend. The theorems show that the vectors cover exactly the range that is
    read, and that amplification terminates and leaves the user's part of the IO alone; others
    show the requests the code panics on or rejects. *)
From S2P Require Import Prelude Utils LittleEndian ChunkInfo Device RafsLayout RafsV5 RafsBlobTable RafsV5Inode CachedInode CachedDir CachedSuper.

(** ** Inodes *)

(** What the IO code uses of an inode: [RafsInode], [RafsV5InodeChunkOps] and [RafsV5InodeOps]. *)
Record V5InodeOps := mkV5Ops {
  vo_ino : Z;
  vo_size : Z;
  vo_is_reg : bool;
  vo_chunk_size : Z;
  vo_child_count : Z;
  vo_has_hole : bool;
  vo_get_chunk_info_v5 : Z -> io CachedChunkInfoV5;
  vo_get_blob_by_index : Z -> io BlobInfo
}.

(** The operations of a cached inode. *)
Definition cached_ops (s_blob : RafsV5BlobTable) (t : CachedInodeV5) : V5InodeOps :=
  mkV5Ops (i_ino (ci_data t)) (i_size (ci_data t)) (is_reg (ci_data t)) (i_chunksize (ci_data t)) (i_child_cnt (ci_data t))
    (has_hole (ci_data t)) (get_chunk_info t) (fun idx => BlobTable_get idx s_blob).

Definition CHUNK_COMPRESSED : Z := 0x1.

(** [V5IoChunk]. *)
Definition v5_io_chunk (c : CachedChunkInfoV5) : ChunkDesc :=
  mkChunk (Some (cc_block_id c)) (cc_index c) (cc_blob_index c) (cc_compressed_offset c) (cc_compressed_size c)
    (cc_uncompressed_offset c) (cc_uncompressed_size c) (flags_contain (cc_flags c) CHUNK_COMPRESSED).

Section alloc.
Context `{Profile}.

Definition calculate_bio_chunk_index (offset end_ chunk_size chunk_cnt : Z) (has_hole : bool) : io (Z * Z) :=
  _ ← debug_assert (offset <? end_);
  index_start ← (if negb has_hole then q ← udiv offset chunk_size; Ok (wrap 32 q) else Ok 0);
  index_end ← (if negb has_hole then
                 last ← usub 64 end_ 1;
                 q ← udiv last chunk_size;
                 n ← uadd 32 (wrap 32 q) 1;
                 Ok (Z.min n chunk_cnt)
               else Ok chunk_cnt);
  Ok (index_start, index_end).

(** Whether more chunks should be looked at, and the vector with the bio. *)
Definition add_chunk_to_bio_desc (offset end_ : Z) (chunk : CachedChunkInfoV5) (blob : BlobInfo) (user_io : bool)
    (desc : BlobIoVec) : io (bool * BlobIoVec) :=
  chunk_limit ← uadd 64 (cc_file_offset chunk) (cc_uncompressed_size chunk);
  if chunk_limit <=? offset then Ok (true, desc)
  else if end_ <=? cc_file_offset chunk then Ok (false, desc)
  else
    let chunk_start := if cc_file_offset chunk <? offset then offset - cc_file_offset chunk else 0 in
    let chunk_end := if end_ <? chunk_limit then end_ - cc_file_offset chunk else cc_uncompressed_size chunk in
    size ← usub 64 chunk_end chunk_start;
    desc ← BlobIoVec_push (mkIoDesc blob (v5_io_chunk chunk) (wrap 32 chunk_start) (wrap 32 size) user_io) desc;
    Ok (true, desc).

(** The loop over the chunks after the first. *)
Fixpoint alloc_loop (inode : V5InodeOps) (offset end_ : Z) (user_io : bool) (idxs : list Z) (descs : list BlobIoVec) (desc : BlobIoVec)
    : io (list BlobIoVec) :=
  match idxs with
  | [] => Ok (descs ++ [desc])
  | idx :: idxs =>
      chunk ← vo_get_chunk_info_v5 inode idx;
      blob ← vo_get_blob_by_index inode (cc_blob_index chunk);
      let '(descs, desc) := if bi_blob_index blob =? bi_blob_index (iov_blob desc) then (descs, desc)
                            else (descs ++ [desc], BlobIoVec_new blob) in
      '(go_on, desc) ← add_chunk_to_bio_desc offset end_ chunk blob user_io desc;
      if go_on : bool then alloc_loop inode offset end_ user_io idxs descs desc else Err EINVAL
  end.

Definition rafsv5_alloc_bio_vecs (inode : V5InodeOps) (offset size : Z) (user_io : bool) : io (list BlobIoVec) :=
  end_ ← ok_or (checked_add 64 offset size) EINVAL;
  '(index_start, index_end) ← calculate_bio_chunk_index offset end_ (vo_chunk_size inode) (vo_child_count inode) (vo_has_hole inode);
  if (size =? 0) || (vo_child_count inode <=? index_start) then Ok []
  else
    chunk ← vo_get_chunk_info_v5 inode index_start;
    blob ← vo_get_blob_by_index inode (cc_blob_index chunk);
    '(go_on, desc) ← add_chunk_to_bio_desc offset end_ chunk blob user_io (BlobIoVec_new blob);
    if go_on : bool then
      alloc_loop inode offset end_ user_io (seqZ (index_start + 1) (index_end - (index_start + 1))) [] desc
    else Err EINVAL.

(** ** Amplification *)

Definition merge_chunks_io (vec : BlobIoVec) (max_gap : Z) (orig : BlobIoVec) : io BlobIoVec :=
  _ ← rassert (negb (bool_decide (iov_vec orig = [])));
  match iov_vec vec with
  | [] => Ok orig
  | head :: _ =>
      match last (iov_vec orig) with
      | Some l => c ← is_continuous l head max_gap; if c : bool then BlobIoVec_append vec orig else Ok orig
      | None => Panic
      end
  end.

(** One pass over the vectors of a file: the window shrinks by every vector of the blob. *)
Fixpoint amplify_vecs (vecs : list BlobIoVec) (max_gap : Z) (last_desc : BlobIoVec) (window_size : Z) : io (BlobIoVec * Z) :=
  match vecs with
  | [] => Ok (last_desc, window_size)
  | vec :: vecs =>
      if has_same_blob last_desc vec then
        let window_size := if iov_size vec <? window_size then window_size - iov_size vec else 0 in
        last_desc ← merge_chunks_io vec max_gap last_desc;
        amplify_vecs vecs max_gap last_desc window_size
      else amplify_vecs vecs max_gap last_desc window_size
  end.

Section amplify.
Context (get_inode : Z -> io V5InodeOps) (meta_chunk_size : Z).

(** How much of the next file is read; [None] ends the search, [Some None] skips the file. *)
Definition next_amount (next_size window_size : Z) : io (option (option Z)) :=
  if next_size <? window_size then Ok (Some (Some next_size))
  else if meta_chunk_size <=? window_size then
    q ← udiv window_size meta_chunk_size; n ← umul 64 q meta_chunk_size; Ok (Some (Some n))
  else if next_size =? 0 then Ok (Some None)
  else Ok None.

(** The [while window_size > 0 && max_tries > 0] loop. *)
Fixpoint amplify_files (fuel : nat) (max_gap next_ino max_tries : Z) (last_desc : BlobIoVec) (window_size : Z) : io BlobIoVec :=
  match fuel with
  | O => Panic
  | S fuel =>
      if (0 <? window_size) && (0 <? max_tries) then
        next_ino ← uadd 64 next_ino 1;
        match get_inode next_ino with
        | Ok ni =>
            if vo_is_reg ni then
              amount ← next_amount (vo_size ni) window_size;
              match amount with
              | None => Ok last_desc
              | Some None => amplify_files fuel max_gap next_ino max_tries last_desc window_size
              | Some (Some next_size) =>
                  vecs ← rafsv5_alloc_bio_vecs ni 0 next_size false;
                  '(last_desc, window_size) ← amplify_vecs vecs max_gap last_desc window_size;
                  amplify_files fuel max_gap next_ino (max_tries - zlen vecs) last_desc window_size
              end
            else amplify_files fuel max_gap next_ino max_tries last_desc window_size
        | Err _ => Ok last_desc
        | Panic => Panic
        end
      else Ok last_desc
  end.

(** [amplify_io] replaces the last vector; [fuel] bounds the number of inodes looked at. *)
Definition amplify_io (fuel : nat) (max_uncomp_size : Z) (descs : list BlobIoVec) (inode : V5InodeOps) (window_base window_size : Z)
    : io (list BlobIoVec) :=
  match last descs with
  | None => Ok descs
  | Some last_desc =>
      if bool_decide (iov_vec last_desc = []) then Ok descs
      else
        let max_gap := Z.shiftr max_uncomp_size RAFS_MERGING_SIZE_TO_GAP_SHIFT in
        '(last_desc, window_size) ←
          (if window_base <? vo_size inode then
             let size := Z.min (vo_size inode - window_base) window_size in
             vecs ← rafsv5_alloc_bio_vecs inode window_base size false;
             amplify_vecs vecs max_gap last_desc window_size
           else Ok (last_desc, window_size));
        last_desc ← amplify_files fuel max_gap (vo_ino inode) 64 last_desc window_size;
        Ok (removelast descs ++ [last_desc])
  end.
End amplify.
End alloc.

(** ** Reads without holes *)

(** A file cut into chunks of the same size, the last one excepted; [chunks] are found by index
    and their blobs by blob index. *)
Record Tiled (inode : V5InodeOps) (chunks : list CachedChunkInfoV5) : Prop := {
  tl_hole : vo_has_hole inode = false;
  tl_chunk_size : 0 < vo_chunk_size inode < 2 ^ 32;
  tl_size : 0 <= vo_size inode < 2 ^ 63;
  tl_count : vo_child_count inode = zlen chunks;
  tl_count_u32 : zlen chunks < 2 ^ 32;
  tl_chunks : zlen chunks = (vo_size inode + vo_chunk_size inode - 1) / vo_chunk_size inode;
  tl_chunk i c : chunks !! i = Some c ->
    vo_get_chunk_info_v5 inode (Z.of_nat i) = Ok c /\ cc_file_offset c = Z.of_nat i * vo_chunk_size inode /\
    cc_uncompressed_size c = Z.min (vo_chunk_size inode) (vo_size inode - Z.of_nat i * vo_chunk_size inode);
  tl_blob c : c ∈ chunks -> exists b, vo_get_blob_by_index inode (cc_blob_index c) = Ok b /\ bi_blob_index b = cc_blob_index c;
  tl_extent c : c ∈ chunks -> 0 <= cc_compressed_offset c + cc_compressed_size c < 2 ^ 64
}.

(** Descriptors with their chunks that read a file from [pos] to [end_], in order and without
    gaps. *)
Fixpoint covers (user : bool) (pos end_ : Z) (l : list (CachedChunkInfoV5 * BlobIoDesc)) : Prop :=
  match l with
  | [] => pos = end_
  | (c, b) :: l =>
      io_chunk b = v5_io_chunk c /\ io_user b = user /\ bi_blob_index (io_blob b) = cc_blob_index c /\
      cc_file_offset c + io_offset b = pos /\ 0 <= io_offset b /\ 0 < io_size b /\ io_offset b + io_size b <= cc_uncompressed_size c /\
      covers user (pos + io_size b) end_ l
  end.

Fixpoint no_adjacent (l : list Z) : Prop :=
  match l with
  | [] => True
  | a :: l' => match l' with [] => True | b :: _ => a <> b /\ no_adjacent l' end
  end.

Definition blob_indexes (vs : list BlobIoVec) : list Z := (fun v => bi_blob_index (iov_blob v)) <$> vs.
Definition all_descs (vs : list BlobIoVec) : list BlobIoDesc := concat (iov_vec <$> vs).

Lemma covers_snoc user pos mid l c b : covers user pos mid l -> io_chunk b = v5_io_chunk c -> io_user b = user ->
  bi_blob_index (io_blob b) = cc_blob_index c -> cc_file_offset c + io_offset b = mid -> 0 <= io_offset b -> 0 < io_size b ->
  io_offset b + io_size b <= cc_uncompressed_size c -> covers user pos (mid + io_size b) (l ++ [(c, b)]).
Proof.
  intros Hc ? ? ? ? ? ? ?. revert pos Hc. induction l as [|[c' b'] l IH]; intros pos Hc; cbn in *; [subst pos; done|].
  destruct Hc as (E1 & E2 & E3 & E4 & E5 & E6 & E7 & Hc). split_and!; try done. by apply IH.
Qed.

Lemma covers_total user pos end_ l : covers user pos end_ l -> io_total l.*2 = end_ - pos.
Proof.
  revert pos. induction l as [|[c b] l IH]; intros pos Hc; cbn [covers] in Hc; [cbn; lia|].
  destruct Hc as (_ & _ & _ & _ & _ & _ & _ & Hc). rewrite fmap_cons. cbn [io_total foldr fst snd]. fold (io_total l.*2). rewrite (IH _ Hc). lia.
Qed.

Lemma no_adjacent_snoc l a b : no_adjacent (l ++ [a]) -> a <> b -> no_adjacent ((l ++ [a]) ++ [b]).
Proof.
  intros Hl Hab. induction l as [|x l IH]; [done|]. cbn [app no_adjacent] in *. destruct l as [|y l]; [cbn in *; by destruct Hl|].
  destruct Hl as [Hx Hl]. split; [done|]. by apply IH.
Qed.

Lemma all_descs_snoc vs v : all_descs (vs ++ [v]) = all_descs vs ++ iov_vec v.
Proof. unfold all_descs. rewrite fmap_app, concat_app. cbn. by rewrite app_nil_r. Qed.

Lemma all_descs_Forall (P : BlobIoDesc -> Prop) vs : Forall P (all_descs vs) -> Forall (fun v => Forall P (iov_vec v)) vs.
Proof. unfold all_descs. induction vs as [|v vs IH]; [constructor|]. cbn. intros [H1 H2]%Forall_app. constructor; auto. Qed.

Lemma total_nonneg vs : Forall iov_ok vs -> 0 <= io_total (all_descs vs).
Proof.
  induction 1 as [|v vs (E1 & E2 & _) _ IH]; [done|]. unfold all_descs. rewrite fmap_cons, concat_cons, io_total_app. fold (all_descs vs). lia.
Qed.

Lemma take_next {A} (l : list A) s k x : 0 <= s -> s <= k -> l !! Z.to_nat k = Some x ->
  take (Z.to_nat (k + 1 - s)) (drop (Z.to_nat s) l) = take (Z.to_nat (k - s)) (drop (Z.to_nat s) l) ++ [x].
Proof.
  intros ? ? Hx. replace (Z.to_nat (k + 1 - s)) with (S (Z.to_nat (k - s))) by lia. apply take_S_r.
  rewrite lookup_drop. by replace (Z.to_nat s + Z.to_nat (k - s))%nat with (Z.to_nat k) by lia.
Qed.

(** A vector of a blob of the table. *)
Definition blob_found (get_blob : Z -> io BlobInfo) (v : BlobIoVec) : Prop := get_blob (bi_blob_index (iov_blob v)) = Ok (iov_blob v).

(** The vectors [vs] read the file from [offset] to [end_]: their descriptors are one per chunk
    of the range; each vector belongs to one blob, and a new one starts where the blob changes. *)
Definition read_as (inode : V5InodeOps) (chunks : list CachedChunkInfoV5) (user : bool) (vs : list BlobIoVec) (offset end_ : Z) : Prop :=
  exists l, covers user offset end_ l /\ all_descs vs = l.*2 /\
    l.*1 = take (Z.to_nat ((end_ - 1) / vo_chunk_size inode + 1 - offset / vo_chunk_size inode)) (drop (Z.to_nat (offset / vo_chunk_size inode)) chunks) /\
    Forall iov_ok vs /\ Forall (fun v => iov_vec v <> []) vs /\ no_adjacent (blob_indexes vs) /\ Forall (blob_found (vo_get_blob_by_index inode)) vs.

Section tiled.
Context `{Profile} (inode : V5InodeOps) (chunks : list CachedChunkInfoV5) (Ht : Tiled inode chunks).
Context (offset end_ : Z) (user : bool).
Hypothesis (Hoff : 0 <= offset < end_) (Hend : end_ <= vo_size inode) (H32 : end_ - offset < 2 ^ 32).

Let cs := vo_chunk_size inode.

(** How far the chunks before [k] read. *)
Let upto (k : Z) : Z := Z.min end_ (k * cs).

Lemma add_chunk_spec i c b v : chunks !! i = Some c -> offset / cs <= Z.of_nat i <= (end_ - 1) / cs ->
  bi_blob_index b = cc_blob_index c -> iov_blob v = b -> iov_ok v -> iov_size v + (end_ - Z.max offset (Z.of_nat i * cs)) < 2 ^ 32 ->
  let d := mkIoDesc b (v5_io_chunk c) (Z.max offset (Z.of_nat i * cs) - Z.of_nat i * cs) (upto (Z.of_nat i + 1) - Z.max offset (Z.of_nat i * cs)) user in
  let v' := mkIoVec b (iov_size v + io_size d) (iov_vec v ++ [d]) in
  add_chunk_to_bio_desc offset end_ c b user v = Ok (true, v') /\ iov_ok v' /\
  cc_file_offset c + io_offset d = Z.max offset (Z.of_nat i * cs) /\ 0 <= io_offset d /\ 0 < io_size d /\
  io_offset d + io_size d <= cc_uncompressed_size c.
Proof.
  intros Hi [Hlo Hhi] Hb Hv Hok Hsz d v'. destruct Ht as [_ Hcs Hfs _ _ _ Hch _ _]. destruct (Hch i c Hi) as (_ & Hfo & Hus).
  fold cs in Hcs, Hfo, Hus. set (fo := Z.of_nat i * cs) in *.
  assert (fo < end_) as Hfe by (unfold fo; pose proof (Z.mul_div_le (end_ - 1) cs ltac:(lia)); nia).
  assert (offset < fo + cs) as Hoc by (unfold fo; pose proof (Z.mul_succ_div_gt offset cs ltac:(lia)); nia).
  assert (0 <= fo) by (unfold fo; nia).
  assert (upto (Z.of_nat i + 1) = Z.min end_ (fo + cs)) as Eu by (unfold upto, fo; f_equal; lia).
  destruct Hok as (Hs1 & Hs2 & Hs3).
  assert (add_chunk_to_bio_desc offset end_ c b user v = Ok (true, v')) as Eadd.
  { unfold add_chunk_to_bio_desc. rewrite Hfo, Hus. rewrite (uadd_in 64 fo) by (split; lia). cbn [mbind outcome_bind].
    rewrite (proj2 (Z.leb_gt _ _)) by lia. rewrite (proj2 (Z.leb_gt _ _)) by lia.
    assert ((if fo <? offset then offset - fo else 0) = Z.max offset fo - fo) as -> by (case_match; lia).
    assert ((if end_ <? fo + Z.min cs (vo_size inode - fo) then end_ - fo else Z.min cs (vo_size inode - fo)) = upto (Z.of_nat i + 1) - fo) as ->
      by (rewrite Eu; case_match; lia).
    rewrite (usub_in 64 (upto (Z.of_nat i + 1) - fo)) by (rewrite Eu; split; lia). cbn [mbind outcome_bind].
    replace (upto (Z.of_nat i + 1) - fo - (Z.max offset fo - fo)) with (upto (Z.of_nat i + 1) - Z.max offset fo) by lia.
    rewrite !wrap_small by (rewrite ?Eu; split; lia). fold d. unfold BlobIoVec_push.
    assert (same_blob (iov_blob v) (io_blob d) = true) as -> by (unfold same_blob, d; rewrite Hv, Z.eqb_refl; by rewrite bool_decide_eq_true_2).
    cbn [rassert mbind outcome_bind]. rewrite (proj2 (checked_add_bd 32 (iov_size v) (io_size d))) by (unfold d; cbn; rewrite Eu; lia).
    cbn [rassert mbind outcome_bind]. unfold v'. by rewrite Hv. }
  split; [exact Eadd|]. split.
  - split; [|split]; cbn [v' iov_size iov_vec iov_blob].
    + rewrite io_total_app, Hs1. cbn. lia.
    + unfold d. cbn. rewrite Eu. lia.
    + apply Forall_app. rewrite Hv in Hs3. split; [done|]. apply Forall_singleton. unfold same_blob, d. cbn. rewrite Z.eqb_refl. by rewrite bool_decide_eq_true_2.
  - unfold d. cbn [io_offset io_size]. rewrite Hfo, Hus, Eu. lia.
Qed.

Lemma chunk_index : calculate_bio_chunk_index offset end_ cs (vo_child_count inode) (vo_has_hole inode) = Ok (offset / cs, (end_ - 1) / cs + 1) /\
  (end_ - 1) / cs < zlen chunks /\ offset / cs <= (end_ - 1) / cs.
Proof.
  pose proof Ht as [Hh Hcs Hfs Hn Hn32 Hc _ _ _]. fold cs in Hcs, Hc.
  assert (0 <= offset / cs) by (apply Z.div_pos; lia).
  pose proof (Z.div_le_mono offset (end_ - 1) cs ltac:(lia) ltac:(lia)).
  assert ((end_ - 1) / cs < zlen chunks).
  { rewrite Hc. replace (vo_size inode + cs - 1) with ((vo_size inode - 1) + 1 * cs) by lia. rewrite Z.div_add by lia.
    pose proof (Z.div_le_mono (end_ - 1) (vo_size inode - 1) cs ltac:(lia) ltac:(lia)). lia. }
  split; [|done]. unfold calculate_bio_chunk_index, debug_assert, udiv. rewrite Hh, Hn. cbn [negb].
  rewrite (proj2 (Z.ltb_lt _ _)) by lia. rewrite (proj2 (Z.eqb_neq cs 0)) by lia. cbn [mbind outcome_bind].
  assert ((if overflow_checks then rassert true else Ok ()) = @Ok errno _ ()) as -> by (by destruct overflow_checks).
  cbn [mbind outcome_bind]. rewrite usub_in by (split; lia). cbn [mbind outcome_bind]. rewrite !wrap_small by (split; lia).
  rewrite uadd_in by (split; lia). cbn [mbind outcome_bind]. by rewrite Z.min_l by lia.
Qed.
(** The chunks [s .. k) were added. *)
Let read_upto (s k : Z) (descs : list BlobIoVec) (desc : BlobIoVec) : Prop :=
  exists l, covers user offset (upto k) l /\ all_descs (descs ++ [desc]) = l.*2 /\ l.*1 = take (Z.to_nat (k - s)) (drop (Z.to_nat s) chunks) /\
    Forall iov_ok (descs ++ [desc]) /\ Forall (fun v => iov_vec v <> []) (descs ++ [desc]) /\ no_adjacent (blob_indexes (descs ++ [desc])) /\
    Forall (blob_found (vo_get_blob_by_index inode)) (descs ++ [desc]).

Lemma read_upto_size s k descs desc : read_upto s k descs desc -> iov_size desc <= upto k - offset.
Proof.
  intros (l & Hc & Hall & _ & Hok & _). apply covers_total in Hc. rewrite <- Hall, all_descs_snoc, io_total_app in Hc.
  apply Forall_app in Hok as [Hok Hd]. pose proof (total_nonneg _ Hok). apply Forall_inv in Hd as (E1 & _). lia.
Qed.

Lemma alloc_step s k c b descs desc : s = offset / cs -> s < k <= (end_ - 1) / cs -> chunks !! Z.to_nat k = Some c ->
  vo_get_blob_by_index inode (cc_blob_index c) = Ok b -> bi_blob_index b = cc_blob_index c -> read_upto s k descs desc ->
  let '(descs1, desc1) := if bi_blob_index b =? bi_blob_index (iov_blob desc) then (descs, desc) else (descs ++ [desc], BlobIoVec_new b) in
  exists desc2, add_chunk_to_bio_desc offset end_ c b user desc1 = Ok (true, desc2) /\ read_upto s (k + 1) descs1 desc2.
Proof.
  intros Hs [Hsk Hke] Hc Hb Hbi Hinv. pose proof (read_upto_size _ _ _ _ Hinv) as Hsize.
  destruct Hinv as (l & Hcov & Hall & Hl1 & Hok & Hne & Hadj & Hblob). destruct Ht as [_ Hcs _ _ _ _ _ _ _]. fold cs in Hcs.
  assert (offset < k * cs) as Hok1 by (pose proof (Z.mul_succ_div_gt offset cs ltac:(lia)); nia).
  assert (k * cs < end_) as Hke1 by (pose proof (Z.mul_div_le (end_ - 1) cs ltac:(lia)); nia).
  assert (0 <= s) by (rewrite Hs; apply Z.div_pos; lia).
  assert (upto k = k * cs) as Eup by (unfold upto; lia).
  assert (Z.max offset (Z.of_nat (Z.to_nat k) * cs) = k * cs) as Emax by lia.
  assert (forall v, iov_blob v = b -> iov_ok v -> iov_size v <= upto k - offset ->
    exists d v2, add_chunk_to_bio_desc offset end_ c b user v = Ok (true, v2) /\ iov_ok v2 /\ iov_blob v2 = b /\ iov_vec v2 = iov_vec v ++ [d] /\
      covers user offset (upto (k + 1)) (l ++ [(c, d)])) as Hadd.
  { intros v Hv Hvok Hvs. destruct (add_chunk_spec (Z.to_nat k) c b v) as (E & Hok2 & D1 & D2 & D3 & D4); [done|lia|done|done|done|lia|].
    eexists _, _. split; [exact E|]. split; [exact Hok2|]. split; [done|]. split; [done|].
    rewrite Emax in *. rewrite Z2Nat.id in * by lia.
    pose proof (covers_snoc user offset (upto k) l c (mkIoDesc b (v5_io_chunk c) (k * cs - k * cs) (upto (k + 1) - k * cs) user) Hcov eq_refl eq_refl Hbi
      (eq_trans D1 (eq_sym Eup)) D2 D3 D4) as Hsn.
    cbn [io_size] in Hsn. replace (upto k + (upto (k + 1) - k * cs)) with (upto (k + 1)) in Hsn by lia. exact Hsn. }
  destruct (proj1 (Forall_app _ _ _) Hok) as [Hok0 Hokd%Forall_inv]. destruct (proj1 (Forall_app _ _ _) Hblob) as [Hblob0 Hblobd%Forall_inv].
  destruct (proj1 (Forall_app _ _ _) Hne) as [Hne0 _].
  assert (l.*1 ++ [c] = take (Z.to_nat (k + 1 - s)) (drop (Z.to_nat s) chunks)) as Hl1' by (rewrite Hl1; symmetry; apply take_next; [done|lia|done]).
  destruct (Z.eqb_spec (bi_blob_index b) (bi_blob_index (iov_blob desc))) as [Heq|Hneq].
  - assert (iov_blob desc = b) as Hbd by (unfold blob_found in Hblobd; congruence).
    destruct (Hadd desc Hbd Hokd Hsize) as (d & v2 & E & Hok2 & Hb2 & Hv2 & Hcov2). exists v2. split; [exact E|].
    exists (l ++ [(c, d)]). split; [exact Hcov2|]. rewrite all_descs_snoc, Hv2, app_assoc, <- all_descs_snoc, Hall, !fmap_app.
    split; [done|]. split; [exact Hl1'|]. rewrite !Forall_app, !Forall_singleton, Hv2. split_and!; try done; [by destruct (iov_vec desc)| |].
    + unfold blob_indexes in *. rewrite fmap_app in *. cbn [fmap list_fmap] in *. by rewrite Hb2, <- Hbd.
    + unfold blob_found in *. by rewrite Hb2, <- Hbd.
  - destruct (Hadd (BlobIoVec_new b)) as (d & v2 & E & Hok2 & Hb2 & Hv2 & Hcov2); [done|split; [done|split; [cbn; lia|constructor]]|cbn; lia|].
    exists v2. split; [exact E|]. exists (l ++ [(c, d)]). split; [exact Hcov2|]. rewrite all_descs_snoc, Hv2, Hall, !fmap_app.
    split; [done|]. split; [exact Hl1'|]. rewrite (Forall_app _ (descs ++ [desc])), (Forall_app _ (descs ++ [desc])), (Forall_app _ (descs ++ [desc])), !Forall_singleton, Hv2.
    split_and!; try done.
    + unfold blob_indexes in *. rewrite fmap_app in *. cbn [fmap list_fmap] in *. rewrite Hb2. rewrite fmap_app. cbn [fmap list_fmap]. by apply no_adjacent_snoc.
    + unfold blob_found. by rewrite Hb2, Hbi.
Qed.

Lemma alloc_loop_spec s k m descs desc : s = offset / cs -> s < k -> 0 <= m -> k + m = (end_ - 1) / cs + 1 -> read_upto s k descs desc ->
  exists vs v, alloc_loop inode offset end_ user (seqZ k m) descs desc = Ok (vs ++ [v]) /\ read_upto s (k + m) vs v.
Proof.
  intros Hs Hsk Hm. remember (Z.to_nat m) as n eqn:En. revert k m descs desc Hsk Hm En. induction n as [|n IH]; intros k m descs desc Hsk Hm En Hkm Hinv.
  { assert (m = 0) as -> by lia. exists descs, desc. rewrite Z.add_0_r. done. }
  rewrite seqZ_cons by lia. cbn [alloc_loop].
  destruct chunk_index as (_ & Hlt & _).
  assert (0 <= s) by (rewrite Hs; apply Z.div_pos; destruct Ht as [_ Hcs _ _ _ _ _ _ _]; fold cs in Hcs; lia).
  destruct (lookup_lt_is_Some_2 chunks (Z.to_nat k)) as (c & Hc); [unfold zlen in Hlt; lia|].
  pose proof Ht as [_ _ _ _ _ _ Hch Hbl _]. destruct (Hch _ _ Hc) as (Hg & _ & _). rewrite Z2Nat.id in Hg by lia.
  destruct (Hbl c ltac:(by eapply list_elem_of_lookup_2)) as (b & Hb & Hbi). rewrite Hg. cbn [mbind outcome_bind]. rewrite Hb. cbn [mbind outcome_bind].
  pose proof (alloc_step s k c b descs desc Hs ltac:(lia) Hc Hb Hbi Hinv) as Hstep.
  destruct (if bi_blob_index b =? bi_blob_index (iov_blob desc) then _ else _) as [descs1 desc1].
  destruct Hstep as (desc2 & E & Hinv2). rewrite E. cbn [mbind outcome_bind]. rewrite <- Z.add_1_r, <- Z.sub_1_r.
  destruct (IH (k + 1) (m - 1) descs1 desc2) as (vs & v & E2 & Hfin); [lia|lia|lia|lia|done|].
  exists vs, v. split; [exact E2|]. by replace (k + m) with (k + 1 + (m - 1)) by lia.
Qed.

Lemma alloc_first c b : chunks !! Z.to_nat (offset / cs) = Some c ->
  vo_get_blob_by_index inode (cc_blob_index c) = Ok b -> bi_blob_index b = cc_blob_index c ->
  exists desc, add_chunk_to_bio_desc offset end_ c b user (BlobIoVec_new b) = Ok (true, desc) /\ read_upto (offset / cs) (offset / cs + 1) [] desc.
Proof.
  intros Hc Hb Hbi. pose proof Ht as [_ Hcs _ _ _ _ _ _ _]. fold cs in Hcs.
  assert (0 <= offset / cs) by (apply Z.div_pos; lia). pose proof (Z.mul_div_le offset cs ltac:(lia)).
  assert (Z.max offset (Z.of_nat (Z.to_nat (offset / cs)) * cs) = offset) as Emax by lia.
  destruct (add_chunk_spec (Z.to_nat (offset / cs)) c b (BlobIoVec_new b)) as (E & Hok & D1 & D2 & D3 & D4);
    [done|rewrite Z2Nat.id by lia; pose proof (Z.div_le_mono offset (end_ - 1) cs ltac:(lia) ltac:(lia)); lia|done|done
    |split; [done|split; [cbn; lia|constructor]]|cbn; lia|].
  rewrite Emax in *. rewrite Z2Nat.id in * by lia. eexists. split; [exact E|]. cbn [BlobIoVec_new iov_size iov_vec io_size Z.add app] in *.
  eexists [(c, _)]. split; [|split; [reflexivity|split; [|split; [by apply Forall_singleton|split; [by apply Forall_singleton|split; [exact I|apply Forall_singleton]]]]]].
  - split_and!; [done|done|done|exact D1|exact D2|exact D3|exact D4|]. cbn. lia.
  - rewrite take_next with (x := c) by (done || lia). by rewrite Z.sub_diag.
  - unfold blob_found. cbn [iov_blob]. by rewrite Hbi.
Qed.

Lemma alloc_run : end_ < 2 ^ 64 -> exists vs, rafsv5_alloc_bio_vecs inode offset (end_ - offset) user = Ok vs /\ read_as inode chunks user vs offset end_.
Proof.
  intros He. pose proof chunk_index as (Eci & Hlt & Hle). fold cs in Eci. pose proof Ht as [_ Hcs _ Hn _ _ Hch Hbl _]. fold cs in Hcs.
  assert (0 <= offset / cs) by (apply Z.div_pos; lia).
  unfold rafsv5_alloc_bio_vecs. assert (checked_add 64 offset (end_ - offset) = Some end_) as -> by (apply checked_add_Some; lia).
  cbn [ok_or mbind outcome_bind]. fold cs. rewrite Eci. cbn [mbind outcome_bind]. rewrite Hn, (proj2 (Z.eqb_neq (end_ - offset) 0)), (proj2 (Z.leb_gt _ _)) by lia.
  cbn [orb]. destruct (lookup_lt_is_Some_2 chunks (Z.to_nat (offset / cs))) as (c & Hc); [unfold zlen in Hlt; lia|].
  destruct (Hch _ _ Hc) as (Hg & _ & _). rewrite Z2Nat.id in Hg by lia.
  destruct (Hbl c ltac:(by eapply list_elem_of_lookup_2)) as (b & Hb & Hbi). rewrite Hg. cbn [mbind outcome_bind]. rewrite Hb. cbn [mbind outcome_bind].
  destruct (alloc_first c b Hc Hb Hbi) as (desc & E & Hinv). rewrite E. cbn [mbind outcome_bind].
  destruct (alloc_loop_spec (offset / cs) (offset / cs + 1) ((end_ - 1) / cs + 1 - (offset / cs + 1)) [] desc) as (vs & v & E2 & Hfin);
    [done|lia|lia|lia|done|].
  exists (vs ++ [v]). split; [exact E2|]. destruct Hfin as (l & F1 & F2 & F3 & F4 & F5 & F6 & F7). exists l. split_and!; try done.
  - replace (offset / cs + 1 + _) with ((end_ - 1) / cs + 1) in F1 by lia. unfold upto in F1.
    pose proof (Z.mul_succ_div_gt (end_ - 1) cs ltac:(lia)). by replace (Z.min _ _) with end_ in F1 by lia.
  - fold cs. by replace ((end_ - 1) / cs + 1) with (offset / cs + 1 + ((end_ - 1) / cs + 1 - (offset / cs + 1))) by lia.
Qed.
End tiled.


(** C22: a read of a file becomes exactly the IO it needs. For a range inside a file cut into
    chunks of one size, [rafsv5_alloc_bio_vecs] returns descriptors for the chunks of the range,
    which cover it in order, without gap or overlap and within their chunks; each vector
    belongs to one blob and a new one starts where the blob changes. *)
Theorem alloc_bio_vecs_cover `{Profile} inode chunks offset size user : Tiled inode chunks ->
  0 <= offset -> 0 < size < 2 ^ 32 -> offset + size <= vo_size inode ->
  exists vs, rafsv5_alloc_bio_vecs inode offset size user = Ok vs /\ read_as inode chunks user vs offset (offset + size).
Proof.
  intros Ht Ho Hs He. pose proof (tl_size _ _ Ht). destruct (alloc_run inode chunks Ht offset (offset + size) user) as (vs & E & Hr); [lia..|].
  exists vs. split; [|done]. by replace (offset + size - offset) with size in E by lia.
Qed.

(** ** Amplified reads *)

Definition extent_ok (d : BlobIoDesc) : Prop := 0 <= io_size d /\ 0 <= chunk_c_offset (io_chunk d) + chunk_c_size (io_chunk d) < 2 ^ 64.

(** A vector grows by descriptors whose data the user does not ask for. *)
Definition grows (v v' : BlobIoVec) : Prop :=
  iov_blob v' = iov_blob v /\ exists extra, iov_vec v' = iov_vec v ++ extra /\ Forall (fun d => io_user d = false) extra.

#[export] Instance grows_preorder : PreOrder grows.
Proof.
  split.
  - intros v. split; [done|]. exists []. by rewrite app_nil_r.
  - intros v1 v2 v3 [E1 (x & E2 & E3)] [E4 (y & E5 & E6)]. split; [congruence|]. exists (x ++ y).
    split; [by rewrite E5, E2, app_assoc|by apply Forall_app].
Qed.

Lemma covers_descs user pos end_ l : covers user pos end_ l ->
  (forall c, c ∈ l.*1 -> 0 <= cc_compressed_offset c + cc_compressed_size c < 2 ^ 64) ->
  Forall (fun d => extent_ok d /\ io_user d = user) l.*2.
Proof.
  revert pos. induction l as [|[c d] l IH]; intros pos Hc Hx; [constructor|]. destruct Hc as (E1 & E2 & _ & _ & _ & E6 & _ & Hc). cbn.
  constructor; [|eapply IH; [done|]; intros c' Hc'; apply Hx; cbn; set_solver]. split; [|done]. split; [lia|]. rewrite E1. apply Hx. cbn. set_solver.
Qed.

Lemma read_as_descs inode chunks user vs offset end_ : Tiled inode chunks -> read_as inode chunks user vs offset end_ ->
  Forall (fun v => Forall (fun d => extent_ok d /\ io_user d = user) (iov_vec v)) vs /\ io_total (all_descs vs) = end_ - offset.
Proof.
  intros Ht (l & Hc & Hall & Hl1 & _). split; [|rewrite Hall; by eapply covers_total].
  assert (Forall (fun d => extent_ok d /\ io_user d = user) (all_descs vs)) as Hd.
  { rewrite Hall. eapply covers_descs; [done|]. intros c Hin. apply (tl_extent _ _ Ht). rewrite Hl1 in Hin.
    apply elem_of_take in Hin as (i & Hi & _). rewrite lookup_drop in Hi. by eapply list_elem_of_lookup_2. }
  by apply all_descs_Forall.
Qed.

Section amplified.
Context `{Profile} (get_blob : Z -> io BlobInfo) (max_gap : Z) (Hgap : 0 <= max_gap < 2 ^ 32).

(** A vector that can take [w] more bytes. *)
Definition has_room (v : BlobIoVec) (w : Z) : Prop :=
  iov_ok v /\ iov_vec v <> [] /\ blob_found get_blob v /\ Forall extent_ok (iov_vec v) /\ 0 <= w /\ iov_size v + w < 2 ^ 32.

(** Vectors of a read that the user does not ask for. *)
Definition hidden_vec (v : BlobIoVec) : Prop :=
  iov_ok v /\ iov_vec v <> [] /\ blob_found get_blob v /\ Forall (fun d => extent_ok d /\ io_user d = false) (iov_vec v).

Lemma merge_chunks_spec v vec w : has_room v w -> hidden_vec vec -> has_same_blob v vec = true -> iov_size vec <= w ->
  exists v', merge_chunks_io vec max_gap v = Ok v' /\ grows v v' /\ has_room v' (w - iov_size vec).
Proof.
  intros (Hok & Hne & Hb & Hx & Hw & Hsz) (Kok & Kne & Kb & Kx) Hsame Hle. unfold merge_chunks_io. rewrite bool_decide_eq_false_2 by done.
  cbn [negb rassert mbind outcome_bind]. destruct (iov_vec vec) as [|head rest] eqn:Evec; [done|].
  destruct (last (iov_vec v)) as [l|] eqn:El; [|by apply last_None in El].
  assert (extent_ok l) as Hl by (rewrite Forall_forall in Hx; apply Hx; by apply last_Some_elem_of).
  assert (0 <= iov_size vec) by (destruct Kok as (_ & ? & _); lia).
  assert (exists c, is_continuous l head max_gap = Ok c) as (c & ->).
  { unfold is_continuous. rewrite uadd_in by apply Hl. cbn [mbind outcome_bind]. case_match; [|by eexists]. case_match; [|by eexists].
    rewrite umul_in by (split; lia). cbn [mbind outcome_bind]. by eexists. }
  cbn [mbind outcome_bind]. destruct c; [|exists v; split; [done|]; split; [reflexivity|]; split_and!; try done; lia].
  assert (iov_blob vec = iov_blob v) as Hbv.
  { apply Z.eqb_eq in Hsame. unfold blob_found in Hb, Kb. congruence. }
  exists (mkIoVec (iov_blob v) (iov_size v + iov_size vec) (iov_vec v ++ iov_vec vec)).
  assert (BlobIoVec_append vec v = Ok (mkIoVec (iov_blob v) (iov_size v + iov_size vec) (iov_vec v ++ iov_vec vec))) as Eapp.
  { unfold BlobIoVec_append. rewrite Hbv. assert (same_blob (iov_blob v) (iov_blob v) = true) as ->
      by (unfold same_blob; rewrite Z.eqb_refl; by rewrite bool_decide_eq_true_2).
    cbn [rassert mbind outcome_bind]. rewrite (proj2 (checked_add_bd 32 (iov_size v) (iov_size vec))) by lia. done. }
  split; [exact Eapp|]. rewrite Evec in *. apply BlobIoVec_append_Ok in Eapp as (Hok' & _ & _); [|done..].
  split.
  - split; [done|]. exists (head :: rest). split; [done|]. eapply Forall_impl; [exact Kx|]. by intros d [_ ?].
  - split_and!; try done; cbn [iov_size iov_vec]; [by destruct (iov_vec v)| |lia|lia].
    apply Forall_app. split; [done|]. eapply Forall_impl; [exact Kx|]. by intros d [? _].
Qed.

Lemma amplify_vecs_spec vecs v w : has_room v w -> Forall hidden_vec vecs -> io_total (all_descs vecs) <= w ->
  exists v' w', amplify_vecs vecs max_gap v w = Ok (v', w') /\ grows v v' /\ has_room v' w' /\ w' <= w.
Proof.
  intros Hv Hvecs. revert v w Hv. induction Hvecs as [|vec vecs Hvec Hvecs IH]; intros v w Hv Hle.
  { exists v, w. split; [done|]. split; [reflexivity|]. split; [done|lia]. }
  assert (io_total (all_descs vecs) + iov_size vec <= w) as Hle'.
  { unfold all_descs in Hle. rewrite fmap_cons, concat_cons, io_total_app in Hle. fold (all_descs vecs) in Hle. destruct Hvec as ((E & _) & _). lia. }
  assert (0 <= io_total (all_descs vecs)) as Hnn by (apply total_nonneg; eapply Forall_impl; [exact Hvecs|]; by intros ? (? & _)).
  assert (0 <= iov_size vec) by (destruct Hvec as ((_ & ? & _) & _); lia). cbn [amplify_vecs].
  destruct (has_same_blob v vec) eqn:Hsame; [|apply IH; [done|lia]].
  destruct (merge_chunks_spec v vec w Hv Hvec Hsame ltac:(lia)) as (v1 & E1 & Hg1 & Hr1).
  assert ((if iov_size vec <? w then w - iov_size vec else 0) = w - iov_size vec) as -> by (case_match; lia).
  rewrite E1. cbn [mbind outcome_bind]. destruct (IH v1 (w - iov_size vec) Hr1 ltac:(lia)) as (v2 & w2 & E2 & Hg2 & Hr2 & ?).
  exists v2, w2. split; [exact E2|]. split; [by transitivity v1|]. split; [done|lia].
Qed.

(** What the IO code needs of the inodes after the file that is read. *)
Record Followers (get_inode : Z -> io V5InodeOps) (max_ino : Z) : Prop := {
  fl_total n : get_inode n <> Panic;
  fl_last n : max_ino < n -> exists e, get_inode n = Err e;
  fl_max : max_ino < 2 ^ 64 - 1;
  fl_regular n ni : get_inode n = Ok ni -> vo_is_reg ni = true ->
    (overflow_checks = true -> 0 < vo_size ni) /\ vo_get_blob_by_index ni = get_blob /\ exists chunks, Tiled ni chunks
}.

Lemma alloc_empty ni chunks : overflow_checks = false -> Tiled ni chunks -> rafsv5_alloc_bio_vecs ni 0 0 false = Ok [].
Proof.
  intros Hoc Ht. pose proof Ht as [Hh Hcs _ _ _ _ _ _ _]. unfold rafsv5_alloc_bio_vecs, calculate_bio_chunk_index, debug_assert, udiv, uadd, usub, overflowing.
  rewrite Hoc, Hh, (proj2 (Z.eqb_neq (vo_chunk_size ni) 0)) by lia. cbn [negb mbind outcome_bind].
  change (checked_add 64 0 0) with (Some 0). cbn [ok_or mbind outcome_bind].
  repeat (case_match; cbn [mbind outcome_bind]); done.
Qed.

Lemma alloc_hidden ni chunks offset size : Tiled ni chunks -> vo_get_blob_by_index ni = get_blob -> 0 <= offset -> 0 < size < 2 ^ 32 -> offset + size <= vo_size ni ->
  exists vs, rafsv5_alloc_bio_vecs ni offset size false = Ok vs /\ Forall hidden_vec vs /\ io_total (all_descs vs) = size.
Proof.
  intros Ht Hb Ho Hs He. pose proof (tl_size _ _ Ht). destruct (alloc_run ni chunks Ht offset (offset + size) false) as (vs & E & Hr); [lia..|].
  replace (offset + size - offset) with size in E by lia. exists vs. split; [done|]. destruct (read_as_descs _ _ _ _ _ _ Ht Hr) as [Hd Htot].
  split; [|lia]. destruct Hr as (_ & _ & _ & _ & Hok & Hne & _ & Hbf). rewrite Hb in Hbf. rewrite Forall_forall in *. intros v Hv. split_and!; auto.
Qed.

Context (get_inode : Z -> io V5InodeOps) (max_ino : Z) (Hfl : Followers get_inode max_ino).
Context (meta_chunk_size : Z) (Hmeta : 0 < meta_chunk_size).

Lemma next_amount_spec next_size w : 0 <= next_size -> 0 < w < 2 ^ 32 ->
  exists a, next_amount meta_chunk_size next_size w = Ok a /\ forall n, a = Some (Some n) -> 0 <= n <= next_size /\ n <= w /\ (n = 0 -> next_size = 0).
Proof.
  intros Hn Hw. unfold next_amount. destruct (Z.ltb_spec next_size w); [eexists; split; [done|]; intros ? [= <-]; lia|].
  destruct (Z.leb_spec meta_chunk_size w); [|destruct (next_size =? 0); eexists; (split; [done|]); intros ? [=]].
  unfold udiv. rewrite (proj2 (Z.eqb_neq meta_chunk_size 0)) by lia. cbn [mbind outcome_bind].
  pose proof (Z.mul_div_le w meta_chunk_size ltac:(lia)). pose proof (Z.div_le_mono meta_chunk_size w meta_chunk_size ltac:(lia) ltac:(lia)) as Hd.
  rewrite Z.div_same in Hd by lia. rewrite umul_in by (split; nia). eexists. split; [done|]. intros ? [= <-]. nia.
Qed.

Lemma amplify_files_spec fuel next_ino max_tries v w : has_room v w -> 0 <= next_ino <= max_ino -> max_ino + 1 - next_ino < Z.of_nat fuel ->
  exists v' w', amplify_files get_inode meta_chunk_size fuel max_gap next_ino max_tries v w = Ok v' /\ grows v v' /\ has_room v' w'.
Proof.
  revert next_ino max_tries v w. induction fuel as [|fuel IH]; intros next_ino max_tries v w Hv Hi Hf; [lia|].
  cbn [amplify_files]. destruct (Z.ltb_spec 0 w) as [Hw|]; [|by exists v, w]. destruct (0 <? max_tries); [|by exists v, w]. cbn [andb].
  destruct Hfl as [Htot Hlast Hmax Hreg]. rewrite uadd_in by (split; lia). cbn [mbind outcome_bind].
  pose proof (Htot (next_ino + 1)). pose proof (Hlast (next_ino + 1)) as Hl. pose proof (Hreg (next_ino + 1)) as Hr.
  destruct (get_inode (next_ino + 1)) as [ni|e|]; [|by exists v, w|done].
  assert (next_ino + 1 <= max_ino) by (destruct (Z.le_gt_cases (next_ino + 1) max_ino); [done|]; destruct Hl; [lia|done]).
  destruct (vo_is_reg ni) eqn:Ereg; [|apply IH; [done|lia..]]. destruct (Hr ni eq_refl Ereg) as (Hpos & Hb & chunks & Ht).
  pose proof (tl_size _ _ Ht). assert (w < 2 ^ 32) by (destruct Hv as ((_ & ? & _) & _ & _ & _ & _ & ?); lia).
  destruct (next_amount_spec (vo_size ni) w) as (a & -> & Ha); [lia..|]. cbn [mbind outcome_bind].
  destruct a as [[n|]|]; [|apply IH; [done|lia..]|by exists v, w]. destruct (Ha n eq_refl) as (Hn & Hnw & Hn0).
  assert (exists vs, rafsv5_alloc_bio_vecs ni 0 n false = Ok vs /\ Forall hidden_vec vs /\ io_total (all_descs vs) = n) as (vs & -> & Hhid & Htotal).
  { destruct (decide (n = 0)) as [->|]; [|eapply alloc_hidden; [done|done|lia..]]. exists []. split; [|done]. eapply alloc_empty; [|done].
    destruct overflow_checks; [|done]. specialize (Hpos eq_refl). lia. }
  cbn [mbind outcome_bind]. destruct (amplify_vecs_spec vs v w Hv Hhid ltac:(lia)) as (v1 & w1 & -> & Hg1 & Hr1 & _). cbn [mbind outcome_bind].
  destruct (IH (next_ino + 1) (max_tries - zlen vs) v1 w1 Hr1 ltac:(lia) ltac:(lia)) as (v2 & w2 & -> & Hg2 & Hr2).
  exists v2, w2. split; [done|]. split; [by transitivity v1|done].
Qed.

Lemma amplify_io_run fuel max_uncomp_size descs v inode chunks window_base window_size :
  max_gap = Z.shiftr max_uncomp_size RAFS_MERGING_SIZE_TO_GAP_SHIFT -> Tiled inode chunks -> vo_get_blob_by_index inode = get_blob ->
  has_room v window_size -> 0 <= window_base -> 0 < window_size -> 0 <= vo_ino inode <= max_ino -> max_ino + 1 - vo_ino inode < Z.of_nat fuel ->
  exists v' w', amplify_io get_inode meta_chunk_size fuel max_uncomp_size (descs ++ [v]) inode window_base window_size = Ok (descs ++ [v']) /\
    grows v v' /\ has_room v' w'.
Proof.
  intros Hg Ht Hb Hv Hwb Hw Hino Hfuel. unfold amplify_io. rewrite last_snoc, bool_decide_eq_false_2 by (by destruct Hv as (_ & ? & _)). rewrite <- Hg.
  assert (exists v1 w1, (if window_base <? vo_size inode then
      vecs ← rafsv5_alloc_bio_vecs inode window_base (Z.min (vo_size inode - window_base) window_size) false; amplify_vecs vecs max_gap v window_size
    else Ok (v, window_size)) = Ok (v1, w1) /\ grows v v1 /\ has_room v1 w1) as (v1 & w1 & -> & Hg1 & Hr1).
  { destruct (Z.ltb_spec window_base (vo_size inode)); [|by exists v, window_size].
    assert (window_size < 2 ^ 32) by (destruct Hv as ((_ & ? & _) & _ & _ & _ & _ & ?); lia).
    destruct (alloc_hidden inode chunks window_base (Z.min (vo_size inode - window_base) window_size)) as (vs & -> & Hhid & Htot); [done|done|lia..|].
    cbn [mbind outcome_bind]. destruct (amplify_vecs_spec vs v window_size Hv Hhid ltac:(lia)) as (v1 & w1 & E & ? & ? & _). by exists v1, w1. }
  cbn [mbind outcome_bind]. destruct (amplify_files_spec fuel (vo_ino inode) 64 v1 w1 Hr1 Hino Hfuel) as (v2 & w2 & -> & Hg2 & Hr2).
  cbn [mbind outcome_bind]. rewrite removelast_last. exists v2, w2. split; [done|]. split; [by transitivity v1|done].
Qed.
End amplified.

(** ** Witnesses *)

Definition small_chunk (i file_offset size offset : Z) : CachedChunkInfoV5 := mkCachedChunk i 0 i file_offset offset offset size size 0.

Definition small_inode (ino mode size : Z) (name : string) (chunks : list CachedChunkInfoV5) : CachedInodeV5 :=
  mkCached (Z.to_nat ino) (mkInodeData ino (bytes_of_string name) 0 1 mode 0 1000 1000 0 size 1 1 0 (zlen chunks) 4 0 7 1600000000 [] ∅ chunks) [].

Definition small_file : CachedInodeV5 := small_inode 2 0x81a4 6 "a" [small_chunk 0 0 4 0; small_chunk 1 4 2 4].
Definition next_file : CachedInodeV5 := small_inode 3 0x81a4 3 "b" [small_chunk 2 0 3 6].
Definition empty_file : CachedInodeV5 := small_inode 3 0x81a4 0 "b" [].

Definition small_blobs : RafsV5BlobTable := mkBlobTable [BlobInfo_new 0 "blob" 9 9 4 3 0] [].

Lemma small_files_tiled t : t ∈ [small_file; next_file] -> Tiled (cached_ops small_blobs t) (i_data (ci_data t)).
Proof.
  intros Hin. repeat (apply elem_of_cons in Hin as [->|Hin]); [..|by apply elem_of_nil in Hin];
    (split; [reflexivity|split; reflexivity|split; [discriminate|reflexivity]|reflexivity|reflexivity|reflexivity| | |]).
  - intros [|[|i]] c; [intros [= <-]; by split_and!..|done].
  - intros c Hc. exists (BlobInfo_new 0 "blob" 9 9 4 3 0). repeat (apply elem_of_cons in Hc as [->|Hc]); [done..|by apply elem_of_nil in Hc].
  - intros c Hc. repeat (apply elem_of_cons in Hc as [->|Hc]); [split; [discriminate|reflexivity]..|by apply elem_of_nil in Hc].
  - intros [|i] c; [intros [= <-]; by split_and!..|done].
  - intros c Hc. exists (BlobInfo_new 0 "blob" 9 9 4 3 0). repeat (apply elem_of_cons in Hc as [->|Hc]); [done..|by apply elem_of_nil in Hc].
  - intros c Hc. repeat (apply elem_of_cons in Hc as [->|Hc]); [split; [discriminate|reflexivity]..|by apply elem_of_nil in Hc].
Qed.

Lemma alloc_bio_vecs_cover_witness : let ops := cached_ops small_blobs small_file in
  exists vs, @rafsv5_alloc_bio_vecs dev_profile ops 2 3 true = Ok vs /\ read_as ops (i_data (ci_data small_file)) true vs 2 5.
Proof.
  apply (@alloc_bio_vecs_cover dev_profile (cached_ops small_blobs small_file) (i_data (ci_data small_file)) 2 3 true).
  - apply small_files_tiled. left.
  - discriminate.
  - split; reflexivity.
  - discriminate.
Defined.
