(* ===== verification/Fs.v ===== *)
(** The mounted file system ([rafs/src/fs.rs], [Rafs]; [rafs/src/metadata/mod.rs],
    [ino_from_path]; the attributes of [rafs/src/metadata/cached_v5.rs]).

    FUSE requests on a RAFS v5 image in cached mode: lookups and paths, attributes, extended
    attributes, directories, access checks and reads. Counters of the operations are left out.
    The theorems show that a path resolves to the inode it names, and that a read returns the
    bytes of the file, amplified or not; another one shows that the owner and the time of a file
    are lost in cached mode. *)
From S2P Require Import Prelude Utils LittleEndian ChunkInfo Device RafsLayout RafsV5 RafsBlobTable RafsV5Inode CachedInode CachedDir CachedSuper RafsV5Io.

(** ** Attributes *)

(** The fields of [fuse_abi::Attr] and of [stat64] the code uses. *)
Record Attr := mkAttr {
  at_ino : Z;
  at_size : Z;
  at_blocks : Z;
  at_atime : Z;
  at_mtime : Z;
  at_ctime : Z;
  at_mtimensec : Z;
  at_mode : Z;
  at_nlink : Z;
  at_uid : Z;
  at_gid : Z;
  at_rdev : Z;
  at_blksize : Z
}.

Definition Attr_default : Attr := mkAttr 0 0 0 0 0 0 0 0 0 0 0 0 0.

Record Entry := mkEntry {
  en_inode : Z;
  en_generation : Z;
  en_attr : Attr;
  en_attr_flags : Z;
  en_attr_timeout : Z;
  en_entry_timeout : Z
}.

Definition RAFS_ATTR_BLOCK_SIZE : Z := 4096.
Definition ROOT_ID : Z := 1.

Definition get_attr (i : InodeData) : Attr :=
  mkAttr (i_ino i) (i_size i) (i_blocks i) 0 0 0 0 (i_mode i) (wrap 32 (i_nlink i)) 0 0 (i_rdev i) RAFS_ATTR_BLOCK_SIZE.

Definition get_entry (meta : RafsSuperMeta) (i : InodeData) : Entry :=
  mkEntry (i_ino i) 0 (get_attr i) 0 (sm_attr_timeout meta) (sm_entry_timeout meta).

(** ** File system *)

Record Rafs := mkRafs {
  rf_sb : CachedSuperBlockV5;
  rf_xattr_enabled : bool;
  rf_amplify_io : Z;
  rf_uid : Z;
  rf_gid : Z;
  rf_time : Z
}.

Definition rf_meta (fs : Rafs) : RafsSuperMeta := s_meta (rf_sb fs).

Definition root_ino (sb : CachedSuperBlockV5) : Z := RAFS_V5_ROOT_INODE.

Definition xattr_supported (fs : Rafs) : bool := rf_xattr_enabled fs || meta_has_xattr (rf_meta fs).

Definition negative_entry (fs : Rafs) : Entry :=
  mkEntry 0 0 Attr_default 0 (sm_attr_timeout (rf_meta fs)) (sm_entry_timeout (rf_meta fs)).

(** The overrides of owner, times and the root's permissions, in [get_inode_attr] and
    [get_inode_entry]. *)
Definition override_attr (fs : Rafs) (root : bool) (a : Attr) : Attr :=
  let '(uid, gid) := if meta_explicit_uidgid (rf_meta fs) then (at_uid a, at_gid a) else (rf_uid fs, rf_gid fs) in
  let '(atime, ctime, mtime) := if at_mtime a =? 0 then (rf_time fs, rf_time fs, rf_time fs) else (at_atime a, at_ctime a, at_mtime a) in
  let mode := if root then Z.lor (Z.ldiff (at_mode a) 511) 493 else at_mode a in
  mkAttr (at_ino a) (at_size a) (at_blocks a) atime mtime ctime (at_mtimensec a) mode (at_nlink a) uid gid (at_rdev a) (at_blksize a).

Definition get_inode_attr (fs : Rafs) (ino : Z) : io Attr :=
  inode ← cs_get_inode (rf_sb fs) ino;
  let attr := get_attr (ci_data inode) in
  Ok (override_attr fs (at_ino attr =? root_ino (rf_sb fs)) attr).

Definition get_inode_entry (fs : Rafs) (inode : CachedInodeV5) : Entry :=
  let e := get_entry (rf_meta fs) (ci_data inode) in
  mkEntry (en_inode e) (en_generation e) (override_attr fs (en_inode e =? ROOT_ID) (en_attr e)) (en_attr_flags e) (en_attr_timeout e) (en_entry_timeout e).

Definition fs_getattr (fs : Rafs) (ino : Z) : io (Attr * Z) :=
  attr ← get_inode_attr fs ino; Ok (attr, sm_attr_timeout (rf_meta fs)).

Definition fs_mount (fs : Rafs) : io (Entry * Z) :=
  root ← cs_get_inode (rf_sb fs) (root_ino (rf_sb fs));
  Ok (get_inode_entry fs root, cs_get_max_ino (rf_sb fs)).

(** [unwrap_or_else(|_| self.negative_entry())]. *)
Definition entry_or_negative (fs : Rafs) (r : io CachedInodeV5) : io Entry :=
  match r with
  | Ok i => Ok (get_inode_entry fs i)
  | Err _ => Ok (negative_entry fs)
  | Panic => Panic
  end.

Definition fs_lookup (fs : Rafs) (ino : Z) (target : list Z) : io Entry :=
  parent ← cs_get_inode (rf_sb fs) ino;
  if negb (is_dir (ci_data parent)) then Err ENOTDIR
  else if bool_decide (target = DOT) || ((ino =? ROOT_ID) && bool_decide (target = DOTDOT)) then
    let e := get_inode_entry fs parent in
    Ok (mkEntry ino (en_generation e) (en_attr e) (en_attr_flags e) (en_attr_timeout e) (en_entry_timeout e))
  else if bool_decide (target = DOTDOT) then
    parent ← cs_get_inode (rf_sb fs) (i_ino (ci_data parent));
    entry_or_negative fs (cs_get_inode (rf_sb fs) (i_parent (ci_data parent)))
  else entry_or_negative fs (get_child_by_name parent target).

Definition fs_readlink (fs : Rafs) (ino : Z) : io (list Z) :=
  inode ← cs_get_inode (rf_sb fs) ino; get_symlink inode.

(** *** Extended attributes *)

Inductive GetxattrReply := XValue (v : list Z) | XCount (n : Z).
Inductive ListxattrReply := XNames (v : list Z) | XNamesCount (n : Z).

Definition fs_getxattr (fs : Rafs) (ino : Z) (name : list Z) (size : Z) : io GetxattrReply :=
  if negb (xattr_supported fs) then Err ENOSYS
  else
    inode ← cs_get_inode (rf_sb fs) ino;
    match get_xattr inode name with
    | Some value =>
        if size =? 0 then Ok (XCount (wrap 32 (zlen value + 1)))
        else if size <? wrap 32 (zlen value) then Err ERANGE
        else Ok (XValue value)
    | None => Err ENODATA
    end.

(** The names come in the order of the hash map. *)
Definition get_xattrs (inode : CachedInodeV5) : list (list Z) := (map_to_list (i_xattr (ci_data inode))).*1.

Definition fs_listxattr (fs : Rafs) (ino size : Z) : io ListxattrReply :=
  if negb (xattr_supported fs) then Err ENOSYS
  else
    inode ← cs_get_inode (rf_sb fs) ino;
    let names := get_xattrs inode in
    let count := foldl (fun n name => n + (zlen name + 1)) 0 names in
    let buf := if size =? 0 then [] else concat ((fun name => name ++ [0]) <$> names) in
    if size =? 0 then Ok (XNamesCount (wrap 32 count))
    else if size <? wrap 32 count then Err ERANGE
    else Ok (XNames buf).

(** *** Directories *)

Section readdir.
Context {S : Type}.

Record DirEntry := mkDirEntry { de_ino : Z; de_offset : Z; de_name : list Z }.

Definition do_readdir (fs : Rafs) (ino size offset : Z) (add_entry : DirEntry -> stM S errno Z) : stM S errno unit :=
  if size =? 0 then st_ret tt
  else
    parent ← st_lift (cs_get_inode (rf_sb fs) ino);
    if negb (is_dir (ci_data parent)) then st_lift (Err ENOTDIR)
    else
      let handler name ino offset :=
        n ← add_entry (mkDirEntry ino offset name); st_ret (if n =? 0 then Break else Continue) in
      walk_children_inodes handler parent offset.

Definition fs_readdir := do_readdir.

Definition fs_readdirplus (fs : Rafs) (ino size offset : Z) (add_entry : DirEntry -> Entry -> stM S errno Z) : stM S errno unit :=
  do_readdir fs ino size offset (fun e =>
    inode ← st_lift (cs_get_inode (rf_sb fs) (de_ino e));
    add_entry e (get_inode_entry fs inode)).
End readdir.

(** *** Access *)

Definition R_OK : Z := 4.
Definition W_OK : Z := 2.
Definition X_OK : Z := 1.

(** The bit of one class: [(st.uid != ctx.uid || st.mode & bit == 0)]. *)
Definition class_denies (same : bool) (mode bit : Z) : bool := negb same || (Z.land mode bit =? 0).

Definition fs_access (fs : Rafs) (uid gid ino mask : Z) : io unit :=
  st ← get_inode_attr fs ino;
  let mode := Z.land mask (Z.lor R_OK (Z.lor W_OK X_OK)) in
  let owner := at_uid st =? uid in
  let group := at_gid st =? gid in
  if mode =? 0 then Ok tt
  else if negb (Z.land mode R_OK =? 0) && negb (uid =? 0) && class_denies owner (at_mode st) 0x100
          && class_denies group (at_mode st) 0x20 && (Z.land (at_mode st) 0x4 =? 0) then Err EACCES
  else if negb (Z.land mode W_OK =? 0) && negb (uid =? 0) && class_denies owner (at_mode st) 0x80
          && class_denies group (at_mode st) 0x10 && (Z.land (at_mode st) 0x2 =? 0) then Err EACCES
  else if negb (Z.land mode X_OK =? 0) && (negb (uid =? 0) || (Z.land (at_mode st) 0x49 =? 0)) && class_denies owner (at_mode st) 0x40
          && class_denies group (at_mode st) 0x8 && (Z.land (at_mode st) 0x1 =? 0) then Err EACCES
  else Ok tt.

(** *** Paths *)

Definition SLASH : Z := 47.

(** [Path::components] of the bytes of an absolute path, without the root: empty components and
    [.] are skipped. *)
Fixpoint split_slash (cur : list Z) (path : list Z) : list (list Z) :=
  match path with
  | [] => [cur]
  | b :: path => if b =? SLASH then cur :: split_slash [] path else split_slash (cur ++ [b]) path
  end.

Definition components (path : list Z) : list (list Z) :=
  filter (fun c => c <> [] /\ c <> DOT) (split_slash [] path).

Fixpoint resolve (parent : CachedInodeV5) (entries : list (list Z)) : io CachedInodeV5 :=
  match entries with
  | [] => Ok parent
  | name :: entries =>
      match get_child_by_name parent name with
      | Ok child => resolve child entries
      | Err _ => Err ENOENT
      | Panic => Panic
      end
  end.

Definition ino_from_path (sb : CachedSuperBlockV5) (f : list Z) : io Z :=
  match f with
  | b :: rest =>
      if b =? SLASH then
        match components rest with
        | [] => Ok (root_ino sb)
        | entries => parent ← cs_get_inode sb (root_ino sb); t ← resolve parent entries; Ok (i_ino (ci_data t))
        end
      else Err EINVAL
  | [] => Err EINVAL
  end.

(** *** Reads *)

Section read.
Context `{Profile} (all_chunks_ready : list BlobIoVec -> bool) (read_to : BlobIoVec -> io (list Z)).

Definition get_inode_ops (sb : CachedSuperBlockV5) (ino : Z) : io V5InodeOps :=
  t ← cs_get_inode sb ino; Ok (cached_ops (s_blob sb) t).

(** The data written for the vectors; a short read ends the loop. *)
Fixpoint read_descs (descs : list BlobIoVec) : io (list Z) :=
  match descs with
  | [] => Ok []
  | desc :: descs =>
      _ ← rassert (negb (bool_decide (iov_vec desc = [])));
      _ ← rassert (negb (iov_size desc =? 0));
      data ← read_to desc;
      if negb (wrap 32 (zlen data) =? iov_size desc) then Ok data
      else rest ← read_descs descs; Ok (data ++ rest)
  end.

(** Small reads of data that is not cached are amplified; at most the inodes after [ino] are
    looked at. *)
Definition amplify_read (fs : Rafs) (inode : V5InodeOps) (offset size : Z) (descs : list BlobIoVec) : io (list BlobIoVec) :=
  if meta_is_v5 (rf_meta fs) && (size <? rf_amplify_io fs) then
    if all_chunks_ready descs then Ok descs
    else
      chunk_mask ← usub 64 (sm_chunk_size (rf_meta fs)) 1;
      e ← uadd 64 offset size;
      e ← uadd 64 e chunk_mask;
      let next_chunk_base := Z.ldiff e chunk_mask in
      let window_base := Z.min next_chunk_base (vo_size inode) in
      actual_size ← usub 64 window_base (Z.ldiff offset chunk_mask);
      if actual_size <? rf_amplify_io fs then
        amplify_io (get_inode_ops (rf_sb fs)) (sm_chunk_size (rf_meta fs)) (Z.to_nat (cs_get_max_ino (rf_sb fs) + 3)) (rf_amplify_io fs)
          descs inode window_base (rf_amplify_io fs - actual_size)
      else Ok descs
  else Ok descs.

Definition fs_read (fs : Rafs) (ino size offset : Z) : io (list Z) :=
  _ ← ok_or (checked_add 64 offset size) EINVAL;
  inode ← get_inode_ops (rf_sb fs) ino;
  if (size =? 0) || (vo_size inode <=? offset) then Ok []
  else
    let real_size := Z.min size (vo_size inode - offset) in
    descs ← rafsv5_alloc_bio_vecs inode offset real_size true;
    _ ← rassert (match descs with d :: _ => negb (bool_decide (iov_vec d = [])) | [] => false end);
    descs ← amplify_read fs inode offset size descs;
    read_descs descs.
End read.

(** ** Reads return the file *)

Lemma ldiff_bound a m : 0 <= a -> 0 <= m -> 0 <= Z.ldiff a m <= a /\ a - m <= Z.ldiff a m.
Proof.
  intros Ha Hm. assert (Z.ldiff a m = a - Z.land a m) as E.
  { rewrite Z.sub_nocarry_ldiff; apply Z.bits_inj'; intros k Hk; rewrite ?Z.bits_0, !Z.ldiff_spec, Z.land_spec; by destruct (Z.testbit a k), (Z.testbit m k). }
  assert (m - Z.land a m = Z.ldiff m a) as E2.
  { rewrite Z.sub_nocarry_ldiff; apply Z.bits_inj'; intros k Hk; rewrite ?Z.bits_0, !Z.ldiff_spec, Z.land_spec; by destruct (Z.testbit a k), (Z.testbit m k). }
  pose proof (proj2 (Z.land_nonneg a m) (or_introl Ha)). pose proof (proj2 (Z.ldiff_nonneg m a) (or_introl Hm)).
  pose proof (proj2 (Z.ldiff_nonneg a m) (or_introl Ha)). lia.
Qed.

Definition piece (chunk_data : ChunkDesc -> list Z) (d : BlobIoDesc) : list Z :=
  slice (Z.to_nat (io_offset d)) (Z.to_nat (io_size d)) (chunk_data (io_chunk d)).

(** The data of a vector the user asks for. *)
Definition user_data (chunk_data : ChunkDesc -> list Z) (v : BlobIoVec) : list Z :=
  concat (piece chunk_data <$> filter (fun d => io_user d = true) (iov_vec v)).

(** What the storage device promises for a vector within the chunks: the user's part of it. *)
Class BlobReader (read_to : BlobIoVec -> io (list Z)) (chunk_data : ChunkDesc -> list Z) :=
  read_to_user_data v : iov_ok v -> iov_vec v <> [] ->
    Forall (fun d => io_user d = true -> 0 <= io_offset d /\ io_offset d + io_size d <= zlen (chunk_data (io_chunk d))) (iov_vec v) ->
    read_to v = Ok (user_data chunk_data v).

(** The files of an image: cut into chunks, and found by numbers up to the maximum. Builds with
    overflow checks have no empty file. *)
Record FilesOk `{Profile} (sb : CachedSuperBlockV5) : Prop := {
  fo_max : 0 <= s_max_inode sb < 2 ^ 64 - 1;
  fo_ino n t : s_inodes sb !! n = Some t -> i_ino (ci_data t) = n /\ 0 <= n <= s_max_inode sb;
  fo_file n t : s_inodes sb !! n = Some t -> is_reg (ci_data t) = true ->
    Tiled (cached_ops (s_blob sb) t) (i_data (ci_data t)) /\ (overflow_checks = true -> 0 < i_size (ci_data t))
}.

Section read_spec.
Context `{Profile} (read_to : BlobIoVec -> io (list Z)) (chunk_data : ChunkDesc -> list Z) `{!BlobReader read_to chunk_data}.

(** The chunks of a file hold its content. *)
Definition holds (content : list Z) (t : CachedInodeV5) : Prop :=
  zlen content = i_size (ci_data t) /\
  forall c, c ∈ i_data (ci_data t) -> chunk_data (v5_io_chunk c) = slice (Z.to_nat (cc_file_offset c)) (Z.to_nat (cc_uncompressed_size c)) content.

Definition in_chunk (d : BlobIoDesc) : Prop := 0 <= io_offset d /\ 0 < io_size d /\ io_offset d + io_size d <= zlen (chunk_data (io_chunk d)).

Lemma piece_length d : in_chunk d -> zlen (piece chunk_data d) = io_size d.
Proof. intros (? & ? & ?). unfold piece, slice, zlen in *. rewrite length_take, length_drop. lia. Qed.

Lemma pieces_length l : Forall in_chunk l -> zlen (concat (piece chunk_data <$> l)) = io_total l.
Proof.
  induction 1 as [|d l Hd _ IH]; [done|]. rewrite fmap_cons, concat_cons. unfold zlen in *. rewrite length_app, Nat2Z.inj_add, IH.
  pose proof (piece_length d Hd) as E. unfold zlen in E. rewrite E. done.
Qed.

Lemma slice_join off n m (l : list Z) : slice off n l ++ slice (off + n) m l = slice off (n + m) l.
Proof. unfold slice. rewrite <- drop_drop. by rewrite take_take_drop. Qed.

Lemma covers_bytes content user l pos end_ : covers user pos end_ l -> 0 <= pos ->
  (forall c, c ∈ l.*1 -> 0 <= cc_file_offset c /\ cc_file_offset c + cc_uncompressed_size c <= zlen content /\
     chunk_data (v5_io_chunk c) = slice (Z.to_nat (cc_file_offset c)) (Z.to_nat (cc_uncompressed_size c)) content) ->
  pos <= end_ /\ concat (piece chunk_data <$> l.*2) = slice (Z.to_nat pos) (Z.to_nat (end_ - pos)) content /\ Forall in_chunk l.*2.
Proof.
  revert pos. induction l as [|[c d] l IH]; intros pos Hc Hp Hch.
  { cbn in Hc. subst. rewrite Z.sub_diag. split; [lia|]. split; [done|constructor]. }
  destruct Hc as (E1 & _ & _ & E4 & E5 & E6 & E7 & Hc). destruct (Hch c ltac:(cbn; set_solver)) as (Hf & Hfl & Hd).
  destruct (IH (pos + io_size d) Hc ltac:(lia)) as (IH1 & IH2 & IH3); [intros c' Hc'; apply Hch; cbn; set_solver|].
  assert (zlen (chunk_data (io_chunk d)) = cc_uncompressed_size c) as Hlen.
  { rewrite E1, Hd. unfold zlen, slice in *. rewrite length_take, length_drop. lia. }
  split; [lia|]. rewrite !fmap_cons. cbn [fst snd]. split; [|constructor; [|done]; unfold in_chunk; rewrite Hlen; lia].
  rewrite concat_cons, IH2. unfold piece. rewrite E1, Hd, slice_slice by lia.
  replace (Z.to_nat (cc_file_offset c) + Z.to_nat (io_offset d))%nat with (Z.to_nat pos) by lia.
  replace (Z.to_nat (pos + io_size d)) with (Z.to_nat pos + Z.to_nat (io_size d))%nat by lia. rewrite slice_join. f_equal. lia.
Qed.

Lemma user_data_grows v v' : grows v v' -> user_data chunk_data v' = user_data chunk_data v.
Proof.
  intros [_ (extra & E & Hx)]. unfold user_data. rewrite E, filter_app. replace (filter _ extra) with (@nil BlobIoDesc); [by rewrite app_nil_r|].
  symmetry. clear E. induction Hx as [|d extra Hd _ IH]; [done|]. rewrite filter_cons_False; [done|]. by rewrite Hd.
Qed.

(** A vector of the user's data. *)
Definition full (v : BlobIoVec) : Prop := iov_ok v /\ iov_vec v <> [] /\ Forall (fun d => io_user d = true /\ in_chunk d) (iov_vec v).

Lemma user_data_full v : full v -> user_data chunk_data v = concat (piece chunk_data <$> iov_vec v).
Proof.
  intros (_ & _ & Hd). unfold user_data. f_equal. f_equal. induction Hd as [|d l [Hu _] _ IH]; [done|].
  rewrite filter_cons_True by done. by rewrite IH.
Qed.

Lemma full_size v : full v -> zlen (user_data chunk_data v) = iov_size v /\ 0 < iov_size v < 2 ^ 32.
Proof.
  intros Hf. rewrite user_data_full by done. destruct Hf as ((Hsz & Hr & _) & Hne & Hd).
  rewrite pieces_length by (eapply Forall_impl; [exact Hd|]; by intros ? [_ ?]). split; [done|]. split; [|lia]. rewrite Hsz.
  destruct Hd as [|d l [_ (_ & ? & _)] Hl]; [done|]. cbn [io_total foldr]. fold (io_total l). enough (0 <= io_total l) by lia.
  clear -Hl. induction Hl as [|d' l [_ (_ & ? & _)] _ IH]; [done|]. cbn [io_total foldr]. fold (io_total l). lia.
Qed.

Lemma io_total_nonneg l : Forall extent_ok l -> 0 <= io_total l.
Proof. induction 1 as [|d l [? _] _ IH]; [done|]. cbn [io_total foldr]. fold (io_total l). lia. Qed.

(** A vector whose tail the user does not ask for is read last. *)
Lemma read_last v v' : full v -> grows v v' -> iov_ok v' -> Forall extent_ok (iov_vec v') -> read_descs read_to [v'] = Ok (user_data chunk_data v).
Proof.
  intros Hf Hg Hok Hx. pose proof (full_size v Hf) as [_ Hsz]. pose proof Hf as ((Hsv & _) & Hne & Hd). pose proof Hg as [_ (extra & E & He)].
  assert (0 < iov_size v').
  { destruct Hok as [-> _]. rewrite E, io_total_app in *. apply Forall_app in Hx as [_ Hx]. pose proof (io_total_nonneg _ Hx). lia. }
  cbn [read_descs]. rewrite bool_decide_eq_false_2 by (rewrite E; by destruct (iov_vec v)). rewrite (proj2 (Z.eqb_neq (iov_size v') 0)) by lia.
  cbn [negb rassert mbind outcome_bind]. rewrite (@read_to_user_data read_to chunk_data _ v').
  - cbn [mbind outcome_bind]. rewrite (user_data_grows v v' Hg). case_match; [done|]. by rewrite app_nil_r.
  - done.
  - rewrite E. by destruct (iov_vec v).
  - rewrite E. apply Forall_app. split; [eapply Forall_impl; [exact Hd|]; intros d [_ (? & ? & ?)] _; lia|].
    eapply Forall_impl; [exact He|]. intros d -> [=].
Qed.

Lemma read_all vs v v' : Forall full vs -> full v -> grows v v' -> iov_ok v' -> Forall extent_ok (iov_vec v') ->
  read_descs read_to (vs ++ [v']) = Ok (concat (piece chunk_data <$> all_descs (vs ++ [v]))).
Proof.
  intros Hvs Hv Hg Hok Hx. induction Hvs as [|u vs Hu _ IH].
  { cbn [app]. rewrite (read_last v v') by done. rewrite user_data_full by done. unfold all_descs. cbn. by rewrite app_nil_r. }
  destruct (full_size u Hu) as [Hlen Hsz]. pose proof Hu as (Huok & Hne & Hd). cbn [app read_descs].
  rewrite bool_decide_eq_false_2 by done. rewrite (proj2 (Z.eqb_neq (iov_size u) 0)) by lia. cbn [negb rassert mbind outcome_bind].
  rewrite (@read_to_user_data read_to chunk_data _ u); [|done|done|eapply Forall_impl; [exact Hd|]; intros d [_ (? & ? & ?)] _; lia].
  cbn [mbind outcome_bind]. rewrite wrap_small by (split; lia). rewrite (proj2 (Z.eqb_eq _ _)) by done. cbn [negb]. rewrite IH. cbn [mbind outcome_bind].
  rewrite user_data_full by done. unfold all_descs. rewrite (fmap_cons iov_vec), concat_cons. by rewrite (fmap_app _ (iov_vec u)), (concat_app (_ <$> iov_vec u)).
Qed.

Context (all_chunks_ready : list BlobIoVec -> bool) (fs : Rafs).
Hypothesis (Hfiles : FilesOk (rf_sb fs)) (Hamp : 0 <= rf_amplify_io fs < 2 ^ 32) (Hcs : 0 < sm_chunk_size (rf_meta fs) < 2 ^ 32).

Lemma files_follow : Followers (fun idx => BlobTable_get idx (s_blob (rf_sb fs))) (get_inode_ops (rf_sb fs)) (s_max_inode (rf_sb fs)).
Proof.
  destruct Hfiles as [Hmax Hino Hfile]. unfold get_inode_ops, cs_get_inode. split.
  - intros n. by destruct (s_inodes (rf_sb fs) !! n).
  - intros n Hn. destruct (s_inodes (rf_sb fs) !! n) as [t|] eqn:E; [|by eexists]. apply Hino in E. lia.
  - lia.
  - intros n ni. destruct (s_inodes (rf_sb fs) !! n) as [t|] eqn:E; cbn; [|done]. intros [= <-] Hr. destruct (Hfile n t E Hr) as [Ht Hs].
    split; [done|]. split; [done|]. by exists (i_data (ci_data t)).
Qed.

Lemma amplify_read_grows ino t offset size vs v : s_inodes (rf_sb fs) !! ino = Some t ->
  Tiled (cached_ops (s_blob (rf_sb fs)) t) (i_data (ci_data t)) -> 0 <= offset < i_size (ci_data t) -> 0 < size < 2 ^ 32 ->
  has_room (fun idx => BlobTable_get idx (s_blob (rf_sb fs))) v 0 -> iov_size v <= Z.min size (i_size (ci_data t) - offset) ->
  exists v', amplify_read all_chunks_ready fs (cached_ops (s_blob (rf_sb fs)) t) offset size (vs ++ [v]) = Ok (vs ++ [v']) /\
    grows v v' /\ iov_ok v' /\ Forall extent_ok (iov_vec v').
Proof.
  intros Hino Ht Ho Hs Hroom Hsz. pose proof (tl_size _ _ Ht) as Hfs. cbn [cached_ops vo_size] in Hfs.
  assert (exists v', Ok (vs ++ [v]) = @Ok errno _ (vs ++ [v']) /\ grows v v' /\ iov_ok v' /\ Forall extent_ok (iov_vec v')) as Hsame.
  { exists v. destruct Hroom as (? & ? & ? & ? & _). split; [done|]. split; [reflexivity|done]. }
  unfold amplify_read. destruct (meta_is_v5 _ && _) eqn:Ev5; [|done]. destruct (all_chunks_ready _); [done|].
  apply andb_true_iff in Ev5 as [_ Hlt%Z.ltb_lt]. set (mask := sm_chunk_size (rf_meta fs) - 1).
  rewrite usub_in by (split; lia). fold mask. cbn [mbind outcome_bind]. rewrite uadd_in by (split; lia). cbn [mbind outcome_bind].
  rewrite uadd_in by (split; lia). cbn [mbind outcome_bind].
  assert (offset + size <= Z.ldiff (offset + size + mask) mask) as Hnext by (destruct (ldiff_bound (offset + size + mask) mask); lia).
  assert (0 <= Z.ldiff offset mask <= offset) as Hbase by (destruct (ldiff_bound offset mask); lia).
  set (base := Z.min (Z.ldiff (offset + size + mask) mask) (i_size (ci_data t))). cbn [cached_ops vo_size]. fold base.
  rewrite usub_in by (unfold base; split; lia). cbn [mbind outcome_bind]. destruct (Z.ltb_spec (base - Z.ldiff offset mask) (rf_amplify_io fs)); [|done].
  destruct (fo_ino _ Hfiles _ _ Hino) as [Eino Hn]. pose proof (fo_max _ Hfiles).
  edestruct (amplify_io_run (fun idx => BlobTable_get idx (s_blob (rf_sb fs))) (Z.shiftr (rf_amplify_io fs) RAFS_MERGING_SIZE_TO_GAP_SHIFT))
    as (v' & w' & -> & Hg & Hr); [|exact files_follow|lia|reflexivity|exact Ht|reflexivity| |unfold base; lia| | | |].
  - rewrite Z.shiftr_div_pow2 by done. unfold RAFS_MERGING_SIZE_TO_GAP_SHIFT. split; [apply Z.div_pos; lia|apply Z.div_lt_upper_bound; lia].
  - destruct Hroom as (R1 & R2 & R3 & R4 & _). split_and!; [done..| |]; unfold base in *; lia.
  - lia.
  - cbn [cached_ops vo_ino]. rewrite Eino. done.
  - cbn [cached_ops vo_ino]. rewrite Eino. unfold cs_get_max_ino. lia.
  - exists v'. destruct Hr as (? & ? & ? & ? & _). done.
Qed.

Lemma read_file ino t content size offset : s_inodes (rf_sb fs) !! ino = Some t -> is_reg (ci_data t) = true -> holds content t ->
  0 <= offset -> 0 <= size < 2 ^ 32 -> offset + size < 2 ^ 64 ->
  fs_read all_chunks_ready read_to fs ino size offset = Ok (slice (Z.to_nat offset) (Z.to_nat size) content).
Proof.
  intros Hino Hreg [Hlen Hch] Ho Hs Hos. destruct (fo_file _ Hfiles _ _ Hino Hreg) as [Ht _]. set (ops := cached_ops (s_blob (rf_sb fs)) t) in *.
  pose proof (tl_size _ _ Ht) as Hfs. pose proof (tl_chunk_size _ _ Ht) as Hvcs. change (vo_size ops) with (i_size (ci_data t)) in *. unfold fs_read. assert (checked_add 64 offset size = Some (offset + size)) as -> by (by apply checked_add_Some).
  unfold get_inode_ops, cs_get_inode. rewrite Hino. cbn [ok_or mbind outcome_bind]. fold ops. change (vo_size ops) with (i_size (ci_data t)).
  destruct (Z.eqb_spec size 0) as [->|]; [done|]. destruct (Z.leb_spec (i_size (ci_data t)) offset); cbn [orb].
  { unfold slice. rewrite drop_ge by (unfold zlen in Hlen; lia). by rewrite take_nil. }
  set (real := Z.min size (i_size (ci_data t) - offset)).
  destruct (alloc_run ops (i_data (ci_data t)) Ht offset (offset + real) true) as (vs & E & Hr);
    [unfold real; lia|change (vo_size ops) with (i_size (ci_data t)); unfold real; lia|unfold real; lia|unfold real; lia|].
  replace (offset + real - offset) with real in E by lia. rewrite E. cbn [mbind outcome_bind].
  destruct (read_as_descs _ _ _ _ _ _ Ht Hr) as [Hds Htot]. destruct Hr as (l & Hcov & Hall & Hl1 & Hok & Hne & _ & Hbf).
  destruct (covers_bytes content true l offset (offset + real) Hcov Ho) as (_ & Hbytes & Hin).
  { intros c Hc. rewrite Hl1 in Hc. apply elem_of_take in Hc as (i & Hi & _). rewrite lookup_drop in Hi.
    destruct (tl_chunk _ _ Ht _ _ Hi) as (_ & E1 & E2). apply list_elem_of_lookup_2 in Hi. change (vo_size ops) with (i_size (ci_data t)) in E2. split; [rewrite E1; nia|]. split; [lia|by apply Hch]. }
  assert (Forall full vs) as Hfull.
  { rewrite <- Hall in Hin. apply all_descs_Forall in Hin. rewrite Forall_forall in Hok, Hne, Hds, Hin |- *. intros v Hv. split; [by apply Hok|].
    split; [by apply Hne|]. apply Forall_and. split; [|by apply Hin]. eapply Forall_impl; [by apply Hds|]. by intros ? [_ ?]. }
  destruct (exists_last (l := vs)) as (vs0 & v & ->); [by intros ->; cbn in Htot; unfold real in Htot; lia|].
  apply Forall_app in Hfull as [Hf0 Hfv%Forall_inv]. apply Forall_app in Hbf as [_ Hbv%Forall_inv]. apply Forall_app in Hds as [_ Hdv%Forall_inv].
  apply Forall_app in Hok as [Hok0 Hokv%Forall_inv]. rewrite all_descs_snoc, io_total_app in Htot. pose proof (total_nonneg _ Hok0).
  assert (rassert (match vs0 ++ [v] with d :: _ => negb (bool_decide (iov_vec d = [])) | [] => false end) = @Ok errno _ ()) as ->.
  { destruct (vs0 ++ [v]) as [|d vs] eqn:Ev; [by destruct vs0|]. apply Forall_inv in Hne. by rewrite bool_decide_eq_false_2. }
  cbn [mbind outcome_bind]. destruct (amplify_read_grows ino t offset size vs0 v Hino Ht) as (v' & Eamp & Hg & Hok' & Hx'); [lia|lia| |destruct Hokv as [-> _]; fold real; lia|].
  { split; [done|]. split; [by apply Hfv|]. split; [done|]. split; [eapply Forall_impl; [exact Hdv|]; by intros ? [? _]|]. destruct Hokv as (_ & ? & _). lia. }
  fold ops in Eamp. rewrite Eamp. cbn [mbind outcome_bind]. rewrite (read_all vs0 v v') by done. rewrite Hall, Hbytes. f_equal.
  replace (offset + real - offset) with real by lia. unfold slice, real. rewrite <- (take_ge (drop (Z.to_nat offset) content) (Z.to_nat (i_size (ci_data t) - offset))) at 2.
  2:{ rewrite length_drop. unfold zlen in Hlen. lia. }
  rewrite take_take. f_equal. lia.
Qed.
End read_spec.

(** C10: a read returns the bytes of the file. For an image whose files are cut into chunks, and
    a device that returns the user's part of what it is asked for, [Rafs::read] succeeds on any
    regular file and any range (beyond the end, empty and amplified ones included) and returns
    exactly the bytes of the range: amplification reads more from the backend, but it neither
    fails, nor loops, nor adds a byte to the reply. *)
Theorem fs_read_exact `{Profile} all_chunks_ready read_to chunk_data fs ino t content size offset :
  BlobReader read_to chunk_data -> FilesOk (rf_sb fs) -> 0 <= rf_amplify_io fs < 2 ^ 32 -> 0 < sm_chunk_size (rf_meta fs) < 2 ^ 32 ->
  s_inodes (rf_sb fs) !! ino = Some t -> is_reg (ci_data t) = true -> holds chunk_data content t ->
  0 <= offset -> 0 <= size < 2 ^ 32 -> offset + size < 2 ^ 64 ->
  fs_read all_chunks_ready read_to fs ino size offset = Ok (slice (Z.to_nat offset) (Z.to_nat size) content).
Proof. intros ? ? ? ?. by apply read_file. Qed.

(** ** Paths name inodes *)

(** The inode [n] of the image [l] has the path [names]. *)
Inductive at_path (l : list InodeData) : list (list Z) -> InodeData -> Prop :=
| at_root r : r ∈ l -> i_ino r = RAFS_V5_ROOT_INODE -> is_dir r = true -> at_path l [] r
| at_child names d n : at_path l names d -> is_dir d = true -> n ∈ l -> i_parent n = i_ino d -> at_path l (names ++ [i_name n]) n.

Definition name_ok (c : list Z) : Prop := c <> [] /\ c <> DOT /\ SLASH ∉ c.

Definition path_bytes (names : list (list Z)) : list Z :=
  match names with [] => [SLASH] | _ => concat ((fun c => SLASH :: c) <$> names) end.

Lemma split_slash_name cur c rest : SLASH ∉ c -> split_slash cur (c ++ SLASH :: rest) = (cur ++ c) :: split_slash [] rest.
Proof.
  revert cur. induction c as [|b c IH]; intros cur Hc; cbn [app split_slash].
  - by rewrite app_nil_r.
  - apply not_elem_of_cons in Hc as [Hb Hc]. rewrite (proj2 (Z.eqb_neq b SLASH)) by done. by rewrite IH, <- app_assoc.
Qed.

Lemma split_slash_last cur c : SLASH ∉ c -> split_slash cur c = [cur ++ c].
Proof.
  revert cur. induction c as [|b c IH]; intros cur Hc; cbn [split_slash]; [by rewrite app_nil_r|].
  apply not_elem_of_cons in Hc as [Hb Hc]. rewrite (proj2 (Z.eqb_neq b SLASH)) by done. by rewrite IH, <- app_assoc.
Qed.

Lemma components_names c names : Forall name_ok (c :: names) -> components (c ++ concat ((fun c => SLASH :: c) <$> names)) = c :: names.
Proof.
  revert c. induction names as [|c' names IH]; intros c Hok; inversion Hok as [|? ? (H1 & H2 & H3) Hok']; subst; unfold components.
  - cbn. rewrite app_nil_r, split_slash_last by done. by rewrite filter_cons_True.
  - rewrite fmap_cons, concat_cons. cbn [app]. rewrite split_slash_name by done. rewrite filter_cons_True by done. f_equal. by apply IH.
Qed.

Lemma resolve_app t names1 names2 : resolve t (names1 ++ names2) = t1 ← resolve t names1; resolve t1 names2.
Proof. revert t. induction names1 as [|c names1 IH]; intros t; cbn [app resolve mbind outcome_bind]; [done|]. destruct (get_child_by_name t c); [apply IH|done|done]. Qed.

Section paths.
Context (l : list InodeData) (sb : CachedSuperBlockV5) (Hdirs : forall d, d ∈ l -> is_dir d = true -> dir_exact l sb d).

Lemma at_path_in names n : at_path l names n -> n ∈ l.
Proof. by induction 1. Qed.

Lemma at_path_nil n : at_path l [] n -> i_ino n = RAFS_V5_ROOT_INODE.
Proof. intros Hp. remember [] as e eqn:Ee. destruct Hp; [done|]. by destruct names. Qed.

Lemma resolve_at_path names n : at_path l names n ->
  exists r t, cs_get_inode sb RAFS_V5_ROOT_INODE = Ok r /\ resolve r names = Ok t /\ ci_data t = n /\ (is_dir n = true -> cs_get_inode sb (i_ino n) = Ok t).
Proof.
  induction 1 as [r Hin Hino Hd|names d n Hp IH Hd Hn Hpar].
  - destruct (Hdirs r Hin Hd) as (t & E & Ed & _). exists t, t. rewrite Hino in *. by split_and!.
  - destruct IH as (r & t & Er & Et & Ed & Es). specialize (Es Hd). destruct (Hdirs d ltac:(by eapply at_path_in) Hd) as (t' & E' & _ & _ & Hin & _).
    rewrite E' in Es. injection Es as ->. destruct (Hin n Hn Hpar) as (c & Ec & Edc & Esc). exists r, c. split; [done|].
    rewrite resolve_app, Et. cbn [mbind outcome_bind resolve]. rewrite Ec. done.
Qed.

Lemma ino_from_path_names names : Forall name_ok names ->
  ino_from_path sb (path_bytes names) =
    match names with [] => Ok (root_ino sb) | _ => parent ← cs_get_inode sb (root_ino sb); t ← resolve parent names; Ok (i_ino (ci_data t)) end.
Proof.
  intros Hok. destruct names as [|c names]; [done|]. unfold path_bytes. rewrite fmap_cons, concat_cons. cbn [app ino_from_path]. rewrite Z.eqb_refl.
  by rewrite components_names.
Qed.

Lemma path_found names n : at_path l names n -> Forall name_ok names -> ino_from_path sb (path_bytes names) = Ok (i_ino n).
Proof.
  intros Hp Hok. rewrite ino_from_path_names by done. destruct (resolve_at_path names n Hp) as (r & t & Er & Et & Ed & _).
  destruct names as [|c names]; [by rewrite (at_path_nil n Hp)|].
  unfold root_ino. rewrite Er. cbn [mbind outcome_bind]. rewrite Et. cbn. by rewrite Ed.
Qed.

Lemma path_missing names d name rest : at_path l names d -> is_dir d = true -> name ∉ i_name <$> children_of (i_ino d) l ->
  Forall name_ok (names ++ name :: rest) -> ino_from_path sb (path_bytes (names ++ name :: rest)) = Err ENOENT.
Proof.
  intros Hp Hd Hno Hok. rewrite ino_from_path_names by done. destruct (resolve_at_path names d Hp) as (r & t & Er & Et & Ed & Es).
  specialize (Es Hd). destruct (Hdirs d ltac:(by eapply at_path_in) Hd) as (t' & E' & _ & _ & _ & Hmiss & _). rewrite E' in Es. injection Es as ->.
  destruct (names ++ name :: rest) as [|c0 names0] eqn:En; [by destruct names|]. rewrite <- En. unfold root_ino. rewrite Er. cbn [mbind outcome_bind].
  rewrite resolve_app, Et. cbn [mbind outcome_bind resolve]. by rewrite (Hmiss name Hno).
Qed.
End paths.

(** C16: paths resolve to the inodes they name. After the inodes of an image are loaded in cached
    mode, [ino_from_path] maps the path of every inode to its number, and a path that leaves
    the tree at a name that is not in its directory is [ENOENT]. *)
Theorem paths_resolve `{Profile} (self : CachedSuperBlockV5) ns tail :
  let cs := sm_chunk_size (s_meta self) in
  let l := cached_node cs <$> ns in
  s_inodes self = ∅ -> Forall (node_ok cs) ns -> image_ok l -> sm_inode_table_entries (s_meta self) = zlen ns ->
  exists self', load_all_inodes self (concat (node_bytes <$> ns) ++ tail) = (Ok self', tail) /\
    (forall names n, at_path l names n -> Forall name_ok names -> ino_from_path self' (path_bytes names) = Ok (i_ino n)) /\
    (forall names d name rest, at_path l names d -> is_dir d = true -> name ∉ i_name <$> children_of (i_ino d) l ->
       Forall name_ok (names ++ name :: rest) -> ino_from_path self' (path_bytes (names ++ name :: rest)) = Err ENOENT).
Proof.
  intros cs l He Hok Himg Hn. destruct (load_all_inodes_tree self ns tail He Hok Himg (or_introl Hn)) as (self' & E & _ & Hdirs & _).
  exists self'. split; [done|]. split; [by apply path_found|by apply path_missing].
Qed.

(** ** Attributes in cached mode *)

(** in cached mode the recorded owner and modification time of a file never reach the user.
    Whatever an inode records, [getattr] reports owner and group 0 when the image has explicit
    owners (the owner of the process otherwise), and the time of the mount. *)
Theorem cached_attr_drops_owner fs ino a timeout : fs_getattr fs ino = Ok (a, timeout) ->
  exists t, s_inodes (rf_sb fs) !! ino = Some t /\ at_ino a = i_ino (ci_data t) /\ at_size a = i_size (ci_data t) /\
    (at_uid a, at_gid a) = (if meta_explicit_uidgid (rf_meta fs) then (0, 0) else (rf_uid fs, rf_gid fs)) /\
    at_mtime a = rf_time fs /\ at_mtimensec a = 0.
Proof.
  unfold fs_getattr, get_inode_attr, cs_get_inode. destruct (s_inodes (rf_sb fs) !! ino) as [t|]; [|done]. cbn [ok_or mbind outcome_bind].
  intros [= <- _]. exists t. unfold override_attr. by destruct (meta_explicit_uidgid _).
Qed.

(** ** Witnesses *)

Definition small_super (b : CachedInodeV5) : CachedSuperBlockV5 :=
  mkCachedSuper small_blobs
    (mkSuperMeta 0 RAFS_SUPER_VERSION_V5 0 0 4 2 EXPLICIT_UID_GID 2 0 0 0 0 0 0 0 0 0 false 0 0 0 0)
    (<[2 := small_file]> (<[3 := b]> ∅)) 3 false.

Definition small_fs (b : CachedInodeV5) : Rafs := mkRafs (small_super b) false 0x1000 0 0 1700000000.

Definition blob_bytes : list Z := [10; 11; 12; 13; 14; 15; 16; 17; 18].

(** A device with the data of the blob in memory. *)
Definition memory_chunk (c : ChunkDesc) : list Z := slice (Z.to_nat (chunk_u_offset c)) (Z.to_nat (chunk_u_size c)) blob_bytes.
Definition memory_read (v : BlobIoVec) : io (list Z) := Ok (user_data memory_chunk v).

#[export] Instance memory_reader : BlobReader memory_read memory_chunk.
Proof. by intros v _ _ _. Qed.

Lemma small_files_ok : FilesOk (H := dev_profile) (small_super next_file).
Proof.
  assert (forall n t, s_inodes (small_super next_file) !! n = Some t -> (n = 2 /\ t = small_file) \/ (n = 3 /\ t = next_file)) as Hl.
  { intros n t Hn. cbn [small_super s_inodes] in Hn. apply lookup_insert_Some in Hn as [[<- <-]|[_ Hn]]; [by left|].
    apply lookup_insert_Some in Hn as [[<- <-]|[_ Hn]]; [by right|]. by rewrite lookup_empty in Hn. }
  split.
  - split; [discriminate|reflexivity].
  - intros n t [[-> ->]|[-> ->]]%Hl; (split; [reflexivity|split; discriminate]).
  - intros n t Hn _. split; [apply small_files_tiled; destruct (Hl n t Hn) as [[_ ->]|[_ ->]]; set_solver|].
    destruct (Hl n t Hn) as [[_ ->]|[_ ->]]; intros _; reflexivity.
Qed.

Lemma fs_read_exact_witness : @fs_read dev_profile (fun _ => false) memory_read (small_fs next_file) 2 3 2 = Ok [12; 13; 14].
Proof.
  apply (@fs_read_exact dev_profile (fun _ => false) memory_read memory_chunk (small_fs next_file) 2 small_file [10; 11; 12; 13; 14; 15] 3 2).
  - exact memory_reader.
  - exact small_files_ok.
  - split; [discriminate|reflexivity].
  - split; reflexivity.
  - reflexivity.
  - reflexivity.
  - split; [reflexivity|]. intros c Hc. repeat (apply elem_of_cons in Hc as [->|Hc]); [reflexivity..|by apply elem_of_nil in Hc].
  - discriminate.
  - split; [discriminate|reflexivity].
  - reflexivity.
Defined.

Lemma letter_ok b : b <> 46 -> b <> SLASH -> name_ok [b].
Proof. intros Hb Hs. split; [done|]. split; [by intros [=]|]. by rewrite list_elem_of_singleton. Qed.

Lemma paths_resolve_witness :
  exists self', @load_all_inodes dev_profile (CachedSuperBlockV5_new (tiny_meta 3) false) (concat (node_bytes <$> tiny_image)) = (Ok self', []) /\
    ino_from_path self' (bytes_of_string "/d/f") = Ok 3 /\ ino_from_path self' (bytes_of_string "/d/g") = Err ENOENT.
Proof.
  destruct (@paths_resolve dev_profile (CachedSuperBlockV5_new (tiny_meta 3) false) tiny_image []) as (self' & E & Hf & Hm).
  - reflexivity.
  - apply Forall_forall. exact tiny_node_ok.
  - exact tiny_image_ok.
  - reflexivity.
  - assert (at_path (cached_node 0x1000 <$> tiny_image) [bytes_of_string "d"] (cached_node 0x1000 (tiny_node 2 1 0x41ed 2 3 1 "d"))) as Hd.
    { refine (at_child _ [] (cached_node 0x1000 (tiny_node 1 0 0x41ed 3 2 1 "/")) (cached_node 0x1000 (tiny_node 2 1 0x41ed 2 3 1 "d")) _ _ _ _);
        [|reflexivity|right; left|reflexivity].
      apply at_root; [left|reflexivity|reflexivity]. }
    exists self'. split; [rewrite app_nil_r in E; exact E|]. split.
    + apply (Hf [bytes_of_string "d"; bytes_of_string "f"] (cached_node 0x1000 (tiny_node 3 2 0x81a4 1 0 0 "f"))).
      * refine (at_child _ [bytes_of_string "d"] _ (cached_node 0x1000 (tiny_node 3 2 0x81a4 1 0 0 "f")) Hd _ _ _); [reflexivity|right; right; left|reflexivity].
      * constructor; [apply letter_ok; discriminate|constructor; [apply letter_ok; discriminate|constructor]].
    + apply (Hm [bytes_of_string "d"] _ (bytes_of_string "g") [] Hd); [reflexivity| |].
      * apply (bool_decide_unpack _). vm_compute. exact I.
      * constructor; [apply letter_ok; discriminate|constructor; [apply letter_ok; discriminate|constructor]].
Defined.

Lemma cached_attr_drops_owner_witness :
  exists t, s_inodes (small_super next_file) !! 2 = Some t /\ i_uid (ci_data t) = 1000 /\ i_mtime (ci_data t) = 1600000000 /\
    fs_getattr (small_fs next_file) 2 = Ok (mkAttr 2 6 1 1700000000 1700000000 1700000000 0 0x81a4 1 0 0 0 4096, 0).
Proof.
  destruct (cached_attr_drops_owner (small_fs next_file) 2 (mkAttr 2 6 1 1700000000 1700000000 1700000000 0 0x81a4 1 0 0 0 4096) 0) as (t & Ht & _).
  - reflexivity.
  - exists t. split; [exact Ht|]. injection Ht as <-. by split_and!.
Defined.

(** with overflow checks, reading a small file panics when the next inode is an empty file:
    amplification asks for the vectors of the range [0, 0), which [calculate_bio_chunk_index]
    asserts away before the check for empty requests. *)
Theorem read_before_empty_file_panics :
  @fs_read dev_profile (fun _ => false) memory_read (small_fs empty_file) 2 3 2 = Panic /\
  @fs_read release_profile (fun _ => false) memory_read (small_fs empty_file) 2 3 2 = Ok [12; 13; 14] /\
  @fs_read dev_profile (fun _ => true) memory_read (small_fs empty_file) 2 3 2 = Ok [12; 13; 14].
Proof. by vm_compute. Qed.
