(* ===== verification/Builder.v ===== *)
(** Building the inode array of an image ([src/bin/nydus-image/core/bootstrap.rs], [build] and
    [build_rafs]; the setters of [rafs/src/metadata/inode.rs]).

    The tree of an image is laid out as an array of nodes: the children of a directory are
    consecutive and sorted by name, hard links share an inode number, and directories count
    their links. The theorem shows that the array is an image that loads: every directory has
    exactly the children it has in the tree, with the content they have there. *)
From stdpp Require Import sorting.
From S2P Require Import Prelude Utils LittleEndian ChunkInfo Device RafsLayout RafsV5 RafsBlobTable RafsV5Inode CachedInode CachedDir CachedSuper RafsV5Io Fs Overlay.

(** ** Setters *)

Definition v5i_set_ids (parent ino nlink : Z) (i : RafsV5Inode) : RafsV5Inode :=
  mkV5Inode (v5i_digest i) parent ino (v5i_uid i) (v5i_gid i) (v5i_projid i) (v5i_mode i) (v5i_size i)
    (v5i_blocks i) (v5i_flags i) nlink (v5i_child_index i) (v5i_child_count i) (v5i_name_size i)
    (v5i_symlink_size i) (v5i_rdev i) (v5i_mtime_nsec i) (v5i_mtime i) (v5i_reserved i).

Definition set_ino (ino : Z) (i : RafsV5Inode) : RafsV5Inode := v5i_set_ids (v5i_parent i) ino (v5i_nlink i) i.
Definition set_parent (parent : Z) (i : RafsV5Inode) : RafsV5Inode := v5i_set_ids parent (v5i_ino i) (v5i_nlink i) i.
Definition set_nlink (nlink : Z) (i : RafsV5Inode) : RafsV5Inode := v5i_set_ids (v5i_parent i) (v5i_ino i) nlink i.

Definition set_child_block (child_index child_count : Z) (i : RafsV5Inode) : RafsV5Inode :=
  mkV5Inode (v5i_digest i) (v5i_parent i) (v5i_ino i) (v5i_uid i) (v5i_gid i) (v5i_projid i) (v5i_mode i) (v5i_size i)
    (v5i_blocks i) (v5i_flags i) (v5i_nlink i) child_index child_count (v5i_name_size i)
    (v5i_symlink_size i) (v5i_rdev i) (v5i_mtime_nsec i) (v5i_mtime i) (v5i_reserved i).

Definition set_has_xattr (enable : bool) (i : RafsV5Inode) : RafsV5Inode :=
  mkV5Inode (v5i_digest i) (v5i_parent i) (v5i_ino i) (v5i_uid i) (v5i_gid i) (v5i_projid i) (v5i_mode i) (v5i_size i)
    (v5i_blocks i) (if enable then Z.lor (v5i_flags i) INODE_XATTR else Z.ldiff (v5i_flags i) INODE_XATTR) (v5i_nlink i)
    (v5i_child_index i) (v5i_child_count i) (v5i_name_size i)
    (v5i_symlink_size i) (v5i_rdev i) (v5i_mtime_nsec i) (v5i_mtime i) (v5i_reserved i).

Definition with_inode (f : RafsV5Inode -> RafsV5Inode) (n : Node) : Node :=
  mkNode (n_index n) (n_src_dev n) (n_src_ino n) (n_rdev n) (f (n_inode n)) (n_chunks n) (n_xattrs n) (n_symlink n) (n_overlay n)
    (n_source n) (n_path n) (n_layer_idx n).

Definition with_index (index : Z) (n : Node) : Node :=
  mkNode index (n_src_dev n) (n_src_ino n) (n_rdev n) (n_inode n) (n_chunks n) (n_xattrs n) (n_symlink n) (n_overlay n)
    (n_source n) (n_path n) (n_layer_idx n).

Definition remove_xattr (key : list Z) (n : Node) : Node :=
  let xattrs := delete key (n_xattrs n) in
  mkNode (n_index n) (n_src_dev n) (n_src_ino n) (n_rdev n)
    (if bool_decide (xattrs = ∅) then set_has_xattr false (n_inode n) else n_inode n) (n_chunks n) xattrs (n_symlink n) (n_overlay n)
    (n_source n) (n_path n) (n_layer_idx n).

(** ** Sorting *)

(** [sort_by_key] on byte strings, a stable sort. *)
Section sort.
Context {A : Type} (key : A -> list Z).

Fixpoint insert_by_key (a : A) (l : list A) : list A :=
  match l with
  | [] => [a]
  | b :: l' => match name_cmp (key a) (key b) with Gt => b :: insert_by_key a l' | _ => a :: l end
  end.

Definition sort_by_key (l : list A) : list A := foldr insert_by_key [] l.
End sort.

(** ** Layout of the tree *)

Definition inode_key (n : Node) : Z * Z * Z := (n_layer_idx n, n_src_ino n, n_src_dev n).

(** The array under construction, and [BootstrapContext::inode_map]. *)
Record BuildState := mkBuild { bs_nodes : list Node; bs_inode_map : gmap (Z * Z * Z) (list Z) }.

Section build.
Context `{Profile} (layered : bool) (spec : WhiteoutSpec).

(** [&mut nodes[index - 1]]. *)
Definition update_node (index : Z) (f : Node -> Node) (nodes : list Node) : io (list Node) :=
  n ← vec_index nodes (index - 1); Ok (<[Z.to_nat (index - 1) := f n]> nodes).

Fixpoint set_nlinks (indexes : list Z) (nlink : Z) (nodes : list Node) : io (list Node) :=
  match indexes with
  | [] => Ok nodes
  | idx :: indexes => nodes ← update_node idx (with_inode (set_nlink nlink)) nodes; set_nlinks indexes nlink nodes
  end.

(** The body of the loop over the children; returns the index of the child. *)
Definition place_child (parent_ino : Z) (child : Node) (st : BuildState) : io (Z * BuildState) :=
  let index := zlen (bs_nodes st) + 1 in
  let child := with_inode (set_parent parent_ino) (with_index index child) in
  '(child, st) ←
    match bs_inode_map st !! inode_key child with
    | Some indexes =>
        nlink ← uadd 32 (wrap 32 (zlen indexes)) 1;
        first_index ← vec_index indexes 0;
        nodes ← set_nlinks indexes nlink (bs_nodes st);
        Ok (with_inode (fun i => set_nlink nlink (set_ino first_index i)) child,
            mkBuild nodes (<[inode_key child := indexes ++ [index]]> (bs_inode_map st)))
    | None =>
        Ok (with_inode (fun i => set_nlink 1 (set_ino index i)) child,
            mkBuild (bs_nodes st) (<[inode_key child := [index]]> (bs_inode_map st)))
    end;
  let opaque wt := bool_decide (wt = OverlayFsOpaque) in
  let nodes :=
    match layered, whiteout_type spec child with
    | true, Some wt =>
        child :: bs_nodes st ++ (if opaque wt then [remove_xattr OVERLAYFS_WHITEOUT_OPAQUE child] else [])
    | false, Some wt => bs_nodes st ++ [if opaque wt then remove_xattr OVERLAYFS_WHITEOUT_OPAQUE child else child]
    | _, None => bs_nodes st ++ [child]
    end in
  Ok (index, mkBuild nodes (bs_inode_map st)).

(** A subtree to lay out, given the index of its root. *)
Notation layout := (Z -> BuildState -> io BuildState).

(** The children of a directory, with what lays out their subtrees; the directories among them
    are collected. *)
Fixpoint place_children (parent_ino : Z) (subs : list (Node * layout)) (st : BuildState) (dirs : list (Z * layout))
    : io (list (Z * layout) * BuildState) :=
  match subs with
  | [] => Ok (dirs, st)
  | (child, sub) :: subs =>
      '(index, st) ← place_child parent_ino child st;
      place_children parent_ino subs st (if node_is_dir child then dirs ++ [(index, sub)] else dirs)
  end.

Fixpoint build_dirs (dirs : list (Z * layout)) (st : BuildState) : io BuildState :=
  match dirs with
  | [] => Ok st
  | (index, sub) :: dirs => st ← sub index st; build_dirs dirs st
  end.

Fixpoint build_rafs (tree : Tree) : layout :=
  let subs := (fix go (l : list Tree) : list (Node * layout) :=
                 match l with [] => [] | c :: l => (t_node c, build_rafs c) :: go l end) (t_children tree) in
  fun tree_index st =>
    index ← uadd 32 (wrap 32 (zlen (bs_nodes st))) 1;
    parent ← vec_index (bs_nodes st) (tree_index - 1);
    let dir := node_is_dir parent in
    let subs := if dir then sort_by_key (fun s => node_name s.1) subs else subs in
    nodes ← (if dir then update_node tree_index (with_inode (set_child_block index (wrap 32 (zlen subs)))) (bs_nodes st) else Ok (bs_nodes st));
    '(dirs, st) ← place_children (v5i_ino (n_inode parent)) subs (mkBuild nodes (bs_inode_map st)) [];
    nodes ← update_node tree_index (with_inode (set_nlink (wrap 32 (2 + zlen dirs)))) (bs_nodes st);
    build_dirs dirs (mkBuild nodes (bs_inode_map st)).

(** [Bootstrap::build] of a v5 image: the nodes and the map of inodes. *)
Definition build (tree : Tree) (inode_map : gmap (Z * Z * Z) (list Z)) : io BuildState :=
  _ ← rassert (node_is_dir (t_node tree));
  let root := with_inode (set_ino RAFS_V5_ROOT_INODE) (with_index 1 (t_node tree)) in
  build_rafs tree 1 (mkBuild [root] inode_map).
End build.

(** ** What the array looks like *)

(** The nodes below the root that end up in the image: the content of files is ignored. *)
Fixpoint live (t : Tree) : list Node :=
  (fix go (l : list Tree) : list Node :=
     match l with [] => [] | c :: l => (t_node c :: if node_is_dir (t_node c) then live c else []) ++ go l end) (t_children t).

Definition live_child (c : Tree) : list Node := t_node c :: if node_is_dir (t_node c) then live c else [].

Lemma live_eq t : live t = concat (live_child <$> t_children t).
Proof. destruct t as [n cs]. cbn. induction cs as [|c cs IH]; [done|]. rewrite fmap_cons, concat_cons, <- IH. done. Qed.

(** Entries of the array after the root: a node of the tree, and the inode number of its
    directory. The array indexes start at 2. *)
Notation entries := (list (Node * Z)) (only parsing).

Fixpoint positions_from (i : Z) (E : entries) (k : Z * Z * Z) : list Z :=
  match E with
  | [] => []
  | e :: E => (if bool_decide (inode_key e.1 = k) then [i] else []) ++ positions_from (i + 1) E k
  end.

Definition positions (E : entries) (k : Z * Z * Z) : list Z := positions_from 2 E k.

Lemma positions_from_app i E1 E2 k : positions_from i (E1 ++ E2) k = positions_from i E1 k ++ positions_from (i + zlen E1) E2 k.
Proof.
  revert i. induction E1 as [|e E1 IH]; intros i; cbn [app positions_from].
  - unfold zlen. cbn. by rewrite Z.add_0_r.
  - rewrite IH, app_assoc. do 2 f_equal. unfold zlen. cbn [length]. lia.
Qed.

Lemma positions_app E1 E2 k : positions (E1 ++ E2) k = positions E1 k ++ positions_from (zlen E1 + 2) E2 k.
Proof. unfold positions. rewrite positions_from_app. do 2 f_equal. lia. Qed.

Lemma elem_of_positions_from i E k idx :
  idx ∈ positions_from i E k <-> exists j e, E !! j = Some e /\ inode_key e.1 = k /\ idx = i + Z.of_nat j.
Proof.
  revert i. induction E as [|e E IH]; intros i; cbn [positions_from].
  { split; [by intros ?%elem_of_nil|by intros (j & e & ? & _)]. }
  rewrite elem_of_app, IH. split.
  - intros [Hin|(j & e' & H1 & H2 & H3)].
    + case_bool_decide; [|by apply elem_of_nil in Hin]. apply list_elem_of_singleton in Hin as ->. exists 0%nat, e. split; [done|]. split; [done|lia].
    + exists (S j), e'. split; [done|]. split; [done|lia].
  - intros ([|j] & e' & H1 & H2 & H3).
    + injection H1 as ->. left. rewrite bool_decide_eq_true_2 by done. apply list_elem_of_singleton. lia.
    + right. exists j, e'. split; [done|]. split; [done|lia].
Qed.

Lemma elem_of_positions E k idx : idx ∈ positions E k <-> exists j e, E !! j = Some e /\ inode_key e.1 = k /\ idx = Z.of_nat j + 2.
Proof. unfold positions. rewrite elem_of_positions_from. split; intros (j & e & ? & ? & ?); exists j, e; split_and!; try done; lia. Qed.

(** Directories are no hard links. *)
Definition keys_ok (L : list Node) : Prop :=
  forall a, a ∈ L -> node_is_dir a = true -> (length (filter (fun b => inode_key b = inode_key a) L) <= 1)%nat.

Lemma filter_two {A} (P : A -> Prop) `{forall x, Decision (P x)} L i j a b : L !! i = Some a -> L !! j = Some b -> P a -> P b -> (i < j)%nat ->
  (2 <= length (filter P L))%nat.
Proof.
  intros Hi Hj Ha Hb Hlt. rewrite <- (take_drop_middle L j b Hj), filter_app, length_app, filter_cons_True by done. cbn [length].
  enough (1 <= length (filter P (take j L)))%nat by lia.
  assert (a ∈ filter P (take j L)) as Hin by (apply list_elem_of_filter; split; [done|]; apply (list_elem_of_lookup_2 _ i); by rewrite lookup_take_lt).
  destruct (filter P (take j L)); [by apply elem_of_nil in Hin|cbn; lia].
Qed.

Lemma keys_ok_lookup L i j a b : keys_ok L -> L !! i = Some a -> L !! j = Some b -> node_is_dir a = true -> inode_key a = inode_key b -> i = j.
Proof.
  intros Hk Hi Hj Ha Hab. pose proof (Hk a (list_elem_of_lookup_2 _ _ _ Hi) Ha) as Hle. destruct (lt_eq_lt_dec i j) as [[Hlt|?]|Hlt]; [|done|].
  - pose proof (filter_two (fun b => inode_key b = inode_key a) L i j a b Hi Hj eq_refl (eq_sym Hab) Hlt). lia.
  - pose proof (filter_two (fun b => inode_key b = inode_key a) L j i b a Hj Hi (eq_sym Hab) eq_refl Hlt). lia.
Qed.

#[export] Instance keys_ok_perm : Proper ((≡ₚ) ==> iff) keys_ok.
Proof. intros L1 L2 Hp. unfold keys_ok. split; intros Hk a Ha Hd; [rewrite <- Hp|rewrite Hp]; apply Hk; [by rewrite Hp|done|by rewrite <- Hp|done]. Qed.

Lemma keys_ok_app L1 L2 : keys_ok (L1 ++ L2) -> keys_ok L1.
Proof. intros Hk a Ha Hd. specialize (Hk a ltac:(apply elem_of_app; by left) Hd). rewrite filter_app, length_app in Hk. lia. Qed.

(** *** Sorting *)

Lemma insert_by_key_fmap {A B} (key : B -> list Z) (f : A -> B) a l :
  insert_by_key key (f a) (f <$> l) = f <$> insert_by_key (fun a => key (f a)) a l.
Proof. induction l as [|b l IH]; [done|]. cbn. destruct (name_cmp _ _); [done|done|]. cbn. f_equal. exact IH. Qed.

Lemma sort_by_key_fmap {A B} (key : B -> list Z) (f : A -> B) l : sort_by_key key (f <$> l) = f <$> sort_by_key (fun a => key (f a)) l.
Proof. induction l as [|a l IH]; [done|]. unfold sort_by_key in *. cbn. rewrite IH. apply insert_by_key_fmap. Qed.

Lemma insert_by_key_perm {A} (key : A -> list Z) a l : insert_by_key key a l ≡ₚ a :: l.
Proof. induction l as [|b l IH]; [done|]. cbn. destruct (name_cmp _ _); [done|done|]. rewrite IH. apply Permutation_swap. Qed.

Lemma sort_by_key_perm {A} (key : A -> list Z) l : sort_by_key key l ≡ₚ l.
Proof. induction l as [|a l IH]; [done|]. unfold sort_by_key in *. cbn. by rewrite insert_by_key_perm, IH. Qed.

(** The children in the order of the image, and the directories among them with their indexes. *)
Definition sorted_children (t : Tree) : list Tree := sort_by_key (fun c => node_name (t_node c)) (t_children t).

Fixpoint dir_entries (idx : Z) (cs : list Tree) : list (Z * Tree) :=
  match cs with [] => [] | c :: cs => (if node_is_dir (t_node c) then [(idx, c)] else []) ++ dir_entries (idx + 1) cs end.

Lemma elem_of_dir_entries idx cs d : d ∈ dir_entries idx cs <->
  exists j, cs !! j = Some d.2 /\ node_is_dir (t_node d.2) = true /\ d.1 = idx + Z.of_nat j.
Proof.
  destruct d as [i c]. cbn [fst snd]. revert idx. induction cs as [|c' cs IH]; intros idx; cbn [dir_entries].
  { split; [by intros ?%elem_of_nil|by intros (j & ? & _)]. }
  rewrite elem_of_app, IH. split.
  - intros [Hin|(j & H1 & H2 & H3)]; [|exists (S j); split_and!; [done|done|lia]].
    destruct (node_is_dir (t_node c')) eqn:Ed; [|by apply elem_of_nil in Hin]. apply list_elem_of_singleton in Hin as [= -> ->]. exists 0%nat. split_and!; [done|done|lia].
  - intros ([|j] & H1 & H2 & H3); [left|right; exists j; split_and!; [done|done|lia]]. injection H1 as ->. rewrite H2. apply list_elem_of_singleton. f_equal. lia.
Qed.

(** A property that holds of one range of positions. *)
Lemma filter_range {A} (P : A -> Prop) `{forall x, Decision (P x)} L lo len :
  (forall j x, L !! j = Some x -> P x <-> (lo <= j < lo + len)%nat) -> filter P L = take len (drop lo L).
Proof.
  revert lo len. induction L as [|x L IH]; intros lo len HL; [by rewrite drop_nil, take_nil|]. pose proof (HL 0%nat x eq_refl) as H0.
  destruct lo as [|lo]; [destruct len as [|len]|].
  - rewrite filter_cons_False by (rewrite H0; lia). apply (IH 0%nat 0%nat). intros j y Hj. rewrite (HL (S j) y Hj). lia.
  - rewrite filter_cons_True by (rewrite H0; lia). cbn. f_equal. apply (IH 0%nat len). intros j y Hj. rewrite (HL (S j) y Hj). lia.
  - rewrite filter_cons_False by (rewrite H0; lia). cbn. apply IH. intros j y Hj. rewrite (HL (S j) y Hj). lia.
Qed.

(** What [dump_bootstrap_v5] stores of a node, and what is loaded. *)
Definition dumped (n : Node) : DumpedNode :=
  mkDumped (mkV5Wrapper (node_name n) (n_symlink n) (n_inode n)) (map_to_list (n_xattrs n)) (n_chunks n).

Definition loaded_as (chunk_size : Z) (n : Node) : InodeData := cached_node chunk_size (dumped n).

(** What a user sees of an inode, besides its numbers and links. *)
Definition content (i : InodeData) :=
  (i_name i, i_mode i, (i_uid i, i_gid i, i_projid i, i_rdev i), i_size i, i_blocks i, (i_mtime i, i_mtime_nsec i), i_flags i, i_chunksize i,
   i_target i, i_xattr i, i_data i).

(** The path of a subtree. *)
Inductive reaches (T : Tree) : list (list Z) -> Tree -> Prop :=
| reaches_root : reaches T [] T
| reaches_child names d c : reaches T names d -> node_is_dir (t_node d) = true -> c ∈ t_children d ->
    reaches T (names ++ [node_name (t_node c)]) c.

(** Single layer builds drop the mark of an opaque directory. *)
Section layout_spec.
Context `{Profile} (spec : WhiteoutSpec).

Definition strip (n : Node) : Node :=
  if bool_decide (whiteout_type spec n = Some OverlayFsOpaque) then remove_xattr OVERLAYFS_WHITEOUT_OPAQUE n else n.

Lemma strip_is_dir n : node_is_dir (strip n) = node_is_dir n.
Proof. unfold strip, remove_xattr. case_bool_decide; [|done]. cbn. by case_bool_decide. Qed.

(** The directories laid out so far: their blocks of children and their link counts. *)
Context (root : Node).

Definition finish (idx : Z) (Cc : gmap Z (Z * Z)) (n : Node) : Node :=
  match Cc !! idx with Some (ci, cc) => with_inode (set_child_block ci cc) n | None => n end.

Definition built (E : entries) (Cc : gmap Z (Z * Z)) (Cn : gmap Z Z) (i : nat) (e : Node * Z) : Node :=
  let idx := Z.of_nat i + 2 in
  let links := positions E (inode_key e.1) in
  finish idx Cc (with_inode (v5i_set_ids e.2 (default 0 (head links)) (default (zlen links) (Cn !! idx))) (with_index idx (strip e.1))).

Definition root_built (Cc : gmap Z (Z * Z)) (Cn : gmap Z Z) : Node :=
  finish 1 Cc (with_inode (fun i => set_nlink (default (v5i_nlink i) (Cn !! 1)) (set_ino RAFS_V5_ROOT_INODE i)) (with_index 1 root)).

Definition array (E : entries) Cc Cn : list Node := root_built Cc Cn :: imap (built E Cc Cn) E.

Definition entry_at (E : entries) (idx : Z) (n : Node) : Prop :=
  (idx = 1 /\ n = root) \/ (2 <= idx /\ exists p, E !! Z.to_nat (idx - 2) = Some (n, p)).

Record layout_inv (E : entries) (Cc : gmap Z (Z * Z)) (Cn : gmap Z Z) (st : BuildState) : Prop := {
  li_nodes : bs_nodes st = array E Cc Cn;
  li_map k : bs_inode_map st !! k = match positions E k with [] => None | l => Some l end;
  li_blocks i n p : E !! i = Some (n, p) -> exists s c, Cc !! p = Some (s, c) /\ s <= Z.of_nat i + 2 < s + c;
  li_dirs idx s c : Cc !! idx = Some (s, c) -> idx < s <= zlen E + 2 /\ exists n, entry_at E idx n /\ node_is_dir n = true;
  li_nlinks idx nl : Cn !! idx = Some nl -> is_Some (Cc !! idx)
}.

Lemma length_array E Cc Cn : length (array E Cc Cn) = S (length E).
Proof. unfold array. cbn. by rewrite length_imap. Qed.

Lemma array_lookup E Cc Cn i : array E Cc Cn !! S i = built E Cc Cn i <$> E !! i.
Proof. unfold array. cbn. apply list_lookup_imap. Qed.

(** The entry of an array index. *)
Lemma entry_lookup E Cc Cn idx n : entry_at E idx n ->
  1 <= idx <= zlen E + 1 /\ exists m, array E Cc Cn !! Z.to_nat (idx - 1) = Some m /\
    ((idx = 1 /\ m = root_built Cc Cn) \/ exists p, 2 <= idx /\ E !! Z.to_nat (idx - 2) = Some (n, p) /\ m = built E Cc Cn (Z.to_nat (idx - 2)) (n, p)).
Proof.
  intros [[-> ->]|[Hge (p & Hp)]].
  - split; [unfold zlen; lia|]. eexists. split; [reflexivity|]. by left.
  - pose proof (lookup_lt_Some _ _ _ Hp). split; [unfold zlen; lia|]. exists (built E Cc Cn (Z.to_nat (idx - 2)) (n, p)).
    split; [|right; by exists p]. replace (Z.to_nat (idx - 1)) with (S (Z.to_nat (idx - 2))) by lia. by rewrite array_lookup, Hp.
Qed.

(** Updating one node of the array. *)
Lemma update_array E Cc Cn Cc' Cn' idx n f : entry_at E idx n ->
  (idx = 1 -> f (root_built Cc Cn) = root_built Cc' Cn') ->
  (idx <> 1 -> root_built Cc Cn = root_built Cc' Cn') ->
  (forall i e, E !! i = Some e -> (if decide (Z.of_nat i + 2 = idx) then f (built E Cc Cn i e) else built E Cc Cn i e) = built E Cc' Cn' i e) ->
  update_node idx f (array E Cc Cn) = Ok (array E Cc' Cn').
Proof.
  intros He H1 H2 H3. destruct (entry_lookup E Cc Cn idx n He) as (Hr & m & Hm & _). unfold update_node.
  assert (vec_index (array E Cc Cn) (idx - 1) = @Ok errno _ m) as -> by (apply vec_index_Ok; split; [lia|done]). cbn [mbind outcome_bind]. f_equal. apply list_eq. intros [|i].
  - destruct (decide (idx = 1)) as [->|Hne].
    + change (Z.to_nat (1 - 1)) with 0%nat in *. injection Hm as <-. cbn. f_equal. by apply H1.
    + rewrite list_lookup_insert_ne by lia. cbn. f_equal. by apply H2.
  - rewrite (array_lookup E Cc' Cn'). destruct (decide (Z.of_nat i + 2 = idx)) as [Heq|Hne].
    + replace (Z.to_nat (idx - 1)) with (S i) in * by lia. rewrite array_lookup in Hm. rewrite list_lookup_insert_eq by (rewrite length_array; unfold zlen in Hr; lia).
      destruct (E !! i) as [e|] eqn:Ei; [|done]. injection Hm as <-. cbn. f_equal. specialize (H3 i e Ei). by rewrite decide_True in H3.
    + rewrite list_lookup_insert_ne by lia. rewrite array_lookup. destruct (E !! i) as [e|] eqn:Ei; [|done]. cbn. f_equal.
      specialize (H3 i e Ei). by rewrite decide_False in H3.
Qed.

Lemma update_child E Cc Cn idx n a b : entry_at E idx n ->
  update_node idx (with_inode (set_child_block a b)) (array E Cc Cn) = Ok (array E (<[idx := (a, b)]> Cc) Cn).
Proof.
  intros He. apply (update_array _ _ _ _ _ _ n); [done|..].
  - intros ->. unfold root_built, finish. rewrite lookup_insert_eq. by destruct (Cc !! 1) as [[? ?]|].
  - intros Hne. unfold root_built, finish. by rewrite lookup_insert_ne by done.
  - intros i e Hi. unfold built, finish. case_decide as Hd; [subst idx; rewrite lookup_insert_eq; by destruct (Cc !! _) as [[? ?]|]|].
    by rewrite lookup_insert_ne by done.
Qed.

Lemma update_nlink E Cc Cn idx n nl : entry_at E idx n ->
  update_node idx (with_inode (set_nlink nl)) (array E Cc Cn) = Ok (array E Cc (<[idx := nl]> Cn)).
Proof.
  intros He. apply (update_array _ _ _ _ _ _ n); [done|..].
  - intros ->. unfold root_built, finish. rewrite lookup_insert_eq. by destruct (Cc !! 1) as [[? ?]|].
  - intros Hne. unfold root_built, finish. by rewrite lookup_insert_ne by done.
  - intros i e Hi. unfold built, finish. case_decide as Hd; [subst idx; rewrite lookup_insert_eq; by destruct (Cc !! _) as [[? ?]|]|].
    by rewrite lookup_insert_ne by done.
Qed.

Lemma set_nlinks_run idxs nl nodes : (forall idx, idx ∈ idxs -> 1 <= idx <= zlen nodes) ->
  set_nlinks idxs nl nodes = Ok (imap (fun i n => if bool_decide (Z.of_nat i + 1 ∈ idxs) then with_inode (set_nlink nl) n else n) nodes).
Proof.
  revert nodes. induction idxs as [|idx idxs IH]; intros nodes Hr.
  { cbn [set_nlinks]. f_equal. apply list_eq. intros i. rewrite list_lookup_imap. by destruct (nodes !! i). }
  cbn [set_nlinks]. pose proof (Hr idx ltac:(left)) as Hidx. destruct (lookup_lt_is_Some_2 nodes (Z.to_nat (idx - 1))) as [m Hm]; [unfold zlen in Hidx; lia|].
  unfold update_node. assert (vec_index nodes (idx - 1) = @Ok errno _ m) as -> by (apply vec_index_Ok; split; [lia|done]). cbn [mbind outcome_bind].
  rewrite IH; [|intros idx' Hin; unfold zlen; rewrite length_insert; apply Hr; by right]. f_equal. apply list_eq. intros i. rewrite !list_lookup_imap.
  destruct (decide (Z.of_nat i + 1 = idx)) as [Heq|Hne].
  - replace (Z.to_nat (idx - 1)) with i in * by lia. rewrite list_lookup_insert_eq by (by eapply lookup_lt_Some). rewrite Hm. cbn. f_equal.
    rewrite (bool_decide_eq_true_2 (_ ∈ idx :: idxs)) by (rewrite Heq; left). by case_bool_decide.
  - rewrite list_lookup_insert_ne by lia. destruct (nodes !! i); [|done]. cbn. f_equal.
    rewrite (bool_decide_ext (_ ∈ idx :: idxs) (Z.of_nat i + 1 ∈ idxs)); [done|]. rewrite elem_of_cons. naive_solver.
Qed.

Lemma length_positions E k : (length (positions E k) <= length E)%nat.
Proof.
  unfold positions. generalize 2. induction E as [|e E IH]; intros i; [done|]. cbn [positions_from]. rewrite length_app. specialize (IH (i + 1)).
  case_bool_decide; cbn [length]; lia.
Qed.

Lemma strip_place idx p ino nl child : let child' := with_inode (fun i => set_nlink nl (set_ino ino i)) (with_inode (set_parent p) (with_index idx child)) in
  match whiteout_type spec child' with
  | Some wt => if bool_decide (wt = OverlayFsOpaque) then remove_xattr OVERLAYFS_WHITEOUT_OPAQUE child' else child'
  | None => child'
  end = with_inode (v5i_set_ids p ino nl) (with_index idx (strip child)).
Proof.
  intros child'. change (whiteout_type spec child') with (whiteout_type spec child). unfold strip.
  destruct (whiteout_type spec child) as [wt|]; [|done]. destruct (decide (wt = OverlayFsOpaque)) as [->|Hne].
  - rewrite (bool_decide_eq_true_2 (OverlayFsOpaque = _)), (bool_decide_eq_true_2 (Some _ = _)) by done. unfold remove_xattr, child'. cbn.
    by case_bool_decide.
  - rewrite (bool_decide_eq_false_2 (wt = _)) by done. rewrite (bool_decide_eq_false_2 (Some wt = _)) by congruence. done.
Qed.

(** The array with one more entry. *)
Lemma array_snoc E Cc Cn child p : Cc !! (zlen E + 2) = None -> Cn !! (zlen E + 2) = None ->
  (forall i e, E !! i = Some e -> inode_key e.1 = inode_key child -> Cn !! (Z.of_nat i + 2) = None) ->
  array (E ++ [(child, p)]) Cc Cn =
    imap (fun i n => if bool_decide (Z.of_nat i + 1 ∈ positions E (inode_key child))
                     then with_inode (set_nlink (zlen (positions E (inode_key child)) + 1)) n else n) (array E Cc Cn) ++
    [with_inode (v5i_set_ids p (default (zlen E + 2) (head (positions E (inode_key child)))) (zlen (positions E (inode_key child)) + 1))
       (with_index (zlen E + 2) (strip child))].
Proof.
  intros HCc HCn Hk. unfold array at 1. rewrite imap_app. cbn [imap app]. rewrite app_comm_cons. f_equal.
  - apply list_eq. intros [|i].
    + rewrite list_lookup_imap. cbn. f_equal. rewrite bool_decide_eq_false_2; [done|]. intros (j & e & _ & _ & ?)%elem_of_positions. lia.
    + change ((root_built Cc Cn :: imap (built (E ++ [(child, p)]) Cc Cn) E) !! S i) with (imap (built (E ++ [(child, p)]) Cc Cn) E !! i). rewrite !list_lookup_imap, array_lookup. destruct (E !! i) as [e|] eqn:Ei; [|done]. cbn. f_equal.
      assert (Z.of_nat i + 2 ∈ positions E (inode_key e.1)) as Hin by (apply elem_of_positions; by exists i, e).
      unfold built. rewrite positions_app. cbn [positions_from fst]. rewrite app_nil_r.
      destruct (positions E (inode_key e.1)) as [|x xs] eqn:Ep; [by apply elem_of_nil in Hin|]. cbn [app head default].
      destruct (decide (inode_key child = inode_key e.1)) as [Heq|Hne].
      * rewrite !bool_decide_eq_true_2; [|rewrite Heq, Ep; by replace (Z.of_nat (S i) + 1) with (Z.of_nat i + 2) by lia|done].
        rewrite (Hk i e Ei) by done. rewrite Heq, Ep. unfold finish, zlen. cbn [default from_option length app]. rewrite length_app. cbn [length].
        replace (Z.of_nat (S (length xs + 1))) with (Z.of_nat (S (length xs)) + 1) by lia.
        destruct (Cc !! (Z.of_nat i + 2)) as [[ci cc]|]; reflexivity.
      * rewrite (bool_decide_eq_false_2 (inode_key child = _)) by done. rewrite bool_decide_eq_false_2; [by rewrite app_nil_r|].
        intros (j & e' & Hj & Hk' & Hz)%elem_of_positions. assert (j = i) as -> by lia. rewrite Ei in Hj. injection Hj as <-. congruence.
  - rewrite Nat.add_0_r. unfold built. cbn [fst snd]. rewrite positions_app. cbn [positions_from fst]. rewrite bool_decide_eq_true_2 by done. fold (zlen E).
    unfold finish. rewrite HCc, HCn. cbn [default from_option]. do 3 f_equal; [by destruct (positions E _)|].
    unfold zlen. rewrite !length_app. cbn. lia.
Qed.

Lemma entry_at_app E F idx n : entry_at E idx n -> entry_at (E ++ F) idx n.
Proof. intros [?|[? (p & Hp)]]; [by left|right]. split; [done|]. exists p. by apply lookup_app_l_Some. Qed.

Lemma inv_fresh E Cc Cn st idx : layout_inv E Cc Cn st -> zlen E + 2 <= idx -> Cc !! idx = None /\ Cn !! idx = None.
Proof.
  intros Hinv Hidx. assert (Cc !! idx = None) as HCc.
  { destruct (Cc !! idx) as [[s c]|] eqn:Ec; [|done]. destruct (li_dirs _ _ _ _ Hinv _ _ _ Ec) as [_ (n & [[-> _]|[_ (p & Hp)]] & _)].
    - unfold zlen in Hidx. lia.
    - apply lookup_lt_Some in Hp. unfold zlen in Hidx. lia. }
  split; [done|]. destruct (Cn !! idx) as [nl|] eqn:En; [|done]. destruct (li_nlinks _ _ _ _ Hinv _ _ En) as [? ?]. congruence.
Qed.

Lemma inv_snoc E Cc Cn st child p nodes imap : layout_inv E Cc Cn st -> (exists s c, Cc !! p = Some (s, c) /\ s <= zlen E + 2 < s + c) ->
  nodes = array (E ++ [(child, p)]) Cc Cn ->
  imap = <[inode_key child := positions E (inode_key child) ++ [zlen E + 2]]> (bs_inode_map st) ->
  layout_inv (E ++ [(child, p)]) Cc Cn (mkBuild nodes imap).
Proof.
  intros Hinv Hp -> ->. destruct Hinv as [_ Hm Hb Hd Hl]. split; cbn [bs_nodes bs_inode_map].
  - done.
  - intros k. rewrite positions_app. cbn [positions_from fst]. rewrite app_nil_r. destruct (decide (inode_key child = k)) as [<-|Hne].
    + rewrite lookup_insert_eq, bool_decide_eq_true_2 by done. by destruct (positions E (inode_key child)).
    + rewrite lookup_insert_ne, bool_decide_eq_false_2 by done. by rewrite app_nil_r.
  - intros i n p' Hi. apply lookup_app_Some in Hi as [Hi|[Hge Hi]]; [by eapply Hb|]. apply list_lookup_singleton_Some in Hi as [Hi [= -> ->]].
    destruct Hp as (s & c & H1 & H2). exists s, c. split; [done|]. unfold zlen in H2. lia.
  - intros idx s c Hc. destruct (Hd _ _ _ Hc) as [? (n & He & ?)]. split; [unfold zlen in *; rewrite length_app; lia|]. exists n. split; [by apply entry_at_app|done].
  - done.
Qed.

Lemma place_child_spec E Cc Cn st child p : layout_inv E Cc Cn st -> (exists s c, Cc !! p = Some (s, c) /\ s <= zlen E + 2 < s + c) ->
  (forall i e, E !! i = Some e -> inode_key e.1 = inode_key child -> Cn !! (Z.of_nat i + 2) = None) -> zlen E + 2 < 2 ^ 32 ->
  exists st', place_child false spec p child st = Ok (zlen E + 2, st') /\ layout_inv (E ++ [(child, p)]) Cc Cn st'.
Proof.
  intros Hinv Hp Hk Hlen. destruct (inv_fresh _ _ _ _ (zlen E + 2) Hinv ltac:(lia)) as [HCc HCn].
  pose proof (array_snoc E Cc Cn child p HCc HCn Hk) as Harr. unfold place_child. rewrite (li_nodes _ _ _ _ Hinv).
  assert (zlen (array E Cc Cn) + 1 = zlen E + 2) as -> by (unfold zlen; rewrite length_array; lia).
  change (inode_key (with_inode (set_parent p) (with_index (zlen E + 2) child))) with (inode_key child). rewrite (li_map _ _ _ _ Hinv).
  destruct (positions E (inode_key child)) as [|x xs] eqn:Ep; cbn [mbind outcome_bind bs_nodes bs_inode_map].
  - eexists. split; [reflexivity|]. apply (inv_snoc E Cc Cn st); [done|done| |by rewrite Ep].
    rewrite Harr. pose proof (strip_place (zlen E + 2) p (zlen E + 2) 1 child) as Hst. cbv zeta in Hst.
    replace (imap _ (array E Cc Cn)) with (array E Cc Cn).
    + destruct (whiteout_type spec _) as [wt|]; f_equal; f_equal; exact Hst.
    + apply list_eq. intros i. rewrite list_lookup_imap. by destruct (array E Cc Cn !! i).
  - pose proof (length_positions E (inode_key child)) as Hl. rewrite Ep in Hl. unfold zlen in Hlen.
    rewrite wrap_small by (unfold zlen; split; lia). rewrite uadd_in by (unfold zlen; split; lia). cbn [mbind outcome_bind].
    change (vec_index (x :: xs) 0) with (@Ok errno _ x). cbn [mbind outcome_bind]. rewrite set_nlinks_run.
    2:{ rewrite <- Ep. intros idx (j & e & Hj & _ & ->)%elem_of_positions. apply lookup_lt_Some in Hj. unfold zlen. rewrite length_array. lia. }
    cbn [mbind outcome_bind bs_nodes bs_inode_map]. eexists. split; [reflexivity|].
    apply (inv_snoc E Cc Cn st); [done|done| |by rewrite Ep]. rewrite Harr.
    pose proof (strip_place (zlen E + 2) p x (zlen (x :: xs) + 1) child) as Hst. cbv zeta in Hst.
    destruct (whiteout_type spec _) as [wt|]; f_equal; f_equal; exact Hst.
Qed.

Lemma entry_at_fun E idx n n' : entry_at E idx n -> entry_at E idx n' -> n = n'.
Proof. intros [[-> ->]|[? (p & Hp)]] [[? ?]|[? (p' & Hp')]]; try lia; congruence. Qed.

Lemma fresh_key E Cc Cn st L child i e : layout_inv E Cc Cn st -> keys_ok (E.*1 ++ child :: L) -> E !! i = Some e ->
  inode_key e.1 = inode_key child -> Cn !! (Z.of_nat i + 2) = None.
Proof.
  intros Hinv Hk Hi Hke. destruct (Cn !! _) as [nl|] eqn:En; [|done]. destruct (li_nlinks _ _ _ _ Hinv _ _ En) as [[s c] Hc].
  destruct (li_dirs _ _ _ _ Hinv _ _ _ Hc) as [_ (n & [[? _]|[_ (p & Hp)]] & Hd)]; [lia|]. replace (Z.to_nat (Z.of_nat i + 2 - 2)) with i in Hp by lia.
  rewrite Hi in Hp. injection Hp as ->. cbn in Hke. pose proof (lookup_lt_Some _ _ _ Hi).
  assert (i = length E); [|lia]. apply (keys_ok_lookup _ _ _ n child Hk); [|rewrite lookup_app_r, length_fmap, Nat.sub_diag by (by rewrite length_fmap); done|done|done].
  rewrite lookup_app_l by (by rewrite length_fmap). by rewrite list_lookup_fmap, Hi.
Qed.

Lemma place_children_spec p cs E Cc Cn st dirs : layout_inv E Cc Cn st ->
  (exists s c, Cc !! p = Some (s, c) /\ s <= zlen E + 2 /\ zlen E + 2 + zlen cs <= s + c) ->
  keys_ok (E.*1 ++ (t_node <$> cs)) -> zlen E + zlen cs + 2 < 2 ^ 32 ->
  exists st', place_children false spec p ((fun c => (t_node c, build_rafs false spec c)) <$> cs) st dirs =
      Ok (dirs ++ ((fun d => (d.1, build_rafs false spec d.2)) <$> dir_entries (zlen E + 2) cs), st') /\
    layout_inv (E ++ ((fun c => (t_node c, p)) <$> cs)) Cc Cn st'.
Proof.
  revert E st dirs. induction cs as [|c cs IH]; intros E st dirs Hinv Hp Hk Hlen.
  { exists st. cbn. rewrite !app_nil_r. done. }
  rewrite fmap_cons in Hk. rewrite fmap_cons. cbn [place_children]. unfold zlen in Hp, Hlen. cbn [length] in Hp, Hlen.
  destruct (place_child_spec E Cc Cn st (t_node c) p) as (st1 & E1 & Hinv1); [done|destruct Hp as (s & n & ? & ? & ?); exists s, n; split; [done|unfold zlen; lia]| |unfold zlen; lia|].
  { intros i e. by apply (fresh_key E Cc Cn st (t_node <$> cs)). }
  rewrite E1. cbn [mbind outcome_bind]. assert (zlen (E ++ [(t_node c, p)]) = zlen E + 1) as Hz by (unfold zlen; rewrite length_app; cbn; lia).
  destruct (IH (E ++ [(t_node c, p)]) st1 (if node_is_dir (t_node c) then dirs ++ [(zlen E + 2, build_rafs false spec c)] else dirs)) as (st2 & E2 & Hinv2).
  - done.
  - destruct Hp as (s & n & ? & ? & ?). exists s, n. rewrite Hz. split; [done|unfold zlen; lia].
  - rewrite fmap_app, <- app_assoc. exact Hk.
  - rewrite Hz. unfold zlen. lia.
  - exists st2. rewrite E2, Hz. replace (zlen E + 1 + 2) with (zlen E + 2 + 1) by lia. cbn [dir_entries]. split.
    + f_equal. f_equal. rewrite fmap_app. destruct (node_is_dir (t_node c)); cbn [fmap list_fmap app]; [|done]. by rewrite <- app_assoc.
    + rewrite fmap_cons. by rewrite <- app_assoc in Hinv2.
Qed.

(** A directory of the tree is laid out: its block of children, and those of the directories
    below it. *)
Inductive placed (E : entries) (Cc : gmap Z (Z * Z)) (Cn : gmap Z Z) : Tree -> Z -> Prop :=
| placed_dir t idx s :
    Cc !! idx = Some (s, zlen (sorted_children t)) -> Cn !! idx = Some (2 + zlen (dir_entries s (sorted_children t))) ->
    (forall j c, sorted_children t !! j = Some c -> 2 <= s /\ E !! (Z.to_nat (s - 2) + j)%nat = Some (t_node c, idx)) ->
    (forall j c, sorted_children t !! j = Some c -> node_is_dir (t_node c) = true -> placed E Cc Cn c (s + Z.of_nat j)) ->
    placed E Cc Cn t idx.

Lemma placed_mono E F Cc Cn Cc' Cn' t idx : Cc ⊆ Cc' -> Cn ⊆ Cn' -> placed E Cc Cn t idx -> placed (E ++ F) Cc' Cn' t idx.
Proof.
  intros Hc Hn. induction 1 as [t idx s H1 H2 H3 _ IH]. apply (placed_dir _ _ _ t idx s); [by eapply lookup_weaken..| |done].
  intros j c Hj. destruct (H3 j c Hj) as [? ?]. split; [done|]. by apply lookup_app_l_Some.
Qed.

Lemma dir_ino E i n p : keys_ok E.*1 -> E !! i = Some (n, p) -> node_is_dir n = true -> head (positions E (inode_key n)) = Some (Z.of_nat i + 2).
Proof.
  intros Hk Hi Hd. assert (Z.of_nat i + 2 ∈ positions E (inode_key n)) as Hin by (apply elem_of_positions; by exists i, (n, p)).
  destruct (positions E (inode_key n)) as [|x xs] eqn:Ep; [by apply elem_of_nil in Hin|]. cbn. f_equal.
  assert (x ∈ positions E (inode_key n)) as (j & e & Hj & Hke & ->)%elem_of_positions by (rewrite Ep; left).
  assert (i = j) as ->; [|lia]. apply (keys_ok_lookup E.*1 i j n e.1 Hk); [by rewrite list_lookup_fmap, Hi|by rewrite list_lookup_fmap, Hj|done|done].
Qed.

Lemma live_blocks s cs : concat (live_child <$> cs) ≡ₚ (t_node <$> cs) ++ concat ((fun d => live d.2) <$> dir_entries s cs).
Proof.
  revert s. induction cs as [|c cs IH]; intros s; [done|]. rewrite !fmap_cons, concat_cons, (IH (s + 1)). cbn [dir_entries]. unfold live_child.
  rewrite fmap_app, concat_app, <- !app_comm_cons. constructor.
  destruct (node_is_dir (t_node c)); cbn [fmap list_fmap concat]; [|done]. rewrite app_nil_r. apply Permutation_app_swap_app.
Qed.

Lemma live_sorted s t : live t ≡ₚ (t_node <$> sorted_children t) ++ concat ((fun d => live d.2) <$> dir_entries s (sorted_children t)).
Proof. rewrite live_eq, <- live_blocks. unfold sorted_children. by rewrite sort_by_key_perm. Qed.

Lemma build_rafs_eq t idx st : build_rafs false spec t idx st =
  index ← uadd 32 (wrap 32 (zlen (bs_nodes st))) 1;
  parent ← vec_index (bs_nodes st) (idx - 1);
  let dir := node_is_dir parent in
  let subs := (fun c => (t_node c, build_rafs false spec c)) <$> t_children t in
  let subs := if dir then sort_by_key (fun s => node_name s.1) subs else subs in
  nodes ← (if dir then update_node idx (with_inode (set_child_block index (wrap 32 (zlen subs)))) (bs_nodes st) else Ok (bs_nodes st));
  '(dirs, st) ← place_children false spec (v5i_ino (n_inode parent)) subs (mkBuild nodes (bs_inode_map st)) [];
  nodes ← update_node idx (with_inode (set_nlink (wrap 32 (2 + zlen dirs)))) (bs_nodes st);
  build_dirs dirs (mkBuild nodes (bs_inode_map st)).
Proof.
  destruct t as [n cs]. cbn [build_rafs t_children]. assert (forall l, (fix go (l : list Tree) : list (Node * (Z -> BuildState -> io BuildState)) :=
    match l with [] => [] | c :: l => (t_node c, build_rafs false spec c) :: go l end) l = (fun c => (t_node c, build_rafs false spec c)) <$> l) as ->; [|done].
  intros l. induction l as [|c l IH]; [done|]. by rewrite fmap_cons, <- IH.
Qed.

Definition lays_out (t : Tree) : Prop := forall E Cc Cn st idx,
  layout_inv E Cc Cn st -> entry_at E idx (t_node t) -> node_is_dir (t_node t) = true -> Cc !! idx = None ->
  keys_ok (E.*1 ++ live t) -> zlen E + zlen (live t) + 2 < 2 ^ 32 ->
  exists st' F Cc' Cn', build_rafs false spec t idx st = Ok st' /\ layout_inv (E ++ F) Cc' Cn' st' /\ F.*1 ≡ₚ live t /\
    Cc ⊆ Cc' /\ Cn ⊆ Cn' /\ (forall i, i <= zlen E + 1 -> i <> idx -> Cc' !! i = Cc !! i) /\ placed (E ++ F) Cc' Cn' t idx.

Lemma build_dirs_spec ds E Cc Cn st : Forall (fun d => lays_out d.2) ds -> layout_inv E Cc Cn st -> NoDup ds.*1 ->
  (forall d, d ∈ ds -> entry_at E d.1 (t_node d.2) /\ node_is_dir (t_node d.2) = true /\ Cc !! d.1 = None /\ d.1 <= zlen E + 1) ->
  keys_ok (E.*1 ++ concat ((fun d => live d.2) <$> ds)) -> zlen E + zlen (concat ((fun d => live d.2) <$> ds)) + 2 < 2 ^ 32 ->
  exists st' F Cc' Cn', build_dirs ((fun d => (d.1, build_rafs false spec d.2)) <$> ds) st = Ok st' /\ layout_inv (E ++ F) Cc' Cn' st' /\
    F.*1 ≡ₚ concat ((fun d => live d.2) <$> ds) /\ Cc ⊆ Cc' /\ Cn ⊆ Cn' /\ (forall i, i <= zlen E + 1 -> i ∉ ds.*1 -> Cc' !! i = Cc !! i) /\
    (forall d, d ∈ ds -> placed (E ++ F) Cc' Cn' d.2 d.1).
Proof.
  intros Hall. revert E Cc Cn st. induction Hall as [|[i t] ds Ht _ IH]; intros E Cc Cn st Hinv Hnd Hds Hk Hlen.
  { exists st, [], Cc, Cn. rewrite app_nil_r. split_and!; try done. by intros d ?%elem_of_nil. }
  rewrite fmap_cons in Hnd. apply NoDup_cons in Hnd as [Hi Hnd]. rewrite fmap_cons, concat_cons in Hk, Hlen. cbn [fst snd] in *.
  destruct (Hds (i, t) ltac:(left)) as (He & Hd & Hc & Hle). cbn [fst snd] in *. assert (zlen (live t ++ concat ((fun d => live d.2) <$> ds)) = zlen (live t) + zlen (concat ((fun d => live d.2) <$> ds))) as Hz
    by (unfold zlen; rewrite length_app; lia). rewrite Hz in Hlen.
  assert (0 <= zlen (concat ((fun d => live d.2) <$> ds))) by (unfold zlen; lia).
  destruct (Ht E Cc Cn st i Hinv He Hd Hc) as (st1 & F1 & Cc1 & Cn1 & E1 & Hinv1 & HF1 & HC1 & HN1 & Hext1 & Hp1);
    [rewrite app_assoc in Hk; by apply keys_ok_app in Hk|lia|].
  assert (zlen (E ++ F1) = zlen E + zlen (live t)) as HzE.
  { unfold zlen. rewrite length_app, <- (Permutation_length HF1), length_fmap. lia. }
  destruct (IH (E ++ F1) Cc1 Cn1 st1 Hinv1 Hnd) as (st2 & F2 & Cc2 & Cn2 & E2 & Hinv2 & HF2 & HC2 & HN2 & Hext2 & Hp2).
  - intros d Hin. destruct (Hds d ltac:(by right)) as (He' & Hd' & Hc' & Hle'). assert (d.1 <> i) by (intros <-; apply Hi; by apply list_elem_of_fmap_2).
    split; [by apply entry_at_app|]. split; [done|]. split; [by rewrite Hext1|]. rewrite HzE. unfold zlen in *. lia.
  - rewrite fmap_app, <- app_assoc. by rewrite HF1.
  - rewrite HzE. lia.
  - exists st2, (F1 ++ F2), Cc2, Cn2. rewrite app_assoc. split_and!; try done.
    + cbn [fmap list_fmap build_dirs fst snd]. rewrite E1. exact E2.
    + rewrite fmap_app, HF1, HF2, fmap_cons, concat_cons. done.
    + by transitivity Cc1.
    + by transitivity Cn1.
    + intros i' Hi' Hni. rewrite fmap_cons, not_elem_of_cons in Hni. destruct Hni as [? ?]. rewrite Hext2; [by apply Hext1|rewrite HzE; unfold zlen in *; lia|done].
    + intros d [->|Hin]%elem_of_cons; [|by apply Hp2]. by eapply placed_mono.
Qed.

Lemma dir_entries_bound s cs : (length (dir_entries s cs) <= length cs)%nat.
Proof. revert s. induction cs as [|c cs IH]; intros s; [done|]. cbn [dir_entries]. rewrite length_app. specialize (IH (s + 1)). destruct (node_is_dir _); cbn; lia. Qed.

Lemma dir_entries_nodup s cs : NoDup (dir_entries s cs).*1.
Proof.
  revert s. induction cs as [|c cs IH]; intros s; cbn [dir_entries]; [constructor|]. rewrite fmap_app. destruct (node_is_dir _); cbn [fmap list_fmap app]; [|done].
  constructor; [|done]. intros (d & Hd & Hin)%list_elem_of_fmap_1. apply elem_of_dir_entries in Hin as (j & _ & _ & ?). cbn in Hd. lia.
Qed.

(** The inode number of a directory is its index. *)
Lemma entry_node E Cc Cn idx n : keys_ok E.*1 -> entry_at E idx n -> node_is_dir n = true ->
  exists m, vec_index (array E Cc Cn) (idx - 1) = @Ok errno _ m /\ node_is_dir m = true /\ v5i_ino (n_inode m) = idx.
Proof.
  intros Hk He Hd. destruct (entry_lookup E Cc Cn idx n He) as (Hr & m & Hm & Hcase). exists m. split; [apply vec_index_Ok; split; [lia|done]|].
  destruct Hcase as [[-> ->]|(p & Hge & Hp & ->)].
  - destruct He as [[_ ->]|[? _]]; [|lia]. unfold root_built, finish. by destruct (Cc !! 1) as [[? ?]|].
  - unfold built. cbn [fst snd]. rewrite (dir_ino E _ n p Hk Hp Hd). unfold finish. replace (Z.of_nat (Z.to_nat (idx - 2)) + 2) with idx by lia.
    assert (node_is_dir (strip n) = true) by (unfold strip, remove_xattr; case_bool_decide; [|done]; cbn; by case_bool_decide).
    by destruct (Cc !! idx) as [[? ?]|].
Qed.

Lemma inv_set_child E Cc Cn st idx n c imap : layout_inv E Cc Cn st -> entry_at E idx n -> node_is_dir n = true -> Cc !! idx = None -> imap = bs_inode_map st ->
  layout_inv E (<[idx := (zlen E + 2, c)]> Cc) Cn (mkBuild (array E (<[idx := (zlen E + 2, c)]> Cc) Cn) imap).
Proof.
  intros Hinv He Hd Hc ->. destruct Hinv as [_ Hm Hb Hds Hl]. destruct (entry_lookup E Cc Cn idx n He) as [Hr _].
  assert (Cc ⊆ <[idx := (zlen E + 2, c)]> Cc) as Hsub by (by apply insert_subseteq). split; cbn [bs_nodes bs_inode_map].
  - done.
  - done.
  - intros i m p Hi. destruct (Hb i m p Hi) as (s & c' & H1 & H2). exists s, c'. split; [by eapply lookup_weaken|done].
  - intros idx' s c' [[<- [= <- <-]]|[_ Hc']]%lookup_insert_Some; [|by eapply Hds]. split; [lia|by exists n].
  - intros idx' nl Hn. destruct (Hl _ _ Hn) as [x Hx]. exists x. by eapply lookup_weaken.
Qed.

Lemma inv_set_nlink E Cc Cn st idx nl imap : layout_inv E Cc Cn st -> is_Some (Cc !! idx) -> imap = bs_inode_map st ->
  layout_inv E Cc (<[idx := nl]> Cn) (mkBuild (array E Cc (<[idx := nl]> Cn)) imap).
Proof.
  intros Hinv Hs ->. destruct Hinv as [_ Hm Hb Hds Hl]. split; cbn [bs_nodes bs_inode_map]; try done.
  intros idx' nl' [[<- _]|[_ Hn]]%lookup_insert_Some; [done|by eapply Hl].
Qed.

(** Laying out the directories of a block. *)
Lemma lay_out_below t E Cc Cn st m2 idx : let cs := sorted_children t in let ds := dir_entries (zlen E + 2) cs in
  let E2 := E ++ ((fun c => (t_node c, idx)) <$> cs) in let Cc1 := <[idx := (zlen E + 2, zlen cs)]> Cc in let Cn1 := <[idx := 2 + zlen ds]> Cn in
  Forall lays_out (t_children t) -> layout_inv E Cc Cn st -> idx <= zlen E + 1 -> Cc !! idx = None ->
  keys_ok (E.*1 ++ live t) -> zlen E + zlen (live t) + 2 < 2 ^ 32 -> layout_inv E2 Cc1 Cn1 (mkBuild (array E2 Cc1 Cn1) m2) ->
  exists st' F Cc' Cn', build_dirs ((fun d => (d.1, build_rafs false spec d.2)) <$> ds) (mkBuild (array E2 Cc1 Cn1) m2) = Ok st' /\
    layout_inv (E ++ F) Cc' Cn' st' /\ F.*1 ≡ₚ live t /\
    Cc ⊆ Cc' /\ Cn ⊆ Cn' /\ (forall i, i <= zlen E + 1 -> i <> idx -> Cc' !! i = Cc !! i) /\ placed (E ++ F) Cc' Cn' t idx.
Proof.
  intros cs ds E2 Cc1 Cn1 IH Hinv Hr Hc Hk Hlen Hinv3. pose proof (live_sorted (zlen E + 2) t) as Hlive. fold cs in Hlive. fold ds in Hlive.
  assert (zlen (live t) = zlen cs + zlen (concat ((fun d => live d.2) <$> ds))) as Hzl by (unfold zlen; rewrite Hlive, length_app, length_fmap; lia).
  assert (0 <= zlen E /\ 0 <= zlen cs) as [Hz1 Hz2] by (unfold zlen; lia).
  assert (zlen E2 = zlen E + zlen cs) as HzE by (unfold zlen, E2; rewrite length_app, length_fmap; lia).
  assert (forall j c, cs !! j = Some c -> E2 !! (length E + j)%nat = Some (t_node c, idx)) as Hblock.
  { intros j c Hj. unfold E2. rewrite lookup_app_r by lia. replace (length E + j - length E)%nat with j by lia. by rewrite list_lookup_fmap, Hj. }
  destruct (build_dirs_spec ds E2 Cc1 Cn1 (mkBuild (array E2 Cc1 Cn1) m2)) as (st4 & F & Cc2 & Cn2 & E4 & Hinv4 & HF & HC & HN & Hext & Hp); [|exact Hinv3|apply dir_entries_nodup| | |lia|].
  - apply Forall_forall. intros d (j & Hj & _)%elem_of_dir_entries. rewrite Forall_forall in IH. apply IH. apply list_elem_of_lookup_2 in Hj.
    unfold cs, sorted_children in Hj. by rewrite sort_by_key_perm in Hj.
  - intros d (j & Hj & Hdd & Hd1)%elem_of_dir_entries. pose proof (lookup_lt_Some _ _ _ Hj). destruct (inv_fresh _ _ _ _ d.1 Hinv ltac:(lia)) as [Hf _].
    split; [right; split; [lia|]; exists idx; rewrite Hd1; replace (Z.to_nat _) with (length E + j)%nat by (unfold zlen; lia); by apply Hblock|].
    split; [done|]. split; [unfold Cc1; rewrite lookup_insert_ne by lia; done|]. rewrite HzE. unfold zlen in *. lia.
  - unfold E2. rewrite fmap_app, <- list_fmap_compose, <- app_assoc. change (fst ∘ _) with t_node. by rewrite <- Hlive.
  - exists st4, (((fun c => (t_node c, idx)) <$> cs) ++ F), Cc2, Cn2. rewrite app_assoc. fold E2. split_and!; try done.
    + rewrite fmap_app, HF, Hlive, <- list_fmap_compose. done.
    + transitivity Cc1; [by apply insert_subseteq|done].
    + transitivity Cn1; [apply insert_subseteq|done]. destruct (Cn !! idx) eqn:En; [|done]. destruct (li_nlinks _ _ _ _ Hinv _ _ En) as [? ?]. congruence.
    + intros i Hi Hne. rewrite Hext; [unfold Cc1; by rewrite lookup_insert_ne|rewrite HzE; lia|].
      intros (d & -> & (j & _ & _ & ?)%elem_of_dir_entries)%list_elem_of_fmap_1. lia.
    + apply (placed_dir _ _ _ t idx (zlen E + 2)); fold cs; fold ds.
      * eapply lookup_weaken; [apply lookup_insert_eq|done].
      * eapply lookup_weaken; [apply lookup_insert_eq|done].
      * intros j c Hj. split; [unfold zlen; lia|]. replace (Z.to_nat (zlen E + 2 - 2)) with (length E) by (unfold zlen; lia). by apply lookup_app_l_Some, Hblock.
      * intros j c Hj Hdc. apply (Hp (zlen E + 2 + Z.of_nat j, c)). apply elem_of_dir_entries. by exists j.
Qed.

Lemma lays_out_tree t : lays_out t.
Proof.
  induction t as [n cs0 IH] using Tree_tree_ind. intros E Cc Cn st idx Hinv He Hd Hc Hk Hlen. set (t := mkTree n cs0) in *. set (cs := sorted_children t).
  pose proof (live_sorted (zlen E + 2) t) as Hlive. fold cs in Hlive. set (ds := dir_entries (zlen E + 2) cs) in *. destruct (entry_lookup E Cc Cn idx _ He) as [Hr _].
  assert (zlen (live t) = zlen cs + zlen (concat ((fun d => live d.2) <$> ds))) as Hzl
    by (unfold zlen; rewrite Hlive, length_app, length_fmap; lia).
  pose proof (dir_entries_bound (zlen E + 2) cs) as Hdb. fold ds in Hdb. assert (0 <= zlen (concat ((fun d => live d.2) <$> ds))) as Hnn by (unfold zlen; lia).
  rewrite build_rafs_eq, (li_nodes _ _ _ _ Hinv). assert (zlen (array E Cc Cn) = zlen E + 1) as -> by (unfold zlen; rewrite length_array; lia).
  assert (0 <= zlen E /\ 0 <= zlen cs) as [Hz1 Hz2] by (unfold zlen; lia).
  rewrite wrap_small, uadd_in by (split; lia). cbn [mbind outcome_bind].
  destruct (entry_node E Cc Cn idx n (keys_ok_app _ _ Hk) He Hd) as (m & -> & Hmd & Hino). cbn [mbind outcome_bind]. rewrite Hmd, Hino. cbv zeta.
  rewrite sort_by_key_fmap. change (sort_by_key _ (t_children t)) with cs.
  replace (zlen ((fun c => (t_node c, build_rafs false spec c)) <$> cs)) with (zlen cs) by (unfold zlen; by rewrite length_fmap).
  rewrite wrap_small by (split; lia). rewrite (update_child _ _ _ _ _ _ _ He). cbn [mbind outcome_bind]. replace (zlen E + 1 + 1) with (zlen E + 2) by lia.
  set (Cc1 := <[idx := (zlen E + 2, zlen cs)]> Cc).
  pose proof (inv_set_child E Cc Cn st idx n (zlen cs) _ Hinv He Hd Hc eq_refl) as Hinv1. fold Cc1 in Hinv1.
  assert (Cc1 !! idx = Some (zlen E + 2, zlen cs)) as Hci by (apply lookup_insert_eq).
  destruct (place_children_spec idx cs E Cc1 Cn _ [] Hinv1) as (st2 & -> & Hinv2); [exists (zlen E + 2), (zlen cs); split; [done|lia]| |lia|].
  { rewrite Hlive, app_assoc in Hk. by apply keys_ok_app in Hk. }
  cbn [mbind outcome_bind app]. set (E2 := E ++ ((fun c => (t_node c, idx)) <$> cs)) in *. fold ds.
  replace (zlen ((fun d => (d.1, build_rafs false spec d.2)) <$> ds)) with (zlen ds) by (unfold zlen; by rewrite length_fmap).
  rewrite wrap_small by (unfold zlen in *; split; lia). rewrite (li_nodes _ _ _ _ Hinv2), (update_nlink _ _ _ _ n) by (by apply entry_at_app). cbn [mbind outcome_bind].
  pose proof (inv_set_nlink E2 Cc1 Cn st2 idx (2 + zlen ds) _ Hinv2 ltac:(by eexists) eq_refl) as Hinv3. set (Cn1 := <[idx := 2 + zlen ds]> Cn) in *.
  apply (lay_out_below t E Cc Cn st _ idx); [done|done|lia|done|done|done|exact Hinv3].
Qed.


(** *** The array as an image *)

Lemma insert_by_key_sorted {A} (key : A -> list Z) a l : key a ∉ key <$> l -> StronglySorted (fun x y => name_cmp (key x) (key y) = Lt) l ->
  StronglySorted (fun x y => name_cmp (key x) (key y) = Lt) (insert_by_key key a l).
Proof.
  induction l as [|b l IH]; intros Ha Hs; cbn [insert_by_key]; [repeat constructor|].
  rewrite fmap_cons, not_elem_of_cons in Ha. destruct Ha as [Hne Ha]. apply StronglySorted_inv in Hs as [Hs Hb].
  destruct (name_cmp (key a) (key b)) eqn:Eab.
  - by apply name_cmp_eq in Eab.
  - constructor; [by constructor|]. constructor; [done|]. eapply Forall_impl; [exact Hb|]. intros x Hx. by eapply name_cmp_trans.
  - constructor; [by apply IH|]. rewrite insert_by_key_perm. constructor; [|done]. by rewrite name_cmp_opp, Eab.
Qed.

Lemma sort_by_key_sorted {A} (key : A -> list Z) l : NoDup (key <$> l) -> StronglySorted (fun x y => name_cmp (key x) (key y) = Lt) (sort_by_key key l).
Proof.
  induction l as [|a l IH]; [constructor|]. rewrite fmap_cons, NoDup_cons. intros [Ha Hn]. cbn [sort_by_key foldr].
  apply insert_by_key_sorted; [|by apply IH]. by rewrite (sort_by_key_perm key l).
Qed.

(** Names are unique in each directory. *)
Inductive distinct_names : Tree -> Prop :=
| distinct t : NoDup ((fun c => node_name (t_node c)) <$> t_children t) ->
    (forall c, c ∈ t_children t -> node_is_dir (t_node c) = true -> distinct_names c) -> distinct_names t.

Lemma built_facts E Cc Cn i e : let m := built E Cc Cn i e in
  v5i_ino (n_inode m) = default 0 (head (positions E (inode_key e.1))) /\ v5i_parent (n_inode m) = e.2 /\
  node_is_dir m = node_is_dir e.1 /\ node_name m = node_name e.1 /\
  v5i_nlink (n_inode m) = default (zlen (positions E (inode_key e.1))) (Cn !! (Z.of_nat i + 2)).
Proof.
  intros m. unfold m, built, finish, strip, remove_xattr. destruct (Cc !! _) as [[? ?]|]; case_bool_decide; cbn; try case_bool_decide; done.
Qed.

Lemma root_facts Cc Cn : let m := root_built Cc Cn in
  v5i_ino (n_inode m) = 1 /\ v5i_parent (n_inode m) = v5i_parent (n_inode root) /\ node_is_dir m = node_is_dir root /\ node_name m = node_name root.
Proof. intros m. unfold m, root_built, finish. destruct (Cc !! _) as [[? ?]|]; done. Qed.

(** Every entry is in the block of a directory of the tree. *)
Section placed_tree.
Context (T : Tree) (E : entries) (Cc : gmap Z (Z * Z)) (Cn : gmap Z Z) (st : BuildState).
Hypothesis (HT : t_node T = root) (Hdir : node_is_dir root = true) (Hnames : distinct_names T).
Hypothesis (Hinv : layout_inv E Cc Cn st) (Hk : keys_ok E.*1) (Hp : placed E Cc Cn T 1).

(** A directory of the tree at its index. *)
Definition dir_at (idx : Z) (t : Tree) : Prop :=
  entry_at E idx (t_node t) /\ node_is_dir (t_node t) = true /\ placed E Cc Cn t idx /\ distinct_names t.

Lemma child_at idx t s j c : dir_at idx t -> Cc !! idx = Some (s, zlen (sorted_children t)) -> sorted_children t !! j = Some c ->
  E !! (Z.to_nat (s - 2) + j)%nat = Some (t_node c, idx) /\ (node_is_dir (t_node c) = true -> dir_at (s + Z.of_nat j) c).
Proof.
  intros (_ & _ & Hpl & Hdn) Hc Hj. inversion Hpl as [t' idx' s' Hc' _ Hblk Hsub]; subst. rewrite Hc in Hc'. injection Hc' as <-.
  destruct (Hblk j c Hj) as [Hs He]. split; [done|]. intros Hd. split_and!; [|done|by apply Hsub|].
  - right. split; [lia|]. exists idx. by replace (Z.to_nat (s + Z.of_nat j - 2)) with (Z.to_nat (s - 2) + j)%nat by lia.
  - inversion Hdn as [t' _ Hd']; subst. apply Hd'; [|done]. apply list_elem_of_lookup_2 in Hj. unfold sorted_children in Hj. by rewrite sort_by_key_perm in Hj.
Qed.

Lemma dir_block idx t : dir_at idx t -> exists s, Cc !! idx = Some (s, zlen (sorted_children t)).
Proof. intros (_ & _ & Hpl & _). inversion Hpl; subst. by eexists. Qed.

Lemma dirs_placed n idx m : (Z.to_nat idx < n)%nat -> entry_at E idx m -> node_is_dir m = true -> exists t, t_node t = m /\ dir_at idx t.
Proof.
  revert idx m. induction n as [|n IH]; intros idx m Hn He Hd; [lia|]. destruct He as [[-> ->]|[Hge (p & Hi)]].
  { exists T. split; [done|]. split; [left; by rewrite HT|]. by rewrite HT. }
  destruct (li_blocks _ _ _ _ Hinv _ _ _ Hi) as (s & c & Hc & Hs). destruct (li_dirs _ _ _ _ Hinv _ _ _ Hc) as [Hlt (mp & Hep & Hdp)].
  destruct (IH p mp ltac:(destruct Hep as [[-> _]|[? _]]; lia) Hep Hdp) as (tp & <- & Htp). destruct (dir_block p tp Htp) as (s' & Hc'). rewrite Hc in Hc'.
  injection Hc' as <- ->. destruct (lookup_lt_is_Some_2 (sorted_children tp) (Z.to_nat (idx - s))) as [ch Hch]; [unfold zlen in Hs; lia|].
  destruct (child_at p tp s _ ch Htp Hc Hch) as [He' Hsub]. pose proof (entry_lookup E Cc Cn p _ Hep) as [Hpr _].
  replace (Z.to_nat (s - 2) + Z.to_nat (idx - s))%nat with (Z.to_nat (idx - 2)) in He' by lia. rewrite Hi in He'. injection He' as ->. exists ch. split; [done|].
  replace idx with (s + Z.of_nat (Z.to_nat (idx - s))) by lia. by apply Hsub.
Qed.

Context (chunk_size : Z).

Lemma array_entry i m : array E Cc Cn !! i = Some m ->
  (i = 0%nat /\ m = root_built Cc Cn) \/ exists j e, i = S j /\ E !! j = Some e /\ m = built E Cc Cn j e.
Proof.
  destruct i as [|j]; [intros [= <-]; by left|]. rewrite array_lookup. intros (e & Hj & ->)%fmap_Some_1. right. by exists j, e.
Qed.

(** The children of a directory are the nodes of its block. *)
Lemma block_range idx t s j m : dir_at idx t -> v5i_parent (n_inode root) = 0 -> Cc !! idx = Some (s, zlen (sorted_children t)) ->
  array E Cc Cn !! j = Some m -> v5i_parent (n_inode m) = idx <-> (Z.to_nat (s - 1) <= j < Z.to_nat (s - 1) + length (sorted_children t))%nat.
Proof.
  intros Ht Hroot Hc Em. destruct (li_dirs _ _ _ _ Hinv _ _ _ Hc) as [Hlt _]. destruct (entry_lookup E Cc Cn idx _ (proj1 Ht)) as [Hr _].
  destruct (array_entry j m Em) as [[-> ->]|(k & e & -> & Hk' & ->)].
  - destruct (root_facts Cc Cn) as (_ & -> & _). rewrite Hroot. lia.
  - destruct (built_facts E Cc Cn k e) as (_ & -> & _). split.
    + intros He. destruct e as [n p]. cbn in He. subst p. destruct (li_blocks _ _ _ _ Hinv _ _ _ Hk') as (s' & c' & Hc' & Hb). rewrite Hc in Hc'. injection Hc' as <- <-.
      unfold zlen in Hb. lia.
    + intros Hb. destruct (lookup_lt_is_Some_2 (sorted_children t) (k - Z.to_nat (s - 2))) as [c Hch]; [lia|].
      destruct (child_at idx t s _ c Ht Hc Hch) as [He _]. replace (Z.to_nat (s - 2) + (k - Z.to_nat (s - 2)))%nat with k in He by lia. by rewrite Hk' in He; injection He as ->.
Qed.

Lemma block_node idx t s j c : dir_at idx t -> Cc !! idx = Some (s, zlen (sorted_children t)) -> sorted_children t !! j = Some c ->
  array E Cc Cn !! (Z.to_nat (s - 1) + j)%nat = Some (built E Cc Cn (Z.to_nat (s - 2) + j) (t_node c, idx)).
Proof.
  intros Ht Hc Hj. destruct (li_dirs _ _ _ _ Hinv _ _ _ Hc) as [Hlt _]. destruct (entry_lookup E Cc Cn idx _ (proj1 Ht)) as [Hr _].
  replace (Z.to_nat (s - 1) + j)%nat with (S (Z.to_nat (s - 2) + j)) by lia. rewrite array_lookup. destruct (child_at idx t s j c Ht Hc Hj) as [-> _]. done.
Qed.

Lemma block_fits idx t s : dir_at idx t -> Cc !! idx = Some (s, zlen (sorted_children t)) ->
  (Z.to_nat (s - 1) + length (sorted_children t) <= length (array E Cc Cn))%nat.
Proof.
  intros Ht Hc. destruct (li_dirs _ _ _ _ Hinv _ _ _ Hc) as [Hlt _]. rewrite length_array. set (len := length (sorted_children t)).
  destruct (decide (len = 0)%nat) as [->|Hne]; [unfold zlen in Hlt; lia|].
  destruct (lookup_lt_is_Some_2 (sorted_children t) (len - 1)) as [c Hl]; [fold len; lia|].
  apply (block_node idx t s _ c Ht Hc), lookup_lt_Some in Hl. rewrite length_array in Hl. lia.
Qed.

Lemma block_names idx t s : dir_at idx t -> Cc !! idx = Some (s, zlen (sorted_children t)) ->
  node_name <$> take (length (sorted_children t)) (drop (Z.to_nat (s - 1)) (array E Cc Cn)) = (fun c => node_name (t_node c)) <$> sorted_children t.
Proof.
  intros Ht Hc. pose proof (block_fits idx t s Ht Hc) as Hfit. apply list_eq_same_length with (length (sorted_children t)).
  - by rewrite length_fmap.
  - rewrite length_fmap, length_take, length_drop. lia.
  - intros j x y Hj Hx Hy. rewrite list_lookup_fmap in Hx. rewrite list_lookup_fmap in Hy. rewrite lookup_take_lt, lookup_drop in Hx by done.
    destruct (sorted_children t !! j) as [c|] eqn:Ej; [|done]. injection Hy as <-. rewrite (block_node idx t s j c Ht Hc Ej) in Hx. injection Hx as <-.
    by destruct (built_facts E Cc Cn (Z.to_nat (s - 2) + j) (t_node c, idx)) as (_ & _ & _ & Hn & _).
Qed.

Lemma children_block idx t s : dir_at idx t -> v5i_parent (n_inode root) = 0 -> Cc !! idx = Some (s, zlen (sorted_children t)) ->
  children_of idx (loaded_as chunk_size <$> array E Cc Cn) =
    loaded_as chunk_size <$> take (length (sorted_children t)) (drop (Z.to_nat (s - 1)) (array E Cc Cn)).
Proof.
  intros Ht Hroot Hc. rewrite fmap_take, fmap_drop. apply filter_range. intros j x Hj. rewrite list_lookup_fmap in Hj.
  destruct (array E Cc Cn !! j) as [m|] eqn:Em; [|done]. injection Hj as <-. by apply block_range.
Qed.

Lemma array_dir i m : array E Cc Cn !! i = Some m -> node_is_dir m = true ->
  exists t s, dir_at (Z.of_nat i + 1) t /\ v5i_ino (n_inode m) = Z.of_nat i + 1 /\ Cc !! (Z.of_nat i + 1) = Some (s, zlen (sorted_children t)) /\
    v5i_child_index (n_inode m) = s /\ v5i_child_count (n_inode m) = zlen (sorted_children t) /\
    v5i_nlink (n_inode m) = 2 + zlen (dir_entries s (sorted_children t)).
Proof.
  intros Hi Hd. assert (exists n, entry_at E (Z.of_nat i + 1) n /\ node_is_dir n = true) as (n & He & Hn).
  { destruct (array_entry i m Hi) as [[-> ->]|(j & [n p] & -> & Hj & ->)].
    - exists root. split; [by left|done].
    - exists n. destruct (built_facts E Cc Cn j (n, p)) as (_ & _ & Hdd & _). rewrite Hdd in Hd. split; [|done]. right. split; [lia|]. exists p.
      by replace (Z.to_nat (Z.of_nat (S j) + 1 - 2)) with j by lia. }
  destruct (dirs_placed _ (Z.of_nat i + 1) n (Nat.lt_succ_diag_r _) He Hn) as (t & <- & Ht). pose proof Ht as (_ & _ & Hpl & _).
  inversion Hpl as [t' idx' s Hc Hnl _ _]; subst. exists t, s. split; [done|]. split; [|split; [done|]].
  - destruct (entry_node E Cc Cn _ _ Hk He Hn) as (m' & Hm' & _ & Hino). apply vec_index_Ok in Hm' as [_ Hm']. replace (Z.to_nat (Z.of_nat i + 1 - 1)) with i in Hm' by lia.
    congruence.
  - destruct (array_entry i m Hi) as [[-> ->]|(j & e & -> & Hj & ->)].
    + unfold root_built, finish. change (Z.of_nat 0 + 1) with 1 in *. rewrite Hc, Hnl. done.
    + unfold built, finish. replace (Z.of_nat (S j) + 1) with (Z.of_nat j + 2) in * by lia. rewrite Hc, Hnl. done.
Qed.

Lemma ino_entry j e : E !! j = Some e -> exists k e', E !! k = Some e' /\ inode_key e'.1 = inode_key e.1 /\
  v5i_ino (n_inode (built E Cc Cn j e)) = Z.of_nat k + 2.
Proof.
  intros Hj. destruct (built_facts E Cc Cn j e) as (-> & _). assert (Z.of_nat j + 2 ∈ positions E (inode_key e.1)) as Hin by (apply elem_of_positions; by exists j, e).
  destruct (positions E (inode_key e.1)) as [|x xs] eqn:Ep; [by apply elem_of_nil in Hin|].
  assert (x ∈ positions E (inode_key e.1)) as (k & e' & Hk' & Hke & ->)%elem_of_positions by (rewrite Ep; left). by exists k, e'.
Qed.

Lemma array_image_ok : v5i_parent (n_inode root) = 0 -> image_ok (loaded_as chunk_size <$> array E Cc Cn).
Proof.
  intros Hroot. split; [split|].
  - intros i j d n Hi Hj Hd Hino. rewrite list_lookup_fmap in Hi, Hj. destruct (array E Cc Cn !! i) as [m1|] eqn:Em1; [|done]. destruct (array E Cc Cn !! j) as [m2|] eqn:Em2; [|done].
    injection Hi as <-. injection Hj as <-. change (v5i_ino (n_inode m1) = v5i_ino (n_inode m2)) in Hino. destruct (array_dir i m1 Em1 Hd) as (t & s & Ht & Hi1 & _).
    rewrite Hi1 in Hino. destruct (array_entry j m2 Em2) as [[-> ->]|(j' & e & -> & Hj & ->)].
    + destruct (root_facts Cc Cn) as (E1 & _). lia.
    + destruct (ino_entry j' e Hj) as (k & e' & Hk' & Hke & Ek). assert (i = S k) as -> by lia. f_equal. rewrite array_lookup, Hk' in Em1. injection Em1 as <-.
      apply (keys_ok_lookup E.*1 k j' e'.1 e.1 Hk); [by rewrite list_lookup_fmap, Hk'|by rewrite list_lookup_fmap, Hj| |done].
      destruct (built_facts E Cc Cn k e') as (_ & _ & <- & _). exact Hd.
  - intros i n Hi. rewrite list_lookup_fmap in Hi. destruct (array E Cc Cn !! i) as [m|] eqn:Em; [|done]. injection Hi as <-.
    change (v5i_ino (n_inode m) <> 0 /\ (v5i_parent (n_inode m) = 0 \/ exists j p, (j < i)%nat /\ (loaded_as chunk_size <$> array E Cc Cn) !! j = Some p /\
      is_dir p = true /\ i_ino p = v5i_parent (n_inode m))). destruct (array_entry i m Em) as [[-> ->]|(j & [n p] & -> & Hj & ->)].
    + destruct (root_facts Cc Cn) as (-> & -> & _). split; [lia|by left].
    + destruct (ino_entry j (n, p) Hj) as (k & _ & _ & _ & ->). split; [lia|]. right. destruct (built_facts E Cc Cn j (n, p)) as (_ & -> & _). cbn [snd].
      destruct (li_blocks _ _ _ _ Hinv _ _ _ Hj) as (s & c & Hc & Hs). destruct (li_dirs _ _ _ _ Hinv _ _ _ Hc) as [Hlt (mp & Hep & Hdp)].
      destruct (entry_node E Cc Cn p mp Hk Hep Hdp) as (m & Hm & Hdm & Him). apply vec_index_Ok in Hm as [Hp0 Hm].
      exists (Z.to_nat (p - 1)), (loaded_as chunk_size m). split; [lia|]. split; [by rewrite list_lookup_fmap, Hm|done].
  - intros d Hd Hdd. apply list_elem_of_fmap_1 in Hd as (m & -> & (i & Hi)%list_elem_of_lookup_1).
    destruct (array_dir i m Hi Hdd) as (t & s & Ht & Hino & Hc & _ & Hcnt & _). change (i_ino (loaded_as chunk_size m)) with (v5i_ino (n_inode m)). rewrite Hino.
    change (i_child_cnt (loaded_as chunk_size m)) with (v5i_child_count (n_inode m)). rewrite Hcnt.
    rewrite (children_block _ t s Ht Hroot Hc). split.
    { unfold zlen. rewrite length_fmap, length_take, length_drop. pose proof (block_fits _ t s Ht Hc). f_equal. lia. }
    rewrite <- list_fmap_compose. change (NoDup (node_name <$> take (length (sorted_children t)) (drop (Z.to_nat (s - 1)) (array E Cc Cn)))).
    rewrite (block_names _ t s Ht Hc).
    destruct Ht as (_ & _ & _ & Hdn). inversion Hdn as [t' Hnd _]; subst. unfold sorted_children. by rewrite sort_by_key_perm.
Qed.

Definition kept (names : list (list Z)) (n : Node) : Node := match names with [] => n | _ => strip n end.

Lemma built_content i e : content (loaded_as chunk_size (built E Cc Cn i e)) = content (loaded_as chunk_size (strip e.1)).
Proof. unfold built, finish. by destruct (Cc !! _) as [[? ?]|]. Qed.

(** A path of the tree is a path of the array. *)
Lemma reaches_array names t : reaches T names t -> let l := loaded_as chunk_size <$> array E Cc Cn in
  exists k m, array E Cc Cn !! k = Some m /\ at_path l names (loaded_as chunk_size m) /\
    content (loaded_as chunk_size m) = content (loaded_as chunk_size (kept names (t_node t))) /\
    node_is_dir m = node_is_dir (t_node t) /\
    (node_is_dir (t_node t) = true -> dir_at (Z.of_nat k + 1) t) /\
    (k = 0%nat \/ exists p, E !! (k - 1)%nat = Some (t_node t, p)).
Proof.
  intros Hr l. induction Hr as [|names d c Hr IH Hd Hc].
  - exists 0%nat, (root_built Cc Cn). destruct (root_facts Cc Cn) as (E1 & _ & E3 & _). rewrite HT. split_and!; [done| | |done| |by left].
    + apply at_root; [apply list_elem_of_fmap_2; left|exact E1|]. change (node_is_dir (root_built Cc Cn) = true). by rewrite E3.
    + unfold root_built, finish. by destruct (Cc !! _) as [[? ?]|].
    + intros _. split; [left; by rewrite HT|]. rewrite HT. by split_and!.
  - destruct IH as (k & m & Hk' & Hp' & _ & Hdm & Hda & _). specialize (Hda Hd). rewrite Hd in Hdm. destruct (array_dir k m Hk' Hdm) as (t' & s & Ht' & Hino & Hc' & _).
    destruct (dir_block _ d Hda) as (s' & Hs'). destruct (li_dirs _ _ _ _ Hinv _ _ _ Hs') as [Hlt _].
    assert (c ∈ sorted_children d) as (j & Hj)%list_elem_of_lookup_1 by (unfold sorted_children; by rewrite sort_by_key_perm).
    destruct (child_at _ d s' j c Hda Hs' Hj) as [He Hsub]. exists (S (Z.to_nat (s' - 2) + j)), (built E Cc Cn (Z.to_nat (s' - 2) + j) (t_node c, Z.of_nat k + 1)).
    destruct (built_facts E Cc Cn (Z.to_nat (s' - 2) + j) (t_node c, Z.of_nat k + 1)) as (_ & F2 & F3 & F4 & _).
    assert (array E Cc Cn !! S (Z.to_nat (s' - 2) + j) = Some (built E Cc Cn (Z.to_nat (s' - 2) + j) (t_node c, Z.of_nat k + 1))) as Ha by (by rewrite array_lookup, He).
    split_and!; [done| | |exact F3| |].
    + cbn [fst snd] in F2, F3, F4. rewrite <- F4. refine (at_child l names (loaded_as chunk_size m) (loaded_as chunk_size (built E Cc Cn (Z.to_nat (s' - 2) + j) (t_node c, Z.of_nat k + 1))) Hp' Hdm _ _);
        [apply list_elem_of_fmap_2; by eapply list_elem_of_lookup_2|].
      change (v5i_parent (n_inode (built E Cc Cn (Z.to_nat (s' - 2) + j) (t_node c, Z.of_nat k + 1))) = v5i_ino (n_inode m)). by rewrite F2, Hino.
    + rewrite built_content. by destruct names.
    + intros Hdc. specialize (Hsub Hdc). by replace (Z.of_nat (S (Z.to_nat (s' - 2) + j)) + 1) with (s' + Z.of_nat j) by lia.
    + right. exists (Z.of_nat k + 1). by replace (S (Z.to_nat (s' - 2) + j) - 1)%nat with (Z.to_nat (s' - 2) + j)%nat by lia.
Qed.
End placed_tree.

Lemma build_spec T : t_node T = root -> node_is_dir root = true -> keys_ok (live T) -> zlen (live T) + 2 < 2 ^ 32 ->
  exists st E Cc Cn, build false spec T ∅ = Ok st /\ layout_inv E Cc Cn st /\ E.*1 ≡ₚ live T /\ placed E Cc Cn T 1.
Proof.
  intros HT Hd Hk Hlen. unfold build. rewrite HT, Hd. cbn [rassert mbind outcome_bind].
  destruct (lays_out_tree T [] ∅ ∅ (mkBuild [with_inode (set_ino RAFS_V5_ROOT_INODE) (with_index 1 root)] ∅) 1) as (st & F & Cc & Cn & E1 & Hinv & HF & _ & _ & _ & Hp);
    [split; cbn; [done|done|done|done|done]|left; done|by rewrite HT|done|done|done|]. exists st, F, Cc, Cn. done.
Qed.
End layout_spec.
