(* ===== verification/Prefetch.v ===== *)
(** Prefetch patterns of the image builder ([src/bin/nydus-image/core/prefetch.rs]).

    The builder reads one path a line, and records the indexes of the nodes at these paths in the
    prefetch table of the bootstrap. *)
From S2P Require Import Prelude Utils LittleEndian ChunkInfo Device RafsLayout RafsV5 RafsBlobTable RafsV5Inode CachedInode CachedDir CachedSuper RafsV5Io Fs Overlay Builder.

Inductive PrefetchPolicy := PrefetchNone | PrefetchFs | PrefetchBlob.
#[export] Instance PrefetchPolicy_eq_dec : EqDecision PrefetchPolicy.
Proof. solve_decision. Defined.

(** [IndexMap] keeps the order of insertion; [BTreeMap] is used by key only here. *)
Record Prefetch := mkPrefetch {
  pf_policy : PrefetchPolicy;
  pf_disabled : bool;
  pf_patterns : list (list (list Z) * option Z);
  pf_files : gmap (list (list Z)) Z
}.

(** ** Patterns *)

(** The characters of the Unicode property [White_Space], in UTF-8. *)
Definition white_space : list (list Z) :=
  [[9]; [10]; [11]; [12]; [13]; [32]; [0xc2; 0x85]; [0xc2; 0xa0]; [0xe1; 0x9a; 0x80]]
  ++ ((fun i => [0xe2; 0x80; 0x80 + Z.of_nat i]) <$> seq 0 11)
  ++ [[0xe2; 0x80; 0xa8]; [0xe2; 0x80; 0xa9]; [0xe2; 0x80; 0xaf]; [0xe2; 0x81; 0x9f]; [0xe3; 0x80; 0x80]].

(** A character of [ws] at the head of [s], and what follows it. *)
Fixpoint strip_char (ws : list (list Z)) (s : list Z) : option (list Z) :=
  match ws with
  | [] => None
  | w :: ws => if starts_with w s then Some (drop (length w) s) else strip_char ws s
  end.

Fixpoint strip_chars (ws : list (list Z)) (fuel : nat) (s : list Z) : list Z :=
  match fuel with
  | O => s
  | S fuel => match strip_char ws s with Some s' => strip_chars ws fuel s' | None => s end
  end.

(** [str::trim]. *)
Definition trim_start (s : list Z) : list Z := strip_chars white_space (length s) s.
Definition trim_end (s : list Z) : list Z := reverse (strip_chars (reverse <$> white_space) (length s) (reverse s)).
Definition trim (s : list Z) : list Z := trim_end (trim_start s).

Definition is_absolute (s : list Z) : bool := bool_decide (head s = Some SLASH).

(** [Path::starts_with] of an absolute path. *)
Definition path_starts_with (file prefix : list Z) : bool :=
  match prefix with
  | [] => true
  | _ => is_absolute prefix && bool_decide (components prefix `prefix_of` components file)
  end.

(** [IndexMap::insert]. *)
Fixpoint index_insert {K V} `{EqDecision K} (k : K) (v : V) (m : list (K * V)) : list (K * V) :=
  match m with
  | [] => [(k, v)]
  | (k', v') :: m => if bool_decide (k = k') then (k', v) :: m else (k', v') :: index_insert k v m
  end.

(** [before] are the lines ahead of [input]. *)
Fixpoint generate_patterns_from (before input : list (list Z)) (patterns : list (list (list Z) * option Z)) : list (list (list Z) * option Z) :=
  match input with
  | [] => patterns
  | file :: input =>
      let file_trimmed := trim file in
      let patterns :=
        if negb (is_absolute file_trimmed) then patterns
        else if existsb (path_starts_with file_trimmed) before then patterns
        else index_insert (components file_trimmed) None patterns in
      generate_patterns_from (before ++ [file]) input patterns
  end.

Definition generate_patterns (input : list (list Z)) : list (list (list Z) * option Z) := generate_patterns_from [] input [].

(** [read_line] up to the end of [stdin]: a line keeps its line feed. *)
Definition NEWLINE : Z := 10.

Fixpoint read_lines (cur : list Z) (stdin : list Z) : list (list Z) :=
  match stdin with
  | [] => match cur with [] => [] | _ => [cur] end
  | b :: stdin => if b =? NEWLINE then (cur ++ [b]) :: read_lines [] stdin else read_lines (cur ++ [b]) stdin
  end.

Definition get_patterns (stdin : list Z) : io (list (list (list Z) * option Z)) :=
  let lines := read_lines [] stdin in
  if forallb utf8_valid lines then Ok (generate_patterns lines) else Err EOTHER.

Definition Prefetch_new (policy : PrefetchPolicy) (stdin : list Z) : io Prefetch :=
  patterns ← (if negb (bool_decide (policy = PrefetchNone)) then get_patterns stdin else Ok []);
  Ok (mkPrefetch policy false patterns ∅).

(** ** Nodes *)

Definition node_target (n : Node) : list (list Z) := generate_target (n_path n) (n_source n).

Definition insert_pattern (policy : PrefetchPolicy) (n : Node) (acc : list (list (list Z) * option Z) * gmap (list (list Z)) Z)
    (p : list (list Z) * option Z) : list (list (list Z) * option Z) * gmap (list (list Z)) Z :=
  let '(patterns, files) := acc in
  let '(f, v) := p in
  if bool_decide (node_target n = f) then
    (patterns ++ [(f, if bool_decide (policy = PrefetchFs) then Some (n_index n) else v)],
     if v5i_is_reg (n_inode n) then <[node_target n := n_index n]> files else files)
  else if bool_decide (f `prefix_of` node_target n) && v5i_is_reg (n_inode n) then
    (patterns ++ [(f, v)], <[node_target n := n_index n]> files)
  else (patterns ++ [(f, v)], files).

Definition insert_if_need (n : Node) (p : Prefetch) : Prefetch :=
  if bool_decide (pf_policy p = PrefetchNone) || pf_disabled p || (v5i_is_reg (n_inode n) && (v5i_size (n_inode n) =? 0)) then p
  else
    let '(patterns, files) := foldl (insert_pattern (pf_policy p) n) ([], pf_files p) (pf_patterns p) in
    mkPrefetch (pf_policy p) (pf_disabled p) patterns files.

Definition Prefetch_contains (n : Node) (p : Prefetch) : bool := bool_decide (is_Some (pf_files p !! node_target n)).

Definition Prefetch_len (p : Prefetch) : Z := if bool_decide (pf_policy p = PrefetchFs) then wrap 32 (zlen (pf_patterns p)) else 0.

Definition Prefetch_disable (p : Prefetch) : Prefetch := mkPrefetch (pf_policy p) true (pf_patterns p) (pf_files p).
Definition Prefetch_clear (p : Prefetch) : Prefetch := mkPrefetch (pf_policy p) false (pf_patterns p) ∅.

Section table.
Context `{Profile}.

Fixpoint prefetch_entries (indexes : list Z) (nodes : list Node) (table : list Z) : io (list Z) :=
  match indexes with
  | [] => Ok table
  | i :: indexes =>
      if i <? u32_MAX then
        idx ← usub 64 i 1; node ← vec_index nodes idx;
        prefetch_entries indexes nodes (PrefetchTable_add_entry (wrap 32 (v5i_ino (n_inode node))) table)
      else prefetch_entries indexes nodes table
  end.

Definition get_rafsv5_prefetch_table (p : Prefetch) (nodes : list Node) : io (option (list Z)) :=
  if bool_decide (pf_policy p = PrefetchFs) then
    table ← prefetch_entries (omap snd (pf_patterns p)) nodes []; Ok (Some table)
  else Ok None.
End table.

(** ** Recorded nodes *)

Definition prefetch_hits (p : Prefetch) : list Z := omap snd (pf_patterns p).

Lemma insert_patterns_hits policy n l patterns files (P : Z -> Prop) : P (n_index n) -> Forall P (omap snd patterns) -> Forall P (omap snd l) ->
  Forall P (omap snd (foldl (insert_pattern policy n) (patterns, files) l).1).
Proof.
  intros Hn. revert patterns files. induction l as [|[f v] l IH]; intros patterns files Hp Hl; [done|]. cbn [foldl].
  assert (Forall P (omap snd l) /\ from_option P True v) as [Hl' Hv].
  { destruct v as [v|]; cbn in Hl; [by inversion Hl|done]. }
  destruct (insert_pattern policy n (patterns, files) (f, v)) as [patterns' files'] eqn:E. apply IH; [|done].
  unfold insert_pattern in E. repeat case_match; simplify_eq; rewrite omap_app, Forall_app; (split; [done|]); cbn; repeat case_match; simplify_eq; by repeat constructor.
Qed.

Lemma insert_if_need_hits n p (P : Z -> Prop) : P (n_index n) -> Forall P (prefetch_hits p) -> Forall P (prefetch_hits (insert_if_need n p)).
Proof.
  intros Hn Hp. unfold insert_if_need. case_match; [done|]. pose proof (insert_patterns_hits (pf_policy p) n (pf_patterns p) [] (pf_files p) P Hn (Forall_nil_2 _) Hp) as Hf.
  destruct (foldl _ _ _) as [patterns files]. done.
Qed.

Lemma insert_all_hits nodes p (P : Z -> Prop) : Forall (fun n => P (n_index n)) nodes -> Forall P (prefetch_hits p) ->
  Forall P (prefetch_hits (foldl (fun p n => insert_if_need n p) p nodes)).
Proof. intros Hn. revert p. induction Hn as [|n nodes Hn _ IH]; intros p Hp; [done|]. cbn. apply IH. by apply insert_if_need_hits. Qed.

(** The table of recorded nodes. *)
Lemma prefetch_table_ok `{Profile} p nodes : Forall (fun i => 1 <= i <= zlen nodes) (prefetch_hits p) -> zlen nodes < 2 ^ 64 ->
  exists pf, get_rafsv5_prefetch_table p nodes = Ok pf /\ from_option (Forall (in_range 32)) True pf.
Proof.
  intros Hh Hn. unfold get_rafsv5_prefetch_table. case_bool_decide; [|by exists None]. fold (prefetch_hits p).
  assert (forall l table, Forall (fun i => 1 <= i <= zlen nodes) l -> Forall (in_range 32) table ->
    exists t, prefetch_entries l nodes table = Ok t /\ Forall (in_range 32) t) as Hrun.
  { induction l as [|i l IH]; intros table Hl Ht; [by exists table|]. inversion Hl as [|? ? Hi Hl']; subst. cbn [prefetch_entries].
    case_match; [|by apply IH]. rewrite usub_in by (split; lia). cbn [mbind outcome_bind].
    destruct (lookup_lt_is_Some_2 nodes (Z.to_nat (i - 1))) as [m Hm]; [unfold zlen in Hi; lia|].
    assert (vec_index nodes (i - 1) = @Ok errno _ m) as -> by (apply vec_index_Ok; split; [lia|done]). cbn [mbind outcome_bind]. apply IH; [done|].
    apply Forall_app. split; [done|]. apply Forall_singleton. unfold wrap. apply Z.mod_pos_bound. lia. }
  destruct (Hrun _ [] Hh (Forall_nil_2 _)) as (t & -> & Ht). by exists (Some t).
Qed.

(** ** Patterns below a pattern *)

(** A line as [read_line] returns it, but for the last one. *)
Definition full_line (l : list Z) : Prop := exists body, l = body ++ [NEWLINE] /\ NEWLINE ∉ body.

Lemma read_lines_full cur stdin : NEWLINE ∉ cur -> exists full rest, read_lines cur stdin = full ++ rest /\ Forall full_line full /\
  (rest = [] \/ exists l, rest = [l] /\ NEWLINE ∉ l).
Proof.
  revert cur. induction stdin as [|b stdin IH]; intros cur Hc; cbn [read_lines].
  - exists [], (match cur with [] => [] | _ => [cur] end). split; [done|]. split; [constructor|]. destruct cur as [|x cur]; [by left|right]. by eexists.
  - destruct (Z.eqb_spec b NEWLINE) as [->|Hb].
    + destruct (IH [] ltac:(by intros ?%elem_of_nil)) as (full & rest & -> & Hf & Hr). exists ((cur ++ [NEWLINE]) :: full), rest. split; [done|]. split; [|done].
      constructor; [by exists cur|done].
    + apply IH. rewrite elem_of_app, list_elem_of_singleton. intros [?|?]; [done|congruence].
Qed.

Lemma strip_chars_suffix ws fuel s : exists k, strip_chars ws fuel s = drop k s.
Proof.
  revert s. induction fuel as [|fuel IH]; intros s; [by exists 0%nat|]. cbn [strip_chars]. destruct (strip_char ws s) as [s'|] eqn:E; [|by exists 0%nat].
  assert (exists k, s' = drop k s) as [k ->].
  { clear -E. induction ws as [|w ws IH]; [done|]. cbn in E. destruct (starts_with w s); [injection E as <-; by eexists|by apply IH]. }
  destruct (IH (drop k s)) as [j ->]. exists (k + j)%nat. by rewrite drop_drop.
Qed.

Lemma in_drop {A} (x : A) k l : x ∈ drop k l -> x ∈ l.
Proof. intros Hx. rewrite <- (take_drop k l). apply elem_of_app. by right. Qed.

Lemma trim_newline l : full_line l \/ NEWLINE ∉ l -> NEWLINE ∉ trim l.
Proof.
  intros Hl. unfold trim, trim_end, trim_start. destruct (strip_chars_suffix white_space (length l) l) as [k ->].
  assert (forall s, NEWLINE ∉ s -> NEWLINE ∉ reverse (strip_chars (reverse <$> white_space) (length s) (reverse s))) as Hno.
  { intros s Hs. destruct (strip_chars_suffix (reverse <$> white_space) (length s) (reverse s)) as [j ->]. rewrite elem_of_reverse. intros Hin%in_drop. apply Hs. by rewrite elem_of_reverse in Hin. }
  destruct Hl as [(body & -> & Hb)|Hl].
  2:{ apply Hno. by intros Hin%in_drop. }
  destruct (decide (k <= length body)%nat) as [Hk|Hk]; [|rewrite drop_ge by (rewrite length_app; cbn; lia); apply Hno; by intros ?%elem_of_nil].
  rewrite drop_app_le, reverse_snoc, length_app by done. set (b := drop k body). rewrite Nat.add_comm. cbn [Nat.add length].
  change (strip_chars (reverse <$> white_space) (S (length b)) (NEWLINE :: reverse b)) with (strip_chars (reverse <$> white_space) (length b) (reverse b)).
  apply Hno. by intros Hin%in_drop.
Qed.

Lemma split_slash_bytes cur s c b : c ∈ split_slash cur s -> b ∈ c -> b ∈ cur \/ b ∈ s.
Proof.
  revert cur. induction s as [|x s IH]; intros cur Hc Hb; cbn [split_slash] in Hc.
  - apply list_elem_of_singleton in Hc as ->. by left.
  - destruct (Z.eqb_spec x SLASH).
    + apply elem_of_cons in Hc as [->|Hc]; [by left|]. destruct (IH [] Hc Hb) as [Hn|Hs]; [by apply elem_of_nil in Hn|right; by right].
    + destruct (IH (cur ++ [x]) Hc Hb) as [Hn|Hs]; [|right; by right]. apply elem_of_app in Hn as [?|Hx]; [by left|]. apply list_elem_of_singleton in Hx as ->. right; left.
Qed.

Lemma split_slash_end cur s : exists c, c ∈ split_slash cur (s ++ [NEWLINE]) /\ NEWLINE ∈ c.
Proof.
  revert cur. induction s as [|x s IH]; intros cur; cbn [app split_slash].
  - change (NEWLINE =? SLASH) with false. cbv iota. exists (cur ++ [NEWLINE]). split; [left|]. apply elem_of_app. right. left.
  - destruct (x =? SLASH); [|apply IH]. destruct (IH []) as (c & Hc & Hn). exists c. split; [by right|done].
Qed.

(** No line covers another one: it ends with a line feed, which is in its last component. *)
Lemma full_line_not_prefix file prefix : full_line prefix -> NEWLINE ∉ file -> path_starts_with file prefix = false.
Proof.
  intros (body & -> & _) Hf. unfold path_starts_with. destruct (body ++ [NEWLINE]) as [|x l] eqn:E; [by destruct body|]. rewrite <- E.
  apply andb_false_iff. right. apply bool_decide_eq_false_2. intros [k Hk]. destruct (split_slash_end [] body) as (c & Hc & Hn).
  assert (c ∈ components file) as Hcf.
  { rewrite Hk. apply elem_of_app. left. unfold components. apply list_elem_of_filter. split; [|done]. split; [by intros ->; apply elem_of_nil in Hn|].
    intros ->. repeat (apply elem_of_cons in Hn as [Hn|Hn]; [discriminate Hn|]). by apply elem_of_nil in Hn. }
  unfold components in Hcf. apply list_elem_of_filter in Hcf as [_ Hcf]. destruct (split_slash_bytes _ _ _ _ Hcf Hn) as [Hx|Hx]; [by apply elem_of_nil in Hx|done].
Qed.

Lemma index_insert_keys {K V} `{EqDecision K} (k : K) (v : V) m : k ∈ (index_insert k v m).*1 /\ forall x, x ∈ m.*1 -> x ∈ (index_insert k v m).*1.
Proof.
  induction m as [|[k' v'] m [IH1 IH2]]; cbn [index_insert]; [split; [left|by intros x ?%elem_of_nil]|]. case_bool_decide as Hk.
  - subst. split; [left|done].
  - rewrite !fmap_cons. split; [by right|]. intros x [->|Hx]%elem_of_cons; [left|right; by apply IH2].
Qed.

Lemma generate_patterns_keeps before input patterns : Forall full_line before ->
  (forall pre l post, input = pre ++ l :: post -> post <> [] -> full_line l) -> Forall (fun l => NEWLINE ∉ trim l) input ->
  (forall x, x ∈ patterns.*1 -> x ∈ (generate_patterns_from before input patterns).*1) /\
  (forall l, l ∈ input -> is_absolute (trim l) = true -> components (trim l) ∈ (generate_patterns_from before input patterns).*1).
Proof.
  revert before patterns. induction input as [|l input IH]; intros before patterns Hb Hin Ht; cbn [generate_patterns_from]; [split; [done|by intros ? ?%elem_of_nil]|].
  inversion Ht as [|? ? Hl Ht']; subst. assert (existsb (path_starts_with (trim l)) before = false) as ->.
  { apply not_true_is_false. intros (p & Hp & E)%existsb_exists. apply list_elem_of_In in Hp. rewrite Forall_forall in Hb. by rewrite (full_line_not_prefix _ p (Hb p Hp) Hl) in E. }
  set (patterns' := if negb (is_absolute (trim l)) then patterns else _).
  assert (forall x, x ∈ patterns.*1 -> x ∈ patterns'.*1) as Hsub by (intros x Hx; unfold patterns'; destruct (negb _); [done|by apply index_insert_keys]).
  destruct input as [|l2 input].
  { cbn [generate_patterns_from]. split; [done|]. intros x Hx Ha. apply list_elem_of_singleton in Hx as ->. unfold patterns'. rewrite Ha. apply (proj1 (index_insert_keys _ _ _)). }
  destruct (IH (before ++ [l]) patterns') as [IH1 IH2].
  - apply Forall_app. split; [done|]. apply Forall_singleton. by apply (Hin [] l (l2 :: input)).
  - intros pre x post E. apply (Hin (l :: pre)). by rewrite E.
  - done.
  - split; [intros x Hx; by apply IH1, Hsub|]. intros x [->|Hx]%elem_of_cons Ha; [|by apply IH2]. apply IH1. unfold patterns'. rewrite Ha. apply (proj1 (index_insert_keys _ _ _)).
Qed.

(** a prefetch pattern below another pattern is never dropped. The builder means to skip a
    path that is covered by an earlier line, but compares it with that line as it was read, line
    feed included; so every absolute path of the input becomes a pattern. *)
Theorem covered_pattern_kept stdin patterns line : get_patterns stdin = Ok patterns -> line ∈ read_lines [] stdin -> is_absolute (trim line) = true ->
  components (trim line) ∈ patterns.*1.
Proof.
  unfold get_patterns. destruct (forallb _ _); [intros [= <-]|done]. intros Hin Ha.
  destruct (read_lines_full [] stdin ltac:(by intros ?%elem_of_nil)) as (full & rest & E & Hf & Hr). rewrite E in *. rewrite Forall_forall in Hf.
  apply (generate_patterns_keeps [] (full ++ rest) []); [constructor| | |done|done].
  - intros pre l post El Hp. apply Hf. destruct Hr as [->|(x & -> & _)].
    + rewrite app_nil_r in El. rewrite El. apply elem_of_app. right. left.
    + destruct post as [|y post _] using rev_ind; [done|]. rewrite app_comm_cons, app_assoc in El. apply app_inj_tail in El as [-> _]. apply elem_of_app. right. left.
  - apply Forall_forall. intros l [Hl|Hl]%elem_of_app; apply trim_newline; [left; by apply Hf|right]. destruct Hr as [->|(x & -> & Hx)]; [by apply elem_of_nil in Hl|].
    by apply list_elem_of_singleton in Hl as ->.
Qed.

Definition nested_patterns : list Z := bytes_of_string "/a" ++ [NEWLINE] ++ bytes_of_string "/a/b" ++ [NEWLINE].

Lemma covered_pattern_kept_witness :
  get_patterns nested_patterns = Ok [([bytes_of_string "a"], None); ([bytes_of_string "a"; bytes_of_string "b"], None)] /\
  [bytes_of_string "a"; bytes_of_string "b"] ∈ [[bytes_of_string "a"]; [bytes_of_string "a"; bytes_of_string "b"]].
Proof.
  split; [vm_compute; reflexivity|]. pose proof (covered_pattern_kept nested_patterns
    [([bytes_of_string "a"], None); ([bytes_of_string "a"; bytes_of_string "b"], None)] (bytes_of_string "/a/b" ++ [NEWLINE])
    ltac:(vm_compute; reflexivity)) as Hc. apply Hc; [right; left|reflexivity].
Defined.
