(* ===== verification/Bootstrap.v ===== *)
(** The v5 bootstrap of an image ([src/bin/nydus-image/core/bootstrap.rs], [rafsv5_dump];
    [src/bin/nydus-image/core/prefetch.rs]; [rafs/src/metadata/md_v5.rs], [try_load_v5]).

    The builder writes super block, tables and inodes of the array it laid out; the daemon reads
    them back. The theorem is the round trip of a whole image: the tree that was built is the
    tree that is mounted, by paths and content, and its digests validate. *)
From S2P Require Import Prelude Utils LittleEndian ChunkInfo Device RafsLayout RafsV5 RafsBlobTable RafsV5Inode CachedInode CachedDir CachedSuper RafsV5Io Fs Overlay Builder Prefetch.

(** ** Dumping *)

(** What the dump uses of [BuildContext]. *)
Record BuildContext := mkBuildContext {
  bc_compressor : CompressAlgorithm;
  bc_digester : DigestAlgorithm;
  bc_chunk_size : Z;
  bc_explicit_uidgid : bool;
  bc_estargz_ref : bool;
  bc_prefetch : Prefetch
}.

Definition RAFS_DEFAULT_ATTR_TIMEOUT : Z := Z.shiftl 1 32.
Definition RAFS_DEFAULT_ENTRY_TIMEOUT : Z := RAFS_DEFAULT_ATTR_TIMEOUT.
Definition STARGZ_DEFAULT_BLOCK_SIZE : Z := Z.shiftl 4 20.

Definition set_digest (digest : Z) (i : RafsV5Inode) : RafsV5Inode :=
  mkV5Inode digest (v5i_parent i) (v5i_ino i) (v5i_uid i) (v5i_gid i) (v5i_projid i) (v5i_mode i) (v5i_size i)
    (v5i_blocks i) (v5i_flags i) (v5i_nlink i) (v5i_child_index i) (v5i_child_count i) (v5i_name_size i)
    (v5i_symlink_size i) (v5i_rdev i) (v5i_mtime_nsec i) (v5i_mtime i) (v5i_reserved i).

Section dump.
Context `{Profile} (hash : DigestAlgorithm -> list Z -> Z).

(** The loop over [child_index..child_index + child_count]; the array starts at index 1. *)
Fixpoint child_digests (nodes : list Node) (idx : Z) (count : nat) : io (list Z) :=
  match count with
  | O => Ok []
  | S count =>
      i ← usub 32 idx 1;
      child ← vec_index nodes i;
      rest ← child_digests nodes (idx + 1) count;
      Ok (digest_bytes (v5i_digest (n_inode child)) ++ rest)
  end.

Definition rafsv5_digest_node (ctx : BuildContext) (index : nat) (nodes : list Node) : io (list Node) :=
  node ← vec_index nodes (Z.of_nat index);
  if node_is_dir node then
    let child_index := v5i_child_index (n_inode node) in
    end_index ← uadd 32 child_index (v5i_child_count (n_inode node));
    data ← child_digests nodes child_index (Z.to_nat (end_index - child_index));
    update_node (Z.of_nat index + 1) (with_inode (set_digest (hash (bc_digester ctx) data))) nodes
  else Ok nodes.

(** [for idx in (0..n).rev()]. *)
Fixpoint digest_nodes (ctx : BuildContext) (n : nat) (nodes : list Node) : io (list Node) :=
  match n with O => Ok nodes | S n => nodes ← rafsv5_digest_node ctx n nodes; digest_nodes ctx n nodes end.

(** The loop that fills the inode table. *)
Fixpoint set_inode_offsets (nodes : list Node) (inode_offset : Z) (has_xattr : bool) (table : list Z) : io (list Z * bool) :=
  match nodes with
  | [] => Ok (table, has_xattr)
  | node :: nodes =>
      table ← InodeTable_set (n_index node) inode_offset table;
      inode_offset ← uadd 32 inode_offset (wrap 32 (v5i_disk_size (n_inode node)));
      let xattr := v5i_has_xattr (n_inode node) in
      let pairs := map_to_list (n_xattrs node) in
      inode_offset ← (if xattr && negb (bool_decide (pairs = [])) then uadd 32 inode_offset (wrap 32 (8 + aligned_size_v5 pairs)) else Ok inode_offset);
      inode_offset ← (if v5i_is_reg (n_inode node) then n ← umul 32 (v5i_child_count (n_inode node)) 80; uadd 32 inode_offset n else Ok inode_offset);
      set_inode_offsets nodes inode_offset (has_xattr || xattr) table
  end.

Fixpoint dump_nodes (nodes : list Node) : stM (list Z) errno unit :=
  match nodes with [] => st_ret tt | node :: nodes => _ ← dump_bootstrap_v5 (dumped node); dump_nodes nodes end.

(** The super block, but for the flag of extended attributes. *)
Definition rafsv5_super_block (ctx : BuildContext) (blob_table : RafsV5BlobTable)
    (inodes inode_table_entries inode_table_size prefetch_table_size prefetch_table_entries : Z) : RafsV5SuperBlock :=
  let prefetch_table_offset := RAFSV5_SUPERBLOCK_SIZE + inode_table_size in
  let blob_table_offset := prefetch_table_offset + prefetch_table_size in
  let extended_blob_table_offset := blob_table_offset + BlobTable_size blob_table in
  let sb := mkV5Super RAFSV5_SUPER_MAGIC RAFS_SUPER_VERSION_V5 RAFSV5_SUPERBLOCK_SIZE
              (if bc_estargz_ref ctx then STARGZ_DEFAULT_BLOCK_SIZE else bc_chunk_size ctx) 0 inodes RAFSV5_SUPERBLOCK_SIZE
              prefetch_table_offset blob_table_offset inode_table_entries prefetch_table_entries
              (wrap 32 (BlobTable_size blob_table)) (zlen (bt_extended blob_table)) extended_blob_table_offset
              (v5_reserved RafsV5SuperBlock_default) in
  let sb := v5_set_digester (bc_digester ctx) (v5_set_compressor (bc_compressor ctx) sb) in
  if bc_explicit_uidgid ctx then v5_set_explicit_uidgid sb else sb.

Definition rafsv5_dump (ctx : BuildContext) (blob_table : RafsV5BlobTable) (inodes : Z) (nodes : list Node) : stM (list Z) errno unit :=
  nodes ← st_lift (digest_nodes ctx (length nodes) nodes);
  let inode_table_entries := wrap 32 (zlen nodes) in
  let inode_table := InodeTable_new inode_table_entries in
  let inode_table_size := InodeTable_size inode_table in
  prefetch ← st_lift (get_rafsv5_prefetch_table (bc_prefetch ctx) nodes);
  let '(prefetch_table_size, prefetch_table_entries) :=
    match prefetch with Some t => (PrefetchTable_size t, wrap 32 (zlen t)) | None => (0, 0) end in
  _ ← st_lift (if zlen (bt_extended blob_table) <? 2 ^ 32 then Ok tt else Err EOTHER);
  _ ← st_lift (debug_assert (is_power_of_two (bc_chunk_size ctx)));
  let sb := rafsv5_super_block ctx blob_table inodes inode_table_entries inode_table_size prefetch_table_size prefetch_table_entries in
  let inode_offset := wrap 32 (RAFSV5_SUPERBLOCK_SIZE + inode_table_size + prefetch_table_size + BlobTable_size blob_table +
                               ExtBlobTable_size (bt_extended blob_table)) in
  '(inode_table, has_xattr) ← st_lift (set_inode_offsets nodes inode_offset false inode_table);
  _ ← v5_sb_store (if has_xattr : bool then v5_set_has_xattr sb else sb);
  _ ← InodeTable_store inode_table;
  _ ← (match prefetch with Some t => _ ← PrefetchTable_store t; st_ret tt | None => st_ret tt end);
  _ ← BlobTable_store blob_table;
  _ ← ExtBlobTable_store (bt_extended blob_table);
  dump_nodes nodes.

(** ** Loading *)

(** [RafsSuper::try_load_v5] in cached mode, on the bytes of the bootstrap; [None] when it is no
    v5 image. *)
Definition try_load_v5 (validate_digest : bool) (file : list Z) : io (option CachedSuperBlockV5) :=
  sb ← (v5_sb_read file).1;
  if negb (is_rafs_v5 sb) then Ok None
  else
    _ ← v5_validate sb (zlen file);
    flags ← ok_or (flags_from_bits (v5_flags sb)) EINVAL;
    let meta := mkSuperMeta (v5_magic sb) (v5_version sb) (v5_sb_size sb) 0 (v5_block_size sb) (v5_inodes_count sb) flags
                  (v5_inode_table_entries sb) (v5_inode_table_offset sb) (v5_blob_table_size sb) (v5_blob_table_offset sb)
                  (v5_extended_blob_table_offset sb) (v5_extended_blob_table_entries sb) (v5_prefetch_table_offset sb)
                  (v5_prefetch_table_entries sb) RAFS_DEFAULT_ATTR_TIMEOUT RAFS_DEFAULT_ENTRY_TIMEOUT false 0 0 0 0 in
    sb ← cs_load hash (CachedSuperBlockV5_new meta validate_digest) file; Ok (Some sb).
End dump.

(** ** Digests of directories *)

Section digests.
Context `{Profile} (hash : DigestAlgorithm -> list Z -> Z) (ctx : BuildContext).

Definition node_digests (l : list Node) : list Z := concat ((fun n => digest_bytes (v5i_digest (n_inode n))) <$> l).

(** The [count] nodes from index [idx] on. *)
Definition node_block (idx count : Z) (nodes : list Node) : list Node := take (Z.to_nat count) (drop (Z.to_nat (idx - 1)) nodes).

(** The children of a directory are in the array, after it. *)
Definition blocks_after (nodes : list Node) : Prop := forall i m, nodes !! i = Some m -> node_is_dir m = true ->
  Z.of_nat i + 2 <= v5i_child_index (n_inode m) /\ 0 <= v5i_child_count (n_inode m) /\
  v5i_child_index (n_inode m) + v5i_child_count (n_inode m) <= zlen nodes + 1 /\
  v5i_child_index (n_inode m) + v5i_child_count (n_inode m) < 2 ^ 32.

Definition sign (nodes : list Node) (m : Node) : Node :=
  if node_is_dir m then
    with_inode (set_digest (hash (bc_digester ctx)
      (node_digests (node_block (v5i_child_index (n_inode m)) (v5i_child_count (n_inode m)) nodes)))) m
  else m.

Lemma child_digests_run nodes idx count : 1 <= idx -> idx - 1 + Z.of_nat count <= zlen nodes -> idx + Z.of_nat count < 2 ^ 32 ->
  child_digests nodes idx count = Ok (node_digests (node_block idx (Z.of_nat count) nodes)).
Proof.
  revert idx. induction count as [|count IH]; intros idx Hi Hl Hb; [done|]. cbn [child_digests]. rewrite usub_in by (split; lia). cbn [mbind outcome_bind].
  destruct (lookup_lt_is_Some_2 nodes (Z.to_nat (idx - 1))) as [m Hm]; [unfold zlen in Hl; lia|].
  assert (vec_index nodes (idx - 1) = @Ok errno _ m) as -> by (apply vec_index_Ok; split; [lia|done]). cbn [mbind outcome_bind].
  rewrite IH by lia. cbn [mbind outcome_bind]. f_equal. unfold node_block. rewrite !Nat2Z.id, (drop_S _ _ _ Hm). unfold node_digests.
  rewrite firstn_cons, fmap_cons, concat_cons. do 5 f_equal. lia.
Qed.

Lemma node_block_ext idx count i (l1 l2 : list Node) : (i <= Z.to_nat (idx - 1))%nat -> (forall j, (i <= j)%nat -> l1 !! j = l2 !! j) ->
  node_block idx count l1 = node_block idx count l2.
Proof.
  intros Hi Hj. unfold node_block. f_equal. apply list_eq. intros j. rewrite !lookup_drop. apply Hj. lia.
Qed.

(** The loop replaces the digests of the directories, last to first. *)
Lemma digest_nodes_run n nodes : (n <= length nodes)%nat -> blocks_after nodes ->
  exists nodes', digest_nodes hash ctx n nodes = Ok nodes' /\ length nodes' = length nodes /\
    (forall i, (n <= i)%nat -> nodes' !! i = nodes !! i) /\ (forall i, (i < n)%nat -> nodes' !! i = sign nodes' <$> nodes !! i).
Proof.
  revert nodes. induction n as [|n IH]; intros nodes Hn Hb; [exists nodes; split_and!; [done|done|done|lia]|].
  destruct (lookup_lt_is_Some_2 nodes n) as [m Hm]; [lia|]. set (nodes1 := <[n := sign nodes m]> nodes).
  assert (rafsv5_digest_node hash ctx n nodes = Ok nodes1) as E1.
  { unfold rafsv5_digest_node. assert (vec_index nodes (Z.of_nat n) = @Ok errno _ m) as -> by (apply vec_index_Ok; split; [lia|by rewrite Nat2Z.id]).
    cbn [mbind outcome_bind]. unfold nodes1, sign. destruct (node_is_dir m) eqn:Ed; [|by rewrite list_insert_id].
    destruct (Hb n m Hm Ed) as (B1 & B2 & B3 & B4). rewrite uadd_in by (split; lia). cbn [mbind outcome_bind].
    rewrite Z.add_simpl_l, child_digests_run by lia. cbn [mbind outcome_bind]. rewrite Z2Nat.id by lia. unfold update_node.
    replace (Z.of_nat n + 1 - 1) with (Z.of_nat n) by lia.
    assert (vec_index nodes (Z.of_nat n) = @Ok errno _ m) as -> by (apply vec_index_Ok; split; [lia|by rewrite Nat2Z.id]). cbn. by rewrite Nat2Z.id. }
  assert (forall i x, nodes1 !! i = Some x -> exists y, nodes !! i = Some y /\ (x = y \/ x = sign nodes y)) as Hsame.
  { intros i x. unfold nodes1. destruct (decide (i = n)) as [->|Hne].
    - rewrite list_lookup_insert_eq by lia. intros [= <-]. exists m. split; [done|by right].
    - rewrite list_lookup_insert_ne by done. intros Hx. exists x. split; [done|by left]. }
  destruct (IH nodes1) as (nodes' & E2 & Hlen & Hhi & Hlo); [unfold nodes1; rewrite length_insert; lia| |].
  { intros i x Hx Hd. destruct (Hsame i x Hx) as (y & Hy & Hxy). unfold zlen, nodes1. rewrite length_insert.
    destruct Hxy as [->| ->]; [by apply Hb|]. unfold sign in *. destruct (node_is_dir y) eqn:Edy; [by apply (Hb i y)|by rewrite Edy in Hd]. }
  exists nodes'. cbn [digest_nodes]. rewrite E1. cbn [mbind outcome_bind]. split; [done|]. split; [by rewrite Hlen; unfold nodes1; rewrite length_insert|]. split.
  - intros i Hi. rewrite Hhi by lia. unfold nodes1. by rewrite list_lookup_insert_ne by lia.
  - intros i Hi. destruct (decide (i = n)) as [->|Hne].
    + rewrite Hhi, Hm by lia. unfold nodes1. rewrite list_lookup_insert_eq by lia. cbn. f_equal. unfold sign. destruct (node_is_dir m) eqn:Ed; [|done].
      destruct (Hb n m Hm Ed) as (B1 & _). f_equal. f_equal. f_equal. f_equal.
      apply (node_block_ext _ _ (S n)); [lia|]. intros j Hj. rewrite Hhi by lia. unfold nodes1. by rewrite list_lookup_insert_ne by lia.
    + rewrite Hlo by lia. unfold nodes1. by rewrite list_lookup_insert_ne by lia.
Qed.

Lemma digest_nodes_signs nodes : blocks_after nodes ->
  exists nodes', digest_nodes hash ctx (length nodes) nodes = Ok nodes' /\ nodes' = sign nodes' <$> nodes.
Proof.
  intros Hb. destruct (digest_nodes_run (length nodes) nodes (le_n _) Hb) as (nodes' & E & Hlen & _ & Hlo). exists nodes'. split; [done|].
  apply list_eq. intros i. rewrite list_lookup_fmap. destruct (decide (i < length nodes)%nat) as [Hi|Hi]; [by apply Hlo|].
  by rewrite !lookup_ge_None_2 by lia.
Qed.
End digests.

(** ** What is dumped *)

Section dump_run.
Context `{Profile} (chunk_size : Z).

Definition node_size (n : Node) : Z := zlen (node_bytes (dumped n)).

(** The offsets of nodes that follow each other. *)
Fixpoint offsets (base : Z) (nodes : list Node) : list Z :=
  match nodes with [] => [] | n :: nodes => base :: offsets (base + node_size n) nodes end.

Definition nodes_bytes (nodes : list Node) : list Z := concat (node_bytes <$> (dumped <$> nodes)).

Lemma nodes_bytes_cons n nodes : nodes_bytes (n :: nodes) = node_bytes (dumped n) ++ nodes_bytes nodes.
Proof. done. Qed.

Lemma length_xattr_bytes iter : zlen (xattr_bytes iter) = if bool_decide (iter = []) then 0 else 8 + rafsv5_align (xattrs_size iter).
Proof.
  destruct iter as [|kv l]; [done|]. rewrite bool_decide_eq_false_2 by done. unfold xattr_bytes. set (it := kv :: l). pose proof (length_pairs_bytes it) as Hl.
  rewrite align_header by lia. destruct (rafsv5_align_spec (xattrs_size it) ltac:(lia)) as [_ R].
  unfold zlen. rewrite !length_app, length_le_bytes, length_replicate. lia.
Qed.

(** The size [rafsv5_dump] reckons a node to have. *)
Lemma node_size_eq n : node_ok chunk_size (dumped n) -> node_size n =
  v5i_disk_size (n_inode n) +
  (if v5i_has_xattr (n_inode n) && negb (bool_decide (map_to_list (n_xattrs n) = [])) then 8 + aligned_size_v5 (map_to_list (n_xattrs n)) else 0) +
  (if v5i_is_reg (n_inode n) then v5i_child_count (n_inode n) * 80 else 0).
Proof.
  intros (Hw & _ & Hx & _ & _ & _ & _ & Hcnt & Hnr & _). unfold node_size, node_bytes. rewrite !zlen_app. unfold zlen at 3. rewrite length_chunks_bytes.
  rewrite (length_wrapper_bytes _ Hw), length_xattr_bytes. cbn [dumped dn_wrapper dn_xattrs dn_chunks w_inode] in *. rewrite Hx. unfold aligned_size_v5.
  destruct (bool_decide _); cbn [negb andb]; (destruct (v5i_is_reg (n_inode n)) eqn:Er; [rewrite Hcnt by done|rewrite Hnr by done; change (zlen (@nil RafsV5ChunkInfo)) with 0]; lia).
Qed.

Lemma node_size_aligned n : node_ok chunk_size (dumped n) -> node_size n mod 8 = 0 /\ 0 <= node_size n.
Proof.
  intros Hok. destruct (dump_run chunk_size (dumped n) [] Hok eq_refl) as [_ A]. split; [exact A|unfold node_size, zlen; lia].
Qed.

Lemma node_parts n : node_ok chunk_size (dumped n) ->
  0 <= v5i_disk_size (n_inode n) /\ 0 <= aligned_size_v5 (map_to_list (n_xattrs n)) /\
  (v5i_is_reg (n_inode n) = true -> 0 <= v5i_child_count (n_inode n)).
Proof.
  intros (Hw & _ & _ & _ & _ & _ & _ & Hcnt & _). pose proof (length_wrapper_bytes _ Hw) as Hl. cbn [dumped dn_wrapper w_inode] in Hl.
  unfold aligned_size_v5. set (pairs := map_to_list (n_xattrs n)). pose proof (length_pairs_bytes pairs).
  destruct (rafsv5_align_spec (xattrs_size pairs) ltac:(lia)) as [_ R]. split_and!; [unfold zlen in Hl; lia|lia|].
  intros Hr. cbn in Hcnt. rewrite Hcnt by done. unfold zlen. lia.
Qed.

(** The table gets the offset of every node. *)
Lemma set_inode_offsets_run nodes base hx table k :
  (forall i n, nodes !! i = Some n -> n_index n = Z.of_nat (k + i) + 1) -> Forall (fun n => node_ok chunk_size (dumped n)) nodes ->
  base mod 8 = 0 -> RAFSV5_SUPERBLOCK_SIZE < base -> base + zlen (nodes_bytes nodes) < 2 ^ 32 -> (k + length nodes <= length table)%nat ->
  set_inode_offsets nodes base hx table =
    Ok (take k table ++ ((fun o => Z.shiftr o 3) <$> offsets base nodes) ++ drop (k + length nodes) table,
        hx || existsb (fun n => v5i_has_xattr (n_inode n)) nodes).
Proof.
  intros Hidx Hok. revert base hx table k Hidx. induction Hok as [|n nodes Hn Hok IH]; intros base hx table k Hidx Hm Hb Hs Ht; cbn [set_inode_offsets].
  { cbn. by rewrite Nat.add_0_r, take_drop, orb_false_r. }
  assert (0 < base) as Hb0 by (unfold RAFSV5_SUPERBLOCK_SIZE in Hb; lia). rewrite nodes_bytes_cons, zlen_app in Hs. fold (node_size n) in Hs. cbn [length] in Ht. pose proof (node_size_aligned n Hn) as [Ha Hn0].
  pose proof (node_size_eq n Hn) as Hsz. pose proof (node_parts n Hn) as (P1 & P2 & P3). assert (0 <= zlen (nodes_bytes nodes)) as Hz by (unfold zlen; lia).
  assert (InodeTable_set (n_index n) base table = Ok (<[k := Z.shiftr base 3]> table)) as ->.
  { rewrite (Hidx 0%nat n eq_refl), Nat.add_0_r. unfold InodeTable_set. rewrite (proj2 (Z.eqb_neq _ _)), (proj2 (Z.ltb_ge _ _)) by lia. cbn [orb].
    rewrite (proj2 (Z.leb_gt _ _)) by lia. change (Z.land base 7) with (Z.land base (RAFSV5_ALIGNMENT - 1)). rewrite land7, Hm. cbn. do 2 f_equal. lia. }
  cbn [mbind outcome_bind]. set (x := v5i_has_xattr (n_inode n)) in *. set (pairs := map_to_list (n_xattrs n)) in *.
  set (sx := if x && negb (bool_decide (pairs = [])) then 8 + aligned_size_v5 pairs else 0) in Hsz.
  set (sc := if v5i_is_reg (n_inode n) then v5i_child_count (n_inode n) * 80 else 0) in Hsz.
  assert (0 <= sx) by (unfold sx; case_match; lia). assert (0 <= sc) by (unfold sc; case_match; [specialize (P3 ltac:(done))|]; lia).
  rewrite (wrap_small 32 (v5i_disk_size _)) by (split; lia). rewrite uadd_in by (split; lia). cbn [mbind outcome_bind].
  assert ((if x && negb (bool_decide (pairs = [])) then uadd 32 (base + v5i_disk_size (n_inode n)) (wrap 32 (8 + aligned_size_v5 pairs))
           else Ok (base + v5i_disk_size (n_inode n))) = @Ok errno _ (base + v5i_disk_size (n_inode n) + sx)) as ->.
  { unfold sx in *. case_match; [|by rewrite Z.add_0_r]. rewrite wrap_small by (split; lia). apply uadd_in. split; lia. }
  cbn [mbind outcome_bind].
  assert ((if v5i_is_reg (n_inode n) then n0 ← umul 32 (v5i_child_count (n_inode n)) 80; uadd 32 (base + v5i_disk_size (n_inode n) + sx) n0
           else Ok (base + v5i_disk_size (n_inode n) + sx)) = @Ok errno _ (base + v5i_disk_size (n_inode n) + sx + sc)) as ->.
  { unfold sc in *. case_match; [|by rewrite Z.add_0_r]. specialize (P3 eq_refl). rewrite umul_in by (split; lia). cbn [mbind outcome_bind].
    apply uadd_in. split; lia. }
  cbn [mbind outcome_bind]. replace (base + _ + sx + sc) with (base + node_size n) by lia.
  rewrite (IH _ _ _ (S k)).
  - do 2 f_equal; [|by cbn; rewrite orb_assoc]. cbn [offsets fmap list_fmap length]. rewrite (take_S_r _ _ (Z.shiftr base 3)) by (apply list_lookup_insert_eq; lia).
    rewrite take_insert_ge by lia. rewrite <- app_assoc. cbn [app]. rewrite drop_insert_lt by lia. by rewrite Nat.add_succ_comm.
  - intros i m Hi. rewrite (Hidx (S i) m Hi). lia.
  - by rewrite Z.add_mod, Hm, Ha by lia.
  - lia.
  - lia.
  - rewrite length_insert. lia.
Qed.

Lemma dump_nodes_run nodes out : Forall (fun n => node_ok chunk_size (dumped n)) nodes -> zlen out mod 8 = 0 ->
  dump_nodes nodes out = (Ok tt, out ++ nodes_bytes nodes) /\ zlen (nodes_bytes nodes) mod 8 = 0.
Proof.
  intros Hok. revert out. induction Hok as [|n nodes Hn _ IH]; intros out Ho; [cbn; by rewrite app_nil_r|].
  destruct (dump_run chunk_size (dumped n) out Hn Ho) as [E A]. cbn [dump_nodes]. erewrite st_bind_run by exact E. destruct (IH _ A) as [-> A2].
  rewrite nodes_bytes_cons, app_assoc. split; [done|]. rewrite zlen_app, Z.add_mod, A2 by lia. fold (node_size n).
  destruct (node_size_aligned n Hn) as [-> _]. done.
Qed.
End dump_run.

(** ** Dumping and loading an array *)

(** The parts of the prefetch table, when there is one. *)
Definition pf_bytes (pf : option (list Z)) : list Z := match pf with Some p => prefetch_bytes p | None => [] end.
Definition pf_size (pf : option (list Z)) : Z := match pf with Some p => PrefetchTable_size p | None => 0 end.
Definition pf_entries (pf : option (list Z)) : Z := match pf with Some p => wrap 32 (zlen p) | None => 0 end.

Definition dump_chunk_size (ctx : BuildContext) : Z := if bc_estargz_ref ctx then STARGZ_DEFAULT_BLOCK_SIZE else bc_chunk_size ctx.

Lemma pf_run pf w : from_option (Forall (in_range 32)) True pf ->
  (match pf with Some t => _ ← PrefetchTable_store t; st_ret tt | None => st_ret tt end) w = (@Ok errno _ tt, w ++ pf_bytes pf) /\
  zlen (pf_bytes pf) = pf_size pf /\ pf_size pf mod 8 = 0 /\ 4 * from_option zlen 0 pf <= pf_size pf.
Proof.
  intros Hp. destruct pf as [p|]; cbn [pf_bytes pf_size from_option]; [|by rewrite app_nil_r].
  destruct (prefetch_table_run p w [] Hp) as (E & L & _). erewrite st_bind_run by exact E. split_and!; [done|done|..];
    unfold PrefetchTable_size, zlen; destruct (rafsv5_align_spec (Z.of_nat (length p) * 4) ltac:(lia)); [done|lia].
Qed.

Section image_file.
Context `{Profile} (hash : DigestAlgorithm -> list Z -> Z) (ctx : BuildContext) (t : RafsV5BlobTable) (inodes : Z).
Context (nodes : list Node) (pf : option (list Z)).

Definition table_entries : list Z := InodeTable_new (zlen nodes).
Definition table_size : Z := InodeTable_size table_entries.

(** Where the inodes start. *)
Definition inodes_offset : Z :=
  RAFSV5_SUPERBLOCK_SIZE + table_size + pf_size pf + BlobTable_size t + ExtBlobTable_size (bt_extended t).

Definition has_xattrs : bool := existsb (fun n => v5i_has_xattr (n_inode n)) nodes.

Definition dumped_super : RafsV5SuperBlock :=
  let sb := rafsv5_super_block ctx t inodes (zlen nodes) table_size (pf_size pf) (pf_entries pf) in
  if has_xattrs then v5_set_has_xattr sb else sb.

Definition dumped_table : list Z :=
  ((fun o => Z.shiftr o 3) <$> offsets inodes_offset nodes) ++ drop (length nodes) table_entries.

Definition bootstrap_bytes : list Z :=
  v5_sb_bytes dumped_super ++ u32s_bytes dumped_table ++ pf_bytes pf ++ blob_table_bytes t ++ ext_bytes (bt_extended t) ++ nodes_bytes nodes.

Definition bootstrap_size : Z := inodes_offset + zlen (nodes_bytes nodes).

(** An array of nodes ready to be written. *)
Record dumpable (flags : Z) : Prop := {
  dp_chunk : is_power_of_two (bc_chunk_size ctx) = true;
  dp_block : is_power_of_two (dump_chunk_size ctx) = true /\ 0x1000 <= dump_chunk_size ctx <= RAFS_MAX_CHUNK_SIZE;
  dp_nodes : Forall (fun n => node_ok (dump_chunk_size ctx) (dumped n)) nodes;
  dp_index i n : nodes !! i = Some n -> n_index n = Z.of_nat i + 1;
  dp_root : nodes <> [];
  dp_inodes : 0 <= inodes <= zlen nodes;
  dp_prefetch : get_rafsv5_prefetch_table (bc_prefetch ctx) nodes = Ok pf /\ from_option (Forall (in_range 32)) True pf;
  dp_blobs : table_built (dump_chunk_size ctx) flags t;
  dp_flags : flags_compressor flags = bc_compressor ctx /\ flags_digester flags = bc_digester ctx;
  dp_ext : Forall ext_blob_wf (bt_extended t);
  dp_size : bootstrap_size < 2 ^ 32
}.

Lemma dumped_flags : flags_compressor (v5_flags dumped_super) = bc_compressor ctx /\ flags_digester (v5_flags dumped_super) = bc_digester ctx /\
  Z.land (v5_flags dumped_super) (unot 64 0xff) = 0 /\ in_range 64 (v5_flags dumped_super).
Proof.
  unfold dumped_super. destruct has_xattrs, ctx as [[] [] cs [] es pr]; (split_and!; [vm_compute; reflexivity..|]); split; vm_compute; done.
Qed.

Lemma table_facts : 0 <= zlen nodes -> length table_entries = Z.to_nat (table_size / 4) /\ table_size = Z.of_nat (length table_entries) * 4 /\
  Z.of_nat (length table_entries) mod 2 = 0 /\ table_size mod 8 = 0 /\ (length nodes <= length table_entries)%nat.
Proof.
  intros _. unfold table_size, table_entries, InodeTable_new, InodeTable_size. rewrite length_replicate.
  destruct (rafsv5_align_spec (zlen nodes * 4) ltac:(unfold zlen; lia)) as [M R]. set (a := rafsv5_align (zlen nodes * 4)) in *.
  apply Z.mod_divide in M as [b Hb]; [|done]. assert (a / 4 = b * 2) as -> by (rewrite Hb; replace (b * 8) with (b * 2 * 4) by lia; by rewrite Z.div_mul).
  assert (0 <= b) by (unfold zlen in R; lia). rewrite Z2Nat.id by lia.
  assert (rafsv5_align (b * 2 * 4) = b * 8) as ->.
  { replace (b * 2 * 4) with (b * 8) by lia. unfold rafsv5_align. rewrite land7, Z.mod_mul by lia. done. }
  replace (b * 8) with (b * 2 * 4) at 1 by lia. rewrite Z.div_mul, Z.mod_mul by lia. split_and!; [done|lia|done|by rewrite Z.mod_mul|].
  unfold zlen in R. lia.
Qed.

Context (flags : Z) (Hd : dumpable flags).

Lemma mod8_add a b : a mod 8 = 0 -> b mod 8 = 0 -> (a + b) mod 8 = 0.
Proof. intros Ha Hb. by rewrite Z.add_mod, Ha, Hb by lia. Qed.

Lemma length_offsets base (l : list Node) : length (offsets base l) = length l.
Proof. revert base. induction l as [|n l IH]; intros base; [done|]. cbn. by rewrite IH. Qed.

Lemma length_dumped_table : length dumped_table = length table_entries.
Proof.
  destruct (table_facts ltac:(unfold zlen; lia)) as (_ & _ & _ & _ & Hl). unfold dumped_table. rewrite length_app, length_fmap, length_offsets, length_drop. lia.
Qed.

Record sizes_ok : Prop := {
  sz_table : zlen (u32s_bytes dumped_table) = table_size /\ table_size mod 8 = 0 /\ 4 * zlen nodes <= table_size;
  sz_pf : zlen (pf_bytes pf) = pf_size pf /\ pf_size pf mod 8 = 0 /\ 4 * from_option zlen 0 pf <= pf_size pf;
  sz_blob : zlen (blob_table_bytes t) = BlobTable_size t /\ BlobTable_size t mod 8 = 0;
  sz_ext : zlen (ext_bytes (bt_extended t)) = ExtBlobTable_size (bt_extended t) /\ ExtBlobTable_size (bt_extended t) = 64 * zlen (bt_extended t);
  sz_nodes : zlen (nodes_bytes nodes) mod 8 = 0;
  sz_root : 0 < zlen nodes
}.

Lemma sizes : sizes_ok.
Proof.
  destruct (table_facts ltac:(unfold zlen; lia)) as (_ & T1 & _ & T2 & T3). split.
  - split_and!; [unfold zlen; rewrite length_u32s_bytes, length_dumped_table; lia|done|unfold zlen; lia].
  - apply (pf_run pf []), (dp_prefetch _ Hd).
  - destruct (blob_table_run _ _ t [] [] (dp_blobs _ Hd) eq_refl) as (_ & E & M & _). done.
  - destruct (ext_table_run (bt_extended t) [] [] (dp_ext _ Hd) eq_refl) as (_ & E & _). split; [done|]. rewrite <- E, length_ext_bytes. unfold zlen. lia.
  - apply (dump_nodes_run _ nodes [] (dp_nodes _ Hd) eq_refl).
  - pose proof (dp_root _ Hd). destruct nodes; [done|unfold zlen; cbn; lia].
Qed.

Lemma inodes_offset_ok : inodes_offset mod 8 = 0 /\ RAFSV5_SUPERBLOCK_SIZE < inodes_offset /\ inodes_offset <= bootstrap_size.
Proof.
  destruct sizes as [(_ & T1 & T2) (P1 & P2 & _) [B1 B2] [E1 E2] N1 R]. unfold bootstrap_size, inodes_offset. split_and!.
  - repeat apply mod8_add; [done..|]. rewrite E2, Z.mul_comm. apply mod8_mul64.
  - unfold zlen in *. lia.
  - unfold zlen. lia.
Qed.

Lemma table_in_range : Forall (in_range 32) dumped_table.
Proof.
  apply Forall_app. split.
  - destruct inodes_offset_ok as (_ & Hb & _). pose proof (dp_size _ Hd) as Hs. unfold bootstrap_size in Hs. assert (0 <= inodes_offset) as Hb0 by (unfold RAFSV5_SUPERBLOCK_SIZE in Hb; lia).
    clear Hb. revert Hs Hb0. generalize inodes_offset. pose proof (dp_nodes _ Hd) as Hok. clear Hd. induction Hok as [|n l Hn _ IH]; intros base Hs Hb; [constructor|].
    rewrite nodes_bytes_cons, zlen_app in Hs. fold (node_size n) in Hs. destruct (node_size_aligned _ n Hn) as [_ Hn0]. cbn [offsets fmap list_fmap]. constructor.
    + rewrite shiftr3. unfold zlen in Hs. split; [apply Z.div_pos; lia|]. apply Z.div_lt_upper_bound; lia.
    + apply IH; lia.
  - unfold table_entries, InodeTable_new. apply Forall_drop, Forall_replicate. done.
Qed.

Lemma dumped_super_reserved : v5_reserved dumped_super = replicate (Z.to_nat (RAFSV5_SUPERBLOCK_SIZE - 80)) 0.
Proof. unfold dumped_super, rafsv5_super_block. destruct has_xattrs, (bc_explicit_uidgid ctx); reflexivity. Qed.

Lemma zlen_dumped_super : zlen (v5_sb_bytes dumped_super) = RAFSV5_SUPERBLOCK_SIZE.
Proof.
  unfold v5_sb_bytes. rewrite !zlen_app. unfold zlen. rewrite !length_le_bytes, dumped_super_reserved, length_replicate.
  unfold RAFSV5_SUPERBLOCK_SIZE. lia.
Qed.

Lemma rafsv5_dump_run n0 : digest_nodes hash ctx (length n0) n0 = Ok nodes ->
  rafsv5_dump hash ctx t inodes n0 [] = (Ok tt, bootstrap_bytes).
Proof.
  intros Edig. destruct sizes as [(T0 & T1 & T2) (P0 & P1 & P2) [B0 B1] [E0 E1] N1 R]. pose proof (dp_size _ Hd) as Hs.
  destruct inodes_offset_ok as (O1 & O2 & O3). assert (0 <= zlen (nodes_bytes nodes) /\ 0 <= zlen (bt_extended t) /\ 0 <= BlobTable_size t) as (Z1 & Z2 & Z3) by (rewrite <- B0; unfold zlen; lia).
  assert (0 <= pf_size pf) as Z4 by (rewrite <- P0; unfold zlen; lia).
  assert (zlen nodes < 2 ^ 32 /\ zlen (bt_extended t) < 2 ^ 32) as [Hn32 He32] by (unfold bootstrap_size, inodes_offset, RAFSV5_SUPERBLOCK_SIZE in Hs; lia).
  destruct (table_facts ltac:(unfold zlen; lia)) as (_ & _ & F2 & _ & F3). unfold rafsv5_dump. rewrite Edig. erewrite st_bind_run by reflexivity.
  destruct (dp_prefetch _ Hd) as [-> Hpf]. erewrite st_bind_run by reflexivity. rewrite (wrap_small 32 (zlen nodes)) by (split; lia). fold table_entries table_size.
  replace (match pf with Some t => (PrefetchTable_size t, wrap 32 (zlen t)) | None => (0, 0) end) with (pf_size pf, pf_entries pf) by (by destruct pf).
  rewrite (proj2 (Z.ltb_lt _ _)) by done. erewrite st_bind_run by reflexivity. rewrite (dp_chunk _ Hd).
  erewrite st_bind_run by (unfold debug_assert; by destruct overflow_checks). fold inodes_offset. rewrite (wrap_small 32 inodes_offset) by (unfold RAFSV5_SUPERBLOCK_SIZE in O2; split; lia).
  rewrite (set_inode_offsets_run (dump_chunk_size ctx) nodes inodes_offset false table_entries 0);
    [|by apply (dp_index _ Hd)|by apply (dp_nodes _ Hd)|done|done|exact Hs|lia]. erewrite st_bind_run by reflexivity.
  cbn [take app orb Nat.add]. fold has_xattrs dumped_table dumped_super.
  pose proof zlen_dumped_super as Lsb.
  unfold v5_sb_store at 1. erewrite st_bind_run.
  2:{ erewrite st_bind_run by reflexivity. apply validate_alignment_Ok; [|cbn [app]]; fold (zlen (v5_sb_bytes dumped_super)); rewrite Lsb; reflexivity. }
  set (w1 := [] ++ v5_sb_bytes dumped_super). assert (zlen w1 mod 8 = 0) as W1 by (unfold w1; cbn [app]; rewrite Lsb; reflexivity).
  destruct (inode_table_run dumped_table w1 [] table_in_range W1) as (E2 & _ & _); [by rewrite length_dumped_table|]. erewrite st_bind_run by exact E2.
  set (w2 := w1 ++ _). assert (zlen w2 mod 8 = 0) as W2 by (unfold w2; rewrite zlen_app; apply mod8_add; [done|by rewrite T0]).
  destruct (pf_run pf w2 Hpf) as (E3 & _). erewrite st_bind_run by exact E3.
  set (w3 := w2 ++ _). assert (zlen w3 mod 8 = 0) as W3 by (unfold w3; rewrite zlen_app; apply mod8_add; [done|by rewrite P0]).
  destruct (blob_table_run _ _ t w3 [] (dp_blobs _ Hd) W3) as (E4 & _). erewrite st_bind_run by exact E4.
  set (w4 := w3 ++ _). assert (zlen w4 mod 8 = 0) as W4 by (unfold w4; rewrite zlen_app; apply mod8_add; [done|by rewrite B0]).
  destruct (ext_table_run (bt_extended t) w4 [] (dp_ext _ Hd) W4) as (E5 & _). erewrite st_bind_run by exact E5.
  destruct (dump_nodes_run _ nodes (w4 ++ ext_bytes (bt_extended t)) (dp_nodes _ Hd)) as [-> _].
  { rewrite zlen_app. apply mod8_add; [done|]. rewrite E0, E1, Z.mul_comm. apply mod8_mul64. }
  f_equal. unfold w4, w3, w2, w1, bootstrap_bytes. by rewrite <- !app_assoc.
Qed.

Lemma zlen_bootstrap : zlen bootstrap_bytes = bootstrap_size.
Proof.
  destruct sizes as [(T0 & _) (P0 & _) [B0 _] [E0 _] _ _]. unfold bootstrap_bytes. rewrite !zlen_app, T0, P0, B0, E0.
  rewrite zlen_dumped_super.
  unfold bootstrap_size, inodes_offset. lia.
Qed.

Lemma dumped_super_fields : let sb := dumped_super in
  v5_magic sb = RAFSV5_SUPER_MAGIC /\ v5_version sb = RAFS_SUPER_VERSION_V5 /\ v5_sb_size sb = RAFSV5_SUPERBLOCK_SIZE /\
  v5_block_size sb = dump_chunk_size ctx /\ v5_inodes_count sb = inodes /\ v5_inode_table_offset sb = RAFSV5_SUPERBLOCK_SIZE /\
  v5_prefetch_table_offset sb = RAFSV5_SUPERBLOCK_SIZE + table_size /\
  v5_blob_table_offset sb = RAFSV5_SUPERBLOCK_SIZE + table_size + pf_size pf /\ v5_inode_table_entries sb = zlen nodes /\
  v5_prefetch_table_entries sb = pf_entries pf /\ v5_blob_table_size sb = wrap 32 (BlobTable_size t) /\
  v5_extended_blob_table_entries sb = zlen (bt_extended t) /\
  v5_extended_blob_table_offset sb = RAFSV5_SUPERBLOCK_SIZE + table_size + pf_size pf + BlobTable_size t.
Proof. unfold dumped_super, rafsv5_super_block. destruct has_xattrs, (bc_explicit_uidgid ctx); split_and!; reflexivity. Qed.

(** The sizes as bounds. *)
Lemma dumped_bounds : 0 <= pf_size pf /\ 0 <= BlobTable_size t /\ 0 <= zlen (bt_extended t) /\ 0 < 4 * zlen nodes <= table_size /\
  0 <= zlen (nodes_bytes nodes) /\ 4 * pf_entries pf <= pf_size pf /\ 0 <= pf_entries pf /\ ExtBlobTable_size (bt_extended t) = 64 * zlen (bt_extended t).
Proof.
  destruct sizes as [(_ & _ & T2) (P0 & _ & P2) [B0 _] [_ E1] _ R]. rewrite <- B0. split_and!; try (unfold zlen; lia); try lia; try done.
  - rewrite <- P0. unfold zlen. lia.
  - destruct pf as [p|]; cbn [pf_entries pf_size from_option] in *; [|lia]. unfold wrap. pose proof (Z.mod_le (zlen p) (2 ^ 32) ltac:(unfold zlen; lia) ltac:(lia)). lia.
  - destruct pf as [p|]; cbn [pf_entries]; [|lia]. unfold wrap. apply Z.mod_pos_bound. lia.
Qed.

Lemma blob_size_wrap : wrap 32 (BlobTable_size t) = BlobTable_size t.
Proof. pose proof dumped_bounds. pose proof (dp_size _ Hd) as Hs. unfold bootstrap_size, inodes_offset, RAFSV5_SUPERBLOCK_SIZE in Hs. apply wrap_small. split; lia. Qed.

Lemma dumped_super_wf : v5_sb_wf dumped_super.
Proof.
  pose proof dumped_bounds as (? & ? & ? & ? & ? & ? & ? & ?). pose proof (dp_size _ Hd) as Hs. unfold bootstrap_size, inodes_offset in Hs.
  destruct dumped_super_fields as (F1 & F2 & F3 & F4 & F5 & F6 & F7 & F8 & F9 & F10 & F11 & F12 & F13). unfold v5_sb_wf.
  rewrite F1, F2, F3, F4, F5, F6, F7, F8, F9, F10, F11, F12, F13, blob_size_wrap, dumped_super_reserved, length_replicate.
  destruct (dp_block _ Hd) as [_ Hb]. unfold RAFS_MAX_CHUNK_SIZE in Hb. pose proof (dp_inodes _ Hd). pose proof dumped_flags as (_ & _ & _ & Hf).
  change RAFSV5_SUPERBLOCK_SIZE with 8192 in *. unfold in_range in *.
  split_and!; try done; try lia.
Qed.

Lemma dumped_super_valid : v5_valid dumped_super bootstrap_size.
Proof.
  pose proof dumped_bounds as (? & ? & ? & ? & ? & ? & ? & HE). pose proof (dp_size _ Hd) as Hs. pose proof inodes_offset_ok as (O1 & O2 & O3).
  destruct sizes as [(_ & T1 & _) (_ & P1 & _) [_ B1] _ N1 _].
  destruct dumped_super_fields as (F1 & F2 & F3 & F4 & F5 & F6 & F7 & F8 & F9 & F10 & F11 & F12 & F13).
  split; [done|done|done| |by rewrite F4; apply Hd|apply dumped_flags|].
  { split; [lia|]. unfold bootstrap_size. by apply mod8_add. }
  rewrite blob_size_wrap in F11. unfold bootstrap_size, inodes_offset in *. change RAFSV5_SUPERBLOCK_SIZE with 8192 in *. pose proof (dp_inodes _ Hd).
  split; unfold table_ok, in_meta, tables_disjoint; change RAFSV5_SUPERBLOCK_SIZE with 8192; rewrite ?F5, ?F6, ?F7, ?F8, ?F9, ?F10, ?F11, ?F12, ?F13; split_and!;
    try (intros; split_and!); try (repeat apply mod8_add; done); intros; lia.
Qed.

(** Each inode is at its offset in the file. *)
Lemma drop_bootstrap : drop (Z.to_nat inodes_offset) bootstrap_bytes = nodes_bytes nodes.
Proof.
  unfold bootstrap_bytes. rewrite !app_assoc. apply drop_app_length'. destruct sizes as [(T0 & _) (P0 & _) [B0 _] [E0 _] _ _].
  apply Nat2Z.inj. symmetry. change (zlen ((((v5_sb_bytes dumped_super ++ u32s_bytes dumped_table) ++ pf_bytes pf) ++ blob_table_bytes t) ++ ext_bytes (bt_extended t)) = Z.of_nat (Z.to_nat inodes_offset)).
  rewrite !zlen_app, zlen_dumped_super, T0, P0, B0, E0. destruct inodes_offset_ok as (_ & O2 & _). unfold RAFSV5_SUPERBLOCK_SIZE in O2 at 1. rewrite Z2Nat.id by lia. done.
Qed.

(** *** Loading *)

Definition dumped_meta : RafsSuperMeta :=
  mkSuperMeta RAFSV5_SUPER_MAGIC RAFS_SUPER_VERSION_V5 RAFSV5_SUPERBLOCK_SIZE 0 (dump_chunk_size ctx) inodes (v5_flags dumped_super)
    (zlen nodes) RAFSV5_SUPERBLOCK_SIZE (BlobTable_size t) (RAFSV5_SUPERBLOCK_SIZE + table_size + pf_size pf)
    (RAFSV5_SUPERBLOCK_SIZE + table_size + pf_size pf + BlobTable_size t) (zlen (bt_extended t)) (RAFSV5_SUPERBLOCK_SIZE + table_size)
    (pf_entries pf) RAFS_DEFAULT_ATTR_TIMEOUT RAFS_DEFAULT_ENTRY_TIMEOUT false 0 0 0 0.

(** The header of the file is read back, and accepted. *)
Lemma try_load_header validate : try_load_v5 hash validate bootstrap_bytes =
  sb ← cs_load hash (CachedSuperBlockV5_new dumped_meta validate) bootstrap_bytes; Ok (Some sb).
Proof.
  unfold try_load_v5, v5_sb_read. assert (read_exact (Z.to_nat RAFSV5_SUPERBLOCK_SIZE) bootstrap_bytes =
    (Ok (v5_sb_bytes dumped_super), u32s_bytes dumped_table ++ pf_bytes pf ++ blob_table_bytes t ++ ext_bytes (bt_extended t) ++ nodes_bytes nodes)) as Er.
  { apply read_exact_app. rewrite <- zlen_dumped_super. unfold zlen. lia. }
  erewrite st_bind_run by exact Er. unfold st_ret. cbn [fst mbind outcome_bind]. rewrite (v5_sb_roundtrip _ dumped_super_wf).
  pose proof dumped_super_fields as (F1 & F2 & F3 & F4 & F5 & F6 & F7 & F8 & F9 & F10 & F11 & F12 & F13).
  unfold is_rafs_v5. rewrite F1, F2, !Z.eqb_refl. cbn [andb negb]. rewrite zlen_bootstrap.
  assert (in_range 64 bootstrap_size) as Hr.
  { pose proof (dp_size _ Hd). rewrite <- zlen_bootstrap in *. split; [unfold zlen|]; lia. }
  destruct (v5_validate_cases dumped_super bootstrap_size dumped_super_wf Hr) as [[-> _]|[_ []]]; [|exact dumped_super_valid]. cbn [mbind outcome_bind].
  assert (flags_from_bits (v5_flags dumped_super) = Some (v5_flags dumped_super)) as ->.
  { unfold flags_from_bits. destruct dumped_flags as (_ & _ & -> & _). done. }
  cbn [ok_or mbind outcome_bind]. rewrite F3, F4, F5, F6, F7, F8, F9, F10, F11, F12, F13, blob_size_wrap. done.
Qed.

(** The first entry of the inode table is the offset of the root. *)
Lemma first_entry : exists b, (read_exact 4 (drop (Z.to_nat RAFSV5_SUPERBLOCK_SIZE) bootstrap_bytes)).1 = Ok b /\
  wrap 32 (Z.shiftl (get_le 0 4 b) 3) = inodes_offset.
Proof.
  pose proof inodes_offset_ok as (O1 & O2 & O3). pose proof (dp_size _ Hd) as Hs. unfold bootstrap_bytes. rewrite drop_app_length'.
  2:{ rewrite <- zlen_dumped_super. unfold zlen. lia. }
  assert (exists rest, dumped_table = Z.shiftr inodes_offset 3 :: rest) as [rest Et].
  { unfold dumped_table. pose proof (dp_root _ Hd). destruct nodes as [|n l]; [done|]. by eexists. }
  rewrite Et. unfold u32s_bytes. rewrite fmap_cons, concat_cons, <- !app_assoc. rewrite read_exact_app by apply length_le_bytes. eexists. split; [reflexivity|].
  change RAFSV5_SUPERBLOCK_SIZE with 8192 in O2. rewrite shiftr3, shiftl3. rewrite <- (app_nil_r (le_bytes _ _)), get_le_here.
  - apply Z.mod_divide in O1 as [k Hk]; [|done]. rewrite Hk, Z.div_mul by done. apply wrap_small. split; lia.
  - change (256 ^ Z.of_nat 4) with (2 ^ 32). split; [apply Z.div_pos; lia|]. apply Z.div_lt_upper_bound; lia.
Qed.

(** The tables are read back. *)
Lemma load_tables : 
  (ExtBlobTable_load (Z.to_nat (zlen (bt_extended t))) (drop (Z.to_nat (RAFSV5_SUPERBLOCK_SIZE + table_size + pf_size pf + BlobTable_size t)) bootstrap_bytes)).1
    = Ok (bt_extended t) /\
  (BlobTable_load (BlobTable_size t) (dump_chunk_size ctx) (v5_flags dumped_super) (mkBlobTable [] (bt_extended t))
     (drop (Z.to_nat (RAFSV5_SUPERBLOCK_SIZE + table_size + pf_size pf)) bootstrap_bytes)).1 = Ok t.
Proof.
  destruct sizes as [(T0 & _) (P0 & _) [B0 _] _ _ _]. pose proof zlen_dumped_super as S0. pose proof dumped_bounds as (? & ? & _).
  assert (0 <= table_size) as Ht by (rewrite <- T0; unfold zlen; lia). split.
  - assert (drop (Z.to_nat (RAFSV5_SUPERBLOCK_SIZE + table_size + pf_size pf + BlobTable_size t)) bootstrap_bytes = ext_bytes (bt_extended t) ++ nodes_bytes nodes) as ->.
    { unfold bootstrap_bytes. rewrite !(app_assoc (v5_sb_bytes _)), !(app_assoc (_ ++ _)). rewrite <- S0, <- T0, <- P0, <- B0, <- !zlen_app. unfold zlen. rewrite Nat2Z.id.
      rewrite <- !app_assoc. rewrite !(app_assoc (v5_sb_bytes _)), !(app_assoc (_ ++ _)). rewrite <- (app_assoc _ (ext_bytes _)). apply drop_app_length. }
    unfold zlen. rewrite Nat2Z.id. by destruct (ext_table_run (bt_extended t) [] (nodes_bytes nodes) (dp_ext _ Hd) eq_refl) as (_ & _ & ->).
  - assert (drop (Z.to_nat (RAFSV5_SUPERBLOCK_SIZE + table_size + pf_size pf)) bootstrap_bytes = blob_table_bytes t ++ ext_bytes (bt_extended t) ++ nodes_bytes nodes) as ->.
    { unfold bootstrap_bytes. rewrite <- S0, <- T0, <- P0, <- !zlen_app. unfold zlen. rewrite Nat2Z.id.
      rewrite (app_assoc (v5_sb_bytes _)), (app_assoc (_ ++ _) (pf_bytes pf)). apply drop_app_length. }
    destruct dumped_flags as (Fc & Fd & _). destruct (dp_flags _ Hd) as [Gc Gd].
    pose proof (table_built_flags _ flags (v5_flags dumped_super) t (dp_blobs _ Hd) ltac:(congruence) ltac:(congruence)) as Hb.
    by destruct (blob_table_run _ _ t [] (ext_bytes (bt_extended t) ++ nodes_bytes nodes) Hb eq_refl) as (_ & _ & _ & ->).
Qed.

(** The array is loaded as the image it is. *)
Lemma try_load_run validate r : let l := loaded_as (dump_chunk_size ctx) <$> nodes in
  image_ok l -> r ∈ l -> is_dir r = true -> i_ino r = RAFS_V5_ROOT_INODE ->
  (validate = true -> image_signed hash (bc_digester ctx) l) ->
  exists self, try_load_v5 hash validate bootstrap_bytes = Ok (Some self) /\ s_blob self = t /\ s_meta self = dumped_meta /\
    (forall d, d ∈ l -> is_dir d = true -> dir_exact l self d).
Proof.
  intros l Himg Hr Hrd Hri Hsig. rewrite try_load_header. unfold cs_load. cbn [s_meta CachedSuperBlockV5_new dumped_meta sm_inode_table_offset].
  destruct first_entry as (b & -> & Hoff). cbn [mbind outcome_bind]. rewrite Hoff. destruct load_tables as [E1 E2].
  cbn [dumped_meta sm_extended_blob_table_offset sm_extended_blob_table_entries sm_blob_table_size sm_chunk_size sm_flags sm_blob_table_offset].
  pose proof dumped_bounds as (? & ? & _ & ? & _). assert (0 <? RAFSV5_SUPERBLOCK_SIZE + table_size + pf_size pf + BlobTable_size t = true) as ->
    by (apply Z.ltb_lt; unfold RAFSV5_SUPERBLOCK_SIZE; lia). rewrite E1. cbn [mbind outcome_bind]. rewrite E2. cbn [mbind outcome_bind].
  set (self0 := mkCachedSuper t _ _ _ _). rewrite drop_bootstrap.
  destruct (load_all_inodes_tree self0 (dumped <$> nodes) []) as (self & E & (S1 & S2 & S3) & Hdirs & _).
  - done.
  - apply Forall_fmap. exact (dp_nodes _ Hd).
  - by rewrite <- list_fmap_compose.
  - left. unfold zlen. by rewrite length_fmap.
  - rewrite app_nil_r in E. unfold nodes_bytes. rewrite E. cbn [fst mbind outcome_bind]. rewrite <- list_fmap_compose in Hdirs. fold (loaded_as (dump_chunk_size ctx)) in Hdirs.
    change (cached_node (sm_chunk_size (s_meta self0)) ∘ dumped <$> nodes) with l in Hdirs.
    pose proof (Hdirs r Hr Hrd) as (rt & Ert & _). rewrite Hri in Ert. rewrite Ert. cbn [mbind outcome_bind].
    exists self. rewrite S3. change (s_validate_inode self0) with validate.
    assert ((if validate then rafsv5_validate_inode hash true (get_digester dumped_meta) rt else Ok true) = Ok true) as ->.
    { destruct validate; [|done]. rewrite <- Hri in Ert. apply (signed_validates hash _ l self r); [done| |done..].
      unfold get_digester. cbn. destruct dumped_flags as (_ & -> & _). by apply Hsig. }
    cbn [mbind outcome_bind]. split_and!; [done|by rewrite S1|by rewrite S2|exact Hdirs].
Qed.
End image_file.
