(* ===== verification/ImageTrip.v ===== *)
(** From the tree of a builder to the mounted file system.

    The components meet here: the tree is laid out ([Builder]), its directories get their
    digests, the bootstrap is written and loaded ([Bootstrap]), and paths are resolved in the
    loaded image ([Fs]). The theorem states the whole way at once: what is found at a path of the
    mounted image is what the tree has there. *)
From stdpp Require Import sorting.
From S2P Require Import Prelude Utils LittleEndian ChunkInfo Device RafsLayout RafsV5 RafsBlobTable RafsV5Inode CachedInode CachedDir CachedSuper RafsV5Io Fs Overlay Builder Prefetch Bootstrap.

(** ** Images that differ in their digests *)

(** What decides where an inode is in the tree. *)
Definition same_node (a b : InodeData) : Prop :=
  i_ino a = i_ino b /\ i_parent a = i_parent b /\ i_mode a = i_mode b /\ i_name a = i_name b /\ i_child_cnt a = i_child_cnt b.

#[export] Instance same_node_equiv : Equivalence same_node.
Proof. unfold same_node. split; [done|intros a b; naive_solver|intros a b c; intuition congruence]. Qed.

Lemma same_node_dir a b : same_node a b -> is_dir a = is_dir b.
Proof. intros (_ & _ & Hm & _). unfold is_dir. by rewrite Hm. Qed.

Lemma same_children ino l1 l2 : Forall2 same_node l1 l2 -> Forall2 same_node (children_of ino l1) (children_of ino l2).
Proof.
  induction 1 as [|a b l1 l2 Hab _ IH]; [constructor|]. unfold children_of in *. rewrite !filter_cons. destruct Hab as (H1 & H2 & H3).
  rewrite H2. case_decide; [constructor; [done|exact IH]|exact IH].
Qed.

Lemma same_names l1 l2 : Forall2 same_node l1 l2 -> i_name <$> l1 = i_name <$> l2.
Proof. induction 1 as [|a b l1 l2 (_ & _ & _ & Hn & _) _ IH]; [done|]. rewrite !fmap_cons. by rewrite Hn, IH. Qed.

#[export] Instance image_ok_proper : Proper (Forall2 same_node ==> iff) image_ok.
Proof.
  assert (forall l1 l2, Forall2 same_node l1 l2 -> image_ok l1 -> image_ok l2) as Himp.
  2:{ intros l1 l2 Hl. split; [by apply Himp|]. apply Himp. by symmetry. }
  intros l1 l2 Hl [[Ho1 Ho2] Hd]. split; [split|].
  - intros i j d n Hi Hj Hdir Hino. destruct (Forall2_lookup_r _ _ _ _ _ Hl Hi) as (d' & Hi' & Hdd). destruct (Forall2_lookup_r _ _ _ _ _ Hl Hj) as (n' & Hj' & Hnn).
    apply (Ho1 i j d' n'); [done|done|by rewrite (same_node_dir d' d)|]. destruct Hdd as [-> _], Hnn as [-> _]. done.
  - intros i n Hi. destruct (Forall2_lookup_r _ _ _ _ _ Hl Hi) as (n' & Hi' & (E1 & E2 & _)). rewrite <- E1, <- E2. destruct (Ho2 i n' Hi') as [Hz Hp]. split; [done|].
    destruct Hp as [Hp|(j & p' & Hj & Hjp & Hpd & Hpi)]; [by left|right]. destruct (Forall2_lookup_l _ _ _ _ _ Hl Hjp) as (p & Hjp2 & Hpp).
    exists j, p. split; [done|]. split; [done|]. rewrite <- (same_node_dir p' p) by done. split; [done|]. by destruct Hpp as [<- _].
  - intros d Hin Hdir. apply list_elem_of_lookup_1 in Hin as [i Hi]. destruct (Forall2_lookup_r _ _ _ _ _ Hl Hi) as (d' & Hi' & Hdd).
    destruct (Hd d') as [Hc Hn]; [by eapply list_elem_of_lookup_2|by rewrite (same_node_dir d' d)|]. destruct Hdd as (E1 & _ & _ & _ & E5). rewrite <- E1, <- E5.
    pose proof (same_children (i_ino d') l1 l2 Hl) as Hch. rewrite <- (same_names _ _ Hch). split; [|done]. rewrite Hc. unfold zlen. by rewrite (Forall2_length _ _ _ Hch).
Qed.

(** Paths lead to the same inodes. *)
Lemma at_path_same (R : InodeData -> InodeData -> Prop) l1 l2 names n1 : (forall a b, R a b -> same_node a b) -> Forall2 R l1 l2 ->
  at_path l1 names n1 -> exists n2, R n1 n2 /\ at_path l2 names n2.
Proof.
  intros HR Hl. assert (forall n, n ∈ l1 -> exists n2, R n n2 /\ n2 ∈ l2) as Hin.
  { intros n (i & Hi)%list_elem_of_lookup_1. destruct (Forall2_lookup_l _ _ _ _ _ Hl Hi) as (n2 & Hi2 & Hn). exists n2. split; [done|by eapply list_elem_of_lookup_2]. }
  induction 1 as [r Hr Hi Hd|names d n Hp IH Hd Hn Hpar].
  - destruct (Hin r Hr) as (r2 & HRr & Hr2). exists r2. split; [done|]. apply HR in HRr. apply at_root; [done|by destruct HRr as [<- _]|by rewrite <- (same_node_dir r r2)].
  - destruct IH as (d2 & HRd & Hp2). destruct (Hin n Hn) as (n2 & HRn & Hn2). exists n2. split; [done|]. apply HR in HRd, HRn.
    pose proof HRn as (_ & E2 & _ & -> & _). apply (at_child l2 names d2 n2); [done|by rewrite <- (same_node_dir d d2)|done|]. destruct HRd as [<- _]. congruence.
Qed.

(** ** Nodes as they are written *)

Section source.
Context `{Profile} (hash : DigestAlgorithm -> list Z -> Z) (alg : DigestAlgorithm) (cs : Z).

(** A node of the tree before it is laid out: its fields fit, and the digests of files and
    symlinks are those of their data. *)
Record node_fit (n : Node) : Prop := {
  nf_wf : v5i_wf (n_inode n);
  nf_name : v5i_name_size (n_inode n) = zlen (node_name n) /\ 0 < zlen (node_name n) <= RAFS_MAX_NAME;
  nf_symlink : v5i_symlink_size (n_inode n) = match n_symlink n with Some s => zlen s | None => 0 end /\
    (is_Some (n_symlink n) <-> v5i_is_symlink (n_inode n) = true) /\ n_symlink n <> Some [];
  nf_xattr : v5i_has_xattr (n_inode n) = negb (bool_decide (map_to_list (n_xattrs n) = [])) /\
    Forall pair_ok (map_to_list (n_xattrs n)) /\ xattrs_size (map_to_list (n_xattrs n)) + 8 < 2 ^ 63;
  nf_chunks : Forall v5c_wf (n_chunks n) /\ (v5i_is_reg (n_inode n) = true -> v5i_child_count (n_inode n) = zlen (n_chunks n)) /\
    (v5i_is_reg (n_inode n) = false -> n_chunks n = []);
  nf_size : v5i_is_reg (n_inode n) = true -> v5i_size (n_inode n) + cs < 2 ^ 64 /\ v5i_size (n_inode n) + 511 < 2 ^ 64 /\
    (v5i_has_hole (n_inode n) = true \/ (v5i_size (n_inode n) + cs - 1) / cs = zlen (n_chunks n)) /\
    (v5i_blocks (n_inode n) = 0 \/ v5i_blocks (n_inode n) = (v5i_size (n_inode n) + 511) / 512);
  nf_digest : (v5i_is_reg (n_inode n) = true -> v5i_digest (n_inode n) = hash alg (digest_chunks (cc_from <$> n_chunks n))) /\
    (v5i_is_symlink (n_inode n) = true -> v5i_digest (n_inode n) = hash alg (default [] (n_symlink n)))
}.

(** A node in the array. *)
Definition place (idx parent ino nlink child_index child_count digest : Z) (n : Node) : Node :=
  with_inode (fun i => set_digest digest (set_child_block child_index child_count (v5i_set_ids parent ino nlink i))) (with_index idx n).

Record placed_ok (parent ino nlink child_index child_count digest : Z) (n : Node) : Prop := {
  pl_parent : in_range 64 parent;
  pl_ino : 0 < ino < 2 ^ 64 /\ (ino = 1 \/ parent <> 0);
  pl_nlink : 0 < nlink < 2 ^ 32;
  pl_order : node_is_dir n = true \/ nlink = 1 -> parent < ino;
  pl_child : in_range 32 child_index /\ in_range 32 child_count;
  pl_dir : node_is_dir n = true -> ino < child_index;
  pl_file : node_is_dir n = false -> child_count = v5i_child_count (n_inode n) /\ digest = v5i_digest (n_inode n);
  pl_digest : in_range 256 digest
}.

Lemma mode_excl a b m : a <> b -> mode_is a m = true -> mode_is b m = false.
Proof. unfold mode_is. intros Hne E%Z.eqb_eq. apply Z.eqb_neq. congruence. Qed.

Lemma place_validates idx parent ino nlink ci cc digest n : 0 < cs -> node_fit n -> placed_ok parent ino nlink ci cc digest n ->
  ci_validate (loaded_as cs (place idx parent ino nlink ci cc digest n)) cs = Ok tt.
Proof.
  intros Hcs Hf Hp. unfold ci_validate.
  cbn [loaded_as cached_node dumped place with_inode with_index copy_from_ondisk dn_wrapper dn_xattrs dn_chunks w_inode w_name w_symlink n_inode n_chunks n_symlink
    set_digest set_child_block v5i_set_ids v5i_ino v5i_nlink v5i_parent i_ino i_nlink i_parent i_name i_size i_blocks i_data i_child_cnt i_child_idx i_target
    v5i_size v5i_blocks v5i_child_count v5i_child_index].
  unfold is_hardlink, is_reg, is_dir, is_symlink, has_hole.
  cbn [loaded_as cached_node dumped place with_inode with_index copy_from_ondisk dn_wrapper w_inode n_inode set_digest set_child_block v5i_set_ids i_mode i_flags i_nlink v5i_mode v5i_flags v5i_nlink].
  change (node_name (place idx parent ino nlink ci cc digest n)) with (node_name n).
  destruct (nf_name _ Hf) as [_ Hnm]. destruct (pl_ino _ _ _ _ _ _ _ Hp) as [Hino Hroot]. pose proof (pl_nlink _ _ _ _ _ _ _ Hp) as Hnl. pose proof (pl_order _ _ _ _ _ _ _ Hp) as Hord.
  unfold node_is_dir in Hord.
  assert ((ino =? 0) || (nlink =? 0) || (negb (ino =? RAFS_V5_ROOT_INODE) && (parent =? 0)) || (RAFS_MAX_NAME <? zlen (node_name n)) || (zlen (node_name n) =? 0) = false) as ->.
  { rewrite !orb_false_iff, andb_false_iff, negb_false_iff, !Z.eqb_neq, Z.eqb_eq, Z.ltb_ge. unfold RAFS_V5_ROOT_INODE. lia. }
  assert (negb (negb (mode_is S_IFDIR (v5i_mode (n_inode n))) && (1 <? nlink)) && (ino <=? parent) = false) as ->.
  { rewrite andb_false_iff, negb_false_iff, andb_true_iff, negb_true_iff, Z.ltb_lt, Z.leb_gt. fold (v5i_is_dir (n_inode n)). destruct (v5i_is_dir (n_inode n)); [right; apply Hord; by left|].
    destruct (Z.eq_dec nlink 1); [right; apply Hord; by right|left; split; [done|lia]]. }
  fold (v5i_is_reg (n_inode n)) (v5i_is_dir (n_inode n)) (v5i_is_symlink (n_inode n)). destruct (v5i_is_reg (n_inode n)) eqn:Er.
  - destruct (nf_size _ Hf Er) as (S1 & S2 & S3 & S4). destruct (nf_wf _ Hf) as (_ & _ & _ & _ & _ & _ & _ & [Hsz _] & _).
    rewrite (uadd_in 64 (v5i_size (n_inode n)) cs) by (split; lia). cbn [mbind outcome_bind]. rewrite usub_in by (split; lia). cbn [mbind outcome_bind]. unfold udiv.
    rewrite (proj2 (Z.eqb_neq cs 0)) by lia. cbn [mbind outcome_bind]. fold (v5i_has_hole (n_inode n)).
    replace (zlen (cc_from <$> n_chunks n)) with (zlen (n_chunks n)) by (unfold zlen; by rewrite length_fmap).
    assert (negb (v5i_has_hole (n_inode n)) && negb ((v5i_size (n_inode n) + cs - 1) / cs =? zlen (n_chunks n)) = false) as ->
      by (destruct S3 as [->| ->]; [done|by rewrite Z.eqb_refl, andb_false_r]).
    rewrite uadd_in by (split; lia). cbn [mbind outcome_bind]. destruct S4 as [->| ->]; [by rewrite andb_false_r|by rewrite Z.eqb_refl].
  - destruct (v5i_is_dir (n_inode n)) eqn:Ed.
    + pose proof (pl_dir _ _ _ _ _ _ _ Hp Ed). by rewrite (proj2 (Z.leb_gt ci ino)), andb_false_r by lia.
    + destruct (nf_symlink _ Hf) as (_ & Hs & Hne). destruct (v5i_is_symlink (n_inode n)) eqn:El; [|done].
      destruct (proj2 Hs eq_refl) as [s Es]. change (n_symlink (place idx parent ino nlink ci cc digest n)) with (n_symlink n) in *. rewrite Es in Hne |- *. cbn [default].
      destruct s as [|b s]; [done|]. unfold zlen. cbn [length]. done.
Qed.

Lemma place_node_ok idx parent ino nlink ci cc digest n : 0 < cs -> node_fit n -> placed_ok parent ino nlink ci cc digest n ->
  node_ok cs (dumped (place idx parent ino nlink ci cc digest n)).
Proof.
  intros Hcs Hf Hp. pose proof (place_validates idx _ _ _ _ _ _ n Hcs Hf Hp) as Hv. destruct Hf as [Hwf [Hn _] (Hs1 & Hs2 & _) (Hx1 & Hx2 & Hx3) (Hc1 & Hc2 & Hc3) _ _].
  destruct Hp as [P1 [[P2 P2'] _] [P3 P3'] _ [P4 P5] _ Pf P6]. unfold node_ok. split_and!; [|exact Hs2|exact Hx1|exact Hx2|apply NoDup_fst_map_to_list|exact Hx3|exact Hc1| |exact Hc3|exact Hv].
  - split; [|split; [exact Hn|exact Hs1]]. destruct Hwf as (W1 & W2 & W3 & W4 & W5 & W6 & W7 & W8 & W9 & W10 & W11 & W12 & W13 & W14 & W15 & W16 & W17 & W18 & W19).
    unfold v5i_wf. cbn. split_and!; try done; split; lia.
  - intros Hr. destruct Pf as [E _]; [unfold node_is_dir, v5i_is_dir; by eapply mode_excl; [|exact Hr]|]. cbn. rewrite E. by apply Hc2.
Qed.
End source.

(** ** The array as it is written *)

Section trip.
Context `{Profile} (hash : DigestAlgorithm -> list Z -> Z) (spec : WhiteoutSpec) (T : Tree) (cs : Z) (ctx : BuildContext).
Context (hash_range : forall a data, in_range 256 (hash a data)) (Hcs : 0 < cs).
Notation root := (t_node T).
Notation alg := (bc_digester ctx).

(** A tree the builder accepts. *)
Record tree_ok : Prop := {
  to_root : node_is_dir root = true /\ v5i_parent (n_inode root) = 0;
  to_keys : keys_ok (live T);
  to_names : distinct_names T;
  to_count : zlen (live T) + 2 < 2 ^ 32;
  to_fit : node_fit hash alg cs root /\ Forall (fun n => node_fit hash alg cs (strip spec n)) (live T)
}.

Context (HT : tree_ok) (E : list (Node * Z)) (Cc : gmap Z (Z * Z)) (Cn : gmap Z Z) (st : BuildState).
Context (Hinv : layout_inv spec root E Cc Cn st) (HE : E.*1 ≡ₚ live T) (Hp : placed E Cc Cn T 1).

Notation arr := (array spec root E Cc Cn).

Lemma trip_keys : keys_ok E.*1.
Proof. rewrite HE. apply HT. Qed.

Lemma trip_count : zlen E + 2 < 2 ^ 32.
Proof. pose proof (to_count HT). unfold zlen in *. rewrite <- HE, length_fmap in *. done. Qed.

Lemma arr_dir i m : arr !! i = Some m -> node_is_dir m = true ->
  exists t s, dir_at root E Cc Cn (Z.of_nat i + 1) t /\ v5i_ino (n_inode m) = Z.of_nat i + 1 /\ Cc !! (Z.of_nat i + 1) = Some (s, zlen (sorted_children t)) /\
    v5i_child_index (n_inode m) = s /\ v5i_child_count (n_inode m) = zlen (sorted_children t) /\
    v5i_nlink (n_inode m) = 2 + zlen (dir_entries s (sorted_children t)) /\
    Z.of_nat i + 2 <= s <= zlen E + 2 /\ s + zlen (sorted_children t) <= zlen E + 2 /\ zlen (dir_entries s (sorted_children t)) <= zlen (sorted_children t).
Proof.
  intros Hi Hd. destruct (array_dir spec root T E Cc Cn st eq_refl (proj1 (to_root HT)) (to_names HT) Hinv trip_keys Hp i m Hi Hd) as (t & s & Ht & H1 & H2 & H3 & H4 & H5).
  exists t, s. destruct (li_dirs _ _ _ _ _ _ Hinv _ _ _ H2) as [Hlt _]. pose proof (block_fits spec root E Cc Cn st Hinv _ t s Ht H2) as Hfit.
  rewrite length_array in Hfit. pose proof (dir_entries_bound s (sorted_children t)). unfold zlen in *. split_and!; try done; lia.
Qed.

Lemma arr_blocks_after : blocks_after arr.
Proof.
  intros i m Hi Hd. destruct (arr_dir i m Hi Hd) as (t & s & _ & _ & _ & -> & -> & _ & ? & ? & ?). pose proof trip_count. unfold zlen in *. rewrite length_array. lia.
Qed.

(** The nodes that are written. *)
Context (nodes : list Node) (Hsign : nodes = sign hash ctx nodes <$> arr).

Lemma sign_place_dir i m : arr !! i = Some m -> node_is_dir m = true ->
  exists n parent ino nlink ci cc digest, sign hash ctx nodes m = place (Z.of_nat i + 1) parent ino nlink ci cc digest n /\
    placed_ok parent ino nlink ci cc digest n /\ node_fit hash alg cs n /\ content (loaded_as cs m) = content (loaded_as cs n).
Proof.
  intros Hi Hd. destruct (arr_dir i m Hi Hd) as (t & s & Ht & H1 & H2 & H3 & H4 & H5 & H6 & H7 & H8). pose proof trip_count as Hc.
  set (dg := hash alg (node_digests (node_block (v5i_child_index (n_inode m)) (v5i_child_count (n_inode m)) nodes))).
  assert (sign hash ctx nodes m = with_inode (set_digest dg) m) as Es by (unfold sign; by rewrite Hd).
  assert (0 <= zlen (sorted_children t) /\ 0 <= zlen (dir_entries s (sorted_children t)) /\ 0 <= zlen E) as (Z1 & Z2 & Z3) by (unfold zlen; lia).
  destruct (array_entry spec root E Cc Cn i m Hi) as [[-> ->]|(j & [n p] & -> & Hj & ->)].
  - exists root, (v5i_parent (n_inode root)), 1, (v5i_nlink (n_inode (root_built root Cc Cn))), s, (zlen (sorted_children t)), dg. change (Z.of_nat 0 + 1) with 1 in *. split_and!.
    + rewrite Es. unfold root_built, finish. rewrite H2. reflexivity.
    + rewrite H5, (proj2 (to_root HT)). split; [split; lia|split; [lia|by left]|lia|intros _; lia|split; split; lia|intros _; lia| |apply hash_range]. rewrite (proj1 (to_root HT)). done.
    + apply HT.
    + unfold root_built, finish. by rewrite H2.
  - destruct (built_facts spec E Cc Cn j (n, p)) as (F1 & F2 & F3 & F4 & F5). cbn [fst snd] in *. replace (Z.of_nat (S j) + 1) with (Z.of_nat j + 2) in * by lia.
    destruct (li_blocks _ _ _ _ _ _ Hinv _ _ _ Hj) as (s' & c' & Hc' & Hb). destruct (li_dirs _ _ _ _ _ _ Hinv _ _ _ Hc') as [Hlt (np & Hep & _)].
    assert (1 <= p) as Hp1 by (destruct Hep as [[-> _]|[? _]]; lia). apply lookup_lt_Some in Hj as Hjl.
    exists (strip spec n), p, (v5i_ino (n_inode (built spec E Cc Cn j (n, p)))), (v5i_nlink (n_inode (built spec E Cc Cn j (n, p)))), s, (zlen (sorted_children t)), dg. split_and!.
    + rewrite Es. unfold built, finish. rewrite H2. reflexivity.
    + rewrite H1, H5. unfold zlen in Hc. split; [split; lia|split; [lia|right; lia]|unfold zlen in *; lia|intros _; unfold zlen in *; lia|split; split; unfold zlen in *; lia|intros _; lia| |apply hash_range].
      rewrite strip_is_dir, <- F3, Hd. done.
    + destruct (to_fit HT) as [_ Hfit]. rewrite Forall_forall in Hfit. apply Hfit. rewrite <- HE. apply list_elem_of_fmap_2 with (f := fst) (x := (n, p)). by eapply list_elem_of_lookup_2.
    + apply built_content.
Qed.

Lemma file_links j n p : E !! j = Some (n, p) -> node_is_dir n = false ->
  Cc !! (Z.of_nat j + 2) = None /\ Cn !! (Z.of_nat j + 2) = None /\
  1 <= zlen (positions E (inode_key n)) <= zlen E /\ (zlen (positions E (inode_key n)) = 1 -> head (positions E (inode_key n)) = Some (Z.of_nat j + 2)).
Proof.
  intros Hj Hd. assert (Cc !! (Z.of_nat j + 2) = None) as Hc.
  { destruct (Cc !! (Z.of_nat j + 2)) as [[s c]|] eqn:Ec; [|done]. destruct (li_dirs _ _ _ _ _ _ Hinv _ _ _ Ec) as [_ (n' & [[? _]|[_ (p' & Hp')]] & Hd')]; [lia|].
    replace (Z.to_nat (Z.of_nat j + 2 - 2)) with j in Hp' by lia. congruence. }
  split; [done|]. split.
  { destruct (Cn !! (Z.of_nat j + 2)) as [nl|] eqn:Ec; [|done]. destruct (li_nlinks _ _ _ _ _ _ Hinv _ _ Ec) as [? ?]. congruence. }
  assert (Z.of_nat j + 2 ∈ positions E (inode_key n)) as Hin by (apply elem_of_positions; by exists j, (n, p)).
  pose proof (length_positions E (inode_key n)) as Hl. destruct (positions E (inode_key n)) as [|x xs]; [by apply elem_of_nil in Hin|].
  unfold zlen. cbn [length head] in *. split; [lia|]. intros Hone. destruct xs; [|cbn in Hone; lia]. apply list_elem_of_singleton in Hin. by rewrite Hin.
Qed.

Lemma sign_place_file i m : arr !! i = Some m -> node_is_dir m = false ->
  exists n parent ino nlink ci cc digest, sign hash ctx nodes m = place (Z.of_nat i + 1) parent ino nlink ci cc digest n /\
    placed_ok parent ino nlink ci cc digest n /\ node_fit hash alg cs n /\ content (loaded_as cs m) = content (loaded_as cs n).
Proof.
  intros Hi Hd. assert (sign hash ctx nodes m = m) as -> by (unfold sign; by rewrite Hd). pose proof trip_count as Hc.
  destruct (array_entry spec root E Cc Cn i m Hi) as [[-> ->]|(j & [n p] & -> & Hj & ->)].
  { destruct (root_facts root Cc Cn) as (_ & _ & Hr & _). rewrite Hr, (proj1 (to_root HT)) in Hd. done. }
  destruct (built_facts spec E Cc Cn j (n, p)) as (F1 & F2 & F3 & _ & F5). cbn [fst snd] in *. rewrite F3 in Hd.
  destruct (file_links j n p Hj Hd) as (L1 & L2 & L3 & L4). rewrite L2 in F5. cbn [default] in F5.
  destruct (li_blocks _ _ _ _ _ _ Hinv _ _ _ Hj) as (s' & c' & Hc' & Hb). destruct (li_dirs _ _ _ _ _ _ Hinv _ _ _ Hc') as [Hlt (np & Hep & _)].
  assert (1 <= p) as Hp1 by (destruct Hep as [[-> _]|[? _]]; lia). apply lookup_lt_Some in Hj as Hjl.
  destruct (ino_entry spec E Cc Cn j (n, p) Hj) as (k & e' & Hk & _ & Hino). apply lookup_lt_Some in Hk. unfold zlen in Hc.
  assert (node_fit hash alg cs (strip spec n)) as Hfit.
  { destruct (to_fit HT) as [_ Hfit]. rewrite Forall_forall in Hfit. apply Hfit. rewrite <- HE. apply list_elem_of_fmap_2 with (f := fst) (x := (n, p)). by eapply list_elem_of_lookup_2. }
  set (i0 := n_inode (strip spec n)). pose proof (nf_wf _ _ _ _ Hfit) as (W1 & _ & _ & _ & _ & _ & _ & _ & _ & _ & _ & W12 & W13 & _).
  exists (strip spec n), p, (v5i_ino (n_inode (built spec E Cc Cn j (n, p)))), (v5i_nlink (n_inode (built spec E Cc Cn j (n, p)))), (v5i_child_index i0), (v5i_child_count i0), (v5i_digest i0).
  split_and!; [| |exact Hfit|apply built_content].
  - unfold built, finish. replace (Z.of_nat (S j) + 1) with (Z.of_nat j + 2) by lia. rewrite L1. reflexivity.
  - rewrite Hino, F5. unfold zlen in L3. split; [split; lia|split; [lia|right; lia]|unfold zlen; lia| |by split| |done|done].
    + rewrite strip_is_dir, Hd. intros [?|Hone]; [done|]. rewrite (L4 Hone) in F1. cbn in F1. lia.
    + by rewrite strip_is_dir, Hd.
Qed.

Lemma sign_place i m : arr !! i = Some m ->
  exists n parent ino nlink ci cc digest, sign hash ctx nodes m = place (Z.of_nat i + 1) parent ino nlink ci cc digest n /\
    placed_ok parent ino nlink ci cc digest n /\ node_fit hash alg cs n /\ content (loaded_as cs m) = content (loaded_as cs n).
Proof. intros Hi. destruct (node_is_dir m) eqn:Ed; [by apply sign_place_dir|by apply sign_place_file]. Qed.

Lemma nodes_lookup i m' : nodes !! i = Some m' -> exists m, arr !! i = Some m /\ m' = sign hash ctx nodes m.
Proof. rewrite Hsign at 1. rewrite list_lookup_fmap. intros (m & Hm & ->)%fmap_Some_1. by exists m. Qed.

Lemma nodes_dumpable : Forall (fun n => node_ok cs (dumped n)) nodes /\ (forall i n, nodes !! i = Some n -> n_index n = Z.of_nat i + 1).
Proof.
  assert (forall i m', nodes !! i = Some m' -> node_ok cs (dumped m') /\ n_index m' = Z.of_nat i + 1) as Hall.
  { intros i m' Hi. destruct (nodes_lookup i m' Hi) as (m & Hm & ->). destruct (sign_place i m Hm) as (n & a & b & c & d & e & f & -> & Hpl & Hfit & _).
    split; [by eapply place_node_ok|done]. }
  split; [|intros i n Hi; by apply Hall]. apply Forall_forall. intros m' (i & Hi)%list_elem_of_lookup_1. by apply (Hall i).
Qed.

(** The written image and the array differ in digests only. *)
Definition redigested (a b : InodeData) : Prop := same_node a b /\ content a = content b.

Lemma sign_redigested m : redigested (loaded_as cs m) (loaded_as cs (sign hash ctx nodes m)).
Proof. unfold sign. destruct (node_is_dir m); (split; [unfold same_node; split_and!|]); reflexivity. Qed.

Lemma image_redigested : Forall2 redigested (loaded_as cs <$> arr) (loaded_as cs <$> nodes).
Proof.
  rewrite Hsign. apply Forall2_fmap, Forall2_fmap_r, Forall_Forall2_diag, Forall_true. intros m. apply sign_redigested.
Qed.

Lemma written_image_ok : image_ok (loaded_as cs <$> nodes).
Proof.
  assert (Forall2 same_node (loaded_as cs <$> arr) (loaded_as cs <$> nodes)) as <- by (eapply Forall2_impl; [exact image_redigested|]; by intros a b [? _]).
  apply (array_image_ok spec root T E Cc Cn st); [done|by apply HT|by apply HT|done|exact trip_keys|done|by apply HT].
Qed.

(** The children of a directory in the written image. *)
Lemma written_children i m : arr !! i = Some m -> node_is_dir m = true -> exists t, dir_at root E Cc Cn (Z.of_nat i + 1) t /\ v5i_ino (n_inode m) = Z.of_nat i + 1 /\
  children_of (Z.of_nat i + 1) (loaded_as cs <$> nodes) = loaded_as cs <$> node_block (v5i_child_index (n_inode m)) (v5i_child_count (n_inode m)) nodes /\
  i_name <$> children_of (Z.of_nat i + 1) (loaded_as cs <$> nodes) = (fun c => node_name (t_node c)) <$> sorted_children t.
Proof.
  intros Hi Hd. destruct (arr_dir i m Hi Hd) as (t & s & Ht & H1 & H2 & H3 & H4 & _). exists t. split; [done|]. split; [done|].
  assert (children_of (Z.of_nat i + 1) (loaded_as cs <$> nodes) = loaded_as cs <$> node_block s (zlen (sorted_children t)) nodes) as Hch.
  { unfold node_block, zlen. rewrite Nat2Z.id, fmap_take, fmap_drop. apply filter_range. intros j x Hj. rewrite list_lookup_fmap in Hj.
    destruct (nodes !! j) as [m'|] eqn:Em; [|done]. injection Hj as <-. destruct (nodes_lookup j m' Em) as (m0 & Hm0 & ->).
    rewrite <- (block_range spec root E Cc Cn st Hinv _ t s j m0 Ht (proj2 (to_root HT)) H2 Hm0). unfold sign. by destruct (node_is_dir m0). }
  rewrite H3, H4. split; [done|].
  assert (Forall2 same_node (loaded_as cs <$> arr) (loaded_as cs <$> nodes)) as Hs by (eapply Forall2_impl; [exact image_redigested|]; by intros a b [? _]).
  rewrite <- (same_names _ _ (same_children (Z.of_nat i + 1) _ _ Hs)), (children_block spec root E Cc Cn st Hinv cs _ t s Ht (proj2 (to_root HT)) H2).
  rewrite <- list_fmap_compose. exact (block_names spec root E Cc Cn st Hinv _ t s Ht H2).
Qed.

Lemma written_signed : image_signed hash alg (loaded_as cs <$> nodes).
Proof.
  assert (forall d, d ∈ loaded_as cs <$> nodes -> exists i m, arr !! i = Some m /\ d = loaded_as cs (sign hash ctx nodes m)) as Hin.
  { intros d (m' & -> & (i & Hi)%list_elem_of_lookup_1)%list_elem_of_fmap_1. destruct (nodes_lookup i m' Hi) as (m & Hm & ->). by exists i, m. }
  split; intros d Hd Hk; destruct (Hin d Hd) as (i & m & Hm & ->).
  - assert (node_is_dir m = true) as Hdm.
    { rewrite <- (same_node_dir _ _ (proj1 (sign_redigested m))) in Hk. exact Hk. }
    destruct (written_children i m Hm Hdm) as (t & Ht & Hino & Hch & Hnames).
    assert (i_ino (loaded_as cs (sign hash ctx nodes m)) = Z.of_nat i + 1) as -> by (destruct (proj1 (sign_redigested m)) as [<- _]; exact Hino). split.
    + assert (StronglySorted (fun a b => name_cmp a b = Lt) (i_name <$> children_of (Z.of_nat i + 1) (loaded_as cs <$> nodes))) as Hs.
      { rewrite Hnames. destruct Ht as (_ & _ & _ & Hdn). inversion Hdn as [t' Hnd _]; subst. pose proof (sort_by_key_sorted _ _ Hnd) as Hs.
        fold (sorted_children t) in Hs. clear -Hs. induction Hs as [|c l _ IH Hc]; [constructor|]. rewrite fmap_cons. constructor; [done|]. by apply Forall_fmap. }
      clear -Hs. induction (children_of _ _) as [|c l IH]; [constructor|]. rewrite fmap_cons in Hs. apply StronglySorted_inv in Hs as [Hs Hc]. constructor; [by apply IH|].
      by apply Forall_fmap in Hc.
    + rewrite Hch. unfold sign. rewrite Hdm. cbn. unfold node_digests. by rewrite <- list_fmap_compose.
  - destruct (sign_place i m Hm) as (n & a & b & c & e & f & g & Es & Hpl & Hfit & _). rewrite Es in *. change (v5i_is_reg (n_inode n) = true) in Hk.
    assert (node_is_dir n = false) as Hnd by (unfold node_is_dir, v5i_is_dir; by eapply mode_excl; [|exact Hk]). destruct (pl_file _ _ _ _ _ _ _ Hpl Hnd) as [Ec Eg].
    destruct (nf_chunks _ _ _ _ Hfit) as (_ & Hcnt & _). destruct (nf_digest _ _ _ _ Hfit) as [Hdg _]. cbn. rewrite Ec, Eg. unfold zlen. rewrite length_fmap. split; [by apply Hcnt|by apply Hdg].
  - destruct (sign_place i m Hm) as (n & a & b & c & e & f & g & Es & Hpl & Hfit & _). rewrite Es in *. change (v5i_is_symlink (n_inode n) = true) in Hk.
    assert (node_is_dir n = false) as Hnd by (unfold node_is_dir, v5i_is_dir; by eapply mode_excl; [|exact Hk]). destruct (pl_file _ _ _ _ _ _ _ Hpl Hnd) as [_ Eg].
    destruct (nf_digest _ _ _ _ Hfit) as [_ Hdg]. cbn. rewrite Eg. by apply Hdg.
Qed.

(** The paths of the tree in the written image. *)
Lemma written_path names t : reaches T names t ->
  exists n, at_path (loaded_as cs <$> nodes) names n /\ content n = content (loaded_as cs (kept spec names (t_node t))) /\
    (node_is_dir (t_node t) = true -> is_dir n = true /\
       i_name <$> children_of (i_ino n) (loaded_as cs <$> nodes) ≡ₚ (fun c => node_name (t_node c)) <$> t_children t).
Proof.
  intros Hr. destruct (reaches_array spec root T E Cc Cn st eq_refl (proj1 (to_root HT)) (to_names HT) Hinv trip_keys Hp cs names t Hr) as (k & m & Hk & Hat & Hcont & Hdm & Hdir & _).
  destruct (at_path_same redigested _ _ names _ (fun a b Hab => proj1 Hab) image_redigested Hat) as (n & [Hs Hc] & Hat').
  exists n. split; [done|]. split; [congruence|]. intros Hd. rewrite Hd in Hdm. specialize (Hdir Hd). destruct (written_children k m Hk Hdm) as (t' & Ht' & Hino & _ & Hnames).
  split; [by rewrite <- (same_node_dir _ _ Hs)|]. destruct Hs as [<- _]. change (i_ino (loaded_as cs m)) with (v5i_ino (n_inode m)). rewrite Hino, Hnames.
  destruct (dir_block root E Cc Cn _ t' Ht') as (s' & Hs'). destruct (dir_block root E Cc Cn _ t Hdir) as (s & Hs2).
  rewrite <- (block_names spec root E Cc Cn st Hinv _ t' s' Ht' Hs'). pose proof Hs2 as Hs3. rewrite Hs' in Hs3. injection Hs3 as -> Hlen.
  replace (length (sorted_children t')) with (length (sorted_children t)) by (unfold zlen in Hlen; lia).
  rewrite (block_names spec root E Cc Cn st Hinv _ t s Hdir Hs2). unfold sorted_children. by rewrite sort_by_key_perm.
Qed.
End trip.

(** ** The whole way *)

Definition with_prefetch (p : Prefetch) (ctx : BuildContext) : BuildContext :=
  mkBuildContext (bc_compressor ctx) (bc_digester ctx) (bc_chunk_size ctx) (bc_explicit_uidgid ctx) (bc_estargz_ref ctx) p.

(** The context after the build: [insert_if_need] was called for every node, in the order of the
    array. *)
Definition built_ctx (st : BuildState) (ctx : BuildContext) : BuildContext :=
  with_prefetch (foldl (fun p n => insert_if_need n p) (bc_prefetch ctx) (bs_nodes st)) ctx.

Record ctx_ok (ctx : BuildContext) (blobs : RafsV5BlobTable) (flags : Z) : Prop := {
  co_chunk : is_power_of_two (bc_chunk_size ctx) = true;
  co_block : is_power_of_two (dump_chunk_size ctx) = true /\ 0x1000 <= dump_chunk_size ctx <= RAFS_MAX_CHUNK_SIZE;
  co_prefetch : prefetch_hits (bc_prefetch ctx) = [];
  co_blobs : table_built (dump_chunk_size ctx) flags blobs /\ Forall ext_blob_wf (bt_extended blobs);
  co_flags : flags_compressor flags = bc_compressor ctx /\ flags_digester flags = bc_digester ctx
}.

(** The bootstrap is smaller than 4 GiB. *)
Definition image_fits `{Profile} (hash : DigestAlgorithm -> list Z -> Z) (ctx : BuildContext) (blobs : RafsV5BlobTable) (st : BuildState) : Prop :=
  forall nodes pf, digest_nodes hash ctx (length (bs_nodes st)) (bs_nodes st) = Ok nodes ->
    get_rafsv5_prefetch_table (bc_prefetch ctx) nodes = Ok pf -> bootstrap_size blobs nodes pf < 2 ^ 32.

(** What a mounted image answers for the tree it was built from. *)
Definition mounts_tree (spec : WhiteoutSpec) (cs : Z) (T : Tree) (self : CachedSuperBlockV5) : Prop :=
  (forall names t, reaches T names t -> exists r c, cs_get_inode self RAFS_V5_ROOT_INODE = Ok r /\ resolve r names = Ok c /\
     content (ci_data c) = content (loaded_as cs (kept spec names (t_node t)))) /\
  (forall names d name rest, reaches T names d -> node_is_dir (t_node d) = true ->
     name ∉ (fun c => node_name (t_node c)) <$> t_children d -> Forall name_ok (names ++ name :: rest) ->
     ino_from_path self (path_bytes (names ++ name :: rest)) = Err ENOENT).

Lemma inode_map_size (E : list (Node * Z)) (m : gmap (Z * Z * Z) (list Z)) :
  (forall k, m !! k = match positions E k with [] => None | l => Some l end) -> (size m <= length E)%nat.
Proof.
  intros Hm. rewrite <- length_map_to_list, <- (length_fmap fst), <- (length_fmap fst E), <- (length_fmap inode_key). apply submseteq_length.
  apply NoDup_submseteq; [apply NoDup_fst_map_to_list|]. intros k ((k' & x) & -> & Hx%elem_of_map_to_list)%list_elem_of_fmap_1. cbn. rewrite Hm in Hx.
  destruct (positions E k') as [|i l] eqn:Ep; [done|]. assert (i ∈ positions E k') as (j & e & Hj & <- & _)%elem_of_positions by (rewrite Ep; left).
  apply list_elem_of_fmap_2, list_elem_of_fmap_2. by eapply list_elem_of_lookup_2.
Qed.


(** ** Witness *)

Definition trip_hash (_ : DigestAlgorithm) (data : list Z) : Z := foldl (fun h b => (31 * h + b + 7) mod 2 ^ 256) 1 data.

Lemma trip_hash_range a data : in_range 256 (trip_hash a data).
Proof.
  unfold trip_hash. assert (in_range 256 1) as H1 by (split; [apply Z.leb_le|apply Z.ltb_lt]; reflexivity). revert H1. generalize 1 as h.
  induction data as [|b data IH]; intros h Hh; [done|]. cbn [foldl]. apply IH. apply Z.mod_pos_bound. apply Z.ltb_lt. reflexivity.
Qed.

Definition trip_chunk : RafsV5ChunkInfo := mkV5Chunk 77 0 0 0x1000 0x1000 0 0 0 0 0.

Definition trip_node (path : list (list Z)) (src_ino mode size child_count : Z) (chunks : list RafsV5ChunkInfo) (symlink : option (list Z)) : Node :=
  mkNode 0 1 src_ino 0
    (mkV5Inode (trip_hash Blake3 (match symlink with Some s => s | None => digest_chunks (cc_from <$> chunks) end))
       0 0 1000 1000 0 mode size 0 0 1 0 child_count (zlen (if bool_decide (path = []) then ROOT_PATH_NAME else default [] (last path)))
       (match symlink with Some s => zlen s | None => 0 end) 0 0 42 0)
    chunks ∅ symlink Lower [] path 0.

Definition name_d : list Z := bytes_of_string "d".
Definition name_f : list Z := bytes_of_string "f".
Definition name_l : list Z := bytes_of_string "l".

Definition trip_file : Node := trip_node [name_d; name_f] 12 0x81a4 0x1000 1 [trip_chunk] None.

(** [/l] is a symlink, [/d/f] and [/f] are links of one file. *)
Definition trip_tree : Tree :=
  mkTree (trip_node [] 10 0x41ed 0 0 [] None)
    [mkTree (trip_node [name_l] 13 0xa1ff 0 0 [] (Some name_d)) [];
     mkTree (trip_node [name_f] 12 0x81a4 0x1000 1 [trip_chunk] None) [];
     mkTree (trip_node [name_d] 11 0x41ed 0 0 [] None) [mkTree trip_file []]].

Definition trip_ctx : BuildContext :=
  mkBuildContext CLz4Block Blake3 0x1000 true false (mkPrefetch PrefetchFs false [([name_d], None)] ∅).

Definition trip_blobs : RafsV5BlobTable := (BlobTable_add "blob" 0 0 0x1000 1 0x1000 0x1000 0 0x6 BlobTable_new).2.

Lemma trip_node_fit n : n ∈ t_node trip_tree :: (strip SpecNone <$> live trip_tree) -> node_fit trip_hash Blake3 0x1000 n.
Proof.
  intros Hn. repeat (apply elem_of_cons in Hn as [->|Hn]); [..|by apply elem_of_nil in Hn];
    (split; [solve_ranges|split; [reflexivity|split; [reflexivity|discriminate]]| | | | |]);
    try (split_and!; [reflexivity|split; [by intros [? ?]|discriminate]|discriminate]);
    try (split_and!; [reflexivity|by split; [|eexists]|discriminate]);
    try (split_and!; [reflexivity|constructor|reflexivity]).
  all: try (split_and!; [repeat (constructor; [solve_ranges|]); constructor|reflexivity|]; intros; first [discriminate|reflexivity]).
  all: try (split_and!; [repeat (constructor; [solve_ranges|]); constructor|intros; first [discriminate|reflexivity]|intros; first [discriminate|reflexivity]]).
  all: try (intros; first [discriminate|split_and!; [reflexivity|reflexivity|right; reflexivity|left; reflexivity]]).
  all: split; intros; first [discriminate|reflexivity].
Qed.

Lemma trip_tree_ok : tree_ok trip_hash SpecNone trip_tree 0x1000 trip_ctx.
Proof.
  split; [by split| | |reflexivity|].
  - intros a Ha Hd. repeat (apply elem_of_cons in Ha as [->|Ha]); [..|by apply elem_of_nil in Ha]; first [discriminate Hd|apply Nat.leb_le; vm_compute; reflexivity].
  - constructor; [apply (bool_decide_unpack _); vm_compute; exact I|]. intros c Hc Hd.
    repeat (apply elem_of_cons in Hc as [->|Hc]); [discriminate|discriminate| |by apply elem_of_nil in Hc].
    constructor; [apply NoDup_singleton|]. intros c Hc' Hd'. apply list_elem_of_singleton in Hc' as ->. discriminate.
  - split; [apply trip_node_fit; by left|]. apply Forall_forall. intros n Hn. apply trip_node_fit. right. by apply list_elem_of_fmap_2.
Qed.

Lemma trip_ctx_ok : ctx_ok trip_ctx trip_blobs 0x6.
Proof.
  split; [reflexivity|by split|reflexivity| |by split]. split.
  - apply (built_add 0x1000 0x6 BlobTable_new "blob" 0 0 1 0x1000 0x1000); [constructor| |by split|by split|reflexivity].
    split_and!; [discriminate|repeat (constructor; [discriminate|]); constructor|reflexivity].
  - constructor; [solve_ranges|constructor].
Qed.

