(* ===== verification/RafsV6Inode.v ===== *)
(** On-disk inodes, directory entries and chunk addresses of RAFS v6
    ([rafs/src/metadata/layout/v6.rs]; [new_v6_inode] of [rafs/src/metadata/inode.rs];
    [v6_set_inode_compact] of [src/bin/nydus-image/core/node.rs]).

    The structures are those of EROFS. An inode has a compact form of 32 bytes and an extended
    one of 64; the trait over both is a class, and its laws say which attributes survive being
    set, stored and read. *)
From S2P Require Import Prelude Utils LittleEndian ChunkInfo Device RafsLayout RafsV5 RafsBlobTable RafsV5Inode Overlay.

Definition EROFS_INODE_SLOT_SIZE : Z := 32.
Definition EROFS_BLOCK_SIZE : Z := 4096.
Definition EROFS_BLOCK_BITS : Z := 12.
Definition EROFS_INODE_SLOT_BITS : Z := 5.
Definition EROFS_INODE_FLAT_PLAIN : Z := 0.
Definition EROFS_INODE_FLAT_INLINE : Z := 2.
Definition EROFS_INODE_CHUNK_BASED : Z := 4.
Definition EROFS_I_VERSION_BIT : Z := 0.
Definition EROFS_I_VERSION_BITS : Z := 1.
Definition EROFS_I_DATALAYOUT_BITS : Z := 3.
Definition EROFS_INODE_LAYOUT_COMPACT : Z := 0.
Definition EROFS_INODE_LAYOUT_EXTENDED : Z := 1.
Definition EROFS_CHUNK_FORMAT_INDEXES_FLAG : Z := 0x20.
Definition EROFS_CHUNK_FORMAT_SIZE_MASK : Z := 0x1f.

(** ** Inodes *)

(** The trait; [oi_bytes] is what [store] writes, [oi_of_bytes] the inode found in such bytes. *)
Class RafsV6OndiskInode (I : Type) := mkOndisk {
  oi_set_size : Z -> I -> I;
  oi_set_ino : Z -> I -> I;
  oi_set_nlink : Z -> I -> I;
  oi_set_mode : Z -> I -> I;
  oi_set_u : Z -> I -> I;
  oi_set_uidgid : Z -> Z -> I -> I;
  oi_set_mtime : Z -> Z -> I -> I;
  oi_set_rdev : Z -> I -> I;
  oi_set_xattr_inline_count : Z -> I -> I;
  oi_set_data_layout : Z -> I -> I;
  oi_format : I -> Z;
  oi_mode : I -> Z;
  oi_size : I -> Z;
  oi_union : I -> Z;
  oi_ino : I -> Z;
  oi_ugid : I -> Z * Z;
  oi_mtime_s_ns : I -> Z * Z;
  oi_nlink : I -> Z;
  oi_rdev : I -> Z;
  oi_xattr_inline_count : I -> Z;
  oi_bytes : I -> list Z
}.

Record RafsV6InodeCompact := mkCompact {
  c_format : Z;
  c_xattr_icount : Z;
  c_mode : Z;
  c_nlink : Z;
  c_size : Z;
  c_reserved : Z;
  c_u : Z;
  c_ino : Z;
  c_uid : Z;
  c_gid : Z;
  c_reserved2 : Z
}.

Definition RafsV6InodeCompact_new : RafsV6InodeCompact :=
  mkCompact (Z.lor EROFS_INODE_LAYOUT_COMPACT (Z.shiftl EROFS_INODE_FLAT_PLAIN 1)) 0 0 0 0 0 0 0 0 0 0.

Definition compact_bytes (i : RafsV6InodeCompact) : list Z :=
  le_bytes 2 (c_format i) ++ le_bytes 2 (c_xattr_icount i) ++ le_bytes 2 (c_mode i) ++ le_bytes 2 (c_nlink i) ++
  le_bytes 4 (c_size i) ++ le_bytes 4 (c_reserved i) ++ le_bytes 4 (c_u i) ++ le_bytes 4 (c_ino i) ++
  le_bytes 2 (c_uid i) ++ le_bytes 2 (c_gid i) ++ le_bytes 4 (c_reserved2 i).

Definition compact_of_bytes (b : list Z) : RafsV6InodeCompact :=
  mkCompact (get_le 0 2 b) (get_le 2 2 b) (get_le 4 2 b) (get_le 6 2 b) (get_le 8 4 b) (get_le 12 4 b) (get_le 16 4 b)
    (get_le 20 4 b) (get_le 24 2 b) (get_le 26 2 b) (get_le 28 4 b).

#[export] Instance Compact_inode : RafsV6OndiskInode RafsV6InodeCompact := {|
  oi_set_size := fun size i => mkCompact (c_format i) (c_xattr_icount i) (c_mode i) (c_nlink i) (wrap 32 size) (c_reserved i) (c_u i) (c_ino i) (c_uid i) (c_gid i) (c_reserved2 i);
  oi_set_ino := fun ino i => mkCompact (c_format i) (c_xattr_icount i) (c_mode i) (c_nlink i) (c_size i) (c_reserved i) (c_u i) ino (c_uid i) (c_gid i) (c_reserved2 i);
  oi_set_nlink := fun nlinks i => mkCompact (c_format i) (c_xattr_icount i) (c_mode i) (wrap 16 nlinks) (c_size i) (c_reserved i) (c_u i) (c_ino i) (c_uid i) (c_gid i) (c_reserved2 i);
  oi_set_mode := fun mode i => mkCompact (c_format i) (c_xattr_icount i) mode (c_nlink i) (c_size i) (c_reserved i) (c_u i) (c_ino i) (c_uid i) (c_gid i) (c_reserved2 i);
  oi_set_u := fun u i => mkCompact (c_format i) (c_xattr_icount i) (c_mode i) (c_nlink i) (c_size i) (c_reserved i) u (c_ino i) (c_uid i) (c_gid i) (c_reserved2 i);
  oi_set_uidgid := fun uid gid i => mkCompact (c_format i) (c_xattr_icount i) (c_mode i) (c_nlink i) (c_size i) (c_reserved i) (c_u i) (c_ino i) (wrap 16 uid) (wrap 16 gid) (c_reserved2 i);
  oi_set_mtime := fun _sec _nsec i => i;
  oi_set_rdev := fun _rdev i => i;
  oi_set_xattr_inline_count := fun count i => mkCompact (c_format i) count (c_mode i) (c_nlink i) (c_size i) (c_reserved i) (c_u i) (c_ino i) (c_uid i) (c_gid i) (c_reserved2 i);
  oi_set_data_layout := fun data_layout i => mkCompact (Z.lor EROFS_INODE_LAYOUT_COMPACT (wrap 16 (Z.shiftl data_layout 1))) (c_xattr_icount i) (c_mode i) (c_nlink i) (c_size i) (c_reserved i) (c_u i) (c_ino i) (c_uid i) (c_gid i) (c_reserved2 i);
  oi_format := c_format;
  oi_mode := c_mode;
  oi_size := c_size;
  oi_union := c_u;
  oi_ino := c_ino;
  oi_ugid := fun i => (c_uid i, c_gid i);
  oi_mtime_s_ns := fun _ => (0, 0);
  oi_nlink := c_nlink;
  oi_rdev := fun _ => 0;
  oi_xattr_inline_count := c_xattr_icount;
  oi_bytes := compact_bytes
|}.

Record RafsV6InodeExtended := mkExtended {
  e_format : Z;
  e_xattr_icount : Z;
  e_mode : Z;
  e_reserved : Z;
  e_size : Z;
  e_u : Z;
  e_ino : Z;
  e_uid : Z;
  e_gid : Z;
  e_mtime : Z;
  e_mtime_nsec : Z;
  e_nlink : Z;
  e_reserved2 : Z
}.

Definition RafsV6InodeExtended_new : RafsV6InodeExtended :=
  mkExtended (Z.lor EROFS_INODE_LAYOUT_EXTENDED (Z.shiftl EROFS_INODE_FLAT_PLAIN 1)) 0 0 0 0 0 0 0 0 0 0 0 0.

Definition extended_bytes (i : RafsV6InodeExtended) : list Z :=
  le_bytes 2 (e_format i) ++ le_bytes 2 (e_xattr_icount i) ++ le_bytes 2 (e_mode i) ++ le_bytes 2 (e_reserved i) ++
  le_bytes 8 (e_size i) ++ le_bytes 4 (e_u i) ++ le_bytes 4 (e_ino i) ++ le_bytes 4 (e_uid i) ++ le_bytes 4 (e_gid i) ++
  le_bytes 8 (e_mtime i) ++ le_bytes 4 (e_mtime_nsec i) ++ le_bytes 4 (e_nlink i) ++ le_bytes 16 (e_reserved2 i).

Definition extended_of_bytes (b : list Z) : RafsV6InodeExtended :=
  mkExtended (get_le 0 2 b) (get_le 2 2 b) (get_le 4 2 b) (get_le 6 2 b) (get_le 8 8 b) (get_le 16 4 b) (get_le 20 4 b)
    (get_le 24 4 b) (get_le 28 4 b) (get_le 32 8 b) (get_le 40 4 b) (get_le 44 4 b) (get_le 48 16 b).

#[export] Instance Extended_inode : RafsV6OndiskInode RafsV6InodeExtended := {|
  oi_set_size := fun size i => mkExtended (e_format i) (e_xattr_icount i) (e_mode i) (e_reserved i) size (e_u i) (e_ino i) (e_uid i) (e_gid i) (e_mtime i) (e_mtime_nsec i) (e_nlink i) (e_reserved2 i);
  oi_set_ino := fun ino i => mkExtended (e_format i) (e_xattr_icount i) (e_mode i) (e_reserved i) (e_size i) (e_u i) ino (e_uid i) (e_gid i) (e_mtime i) (e_mtime_nsec i) (e_nlink i) (e_reserved2 i);
  oi_set_nlink := fun nlinks i => mkExtended (e_format i) (e_xattr_icount i) (e_mode i) (e_reserved i) (e_size i) (e_u i) (e_ino i) (e_uid i) (e_gid i) (e_mtime i) (e_mtime_nsec i) nlinks (e_reserved2 i);
  oi_set_mode := fun mode i => mkExtended (e_format i) (e_xattr_icount i) mode (e_reserved i) (e_size i) (e_u i) (e_ino i) (e_uid i) (e_gid i) (e_mtime i) (e_mtime_nsec i) (e_nlink i) (e_reserved2 i);
  oi_set_u := fun u i => mkExtended (e_format i) (e_xattr_icount i) (e_mode i) (e_reserved i) (e_size i) u (e_ino i) (e_uid i) (e_gid i) (e_mtime i) (e_mtime_nsec i) (e_nlink i) (e_reserved2 i);
  oi_set_uidgid := fun uid gid i => mkExtended (e_format i) (e_xattr_icount i) (e_mode i) (e_reserved i) (e_size i) (e_u i) (e_ino i) uid gid (e_mtime i) (e_mtime_nsec i) (e_nlink i) (e_reserved2 i);
  oi_set_mtime := fun sec nsec i => mkExtended (e_format i) (e_xattr_icount i) (e_mode i) (e_reserved i) (e_size i) (e_u i) (e_ino i) (e_uid i) (e_gid i) sec nsec (e_nlink i) (e_reserved2 i);
  oi_set_rdev := fun rdev i => mkExtended (e_format i) (e_xattr_icount i) (e_mode i) (e_reserved i) (e_size i) rdev (e_ino i) (e_uid i) (e_gid i) (e_mtime i) (e_mtime_nsec i) (e_nlink i) (e_reserved2 i);
  oi_set_xattr_inline_count := fun count i => mkExtended (e_format i) count (e_mode i) (e_reserved i) (e_size i) (e_u i) (e_ino i) (e_uid i) (e_gid i) (e_mtime i) (e_mtime_nsec i) (e_nlink i) (e_reserved2 i);
  oi_set_data_layout := fun data_layout i => mkExtended (Z.lor EROFS_INODE_LAYOUT_EXTENDED (wrap 16 (Z.shiftl data_layout 1))) (e_xattr_icount i) (e_mode i) (e_reserved i) (e_size i) (e_u i) (e_ino i) (e_uid i) (e_gid i) (e_mtime i) (e_mtime_nsec i) (e_nlink i) (e_reserved2 i);
  oi_format := e_format;
  oi_mode := e_mode;
  oi_size := e_size;
  oi_union := e_u;
  oi_ino := e_ino;
  oi_ugid := fun i => (e_uid i, e_gid i);
  oi_mtime_s_ns := fun i => (e_mtime i, e_mtime_nsec i);
  oi_nlink := e_nlink;
  oi_rdev := e_u;
  oi_xattr_inline_count := e_xattr_icount;
  oi_bytes := extended_bytes
|}.

(** A [dyn RafsV6OndiskInode]: a value of one of the two types, with the methods of its type. *)
Inductive DiskInode := DCompact (i : RafsV6InodeCompact) | DExtended (i : RafsV6InodeExtended).

Definition dyn_map (f : RafsV6InodeCompact -> RafsV6InodeCompact) (g : RafsV6InodeExtended -> RafsV6InodeExtended) (d : DiskInode) : DiskInode :=
  match d with DCompact i => DCompact (f i) | DExtended i => DExtended (g i) end.
Definition dyn_get {A} (f : RafsV6InodeCompact -> A) (g : RafsV6InodeExtended -> A) (d : DiskInode) : A :=
  match d with DCompact i => f i | DExtended i => g i end.

#[export] Instance Dyn_inode : RafsV6OndiskInode DiskInode := {|
  oi_set_size := fun x => dyn_map (oi_set_size x) (oi_set_size x);
  oi_set_ino := fun x => dyn_map (oi_set_ino x) (oi_set_ino x);
  oi_set_nlink := fun x => dyn_map (oi_set_nlink x) (oi_set_nlink x);
  oi_set_mode := fun x => dyn_map (oi_set_mode x) (oi_set_mode x);
  oi_set_u := fun x => dyn_map (oi_set_u x) (oi_set_u x);
  oi_set_uidgid := fun x y => dyn_map (oi_set_uidgid x y) (oi_set_uidgid x y);
  oi_set_mtime := fun x y => dyn_map (oi_set_mtime x y) (oi_set_mtime x y);
  oi_set_rdev := fun x => dyn_map (oi_set_rdev x) (oi_set_rdev x);
  oi_set_xattr_inline_count := fun x => dyn_map (oi_set_xattr_inline_count x) (oi_set_xattr_inline_count x);
  oi_set_data_layout := fun x => dyn_map (oi_set_data_layout x) (oi_set_data_layout x);
  oi_format := dyn_get oi_format oi_format;
  oi_mode := dyn_get oi_mode oi_mode;
  oi_size := dyn_get oi_size oi_size;
  oi_union := dyn_get oi_union oi_union;
  oi_ino := dyn_get oi_ino oi_ino;
  oi_ugid := dyn_get oi_ugid oi_ugid;
  oi_mtime_s_ns := dyn_get oi_mtime_s_ns oi_mtime_s_ns;
  oi_nlink := dyn_get oi_nlink oi_nlink;
  oi_rdev := dyn_get oi_rdev oi_rdev;
  oi_xattr_inline_count := dyn_get oi_xattr_inline_count oi_xattr_inline_count;
  oi_bytes := dyn_get oi_bytes oi_bytes
|}.

(** [InodeWrapper::V6] holds a [RafsV5Inode]. *)
Definition is_special (i : RafsV5Inode) : bool := v5i_is_chrdev i || v5i_is_blkdev i || v5i_is_fifo i || v5i_is_sock i.

Definition new_v6_inode (inode : RafsV5Inode) (datalayout xattr_inline_count : Z) (compact : bool) : io DiskInode :=
  let i := if compact then DCompact RafsV6InodeCompact_new else DExtended RafsV6InodeExtended_new in
  _ ← rassert (v5i_ino inode <=? 2 ^ 31 - 1);
  let i := oi_set_ino (wrap 32 (v5i_ino inode)) i in
  let i := oi_set_size (v5i_size inode) i in
  let i := oi_set_uidgid (v5i_uid inode) (v5i_gid inode) i in
  let i := oi_set_mtime (v5i_mtime inode) (v5i_mtime_nsec inode) i in
  let i := oi_set_nlink (v5i_nlink inode) i in
  let i := oi_set_mode (wrap 16 (v5i_mode inode)) i in
  let i := oi_set_data_layout datalayout i in
  let i := oi_set_xattr_inline_count xattr_inline_count i in
  Ok (if is_special inode then oi_set_rdev (v5i_rdev inode) i else i).

(** [Path::extension] of a file name: what follows its last dot, unless the dot leads the name. *)
Fixpoint rsplit_dot (rev_name after : list Z) : option (list Z * list Z) :=
  match rev_name with
  | [] => None
  | b :: rest => if b =? 46 then Some (rev rest, after) else rsplit_dot rest (b :: after)
  end.

Definition extension (name : list Z) : option (list Z) :=
  if bool_decide (name = bytes_of_string "..") then None
  else match rsplit_dot (rev name) [] with
       | Some (before, after) => if bool_decide (before = []) then None else Some after
       | None => None
       end.

Definition v6_set_inode_compact (v6_force_extended_inode : bool) (n : Node) : bool :=
  if v6_force_extended_inode
     || (2 ^ 16 - 1 <? v5i_uid (n_inode n)) || (2 ^ 16 - 1 <? v5i_gid (n_inode n))
     || (2 ^ 16 - 1 <? v5i_nlink (n_inode n)) || (2 ^ 32 - 1 <? v5i_size (n_inode n))
     || bool_decide ((last (n_path n) ≫= extension) = Some (bytes_of_string "pyc"))
  then false else true.

(** ** Directory entries *)

Record RafsV6Dirent := mkDirent { de_nid : Z; de_nameoff : Z; de_file_type : Z; de_reserved : Z }.

Definition RafsV6Dirent_new (nid nameoff file_type : Z) : RafsV6Dirent := mkDirent nid nameoff file_type 0.

Definition dirent_bytes (d : RafsV6Dirent) : list Z :=
  le_bytes 8 (de_nid d) ++ le_bytes 2 (de_nameoff d) ++ le_bytes 1 (de_file_type d) ++ le_bytes 1 (de_reserved d).

Definition dirent_of_bytes (b : list Z) : RafsV6Dirent :=
  mkDirent (get_le 0 8 b) (get_le 8 2 b) (get_le 10 1 b) (get_le 11 1 b).

(** The numbers of [EROFS_FILE_TYPE]. *)
Definition file_type (mode : Z) : Z :=
  if mode_is S_IFREG mode then 1 else if mode_is S_IFDIR mode then 2 else if mode_is S_IFCHR mode then 3
  else if mode_is S_IFBLK mode then 4 else if mode_is S_IFIFO mode then 5 else if mode_is S_IFSOCK mode then 6
  else if mode_is S_IFLNK mode then 7 else 0.

Definition set_name_offset (offset : Z) (d : RafsV6Dirent) : io RafsV6Dirent :=
  _ ← rassert (offset <? EROFS_BLOCK_SIZE);
  Ok (mkDirent (de_nid d) offset (de_file_type d) (de_reserved d)).

(** ** Chunks *)

Record RafsV6InodeChunkHeader := mkChunkHeader { ch_format : Z; ch_reserved : Z }.

(** [trailing_zeros] of a power of two is its binary logarithm. *)
Definition ChunkHeader_new (chunk_size : Z) : io RafsV6InodeChunkHeader :=
  _ ← rassert (is_power_of_two chunk_size);
  let chunk_bits := Z.log2 chunk_size in
  _ ← rassert (EROFS_BLOCK_BITS <=? chunk_bits);
  let chunk_bits := chunk_bits - EROFS_BLOCK_BITS in
  _ ← rassert (chunk_bits <=? EROFS_CHUNK_FORMAT_SIZE_MASK);
  Ok (mkChunkHeader (Z.lor EROFS_CHUNK_FORMAT_INDEXES_FLAG chunk_bits) 0).

Definition ChunkHeader_to_u32 (h : RafsV6InodeChunkHeader) : Z := Z.lor (ch_format h) (Z.shiftl (ch_reserved h) 16).
Definition ChunkHeader_from_u32 (val : Z) : RafsV6InodeChunkHeader := mkChunkHeader (wrap 16 val) (wrap 16 (Z.shiftr val 16)).

Record RafsV6InodeChunkAddr := mkChunkAddr { ca_blob_addr_lo : Z; ca_blob_addr_hi : Z; ca_blk_addr : Z }.

Definition ChunkAddr_new : RafsV6InodeChunkAddr := mkChunkAddr 0 0 0.

Definition ca_blob_index `{Profile} (c : RafsV6InodeChunkAddr) : io Z := usub 32 (Z.land (ca_blob_addr_hi c) 0xff) 1.

Definition ca_set_blob_index (blob_idx : Z) (c : RafsV6InodeChunkAddr) : io RafsV6InodeChunkAddr :=
  _ ← rassert (blob_idx <? u8_MAX);
  let val := Z.land (ca_blob_addr_hi c) 0xff00 in
  Ok (mkChunkAddr (ca_blob_addr_lo c) (Z.lor val (wrap 16 (blob_idx + 1))) (ca_blk_addr c)).

Definition ca_blob_ci_index (c : RafsV6InodeChunkAddr) : Z :=
  let val := Z.shiftr (ca_blob_addr_hi c) 8 in
  Z.lor (wrap 32 (Z.shiftl val 16)) (ca_blob_addr_lo c).

Definition ca_set_blob_ci_index (ci_index : Z) (c : RafsV6InodeChunkAddr) : io RafsV6InodeChunkAddr :=
  _ ← rassert (ci_index <=? 0xffffff);
  let val := Z.lor (Z.land (wrap 16 (Z.shiftr ci_index 8)) 0xff00) (Z.land (ca_blob_addr_hi c) 0xff) in
  Ok (mkChunkAddr (wrap 16 ci_index) val (ca_blk_addr c)).

Definition ca_set_block_addr (addr : Z) (c : RafsV6InodeChunkAddr) : RafsV6InodeChunkAddr :=
  mkChunkAddr (ca_blob_addr_lo c) (ca_blob_addr_hi c) addr.

Definition ca_validate (max_blob_index : Z) (c : RafsV6InodeChunkAddr) : bool :=
  let blob_idx := Z.land (ca_blob_addr_hi c) 0xff in (0 <? blob_idx) && (blob_idx - 1 <=? max_blob_index).

Definition chunk_addr_bytes (c : RafsV6InodeChunkAddr) : list Z :=
  le_bytes 2 (ca_blob_addr_lo c) ++ le_bytes 2 (ca_blob_addr_hi c) ++ le_bytes 4 (ca_blk_addr c).

Definition chunk_addr_of_bytes (b : list Z) : RafsV6InodeChunkAddr :=
  mkChunkAddr (get_le 0 2 b) (get_le 2 2 b) (get_le 4 4 b).

Definition align_offset `{Profile} (offset aligned_size : Z) : io Z := round_up offset aligned_size.

Definition calculate_nid `{Profile} (offset meta_size : Z) : io Z :=
  d ← usub 64 offset meta_size; Ok (Z.shiftr d EROFS_INODE_SLOT_BITS).

(** ** Reading inodes back *)

Definition compact_wf (i : RafsV6InodeCompact) : Prop :=
  in_range 16 (c_format i) /\ in_range 16 (c_xattr_icount i) /\ in_range 16 (c_mode i) /\ in_range 16 (c_nlink i) /\
  in_range 32 (c_size i) /\ in_range 32 (c_reserved i) /\ in_range 32 (c_u i) /\ in_range 32 (c_ino i) /\
  in_range 16 (c_uid i) /\ in_range 16 (c_gid i) /\ in_range 32 (c_reserved2 i).

Definition extended_wf (i : RafsV6InodeExtended) : Prop :=
  in_range 16 (e_format i) /\ in_range 16 (e_xattr_icount i) /\ in_range 16 (e_mode i) /\ in_range 16 (e_reserved i) /\
  in_range 64 (e_size i) /\ in_range 32 (e_u i) /\ in_range 32 (e_ino i) /\ in_range 32 (e_uid i) /\ in_range 32 (e_gid i) /\
  in_range 64 (e_mtime i) /\ in_range 32 (e_mtime_nsec i) /\ in_range 32 (e_nlink i) /\ in_range 128 (e_reserved2 i).

Lemma compact_roundtrip i : compact_wf i -> compact_of_bytes (compact_bytes i) = i.
Proof.
  intros (H1 & H2 & H3 & H4 & H5 & H6 & H7 & H8 & H9 & H10 & H11). unfold compact_of_bytes, compact_bytes.
  rewrite <- (app_nil_r (le_bytes 4 (c_reserved2 i))). read_fields. by destruct i.
Qed.

Lemma extended_roundtrip i : extended_wf i -> extended_of_bytes (extended_bytes i) = i.
Proof.
  intros (H1 & H2 & H3 & H4 & H5 & H6 & H7 & H8 & H9 & H10 & H11 & H12 & H13). unfold extended_of_bytes, extended_bytes.
  rewrite <- (app_nil_r (le_bytes 16 (e_reserved2 i))). read_fields. by destruct i.
Qed.

Lemma length_compact_bytes i : length (compact_bytes i) = 32%nat.
Proof. unfold compact_bytes. by rewrite !length_app, !length_le_bytes. Qed.

Lemma length_extended_bytes i : length (extended_bytes i) = 64%nat.
Proof. unfold extended_bytes. by rewrite !length_app, !length_le_bytes. Qed.

(** An inode that fits its format, and says which one it is. *)
Definition disk_wf (d : DiskInode) : Prop :=
  match d with
  | DCompact i => compact_wf i /\ Z.land (c_format i) 1 = 0
  | DExtended i => extended_wf i /\ Z.land (e_format i) 1 = 1
  end.

Definition layout_ok (l : Z) : Prop := l = EROFS_INODE_FLAT_PLAIN \/ l = EROFS_INODE_FLAT_INLINE \/ l = EROFS_INODE_CHUNK_BASED.

(** What [v6_set_inode_compact] checks before it chooses the compact form. *)
Definition compact_fits (i : RafsV5Inode) : Prop :=
  in_range 16 (v5i_uid i) /\ in_range 16 (v5i_gid i) /\ in_range 16 (v5i_nlink i) /\ in_range 32 (v5i_size i).

Lemma v6_set_inode_compact_fits force n : v5i_wf (n_inode n) -> v6_set_inode_compact force n = true -> compact_fits (n_inode n).
Proof.
  intros Hw Hc. unfold v6_set_inode_compact in Hc. destruct (_ || _) eqn:E in Hc; [done|]. rewrite !orb_false_iff in E. destruct E as (((((_ & H1) & H2) & H3) & H4) & _).
  unfold v5i_wf, compact_fits, in_range in *. lia.
Qed.

(** The attributes an on-disk inode has of the inode it was made of. A compact inode has no times
    and no device number. *)
Record has_attrs (d : DiskInode) (i : RafsV5Inode) (layout xattrs : Z) (compact : bool) : Prop := mkHasAttrs {
  ha_wf : disk_wf d;
  ha_format : oi_format d = (if compact then 0 else 1) + layout * 2;
  ha_compact : (if compact then exists c, d = DCompact c else exists e, d = DExtended e);
  ha_size : oi_size d = v5i_size i;
  ha_mode : oi_mode d = v5i_mode i;
  ha_ino : oi_ino d = v5i_ino i;
  ha_nlink : oi_nlink d = v5i_nlink i;
  ha_ugid : oi_ugid d = (v5i_uid i, v5i_gid i);
  ha_xattrs : oi_xattr_inline_count d = xattrs;
  ha_mtime : compact = false -> oi_mtime_s_ns d = (v5i_mtime i, v5i_mtime_nsec i)
}.

(** The inodes [new_v6_inode] makes. *)
Definition compact_of (i : RafsV5Inode) (layout xattrs : Z) : RafsV6InodeCompact :=
  mkCompact (layout * 2) xattrs (v5i_mode i) (v5i_nlink i) (v5i_size i) 0 0 (v5i_ino i) (v5i_uid i) (v5i_gid i) 0.
Definition extended_of (i : RafsV5Inode) (layout xattrs : Z) : RafsV6InodeExtended :=
  mkExtended (1 + layout * 2) xattrs (v5i_mode i) 0 (v5i_size i) (if is_special i then v5i_rdev i else 0) (v5i_ino i) (v5i_uid i) (v5i_gid i)
    (v5i_mtime i) (v5i_mtime_nsec i) (v5i_nlink i) 0.
Definition disk_of (i : RafsV5Inode) (layout xattrs : Z) (compact : bool) : DiskInode :=
  if compact then DCompact (compact_of i layout xattrs) else DExtended (extended_of i layout xattrs).

Lemma new_v6_inode_run i layout xattrs compact : v5i_wf i -> v5i_ino i < 2 ^ 31 -> in_range 16 (v5i_mode i) -> layout_ok layout ->
  (compact = true -> compact_fits i) -> new_v6_inode i layout xattrs compact = Ok (disk_of i layout xattrs compact).
Proof.
  intros Hw Hino Hm Hl Hc. assert (0 <= v5i_ino i) by (unfold v5i_wf, in_range in Hw; lia).
  unfold new_v6_inode. rewrite (proj2 (Z.leb_le _ _)) by lia. cbn [rassert mbind outcome_bind].
  rewrite (wrap_small 32 (v5i_ino i)), (wrap_small 16 (v5i_mode i)) by (unfold in_range in *; lia). unfold disk_of, compact_of, extended_of.
  assert (Z.lor EROFS_INODE_LAYOUT_COMPACT (wrap 16 (Z.shiftl layout 1)) = layout * 2 /\ Z.lor EROFS_INODE_LAYOUT_EXTENDED (wrap 16 (Z.shiftl layout 1)) = 1 + layout * 2) as [F1 F2] by (destruct Hl as [->|[->| ->]]; done).
  destruct compact.
  - destruct (Hc eq_refl) as (C1 & C2 & C3 & C4).
    destruct (is_special i); cbn -[wrap Z.shiftl Z.lor]; rewrite F1, (wrap_small 16 (v5i_uid i)), (wrap_small 16 (v5i_gid i)), (wrap_small 16 (v5i_nlink i)), (wrap_small 32 (v5i_size i)) by done; done.
  - destruct (is_special i); cbn -[wrap Z.shiftl Z.lor]; rewrite F2; done.
Qed.

Lemma disk_of_attrs i layout xattrs compact u : v5i_wf i -> v5i_ino i < 2 ^ 31 -> in_range 16 (v5i_mode i) -> layout_ok layout ->
  in_range 16 xattrs -> (compact = true -> compact_fits i) -> in_range 32 u ->
  has_attrs (oi_set_u u (disk_of i layout xattrs compact)) i layout xattrs compact /\ has_attrs (disk_of i layout xattrs compact) i layout xattrs compact.
Proof.
  intros Hw Hino Hm Hl Hx Hc Hu. assert (0 <= layout <= 4) as Hlr by (destruct Hl as [->|[->| ->]]; done).
  assert (Z.land (layout * 2) 1 = 0 /\ Z.land (1 + layout * 2) 1 = 1) as [L1 L2] by (destruct Hl as [->|[->| ->]]; done).
  assert (in_range 32 (v5i_rdev i)) by (unfold v5i_wf in Hw; tauto).
  destruct compact; [destruct (Hc eq_refl) as (C1 & C2 & C3 & C4)|]; split; constructor; try done; try by eexists.
  all: split; [|done]; unfold compact_wf, extended_wf, v5i_wf in *; cbn; try destruct (is_special i); unfold in_range in *; lia.
Qed.

(** ** Chunk addresses *)

Definition chunk_addr (blob_index ci_index blk : Z) : RafsV6InodeChunkAddr :=
  mkChunkAddr (wrap 16 ci_index) (Z.lor (Z.land (wrap 16 (Z.shiftr ci_index 8)) 0xff00) (blob_index + 1)) blk.

Lemma chunk_addr_set blob_index ci_index blk : 0 <= blob_index < u8_MAX -> 0 <= ci_index <= 0xffffff ->
  (a ← ca_set_blob_index blob_index ChunkAddr_new; a ← ca_set_blob_ci_index ci_index a; Ok (ca_set_block_addr blk a)) = Ok (chunk_addr blob_index ci_index blk).
Proof.
  unfold u8_MAX. intros Hb Hc. unfold ca_set_blob_index, u8_MAX. rewrite (proj2 (Z.ltb_lt _ _)) by lia. cbn [rassert mbind outcome_bind].
  unfold ca_set_blob_ci_index. rewrite (proj2 (Z.leb_le _ _)) by lia. cbn [rassert mbind outcome_bind ca_blob_addr_hi ca_blob_addr_lo ca_blk_addr ca_set_block_addr ChunkAddr_new].
  unfold chunk_addr. do 3 f_equal. rewrite (wrap_small 16 (blob_index + 1)) by (unfold in_range; lia). change (Z.land 0 0xff00) with 0. rewrite Z.lor_0_l.
  change 0xff with (Z.ones 8). rewrite Z.land_ones, Z.mod_small by lia. done.
Qed.

Lemma chunk_addr_get `{Profile} blob_index ci_index blk : 0 <= blob_index < u8_MAX -> 0 <= ci_index <= 0xffffff -> let a := chunk_addr blob_index ci_index blk in
  ca_blob_index a = Ok blob_index /\ ca_blob_ci_index a = ci_index /\ ca_blk_addr a = blk /\ in_range 16 (ca_blob_addr_lo a) /\ in_range 16 (ca_blob_addr_hi a) /\
  forall max, ca_validate max a = (blob_index <=? max).
Proof.
  unfold u8_MAX. intros Hb Hc. cbv zeta. unfold ca_blob_index, ca_blob_ci_index, ca_validate, chunk_addr. cbn [ca_blob_addr_hi ca_blob_addr_lo ca_blk_addr].
  set (b := blob_index + 1). assert (in_range 8 b) as Hb8 by (unfold in_range, b; lia). assert (in_range 24 ci_index) as Hc24 by (unfold in_range; lia).
  assert (Z.land (Z.lor (Z.land (wrap 16 (Z.shiftr ci_index 8)) 0xff00) b) 0xff = b) as Hlow.
  { change 0xff00 with (Z.shiftl (Z.ones 8) 8). change 0xff with (Z.ones 8). unfold in_range in *. zbits. }
  rewrite Hlow. assert (b - 1 = blob_index) as Hb1 by (unfold b; lia). rewrite usub_in, Hb1 by (unfold in_range; lia). split; [done|]. split.
  { change 0xff00 with (Z.shiftl (Z.ones 8) 8). unfold in_range in *. zbits. }
  split; [done|]. split; [by apply wrap_range|]. split.
  { apply in_range_lor; [lia| |unfold in_range in *; lia]. change 0xff00 with (Z.shiftl (Z.ones 8) 8). unfold in_range in *. zbits_range. }
  intros max. unfold b in *. replace (blob_index + 1 - 1) with blob_index by lia. by replace (0 <? blob_index + 1) with true by lia.
Qed.

Lemma chunk_addr_of_bytes_bytes a : in_range 16 (ca_blob_addr_lo a) -> in_range 16 (ca_blob_addr_hi a) -> in_range 32 (ca_blk_addr a) ->
  chunk_addr_of_bytes (chunk_addr_bytes a) = a.
Proof.
  intros H1 H2 H3. unfold chunk_addr_of_bytes, chunk_addr_bytes. rewrite <- (app_nil_r (le_bytes 4 (ca_blk_addr a))). read_fields. by destruct a.
Qed.

Lemma length_chunk_addr_bytes a : length (chunk_addr_bytes a) = 8%nat.
Proof. unfold chunk_addr_bytes. by rewrite !length_app, !length_le_bytes. Qed.
