(* ===== verification/DirectV6.v ===== *)
(** Inodes of a RAFS v6 image read in place ([rafs/src/metadata/direct_v6.rs]).

    A bootstrap is mapped into memory. An inode is an offset into the mapping; its attributes,
    directory entries, symlink target, extended attributes and chunk addresses are read through
    the checks of [FileMapState]. A directory is an array of blocks, each with the entries first
    and their names behind them, sorted by name over all blocks. *)
From stdpp Require Import sorting.
From S2P Require Import Prelude Utils LittleEndian ChunkInfo Device RafsLayout RafsV5 RafsBlobTable RafsV5Inode CachedInode CachedDir Overlay RafsV6Inode.

(** ** The mapping *)

(** The mapped region, and the bytes of the file behind it. *)
Record Mapping := mkMapping { mp_map : FileMapState; mp_bytes : list Z }.

(** The bytes of the [T] at an offset. *)
Definition get_ref (m : Mapping) (offset size_of align_of : Z) : io (list Z) :=
  start ← fm_get_ref EINVAL (mp_map m) offset size_of align_of;
  Ok (slice (Z.to_nat (start - fm_base (mp_map m))) (Z.to_nat size_of) (mp_bytes m)).

(** The bytes of [count] [T]s. *)
Definition get_slice (m : Mapping) (offset count size_of : Z) : io (list Z) :=
  start ← fm_get_slice EINVAL (mp_map m) offset count size_of;
  Ok (slice (Z.to_nat (start - fm_base (mp_map m))) (Z.to_nat (count * size_of)) (mp_bytes m)).

(** [unwrap] of a result. *)
Definition unwrap {A} (m : io A) : io A := match m with Ok a => Ok a | _ => Panic end.

(** Errors of type [RafsError], which [err_invalidate_data] turns into [ErrorKind::InvalidData]. *)
Definition err_invalidate_data {A} (m : io A) : io A := match m with Err _ => Err EOTHER | r => r end.

(** What the inodes use of [DirectSuperBlockV6]: its [DirectCachedInfo] and the mapping of its state. *)
Record DirectSuperBlockV6 := mkDirectV6 { ds_meta_offset : Z; ds_root_ino : Z; ds_chunk_size : Z; ds_map : Mapping }.

Record OndiskInodeWrapper := mkOndiskWrapper {
  ow_offset : Z;
  ow_blocks_count : Z;
  ow_parent_inode : option Z;
  ow_name : option (list Z)
}.

Section direct.
Context `{Profile} (ds : DirectSuperBlockV6).

Definition disk_inode (offset : Z) : io DiskInode :=
  b ← get_ref (ds_map ds) offset 32 4;
  let i := compact_of_bytes b in
  if Z.land (oi_format i) EROFS_I_VERSION_BITS =? 0 then Ok (DCompact i)
  else b ← get_ref (ds_map ds) offset 64 8; Ok (DExtended (extended_of_bytes b)).

Definition OndiskInodeWrapper_new (offset : Z) : io OndiskInodeWrapper :=
  inode ← disk_inode offset;
  blocks_count ← div_round_up (oi_size inode) EROFS_BLOCK_SIZE;
  Ok (mkOndiskWrapper offset blocks_count None None).

Definition inode_wrapper (nid : Z) : io OndiskInodeWrapper :=
  o ← umul 64 nid EROFS_INODE_SLOT_SIZE;
  offset ← uadd 64 (ds_meta_offset ds) o;
  OndiskInodeWrapper_new offset.

Definition inode_wrapper_with_info (nid parent_inode : Z) (name : list Z) : io OndiskInodeWrapper :=
  w ← inode_wrapper nid;
  Ok (mkOndiskWrapper (ow_offset w) (ow_blocks_count w) (Some parent_inode) (Some name)).

(** ** Attributes *)

Definition ow_disk_inode (self : OndiskInodeWrapper) : io DiskInode := unwrap (disk_inode (ow_offset self)).
Definition ow_ino (self : OndiskInodeWrapper) : io Z :=
  d ← usub 64 (ow_offset self) (ds_meta_offset ds); Ok (d / EROFS_INODE_SLOT_SIZE).
Definition ow_size (self : OndiskInodeWrapper) : io Z := i ← ow_disk_inode self; Ok (oi_size i).
Definition ow_mode_is (kind : Z) (self : OndiskInodeWrapper) : io bool :=
  i ← ow_disk_inode self; Ok (mode_is kind (oi_mode i)).

Definition inode_size (inode : DiskInode) : Z :=
  if negb (Z.land (oi_format inode) (Z.shiftl 1 EROFS_I_VERSION_BIT) =? 0) then 64 else 32.

Definition xattr_size (inode : DiskInode) : Z :=
  if 0 <? oi_xattr_inline_count inode then (oi_xattr_inline_count inode - 1) * 4 + 12 else 0.

Definition inode_xattr_size (inode : DiskInode) : io Z := round_up (inode_size inode + xattr_size inode) 8.

(** ** Data blocks *)

Definition data_block_offset (self : OndiskInodeWrapper) (inode : DiskInode) (index : Z) : io Z :=
  let mask := Z.lor (Z.shiftl (Z.shiftl 1 EROFS_I_DATALAYOUT_BITS - 1) 1) EROFS_I_VERSION_BITS in
  if negb (Z.land (oi_format inode) (unot 16 mask) =? 0) then Err EOTHER
  else
    let layout := Z.shiftr (oi_format inode) EROFS_I_VERSION_BITS in
    let nth_block :=
      a ← umul 64 (oi_union inode) EROFS_BLOCK_SIZE;
      b ← umul 64 index EROFS_BLOCK_SIZE;
      uadd 64 a b in
    if layout =? EROFS_INODE_FLAT_PLAIN then nth_block
    else if layout =? EROFS_INODE_FLAT_INLINE then
      last ← usub 64 (ow_blocks_count self) 1;
      if negb (index =? last) then nth_block
      else s ← inode_xattr_size inode; uadd 64 (ow_offset self) s
    else Err EOTHER.

Definition v6_get_entry (self : OndiskInodeWrapper) (inode : DiskInode) (block_index index : Z) : io RafsV6Dirent :=
  offset ← data_block_offset self inode block_index;
  o ← umul 64 12 index;
  offset ← uadd 64 offset o;
  b ← err_invalidate_data (get_ref (ds_map ds) offset 12 2);
  Ok (dirent_of_bytes b).

(** The bytes of [buf] before its first zero. *)
Fixpoint until_nul (buf : list Z) : list Z :=
  match buf with [] => [] | b :: buf => if b =? 0 then [] else b :: until_nul buf end.

Definition entry_name (self : OndiskInodeWrapper) (inode : DiskInode) (block_index index max_entries : Z) : io (list Z) :=
  offset ← data_block_offset self inode block_index;
  de ← v6_get_entry self inode block_index index;
  last ← usub 64 max_entries 1;
  if index <? last then
    next_de ← v6_get_entry self inode block_index (index + 1);
    if de_nameoff next_de <? de_nameoff de then Err EOTHER
    else
      o ← uadd 64 offset (de_nameoff de);
      err_invalidate_data (get_slice (ds_map ds) o (de_nameoff next_de - de_nameoff de) 1)
  else
    head_de ← v6_get_entry self inode block_index 0;
    d ← usub 16 (de_nameoff de) (de_nameoff head_de);
    n ← umul 64 12 max_entries;
    s ← uadd 64 d n;
    size ← ow_size self;
    blocks ← div_round_up size EROFS_BLOCK_SIZE;
    len ← (if blocks =? block_index + 1 then usub 64 (size mod EROFS_BLOCK_SIZE) s else usub 64 EROFS_BLOCK_SIZE s);
    o ← uadd 64 offset (de_nameoff de);
    buf ← err_invalidate_data (get_slice (ds_map ds) o len 1);
    Ok (until_nul buf).

(** ** Lookup *)

(** Names of a block: the first and the last one, with the number of entries. *)
Definition block_ends (self : OndiskInodeWrapper) (inode : DiskInode) (pivot : Z) : io (list Z * list Z) :=
  head_entry ← v6_get_entry self inode pivot 0;
  let entries_count := de_nameoff head_entry / 12 in
  h_name ← entry_name self inode pivot 0 entries_count;
  l ← usub 64 entries_count 1;
  t_name ← entry_name self inode pivot l entries_count;
  Ok (h_name, t_name).

(** The loop of [find_target_block]; each turn halves [last - first], also after [pivot - 1] has
    wrapped around in the release profile. *)
Fixpoint target_block_loop (fuel : nat) (self : OndiskInodeWrapper) (inode : DiskInode) (name : list Z) (first last : Z) : io Z :=
  match fuel with
  | O => Panic
  | S fuel =>
      if first <=? last then
        let pivot := first + Z.shiftr (last - first) 1 in
        ends ← block_ends self inode pivot;
        let '(h_name, t_name) := ends in
        if bool_decide (name_cmp h_name name <> Gt) && bool_decide (name_cmp t_name name <> Lt) then Ok pivot
        else if bool_decide (name_cmp h_name name = Gt) then
          last ← usub 64 pivot 1; target_block_loop fuel self inode name first last
        else
          first ← uadd 64 pivot 1; target_block_loop fuel self inode name first last
      else Ok 0
  end.

Definition find_target_block (self : OndiskInodeWrapper) (name : list Z) : io Z :=
  inode ← ow_disk_inode self;
  if oi_size inode =? 0 then Err ENOENT
  else
    blocks_count ← div_round_up (oi_size inode) EROFS_BLOCK_SIZE;
    last ← usub 64 blocks_count 1;
    target_block_loop (Z.to_nat blocks_count + 130) self inode name 0 last.

(** The binary search of [get_child_by_name] in a block: the node id of the entry found. *)
Fixpoint block_search (fuel : nat) (self : OndiskInodeWrapper) (inode : DiskInode) (name : list Z)
    (target_block entries_count first last : Z) : io (option Z) :=
  match fuel with
  | O => Panic
  | S fuel =>
      if first <=? last then
        let pivot := first + Z.shiftr (last - first) 1 in
        de ← v6_get_entry self inode target_block pivot;
        d_name ← entry_name self inode target_block pivot entries_count;
        match name_cmp d_name name with
        | Eq => Ok (Some (de_nid de))
        | Lt => first ← uadd 64 pivot 1; block_search fuel self inode name target_block entries_count first last
        | Gt => last ← usub 64 pivot 1; block_search fuel self inode name target_block entries_count first last
        end
      else Ok None
  end.

Definition v6_get_child_by_name (self : OndiskInodeWrapper) (name : list Z) : io OndiskInodeWrapper :=
  inode ← ow_disk_inode self;
  match find_target_block self name with
  | Ok target_block =>
      head_entry ← v6_get_entry self inode target_block 0;
      let entries_count := de_nameoff head_entry / 12 in
      last ← usub 64 entries_count 1;
      found ← block_search (Z.to_nat entries_count + 130) self inode name target_block entries_count 0 last;
      match found with
      | Some nid => ino ← ow_ino self; inode_wrapper_with_info nid ino name
      | None => Err ENOENT
      end
  | Err _ => Err ENOENT
  | Panic => Panic
  end.

(** ** Listing *)

Section walk.
Context {S : Type} (handler : OndiskInodeWrapper -> list Z -> Z -> Z -> stM S errno RafsInodeWalkAction).

(** The entries [j..j + n] of a block. [None] is the early return on [Break], else the new values
    of [skipped] and [cur_offset]. *)
Fixpoint walk_block (n : nat) (self : OndiskInodeWrapper) (inode : DiskInode) (i j entries_count skipped cur_offset : Z)
    : stM S errno (option (Z * Z)) :=
  match n with
  | O => st_ret (Some (skipped, cur_offset))
  | Datatypes.S n =>
      de ← st_lift (v6_get_entry self inode i j);
      name ← st_lift (entry_name self inode i j entries_count);
      if negb (skipped =? 0) then walk_block n self inode i (j + 1) entries_count (skipped - 1) cur_offset
      else
        ino ← st_lift (ow_ino self);
        child ← st_lift (inode_wrapper_with_info (de_nid de) ino name);
        cur_offset ← st_lift (uadd 64 cur_offset 1);
        action ← handler child name (de_nid de) cur_offset;
        match action with
        | Break => st_ret None
        | Continue => walk_block n self inode i (j + 1) entries_count skipped cur_offset
        end
  end.

Fixpoint walk_blocks (n : nat) (self : OndiskInodeWrapper) (inode : DiskInode) (i skipped cur_offset : Z) : stM S errno unit :=
  match n with
  | O => st_ret tt
  | Datatypes.S n =>
      head_entry ← st_lift (v6_get_entry self inode i 0);
      let entries_count := de_nameoff head_entry / 12 in
      r ← walk_block (Z.to_nat entries_count) self inode i 0 entries_count skipped cur_offset;
      match r with
      | None => st_ret tt
      | Some (skipped, cur_offset) => walk_blocks n self inode (i + 1) skipped cur_offset
      end
  end.

Definition v6_walk_children_inodes (self : OndiskInodeWrapper) (entry_offset : Z) : stM S errno unit :=
  inode ← st_lift (ow_disk_inode self);
  if oi_size inode =? 0 then st_lift (Err ENOENT)
  else
    blocks_count ← st_lift (div_round_up (oi_size inode) EROFS_BLOCK_SIZE);
    walk_blocks (Z.to_nat blocks_count) self inode 0 entry_offset entry_offset.
End walk.

(** The entries of [get_child_by_index]: the inner loop, then the blocks. *)
Fixpoint index_block (n : nat) (self : OndiskInodeWrapper) (inode : DiskInode) (i j entries_count idx cur_idx : Z)
    : io (OndiskInodeWrapper + Z) :=
  match n with
  | O => Ok (inr cur_idx)
  | S n =>
      de ← v6_get_entry self inode i j;
      name ← entry_name self inode i j entries_count;
      if bool_decide (name = DOT) || bool_decide (name = DOTDOT) then index_block n self inode i (j + 1) entries_count idx cur_idx
      else if cur_idx =? idx then
        ino ← ow_ino self; child ← inode_wrapper_with_info (de_nid de) ino name; Ok (inl child)
      else
        cur_idx ← uadd 32 cur_idx 1; index_block n self inode i (j + 1) entries_count idx cur_idx
  end.

Fixpoint index_blocks (n : nat) (self : OndiskInodeWrapper) (inode : DiskInode) (i idx cur_idx : Z) : io OndiskInodeWrapper :=
  match n with
  | O => Err ENOENT
  | S n =>
      head_entry ← unwrap (v6_get_entry self inode i 0);
      let entries_count := de_nameoff head_entry / 12 in
      r ← index_block (Z.to_nat entries_count) self inode i 0 entries_count idx cur_idx;
      match r with inl child => Ok child | inr cur_idx => index_blocks n self inode (i + 1) idx cur_idx end
  end.

Definition v6_get_child_by_index (self : OndiskInodeWrapper) (idx : Z) : io OndiskInodeWrapper :=
  inode ← ow_disk_inode self;
  dir ← ow_mode_is S_IFDIR self;
  if negb dir then Err EINVAL
  else
    blocks_count ← div_round_up (oi_size inode) EROFS_BLOCK_SIZE;
    index_blocks (Z.to_nat blocks_count) self inode 0 idx 0.

Fixpoint count_blocks (n : nat) (self : OndiskInodeWrapper) (inode : DiskInode) (i child_cnt : Z) : io Z :=
  match n with
  | O => Ok child_cnt
  | S n =>
      head_entry ← unwrap (v6_get_entry self inode i 0);
      child_cnt ← uadd 32 child_cnt (de_nameoff head_entry / 12);
      count_blocks n self inode (i + 1) child_cnt
  end.

Definition v6_get_child_count (self : OndiskInodeWrapper) : io Z :=
  dir ← ow_mode_is S_IFDIR self;
  size ← ow_size self;
  if negb dir then n ← div_round_up size (ds_chunk_size ds); Ok (wrap 32 n)
  else
    inode ← ow_disk_inode self;
    blocks_count ← div_round_up size EROFS_BLOCK_SIZE;
    child_cnt ← count_blocks (Z.to_nat blocks_count) self inode 0 0;
    usub 32 child_cnt 2.

(** ** Symlinks and chunks *)

Definition v6_get_symlink (self : OndiskInodeWrapper) : io (list Z) :=
  inode ← ow_disk_inode self;
  offset ← data_block_offset self inode 0;
  get_slice (ds_map ds) offset (oi_size inode) 1.

Definition v6_get_symlink_size (self : OndiskInodeWrapper) : io Z := s ← ow_size self; Ok (wrap 16 s).

(** A slice of 8-byte chunk addresses. *)
Fixpoint chunk_addrs_of_bytes (n : nat) (b : list Z) : list RafsV6InodeChunkAddr :=
  match n with O => [] | S n => chunk_addr_of_bytes (take 8 b) :: chunk_addrs_of_bytes n (drop 8 b) end.

Definition chunk_addresses (self : OndiskInodeWrapper) (head_chunk_index : Z) : io (list RafsV6InodeChunkAddr) :=
  inode ← ow_disk_inode self;
  _ ← rassert (Z.shiftr (oi_format inode) EROFS_I_VERSION_BITS =? EROFS_INODE_CHUNK_BASED);
  size ← ow_size self;
  n ← div_round_up size (ds_chunk_size ds);
  let total_chunk_addresses := wrap 32 n in
  s ← inode_xattr_size inode;
  o ← uadd 64 (ow_offset self) s;
  h ← umul 64 head_chunk_index 8;
  offset ← uadd 64 o h;
  count ← usub 32 total_chunk_addresses head_chunk_index;
  b ← err_invalidate_data (get_slice (ds_map ds) offset count 8);
  Ok (chunk_addrs_of_bytes (Z.to_nat count) b).
End direct.

(** ** Reading what is stored *)

Definition map_wf (m : Mapping) : Prop :=
  fm_wf (mp_map m) /\ fm_size (mp_map m) = zlen (mp_bytes m) /\ fm_base (mp_map m) mod EROFS_BLOCK_SIZE = 0.

(** The file holds [data] at [off]. *)
Definition stored (m : Mapping) (off : Z) (data : list Z) : Prop :=
  0 <= off /\ off + zlen data <= zlen (mp_bytes m) /\ slice (Z.to_nat off) (length data) (mp_bytes m) = data.

Lemma slice_mid (a b c : list Z) buf off : slice off (length (a ++ b ++ c)) buf = a ++ b ++ c ->
  slice (off + length a) (length b) buf = b.
Proof.
  intros Hs. rewrite <- (slice_slice off (length (a ++ b ++ c)) (length a) (length b)), Hs by (rewrite !length_app; lia).
  apply slice_app_here.
Qed.

Lemma stored_mid m off a b c : stored m off (a ++ b ++ c) -> stored m (off + zlen a) b.
Proof.
  intros (H0 & H1 & H2). rewrite !zlen_app in H1. unfold stored. unfold zlen in *. split_and!; [lia|lia|].
  replace (Z.to_nat (off + Z.of_nat (length a))) with (Z.to_nat off + length a)%nat by lia. by eapply slice_mid.
Qed.

Lemma wrap64_in x : in_range 64 x -> wrap 64 x = x.
Proof. apply wrap_small. Qed.

Lemma fm_start m off len : map_wf m -> 0 <= off -> 0 <= len -> off + len <= zlen (mp_bytes m) ->
  wrap 64 (fm_base (mp_map m) + off) = fm_base (mp_map m) + off /\
  bad_range (mp_map m) (fm_base (mp_map m) + off) (wrap 64 (fm_base (mp_map m) + off + len)) = false.
Proof.
  intros ((Hb & Hz & He) & Hs & _) Ho Hl Hle. rewrite (wrap64_in (_ + off)) by (unfold in_range; lia).
  split; [done|]. rewrite wrap64_in by (unfold in_range; lia). unfold bad_range, fm_end. lia.
Qed.

Lemma get_slice_stored m off data count size_of : map_wf m -> stored m off data -> zlen data = count * size_of ->
  get_slice m off count size_of = Ok data.
Proof.
  intros Hm (H0 & H1 & H2) Hd. pose proof Hm as ((Hb & Hz & He) & Hs & _).
  destruct (fm_start m off (count * size_of) Hm) as [Hw Hbad]; [lia|unfold zlen in *; lia|lia|].
  unfold get_slice, fm_get_slice. rewrite Hw, (proj2 (Z.ltb_lt _ _)) by lia. cbn [negb]. unfold checked_add.
  rewrite (proj2 (Z.ltb_lt _ _)) by lia. rewrite Hbad. cbn. f_equal.
  replace (fm_base (mp_map m) + off - fm_base (mp_map m)) with off by lia.
  rewrite <- Hd. unfold zlen. by rewrite Nat2Z.id.
Qed.

(** An object whose alignment divides the block size is aligned where its offset is. *)
Lemma get_ref_stored m off data size_of k : map_wf m -> stored m off data -> zlen data = size_of -> 0 <= k <= 12 ->
  off mod 2 ^ k = 0 -> get_ref m off size_of (2 ^ k) = Ok data.
Proof.
  intros Hm (H0 & H1 & H2) Hd Hk Ha. pose proof Hm as (Hw & Hs & Hp).
  destruct (fm_start m off size_of Hm) as [Hst Hbad]; [lia|unfold zlen in *; lia|lia|].
  unfold get_ref, fm_get_ref. rewrite Hst, Hbad.
  assert (Z.land (fm_base (mp_map m) + off) (2 ^ k - 1) = 0) as ->.
  { replace (2 ^ k - 1) with (Z.ones k) by (rewrite Z.ones_equiv; lia).
    rewrite Z.land_ones by lia. rewrite <- Z.add_mod_idemp_r, Ha by (pose proof (Z.pow_pos_nonneg 2 k); lia). rewrite Z.add_0_r.
    apply Z.mod_divide; [pose proof (Z.pow_pos_nonneg 2 k); lia|]. apply Z.mod_divide in Hp; [|done].
    eapply Z.divide_trans; [|exact Hp]. exists (2 ^ (12 - k)). unfold EROFS_BLOCK_SIZE. rewrite <- Z.pow_add_r by lia.
    by replace (12 - k + k) with 12 by lia. }
  cbn. f_equal. replace (fm_base (mp_map m) + off - fm_base (mp_map m)) with off by lia.
  rewrite <- Hd. unfold zlen. by rewrite Nat2Z.id.
Qed.

Lemma disk_inode_stored `{Profile} ds off d : map_wf (ds_map ds) -> disk_wf d -> stored (ds_map ds) off (oi_bytes d) -> off mod 8 = 0 ->
  disk_inode ds off = Ok d.
Proof.
  intros Hm Hw Hst Ha. assert (off mod 4 = 0) as Ha4. { apply Z.mod_divide in Ha as [q ->]; [|done]. replace (q * 8) with (q * 2 * 4) by lia. by rewrite Z.mod_mul. }
  unfold disk_inode. destruct d as [i|i]; cbn [oi_bytes Dyn_inode dyn_get Compact_inode Extended_inode] in Hst; destruct Hw as [Hw Hv].
  - pose proof (get_ref_stored _ _ _ 32 2 Hm Hst ltac:(unfold zlen; by rewrite length_compact_bytes) ltac:(done) Ha4) as Hg. change (2 ^ 2) with 4 in Hg.
    rewrite Hg. cbn [mbind outcome_bind]. rewrite compact_roundtrip by done. cbn [oi_format Compact_inode]. unfold EROFS_I_VERSION_BITS. by rewrite Hv.
  - pose proof Hst as Hst2. rewrite <- (take_drop 32 (extended_bytes i)) in Hst2. pose proof (stored_mid _ _ [] _ _ Hst2) as H32. rewrite Z.add_0_r in H32.
    pose proof (get_ref_stored _ _ _ 32 2 Hm H32 ltac:(unfold zlen; by rewrite length_take, length_extended_bytes) ltac:(done) Ha4) as Hg. change (2 ^ 2) with 4 in Hg.
    rewrite Hg. cbn [mbind outcome_bind compact_of_bytes oi_format Compact_inode c_format].
    assert (get_le 0 2 (take 32 (extended_bytes i)) = e_format i) as ->.
    { unfold get_le, slice. rewrite drop_0, take_take. change (get_le 0 2 (extended_bytes i) = e_format i). unfold extended_bytes. apply get_le_here. exact (proj1 Hw). }
    unfold EROFS_I_VERSION_BITS. rewrite Hv. cbn [Z.eqb].
    pose proof (get_ref_stored _ _ _ 64 3 Hm Hst ltac:(unfold zlen; by rewrite length_extended_bytes) ltac:(done) Ha) as Hg2. change (2 ^ 3) with 8 in Hg2.
    rewrite Hg2. cbn [mbind outcome_bind]. by rewrite extended_roundtrip.
Qed.

(** ** Directory blocks *)

(** What an entry says: node id, file type and name. *)
Record entry := mkEntry { en_nid : Z; en_type : Z; en_name : list Z }.

Definition names_size (es : list entry) : Z := foldr (fun e n => zlen (en_name e) + n) 0 es.

(** The entries of a block, with the offsets of their names. *)
Fixpoint dirents_from (nameoff : Z) (es : list entry) : list RafsV6Dirent :=
  match es with
  | [] => []
  | e :: es => mkDirent (en_nid e) nameoff (en_type e) 0 :: dirents_from (nameoff + zlen (en_name e)) es
  end.

Definition dirents_bytes (ds : list RafsV6Dirent) : list Z := concat (dirent_bytes <$> ds).

Definition block_bytes (es : list entry) : list Z :=
  dirents_bytes (dirents_from (12 * zlen es) es) ++ concat (en_name <$> es).

Definition entry_wf (e : entry) : Prop :=
  in_range 64 (en_nid e) /\ in_range 8 (en_type e) /\ en_name e <> [] /\ Forall (fun b => b <> 0) (en_name e).

Lemma length_dirent_bytes d : length (dirent_bytes d) = 12%nat.
Proof. unfold dirent_bytes. by rewrite !length_app, !length_le_bytes. Qed.

Lemma dirent_of_bytes_bytes d : in_range 64 (de_nid d) -> in_range 16 (de_nameoff d) -> in_range 8 (de_file_type d) ->
  in_range 8 (de_reserved d) -> dirent_of_bytes (dirent_bytes d) = d.
Proof.
  intros. unfold dirent_of_bytes, dirent_bytes. rewrite <- (app_nil_r (le_bytes 1 (de_reserved d))). read_fields. by destruct d.
Qed.

Lemma zlen_dirents_from off es : zlen (dirents_bytes (dirents_from off es)) = 12 * zlen es.
Proof.
  revert off. induction es as [|e es IH]; intros off; [done|]. cbn [dirents_from]. unfold dirents_bytes in *. rewrite fmap_cons.
  cbn [concat]. rewrite zlen_app, IH. unfold zlen. rewrite length_dirent_bytes. cbn [length]. lia.
Qed.

Lemma zlen_names es : zlen (concat (en_name <$> es)) = names_size es.
Proof. induction es as [|e es IH]; [done|]. rewrite fmap_cons. cbn [concat names_size foldr]. rewrite zlen_app, IH. done. Qed.

Lemma zlen_block es : zlen (block_bytes es) = 12 * zlen es + names_size es.
Proof. unfold block_bytes. by rewrite zlen_app, zlen_dirents_from, zlen_names. Qed.

Lemma names_size_nonneg es : 0 <= names_size es.
Proof. induction es as [|e es IH]; [done|]. cbn. pose proof (zlen_nonneg (en_name e)). fold (names_size es). lia. Qed.

Lemma names_size_app es fs : names_size (es ++ fs) = names_size es + names_size fs.
Proof. induction es as [|e es IH]; [done|]. cbn. fold (names_size (es ++ fs)) (names_size es). lia. Qed.

Lemma dirents_from_app off es fs : dirents_from off (es ++ fs) = dirents_from off es ++ dirents_from (off + names_size es) fs.
Proof.
  revert off. induction es as [|e es IH]; intros off; cbn [app dirents_from].
  - cbn. by rewrite Z.add_0_r.
  - rewrite IH. cbn. fold (names_size es). by rewrite <- Z.add_assoc.
Qed.

(** Where the parts of an entry are in its block. *)
Lemma block_at es fs e : let b := es ++ e :: fs in let off := 12 * zlen b + names_size es in
  (exists post, block_bytes b = dirents_bytes (dirents_from (12 * zlen b) es) ++ dirent_bytes (mkDirent (en_nid e) off (en_type e) 0) ++ post) /\
  block_bytes b = (dirents_bytes (dirents_from (12 * zlen b) b) ++ concat (en_name <$> es)) ++ en_name e ++ concat (en_name <$> fs).
Proof.
  cbn. unfold block_bytes. split.
  - rewrite dirents_from_app. unfold dirents_bytes. rewrite fmap_app, concat_app. cbn [dirents_from]. rewrite fmap_cons. cbn [concat].
    rewrite <- !app_assoc. by eexists.
  - rewrite fmap_app, fmap_cons, concat_app. cbn [concat]. by rewrite <- !app_assoc.
Qed.

(** ** Directories *)

Lemma lookup_split {A} (l : list A) i x : l !! i = Some x -> l = take i l ++ x :: drop (S i) l.
Proof. intros Hx. by rewrite take_drop_middle. Qed.

Lemma until_nul_clean l r : Forall (fun b => b <> 0) l -> until_nul (l ++ 0 :: r) = l.
Proof. induction 1 as [|b l Hb Hl IH]; [done|]. cbn. rewrite (proj2 (Z.eqb_neq b 0)) by done. by rewrite IH. Qed.

Lemma until_nul_all l : Forall (fun b => b <> 0) l -> until_nul l = l.
Proof. induction 1 as [|b l Hb Hl IH]; [done|]. cbn. rewrite (proj2 (Z.eqb_neq b 0)) by done. by rewrite IH. Qed.

Lemma until_nul_padded l n : Forall (fun b => b <> 0) l -> until_nul (l ++ replicate n 0) = l.
Proof. intros Hl. destruct n as [|n]; [rewrite app_nil_r; by apply until_nul_all|]. by apply until_nul_clean. Qed.

(** Looking a name up in a list of entries. *)
Definition en_lt (a b : entry) : Prop := name_cmp (en_name a) (en_name b) = Lt.

Fixpoint lookup_entry (name : list Z) (es : list entry) : option entry :=
  match es with [] => None | e :: es => if bool_decide (en_name e = name) then Some e else lookup_entry name es end.

Lemma lookup_entry_app name es fs : lookup_entry name (es ++ fs) =
  match lookup_entry name es with Some e => Some e | None => lookup_entry name fs end.
Proof. induction es as [|e es IH]; [done|]. cbn. case_bool_decide; [done|apply IH]. Qed.

Lemma lookup_entry_None name es : (forall j e, es !! j = Some e -> name_cmp (en_name e) name <> Eq) -> lookup_entry name es = None.
Proof.
  intros Hne. induction es as [|e es IH]; [done|]. cbn. pose proof (Hne 0%nat e eq_refl) as He. rewrite name_cmp_eq in He.
  rewrite bool_decide_eq_false_2 by done. apply IH. intros j e' Hj. exact (Hne (S j) e' Hj).
Qed.

(** In a sorted list everything before an entry is smaller, everything after it greater. *)
Lemma sorted_at es i j a b : StronglySorted en_lt es -> es !! i = Some a -> es !! j = Some b -> (i < j)%nat -> en_lt a b.
Proof.
  intros Hs. revert i j. induction Hs as [|e es Hs IH Hf]; intros i j Ha Hb Hij; [done|].
  destruct j as [|j]; [lia|]. cbn in Hb. destruct i as [|i]; cbn in Ha.
  - injection Ha as <-. rewrite Forall_lookup in Hf. by eapply Hf.
  - eapply IH; [done|done|lia].
Qed.

Lemma lookup_entry_at name es j e : StronglySorted en_lt es -> es !! j = Some e -> en_name e = name -> lookup_entry name es = Some e.
Proof.
  intros Hs Hj Hn. rewrite (lookup_split es j e Hj), lookup_entry_app, lookup_entry_None.
  - cbn. by rewrite bool_decide_eq_true_2.
  - intros i a Ha. apply lookup_take_Some in Ha as [Ha Hi]. pose proof (sorted_at es i j a e Hs Ha Hj Hi) as Hlt.
    unfold en_lt in Hlt. rewrite Hn in Hlt. by rewrite Hlt.
Qed.

Lemma shiftr1_mid first last : first <= last -> first <= first + Z.shiftr (last - first) 1 <= last.
Proof. intros. rewrite Z.shiftr_div_pow2 by lia. change (2 ^ 1) with 2. pose proof (Z.div_mod (last - first) 2). pose proof (Z.mod_pos_bound (last - first) 2). lia. Qed.

Lemma blocks_split {A} (blocks : list (list A)) k b : blocks !! k = Some b ->
  concat blocks = concat (take k blocks) ++ b ++ concat (drop (S k) blocks).
Proof. intros Hk. rewrite (lookup_split blocks k b Hk) at 1. by rewrite concat_app. Qed.

(** Blocks of a sorted directory are sorted, and in order. *)
Lemma sorted_block blocks k b : StronglySorted en_lt (concat blocks) -> blocks !! k = Some b -> StronglySorted en_lt b.
Proof. intros Hs Hk. rewrite (blocks_split blocks k b Hk) in Hs. apply StronglySorted_app in Hs as (_ & _ & Hs). by apply StronglySorted_app in Hs as (_ & Hs & _). Qed.

Lemma sorted_blocks blocks i j b c x y : StronglySorted en_lt (concat blocks) -> blocks !! i = Some b -> blocks !! j = Some c ->
  (i < j)%nat -> x ∈ b -> y ∈ c -> en_lt x y.
Proof.
  intros Hs Hi Hj Hij Hx Hy. rewrite (blocks_split blocks j c Hj) in Hs. apply StronglySorted_app in Hs as (Hs & _ & _).
  apply Hs; [|by apply elem_of_app; left]. apply list_elem_of_In, in_concat. exists b. split; [|by apply list_elem_of_In].
  apply list_elem_of_In, list_elem_of_lookup. exists i. by rewrite lookup_take_lt.
Qed.

Lemma lookup_entry_concat name blocks k b : blocks !! k = Some b ->
  (forall j c, blocks !! j = Some c -> j <> k -> lookup_entry name c = None) ->
  lookup_entry name (concat blocks) = lookup_entry name b.
Proof.
  revert k. induction blocks as [|c blocks IH]; intros k Hk Ho; [done|]. cbn [concat]. rewrite lookup_entry_app. destruct k as [|k]; cbn in Hk.
  - injection Hk as ->. destruct (lookup_entry name b); [done|]. clear IH. assert (forall c, c ∈ blocks -> lookup_entry name c = None) as Hn.
    { intros c [j Hj]%list_elem_of_lookup. exact (Ho (S j) c Hj ltac:(lia)). } clear Ho.
    induction blocks as [|c blocks IH]; [done|]. cbn [concat]. rewrite lookup_entry_app, (Hn c) by set_solver. apply IH. set_solver.
  - rewrite (Ho 0%nat c eq_refl) by lia. apply (IH k Hk). intros j d Hj Hne. exact (Ho (S j) d Hj ltac:(lia)).
Qed.

Lemma lookup_entry_None_in name es : (forall e, e ∈ es -> name_cmp (en_name e) name <> Eq) -> lookup_entry name es = None.
Proof. intros Hn. apply lookup_entry_None. intros j e Hj. apply Hn, list_elem_of_lookup. by exists j. Qed.

Section dir.
Context `{Profile} (ds : DirectSuperBlockV6).
Notation m := (ds_map ds).

(** What fills a block behind its names: zeros, but nothing in the last block. *)
Definition block_pad (blocks : list (list entry)) (k : nat) (b : list entry) : list Z :=
  if Nat.eqb (S k) (length blocks) then [] else replicate (Z.to_nat (EROFS_BLOCK_SIZE - zlen (block_bytes b))) 0.

Definition block_ok (b : list entry) : Prop := b <> [] /\ Forall entry_wf b /\ zlen (block_bytes b) <= EROFS_BLOCK_SIZE.

(** A directory whose entries are stored in blocks; the last block is not full. *)
Record dir_stored (w : OndiskInodeWrapper) (inode : DiskInode) (blocks : list (list entry)) : Prop := mkDirStored {
  dst_map : map_wf m;
  dst_inode : disk_inode ds (ow_offset w) = Ok inode;
  dst_size : exists lst, last blocks = Some lst /\ zlen (block_bytes lst) < EROFS_BLOCK_SIZE /\
    oi_size inode = EROFS_BLOCK_SIZE * (zlen blocks - 1) + zlen (block_bytes lst);
  dst_bound : oi_size inode + EROFS_BLOCK_SIZE < 2 ^ 64;
  dst_entries : Forall block_ok blocks;
  dst_blocks : forall k b, blocks !! k = Some b -> exists off,
    data_block_offset w inode (Z.of_nat k) = Ok off /\ off mod 2 = 0 /\ stored m off (block_bytes b ++ block_pad blocks k b)
}.

Lemma block_nonempty b : block_ok b -> 12 < zlen (block_bytes b).
Proof.
  intros (Hne & Hw & _). destruct b as [|e b]; [done|]. rewrite zlen_block. apply Forall_cons in Hw as [(_ & _ & Hn & _) _].
  cbn [names_size foldr]. fold (names_size b). pose proof (names_size_nonneg b). destruct (en_name e); [done|].
  unfold zlen. cbn [length]. lia.
Qed.

Context {w : OndiskInodeWrapper} {inode : DiskInode} {blocks : list (list entry)} (Hdir : dir_stored w inode blocks).

Lemma dir_blocks_count : div_round_up (oi_size inode) EROFS_BLOCK_SIZE = Ok (E:=errno) (zlen blocks) /\ 0 < zlen blocks /\ oi_size inode <> 0.
Proof.
  destruct Hdir as [_ _ (lst & Hl & Hlt & Hs) Hb He _].
  assert (0 < zlen blocks) as H0. { destruct blocks; [done|]. unfold zlen. cbn. lia. }
  assert (block_ok lst) as Hok by (rewrite Forall_forall in He; apply He, last_Some_elem_of; done).
  pose proof (block_nonempty lst Hok) as Hn. unfold EROFS_BLOCK_SIZE in *. change 4096 with (2 ^ 12) at 1.
  rewrite div_round_up_spec by (change (2 ^ 12) with 4096; lia). change (2 ^ 12) with 4096. split; [|split; [done|lia]].
  f_equal. rewrite Hs. symmetry. apply Z.div_unique with (zlen (block_bytes lst) - 1); lia.
Qed.

Lemma dir_ow_inode : ow_disk_inode ds w = Ok inode /\ ow_size ds w = Ok (oi_size inode).
Proof. unfold ow_size, ow_disk_inode. rewrite (dst_inode _ _ _ Hdir). done. Qed.

Lemma dir_block_ok k b : blocks !! k = Some b -> block_ok b.
Proof. intros Hk. pose proof (dst_entries _ _ _ Hdir) as He. by eapply Forall_lookup_1 in He. Qed.

Lemma dir_get_entry k b es e fs : blocks !! k = Some b -> b = es ++ e :: fs ->
  v6_get_entry ds w inode (Z.of_nat k) (zlen es) = Ok (mkDirent (en_nid e) (12 * zlen b + names_size es) (en_type e) 0).
Proof.
  intros Hk ->. pose proof (dir_block_ok k _ Hk) as (_ & Hw & Hz). pose proof (dst_map _ _ _ Hdir) as Hm.
  destruct (dst_blocks _ _ _ Hdir k _ Hk) as (off & Ho & Ha & Hst). unfold v6_get_entry. rewrite Ho. cbn [mbind outcome_bind].
  destruct (block_at es fs e) as [(post & E) _]. rewrite E, <- !app_assoc in Hst.
  pose proof (stored_mid _ _ _ _ _ Hst) as Hst'. rewrite zlen_dirents_from in Hst'.
  rewrite zlen_block, zlen_app, names_size_app in Hz. pose proof (names_size_nonneg es). pose proof (names_size_nonneg (e :: fs)).
  pose proof (zlen_nonneg es). pose proof (zlen_nonneg (e :: fs)). pose proof Hst' as (S1 & S2 & S3).
  pose proof Hm as ((M1 & M2 & M3) & M4 & M5). unfold EROFS_BLOCK_SIZE in Hz. pose proof (zlen_nonneg (dirent_bytes (mkDirent (en_nid e) (12 * zlen (es ++ e :: fs) + names_size es) (en_type e) 0))).
  destruct Hst as (S0 & _). rewrite umul_in by (unfold in_range; lia). cbn [mbind outcome_bind]. rewrite uadd_in by (unfold in_range; lia). cbn [mbind outcome_bind].
  change 2 with (2 ^ 1) at 1. erewrite (get_ref_stored _ _ _ 12 1); [|done|exact Hst'|unfold zlen; by rewrite length_dirent_bytes|lia|].
  2:{ change (2 ^ 1) with 2. rewrite Z.add_mod, Ha by lia. replace (12 * zlen es) with (6 * zlen es * 2) by lia. by rewrite Z.mod_mul. }
  cbn [err_invalidate_data mbind outcome_bind]. rewrite Forall_app in Hw. destruct Hw as [_ [(W1 & W2 & _) _]%Forall_cons].
  rewrite dirent_of_bytes_bytes; try done; cbn [de_nameoff de_reserved]; unfold in_range; rewrite zlen_app; lia.
Qed.

(** The number of entries is found through the first name offset. *)
Lemma dir_head k b : blocks !! k = Some b -> exists d, v6_get_entry ds w inode (Z.of_nat k) 0 = Ok d /\ de_nameoff d / 12 = zlen b /\ de_nameoff d = 12 * zlen b.
Proof.
  intros Hk. pose proof (dir_block_ok k _ Hk) as (Hne & _). destruct b as [|e b]; [done|].
  pose proof (dir_get_entry k (e :: b) [] e b Hk eq_refl) as Hd. eexists. split; [exact Hd|]. cbn [de_nameoff names_size foldr].
  rewrite Z.add_0_r. split; [|done]. by rewrite Z.mul_comm, Z.div_mul.
Qed.

Lemma dir_last_block k b : blocks !! k = Some b -> (zlen blocks =? Z.of_nat k + 1) = true ->
  oi_size inode mod EROFS_BLOCK_SIZE = zlen (block_bytes b) /\ Nat.eqb (S k) (length blocks) = true.
Proof.
  intros Hk Hlast. destruct (dst_size _ _ _ Hdir) as (lst & Hl & Hlt & ->). rewrite last_lookup in Hl.
  unfold zlen in Hlast. assert (S k = length blocks) as Hs by lia. rewrite <- Hs in Hl. cbn in Hl. rewrite Hk in Hl. injection Hl as <-.
  split; [|apply Nat.eqb_eq; lia]. pose proof (zlen_nonneg (block_bytes b)). unfold EROFS_BLOCK_SIZE in *.
  rewrite Z.add_comm, Z.mul_comm, Z_mod_plus_full. apply Z.mod_small. lia.
Qed.

Lemma dir_entry_name k b es e fs : blocks !! k = Some b -> b = es ++ e :: fs ->
  entry_name ds w inode (Z.of_nat k) (zlen es) (zlen b) = Ok (en_name e).
Proof.
  intros Hk Hb. pose proof (dir_block_ok k _ Hk) as (_ & Hw & Hz). pose proof (dst_map _ _ _ Hdir) as Hm.
  pose proof (dir_get_entry k b es e fs Hk Hb) as He. destruct (dir_head k b Hk) as (hd & Hhd & _ & Hhn).
  destruct (dst_blocks _ _ _ Hdir k _ Hk) as (off & Ho & Ha & Hst). unfold entry_name. rewrite Ho. cbn [mbind outcome_bind].
  rewrite He. cbn [mbind outcome_bind]. rewrite Hb in Hst, Hw. destruct (block_at es fs e) as [_ E]. rewrite E, <- Hb, <- !(app_assoc _ (_ ++ _)) in Hst.
  rewrite <- (app_assoc (en_name e)) in Hst.
  rewrite zlen_block in Hz. pose proof (names_size_nonneg es). pose proof (names_size_nonneg fs). pose proof (zlen_nonneg es). pose proof (zlen_nonneg fs).
  assert (zlen b = zlen es + 1 + zlen fs) as Hlb by (rewrite Hb, zlen_app; unfold zlen; cbn [length]; lia).
  assert (names_size b = names_size es + zlen (en_name e) + names_size fs) as Hnb by (rewrite Hb, names_size_app; cbn; fold (names_size fs); lia).
  pose proof (zlen_nonneg (en_name e)). pose proof (stored_mid _ _ _ _ _ Hst) as Hst'. rewrite zlen_app, zlen_dirents_from, zlen_names in Hst'.
  pose proof Hm as ((M1 & M2 & M3) & M4 & M5). pose proof Hst' as (S1 & S2 & _). pose proof Hst as (S0 & _). unfold EROFS_BLOCK_SIZE in Hz.
  rewrite usub_in by (unfold in_range; lia). cbn [mbind outcome_bind]. cbn [de_nameoff].
  assert (forall A (f : Z -> io A), (o ← uadd 64 off (12 * zlen b + names_size es); f o) = f (off + (12 * zlen b + names_size es))) as Hadd.
  { intros. rewrite uadd_in by (unfold in_range; lia). done. }
  destruct (Z.ltb_spec (zlen es) (zlen b - 1)) as [Hlt|Hge].
  - destruct fs as [|e' fs]; [unfold zlen in *; cbn [length] in *; lia|].
    pose proof (dir_get_entry k b (es ++ [e]) e' fs Hk ltac:(by rewrite Hb, <- app_assoc)) as He'.
    rewrite zlen_app in He'. change (zlen [e]) with 1 in He'. rewrite He'. cbn [mbind outcome_bind de_nameoff].
    rewrite names_size_app. cbn [names_size foldr]. rewrite Z.add_0_r. rewrite (proj2 (Z.ltb_ge _ _)) by lia. rewrite Hadd.
    erewrite get_slice_stored; [done|done|exact Hst'|lia].
  - destruct fs as [|e' fs]; [|unfold zlen in *; cbn [length] in *; lia]. rewrite Hhd. cbn [mbind outcome_bind]. rewrite Hhn.
    rewrite usub_in by (unfold in_range; lia). cbn [mbind outcome_bind]. rewrite umul_in by (unfold in_range; lia). cbn [mbind outcome_bind].
    rewrite (uadd_in 64 _ (12 * zlen b)) by (unfold in_range; lia). cbn [mbind outcome_bind]. rewrite (proj2 dir_ow_inode). cbn [mbind outcome_bind].
    rewrite (proj1 dir_blocks_count). cbn [mbind outcome_bind]. cbn [fmap list_fmap concat app] in Hst.
    rewrite Forall_app in Hw. destruct Hw as [_ [(_ & _ & _ & Hnul) _]%Forall_cons].
    destruct (zlen blocks =? Z.of_nat k + 1) eqn:Hlast.
    + destruct (dir_last_block k b Hk Hlast) as [Hmod Hpad]. rewrite Hmod, zlen_block, Hnb. cbn [names_size foldr].
      rewrite usub_in by (unfold in_range; lia). cbn [mbind outcome_bind]. rewrite Hadd.
      erewrite get_slice_stored; [|done|exact Hst'|lia]. cbn. by rewrite until_nul_all.
    + unfold block_pad in Hst. assert (Nat.eqb (S k) (length blocks) = false) as Hpad by (unfold zlen in Hlast; apply Nat.eqb_neq; lia).
      rewrite Hpad in Hst. rewrite <- (app_nil_r (en_name e ++ _)) in Hst. pose proof (stored_mid _ _ _ _ _ Hst) as Hst2.
      rewrite zlen_app, zlen_dirents_from, zlen_names in Hst2. unfold EROFS_BLOCK_SIZE in *.
      rewrite usub_in by (unfold in_range; lia). cbn [mbind outcome_bind]. rewrite Hadd.
      erewrite get_slice_stored; [|done|exact Hst2|]. { cbn. by rewrite until_nul_padded. }
      rewrite zlen_app, zlen_block, Hnb. cbn [names_size foldr]. unfold zlen at 2. rewrite length_replicate. lia.
Qed.

(** The entry at a position of a block, as the code reads it. *)
Lemma dir_read k b i : blocks !! k = Some b -> 0 <= i < zlen b -> exists e de, b !! Z.to_nat i = Some e /\
  v6_get_entry ds w inode (Z.of_nat k) i = Ok de /\ de_nid de = en_nid e /\
  entry_name ds w inode (Z.of_nat k) i (zlen b) = Ok (en_name e).
Proof.
  intros Hk Hi. destruct (lookup_lt_is_Some_2 b (Z.to_nat i)) as [e He]; [unfold zlen in Hi; lia|].
  pose proof (lookup_split b _ e He) as Hb. assert (zlen (take (Z.to_nat i) b) = i) as Hz by (unfold zlen in *; rewrite length_take; lia).
  pose proof (dir_get_entry k b _ e _ Hk Hb) as H1. pose proof (dir_entry_name k b _ e _ Hk Hb) as H2. rewrite Hz in H1, H2.
  eexists e, _. split_and!; [done|exact H1|done|exact H2].
Qed.

Lemma dir_block_small k b : blocks !! k = Some b -> 0 < zlen b /\ zlen b < 4096.
Proof.
  intros Hk. pose proof (dir_block_ok k b Hk) as (Hne & _ & Hz). rewrite zlen_block in Hz. pose proof (names_size_nonneg b).
  unfold EROFS_BLOCK_SIZE in Hz. split; [destruct b; [done|unfold zlen; cbn; lia]|lia].
Qed.

Lemma block_search_spec name k b fuel : blocks !! k = Some b -> StronglySorted en_lt b ->
  (forall e, b !! 0%nat = Some e -> name_cmp (en_name e) name <> Gt) ->
  forall first last, 0 <= first <= last + 1 -> last < zlen b -> last - first + 1 < Z.of_nat fuel ->
  (forall j e, b !! j = Some e -> Z.of_nat j < first -> name_cmp (en_name e) name = Lt) ->
  (forall j e, b !! j = Some e -> last < Z.of_nat j -> name_cmp (en_name e) name = Gt) ->
  block_search ds fuel w inode name (Z.of_nat k) (zlen b) first last = Ok (en_nid <$> lookup_entry name b).
Proof.
  intros Hk Hs Hhd. pose proof (dir_block_small k b Hk) as [_ Hsm]. induction fuel as [|fuel IH]; intros first last Hf Hl Hfuel Hlo Hhi; [lia|].
  cbn [block_search]. destruct (Z.leb_spec first last) as [Hle|Hgt].
  2:{ rewrite lookup_entry_None; [done|]. intros j e Hj. destruct (decide (Z.of_nat j < first)); [by rewrite (Hlo j e)|]. rewrite (Hhi j e); [done|done|lia]. }
  pose proof (shiftr1_mid first last Hle) as Hp. set (pivot := first + Z.shiftr (last - first) 1) in *.
  destruct (dir_read k b pivot Hk ltac:(lia)) as (e & de & He & Hde & Hnid & Hnm). rewrite Hde. cbn [mbind outcome_bind]. rewrite Hnm. cbn [mbind outcome_bind].
  destruct (name_cmp (en_name e) name) eqn:Hc.
  - apply name_cmp_eq in Hc. by rewrite (lookup_entry_at name b (Z.to_nat pivot) e Hs He Hc), Hnid.
  - rewrite uadd_in by (unfold in_range; lia). cbn [mbind outcome_bind]. apply IH; try (done || lia). intros j a Hj Hlt.
    destruct (decide (j = Z.to_nat pivot)) as [->|Hne]; [by simplify_eq|]. eapply name_cmp_trans; [|exact Hc].
    eapply (sorted_at b); [done|exact Hj|exact He|lia].
  - destruct (decide (pivot = 0)) as [H0|H0].
    { rewrite H0 in He. by apply Hhd in He. }
    rewrite usub_in by (unfold in_range; lia). cbn [mbind outcome_bind]. apply IH; try (done || lia). intros j a Hj Hlt.
    destruct (decide (j = Z.to_nat pivot)) as [->|Hne]; [by simplify_eq|]. rewrite name_cmp_opp.
    rewrite (name_cmp_trans name (en_name e) (en_name a)); [done|by rewrite name_cmp_opp, Hc|]. eapply (sorted_at b); [done|exact He|exact Hj|lia].
Qed.

Lemma block_ends_spec k b : blocks !! k = Some b -> exists h t, b !! 0%nat = Some h /\ b !! Nat.pred (length b) = Some t /\
  block_ends ds w inode (Z.of_nat k) = Ok (en_name h, en_name t).
Proof.
  intros Hk. destruct (dir_head k b Hk) as (d & Hd & Hc & _). destruct (dir_block_small k b Hk) as [H0 H1].
  destruct (dir_read k b 0 Hk ltac:(lia)) as (h & ? & Hh & _ & _ & Hn). destruct (dir_read k b (zlen b - 1) Hk ltac:(lia)) as (t & ? & Ht & _ & _ & Hm).
  exists h, t. split; [done|]. replace (Z.to_nat (zlen b - 1)) with (Nat.pred (length b)) in Ht by (unfold zlen in *; lia). split; [done|].
  unfold block_ends. rewrite Hd. cbn [mbind outcome_bind]. rewrite Hc, Hn. cbn [mbind outcome_bind]. rewrite usub_in by (unfold in_range; lia).
  cbn [mbind outcome_bind]. by rewrite Hm.
Qed.

(** All names of a block are between its ends. *)
Lemma block_between b h t e : StronglySorted en_lt b -> b !! 0%nat = Some h -> b !! Nat.pred (length b) = Some t -> e ∈ b ->
  (e = h \/ en_lt h e) /\ (e = t \/ en_lt e t).
Proof.
  intros Hs Hh Ht [j Hj]%list_elem_of_lookup. pose proof (lookup_lt_Some _ _ _ Hj). split.
  - destruct j as [|j]; [left; by simplify_eq|]. right. eapply sorted_at; [done|exact Hh|exact Hj|lia].
  - destruct (decide (j = Nat.pred (length b))) as [->|Hne]; [left; by simplify_eq|]. right. eapply sorted_at; [done|exact Hj|exact Ht|lia].
Qed.

Context (Hsorted : StronglySorted en_lt (concat blocks)).

Lemma target_block_spec name fuel : (forall b e, blocks !! 0%nat = Some b -> b !! 0%nat = Some e -> name_cmp (en_name e) name <> Gt) ->
  forall first last, 0 <= first <= last + 1 -> last < zlen blocks -> last - first + 1 < Z.of_nat fuel ->
  (forall j b e, blocks !! j = Some b -> Z.of_nat j < first -> e ∈ b -> name_cmp (en_name e) name = Lt) ->
  (forall j b e, blocks !! j = Some b -> last < Z.of_nat j -> e ∈ b -> name_cmp (en_name e) name = Gt) ->
  exists r b, target_block_loop ds fuel w inode name first last = Ok (Z.of_nat r) /\ blocks !! r = Some b /\
    (forall e, b !! 0%nat = Some e -> name_cmp (en_name e) name <> Gt) /\
    (forall j c, blocks !! j = Some c -> j <> r -> lookup_entry name c = None).
Proof.
  intros Hhd. assert (zlen blocks <= 2 ^ 52) as Hsm.
  { destruct (dst_size _ _ _ Hdir) as (lst & _ & _ & Hz). pose proof (dst_bound _ _ _ Hdir). pose proof (zlen_nonneg (block_bytes lst)). unfold EROFS_BLOCK_SIZE in *. lia. }
  pose proof dir_blocks_count as (_ & Hpos & _).
  induction fuel as [|fuel IH]; intros first last Hf Hl Hfuel Hlo Hhi; [lia|]. cbn [target_block_loop]. destruct (Z.leb_spec first last) as [Hle|Hgt].
  2:{ destruct (lookup_lt_is_Some_2 blocks 0) as [b Hb]; [unfold zlen in Hpos; lia|]. exists 0%nat, b. split_and!; [done|done|eauto|].
      intros j c Hj Hne. apply lookup_entry_None_in. intros e He. destruct (decide (Z.of_nat j < first)); [by rewrite (Hlo j c e)|]. rewrite (Hhi j c e); [done|done|lia|done]. }
  pose proof (shiftr1_mid first last Hle) as Hp. set (pivot := first + Z.shiftr (last - first) 1) in *.
  destruct (lookup_lt_is_Some_2 blocks (Z.to_nat pivot)) as [b Hb]; [unfold zlen in *; lia|].
  destruct (block_ends_spec _ b Hb) as (h & t & Hh & Ht & He). rewrite Z2Nat.id in He by lia. rewrite He. cbn [mbind outcome_bind].
  pose proof (sorted_block blocks _ b Hsorted Hb) as Hsb. assert (h ∈ b) as Hin by (apply list_elem_of_lookup; eauto). assert (t ∈ b) as Tin by (apply list_elem_of_lookup; eauto).
  destruct (decide (name_cmp (en_name h) name = Gt)) as [Hg|Hng].
  - rewrite (bool_decide_eq_false_2 (_ <> Gt)) by auto. cbn [andb]. rewrite bool_decide_eq_true_2 by done.
    destruct (decide (pivot = 0)) as [H0|H0]. { rewrite H0 in Hb. by eapply Hhd in Hh. }
    rewrite usub_in by (unfold in_range; lia). cbn [mbind outcome_bind]. apply IH; try (done || lia). intros j c e Hj Hlt Hec. rewrite name_cmp_opp.
    assert (e = h \/ en_lt h e) as [->|Hhe].
    { destruct (decide (j = Z.to_nat pivot)) as [->|Hne]; [simplify_eq; by eapply block_between|]. right. eapply sorted_blocks; [done|exact Hb|exact Hj|lia|done|done]. }
    + by rewrite name_cmp_opp, Hg.
    + by rewrite (name_cmp_trans name (en_name h) (en_name e)) by (done || by rewrite name_cmp_opp, Hg).
  - rewrite (bool_decide_eq_true_2 (_ <> Gt)) by done. cbn [andb]. case_bool_decide as Hc.
    + exists (Z.to_nat pivot), b. split_and!; [by rewrite Z2Nat.id by lia|done|intros e Hx; by simplify_eq|]. intros j c Hj Hne. apply lookup_entry_None_in. intros e Hec.
      destruct (decide (j < Z.to_nat pivot)%nat) as [Hjl|Hjg].
      * assert (en_lt e h) as Hlt by (eapply sorted_blocks; [done|exact Hj|exact Hb|lia|done|done]). intros Heq%name_cmp_eq. unfold en_lt in Hlt.
        rewrite Heq in Hlt. apply Hng. by rewrite name_cmp_opp, Hlt.
      * assert (en_lt t e) as Hlt by (eapply sorted_blocks; [done|exact Hb|exact Hj|lia|done|done]). intros Heq%name_cmp_eq. unfold en_lt in Hlt. by rewrite Heq in Hlt.
    + rewrite bool_decide_eq_false_2 by done. rewrite uadd_in by (unfold in_range; lia). cbn [mbind outcome_bind]. apply IH; try (done || lia).
      intros j c e Hj Hlt Hec. assert (e = t \/ en_lt e t) as [->|Het]; [|done|by eapply name_cmp_trans].
      destruct (decide (j = Z.to_nat pivot)) as [->|Hne]; [simplify_eq; by eapply block_between|]. right. eapply sorted_blocks; [done|exact Hj|exact Hb|lia|done|done].
Qed.

Lemma dir_lookup name : (forall e, concat blocks !! 0%nat = Some e -> name_cmp (en_name e) name <> Gt) ->
  v6_get_child_by_name ds w name =
  match lookup_entry name (concat blocks) with
  | Some e => ino ← ow_ino ds w; inode_wrapper_with_info ds (en_nid e) ino name
  | None => Err ENOENT
  end.
Proof.
  intros Hhd. pose proof dir_blocks_count as (Hbc & Hpos & Hsz).
  assert (forall b e, blocks !! 0%nat = Some b -> b !! 0%nat = Some e -> name_cmp (en_name e) name <> Gt) as Hhd'.
  { intros b e Hb He. apply Hhd. destruct blocks; [done|]. cbn in Hb. injection Hb as ->. cbn. by rewrite lookup_app_l by (by eapply lookup_lt_Some). }
  assert (zlen blocks <= 2 ^ 52) as Hsm.
  { destruct (dst_size _ _ _ Hdir) as (lst & _ & _ & Hz). pose proof (dst_bound _ _ _ Hdir). pose proof (zlen_nonneg (block_bytes lst)). unfold EROFS_BLOCK_SIZE in *. lia. }
  destruct (target_block_spec name (Z.to_nat (zlen blocks) + 130) Hhd' 0 (zlen blocks - 1)) as (r & b & Hr & Hb & Hhb & Ho); [lia|lia|lia| | |].
  { intros j c e Hj Hlt. lia. }
  { intros j c e Hj Hlt. pose proof (lookup_lt_Some _ _ _ Hj). unfold zlen in Hlt. lia. }
  unfold v6_get_child_by_name, find_target_block. rewrite (proj1 dir_ow_inode). cbn [mbind outcome_bind].
  rewrite (proj2 (Z.eqb_neq _ _) Hsz), Hbc. cbn [mbind outcome_bind]. rewrite usub_in by (unfold in_range; lia). cbn [mbind outcome_bind]. rewrite Hr.
  destruct (dir_head r b Hb) as (d & Hd & Hc & _). rewrite Hd. cbn [mbind outcome_bind]. rewrite Hc.
  destruct (dir_block_small r b Hb) as [B0 B1]. rewrite usub_in by (unfold in_range; lia). cbn [mbind outcome_bind].
  rewrite (block_search_spec name r b _ Hb (sorted_block _ _ _ Hsorted Hb) Hhb); [|lia|lia|lia|intros; lia|intros j e Hj Hlt; pose proof (lookup_lt_Some _ _ _ Hj); unfold zlen in Hlt; lia].
  rewrite (lookup_entry_concat name blocks r b Hb Ho). by destruct (lookup_entry name b).
Qed.

(** *** Listing *)

Section walk_spec.
Context {S : Type} (handler : OndiskInodeWrapper -> list Z -> Z -> Z -> stM S errno RafsInodeWalkAction).

(** The handler on entries, each with the offset of the next one, until it stops. *)
Fixpoint v6_walk_ref (es : list entry) (off : Z) : stM S errno unit :=
  match es with
  | [] => st_ret tt
  | e :: es =>
      ino ← st_lift (ow_ino ds w);
      child ← st_lift (inode_wrapper_with_info ds (en_nid e) ino (en_name e));
      off ← st_lift (uadd 64 off 1);
      action ← handler child (en_name e) (en_nid e) off;
      match action with Break => st_ret tt | Continue => v6_walk_ref es off end
  end.

Lemma walk_block_spec k b rest R : blocks !! k = Some b ->
  (forall skipped off s, 0 <= skipped -> rest skipped off s = v6_walk_ref (drop (Z.to_nat skipped) R) off s) ->
  forall n j skipped off s, (j + n = length b)%nat -> 0 <= skipped ->
  (r ← walk_block ds handler n w inode (Z.of_nat k) (Z.of_nat j) (zlen b) skipped off;
   match r with None => st_ret tt | Some (skipped, off) => rest skipped off end) s =
  v6_walk_ref (drop (Z.to_nat skipped) (drop j b ++ R)) off s.
Proof.
  intros Hk Hrest n. induction n as [|n IH]; intros j skipped off s Hj Hs.
  - rewrite (drop_ge b) by lia. cbn [walk_block]. erewrite st_bind_run by reflexivity. by apply Hrest.
  - destruct (dir_read k b (Z.of_nat j) Hk) as (e & de & He & Hde & Hnid & Hnm); [unfold zlen; lia|]. rewrite Nat2Z.id in He.
    rewrite (drop_S b e j He). cbn [walk_block]. rewrite Hde, Hnm. unfold mbind, stM_bind, st_bind, st_lift. cbv beta iota. rewrite Hnid. destruct (Z.eqb_spec skipped 0) as [->|Hne]; cbn [negb].
    + change (drop (Z.to_nat 0) ((e :: drop (Datatypes.S j) b) ++ R)) with (e :: (drop (Datatypes.S j) b ++ R)). cbn [v6_walk_ref]. unfold mbind, stM_bind, st_bind, st_lift.
      destruct (ow_ino ds w) as [ino| |]; try done. destruct (inode_wrapper_with_info ds (en_nid e) ino (en_name e)) as [child| |]; try done.
      destruct (uadd 64 off 1) as [off'| |]; try done. destruct (handler child (en_name e) (en_nid e) off' s) as [[[]| |] s']; try done.
      specialize (IH (Datatypes.S j) 0 off' s' ltac:(lia) ltac:(lia)). rewrite Nat2Z.inj_succ in IH. exact IH.
    + specialize (IH (Datatypes.S j) (skipped - 1) off s ltac:(lia) ltac:(lia)). rewrite Nat2Z.inj_succ in IH.
      replace (Z.to_nat skipped) with (Datatypes.S (Z.to_nat (skipped - 1))) by lia. exact IH.
Qed.

Lemma walk_blocks_spec n i skipped off s : (i + n = length blocks)%nat -> 0 <= skipped ->
  walk_blocks ds handler n w inode (Z.of_nat i) skipped off s = v6_walk_ref (drop (Z.to_nat skipped) (concat (drop i blocks))) off s.
Proof.
  revert i skipped off s. induction n as [|n IH]; intros i skipped off s Hi Hs.
  - rewrite (drop_ge blocks) by lia. cbn. by rewrite drop_nil.
  - destruct (lookup_lt_is_Some_2 blocks i) as [b Hb]; [lia|]. rewrite (drop_S blocks b i Hb). cbn [walk_blocks concat].
    destruct (dir_head i b Hb) as (d & Hd & Hc & _). rewrite Hd. erewrite st_bind_run by reflexivity. cbv zeta. rewrite Hc.
    apply (walk_block_spec i b (fun sk o => walk_blocks ds handler n w inode (Z.of_nat i + 1) sk o) (concat (drop (Datatypes.S i) blocks)) Hb) with (j := 0%nat); [|unfold zlen; lia|done].
    intros sk o s0 Hsk. replace (Z.of_nat i + 1) with (Z.of_nat (Datatypes.S i)) by lia. apply IH; lia.
Qed.

Lemma dir_walk off s : 0 <= off ->
  v6_walk_children_inodes ds handler w off s = v6_walk_ref (drop (Z.to_nat off) (concat blocks)) off s.
Proof.
  intros Ho. pose proof dir_blocks_count as (Hbc & Hpos & Hsz). unfold v6_walk_children_inodes. rewrite (proj1 dir_ow_inode).
  erewrite st_bind_run by reflexivity. rewrite (proj2 (Z.eqb_neq _ _) Hsz), Hbc. erewrite st_bind_run by reflexivity.
  apply (walk_blocks_spec _ 0); [unfold zlen; lia|done].
Qed.
End walk_spec.

Lemma dir_count : mode_is S_IFDIR (oi_mode inode) = true -> 2 <= zlen (concat blocks) < 2 ^ 32 ->
  v6_get_child_count ds w = Ok (zlen (concat blocks) - 2).
Proof.
  intros Hd Hc. pose proof dir_blocks_count as (Hbc & Hpos & Hsz). unfold v6_get_child_count, ow_mode_is. rewrite (proj1 dir_ow_inode), (proj2 dir_ow_inode).
  cbn [mbind outcome_bind]. rewrite Hd. cbn [negb]. rewrite Hbc. cbn [mbind outcome_bind].
  assert (forall n i cnt, (i + n = length blocks)%nat -> 0 <= cnt -> cnt + zlen (concat (drop i blocks)) < 2 ^ 32 ->
    count_blocks ds n w inode (Z.of_nat i) cnt = Ok (cnt + zlen (concat (drop i blocks)))) as Hcount.
  { induction n as [|n IH]; intros i cnt Hi H0 Hlt; [rewrite (drop_ge blocks) by lia; cbn; f_equal; unfold zlen; cbn; lia|].
    destruct (lookup_lt_is_Some_2 blocks i) as [b Hb]; [lia|]. rewrite (drop_S blocks b i Hb) in *. cbn [count_blocks concat] in *. rewrite zlen_app in *.
    destruct (dir_head i b Hb) as (d & Hd' & Hc' & _). rewrite Hd'. cbn [unwrap mbind outcome_bind]. rewrite Hc'. pose proof (zlen_nonneg b). pose proof (zlen_nonneg (concat (drop (S i) blocks))).
    rewrite uadd_in by (unfold in_range; lia). cbn [mbind outcome_bind]. replace (Z.of_nat i + 1) with (Z.of_nat (S i)) by lia. rewrite IH by lia. f_equal. lia. }
  specialize (Hcount (Z.to_nat (zlen blocks)) 0%nat 0). change (drop 0 blocks) with blocks in Hcount. change (Z.of_nat 0) with 0 in Hcount.
  rewrite Hcount by (unfold zlen in *; lia). cbn [mbind outcome_bind]. rewrite usub_in by (unfold in_range; lia). f_equal; lia.
Qed.

End dir.
