(* ===== verification/RafsV6Xattr.v ===== *)
(** Extended attributes of RAFS v6 inodes ([rafs/src/metadata/layout/v6.rs], [RafsXAttrs];
    [get_xattr] and [get_xattrs] of [rafs/src/metadata/direct_v6.rs]).

    Attributes follow the inode: a header of 12 bytes, then entries padded to four bytes. An entry
    holds an index that stands for the prefix of its name, the rest of the name, and the value. *)
From S2P Require Import Prelude Utils LittleEndian ChunkInfo Device RafsLayout RafsV5 RafsBlobTable RafsV5Inode CachedInode CachedDir Overlay RafsV6Inode DirectV6.

(** [RAFSV6_XATTR_TYPES]: prefixes and their indexes. *)
Definition RAFSV6_XATTR_TYPES : list (list Z * Z) :=
  [(bytes_of_string "user.", 1); (bytes_of_string "system.posix_acl_access", 2); (bytes_of_string "system.posix_acl_default", 3);
   (bytes_of_string "trusted.", 4); (bytes_of_string "security.", 6)].

Record RafsV6XattrEntry := mkXattrEntry { xe_name_len : Z; xe_name_index : Z; xe_value_size : Z }.

Definition xattr_entry_bytes (e : RafsV6XattrEntry) : list Z :=
  le_bytes 1 (xe_name_len e) ++ le_bytes 1 (xe_name_index e) ++ le_bytes 2 (xe_value_size e).
Definition xattr_entry_of_bytes (b : list Z) : RafsV6XattrEntry := mkXattrEntry (get_le 0 1 b) (get_le 1 1 b) (get_le 2 2 b).

(** [RafsV6XattrIbodyHeader::new]. *)
Definition xattr_header : list Z := replicate 12 0.

Fixpoint namespace_of (index : Z) (types : list (list Z * Z)) : io (list Z) :=
  match types with [] => Err EINVAL | (p, i) :: types => if i =? index then Ok p else namespace_of index types end.
Definition recover_namespace (index : Z) : io (list Z) := namespace_of index RAFSV6_XATTR_TYPES.

(** The prefixes are ASCII, so a key starts with one exactly if its lossy conversion does. *)
Fixpoint prefix_of (key : list Z) (types : list (list Z * Z)) : io (Z * Z) :=
  match types with [] => Err EINVAL | (p, i) :: types => if starts_with p key then Ok (i, zlen p) else prefix_of key types end.
Definition match_prefix (key : list Z) : io (Z * Z) := prefix_of key RAFSV6_XATTR_TYPES.

Section store.
Context `{Profile}.

(** The loop of [aligned_size_v6]; [expect] panics on a key without prefix. *)
Fixpoint add_pair_sizes (pairs : list (list Z * list Z)) (size : Z) : io Z :=
  match pairs with
  | [] => Ok size
  | (key, value) :: pairs =>
      p ← unwrap (match_prefix key);
      size ← uadd 64 size 4;
      n ← usub 64 (zlen key) p.2;
      n ← uadd 64 n (zlen value);
      size ← uadd 64 size n;
      size ← round_up size 4;
      add_pair_sizes pairs size
  end.

Definition aligned_size_v6 (pairs : list (list Z * list Z)) : io Z :=
  match pairs with [] => Ok 0 | _ => add_pair_sizes pairs 12 end.

Definition count_v6 (pairs : list (list Z * list Z)) : io Z :=
  match pairs with
  | [] => Ok 0
  | _ => size ← aligned_size_v6 pairs; n ← usub 64 size 12; Ok (n / 4 + 1)
  end.

Fixpoint store_pairs_v6 (pairs : list (list Z * list Z)) : stM (list Z) errno unit :=
  match pairs with
  | [] => st_ret tt
  | (key, value) :: pairs =>
      p ← st_lift (match_prefix key);
      let '(index, prefix_len) := p in
      if zlen key <=? prefix_len then st_lift (Err EINVAL)
      else if 2 ^ 16 - 1 <? zlen value then st_lift (Err EINVAL)
      else
        let entry := mkXattrEntry (wrap 8 (zlen key - prefix_len)) index (zlen value) in
        _ ← write_all (xattr_entry_bytes entry);
        _ ← write_all (drop (Z.to_nat prefix_len) key);
        _ ← write_all value;
        n ← st_lift (uadd 64 4 (zlen key));
        n ← st_lift (usub 64 n prefix_len);
        size ← st_lift (uadd 64 n (zlen value));
        r ← st_lift (round_up size 4);
        padding ← st_lift (usub 64 r size);
        _ ← write_padding padding;
        store_pairs_v6 pairs
  end.

Definition store_v6 (pairs : list (list Z * list Z)) : stM (list Z) errno Z :=
  _ ← write_all xattr_header;
  _ ← store_pairs_v6 pairs;
  st_ret 0.
End store.

(** ** Reading *)

Section read.
Context `{Profile} (ds : DirectSuperBlockV6).

(** The entry at an offset, with its full name. *)
Definition xattr_at (offset : Z) : io (RafsV6XattrEntry * list Z) :=
  b ← get_ref (ds_map ds) offset 4 2;
  let e := xattr_entry_of_bytes b in
  ns ← recover_namespace (xe_name_index e);
  o ← uadd 64 offset 4;
  suffix ← get_slice (ds_map ds) o (xe_name_len e) 1;
  Ok (e, ns ++ suffix).

(** The step to the next entry: the new [offset] and [remaining]. *)
Definition next_xattr (e : RafsV6XattrEntry) (offset remaining : Z) : io (Z * Z) :=
  s ← uadd 32 (xe_name_len e) (xe_value_size e);
  s ← uadd 32 s 4;
  s ← round_up s 4;
  let s := wrap 32 s in
  remaining ← usub 64 remaining s;
  offset ← uadd 64 offset s;
  Ok (offset, remaining).

(** Every turn moves [offset] by at least four bytes, and an offset past the mapping is an error. *)
Fixpoint find_xattr (fuel : nat) (name : list Z) (offset remaining : Z) : io (option (list Z)) :=
  match fuel with
  | O => Panic
  | S fuel =>
      if 0 <? remaining then
        x ← xattr_at offset;
        let '(e, xa_name) := x in
        if bool_decide (xa_name = name) then
          o ← uadd 64 offset 4;
          o ← uadd 64 o (xe_name_len e);
          data ← get_slice (ds_map ds) o (xe_value_size e) 1;
          Ok (Some data)
        else
          n ← next_xattr e offset remaining;
          find_xattr fuel name n.1 n.2
      else Ok None
  end.

Definition v6_get_xattr (self : OndiskInodeWrapper) (name : list Z) : io (option (list Z)) :=
  inode ← ow_disk_inode ds self;
  let total := oi_xattr_inline_count inode in
  if total =? 0 then Ok None
  else
    o ← uadd 64 (ow_offset self) (inode_size inode);
    offset ← uadd 64 o 12;
    let remaining := (total - 1) * 4 in
    find_xattr (S (length (mp_bytes (ds_map ds)))) name offset remaining.

Fixpoint list_xattrs (fuel : nat) (offset remaining : Z) : io (list (list Z)) :=
  match fuel with
  | O => Panic
  | S fuel =>
      if 0 <? remaining then
        x ← xattr_at offset;
        let '(e, xa) := x in
        n ← next_xattr e offset remaining;
        rest ← list_xattrs fuel n.1 n.2;
        Ok (xa :: rest)
      else Ok []
  end.

Definition v6_get_xattrs (self : OndiskInodeWrapper) : io (list (list Z)) :=
  inode ← ow_disk_inode ds self;
  let total := oi_xattr_inline_count inode in
  if total =? 0 then Ok []
  else
    o ← uadd 64 (ow_offset self) (inode_size inode);
    offset ← uadd 64 o 12;
    let remaining := (total - 1) * 4 in
    list_xattrs (S (length (mp_bytes (ds_map ds)))) offset remaining.
End read.

(** ** Reading back *)

(** What [RafsXAttrs::add] lets in, less the longest value. *)
Definition xattr_ok (kv : list Z * list Z) : Prop :=
  (exists p i, (p, i) ∈ RAFSV6_XATTR_TYPES /\ exists suffix, kv.1 = p ++ suffix /\ suffix <> []) /\
  zlen kv.1 <= 255 /\ zlen kv.2 < 2 ^ 16.

(** The suffix of a key, the index of its prefix, and the bytes of an entry. *)
Definition pair_prefix (kv : list Z * list Z) : Z * Z := match match_prefix kv.1 with Ok p => p | _ => (0, 0) end.
Definition pair_suffix (kv : list Z * list Z) : list Z := drop (Z.to_nat (pair_prefix kv).2) kv.1.
Definition pair_len (kv : list Z * list Z) : Z := 4 + zlen (pair_suffix kv) + zlen kv.2.
Definition pair_room (kv : list Z * list Z) : Z := (pair_len kv + 3) / 4 * 4.
Definition pair_bytes_v6 (kv : list Z * list Z) : list Z :=
  xattr_entry_bytes (mkXattrEntry (zlen (pair_suffix kv)) (pair_prefix kv).1 (zlen kv.2)) ++ pair_suffix kv ++ kv.2 ++
  replicate (Z.to_nat (pair_room kv - pair_len kv)) 0.

Definition pairs_room (pairs : list (list Z * list Z)) : Z := foldr (fun kv n => pair_room kv + n) 0 pairs.
Definition xattr_area (pairs : list (list Z * list Z)) : list Z := xattr_header ++ concat (pair_bytes_v6 <$> pairs).

Lemma starts_with_app p s : starts_with p (p ++ s) = true.
Proof. unfold starts_with. rewrite take_app_length. by apply bool_decide_eq_true_2. Qed.

(** No prefix is the start of a key with another prefix. *)
Lemma match_prefix_app p i s : (p, i) ∈ RAFSV6_XATTR_TYPES -> match_prefix (p ++ s) = Ok (i, zlen p) /\ recover_namespace i = Ok p.
Proof.
  unfold RAFSV6_XATTR_TYPES. rewrite !elem_of_cons, elem_of_nil. intros Hin. unfold match_prefix, RAFSV6_XATTR_TYPES, prefix_of.
  destruct_or! Hin; injection Hin as -> ->; (split; [|vm_compute; reflexivity]); cbv; reflexivity.
Qed.

Lemma round_up_spec `{Profile} {E} n k : 0 <= k < 63 -> 0 <= n -> n + 2 ^ k < 2 ^ 64 ->
  @round_up _ E n (2 ^ k) = Ok ((n + 2 ^ k - 1) / 2 ^ k * 2 ^ k).
Proof.
  intros Hk Hn Hb. unfold round_up. rewrite div_round_up_spec by done. cbn [mbind outcome_bind]. assert (0 < 2 ^ k) by (apply Z.pow_pos_nonneg; lia).
  pose proof (Z.div_pos (n + 2 ^ k - 1) (2 ^ k)). pose proof (Z.mul_div_le (n + 2 ^ k - 1) (2 ^ k)). apply umul_in. unfold in_range. lia.
Qed.

Lemma pair_facts kv : xattr_ok kv -> exists p i, pair_prefix kv = (i, zlen p) /\ match_prefix kv.1 = Ok (i, zlen p) /\
  recover_namespace i = Ok p /\ kv.1 = p ++ pair_suffix kv /\ 0 < zlen (pair_suffix kv) <= 255 /\ in_range 8 i /\ zlen kv.1 = zlen p + zlen (pair_suffix kv) /\ 0 <= zlen p.
Proof.
  intros ((p & i & Hin & s & Hk & Hs) & Hl & _). destruct (match_prefix_app p i s Hin) as [Hm Hr]. exists p, i.
  assert (pair_prefix kv = (i, zlen p)) as Hp by (unfold pair_prefix; by rewrite Hk, Hm).
  assert (pair_suffix kv = s) as -> by (unfold pair_suffix; rewrite Hp, Hk; cbn [snd]; unfold zlen; by rewrite Nat2Z.id, drop_app_length).
  rewrite Hk in *. rewrite zlen_app in Hl |- *. pose proof (zlen_nonneg p). assert (0 < zlen s) by (destruct s; [done|unfold zlen; cbn; lia]).
  split_and!; try done; try lia.
  all: unfold RAFSV6_XATTR_TYPES in Hin; rewrite !elem_of_cons, elem_of_nil in Hin; destruct_or! Hin; by injection Hin as _ ->.
Qed.

Lemma pair_room_bounds kv : pair_len kv <= pair_room kv < pair_len kv + 4 /\ pair_room kv mod 4 = 0.
Proof. unfold pair_room. pose proof (Z.div_mod (pair_len kv + 3) 4). pose proof (Z.mod_pos_bound (pair_len kv + 3) 4). split; [lia|by apply Z.mod_mul]. Qed.

Lemma pair_len_bounds kv : xattr_ok kv -> 5 <= pair_len kv < 2 ^ 17.
Proof.
  intros Hx. destruct (pair_facts kv Hx) as (p & i & _ & _ & _ & _ & Hs & _). destruct Hx as (_ & _ & Hv). pose proof (zlen_nonneg kv.2). unfold pair_len. lia.
Qed.

Lemma zlen_pair_bytes kv : zlen (pair_bytes_v6 kv) = pair_room kv.
Proof.
  pose proof (pair_room_bounds kv). unfold pair_bytes_v6, xattr_entry_bytes, pair_len, zlen in *.
  rewrite !length_app, !length_le_bytes, length_replicate. lia.
Qed.

Lemma zlen_pairs_bytes pairs : zlen (concat (pair_bytes_v6 <$> pairs)) = pairs_room pairs.
Proof. induction pairs as [|kv pairs IH]; [done|]. rewrite fmap_cons. cbn [concat pairs_room foldr]. rewrite zlen_app, zlen_pair_bytes, IH. done. Qed.

Lemma pairs_room_aligned pairs : pairs_room pairs mod 4 = 0 /\ 0 <= pairs_room pairs.
Proof.
  induction pairs as [|kv pairs [IH1 IH2]]; [done|]. cbn [pairs_room foldr]. fold (pairs_room pairs). pose proof (pair_room_bounds kv) as [Hb Hm].
  assert (0 <= pair_len kv) by (unfold pair_len; pose proof (zlen_nonneg (pair_suffix kv)); pose proof (zlen_nonneg kv.2); lia).
  split; [|lia]. rewrite Z.add_mod, Hm, IH1 by lia. done.
Qed.

Section roundtrip.
Context `{Profile}.

Lemma store_pairs_v6_run pairs w : Forall xattr_ok pairs -> store_pairs_v6 pairs w = (Ok tt, w ++ concat (pair_bytes_v6 <$> pairs)).
Proof.
  intros Hok. revert w. induction Hok as [|[key value] pairs Hx Hok IH]; intros w; [by rewrite app_nil_r|].
  destruct (pair_facts _ Hx) as (p & i & Hpp & Hm & Hr & Hk & Hs & Hi & Hz & Hp0). pose proof (pair_len_bounds _ Hx) as Hlen. pose proof (pair_room_bounds (key, value)) as [Hrm _].
  destruct Hx as (_ & Hkl & Hv). cbn [fst snd] in *. cbn [store_pairs_v6]. rewrite Hm. erewrite st_bind_run by reflexivity. cbv beta iota.
  rewrite (proj2 (Z.leb_gt _ _)) by lia. rewrite (proj2 (Z.ltb_ge _ _)) by lia. cbv zeta. erewrite st_bind_run by reflexivity. erewrite st_bind_run by reflexivity. erewrite st_bind_run by reflexivity.
  unfold pair_len in *. cbn [snd] in *. pose proof (zlen_nonneg value).
  rewrite (uadd_in 64 4) by (unfold in_range; lia). erewrite st_bind_run by reflexivity. rewrite usub_in by (unfold in_range; lia). erewrite st_bind_run by reflexivity.
  rewrite uadd_in by (unfold in_range; lia). erewrite st_bind_run by reflexivity. rewrite (round_up_spec _ 2) by lia. erewrite st_bind_run by reflexivity.
  replace (4 + zlen key - zlen p + zlen value) with (pair_len (key, value)) by (unfold pair_len; cbn [snd]; lia). change (2 ^ 2) with 4.
  replace (pair_len (key, value) + 4 - 1) with (pair_len (key, value) + 3) by lia. fold (pair_room (key, value)). unfold pair_len in *. cbn [snd] in *.
  rewrite usub_in by (unfold in_range; lia). erewrite st_bind_run by reflexivity. unfold write_padding. rewrite (proj2 (Z.ltb_ge _ _)) by lia. erewrite st_bind_run by reflexivity.
  rewrite IH. rewrite fmap_cons. cbn [concat]. f_equal. rewrite <- !app_assoc. unfold pair_bytes_v6, pair_len. rewrite Hpp. cbn [fst snd]. rewrite <- !app_assoc.
  rewrite wrap_small by (unfold in_range; lia). replace (zlen key - zlen p) with (zlen (pair_suffix (key, value))) by lia.
  by replace (drop (Z.to_nat (zlen p)) key) with (pair_suffix (key, value)) by (unfold pair_suffix; by rewrite Hpp).
Qed.

Lemma store_v6_run pairs w : Forall xattr_ok pairs -> store_v6 pairs w = (Ok 0, w ++ xattr_area pairs).
Proof.
  intros Hok. unfold store_v6. erewrite st_bind_run by reflexivity. erewrite st_bind_run by (by apply store_pairs_v6_run).
  unfold st_ret, xattr_area. by rewrite app_assoc.
Qed.

Lemma aligned_size_v6_run pairs : Forall xattr_ok pairs -> pairs_room pairs < 2 ^ 62 ->
  aligned_size_v6 pairs = Ok (if bool_decide (pairs = []) then 0 else 12 + pairs_room pairs).
Proof.
  intros Hok Hb. assert (forall l size, Forall xattr_ok l -> 0 <= size -> size mod 4 = 0 -> size + pairs_room l < 2 ^ 63 -> add_pair_sizes l size = Ok (size + pairs_room l)) as Hgo.
  { clear pairs Hok Hb. intros l. induction l as [|[key value] l IH]; intros size Hl H0 H4 Hs; [cbn; f_equal; lia|].
    apply Forall_cons in Hl as [Hx Hl]. cbn [pairs_room foldr] in Hs |- *. fold (pairs_room l) in Hs |- *. pose proof (pairs_room_aligned l) as [_ R0].
    destruct (pair_facts _ Hx) as (p & i & _ & Hm & _ & _ & Hsuf & _ & Hz & Hp0). pose proof (pair_len_bounds _ Hx) as Hlen. pose proof (pair_room_bounds (key, value)) as [Hrm _].
    cbn [fst snd] in *. cbn [add_pair_sizes]. rewrite Hm. cbn [unwrap mbind outcome_bind snd]. pose proof (zlen_nonneg value). unfold pair_len in *. cbn [snd] in *.
    rewrite (uadd_in 64 size) by (unfold in_range; lia). cbn [mbind outcome_bind]. rewrite usub_in by (unfold in_range; lia). cbn [mbind outcome_bind].
    rewrite (uadd_in 64 _ (zlen value)) by (unfold in_range; lia). cbn [mbind outcome_bind]. rewrite uadd_in by (unfold in_range; lia). cbn [mbind outcome_bind].
    rewrite (round_up_spec _ 2) by lia. cbn [mbind outcome_bind]. change (2 ^ 2) with 4.
    assert ((size + 4 + (zlen key - zlen p + zlen value) + 4 - 1) / 4 * 4 = size + pair_room (key, value)) as ->.
    { unfold pair_room, pair_len. cbn [snd]. apply Z.mod_divide in H4 as [q ->]; [|done].
      replace (q * 4 + 4 + (zlen key - zlen p + zlen value) + 4 - 1) with (4 + zlen (pair_suffix (key, value)) + zlen value + 3 + q * 4) by lia. rewrite Z.div_add by lia. lia. }
    rewrite IH; [f_equal; lia|done|lia| |lia]. rewrite Z.add_mod, H4, (proj2 (pair_room_bounds (key, value))) by lia. done. }
  destruct pairs as [|kv pairs]; [done|]. cbn [aligned_size_v6]. rewrite Hgo by (done || lia). by rewrite bool_decide_eq_false_2.
Qed.

Lemma count_v6_run pairs : Forall xattr_ok pairs -> pairs_room pairs < 2 ^ 62 ->
  count_v6 pairs = Ok (if bool_decide (pairs = []) then 0 else pairs_room pairs / 4 + 1).
Proof.
  intros Hok Hb. pose proof (aligned_size_v6_run pairs Hok Hb) as Ha. pose proof (pairs_room_aligned pairs) as [_ R0]. destruct pairs as [|kv pairs]; [done|]. cbn [count_v6]. rewrite Ha. rewrite bool_decide_eq_false_2 by done.
  cbn [mbind outcome_bind]. rewrite usub_in by (unfold in_range; lia). cbn [mbind outcome_bind]. f_equal. f_equal. f_equal. lia.
Qed.
End roundtrip.

Section read_back.
Context `{Profile} (ds : DirectSuperBlockV6) (Hmap : map_wf (ds_map ds)).
Notation m := (ds_map ds).

Lemma stored_head off a b : stored m off (a ++ b) -> stored m off a.
Proof. intros Hs. pose proof (stored_mid m off [] a b Hs) as Hh. by rewrite Z.add_0_r in Hh. Qed.

Lemma stored_tail off a b : stored m off (a ++ b) -> stored m (off + zlen a) b.
Proof. intros Hs. apply (stored_mid m off a b []). by rewrite app_nil_r. Qed.

Lemma stored_bound off data : stored m off data -> 0 <= off /\ off + zlen data < 2 ^ 64.
Proof. intros (H0 & H1 & _). destruct Hmap as ((M1 & M2 & M3) & M4 & _). pose proof (zlen_nonneg data). lia. Qed.

Lemma xattr_at_stored kv off : xattr_ok kv -> stored m off (pair_bytes_v6 kv) -> off mod 2 = 0 ->
  xattr_at ds off = Ok (mkXattrEntry (zlen (pair_suffix kv)) (pair_prefix kv).1 (zlen kv.2), kv.1).
Proof.
  intros Hx Hst Ha. destruct (pair_facts kv Hx) as (p & i & Hpp & _ & Hr & Hk & Hs & Hi & _). destruct Hx as (_ & _ & Hv).
  pose proof (stored_bound _ _ Hst) as [B0 B1]. pose proof (zlen_nonneg kv.2).
  unfold pair_bytes_v6 in Hst. pose proof (stored_head _ _ _ Hst) as Hh. pose proof (stored_head _ _ _ (stored_tail _ _ _ Hst)) as Hsuf.
  assert (zlen (xattr_entry_bytes (mkXattrEntry (zlen (pair_suffix kv)) (pair_prefix kv).1 (zlen kv.2))) = 4) as H4 by (unfold zlen, xattr_entry_bytes; by rewrite !length_app, !length_le_bytes).
  rewrite H4 in Hsuf. unfold xattr_at. change 2 with (2 ^ 1) at 1. rewrite (get_ref_stored m off _ 4 1 Hmap Hh H4 ltac:(lia) Ha). cbn [mbind outcome_bind].
  assert (xattr_entry_of_bytes (xattr_entry_bytes (mkXattrEntry (zlen (pair_suffix kv)) (pair_prefix kv).1 (zlen kv.2))) = mkXattrEntry (zlen (pair_suffix kv)) (pair_prefix kv).1 (zlen kv.2)) as ->.
  { unfold xattr_entry_of_bytes, xattr_entry_bytes. rewrite <- (app_nil_r (le_bytes 2 _)). rewrite Hpp. cbn [xe_name_len xe_name_index xe_value_size fst]. read_fields. done. }
  cbn [xe_name_index xe_name_len]. rewrite Hpp. cbn [fst]. rewrite Hr. cbn [mbind outcome_bind].
  rewrite uadd_in by (unfold in_range; rewrite zlen_pair_bytes in B1; pose proof (pair_room_bounds kv); unfold pair_len in *; lia).
  cbn [mbind outcome_bind]. rewrite (get_slice_stored m _ _ (zlen (pair_suffix kv)) 1 Hmap Hsuf) by lia. cbn [mbind outcome_bind]. by rewrite <- Hk.
Qed.

Lemma next_xattr_pair kv off remaining : xattr_ok kv -> pair_room kv <= remaining < 2 ^ 64 -> 0 <= off -> off + pair_room kv < 2 ^ 64 ->
  next_xattr (mkXattrEntry (zlen (pair_suffix kv)) (pair_prefix kv).1 (zlen kv.2)) off remaining = Ok (off + pair_room kv, remaining - pair_room kv).
Proof.
  intros Hx Hr Ho Hb. pose proof (pair_len_bounds kv Hx) as Hl. pose proof (pair_room_bounds kv) as [Hrm _].
  pose proof (zlen_nonneg (pair_suffix kv)). pose proof (zlen_nonneg kv.2). unfold next_xattr. cbn [xe_name_len xe_value_size]. unfold pair_len in Hl.
  rewrite (uadd_in 32 (zlen (pair_suffix kv))) by (unfold in_range; lia). cbn [mbind outcome_bind]. rewrite uadd_in by (unfold in_range; lia). cbn [mbind outcome_bind].
  rewrite (round_up_spec _ 2) by lia. cbn [mbind outcome_bind]. change (2 ^ 2) with 4.
  replace (zlen (pair_suffix kv) + zlen kv.2 + 4 + 4 - 1) with (pair_len kv + 3) by (unfold pair_len; lia). fold (pair_room kv).
  rewrite (wrap_small 32 (pair_room kv)) by (unfold in_range, pair_len in *; lia). rewrite usub_in by (unfold in_range, pair_len in *; lia). cbn [mbind outcome_bind].
  by rewrite uadd_in by (unfold in_range, pair_len in *; lia).
Qed.

Lemma pair_step_aligned kv off : off mod 2 = 0 -> (off + pair_room kv) mod 2 = 0.
Proof.
  intros Ha. pose proof (pair_room_bounds kv) as [_ Hm]. apply Z.mod_divide in Hm as [q ->]; [|done].
  replace (off + q * 4) with (off + (q * 2) * 2) by lia. by rewrite Z.mod_add.
Qed.

Lemma find_xattr_stored name pairs : forall fuel off, Forall xattr_ok pairs -> stored m off (concat (pair_bytes_v6 <$> pairs)) -> off mod 2 = 0 ->
  (length pairs < fuel)%nat -> find_xattr ds fuel name off (pairs_room pairs) = Ok ((list_to_map pairs : gmap (list Z) (list Z)) !! name).
Proof.
  induction pairs as [|kv pairs IH]; intros fuel off Hok Hst Ha Hf; (destruct fuel as [|fuel]; [cbn in Hf; lia|]); [done|].
  apply Forall_cons in Hok as [Hx Hok]. rewrite fmap_cons in Hst. cbn [concat] in Hst. pose proof (stored_head _ _ _ Hst) as Hh. pose proof (stored_tail _ _ _ Hst) as Ht.
  rewrite zlen_pair_bytes in Ht. pose proof (pair_len_bounds kv Hx) as Hl. pose proof (pair_room_bounds kv) as [Hrm _]. pose proof (pairs_room_aligned pairs) as [_ R0].
  pose proof (stored_bound _ _ Hst) as [B0 B1]. rewrite zlen_app, zlen_pair_bytes, zlen_pairs_bytes in B1.
  cbn [find_xattr pairs_room foldr]. fold (pairs_room pairs). rewrite (proj2 (Z.ltb_lt _ _)) by lia. rewrite (xattr_at_stored kv off Hx Hh Ha). cbn [mbind outcome_bind].
  destruct kv as [key value]. rewrite list_to_map_cons. cbn [fst snd]. case_bool_decide as Hn.
  - subst name. rewrite lookup_insert. rewrite decide_True by done. unfold pair_bytes_v6 in Hh. pose proof (stored_head _ _ _ (stored_tail _ _ _ (stored_tail _ _ _ Hh))) as Hv.
    assert (zlen (xattr_entry_bytes (mkXattrEntry (zlen (pair_suffix (key, value))) (pair_prefix (key, value)).1 (zlen (key, value).2))) = 4) as H4 by (unfold zlen, xattr_entry_bytes; by rewrite !length_app, !length_le_bytes).
    rewrite H4 in Hv. cbn [snd xe_name_len xe_value_size] in *. unfold pair_len in *. cbn [snd] in *. pose proof (zlen_nonneg value). pose proof (zlen_nonneg (pair_suffix (key, value))).
    rewrite (uadd_in 64 off) by (unfold in_range; lia). cbn [mbind outcome_bind]. rewrite uadd_in by (unfold in_range; lia). cbn [mbind outcome_bind].
    by rewrite (get_slice_stored m _ _ (zlen value) 1 Hmap Hv) by lia.
  - rewrite lookup_insert_ne by done. rewrite next_xattr_pair by (done || lia). cbn [mbind outcome_bind fst snd].
    replace (pair_room (key, value) + pairs_room pairs - pair_room (key, value)) with (pairs_room pairs) by lia.
    apply IH; [done|done|by apply pair_step_aligned|cbn in Hf; lia].
Qed.

Lemma list_xattrs_stored pairs : forall fuel off, Forall xattr_ok pairs -> stored m off (concat (pair_bytes_v6 <$> pairs)) -> off mod 2 = 0 ->
  (length pairs < fuel)%nat -> list_xattrs ds fuel off (pairs_room pairs) = Ok pairs.*1.
Proof.
  induction pairs as [|kv pairs IH]; intros fuel off Hok Hst Ha Hf; (destruct fuel as [|fuel]; [cbn in Hf; lia|]); [done|].
  apply Forall_cons in Hok as [Hx Hok]. rewrite fmap_cons in Hst. cbn [concat] in Hst. pose proof (stored_head _ _ _ Hst) as Hh. pose proof (stored_tail _ _ _ Hst) as Ht.
  rewrite zlen_pair_bytes in Ht. pose proof (pair_len_bounds kv Hx) as Hl. pose proof (pair_room_bounds kv) as [Hrm _]. pose proof (pairs_room_aligned pairs) as [_ R0].
  pose proof (stored_bound _ _ Hst) as [B0 B1]. rewrite zlen_app, zlen_pair_bytes, zlen_pairs_bytes in B1.
  cbn [list_xattrs pairs_room foldr]. fold (pairs_room pairs). rewrite (proj2 (Z.ltb_lt _ _)) by lia. rewrite (xattr_at_stored kv off Hx Hh Ha). cbn [mbind outcome_bind].
  rewrite next_xattr_pair by (done || lia). cbn [mbind outcome_bind fst snd]. replace (pair_room kv + pairs_room pairs - pair_room kv) with (pairs_room pairs) by lia.
  by rewrite (IH fuel _ Hok Ht (pair_step_aligned kv off Ha)) by (cbn in Hf; lia).
Qed.

(** An inode whose attributes are stored behind it. *)
Definition xattrs_stored (w : OndiskInodeWrapper) (inode : DiskInode) (pairs : list (list Z * list Z)) : Prop :=
  disk_inode ds (ow_offset w) = Ok inode /\ ow_offset w mod 2 = 0 /\
  oi_xattr_inline_count inode = (if bool_decide (pairs = []) then 0 else pairs_room pairs / 4 + 1) /\
  (pairs <> [] -> stored m (ow_offset w + inode_size inode) (xattr_area pairs)).

Lemma xattrs_read w inode pairs name : Forall xattr_ok pairs -> xattrs_stored w inode pairs ->
  v6_get_xattr ds w name = Ok ((list_to_map pairs : gmap (list Z) (list Z)) !! name) /\ v6_get_xattrs ds w = Ok pairs.*1.
Proof.
  intros Hok (Hi & Ha & Hc & Hst). unfold v6_get_xattr, v6_get_xattrs, ow_disk_inode. rewrite Hi. cbn [unwrap mbind outcome_bind]. rewrite Hc.
  destruct (decide (pairs = [])) as [->|Hne]; [done|]. rewrite bool_decide_eq_false_2 by done. specialize (Hst Hne). pose proof (pairs_room_aligned pairs) as [R4 R0].
  pose proof (Z.div_pos (pairs_room pairs) 4 R0 ltac:(lia)). rewrite (proj2 (Z.eqb_neq _ _)) by lia. unfold xattr_area in Hst. pose proof (stored_tail _ _ _ Hst) as Ht.
  pose proof (stored_bound _ _ Hst) as [B0 B1]. pose proof (stored_bound _ _ Ht) as [B2 B3]. change (zlen xattr_header) with 12 in *. rewrite zlen_app in B1. change (zlen xattr_header) with 12 in B1. pose proof (zlen_nonneg (concat (pair_bytes_v6 <$> pairs))).
  rewrite (uadd_in 64 (ow_offset w)) by (unfold in_range; lia). cbn [mbind outcome_bind]. rewrite uadd_in by (unfold in_range; lia). cbn [mbind outcome_bind].
  replace ((pairs_room pairs / 4 + 1 - 1) * 4) with (pairs_room pairs) by (apply Z.mod_divide in R4 as [q ->]; [|done]; rewrite Z.div_mul by lia; lia).
  assert (length pairs < S (length (mp_bytes m)))%nat as Hf.
  { destruct Ht as (_ & Ht & _). rewrite zlen_pairs_bytes in Ht. assert (zlen pairs <= pairs_room pairs) as Hz.
    { clear -Hok. induction Hok as [|kv pairs Hx Hok IH]; [done|]. cbn [pairs_room foldr]. fold (pairs_room pairs). pose proof (pair_len_bounds kv Hx). pose proof (pair_room_bounds kv). unfold zlen in *. cbn [length]. lia. }
    unfold zlen in *. lia. }
  assert ((ow_offset w + inode_size inode + 12) mod 2 = 0) as Ha'.
  { unfold inode_size. destruct (negb _); rewrite <- Z.add_assoc, Z.add_mod, Ha by lia; done. }
  by rewrite (find_xattr_stored name pairs _ _ Hok Ht Ha' Hf), (list_xattrs_stored pairs _ _ Hok Ht Ha' Hf).
Qed.
End read_back.
