(* ===== verification/V6Layout.v ===== *)
(** Placement of RAFS v6 metadata in the bootstrap ([src/bin/nydus-image/core/context.rs],
    [BootstrapContext]; the offsets of [src/bin/nydus-image/core/node.rs]).

    Inodes, with the tail of their data if it fits into their block, are placed in the unused end
    of blocks when there is room, and behind all other metadata otherwise. The theorem is that no
    two pieces overlap, whatever nodes are placed in whatever order. *)
From S2P Require Import Prelude Utils LittleEndian ChunkInfo Device RafsLayout RafsV5 RafsBlobTable RafsV5Inode CachedInode CachedDir Overlay Builder RafsV6Inode DirectV6 RafsV6Xattr.

(** ** The allocator *)

(** The fields of [BootstrapContext] that place v6 metadata; the queue at index [i] holds the blocks
    whose last [i] slots of 32 bytes are free. *)
Record BootstrapContext := mkBootstrapCtx { bx_offset : Z; v6_available_blocks : list (list Z) }.

Definition BootstrapContext_new : BootstrapContext := mkBootstrapCtx EROFS_BLOCK_SIZE (replicate 128 []).

Section alloc.
Context `{Profile}.

Definition ctx_align_offset (align_size : Z) (c : BootstrapContext) : io BootstrapContext :=
  if 0 <? bx_offset c mod align_size then
    q ← div_round_up (bx_offset c) align_size;
    o ← umul 64 q align_size;
    Ok (mkBootstrapCtx o (v6_available_blocks c))
  else Ok c.

Definition append_available_block (offset : Z) (c : BootstrapContext) : io BootstrapContext :=
  if negb (offset mod EROFS_BLOCK_SIZE =? 0) then
    let avail := EROFS_BLOCK_SIZE - offset mod EROFS_BLOCK_SIZE in
    let idx := avail / EROFS_INODE_SLOT_SIZE in
    blocks ← vec_index (v6_available_blocks c) idx;
    Ok (mkBootstrapCtx (bx_offset c) (<[Z.to_nat idx := blocks ++ [round_down_4k offset]]> (v6_available_blocks c)))
  else Ok c.

(** The loop over [min_idx..max_idx]; [n] is the number of indexes left. *)
Fixpoint search_available (n : nat) (idx min_idx : Z) (c : BootstrapContext) : io (Z * BootstrapContext) :=
  match n with
  | O => Ok (0, c)
  | S n =>
      blocks ← vec_index (v6_available_blocks c) idx;
      match blocks with
      | offset :: rest =>
          let c := mkBootstrapCtx (bx_offset c) (<[Z.to_nat idx := rest]> (v6_available_blocks c)) in
          d ← usub 64 EROFS_BLOCK_SIZE (idx * EROFS_INODE_SLOT_SIZE);
          offset ← uadd 64 offset d;
          e ← uadd 64 offset (min_idx * EROFS_INODE_SLOT_SIZE);
          c ← append_available_block e c;
          Ok (offset, c)
      | [] => search_available n (idx + 1) min_idx c
      end
  end.

Definition allocate_available_block (size : Z) (c : BootstrapContext) : io (Z * BootstrapContext) :=
  if EROFS_BLOCK_SIZE <=? size then Ok (0, c)
  else
    min_idx ← div_round_up size EROFS_INODE_SLOT_SIZE;
    max_idx ← div_round_up EROFS_BLOCK_SIZE EROFS_INODE_SLOT_SIZE;
    search_available (Z.to_nat (max_idx - min_idx)) min_idx min_idx c.

Definition advance (n : Z) (c : BootstrapContext) : io BootstrapContext :=
  o ← uadd 64 (bx_offset c) n; Ok (mkBootstrapCtx o (v6_available_blocks c)).

(** ** Nodes *)

(** A node with its v6 fields. The entries of a directory are (offset, name, mode). *)
Record V6Node := mkV6Node {
  v6_node : Node;
  v6_compact_inode : bool;
  v6_datalayout : Z;
  v6_offset : Z;
  v6_dirents : list (Z * list Z * Z);
  v6_dirents_offset : Z
}.

Definition v6_inode (n : V6Node) : RafsV5Inode := n_inode (v6_node n).
Definition v6_pairs (n : V6Node) : list (list Z * list Z) := map_to_list (n_xattrs (v6_node n)).

Definition get_inode_size_with_xattr (pairs : list (list Z * list Z)) (v6_compact : bool) : io Z :=
  s ← aligned_size_v6 pairs; uadd 64 (if v6_compact then 32 else 64) s.
Definition v6_size_with_xattr (n : V6Node) : io Z := get_inode_size_with_xattr (v6_pairs n) (v6_compact_inode n).

Definition place_v6 (layout offset dirents_offset : Z) (n : V6Node) : V6Node :=
  mkV6Node (v6_node n) (v6_compact_inode n) layout offset (v6_dirents n) dirents_offset.

Definition v6_set_offset_with_tail (d_size : Z) (n : V6Node) (c : BootstrapContext) : io (V6Node * BootstrapContext) :=
  inode_size ← v6_size_with_xattr n;
  let tail := d_size mod EROFS_BLOCK_SIZE in
  total ← uadd 64 inode_size tail;
  let should_inline := negb (tail =? 0) && (total <=? EROFS_BLOCK_SIZE) in
  if should_inline then
    r ← allocate_available_block total c;
    let '(v6_offset, c) := r in
    p ← (if v6_offset =? 0 then
           let available := EROFS_BLOCK_SIZE - bx_offset c mod EROFS_BLOCK_SIZE in
           c ← (if available <? total then
                  c ← append_available_block (bx_offset c) c; ctx_align_offset EROFS_BLOCK_SIZE c
                else Ok c);
           let v6_offset := bx_offset c in
           c ← advance total c;
           Ok (v6_offset, c)
         else Ok (v6_offset, c));
    let '(v6_offset, c) := p in
    c ← (if negb (d_size =? tail) then
           c ← append_available_block (bx_offset c) c; ctx_align_offset EROFS_BLOCK_SIZE c
         else Ok c);
    let v6_dirents_offset := bx_offset c in
    c ← advance (round_down_4k d_size) c;
    Ok (place_v6 EROFS_INODE_FLAT_INLINE v6_offset v6_dirents_offset n, c)
  else
    r ← allocate_available_block inode_size c;
    let '(v6_offset, c) := r in
    p ← (if v6_offset =? 0 then c' ← advance inode_size c; Ok (bx_offset c, c') else Ok (v6_offset, c));
    let '(v6_offset, c) := p in
    c ← append_available_block (bx_offset c) c;
    c ← ctx_align_offset EROFS_BLOCK_SIZE c;
    let v6_dirents_offset := bx_offset c in
    c ← advance d_size c;
    c ← ctx_align_offset EROFS_BLOCK_SIZE c;
    Ok (place_v6 EROFS_INODE_FLAT_PLAIN v6_offset v6_dirents_offset n, c).

Definition v6_set_offset (v6_hardlink_offset : option Z) (n : V6Node) (c : BootstrapContext) : io (V6Node * BootstrapContext) :=
  if v5i_is_reg (v6_inode n) then
    r ← match v6_hardlink_offset with
        | Some o => Ok (o, c)
        | None =>
            size ← v6_size_with_xattr n;
            let unit := 8 in
            r ← round_up size unit;
            chunks ← umul 64 (v5i_child_count (v6_inode n)) unit;
            total_size ← uadd 64 r chunks;
            r ← allocate_available_block total_size c;
            let '(o, c) := r in
            if o =? 0 then
              let o := bx_offset c in
              c ← advance size c;
              c ← ctx_align_offset unit c;
              c ← advance chunks c;
              Ok (o, c)
            else Ok (o, c)
        end;
    let '(o, c) := r in
    Ok (place_v6 EROFS_INODE_CHUNK_BASED o (v6_dirents_offset n) n, c)
  else if v5i_is_symlink (v6_inode n) then
    v6_set_offset_with_tail (v5i_size (v6_inode n)) n c
  else
    size ← v6_size_with_xattr n;
    let o := bx_offset c in
    c ← advance size c;
    Ok (place_v6 (v6_datalayout n) o (v6_dirents_offset n) n, c).

Definition set_size (size : Z) (i : RafsV5Inode) : RafsV5Inode :=
  mkV5Inode (v5i_digest i) (v5i_parent i) (v5i_ino i) (v5i_uid i) (v5i_gid i) (v5i_projid i) (v5i_mode i) size
    (v5i_blocks i) (v5i_flags i) (v5i_nlink i) (v5i_child_index i) (v5i_child_count i) (v5i_name_size i)
    (v5i_symlink_size i) (v5i_rdev i) (v5i_mtime_nsec i) (v5i_mtime i) (v5i_reserved i).

Definition with_v6_inode (f : RafsV5Inode -> RafsV5Inode) (n : V6Node) : V6Node :=
  mkV6Node (with_inode f (v6_node n)) (v6_compact_inode n) (v6_datalayout n) (v6_offset n) (v6_dirents n) (v6_dirents_offset n).

Definition v6_set_dir_offset (d_size : Z) (n : V6Node) (c : BootstrapContext) : io (V6Node * BootstrapContext) :=
  if negb (v5i_is_dir (v6_inode n)) then Err EOTHER
  else v6_set_offset_with_tail d_size (with_v6_inode (set_size d_size) n) c.

(** The loop of [v6_dir_d_size] over the names of the children. *)
Fixpoint add_name_sizes (names : list (list Z)) (d_size : Z) : io Z :=
  match names with
  | [] => Ok d_size
  | name :: names =>
      len ← uadd 64 (zlen name) 12;
      s ← uadd 64 (d_size mod EROFS_BLOCK_SIZE) len;
      d_size ← (if EROFS_BLOCK_SIZE <? s then q ← div_round_up d_size EROFS_BLOCK_SIZE; umul 64 q EROFS_BLOCK_SIZE else Ok d_size);
      d_size ← uadd 64 d_size len;
      add_name_sizes names d_size
  end.

Definition v6_dir_d_size (n : V6Node) (children : list (list Z)) : io Z :=
  if negb (v5i_is_dir (v6_inode n)) then Err EOTHER else add_name_sizes children (1 + 12 + 2 + 12).

(** What [build_rafs] does to place a node: directories before their children are looked at, other
    nodes after their hard links are known; both align the offset to a slot. *)
Definition v6_place (d_size : Z) (hardlink : option Z) (n : V6Node) (c : BootstrapContext) : io (V6Node * BootstrapContext) :=
  r ← (if v5i_is_dir (v6_inode n) then v6_set_dir_offset d_size n c else v6_set_offset hardlink n c);
  c ← ctx_align_offset EROFS_INODE_SLOT_SIZE r.2;
  Ok (r.1, c).
End alloc.

(** ** Extents *)

(** An extent is (start, length). *)
Definition disj (a b : Z * Z) : Prop := a.1 + a.2 <= b.1 \/ b.1 + b.2 <= a.1.
Definition inside (a b : Z * Z) : Prop := b.1 <= a.1 /\ a.1 + a.2 <= b.1 + b.2.

#[export] Instance disj_sym : Symmetric disj.
Proof. intros a b [|]; [by right|by left]. Qed.

(** Extents that do not overlap. *)
Fixpoint apart (l : list (Z * Z)) : Prop := match l with [] => True | e :: l => Forall (disj e) l /\ apart l end.

Lemma apart_perm l k : l ≡ₚ k -> apart l -> apart k.
Proof.
  induction 1 as [|e l k Hp IH|a b l|l k j H1 IH1 H2 IH2]; cbn; [done| |..].
  - intros [Hf Ha]. split; [by rewrite <- Hp|by apply IH].
  - intros [[Hba Hb]%Forall_cons [Ha Hl]]. split_and!; [constructor; [by symmetry|done]|done|done].
  - auto.
Qed.

#[export] Instance apart_proper : Proper ((≡ₚ) ==> iff) apart.
Proof. intros l k Hp. split; apply apart_perm; done. Qed.

Lemma apart_app l k : apart (l ++ k) <-> apart l /\ apart k /\ forall a b, a ∈ l -> b ∈ k -> disj a b.
Proof.
  induction l as [|e l IH]; cbn [app apart]; [set_solver|]. rewrite Forall_app, IH, !Forall_forall. split.
  - intros [[H1 H2] (H3 & H4 & H5)]. split_and!; [done|done|done|]. intros a b [->|Ha]%elem_of_cons Hb; auto.
  - intros [[H1 H2] (H3 & H4)]. split_and!; [done|intros b Hb; apply H4; [left|done]|done|done|]. intros a b Ha Hb. apply H4; [by right|done].
Qed.

Lemma disj_inside e f a : inside e f -> disj f a -> disj e a.
Proof. unfold inside, disj. lia. Qed.

(** Free extents: the last [i] slots of the blocks in queue [i]. *)
Definition free_ext (i b : Z) : Z * Z := (b + (EROFS_BLOCK_SIZE - i * EROFS_INODE_SLOT_SIZE), i * EROFS_INODE_SLOT_SIZE).

Fixpoint free_from (i : Z) (avail : list (list Z)) : list (Z * Z) :=
  match avail with [] => [] | bs :: avail => (free_ext i <$> bs) ++ free_from (i + 1) avail end.

Lemma free_from_insert avail k bs : avail !! k = Some bs -> forall i, exists R,
  free_from i avail ≡ₚ (free_ext (i + Z.of_nat k) <$> bs) ++ R /\
  forall bs', free_from i (<[k := bs']> avail) ≡ₚ (free_ext (i + Z.of_nat k) <$> bs') ++ R.
Proof.
  revert k. induction avail as [|b avail IH]; intros k Hk i; [done|]. destruct k as [|k]; cbn in Hk.
  - injection Hk as ->. exists (free_from (i + 1) avail). cbn. rewrite Z.add_0_r. done.
  - destruct (IH k Hk (i + 1)) as (R & H1 & H2). exists ((free_ext i <$> b) ++ R). cbn [free_from]. change (<[S k := ?x]> (b :: avail)) with (b :: <[k := x]> avail).
    replace (i + Z.of_nat (S k)) with (i + 1 + Z.of_nat k) by lia. split; [rewrite H1|intros bs'; cbn; rewrite H2]; solve_Permutation.
Qed.

(** Placed and free extents are apart, below the offset, and free blocks are blocks. *)
Record alloc_inv (c : BootstrapContext) (used : list (Z * Z)) : Prop := mkAllocInv {
  ai_queues : length (v6_available_blocks c) = 128%nat;
  ai_apart : apart (used ++ free_from 0 (v6_available_blocks c));
  ai_below : Forall (fun e => EROFS_BLOCK_SIZE <= e.1 /\ 0 <= e.2 /\ e.1 + e.2 <= bx_offset c) (used ++ free_from 0 (v6_available_blocks c));
  ai_blocks : Forall (Forall (fun b => b mod EROFS_BLOCK_SIZE = 0)) (v6_available_blocks c);
  ai_offset : EROFS_BLOCK_SIZE <= bx_offset c
}.

Lemma alloc_inv_new : alloc_inv BootstrapContext_new [].
Proof. constructor; try done. cbn. repeat constructor. Qed.

Lemma alloc_inv_raise c used o : alloc_inv c used -> bx_offset c <= o -> alloc_inv (mkBootstrapCtx o (v6_available_blocks c)) used.
Proof.
  intros [H1 H2 H3 H4 H5] Ho. constructor; cbn; try done; [|lia]. eapply Forall_impl; [exact H3|]. cbn. intros e He. lia.
Qed.

(** An extent at the offset. *)
Lemma alloc_inv_advance c used n : alloc_inv c used -> 0 <= n ->
  alloc_inv (mkBootstrapCtx (bx_offset c + n) (v6_available_blocks c)) (used ++ [(bx_offset c, n)]).
Proof.
  intros [H1 H2 H3 H4 H5] Hn. assert (used ++ [(bx_offset c, n)] ++ free_from 0 (v6_available_blocks c) ≡ₚ (bx_offset c, n) :: used ++ free_from 0 (v6_available_blocks c)) as Hp by solve_Permutation.
  constructor; cbn [bx_offset v6_available_blocks]; [done| | |done|lia].
  - rewrite <- app_assoc, Hp. split; [|done]. eapply Forall_impl; [exact H3|]. intros e He. right. cbn in *. lia.
  - rewrite <- app_assoc, Hp. constructor; [cbn; lia|]. eapply Forall_impl; [exact H3|]. cbn. intros e He. lia.
Qed.

Section alloc_spec.
Context `{Profile}.

Definition up (k x : Z) : Z := (x + 2 ^ k - 1) / 2 ^ k * 2 ^ k.

Lemma up_bounds k x : 0 <= k -> x <= up k x < x + 2 ^ k /\ up k x mod 2 ^ k = 0.
Proof.
  intros Hk. pose proof (Z.pow_pos_nonneg 2 k ltac:(lia) Hk) as Hp. unfold up. pose proof (Z.div_mod (x + 2 ^ k - 1) (2 ^ k) ltac:(lia)).
  pose proof (Z.mod_pos_bound (x + 2 ^ k - 1) (2 ^ k) Hp). split; [lia|]. apply Z.mod_mul. lia.
Qed.

Lemma up_same k x : 0 <= k -> x mod 2 ^ k = 0 -> up k x = x.
Proof.
  intros Hk Hx. pose proof (Z.pow_pos_nonneg 2 k ltac:(lia) Hk) as Hp. destruct (up_bounds k x Hk) as [Hb Hm].
  apply Z.mod_divide in Hx as [q ->]; [|lia]. apply Z.mod_divide in Hm as [r Hr]; [|lia]. rewrite Hr in Hb |- *.
  assert (q <= r) by (apply (Z.mul_le_mono_pos_r _ _ (2 ^ k)); lia). assert (r < q + 1) by (apply (Z.mul_lt_mono_pos_r (2 ^ k)); lia). f_equal. lia.
Qed.

Lemma ctx_align_run k c : 0 <= k < 63 -> 0 <= bx_offset c -> bx_offset c + 2 ^ k < 2 ^ 64 ->
  ctx_align_offset (2 ^ k) c = Ok (mkBootstrapCtx (up k (bx_offset c)) (v6_available_blocks c)).
Proof.
  intros Hk H0 Hb. pose proof (Z.pow_pos_nonneg 2 k ltac:(lia) ltac:(lia)) as Hp. unfold ctx_align_offset.
  destruct (Z.ltb_spec 0 (bx_offset c mod 2 ^ k)) as [Hlt|Hge].
  - rewrite div_round_up_spec by done. cbn [mbind outcome_bind]. destruct (up_bounds k (bx_offset c)) as [Hu _]; [lia|]. unfold up in *.
    by rewrite umul_in by (unfold in_range; lia).
  - rewrite up_same; [by destruct c|lia|]. pose proof (Z.mod_pos_bound (bx_offset c) (2 ^ k) Hp). lia.
Qed.

(** The slots of a block that are free from an offset on. *)
Definition free_slots (o : Z) : Z := (EROFS_BLOCK_SIZE - o mod EROFS_BLOCK_SIZE) / EROFS_INODE_SLOT_SIZE.

Lemma free_slots_bounds o : o mod EROFS_BLOCK_SIZE <> 0 -> 0 <= free_slots o < 128 /\
  free_slots o * 32 <= EROFS_BLOCK_SIZE - o mod EROFS_BLOCK_SIZE < free_slots o * 32 + 32.
Proof.
  intros Ho. unfold free_slots, EROFS_BLOCK_SIZE, EROFS_INODE_SLOT_SIZE in *. pose proof (Z.mod_pos_bound o 4096).
  pose proof (Z.div_mod (4096 - o mod 4096) 32). pose proof (Z.mod_pos_bound (4096 - o mod 4096) 32). lia.
Qed.

Lemma append_run o c : length (v6_available_blocks c) = 128%nat -> in_range 64 o -> o mod EROFS_BLOCK_SIZE <> 0 ->
  exists bs, v6_available_blocks c !! Z.to_nat (free_slots o) = Some bs /\
  append_available_block o c = Ok (mkBootstrapCtx (bx_offset c) (<[Z.to_nat (free_slots o) := bs ++ [o - o mod EROFS_BLOCK_SIZE]]> (v6_available_blocks c))).
Proof.
  intros Hl Ho Hm. destruct (free_slots_bounds o Hm) as [Hf _]. destruct (vec_index_is_Ok (E:=errno) (v6_available_blocks c) (free_slots o)) as (bs & Hv & Hx); [lia|].
  exists bs. split; [done|]. unfold append_available_block. rewrite (proj2 (Z.eqb_neq _ _)) by done. cbn [negb]. fold (free_slots o). rewrite Hv. cbn [mbind outcome_bind].
  rewrite (proj1 (round_down_4k_spec o Ho)).
  replace (4096 * (o / 4096)) with (o - o mod EROFS_BLOCK_SIZE) by (unfold EROFS_BLOCK_SIZE; pose proof (Z.div_mod o 4096); lia). done.
Qed.

(** Giving the end of a block away and going to the next one. *)
Lemma append_align c used : alloc_inv c used -> bx_offset c + EROFS_BLOCK_SIZE < 2 ^ 64 -> exists c',
  (c1 ← append_available_block (bx_offset c) c; ctx_align_offset EROFS_BLOCK_SIZE c1) = Ok c' /\ alloc_inv c' used /\ bx_offset c' = up 12 (bx_offset c).
Proof.
  intros Hinv Hb. pose proof Hinv as [H1 H2 H3 H4 H5]. unfold EROFS_BLOCK_SIZE in Hb, H5. destruct (up_bounds 12 (bx_offset c)) as [Hu Hum]; [lia|].
  destruct (decide (bx_offset c mod EROFS_BLOCK_SIZE = 0)) as [Hz|Hnz].
  - exists c. unfold append_available_block. rewrite Hz. cbn [Z.eqb negb mbind outcome_bind]. unfold ctx_align_offset. rewrite Hz. cbn. split_and!; [done|done|].
    by rewrite up_same.
  - destruct (append_run (bx_offset c) c H1) as (bs & Hx & Ha); [unfold in_range; lia|done|]. rewrite Ha. cbn [mbind outcome_bind].
    rewrite (ctx_align_run 12) by (cbn [bx_offset]; lia). eexists. split; [done|]. cbn [bx_offset v6_available_blocks]. split; [|done].
    destruct (free_slots_bounds (bx_offset c) Hnz) as [Hf Hr]. destruct (free_from_insert _ _ _ Hx 0) as (R & P1 & P2). rewrite Z2Nat.id, Z.add_0_l in P1, P2 by lia.
    set (b := bx_offset c - bx_offset c mod EROFS_BLOCK_SIZE) in *.
    assert (used ++ free_from 0 (<[Z.to_nat (free_slots (bx_offset c)):=bs ++ [b]]> (v6_available_blocks c)) ≡ₚ
      free_ext (free_slots (bx_offset c)) b :: used ++ free_from 0 (v6_available_blocks c)) as Hp by (rewrite P1, P2, fmap_app; cbn; solve_Permutation).
    assert (up 12 (bx_offset c) = b + 4096) as Hup.
    { unfold b, EROFS_BLOCK_SIZE in *. apply Z.mod_divide in Hum as [q Hq]; [|done]. change (2 ^ 12) with 4096 in *. pose proof (Z.div_mod (bx_offset c) 4096). pose proof (Z.mod_pos_bound (bx_offset c) 4096). nia. }
    unfold EROFS_BLOCK_SIZE in Hr. constructor; cbn [bx_offset v6_available_blocks].
    + by rewrite length_insert.
    + rewrite Hp. split; [|done]. eapply Forall_impl; [exact H3|]. intros e He. right. cbn in *. unfold b, EROFS_BLOCK_SIZE, EROFS_INODE_SLOT_SIZE in *. lia.
    + rewrite Hp. constructor; [cbn; unfold b, EROFS_BLOCK_SIZE, EROFS_INODE_SLOT_SIZE in *; lia|]. eapply Forall_impl; [exact H3|]. cbn. intros e He. lia.
    + apply Forall_insert; [done|]. apply Forall_app. split; [by eapply Forall_lookup_1 in Hx|]. constructor; [|done]. unfold b. rewrite Zminus_mod_idemp_r, Z.sub_diag. done.
    + unfold EROFS_BLOCK_SIZE. lia.
Qed.

(** Splitting a free extent: its front is used, what is left stays free. *)
Lemma apart_split f e1 e2 l : inside e1 f -> inside e2 f -> disj e1 e2 -> apart (f :: l) -> apart (e1 :: e2 :: l).
Proof.
  intros H1 H2 Hd [Hf Hl]. split; [constructor; [done|]|split; [|done]]; (eapply Forall_impl; [exact Hf|]; intros a; by apply disj_inside).
Qed.

Lemma below_split f e1 e2 o l : inside e1 f -> inside e2 f -> 0 <= e1.2 -> 0 <= e2.2 ->
  Forall (fun e : Z * Z => EROFS_BLOCK_SIZE <= e.1 /\ 0 <= e.2 /\ e.1 + e.2 <= o) (f :: l) ->
  Forall (fun e : Z * Z => EROFS_BLOCK_SIZE <= e.1 /\ 0 <= e.2 /\ e.1 + e.2 <= o) (e1 :: e2 :: l).
Proof. intros [] [] ? ? [Hf Hl]%Forall_cons. constructor; [lia|]. constructor; [lia|done]. Qed.

(** A placed inode is aligned to a slot, lies in one block, and is apart from all others. *)
Definition slot_placed (size o : Z) (c c' : BootstrapContext) (used : list (Z * Z)) : Prop :=
  0 < o /\ o mod 32 = 0 /\ o mod EROFS_BLOCK_SIZE + size <= EROFS_BLOCK_SIZE /\ bx_offset c' = bx_offset c /\ alloc_inv c' (used ++ [(o, size)]).

Lemma take_slot c used size min_idx idx b rest : alloc_inv c used -> 0 < size <= min_idx * 32 -> min_idx <= idx < 128 -> bx_offset c + EROFS_BLOCK_SIZE < 2 ^ 64 ->
  v6_available_blocks c !! Z.to_nat idx = Some (b :: rest) -> exists o c',
  (let c := mkBootstrapCtx (bx_offset c) (<[Z.to_nat idx := rest]> (v6_available_blocks c)) in
   d ← usub 64 EROFS_BLOCK_SIZE (idx * EROFS_INODE_SLOT_SIZE);
   offset ← uadd 64 b d;
   e ← uadd 64 offset (min_idx * EROFS_INODE_SLOT_SIZE);
   c ← append_available_block e c;
   Ok (offset, c)) = Ok (E:=errno) (o, c') /\ slot_placed size o c c' used.
Proof.
  intros Hinv Hs Hi Hoff Hx. pose proof Hinv as [H1 H2 H3 H4 H5]. destruct (free_from_insert _ _ _ Hx 0) as (R & P1 & P2). rewrite Z2Nat.id, Z.add_0_l in P1, P2 by lia.
  assert (b mod EROFS_BLOCK_SIZE = 0) as Hb4 by (pose proof (Forall_lookup_1 _ _ _ _ H4 Hx) as [Hb _]%Forall_cons; done).
  assert (used ++ free_from 0 (v6_available_blocks c) ≡ₚ free_ext idx b :: used ++ ((free_ext idx <$> rest) ++ R)) as Hp1 by (rewrite P1; cbn; solve_Permutation).
  rewrite Hp1 in H2, H3. pose proof H3 as [(HB1 & HB2 & HB3) _]%Forall_cons. cbn [free_ext fst snd] in HB1, HB2, HB3.
  unfold EROFS_BLOCK_SIZE, EROFS_INODE_SLOT_SIZE in HB1, HB3, Hoff, Hb4. cbv zeta. unfold EROFS_INODE_SLOT_SIZE, EROFS_BLOCK_SIZE.
  rewrite usub_in by (unfold in_range; lia). cbn [mbind outcome_bind]. rewrite uadd_in by (unfold in_range; lia). cbn [mbind outcome_bind].
  rewrite uadd_in by (unfold in_range; lia). cbn [mbind outcome_bind]. set (o := b + (4096 - idx * 32)). set (e := o + min_idx * 32).
  apply Z.mod_divide in Hb4 as [q Hq]; [|done].
  assert (o mod 32 = 0) as Ho32. { unfold o. replace (b + (4096 - idx * 32)) with ((q * 128 + 128 - idx) * 32) by lia. by rewrite Z.mod_mul. }
  assert (o mod 4096 = 4096 - idx * 32) as Ho4. { unfold o. rewrite Hq, Z.add_comm, Z_mod_plus_full. apply Z.mod_small. lia. }
  assert (inside (o, size) (free_ext idx b)) as Hin1 by (unfold inside, free_ext, o, EROFS_BLOCK_SIZE, EROFS_INODE_SLOT_SIZE; cbn; lia).
  destruct (decide (min_idx = idx)) as [Heq|Hne].
  - assert (e mod EROFS_BLOCK_SIZE = 0) as He. { unfold e, o. replace (b + (4096 - idx * 32) + min_idx * 32) with ((q + 1) * 4096) by lia. by rewrite Z.mod_mul. }
    unfold append_available_block. rewrite He. cbn [Z.eqb negb mbind outcome_bind]. eexists _, _. split; [done|]. unfold slot_placed, EROFS_BLOCK_SIZE. cbn [bx_offset]. split_and!; [unfold o; lia|done|lia|done|].
    assert ((used ++ [(o, size)]) ++ free_from 0 (<[Z.to_nat idx:=rest]> (v6_available_blocks c)) ≡ₚ (o, size) :: used ++ ((free_ext idx <$> rest) ++ R)) as Hp2 by (rewrite P2; solve_Permutation).
    constructor; cbn [bx_offset v6_available_blocks]; [by rewrite length_insert|..].
    + rewrite Hp2. destruct H2 as [Hf Hl]. split; [|done]. eapply Forall_impl; [exact Hf|]. intros a. by apply disj_inside.
    + rewrite Hp2. pose proof (below_split _ _ _ _ _ Hin1 Hin1 ltac:(cbn; lia) ltac:(cbn; lia) H3) as Hb. by inversion Hb.
    + apply Forall_insert; [done|]. by pose proof (Forall_lookup_1 _ _ _ _ H4 Hx) as [_ Hr]%Forall_cons.
    + done.
  - assert (e mod EROFS_BLOCK_SIZE = 4096 - (idx - min_idx) * 32) as He.
    { unfold e, o, EROFS_BLOCK_SIZE. replace (b + (4096 - idx * 32) + min_idx * 32) with ((4096 - (idx - min_idx) * 32) + q * 4096) by lia. rewrite Z_mod_plus_full. apply Z.mod_small. lia. }
    assert (free_slots e = idx - min_idx) as Hfs.
    { unfold free_slots. rewrite He. unfold EROFS_BLOCK_SIZE, EROFS_INODE_SLOT_SIZE. replace (4096 - (4096 - (idx - min_idx) * 32)) with ((idx - min_idx) * 32) by lia. by rewrite Z.div_mul. }
    destruct (append_run e (mkBootstrapCtx (bx_offset c) (<[Z.to_nat idx:=rest]> (v6_available_blocks c)))) as (bs & Hbs & Ha);
      [cbn; by rewrite length_insert|unfold e, o, in_range; lia|rewrite He; lia|]. rewrite Ha. cbn [mbind outcome_bind v6_available_blocks bx_offset] in *.
    eexists _, _. split; [done|]. unfold slot_placed. cbn [bx_offset]. split_and!; [unfold o; lia|done|unfold EROFS_BLOCK_SIZE; lia|done|]. rewrite Hfs, He in *.
    assert (e - (4096 - (idx - min_idx) * 32) = b) as Heb by (unfold e, o; lia). rewrite Heb in *.
    destruct (free_from_insert _ _ _ Hbs 0) as (R' & Q1 & Q2). rewrite Z2Nat.id, Z.add_0_l in Q1, Q2 by lia.
    assert ((used ++ [(o, size)]) ++ free_from 0 (<[Z.to_nat (idx - min_idx):=bs ++ [b]]> (<[Z.to_nat idx:=rest]> (v6_available_blocks c))) ≡ₚ
      (o, size) :: free_ext (idx - min_idx) b :: used ++ ((free_ext idx <$> rest) ++ R)) as Hp2.
    { specialize (P2 rest). rewrite Q1 in P2. rewrite Q2, fmap_app, <- P2. cbn. solve_Permutation. }
    assert (inside (free_ext (idx - min_idx) b) (free_ext idx b)) as Hin2 by (unfold inside, free_ext, EROFS_BLOCK_SIZE, EROFS_INODE_SLOT_SIZE; cbn; lia).
    assert (disj (o, size) (free_ext (idx - min_idx) b)) as Hd by (left; unfold free_ext, o, EROFS_BLOCK_SIZE, EROFS_INODE_SLOT_SIZE; cbn; lia).
    constructor; cbn [bx_offset v6_available_blocks]; [by rewrite !length_insert|..].
    + rewrite Hp2. by apply (apart_split _ _ _ _ Hin1 Hin2 Hd).
    + rewrite Hp2. apply (below_split _ _ _ _ _ Hin1 Hin2); [cbn; lia|unfold free_ext, EROFS_INODE_SLOT_SIZE; cbn; lia|done].
    + assert (Forall (Forall (fun b => b mod EROFS_BLOCK_SIZE = 0)) (<[Z.to_nat idx:=rest]> (v6_available_blocks c))) as Hq4.
      { apply Forall_insert; [done|]. by pose proof (Forall_lookup_1 _ _ _ _ H4 Hx) as [_ Hr]%Forall_cons. }
      apply Forall_insert; [done|]. apply Forall_app. split; [by eapply Forall_lookup_1 in Hbs|]. constructor; [|done]. unfold EROFS_BLOCK_SIZE. by rewrite Hq, Z.mod_mul.
    + done.
Qed.

Lemma allocate_spec c used size : alloc_inv c used -> 0 < size < 2 ^ 62 -> bx_offset c + EROFS_BLOCK_SIZE < 2 ^ 64 -> exists o c',
  allocate_available_block size c = Ok (o, c') /\ ((o = 0 /\ c' = c) \/ (o <> 0 /\ slot_placed size o c c' used)).
Proof.
  intros Hinv Hs Hoff. unfold allocate_available_block. destruct (Z.leb_spec EROFS_BLOCK_SIZE size) as [Hle|Hlt]; [exists 0, c; split; [done|by left]|]. unfold EROFS_BLOCK_SIZE in Hlt.
  rewrite (div_round_up_spec size 5) by lia. cbn [mbind outcome_bind]. rewrite (div_round_up_spec EROFS_BLOCK_SIZE 5) by done. cbn [mbind outcome_bind].
  change (2 ^ 5) with 32. change ((EROFS_BLOCK_SIZE + 32 - 1) / 32) with 128. set (min_idx := (size + 32 - 1) / 32).
  assert (0 < size <= min_idx * 32 /\ 0 < min_idx <= 128) as [Hm Hmr]. { unfold min_idx. pose proof (Z.div_mod (size + 32 - 1) 32). pose proof (Z.mod_pos_bound (size + 32 - 1) 32). lia. }
  assert (forall n idx, min_idx <= idx -> idx + Z.of_nat n = 128 -> exists o c', search_available n idx min_idx c = Ok (o, c') /\ ((o = 0 /\ c' = c) \/ (o <> 0 /\ slot_placed size o c c' used))) as Hgo.
  { induction n as [|n IH]; intros idx Hi Hn; [exists 0, c; split; [done|by left]|]. cbn [search_available]. pose proof (ai_queues _ _ Hinv) as Hl.
    destruct (vec_index_is_Ok (E:=errno) (v6_available_blocks c) idx) as (bs & Hv & Hx); [lia|]. rewrite Hv. cbn [mbind outcome_bind]. destruct bs as [|b rest]; [apply IH; lia|].
    destruct (take_slot c used size min_idx idx b rest Hinv Hm ltac:(lia) Hoff Hx) as (o & c' & Hr & Hp). exists o, c'. split; [exact Hr|]. right. split; [|done]. destruct Hp; lia. }
  apply Hgo; lia.
Qed.

Lemma advance_run n c : 0 <= bx_offset c -> 0 <= n -> bx_offset c + n < 2 ^ 64 -> advance n c = Ok (mkBootstrapCtx (bx_offset c + n) (v6_available_blocks c)).
Proof. intros. unfold advance. by rewrite uadd_in by (unfold in_range; lia). Qed.

Lemma maybe_next (b : bool) c used : alloc_inv c used -> bx_offset c + EROFS_BLOCK_SIZE < 2 ^ 64 -> exists c',
  (if b then c1 ← append_available_block (bx_offset c) c; ctx_align_offset EROFS_BLOCK_SIZE c1 else Ok c) = Ok c' /\
  alloc_inv c' used /\ bx_offset c' = if b then up 12 (bx_offset c) else bx_offset c.
Proof. intros Hinv Hb. destruct b; [by apply append_align|by exists c]. Qed.

Lemma mod32_of_4096 x : x mod EROFS_BLOCK_SIZE = 0 -> x mod 32 = 0.
Proof. unfold EROFS_BLOCK_SIZE. intros Hx. apply Z.mod_divide in Hx as [q ->]; [|done]. replace (q * 4096) with (q * 128 * 32) by lia. by rewrite Z.mod_mul. Qed.

(** The room of an inode and the tail of its data in one block. *)
Lemma place_inline c used total : alloc_inv c used -> 0 < total <= EROFS_BLOCK_SIZE -> bx_offset c mod 32 = 0 -> bx_offset c + 3 * EROFS_BLOCK_SIZE < 2 ^ 64 ->
  exists o c',
  (r ← allocate_available_block total c;
   let '(v6_offset, c) := r in
   if v6_offset =? 0 then
     let available := EROFS_BLOCK_SIZE - bx_offset c mod EROFS_BLOCK_SIZE in
     c ← (if available <? total then c ← append_available_block (bx_offset c) c; ctx_align_offset EROFS_BLOCK_SIZE c else Ok c);
     let v6_offset := bx_offset c in
     c ← advance total c;
     Ok (v6_offset, c)
   else Ok (v6_offset, c)) = Ok (E:=errno) (o, c') /\
  o mod 32 = 0 /\ o mod EROFS_BLOCK_SIZE + total <= EROFS_BLOCK_SIZE /\ alloc_inv c' (used ++ [(o, total)]) /\ bx_offset c' <= bx_offset c + total + EROFS_BLOCK_SIZE.
Proof.
  intros Hinv Ht Hal Hb. unfold EROFS_BLOCK_SIZE in Ht, Hb. pose proof (ai_offset _ _ Hinv) as Ho. unfold EROFS_BLOCK_SIZE in Ho. destruct (allocate_spec c used total Hinv ltac:(lia) ltac:(unfold EROFS_BLOCK_SIZE; lia)) as (o & c1 & Ha & Hcase). rewrite Ha. cbn [mbind outcome_bind].
  destruct Hcase as [[-> ->]|[Hne (_ & P2 & P3 & P4 & P5)]].
  2:{ rewrite (proj2 (Z.eqb_neq _ _)) by done. exists o, c1. split_and!; try done. unfold EROFS_BLOCK_SIZE. lia. }
  cbn [Z.eqb]. cbv zeta. set (b := EROFS_BLOCK_SIZE - bx_offset c mod EROFS_BLOCK_SIZE <? total).
  destruct (maybe_next b c used Hinv ltac:(unfold EROFS_BLOCK_SIZE; lia)) as (c2 & Hc2 & Hinv2 & Hbx). rewrite Hc2. cbn [mbind outcome_bind].
  assert (bx_offset c <= bx_offset c2 <= bx_offset c + EROFS_BLOCK_SIZE /\ bx_offset c2 mod 32 = 0 /\ bx_offset c2 mod EROFS_BLOCK_SIZE + total <= EROFS_BLOCK_SIZE) as (B1 & B2 & B3).
  { rewrite Hbx. unfold EROFS_BLOCK_SIZE in *. destruct b eqn:Eb; unfold b in Eb.
    - destruct (up_bounds 12 (bx_offset c)) as [U1 U2]; [lia|]. change (2 ^ 12) with 4096 in *. rewrite U2. split_and!; [lia|lia|by apply mod32_of_4096|lia].
    - apply Z.ltb_ge in Eb. split_and!; [lia|lia|done|lia]. }
  unfold EROFS_BLOCK_SIZE in B1. rewrite advance_run by lia. cbn [mbind outcome_bind]. eexists _, _. split; [done|]. cbn [bx_offset]. split_and!; [done|done| |unfold EROFS_BLOCK_SIZE; lia].
  apply alloc_inv_advance; [done|lia].
Qed.

(** The room of an inode alone. *)
Lemma place_single c used size : alloc_inv c used -> 0 < size < 2 ^ 62 -> bx_offset c mod 32 = 0 -> bx_offset c + size + EROFS_BLOCK_SIZE < 2 ^ 64 ->
  exists o c',
  (r ← allocate_available_block size c;
   let '(v6_offset, c) := r in
   if v6_offset =? 0 then c' ← advance size c; Ok (bx_offset c, c') else Ok (v6_offset, c)) = Ok (E:=errno) (o, c') /\
  o mod 32 = 0 /\ alloc_inv c' (used ++ [(o, size)]) /\ bx_offset c' <= bx_offset c + size.
Proof.
  intros Hinv Hs Hal Hb. unfold EROFS_BLOCK_SIZE in Hb. pose proof (ai_offset _ _ Hinv) as Ho. unfold EROFS_BLOCK_SIZE in Ho. destruct (allocate_spec c used size Hinv Hs ltac:(unfold EROFS_BLOCK_SIZE; lia)) as (o & c1 & Ha & Hcase). rewrite Ha. cbn [mbind outcome_bind].
  destruct Hcase as [[-> ->]|[Hne (_ & P2 & _ & P4 & P5)]].
  - cbn [Z.eqb]. rewrite advance_run by lia. cbn [mbind outcome_bind]. eexists _, _. split; [done|]. cbn [bx_offset]. split_and!; [done| |lia]. apply alloc_inv_advance; [done|lia].
  - rewrite (proj2 (Z.eqb_neq _ _)) by done. exists o, c1. split_and!; try done. lia.
Qed.

(** The tail of the data of a directory or symlink is stored with the inode if both fit into a block. *)
Definition inlined (size d : Z) : bool := negb (d mod EROFS_BLOCK_SIZE =? 0) && (size + d mod EROFS_BLOCK_SIZE <=? EROFS_BLOCK_SIZE).

(** Where the inode and the data are. *)
Definition tail_placed (size d : Z) (n : V6Node) : Prop :=
  let tail := d mod EROFS_BLOCK_SIZE in
  v6_offset n mod 32 = 0 /\
  if inlined size d then
    v6_datalayout n = EROFS_INODE_FLAT_INLINE /\ v6_offset n mod EROFS_BLOCK_SIZE + (size + tail) <= EROFS_BLOCK_SIZE /\
    (d <> tail -> v6_dirents_offset n mod EROFS_BLOCK_SIZE = 0)
  else v6_datalayout n = EROFS_INODE_FLAT_PLAIN /\ v6_dirents_offset n mod EROFS_BLOCK_SIZE = 0.

Definition tail_extents (size d : Z) (n : V6Node) : list (Z * Z) :=
  let tail := d mod EROFS_BLOCK_SIZE in
  if inlined size d then [(v6_offset n, size + tail); (v6_dirents_offset n, d - tail)]
  else [(v6_offset n, size); (v6_dirents_offset n, up 12 d)].

Lemma with_tail_spec d n c used size : alloc_inv c used -> v6_size_with_xattr n = Ok size -> 0 < size -> 0 <= d ->
  bx_offset c mod 32 = 0 -> bx_offset c + size + d + 4 * EROFS_BLOCK_SIZE < 2 ^ 62 -> exists l o dof c',
  v6_set_offset_with_tail d n c = Ok (place_v6 l o dof n, c') /\ tail_placed size d (place_v6 l o dof n) /\ alloc_inv c' (used ++ tail_extents size d (place_v6 l o dof n)) /\
  bx_offset c' <= bx_offset c + size + d + 3 * EROFS_BLOCK_SIZE.
Proof.
  intros Hinv Hsz Hs0 Hd Hal Hb. pose proof (ai_offset _ _ Hinv) as Ho. unfold EROFS_BLOCK_SIZE in Ho, Hb. unfold v6_set_offset_with_tail. rewrite Hsz. cbn [mbind outcome_bind].
  pose proof (Z.mod_pos_bound d EROFS_BLOCK_SIZE ltac:(done)) as Hm. pose proof (Z.mod_le d EROFS_BLOCK_SIZE Hd ltac:(done)) as Hmd. cbv zeta. unfold tail_placed, tail_extents, inlined. cbv zeta. set (tail := d mod EROFS_BLOCK_SIZE) in *.
  unfold EROFS_BLOCK_SIZE in Hm. rewrite uadd_in by (unfold in_range; lia). cbn [mbind outcome_bind]. destruct (negb (tail =? 0) && (size + tail <=? EROFS_BLOCK_SIZE)) eqn:Hin.
  - apply andb_prop in Hin as [Ht0%negb_true_iff%Z.eqb_neq Htl%Z.leb_le].
    destruct (place_inline c used (size + tail) Hinv ltac:(lia) Hal ltac:(unfold EROFS_BLOCK_SIZE; lia)) as (o & c1 & Hr & P1 & P2 & P3 & P4).
    destruct (allocate_available_block (size + tail) c) as [[v c0]| |]; [|done|done]. cbn [mbind outcome_bind] in Hr |- *. rewrite Hr. cbn [mbind outcome_bind].
    unfold EROFS_BLOCK_SIZE in P4, Htl. pose proof (ai_offset _ _ P3) as Ho1. unfold EROFS_BLOCK_SIZE in Ho1.
    destruct (maybe_next (negb (d =? tail)) c1 _ P3 ltac:(unfold EROFS_BLOCK_SIZE; lia)) as (c2 & Hc2 & Hinv2 & Hbx). rewrite Hc2. cbn [mbind outcome_bind].
    assert (round_down_4k d = d - tail) as ->. { rewrite (proj1 (round_down_4k_spec d ltac:(unfold in_range; lia))). unfold tail, EROFS_BLOCK_SIZE. pose proof (Z.div_mod d 4096). lia. }
    destruct (up_bounds 12 (bx_offset c1)) as [U1 U2]; [lia|]. change (2 ^ 12) with 4096 in U1.
    assert (bx_offset c1 <= bx_offset c2 <= bx_offset c1 + 4096) as B by (rewrite Hbx; destruct (negb _); lia). rewrite advance_run by lia. cbn [mbind outcome_bind].
    eexists _, _, _, _. split; [done|]. cbn [place_v6 v6_offset v6_datalayout v6_dirents_offset bx_offset]. split; [|split; [|unfold EROFS_BLOCK_SIZE; lia]].
    { split_and!; [done|done|done|]. intros Hne. rewrite Hbx. by rewrite (proj2 (Z.eqb_neq _ _)) by done. }
    pose proof (alloc_inv_advance c2 _ (d - tail) Hinv2 ltac:(lia)) as Hfin. by rewrite <- app_assoc in Hfin.
  - destruct (place_single c used size Hinv ltac:(lia) Hal ltac:(unfold EROFS_BLOCK_SIZE; lia)) as (o & c1 & Hr & P1 & P3 & P4).
    destruct (allocate_available_block size c) as [[v c0]| |]; [|done|done]. cbn [mbind outcome_bind] in Hr |- *. rewrite Hr. cbn [mbind outcome_bind].
    pose proof (ai_offset _ _ P3) as Ho1. unfold EROFS_BLOCK_SIZE in Ho1. destruct (append_align c1 _ P3 ltac:(unfold EROFS_BLOCK_SIZE; lia)) as (c2 & Hc2 & Hinv2 & Hbx).
    destruct (append_available_block (bx_offset c1) c1) as [c1'| |]; [|done|done]. cbn [mbind outcome_bind] in Hc2 |- *. rewrite Hc2. cbn [mbind outcome_bind].
    destruct (up_bounds 12 (bx_offset c1)) as [U1 U2]; [lia|]. destruct (up_bounds 12 d) as [V1 V2]; [lia|]. change (2 ^ 12) with 4096 in U1, V1, U2, V2. rewrite advance_run by lia. cbn [mbind outcome_bind].
    rewrite (ctx_align_run 12) by (cbn [bx_offset]; lia). cbn [mbind outcome_bind bx_offset v6_available_blocks].
    assert (up 12 (bx_offset c2 + d) = bx_offset c2 + up 12 d) as Hup.
    { rewrite Hbx. apply Z.mod_divide in U2 as [q ->]; [|done]. unfold up. change (2 ^ 12) with 4096. replace (q * 4096 + d + 4096 - 1) with (d + 4096 - 1 + q * 4096) by lia. rewrite Z.div_add by lia. lia. }
    rewrite Hup. eexists _, _, _, _. split; [done|]. cbn [place_v6 v6_offset v6_datalayout v6_dirents_offset bx_offset]. split; [split_and!; [done|done|by rewrite Hbx]|]. split; [|unfold EROFS_BLOCK_SIZE; lia].
    pose proof (alloc_inv_advance c2 _ (up 12 d) Hinv2 ltac:(lia)) as Hfin. by rewrite <- app_assoc in Hfin.
Qed.

(** ** Placing nodes *)

Definition v6_size (n : V6Node) : Z := (if v6_compact_inode n then 32 else 64) + (if bool_decide (v6_pairs n = []) then 0 else 12 + pairs_room (v6_pairs n)).

(** A node that can be placed; [d] is the size of its entries if it is a directory. *)
Definition placeable (d : Z) (n : V6Node) : Prop :=
  Forall xattr_ok (v6_pairs n) /\ pairs_room (v6_pairs n) < 2 ^ 40 /\ 0 <= d /\ 0 <= v5i_size (v6_inode n) /\ 0 <= v5i_child_count (v6_inode n).

Definition v6_data_size (d : Z) (n : V6Node) : Z := if v5i_is_dir (v6_inode n) then d else v5i_size (v6_inode n).

(** The extents of a placed node: a regular file has its chunk addresses behind its inode. *)
Definition v6_extents (d : Z) (hardlink : option Z) (n : V6Node) : list (Z * Z) :=
  let size := v6_size n in
  let data := v6_data_size d n in
  if v5i_is_reg (v6_inode n) then
    match hardlink with Some _ => [] | None => [(v6_offset n, up 3 size + v5i_child_count (v6_inode n) * 8)] end
  else if v5i_is_dir (v6_inode n) || v5i_is_symlink (v6_inode n) then
    tail_extents size data n
  else [(v6_offset n, size)].

Definition place_cost (d : Z) (n : V6Node) : Z := v6_size n + (if v5i_is_reg (v6_inode n) then 0 else v6_data_size d n) + 8 * v5i_child_count (v6_inode n) + 5 * EROFS_BLOCK_SIZE.

Lemma v6_size_run d n : placeable d n -> v6_size_with_xattr n = Ok (v6_size n) /\ 32 <= v6_size n < 2 ^ 41 /\ v6_size n mod 4 = 0.
Proof.
  intros (Hx & Hr & _). unfold v6_size_with_xattr, get_inode_size_with_xattr, v6_size. rewrite aligned_size_v6_run by (done || lia). cbn [mbind outcome_bind].
  pose proof (pairs_room_aligned (v6_pairs n)) as [R4 R0]. destruct (bool_decide (v6_pairs n = [])), (v6_compact_inode n); cbv beta iota;
    (rewrite uadd_in by (unfold in_range; lia); split_and!; [done|lia|lia|]); try done; rewrite Z.add_assoc, <- Z.add_mod_idemp_r, R4 by lia; done.
Qed.

Lemma mode_dir_not n : v5i_is_dir n = true -> v5i_is_reg n = false /\ v5i_is_symlink n = false.
Proof. unfold v5i_is_dir, v5i_is_reg, v5i_is_symlink, mode_is. intros Hd%Z.eqb_eq. by rewrite Hd. Qed.

Lemma mode_link_not n : v5i_is_symlink n = true -> v5i_is_reg n = false /\ v5i_is_dir n = false.
Proof. unfold v5i_is_dir, v5i_is_reg, v5i_is_symlink, mode_is. intros Hd%Z.eqb_eq. by rewrite Hd. Qed.

(** Where a node is placed; a hard link shares the inode of the first link. *)
Definition well_placed (d : Z) (hardlink : option Z) (n : V6Node) : Prop :=
  if v5i_is_reg (v6_inode n) then
    v6_datalayout n = EROFS_INODE_CHUNK_BASED /\ match hardlink with Some o => v6_offset n = o | None => v6_offset n mod 32 = 0 end
  else if v5i_is_dir (v6_inode n) || v5i_is_symlink (v6_inode n) then tail_placed (v6_size n) (v6_data_size d n) n
  else v6_offset n mod 32 = 0.

Lemma kinds n : v5i_is_dir n = true \/ v5i_is_symlink n = true -> v5i_is_reg n = false /\ (v5i_is_dir n || v5i_is_symlink n) = true.
Proof.
  intros [Hk|Hk]; [destruct (mode_dir_not _ Hk) as [-> _]|destruct (mode_link_not _ Hk) as [-> _]]; rewrite Hk; by rewrite ?orb_true_r.
Qed.

Lemma place_reg hardlink n c used d : alloc_inv c used -> placeable d n -> v5i_is_reg (v6_inode n) = true ->
  bx_offset c mod 32 = 0 -> bx_offset c + place_cost d n < 2 ^ 62 -> exists o c',
  v6_set_offset hardlink n c = Ok (place_v6 EROFS_INODE_CHUNK_BASED o (v6_dirents_offset n) n, c') /\
  (match hardlink with Some o' => o = o' | None => o mod 32 = 0 end) /\
  alloc_inv c' (used ++ match hardlink with Some _ => [] | None => [(o, up 3 (v6_size n) + v5i_child_count (v6_inode n) * 8)] end) /\
  bx_offset c' <= bx_offset c + place_cost d n - EROFS_BLOCK_SIZE.
Proof.
  intros Hinv Hp Hk Hal Hb. destruct (v6_size_run d n Hp) as (Hrun & Hs & _). destruct Hp as (_ & _ & _ & _ & Hcc). unfold place_cost in *. rewrite Hk in *. unfold EROFS_BLOCK_SIZE in *.
  pose proof (ai_offset _ _ Hinv) as Ho. unfold EROFS_BLOCK_SIZE in Ho.
  unfold v6_set_offset. rewrite Hk. destruct hardlink as [o'|]. { cbn [mbind outcome_bind]. exists o', c. rewrite app_nil_r. split_and!; try done. lia. }
  rewrite Hrun. cbn [mbind outcome_bind]. cbv zeta. destruct (up_bounds 3 (v6_size n)) as [U _]; [lia|]. change (2 ^ 3) with 8 in U.
  rewrite (round_up_spec _ 3) by lia. fold (up 3 (v6_size n)). cbn [mbind outcome_bind]. rewrite umul_in by (unfold in_range; lia). cbn [mbind outcome_bind]. rewrite uadd_in by (unfold in_range; lia). cbn [mbind outcome_bind].
  set (chunks := v5i_child_count (v6_inode n) * 8) in *.
  destruct (allocate_spec c used (up 3 (v6_size n) + chunks) Hinv ltac:(lia) ltac:(unfold EROFS_BLOCK_SIZE; lia)) as (o & c1 & Ha & Hcase). rewrite Ha. cbn [mbind outcome_bind].
  destruct Hcase as [[-> ->]|[Hne (_ & P2 & _ & P4 & P5)]].
  2:{ rewrite (proj2 (Z.eqb_neq _ _)) by done. exists o, c1. split_and!; try done. lia. }
  cbn [Z.eqb]. rewrite (advance_run (v6_size n)) by lia. cbn [mbind outcome_bind]. rewrite (ctx_align_run 3) by (cbn [bx_offset]; lia). cbn [mbind outcome_bind bx_offset v6_available_blocks].
  assert (up 3 (bx_offset c + v6_size n) = bx_offset c + up 3 (v6_size n)) as ->.
  { apply Z.mod_divide in Hal as [q ->]; [|done]. unfold up. change (2 ^ 3) with 8. replace (q * 32 + v6_size n + 8 - 1) with (v6_size n + 8 - 1 + q * 4 * 8) by lia. rewrite Z.div_add by lia. lia. }
  rewrite advance_run by (cbn [bx_offset]; lia). cbn [mbind outcome_bind bx_offset v6_available_blocks]. eexists _, _. split; [done|]. split; [done|]. cbn [bx_offset]. split; [|lia].
  rewrite <- Z.add_assoc. apply alloc_inv_advance; [done|lia].
Qed.

(** What placing leaves alone: everything but offsets and layout, and the size of a directory. *)
Definition sized (d : Z) (n : V6Node) : V6Node := if v5i_is_dir (v6_inode n) then with_v6_inode (set_size d) n else n.

Definition placed_from (d : Z) (n n' : V6Node) : Prop :=
  v6_node n' = v6_node (sized d n) /\ v6_compact_inode n' = v6_compact_inode n /\ v6_dirents n' = v6_dirents n /\
  (v5i_is_dir (v6_inode n) || v5i_is_symlink (v6_inode n) = false ->
    v6_dirents_offset n' = v6_dirents_offset n /\ (v5i_is_reg (v6_inode n) = false -> v6_datalayout n' = v6_datalayout n)).

Lemma align_slot c used : alloc_inv c used -> bx_offset c + 32 < 2 ^ 64 -> exists c',
  ctx_align_offset EROFS_INODE_SLOT_SIZE c = Ok (E:=errno) c' /\ alloc_inv c' used /\ bx_offset c' mod 32 = 0 /\ bx_offset c' <= bx_offset c + 31.
Proof.
  intros Hinv Hb. pose proof (ai_offset _ _ Hinv) as Ho. unfold EROFS_BLOCK_SIZE in Ho. rewrite (ctx_align_run 5) by lia. eexists. split; [done|]. cbn [bx_offset].
  destruct (up_bounds 5 (bx_offset c)) as [U V]; [lia|]. change (2 ^ 5) with 32 in *. split_and!; [apply alloc_inv_raise; [done|lia]|done|lia].
Qed.

Lemma v6_place_spec d hardlink n c used : alloc_inv c used -> placeable d n -> bx_offset c mod 32 = 0 -> bx_offset c + place_cost d n < 2 ^ 62 -> exists n' c',
  v6_place d hardlink n c = Ok (n', c') /\ placed_from d n n' /\ well_placed d hardlink n' /\ alloc_inv c' (used ++ v6_extents d hardlink n') /\
  bx_offset c' mod 32 = 0 /\ bx_offset c' <= bx_offset c + place_cost d n.
Proof.
  intros Hinv Hp Hal Hb. destruct (v6_size_run d n Hp) as (Hrun & Hs & _). pose proof Hp as (_ & _ & Hd0 & Hs0 & Hcc). pose proof (ai_offset _ _ Hinv) as Ho. unfold EROFS_BLOCK_SIZE in Ho.
  assert (exists n' c', (if v5i_is_dir (v6_inode n) then v6_set_dir_offset d n c else v6_set_offset hardlink n c) = Ok (n', c') /\ placed_from d n n' /\ well_placed d hardlink n' /\
    alloc_inv c' (used ++ v6_extents d hardlink n') /\ bx_offset c' <= bx_offset c + place_cost d n - EROFS_BLOCK_SIZE) as (n' & c1 & Hr & H1 & H2 & H3 & H4).
  { destruct (v5i_is_dir (v6_inode n)) eqn:Kd; [|destruct (v5i_is_reg (v6_inode n)) eqn:Kr; [|destruct (v5i_is_symlink (v6_inode n)) eqn:Kl]].
    - destruct (kinds _ (or_introl Kd)) as [Kr Kx]. unfold v6_set_dir_offset. rewrite Kd. cbn [negb]. unfold place_cost, v6_data_size in Hb |- *. rewrite Kr, Kd in Hb |- *. unfold EROFS_BLOCK_SIZE in Hb.
      destruct (with_tail_spec d (with_v6_inode (set_size d) n) c used (v6_size n) Hinv Hrun ltac:(lia) Hd0 Hal ltac:(unfold EROFS_BLOCK_SIZE; lia)) as (l & o & dof & c' & Hr & Ht & Hi & Hbx).
      exists (place_v6 l o dof (with_v6_inode (set_size d) n)), c'. rewrite Hr. split; [done|]. split; [unfold placed_from, sized; by rewrite Kd|]. unfold well_placed, v6_extents, v6_data_size. cbv zeta.
      change (v5i_is_reg (v6_inode (place_v6 l o dof (with_v6_inode (set_size d) n)))) with (v5i_is_reg (v6_inode n)). change (v5i_is_dir (v6_inode (place_v6 l o dof (with_v6_inode (set_size d) n)))) with (v5i_is_dir (v6_inode n)).
      change (v5i_is_symlink (v6_inode (place_v6 l o dof (with_v6_inode (set_size d) n)))) with (v5i_is_symlink (v6_inode n)). rewrite Kr, Kx, Kd. split_and!; [exact Ht|exact Hi|unfold EROFS_BLOCK_SIZE in *; lia].
    - destruct (place_reg hardlink n c used d Hinv Hp Kr Hal Hb) as (o & c' & Hr & Hh & Hi & Hbx). eexists _, c'. rewrite Hr. split; [done|]. split; [unfold placed_from, sized; rewrite Kd; by rewrite Kr|].
      unfold well_placed, v6_extents. cbv zeta. change (v5i_is_reg (v6_inode (place_v6 EROFS_INODE_CHUNK_BASED o (v6_dirents_offset n) n))) with (v5i_is_reg (v6_inode n)). rewrite Kr. split_and!; [done|done|exact Hi|exact Hbx].
    - destruct (kinds _ (or_intror Kl)) as [_ Kx]. unfold v6_set_offset. rewrite Kr, Kl. unfold place_cost, v6_data_size in Hb |- *. rewrite Kr, Kd in Hb |- *. unfold EROFS_BLOCK_SIZE in Hb.
      destruct (with_tail_spec (v5i_size (v6_inode n)) n c used (v6_size n) Hinv Hrun ltac:(lia) Hs0 Hal ltac:(unfold EROFS_BLOCK_SIZE; lia)) as (l & o & dof & c' & Hr & Ht & Hi & Hbx).
      exists (place_v6 l o dof n), c'. rewrite Hr. split; [done|]. split; [unfold placed_from, sized; by rewrite Kd, Kl|]. unfold well_placed, v6_extents, v6_data_size. cbv zeta.
      change (v6_inode (place_v6 l o dof n)) with (v6_inode n). rewrite Kr, Kx, Kd. split_and!; [exact Ht|exact Hi|unfold EROFS_BLOCK_SIZE in *; lia].
    - unfold v6_set_offset. rewrite Kr, Kl, Hrun. cbn [mbind outcome_bind]. cbv zeta. unfold place_cost, v6_data_size in Hb |- *. rewrite Kr, Kd in Hb |- *. unfold EROFS_BLOCK_SIZE in Hb. rewrite advance_run by lia. cbn [mbind outcome_bind].
      eexists _, _. split; [done|]. split; [unfold placed_from, sized; by rewrite Kd|]. unfold well_placed, v6_extents. cbv zeta. change (v6_inode (place_v6 (v6_datalayout n) (bx_offset c) (v6_dirents_offset n) n)) with (v6_inode n).
      rewrite Kr, Kd, Kl. cbn [orb]. split_and!; [done|apply alloc_inv_advance; [done|]|cbn [bx_offset]; unfold EROFS_BLOCK_SIZE; lia]. change (v6_size (place_v6 (v6_datalayout n) (bx_offset c) (v6_dirents_offset n) n)) with (v6_size n). lia. }
  unfold v6_place. rewrite Hr. cbn [mbind outcome_bind fst snd]. unfold EROFS_BLOCK_SIZE in H4. pose proof (ai_offset _ _ H3) as Ho3. unfold EROFS_BLOCK_SIZE in Ho3.
  destruct (align_slot c1 _ H3 ltac:(lia)) as (c2 & Hc2 & I1 & I2 & I3). rewrite Hc2. cbn [mbind outcome_bind]. exists n', c2. split_and!; try done. lia.
Qed.

(** Nodes placed one after the other: each with the size of its entries, and the inode it links to. *)
Fixpoint v6_place_all (l : list (Z * option Z * V6Node)) (c : BootstrapContext) : io (list V6Node * BootstrapContext) :=
  match l with
  | [] => Ok ([], c)
  | (d, hardlink, n) :: l =>
      r ← v6_place d hardlink n c;
      rest ← v6_place_all l r.2;
      Ok (r.1 :: rest.1, rest.2)
  end.

Definition all_extents (l : list (Z * option Z * V6Node)) (ns : list V6Node) : list (Z * Z) :=
  concat (zip_with (fun x n => v6_extents x.1.1 x.1.2 n) l ns).

Definition all_cost (l : list (Z * option Z * V6Node)) : Z := foldr (fun x s => place_cost x.1.1 x.2 + s) 0 l.

Lemma place_cost_pos d n : placeable d n -> 0 <= place_cost d n.
Proof.
  intros Hp. destruct (v6_size_run d n Hp) as (_ & Hs & _). destruct Hp as (_ & _ & Hd & Hz & Hc). unfold place_cost, v6_data_size, EROFS_BLOCK_SIZE.
  destruct (v5i_is_reg (v6_inode n)), (v5i_is_dir (v6_inode n)); lia.
Qed.

Lemma all_cost_pos l : Forall (fun x => placeable x.1.1 x.2) l -> 0 <= all_cost l.
Proof. induction 1 as [|x l Hx Hl IH]; [done|]. cbn [all_cost foldr]. fold (all_cost l). pose proof (place_cost_pos _ _ Hx). lia. Qed.

Lemma place_all_spec l : forall c used, Forall (fun x => placeable x.1.1 x.2) l -> alloc_inv c used -> bx_offset c mod 32 = 0 -> bx_offset c + all_cost l < 2 ^ 62 ->
  exists ns c', v6_place_all l c = Ok (ns, c') /\ Forall2 (fun x n => placed_from x.1.1 x.2 n /\ well_placed x.1.1 x.1.2 n) l ns /\ alloc_inv c' (used ++ all_extents l ns) /\ bx_offset c' <= bx_offset c + all_cost l.
Proof.
  induction l as [|[[d hl] n] l IH]; intros c used Hl Hinv Hal Hb.
  - exists [], c. unfold all_extents. cbn. rewrite app_nil_r. split_and!; [done|done|done|lia].
  - apply Forall_cons in Hl as [Hn Hl]. cbn [fst snd] in Hn. cbn [all_cost foldr fst snd] in Hb. fold (all_cost l) in Hb.
    pose proof (all_cost_pos l Hl) as Hc0.
    destruct (v6_place_spec d hl n c used Hinv Hn Hal ltac:(lia)) as (n' & c1 & Hr & H1 & H2 & H3 & H4 & H5).
    destruct (IH c1 _ Hl H3 H4 ltac:(lia)) as (ns & c' & Hrs & Hf & Hi & Hbx). exists (n' :: ns), c'. cbn [v6_place_all]. rewrite Hr. cbn [mbind outcome_bind snd fst]. rewrite Hrs. split; [done|].
    split; [by constructor|]. unfold all_extents in *. cbn [zip_with concat fst snd]. rewrite <- app_assoc in Hi. split; [done|]. cbn [all_cost foldr fst snd]. fold (all_cost l). lia.
Qed.
End alloc_spec.

(** C14: the v6 metadata of a bootstrap does not overlap: whatever nodes are placed, in whatever
    order, placing succeeds, and the inodes with their attributes, inlined tails and chunk addresses,
    and the blocks of directories and symlinks, are pairwise disjoint extents behind the super block
    and below the final offset. Every inode is aligned to a slot, every data block to a block, and an
    inlined tail lies in the block of its inode. *)
Theorem v6_layout_disjoint `{Profile} l : Forall (fun x => placeable x.1.1 x.2) l -> EROFS_BLOCK_SIZE + all_cost l < 2 ^ 62 ->
  exists ns c, v6_place_all l BootstrapContext_new = Ok (ns, c) /\
    Forall2 (fun x n => placed_from x.1.1 x.2 n /\ well_placed x.1.1 x.1.2 n) l ns /\ apart (all_extents l ns) /\
    Forall (fun e => EROFS_BLOCK_SIZE <= e.1 /\ e.1 + e.2 <= bx_offset c) (all_extents l ns).
Proof.
  intros Hl Hb. destruct (place_all_spec l BootstrapContext_new [] Hl alloc_inv_new eq_refl Hb) as (ns & c & Hr & Hf & [_ Ha Hbel _ _] & _). exists ns, c.
  split_and!; [done|done|by apply apart_app in Ha as (Ha & _)|]. apply Forall_app in Hbel as [Hbel _]. eapply Forall_impl; [exact Hbel|]. cbn. lia.
Qed.

Section layout_demo.
#[local] Existing Instance dev_profile.

Definition layout_demo_node (mode size cc : Z) (path : list Z) : V6Node :=
  mkV6Node (mkNode 1 0 1 0 (mkV5Inode 0 0 1 0 0 0 mode size 0 0 1 0 cc 0 0 0 0 42 0) [] ∅ None UpperAddition [] [path] 0) true EROFS_INODE_FLAT_PLAIN 0 [] 0.

(** A directory of 4070 bytes does not fit behind its inode and gets a block of its own; the other
    inodes fill the block of its inode. *)
Definition layout_demo : list (Z * option Z * V6Node) :=
  [(4070, None, layout_demo_node 0x41ed 0 0 [100]); (0, None, layout_demo_node 0xa1ff 3 0 [115]); (0, None, layout_demo_node 0x81a4 0x2000 2 [102])].

Lemma v6_layout_disjoint_witness : exists ns c, v6_place_all layout_demo BootstrapContext_new = Ok (ns, c) /\
  apart (all_extents layout_demo ns) /\ length (all_extents layout_demo ns) = 5%nat.
Proof.
  destruct (v6_layout_disjoint layout_demo) as (ns & c & Hr & _ & Ha & _).
  - repeat (constructor; [split; [vm_compute; constructor|repeat split; apply Z.leb_le || apply Z.ltb_lt; vm_compute; reflexivity]|]). constructor.
  - apply Z.ltb_lt. vm_compute. reflexivity.
  - exists ns, c. split_and!; [exact Hr|exact Ha|]. vm_compute in Hr. injection Hr as <- <-. vm_compute. reflexivity.
Defined.
End layout_demo.
