(* ===== verification/V6Dump.v ===== *)
(** The dump of RAFS v6 nodes ([dump_bootstrap_v6] of [src/bin/nydus-image/core/node.rs];
    [rafsv6_update_dirents] of [src/bin/nydus-image/core/bootstrap.rs]).

    Inodes, attributes, directory blocks, symlink targets and chunk addresses are written to the
    places the builder chose. The theorems are that the mapped file gives them back: a node whose
    writes are in the file is read as the node that was dumped. *)
From stdpp Require Import sorting.
From S2P Require Import Prelude Utils LittleEndian ChunkInfo Device RafsLayout RafsV5 RafsBlobTable RafsV5Inode CachedInode CachedDir Overlay Builder RafsV6Inode DirectV6 RafsV6Xattr V6Layout.

(** ** The writer *)

(** The writer of the bootstrap, and what the dump collects: [chunk_cache] and [ctx.has_xattr]. *)
Record DumpState := mkDump {
  du_bytes : list Z;
  du_pos : Z;
  du_cache : gmap (Z * Z) RafsV5ChunkInfo;
  du_has_xattr : bool
}.

Definition seek_offset (offset : Z) : stM DumpState errno unit :=
  st_modify (fun s => mkDump (du_bytes s) offset (du_cache s) (du_has_xattr s)).

Definition du_write (data : list Z) : stM DumpState errno unit :=
  st_modify (fun s => mkDump (pwrite (du_bytes s) (du_pos s) data) (du_pos s + zlen data) (du_cache s) (du_has_xattr s)).

(** A store that only appends, at the position of the writer. *)
Definition du_store {A} (m : stM (list Z) errno A) : stM DumpState errno A := fun s =>
  let r := m [] in (r.1, (du_write r.2 s).2).

(** ** Nodes *)

Section dump.
Context `{Profile} (chunk_size : Z).

Definition v6_store_xattrs (n : V6Node) : stM DumpState errno unit :=
  match v6_pairs n with
  | [] => st_ret tt
  | pairs =>
      _ ← du_store (store_v6 pairs);
      st_modify (fun s => mkDump (du_bytes s) (du_pos s) (du_cache s) true)
  end.

(** The entries of a block with the offsets of their names. *)
Fixpoint fill_entries (dirents : list (RafsV6Dirent * list Z)) (nameoff : Z) : io (list Z) :=
  match dirents with
  | [] => Ok []
  | (entry, name) :: dirents =>
      entry ← set_name_offset (wrap 16 nameoff) entry;
      nameoff ← uadd 64 nameoff (zlen name);
      rest ← fill_entries dirents nameoff;
      Ok (dirent_bytes entry ++ rest)
  end.

Definition dir_data (dirents : list (RafsV6Dirent * list Z)) (nameoff : Z) : io (list Z) :=
  e ← fill_entries dirents nameoff; Ok (e ++ concat dirents.*2).

(** The loop over [v6_dirents]: the entries of the last block, [nameoff], [used] and [dirent_off]. *)
Fixpoint dump_dirents (l : list (Z * list Z * Z)) (meta_addr meta_offset : Z)
    (dirents : list (RafsV6Dirent * list Z)) (nameoff used dirent_off : Z)
    : stM DumpState errno (list (RafsV6Dirent * list Z) * Z * Z * Z) :=
  match l with
  | [] => st_ret (dirents, nameoff, used, dirent_off)
  | (offset, name, mode) :: l =>
      len ← st_lift (uadd 64 (zlen name) 12);
      s ← st_lift (uadd 64 used len);
      b ← (if EROFS_BLOCK_SIZE <? s then
             data ← st_lift (dir_data dirents nameoff);
             _ ← seek_offset dirent_off;
             _ ← du_write data;
             dirent_off ← st_lift (uadd 64 dirent_off EROFS_BLOCK_SIZE);
             st_ret ([], 0, 0, dirent_off)
           else st_ret (dirents, nameoff, used, dirent_off));
      let '(dirents, nameoff, used, dirent_off) := b in
      o ← st_lift (uadd 64 offset meta_offset);
      nid ← st_lift (calculate_nid o meta_addr);
      let entry := RafsV6Dirent_new nid 0 (file_type mode) in
      nameoff ← st_lift (uadd 64 nameoff 12);
      used ← st_lift (uadd 64 used len);
      dump_dirents l meta_addr meta_offset (dirents ++ [(entry, name)]) nameoff used dirent_off
  end.

Definition write_at (offset : Z) (data : list Z) : stM DumpState errno unit := _ ← seek_offset offset; du_write data.

(** Inode and extended attributes. *)
Definition dump_inode (n : V6Node) (inode : DiskInode) : stM DumpState errno unit :=
  _ ← write_at (v6_offset n) (oi_bytes inode); v6_store_xattrs n.

Definition tail_offset (n : V6Node) (plain : Z) : io Z :=
  if v6_datalayout n =? EROFS_INODE_FLAT_INLINE then s ← v6_size_with_xattr n; uadd 64 (v6_offset n) s
  else if v6_datalayout n =? EROFS_INODE_FLAT_PLAIN then Ok plain
  else Err EOTHER.

Definition v6_dump_dir (n : V6Node) (meta_addr meta_offset : Z) (inode : DiskInode) : stM DumpState errno unit :=
  let dirent_off := v6_dirents_offset n in
  let inode := oi_set_u (wrap 32 (dirent_off / EROFS_BLOCK_SIZE)) inode in
  _ ← dump_inode n inode;
  b ← dump_dirents (v6_dirents n) meta_addr meta_offset [] 0 0 dirent_off;
  let '(dirents, nameoff, used, dirent_off) := b in
  if 0 <? used then
    data ← st_lift (dir_data dirents nameoff);
    tail_off ← st_lift (tail_offset n dirent_off);
    write_at tail_off data
  else st_ret tt.

(** The chunk addresses, and the chunks in [chunk_cache]. *)
Fixpoint dump_chunks (chunks : list RafsV5ChunkInfo) : stM DumpState errno (list Z) :=
  match chunks with
  | [] => st_ret []
  | chunk :: chunks =>
      a ← st_lift (ca_set_blob_index (v5c_blob_index chunk) ChunkAddr_new);
      a ← st_lift (ca_set_blob_ci_index (v5c_index chunk) a);
      let a := ca_set_block_addr (wrap 32 (v5c_uncompressed_offset chunk / EROFS_BLOCK_SIZE)) a in
      i ← st_lift (uadd 32 (v5c_blob_index chunk) 1);
      _ ← st_modify (fun s => mkDump (du_bytes s) (du_pos s) (<[(v5c_block_id chunk, i) := chunk]> (du_cache s)) (du_has_xattr s));
      rest ← dump_chunks chunks;
      st_ret (chunk_addr_bytes a ++ rest)
  end.

Definition v6_dump_file (n : V6Node) (inode : DiskInode) : stM DumpState errno unit :=
  info ← st_lift (ChunkHeader_new chunk_size);
  let inode := oi_set_u (ChunkHeader_to_u32 info) inode in
  chunks ← dump_chunks (n_chunks (v6_node n));
  _ ← dump_inode n inode;
  s ← st_lift (v6_size_with_xattr n);
  o ← st_lift (uadd 64 (v6_offset n) s);
  chunk_off ← st_lift (align_offset o 8);
  write_at chunk_off chunks.

Definition v6_dump_symlink (n : V6Node) (inode : DiskInode) : stM DumpState errno unit :=
  let data_off := v6_dirents_offset n in
  let inode := oi_set_u (wrap 32 (data_off / EROFS_BLOCK_SIZE)) inode in
  _ ← dump_inode n inode;
  match n_symlink (v6_node n) with
  | Some symlink =>
      tail_off ← st_lift (tail_offset n data_off);
      write_at tail_off symlink
  | None => st_ret tt
  end.

Definition dump_bootstrap_v6 (orig_meta_addr meta_addr : Z) (n : V6Node) : stM DumpState errno V6Node :=
  xattr_inline_count ← st_lift (count_v6 (v6_pairs n));
  if 2 ^ 16 - 1 <? xattr_inline_count then st_lift (Err EOTHER)
  else
    inode ← st_lift (new_v6_inode (v6_inode n) (v6_datalayout n) xattr_inline_count (v6_compact_inode n));
    meta_offset ← st_lift (usub 64 meta_addr orig_meta_addr);
    o ← st_lift (uadd 64 (v6_offset n) meta_offset);
    d ← st_lift (if v5i_is_dir (v6_inode n) || v5i_is_symlink (v6_inode n) then uadd 64 (v6_dirents_offset n) meta_offset else Ok (v6_dirents_offset n));
    let n := place_v6 (v6_datalayout n) o d n in
    _ ← (if v5i_is_dir (v6_inode n) then v6_dump_dir n meta_addr meta_offset inode
         else if v5i_is_reg (v6_inode n) then v6_dump_file n inode
         else if v5i_is_symlink (v6_inode n) then v6_dump_symlink n inode
         else dump_inode n inode);
    st_ret n.

Fixpoint dump_nodes_v6 (orig_meta_addr meta_addr : Z) (nodes : list V6Node) : stM DumpState errno (list V6Node) :=
  match nodes with
  | [] => st_ret []
  | n :: nodes =>
      n ← dump_bootstrap_v6 orig_meta_addr meta_addr n;
      rest ← dump_nodes_v6 orig_meta_addr meta_addr nodes;
      st_ret (n :: rest)
  end.
End dump.

(** ** Files as bytes *)

Definition apply_writes (ws : list (Z * list Z)) (f : list Z) : list Z := foldl (fun f w => pwrite f w.1 w.2) f ws.
Definition write_ext (w : Z * list Z) : Z * Z := (w.1, zlen w.2).

Lemma apply_writes_app ws vs f : apply_writes (ws ++ vs) f = apply_writes vs (apply_writes ws f).
Proof. apply foldl_app. Qed.

(** A byte no write touches. *)
Lemma byte_at_untouched ws f i : 0 <= i -> Forall (fun w => 0 <= w.1 /\ (i < w.1 \/ w.1 + zlen w.2 <= i)) ws -> file_byte (apply_writes ws f) i = file_byte f i.
Proof.
  intros Hi Hw. revert f. induction Hw as [|w ws [H0 Hout] Hw IH]; intros f; [done|]. cbn [apply_writes foldl]. fold (apply_writes ws (pwrite f w.1 w.2)). rewrite IH, byte_at_pwrite by done.
  by replace ((w.1 <=? i) && (i <? w.1 + zlen w.2)) with false by lia.
Qed.

(** Writes that do not overlap are all in the file. *)
Lemma apply_writes_holds ws f w : Forall (fun w => 0 <= w.1) ws -> apart (write_ext <$> ws) -> w ∈ ws -> file_holds (apply_writes ws f) w.1 w.2.
Proof.
  intros H0 Ha Hin. apply list_elem_of_split in Hin as (l & k & ->). apply Forall_app in H0 as [Hl [Hw Hk]%Forall_cons]. split; [done|]. intros i Hi.
  rewrite apply_writes_app. cbn [apply_writes foldl]. fold (apply_writes l f). fold (apply_writes k (pwrite (apply_writes l f) w.1 w.2)).
  rewrite byte_at_untouched; [|lia|].
  - rewrite byte_at_pwrite by lia. replace ((w.1 <=? w.1 + i) && (w.1 + i <? w.1 + zlen w.2)) with true by lia. f_equal. lia.
  - rewrite fmap_app, fmap_cons in Ha. apply apart_app in Ha as (_ & [Hd _] & _). rewrite Forall_fmap in Hd. rewrite Forall_forall in Hd, Hk |- *. intros v Hv.
    specialize (Hd v Hv). specialize (Hk v Hv). split; [done|]. unfold disj, compose, write_ext in Hd. cbn in Hd. lia.
Qed.

(** What the file holds is stored in its mapping. *)
Lemma holds_stored m off data : file_holds (mp_bytes m) off data -> off + zlen data <= zlen (mp_bytes m) -> stored m off data.
Proof.
  intros [H0 Hd] Hl. split_and!; [done|done|]. apply list_eq. intros i. unfold slice. destruct (decide (i < length data)%nat) as [Hi|Hi].
  - rewrite lookup_take_lt, lookup_drop by done. specialize (Hd (Z.of_nat i) ltac:(unfold zlen; lia)). unfold file_byte in Hd. rewrite Nat2Z.id in Hd.
    replace (Z.to_nat (off + Z.of_nat i)) with (Z.to_nat off + i)%nat in Hd by lia.
    destruct (lookup_lt_is_Some_2 data i Hi) as [x Hx]. destruct (lookup_lt_is_Some_2 (mp_bytes m) (Z.to_nat off + i)) as [y Hy]; [unfold zlen in Hl; lia|].
    rewrite Hx, Hy in Hd |- *. cbn in Hd. by f_equal.
  - rewrite lookup_take_ge, (lookup_ge_None_2 data) by lia. done.
Qed.

(** ** Runs *)

(** What a step of the dump collects: chunks, in the order of their insertion, and whether a node has
    extended attributes. *)
Definition cache_chunks (chunks : list RafsV5ChunkInfo) (cache : gmap (Z * Z) RafsV5ChunkInfo) : gmap (Z * Z) RafsV5ChunkInfo :=
  foldl (fun m c => <[(v5c_block_id c, v5c_blob_index c + 1) := c]> m) cache chunks.

Definition collects (chunks : list RafsV5ChunkInfo) (xattr : bool) (s s' : DumpState) : Prop :=
  du_cache s' = cache_chunks chunks (du_cache s) /\ du_has_xattr s' = du_has_xattr s || xattr.

Lemma collects_refl s s' : du_cache s' = du_cache s -> du_has_xattr s' = du_has_xattr s -> collects [] false s s'.
Proof. intros Hc Hx. split; [done|]. by rewrite orb_false_r. Qed.

Lemma collects_trans a b x y s s1 s2 : collects a x s s1 -> collects b y s1 s2 -> collects (a ++ b) (x || y) s s2.
Proof. intros [C1 X1] [C2 X2]. split; [|by rewrite X2, X1, orb_assoc]. rewrite C2, C1. unfold cache_chunks. by rewrite foldl_app. Qed.

Definition has_pairs (n : V6Node) : bool := negb (bool_decide (v6_pairs n = [])).

Section run.
Context `{Profile}.

Definition inode_writes (n : V6Node) (inode : DiskInode) : list (Z * list Z) :=
  (v6_offset n, oi_bytes inode) ::
  if bool_decide (v6_pairs n = []) then [] else [(v6_offset n + zlen (oi_bytes inode), xattr_area (v6_pairs n))].

Lemma dump_inode_run n inode s : Forall xattr_ok (v6_pairs n) -> exists s', dump_inode n inode s = (Ok tt, s') /\
  du_bytes s' = apply_writes (inode_writes n inode) (du_bytes s) /\ collects [] (has_pairs n) s s'.
Proof.
  intros Hx. unfold collects, has_pairs, dump_inode, write_at, inode_writes, v6_store_xattrs. pose proof (store_v6_run (v6_pairs n) [] Hx) as Hs. destruct (v6_pairs n) as [|kv pairs] eqn:E.
  - eexists. split; [done|]. cbn. by rewrite orb_false_r.
  - rewrite bool_decide_eq_false_2 by done. eexists. split.
    + unfold mbind, stM_bind, st_bind, du_store. cbn -[store_v6 xattr_area zlen oi_bytes pwrite]. rewrite Hs. reflexivity.
    + cbn [du_bytes du_cache du_has_xattr negb]. by rewrite orb_true_r.
Qed.

(** *** Directories *)

Definition used_by (es : list entry) : Z := 12 * zlen es + names_size es.

Definition dirents_of (es : list entry) : list (RafsV6Dirent * list Z) := (fun e => (RafsV6Dirent_new (en_nid e) 0 (en_type e), en_name e)) <$> es.

Lemma fill_entries_run es off : Forall entry_wf es -> 0 <= off -> off + names_size es <= EROFS_BLOCK_SIZE ->
  fill_entries (dirents_of es) off = Ok (dirents_bytes (dirents_from off es)).
Proof.
  intros Hw. revert off. induction Hw as [|e es (_ & _ & Hne & _) Hw IH]; intros off H0 Hb; [done|]. cbn [names_size foldr] in Hb. fold (names_size es) in Hb.
  pose proof (names_size_nonneg es). assert (0 < zlen (en_name e)) by (destruct (en_name e); [done|unfold zlen; cbn; lia]). unfold EROFS_BLOCK_SIZE in Hb.
  unfold dirents_of. rewrite fmap_cons. fold (dirents_of es). cbn [fill_entries]. rewrite wrap_small by (unfold in_range; lia). unfold set_name_offset, EROFS_BLOCK_SIZE. rewrite (proj2 (Z.ltb_lt _ _)) by lia.
  cbn [rassert mbind outcome_bind]. rewrite uadd_in by (unfold in_range; lia). cbn [mbind outcome_bind]. rewrite IH by (unfold EROFS_BLOCK_SIZE; lia). done.
Qed.

Lemma dir_data_run es : Forall entry_wf es -> used_by es <= EROFS_BLOCK_SIZE -> dir_data (dirents_of es) (12 * zlen es) = Ok (block_bytes es).
Proof.
  intros Hw Hb. unfold dir_data. pose proof (zlen_nonneg es). rewrite fill_entries_run by (done || unfold used_by in Hb; lia). cbn [mbind outcome_bind]. unfold block_bytes.
  do 3 f_equal. unfold dirents_of. rewrite <- list_fmap_compose. done.
Qed.

(** Entries filled into blocks: the blocks that are complete, and the last one. *)
Fixpoint pack (es cur : list entry) : list (list entry) * list entry :=
  match es with
  | [] => ([], cur)
  | e :: es =>
      if EROFS_BLOCK_SIZE <? used_by cur + (zlen (en_name e) + 12) then let r := pack es [e] in (cur :: r.1, r.2)
      else pack es (cur ++ [e])
  end.

Fixpoint block_writes (off : Z) (blocks : list (list entry)) : list (Z * list Z) :=
  match blocks with [] => [] | b :: blocks => (off, block_bytes b) :: block_writes (off + EROFS_BLOCK_SIZE) blocks end.

(** The entry for an item of [v6_dirents]. *)
Definition entry_of (meta_addr meta_offset : Z) (x : Z * list Z * Z) : entry :=
  mkEntry (Z.shiftr (x.1.1 + meta_offset - meta_addr) EROFS_INODE_SLOT_BITS) (file_type x.2) x.1.2.

Definition small_name (e : entry) : Prop := zlen (en_name e) + 12 <= EROFS_BLOCK_SIZE.

Lemma used_by_snoc cur e : used_by (cur ++ [e]) = used_by cur + (zlen (en_name e) + 12).
Proof. unfold used_by. rewrite zlen_app, names_size_app. cbn. unfold zlen at 2. cbn. lia. Qed.

Lemma used_by_nonneg es : 0 <= used_by es.
Proof. unfold used_by. pose proof (zlen_nonneg es). pose proof (names_size_nonneg es). lia. Qed.

Lemma dump_dirents_run meta_addr meta_offset l : forall cur off s,
  Forall (fun x => 0 <= x.1.1 /\ 0 <= x.1.1 + meta_offset - meta_addr /\ x.1.1 + meta_offset < 2 ^ 64) l -> in_range 64 meta_addr -> 0 <= meta_offset ->
  Forall entry_wf (entry_of meta_addr meta_offset <$> l) -> Forall small_name (entry_of meta_addr meta_offset <$> l) ->
  Forall entry_wf cur -> used_by cur <= EROFS_BLOCK_SIZE -> 0 <= off -> off + (zlen l + 1) * EROFS_BLOCK_SIZE < 2 ^ 64 ->
  let r := pack (entry_of meta_addr meta_offset <$> l) cur in exists s',
  dump_dirents l meta_addr meta_offset (dirents_of cur) (12 * zlen cur) (used_by cur) off s =
    (Ok (dirents_of r.2, 12 * zlen r.2, used_by r.2, off + EROFS_BLOCK_SIZE * zlen r.1), s') /\
  du_bytes s' = apply_writes (block_writes off r.1) (du_bytes s) /\ collects [] false s s'.
Proof.
  induction l as [|[[o name] mode] l IH]; intros cur off s Hl Hma Hmo Hw Hsm Hcur Hu H0 Hoff; cbv zeta.
  - exists s. cbn [fmap list_fmap pack dump_dirents fst snd]. change (zlen (@nil (list entry))) with 0. rewrite Z.mul_0_r, Z.add_0_r. split_and!; [done|done|by apply collects_refl].
  - apply Forall_cons in Hl as [(X0 & X1 & X2) Hl]. rewrite fmap_cons in Hw, Hsm. apply Forall_cons in Hw as [He Hw]. apply Forall_cons in Hsm as [Hse Hsm]. cbn [fst snd] in X0, X1, X2.
    rewrite fmap_cons. set (e := entry_of meta_addr meta_offset (o, name, mode)) in *. set (es := entry_of meta_addr meta_offset <$> l) in *.
    assert (en_name e = name) as En by done. unfold small_name in Hse. rewrite En in Hse. unfold EROFS_BLOCK_SIZE in Hse, Hu, Hoff. pose proof (zlen_nonneg name). pose proof (used_by_nonneg cur). pose proof (zlen_nonneg l). unfold in_range in Hma.
    assert (zlen ((o, name, mode) :: l) = zlen l + 1) as Hz by (unfold zlen; cbn [length]; lia). rewrite Hz in Hoff.
    assert (forall cur off s, Forall entry_wf cur -> used_by cur + (zlen name + 12) <= 4096 -> 0 <= off -> off + (zlen l + 1) * 4096 < 2 ^ 64 ->
      exists s', (o1 ← st_lift (uadd 64 o meta_offset); nid ← st_lift (calculate_nid o1 meta_addr);
        let entry := RafsV6Dirent_new nid 0 (file_type mode) in
        nameoff ← st_lift (uadd 64 (12 * zlen cur) 12);
        used ← st_lift (uadd 64 (used_by cur) (zlen name + 12));
        dump_dirents l meta_addr meta_offset (dirents_of cur ++ [(entry, name)]) nameoff used off) s =
      (Ok (dirents_of (pack es (cur ++ [e])).2, 12 * zlen (pack es (cur ++ [e])).2, used_by (pack es (cur ++ [e])).2, off + EROFS_BLOCK_SIZE * zlen (pack es (cur ++ [e])).1), s') /\
      du_bytes s' = apply_writes (block_writes off (pack es (cur ++ [e])).1) (du_bytes s) /\ collects [] false s s') as Hrest.
    { intros c f t Hc Hcu Hf Hfo. pose proof (used_by_nonneg c). pose proof (zlen_nonneg c). rewrite (uadd_in 64 o) by (unfold in_range; lia). erewrite st_bind_run by reflexivity.
      unfold calculate_nid. rewrite usub_in by (unfold in_range; lia). erewrite st_bind_run by reflexivity. cbv zeta. assert (12 * zlen c <= used_by c) by (unfold used_by; pose proof (names_size_nonneg c); lia).
      rewrite (uadd_in 64 (12 * zlen c)) by (unfold in_range; lia). erewrite st_bind_run by reflexivity. rewrite uadd_in by (unfold in_range; lia). erewrite st_bind_run by reflexivity.
      specialize (IH (c ++ [e]) f t Hl Hma Hmo Hw Hsm). rewrite used_by_snoc, En in IH. replace (12 * zlen (c ++ [e])) with (12 * zlen c + 12) in IH by (rewrite zlen_app; unfold zlen at 3; cbn; lia).
      unfold dirents_of at 1 in IH. rewrite fmap_app in IH. cbn [fmap list_fmap] in IH. fold (dirents_of c) in IH. unfold e at 1 2 in IH. cbn [entry_of en_nid en_type en_name fst snd] in IH.
      apply IH; [apply Forall_app; split; [done|by constructor]|unfold EROFS_BLOCK_SIZE; lia|done|unfold EROFS_BLOCK_SIZE; lia]. }
    cbn [dump_dirents pack]. rewrite En. rewrite (uadd_in 64 (zlen name)) by (unfold in_range; lia). erewrite st_bind_run by reflexivity. rewrite (uadd_in 64 (used_by cur)) by (unfold in_range; lia). erewrite st_bind_run by reflexivity.
    destruct (Z.ltb_spec EROFS_BLOCK_SIZE (used_by cur + (zlen name + 12))) as [Hlt|Hge].
    + rewrite dir_data_run by done. rewrite (uadd_in 64 off) by (unfold in_range, EROFS_BLOCK_SIZE; lia). erewrite st_bind_run by reflexivity. cbv beta iota.
      set (s1 := mkDump (pwrite (du_bytes s) off (block_bytes cur)) (off + zlen (block_bytes cur)) (du_cache s) (du_has_xattr s)).
      destruct (Hrest [] (off + 4096) s1 ltac:(constructor) ltac:(change (used_by []) with 0; lia) ltac:(lia) ltac:(lia)) as (s' & Hr & Hb & Hc). exists s'. cbn [app] in Hr, Hb. cbn [fst snd block_writes]. split.
      * change (dirents_of []) with (@nil (RafsV6Dirent * list Z)) in Hr. change (12 * zlen (@nil entry)) with 0 in Hr. change (used_by []) with 0 in Hr. etransitivity; [exact Hr|]. do 3 f_equal.
        assert (zlen (cur :: (pack es [e]).1) = zlen (pack es [e]).1 + 1) as -> by (unfold zlen; cbn [length]; lia). unfold EROFS_BLOCK_SIZE. lia.
      * split; [|done]. rewrite Hb. done.
    + erewrite st_bind_run by reflexivity. cbv beta iota. apply Hrest; [done|unfold EROFS_BLOCK_SIZE in *; lia|done|lia].
Qed.

(** Packing keeps the entries in order, in blocks that are not too large. *)
Lemma pack_concat es : forall cur, concat (pack es cur).1 ++ (pack es cur).2 = cur ++ es.
Proof.
  induction es as [|e es IH]; intros cur; cbn [pack]; [by rewrite app_nil_r|]. destruct (_ <? _).
  - cbn [fst snd concat]. rewrite <- app_assoc, IH. done.
  - rewrite IH, <- app_assoc. done.
Qed.

Lemma zlen_block_used b : zlen (block_bytes b) = used_by b.
Proof. apply zlen_block. Qed.

Lemma pack_ok es : forall cur, Forall entry_wf (cur ++ es) -> Forall small_name es -> cur <> [] -> used_by cur <= EROFS_BLOCK_SIZE ->
  Forall block_ok ((pack es cur).1 ++ [(pack es cur).2]).
Proof.
  induction es as [|e es IH]; intros cur Hw Hs Hne Hu; cbn [pack].
  - rewrite app_nil_r in Hw. cbn. constructor; [|done]. split_and!; [done|done|by rewrite zlen_block_used].
  - apply Forall_cons in Hs as [He Hs]. destruct (Z.ltb_spec EROFS_BLOCK_SIZE (used_by cur + (zlen (en_name e) + 12))) as [Hlt|Hge]; cbn [fst snd].
    + apply Forall_app in Hw as [Hc Hw]. cbn [app]. constructor; [split_and!; [done|done|by rewrite zlen_block_used]|]. apply IH; [done|done|done|].
      change [e] with ([] ++ [e]). rewrite used_by_snoc. change (used_by []) with 0. unfold small_name in He. lia.
    + apply IH; [by rewrite <- app_assoc|done|by destruct cur|]. by rewrite used_by_snoc.
Qed.

Definition packed_size (r : list (list entry) * list entry) : Z := EROFS_BLOCK_SIZE * zlen r.1 + used_by r.2.

(** One name more: a block that is exactly full counts as the next, empty one. *)
Lemma next_d_size k u len : 0 <= k -> 0 < u <= 4096 -> 0 < len <= 4096 -> (k + 3) * 4096 < 2 ^ 64 ->
  (s ← uadd 64 ((4096 * k + u) mod EROFS_BLOCK_SIZE) len;
   d_size ← (if EROFS_BLOCK_SIZE <? s then q ← div_round_up (4096 * k + u) EROFS_BLOCK_SIZE; umul 64 q EROFS_BLOCK_SIZE else Ok (4096 * k + u));
   uadd 64 d_size len) = Ok (E:=errno) (if EROFS_BLOCK_SIZE <? u + len then 4096 * (k + 1) + len else 4096 * k + (u + len)).
Proof.
  intros Hk Hu Hl Hb. unfold EROFS_BLOCK_SIZE. destruct (decide (u = 4096)) as [->|Hpart].
  - replace ((4096 * k + 4096) mod 4096) with 0 by (replace (4096 * k + 4096) with ((k + 1) * 4096) by lia; by rewrite Z.mod_mul).
    rewrite (uadd_in 64 0) by (unfold in_range; lia). cbn [mbind outcome_bind]. rewrite (proj2 (Z.ltb_ge _ _)) by lia. cbn [mbind outcome_bind]. rewrite uadd_in by (unfold in_range; lia).
    rewrite (proj2 (Z.ltb_lt _ _)) by lia. f_equal. lia.
  - replace ((4096 * k + u) mod 4096) with u by (rewrite Z.add_comm, Z.mul_comm, Z_mod_plus_full, Z.mod_small; lia). rewrite (uadd_in 64 u) by (unfold in_range; lia). cbn [mbind outcome_bind].
    destruct (Z.ltb_spec 4096 (u + len)) as [Hlt|Hge].
    + rewrite (div_round_up_spec _ 12) by lia. cbn [mbind outcome_bind]. change (2 ^ 12) with 4096.
      replace ((4096 * k + u + 4096 - 1) / 4096) with (k + 1) by (apply Z.div_unique with (u - 1); lia). rewrite umul_in by (unfold in_range; lia). cbn [mbind outcome_bind].
      rewrite uadd_in by (unfold in_range; lia). f_equal. lia.
    + cbn [mbind outcome_bind]. rewrite uadd_in by (unfold in_range; lia). f_equal. lia.
Qed.

(** [v6_dir_d_size] is the size of the packed entries. *)
Lemma add_name_sizes_pack es : forall cur k, Forall small_name es -> cur <> [] -> 0 < used_by cur <= EROFS_BLOCK_SIZE -> 0 <= k ->
  (k + zlen es + 2) * EROFS_BLOCK_SIZE < 2 ^ 64 ->
  add_name_sizes (en_name <$> es) (4096 * k + used_by cur) = Ok (4096 * k + packed_size (pack es cur)).
Proof.
  induction es as [|e es IH]; intros cur k Hs Hne Hu Hk Hb; [done|].
  apply Forall_cons in Hs as [He Hs]. unfold small_name in He. assert (zlen (e :: es) = zlen es + 1) as Hz by (unfold zlen; cbn [length]; lia). rewrite Hz in Hb. pose proof (zlen_nonneg es). pose proof (zlen_nonneg (en_name e)).
  unfold EROFS_BLOCK_SIZE in Hu, Hb, He. rewrite fmap_cons. cbn [add_name_sizes pack]. rewrite (uadd_in 64 (zlen (en_name e))) by (unfold in_range; lia). cbn [mbind outcome_bind].
  pose proof (next_d_size k (used_by cur) (zlen (en_name e) + 12) Hk Hu ltac:(lia) ltac:(lia)) as Hstep.
  destruct (uadd 64 _ _) as [s| |] eqn:E1; [|done|done]. cbn [mbind outcome_bind] in Hstep |- *. destruct (if EROFS_BLOCK_SIZE <? s then _ else _) as [d| |]; [|done|done]. cbn [mbind outcome_bind] in Hstep |- *.
  rewrite Hstep. cbn [mbind outcome_bind]. destruct (Z.ltb_spec EROFS_BLOCK_SIZE (used_by cur + (zlen (en_name e) + 12))) as [Hlt|Hge]; unfold EROFS_BLOCK_SIZE in *.
  - assert (used_by [e] = zlen (en_name e) + 12) as Hue by (change [e] with ([] ++ [e]); rewrite used_by_snoc; done). rewrite <- Hue. rewrite IH by (done || lia). f_equal. unfold packed_size. cbn [fst snd].
    assert (zlen (cur :: (pack es [e]).1) = zlen (pack es [e]).1 + 1) as -> by (unfold zlen; cbn [length]; lia). unfold EROFS_BLOCK_SIZE. lia.
  - rewrite <- used_by_snoc. apply IH; [done|by destruct cur|rewrite used_by_snoc; lia|done|lia].
Qed.

(** *** Nodes *)

(** The entries of a directory, filled into blocks; where the last block goes. *)
Definition dir_pack (meta_addr meta_offset : Z) (n : V6Node) : list (list entry) * list entry := pack (entry_of meta_addr meta_offset <$> v6_dirents n) [].

Definition tail_off (n : V6Node) (plain : Z) : Z := if v6_datalayout n =? EROFS_INODE_FLAT_INLINE then v6_offset n + v6_size n else plain.

Definition dir_writes (n : V6Node) (r : list (list entry) * list entry) : list (Z * list Z) :=
  block_writes (v6_dirents_offset n) r.1 ++ [(tail_off n (v6_dirents_offset n + EROFS_BLOCK_SIZE * zlen r.1), block_bytes r.2)].

Definition dirents_ok (meta_addr meta_offset : Z) (n : V6Node) : Prop :=
  v6_dirents n <> [] /\
  Forall (fun x => 0 <= x.1.1 /\ 0 <= x.1.1 + meta_offset - meta_addr /\ x.1.1 + meta_offset < 2 ^ 64) (v6_dirents n) /\
  Forall entry_wf (entry_of meta_addr meta_offset <$> v6_dirents n) /\ Forall small_name (entry_of meta_addr meta_offset <$> v6_dirents n) /\
  v6_dirents_offset n + (zlen (v6_dirents n) + 1) * EROFS_BLOCK_SIZE < 2 ^ 64.

Lemma tail_offset_run d n plain : placeable d n -> v6_datalayout n = EROFS_INODE_FLAT_INLINE \/ v6_datalayout n = EROFS_INODE_FLAT_PLAIN -> 0 <= v6_offset n < 2 ^ 63 ->
  tail_offset n plain = Ok (tail_off n plain).
Proof.
  intros Hp Hl Ho. destruct (v6_size_run d n Hp) as (Hrun & Hs & _). unfold tail_offset, tail_off. destruct Hl as [-> | ->]; [|done].
  change (EROFS_INODE_FLAT_INLINE =? EROFS_INODE_FLAT_INLINE) with true. cbv iota. rewrite Hrun. cbn [mbind outcome_bind]. by rewrite uadd_in by (unfold in_range; lia).
Qed.

Lemma dir_pack_shape meta_addr meta_offset n : dirents_ok meta_addr meta_offset n ->
  concat ((dir_pack meta_addr meta_offset n).1 ++ [(dir_pack meta_addr meta_offset n).2]) = entry_of meta_addr meta_offset <$> v6_dirents n /\
  Forall block_ok ((dir_pack meta_addr meta_offset n).1 ++ [(dir_pack meta_addr meta_offset n).2]).
Proof.
  intros (Hne & _ & Hw & Hs & _). unfold dir_pack. split; [rewrite concat_app; cbn [concat]; by rewrite app_nil_r, pack_concat|].
  destruct (v6_dirents n) as [|x l]; [done|]. rewrite fmap_cons in *. pose proof Hs as [He Hs']%Forall_cons. set (e := entry_of meta_addr meta_offset x) in *. unfold small_name in He.
  cbn [pack]. change (used_by []) with 0. rewrite (proj2 (Z.ltb_ge _ _)) by lia. cbn [app]. apply pack_ok; [done|done|done|]. change [e] with ([] ++ [e]). rewrite used_by_snoc. change (used_by []) with 0. lia.
Qed.

Lemma v6_dump_dir_run d n meta_addr meta_offset inode s : placeable d n -> dirents_ok meta_addr meta_offset n -> in_range 64 meta_addr -> 0 <= meta_offset ->
  v6_datalayout n = EROFS_INODE_FLAT_INLINE \/ v6_datalayout n = EROFS_INODE_FLAT_PLAIN -> 0 <= v6_offset n < 2 ^ 63 -> 0 <= v6_dirents_offset n ->
  let inode' := oi_set_u (wrap 32 (v6_dirents_offset n / EROFS_BLOCK_SIZE)) inode in exists s',
  v6_dump_dir n meta_addr meta_offset inode s = (Ok tt, s') /\
  du_bytes s' = apply_writes (inode_writes n inode' ++ dir_writes n (dir_pack meta_addr meta_offset n)) (du_bytes s) /\ collects [] (has_pairs n) s s'.
Proof.
  intros Hp Hd Hma Hmo Hl Ho H0. cbv zeta. destruct (dir_pack_shape _ _ _ Hd) as [_ Hok]. pose proof Hd as (Hne & D1 & D2 & D3 & D4).
  unfold v6_dump_dir. destruct (dump_inode_run n (oi_set_u (wrap 32 (v6_dirents_offset n / EROFS_BLOCK_SIZE)) inode) s (proj1 Hp)) as (s1 & Hr1 & Hb1 & Hc1). cbv zeta. erewrite st_bind_run by exact Hr1.
  destruct (dump_dirents_run meta_addr meta_offset (v6_dirents n) [] (v6_dirents_offset n) s1 D1 Hma Hmo D2 D3 ltac:(constructor) ltac:(done) H0 D4) as (s2 & Hr2 & Hb2 & Hc2).
  change (dirents_of []) with (@nil (RafsV6Dirent * list Z)) in Hr2. change (12 * zlen (@nil entry)) with 0 in Hr2. change (used_by []) with 0 in Hr2. fold (dir_pack meta_addr meta_offset n) in Hr2, Hb2.
  erewrite st_bind_run by exact Hr2. cbv beta iota. set (r := dir_pack meta_addr meta_offset n) in *. apply Forall_app in Hok as [_ [Hlast _]%Forall_cons].
  pose proof (block_nonempty _ Hlast) as Hpos. rewrite zlen_block_used in Hpos. rewrite (proj2 (Z.ltb_lt 0 (used_by r.2))) by lia. destruct Hlast as (_ & L1 & L2). rewrite zlen_block_used in L2.
  rewrite dir_data_run by done. erewrite st_bind_run by reflexivity. rewrite (tail_offset_run d) by done. erewrite st_bind_run by reflexivity. eexists. split; [done|]. split.
  - cbn [du_bytes]. rewrite Hb2, Hb1. unfold dir_writes. by rewrite !apply_writes_app.
  - pose proof (collects_trans _ _ _ _ _ _ _ Hc1 Hc2) as Hc. rewrite orb_false_r in Hc. exact Hc.
Qed.

Definition chunk_ok (c : RafsV5ChunkInfo) : Prop := 0 <= v5c_blob_index c < u8_MAX /\ 0 <= v5c_index c <= 0xffffff.
Definition chunk_addr_for (c : RafsV5ChunkInfo) : RafsV6InodeChunkAddr :=
  chunk_addr (v5c_blob_index c) (v5c_index c) (wrap 32 (v5c_uncompressed_offset c / EROFS_BLOCK_SIZE)).
Definition addrs_bytes (l : list RafsV6InodeChunkAddr) : list Z := concat (chunk_addr_bytes <$> l).

Lemma dump_chunks_run l : forall s, Forall chunk_ok l -> exists s', dump_chunks l s = (Ok (addrs_bytes (chunk_addr_for <$> l)), s') /\ du_bytes s' = du_bytes s /\ collects l false s s'.
Proof.
  induction l as [|c l IH]; intros s Hl; [exists s; split_and!; [done|done|by apply collects_refl]|]. apply Forall_cons in Hl as [[Hb Hi] Hl]. cbn [dump_chunks].
  pose proof (chunk_addr_set (v5c_blob_index c) (v5c_index c) (wrap 32 (v5c_uncompressed_offset c / EROFS_BLOCK_SIZE)) Hb Hi) as Ha.
  destruct (ca_set_blob_index (v5c_blob_index c) ChunkAddr_new) as [a1| |]; [|done|done]. cbn [mbind outcome_bind] in Ha. erewrite st_bind_run by reflexivity.
  destruct (ca_set_blob_ci_index (v5c_index c) a1) as [a2| |]; [|done|done]. cbn [mbind outcome_bind] in Ha.
  assert (ca_set_block_addr (wrap 32 (v5c_uncompressed_offset c / EROFS_BLOCK_SIZE)) a2 = chunk_addr_for c) as Ea by (unfold chunk_addr_for; congruence). erewrite st_bind_run by reflexivity. cbv zeta.
  unfold u8_MAX in Hb. rewrite uadd_in by (unfold in_range; lia). erewrite st_bind_run by reflexivity. erewrite st_bind_run by reflexivity.
  edestruct IH as (s' & Hr & Hbs & Hcs & Hxs); [done|]. erewrite st_bind_run by exact Hr. exists s'. rewrite Ea. split; [done|]. rewrite Hbs. split; [done|]. split; [exact Hcs|exact Hxs].
Qed.

(** The on-disk inode of a node, and all its writes. *)
Definition xattr_count (n : V6Node) : Z := if bool_decide (v6_pairs n = []) then 0 else pairs_room (v6_pairs n) / 4 + 1.
Definition base_inode (n : V6Node) : DiskInode := disk_of (v6_inode n) (v6_datalayout n) (xattr_count n) (v6_compact_inode n).

Definition dumped_inode (chunk_size : Z) (n : V6Node) : DiskInode :=
  if v5i_is_dir (v6_inode n) || v5i_is_symlink (v6_inode n) then oi_set_u (wrap 32 (v6_dirents_offset n / EROFS_BLOCK_SIZE)) (base_inode n)
  else if v5i_is_reg (v6_inode n) then oi_set_u (Z.lor 0x20 (Z.log2 chunk_size - 12)) (base_inode n)
  else base_inode n.

Definition node_writes (chunk_size meta_addr meta_offset : Z) (n : V6Node) : list (Z * list Z) :=
  inode_writes n (dumped_inode chunk_size n) ++
  if v5i_is_dir (v6_inode n) then dir_writes n (dir_pack meta_addr meta_offset n)
  else if v5i_is_reg (v6_inode n) then [(v6_offset n + up 3 (v6_size n), addrs_bytes (chunk_addr_for <$> n_chunks (v6_node n)))]
  else if v5i_is_symlink (v6_inode n) then match n_symlink (v6_node n) with Some t => [(tail_off n (v6_dirents_offset n), t)] | None => [] end
  else [].

Definition shifted (meta_offset : Z) (n : V6Node) : V6Node :=
  place_v6 (v6_datalayout n) (v6_offset n + meta_offset)
    (if v5i_is_dir (v6_inode n) || v5i_is_symlink (v6_inode n) then v6_dirents_offset n + meta_offset else v6_dirents_offset n) n.

(** A placed node that can be dumped. *)
Record v6_node_ok (chunk_size meta_addr meta_offset d : Z) (n : V6Node) : Prop := mkNodeOk {
  no_placeable : placeable d n;
  no_wf : v5i_wf (v6_inode n);
  no_ino : v5i_ino (v6_inode n) < 2 ^ 31;
  no_mode : in_range 16 (v5i_mode (v6_inode n));
  no_compact : v6_compact_inode n = true -> compact_fits (v6_inode n);
  no_xattrs : xattr_count n < 2 ^ 16;
  no_layout : layout_ok (v6_datalayout n);
  no_tail : v5i_is_dir (v6_inode n) || v5i_is_symlink (v6_inode n) = true -> v6_datalayout n = EROFS_INODE_FLAT_INLINE \/ v6_datalayout n = EROFS_INODE_FLAT_PLAIN;
  no_offset : 0 <= v6_offset n /\ v6_offset n mod 32 = 0 /\ v6_offset n + meta_offset < 2 ^ 62;
  no_dirents : 0 <= v6_dirents_offset n /\ v6_dirents_offset n + meta_offset < 2 ^ 62;
  no_dir : v5i_is_dir (v6_inode n) = true -> dirents_ok meta_addr meta_offset (shifted meta_offset n);
  no_chunks : v5i_is_reg (v6_inode n) = true -> Forall chunk_ok (n_chunks (v6_node n))
}.

Lemma mod8_of_32 a : a mod 32 = 0 -> a mod 8 = 0.
Proof. intros Ha. apply Z.mod_divide in Ha as [q ->]; [|done]. replace (q * 32) with (q * 4 * 8) by lia. by rewrite Z.mod_mul. Qed.

Lemma up_shift k q x : 0 <= k -> q mod 2 ^ k = 0 -> up k (q + x) = q + up k x.
Proof.
  intros Hk Hq. pose proof (Z.pow_pos_nonneg 2 k ltac:(lia) Hk). apply Z.mod_divide in Hq as [r ->]; [|lia]. unfold up.
  replace (r * 2 ^ k + x + 2 ^ k - 1) with (x + 2 ^ k - 1 + r * 2 ^ k) by lia. rewrite Z.div_add by lia. lia.
Qed.

Lemma v6_dump_file_run k d n inode s : 12 <= k < 32 -> placeable d n -> Forall chunk_ok (n_chunks (v6_node n)) -> 0 <= v6_offset n < 2 ^ 63 -> v6_offset n mod 8 = 0 ->
  let inode' := oi_set_u (Z.lor 0x20 (Z.log2 (2 ^ k) - 12)) inode in exists s', v6_dump_file (2 ^ k) n inode s = (Ok tt, s') /\
  du_bytes s' = apply_writes (inode_writes n inode' ++ [(v6_offset n + up 3 (v6_size n), addrs_bytes (chunk_addr_for <$> n_chunks (v6_node n)))]) (du_bytes s) /\ collects (n_chunks (v6_node n)) (has_pairs n) s s'.
Proof.
  intros Hk Hp Hchk Ho Ha. cbv zeta. destruct (v6_size_run d n Hp) as (Hsize & Hsz & _). unfold v6_dump_file, ChunkHeader_new. assert (is_power_of_two (2 ^ k) = true) as ->.
  { unfold is_power_of_two. rewrite Z.sub_1_r, <- Z.ones_equiv, Z.land_ones, Z.mod_same by lia. pose proof (Z.pow_pos_nonneg 2 k). lia. }
  cbn [rassert mbind outcome_bind]. rewrite Z.log2_pow2 by lia. unfold EROFS_BLOCK_BITS, EROFS_CHUNK_FORMAT_SIZE_MASK. rewrite (proj2 (Z.leb_le 12 k)), (proj2 (Z.leb_le (k - 12) 0x1f)) by lia. cbn [rassert mbind outcome_bind].
  erewrite st_bind_run by reflexivity. cbv zeta. unfold ChunkHeader_to_u32, EROFS_CHUNK_FORMAT_INDEXES_FLAG. cbn [ch_format ch_reserved]. rewrite Z.shiftl_0_l, Z.lor_0_r.
  set (ino := oi_set_u (Z.lor 0x20 (k - 12)) inode). destruct (dump_chunks_run (n_chunks (v6_node n)) s Hchk) as (s1 & Hr1 & Hb1 & Hc1). destruct (dump_inode_run n ino s1 (proj1 Hp)) as (s2 & Hr2 & Hb2 & Hc2).
  erewrite st_bind_run by exact Hr1. erewrite st_bind_run by exact Hr2. rewrite Hsize. erewrite st_bind_run by reflexivity. rewrite uadd_in by (unfold in_range; lia). erewrite st_bind_run by reflexivity.
  unfold align_offset. rewrite (round_up_spec _ 3) by lia. erewrite st_bind_run by reflexivity. fold (up 3 (v6_offset n + v6_size n)). rewrite up_shift by (done || lia).
  eexists. split; [done|]. split; [cbn [du_bytes]; by rewrite apply_writes_app, <- Hb1, <- Hb2|].
  pose proof (collects_trans _ _ _ _ _ _ _ Hc1 Hc2) as Hc. rewrite app_nil_r in Hc. exact Hc.
Qed.

Lemma v6_dump_symlink_run d n inode s : placeable d n -> v6_datalayout n = EROFS_INODE_FLAT_INLINE \/ v6_datalayout n = EROFS_INODE_FLAT_PLAIN -> 0 <= v6_offset n < 2 ^ 63 ->
  let inode' := oi_set_u (wrap 32 (v6_dirents_offset n / EROFS_BLOCK_SIZE)) inode in exists s', v6_dump_symlink n inode s = (Ok tt, s') /\
  du_bytes s' = apply_writes (inode_writes n inode' ++ match n_symlink (v6_node n) with Some t => [(tail_off n (v6_dirents_offset n), t)] | None => [] end) (du_bytes s) /\
  collects [] (has_pairs n) s s'.
Proof.
  intros Hp Hl Ho. cbv zeta. unfold v6_dump_symlink. cbv zeta. set (ino := oi_set_u _ inode). destruct (dump_inode_run n ino s (proj1 Hp)) as (s1 & Hr1 & Hb1 & Hc1). erewrite st_bind_run by exact Hr1.
  destruct (n_symlink (v6_node n)) as [t|]; [|exists s1; by rewrite app_nil_r]. rewrite (tail_offset_run d) by done. erewrite st_bind_run by reflexivity.
  eexists. split; [done|]. split; [cbn [du_bytes]; by rewrite apply_writes_app, <- Hb1|exact Hc1].
Qed.

(** The chunks a node adds to the cache. *)
Definition v6_chunks (n : V6Node) : list RafsV5ChunkInfo :=
  if v5i_is_dir (v6_inode n) then [] else if v5i_is_reg (v6_inode n) then n_chunks (v6_node n) else [].

Lemma dump_node_run k meta_addr meta_offset d n s : 12 <= k < 32 -> in_range 64 meta_addr -> 0 <= meta_offset <= meta_addr -> meta_offset mod 32 = 0 ->
  v6_node_ok (2 ^ k) meta_addr meta_offset d n -> exists s',
  dump_bootstrap_v6 (2 ^ k) (meta_addr - meta_offset) meta_addr n s = (Ok (shifted meta_offset n), s') /\
  du_bytes s' = apply_writes (node_writes (2 ^ k) meta_addr meta_offset (shifted meta_offset n)) (du_bytes s) /\
  collects (v6_chunks n) (has_pairs n) s s'.
Proof.
  intros Hk Hma Hmo Hm32 [Hp Hwf Hino Hmode Hcomp Hxc Hlay Htail (Ho & Ho32 & Hob) (Hdo & Hdb) Hdir Hchk]. pose proof Hp as (Hx & Hroom & _). pose proof Hma as Hma'. unfold in_range in Hma'.
  unfold dump_bootstrap_v6. rewrite count_v6_run by (done || lia). fold (xattr_count n). erewrite st_bind_run by reflexivity.
  rewrite (proj2 (Z.ltb_ge _ _)) by lia. rewrite new_v6_inode_run by done. fold (base_inode n). erewrite st_bind_run by reflexivity.
  rewrite usub_in by (unfold in_range; lia). erewrite st_bind_run by reflexivity. replace (meta_addr - (meta_addr - meta_offset)) with meta_offset by lia.
  rewrite (uadd_in 64 (v6_offset n)) by (unfold in_range; lia). erewrite st_bind_run by reflexivity.
  assert (forall b : bool, (if b then uadd 64 (v6_dirents_offset n) meta_offset else Ok (v6_dirents_offset n)) = Ok (E:=errno) (if b then v6_dirents_offset n + meta_offset else v6_dirents_offset n)) as ->
    by (intros []; [by rewrite uadd_in by (unfold in_range; lia)|done]).
  erewrite st_bind_run by reflexivity. cbv zeta. fold (shifted meta_offset n). set (n' := shifted meta_offset n) in *. assert (placeable d n') as Hp' by done.
  unfold node_writes, dumped_inode, v6_chunks. change (base_inode n') with (base_inode n). change (v6_inode n') with (v6_inode n).
  assert (v6_offset n' = v6_offset n + meta_offset) as Eo by done. assert (0 <= v6_dirents_offset n') as Ed by (unfold n', shifted; cbn; destruct (_ || _); lia).
  assert (v6_offset n' mod 8 = 0) as E8. { rewrite Eo, Z.add_mod, (mod8_of_32 _ Ho32), (mod8_of_32 _ Hm32) by lia. done. }
  destruct (v5i_is_dir (v6_inode n)) eqn:Kd; [|destruct (v5i_is_reg (v6_inode n)) eqn:Kr; [|destruct (v5i_is_symlink (v6_inode n)) eqn:Kl]].
  - cbn [orb]. destruct (v6_dump_dir_run d n' meta_addr meta_offset (base_inode n) s Hp' (Hdir eq_refl) Hma ltac:(lia) (Htail eq_refl) ltac:(lia) Ed) as (s' & Hr & Hb). erewrite st_bind_run by exact Hr. by exists s'.
  - assert (v5i_is_symlink (v6_inode n) = false) as -> by (unfold v5i_is_symlink, v5i_is_reg, mode_is, S_IFREG, S_IFLNK in *; lia). cbn [orb].
    destruct (v6_dump_file_run k d n' (base_inode n) s Hk Hp' (Hchk eq_refl) ltac:(lia) E8) as (s' & Hr & Hb). erewrite st_bind_run by exact Hr. by exists s'.
  - cbn [orb]. destruct (v6_dump_symlink_run d n' (base_inode n) s Hp' (Htail eq_refl) ltac:(lia)) as (s' & Hr & Hb). erewrite st_bind_run by exact Hr. by exists s'.
  - cbn [orb]. destruct (dump_inode_run n' (base_inode n) s Hx) as (s1 & Hr1 & Hb1 & Hc1). erewrite st_bind_run by exact Hr1. exists s1. split; [done|]. by rewrite app_nil_r.
Qed.

Lemma dump_nodes_v6_run k meta_addr meta_offset ds ns : forall s, 12 <= k < 32 -> in_range 64 meta_addr -> 0 <= meta_offset <= meta_addr -> meta_offset mod 32 = 0 ->
  Forall2 (v6_node_ok (2 ^ k) meta_addr meta_offset) ds ns -> exists s',
  dump_nodes_v6 (2 ^ k) (meta_addr - meta_offset) meta_addr ns s = (Ok (shifted meta_offset <$> ns), s') /\
  du_bytes s' = apply_writes (concat (node_writes (2 ^ k) meta_addr meta_offset <$> (shifted meta_offset <$> ns))) (du_bytes s) /\
  collects (concat (v6_chunks <$> ns)) (existsb has_pairs ns) s s'.
Proof.
  intros s Hk Hma Hmo Hm Hns. revert s. induction Hns as [|d n ds ns Hn Hns IH]; intros s; [exists s; split_and!; [done|done|by apply collects_refl]|]. cbn [dump_nodes_v6]. destruct (dump_node_run k meta_addr meta_offset d n s Hk Hma Hmo Hm Hn) as (s1 & Hr1 & Hb1 & Hc1).
  erewrite st_bind_run by exact Hr1. destruct (IH s1) as (s2 & Hr2 & Hb2 & Hc2). erewrite st_bind_run by exact Hr2. exists s2. split; [done|]. rewrite !fmap_cons. cbn [concat existsb]. rewrite apply_writes_app, <- Hb1. split; [done|exact (collects_trans _ _ _ _ _ _ _ Hc1 Hc2)].
Qed.
End run.
