(* ===== verification/V6Update.v ===== *)
(** The entries of v6 directories ([src/bin/nydus-image/core/bootstrap.rs],
    [rafsv6_update_dirents]).

    When all nodes are placed, every directory gets its entries: itself, its parent and its
    children, sorted by name, each with the offset of the inode it stands for. *)
From stdpp Require Import sorting.
From S2P Require Import Prelude Utils LittleEndian ChunkInfo Device RafsLayout RafsV5 RafsBlobTable RafsV5Inode CachedInode CachedDir Overlay Builder RafsV6Inode DirectV6 RafsV6Xattr V6Layout V6Dump.

(** ** Definitions *)

(** The tree of an image whose nodes have v6 fields. *)
Inductive V6Tree := mkV6Tree { vt_node : V6Node; vt_children : list V6Tree }.

Lemma V6Tree_tree_ind (P : V6Tree -> Prop) : (forall n cs, Forall P cs -> P (mkV6Tree n cs)) -> forall t, P t.
Proof.
  intros H. fix IH 1. intros [n cs]. apply H. induction cs as [|c cs IHc]; constructor; [apply IH|exact IHc].
Qed.

Definition with_dirents (dirents : list (Z * list Z * Z)) (n : V6Node) : V6Node :=
  mkV6Node (v6_node n) (v6_compact_inode n) (v6_datalayout n) (v6_offset n) dirents (v6_dirents_offset n).

Definition v6_is_dir (n : V6Node) : bool := v5i_is_dir (v6_inode n).
Definition v6_name (n : V6Node) : list Z := node_name (v6_node n).

(** The item of a child in [v6_dirents]. *)
Definition child_dirent (child : V6Tree) : Z * list Z * Z :=
  (v6_offset (vt_node child), v6_name (vt_node child), v5i_mode (v6_inode (vt_node child))).

Definition push_dirents (parent_offset : Z) (children : list V6Tree) (node : V6Node) : V6Node :=
  with_dirents (sort_by_key (fun a => a.1.2)
    (v6_dirents node ++ [(v6_offset node, DOT, S_IFDIR); (parent_offset, DOTDOT, S_IFDIR)] ++ (child_dirent <$> children))) node.

Fixpoint rafsv6_update_dirents (tree : V6Tree) (parent_offset : Z) (nodes : list V6Node) : io (list V6Node) :=
  let index := n_index (v6_node (vt_node tree)) in
  node ← vec_index nodes (index - 1);
  if negb (v6_is_dir node) then Ok nodes
  else
    (fix go (dirs : list V6Tree) (nodes : list V6Node) : io (list V6Node) :=
       match dirs with
       | [] => Ok nodes
       | c :: dirs => nodes ← (if v6_is_dir (vt_node c) then rafsv6_update_dirents c (v6_offset node) nodes else Ok nodes); go dirs nodes
       end) (vt_children tree) (<[Z.to_nat (index - 1) := push_dirents parent_offset (vt_children tree) node]> nodes).

(** ** What it does *)

Definition vt_index (t : V6Tree) : Z := n_index (v6_node (vt_node t)).

(** The loop over the directories among the children. *)
Fixpoint update_dirs (offset : Z) (dirs : list V6Tree) (nodes : list V6Node) : io (list V6Node) :=
  match dirs with
  | [] => Ok nodes
  | c :: dirs => nodes ← (if v6_is_dir (vt_node c) then rafsv6_update_dirents c offset nodes else Ok nodes); update_dirs offset dirs nodes
  end.

Lemma rafsv6_update_dirents_eq tree parent_offset nodes : rafsv6_update_dirents tree parent_offset nodes =
  (node ← vec_index nodes (vt_index tree - 1);
   if negb (v6_is_dir node) then Ok nodes
   else update_dirs (v6_offset node) (vt_children tree) (<[Z.to_nat (vt_index tree - 1) := push_dirents parent_offset (vt_children tree) node]> nodes)).
Proof.
  destruct tree as [n cs]. cbn [rafsv6_update_dirents vt_children vt_node]. unfold vt_index. cbn [vt_node]. destruct (vec_index nodes _) as [node| |]; [|done|done]. cbn [mbind outcome_bind]. destruct (negb _); [done|].
  generalize (push_dirents parent_offset cs node). intros x. generalize (<[Z.to_nat (n_index (v6_node n) - 1):=x]> nodes). clear. induction cs as [|c cs IH]; intros nodes; [done|]. cbn [update_dirs].
  destruct (if v6_is_dir (vt_node c) then _ else _); [|done|done]. cbn [mbind outcome_bind]. apply IH.
Qed.

(** The directories of a tree, each with the offset of its parent. *)
Fixpoint vt_dirs (t : V6Tree) (parent_offset : Z) : list (V6Tree * Z) :=
  (t, parent_offset) ::
  (fix go (l : list V6Tree) : list (V6Tree * Z) :=
     match l with [] => [] | c :: l => (if v6_is_dir (vt_node c) then vt_dirs c (v6_offset (vt_node t)) else []) ++ go l end) (vt_children t).

Fixpoint sub_dirs (offset : Z) (l : list V6Tree) : list (V6Tree * Z) :=
  match l with [] => [] | c :: l => (if v6_is_dir (vt_node c) then vt_dirs c offset else []) ++ sub_dirs offset l end.

Lemma vt_dirs_eq t po : vt_dirs t po = (t, po) :: sub_dirs (v6_offset (vt_node t)) (vt_children t).
Proof. destruct t as [n cs]. cbn [vt_dirs vt_node vt_children]. f_equal. induction cs as [|c cs IH]; [done|]. cbn [sub_dirs]. by rewrite IH. Qed.

Definition dir_index (x : V6Tree * Z) : nat := Z.to_nat (vt_index x.1 - 1).

(** A directory of the tree is in the array. *)
Definition in_array (nodes : list V6Node) (x : V6Tree * Z) : Prop :=
  1 <= vt_index x.1 /\ exists n, nodes !! dir_index x = Some n /\ v6_is_dir n = true /\ v6_offset n = v6_offset (vt_node x.1).

(** What the update of directories does to an array. *)
Definition updates (L : list (V6Tree * Z)) (nodes nodes' : list V6Node) : Prop :=
  (forall i, i ∉ dir_index <$> L -> nodes' !! i = nodes !! i) /\
  (forall x n, x ∈ L -> nodes !! dir_index x = Some n -> nodes' !! dir_index x = Some (push_dirents x.2 (vt_children x.1) n)).

Lemma updates_app L1 L2 a b c : NoDup (dir_index <$> (L1 ++ L2)) -> updates L1 a b -> updates L2 b c -> updates (L1 ++ L2) a c.
Proof.
  rewrite fmap_app. intros (_ & Hd & _)%NoDup_app [A1 A2] [B1 B2]. split.
  - intros i Hi. rewrite fmap_app, not_elem_of_app in Hi. destruct Hi as [H1 H2]. by rewrite B1, A1.
  - intros x n [Hx|Hx]%elem_of_app Hn; pose proof (list_elem_of_fmap_2 dir_index _ _ Hx) as Hin.
    + rewrite B1 by (by apply Hd). by apply A2.
    + apply B2; [done|]. rewrite A1; [done|]. intros Hc. by apply (Hd _ Hc).
Qed.

Lemma in_array_updates L nodes nodes' x : updates L nodes nodes' -> dir_index x ∉ dir_index <$> L -> in_array nodes x -> in_array nodes' x.
Proof. intros [H1 _] Hx (Hi & n & Hn & Hd). split; [done|]. exists n. by rewrite H1. Qed.

Lemma update_dirents_run t : forall po nodes, NoDup (dir_index <$> vt_dirs t po) -> Forall (in_array nodes) (vt_dirs t po) ->
  exists nodes', rafsv6_update_dirents t po nodes = Ok nodes' /\ updates (vt_dirs t po) nodes nodes'.
Proof.
  induction t as [n cs IH] using V6Tree_tree_ind. intros po nodes. rewrite rafsv6_update_dirents_eq, vt_dirs_eq. cbn [vt_node vt_children]. set (t := mkV6Tree n cs). intros Hnd [Ht Hc]%Forall_cons. rewrite fmap_cons in Hnd. apply NoDup_cons in Hnd as [Hni Hnd].
  destruct Ht as (Hi & m & Hm & Hd & Ho). cbn [fst] in *. rewrite (proj2 (vec_index_Ok _ _ m)) by (split; [lia|exact Hm]). cbn [mbind outcome_bind]. rewrite Hd. cbn [negb]. rewrite Ho. change (vt_node t) with n in *.
  change (Z.to_nat (vt_index t - 1)) with (dir_index (t, po)) in *. set (nodes1 := <[dir_index (t, po) := push_dirents po cs m]> nodes).
  assert (updates [(t, po)] nodes nodes1) as H1.
  { split; [intros i Hx; unfold nodes1; rewrite list_lookup_insert_ne; [done|]; intros <-; apply Hx; left|]. intros x m' Hx%list_elem_of_singleton Hm'. subst x. rewrite Hm in Hm'. injection Hm' as <-. unfold nodes1. apply list_lookup_insert_eq. by eapply lookup_lt_Some. }
  assert (Forall (in_array nodes1) (sub_dirs (v6_offset n) cs)) as Hc1.
  { rewrite Forall_forall in Hc |- *. intros x Hx. apply (in_array_updates _ _ _ _ H1); [|by apply Hc]. intros Hb. apply Hni. apply list_elem_of_singleton in Hb. rewrite <- Hb. by apply list_elem_of_fmap_2. }
  assert (forall cs nodes, Forall (fun t => forall po nodes, NoDup (dir_index <$> vt_dirs t po) -> Forall (in_array nodes) (vt_dirs t po) ->
      exists nodes', rafsv6_update_dirents t po nodes = Ok nodes' /\ updates (vt_dirs t po) nodes nodes') cs -> NoDup (dir_index <$> sub_dirs (v6_offset n) cs) -> Forall (in_array nodes) (sub_dirs (v6_offset n) cs) ->
    exists nodes', update_dirs (v6_offset n) cs nodes = Ok nodes' /\ updates (sub_dirs (v6_offset n) cs) nodes nodes') as Hgo.
  { clear. induction cs as [|c cs IHc]; intros nodes IH Hnd Hin; [exists nodes; split; [done|]; split; [done|]; intros x m Hx; by apply elem_of_nil in Hx|]. apply Forall_cons in IH as [Ic IH]. cbn [sub_dirs update_dirs] in *.
    pose proof Hnd as Hnd'. rewrite fmap_app in Hnd. apply NoDup_app in Hnd as (N1 & N2 & N3). apply Forall_app in Hin as [Hin1 Hin2].
    assert (exists nodes1, (if v6_is_dir (vt_node c) then rafsv6_update_dirents c (v6_offset n) nodes else Ok nodes) = Ok nodes1 /\ updates (if v6_is_dir (vt_node c) then vt_dirs c (v6_offset n) else []) nodes nodes1) as (nodes1 & Hr & Hu).
    { destruct (v6_is_dir (vt_node c)); [by apply Ic|]. exists nodes. split; [done|]. split; [done|]. intros x m Hx. by apply elem_of_nil in Hx. }
    rewrite Hr. cbn [mbind outcome_bind]. destruct (IHc nodes1 IH N3) as (nodes2 & Hr2 & Hu2).
    - rewrite Forall_forall in Hin2 |- *. intros x Hx. apply (in_array_updates _ _ _ _ Hu); [|by apply Hin2]. intros Hb. apply (N2 _ Hb). by apply list_elem_of_fmap_2.
    - exists nodes2. split; [done|]. by eapply updates_app. }
  destruct (Hgo cs nodes1 IH Hnd Hc1) as (nodes2 & Hr & Hu). exists nodes2. split; [exact Hr|]. change ((t, po) :: sub_dirs (v6_offset n) cs) with ([(t, po)] ++ sub_dirs (v6_offset n) cs).
  eapply updates_app; [|exact H1|exact Hu]. by apply NoDup_cons.
Qed.

(** The path of a subtree, and the offset of its parent. *)
Inductive v6_at (T : V6Tree) (po : Z) : list (list Z) -> V6Tree -> Z -> Prop :=
| v6_at_root : v6_at T po [] T po
| v6_at_child names d q c : v6_at T po names d q -> v6_is_dir (vt_node d) = true -> c ∈ vt_children d ->
    v6_at T po (names ++ [v6_name (vt_node c)]) c (v6_offset (vt_node d)).

Lemma sub_dirs_in offset c l : c ∈ l -> v6_is_dir (vt_node c) = true -> (c, offset) ∈ sub_dirs offset l.
Proof.
  induction l as [|x l IH]; intros Hc Hd; [by apply elem_of_nil in Hc|]. cbn [sub_dirs]. apply elem_of_app. apply elem_of_cons in Hc as [->|Hc]; [left|right; by apply IH].
  rewrite Hd, vt_dirs_eq. left.
Qed.

(** Below a directory of the tree. *)
Lemma vt_dirs_below t : forall po x c, x ∈ vt_dirs t po -> c ∈ vt_children x.1 -> v6_is_dir (vt_node c) = true -> (c, v6_offset (vt_node x.1)) ∈ vt_dirs t po.
Proof.
  induction t as [n cs IH] using V6Tree_tree_ind. intros po x c. rewrite vt_dirs_eq. cbn [vt_node vt_children]. intros [->|Hx]%elem_of_cons Hc Hd; right; cbn [fst vt_children vt_node] in *; [by apply sub_dirs_in|].
  clear po. induction IH as [|d cs Id IH IHl]; [by apply elem_of_nil in Hx|]. cbn [sub_dirs] in *. apply elem_of_app. apply elem_of_app in Hx as [Hx|Hx]; [left|right; by apply IHl].
  destruct (v6_is_dir (vt_node d)); [|by apply elem_of_nil in Hx]. by apply Id.
Qed.

Lemma v6_at_dirs T po names t q : v6_at T po names t q -> v6_is_dir (vt_node t) = true -> (t, q) ∈ vt_dirs T po.
Proof.
  induction 1 as [|names d q c Hat IH Hd Hc]; intros Ht; [rewrite vt_dirs_eq; left|]. exact (vt_dirs_below T po (d, q) c (IH Hd) Hc Ht).
Qed.
