(* ===== verification/V6Image.v ===== *)
(** A RAFS v6 image from the builder to the mapped file.

    The nodes are placed ([V6Layout]), their directories get their entries, the nodes are dumped
    ([V6Dump]) and read through the mapping ([DirectV6], [RafsV6Xattr]). The theorem is the round
    trip: every inode of the mapped file has the attributes, entries, target, chunks and extended
    attributes of the node it was dumped from. *)
From stdpp Require Import sorting.
From S2P Require Import Prelude Utils LittleEndian ChunkInfo Device RafsLayout RafsV5 RafsBlobTable RafsV5Inode CachedInode CachedDir Overlay Builder RafsV6Inode DirectV6 RafsV6Xattr V6Layout V6Dump.

(** ** Writes stay inside the extents of their node *)

Definition shift_ext (o : Z) (e : Z * Z) : Z * Z := (e.1 + o, e.2).

Section inside.
Context `{Profile}.

(** The data of a node has the size it was placed with. *)
Record content_ok (meta_addr meta_offset d : Z) (n : V6Node) : Prop := mkContentOk {
  co_dir : v5i_is_dir (v6_inode n) = true ->
    let r := dir_pack meta_addr meta_offset (shifted meta_offset n) in
    d = packed_size r /\ used_by r.2 < EROFS_BLOCK_SIZE /\ v5i_size (v6_inode n) = d /\ v6_dirents_offset n + meta_offset + d + EROFS_BLOCK_SIZE < 2 ^ 44;
  co_symlink : v5i_is_symlink (v6_inode n) = true -> exists t, n_symlink (v6_node n) = Some t /\ zlen t = v5i_size (v6_inode n) /\ 0 < zlen t < EROFS_BLOCK_SIZE /\ v6_dirents_offset n + meta_offset < 2 ^ 44;
  co_chunks : v5i_is_reg (v6_inode n) = true -> zlen (n_chunks (v6_node n)) = v5i_child_count (v6_inode n);
  co_size : v5i_size (v6_inode n) < 2 ^ 63
}.

Lemma zlen_oi_bytes n cs : zlen (oi_bytes (dumped_inode cs n)) = if v6_compact_inode n then 32 else 64.
Proof.
  assert (forall d, zlen (oi_bytes (I:=DiskInode) d) = match d with DCompact _ => 32 | DExtended _ => 64 end) as Hz.
  { intros [i|i]; unfold zlen; cbn [oi_bytes Dyn_inode dyn_get Compact_inode Extended_inode]; [by rewrite length_compact_bytes|by rewrite length_extended_bytes]. }
  rewrite Hz. unfold dumped_inode, base_inode, disk_of. destruct (_ || _), (v5i_is_reg (v6_inode n)), (v6_compact_inode n); done.
Qed.

Lemma zlen_xattr_area pairs : zlen (xattr_area pairs) = 12 + pairs_room pairs.
Proof. unfold xattr_area. by rewrite zlen_app, zlen_pairs_bytes. Qed.

Lemma inode_writes_inside n cs : 
  Forall (fun w => inside (write_ext w) (v6_offset n, v6_size n)) (inode_writes n (dumped_inode cs n)) /\ apart (write_ext <$> inode_writes n (dumped_inode cs n)) /\
  32 <= v6_size n.
Proof.
  pose proof (zlen_oi_bytes n cs) as Hz. unfold inode_writes, v6_size. pose proof (pairs_room_aligned (v6_pairs n)) as [_ R0].
  pose proof (zlen_xattr_area (v6_pairs n)) as Ha.
  destruct (bool_decide (v6_pairs n = [])).
  - split_and!; [|cbn; repeat constructor|destruct (v6_compact_inode n); lia]. constructor; [|done]. unfold inside, write_ext. cbn [fst snd]. rewrite Hz. lia.
  - split_and!; [|cbn; repeat constructor|destruct (v6_compact_inode n); lia].
    + constructor; [|constructor; [|done]]; unfold inside, write_ext; cbn [fst snd]; rewrite ?Ha, Hz; destruct (v6_compact_inode n); lia.
    + cbn. lia.
Qed.

Lemma block_writes_inside blocks : forall off, Forall (fun b => zlen (block_bytes b) <= EROFS_BLOCK_SIZE) blocks ->
  Forall (fun w => inside (write_ext w) (off, EROFS_BLOCK_SIZE * zlen blocks)) (block_writes off blocks) /\ apart (write_ext <$> block_writes off blocks).
Proof.
  induction blocks as [|b blocks IH]; intros off Hb; [done|]. apply Forall_cons in Hb as [H1 Hb]. destruct (IH (off + EROFS_BLOCK_SIZE) Hb) as [I1 I2].
  assert (zlen (b :: blocks) = zlen blocks + 1) as Hz by (unfold zlen; cbn [length]; lia). pose proof (zlen_nonneg blocks). pose proof (zlen_nonneg (block_bytes b)). unfold EROFS_BLOCK_SIZE in *. cbn [block_writes]. split.
  - constructor; [unfold inside, write_ext; cbn [fst snd]; lia|]. eapply Forall_impl; [exact I1|]. unfold inside. cbn [fst snd]. intros w Hw. lia.
  - rewrite fmap_cons. split; [|done]. apply Forall_fmap. eapply Forall_impl; [exact I1|]. intros w Hw. left. unfold inside, write_ext, compose in *. cbn [fst snd] in *. lia.
Qed.

Lemma inside_trans a b c : inside a b -> inside b c -> inside a c.
Proof. unfold inside. lia. Qed.

Lemma apart_groups (A B : list (Z * list Z)) e f : apart (write_ext <$> A) -> apart (write_ext <$> B) -> disj e f ->
  Forall (fun w => inside (write_ext w) e) A -> Forall (fun w => inside (write_ext w) f) B -> apart (write_ext <$> A ++ B).
Proof.
  intros Ha Hb Hd HA HB. rewrite fmap_app. apply apart_app. split_and!; [done|done|]. intros a b (w & -> & Hw)%list_elem_of_fmap (v & -> & Hv)%list_elem_of_fmap.
  rewrite Forall_forall in HA, HB. specialize (HA w Hw). specialize (HB v Hv). unfold inside, disj in *. lia.
Qed.

Lemma block_writes_app bs cs : forall off, block_writes off (bs ++ cs) = block_writes off bs ++ block_writes (off + EROFS_BLOCK_SIZE * zlen bs) cs.
Proof.
  induction bs as [|b bs IH]; intros off; cbn [app block_writes].
  - change (zlen (@nil (list entry))) with 0. by rewrite Z.mul_0_r, Z.add_0_r.
  - rewrite IH. assert (zlen (b :: bs) = zlen bs + 1) as -> by (unfold zlen; cbn [length]; lia). do 3 f_equal. unfold EROFS_BLOCK_SIZE. lia.
Qed.

(** The writes of a node: each inside an extent of the node, and apart from each other. *)
Definition writes_fit (ws : list (Z * list Z)) (exts : list (Z * Z)) : Prop :=
  Forall (fun w => exists e, e ∈ exts /\ inside (write_ext w) e) ws /\ apart (write_ext <$> ws).

Lemma fit_one ws e : Forall (fun w => inside (write_ext w) e) ws -> apart (write_ext <$> ws) -> writes_fit ws [e].
Proof. intros Hw Ha. split; [|done]. eapply Forall_impl; [exact Hw|]. intros w Hi. exists e. split; [left|done]. Qed.

Lemma fit_two A B e f : Forall (fun w => inside (write_ext w) e) A -> Forall (fun w => inside (write_ext w) f) B ->
  apart (write_ext <$> A) -> apart (write_ext <$> B) -> disj e f -> writes_fit (A ++ B) [e; f].
Proof.
  intros HA HB Ha Hb Hd. split; [|by eapply apart_groups]. apply Forall_app. split; (eapply Forall_impl; [eassumption|]); intros w Hi; eexists; (split; [|exact Hi]); [left|right; left].
Qed.

Lemma fit_perm ws vs exts : ws ≡ₚ vs -> writes_fit ws exts -> writes_fit vs exts.
Proof. intros Hp [H1 H2]. split; by rewrite <- Hp. Qed.

(** Writes behind the inode in the same extent. *)
Lemma fit_behind n cs o data len : v6_size n <= o - v6_offset n -> zlen data <= v6_offset n + len - o ->
  Forall (fun w => inside (write_ext w) (v6_offset n, len)) (inode_writes n (dumped_inode cs n) ++ [(o, data)]) /\
  apart (write_ext <$> inode_writes n (dumped_inode cs n) ++ [(o, data)]).
Proof.
  intros H1 H2. destruct (inode_writes_inside n cs) as (I1 & I2 & I3). pose proof (zlen_nonneg data). split.
  - apply Forall_app. split; [eapply Forall_impl; [exact I1|]; unfold inside; cbn [fst snd]; intros w Hw; lia|]. constructor; [|done]. unfold inside, write_ext. cbn [fst snd]. lia.
  - apply (apart_groups _ _ (v6_offset n, v6_size n) (o, zlen data)); [done|done|left; cbn [fst snd]; lia|done|]. constructor; [|done]. unfold inside, write_ext. cbn [fst snd]. lia.
Qed.

Lemma dir_fit meta_addr meta_offset d n cs : v5i_is_dir (v6_inode n) = true -> dirents_ok meta_addr meta_offset n -> tail_placed (v6_size n) d n ->
  let r := dir_pack meta_addr meta_offset n in d = packed_size r -> used_by r.2 < EROFS_BLOCK_SIZE -> apart (tail_extents (v6_size n) d n) ->
  writes_fit (inode_writes n (dumped_inode cs n) ++ dir_writes n r) (tail_extents (v6_size n) d n).
Proof.
  intros Kd Hok [_ Ht] r Hd Hu Hap. destruct (dir_pack_shape _ _ _ Hok) as [_ Hbs]. fold r in Hbs. apply Forall_app in Hbs as [Hfull [Hlast _]%Forall_cons].
  pose proof (block_nonempty _ Hlast) as Hpos. rewrite zlen_block_used in Hpos. unfold packed_size in Hd. pose proof (zlen_nonneg r.1). unfold EROFS_BLOCK_SIZE in Hu, Hd.
  assert (d mod EROFS_BLOCK_SIZE = used_by r.2) as Hm by (rewrite Hd; unfold EROFS_BLOCK_SIZE; rewrite Z.add_comm, Z.mul_comm, Z_mod_plus_full; apply Z.mod_small; lia).
  assert (Forall (fun b => zlen (block_bytes b) <= EROFS_BLOCK_SIZE) r.1) as Hsm by (eapply Forall_impl; [exact Hfull|]; intros b (_ & _ & Hb); done).
  destruct (inode_writes_inside n cs) as (I1 & I2 & _). unfold tail_extents in *. cbv zeta in *. rewrite Hm in *. unfold dir_writes, tail_off. destruct (inlined (v6_size n) d).
  - destruct Ht as (-> & _ & _). change (EROFS_INODE_FLAT_INLINE =? EROFS_INODE_FLAT_INLINE) with true. cbv iota. destruct Hap as [[Hdj _]%Forall_cons _].
    destruct (block_writes_inside r.1 (v6_dirents_offset n) Hsm) as [B1 B2]. replace (d - used_by r.2) with (4096 * zlen r.1) in * by lia.
    destruct (fit_behind n cs (v6_offset n + v6_size n) (block_bytes r.2) (v6_size n + used_by r.2)) as [F1 F2]; [lia|rewrite zlen_block_used; lia|].
    eapply fit_perm; [|exact (fit_two _ _ _ _ F1 B1 F2 B2 Hdj)]. solve_Permutation.
  - destruct Ht as [-> _]. change (EROFS_INODE_FLAT_PLAIN =? EROFS_INODE_FLAT_INLINE) with false. cbv iota. destruct Hap as [[Hdj _]%Forall_cons _].
    destruct (block_writes_inside (r.1 ++ [r.2]) (v6_dirents_offset n)) as [B1 B2]. { apply Forall_app. split; [done|]. constructor; [|done]. destruct Hlast as (_ & _ & Hl). done. }
    rewrite block_writes_app in B1, B2. assert (up 12 d = EROFS_BLOCK_SIZE * zlen (r.1 ++ [r.2])) as Hup.
    { rewrite zlen_app. change (zlen [r.2]) with 1. unfold up. change (2 ^ 12) with 4096. unfold EROFS_BLOCK_SIZE. rewrite Hd.
      replace (4096 * zlen r.1 + used_by r.2 + 4096 - 1) with (used_by r.2 - 1 + (zlen r.1 + 1) * 4096) by lia. rewrite Z.div_add, Z.div_small by lia. lia. }
    rewrite Hup in *. exact (fit_two _ _ _ _ I1 B1 I2 B2 Hdj).
Qed.


Lemma add_mod_4096 a b : b mod EROFS_BLOCK_SIZE = 0 -> (a + b) mod EROFS_BLOCK_SIZE = a mod EROFS_BLOCK_SIZE.
Proof. unfold EROFS_BLOCK_SIZE. intros Hb. apply Z.mod_divide in Hb as [q ->]; [|done]. apply Z_mod_plus_full. Qed.

Lemma add_mod_32 a b : b mod EROFS_BLOCK_SIZE = 0 -> (a + b) mod 32 = a mod 32.
Proof. unfold EROFS_BLOCK_SIZE. intros Hb. apply Z.mod_divide in Hb as [q ->]; [|done]. replace (q * 4096) with (q * 128 * 32) by lia. apply Z_mod_plus_full. Qed.

Lemma tail_placed_shifted meta_offset size d n : meta_offset mod EROFS_BLOCK_SIZE = 0 -> v5i_is_dir (v6_inode n) || v5i_is_symlink (v6_inode n) = true ->
  tail_placed size d n -> tail_placed size d (shifted meta_offset n).
Proof.
  intros Hm Hk [H1 H2]. unfold tail_placed, shifted. rewrite Hk. cbn [place_v6 v6_offset v6_datalayout v6_dirents_offset].
  rewrite add_mod_32, !add_mod_4096 by done. split; done.
Qed.

Lemma v6_extents_shifted d meta_offset n : v6_extents d None (shifted meta_offset n) = shift_ext meta_offset <$> v6_extents d None n.
Proof.
  unfold v6_extents. cbv zeta. change (v6_inode (shifted meta_offset n)) with (v6_inode n). change (v6_size (shifted meta_offset n)) with (v6_size n).
  change (v6_data_size d (shifted meta_offset n)) with (v6_data_size d n). destruct (v5i_is_reg (v6_inode n)); [done|].
  destruct (v5i_is_dir (v6_inode n) || v5i_is_symlink (v6_inode n)) eqn:E; [|done]. unfold tail_extents, shifted. rewrite E. cbv zeta. destruct (inlined _ _); done.
Qed.

Lemma length_addrs l : zlen (addrs_bytes l) = 8 * zlen l.
Proof.
  induction l as [|a l IH]; [done|]. unfold addrs_bytes in *. rewrite fmap_cons. cbn [concat]. rewrite zlen_app, IH. unfold zlen at 1. rewrite length_chunk_addr_bytes. unfold zlen. cbn [length]. lia.
Qed.

Lemma v6_node_fit k meta_addr meta_offset d n : v6_node_ok (2 ^ k) meta_addr meta_offset d n -> well_placed d None n -> content_ok meta_addr meta_offset d n ->
  meta_offset mod EROFS_BLOCK_SIZE = 0 -> let n' := shifted meta_offset n in apart (v6_extents d None n') ->
  writes_fit (node_writes (2 ^ k) meta_addr meta_offset n') (v6_extents d None n').
Proof.
  intros Hok Hwp Hco Hm n' Hap. unfold node_writes, v6_extents, well_placed in *. cbv zeta in *. destruct (inode_writes_inside n' (2 ^ k)) as (I1 & I2 & I3).
  change (v6_inode n') with (v6_inode n) in *. change (v6_size n') with (v6_size n) in *. change (v6_data_size d n') with (v6_data_size d n) in *.
  destruct (v5i_is_dir (v6_inode n)) eqn:Kd; [|destruct (v5i_is_reg (v6_inode n)) eqn:Kr; [|destruct (v5i_is_symlink (v6_inode n)) eqn:Kl]].
  - destruct (kinds _ (or_introl Kd)) as [Kr Kx]. rewrite Kr in *. cbn [orb] in *. destruct (co_dir _ _ _ _ Hco Kd) as (C1 & C2 & _ & _).
    assert (v6_data_size d n = d) as Hds by (unfold v6_data_size; by rewrite Kd). rewrite Hds in *.
    apply (dir_fit meta_addr meta_offset d n'); [done|by apply (no_dir _ _ _ _ _ Hok)|apply tail_placed_shifted; [done|by rewrite Kd|done]|done|done|done].
  - destruct (fit_behind n' (2 ^ k) (v6_offset n' + up 3 (v6_size n')) (addrs_bytes (chunk_addr_for <$> n_chunks (v6_node n'))) (up 3 (v6_size n) + v5i_child_count (v6_inode n) * 8)) as [F1 F2].
    + change (v6_size n') with (v6_size n). destruct (up_bounds 3 (v6_size n)) as [U _]; lia.
    + change (v6_size n') with (v6_size n). rewrite length_addrs. unfold zlen. rewrite length_fmap. pose proof (co_chunks _ _ _ _ Hco Kr) as Hc. unfold zlen in Hc. change (v6_node n') with (v6_node n). lia.
    + by apply fit_one.
  - cbn [orb] in *. destruct (co_symlink _ _ _ _ Hco Kl) as (t & Ht & Hz & Hlt & _). change (n_symlink (v6_node n')) with (n_symlink (v6_node n)). rewrite Ht.
    assert (v6_data_size d n = v5i_size (v6_inode n)) as Hds by (unfold v6_data_size; by rewrite Kd). rewrite Hds in *. rewrite <- Hz in *. pose proof (zlen_nonneg t).
    destruct (tail_placed_shifted meta_offset _ _ n Hm ltac:(by rewrite Kl, orb_true_r) Hwp) as [_ Ht']. fold n' in Ht'. unfold tail_extents, tail_off in *. cbv zeta in *.
    assert (zlen t mod EROFS_BLOCK_SIZE = zlen t) as Hmod by (apply Z.mod_small; lia). rewrite Hmod in *. destruct (inlined (v6_size n) (zlen t)).
    + destruct Ht' as (-> & _). change (EROFS_INODE_FLAT_INLINE =? EROFS_INODE_FLAT_INLINE) with true. cbv iota.
      destruct (fit_behind n' (2 ^ k) (v6_offset n' + v6_size n') t (v6_size n + zlen t)) as [F1 F2]; [lia|change (v6_size n') with (v6_size n); lia|].
      destruct (fit_one _ _ F1 F2) as [G1 G2]. split; [|done]. eapply Forall_impl; [exact G1|]. intros w (e & He & Hi). exists e. split; [|done]. apply list_elem_of_singleton in He as ->. left.
    + destruct Ht' as [-> _]. change (EROFS_INODE_FLAT_PLAIN =? EROFS_INODE_FLAT_INLINE) with false. cbv iota. destruct Hap as [[Hdj _]%Forall_cons _].
      apply fit_two; [done| |done|done|done]. constructor; [|done]. unfold inside, write_ext. cbn [fst snd]. destruct (up_bounds 12 (zlen t)); lia.
  - cbn [orb] in *. rewrite app_nil_r. by apply fit_one.
Qed.
End inside.

(** ** Reading a dumped node *)

Section read.
Context `{Profile} (ds : DirectSuperBlockV6) (Hmap : map_wf (ds_map ds)).
Notation m := (ds_map ds).

(** A wrapper of the inode of a node. *)
Definition wrapper_of (n : V6Node) (w : OndiskInodeWrapper) : Prop :=
  ow_offset w = v6_offset n /\ ow_blocks_count w = (v5i_size (v6_inode n) + 4095) / 4096.

Context {k meta_addr meta_offset d : Z} {n0 : V6Node}.
Notation n := (shifted meta_offset n0).
Context (Hk : 12 <= k < 32) (Hok : v6_node_ok (2 ^ k) meta_addr meta_offset d n0) (Hwp : well_placed d None n0) (Hco : content_ok meta_addr meta_offset d n0)
  (Hmo : meta_offset mod EROFS_BLOCK_SIZE = 0) (Hmo0 : 0 <= meta_offset).
Context (Hst : forall w, w ∈ node_writes (2 ^ k) meta_addr meta_offset n -> stored m w.1 w.2).
Context {w : OndiskInodeWrapper} (Hw : wrapper_of n w).
Notation inode := (dumped_inode (2 ^ k) n).

Lemma read_attrs : has_attrs inode (v6_inode n) (v6_datalayout n) (xattr_count n) (v6_compact_inode n).
Proof.
  destruct Hok as [Hp Hwf Hino Hmode Hcomp Hxc Hlay _ _ _ _ _]. assert (in_range 16 (xattr_count n)) as Hx.
  { change (xattr_count n) with (xattr_count n0). unfold in_range. split; [|lia]. unfold xattr_count. pose proof (pairs_room_aligned (v6_pairs n0)) as [_ R0]. pose proof (Z.div_pos (pairs_room (v6_pairs n0)) 4 R0). destruct (bool_decide _); lia. }
  assert (in_range 32 (Z.lor 32 (Z.log2 (2 ^ k) - 12))) as Hu by (rewrite Z.log2_pow2 by lia; apply in_range_lor; unfold in_range; lia).
  unfold dumped_inode, base_inode. destruct (_ || _); [|destruct (v5i_is_reg (v6_inode n))].
  - apply (disk_of_attrs _ _ _ _ (wrap 32 (v6_dirents_offset n / EROFS_BLOCK_SIZE)) Hwf Hino Hmode Hlay Hx Hcomp). by apply wrap_range.
  - by apply (disk_of_attrs _ _ _ _ _ Hwf Hino Hmode Hlay Hx Hcomp).
  - by apply (disk_of_attrs _ _ _ _ 0 Hwf Hino Hmode Hlay Hx Hcomp).
Qed.

Lemma read_inode : disk_inode ds (ow_offset w) = Ok inode /\ v6_offset n mod 8 = 0 /\ 0 <= v6_offset n < 2 ^ 62.
Proof.
  destruct (no_offset _ _ _ _ _ Hok) as (O1 & O2 & O3). assert (v6_offset n = v6_offset n0 + meta_offset) as Eo by done.
  assert (v6_offset n mod 8 = 0) as E8. { rewrite Eo. apply mod8_of_32. by rewrite add_mod_32. }
  split; [|split; [done|lia]]. rewrite (proj1 Hw). apply disk_inode_stored; [done|exact (ha_wf _ _ _ _ _ read_attrs)| |done].
  apply (Hst (v6_offset n, oi_bytes inode)). unfold node_writes, inode_writes. left.
Qed.

Lemma read_wrapper : OndiskInodeWrapper_new ds (v6_offset n) = Ok (mkOndiskWrapper (v6_offset n) ((v5i_size (v6_inode n) + 4095) / 4096) None None).
Proof.
  destruct read_inode as (Hr & _). rewrite (proj1 Hw) in Hr. unfold OndiskInodeWrapper_new. rewrite Hr. cbn [mbind outcome_bind]. rewrite (ha_size _ _ _ _ _ read_attrs).
  pose proof (co_size _ _ _ _ Hco). destruct (no_placeable _ _ _ _ _ Hok) as (_ & _ & _ & Hs0 & _). change (v6_inode n) with (v6_inode n0). rewrite (div_round_up_spec _ 12) by lia.
  cbn [mbind outcome_bind]. change (2 ^ 12) with 4096. do 3 f_equal. lia.
Qed.

(** Sizes the reader computes are those of the builder. *)
Lemma read_sizes : inode_size inode = (if v6_compact_inode n then 32 else 64) /\ inode_size inode + xattr_size inode = v6_size n /\ inode_xattr_size inode = Ok (up 3 (v6_size n)).
Proof.
  pose proof read_attrs as [_ Hf _ _ _ _ _ _ Hx _]. destruct (v6_size_run d n0 (no_placeable _ _ _ _ _ Hok)) as (_ & Hsz & _).
  assert (inode_size inode = if v6_compact_inode n then 32 else 64) as Hi.
  { unfold inode_size. rewrite Hf. destruct (no_layout _ _ _ _ _ Hok) as [Hl|[Hl|Hl]]; change (v6_datalayout n) with (v6_datalayout n0); rewrite Hl; destruct (v6_compact_inode n); done. }
  assert (inode_size inode + xattr_size inode = v6_size n) as Hs.
  { rewrite Hi. unfold xattr_size. rewrite Hx. unfold xattr_count, v6_size. pose proof (pairs_room_aligned (v6_pairs n)) as [R4 R0]. destruct (bool_decide _); [done|].
    pose proof (Z.div_pos (pairs_room (v6_pairs n)) 4 R0 ltac:(lia)). rewrite (proj2 (Z.ltb_lt _ _)) by lia. apply Z.mod_divide in R4 as [q ->]; [|done]. rewrite Z.div_mul by lia. lia. }
  split_and!; [done|done|]. unfold inode_xattr_size. rewrite Hs. change (v6_size n) with (v6_size n0). by rewrite (round_up_spec _ 3) by lia.
Qed.

Lemma read_xattrs name : v6_get_xattr ds w name = Ok (n_xattrs (v6_node n) !! name) /\ v6_get_xattrs ds w = Ok (v6_pairs n).*1.
Proof.
  destruct read_inode as (Hr & H8 & _). destruct (no_placeable _ _ _ _ _ Hok) as (Hx & _). destruct read_sizes as [Hi _].
  destruct (xattrs_read ds Hmap w inode (v6_pairs n) name) as [R1 R2]; [done| |].
  - split_and!; [done| |exact (ha_xattrs _ _ _ _ _ read_attrs)|].
    + rewrite (proj1 Hw). apply Z.mod_divide in H8 as [q ->]; [|done]. replace (q * 8) with (q * 4 * 2) by lia. by rewrite Z.mod_mul.
    + intros Hne. rewrite (proj1 Hw), Hi, <- (zlen_oi_bytes n (2 ^ k)). apply (Hst (_, _)). unfold node_writes, inode_writes. rewrite bool_decide_eq_false_2 by done. apply elem_of_app. left. right. left.
  - rewrite R1, R2. split; [|done]. unfold v6_pairs. by rewrite list_to_map_to_list.
Qed.

(** Data blocks. *)
Lemma read_format : Z.shiftr (oi_format inode) EROFS_I_VERSION_BITS = v6_datalayout n /\
  forall A (x y : A), (if negb (Z.land (oi_format inode) (unot 16 (Z.lor (Z.shiftl (Z.shiftl 1 EROFS_I_DATALAYOUT_BITS - 1) 1) EROFS_I_VERSION_BITS)) =? 0) then x else y) = y.
Proof.
  rewrite (ha_format _ _ _ _ _ read_attrs). destruct (no_layout _ _ _ _ _ Hok) as [Hl|[Hl|Hl]]; change (v6_datalayout n) with (v6_datalayout n0); rewrite Hl; destruct (v6_compact_inode n); done.
Qed.

Definition has_blocks : bool := v5i_is_dir (v6_inode n0) || v5i_is_symlink (v6_inode n0).

Lemma read_union : has_blocks = true -> v6_dirents_offset n mod EROFS_BLOCK_SIZE = 0 -> v6_dirents_offset n < 2 ^ 44 -> oi_union inode * EROFS_BLOCK_SIZE = v6_dirents_offset n.
Proof.
  intros Hb Hm Hlt. assert (0 <= v6_dirents_offset n) as H0. { destruct (no_dirents _ _ _ _ _ Hok). unfold shifted. cbn [place_v6 v6_dirents_offset]. destruct (_ || _); lia. }
  assert (oi_union inode = wrap 32 (v6_dirents_offset n / EROFS_BLOCK_SIZE)) as ->.
  { unfold dumped_inode. change (v6_inode n) with (v6_inode n0). unfold has_blocks in Hb. rewrite Hb. unfold base_inode, disk_of. by destruct (v6_compact_inode n). }
  unfold EROFS_BLOCK_SIZE in *. apply Z.mod_divide in Hm as [q Hq]; [|done]. rewrite Hq. rewrite Z.div_mul by lia. rewrite wrap_small by (unfold in_range; lia). done.
Qed.

Lemma read_block i : has_blocks = true -> v6_dirents_offset n < 2 ^ 44 -> 0 <= i < 2 ^ 40 -> v6_dirents_offset n mod EROFS_BLOCK_SIZE = 0 ->
  v6_datalayout n = EROFS_INODE_FLAT_PLAIN \/ (v6_datalayout n = EROFS_INODE_FLAT_INLINE /\ i + 1 < ow_blocks_count w < 2 ^ 64) ->
  data_block_offset w inode i = Ok (v6_dirents_offset n + EROFS_BLOCK_SIZE * i).
Proof.
  intros Hb Hlt Hi Hm Hl. pose proof (read_union Hb Hm Hlt) as Hu. destruct read_format as [Hf Hmask]. unfold data_block_offset. cbv zeta. rewrite Hmask, Hf.
  assert (0 <= oi_union inode * EROFS_BLOCK_SIZE) as H0. { rewrite Hu. destruct (no_dirents _ _ _ _ _ Hok). unfold shifted. cbn [place_v6 v6_dirents_offset]. destruct (_ || _); lia. }
  assert ((a ← umul 64 (oi_union inode) EROFS_BLOCK_SIZE; b ← umul 64 i EROFS_BLOCK_SIZE; uadd 64 a b) = Ok (E:=errno) (v6_dirents_offset n + EROFS_BLOCK_SIZE * i)) as Hn.
  { unfold EROFS_BLOCK_SIZE in *. rewrite umul_in by (unfold in_range; lia). cbn [mbind outcome_bind]. rewrite umul_in by (unfold in_range; lia). cbn [mbind outcome_bind]. rewrite uadd_in by (unfold in_range; lia). f_equal. lia. }
  destruct Hl as [-> | [-> Hc]]; [exact Hn|]. cbn [Z.eqb EROFS_INODE_FLAT_INLINE EROFS_INODE_FLAT_PLAIN Pos.eqb]. rewrite usub_in by (unfold in_range; lia). cbn [mbind outcome_bind].
  rewrite (proj2 (Z.eqb_neq _ _)) by lia. exact Hn.
Qed.

Lemma read_tail i : v6_datalayout n = EROFS_INODE_FLAT_INLINE -> v6_size n mod 8 = 0 -> ow_blocks_count w = i + 1 -> 0 <= i < 2 ^ 40 ->
  data_block_offset w inode i = Ok (v6_offset n + v6_size n).
Proof.
  intros Hl H8 Hc Hi. destruct read_format as [Hf Hmask]. destruct read_sizes as (_ & _ & Hx). destruct read_inode as (_ & _ & Ho). destruct (v6_size_run d n0 (no_placeable _ _ _ _ _ Hok)) as (_ & Hsz & _).
  unfold data_block_offset. cbv zeta. rewrite Hmask, Hf, Hl. cbn [Z.eqb EROFS_INODE_FLAT_INLINE EROFS_INODE_FLAT_PLAIN Pos.eqb]. rewrite Hc, usub_in by (unfold in_range; lia). cbn [mbind outcome_bind].
  replace (i + 1 - 1) with i by lia. rewrite Z.eqb_refl. cbn [negb]. rewrite Hx. cbn [mbind outcome_bind]. rewrite up_same by (done || lia). rewrite (proj1 Hw). apply uadd_in. unfold in_range.
  change (v6_size n) with (v6_size n0). lia.
Qed.
(** *** Directories *)

(** An inlined tail is read where it was written: the reader rounds the size of the inode up to 8. *)
Definition inline_aligned (x : V6Node) : Prop := v6_datalayout x = EROFS_INODE_FLAT_INLINE -> v6_size x mod 8 = 0.
Context (Hin : inline_aligned n0).

Lemma read_dir : v5i_is_dir (v6_inode n0) = true -> let r := dir_pack meta_addr meta_offset n in
  (forall i b, r.1 !! i = Some b -> stored m (v6_dirents_offset n + EROFS_BLOCK_SIZE * Z.of_nat i) (block_bytes b ++ replicate (Z.to_nat (EROFS_BLOCK_SIZE - zlen (block_bytes b))) 0)) ->
  dir_stored ds w inode (r.1 ++ [r.2]).
Proof.
  intros Kd r Hpad. destruct (co_dir _ _ _ _ Hco Kd) as (C1 & C2 & C3 & C4). fold r in C1, C2. destruct (dir_pack_shape _ _ _ (no_dir _ _ _ _ _ Hok Kd)) as [_ Hbs]. fold r in Hbs.
  destruct (kinds _ (or_introl Kd)) as [Kr Kx]. pose proof Hwp as Ht. unfold well_placed in Ht. rewrite Kr, Kx in Ht. unfold v6_data_size in Ht. rewrite Kd in Ht.
  destruct (tail_placed_shifted meta_offset _ _ n0 Hmo Kx Ht) as [_ Ht']. clear Ht. pose proof Hbs as [_ [Hlast _]%Forall_cons]%Forall_app. pose proof (block_nonempty _ Hlast) as Hpos. rewrite zlen_block_used in Hpos.
  destruct read_inode as (Hr & H8 & Ho). pose proof (ha_size _ _ _ _ _ read_attrs) as Hs. change (v6_inode n) with (v6_inode n0) in Hs. rewrite C3, C1 in Hs. unfold packed_size in *. unfold EROFS_BLOCK_SIZE in C1, C2, C4. pose proof (zlen_nonneg r.1).
  assert (v6_dirents_offset n = v6_dirents_offset n0 + meta_offset) as Edo by (unfold shifted; rewrite Kx; done). destruct (no_dirents _ _ _ _ _ Hok) as [D0 _].
  assert (ow_blocks_count w = zlen r.1 + 1) as Hbc. { rewrite (proj2 Hw). change (v6_inode n) with (v6_inode n0). rewrite C3, C1. symmetry. apply Z.div_unique with (used_by r.2 - 1); lia. }
  assert (0 < zlen r.1 \/ v6_datalayout n = EROFS_INODE_FLAT_PLAIN -> v6_dirents_offset n mod EROFS_BLOCK_SIZE = 0) as Hal.
  { intros Hc. destruct (inlined (v6_size n0) d); [|by destruct Ht' as [_ Ht']]. destruct Ht' as (El & _ & Ht'). destruct Hc as [Hc|Hc]; [|by rewrite El in Hc]. apply Ht'. unfold EROFS_BLOCK_SIZE.
    pose proof (Z.mod_pos_bound d 4096). lia. }
  assert (v6_datalayout n = EROFS_INODE_FLAT_PLAIN \/ v6_datalayout n = EROFS_INODE_FLAT_INLINE) as Hl by (destruct (no_tail _ _ _ _ _ Hok Kx); auto).
  assert (forall x, x mod 4096 = 0 -> forall i, (x + 4096 * i) mod 2 = 0) as Heven. { intros x Hx i. apply Z.mod_divide in Hx as [q ->]; [|done]. replace (q * 4096 + 4096 * i) with ((q + i) * 2048 * 2) by lia. by rewrite Z.mod_mul. }
  constructor; [done|done| |unfold EROFS_BLOCK_SIZE in *; lia|done|].
  - exists r.2. rewrite last_snoc, zlen_block_used, zlen_app. change (zlen [r.2]) with 1. split_and!; [done|done|]. rewrite Hs. f_equal. f_equal. lia.
  - intros i b Hb. destruct (decide (i < length r.1)%nat) as [Hi|Hi].
    + rewrite lookup_app_l in Hb by done. exists (v6_dirents_offset n + EROFS_BLOCK_SIZE * Z.of_nat i). assert (v6_dirents_offset n mod EROFS_BLOCK_SIZE = 0) as Hal' by (apply Hal; left; unfold zlen; lia). split_and!.
      * apply read_block; [exact Kx|rewrite Edo; lia|unfold zlen in *; lia|done|]. destruct Hl as [Hl|Hl]; [by left|right]. split; [done|]. rewrite Hbc. unfold zlen in *. lia.
      * by apply Heven.
      * unfold block_pad. rewrite length_app. cbn [length]. rewrite (proj2 (Nat.eqb_neq _ _)) by lia. by apply Hpad.
    + assert (i = length r.1) as -> by (apply lookup_lt_Some in Hb; rewrite length_app in Hb; cbn [length] in Hb; lia). rewrite list_lookup_middle in Hb by done. injection Hb as <-.
      unfold block_pad. rewrite length_app. cbn [length]. rewrite (proj2 (Nat.eqb_eq _ _)), app_nil_r by lia.
      assert (stored m (tail_off n (v6_dirents_offset n + EROFS_BLOCK_SIZE * zlen r.1)) (block_bytes r.2)) as Hst'.
      { apply (Hst (_, _)). unfold node_writes. change (v6_inode n) with (v6_inode n0). rewrite Kd. apply elem_of_app. right. unfold dir_writes. apply elem_of_app. right. left. }
      unfold tail_off in Hst'. destruct Hl as [Hl|Hl]; rewrite Hl in Hst'; eexists; (split; [|split; [|exact Hst']]).
      * unfold zlen in *. apply read_block; [exact Kx|rewrite Edo; lia|lia|by apply Hal; right|by left].
      * apply Heven. apply Hal. by right.
      * apply read_tail; [done|by apply Hin|exact Hbc|unfold zlen in *; lia].
      * destruct (v6_size_run d n0 (no_placeable _ _ _ _ _ Hok)) as (_ & _ & H4). change (v6_size n) with (v6_size n0). apply Z.mod_divide in H8 as [q Hq]; [|done]. apply Z.mod_divide in H4 as [q' Hq']; [|done].
        rewrite Hq, Hq'. replace (q * 8 + q' * 4) with ((q * 4 + q' * 2) * 2) by lia. by rewrite Z.mod_mul.
Qed.

(** *** Symlinks and files *)

Lemma read_symlink t : v5i_is_symlink (v6_inode n0) = true -> n_symlink (v6_node n0) = Some t -> v6_get_symlink ds w = Ok t.
Proof.
  intros Kl Ht. destruct (co_symlink _ _ _ _ Hco Kl) as (t' & Ht' & Hz & Hlt & Hb). rewrite Ht in Ht'. injection Ht' as <-. destruct (kinds _ (or_intror Kl)) as [Kr Kx]. destruct (mode_link_not _ Kl) as [_ Kd].
  assert (v6_dirents_offset n = v6_dirents_offset n0 + meta_offset) as Edo by (unfold shifted; rewrite Kx; done).
  destruct read_inode as (Hr & _). pose proof (ha_size _ _ _ _ _ read_attrs) as Hs. change (v6_inode n) with (v6_inode n0) in Hs. unfold v6_get_symlink, ow_disk_inode. rewrite Hr. cbn [unwrap mbind outcome_bind].
  assert (stored m (tail_off n (v6_dirents_offset n)) t) as Hst'.
  { apply (Hst (_, _)). unfold node_writes. change (v6_inode n) with (v6_inode n0). rewrite Kd, Kr, Kl. change (n_symlink (v6_node n)) with (n_symlink (v6_node n0)). rewrite Ht. apply elem_of_app. right. left. }
  pose proof Hwp as Hw'. unfold well_placed in Hw'. rewrite Kr, Kx in Hw'. unfold v6_data_size in Hw'. rewrite Kd, <- Hz in Hw'. destruct (tail_placed_shifted meta_offset _ _ n0 Hmo Kx Hw') as [_ Hp]. pose proof (zlen_nonneg t).
  unfold EROFS_BLOCK_SIZE in Hlt. unfold tail_off in Hst'. destruct (inlined (v6_size n0) (zlen t)) eqn:Ein.
  - destruct Hp as (El & _). rewrite El in Hst'. rewrite (read_tail 0); [|done|by apply Hin| |lia].
    + cbn [mbind outcome_bind]. apply get_slice_stored; [done|exact Hst'|lia].
    + rewrite (proj2 Hw). change (v6_inode n) with (v6_inode n0). rewrite <- Hz. unfold inlined in Ein. apply andb_prop in Ein as [E0%negb_true_iff%Z.eqb_neq _]. rewrite Z.mod_small in E0 by (unfold EROFS_BLOCK_SIZE; lia).
      symmetry. apply Z.div_unique with (zlen t - 1); lia.
  - destruct Hp as [El Hal]. rewrite El in Hst'. rewrite (read_block 0); [|exact Kx|rewrite Edo; lia|lia|done|by left]. cbn [mbind outcome_bind]. rewrite Z.mul_0_r, Z.add_0_r. apply get_slice_stored; [done|exact Hst'|lia].
Qed.

Lemma addrs_of_bytes l : Forall chunk_ok l -> chunk_addrs_of_bytes (length l) (addrs_bytes (chunk_addr_for <$> l)) = chunk_addr_for <$> l.
Proof.
  induction 1 as [|c l [Hb Hi] Hl IH]; [done|]. unfold addrs_bytes in *. rewrite !fmap_cons. cbn [length chunk_addrs_of_bytes concat].
  rewrite take_app_length', drop_app_length', IH by (by rewrite length_chunk_addr_bytes). f_equal.
  destruct (chunk_addr_get (v5c_blob_index c) (v5c_index c) (wrap 32 (v5c_uncompressed_offset c / EROFS_BLOCK_SIZE)) Hb Hi) as (_ & _ & Hk' & H1 & H2 & _).
  apply chunk_addr_of_bytes_bytes; [done|done|]. unfold chunk_addr_for. rewrite Hk'. by apply wrap_range.
Qed.

Lemma read_chunks head : v5i_is_reg (v6_inode n0) = true -> ds_chunk_size ds = 2 ^ k -> v5i_child_count (v6_inode n0) = (v5i_size (v6_inode n0) + 2 ^ k - 1) / 2 ^ k ->
  v5i_child_count (v6_inode n0) < 2 ^ 32 -> 0 <= head <= v5i_child_count (v6_inode n0) ->
  chunk_addresses ds w head = Ok (drop (Z.to_nat head) (chunk_addr_for <$> n_chunks (v6_node n0))).
Proof.
  intros Kr Hcs Hcc Hc32 Hh. pose proof (co_chunks _ _ _ _ Hco Kr) as Hnc. destruct read_inode as (Hr & _ & Ho). destruct read_format as [Hf _]. pose proof (ha_size _ _ _ _ _ read_attrs) as Hs. destruct read_sizes as (_ & _ & Hx).
  pose proof Hwp as Hl. unfold well_placed in Hl. rewrite Kr in Hl. destruct Hl as [Hl _]. assert (v5i_is_dir (v6_inode n0) = false) as Kd. { destruct (v5i_is_dir (v6_inode n0)) eqn:E; [|done]. destruct (mode_dir_not _ E) as [E' _]. congruence. }
  destruct (v6_size_run d n0 (no_placeable _ _ _ _ _ Hok)) as (_ & Hsz & _). destruct (up_bounds 3 (v6_size n0)) as [U _]; [lia|]. change (2 ^ 3) with 8 in U. pose proof (co_size _ _ _ _ Hco). destruct (no_placeable _ _ _ _ _ Hok) as (_ & _ & _ & Hs0 & _).
  unfold chunk_addresses, ow_size, ow_disk_inode. rewrite Hr. cbn [unwrap mbind outcome_bind]. rewrite Hf. change (v6_datalayout n) with (v6_datalayout n0). rewrite Hl. cbn [Z.eqb rassert mbind outcome_bind EROFS_INODE_CHUNK_BASED Pos.eqb].
  pose proof (Z.pow_lt_mono_r 2 k 32 ltac:(lia) ltac:(lia) ltac:(lia)) as Hk32. change (2 ^ 32) with 4294967296 in Hk32. rewrite Hs. change (v6_inode n) with (v6_inode n0). rewrite Hcs, (div_round_up_spec _ k) by lia. cbn [mbind outcome_bind]. rewrite <- Hcc, Hx, (proj1 Hw). cbn [mbind outcome_bind]. change (v6_size n) with (v6_size n0).
  rewrite (wrap_small 32) by (unfold in_range; lia). rewrite (uadd_in 64 (v6_offset n)) by (unfold in_range; lia). cbn [mbind outcome_bind]. rewrite umul_in by (unfold in_range; lia). cbn [mbind outcome_bind]. rewrite uadd_in by (unfold in_range; lia). cbn [mbind outcome_bind].
  rewrite usub_in by (unfold in_range; lia). cbn [mbind outcome_bind]. set (l := n_chunks (v6_node n0)) in *. set (h := Z.to_nat head).
  assert (stored m (v6_offset n + up 3 (v6_size n0)) (addrs_bytes (chunk_addr_for <$> take h l) ++ addrs_bytes (chunk_addr_for <$> drop h l) ++ [])) as Hst'.
  { rewrite app_nil_r. unfold addrs_bytes. rewrite <- concat_app, <- fmap_app, <- fmap_app, take_drop. apply (Hst (_, _)). unfold node_writes. change (v6_inode n) with (v6_inode n0). rewrite Kd, Kr. apply elem_of_app. right. left. }
  apply stored_mid in Hst'. assert (zlen (chunk_addr_for <$> take h l) = head) as Hth by (unfold zlen in *; rewrite length_fmap, length_take; lia). rewrite length_addrs, Hth in Hst'.
  replace (v6_offset n + up 3 (v6_size n0) + head * 8) with (v6_offset n + up 3 (v6_size n0) + 8 * head) by lia.
  rewrite (get_slice_stored _ _ _ _ _ Hmap Hst') by (rewrite length_addrs; unfold zlen in *; rewrite length_fmap, length_drop; lia). cbn [err_invalidate_data mbind outcome_bind]. f_equal.
  replace (Z.to_nat (v5i_child_count (v6_inode n0) - head)) with (length (drop h l)) by (rewrite length_drop; unfold zlen in *; lia). rewrite addrs_of_bytes by (apply Forall_drop; by apply (no_chunks _ _ _ _ _ Hok)). by rewrite fmap_drop.
Qed.

(** Where the chunk addresses of a file are. *)
Lemma read_chunk_area : v5i_is_reg (v6_inode n0) = true -> exists inode s, ow_disk_inode ds w = Ok inode /\ inode_xattr_size inode = Ok s /\
  (ow_offset w + s) mod 8 = 0 /\ 0 <= ow_offset w /\ 0 <= s /\ ow_offset w + s < 2 ^ 63 /\ stored m (ow_offset w + s) (addrs_bytes (chunk_addr_for <$> n_chunks (v6_node n0))).
Proof.
  intros Kr. destruct read_inode as (Hr & _ & Ho). destruct read_sizes as (_ & _ & Hx). destruct (v6_size_run d n0 (no_placeable _ _ _ _ _ Hok)) as (_ & Hsz & _). destruct (up_bounds 3 (v6_size n0)) as [U U2]; [lia|]. change (2 ^ 3) with 8 in U, U2.
  assert (v5i_is_dir (v6_inode n0) = false) as Kd. { destruct (v5i_is_dir (v6_inode n0)) eqn:E; [|done]. destruct (mode_dir_not _ E) as [E' _]. congruence. }
  eexists _, _. unfold ow_disk_inode. rewrite Hr. split; [done|]. split; [exact Hx|]. rewrite (proj1 Hw). change (v6_size n) with (v6_size n0). destruct (no_offset _ _ _ _ _ Hok) as (_ & O32 & _).
  assert (v6_offset n mod 8 = 0) as H8. { change (v6_offset n) with (v6_offset n0 + meta_offset). rewrite Z.add_mod, (mod8_of_32 _ O32), (mod8_of_32 _ (mod32_of_4096 _ Hmo)) by lia. done. }
  split_and!; [rewrite Z.add_mod, H8, U2 by lia; done|lia|lia|lia|]. apply (Hst (_, _)). unfold node_writes. change (v6_inode n) with (v6_inode n0). rewrite Kd, Kr. apply elem_of_app. right. left.
Qed.
End read.

(** ** All nodes of an image *)

Section image.
Context `{Profile} {k meta_addr meta_offset : Z} (Hmo : meta_offset mod EROFS_BLOCK_SIZE = 0).

Definition v6_dumpable (d : Z) (n : V6Node) : Prop :=
  v6_node_ok (2 ^ k) meta_addr meta_offset d n /\ well_placed d None n /\ content_ok meta_addr meta_offset d n.

Definition image_extents (ds : list Z) (ns : list V6Node) : list (Z * Z) := concat (zip_with (fun d n => v6_extents d None n) ds ns).
Definition image_writes (ns : list V6Node) : list (Z * list Z) := concat (node_writes (2 ^ k) meta_addr meta_offset <$> (shifted meta_offset <$> ns)).

Lemma apart_shift o l : apart (shift_ext o <$> l) <-> apart l.
Proof.
  induction l as [|e l IH]; [done|]. rewrite fmap_cons. cbn [apart]. rewrite IH, Forall_fmap. apply and_iff_compat_r. apply Forall_iff. intros a. unfold disj, shift_ext, compose. cbn. lia.
Qed.

Lemma fit_app A B es fs : writes_fit A es -> writes_fit B fs -> apart (es ++ fs) -> writes_fit (A ++ B) (es ++ fs).
Proof.
  intros [A1 A2] [B1 B2] (_ & _ & Hd)%apart_app. split.
  - apply Forall_app. split; (eapply Forall_impl; [eassumption|]); intros w (e & He & Hi); exists e; (split; [apply elem_of_app; auto|done]).
  - rewrite fmap_app. apply apart_app. split_and!; [done|done|]. intros a b (w & -> & Hw)%list_elem_of_fmap (v & -> & Hv)%list_elem_of_fmap.
    rewrite Forall_forall in A1, B1. destruct (A1 w Hw) as (e & He & Hie), (B1 v Hv) as (f & Hf & Hif). eapply disj_inside; [exact Hie|]. symmetry. eapply disj_inside; [exact Hif|]. symmetry. by apply Hd.
Qed.

Lemma image_fit ds ns : Forall2 v6_dumpable ds ns -> apart (image_extents ds ns) -> writes_fit (image_writes ns) (shift_ext meta_offset <$> image_extents ds ns).
Proof.
  intros Hns. induction Hns as [|d n ds ns (Hok & Hwp & Hco) Hns IH]; intros Ha; [done|]. unfold image_extents, image_writes in *. cbn [zip_with concat] in *. rewrite !fmap_cons, fmap_app. cbn [concat].
  pose proof Ha as (H1 & H2 & _)%apart_app. apply fit_app; [|by apply IH|rewrite <- fmap_app; by apply apart_shift]. rewrite <- v6_extents_shifted. apply (v6_node_fit k meta_addr meta_offset d n Hok Hwp Hco Hmo).
  rewrite v6_extents_shifted. by apply apart_shift.
Qed.

Lemma block_writes_lookup bs : forall off i b, bs !! i = Some b -> block_writes off bs !! i = Some (off + EROFS_BLOCK_SIZE * Z.of_nat i, block_bytes b).
Proof.
  induction bs as [|c bs IH]; intros off [|i] b Hb; cbn in Hb; [done|done| |].
  - injection Hb as ->. cbn [block_writes lookup list_lookup]. do 2 f_equal. unfold EROFS_BLOCK_SIZE. lia.
  - cbn [block_writes]. change (((off, block_bytes c) :: block_writes (off + EROFS_BLOCK_SIZE) bs) !! S i) with (block_writes (off + EROFS_BLOCK_SIZE) bs !! i).
    rewrite (IH _ _ _ Hb). do 2 f_equal. unfold EROFS_BLOCK_SIZE. lia.
Qed.

Lemma length_block_writes bs : forall off, length (block_writes off bs) = length bs.
Proof. induction bs as [|b bs IH]; intros off; [done|]. cbn. by rewrite IH. Qed.

(** *** The length of the file *)


Lemma zlen_apply_writes ws : forall f, Forall (fun w => 0 <= w.1) ws -> zlen f <= zlen (apply_writes ws f) /\ forall w, w ∈ ws -> w.2 <> [] -> w.1 + zlen w.2 <= zlen (apply_writes ws f).
Proof.
  induction ws as [|w ws IH]; intros f H0; [split; [done|]; by intros w ?%elem_of_nil|]. apply Forall_cons in H0 as [Hw H0]. cbn [apply_writes foldl]. fold (apply_writes ws (pwrite f w.1 w.2)).
  destruct (IH (pwrite f w.1 w.2) H0) as [I1 I2]. assert (zlen f <= zlen (pwrite f w.1 w.2) /\ (w.2 <> [] -> w.1 + zlen w.2 <= zlen (pwrite f w.1 w.2))) as [L1 L2].
  { destruct (decide (w.2 = [])) as [->|Hne]; [done|]. rewrite zlen_pwrite by done. lia. }
  split; [lia|]. intros v [->|Hv]%elem_of_cons Hne; [|by apply I2]. specialize (L2 Hne). lia.
Qed.

(** The last byte written for an inode. *)
Lemma inode_writes_end n cs : exists w, w ∈ inode_writes n (dumped_inode cs n) /\ w.2 <> [] /\ w.1 + zlen w.2 = v6_offset n + v6_size n.
Proof.
  pose proof (zlen_oi_bytes n cs) as Hz. unfold inode_writes, v6_size. pose proof (pairs_room_aligned (v6_pairs n)) as [_ R0].
  pose proof (zlen_xattr_area (v6_pairs n)) as Ha. destruct (bool_decide (v6_pairs n = [])).
  - eexists. split; [left|]. cbn [fst snd]. split; [intros E; rewrite E in Hz; by destruct (v6_compact_inode n)|]. rewrite Hz. destruct (v6_compact_inode n); lia.
  - eexists. split; [right; left|]. cbn [fst snd]. split; [intros E; rewrite E in Ha; change (zlen []) with 0 in Ha; lia|]. rewrite Ha, Hz. destruct (v6_compact_inode n); lia.
Qed.

Lemma up12_mono a b : a <= b -> up 12 a <= up 12 b.
Proof. intros Hab. unfold up. apply Z.mul_le_mono_nonneg_r; [lia|]. apply Z.div_le_mono; lia. Qed.

Lemma up12_up3 a : up 3 a <= up 12 a.
Proof.
  destruct (up_bounds 3 a ltac:(lia)) as [A1 A2]. destruct (up_bounds 12 a ltac:(lia)) as [B1 B2]. apply Z.mod_divide in A2 as [p Hp]; [|lia]. apply Z.mod_divide in B2 as [q Hq]; [|lia]. change (2 ^ 3) with 8 in *. change (2 ^ 12) with 4096 in *. lia.
Qed.

(** Every write of a node ends in the last block that something is written to. *)
Lemma node_write_end d n w : v6_dumpable d n -> let n' := shifted meta_offset n in w ∈ node_writes (2 ^ k) meta_addr meta_offset n' ->
  exists v, v ∈ node_writes (2 ^ k) meta_addr meta_offset n' /\ v.2 <> [] /\ w.1 + zlen w.2 <= up 12 (v.1 + zlen v.2).
Proof.
  intros (Hok & Hwp & Hco) n' Hw. destruct (decide (w.2 = [])) as [He|Hne]. 2:{ exists w. split_and!; [done|done|]. apply (up_bounds 12 (w.1 + zlen w.2)). lia. }
  pose proof (zlen_oi_bytes n' (2 ^ k)) as Hz. assert (zlen (xattr_area (v6_pairs n')) <> 0) as Hx by (rewrite zlen_xattr_area; pose proof (pairs_room_aligned (v6_pairs n')) as [_ R0]; lia).
  unfold node_writes in Hw |- *. apply elem_of_app in Hw as [Hw|Hw].
  { exfalso. unfold inode_writes in Hw. apply elem_of_cons in Hw as [->|Hw]; [cbn [snd] in He; rewrite He in Hz; by destruct (v6_compact_inode n')|]. destruct (bool_decide _); [by apply elem_of_nil in Hw|]. apply list_elem_of_singleton in Hw as ->. cbn [snd] in He. by rewrite He in Hx. }
  change (v6_inode n') with (v6_inode n) in Hw |- *. destruct (v5i_is_dir (v6_inode n)) eqn:Kd; [|destruct (v5i_is_reg (v6_inode n)) eqn:Kr; [|destruct (v5i_is_symlink (v6_inode n)) eqn:Kl; [|by apply elem_of_nil in Hw]]].
  - exfalso. destruct (dir_pack_shape _ _ _ (no_dir _ _ _ _ _ Hok Kd)) as [_ Hbs]. fold n' in Hbs. unfold dir_writes in Hw. set (r := dir_pack meta_addr meta_offset n') in *. apply elem_of_app in Hw as [Hw|Hw].
    + apply list_elem_of_lookup in Hw as [i Hi]. destruct (lookup_lt_is_Some_2 r.1 i) as [b Hb]. { rewrite <- (length_block_writes r.1 (v6_dirents_offset n')). by eapply lookup_lt_Some. }
      rewrite (block_writes_lookup _ _ _ _ Hb) in Hi. injection Hi as <-. cbn [snd] in He. apply Forall_app in Hbs as [Hbs _]. pose proof (block_nonempty _ (Forall_lookup_1 _ _ _ _ Hbs Hb)) as Hn. rewrite He in Hn. change (zlen []) with 0 in Hn. lia.
    + apply list_elem_of_singleton in Hw as ->. cbn [snd] in He. apply Forall_app in Hbs as [_ [Hb _]%Forall_cons]. pose proof (block_nonempty _ Hb) as Hn. rewrite He in Hn. change (zlen []) with 0 in Hn. lia.
  - apply list_elem_of_singleton in Hw as ->. cbn [fst snd] in He |- *. destruct (inode_writes_end n' (2 ^ k)) as (v & Hv & Hvn & Hve). exists v. split_and!; [apply elem_of_app; by left|done|]. rewrite Hve, He. change (zlen []) with 0. rewrite Z.add_0_r.
    destruct (no_offset _ _ _ _ _ Hok) as (_ & O32 & _). rewrite <- up_shift; [apply up12_up3|lia|]. change (v6_offset n') with (v6_offset n + meta_offset). change (2 ^ 3) with 8.
    rewrite Z.add_mod, (mod8_of_32 _ O32), (mod8_of_32 _ (mod32_of_4096 _ Hmo)) by lia. done.
  - exfalso. destruct (co_symlink _ _ _ _ Hco Kl) as (t & Ht & Hzt & [Hlt _] & _). change (n_symlink (v6_node n')) with (n_symlink (v6_node n)) in Hw. rewrite Ht in Hw. apply list_elem_of_singleton in Hw as ->. cbn [snd] in He. rewrite He in Hlt. change (zlen []) with 0 in Hlt. lia.
Qed.

Lemma blocks_aligned d n : v6_dumpable d n -> v5i_is_dir (v6_inode n) = true -> let n' := shifted meta_offset n in
  0 < zlen (dir_pack meta_addr meta_offset n').1 -> v6_dirents_offset n' mod EROFS_BLOCK_SIZE = 0.
Proof.
  intros (Hok & Hwp & Hco) Kd n' Hz. destruct (co_dir _ _ _ _ Hco Kd) as (C1 & C2 & _). fold n' in C1, C2. set (r := dir_pack meta_addr meta_offset n') in *. destruct (kinds _ (or_introl Kd)) as [Kr Kx].
  unfold well_placed in Hwp. rewrite Kr, Kx in Hwp. unfold v6_data_size in Hwp. rewrite Kd in Hwp. destruct (tail_placed_shifted meta_offset _ _ n Hmo Kx Hwp) as [_ Ht].
  destruct (inlined (v6_size n) d); [|apply Ht]. destruct Ht as (_ & _ & Ht). apply Ht. pose proof (used_by_nonneg r.2). pose proof (Z.mod_pos_bound d 4096). unfold packed_size, EROFS_BLOCK_SIZE in *. lia.
Qed.

(** A mapping of a file of whole blocks that agrees with [f] from [lo] to the end of its last block. *)
Definition mapped (m : Mapping) (f : list Z) (lo : Z) : Prop :=
  zlen f <= zlen (mp_bytes m) /\ zlen (mp_bytes m) mod EROFS_BLOCK_SIZE = 0 /\ forall i, lo <= i < up 12 (zlen f) -> file_byte (mp_bytes m) i = file_byte f i.

Lemma mapped_end m f lo : mapped m f lo -> up 12 (zlen f) <= zlen (mp_bytes m).
Proof.
  intros (Hl & Hm & _). destruct (up_bounds 12 (zlen f) ltac:(lia)) as [B1 B2]. unfold EROFS_BLOCK_SIZE in Hm. apply Z.mod_divide in Hm as [p Hp]; [|lia]. apply Z.mod_divide in B2 as [q Hq]; [|lia]. change (2 ^ 12) with 4096 in *. lia.
Qed.

Lemma mapped_stored m f lo off data : mapped m f lo -> file_holds f off data -> lo <= off -> off + zlen data <= up 12 (zlen f) -> stored m off data.
Proof.
  intros Hm [H0 Hf] Hlo He. pose proof (mapped_end _ _ _ Hm). destruct Hm as (_ & _ & Hb). apply holds_stored; [|lia]. split; [done|]. intros i Hi. rewrite Hb by lia. by apply Hf.
Qed.

Lemma in_image_extents ds ns j d n e : ds !! j = Some d -> ns !! j = Some n -> e ∈ v6_extents d None n -> e ∈ image_extents ds ns.
Proof.
  intros Hd Hn He. unfold image_extents. apply list_elem_of_In, in_concat. exists (v6_extents d None n). split; [|by apply list_elem_of_In]. apply list_elem_of_In, list_elem_of_lookup. exists j.
  rewrite lookup_zip_with, Hd. cbn. by rewrite Hn.
Qed.

(** Where the writes of an image are. *)
Lemma image_bounds ds ns lim : Forall2 v6_dumpable ds ns -> apart (image_extents ds ns) -> 0 <= meta_offset ->
  Forall (fun e => EROFS_BLOCK_SIZE <= e.1 /\ e.1 + e.2 <= lim) (image_extents ds ns) ->
  Forall (fun w => 0 <= w.1 /\ EROFS_BLOCK_SIZE + meta_offset <= w.1 /\ w.1 + zlen w.2 <= lim + meta_offset) (image_writes ns) /\ Forall (fun w => 0 <= w.1) (image_writes ns).
Proof.
  intros Hns Ha H0 Hlim. destruct (image_fit ds ns Hns Ha) as [F1 _]. assert (Forall (fun w => 0 <= w.1 /\ EROFS_BLOCK_SIZE + meta_offset <= w.1 /\ w.1 + zlen w.2 <= lim + meta_offset) (image_writes ns)) as Hb.
  { eapply Forall_impl; [exact F1|]. cbn beta. intros v (e & (e0 & -> & He)%list_elem_of_fmap & Hi). pose proof (proj1 (Forall_forall _ _) Hlim e0 He). unfold inside, write_ext, shift_ext, EROFS_BLOCK_SIZE in *. cbn in *. lia. }
  split; [done|]. eapply Forall_impl; [exact Hb|]. by intros w [].
Qed.

Lemma in_image_writes ns n w : n ∈ ns -> w ∈ node_writes (2 ^ k) meta_addr meta_offset (shifted meta_offset n) -> w ∈ image_writes ns.
Proof.
  intros Hn Hv. unfold image_writes. apply list_elem_of_In, in_concat. eexists. split; [apply list_elem_of_In, list_elem_of_fmap_2, list_elem_of_fmap_2; exact Hn|by apply list_elem_of_In].
Qed.

Lemma image_stored ds ns m f lim n w : Forall2 v6_dumpable ds ns -> apart (image_extents ds ns) -> 0 <= meta_offset ->
  Forall (fun e => EROFS_BLOCK_SIZE <= e.1 /\ e.1 + e.2 <= lim) (image_extents ds ns) -> mapped m (apply_writes (image_writes ns) f) (EROFS_BLOCK_SIZE + meta_offset) ->
  n ∈ ns -> w ∈ node_writes (2 ^ k) meta_addr meta_offset (shifted meta_offset n) -> stored m w.1 w.2.
Proof.
  intros Hns Ha H0 Hlim Hm Hn Hw. destruct (image_fit ds ns Hns Ha) as [_ F2]. destruct (image_bounds ds ns lim Hns Ha H0 Hlim) as [Hin Hpos]. pose proof (in_image_writes ns n w Hn Hw) as Hw'.
  pose proof Hn as [j Hj]%list_elem_of_lookup. destruct (Forall2_lookup_r _ _ _ _ _ Hns Hj) as (d & _ & Hd). destruct (node_write_end d n w Hd Hw) as (v & Hv & Hne & Hend).
  apply (mapped_stored m _ _ _ _ Hm); [by apply apply_writes_holds|by apply (proj1 (Forall_forall _ _) Hin w)|]. etransitivity; [exact Hend|]. apply up12_mono.
  apply (zlen_apply_writes _ f Hpos); [by apply (in_image_writes ns n)|done].
Qed.

(** *** What is behind the names of a block *)

(** A write leaves a byte alone. *)
Definition misses (p : Z) (w : Z * list Z) : Prop := p < w.1 \/ w.1 + zlen w.2 <= p.

Lemma misses_outside p w e f : inside (write_ext w) e -> disj e f -> f.1 <= p < f.1 + f.2 -> misses p w.
Proof. unfold inside, disj, misses, write_ext. cbn. lia. Qed.

Lemma block_writes_miss bs off i b p : Forall (fun b => zlen (block_bytes b) <= EROFS_BLOCK_SIZE) bs -> bs !! i = Some b ->
  zlen (block_bytes b) <= p - (off + EROFS_BLOCK_SIZE * Z.of_nat i) < EROFS_BLOCK_SIZE -> Forall (misses p) (block_writes off bs).
Proof.
  intros Hbs Hb Hp. apply Forall_lookup. intros j w Hw. destruct (lookup_lt_is_Some_2 bs j) as [c Hc]. { rewrite <- (length_block_writes bs off). by eapply lookup_lt_Some. }
  rewrite (block_writes_lookup _ _ _ _ Hc) in Hw. injection Hw as <-. pose proof (Forall_lookup_1 _ _ _ _ Hbs Hc) as Hl. pose proof (zlen_nonneg (block_bytes b)). unfold misses, EROFS_BLOCK_SIZE in *. cbn [fst snd] in *.
  destruct (decide (j = i)) as [->|Hne]; [|lia]. rewrite Hb in Hc. injection Hc as <-. lia.
Qed.

(** The place of a block of a directory in its data extent. *)
Definition in_pad (n : V6Node) (i : nat) (b : list entry) (p : Z) : Prop :=
  zlen (block_bytes b) <= p - (v6_dirents_offset n + EROFS_BLOCK_SIZE * Z.of_nat i) < EROFS_BLOCK_SIZE.

Lemma dir_data_extent d n : v6_dumpable d n -> v5i_is_dir (v6_inode n) = true -> let n' := shifted meta_offset n in let r := dir_pack meta_addr meta_offset n' in
  exists len, v6_extents d None n' = [(v6_offset n', if inlined (v6_size n) d then v6_size n + used_by r.2 else v6_size n); (v6_dirents_offset n', len)] /\ EROFS_BLOCK_SIZE * zlen r.1 <= len.
Proof.
  intros (Hok & _ & Hco) Kd n' r. destruct (kinds _ (or_introl Kd)) as [Kr Kx]. destruct (co_dir _ _ _ _ Hco Kd) as (C1 & C2 & _). fold n' in C1, C2. fold r in C1, C2.
  assert (d mod EROFS_BLOCK_SIZE = used_by r.2) as Hm. { rewrite C1. unfold packed_size, EROFS_BLOCK_SIZE. rewrite Z.add_comm, Z.mul_comm, Z_mod_plus_full. apply Z.mod_small. pose proof (used_by_nonneg r.2). unfold EROFS_BLOCK_SIZE in C2. lia. }
  unfold v6_extents. cbv zeta. change (v6_inode n') with (v6_inode n). change (v6_size n') with (v6_size n). rewrite Kr, Kx. unfold v6_data_size, tail_extents. change (v6_inode n') with (v6_inode n). rewrite Kd. cbv zeta. rewrite Hm.
  pose proof (used_by_nonneg r.2). unfold packed_size, EROFS_BLOCK_SIZE in C1. destruct (inlined (v6_size n) d); eexists; (split; [done|]); unfold EROFS_BLOCK_SIZE; [lia|]. destruct (up_bounds 12 d); lia.
Qed.

Lemma own_pad d n i b p : v6_dumpable d n -> v5i_is_dir (v6_inode n) = true -> apart (v6_extents d None n) -> let n' := shifted meta_offset n in let r := dir_pack meta_addr meta_offset n' in
  r.1 !! i = Some b -> in_pad n' i b p -> Forall (misses p) (node_writes (2 ^ k) meta_addr meta_offset n').
Proof.
  intros Hdn Kd Hap n' r Hb Hp. pose proof (dir_data_extent d n Hdn Kd) as (len & He & Hlen). fold n' in He, Hlen. fold r in He, Hlen. pose proof Hdn as (Hok & Hwp & Hco).
  apply (apart_shift meta_offset) in Hap. rewrite <- v6_extents_shifted in Hap. fold n' in Hap. rewrite He in Hap. destruct Hap as [[Hdj _]%Forall_cons _].
  destruct (dir_pack_shape _ _ _ (no_dir _ _ _ _ _ Hok Kd)) as [_ Hbs]. fold n' in Hbs. fold r in Hbs. apply Forall_app in Hbs as [Hfull [Hlast _]%Forall_cons].
  assert (Forall (fun b => zlen (block_bytes b) <= EROFS_BLOCK_SIZE) r.1) as Hsm by (eapply Forall_impl; [exact Hfull|]; intros c (_ & _ & Hc); done).
  pose proof (lookup_lt_Some _ _ _ Hb) as Hi. pose proof (zlen_nonneg (block_bytes b)). pose proof Hp as Hp'. unfold in_pad, EROFS_BLOCK_SIZE in Hp, Hlen. unfold zlen at 1 in Hlen.
  unfold node_writes. change (v6_inode n') with (v6_inode n). rewrite Kd. fold r. unfold dir_writes. rewrite !Forall_app. split; [|split; [by apply (block_writes_miss _ _ i b)|]].
  - destruct (inode_writes_inside n' (2 ^ k)) as (I1 & _ & _). eapply Forall_impl; [exact I1|]. intros w Hw. eapply misses_outside; [|exact Hdj|cbn [fst snd]; lia].
    eapply inside_trans; [exact Hw|]. unfold inside. cbn [fst snd]. change (v6_size n') with (v6_size n). pose proof (used_by_nonneg r.2). destruct (inlined _ _); lia.
  - constructor; [|done]. destruct (kinds _ (or_introl Kd)) as [Kr Kx]. unfold well_placed in Hwp. rewrite Kr, Kx in Hwp. unfold v6_data_size in Hwp. rewrite Kd in Hwp.
    destruct (tail_placed_shifted meta_offset _ _ n Hmo Kx Hwp) as [_ Ht]. fold n' in Ht. unfold tail_off. destruct (inlined (v6_size n) d).
    + destruct Ht as (-> & _). change (EROFS_INODE_FLAT_INLINE =? EROFS_INODE_FLAT_INLINE) with true. cbv iota. eapply misses_outside; [|exact Hdj|cbn [fst snd]; lia].
      unfold inside, write_ext. cbn [fst snd]. rewrite zlen_block_used. change (v6_size n') with (v6_size n). destruct (v6_size_run d n (no_placeable _ _ _ _ _ Hok)) as (_ & Hsz & _). lia.
    + destruct Ht as [-> _]. change (EROFS_INODE_FLAT_PLAIN =? EROFS_INODE_FLAT_INLINE) with false. cbv iota. left. cbn [fst snd]. unfold EROFS_BLOCK_SIZE, zlen. lia.
Qed.

Lemma apart_concat (L : list (list (Z * Z))) i j a b x y : apart (concat L) -> L !! i = Some a -> L !! j = Some b -> i <> j -> x ∈ a -> y ∈ b -> disj x y.
Proof.
  revert i j. induction L as [|c L IH]; intros i j Ha Hi Hj Hne Hx Hy; [done|]. cbn [concat] in Ha. apply apart_app in Ha as (_ & HL & Hd).
  assert (forall k c y, L !! k = Some c -> y ∈ c -> y ∈ concat L) as Hin. { intros k' c' y' Hk' Hy'. apply list_elem_of_In, in_concat. exists c'. split; [apply list_elem_of_In; by eapply list_elem_of_lookup_2|by apply list_elem_of_In]. }
  destruct i as [|i], j as [|j]; cbn in Hi, Hj; [done| | |].
  - injection Hi as ->. apply Hd; [done|by eapply Hin].
  - injection Hj as ->. symmetry. apply Hd; [done|by eapply Hin].
  - eapply (IH i j); [done|done|done|lia|done|done].
Qed.

Lemma image_pad ds ns j d n i b p : Forall2 v6_dumpable ds ns -> apart (image_extents ds ns) -> ds !! j = Some d -> ns !! j = Some n -> v5i_is_dir (v6_inode n) = true ->
  let n' := shifted meta_offset n in (dir_pack meta_addr meta_offset n').1 !! i = Some b -> in_pad n' i b p -> Forall (misses p) (image_writes ns).
Proof.
  intros Hns Ha Hd Hn Kd n' Hb Hp. pose proof (Forall2_lookup_lr _ _ _ _ _ _ Hns Hd Hn) as Hdn. apply Forall_forall. intros w Hw. unfold image_writes in Hw.
  apply list_elem_of_In, in_concat in Hw as (ws & Hws & Hw). apply list_elem_of_In in Hws, Hw. apply list_elem_of_fmap in Hws as (m' & -> & Hm). apply list_elem_of_fmap in Hm as (n2 & -> & Hn2). apply list_elem_of_lookup in Hn2 as [j2 Hn2].
  destruct (lookup_lt_is_Some_2 ds j2) as [d2 Hd2]. { rewrite (Forall2_length _ _ _ Hns). by eapply lookup_lt_Some. } pose proof (Forall2_lookup_lr _ _ _ _ _ _ Hns Hd2 Hn2) as Hdn2.
  assert (forall j d n, ds !! j = Some d -> ns !! j = Some n -> zip_with (fun d n => v6_extents d None n) ds ns !! j = Some (v6_extents d None n)) as Hz.
  { intros j' d' n0 Hd' Hn'. rewrite lookup_zip_with, Hd'. cbn. by rewrite Hn'. }
  assert (forall j d n, ds !! j = Some d -> ns !! j = Some n -> apart (v6_extents d None n)) as Hone.
  { intros j' d' n0 Hd' Hn'. specialize (Hz _ _ _ Hd' Hn'). unfold image_extents in Ha. rewrite (blocks_split _ _ _ Hz) in Ha. by apply apart_app in Ha as (_ & (Ha & _)%apart_app & _). }
  destruct (decide (j2 = j)) as [->|Hne].
  - rewrite Hn in Hn2. injection Hn2 as <-. pose proof (own_pad d n i b p Hdn Kd (Hone _ _ _ Hd Hn) Hb Hp) as Hf. rewrite Forall_forall in Hf. by apply Hf.
  - destruct (v6_node_fit k meta_addr meta_offset d2 n2 (proj1 Hdn2) (proj1 (proj2 Hdn2)) (proj2 (proj2 Hdn2)) Hmo) as [F1 _]. { rewrite v6_extents_shifted. apply apart_shift. by eapply Hone. }
    rewrite Forall_forall in F1. destruct (F1 w Hw) as (e & He & Hi). rewrite v6_extents_shifted in He. apply list_elem_of_fmap in He as (e0 & -> & He0).
    destruct (dir_data_extent d n Hdn Kd) as (len & Hex & Hlen). rewrite v6_extents_shifted in Hex. fold n' in Hex, Hlen.
    assert ((v6_dirents_offset n', len) ∈ shift_ext meta_offset <$> v6_extents d None n) as Hdx by (rewrite Hex; right; left). apply list_elem_of_fmap in Hdx as (f & Hf & Hdx).
    assert (disj e0 f) as Hdj by (exact (apart_concat _ _ _ _ _ _ _ Ha (Hz _ _ _ Hd2 Hn2) (Hz _ _ _ Hd Hn) Hne He0 Hdx)).
    pose proof (lookup_lt_Some _ _ _ Hb). unfold in_pad, EROFS_BLOCK_SIZE in Hp, Hlen. unfold zlen at 1 in Hlen. pose proof (zlen_nonneg (block_bytes b)).
    apply (misses_outside p w _ (v6_dirents_offset n', len) Hi); [|cbn [fst snd]; lia]. rewrite Hf. unfold disj, shift_ext in *. cbn [fst snd] in *. lia.
Qed.
End image.
