(* ===== verification/V6Trip.v ===== *)
(** A RAFS v6 image from the tree of the builder to the file system tree of a mapped bootstrap.

    Nodes are placed ([V6Layout]), directories get their entries ([V6Update]), the nodes are dumped
    ([V6Dump]), and the file is mapped and read ([DirectV6]). The theorem is that every path of the
    tree leads to an inode with the attributes, extended attributes, entries, target and chunk
    addresses of the node at that path. *)
From stdpp Require Import sorting.
From S2P Require Import Prelude Utils LittleEndian ChunkInfo Device RafsLayout RafsV5 RafsBlobTable RafsV5Inode CachedInode CachedDir Overlay Builder RafsV6Inode DirectV6 RafsV6Xattr V6Layout V6Dump V6Update V6Image.

(** ** What is built *)

(** A node before it is placed; [d] is the size of its entries if it is a directory. *)
Record v6_input (k d : Z) (n : V6Node) : Prop := mkV6Input {
  vi_placeable : placeable d n;
  vi_wf : v5i_wf (v6_inode (sized d n));
  vi_ino : v5i_ino (v6_inode n) < 2 ^ 31;
  vi_mode : in_range 16 (v5i_mode (v6_inode n));
  vi_compact : v6_compact_inode n = true -> compact_fits (v6_inode (sized d n));
  vi_xattrs : xattr_count n < 2 ^ 16;
  vi_fresh : v6_datalayout n = EROFS_INODE_FLAT_PLAIN /\ v6_dirents n = [] /\ v6_dirents_offset n = 0;
  vi_size : v5i_size (v6_inode (sized d n)) < 2 ^ 63;
  vi_inline : v5i_is_dir (v6_inode n) || v5i_is_symlink (v6_inode n) = true -> inlined (v6_size n) (v6_data_size d n) = true -> v6_size n mod 8 = 0;
  vi_file : v5i_is_reg (v6_inode n) = true -> Forall chunk_ok (n_chunks (v6_node n)) /\ zlen (n_chunks (v6_node n)) = v5i_child_count (v6_inode n) /\
    v5i_child_count (v6_inode n) = (v5i_size (v6_inode n) + 2 ^ k - 1) / 2 ^ k /\ v5i_child_count (v6_inode n) < 2 ^ 32;
  vi_symlink : v5i_is_symlink (v6_inode n) = true -> exists t, n_symlink (v6_node n) = Some t /\ zlen t = v5i_size (v6_inode n) /\ 0 < zlen t < EROFS_BLOCK_SIZE
}.

(** The subtrees of a tree that have a path. *)
Fixpoint vt_all (t : V6Tree) : list V6Tree :=
  t :: if v6_is_dir (vt_node t) then (fix go (l : list V6Tree) : list V6Tree := match l with [] => [] | c :: l => vt_all c ++ go l end) (vt_children t) else [].

(** The node of a subtree is the one in the array, at the same place. *)
Definition tree_node (ns : list V6Node) (t : V6Tree) : Prop :=
  1 <= vt_index t /\ exists n, ns !! Z.to_nat (vt_index t - 1) = Some n /\ v6_offset n = v6_offset (vt_node t) /\ v6_is_dir n = v6_is_dir (vt_node t).

(** A name of a directory entry that sorts behind the entries of the directory and its parent. *)
Definition entry_name_ok (name : list Z) : Prop :=
  name_cmp DOTDOT name = Lt /\ Forall (fun b => b <> 0) name /\ zlen name + 12 <= EROFS_BLOCK_SIZE.

Section build.
Context `{Profile}.

Definition vt_names (t : V6Tree) : list (list Z) := (fun c => v6_name (vt_node c)) <$> vt_children t.

(** A directory: it was placed with the size of its entries, which do not end with a block. *)
Definition tree_dir (l : list (Z * option Z * V6Node)) (x : V6Tree * Z) : Prop :=
  exists d n, l !! dir_index x = Some (d, None, n) /\ v6_is_dir n = true /\ v6_dir_d_size n (vt_names x.1) = Ok d /\ d mod EROFS_BLOCK_SIZE <> 0 /\
    StronglySorted (fun a b => name_cmp a b = Lt) (vt_names x.1) /\ Forall entry_name_ok (vt_names x.1) /\ zlen (vt_children x.1) < 2 ^ 31.

Record v6_build (k meta_addr : Z) (l : list (Z * option Z * V6Node)) (ns : list V6Node) (T : V6Tree) : Prop := mkV6Build {
  vb_nodes : Forall (fun x => x.1.2 = None /\ v6_input k x.1.1 x.2) l;
  vb_room : 3 * EROFS_BLOCK_SIZE + all_cost l + meta_addr < 2 ^ 44;
  vb_tree : Forall (tree_node ns) (vt_all T);
  vb_dirs : Forall (tree_dir l) (vt_dirs T EROFS_BLOCK_SIZE);
  vb_unique : NoDup (dir_index <$> vt_dirs T EROFS_BLOCK_SIZE);
  vb_complete : forall i x, l !! i = Some x -> v6_is_dir x.2 = true -> i ∈ dir_index <$> vt_dirs T EROFS_BLOCK_SIZE;
  vb_root : vt_index T = 1 /\ v6_is_dir (vt_node T) = true
}.

End build.

(** ** Trees *)

Lemma vt_all_eq t : vt_all t = t :: if v6_is_dir (vt_node t) then concat (vt_all <$> vt_children t) else [].
Proof. destruct t as [n cs]. cbn [vt_all vt_node vt_children]. f_equal. destruct (v6_is_dir n); [|done]. induction cs as [|c cs IH]; [done|]. rewrite fmap_cons. cbn [concat]. by rewrite IH. Qed.

Lemma vt_all_below t : forall x c, x ∈ vt_all t -> v6_is_dir (vt_node x) = true -> c ∈ vt_children x -> c ∈ vt_all t.
Proof.
  induction t as [n cs IH] using V6Tree_tree_ind. intros x c. rewrite vt_all_eq. cbn [vt_node vt_children]. intros [->|Hx]%elem_of_cons Hd Hc; right.
  - cbn [vt_node vt_children] in *. rewrite Hd. apply list_elem_of_In, in_concat. exists (vt_all c). split; [by apply list_elem_of_In, list_elem_of_fmap_2|]. apply list_elem_of_In. rewrite vt_all_eq. left.
  - destruct (v6_is_dir n); [|by apply elem_of_nil in Hx]. apply list_elem_of_In, in_concat in Hx as (L & HL & Hx). apply list_elem_of_In in HL, Hx. apply list_elem_of_fmap in HL as (y & -> & Hy).
    apply list_elem_of_In, in_concat. exists (vt_all y). split; [by apply list_elem_of_In, list_elem_of_fmap_2|]. apply list_elem_of_In. rewrite Forall_forall in IH. by eapply IH.
Qed.

Lemma v6_at_all T po names t q : v6_at T po names t q -> t ∈ vt_all T.
Proof. induction 1 as [|names d q c Hat IH Hd Hc]; [rewrite vt_all_eq; left|]. by eapply vt_all_below. Qed.

(** The entries of a directory are directories with a path, or the parent of one. *)
Lemma vt_dirs_all t : forall po x, v6_is_dir (vt_node t) = true -> x ∈ vt_dirs t po -> x.1 ∈ vt_all t /\ v6_is_dir (vt_node x.1) = true /\
  (x.2 = po \/ exists p, p ∈ vt_all t /\ x.2 = v6_offset (vt_node p)).
Proof.
  induction t as [n cs IH] using V6Tree_tree_ind. intros po x Hd. rewrite vt_dirs_eq, vt_all_eq. cbn [vt_node vt_children] in *. rewrite Hd. intros [->|Hx]%elem_of_cons; [cbn [fst snd]; split_and!; [left|done|by left]|].
  assert (exists c, c ∈ cs /\ v6_is_dir (vt_node c) = true /\ x ∈ vt_dirs c (v6_offset n)) as (c & Hc & Hcd & Hxc).
  { clear IH. induction cs as [|c cs IH]; [by apply elem_of_nil in Hx|]. cbn [sub_dirs] in Hx. apply elem_of_app in Hx as [Hx|Hx].
    - destruct (v6_is_dir (vt_node c)) eqn:E; [|by apply elem_of_nil in Hx]. exists c. split_and!; [left|done|done].
    - destruct (IH Hx) as (c' & ? & ?). exists c'. split; [by right|done]. }
  rewrite Forall_forall in IH. destruct (IH c Hc (v6_offset n) x Hcd Hxc) as (H1 & H2 & H3).
  assert (forall y, y ∈ vt_all c -> y ∈ mkV6Tree n cs :: concat (vt_all <$> cs)) as Hsub.
  { intros y Hy. right. apply list_elem_of_In, in_concat. exists (vt_all c). split; [by apply list_elem_of_In, list_elem_of_fmap_2|by apply list_elem_of_In]. }
  split_and!; [by apply Hsub|done|]. right. destruct H3 as [->|(p & Hp & ->)]; [|exists p; split; [by apply Hsub|done]]. exists (mkV6Tree n cs). split; [left|done].
Qed.

(** Sorting what is sorted. *)
Lemma sort_by_key_id {A} (key : A -> list Z) l : StronglySorted (fun x y => name_cmp (key x) (key y) = Lt) l -> sort_by_key key l = l.
Proof.
  induction 1 as [|a l Hs IH Hf]; [done|]. unfold sort_by_key in *. cbn [foldr]. rewrite IH. destruct l as [|b l]; [done|]. cbn [insert_by_key]. apply Forall_cons in Hf as [-> _]. done.
Qed.

(** ** Placed nodes can be dumped *)

Section dumpable.
Context `{Profile} {k meta_addr : Z}.

Lemma sized_kind d n : v5i_is_dir (v6_inode (sized d n)) = v5i_is_dir (v6_inode n) /\ v5i_is_reg (v6_inode (sized d n)) = v5i_is_reg (v6_inode n) /\
  v5i_is_symlink (v6_inode (sized d n)) = v5i_is_symlink (v6_inode n) /\ v5i_mode (v6_inode (sized d n)) = v5i_mode (v6_inode n) /\ v5i_ino (v6_inode (sized d n)) = v5i_ino (v6_inode n) /\
  v5i_child_count (v6_inode (sized d n)) = v5i_child_count (v6_inode n) /\ v6_pairs (sized d n) = v6_pairs n /\ v6_compact_inode (sized d n) = v6_compact_inode n /\
  n_chunks (v6_node (sized d n)) = n_chunks (v6_node n) /\ n_symlink (v6_node (sized d n)) = n_symlink (v6_node n).
Proof. unfold sized. destruct (v5i_is_dir (v6_inode n)) eqn:E; [|done]. split_and!; done. Qed.

(** A placed node, with its entries if it is a directory. *)
Record placed_node (lim d : Z) (n0 n : V6Node) : Prop := mkPlacedNode {
  pn_input : v6_input k d n0;
  pn_from : placed_from d n0 n;
  pn_placed : well_placed d None n;
  pn_bounds : Forall (fun e => EROFS_BLOCK_SIZE <= e.1 /\ e.1 + e.2 <= lim) (v6_extents d None n);
  pn_lim : lim + meta_addr + 2 * EROFS_BLOCK_SIZE < 2 ^ 44;
  pn_meta : 0 <= meta_addr
}.

Lemma placed_same lim d n0 n : placed_node lim d n0 n -> v6_inode n = v6_inode (sized d n0) /\ v6_pairs n = v6_pairs n0 /\ v6_size n = v6_size n0 /\ xattr_count n = xattr_count n0 /\ placeable d n /\
  v6_data_size d n = v6_data_size d n0.
Proof.
  intros [Hi (F1 & F2 & _) _ _ _ _]. destruct (sized_kind d n0) as (S1 & S2 & S3 & S4 & S5 & S6 & S7 & S8 & _). assert (v6_inode n = v6_inode (sized d n0)) as E1 by (unfold v6_inode; by rewrite F1).
  assert (v6_pairs n = v6_pairs n0) as E2 by (rewrite <- S7; unfold v6_pairs; by rewrite F1). destruct (vi_placeable _ _ _ Hi) as (P1 & P2 & P3 & P4 & P5).
  split_and!; [done|done|unfold v6_size; by rewrite E2, F2|unfold xattr_count; by rewrite E2| |].
  - unfold placeable. rewrite E2, E1, S6. split_and!; try done. unfold sized. destruct (v5i_is_dir (v6_inode n0)); done.
  - unfold v6_data_size. rewrite E1, S1. unfold sized. destruct (v5i_is_dir (v6_inode n0)) eqn:E; [done|]. done.
Qed.

(** Where it is. *)
Lemma placed_offsets lim d n0 n : placed_node lim d n0 n -> EROFS_BLOCK_SIZE <= v6_offset n /\ v6_offset n + 32 <= lim /\ v6_offset n mod 32 = 0 /\ layout_ok (v6_datalayout n) /\ 0 <= v6_dirents_offset n /\
  (v5i_is_dir (v6_inode n) || v5i_is_symlink (v6_inode n) = true -> v6_dirents_offset n + v6_data_size d n <= lim + EROFS_BLOCK_SIZE /\
    v6_datalayout n = (if inlined (v6_size n) (v6_data_size d n) then EROFS_INODE_FLAT_INLINE else EROFS_INODE_FLAT_PLAIN)) /\
  (v5i_is_dir (v6_inode n) || v5i_is_symlink (v6_inode n) = false -> v6_dirents_offset n = 0).
Proof.
  intros Hp. destruct (placed_same _ _ _ _ Hp) as (E1 & E2 & E3 & E4 & E5 & E6). destruct Hp as [Hi (F1 & F2 & F3 & F4) Hw Hbd _ _]. destruct (v6_size_run d n E5) as (_ & Hsz & _). destruct (vi_fresh _ _ _ Hi) as (V1 & V2 & V3).
  destruct (sized_kind d n0) as (S1 & S2 & S3 & _). unfold well_placed, v6_extents in *. cbv zeta in *. rewrite E1, S1, S2, S3 in *. pose proof E5 as (_ & _ & P3 & P4 & P5).
  destruct (v5i_is_reg (v6_inode n0)) eqn:Kr.
  - assert (v5i_is_dir (v6_inode n0) || v5i_is_symlink (v6_inode n0) = false) as Kx.
    { destruct (_ || _) eqn:E; [|done]. apply orb_true_iff in E. destruct (kinds _ E) as [E' _]. congruence. }
    destruct Hw as [Hl Hm]. destruct (F4 Kx) as [Hdo _]. apply Forall_cons in Hbd as [[B1 B2] _]. cbn [fst snd] in *. destruct (up_bounds 3 (v6_size n)) as [U _]; [lia|].
    rewrite Kx, Hdo, V3, Hl. split_and!; [done| |done|right; by right|lia|done|done]. rewrite E1 in P5. lia.
  - destruct (v5i_is_dir (v6_inode n0) || v5i_is_symlink (v6_inode n0)) eqn:Kx.
    + destruct Hw as [Hm Ht]. set (ds := v6_data_size d n) in *. assert (0 <= ds) as Hds by (unfold ds, v6_data_size; destruct (v5i_is_dir (v6_inode n)); lia).
      pose proof (Z.mod_pos_bound ds EROFS_BLOCK_SIZE ltac:(done)) as Hmb. unfold tail_extents in Hbd. cbv zeta in Hbd. destruct (inlined (v6_size n) ds).
      * destruct Ht as (Hl & _ & _). apply Forall_cons in Hbd as [[B1 B2] [[B3 B4] _]%Forall_cons]. cbn [fst snd] in *. rewrite Hl. unfold EROFS_BLOCK_SIZE in *. split_and!; [lia|lia|done|right; by left|lia|split; [lia|done]|done].
      * destruct Ht as [Hl _]. apply Forall_cons in Hbd as [[B1 B2] [[B3 B4] _]%Forall_cons]. cbn [fst snd] in *. rewrite Hl. destruct (up_bounds 12 ds) as [U _]; [lia|]. unfold EROFS_BLOCK_SIZE in *. split_and!; [lia|lia|done|by left|lia|split; [lia|done]|done].
    + destruct (F4 eq_refl) as [Hdo Hl]. apply Forall_cons in Hbd as [[B1 B2] _]. cbn [fst snd] in *. rewrite Hdo, V3, (Hl eq_refl), V1. split_and!; [done|lia|done|by left|lia|done|done].
Qed.

(** The entries of a directory: itself, its parent, its children. *)
Definition dirents_for (offset parent_offset : Z) (t : V6Tree) : list (Z * list Z * Z) :=
  (offset, DOT, S_IFDIR) :: (parent_offset, DOTDOT, S_IFDIR) :: (child_dirent <$> vt_children t).

Lemma push_dirents_fresh q t n : v6_dirents n = [] -> StronglySorted (fun a b => name_cmp a b = Lt) (vt_names t) -> Forall entry_name_ok (vt_names t) ->
  push_dirents q (vt_children t) n = with_dirents (dirents_for (v6_offset n) q t) n /\ StronglySorted (fun x y : Z * list Z * Z => name_cmp x.1.2 y.1.2 = Lt) (dirents_for (v6_offset n) q t).
Proof.
  intros Hd Hs Hn. unfold push_dirents. rewrite Hd. cbn [app]. change ((v6_offset n, DOT, S_IFDIR) :: (q, DOTDOT, S_IFDIR) :: (child_dirent <$> vt_children t)) with (dirents_for (v6_offset n) q t).
  assert (StronglySorted (fun x y : Z * list Z * Z => name_cmp x.1.2 y.1.2 = Lt) (dirents_for (v6_offset n) q t)) as Hss.
  { unfold dirents_for, vt_names in *. assert (Forall (fun y : Z * list Z * Z => name_cmp DOTDOT y.1.2 = Lt) (child_dirent <$> vt_children t)) as Hf.
    { apply Forall_fmap. rewrite Forall_fmap in Hn. eapply Forall_impl; [exact Hn|]. intros c (Hc & _). exact Hc. }
    constructor; [constructor|].
    - clear Hn Hf. induction (vt_children t) as [|c cs IH]; [constructor|]. rewrite fmap_cons in *. apply StronglySorted_inv in Hs as [Hs Hc]. constructor; [by apply IH|]. apply Forall_fmap. exact (proj1 (Forall_fmap (fun c => v6_name (vt_node c)) _ cs) Hc).
    - exact Hf.
    - constructor; [done|]. eapply Forall_impl; [exact Hf|]. cbn [fst snd]. intros y Hy. by apply (name_cmp_trans _ DOTDOT). }
  split; [|done]. by rewrite sort_by_key_id.
Qed.

Lemma file_type_range mode : in_range 8 (file_type mode).
Proof. unfold file_type, in_range. repeat destruct (mode_is _ _); lia. Qed.

Section entries.
Context {offset q d : Z} {t : V6Tree} {n0 : V6Node}.
Notation es := (entry_of meta_addr meta_addr <$> dirents_for offset q t).
Context (Ho : 0 <= offset < 2 ^ 44) (Hq : 0 <= q < 2 ^ 44) (Hc : Forall (fun c => 0 <= v6_offset (vt_node c) < 2 ^ 44) (vt_children t))
  (Hnames : Forall entry_name_ok (vt_names t)) (Hlen : zlen (vt_children t) < 2 ^ 31).

Lemma entries_bounds : Forall (fun x : Z * list Z * Z => 0 <= x.1.1 < 2 ^ 44) (dirents_for offset q t).
Proof. unfold dirents_for. constructor; [done|]. constructor; [done|]. by apply Forall_fmap. Qed.

Lemma entries_wf : Forall entry_wf es /\ Forall small_name es.
Proof.
  assert (forall x : Z * list Z * Z, 0 <= x.1.1 < 2 ^ 44 -> x.1.2 <> [] -> Forall (fun b => b <> 0) x.1.2 -> entry_wf (entry_of meta_addr meta_addr x)) as Hwf.
  { intros x Hx Hne Hz. unfold entry_wf, entry_of. cbn [en_nid en_type en_name]. split_and!; [|apply file_type_range|done|done]. replace (x.1.1 + meta_addr - meta_addr) with x.1.1 by lia.
    rewrite Z.shiftr_div_pow2 by done. change (2 ^ EROFS_INODE_SLOT_BITS) with 32. unfold in_range. pose proof (Z.div_pos x.1.1 32). pose proof (Z.div_le_upper_bound x.1.1 32 x.1.1). lia. }
  pose proof entries_bounds as Hb. unfold dirents_for in *. rewrite !fmap_cons in *. apply Forall_cons in Hb as [B1 [B2 B3]%Forall_cons]. pose proof Hnames as HN. unfold vt_names in HN. rewrite Forall_fmap in HN. rewrite Forall_fmap in B3. split.
  - constructor; [apply Hwf; [done|done|by repeat constructor]|]. constructor; [apply Hwf; [done|done|by repeat constructor]|]. rewrite <- list_fmap_compose. apply Forall_fmap. rewrite Forall_forall in B3, HN |- *. intros c Hin.
    destruct (HN c Hin) as (N1 & N2 & N3). apply Hwf; [exact (B3 c Hin)| |done]. intros E. cbn [child_dirent fst snd] in E. unfold compose in N1. by rewrite E in N1.
  - constructor; [done|]. constructor; [done|]. rewrite <- list_fmap_compose. apply Forall_fmap. eapply Forall_impl; [exact HN|]. intros c (_ & _ & N3). exact N3.
Qed.

(** The size the directory was placed with is the size of the packed entries. *)
Lemma entries_size : v6_is_dir n0 = true -> v6_dir_d_size n0 (vt_names t) = Ok d -> d mod EROFS_BLOCK_SIZE <> 0 ->
  d = packed_size (pack es []) /\ used_by (pack es []).2 < EROFS_BLOCK_SIZE.
Proof.
  intros Hd Hsz Hm. unfold v6_dir_d_size, v6_is_dir in *. rewrite Hd in Hsz. cbn [negb] in Hsz. destruct entries_wf as [Hwf Hsm]. set (cs := entry_of meta_addr meta_addr <$> (child_dirent <$> vt_children t)) in *.
  set (e1 := entry_of meta_addr meta_addr (offset, DOT, S_IFDIR)). set (e2 := entry_of meta_addr meta_addr (q, DOTDOT, S_IFDIR)). assert (pack es [] = pack cs [e1; e2]) as -> by done. change (e1 :: e2 :: cs) with es in *.
  assert (Forall small_name cs) as Hsc by (unfold dirents_for in Hsm; rewrite !fmap_cons in Hsm; by apply Forall_cons in Hsm as [_ [_ Hsm]%Forall_cons]).
  assert (zlen cs = zlen (vt_children t)) as Hzc by (unfold zlen, cs; by rewrite !length_fmap). pose proof (zlen_nonneg cs).
  pose proof (add_name_sizes_pack cs [e1; e2] 0 Hsc ltac:(done) ltac:(done) ltac:(lia) ltac:(unfold EROFS_BLOCK_SIZE; lia)) as Hp. change (4096 * 0 + used_by [e1; e2]) with 27 in Hp.
  assert (en_name <$> cs = vt_names t) as En by (unfold cs, vt_names; rewrite <- !list_fmap_compose; done). rewrite En in Hp. change (1 + 12 + 2 + 12) with 27 in Hsz. rewrite Hp in Hsz. injection Hsz as <-. split; [lia|].
  pose proof (pack_ok cs [e1; e2] Hwf Hsc ltac:(done) ltac:(done)) as Hok. apply Forall_app in Hok as [_ [(_ & _ & Hl) _]%Forall_cons]. rewrite zlen_block_used in Hl.
  destruct (decide (used_by (pack cs [e1; e2]).2 = EROFS_BLOCK_SIZE)) as [E|E]; [|unfold EROFS_BLOCK_SIZE in *; lia]. exfalso. apply Hm. unfold packed_size. rewrite E. unfold EROFS_BLOCK_SIZE.
  replace (4096 * 0 + (4096 * zlen (pack cs [e1; e2]).1 + 4096)) with ((zlen (pack cs [e1; e2]).1 + 1) * 4096) by lia. by rewrite Z.mod_mul.
Qed.
End entries.

Lemma dumpable_from lim d n0 n D : placed_node lim d n0 n -> let n' := with_dirents D n in
  (v5i_is_dir (v6_inode n) = true -> dirents_ok meta_addr meta_addr (shifted meta_addr n') /\
     d = packed_size (pack (entry_of meta_addr meta_addr <$> D) []) /\ used_by (pack (entry_of meta_addr meta_addr <$> D) []).2 < EROFS_BLOCK_SIZE) ->
  v6_dumpable (k:=k) (meta_addr:=meta_addr) (meta_offset:=meta_addr) d n' /\ inline_aligned n'.
Proof.
  intros Hp n' Hdir. destruct (placed_same _ _ _ _ Hp) as (E1 & E2 & E3 & E4 & E5 & E6). destruct (placed_offsets _ _ _ _ Hp) as (O1 & O2 & O3 & O4 & O5 & O6 & O7). pose proof Hp as [Hi (F1 & F2 & F3 & F4) Hw Hbd Hlim Hm0].
  destruct (sized_kind d n0) as (S1 & S2 & S3 & S4 & S5 & S6 & S7 & S8 & S9 & S10). destruct Hi as [_ V2 V3 V4 V5 V6 _ V8 V9 V10 V11]. unfold EROFS_BLOCK_SIZE in O1, Hlim, O6.
  assert (v6_dirents_offset n + meta_addr < 2 ^ 44 /\ (v5i_is_dir (v6_inode n) || v5i_is_symlink (v6_inode n) = true -> v6_dirents_offset n + meta_addr + v6_data_size d n + 4096 < 2 ^ 44)) as [Hdb Hdb'].
  { assert (0 <= v6_data_size d n) by (unfold v6_data_size; destruct E5 as (_ & _ & ? & ? & _); destruct (v5i_is_dir (v6_inode n)); lia).
    destruct (v5i_is_dir (v6_inode n) || v5i_is_symlink (v6_inode n)); [destruct (O6 eq_refl)|rewrite (O7 eq_refl)]; split; [lia|lia|lia|done]. }
  assert (n_chunks (v6_node n) = n_chunks (v6_node n0) /\ n_symlink (v6_node n) = n_symlink (v6_node n0)) as [Ech Esl] by (by rewrite F1, S9, S10).
  split; [split_and!|].
  - constructor; change (v6_inode n') with (v6_inode n); change (v6_node n') with (v6_node n); change (v6_offset n') with (v6_offset n); change (v6_dirents_offset n') with (v6_dirents_offset n); change (v6_datalayout n') with (v6_datalayout n).
    + exact E5.
    + by rewrite E1.
    + by rewrite E1, S5.
    + by rewrite E1, S4.
    + change (v6_compact_inode n') with (v6_compact_inode n). rewrite E1, F2. exact V5.
    + change (xattr_count n') with (xattr_count n). by rewrite E4.
    + done.
    + intros Hk. destruct (O6 Hk) as [_ ->]. destruct (inlined _ _); auto.
    + split_and!; [lia|done|lia].
    + lia.
    + intros Hk. by apply Hdir.
    + rewrite E1, S2, Ech. intros Hk. by apply V10.
  - exact Hw.
  - constructor; change (v6_inode n') with (v6_inode n); change (v6_node n') with (v6_node n); change (v6_dirents_offset n') with (v6_dirents_offset n).
    + intros Hk r. destruct (Hdir Hk) as (_ & D1 & D2). change r with (pack (entry_of meta_addr meta_addr <$> D) []). specialize (Hdb' ltac:(by rewrite Hk)). unfold v6_data_size in Hdb'. rewrite Hk in Hdb'. unfold EROFS_BLOCK_SIZE at 2.
      split_and!; [done|done|rewrite E1; unfold sized; by rewrite <- S1, <- E1, Hk|lia].
    + rewrite E1, S3, Esl. intros Hk. destruct (V11 Hk) as (t & T1 & T2 & T3). exists t. split_and!; [done| |by apply T3|by apply T3|lia]. rewrite T2. unfold sized. destruct (mode_link_not _ Hk) as [_ ->]. done.
    + rewrite E1, S2, S6, Ech. intros Hk. by apply V10.
    + by rewrite E1.
  - intros Hl. change (v6_datalayout n') with (v6_datalayout n) in Hl. change (v6_size n') with (v6_size n). rewrite E3. destruct (v5i_is_dir (v6_inode n) || v5i_is_symlink (v6_inode n)) eqn:Kx.
    + destruct (O6 eq_refl) as [_ Hl']. rewrite E3, E6 in Hl'. apply V9; [by rewrite <- S1, <- S3, <- E1|]. destruct (inlined (v6_size n0) (v6_data_size d n0)); [done|]. by rewrite Hl' in Hl.
    + exfalso. rewrite E1, S1, S3 in Kx. unfold well_placed in Hw. rewrite E1, S1, S2, S3 in Hw. destruct (v5i_is_reg (v6_inode n0)) eqn:Kr; [destruct Hw as [Hw _]; by rewrite Hw in Hl|]. destruct (F4 Kx) as [_ F5].
      destruct (vi_fresh _ _ _ (pn_input _ _ _ _ Hp)) as [V1 _]. by rewrite (F5 eq_refl), V1 in Hl.
Qed.
End dumpable.

(** ** The root *)

Section root.
Context `{Profile}.

Lemma search_new m : forall idx min_idx, 0 <= idx -> idx + Z.of_nat m <= 128 -> search_available m idx min_idx BootstrapContext_new = Ok (0, BootstrapContext_new).
Proof.
  induction m as [|m IH]; intros idx min_idx H0 Hm; [done|]. cbn [search_available]. destruct (vec_index_is_Ok (E:=errno) (v6_available_blocks BootstrapContext_new) idx) as (bs & Hv & Hx); [change (length (v6_available_blocks BootstrapContext_new)) with 128%nat; lia|].
  rewrite Hv. cbn [mbind outcome_bind]. change (v6_available_blocks BootstrapContext_new) with (replicate 128 (@nil Z)) in Hx. apply lookup_replicate in Hx as [-> _]. apply IH; lia.
Qed.

Lemma allocate_new size : 0 < size < 2 ^ 62 -> allocate_available_block size BootstrapContext_new = Ok (0, BootstrapContext_new).
Proof.
  intros Hs. unfold allocate_available_block. destruct (Z.leb_spec EROFS_BLOCK_SIZE size) as [Hle|Hlt]; [done|]. unfold EROFS_BLOCK_SIZE in Hlt. rewrite (div_round_up_spec size 5) by lia. cbn [mbind outcome_bind].
  rewrite (div_round_up_spec EROFS_BLOCK_SIZE 5) by done. cbn [mbind outcome_bind]. change (2 ^ 5) with 32. change ((EROFS_BLOCK_SIZE + 32 - 1) / 32) with 128.
  pose proof (Z.div_mod (size + 32 - 1) 32). pose proof (Z.mod_pos_bound (size + 32 - 1) 32). apply search_new; lia.
Qed.

(** The first directory is placed in the block behind the super block. *)
Lemma first_offset d n n' c : placeable d n -> d < 2 ^ 62 -> v6_is_dir n = true -> v6_place d None n BootstrapContext_new = Ok (n', c) -> v6_offset n' = EROFS_BLOCK_SIZE.
Proof.
  intros Hp Hd Kd. unfold v6_place, v6_is_dir in *. rewrite Kd. unfold v6_set_dir_offset. rewrite Kd. cbn [negb]. set (n1 := with_v6_inode (set_size d) n).
  destruct (v6_size_run d n1) as (Hrun & Hs & _). { destruct Hp as (P1 & P2 & P3 & P4 & P5). done. }
  unfold v6_set_offset_with_tail. rewrite Hrun. cbn [mbind outcome_bind]. cbv zeta. pose proof (Z.mod_pos_bound d EROFS_BLOCK_SIZE ltac:(done)) as Hm. set (tail := d mod EROFS_BLOCK_SIZE) in *. unfold EROFS_BLOCK_SIZE in Hm.
  rewrite uadd_in by (unfold in_range; lia). cbn [mbind outcome_bind]. destruct (negb (tail =? 0) && (v6_size n1 + tail <=? EROFS_BLOCK_SIZE)) eqn:Hin.
  - apply andb_prop in Hin as [_ Htl%Z.leb_le]. unfold EROFS_BLOCK_SIZE in Htl. rewrite allocate_new by lia. cbn [mbind outcome_bind Z.eqb]. change (bx_offset BootstrapContext_new) with EROFS_BLOCK_SIZE. change (EROFS_BLOCK_SIZE - EROFS_BLOCK_SIZE mod EROFS_BLOCK_SIZE) with 4096.
    rewrite (proj2 (Z.ltb_ge 4096 (v6_size n1 + tail))) by lia. cbn [mbind outcome_bind]. destruct (advance (v6_size n1 + tail) BootstrapContext_new) as [c1| |]; [|done|done]. cbn [mbind outcome_bind].
    destruct (if negb (d =? tail) then _ else _) as [c2| |]; [|done|done]. cbn [mbind outcome_bind]. destruct (advance _ c2) as [c3| |]; [|done|done]. cbn [mbind outcome_bind fst snd]. destruct (ctx_align_offset _ c3) as [c4| |]; [|done|done].
    cbn [mbind outcome_bind]. intros [= <- _]. done.
  - rewrite allocate_new by lia. cbn [mbind outcome_bind Z.eqb]. destruct (advance (v6_size n1) BootstrapContext_new) as [c1| |]; [|done|done]. cbn [mbind outcome_bind].
    destruct (append_available_block _ c1) as [c2| |]; [|done|done]. cbn [mbind outcome_bind]. destruct (ctx_align_offset _ c2) as [c3| |]; [|done|done]. cbn [mbind outcome_bind].
    destruct (advance d c3) as [c4| |]; [|done|done]. cbn [mbind outcome_bind]. destruct (ctx_align_offset _ c4) as [c5| |]; [|done|done]. cbn [mbind outcome_bind fst snd]. destruct (ctx_align_offset _ c5) as [c6| |]; [|done|done].
    cbn [mbind outcome_bind]. intros [= <- _]. done.
Qed.
End root.

(** ** The image *)

(** The array holds the placed nodes in another order than they were placed in: the entries of a directory
    follow each other in the array, but directories are placed after their siblings. The root is first. *)
Definition placed_order (lp : list (Z * option Z * V6Node)) (np : list V6Node) (l : list (Z * option Z * V6Node)) (ns : list V6Node) : Prop :=
  zip lp np ≡ₚ zip l ns /\ length l = length ns /\ head lp = head l /\ head np = head ns.

#[export] Instance all_cost_perm : Proper ((≡ₚ) ==> eq) all_cost.
Proof. intros l k Hp. unfold all_cost. induction Hp as [|x l k Hp IH|x y l|l k j H1 IH1 H2 IH2]; cbn [foldr]; lia. Qed.

Section trip.
Context `{Profile} {k meta_addr : Z} {l : list (Z * option Z * V6Node)} {ns : list V6Node} {c : BootstrapContext} {T : V6Tree}.
Context (Hk : 12 <= k < 32) (Hm0 : 0 <= meta_addr) (Hma : meta_addr mod EROFS_BLOCK_SIZE = 0) (Hb : v6_build k meta_addr l ns T)
  {lp : list (Z * option Z * V6Node)} {np : list V6Node} (Hpl : v6_place_all lp BootstrapContext_new = Ok (np, c)) (Hord : placed_order lp np l ns).

Definition v6_sizes : list Z := (fun x => x.1.1) <$> l.
Notation lim := (bx_offset c).

Lemma image_extents_zip ds ns' : image_extents ds ns' = concat ((fun x => v6_extents x.1 None x.2) <$> zip ds ns').
Proof. unfold image_extents. f_equal. revert ns'. induction ds as [|d ds IH]; intros [|n ns']; try done. cbn [zip_with]. rewrite fmap_cons, IH. done. Qed.

(** The nodes in the order they were placed. *)
Lemma trip_placed_order : Forall (fun x => x.1.2 = None /\ v6_input k x.1.1 x.2) lp /\ length np = length lp /\ apart (all_extents lp np) /\
  Forall (fun e => EROFS_BLOCK_SIZE <= e.1 /\ e.1 + e.2 <= lim) (all_extents lp np) /\ 0 <= lim /\ lim + meta_addr + 2 * EROFS_BLOCK_SIZE < 2 ^ 44 /\
  Forall2 (fun x n => placed_from x.1.1 x.2 n /\ well_placed x.1.1 x.1.2 n) lp np /\ all_cost lp = all_cost l.
Proof.
  pose proof Hb as [V1 V2 _ _ _ _ _]. destruct Hord as (Hperm & Hlen & _). assert (length np = length lp) as Hlp.
  { clear -Hpl. revert np c Hpl. generalize BootstrapContext_new. induction lp as [|[[d h] n] lp' IH]; intros c0 np c Hpl; [by injection Hpl as <- _|]. cbn [v6_place_all] in Hpl. destruct (v6_place d h n c0) as [[n1 c1]| |]; [|done|done]. cbn [mbind outcome_bind fst snd] in Hpl.
    destruct (v6_place_all lp' c1) as [[rest c2]| |] eqn:E; [|done|done]. cbn [mbind outcome_bind fst snd] in Hpl. injection Hpl as <- _. cbn [length]. f_equal. by eapply IH. }
  assert (lp ≡ₚ l) as Hpp. { rewrite <- (fst_zip lp np), <- (fst_zip l ns) by lia. by rewrite Hperm. }
  assert (Forall (fun x => x.1.2 = None /\ v6_input k x.1.1 x.2) lp) as V1p by (by rewrite Hpp). assert (all_cost lp = all_cost l) as Hcost by (by rewrite Hpp).
  assert (Forall (fun x => placeable x.1.1 x.2) lp) as Hpa by (eapply Forall_impl; [exact V1p|]; intros x [_ Hx]; exact (vi_placeable _ _ _ Hx)). pose proof (all_cost_pos lp Hpa). unfold EROFS_BLOCK_SIZE in V2.
  destruct (place_all_spec lp BootstrapContext_new [] Hpa alloc_inv_new eq_refl ltac:(cbn [bx_offset BootstrapContext_new]; unfold EROFS_BLOCK_SIZE; lia)) as (ns' & c' & Hr & Hf & [_ Ha Hbel _ Hof] & Hbx). rewrite Hpl in Hr. injection Hr as <- <-.
  cbn [bx_offset BootstrapContext_new] in Hbx. unfold EROFS_BLOCK_SIZE in Hbx, Hof. cbn [app] in Ha, Hbel. apply apart_app in Ha as (Ha & _). apply Forall_app in Hbel as [Hbel _].
  split_and!; [done|done|done|eapply Forall_impl; [exact Hbel|]; cbn; intros e He; lia|lia|unfold EROFS_BLOCK_SIZE; lia|done|done].
Qed.

Lemma trip_placed : length ns = length l /\ apart (image_extents v6_sizes ns) /\ Forall (fun e => EROFS_BLOCK_SIZE <= e.1 /\ e.1 + e.2 <= lim) (image_extents v6_sizes ns) /\ 0 <= lim /\
  forall i x n, l !! i = Some x -> ns !! i = Some n -> placed_node (k:=k) (meta_addr:=meta_addr) lim x.1.1 x.2 n.
Proof.
  destruct trip_placed_order as (V1 & Hlp & Ha & Hbd & H0 & Hlim & Hf & _). destruct Hord as (Hperm & Hlen & _).
  assert (forall l ns, Forall (fun x : Z * option Z * V6Node => x.1.2 = None) l -> all_extents l ns = concat ((fun x => v6_extents x.1.1.1 None x.2) <$> zip l ns)) as Hex.
  { clear. intros l ns Hl. unfold all_extents. f_equal. revert ns. induction Hl as [|[[d h] n] l Hh Hl IH]; intros ns; [done|]. cbn in Hh. subst h. destruct ns as [|m ns]; [done|]. cbn [zip_with]. rewrite fmap_cons, IH. done. }
  assert (Forall (fun x : Z * option Z * V6Node => x.1.2 = None) lp) as Hnone by (eapply Forall_impl; [exact V1|]; by intros x [? _]).
  assert (image_extents v6_sizes ns = concat ((fun x => v6_extents x.1.1.1 None x.2) <$> zip l ns)) as Hex2.
  { rewrite image_extents_zip. f_equal. unfold v6_sizes. clear. revert ns. induction l as [|x l' IH]; intros [|n ns']; try done. rewrite fmap_cons. cbn [zip_with]. rewrite !fmap_cons, IH. done. }
  rewrite (Hex lp np Hnone) in Ha, Hbd. assert (concat ((fun x => v6_extents x.1.1.1 None x.2) <$> zip lp np) ≡ₚ image_extents v6_sizes ns) as Hpe by (rewrite Hex2; by rewrite Hperm). rewrite Hpe in Ha, Hbd.
  split_and!; [done|done|done|done|]. intros i x n Hx Hn. assert ((x, n) ∈ zip lp np) as Hin. { rewrite Hperm. apply (list_elem_of_lookup_2 _ i). rewrite lookup_zip_with, Hx. cbn. by rewrite Hn. }
  apply list_elem_of_lookup in Hin as [j Hj]. rewrite lookup_zip_with in Hj. destruct (lp !! j) as [x'|] eqn:Hxj; [|done]. cbn in Hj. destruct (np !! j) as [n'|] eqn:Hnj; [|done]. cbn in Hj. injection Hj as -> ->.
  destruct (Forall2_lookup_lr _ _ _ _ _ _ Hf Hxj Hnj) as [H1 H2]. destruct (Forall_lookup_1 _ _ _ _ V1 Hxj) as [Hh Hi]. rewrite Hh in H2. constructor; [done|done|done| |done|done].
  apply Forall_forall. intros e He. apply (proj1 (Forall_forall _ _) Hbd). apply (in_image_extents v6_sizes ns i x.1.1 n); [unfold v6_sizes; by rewrite list_lookup_fmap, Hx|done|done].
Qed.

Lemma trip_at i : (i < length l)%nat -> exists x n, l !! i = Some x /\ ns !! i = Some n /\ v6_sizes !! i = Some x.1.1 /\ placed_node (k:=k) (meta_addr:=meta_addr) lim x.1.1 x.2 n.
Proof.
  intros Hi. destruct trip_placed as (Hl & _ & _ & _ & Hp). destruct (lookup_lt_is_Some_2 l i Hi) as [x Hx]. destruct (lookup_lt_is_Some_2 ns i ltac:(lia)) as [n Hn]. exists x, n. split_and!; [done|done| |by eapply Hp].
  unfold v6_sizes. by rewrite list_lookup_fmap, Hx.
Qed.

Lemma trip_root : exists root, ns !! 0%nat = Some root /\ v6_offset root = EROFS_BLOCK_SIZE.
Proof.
  destruct trip_placed_order as (V1 & Hlp & _ & _ & _ & _ & _ & Hcost). pose proof Hb as [_ V2 _ V4 _ _ [V7 V8]]. rewrite vt_dirs_eq in V4. apply Forall_cons in V4 as [(d & n & Hx & Hd & _) _]. unfold dir_index in Hx. cbn [fst] in Hx. rewrite V7 in Hx. change (Z.to_nat (1 - 1)) with 0%nat in Hx.
  destruct Hord as (_ & _ & Hh1 & Hh2). rewrite <- Hcost in V2. assert (head lp = Some (d, None, n)) as Hhd by (rewrite Hh1; destruct l; [done|exact Hx]). enough (exists root, head np = Some root /\ v6_offset root = EROFS_BLOCK_SIZE) as (root & Hr & Ho) by (exists root; split; [rewrite Hh2 in Hr; destruct ns; [done|exact Hr]|done]). clear Hx Hcost Hh1 Hh2. destruct lp as [|x l'] eqn:El; [done|]. cbn in Hhd. injection Hhd as ->. pose proof V1 as [[_ Hi] V1']%Forall_cons. cbn [fst snd] in Hi.
  pose proof (vi_placeable _ _ _ Hi) as Hp. cbn [v6_place_all] in Hpl.
  assert (d < 2 ^ 62) as Hd62. { assert (Forall (fun x => placeable x.1.1 x.2) l') as Hpa by (eapply Forall_impl; [exact V1'|]; intros x [_ Hx]; exact (vi_placeable _ _ _ Hx)). pose proof (all_cost_pos l' Hpa). pose proof (v6_size_run d n Hp) as (_ & Hsz & _). destruct Hp as (_ & _ & _ & _ & P5).
    cbn [all_cost foldr fst snd] in V2. fold (all_cost l') in V2. unfold place_cost, v6_data_size, v6_is_dir, EROFS_BLOCK_SIZE in *. rewrite Hd in V2. destruct (mode_dir_not _ Hd) as [Kr _]. rewrite Kr in V2. lia. }
  destruct (v6_place d None n BootstrapContext_new) as [[n' c']| |] eqn:E; [|done|done]. cbn [mbind outcome_bind fst snd] in Hpl. destruct (v6_place_all l' c') as [[rest c'']| |]; [|done|done]. cbn [mbind outcome_bind fst snd] in Hpl. injection Hpl as <- _.
  exists n'. split; [done|]. by eapply first_offset.
Qed.

(** A node of the tree in the array: placed, below the end of the metadata. *)
Lemma trip_tree_placed t : t ∈ vt_all T -> exists i x n, i = Z.to_nat (vt_index t - 1) /\ l !! i = Some x /\ ns !! i = Some n /\ v6_sizes !! i = Some x.1.1 /\ placed_node (k:=k) (meta_addr:=meta_addr) lim x.1.1 x.2 n /\
  v6_offset n = v6_offset (vt_node t) /\ v6_is_dir n = v6_is_dir (vt_node t) /\ 0 <= v6_offset (vt_node t) < 2 ^ 44.
Proof.
  intros Ht. destruct (proj1 (Forall_forall _ _) (vb_tree _ _ _ _ _ Hb) t Ht) as (_ & n & Hn & Ho & Hd). set (i := Z.to_nat (vt_index t - 1)) in *.
  destruct trip_placed as (Hl & _). destruct (trip_at i) as (x & n' & Hx & Hn' & Hs & Hp). { rewrite <- Hl. by eapply lookup_lt_Some. } rewrite Hn in Hn'. injection Hn' as <-. exists i, x, n.
  destruct (placed_offsets _ _ _ _ Hp) as (O1 & O2 & _). pose proof (pn_lim _ _ _ _ Hp). unfold EROFS_BLOCK_SIZE in *. split_and!; try done; lia.
Qed.

(** The offset of the parent of a directory. *)
Lemma trip_parent x : x ∈ vt_dirs T EROFS_BLOCK_SIZE -> 0 <= x.2 < 2 ^ 44.
Proof.
  intros Hx. destruct (vt_dirs_all T _ x (proj2 (vb_root _ _ _ _ _ Hb)) Hx) as (_ & _ & [->|(p & Hp & ->)]); [done|]. destruct (trip_tree_placed p Hp) as (i & y & n & _ & _ & _ & _ & _ & _ & _ & Ho). done.
Qed.

Definition dirents_set (n n' : V6Node) : Prop := exists D, n' = with_dirents D n.

Lemma trip_update : exists nodes, rafsv6_update_dirents T EROFS_BLOCK_SIZE ns = Ok nodes /\ Forall2 dirents_set ns nodes /\
  (forall i n, ns !! i = Some n -> v6_is_dir n = false -> nodes !! i = Some n) /\
  (forall x n, x ∈ vt_dirs T EROFS_BLOCK_SIZE -> ns !! dir_index x = Some n -> nodes !! dir_index x = Some (with_dirents (dirents_for (v6_offset n) x.2 x.1) n)).
Proof.
  pose proof Hb as [_ _ V3 V4 V5 V6 [_ V8]]. destruct trip_placed as (Hl & _ & _ & _ & Hp).
  destruct (update_dirents_run T EROFS_BLOCK_SIZE ns V5) as (nodes & Hr & U1 & U2).
  { apply Forall_forall. intros x Hx. destruct (vt_dirs_all T _ x V8 Hx) as (H1 & H2 & _). destruct (proj1 (Forall_forall _ _) V3 x.1 H1) as (Hi & n & Hn & Ho & Hd). split; [done|]. exists n. split_and!; [done|congruence|done]. }
  assert (forall x n, x ∈ vt_dirs T EROFS_BLOCK_SIZE -> ns !! dir_index x = Some n -> nodes !! dir_index x = Some (with_dirents (dirents_for (v6_offset n) x.2 x.1) n)) as Hdirs.
  { intros x n Hx Hn. rewrite (U2 x n Hx Hn). f_equal. destruct (proj1 (Forall_forall _ _) V4 x Hx) as (d & n0 & Hlx & _ & _ & _ & Hs & Hnm & _).
    destruct (Hp _ _ _ Hlx Hn) as [Hi (_ & _ & F3 & _) _ _ _ _]. destruct (vi_fresh _ _ _ Hi) as (_ & Hd & _). cbn [snd] in F3, Hd. rewrite Hd in F3. by apply push_dirents_fresh. }
  assert (forall i n, ns !! i = Some n -> v6_is_dir n = false -> nodes !! i = Some n) as Hother.
  { intros i n Hn Hd. rewrite U1; [done|]. intros (x & -> & Hx)%list_elem_of_fmap. destruct (vt_dirs_all T _ x V8 Hx) as (H1 & H2 & _). destruct (proj1 (Forall_forall _ _) V3 x.1 H1) as (_ & n' & Hn' & _ & Hd'). unfold dir_index in Hn. congruence. }
  exists nodes. split_and!; [done| |done|done]. apply Forall2_lookup. intros i. destruct (ns !! i) as [n|] eqn:Hn.
  - destruct (v6_is_dir n) eqn:Hd; [|rewrite (Hother i n Hn Hd); constructor; exists (v6_dirents n); by destruct n]. destruct (trip_at i) as (x & n' & Hx & Hn' & _ & Hpn). { rewrite <- Hl. by eapply lookup_lt_Some. } rewrite Hn in Hn'. injection Hn' as <-.
    assert (v6_is_dir x.2 = true) as Hd0. { destruct (placed_same _ _ _ _ Hpn) as (E1 & _). destruct (sized_kind x.1.1 x.2) as (S1 & _). unfold v6_is_dir in *. by rewrite <- S1, <- E1. }
    pose proof (V6 i x Hx Hd0) as (y & -> & Hy)%list_elem_of_fmap. rewrite (Hdirs y n Hy Hn). constructor. by eexists.
  - destruct (nodes !! i) as [n'|] eqn:Hn'; [|constructor]. exfalso. destruct (decide (i ∈ dir_index <$> vt_dirs T EROFS_BLOCK_SIZE)) as [(x & -> & Hx)%list_elem_of_fmap|Hno]; [|by rewrite U1, Hn in Hn'].
    destruct (vt_dirs_all T _ x V8 Hx) as (H1 & _). destruct (proj1 (Forall_forall _ _) V3 x.1 H1) as (_ & m & Hm & _). unfold dir_index in Hn. congruence.
Qed.

Context {nodes : list V6Node} (Hup : rafsv6_update_dirents T EROFS_BLOCK_SIZE ns = Ok nodes).

Lemma trip_set : Forall2 dirents_set ns nodes /\ (forall i n, ns !! i = Some n -> v6_is_dir n = false -> nodes !! i = Some n) /\
  (forall x n, x ∈ vt_dirs T EROFS_BLOCK_SIZE -> ns !! dir_index x = Some n -> nodes !! dir_index x = Some (with_dirents (dirents_for (v6_offset n) x.2 x.1) n)).
Proof. destruct trip_update as (nodes' & Hr & H1). rewrite Hup in Hr. by injection Hr as <-. Qed.

Lemma trip_extents : image_extents v6_sizes nodes = image_extents v6_sizes ns.
Proof.
  destruct trip_set as [Hf _]. unfold image_extents. f_equal. revert Hf. generalize v6_sizes. clear. intros ds Hf. revert ds. induction Hf as [|n n' ns nodes [D ->] Hf IH]; intros ds; [done|]. destruct ds as [|d ds]; [done|]. cbn [zip_with]. rewrite IH. done.
Qed.

Notation good := (v6_dumpable (k:=k) (meta_addr:=meta_addr) (meta_offset:=meta_addr)).

(** A directory with its entries can be dumped. *)
Lemma trip_dir x n0 d n : x ∈ vt_dirs T EROFS_BLOCK_SIZE -> l !! dir_index x = Some (d, None, n0) -> ns !! dir_index x = Some n ->
  let D := dirents_for (v6_offset n) x.2 x.1 in
  dirents_ok meta_addr meta_addr (shifted meta_addr (with_dirents D n)) /\ d = packed_size (pack (entry_of meta_addr meta_addr <$> D) []) /\ used_by (pack (entry_of meta_addr meta_addr <$> D) []).2 < EROFS_BLOCK_SIZE.
Proof.
  intros Hx Hlx Hn D. pose proof Hb as [_ _ V3 V4 _ _ [_ V8]]. destruct trip_placed as (Hl & _ & _ & _ & Hp). specialize (Hp _ _ _ Hlx Hn). cbn [fst snd] in Hp. destruct (proj1 (Forall_forall _ _) V4 x Hx) as (d' & n0' & Hlx' & Hd & Hsz & Hm & Hs & Hnm & Hlen).
  rewrite Hlx in Hlx'. injection Hlx' as <- <-. destruct (placed_offsets _ _ _ _ Hp) as (O1 & O2 & O3 & O4 & O5 & O6 & O7). pose proof (pn_lim _ _ _ _ Hp) as Hlim. unfold EROFS_BLOCK_SIZE in O1, Hlim. pose proof (trip_parent x Hx) as Hq.
  destruct (vt_dirs_all T _ x V8 Hx) as (H1 & H2 & _).
  assert (Forall (fun c => 0 <= v6_offset (vt_node c) < 2 ^ 44) (vt_children x.1)) as Hc. { apply Forall_forall. intros y Hy. destruct (trip_tree_placed y (vt_all_below T x.1 y H1 H2 Hy)) as (? & ? & ? & _ & _ & _ & _ & _ & _ & _ & Ho). done. }
  destruct (entries_wf (meta_addr:=meta_addr) (offset:=v6_offset n) (q:=x.2) (t:=x.1)) as [W1 W2]; [lia|done|done|done|]. pose proof (entries_bounds (offset:=v6_offset n) (q:=x.2) (t:=x.1) ltac:(lia) Hq Hc) as Hbd. fold D in W1, W2, Hbd.
  split; [|apply (entries_size (n0:=n0)); [lia|done|done|done|done|done|done|done]].
  unfold dirents_ok. change (v6_dirents (shifted meta_addr (with_dirents D n))) with D. split_and!; [done| |done|done|].
  - eapply Forall_impl; [exact Hbd|]. cbn. intros y Hy. lia.
  - assert (zlen D = 2 + zlen (vt_children x.1)) as -> by (unfold D, dirents_for, zlen; cbn [length]; rewrite length_fmap; lia). assert (v6_dirents_offset n < 2 ^ 45) as Hdo.
    { destruct (v5i_is_dir (v6_inode n) || v5i_is_symlink (v6_inode n)); [destruct (O6 eq_refl) as [O6' _]|rewrite (O7 eq_refl); lia]. destruct (placed_same _ _ _ _ Hp) as (_ & _ & _ & _ & (_ & _ & ? & ? & _) & _). unfold v6_data_size, EROFS_BLOCK_SIZE in O6'. destruct (v5i_is_dir (v6_inode n)); lia. }
    unfold shifted. cbn [place_v6 v6_dirents_offset with_dirents]. unfold EROFS_BLOCK_SIZE. destruct (_ || _); lia.
Qed.

Lemma trip_dumpable i d n' : v6_sizes !! i = Some d -> nodes !! i = Some n' -> good d n' /\ inline_aligned n'.
Proof.
  intros Hd Hn'. destruct trip_set as (Hf & Hother & Hdirs). destruct (Forall2_lookup_r _ _ _ _ _ Hf Hn') as (n & Hn & D & ->). destruct trip_placed as (Hl & _). destruct (trip_at i) as (x & n1 & Hx & Hn1 & Hs & Hp); [rewrite <- Hl; by eapply lookup_lt_Some|].
  rewrite Hn in Hn1. injection Hn1 as <-. rewrite Hd in Hs. injection Hs as ->. apply (dumpable_from lim x.1.1 x.2 n D Hp). intros Kd.
  assert (v6_is_dir x.2 = true) as Kd0. { destruct (placed_same _ _ _ _ Hp) as (E1 & _). destruct (sized_kind x.1.1 x.2) as (S1 & _). unfold v6_is_dir in *. by rewrite <- S1, <- E1. }
  pose proof (vb_complete _ _ _ _ _ Hb i x Hx Kd0) as (y & -> & Hy)%list_elem_of_fmap. rewrite (Hdirs y n Hy Hn) in Hn'. injection Hn' as <-. destruct x as [[d h] n0]. destruct (Forall_lookup_1 _ _ _ _ (vb_nodes _ _ _ _ _ Hb) Hx) as [Hh _]. cbn in Hh. subst h.
  by apply (trip_dir y n0).
Qed.

Lemma trip_all : Forall2 good v6_sizes nodes.
Proof.
  destruct trip_set as (Hf & _). destruct trip_placed as (Hl & _). apply Forall2_same_length_lookup_2.
  - rewrite <- (Forall2_length _ _ _ Hf), Hl. unfold v6_sizes. by rewrite length_fmap.
  - intros i d n Hd Hn. exact (proj1 (trip_dumpable i d n Hd Hn)).
Qed.

(** *** The mapped file *)

Context {f0 : list Z} {ds : DirectSuperBlockV6} (Hzero : forall i, EROFS_BLOCK_SIZE + meta_addr <= i -> file_byte f0 i = 0) (Hmap : map_wf (ds_map ds))
  (Hmapped : mapped (ds_map ds) (apply_writes (image_writes (k:=k) (meta_addr:=meta_addr) (meta_offset:=meta_addr) nodes) f0) (EROFS_BLOCK_SIZE + meta_addr)) (Hmeta : ds_meta_offset ds = meta_addr).
Notation m := (ds_map ds).

Lemma stored_holds off data : stored m off data -> file_holds (mp_bytes m) off data.
Proof.
  intros (H0 & H1 & H2). split; [done|]. intros i Hi. rewrite <- H2. unfold file_byte, slice. rewrite lookup_take_lt by (unfold zlen in Hi; lia). rewrite lookup_drop. do 2 f_equal. lia.
Qed.

Lemma trip_apart : apart (image_extents v6_sizes nodes) /\ Forall (fun e => EROFS_BLOCK_SIZE <= e.1 /\ e.1 + e.2 <= lim) (image_extents v6_sizes nodes).
Proof. rewrite trip_extents. by destruct trip_placed as (_ & Ha & Hbd & _). Qed.

Lemma trip_stored i n' w : nodes !! i = Some n' -> w ∈ node_writes (2 ^ k) meta_addr meta_addr (shifted meta_addr n') -> stored m w.1 w.2.
Proof.
  intros Hn Hw. destruct trip_apart as [Ha Hbd]. by apply (image_stored Hma v6_sizes nodes m f0 lim n' w trip_all Ha Hm0 Hbd Hmapped (list_elem_of_lookup_2 _ _ _ Hn)).
Qed.

Lemma trip_pad i d n' j b : v6_sizes !! i = Some d -> nodes !! i = Some n' -> v5i_is_dir (v6_inode n') = true -> let r := dir_pack meta_addr meta_addr (shifted meta_addr n') in r.1 !! j = Some b ->
  stored m (v6_dirents_offset (shifted meta_addr n') + EROFS_BLOCK_SIZE * Z.of_nat j) (block_bytes b ++ replicate (Z.to_nat (EROFS_BLOCK_SIZE - zlen (block_bytes b))) 0).
Proof.
  intros Hd Hn Kd r Hb'. destruct trip_apart as [Ha Hbd]. destruct (trip_dumpable i d n' Hd Hn) as [Hgood _]. destruct (dir_data_extent d n' Hgood Kd) as (len & Hex & Hlen). fold r in Hex, Hlen.
  assert ((v6_dirents_offset (shifted meta_addr n') + EROFS_BLOCK_SIZE * Z.of_nat j, block_bytes b) ∈ node_writes (2 ^ k) meta_addr meta_addr (shifted meta_addr n')) as Hwin.
  { unfold node_writes. change (v6_inode (shifted meta_addr n')) with (v6_inode n'). rewrite Kd. apply elem_of_app. right. unfold dir_writes. apply elem_of_app. left. fold r.
    apply (list_elem_of_lookup_2 _ j). by apply block_writes_lookup. }
  pose proof (trip_stored i n' (_, _) Hn Hwin) as Hst. cbn [fst snd] in Hst.
  set (off := v6_dirents_offset (shifted meta_addr n') + EROFS_BLOCK_SIZE * Z.of_nat j) in *.
  destruct (dir_pack_shape _ _ _ (no_dir _ _ _ _ _ (proj1 Hgood) Kd)) as [_ Hbs]. fold r in Hbs. apply Forall_app in Hbs as [Hfull _]. destruct (Forall_lookup_1 _ _ _ _ Hfull Hb') as (_ & _ & Hsm). pose proof (zlen_nonneg (block_bytes b)).
  assert (EROFS_BLOCK_SIZE + meta_addr <= v6_dirents_offset (shifted meta_addr n') /\ off + EROFS_BLOCK_SIZE <= lim + meta_addr) as [Hlo _].
  { assert ((v6_dirents_offset (shifted meta_addr n'), len) ∈ shift_ext meta_addr <$> v6_extents d None n') as He by (rewrite <- v6_extents_shifted, Hex; right; left). apply list_elem_of_fmap in He as (e & He & Hin).
    pose proof (in_image_extents v6_sizes nodes i d n' e Hd Hn Hin) as Hin'. destruct (proj1 (Forall_forall _ _) Hbd e Hin') as [B1 B2]. pose proof (f_equal fst He) as E1. pose proof (f_equal snd He) as E2. unfold shift_ext in E1, E2. cbn [fst snd] in E1, E2, B1, B2. pose proof (lookup_lt_Some _ _ _ Hb'). unfold off, EROFS_BLOCK_SIZE, zlen in *. lia. }
  assert (off + EROFS_BLOCK_SIZE <= up 12 (zlen (apply_writes (image_writes (k:=k) (meta_addr:=meta_addr) (meta_offset:=meta_addr) nodes) f0))) as Hhi.
  { pose proof (block_nonempty _ (Forall_lookup_1 _ _ _ _ Hfull Hb')) as Hne. assert (off mod EROFS_BLOCK_SIZE = 0) as Ho.
    { unfold off. rewrite Z.mul_comm, Z_mod_plus_full. apply (blocks_aligned Hma d n' Hgood Kd). fold r. pose proof (lookup_lt_Some _ _ _ Hb'). unfold zlen. lia. }
    destruct (image_bounds Hma v6_sizes nodes lim trip_all Ha Hm0 Hbd) as [_ Hpos]. destruct (zlen_apply_writes _ f0 Hpos) as [_ He]. specialize (He (off, block_bytes b) (in_image_writes nodes n' _ (list_elem_of_lookup_2 _ _ _ Hn) Hwin)). cbn [fst snd] in He.
    specialize (He ltac:(intros E; rewrite E in Hne; change (zlen []) with 0 in Hne; lia)). set (e := zlen (apply_writes _ f0)) in *. destruct (up_bounds 12 e ltac:(lia)) as [U1 U2]. unfold EROFS_BLOCK_SIZE in *.
    change (2 ^ 12) with 4096 in *. apply Z.mod_divide in U2 as [p Hp]; [|lia]. apply Z.mod_divide in Ho as [q Hq]; [|lia]. lia. }
  pose proof (mapped_end _ _ _ Hmapped) as Hme.
  destruct Hmapped as (Hl & _ & Hbytes). unfold EROFS_BLOCK_SIZE in *. apply holds_stored.
  - apply file_holds_app; [by apply stored_holds|]. split; [unfold off in *; lia|]. intros q Hq. unfold zlen at 1 in Hq. rewrite length_replicate in Hq. assert (file_byte (replicate (Z.to_nat (4096 - zlen (block_bytes b))) 0) q = 0) as ->.
    { unfold file_byte. destruct (replicate _ 0 !! Z.to_nat q) as [y|] eqn:E; [|done]. by apply lookup_replicate in E as [-> _]. }
    rewrite Hbytes by (unfold off in *; lia). rewrite byte_at_untouched; [apply Hzero; unfold off in *; lia|unfold off in *; lia|].
    pose proof (image_pad Hma v6_sizes nodes i d n' j b (off + zlen (block_bytes b) + q) trip_all Ha Hd Hn Kd Hb') as Hmiss. unfold in_pad in Hmiss. specialize (Hmiss ltac:(unfold off, EROFS_BLOCK_SIZE in *; lia)).
    destruct (image_fit Hma v6_sizes nodes trip_all Ha) as [F1 _]. apply Forall_forall. intros w Hw. split; [|exact (proj1 (Forall_forall _ _) Hmiss w Hw)]. destruct (proj1 (Forall_forall _ _) F1 w Hw) as (e & (e0 & -> & He)%list_elem_of_fmap & Hi). destruct (proj1 (Forall_forall _ _) Hbd e0 He) as [B1 B2].
    unfold inside, write_ext, shift_ext in *. cbn in *. lia.
  - rewrite zlen_app. unfold zlen at 2. rewrite length_replicate. unfold off in *. lia.
Qed.

(** *** Inodes *)

Lemma trip_wrapper i d n' : v6_sizes !! i = Some d -> nodes !! i = Some n' ->
  inode_wrapper ds (Z.shiftr (v6_offset n') EROFS_INODE_SLOT_BITS) = Ok (mkOndiskWrapper (v6_offset n' + meta_addr) ((v5i_size (v6_inode n') + 4095) / 4096) None None).
Proof.
  intros Hd Hn. destruct (trip_dumpable i d n' Hd Hn) as [(Hok & Hwp & Hco) _]. destruct (no_offset _ _ _ _ _ Hok) as (O1 & O2 & O3). unfold inode_wrapper. rewrite Z.shiftr_div_pow2 by done. change (2 ^ EROFS_INODE_SLOT_BITS) with 32. unfold EROFS_INODE_SLOT_SIZE.
  assert (v6_offset n' / 32 * 32 = v6_offset n') as E by (pose proof (Z.div_mod (v6_offset n') 32); lia). rewrite umul_in, E by (unfold in_range; rewrite E; lia). cbn [mbind outcome_bind]. rewrite Hmeta, uadd_in by (unfold in_range; lia). cbn [mbind outcome_bind].
  rewrite Z.add_comm. set (w := mkOndiskWrapper (v6_offset n' + meta_addr) ((v5i_size (v6_inode n') + 4095) / 4096) None None).
  exact (read_wrapper ds Hmap (n0:=n') Hk Hok Hco Hma Hm0 (fun w => trip_stored i n' w Hn) (w:=w) (conj eq_refl eq_refl)).
Qed.

(** A wrapper of the inode of a node of the array. *)
Definition wraps (n : V6Node) (w : OndiskInodeWrapper) : Prop := ow_offset w = v6_offset n + meta_addr /\ ow_blocks_count w = (v5i_size (v6_inode n) + 4095) / 4096.

(** What is read of an inode is what its node says. *)
Record v6_reads (n : V6Node) (w : OndiskInodeWrapper) : Prop := mkV6Reads {
  vr_inode : exists inode, ow_disk_inode ds w = Ok inode /\ has_attrs inode (v6_inode n) (v6_datalayout n) (xattr_count n) (v6_compact_inode n);
  vr_xattr : forall name, v6_get_xattr ds w name = Ok (n_xattrs (v6_node n) !! name);
  vr_xattrs : v6_get_xattrs ds w = Ok (map_to_list (n_xattrs (v6_node n))).*1;
  vr_symlink : forall t, v5i_is_symlink (v6_inode n) = true -> n_symlink (v6_node n) = Some t -> v6_get_symlink ds w = Ok t;
  vr_chunks : forall head, v5i_is_reg (v6_inode n) = true -> ds_chunk_size ds = 2 ^ k -> 0 <= head <= v5i_child_count (v6_inode n) ->
    chunk_addresses ds w head = Ok (drop (Z.to_nat head) (chunk_addr_for <$> n_chunks (v6_node n)));
  vr_area : v5i_is_reg (v6_inode n) = true -> exists inode s, ow_disk_inode ds w = Ok inode /\ inode_xattr_size inode = Ok s /\
    (ow_offset w + s) mod 8 = 0 /\ 0 <= ow_offset w /\ 0 <= s /\ ow_offset w + s < 2 ^ 63 /\ stored (ds_map ds) (ow_offset w + s) (addrs_bytes (chunk_addr_for <$> n_chunks (v6_node n)))
}.

Lemma trip_reads i d n' w : v6_sizes !! i = Some d -> nodes !! i = Some n' -> wraps n' w -> v6_reads n' w.
Proof.
  intros Hd Hn Hw. destruct (trip_dumpable i d n' Hd Hn) as [(Hok & Hwp & Hco) Hin]. pose proof (fun w => trip_stored i n' w Hn) as Hst. constructor.
  - exists (dumped_inode (2 ^ k) (shifted meta_addr n')). split; [|exact (read_attrs Hk Hok)]. unfold ow_disk_inode. by rewrite (proj1 (read_inode ds Hmap Hk Hok Hma Hm0 Hst Hw)).
  - intros name. by destruct (read_xattrs ds Hmap Hk Hok Hma Hm0 Hst Hw name) as [-> _].
  - by destruct (read_xattrs ds Hmap Hk Hok Hma Hm0 Hst Hw []) as [_ ->].
  - intros t Kl Ht. exact (read_symlink ds Hmap Hk Hok Hwp Hco Hma Hm0 Hst Hw Hin t Kl Ht).
  - intros head Kr Hcs Hh. destruct trip_set as (Hf & _). destruct (Forall2_lookup_r _ _ _ _ _ Hf Hn) as (n & Hn0 & D & ->). destruct trip_placed as (Hl & _). destruct (trip_at i) as (x & n1 & Hx & Hn1 & _ & Hp); [rewrite <- Hl; by eapply lookup_lt_Some|].
    rewrite Hn0 in Hn1. injection Hn1 as <-. destruct (placed_same _ _ _ _ Hp) as (E1 & _). destruct (sized_kind x.1.1 x.2) as (S1 & S2 & _ & _ & _ & S6 & _). change (v6_inode (with_dirents D n)) with (v6_inode n) in *. rewrite E1, S2 in Kr.
    destruct (vi_file _ _ _ (pn_input _ _ _ _ Hp) Kr) as (_ & _ & C1 & C2). assert (sized x.1.1 x.2 = x.2) as Esz. { unfold sized. destruct (v5i_is_dir (v6_inode x.2)) eqn:E; [|done]. destruct (mode_dir_not _ E). congruence. }
    rewrite Esz in E1. apply (read_chunks ds Hmap Hk Hok Hwp Hco Hma Hm0 Hst Hw head); change (v6_inode (with_dirents D n)) with (v6_inode n); [by rewrite E1|done|by rewrite E1|by rewrite E1|done].
  - intros Kr. exact (read_chunk_area ds Hmap Hk Hok Hma Hm0 Hst Hw Kr).
Qed.

(** *** Directories *)

(** A directory of the tree, its node and its wrapper. *)
Lemma trip_dir_stored x n' w : x ∈ vt_dirs T EROFS_BLOCK_SIZE -> nodes !! dir_index x = Some n' -> wraps n' w -> exists inode blocks,
  dir_stored ds w inode blocks /\ concat blocks = entry_of meta_addr meta_addr <$> dirents_for (v6_offset n') x.2 x.1 /\ StronglySorted en_lt (concat blocks) /\ mode_is S_IFDIR (oi_mode inode) = true /\
  ow_ino ds w = Ok (v6_offset n' / 32).
Proof.
  intros Hx Hn Hw. destruct trip_set as (Hf & _ & Hdirs). destruct (Forall2_lookup_r _ _ _ _ _ Hf Hn) as (n & Hn0 & _). pose proof (Hdirs x n Hx Hn0) as Hn2. rewrite Hn in Hn2. injection Hn2 as ->. destruct trip_placed as (Hl & _).
  pose proof Hb as [_ _ V3 V4 _ _ [_ V8]]. destruct (proj1 (Forall_forall _ _) V4 x Hx) as (d & n0 & Hlx & Hd0 & _ & _ & Hs & Hnm & _).
  destruct (trip_at (dir_index x)) as (y & n1 & Hy & Hn1 & Hsz & Hp); [rewrite <- Hl; by eapply lookup_lt_Some|]. rewrite Hlx in Hy. injection Hy as <-. rewrite Hn0 in Hn1. injection Hn1 as <-. cbn [fst snd] in *.
  set (D := dirents_for (v6_offset n) x.2 x.1) in *. set (n' := with_dirents D n) in *. change (v6_offset n') with (v6_offset n). fold D.
  assert (v5i_is_dir (v6_inode n') = true) as Kd. { destruct (placed_same _ _ _ _ Hp) as (E1 & _). destruct (sized_kind d n0) as (S1 & _). change (v6_inode n') with (v6_inode n). rewrite E1, S1. exact Hd0. }
  destruct (trip_dumpable _ _ n' Hsz Hn) as [(Hok & Hwp & Hco) Hin]. pose proof (fun w => trip_stored _ n' w Hn) as Hst. pose proof (read_dir ds Hmap Hk Hok Hwp Hco Hma Hm0 Hst Hw Hin Kd (fun j b => trip_pad _ d n' j b Hsz Hn Kd)) as Hdir.
  destruct (dir_pack_shape _ _ _ (no_dir _ _ _ _ _ Hok Kd)) as [Hcat _]. change (v6_dirents (shifted meta_addr n')) with D in Hcat. eexists _, _. split; [exact Hdir|]. rewrite Hcat. split_and!; [done| | |].
  - destruct (placed_same _ _ _ _ Hp) as (_ & _ & _ & _ & _ & _). destruct Hp as [Hi (_ & _ & F3 & _) _ _ _ _]. destruct (vi_fresh _ _ _ Hi) as (_ & Hd & _). rewrite Hd in F3.
    destruct (push_dirents_fresh x.2 x.1 n F3 Hs Hnm) as [_ Hss]. fold D in Hss. clear -Hss. induction Hss as [|a L Hss IH Hfa]; [constructor|]. rewrite fmap_cons. constructor; [done|]. apply Forall_fmap. exact Hfa.
  - rewrite (ha_mode _ _ _ _ _ (read_attrs Hk Hok)). exact Kd.
  - unfold ow_ino. rewrite (proj1 Hw), Hmeta. destruct (no_offset _ _ _ _ _ Hok) as (O1 & O2 & O3). change (v6_offset n') with (v6_offset n) in *. rewrite usub_in by (unfold in_range; lia). cbn [mbind outcome_bind]. unfold EROFS_INODE_SLOT_SIZE. do 2 f_equal. lia.
Qed.

Lemma lookup_entry_in name e es : StronglySorted en_lt es -> e ∈ es -> en_name e = name -> lookup_entry name es = Some e.
Proof. intros Hs [j Hj]%list_elem_of_lookup Hn. by eapply lookup_entry_at. Qed.

(** An entry leads to the node at its offset. *)
Lemma trip_lookup x n' w e i d c' : x ∈ vt_dirs T EROFS_BLOCK_SIZE -> nodes !! dir_index x = Some n' -> wraps n' w -> e ∈ dirents_for (v6_offset n') x.2 x.1 ->
  v6_sizes !! i = Some d -> nodes !! i = Some c' -> v6_offset c' = e.1.1 -> exists w', v6_get_child_by_name ds w e.1.2 = Ok w' /\ wraps c' w'.
Proof.
  intros Hx Hn Hw He Hd Hc Ho. destruct (trip_dir_stored x n' w Hx Hn Hw) as (inode & blocks & Hdir & Hcat & Hss & _ & Hino). pose proof Hss as Hss'. rewrite Hcat in Hss'.
  assert (entry_of meta_addr meta_addr e ∈ entry_of meta_addr meta_addr <$> dirents_for (v6_offset n') x.2 x.1) as Hin by (by apply list_elem_of_fmap_2).
  rewrite (dir_lookup ds Hdir Hss e.1.2).
  - rewrite Hcat, (lookup_entry_in _ (entry_of meta_addr meta_addr e) _ Hss' Hin) by done. rewrite Hino. cbn [mbind outcome_bind]. unfold inode_wrapper_with_info. cbn [entry_of en_nid]. replace (e.1.1 + meta_addr - meta_addr) with (v6_offset c') by lia.
    rewrite (trip_wrapper i d c' Hd Hc). cbn [mbind outcome_bind]. eexists. split; [done|]. done.
  - rewrite Hcat. unfold dirents_for. intros e0 [= <-]. cbn [entry_of en_name fst snd]. apply list_elem_of_lookup in Hin as [[|j] Hj].
    + unfold dirents_for in Hj. assert (e.1.2 = DOT) as -> by exact (eq_sym (f_equal (fun o => match o with Some e => en_name e | None => [] end) Hj)). done.
    + pose proof (sorted_at _ 0 (S j) _ _ Hss' eq_refl Hj ltac:(lia)) as Hlt. unfold en_lt in Hlt. cbn [entry_of en_name fst snd] in Hlt. by rewrite Hlt.
Qed.

(** What is read of a directory: its children, their number, and nothing else. *)
Record v6_reads_dir (t : V6Tree) (n : V6Node) (w : OndiskInodeWrapper) : Prop := mkV6ReadsDir {
  vd_count : v6_get_child_count ds w = Ok (zlen (vt_children t));
  vd_missing : forall name, name_cmp DOT name <> Gt -> name ∉ DOT :: DOTDOT :: vt_names t -> v6_get_child_by_name ds w name = Err ENOENT;
  vd_listing : forall S (handler : OndiskInodeWrapper -> list Z -> Z -> Z -> stM S errno RafsInodeWalkAction) off s, 0 <= off ->
    v6_walk_children_inodes ds handler w off s = v6_walk_ref ds (w:=w) handler (drop (Z.to_nat off) (entry_of meta_addr meta_addr <$> v6_dirents n)) off s;
  vd_entries : exists q, v6_dirents n = dirents_for (v6_offset n) q t
}.

Lemma trip_reads_dir x n' w : x ∈ vt_dirs T EROFS_BLOCK_SIZE -> nodes !! dir_index x = Some n' -> wraps n' w -> v6_reads_dir x.1 n' w.
Proof.
  intros Hx Hn Hw. destruct (trip_dir_stored x n' w Hx Hn Hw) as (inode & blocks & Hdir & Hcat & Hss & Hmode & Hino). assert (v6_dirents n' = dirents_for (v6_offset n') x.2 x.1) as Hde.
  { destruct trip_set as (Hf & _ & Hdirs). destruct (Forall2_lookup_r _ _ _ _ _ Hf Hn) as (n & Hn0 & _). rewrite (Hdirs x n Hx Hn0) in Hn. injection Hn as <-. done. }
  assert (zlen (concat blocks) = 2 + zlen (vt_children x.1)) as Hz by (rewrite Hcat; unfold dirents_for, zlen; rewrite length_fmap; cbn [length]; rewrite length_fmap; lia).
  destruct (proj1 (Forall_forall _ _) (vb_dirs _ _ _ _ _ Hb) x Hx) as (_ & _ & _ & _ & _ & _ & _ & _ & Hlen). pose proof (zlen_nonneg (vt_children x.1)). constructor.
  - rewrite (dir_count ds Hdir Hmode), Hz by lia. f_equal. lia.
  - intros name Hge Hno. rewrite (dir_lookup ds Hdir Hss).
    + rewrite lookup_entry_None_in; [done|]. intros e He. rewrite name_cmp_eq. intros E. apply Hno. rewrite <- E. rewrite Hcat in He. apply list_elem_of_fmap in He as (y & -> & Hy). cbn [entry_of en_name]. unfold dirents_for in Hy.
      apply elem_of_cons in Hy as [->|Hy]; [left|]. apply elem_of_cons in Hy as [->|Hy]; [right; left|]. apply list_elem_of_fmap in Hy as (ch & -> & Hch). right. right. unfold vt_names. by apply (list_elem_of_fmap_2 (fun c => v6_name (vt_node c))).
    + rewrite Hcat. intros e [= <-]. exact Hge.
  - intros S handler off s Ho. rewrite (dir_walk ds Hdir handler off s Ho), Hcat, Hde. done.
  - by exists x.2.
Qed.

(** *** Paths *)

Fixpoint v6_resolve (names : list (list Z)) (w : OndiskInodeWrapper) : io OndiskInodeWrapper :=
  match names with [] => Ok w | name :: names => w ← v6_get_child_by_name ds w name; v6_resolve names w end.

Lemma v6_resolve_snoc names name w : v6_resolve (names ++ [name]) w = (w' ← v6_resolve names w; v6_get_child_by_name ds w' name).
Proof.
  revert w. induction names as [|a names IH]; intros w; cbn [app v6_resolve]; [cbn [mbind outcome_bind]; by destruct (v6_get_child_by_name ds w name)|].
  destruct (v6_get_child_by_name ds w a); [|done|done]. cbn [mbind outcome_bind]. apply IH.
Qed.

Lemma trip_tree_node t : t ∈ vt_all T -> exists d n, v6_sizes !! Z.to_nat (vt_index t - 1) = Some d /\ nodes !! Z.to_nat (vt_index t - 1) = Some n /\ v6_offset n = v6_offset (vt_node t).
Proof.
  intros Ht. destruct (trip_tree_placed t Ht) as (i & x & n & -> & _ & Hn & Hs & _ & Ho & _). destruct trip_set as (Hf & _). destruct (Forall2_lookup_l _ _ _ _ _ Hf Hn) as (n' & Hn' & D & ->). by exists x.1.1, (with_dirents D n).
Qed.

Lemma trip_path root_w : (forall n, nodes !! 0%nat = Some n -> wraps n root_w) -> forall names t q, v6_at T EROFS_BLOCK_SIZE names t q ->
  exists n w, nodes !! Z.to_nat (vt_index t - 1) = Some n /\ v6_resolve names root_w = Ok w /\ wraps n w.
Proof.
  intros Hroot names t q Hat. induction Hat as [|names p q ch Hat (n & w & Hn & Hr & Hw) Hd Hc].
  - destruct (trip_tree_node T) as (d & n & _ & Hn & _); [rewrite vt_all_eq; left|]. rewrite (proj1 (vb_root _ _ _ _ _ Hb)) in *. exists n, root_w. split_and!; [done|done|by apply Hroot].
  - pose proof (v6_at_all _ _ _ _ _ Hat) as Hp. destruct (trip_tree_node ch (vt_all_below T p ch Hp Hd Hc)) as (d & cn & Hs & Hcn & Ho).
    destruct (trip_lookup (p, q) n w (child_dirent ch) (Z.to_nat (vt_index ch - 1)) d cn (v6_at_dirs _ _ _ _ _ Hat Hd) Hn Hw) as (w' & Hl & Hw'); [right; right; by apply list_elem_of_fmap_2|exact Hs|exact Hcn|exact Ho|].
    exists cn, w'. split_and!; [done| |done]. rewrite v6_resolve_snoc, Hr. exact Hl.
Qed.
End trip.

(** What a mapping shows of a tree: each path resolves from the root to an inode with the attributes, extended
    attributes, symlink target and chunk addresses of its node, and a directory has exactly its children:
    their number, their listing, and no other name that sorts behind the directory itself. *)
Definition tree_read `{Profile} (k meta_addr : Z) (ds : DirectSuperBlockV6) (T : V6Tree) (nodes : list V6Node) (root_w : OndiskInodeWrapper) : Prop :=
  forall names t q, v6_at T EROFS_BLOCK_SIZE names t q -> exists n w, nodes !! Z.to_nat (vt_index t - 1) = Some n /\
    v6_resolve (ds:=ds) names root_w = Ok w /\ v6_reads (k:=k) (ds:=ds) n w /\ (v6_is_dir (vt_node t) = true -> v6_reads_dir (meta_addr:=meta_addr) (ds:=ds) t n w).

(** What the dump of placed nodes leaves: nodes that only got their entries, and writes between the first
    block of the metadata and the end of the placement. *)
Record v6_written (meta_addr lim : Z) (ns nodes : list V6Node) (ws : list (Z * list Z)) : Prop := {
  vw_root : exists root, nodes !! 0%nat = Some root /\ v6_offset root = EROFS_BLOCK_SIZE;
  vw_length : length nodes = length ns;
  vw_chunks : concat (v6_chunks <$> nodes) = concat (v6_chunks <$> ns);
  vw_pairs : existsb has_pairs nodes = existsb has_pairs ns;
  vw_offsets : Forall (fun n => 0 <= v6_offset n /\ v6_offset n + 32 <= lim) nodes;
  vw_writes : Forall (fun w => 0 <= w.1 /\ EROFS_BLOCK_SIZE + meta_addr <= w.1 /\ w.1 + zlen w.2 <= lim + meta_addr) ws;
  vw_some : exists w, w ∈ ws /\ w.2 <> [];
  vw_room : lim + meta_addr < 2 ^ 44
}.

Lemma dirents_set_same ns nodes : Forall2 dirents_set ns nodes -> concat (v6_chunks <$> nodes) = concat (v6_chunks <$> ns) /\ existsb has_pairs nodes = existsb has_pairs ns.
Proof. induction 1 as [|n n' ns nodes [D ->] _ [I1 I2]]; [done|]. rewrite !fmap_cons. cbn [concat existsb]. by rewrite I1, I2. Qed.

Lemma trip_written `{Profile} k meta_addr l ns lp np c T nodes root : 0 <= meta_addr -> meta_addr mod EROFS_BLOCK_SIZE = 0 ->
  v6_build k meta_addr l ns T -> v6_place_all lp BootstrapContext_new = Ok (np, c) -> placed_order lp np l ns ->
  rafsv6_update_dirents T EROFS_BLOCK_SIZE ns = Ok nodes -> nodes !! 0%nat = Some root -> v6_offset root = EROFS_BLOCK_SIZE ->
  v6_written meta_addr (bx_offset c) ns nodes (image_writes (k:=k) (meta_addr:=meta_addr) (meta_offset:=meta_addr) nodes).
Proof.
  intros Hm0 Hma Hb Hpl Hord Hup Hroot Ho. pose proof (trip_all Hm0 Hb Hpl Hord Hup) as Hall. destruct (trip_apart Hm0 Hb Hpl Hord Hup) as [Hap Hbd].
  destruct (trip_set Hm0 Hb Hpl Hord Hup) as (Hset & _). destruct (dirents_set_same _ _ Hset) as [Hch Hxa]. destruct (trip_placed_order Hm0 Hb Hpl Hord) as (_ & _ & _ & _ & _ & Hroom & _).
  pose proof (proj1 (image_bounds Hma _ _ _ Hall Hap Hm0 Hbd)) as Hbounds.
  assert (forall n, n ∈ nodes -> exists w, w ∈ image_writes (k:=k) (meta_addr:=meta_addr) (meta_offset:=meta_addr) nodes /\ w.2 <> [] /\ w.1 + zlen w.2 = v6_offset n + meta_addr + v6_size n) as Hend.
  { intros n Hn. destruct (inode_writes_end (shifted meta_addr n) (2 ^ k)) as (w & Hw & Hne & He). exists w. split_and!; [|done|exact He]. apply (in_image_writes nodes n w Hn). unfold node_writes. apply elem_of_app. by left. }
  constructor; [by exists root|symmetry; exact (Forall2_length _ _ _ Hset)|done|done| |exact Hbounds| |unfold EROFS_BLOCK_SIZE in Hroom; lia].
  - apply Forall_forall. intros n Hn. destruct (Hend n Hn) as (w & Hw & _ & He). pose proof (proj1 (Forall_forall _ _) Hbounds w Hw) as (_ & _ & Hle).
    pose proof Hn as Hn'. apply list_elem_of_lookup in Hn' as [i Hi]. destruct (Forall2_lookup_r _ _ _ _ _ Hall Hi) as (d & _ & Hok & _). destruct (no_offset _ _ _ _ _ Hok) as [H0 _]. split; [done|].
    assert (32 <= v6_size n). { unfold v6_size. pose proof (pairs_room_aligned (v6_pairs n)) as [_ R0]. destruct (v6_compact_inode n), (bool_decide _); lia. } lia.
  - destruct (Hend root (list_elem_of_lookup_2 _ _ _ Hroot)) as (w & Hw & Hne & _). by exists w.
Qed.

(** Nodes are placed in any order, directories get their entries and the nodes are dumped; every mapping of a
    file that has these writes, behind the metadata address, shows the tree. *)
Lemma v6_image_run `{Profile} k meta_addr l ns lp np c T : 12 <= k < 32 -> 0 <= meta_addr -> meta_addr mod EROFS_BLOCK_SIZE = 0 ->
  v6_build k meta_addr l ns T -> v6_place_all lp BootstrapContext_new = Ok (np, c) -> placed_order lp np l ns ->
  exists nodes ws, rafsv6_update_dirents T EROFS_BLOCK_SIZE ns = Ok nodes /\ v6_written meta_addr (bx_offset c) ns nodes ws /\
  (forall s, exists s', dump_nodes_v6 (2 ^ k) 0 meta_addr nodes s = (Ok (shifted meta_addr <$> nodes), s') /\ du_bytes s' = apply_writes ws (du_bytes s) /\
     collects (concat (v6_chunks <$> nodes)) (existsb has_pairs nodes) s s') /\
  forall f ds, (forall i, EROFS_BLOCK_SIZE + meta_addr <= i -> file_byte f i = 0) -> map_wf (ds_map ds) ->
    mapped (ds_map ds) (apply_writes ws f) (EROFS_BLOCK_SIZE + meta_addr) -> ds_meta_offset ds = meta_addr ->
    exists root_w, inode_wrapper ds (EROFS_BLOCK_SIZE / 32) = Ok root_w /\ tree_read k meta_addr ds T nodes root_w.
Proof.
  intros Hk Hm0 Hma Hb Hpl Hord. destruct (trip_update Hm0 Hb Hpl Hord) as (nodes & Hup & Hset & _). destruct (trip_root Hm0 Hb Hpl Hord) as (r0 & Hr0 & Hro). destruct (Forall2_lookup_l _ _ _ _ _ Hset Hr0) as (root & Hroot & D & Er).
  assert (v6_offset root = EROFS_BLOCK_SIZE) as Ho by (by rewrite Er). pose proof (trip_all Hm0 Hb Hpl Hord Hup) as Hall. destruct (trip_apart Hm0 Hb Hpl Hord Hup) as [Hap Hbd].
  exists nodes, (image_writes (k:=k) (meta_addr:=meta_addr) (meta_offset:=meta_addr) nodes). assert (0 <= meta_addr < 2 ^ 44) as Hmr.
  { pose proof (vb_room _ _ _ _ _ Hb) as Hrm. assert (0 <= all_cost l). { apply all_cost_pos. eapply Forall_impl; [exact (vb_nodes _ _ _ _ _ Hb)|]. intros x [_ Hx]. exact (vi_placeable _ _ _ Hx). } unfold EROFS_BLOCK_SIZE in Hrm. lia. }
  split_and!; [done|exact (trip_written _ _ _ _ _ _ _ _ _ root Hm0 Hma Hb Hpl Hord Hup Hroot Ho)| |].
  - intros s. destruct (dump_nodes_v6_run k meta_addr meta_addr (v6_sizes (l:=l)) nodes s Hk ltac:(unfold in_range; lia) ltac:(lia) (mod32_of_4096 _ Hma)) as (s' & Hr & Hbytes & Hc). { eapply Forall2_impl; [exact Hall|]. by intros d n [Hd _]. }
    rewrite Z.sub_diag in Hr. by exists s'.
  - intros f ds Hz Hmap Hmapped Hmeta. destruct (trip_tree_node Hm0 Hb Hpl Hord Hup T) as (d & n & Hs & Hn & _); [rewrite vt_all_eq; left|]. rewrite (proj1 (vb_root _ _ _ _ _ Hb)) in Hs, Hn. change (Z.to_nat (1 - 1)) with 0%nat in Hs, Hn. rewrite Hroot in Hn. injection Hn as <-.
    pose proof (trip_wrapper Hk Hm0 Hma Hb Hpl Hord Hup Hmap Hmapped Hmeta 0 d root Hs Hroot) as Hrw. rewrite Ho in Hrw.
    set (root_w := mkOndiskWrapper (EROFS_BLOCK_SIZE + meta_addr) ((v5i_size (v6_inode root) + 4095) / 4096) None None) in Hrw. exists root_w. split; [exact Hrw|].
    assert (forall n, nodes !! 0%nat = Some n -> wraps (meta_addr:=meta_addr) n root_w) as Hwr by (intros n0 Hn0; rewrite Hroot in Hn0; injection Hn0 as <-; unfold wraps; by rewrite Ho).
    intros names t q Hat. destruct (trip_path Hk Hm0 Hma Hb Hpl Hord Hup Hz Hmap Hmapped Hmeta root_w Hwr names t q Hat) as (n & w & Hn & Hres & Hw). exists n, w. split_and!; [done|done| |].
    + destruct (trip_tree_node Hm0 Hb Hpl Hord Hup t (v6_at_all _ _ _ _ _ Hat)) as (d' & n' & Hs' & Hn' & _). rewrite Hn in Hn'. injection Hn' as <-. exact (trip_reads Hk Hm0 Hma Hb Hpl Hord Hup Hmap Hmapped (Z.to_nat (vt_index t - 1)) d' n w Hs' Hn Hw).
    + intros Hd. exact (trip_reads_dir Hk Hm0 Hma Hb Hpl Hord Hup Hz Hmap Hmapped Hmeta (t, q) n w (v6_at_dirs _ _ _ _ _ Hat Hd) Hn Hw).
Qed.
