(* ===== verification/V6Edges.v ===== *)
(** Corner cases of RAFS v6 images: inputs the builder accepts and the reader does not read back. *)
From stdpp Require Import sorting.
From S2P Require Import Prelude Utils LittleEndian ChunkInfo Device RafsLayout RafsV5 RafsBlobTable RafsV5Inode CachedInode CachedDir Overlay Builder RafsV6Inode DirectV6 RafsV6Xattr V6Layout V6Dump V6Update V6Image V6Trip.

(** ** Small images *)

(** A directory [/] with children that are no directories, built and mapped. *)
Section edge.
Context (P : Profile).
#[local] Existing Instance P.

Definition edge_image (root : V6Node) (kids : list V6Node) : option (DirectSuperBlockV6 * OndiskInodeWrapper) :=
  let names := sort_by_key id (v6_name <$> kids) in
  let kids := sort_by_key v6_name kids in
  match
    (d ← v6_dir_d_size root names;
     r ← v6_place_all ((d, None, root) :: ((fun n => (0, None, n)) <$> kids)) BootstrapContext_new;
     nodes ← match r.1 with
             | root :: kids => rafsv6_update_dirents (mkV6Tree root ((fun n => mkV6Tree n []) <$> kids)) EROFS_BLOCK_SIZE r.1
             | [] => Panic
             end;
     let '(_, s) := dump_nodes_v6 (2 ^ 20) 0 EROFS_BLOCK_SIZE nodes (mkDump [] 0 ∅ false) in
     let ds := mkDirectV6 EROFS_BLOCK_SIZE 128 (2 ^ 20) (mkMapping (mkFileMap 4096 (zlen (du_bytes s))) (du_bytes s)) in
     w ← inode_wrapper ds 128;
     Ok (E:=errno) (ds, w))
  with Ok r => Some r | _ => None end.

Definition edge_lookup (image : option (DirectSuperBlockV6 * OndiskInodeWrapper)) (name : list Z) : option (io (option Z)) :=
  i ← image; Some (w ← v6_get_child_by_name i.1 i.2 name; Ok (Some (ow_offset w))).
End edge.

Definition edge_node (idx mode size : Z) (path : list (list Z)) (xattrs : gmap (list Z) (list Z)) (target : option (list Z)) : V6Node :=
  mkV6Node (mkNode idx 0 idx 0 (mkV5Inode 0 0 idx 0 0 0 mode size 0 0 1 0 0 0 0 0 0 42 0) [] xattrs target UpperAddition [] path 0) true EROFS_INODE_FLAT_PLAIN 0 [] 0.

(** Empty files with the given names. *)
Definition edge_files (names : list (list Z)) : list V6Node := imap (fun i name => edge_node (Z.of_nat i + 2) 0x81a4 0 [name] ∅ None) names.
Definition edge_root : V6Node := edge_node 1 0x41ed 0 [] ∅ None.


(** ** Directories *)

Definition long_name (n : nat) (i : Z) : list Z := replicate n 97 ++ [i].

(** Sixteen names that fill a block with the entries of the directory and its parent: 4096 bytes. *)
Definition block_of_names : list (list Z) := (long_name 254 <$> seqZ 1 15) ++ [long_name 51 99].


(** Looking up a name that sorts before every entry: [last = pivot - 1] overflows at the first block. *)
Theorem lookup_before_first_entry_overflows :
  edge_lookup dev_profile (edge_image dev_profile edge_root (edge_files [[97]; [98]])) [33] = Some Panic /\
  edge_lookup dev_profile (edge_image dev_profile edge_root (edge_files [[97]; [98]])) [98] = Some (Ok (Some 8320)).
Proof. vm_compute. done. Qed.

(** Names that sort before [.]. *)
Definition low_names : list (list Z) := (fun i => 33 :: replicate 253 97 ++ [i]) <$> seqZ 1 16.

(** The size a directory is placed with counts [.] and [..] first; the entries are packed in sorted order,
    and with enough names that sort before [.] they take more room than was placed: the directory is
    dumped without an error, and none of its entries is found. *)
Theorem directory_size_ignores_order :
  @v6_dir_d_size dev_profile edge_root low_names = Ok 4363 /\
  packed_size (pack (entry_of 0 0 <$> v6_dirents (push_dirents 0 ((fun n => mkV6Tree n []) <$> edge_files low_names) edge_root)) []) = 4390 /\
  Forall (fun name => edge_lookup false (edge_image false edge_root (edge_files low_names)) name = Some (Err ENOENT)) low_names.
Proof. split_and!; [vm_compute; done|vm_compute; done|]. vm_compute. repeat constructor. Qed.

(** ** Inodes *)

Definition edge_symlink (P : Profile) (image : option (DirectSuperBlockV6 * OndiskInodeWrapper)) (name : list Z) : option (io (list Z)) :=
  i ← image; Some (w ← v6_get_child_by_name i.1 i.2 name; v6_get_symlink i.1 w).

(** A symlink to [12345678] with one extended attribute, and a file behind it. *)
Definition edge_target : list Z := [49; 50; 51; 52; 53; 54; 55; 56].
Definition edge_link (value : list Z) : list V6Node :=
  [edge_node 2 0xa1ff 8 [[108]] {[ bytes_of_string "user.a" := value ]} (Some edge_target); edge_node 3 0x81a4 0 [[109]] ∅ None].

(** the tail of data is written right behind the extended attributes, which are aligned to 4, and read
    where the size of the inode is rounded up to 8: the target of a symlink with extended attributes of
    20 bytes loses its first four bytes; with attributes of 24 bytes it reads back. *)
Theorem inline_data_misaligned :
  edge_symlink dev_profile (edge_image dev_profile edge_root (edge_link [1])) [108] = Some (Ok ([53; 54; 55; 56] ++ [0; 0; 0; 0])) /\
  edge_symlink dev_profile (edge_image dev_profile edge_root (edge_link [1; 2; 3; 4])) [108] = Some (Ok edge_target).
Proof. vm_compute. done. Qed.

(** A compact inode has no room for a device number: an extended inode keeps the number of a device, a
    compact one, which [v6_set_inode_compact] chooses for any device with small owner ids, loses it. *)
Theorem compact_device_number_lost inode layout xattrs : is_special inode = true -> v5i_ino inode < 2 ^ 31 ->
  (exists i, new_v6_inode inode layout xattrs true = Ok i /\ oi_rdev i = 0) /\ (exists i, new_v6_inode inode layout xattrs false = Ok i /\ oi_rdev i = v5i_rdev inode) /\
  v6_set_inode_compact false (v6_node (edge_node 1 0x21a4 0 [[97]] ∅ None)) = true.
Proof.
  intros Hs Hi. unfold new_v6_inode. rewrite Hs, (proj2 (Z.leb_le _ _)) by lia. cbn [rassert mbind outcome_bind]. split_and!; [by eexists|by eexists|done].
Qed.

(** Attributes of access control lists have no suffix, and a key must be longer than its prefix. *)
Theorem posix_acl_refused value x :
  xattrs_add (bytes_of_string "system.posix_acl_access") value x = Err EINVAL /\ xattrs_add (bytes_of_string "system.posix_acl_default") value x = Err EINVAL.
Proof. unfold xattrs_add. destruct (_ <? Z.of_nat (length value)) ; vm_compute; done. Qed.
