(* ===== verification/RafsV6Super.v ===== *)
(** Super block, extended super block and device slots of RAFS v6
    ([rafs/src/metadata/layout/v6.rs]).

    The super block is that of EROFS, so that the kernel can mount the image; the extended super
    block behind it names the tables of RAFS. [validate] is what stands between a bootstrap and the
    code that maps its tables: the theorems say exactly what it accepts, and that the structures
    are read back as they were written. *)
From S2P Require Import Prelude Utils LittleEndian ChunkInfo Device RafsLayout RafsV5 RafsBlobTable RafsV5Inode CachedInode RafsV6Inode V6Layout V6Dump.

Definition EROFS_SUPER_OFFSET : Z := 1024.
Definition EROFS_SUPER_BLOCK_SIZE : Z := 128.
Definition EROFS_DEVTABLE_OFFSET : Z := 1408.
Definition EROFS_SUPER_MAGIC_V1 : Z := 0xE0F5E1E2.
Definition EROFS_FEATURE_COMPAT_RAFS_V6 : Z := 0x40000000.
Definition EROFS_FEATURE_INCOMPAT_CHUNKED_FILE : Z := 4.
Definition EROFS_FEATURE_INCOMPAT_DEVICE_TABLE : Z := 8.
Definition BLOB_SHA256_LEN : Z := 64.

(** ** Super block *)

(** Arrays of bytes that no code looks into are the number they are in little endian. *)
Record RafsV6SuperBlock := mkV6Super {
  s6_magic : Z;
  s6_checksum : Z;
  s6_feature_compat : Z;
  s6_blkszbits : Z;
  s6_extslots : Z;
  s6_root_nid : Z;
  s6_inos : Z;
  s6_build_time : Z;
  s6_build_time_nsec : Z;
  s6_blocks : Z;
  s6_meta_blkaddr : Z;
  s6_xattr_blkaddr : Z;
  s6_uuid : Z;
  s6_volume_name : Z;
  s6_feature_incompat : Z;
  s6_u : Z;
  s6_extra_devices : Z;
  s6_devt_slotoff : Z;
  s6_reserved : Z
}.

Definition RafsV6SuperBlock_new : RafsV6SuperBlock :=
  mkV6Super EROFS_SUPER_MAGIC_V1 0 EROFS_FEATURE_COMPAT_RAFS_V6 EROFS_BLOCK_BITS 0 0 0 0 0 1 0 0 0 0
    (Z.lor EROFS_FEATURE_INCOMPAT_CHUNKED_FILE EROFS_FEATURE_INCOMPAT_DEVICE_TABLE) 0 0 (EROFS_DEVTABLE_OFFSET / 128) 0.

Definition sb6_set_inos (inos : Z) (s : RafsV6SuperBlock) : RafsV6SuperBlock :=
  mkV6Super (s6_magic s) (s6_checksum s) (s6_feature_compat s) (s6_blkszbits s) (s6_extslots s) (s6_root_nid s) inos (s6_build_time s) (s6_build_time_nsec s)
    (s6_blocks s) (s6_meta_blkaddr s) (s6_xattr_blkaddr s) (s6_uuid s) (s6_volume_name s) (s6_feature_incompat s) (s6_u s) (s6_extra_devices s) (s6_devt_slotoff s) (s6_reserved s).

Definition sb6_set_blocks (blocks : Z) (s : RafsV6SuperBlock) : RafsV6SuperBlock :=
  mkV6Super (s6_magic s) (s6_checksum s) (s6_feature_compat s) (s6_blkszbits s) (s6_extslots s) (s6_root_nid s) (s6_inos s) (s6_build_time s) (s6_build_time_nsec s)
    blocks (s6_meta_blkaddr s) (s6_xattr_blkaddr s) (s6_uuid s) (s6_volume_name s) (s6_feature_incompat s) (s6_u s) (s6_extra_devices s) (s6_devt_slotoff s) (s6_reserved s).

Definition sb6_set_root_nid (nid : Z) (s : RafsV6SuperBlock) : RafsV6SuperBlock :=
  mkV6Super (s6_magic s) (s6_checksum s) (s6_feature_compat s) (s6_blkszbits s) (s6_extslots s) nid (s6_inos s) (s6_build_time s) (s6_build_time_nsec s)
    (s6_blocks s) (s6_meta_blkaddr s) (s6_xattr_blkaddr s) (s6_uuid s) (s6_volume_name s) (s6_feature_incompat s) (s6_u s) (s6_extra_devices s) (s6_devt_slotoff s) (s6_reserved s).

Definition sb6_set_meta_addr (meta_addr : Z) (s : RafsV6SuperBlock) : io RafsV6SuperBlock :=
  _ ← rassert (meta_addr / EROFS_BLOCK_SIZE <=? u32_MAX);
  Ok (mkV6Super (s6_magic s) (s6_checksum s) (s6_feature_compat s) (s6_blkszbits s) (s6_extslots s) (s6_root_nid s) (s6_inos s) (s6_build_time s) (s6_build_time_nsec s)
    (s6_blocks s) (wrap 32 (meta_addr / EROFS_BLOCK_SIZE)) (s6_xattr_blkaddr s) (s6_uuid s) (s6_volume_name s) (s6_feature_incompat s) (s6_u s) (s6_extra_devices s) (s6_devt_slotoff s) (s6_reserved s)).

Definition sb6_set_extra_devices (count : Z) (s : RafsV6SuperBlock) : RafsV6SuperBlock :=
  mkV6Super (s6_magic s) (s6_checksum s) (s6_feature_compat s) (s6_blkszbits s) (s6_extslots s) (s6_root_nid s) (s6_inos s) (s6_build_time s) (s6_build_time_nsec s)
    (s6_blocks s) (s6_meta_blkaddr s) (s6_xattr_blkaddr s) (s6_uuid s) (s6_volume_name s) (s6_feature_incompat s) (s6_u s) count (s6_devt_slotoff s) (s6_reserved s).

Definition sb6_bytes (s : RafsV6SuperBlock) : list Z :=
  le_bytes 4 (s6_magic s) ++ le_bytes 4 (s6_checksum s) ++ le_bytes 4 (s6_feature_compat s) ++ le_bytes 1 (s6_blkszbits s) ++ le_bytes 1 (s6_extslots s) ++
  le_bytes 2 (s6_root_nid s) ++ le_bytes 8 (s6_inos s) ++ le_bytes 8 (s6_build_time s) ++ le_bytes 4 (s6_build_time_nsec s) ++ le_bytes 4 (s6_blocks s) ++
  le_bytes 4 (s6_meta_blkaddr s) ++ le_bytes 4 (s6_xattr_blkaddr s) ++ le_bytes 16 (s6_uuid s) ++ le_bytes 16 (s6_volume_name s) ++
  le_bytes 4 (s6_feature_incompat s) ++ le_bytes 2 (s6_u s) ++ le_bytes 2 (s6_extra_devices s) ++ le_bytes 2 (s6_devt_slotoff s) ++ le_bytes 38 (s6_reserved s).

Definition sb6_of_bytes (b : list Z) : RafsV6SuperBlock :=
  mkV6Super (get_le 0 4 b) (get_le 4 4 b) (get_le 8 4 b) (get_le 12 1 b) (get_le 13 1 b) (get_le 14 2 b) (get_le 16 8 b) (get_le 24 8 b) (get_le 32 4 b)
    (get_le 36 4 b) (get_le 40 4 b) (get_le 44 4 b) (get_le 48 16 b) (get_le 64 16 b) (get_le 80 4 b) (get_le 84 2 b) (get_le 86 2 b) (get_le 88 2 b) (get_le 90 38 b).

Definition sb6_load : stM (list Z) errno RafsV6SuperBlock :=
  _ ← read_exact (Z.to_nat EROFS_SUPER_OFFSET); b ← read_exact 128; st_ret (sb6_of_bytes b).

Definition sb6_store (s : RafsV6SuperBlock) : stM (list Z) errno Z :=
  _ ← write_all (replicate (Z.to_nat EROFS_SUPER_OFFSET) 0);
  _ ← write_all (sb6_bytes s);
  _ ← write_all (replicate (Z.to_nat (EROFS_BLOCK_SIZE - (EROFS_SUPER_OFFSET + EROFS_SUPER_BLOCK_SIZE))) 0);
  st_ret EROFS_BLOCK_SIZE.

Definition is_rafs_v6 (s : RafsV6SuperBlock) : bool := s6_magic s =? EROFS_SUPER_MAGIC_V1.

Definition sb6_validate (s : RafsV6SuperBlock) (meta_size : Z) : io unit :=
  if meta_size <? EROFS_BLOCK_SIZE then Err EINVAL
  else if negb (Z.land meta_size (EROFS_BLOCK_SIZE - 1) =? 0) then Err EINVAL
  else if negb (s6_magic s =? EROFS_SUPER_MAGIC_V1) then Err EINVAL
  else if negb (s6_checksum s =? 0) then Err EINVAL
  else if negb (s6_blkszbits s =? EROFS_BLOCK_BITS) then Err EINVAL
  else if s6_inos s =? 0 then Err EINVAL
  else if negb (s6_extslots s =? 0) then Err EINVAL
  else if negb (s6_u s =? 0) then Err EINVAL
  else if negb (s6_xattr_blkaddr s =? 0) then Err EINVAL
  else if (s6_extra_devices s =? 0) && negb (s6_blocks s =? 0) && negb (s6_blocks s =? 4096) then Err EINVAL
  else if negb (s6_devt_slotoff s =? EROFS_DEVTABLE_OFFSET / 128) then Err EINVAL
  else if negb (s6_feature_incompat s =? Z.lor EROFS_FEATURE_INCOMPAT_CHUNKED_FILE EROFS_FEATURE_INCOMPAT_DEVICE_TABLE) then Err EINVAL
  else if negb (Z.land (s6_feature_compat s) EROFS_FEATURE_COMPAT_RAFS_V6 =? EROFS_FEATURE_COMPAT_RAFS_V6) then Err EINVAL
  else Ok tt.

(** ** Extended super block *)

Record RafsV6SuperBlockExt := mkV6SuperExt {
  x_flags : Z;
  x_blob_table_offset : Z;
  x_blob_table_size : Z;
  x_chunk_size : Z;
  x_chunk_table_offset : Z;
  x_chunk_table_size : Z;
  x_prefetch_table_offset : Z;
  x_prefetch_table_size : Z;
  x_padding : Z;
  x_reserved : Z
}.

Definition RafsV6SuperBlockExt_new : RafsV6SuperBlockExt := mkV6SuperExt 0 0 0 0 0 0 0 0 0 0.

Definition ext6_set_flags (flags : Z) (x : RafsV6SuperBlockExt) : RafsV6SuperBlockExt :=
  mkV6SuperExt flags (x_blob_table_offset x) (x_blob_table_size x) (x_chunk_size x) (x_chunk_table_offset x) (x_chunk_table_size x)
    (x_prefetch_table_offset x) (x_prefetch_table_size x) (x_padding x) (x_reserved x).

Definition ext6_set_compressor (c : CompressAlgorithm) (x : RafsV6SuperBlockExt) : RafsV6SuperBlockExt :=
  let f := clear_flag COMPRESSION_NONE (x_flags x) in
  let f := clear_flag COMPRESSION_LZ4 f in
  let f := clear_flag COMPRESSION_GZIP f in
  let f := clear_flag COMPRESSION_ZSTD f in
  ext6_set_flags (Z.lor f (compressor_flags c)) x.

Definition ext6_set_digester (d : DigestAlgorithm) (x : RafsV6SuperBlockExt) : RafsV6SuperBlockExt :=
  let f := clear_flag HASH_BLAKE3 (x_flags x) in
  let f := clear_flag HASH_SHA256 f in
  ext6_set_flags (Z.lor f (digester_flags d)) x.

Definition ext6_set_has_xattr (x : RafsV6SuperBlockExt) : RafsV6SuperBlockExt := ext6_set_flags (Z.lor (x_flags x) HAS_XATTR) x.
Definition ext6_set_explicit_uidgid (x : RafsV6SuperBlockExt) : RafsV6SuperBlockExt := ext6_set_flags (Z.lor (x_flags x) EXPLICIT_UID_GID) x.

(** The generated setters, those of a table together. *)
Definition ext6_set_chunk_size (size : Z) (x : RafsV6SuperBlockExt) : RafsV6SuperBlockExt :=
  mkV6SuperExt (x_flags x) (x_blob_table_offset x) (x_blob_table_size x) size (x_chunk_table_offset x) (x_chunk_table_size x)
    (x_prefetch_table_offset x) (x_prefetch_table_size x) (x_padding x) (x_reserved x).
Definition ext6_set_blob_table (offset size : Z) (x : RafsV6SuperBlockExt) : RafsV6SuperBlockExt :=
  mkV6SuperExt (x_flags x) offset size (x_chunk_size x) (x_chunk_table_offset x) (x_chunk_table_size x)
    (x_prefetch_table_offset x) (x_prefetch_table_size x) (x_padding x) (x_reserved x).
Definition ext6_set_prefetch_table (offset size : Z) (x : RafsV6SuperBlockExt) : RafsV6SuperBlockExt :=
  mkV6SuperExt (x_flags x) (x_blob_table_offset x) (x_blob_table_size x) (x_chunk_size x) (x_chunk_table_offset x) (x_chunk_table_size x)
    offset size (x_padding x) (x_reserved x).
Definition ext6_set_chunk_table (offset size : Z) (x : RafsV6SuperBlockExt) : RafsV6SuperBlockExt :=
  mkV6SuperExt (x_flags x) (x_blob_table_offset x) (x_blob_table_size x) (x_chunk_size x) offset size
    (x_prefetch_table_offset x) (x_prefetch_table_size x) (x_padding x) (x_reserved x).

Definition ext6_bytes (x : RafsV6SuperBlockExt) : list Z :=
  le_bytes 8 (x_flags x) ++ le_bytes 8 (x_blob_table_offset x) ++ le_bytes 4 (x_blob_table_size x) ++ le_bytes 4 (x_chunk_size x) ++
  le_bytes 8 (x_chunk_table_offset x) ++ le_bytes 8 (x_chunk_table_size x) ++ le_bytes 8 (x_prefetch_table_offset x) ++
  le_bytes 4 (x_prefetch_table_size x) ++ le_bytes 4 (x_padding x) ++ le_bytes 200 (x_reserved x).

Definition ext6_of_bytes (b : list Z) : RafsV6SuperBlockExt :=
  mkV6SuperExt (get_le 0 8 b) (get_le 8 8 b) (get_le 16 4 b) (get_le 20 4 b) (get_le 24 8 b) (get_le 32 8 b) (get_le 40 8 b) (get_le 48 4 b)
    (get_le 52 4 b) (get_le 56 200 b).

(** Seeks to the extended super block of the file and reads it. *)
Definition ext6_load (file : list Z) : io RafsV6SuperBlockExt :=
  b ← (read_exact 256 (drop (Z.to_nat (EROFS_SUPER_OFFSET + EROFS_SUPER_BLOCK_SIZE)) file)).1; Ok (ext6_of_bytes b).

Definition ext6_store (x : RafsV6SuperBlockExt) : stM DumpState errno Z :=
  _ ← seek_offset (EROFS_SUPER_OFFSET + EROFS_SUPER_BLOCK_SIZE);
  _ ← du_write (ext6_bytes x);
  _ ← seek_offset EROFS_BLOCK_SIZE;
  st_ret (EROFS_BLOCK_SIZE - (EROFS_SUPER_OFFSET + EROFS_SUPER_BLOCK_SIZE)).

(** [u64::count_ones]. *)
Definition count_ones_u64 (x : Z) : Z := foldr (fun i n => Z.b2z (Z.testbit x i) + n) 0 (seqZ 0 64).

Section validate.
Context `{Profile}.

(** The checks of the three tables: the blob table, [blob_range] being what the others must not
    meet, the chunk table and the prefetch table. *)
Definition ext6_validate_blobs (x : RafsV6SuperBlockExt) (meta_size : Z) : io MetaRange :=
  let blob_offset := x_blob_table_offset x in
  let blob_size := x_blob_table_size x in
  bad ← (if negb (Z.land blob_offset (EROFS_BLOCK_SIZE - 1) =? 0) || (blob_offset <? EROFS_BLOCK_SIZE) || negb (blob_size mod 256 =? 0) ||
            bool_decide (checked_add 64 blob_offset blob_size = None) then Ok true
         else e ← uadd 64 blob_offset blob_size; Ok (meta_size <? e));
  if (bad : bool) then Err EINVAL else MetaRange_new blob_offset blob_size true.

Definition ext6_validate_chunks (x : RafsV6SuperBlockExt) (meta_size : Z) (blob_range : MetaRange) : io unit :=
  if 0 <? x_chunk_table_size x then
    let chunk_tbl_offset := x_chunk_table_offset x in
    let chunk_tbl_size := x_chunk_table_size x in
    bad ← (if (chunk_tbl_offset <? EROFS_BLOCK_SIZE) || negb (chunk_tbl_offset mod EROFS_BLOCK_SIZE =? 0) || negb (chunk_tbl_size mod 80 =? 0) ||
              bool_decide (checked_add 64 chunk_tbl_offset chunk_tbl_size = None) then Ok true
           else e ← uadd 64 chunk_tbl_offset chunk_tbl_size; Ok (meta_size <? e));
    if (bad : bool) then Err EINVAL else
    chunk_range ← MetaRange_new chunk_tbl_offset chunk_tbl_size true;
    bad ← intersect_with blob_range chunk_range;
    if (bad : bool) then Err EINVAL else Ok tt
  else Ok tt.

Definition ext6_validate_prefetch (x : RafsV6SuperBlockExt) (meta_size : Z) (blob_range : MetaRange) : io unit :=
  if (0 <? x_prefetch_table_size x) && negb (x_prefetch_table_offset x =? 0) then
    let tbl_offset := x_prefetch_table_offset x in
    let tbl_size := x_prefetch_table_size x in
    bad ← (if (tbl_offset <? EROFS_BLOCK_SIZE) || negb (tbl_size mod 4 =? 0) || bool_decide (checked_add 64 tbl_offset tbl_size = None) then Ok true
           else e ← uadd 64 tbl_offset tbl_size; Ok (meta_size <? e));
    if (bad : bool) then Err EINVAL else
    prefetch_range ← MetaRange_new tbl_offset tbl_size false;
    bad ← intersect_with blob_range prefetch_range;
    if (bad : bool) then Err EINVAL else Ok tt
  else Ok tt.

Definition COMPRESSION_FLAGS : Z := Z.lor (Z.lor (Z.lor COMPRESSION_NONE COMPRESSION_LZ4) COMPRESSION_GZIP) COMPRESSION_ZSTD.

Definition ext6_validate (x : RafsV6SuperBlockExt) (meta_size : Z) : io unit :=
  if negb (count_ones_u64 (Z.land (x_flags x) COMPRESSION_FLAGS) =? 1) then Err EINVAL
  else if negb (count_ones_u64 (Z.land (x_flags x) (Z.lor HASH_BLAKE3 HASH_SHA256)) =? 1) then Err EINVAL
  else
    let chunk_size := x_chunk_size x in
    if negb (is_power_of_two chunk_size) || (chunk_size <? EROFS_BLOCK_SIZE) || (RAFS_MAX_CHUNK_SIZE <? chunk_size) then Err EINVAL
    else
      blob_range ← ext6_validate_blobs x meta_size;
      _ ← ext6_validate_chunks x meta_size blob_range;
      ext6_validate_prefetch x meta_size blob_range.
End validate.

(** ** Device slots *)

Record RafsV6Device := mkV6Device { d_blob_id : list Z; d_blocks : Z; d_mapped_blkaddr : Z; d_reserved2 : Z }.

Definition RafsV6Device_new : RafsV6Device := mkV6Device (replicate 64 0) 0 0 0.
Definition dev_set_blob_id (id : list Z) (d : RafsV6Device) : RafsV6Device := mkV6Device id (d_blocks d) (d_mapped_blkaddr d) (d_reserved2 d).
Definition dev_set_blocks (blocks : Z) (d : RafsV6Device) : RafsV6Device := mkV6Device (d_blob_id d) blocks (d_mapped_blkaddr d) (d_reserved2 d).
Definition dev_set_mapped_blkaddr (addr : Z) (d : RafsV6Device) : RafsV6Device := mkV6Device (d_blob_id d) (d_blocks d) addr (d_reserved2 d).

Definition dev_bytes (d : RafsV6Device) : list Z :=
  d_blob_id d ++ le_bytes 4 (d_blocks d) ++ le_bytes 4 (d_mapped_blkaddr d) ++ le_bytes 56 (d_reserved2 d).
Definition dev_of_bytes (b : list Z) : RafsV6Device := mkV6Device (slice 0 64 b) (get_le 64 4 b) (get_le 68 4 b) (get_le 72 56 b).

Definition dev_load : stM (list Z) errno RafsV6Device := b ← read_exact 128; st_ret (dev_of_bytes b).
Definition dev_store (d : RafsV6Device) : stM (list Z) errno Z := _ ← write_all (dev_bytes d); st_ret 128.

Definition dev_validate (d : RafsV6Device) : io unit :=
  match from_utf8 (d_blob_id d) with
  | Ok v => if negb (zlen v =? BLOB_SHA256_LEN) then Err EINVAL
            else if d_blocks d =? 0 then Err EINVAL
            else if negb (d_mapped_blkaddr d =? 0) then Err EINVAL
            else Ok tt
  | Err _ => Err EINVAL
  | Panic => Panic
  end.

(** ** What is stored is loaded *)

Definition sb6_wf (s : RafsV6SuperBlock) : Prop :=
  in_range 32 (s6_magic s) /\ in_range 32 (s6_checksum s) /\ in_range 32 (s6_feature_compat s) /\ in_range 8 (s6_blkszbits s) /\ in_range 8 (s6_extslots s) /\
  in_range 16 (s6_root_nid s) /\ in_range 64 (s6_inos s) /\ in_range 64 (s6_build_time s) /\ in_range 32 (s6_build_time_nsec s) /\ in_range 32 (s6_blocks s) /\
  in_range 32 (s6_meta_blkaddr s) /\ in_range 32 (s6_xattr_blkaddr s) /\ in_range 128 (s6_uuid s) /\ in_range 128 (s6_volume_name s) /\
  in_range 32 (s6_feature_incompat s) /\ in_range 16 (s6_u s) /\ in_range 16 (s6_extra_devices s) /\ in_range 16 (s6_devt_slotoff s) /\ in_range 304 (s6_reserved s).

Definition ext6_wf (x : RafsV6SuperBlockExt) : Prop :=
  in_range 64 (x_flags x) /\ in_range 64 (x_blob_table_offset x) /\ in_range 32 (x_blob_table_size x) /\ in_range 32 (x_chunk_size x) /\
  in_range 64 (x_chunk_table_offset x) /\ in_range 64 (x_chunk_table_size x) /\ in_range 64 (x_prefetch_table_offset x) /\
  in_range 32 (x_prefetch_table_size x) /\ in_range 32 (x_padding x) /\ in_range 1600 (x_reserved x).

Lemma sb6_roundtrip s : sb6_wf s -> sb6_of_bytes (sb6_bytes s) = s.
Proof.
  intros (H1 & H2 & H3 & H4 & H5 & H6 & H7 & H8 & H9 & H10 & H11 & H12 & H13 & H14 & H15 & H16 & H17 & H18 & H19). unfold sb6_of_bytes, sb6_bytes.
  rewrite <- (app_nil_r (le_bytes 38 (s6_reserved s))). read_fields. by destruct s.
Qed.

Lemma ext6_roundtrip x : ext6_wf x -> ext6_of_bytes (ext6_bytes x) = x.
Proof.
  intros (H1 & H2 & H3 & H4 & H5 & H6 & H7 & H8 & H9 & H10). unfold ext6_of_bytes, ext6_bytes.
  rewrite <- (app_nil_r (le_bytes 200 (x_reserved x))). read_fields. by destruct x.
Qed.

Lemma length_sb6_bytes s : length (sb6_bytes s) = 128%nat.
Proof. unfold sb6_bytes. by rewrite !length_app, !length_le_bytes. Qed.

Lemma length_ext6_bytes x : length (ext6_bytes x) = 256%nat.
Proof. unfold ext6_bytes. by rewrite !length_app, !length_le_bytes. Qed.

Lemma dev_roundtrip d : length (d_blob_id d) = 64%nat -> in_range 32 (d_blocks d) -> in_range 32 (d_mapped_blkaddr d) -> in_range 448 (d_reserved2 d) ->
  dev_of_bytes (dev_bytes d) = d.
Proof.
  intros H1 H2 H3 H4. unfold dev_of_bytes, dev_bytes. rewrite <- (app_nil_r (le_bytes 56 (d_reserved2 d))). pose proof (slice_here (d_blob_id d)) as Hs. rewrite H1 in Hs. rewrite Hs.
  rewrite !(get_le_skip _ _ (d_blob_id d)) by lia. rewrite H1. cbn [Nat.sub]. read_fields. by destruct d.
Qed.

Lemma length_dev_bytes d : length (d_blob_id d) = 64%nat -> length (dev_bytes d) = 128%nat.
Proof. intros Hd. unfold dev_bytes. rewrite !length_app, !length_le_bytes. lia. Qed.

(** ** What [validate] accepts *)

Record sb6_valid (s : RafsV6SuperBlock) (meta_size : Z) : Prop := {
  sv_size : EROFS_BLOCK_SIZE <= meta_size /\ meta_size mod EROFS_BLOCK_SIZE = 0;
  sv_magic : s6_magic s = EROFS_SUPER_MAGIC_V1;
  sv_unused : s6_checksum s = 0 /\ s6_extslots s = 0 /\ s6_u s = 0 /\ s6_xattr_blkaddr s = 0;
  sv_bits : s6_blkszbits s = 12;
  sv_inos : s6_inos s <> 0;
  sv_blocks : s6_extra_devices s = 0 -> s6_blocks s = 0 \/ s6_blocks s = 4096;
  sv_devt : s6_devt_slotoff s = 11;
  sv_incompat : s6_feature_incompat s = 12;
  sv_compat : Z.testbit (s6_feature_compat s) 30 = true
}.

(** A table inside the metadata, behind the super blocks. *)
Definition table_within (offset size meta_size : Z) : Prop := EROFS_BLOCK_SIZE <= offset /\ offset + size <= meta_size.

Record ext6_valid (x : RafsV6SuperBlockExt) (meta_size : Z) : Prop := {
  xv_compressor : exists c, Z.land (x_flags x) COMPRESSION_FLAGS = compressor_flags c;
  xv_digester : exists d, Z.land (x_flags x) (Z.lor HASH_BLAKE3 HASH_SHA256) = digester_flags d;
  xv_chunk_size : is_power_of_two (x_chunk_size x) = true /\ EROFS_BLOCK_SIZE <= x_chunk_size x <= RAFS_MAX_CHUNK_SIZE;
  xv_blobs : x_blob_table_offset x mod EROFS_BLOCK_SIZE = 0 /\ x_blob_table_size x mod 256 = 0 /\
    table_within (x_blob_table_offset x) (x_blob_table_size x) meta_size;
  xv_chunks : x_chunk_table_size x <> 0 ->
    x_chunk_table_offset x mod EROFS_BLOCK_SIZE = 0 /\ x_chunk_table_size x mod 80 = 0 /\
    table_within (x_chunk_table_offset x) (x_chunk_table_size x) meta_size /\
    tables_disjoint (x_blob_table_offset x) (x_blob_table_size x) (x_chunk_table_offset x) (x_chunk_table_size x);
  xv_prefetch : x_prefetch_table_size x <> 0 -> x_prefetch_table_offset x <> 0 ->
    x_prefetch_table_offset x mod 8 = 0 /\ x_prefetch_table_size x mod 4 = 0 /\
    table_within (x_prefetch_table_offset x) (x_prefetch_table_size x) meta_size /\
    tables_disjoint (x_blob_table_offset x) (x_blob_table_size x) (x_prefetch_table_offset x) (x_prefetch_table_size x)
}.

Lemma land_4095 x : Z.land x (EROFS_BLOCK_SIZE - 1) = x mod EROFS_BLOCK_SIZE.
Proof. change (EROFS_BLOCK_SIZE - 1) with (Z.ones 12). by rewrite Z.land_ones. Qed.

Lemma sb6_validate_cases s meta_size : (sb6_validate s meta_size = Ok tt /\ sb6_valid s meta_size) \/ (sb6_validate s meta_size = Err EINVAL /\ ~ sb6_valid s meta_size).
Proof.
  unfold sb6_validate. rewrite land_4095.
  destruct (Z.ltb_spec meta_size EROFS_BLOCK_SIZE); [right; split; [done|]; intros []; lia|].
  destruct (Z.eqb_spec (meta_size mod EROFS_BLOCK_SIZE) 0); cbn [negb]; [|right; split; [done|]; intros []; tauto].
  destruct (Z.eqb_spec (s6_magic s) EROFS_SUPER_MAGIC_V1); cbn [negb]; [|right; split; [done|]; intros []; tauto].
  destruct (Z.eqb_spec (s6_checksum s) 0); cbn [negb]; [|right; split; [done|]; intros []; tauto].
  destruct (Z.eqb_spec (s6_blkszbits s) EROFS_BLOCK_BITS); cbn [negb]; [|right; split; [done|]; intros []; tauto].
  destruct (Z.eqb_spec (s6_inos s) 0); [right; split; [done|]; intros []; tauto|].
  destruct (Z.eqb_spec (s6_extslots s) 0); cbn [negb]; [|right; split; [done|]; intros []; tauto].
  destruct (Z.eqb_spec (s6_u s) 0); cbn [negb]; [|right; split; [done|]; intros []; tauto].
  destruct (Z.eqb_spec (s6_xattr_blkaddr s) 0); cbn [negb]; [|right; split; [done|]; intros []; tauto].
  destruct ((s6_extra_devices s =? 0) && negb (s6_blocks s =? 0) && negb (s6_blocks s =? 4096)) eqn:E; [right; split; [done|]; intros Hv; destruct (sv_blocks _ _ Hv) as [Eb|Eb]; [lia|rewrite Eb in E; cbn in E; lia|rewrite Eb in E; cbn in E; lia]|].
  destruct (Z.eqb_spec (s6_devt_slotoff s) (EROFS_DEVTABLE_OFFSET / 128)); cbn [negb]; [|right; split; [done|]; intros []; tauto].
  destruct (Z.eqb_spec (s6_feature_incompat s) (Z.lor EROFS_FEATURE_INCOMPAT_CHUNKED_FILE EROFS_FEATURE_INCOMPAT_DEVICE_TABLE)); cbn [negb]; [|right; split; [done|]; intros []; tauto].
  pose proof (flags_contain_bit (s6_feature_compat s) 30 ltac:(lia)) as Hb. unfold flags_contain in Hb. change (2 ^ 30) with EROFS_FEATURE_COMPAT_RAFS_V6 in Hb. rewrite Hb.
  destruct (Z.testbit (s6_feature_compat s) 30) eqn:E30; cbn [negb]; [|right; split; [done|]; intros []; congruence].
  left. split; [done|]. constructor; try done. intros Hx. lia.
Qed.

(** Bits of a mask among the lowest eight. *)
Lemma one_bit_mask m (fs : list Z) f : 0 <= m < 256 -> forallb (fun r => eqb (count_ones_u64 (Z.land r m) =? 1) (existsb (Z.eqb (Z.land r m)) fs)) (seqZ 0 256) = true ->
  (count_ones_u64 (Z.land f m) =? 1) = true <-> exists g, g ∈ fs /\ Z.land f m = g.
Proof.
  intros Hm Hall. assert (Z.land f m = Z.land (f mod 256) m) as ->.
  { change 256 with (2 ^ 8). rewrite <- Z.land_ones, <- Z.land_assoc, (Z.land_comm (Z.ones 8)) by lia. f_equal. rewrite Z.land_ones by lia. symmetry. by apply Z.mod_small. }
  pose proof (Z.mod_pos_bound f 256 ltac:(lia)). rewrite forallb_forall in Hall. specialize (Hall (f mod 256)). rewrite eqb_true_iff in Hall. rewrite Hall by (apply list_elem_of_In, elem_of_seqZ; lia).
  rewrite existsb_exists. split; intros (g & Hg & E); exists g; (split; [by apply list_elem_of_In|]); [by apply Z.eqb_eq in E|by apply Z.eqb_eq].
Qed.

Lemma compressor_check f : (count_ones_u64 (Z.land f COMPRESSION_FLAGS) =? 1) = true <-> exists c, Z.land f COMPRESSION_FLAGS = compressor_flags c.
Proof.
  rewrite (one_bit_mask COMPRESSION_FLAGS (compressor_flags <$> [CNone; CLz4Block; CGZip; CZstd]) f ltac:(split; [apply Z.leb_le|apply Z.ltb_lt]; reflexivity) ltac:(vm_compute; reflexivity)). split.
  - intros (g & (c & -> & _)%list_elem_of_fmap & E). by exists c.
  - intros [c E]. exists (compressor_flags c). split; [|done]. apply list_elem_of_fmap_2. destruct c; set_solver.
Qed.

Lemma digester_check f : (count_ones_u64 (Z.land f (Z.lor HASH_BLAKE3 HASH_SHA256)) =? 1) = true <-> exists d, Z.land f (Z.lor HASH_BLAKE3 HASH_SHA256) = digester_flags d.
Proof.
  rewrite (one_bit_mask (Z.lor HASH_BLAKE3 HASH_SHA256) (digester_flags <$> [Blake3; Sha256]) f ltac:(split; [apply Z.leb_le|apply Z.ltb_lt]; reflexivity) ltac:(vm_compute; reflexivity)). split.
  - intros (g & (c & -> & _)%list_elem_of_fmap & E). by exists c.
  - intros [c E]. exists (digester_flags c). split; [|done]. apply list_elem_of_fmap_2. destruct c; set_solver.
Qed.

Section validate_spec.
Context `{Profile}.

Lemma mod8_of n x : 0 < n -> x mod (n * 8) = 0 -> x mod 8 = 0.
Proof. intros Hn Hx. apply Z.mod_divide in Hx as [q ->]; [|lia]. rewrite Z.mul_assoc. by apply Z_mod_mult. Qed.

(** A table that starts behind the super blocks, and ends inside the metadata. *)
Lemma table_end_check (pre : bool) offset size meta_size : 0 <= offset -> 0 <= size -> in_range 64 meta_size ->
  exists bad : bool, (if pre || bool_decide (checked_add 64 offset size = None) then Ok true else e ← uadd 64 offset size; Ok (meta_size <? e)) = @Ok errno _ bad /\
    (bad = false <-> pre = false /\ offset + size <= meta_size).
Proof.
  intros Ho Hs Hm. unfold in_range in Hm. destruct pre; cbn [orb]; [exists true; split; [done|]; split; [done|by intros [? _]]|].
  case_bool_decide as E.
  - exists true. split; [done|]. split; [done|]. intros [_ Hle]. assert (checked_add 64 offset size = Some (offset + size)) as E' by (apply checked_add_Some; lia). congruence.
  - destruct (checked_add 64 offset size) as [c|] eqn:E'; [|done]. apply checked_add_Some in E' as [-> Hlt]. rewrite uadd_in by (split; lia). cbn [mbind outcome_bind].
    eexists. split; [reflexivity|]. rewrite Z.ltb_ge. tauto.
Qed.

Lemma ext6_blobs_cases x meta_size : ext6_wf x -> in_range 64 meta_size ->
  let P := x_blob_table_offset x mod EROFS_BLOCK_SIZE = 0 /\ x_blob_table_size x mod 256 = 0 /\ table_within (x_blob_table_offset x) (x_blob_table_size x) meta_size in
  (ext6_validate_blobs x meta_size = Ok (mkMetaRange (x_blob_table_offset x) (x_blob_table_size x)) /\ P) \/ (ext6_validate_blobs x meta_size = Err EINVAL /\ ~ P).
Proof.
  intros (_ & Ho & Hs & _) Hm P. unfold ext6_validate_blobs. rewrite land_4095. unfold in_range in Ho, Hs.
  destruct (table_end_check (negb (x_blob_table_offset x mod EROFS_BLOCK_SIZE =? 0) || (x_blob_table_offset x <? EROFS_BLOCK_SIZE) || negb (x_blob_table_size x mod 256 =? 0))
    (x_blob_table_offset x) (x_blob_table_size x) meta_size ltac:(lia) ltac:(lia) Hm) as (bad & E & Hb). cbv zeta. rewrite E. cbn [mbind outcome_bind].
  assert (bad = false <-> P) as HP. { rewrite Hb, !orb_false_iff, !negb_false_iff, !Z.eqb_eq, Z.ltb_ge. unfold P, table_within. tauto. }
  destruct bad; [right; split; [done|]; intros Hp; by apply HP in Hp|]. destruct (proj1 HP eq_refl) as (M1 & M2 & M3 & M4). left. split; [|by apply HP]. unfold in_range, EROFS_BLOCK_SIZE in *.
  destruct (MetaRange_new_cases (x_blob_table_offset x) (x_blob_table_size x) true) as [(-> & _)|[_ Hn]]; [done|]. destruct Hn. split_and!; [by apply (mod8_of 512)|lia|intros _; by apply (mod8_of 32)].
Qed.

Lemma range_within o s m : 0 <= s -> in_range 64 m -> table_within o s m -> range_ok (mkMetaRange o s).
Proof. unfold range_ok, table_within, EROFS_BLOCK_SIZE, in_range. cbn. lia. Qed.

Lemma ext6_chunks_cases x meta_size blobs : ext6_wf x -> in_range 64 meta_size -> range_ok blobs ->
  let P := x_chunk_table_size x <> 0 -> x_chunk_table_offset x mod EROFS_BLOCK_SIZE = 0 /\ x_chunk_table_size x mod 80 = 0 /\
    table_within (x_chunk_table_offset x) (x_chunk_table_size x) meta_size /\
    tables_disjoint (mr_start blobs) (mr_size blobs) (x_chunk_table_offset x) (x_chunk_table_size x) in
  (ext6_validate_chunks x meta_size blobs = Ok tt /\ P) \/ (ext6_validate_chunks x meta_size blobs = Err EINVAL /\ ~ P).
Proof.
  intros (_ & _ & _ & _ & Ho & Hs & _) Hm Hr P. unfold ext6_validate_chunks. unfold in_range in Ho, Hs.
  destruct (Z.ltb_spec 0 (x_chunk_table_size x)) as [Hz|Hz]; [|left; split; [done|]; intros ?; lia]. cbv zeta.
  destruct (table_end_check ((x_chunk_table_offset x <? EROFS_BLOCK_SIZE) || negb (x_chunk_table_offset x mod EROFS_BLOCK_SIZE =? 0) || negb (x_chunk_table_size x mod 80 =? 0))
    (x_chunk_table_offset x) (x_chunk_table_size x) meta_size ltac:(lia) ltac:(lia) Hm) as (bad & E & Hb). rewrite E. cbn [mbind outcome_bind].
  rewrite !orb_false_iff, !negb_false_iff, !Z.eqb_eq, Z.ltb_ge in Hb.
  destruct bad. { right. split; [done|]. intros Hp. destruct Hp as (Q1 & Q2 & [Q3 Q4] & _); [lia|]. by discriminate (proj2 Hb). }
  destruct (proj1 Hb eq_refl) as (((M1 & M2) & M3) & M4). assert (table_within (x_chunk_table_offset x) (x_chunk_table_size x) meta_size) as Ht by done.
  destruct (MetaRange_new_cases (x_chunk_table_offset x) (x_chunk_table_size x) true) as [(-> & _)|[_ Hn]]; cbn [mbind outcome_bind].
  2:{ destruct Hn. unfold in_range, EROFS_BLOCK_SIZE in *. split_and!; [by apply (mod8_of 512)|lia|intros _; by apply (mod8_of 10)]. }
  destruct (tests_meets (mr_start blobs) (mr_size blobs) (x_chunk_table_offset x) (x_chunk_table_size x)) as (b & E2 & Hd); [by destruct blobs|eapply range_within; [lia|exact Hm|exact Ht]|].
  assert (mkMetaRange (mr_start blobs) (mr_size blobs) = blobs) as Er by (by destruct blobs). rewrite Er in E2. rewrite E2. cbn [mbind outcome_bind].
  destruct b; [right; split; [done|]; intros Hp; destruct Hp as (_ & _ & _ & Q); [lia|by discriminate (proj2 Hd)]|]. left. split; [done|]. intros _. by split_and!; [| | |apply Hd].
Qed.

Lemma ext6_prefetch_cases x meta_size blobs : ext6_wf x -> in_range 64 meta_size -> range_ok blobs ->
  let P := x_prefetch_table_size x <> 0 -> x_prefetch_table_offset x <> 0 -> x_prefetch_table_offset x mod 8 = 0 /\ x_prefetch_table_size x mod 4 = 0 /\
    table_within (x_prefetch_table_offset x) (x_prefetch_table_size x) meta_size /\
    tables_disjoint (mr_start blobs) (mr_size blobs) (x_prefetch_table_offset x) (x_prefetch_table_size x) in
  (ext6_validate_prefetch x meta_size blobs = Ok tt /\ P) \/ (ext6_validate_prefetch x meta_size blobs = Err EINVAL /\ ~ P).
Proof.
  intros (_ & _ & _ & _ & _ & _ & Ho & Hs & _) Hm Hr P. unfold ext6_validate_prefetch. unfold in_range in Ho, Hs.
  destruct (Z.ltb_spec 0 (x_prefetch_table_size x)) as [Hz|Hz]; cbn [andb]; [|left; split; [done|]; intros ?; lia].
  destruct (Z.eqb_spec (x_prefetch_table_offset x) 0) as [Hz0|Hz0]; cbn [negb]; [left; split; [done|]; intros _ ?; done|]. cbv zeta.
  destruct (table_end_check ((x_prefetch_table_offset x <? EROFS_BLOCK_SIZE) || negb (x_prefetch_table_size x mod 4 =? 0))
    (x_prefetch_table_offset x) (x_prefetch_table_size x) meta_size ltac:(lia) ltac:(lia) Hm) as (bad & E & Hb). rewrite E. cbn [mbind outcome_bind].
  rewrite !orb_false_iff, !negb_false_iff, !Z.eqb_eq, Z.ltb_ge in Hb.
  destruct bad. { right. split; [done|]. intros Hp. destruct Hp as (Q1 & Q2 & [Q3 Q4] & _); [lia|lia|]. by discriminate (proj2 Hb). }
  destruct (proj1 Hb eq_refl) as ((M1 & M2) & M3). assert (table_within (x_prefetch_table_offset x) (x_prefetch_table_size x) meta_size) as Ht by done.
  destruct (MetaRange_new_cases (x_prefetch_table_offset x) (x_prefetch_table_size x) false) as [(-> & A8 & _)|[-> Hn]]; cbn [mbind outcome_bind].
  2:{ right. split; [done|]. intros Hp. destruct Hp as (Q1 & _); [lia|lia|]. apply Hn. unfold in_range, table_within in *. split_and!; [done|lia|done]. }
  destruct (tests_meets (mr_start blobs) (mr_size blobs) (x_prefetch_table_offset x) (x_prefetch_table_size x)) as (b & E2 & Hd); [by destruct blobs|eapply range_within; [lia|exact Hm|exact Ht]|].
  assert (mkMetaRange (mr_start blobs) (mr_size blobs) = blobs) as Er by (by destruct blobs). rewrite Er in E2. rewrite E2. cbn [mbind outcome_bind].
  destruct b; [right; split; [done|]; intros Hp; destruct Hp as (_ & _ & _ & Q); [lia|lia|by discriminate (proj2 Hd)]|]. left. split; [done|]. intros _ _. by split_and!; [| | |apply Hd].
Qed.

Lemma ext6_validate_cases x meta_size : ext6_wf x -> in_range 64 meta_size ->
  (ext6_validate x meta_size = Ok tt /\ ext6_valid x meta_size) \/ (ext6_validate x meta_size = Err EINVAL /\ ~ ext6_valid x meta_size).
Proof.
  intros Hw Hm. unfold ext6_validate. pose proof (compressor_check (x_flags x)) as Hc. pose proof (digester_check (x_flags x)) as Hd.
  destruct (count_ones_u64 (Z.land (x_flags x) COMPRESSION_FLAGS) =? 1); cbn [negb]; [|right; split; [done|]; intros [Q _ _ _ _ _]; by apply Hc in Q].
  destruct (count_ones_u64 (Z.land (x_flags x) (Z.lor HASH_BLAKE3 HASH_SHA256)) =? 1); cbn [negb]; [|right; split; [done|]; intros [_ Q _ _ _ _]; by apply Hd in Q]. cbv zeta.
  destruct (negb (is_power_of_two (x_chunk_size x)) || (x_chunk_size x <? EROFS_BLOCK_SIZE) || (RAFS_MAX_CHUNK_SIZE <? x_chunk_size x)) eqn:E.
  { right. split; [done|]. intros [_ _ [Q1 Q2] _ _ _]. rewrite Q1 in E. lia. }
  rewrite !orb_false_iff, negb_false_iff, !Z.ltb_ge in E. destruct E as ((E1 & E2) & E3).
  destruct (ext6_blobs_cases x meta_size Hw Hm) as [[-> B]|[-> B]]; cbn [mbind outcome_bind]; [|right; split; [done|]; intros [_ _ _ Q _ _]; done].
  assert (range_ok (mkMetaRange (x_blob_table_offset x) (x_blob_table_size x))) as Hr. { destruct B as (_ & _ & Ht). eapply range_within; [|exact Hm|exact Ht]. destruct Hw as (_ & _ & Hs & _). unfold in_range in Hs. lia. }
  destruct (ext6_chunks_cases x meta_size _ Hw Hm Hr) as [[-> K]|[-> K]]; cbn [mbind outcome_bind]; [|right; split; [done|]; intros [_ _ _ _ Q _]; done].
  destruct (ext6_prefetch_cases x meta_size _ Hw Hm Hr) as [[-> R]|[-> R]]; [|right; split; [done|]; intros [_ _ _ _ _ Q]; done].
  left. split; [done|]. constructor; [by apply Hc|by apply Hd|done|exact B|exact K|exact R].
Qed.
End validate_spec.


