(* ===== verification/RafsV6Blob.v ===== *)
(** Blob table and prefetch table of RAFS v6 ([rafs/src/metadata/layout/v6.rs]).

    An entry of the blob table is a blob with the place of its chunk information; an entry that
    validates is consistent with its format. The theorems are that the table a builder stores is
    the table a daemon loads, up to the fields an entry has no room for, and what [validate]
    accepts. *)
From S2P Require Import Prelude Utils LittleEndian ChunkInfo Device BlobMeta MetaFile RafsLayout RafsV5 RafsBlobTable RafsV5Inode CachedInode RafsV6Inode RafsV6Super.

Definition BLOB_MAX_SIZE_UNCOMPRESSED : Z := Z.shiftl 1 44.
Definition BLOB_MAX_SIZE_COMPRESSED : Z := Z.shiftl 1 40.
Definition BLOB_META_FEATURE_MASK : Z := 0xf.

(** [digest::Algorithm] as a number, and back. *)
Definition digest_as_u32 (d : DigestAlgorithm) : Z := match d with Blake3 => 0 | Sha256 => 1 end.
Definition digest_try_from (v : Z) : option DigestAlgorithm :=
  if v =? digest_as_u32 Sha256 then Some Sha256 else if v =? digest_as_u32 Blake3 then Some Blake3 else None.

(** ** Entries *)

Record RafsV6Blob := mkV6Blob {
  b6_blob_id : list Z;
  b6_blob_index : Z;
  b6_chunk_size : Z;
  b6_chunk_count : Z;
  b6_compression_algo : Z;
  b6_digest_algo : Z;
  b6_meta_features : Z;
  b6_compressed_size : Z;
  b6_uncompressed_size : Z;
  b6_reserved1 : Z;
  b6_ci_compressor : Z;
  b6_ci_offset : Z;
  b6_ci_compressed_size : Z;
  b6_ci_uncompressed_size : Z;
  b6_ci_digest : Z;
  b6_ci_zran_offset : Z;
  b6_ci_zran_size : Z;
  b6_ci_zran_count : Z;
  b6_reserved2 : Z
}.

Definition blob6_bytes (b : RafsV6Blob) : list Z :=
  b6_blob_id b ++ le_bytes 4 (b6_blob_index b) ++ le_bytes 4 (b6_chunk_size b) ++ le_bytes 4 (b6_chunk_count b) ++ le_bytes 4 (b6_compression_algo b) ++
  le_bytes 4 (b6_digest_algo b) ++ le_bytes 4 (b6_meta_features b) ++ le_bytes 8 (b6_compressed_size b) ++ le_bytes 8 (b6_uncompressed_size b) ++
  le_bytes 4 (b6_reserved1 b) ++ le_bytes 4 (b6_ci_compressor b) ++ le_bytes 8 (b6_ci_offset b) ++ le_bytes 8 (b6_ci_compressed_size b) ++
  le_bytes 8 (b6_ci_uncompressed_size b) ++ le_bytes 32 (b6_ci_digest b) ++ le_bytes 8 (b6_ci_zran_offset b) ++ le_bytes 8 (b6_ci_zran_size b) ++
  le_bytes 4 (b6_ci_zran_count b) ++ le_bytes 68 (b6_reserved2 b).

Definition blob6_of_bytes (b : list Z) : RafsV6Blob :=
  mkV6Blob (slice 0 64 b) (get_le 64 4 b) (get_le 68 4 b) (get_le 72 4 b) (get_le 76 4 b) (get_le 80 4 b) (get_le 84 4 b) (get_le 88 8 b) (get_le 96 8 b)
    (get_le 104 4 b) (get_le 108 4 b) (get_le 112 8 b) (get_le 120 8 b) (get_le 128 8 b) (get_le 136 32 b) (get_le 168 8 b) (get_le 176 8 b)
    (get_le 184 4 b) (get_le 188 68 b).

Definition to_blob_info (b : RafsV6Blob) : io BlobInfo :=
  blob_id ← from_utf8 (b6_blob_id b);
  let info := BlobInfo_new (b6_blob_index b) (string_of_bytes blob_id) (b6_uncompressed_size b) (b6_compressed_size b) (b6_chunk_size b) (b6_chunk_count b) 0 in
  comp ← ok_or (compress_try_from (b6_compression_algo b)) EINVAL;
  let info := set_compressor comp info in
  digest ← ok_or (digest_try_from (b6_digest_algo b)) EINVAL;
  let info := set_digester digest info in
  let info := set_blob_meta_info (b6_meta_features b) (b6_ci_offset b) (b6_ci_compressed_size b) (b6_ci_uncompressed_size b) (b6_ci_compressor b) info in
  Ok (if negb (Z.land (bi_meta_flags info) BLOB_META_FEATURE_ZRAN =? 0)
      then set_blob_meta_zran_info (b6_ci_zran_count b) (b6_ci_zran_offset b) (b6_ci_zran_size b) info else info).

Definition from_blob_info (i : BlobInfo) : io RafsV6Blob :=
  let id := bytes_of_string (bi_blob_id i) in
  if negb (zlen id =? BLOB_SHA256_LEN) then Err EINVAL
  else Ok (mkV6Blob id (bi_blob_index i) (bi_chunk_size i) (bi_chunk_count i) (compress_as_u32 (bi_compressor i)) (digest_as_u32 (bi_digester i))
             (bi_meta_flags i) (bi_compressed_size i) (bi_uncompressed_size i) 0 (compress_as_u32 (meta_ci_compressor i)) (bi_meta_ci_offset i)
             (bi_meta_ci_compressed_size i) (bi_meta_ci_uncompressed_size i) 0 (bi_meta_ci_zran_offset i) (bi_meta_ci_zran_size i) (bi_meta_ci_zran_count i) 0).

(** The products of a 32-bit count with the size of an entry fit 64 bits. *)
Definition blob6_ci_sizes (b : RafsV6Blob) : bool :=
  let count := b6_chunk_count b in
  let ci_uncompr_size := b6_ci_uncompressed_size b in
  let kind := Z.land (b6_meta_features b) (Z.lor BLOB_META_FEATURE_CHUNK_INFO_V2 BLOB_META_FEATURE_ZRAN) in
  if kind =? Z.lor BLOB_META_FEATURE_CHUNK_INFO_V2 BLOB_META_FEATURE_ZRAN then
    if ci_uncompr_size <? count * 24 then false
    else if negb (b6_ci_zran_offset b =? count * 24) then false
    else if b6_ci_zran_size b <? b6_ci_zran_count b * 40 then false
    else if RAFS_MAX_CHUNKS_PER_BLOB <? b6_ci_zran_count b then false
    else true
  else if kind =? BLOB_META_FEATURE_CHUNK_INFO_V2 then ci_uncompr_size =? count * 24
  else if kind =? 0 then ci_uncompr_size =? count * 16
  else false.

Section validate.
Context `{Profile}.

Definition blob6_validate (b : RafsV6Blob) (blob_index chunk_size : Z) : io bool :=
  match from_utf8 (b6_blob_id b) with
  | Ok v =>
      if negb (zlen v =? BLOB_SHA256_LEN) then Ok false
      else if negb (b6_blob_index b =? blob_index) then Ok false
      else
        let c_size := b6_chunk_size b in
        if negb (count_ones_u64 c_size =? 1) || (c_size <? EROFS_BLOCK_SIZE) || (RAFS_MAX_CHUNK_SIZE <? c_size) || negb (c_size =? chunk_size) then Ok false
        else if RAFS_MAX_CHUNKS_PER_BLOB <? b6_chunk_count b then Ok false
        else if bool_decide (compress_try_from (b6_compression_algo b) = None) || bool_decide (compress_try_from (b6_ci_compressor b) = None) ||
                bool_decide (digest_try_from (b6_digest_algo b) = None) then Ok false
        else if BLOB_MAX_SIZE_UNCOMPRESSED <? b6_uncompressed_size b then Ok false
        else if BLOB_MAX_SIZE_COMPRESSED <? b6_compressed_size b then Ok false
        else if negb (b6_ci_digest b =? 0) then Ok false
        else if negb (Z.land (b6_meta_features b) (unot 32 BLOB_META_FEATURE_MASK) =? 0) then Ok false
        else if Z.land (b6_meta_features b) BLOB_META_FEATURE_4K_ALIGNED =? 0 then Ok false
        else
          let ci_offset := b6_ci_offset b in
          let ci_compr_size := b6_ci_compressed_size b in
          let ci_uncompr_size := b6_ci_uncompressed_size b in
          if bool_decide (checked_add 64 ci_offset ci_compr_size = None) then Ok false
          else if ci_uncompr_size <? ci_compr_size then Ok false
          else
            bad ← (if negb (Z.land (b6_meta_features b) BLOB_META_FEATURE_SEPARATE =? 0)
                   then Ok (negb (ci_offset =? 0) || negb (ci_compr_size =? ci_uncompr_size))
                   else if negb (ci_offset =? b6_compressed_size b) then e ← uadd 64 ci_offset ci_compr_size; Ok (b6_compressed_size b <? e)
                   else Ok false);
            Ok (negb bad && blob6_ci_sizes b)
  | Err _ => Ok false
  | Panic => Panic
  end.
End validate.

(** ** Table *)

(** [RafsV6BlobTable], its [entries]. *)
Notation RafsV6BlobTable := (list BlobInfo) (only parsing).

Definition BlobTableV6_size (t : RafsV6BlobTable) : Z := zlen t * 256.

Definition BlobTableV6_get (blob_index : Z) (t : RafsV6BlobTable) : io BlobInfo :=
  if wrap 32 (zlen t) <=? blob_index then Err ENOENT else vec_index t blob_index.

Definition BlobTableV6_add (blob_id : string) (prefetch_offset prefetch_size chunk_size chunk_count uncompressed_size compressed_size blob_features flags : Z)
    (header : BlobMetaHeaderOndisk) (t : RafsV6BlobTable) : Z * RafsV6BlobTable :=
  let blob_index := wrap 32 (zlen t) in
  let info := BlobInfo_new blob_index blob_id uncompressed_size compressed_size chunk_size chunk_count blob_features in
  let info := set_prefetch_info prefetch_offset prefetch_size (set_digester (flags_digester flags) (set_compressor (flags_compressor flags) info)) in
  let info := set_blob_meta_info (s_features header) (s_ci_offset header) (s_ci_compressed_size header) (s_ci_uncompressed_size header)
                (compress_as_u32 (header_ci_compressor header)) info in
  let info := if negb (Z.land (s_features header) BLOB_META_FEATURE_ZRAN =? 0)
              then set_blob_meta_zran_info (s_ci_zran_count header) (s_ci_zran_offset header) (s_ci_zran_size header) info else info in
  (blob_index, t ++ [info]).

Fixpoint load_blobs_v6 `{Profile} (n : nat) (idx chunk_size : Z) (t : RafsV6BlobTable) : stM (list Z) errno RafsV6BlobTable :=
  match n with
  | O => st_ret t
  | S n =>
      b ← read_exact 256;
      let blob := blob6_of_bytes b in
      ok ← st_lift (blob6_validate blob idx chunk_size);
      if negb ok then st_lift (Err EINVAL)
      else info ← st_lift (to_blob_info blob); load_blobs_v6 n (idx + 1) chunk_size (t ++ [info])
  end.

Definition BlobTableV6_load `{Profile} (blob_table_size chunk_size : Z) (t : RafsV6BlobTable) : stM (list Z) errno RafsV6BlobTable :=
  if blob_table_size =? 0 then st_ret t
  else if negb (blob_table_size mod 256 =? 0) then st_lift (Err EINVAL)
  else load_blobs_v6 (Z.to_nat (blob_table_size / 256)) 0 chunk_size t.

Fixpoint store_blobs_v6 (t : RafsV6BlobTable) : stM (list Z) errno unit :=
  match t with
  | [] => st_ret tt
  | info :: t => blob ← st_lift (from_blob_info info); _ ← write_all (blob6_bytes blob); store_blobs_v6 t
  end.

Definition BlobTableV6_store (t : RafsV6BlobTable) : stM (list Z) errno Z := _ ← store_blobs_v6 t; st_ret (zlen t * 256).

(** ** Prefetch table *)

Definition PrefetchTableV6_size (t : list Z) : Z := zlen t * 4.
Definition PrefetchTableV6_store (t : list Z) : stM (list Z) errno Z := _ ← write_all (u32s_bytes t); st_ret (zlen t * 4).
Definition load_prefetch_table_v6 (file : list Z) (offset : Z) (entries : nat) : io (list Z) :=
  data ← (read_exact (entries * 4) (drop (Z.to_nat offset) file)).1; Ok (u32s_of_bytes entries data).

(** ** What is stored is loaded *)

(** What the table keeps of a blob: not its prefetch range, not its features, and of the ZRan
    fields only what the features announce. *)
Definition reloaded (i : BlobInfo) : BlobInfo :=
  let zran := negb (Z.land (bi_meta_flags i) BLOB_META_FEATURE_ZRAN =? 0) in
  mkBlobInfo (bi_blob_index i) (bi_blob_id i) (if bi_chunk_count i =? 0 then V5_NO_EXT_BLOB_TABLE else 0) (bi_compressed_size i) (bi_uncompressed_size i)
    (bi_chunk_size i) (bi_chunk_count i) (bi_compressor i) (bi_digester i) 0 0 (bool_decide (bi_compressor i = CGZip)) (bi_meta_flags i)
    (compress_as_u32 (meta_ci_compressor i)) (bi_meta_ci_offset i) (bi_meta_ci_compressed_size i) (bi_meta_ci_uncompressed_size i)
    (if zran then bi_meta_ci_zran_offset i else 0) (if zran then bi_meta_ci_zran_size i else 0) (if zran then bi_meta_ci_zran_count i else 0).

Definition info6_wf (i : BlobInfo) : Prop :=
  in_range 32 (bi_blob_index i) /\ in_range 32 (bi_chunk_size i) /\ in_range 32 (bi_chunk_count i) /\ in_range 32 (bi_meta_flags i) /\
  in_range 64 (bi_compressed_size i) /\ in_range 64 (bi_uncompressed_size i) /\ in_range 64 (bi_meta_ci_offset i) /\
  in_range 64 (bi_meta_ci_compressed_size i) /\ in_range 64 (bi_meta_ci_uncompressed_size i) /\ in_range 64 (bi_meta_ci_zran_offset i) /\
  in_range 64 (bi_meta_ci_zran_size i) /\ in_range 32 (bi_meta_ci_zran_count i).

(** A blob whose entry is accepted at [blob_index] of an image with chunks of [chunk_size]. *)
Record blob6_valid (i : BlobInfo) (blob_index chunk_size : Z) : Prop := {
  bv_id : zlen (bytes_of_string (bi_blob_id i)) = 64 /\ utf8_valid (bytes_of_string (bi_blob_id i)) = true;
  bv_index : bi_blob_index i = blob_index;
  bv_chunk_size : bi_chunk_size i = chunk_size /\ exists k, 12 <= k <= 24 /\ chunk_size = 2 ^ k;
  bv_count : bi_chunk_count i <= RAFS_MAX_CHUNKS_PER_BLOB;
  bv_sizes : bi_uncompressed_size i <= 2 ^ 44 /\ bi_compressed_size i <= 2 ^ 40;
  bv_features : bi_meta_flags i < 16 /\ Z.testbit (bi_meta_flags i) 0 = true;
  bv_ci : bi_meta_ci_offset i + bi_meta_ci_compressed_size i < 2 ^ 64 /\ bi_meta_ci_compressed_size i <= bi_meta_ci_uncompressed_size i;
  bv_place : if Z.testbit (bi_meta_flags i) 1 then bi_meta_ci_offset i = 0 /\ bi_meta_ci_compressed_size i = bi_meta_ci_uncompressed_size i
    else bi_meta_ci_offset i = bi_compressed_size i \/ bi_meta_ci_offset i + bi_meta_ci_compressed_size i <= bi_compressed_size i;
  bv_table : if Z.testbit (bi_meta_flags i) 2 then
      if Z.testbit (bi_meta_flags i) 3 then
        bi_chunk_count i * 24 <= bi_meta_ci_uncompressed_size i /\ bi_meta_ci_zran_offset i = bi_chunk_count i * 24 /\
        bi_meta_ci_zran_count i * 40 <= bi_meta_ci_zran_size i /\ bi_meta_ci_zran_count i <= RAFS_MAX_CHUNKS_PER_BLOB
      else bi_meta_ci_uncompressed_size i = bi_chunk_count i * 24
    else Z.testbit (bi_meta_flags i) 3 = false /\ bi_meta_ci_uncompressed_size i = bi_chunk_count i * 16
}.

Lemma compress_try_as c : compress_try_from (compress_as_u32 c) = Some c.
Proof. by destruct c. Qed.
Lemma digest_try_as d : digest_try_from (digest_as_u32 d) = Some d.
Proof. by destruct d. Qed.

Definition entry6 (i : BlobInfo) : RafsV6Blob :=
  mkV6Blob (bytes_of_string (bi_blob_id i)) (bi_blob_index i) (bi_chunk_size i) (bi_chunk_count i) (compress_as_u32 (bi_compressor i)) (digest_as_u32 (bi_digester i))
    (bi_meta_flags i) (bi_compressed_size i) (bi_uncompressed_size i) 0 (compress_as_u32 (meta_ci_compressor i)) (bi_meta_ci_offset i)
    (bi_meta_ci_compressed_size i) (bi_meta_ci_uncompressed_size i) 0 (bi_meta_ci_zran_offset i) (bi_meta_ci_zran_size i) (bi_meta_ci_zran_count i) 0.

Lemma from_blob_info_run i : zlen (bytes_of_string (bi_blob_id i)) = 64 -> from_blob_info i = Ok (entry6 i).
Proof. intros Hl. unfold from_blob_info. rewrite Hl. done. Qed.

Lemma to_blob_info_run i : utf8_valid (bytes_of_string (bi_blob_id i)) = true -> to_blob_info (entry6 i) = Ok (reloaded i).
Proof.
  intros Hu. unfold to_blob_info, from_utf8. change (b6_blob_id (entry6 i)) with (bytes_of_string (bi_blob_id i)). rewrite Hu. cbn [mbind outcome_bind].
  change (b6_compression_algo (entry6 i)) with (compress_as_u32 (bi_compressor i)). change (b6_digest_algo (entry6 i)) with (digest_as_u32 (bi_digester i)).
  rewrite compress_try_as, digest_try_as, string_of_bytes_of_string. cbn [ok_or mbind outcome_bind].
  cbv beta iota zeta delta [reloaded set_blob_meta_zran_info set_blob_meta_info set_digester set_compressor BlobInfo_new compute_features entry6 b6_blob_index b6_uncompressed_size b6_compressed_size b6_chunk_size b6_chunk_count b6_meta_features b6_ci_offset b6_ci_compressed_size
    b6_ci_uncompressed_size b6_ci_compressor b6_ci_zran_count b6_ci_zran_offset b6_ci_zran_size bi_blob_index bi_blob_id bi_features bi_compressed_size bi_uncompressed_size
    bi_chunk_size bi_chunk_count bi_compressor bi_digester bi_prefetch_offset bi_prefetch_size bi_is_legacy_stargz bi_meta_flags bi_meta_ci_compressor bi_meta_ci_offset
    bi_meta_ci_compressed_size bi_meta_ci_uncompressed_size bi_meta_ci_zran_offset bi_meta_ci_zran_size bi_meta_ci_zran_count].
  rewrite (bool_decide_eq_false_2 (CNone = CGZip)) by done. rewrite Z.land_0_l, Z.lor_0_l, Z.eqb_refl, andb_true_r. cbn [andb].
  destruct i as [? ? ? ? ? ? cnt comp ? ? ? ? flags ? ? ? ? ? ? ?]. destruct (Z.eqb cnt 0), (Z.eqb (Z.land flags BLOB_META_FEATURE_ZRAN) 0), comp; reflexivity.
Qed.

(** *** Bits *)

Lemma sum_bits_zero x l : foldr (fun i n => Z.b2z (Z.testbit x i) + n) 0 l = 0 -> Forall (fun i => Z.testbit x i = false) l.
Proof.
  assert (forall l, 0 <= foldr (fun i n => Z.b2z (Z.testbit x i) + n) 0 l) as Hp by (intros m; induction m; cbn; [done|]; destruct (Z.testbit x a); cbn; lia).
  induction l as [|i l IH]; intros Hs; [done|]. cbn in Hs. specialize (Hp l). constructor; [destruct (Z.testbit x i); cbn in Hs; [lia|done]|]. apply IH. destruct (Z.testbit x i); cbn in Hs; lia.
Qed.

Lemma sum_bits_one x l : NoDup l -> foldr (fun i n => Z.b2z (Z.testbit x i) + n) 0 l = 1 ->
  exists i, i ∈ l /\ forall j, j ∈ l -> Z.testbit x j = bool_decide (j = i).
Proof.
  induction 1 as [|i l Hi Hl IH]; intros Hs; [done|]. cbn in Hs. destruct (Z.testbit x i) eqn:E.
  - exists i. split; [left|]. pose proof (sum_bits_zero x l ltac:(cbn in Hs; lia)) as Hz. rewrite Forall_forall in Hz. intros j [->|Hj]%elem_of_cons; [by rewrite bool_decide_eq_true_2|].
    rewrite Hz by done. rewrite bool_decide_eq_false_2; [done|]. by intros ->.
  - destruct IH as (k & Hk & Hb); [cbn in Hs; lia|]. exists k. split; [by right|]. intros j [->|Hj]%elem_of_cons; [|by apply Hb]. rewrite E, bool_decide_eq_false_2; [done|]. by intros ->.
Qed.

(** One bit of 64 is set exactly in the powers of two. *)
Lemma count_ones_one x : in_range 64 x -> count_ones_u64 x = 1 -> exists k, 0 <= k < 64 /\ x = 2 ^ k.
Proof.
  intros Hx Hc. destruct (sum_bits_one x (seqZ 0 64) (NoDup_seqZ _ _) Hc) as (k & Hk%elem_of_seqZ & Hb). exists k. split; [lia|]. apply Z.bits_inj'. intros i Hi.
  rewrite Z.pow2_bits_eqb by lia. destruct (decide (i < 64)) as [Hlt|Hge].
  - rewrite Hb by (apply elem_of_seqZ; lia). case_bool_decide; symmetry; [apply Z.eqb_eq|apply Z.eqb_neq]; lia.
  - rewrite (testbit_above 64 x) by (done || lia). symmetry. apply Z.eqb_neq. lia.
Qed.

Lemma land_pow2_0 f k : 0 <= k -> (Z.land f (2 ^ k) =? 0) = negb (Z.testbit f k).
Proof. intros Hk. by rewrite <- (land_bit_test f k Hk), Z.shiftl_1_l, negb_involutive. Qed.

Lemma chunk_kind f : Z.land f (Z.lor BLOB_META_FEATURE_CHUNK_INFO_V2 BLOB_META_FEATURE_ZRAN) = 4 * Z.b2z (Z.testbit f 2) + 8 * Z.b2z (Z.testbit f 3).
Proof.
  change (Z.lor _ _) with 12. rewrite <- (Z.mod_pow2_bits_low f 4 2), <- (Z.mod_pow2_bits_low f 4 3) by lia.
  assert (Z.land f 12 = Z.land (f mod 2 ^ 4) 12) as ->. { rewrite <- Z.land_ones, <- Z.land_assoc by lia. done. }
  pose proof (Z.mod_pos_bound f (2 ^ 4) ltac:(lia)) as Hr. set (r := f mod 2 ^ 4) in *. assert (r ∈ seqZ 0 16) as Hin by (apply elem_of_seqZ; lia). clearbody r. clear Hr.
  assert (Forall (fun r => Z.land r 12 = 4 * Z.b2z (Z.testbit r 2) + 8 * Z.b2z (Z.testbit r 3)) (seqZ 0 16)) as Hall by (vm_compute; repeat constructor). rewrite Forall_forall in Hall. by apply Hall.
Qed.

Lemma feature_mask f : in_range 32 f -> Z.land f (unot 32 BLOB_META_FEATURE_MASK) = 0 <-> f < 16.
Proof.
  intros Hf. change BLOB_META_FEATURE_MASK with (Z.ones 4).
  assert (Z.lor (Z.land f (Z.ones 4)) (Z.land f (unot 32 (Z.ones 4))) = wrap 32 f) as Hl by zbits. rewrite (wrap_small 32 f Hf) in Hl. pose proof (Z.mod_pos_bound f 16 ltac:(lia)). split.
  - intros Hz. rewrite Hz, Z.lor_0_r, Z.land_ones in Hl by lia. change (2 ^ 4) with 16 in Hl. lia.
  - intros Hlt. unfold in_range in Hf. assert (f = Z.land f (Z.ones 4)) as -> by (rewrite Z.land_ones by lia; symmetry; apply Z.mod_small; lia). zbits.
Qed.

(** *** What [validate] accepts *)

Lemma ci_sizes_spec i : blob6_ci_sizes (entry6 i) = true <-> (if Z.testbit (bi_meta_flags i) 2 then
      if Z.testbit (bi_meta_flags i) 3 then
        bi_chunk_count i * 24 <= bi_meta_ci_uncompressed_size i /\ bi_meta_ci_zran_offset i = bi_chunk_count i * 24 /\
        bi_meta_ci_zran_count i * 40 <= bi_meta_ci_zran_size i /\ bi_meta_ci_zran_count i <= RAFS_MAX_CHUNKS_PER_BLOB
      else bi_meta_ci_uncompressed_size i = bi_chunk_count i * 24
    else Z.testbit (bi_meta_flags i) 3 = false /\ bi_meta_ci_uncompressed_size i = bi_chunk_count i * 16).
Proof.
  unfold blob6_ci_sizes. cbv zeta. change (b6_meta_features (entry6 i)) with (bi_meta_flags i). rewrite chunk_kind.
  change (b6_ci_uncompressed_size (entry6 i)) with (bi_meta_ci_uncompressed_size i). change (b6_chunk_count (entry6 i)) with (bi_chunk_count i).
  change (b6_ci_zran_offset (entry6 i)) with (bi_meta_ci_zran_offset i). change (b6_ci_zran_size (entry6 i)) with (bi_meta_ci_zran_size i). change (b6_ci_zran_count (entry6 i)) with (bi_meta_ci_zran_count i).
  destruct (Z.testbit (bi_meta_flags i) 2), (Z.testbit (bi_meta_flags i) 3); cbv [Z.b2z]; cbn -[Z.mul Z.ltb Z.eqb RAFS_MAX_CHUNKS_PER_BLOB].
  - change (4 * 1 + 8 * 1 =? Z.lor BLOB_META_FEATURE_CHUNK_INFO_V2 BLOB_META_FEATURE_ZRAN) with true. cbv iota.
    destruct (Z.ltb_spec (bi_meta_ci_uncompressed_size i) (bi_chunk_count i * 24)); [split; [done|lia]|].
    destruct (Z.eqb_spec (bi_meta_ci_zran_offset i) (bi_chunk_count i * 24)); cbn [negb]; [|split; [done|lia]].
    destruct (Z.ltb_spec (bi_meta_ci_zran_size i) (bi_meta_ci_zran_count i * 40)); [split; [done|lia]|].
    destruct (Z.ltb_spec RAFS_MAX_CHUNKS_PER_BLOB (bi_meta_ci_zran_count i)); [split; [done|lia]|]. split; [intros _; lia|done].
  - change (4 * 1 + 8 * 0 =? Z.lor _ _) with false. change (4 * 1 + 8 * 0 =? BLOB_META_FEATURE_CHUNK_INFO_V2) with true. cbv iota. apply Z.eqb_eq.
  - change (4 * 0 + 8 * 1 =? Z.lor _ _) with false. change (4 * 0 + 8 * 1 =? BLOB_META_FEATURE_CHUNK_INFO_V2) with false. change (4 * 0 + 8 * 1 =? 0) with false. cbv iota. split; [done|by intros [? _]].
  - change (4 * 0 + 8 * 0 =? Z.lor _ _) with false. change (4 * 0 + 8 * 0 =? BLOB_META_FEATURE_CHUNK_INFO_V2) with false. change (4 * 0 + 8 * 0 =? 0) with true. cbv iota. rewrite Z.eqb_eq. tauto.
Qed.

Lemma chunk_size_check c cs : in_range 32 c ->
  negb (count_ones_u64 c =? 1) || (c <? EROFS_BLOCK_SIZE) || (RAFS_MAX_CHUNK_SIZE <? c) || negb (c =? cs) = false <-> c = cs /\ exists k, 12 <= k <= 24 /\ cs = 2 ^ k.
Proof.
  intros Hc. rewrite !orb_false_iff, !negb_false_iff, !Z.eqb_eq, !Z.ltb_ge. unfold in_range in Hc. change EROFS_BLOCK_SIZE with (2 ^ 12). change RAFS_MAX_CHUNK_SIZE with (2 ^ 24). split.
  - intros (((H1 & H2) & H3) & <-). split; [done|]. destruct (count_ones_one c ltac:(unfold in_range; lia) H1) as (k & Hk & ->). exists k. split; [|done].
    split; [apply (Z.pow_le_mono_r_iff 2 12 k) in H2; lia|apply (Z.pow_le_mono_r_iff 2 k 24) in H3; lia].
  - intros [-> (k & Hk & ->)]. assert (k ∈ seqZ 12 13) as Hin by (apply elem_of_seqZ; lia). split_and!; [|apply Z.pow_le_mono_r; lia|apply Z.pow_le_mono_r; lia|done].
    assert (forallb (fun k => count_ones_u64 (2 ^ k) =? 1) (seqZ 12 13) = true) as Hall by (vm_compute; reflexivity). rewrite forallb_forall in Hall. apply Z.eqb_eq, Hall. by apply list_elem_of_In.
Qed.

Section validate_spec.
Context `{Profile}.

Lemma place_check i : info6_wf i -> bi_meta_ci_offset i + bi_meta_ci_compressed_size i < 2 ^ 64 -> exists bad : bool,
  (if negb (Z.land (bi_meta_flags i) BLOB_META_FEATURE_SEPARATE =? 0)
   then Ok (negb (bi_meta_ci_offset i =? 0) || negb (bi_meta_ci_compressed_size i =? bi_meta_ci_uncompressed_size i))
   else if negb (bi_meta_ci_offset i =? bi_compressed_size i) then e ← uadd 64 (bi_meta_ci_offset i) (bi_meta_ci_compressed_size i); Ok (bi_compressed_size i <? e)
   else Ok false) = @Ok errno _ bad /\
  (bad = false <-> if Z.testbit (bi_meta_flags i) 1 then bi_meta_ci_offset i = 0 /\ bi_meta_ci_compressed_size i = bi_meta_ci_uncompressed_size i
    else bi_meta_ci_offset i = bi_compressed_size i \/ bi_meta_ci_offset i + bi_meta_ci_compressed_size i <= bi_compressed_size i).
Proof.
  intros (_ & _ & _ & _ & _ & _ & R1 & R2 & _) Hs. unfold in_range in *. change BLOB_META_FEATURE_SEPARATE with (2 ^ 1). rewrite land_pow2_0 by lia. rewrite negb_involutive.
  destruct (Z.testbit (bi_meta_flags i) 1). { eexists. split; [done|]. rewrite orb_false_iff, !negb_false_iff, !Z.eqb_eq. done. }
  destruct (Z.eqb_spec (bi_meta_ci_offset i) (bi_compressed_size i)); cbn [negb]; [exists false; split; [done|]; tauto|].
  rewrite uadd_in by (split; lia). cbn [mbind outcome_bind]. eexists. split; [done|]. rewrite Z.ltb_ge. tauto.
Qed.

(** [validate] of the entry of a blob is exact, and never panics. *)
Lemma blob6_validate_cases i idx cs : info6_wf i ->
  (blob6_validate (entry6 i) idx cs = Ok true /\ blob6_valid i idx cs) \/ (blob6_validate (entry6 i) idx cs = Ok false /\ ~ blob6_valid i idx cs).
Proof.
  intros Hw. pose proof Hw as (_ & R2 & _ & R4 & _). unfold blob6_validate, from_utf8. change (b6_blob_id (entry6 i)) with (bytes_of_string (bi_blob_id i)).
  destruct (utf8_valid (bytes_of_string (bi_blob_id i))) eqn:Eu; [|right; split; [done|]; intros [[_ Hu] _ _ _ _ _ _ _ _]; congruence].
  destruct (Z.eqb_spec (zlen (bytes_of_string (bi_blob_id i))) BLOB_SHA256_LEN) as [El|]; cbn [negb]; [|right; split; [done|]; intros []; tauto].
  change (b6_blob_index (entry6 i)) with (bi_blob_index i). destruct (Z.eqb_spec (bi_blob_index i) idx); cbn [negb]; [|right; split; [done|]; intros []; tauto]. cbv zeta.
  change (b6_chunk_size (entry6 i)) with (bi_chunk_size i). pose proof (chunk_size_check (bi_chunk_size i) cs R2) as Hcs.
  destruct (negb (count_ones_u64 (bi_chunk_size i) =? 1) || _ || _ || _); [right; split; [done|]; intros [_ _ Q _ _ _ _ _ _]; by apply Hcs in Q|].
  change (b6_chunk_count (entry6 i)) with (bi_chunk_count i). destruct (Z.ltb_spec RAFS_MAX_CHUNKS_PER_BLOB (bi_chunk_count i)); [right; split; [done|]; intros []; lia|].
  change (b6_compression_algo (entry6 i)) with (compress_as_u32 (bi_compressor i)). change (b6_ci_compressor (entry6 i)) with (compress_as_u32 (meta_ci_compressor i)).
  change (b6_digest_algo (entry6 i)) with (digest_as_u32 (bi_digester i)). rewrite !compress_try_as, digest_try_as. do 3 rewrite bool_decide_eq_false_2 by done. cbn [orb].
  change (b6_uncompressed_size (entry6 i)) with (bi_uncompressed_size i). change (b6_compressed_size (entry6 i)) with (bi_compressed_size i).
  change BLOB_MAX_SIZE_UNCOMPRESSED with (2 ^ 44). change BLOB_MAX_SIZE_COMPRESSED with (2 ^ 40).
  destruct (Z.ltb_spec (2 ^ 44) (bi_uncompressed_size i)); [right; split; [done|]; intros []; lia|]. destruct (Z.ltb_spec (2 ^ 40) (bi_compressed_size i)); [right; split; [done|]; intros []; lia|].
  change (b6_ci_digest (entry6 i)) with 0. cbn [Z.eqb negb]. change (b6_meta_features (entry6 i)) with (bi_meta_flags i). pose proof (feature_mask _ R4) as Hfm.
  destruct (Z.eqb_spec (Z.land (bi_meta_flags i) (unot 32 BLOB_META_FEATURE_MASK)) 0) as [Em|Em]; cbn [negb]; [|right; split; [done|]; intros [_ _ _ _ _ [Q _] _ _ _]; by apply Em, Hfm].
  change BLOB_META_FEATURE_4K_ALIGNED with (2 ^ 0). rewrite land_pow2_0 by lia. destruct (Z.testbit (bi_meta_flags i) 0) eqn:E0; cbn [negb]; [|right; split; [done|]; intros [_ _ _ _ _ [_ Q] _ _ _]; congruence].
  change (b6_ci_offset (entry6 i)) with (bi_meta_ci_offset i). change (b6_ci_compressed_size (entry6 i)) with (bi_meta_ci_compressed_size i). change (b6_ci_uncompressed_size (entry6 i)) with (bi_meta_ci_uncompressed_size i).
  case_bool_decide as Ec. { right. split; [done|]. intros [_ _ _ _ _ _ [Q _] _ _]. unfold checked_add in Ec. destruct (Z.ltb_spec (bi_meta_ci_offset i + bi_meta_ci_compressed_size i) (2 ^ 64)); [done|lia]. }
  destruct (checked_add 64 (bi_meta_ci_offset i) (bi_meta_ci_compressed_size i)) as [ce|] eqn:Ee; [|done]. apply checked_add_Some in Ee as [_ Hlt]. clear Ec.
  destruct (Z.ltb_spec (bi_meta_ci_uncompressed_size i) (bi_meta_ci_compressed_size i)); [right; split; [done|]; intros []; lia|].
  destruct (place_check i Hw Hlt) as (bad & -> & Hb). cbn [mbind outcome_bind]. pose proof (ci_sizes_spec i) as Hci.
  destruct bad; cbn [negb andb]; [right; split; [done|]; intros [_ _ _ _ _ _ _ Q _]; by apply Hb in Q|].
  destruct (blob6_ci_sizes (entry6 i)); [|right; split; [done|]; intros [_ _ _ _ _ _ _ _ Q]; by apply Hci in Q].
  left. split; [done|]. constructor; [done|done|by apply Hcs|done|done|split; [by apply Hfm|done]|done|by apply Hb|by apply Hci].
Qed.

Definition blob6_wf (b : RafsV6Blob) : Prop :=
  length (b6_blob_id b) = 64%nat /\ in_range 32 (b6_blob_index b) /\ in_range 32 (b6_chunk_size b) /\ in_range 32 (b6_chunk_count b) /\ in_range 32 (b6_compression_algo b) /\
  in_range 32 (b6_digest_algo b) /\ in_range 32 (b6_meta_features b) /\ in_range 64 (b6_compressed_size b) /\ in_range 64 (b6_uncompressed_size b) /\ in_range 32 (b6_reserved1 b) /\
  in_range 32 (b6_ci_compressor b) /\ in_range 64 (b6_ci_offset b) /\ in_range 64 (b6_ci_compressed_size b) /\ in_range 64 (b6_ci_uncompressed_size b) /\ in_range 256 (b6_ci_digest b) /\
  in_range 64 (b6_ci_zran_offset b) /\ in_range 64 (b6_ci_zran_size b) /\ in_range 32 (b6_ci_zran_count b) /\ in_range 544 (b6_reserved2 b).

Lemma blob6_of_bytes_bytes b : blob6_wf b -> blob6_of_bytes (blob6_bytes b) = b /\ length (blob6_bytes b) = 256%nat.
Proof.
  intros (Hid & H2 & H3 & H4 & H5 & H6 & H7 & H8 & H9 & H10 & H11 & H12 & H13 & H14 & H15 & H16 & H17 & H18 & H19). split.
  - unfold blob6_of_bytes, blob6_bytes. rewrite <- (app_nil_r (le_bytes 68 (b6_reserved2 b))). pose proof (slice_here (b6_blob_id b)) as Hs. rewrite Hid in Hs. rewrite Hs.
    rewrite !(get_le_skip _ _ (b6_blob_id b)) by lia. rewrite Hid. cbn [Nat.sub]. read_fields. by destruct b.
  - unfold blob6_bytes. rewrite !length_app, !length_le_bytes. lia.
Qed.

Lemma blob6_roundtrip i : info6_wf i -> zlen (bytes_of_string (bi_blob_id i)) = 64 -> blob6_of_bytes (blob6_bytes (entry6 i)) = entry6 i /\ length (blob6_bytes (entry6 i)) = 256%nat.
Proof.
  intros (H1 & H2 & H3 & H4 & H5 & H6 & H7 & H8 & H9 & H10 & H11 & H12) Hl. apply blob6_of_bytes_bytes. unfold zlen in Hl.
  assert (forall c, in_range 32 (compress_as_u32 c)) as Hc by (intros []; split; cbn; lia). assert (forall d, in_range 32 (digest_as_u32 d)) as Hd by (intros []; split; cbn; lia).
  assert (forall n, 0 <= n -> in_range n 0) as Hz by (intros n Hn; split; [lia|apply Z.pow_pos_nonneg; lia]).
  unfold blob6_wf, entry6. cbn [b6_blob_id b6_blob_index b6_chunk_size b6_chunk_count b6_compression_algo b6_digest_algo b6_meta_features b6_compressed_size b6_uncompressed_size b6_reserved1
    b6_ci_compressor b6_ci_offset b6_ci_compressed_size b6_ci_uncompressed_size b6_ci_digest b6_ci_zran_offset b6_ci_zran_size b6_ci_zran_count b6_reserved2].
  split_and!; first [done|apply Hc|apply Hd|by apply Hz|lia].
Qed.
End validate_spec.

(** *** The table *)

(** The blobs of a table, from index [idx] on. *)
Fixpoint blobs6_valid (idx chunk_size : Z) (t : list BlobInfo) : Prop :=
  match t with [] => True | i :: t => info6_wf i /\ blob6_valid i idx chunk_size /\ blobs6_valid (idx + 1) chunk_size t end.

Definition table6_bytes (t : list BlobInfo) : list Z := concat ((fun i => blob6_bytes (entry6 i)) <$> t).

Lemma store_blobs_v6_run t : forall idx cs w, blobs6_valid idx cs t -> store_blobs_v6 t w = (Ok tt, w ++ table6_bytes t).
Proof.
  induction t as [|i t IH]; intros idx cs w Hv; [by rewrite app_nil_r|]. destruct Hv as (Hw & Hi & Ht). cbn [store_blobs_v6]. rewrite (from_blob_info_run i (proj1 (bv_id _ _ _ Hi))). erewrite st_bind_run by reflexivity.
  erewrite st_bind_run by reflexivity. rewrite (IH _ _ _ Ht). unfold table6_bytes. rewrite fmap_cons. cbn [concat]. by rewrite app_assoc.
Qed.

Lemma length_table6 t : forall idx cs, blobs6_valid idx cs t -> zlen (table6_bytes t) = zlen t * 256.
Proof.
  induction t as [|i t IH]; intros idx cs Hv; [done|]. destruct Hv as (Hw & Hi & Ht). unfold table6_bytes. rewrite fmap_cons. cbn [concat]. rewrite zlen_app. fold (table6_bytes t). rewrite (IH _ _ Ht).
  destruct (blob6_roundtrip i Hw (proj1 (bv_id _ _ _ Hi))) as [_ Hl]. unfold zlen in *. rewrite Hl. cbn [length]. lia.
Qed.

Lemma load_blobs_v6_run `{Profile} t : forall idx cs acc rest, blobs6_valid idx cs t ->
  load_blobs_v6 (length t) idx cs acc (table6_bytes t ++ rest) = (Ok (acc ++ (reloaded <$> t)), rest).
Proof.
  induction t as [|i t IH]; intros idx cs acc rest Hv; [by rewrite app_nil_r|]. destruct Hv as (Hw & Hi & Ht). cbn [length load_blobs_v6]. unfold table6_bytes. rewrite !fmap_cons. cbn [concat]. rewrite <- app_assoc. fold (table6_bytes t).
  destruct (blob6_roundtrip i Hw (proj1 (bv_id _ _ _ Hi))) as [Hr Hl]. erewrite st_bind_run.
  2:{ unfold read_exact. rewrite (proj2 (Nat.leb_le _ _)) by (rewrite length_app, Hl; lia). rewrite <- Hl at 1 2. by rewrite take_app_length, drop_app_length. }
  cbv zeta. rewrite Hr. destruct (blob6_validate_cases i idx cs Hw) as [[-> _]|[_ Hn]]; [|done]. erewrite st_bind_run by reflexivity. cbn [negb].
  rewrite (to_blob_info_run i (proj2 (bv_id _ _ _ Hi))). erewrite st_bind_run by reflexivity. rewrite (IH _ _ _ _ Ht). by rewrite <- app_assoc.
Qed.

Lemma BlobTableV6_load_run `{Profile} t cs rest : blobs6_valid 0 cs t ->
  BlobTableV6_load (BlobTableV6_size t) cs [] (table6_bytes t ++ rest) = (Ok (reloaded <$> t), rest).
Proof.
  intros Hv. unfold BlobTableV6_load, BlobTableV6_size. destruct t as [|i t]; [done|]. pose proof (zlen_nonneg t). assert (zlen (i :: t) = zlen t + 1) as Hz by (unfold zlen; cbn [length]; lia).
  destruct (Z.eqb_spec (zlen (i :: t) * 256) 0); [lia|]. rewrite Z_mod_mult. cbn [Z.eqb negb]. rewrite Z.div_mul by lia. unfold zlen. rewrite Nat2Z.id. exact (load_blobs_v6_run _ _ _ [] rest Hv).
Qed.

(** C35: the v6 blob table is read back: the table of a builder, whose blobs satisfy [blob6_valid] at their
    index, is stored in [BlobTableV6_size] bytes without an error and loaded as the same blobs, without the
    prefetch ranges and features an entry has no room for. An entry is accepted exactly when its blob
    satisfies [blob6_valid], so that a table with any other blob is refused. *)
Theorem v6_blob_table_roundtrip `{Profile} t cs w rest : blobs6_valid 0 cs t ->
  exists bytes, BlobTableV6_store t w = (Ok (BlobTableV6_size t), w ++ bytes) /\ zlen bytes = BlobTableV6_size t /\
    BlobTableV6_load (BlobTableV6_size t) cs [] (bytes ++ rest) = (Ok (reloaded <$> t), rest) /\
    forall i idx, info6_wf i -> (blob6_validate (entry6 i) idx cs = Ok true <-> blob6_valid i idx cs) /\
      (blob6_validate (entry6 i) idx cs = Ok false <-> ~ blob6_valid i idx cs).
Proof.
  intros Hv. exists (table6_bytes t). split_and!.
  - unfold BlobTableV6_store. erewrite st_bind_run by exact (store_blobs_v6_run t 0 cs w Hv). done.
  - exact (length_table6 t 0 cs Hv).
  - by apply BlobTableV6_load_run.
  - intros i idx Hi. destruct (blob6_validate_cases i idx cs Hi) as [[-> Hb]|[-> Hb]]; split; split; done.
Qed.

Definition v6_demo_blob : BlobInfo :=
  set_blob_meta_info 5 0x2000 24 24 0 (set_digester Sha256 (set_compressor CZstd
    (BlobInfo_new 0 "0123456789abcdef0123456789abcdef0123456789abcdef0123456789abcdef" 0x3000 0x2000 0x100000 1 0))).

Lemma v6_demo_blob_valid : blobs6_valid 0 0x100000 [v6_demo_blob].
Proof.
  split_and!; [unfold info6_wf; solve_ranges| |done]. constructor.
  - split; vm_compute; reflexivity.
  - reflexivity.
  - split; [reflexivity|]. exists 20. split; [lia|reflexivity].
  - apply Z.leb_le. vm_compute. reflexivity.
  - split; apply Z.leb_le; vm_compute; reflexivity.
  - split; [apply Z.ltb_lt; vm_compute; reflexivity|reflexivity].
  - split; [apply Z.ltb_lt; vm_compute; reflexivity|apply Z.leb_le; vm_compute; reflexivity].
  - cbv. by left.
  - cbv. reflexivity.
Qed.

Lemma v6_blob_table_roundtrip_witness : exists bytes, zlen bytes = 256 /\ @BlobTableV6_load dev_profile 256 0x100000 [] (bytes ++ []) = (Ok [reloaded v6_demo_blob], []).
Proof.
  destruct (@v6_blob_table_roundtrip dev_profile [v6_demo_blob] 0x100000 [] [] v6_demo_blob_valid) as (bytes & _ & Hl & Hr & _). exists bytes. split; [exact Hl|exact Hr].
Defined.
