(* ===== verification/V6Demo.v ===== *)
(** A small v6 tree: the directories [/] and [/d], the symlink [/s], and the file [/d/f] with a chunk and an
    extended attribute. The theorems on whole images are applied to it. *)
From S2P Require Import Prelude Utils LittleEndian ChunkInfo Device RafsLayout RafsV5 RafsBlobTable RafsV5Inode CachedInode CachedDir Overlay Builder RafsV6Inode DirectV6 RafsV6Xattr V6Layout V6Dump V6Update V6Image V6Trip.

(** Comparisons of concrete numbers. *)
Ltac demo_dec := lazymatch goal with |- in_range _ _ => split; demo_dec | |- _ <= _ => apply Z.leb_le; vm_compute; reflexivity | |- _ < _ => apply Z.ltb_lt; vm_compute; reflexivity end.

Section demo.
#[local] Existing Instance dev_profile.

Definition v6_demo_node (idx mode size cc offset : Z) (path : list (list Z)) (chunks : list RafsV5ChunkInfo) (xattrs : gmap (list Z) (list Z)) (target : option (list Z)) : V6Node :=
  mkV6Node (mkNode idx 0 idx 0 (mkV5Inode 0 0 idx 0 0 0 mode size 0 0 1 0 cc 0 0 0 0 42 0) chunks xattrs target UpperAddition [] path 0) true EROFS_INODE_FLAT_PLAIN offset [] 0.

Definition v6_demo_root (offset : Z) : V6Node := v6_demo_node 1 0x41ed 0 2 offset [] [] ∅ None.
Definition v6_demo_d (offset : Z) : V6Node := v6_demo_node 2 0x41ed 0 1 offset [[100]] [] ∅ None.
Definition v6_demo_s (offset : Z) : V6Node := v6_demo_node 3 0xa1ff 1 0 offset [[115]] [] ∅ (Some [100]).
Definition v6_demo_chunk : RafsV5ChunkInfo := mkV5Chunk 7 0 0 0x100 0x1000 0 0x2000 0 5 0.
Definition v6_demo_f (offset : Z) : V6Node := v6_demo_node 4 0x81a4 0x1000 1 offset [[100]; [102]] [v6_demo_chunk] {[ bytes_of_string "user.a" := [1; 2] ]} None.

Definition v6_demo_placing : list (Z * option Z * V6Node) := [(53, None, v6_demo_root 0); (0, None, v6_demo_s 0); (40, None, v6_demo_d 0); (0, None, v6_demo_f 0)].
Definition v6_demo_array : list (Z * option Z * V6Node) := [(53, None, v6_demo_root 0); (40, None, v6_demo_d 0); (0, None, v6_demo_s 0); (0, None, v6_demo_f 0)].
Definition v6_demo_tree : V6Tree :=
  mkV6Tree (v6_demo_root 4096) [mkV6Tree (v6_demo_d 4256) [mkV6Tree (v6_demo_f 4352) []]; mkV6Tree (v6_demo_s 4192) []].

Definition v6_demo_placed : list V6Node := Eval vm_compute in match v6_place_all v6_demo_placing BootstrapContext_new with Ok r => r.1 | _ => [] end.
Definition v6_demo_ctx : BootstrapContext := Eval vm_compute in match v6_place_all v6_demo_placing BootstrapContext_new with Ok r => r.2 | _ => BootstrapContext_new end.
Definition v6_demo_nodes : list V6Node := match v6_demo_placed with [r; s; d; f] => [r; d; s; f] | _ => [] end.

Lemma v6_demo_input x : x ∈ v6_demo_array -> x.1.2 = None /\ v6_input 20 x.1.1 x.2.
Proof.
  intros Hx. assert (forall x, x ∈ v6_demo_array -> forall kv, kv ∈ v6_pairs x.2 -> xattr_ok kv) as Hxa.
  { intros y Hy kv Hkv. unfold v6_demo_array in Hy. repeat (apply elem_of_cons in Hy as [->|Hy]; [vm_compute in Hkv|]); [by apply elem_of_nil in Hkv|by apply elem_of_nil in Hkv|by apply elem_of_nil in Hkv| |by apply elem_of_nil in Hy].
    apply list_elem_of_singleton in Hkv as ->. split; [|by split]. exists (bytes_of_string "user."), 1. split; [left|]. exists [97]. done. }
  pose proof (proj2 (Forall_forall _ _) (Hxa x Hx)) as Hp. clear Hxa. unfold v6_demo_array in Hx. repeat (apply elem_of_cons in Hx as [->|Hx]); [..|by apply elem_of_nil in Hx]; (split; [reflexivity|]); (constructor;
    [split; [exact Hp|repeat (split; [demo_dec|]); demo_dec]|unfold v5i_wf; split_and!; demo_dec|demo_dec|demo_dec|intros _; unfold compact_fits; split_and!; demo_dec|demo_dec
    |split_and!; reflexivity|demo_dec|first [intros _ _; reflexivity|intros Hd; vm_compute in Hd; discriminate Hd]| |]); try (intros Hd; vm_compute in Hd; discriminate Hd).
  - intros _. exists [100]. split_and!; first [reflexivity|demo_dec].
  - intros _. split_and!; [|reflexivity|vm_compute; reflexivity|demo_dec]. constructor; [|constructor]. split; split; demo_dec.
Qed.

Lemma v6_demo_build : v6_build 20 8192 v6_demo_array v6_demo_nodes v6_demo_tree.
Proof.
  constructor; [apply Forall_forall; exact v6_demo_input|done| | | | |done].
  - repeat constructor; try done; by eexists.
  - repeat constructor; eexists _, _; (split_and!; [done|done|done|done| |repeat constructor; done|done]); repeat constructor; done.
  - apply (bool_decide_unpack _). vm_compute. exact I.
  - intros i x Hx Hd. destruct i as [|[|[|[|i]]]]; cbn in Hx; [vm_compute; left|vm_compute; right; left|injection Hx as <-; discriminate|injection Hx as <-; discriminate|done].
Qed.
End demo.
