(* ===== verification/V6Bootstrap.v ===== *)
(** The RAFS v6 bootstrap: [rafsv6_dump] of [src/bin/nydus-image/core/bootstrap.rs],
    [get_rafsv6_prefetch_table] of [src/bin/nydus-image/core/prefetch.rs], [try_load_v6] of
    [rafs/src/metadata/md_v6.rs] and the loading of [rafs/src/metadata/direct_v6.rs].

    The builder writes super block, device slots, blob table, prefetch table, nodes and chunk table,
    and last the extended super block that names them. The theorem is that a daemon loads the
    file: super blocks, blobs, prefetch table, chunk table and the tree are those of the builder. *)
From S2P Require Import Prelude Utils LittleEndian ChunkInfo Device BlobMeta MetaFile RafsLayout RafsV5 RafsBlobTable RafsV5Inode CachedInode CachedDir CachedSuper Overlay Builder Prefetch Bootstrap RafsV6Inode DirectV6 RafsV6Xattr V6Layout V6Dump V6Update V6Image V6Trip RafsV6Super RafsV6Blob V6Demo.

(** ** The builder *)

Section dump.
Context `{Profile}.

Fixpoint prefetch_entries_v6 (indexes : list Z) (nodes : list V6Node) (meta_addr : Z) (table : list Z) : io (list Z) :=
  match indexes with
  | [] => Ok table
  | i :: indexes =>
      _ ← debug_assert (0 <? i);
      array_index ← usub 64 i 1;
      node ← vec_index nodes array_index;
      nid ← calculate_nid (v6_offset node) meta_addr;
      _ ← rassert (nid <? u32_MAX);
      prefetch_entries_v6 indexes nodes meta_addr (table ++ [wrap 32 nid])
  end.

Definition get_rafsv6_prefetch_table (p : Prefetch) (nodes : list V6Node) (meta_addr : Z) : io (option (list Z)) :=
  if bool_decide (pf_policy p = PrefetchFs) then
    table ← prefetch_entries_v6 (omap snd (pf_patterns p)) nodes meta_addr []; Ok (Some table)
  else Ok None.

(** Device slots, and the number of blocks of all devices. *)
Fixpoint make_devtable (blobs : list BlobInfo) (devtable : list RafsV6Device) (block_count : Z) : io (list RafsV6Device * Z) :=
  match blobs with
  | [] => Ok (devtable, block_count)
  | entry :: blobs =>
      let blob_id := bytes_of_string (bi_blob_id entry) in
      if negb (zlen blob_id =? 64) then Err EOTHER
      else if u32_MAX <? bi_uncompressed_size entry / EROFS_BLOCK_SIZE then Err EOTHER
      else
        let cnt := wrap 32 (bi_uncompressed_size entry / EROFS_BLOCK_SIZE) in
        _ ← rassert (bool_decide (is_Some (checked_add 32 block_count cnt)));
        block_count ← uadd 32 block_count cnt;
        let devslot := dev_set_mapped_blkaddr 0 (dev_set_blocks cnt (dev_set_blob_id (take 64 blob_id) RafsV6Device_new)) in
        make_devtable blobs (devtable ++ [devslot]) block_count
  end.

(** The places [rafsv6_dump] computes before it writes. *)
Record V6Places := mkV6Places {
  pl_blob_table_offset : Z;
  pl_blob_table_size : Z;
  pl_prefetch_offset : Z;
  pl_prefetch_size : Z;
  pl_orig_meta_addr : Z;
  pl_meta_addr : Z;
  pl_root_nid : Z
}.

Definition v6_places (p : Prefetch) (devtable : list RafsV6Device) (blob_table : RafsV6BlobTable) (nodes : list V6Node) : io V6Places :=
  devtable_len ← umul 64 (zlen devtable) 128;
  let blob_table_size := BlobTableV6_size blob_table in
  devtable_end ← uadd 64 EROFS_DEVTABLE_OFFSET devtable_len;
  blob_table_offset ← align_offset devtable_end EROFS_BLOCK_SIZE;
  _ ← rassert (zlen blob_table <? 0xffff);
  pf ← (if (0 <? Prefetch_len p) && (0 <? blob_table_size) then
          offset ← uadd 64 blob_table_offset blob_table_size;
          size ← umul 32 (Prefetch_len p) 4;
          Ok (offset, size)
        else Ok (0, 0));
  root ← vec_index nodes 0;
  orig_meta_addr ← usub 64 (v6_offset root) EROFS_BLOCK_SIZE;
  meta_addr ← (if 0 <? blob_table_size then
                 e ← uadd 64 blob_table_offset blob_table_size;
                 e ← uadd 64 e pf.2;
                 align_offset e EROFS_BLOCK_SIZE
               else Ok orig_meta_addr);
  meta_offset ← usub 64 meta_addr orig_meta_addr;
  root_offset ← uadd 64 (v6_offset root) meta_offset;
  root_nid ← calculate_nid root_offset meta_addr;
  Ok (mkV6Places blob_table_offset blob_table_size pf.1 pf.2 orig_meta_addr meta_addr root_nid).

Fixpoint store_devices (devtable : list RafsV6Device) : stM (list Z) errno unit :=
  match devtable with [] => st_ret tt | d :: devtable => _ ← dev_store d; store_devices devtable end.

(** [BTreeMap::iter] of the chunk cache: the keys are compared by digest, then by blob. *)
Definition cache_key (kc : Z * Z * RafsV5ChunkInfo) : list Z := digest_bytes kc.1.1 ++ rev (le_bytes 4 kc.1.2).
Definition cache_chunks_sorted (cache : gmap (Z * Z) RafsV5ChunkInfo) : list RafsV5ChunkInfo := snd <$> sort_by_key cache_key (map_to_list cache).

(** [RafsV5ChunkInfo::store] at the position of the writer. *)
Definition du_validate_alignment (size alignment : Z) : stM DumpState errno Z := fun s =>
  if negb (alignment =? 0) && (negb (Z.land size (alignment - 1) =? 0) || negb (Z.land (du_pos s) (alignment - 1) =? 0)) then (Err EINVAL, s) else (Ok size, s).
Definition v6c_store (c : RafsV5ChunkInfo) : stM DumpState errno Z :=
  _ ← du_write (v5c_bytes c); du_validate_alignment (zlen (v5c_bytes c)) RAFSV5_ALIGNMENT.

Fixpoint store_chunk_table (chunks : list RafsV5ChunkInfo) (chunk_table_size : Z) : stM DumpState errno Z :=
  match chunks with
  | [] => st_ret chunk_table_size
  | c :: chunks =>
      chunk_size ← v6c_store c;
      chunk_table_size ← st_lift (uadd 64 chunk_table_size chunk_size);
      store_chunk_table chunks chunk_table_size
  end.

Definition seek_to_end : stM DumpState errno Z := fun s => (Ok (zlen (du_bytes s)), mkDump (du_bytes s) (zlen (du_bytes s)) (du_cache s) (du_has_xattr s)).

(** The end of the file is filled up to a block; where the file ends then. *)
Definition pad_to_block : stM DumpState errno Z :=
  pos ← seek_to_end;
  e ← st_lift (align_offset pos EROFS_BLOCK_SIZE);
  padding ← st_lift (usub 64 e pos);
  _ ← du_write (replicate (Z.to_nat padding) 0);
  st_lift (uadd 64 pos padding).

Definition v6_super (block_count : Z) (blob_table : RafsV6BlobTable) (nodes : list V6Node) (pl : V6Places) : io RafsV6SuperBlock :=
  let sb := sb6_set_root_nid (wrap 16 (pl_root_nid pl)) (sb6_set_blocks block_count (sb6_set_inos (zlen nodes) RafsV6SuperBlock_new)) in
  sb ← sb6_set_meta_addr (pl_meta_addr pl) sb;
  Ok (sb6_set_extra_devices (wrap 16 (zlen blob_table)) sb).

(** The extended super block before the nodes are dumped. *)
Definition v6_ext (ctx : BuildContext) (pl : V6Places) : RafsV6SuperBlockExt :=
  let ext_sb := ext6_set_chunk_size (bc_chunk_size ctx) (ext6_set_digester (bc_digester ctx) (ext6_set_compressor (bc_compressor ctx) RafsV6SuperBlockExt_new)) in
  let ext_sb := ext6_set_blob_table (pl_blob_table_offset pl) (wrap 32 (pl_blob_table_size pl)) ext_sb in
  if bc_explicit_uidgid ctx then ext6_set_explicit_uidgid ext_sb else ext_sb.

Definition rafsv6_dump (ctx : BuildContext) (blob_table : RafsV6BlobTable) (nodes : list V6Node) : stM DumpState errno unit :=
  '(devtable, block_count) ← st_lift (make_devtable blob_table [] 0);
  pl ← st_lift (v6_places (bc_prefetch ctx) devtable blob_table nodes);
  sb ← st_lift (v6_super block_count blob_table nodes pl);
  _ ← du_store (sb6_store sb);
  ext_sb_offset ← st_get du_pos;
  let ext_sb := v6_ext ctx pl in
  _ ← seek_offset EROFS_DEVTABLE_OFFSET;
  _ ← du_store (store_devices devtable);
  _ ← seek_offset (pl_blob_table_offset pl);
  _ ← du_store (BlobTableV6_store blob_table);
  nodes ← dump_nodes_v6 (bc_chunk_size ctx) (pl_orig_meta_addr pl) (pl_meta_addr pl) nodes;
  prefetch_table ← st_lift (get_rafsv6_prefetch_table (bc_prefetch ctx) nodes (pl_meta_addr pl));
  ext_sb ← (match prefetch_table with
            | Some pt =>
                _ ← seek_offset (pl_prefetch_offset pl);
                _ ← du_store (PrefetchTableV6_store pt);
                st_ret (ext6_set_prefetch_table (pl_prefetch_offset pl) (pl_prefetch_size pl) ext_sb)
            | None => st_ret ext_sb
            end);
  chunk_table_offset ← pad_to_block;
  chunk_cache ← st_get du_cache;
  chunk_table_size ← store_chunk_table (cache_chunks_sorted chunk_cache) 0;
  let ext_sb := ext6_set_chunk_table chunk_table_offset chunk_table_size ext_sb in
  has_xattr ← st_get du_has_xattr;
  let ext_sb := if (has_xattr : bool) then ext6_set_has_xattr ext_sb else ext_sb in
  _ ← seek_offset ext_sb_offset;
  _ ← ext6_store ext_sb;
  _ ← pad_to_block;
  st_ret tt.
End dump.

(** ** The daemon *)

Inductive RafsMode := DirectMode | CachedMode.

(** [DirectMappingState]; the mapping of the file is in the super block. *)
Record DirectMappingState := mkMappingState { dm_meta : RafsSuperMeta; dm_blob_table : RafsV6BlobTable; dm_super : DirectSuperBlockV6 }.

Section load.
Context `{Profile} (mmap : Z -> io Z).

Definition DirectSuperBlockV6_new (meta : RafsSuperMeta) : DirectMappingState :=
  mkMappingState meta [] (mkDirectV6 (sm_meta_blkaddr meta * EROFS_BLOCK_SIZE) (sm_root_nid meta) (sm_chunk_size meta) (mkMapping (mkFileMap 0 0) [])).

Definition update_state (file : list Z) (self : DirectMappingState) : io DirectMappingState :=
  let meta := dm_meta self in
  let len := zlen file in
  md_size ← usub 64 len EROFS_BLOCK_SIZE;
  md_range ← MetaRange_new EROFS_BLOCK_SIZE md_size true;
  blob_table_range ← MetaRange_new (sm_blob_table_offset meta) (sm_blob_table_size meta) false;
  inside ← is_subrange_of blob_table_range md_range;
  if negb inside then Err EBADF else
  blob_table ← (BlobTableV6_load (sm_blob_table_size meta) (sm_chunk_size meta) [] (drop (Z.to_nat (sm_blob_table_offset meta)) file)).1;
  base ← mmap len;
  let ds := dm_super self in
  Ok (mkMappingState meta blob_table (mkDirectV6 (ds_meta_offset ds) (ds_root_ino ds) (ds_chunk_size ds) (mkMapping (mkFileMap base len) file))).

(** [RafsSuper::try_load_v6] on the bytes of the bootstrap; [None] when it is no v6 image. *)
Definition try_load_v6 (mode : RafsMode) (file : list Z) : io (option DirectMappingState) :=
  let e := zlen file in
  match (sb6_load file).1 with
  | Err _ => Ok None
  | Panic => Panic
  | Ok sb =>
      if negb (is_rafs_v6 sb) then Ok None else
      _ ← sb6_validate sb e;
      ext_sb ← ext6_load file;
      _ ← ext6_validate ext_sb e;
      flags ← ok_or (flags_from_bits (x_flags ext_sb)) EINVAL;
      let meta := mkSuperMeta (s6_magic sb) RAFS_SUPER_VERSION_V6 0 0 (x_chunk_size ext_sb) (s6_inos sb) flags 0 0
                    (x_blob_table_size ext_sb) (x_blob_table_offset ext_sb) 0 0 (x_prefetch_table_offset ext_sb) (x_prefetch_table_size ext_sb / 4)
                    RAFS_DEFAULT_ATTR_TIMEOUT RAFS_DEFAULT_ENTRY_TIMEOUT false (s6_meta_blkaddr sb) (s6_root_nid sb)
                    (x_chunk_table_offset ext_sb) (x_chunk_table_size ext_sb) in
      match mode with
      | DirectMode => st ← update_state file (DirectSuperBlockV6_new meta); Ok (Some st)
      | CachedMode => Err ENOSYS
      end
  end.
End load.

(** ** Bytes of a file *)

Lemma file_byte_app f g i : 0 <= i -> file_byte (f ++ g) i = if i <? zlen f then file_byte f i else file_byte g (i - zlen f).
Proof.
  intros Hi. unfold file_byte, zlen. destruct (Z.ltb_spec i (Z.of_nat (length f))); [by rewrite lookup_app_l by lia|]. rewrite lookup_app_r by lia. do 2 f_equal. lia.
Qed.

Lemma file_byte_end f i : zlen f <= i -> file_byte f i = 0.
Proof. intros Hi. unfold file_byte. by rewrite lookup_ge_None_2 by (unfold zlen in Hi; lia). Qed.

Lemma pwrite_end f data : pwrite f (zlen f) data = f ++ data.
Proof.
  destruct data as [|b data]; [by rewrite app_nil_r|]. unfold pwrite, zlen. rewrite Nat2Z.id. unfold splice. rewrite take_app_length.
  rewrite drop_ge by (rewrite length_app, length_replicate; cbn [length]; lia). by rewrite app_nil_r.
Qed.

Lemma file_holds_here f off data : 0 <= off -> file_holds (pwrite f off data) off data.
Proof. intros Ho. split; [done|]. intros i Hi. rewrite byte_at_pwrite by lia. replace ((off <=? off + i) && (off + i <? off + zlen data)) with true by lia. f_equal. lia. Qed.

Lemma file_holds_pwrite f off data o d : file_holds f off data -> 0 <= o -> o + zlen d <= off \/ off + zlen data <= o -> file_holds (pwrite f o d) off data.
Proof. intros [H0 Hf] Ho Hd. split; [done|]. intros i Hi. rewrite byte_at_pwrite by lia. replace ((o <=? off + i) && (off + i <? o + zlen d)) with false by lia. by apply Hf. Qed.

Lemma file_holds_writes f off data ws : file_holds f off data -> Forall (fun w => 0 <= w.1 /\ off + zlen data <= w.1) ws -> file_holds (apply_writes ws f) off data.
Proof. intros [H0 Hf] Hw. split; [done|]. intros i Hi. rewrite byte_at_untouched; [by apply Hf|lia|]. eapply Forall_impl; [exact Hw|]. cbn. lia. Qed.

Lemma file_holds_grow f off data g : file_holds f off data -> off + zlen data <= zlen f -> file_holds (f ++ g) off data.
Proof. intros [H0 Hf] Hl. split; [done|]. intros i Hi. rewrite file_byte_app by lia. rewrite (proj2 (Z.ltb_lt _ _)) by lia. by apply Hf. Qed.

Lemma file_holds_app_r f g : file_holds (f ++ g) (zlen f) g.
Proof. split; [apply zlen_nonneg|]. intros i Hi. pose proof (zlen_nonneg f). rewrite file_byte_app by lia. rewrite (proj2 (Z.ltb_ge _ _)) by lia. f_equal. lia. Qed.

Lemma file_holds_sub f off a b c : file_holds f off (a ++ b ++ c) -> file_holds f (off + zlen a) b.
Proof.
  intros [H0 Hf]. pose proof (zlen_nonneg a). split; [lia|]. intros i Hi. replace (off + zlen a + i) with (off + (zlen a + i)) by lia. rewrite Hf by (rewrite !zlen_app; pose proof (zlen_nonneg c); lia).
  rewrite file_byte_app by lia. rewrite (proj2 (Z.ltb_ge _ _)) by lia. replace (zlen a + i - zlen a) with i by lia. rewrite file_byte_app by lia. by rewrite (proj2 (Z.ltb_lt _ _)) by lia.
Qed.

(** What a file holds can be read. *)
Lemma holds_read f off data : file_holds f off data -> off + zlen data <= zlen f ->
  exists rest, drop (Z.to_nat off) f = data ++ rest.
Proof.
  intros Hf Hl. destruct (holds_stored (mkMapping (mkFileMap 0 0) f) off data Hf Hl) as (_ & _ & Hs). cbn [mp_bytes] in Hs. exists (drop (length data) (drop (Z.to_nat off) f)).
  unfold slice in Hs. rewrite <- Hs at 1. symmetry. apply take_drop.
Qed.

Lemma holds_read_exact f off data n : file_holds f off data -> off + zlen data <= zlen f -> length data = n -> (read_exact n (drop (Z.to_nat off) f)).1 = Ok data.
Proof. intros Hf Hl <-. destruct (holds_read f off data Hf Hl) as [rest ->]. by rewrite read_exact_app. Qed.

(** *** Whole blocks *)

Definition padded (f : list Z) : list Z := f ++ replicate (Z.to_nat (up 12 (zlen f) - zlen f)) 0.

Lemma zlen_padded f : zlen (padded f) = up 12 (zlen f).
Proof. unfold padded. rewrite zlen_app. destruct (up_bounds 12 (zlen f) ltac:(lia)) as [B _]. unfold zlen at 2. rewrite length_replicate. lia. Qed.

Lemma file_byte_padded f i : 0 <= i -> file_byte (padded f) i = file_byte f i.
Proof.
  intros Hi. unfold padded. rewrite file_byte_app by done. destruct (Z.ltb_spec i (zlen f)); [done|]. rewrite (file_byte_end f) by done. unfold file_byte. destruct (_ !! _) as [x|] eqn:E; [|done]. by apply lookup_replicate in E as [-> _].
Qed.

Lemma pad_to_block_run `{Profile} s : zlen (du_bytes s) + 2 ^ 12 < 2 ^ 64 ->
  pad_to_block s = (Ok (up 12 (zlen (du_bytes s))), mkDump (padded (du_bytes s)) (up 12 (zlen (du_bytes s))) (du_cache s) (du_has_xattr s)).
Proof.
  intros Hl. pose proof (zlen_nonneg (du_bytes s)). set (pos := zlen (du_bytes s)) in *. destruct (up_bounds 12 pos ltac:(lia)) as [B _]. unfold pad_to_block, seek_to_end. erewrite st_bind_run by reflexivity. fold pos.
  unfold align_offset. change EROFS_BLOCK_SIZE with (2 ^ 12). rewrite (round_up_spec _ 12) by lia. fold (up 12 pos). erewrite st_bind_run by reflexivity. rewrite usub_in by (split; lia). erewrite st_bind_run by reflexivity. erewrite st_bind_run by reflexivity.
  cbn [du_bytes du_pos du_cache du_has_xattr]. unfold pos at 4. rewrite pwrite_end. fold pos. rewrite uadd_in by (split; lia). unfold st_lift, padded. fold pos. f_equal; [f_equal; lia|]. f_equal. unfold zlen. rewrite length_replicate. fold pos. lia.
Qed.

(** ** Tables of the builder *)

Section tables.
Context `{Profile}.

(** The inode numbers of recorded nodes. *)
Definition prefetch_nids (nodes : list V6Node) (hits : list Z) : list Z :=
  (fun i => from_option (fun n => v6_offset n / 32) 0 (nodes !! Z.to_nat (i - 1))) <$> hits.

Lemma prefetch_entries_v6_run nodes meta_addr hits : forall table, 0 <= meta_addr -> Forall (fun i => 1 <= i <= zlen nodes) hits -> zlen nodes < 2 ^ 64 ->
  Forall (fun n => 0 <= v6_offset n /\ v6_offset n + 32 < 2 ^ 37 /\ v6_offset n + meta_addr < 2 ^ 64) nodes ->
  prefetch_entries_v6 hits (shifted meta_addr <$> nodes) meta_addr table = Ok (table ++ prefetch_nids nodes hits) /\ Forall (in_range 32) (prefetch_nids nodes hits).
Proof.
  induction hits as [|i hits IH]; intros table Hm Hh Hz Hn; [by rewrite app_nil_r|]. apply Forall_cons in Hh as [Hi Hh]. unfold prefetch_nids. rewrite fmap_cons. fold (prefetch_nids nodes hits).
  destruct (lookup_lt_is_Some_2 nodes (Z.to_nat (i - 1))) as [n Hl]; [unfold zlen in Hi; lia|]. destruct (Forall_lookup_1 _ _ _ _ Hn Hl) as (H0 & H1 & H2). rewrite Hl. cbn [from_option].
  assert (0 <= v6_offset n / 32 < 2 ^ 32 - 1) as Hr by (split; [apply Z.div_pos; lia|apply Z.div_lt_upper_bound; lia]).
  destruct (IH (table ++ [v6_offset n / 32]) Hm Hh Hz Hn) as [I1 I2]. split; [|constructor; [unfold in_range; lia|done]]. cbn [prefetch_entries_v6].
  assert (debug_assert (0 <? i) = @Ok errno _ tt) as -> by (unfold debug_assert; rewrite (proj2 (Z.ltb_lt 0 i)) by lia; by destruct overflow_checks). cbn [mbind outcome_bind]. rewrite usub_in by (split; lia). cbn [mbind outcome_bind].
  assert (vec_index (shifted meta_addr <$> nodes) (i - 1) = @Ok errno _ (shifted meta_addr n)) as -> by (apply vec_index_Ok; split; [lia|]; by rewrite list_lookup_fmap, Hl). cbn [mbind outcome_bind].
  unfold calculate_nid. change (v6_offset (shifted meta_addr n)) with (v6_offset n + meta_addr). rewrite usub_in by (split; lia). cbn [mbind outcome_bind]. rewrite Z.shiftr_div_pow2 by done.
  change (2 ^ EROFS_INODE_SLOT_BITS) with 32. replace (v6_offset n + meta_addr - meta_addr) with (v6_offset n) by lia. unfold rassert. rewrite (proj2 (Z.ltb_lt _ u32_MAX)) by (unfold u32_MAX; lia). cbn [mbind outcome_bind].
  rewrite wrap_small by (unfold in_range; lia). rewrite I1. by rewrite <- app_assoc.
Qed.

Definition blob_blocks (t : list BlobInfo) : Z := foldr (fun i n => bi_uncompressed_size i / EROFS_BLOCK_SIZE + n) 0 t.
Definition device_of (i : BlobInfo) : RafsV6Device := mkV6Device (bytes_of_string (bi_blob_id i)) (bi_uncompressed_size i / EROFS_BLOCK_SIZE) 0 0.

Lemma blob_blocks_nonneg t : forall idx cs, blobs6_valid idx cs t -> 0 <= blob_blocks t.
Proof. induction t as [|i t IH]; intros idx cs Hv; [done|]. destruct Hv as ((_ & _ & _ & _ & _ & [U _] & _) & _ & Ht). cbn [blob_blocks foldr]. fold (blob_blocks t). pose proof (IH _ _ Ht). pose proof (Z.div_pos (bi_uncompressed_size i) EROFS_BLOCK_SIZE U ltac:(done)). lia. Qed.

Lemma make_devtable_run t : forall idx cs devs count, blobs6_valid idx cs t -> 0 <= count -> count + blob_blocks t < 2 ^ 32 ->
  make_devtable t devs count = Ok (devs ++ (device_of <$> t), count + blob_blocks t).
Proof.
  induction t as [|i t IH]; intros idx cs devs count Hv Hc Hb; [by rewrite app_nil_r, Z.add_0_r|]. destruct Hv as (Hw & Hi & Ht). pose proof (blob_blocks_nonneg t _ _ Ht). destruct Hw as (_ & _ & _ & _ & _ & [U _] & _).
  pose proof (Z.div_pos (bi_uncompressed_size i) EROFS_BLOCK_SIZE U ltac:(done)). cbn [blob_blocks foldr] in Hb |- *. fold (blob_blocks t) in Hb |- *. set (n := bi_uncompressed_size i / EROFS_BLOCK_SIZE) in *.
  cbn [make_devtable]. destruct (bv_id _ _ _ Hi) as [Hid _]. rewrite Hid. cbn [Z.eqb negb]. fold n. rewrite (proj2 (Z.ltb_ge u32_MAX n)) by (unfold u32_MAX; lia). cbv zeta. rewrite (wrap_small 32 n) by (split; lia).
  assert (checked_add 32 count n = Some (count + n)) as -> by (apply checked_add_Some; lia). rewrite uadd_in by (split; lia). cbn [mbind outcome_bind is_Some]. unfold rassert. rewrite bool_decide_eq_true_2 by done. cbn [mbind outcome_bind].
  rewrite (IH _ _ _ _ Ht) by lia. rewrite fmap_cons, <- app_assoc. cbn [app]. rewrite take_ge by (unfold zlen in Hid; lia). rewrite Z.add_assoc. reflexivity.
Qed.

Lemma store_devices_run t : forall w, store_devices t w = (Ok tt, w ++ concat (dev_bytes <$> t)).
Proof. induction t as [|d t IH]; intros w; [by rewrite app_nil_r|]. cbn [store_devices]. erewrite st_bind_run by reflexivity. rewrite IH. rewrite fmap_cons. cbn [concat]. by rewrite app_assoc. Qed.

Lemma zlen_devices t : forall idx cs, blobs6_valid idx cs t -> zlen (concat (dev_bytes <$> (device_of <$> t))) = zlen t * 128.
Proof.
  induction t as [|i t IH]; intros idx cs Hv; [done|]. destruct Hv as (_ & Hi & Ht). rewrite !fmap_cons. cbn [concat]. rewrite zlen_app, (IH _ _ Ht). destruct (bv_id _ _ _ Hi) as [Hid _].
  assert (zlen (dev_bytes (device_of i)) = 128) as -> by (unfold zlen in *; rewrite length_dev_bytes; [done|]; cbn [device_of d_blob_id]; lia). unfold zlen. cbn [length]. lia.
Qed.

(** *** Places *)

Definition blob_table_place (t : list BlobInfo) : Z := up 12 (EROFS_DEVTABLE_OFFSET + 128 * zlen t).
Definition has_prefetch (p : Prefetch) (t : list BlobInfo) : bool := (0 <? Prefetch_len p) && (0 <? zlen t).
Definition prefetch_place (p : Prefetch) (t : list BlobInfo) : Z := if has_prefetch p t then blob_table_place t + 256 * zlen t else 0.
Definition prefetch_room (p : Prefetch) (t : list BlobInfo) : Z := if has_prefetch p t then 4 * Prefetch_len p else 0.
Definition meta_place (p : Prefetch) (t : list BlobInfo) : Z := if 0 <? zlen t then up 12 (blob_table_place t + 256 * zlen t + prefetch_room p t) else 0.
Definition places (p : Prefetch) (t : list BlobInfo) : V6Places :=
  mkV6Places (blob_table_place t) (256 * zlen t) (prefetch_place p t) (prefetch_room p t) 0 (meta_place p t) 128.

Lemma prefetch_len_range p : 0 <= Prefetch_len p < 2 ^ 32.
Proof. unfold Prefetch_len. case_bool_decide; [|lia]. unfold wrap. apply Z.mod_pos_bound. lia. Qed.

(** The tables are between the super blocks and the metadata. *)
Lemma places_bounds p t : zlen t < 0xffff -> 4 * Prefetch_len p < 2 ^ 32 ->
  EROFS_BLOCK_SIZE <= blob_table_place t < 2 ^ 24 /\ EROFS_DEVTABLE_OFFSET + 128 * zlen t <= blob_table_place t /\ blob_table_place t mod EROFS_BLOCK_SIZE = 0 /\
  0 <= prefetch_room p t < 2 ^ 32 /\ 0 <= meta_place p t < 2 ^ 34 /\ meta_place p t mod EROFS_BLOCK_SIZE = 0 /\
  (0 < zlen t -> blob_table_place t + 256 * zlen t + prefetch_room p t <= meta_place p t).
Proof.
  intros Ht Hp. pose proof (zlen_nonneg t). pose proof (prefetch_len_range p). unfold EROFS_DEVTABLE_OFFSET, EROFS_BLOCK_SIZE. destruct (up_bounds 12 (1408 + 128 * zlen t) ltac:(lia)) as [B1 B2].
  unfold meta_place, blob_table_place, EROFS_DEVTABLE_OFFSET in *. set (b := up 12 (1408 + 128 * zlen t)) in *. change (2 ^ 12) with 4096 in *.
  assert (4096 <= b) as Hb. { apply Z.mod_divide in B2 as [q ->]; [|lia]. lia. } assert (0 <= prefetch_room p t < 2 ^ 32) as Hr by (unfold prefetch_room; destruct (has_prefetch p t); lia).
  destruct (up_bounds 12 (b + 256 * zlen t + prefetch_room p t) ltac:(lia)) as [C1 C2]. change (2 ^ 12) with 4096 in *. destruct (Z.ltb_spec 0 (zlen t)); split_and!; try done; try lia.
Qed.

Lemma v6_places_run p t devs nodes root : zlen t < 0xffff -> 4 * Prefetch_len p < 2 ^ 32 -> length devs = length t -> nodes !! 0%nat = Some root -> v6_offset root = EROFS_BLOCK_SIZE ->
  v6_places p devs t nodes = Ok (places p t).
Proof.
  intros Ht Hp Hd Hr Ho. destruct (places_bounds p t Ht Hp) as (B1 & B2 & B3 & B4 & B5 & B6 & B7). pose proof (zlen_nonneg t). pose proof (prefetch_len_range p). unfold v6_places, BlobTableV6_size. assert (zlen devs = zlen t) as -> by (unfold zlen; by rewrite Hd).
  rewrite (umul_in 64 (zlen t) 128) by (split; lia). cbn [mbind outcome_bind].
  unfold EROFS_DEVTABLE_OFFSET in *. rewrite uadd_in by (split; lia). cbn [mbind outcome_bind]. unfold align_offset.
  change EROFS_BLOCK_SIZE with (2 ^ 12) at 1. rewrite (round_up_spec _ 12) by lia. cbn [mbind outcome_bind]. fold (up 12 (1408 + zlen t * 128)). replace (1408 + zlen t * 128) with (EROFS_DEVTABLE_OFFSET + 128 * zlen t) by (unfold EROFS_DEVTABLE_OFFSET; lia). fold (blob_table_place t).
  unfold rassert. rewrite (proj2 (Z.ltb_lt (zlen t) 0xffff)) by lia. cbn [mbind outcome_bind]. set (b := blob_table_place t) in *. replace (zlen t * 256) with (256 * zlen t) by lia.
  assert ((if (0 <? Prefetch_len p) && (0 <? 256 * zlen t) then offset ← uadd 64 b (256 * zlen t); size ← umul 32 (Prefetch_len p) 4; Ok (offset, size) else Ok (0, 0)) = @Ok errno _ (prefetch_place p t, prefetch_room p t)) as ->.
  { unfold prefetch_place, prefetch_room, has_prefetch. fold b. replace (0 <? 256 * zlen t) with (0 <? zlen t) by lia. destruct ((0 <? Prefetch_len p) && (0 <? zlen t)); [|done]. rewrite uadd_in, umul_in by (split; lia). cbn [mbind outcome_bind]. do 2 f_equal. lia. }
  cbn [mbind outcome_bind fst snd]. assert (vec_index nodes 0 = @Ok errno _ root) as -> by (apply vec_index_Ok; by split). cbn [mbind outcome_bind]. rewrite Ho. rewrite usub_in by (unfold EROFS_BLOCK_SIZE; split; lia). cbn [mbind outcome_bind]. rewrite Z.sub_diag.
  assert ((if 0 <? 256 * zlen t then e ← uadd 64 b (256 * zlen t); e ← uadd 64 e (prefetch_room p t); round_up e (2 ^ 12) else Ok 0) = @Ok errno _ (meta_place p t)) as ->.
  { unfold meta_place. fold b. replace (0 <? 256 * zlen t) with (0 <? zlen t) by lia. destruct (0 <? zlen t); [|done]. rewrite uadd_in by (split; lia). cbn [mbind outcome_bind]. rewrite uadd_in by (split; lia). cbn [mbind outcome_bind]. rewrite (round_up_spec _ 12) by lia. done. }
  cbn [mbind outcome_bind]. rewrite usub_in by (split; lia). cbn [mbind outcome_bind]. rewrite Z.sub_0_r. rewrite uadd_in by (unfold EROFS_BLOCK_SIZE; split; lia). cbn [mbind outcome_bind]. unfold calculate_nid. rewrite usub_in by (unfold EROFS_BLOCK_SIZE; split; lia). cbn [mbind outcome_bind].
  replace (EROFS_BLOCK_SIZE + meta_place p t - meta_place p t) with EROFS_BLOCK_SIZE by lia. done.
Qed.
End tables.

(** *** Chunk table *)

Definition chunks_bytes (l : list RafsV5ChunkInfo) : list Z := concat (v5c_bytes <$> l).

Lemma zlen_chunks_bytes l : zlen (chunks_bytes l) = 80 * zlen l.
Proof. unfold chunks_bytes. induction l as [|c l IH]; [done|]. rewrite fmap_cons. cbn [concat]. rewrite zlen_app, IH. unfold zlen. rewrite length_v5c_bytes. cbn [length]. lia. Qed.

Lemma v6c_store_run c s : du_pos s = zlen (du_bytes s) -> du_pos s mod 8 = 0 ->
  v6c_store c s = (Ok 80, mkDump (du_bytes s ++ v5c_bytes c) (du_pos s + 80) (du_cache s) (du_has_xattr s)).
Proof.
  intros Hp H8. assert (zlen (v5c_bytes c) = 80) as Hc by (unfold zlen; by rewrite length_v5c_bytes). unfold v6c_store. erewrite st_bind_run by reflexivity. unfold du_validate_alignment. cbn [du_pos]. rewrite Hc, !land7, Z.add_mod, H8 by lia.
  cbn [Z.eqb negb andb orb]. rewrite Hp, pwrite_end. done.
Qed.

Lemma store_chunk_table_run `{Profile} l : forall s size, du_pos s = zlen (du_bytes s) -> du_pos s mod 8 = 0 -> 0 <= size -> size + 80 * zlen l < 2 ^ 64 ->
  store_chunk_table l size s = (Ok (size + 80 * zlen l), mkDump (du_bytes s ++ chunks_bytes l) (zlen (du_bytes s) + 80 * zlen l) (du_cache s) (du_has_xattr s)).
Proof.
  induction l as [|c l IH]; intros s size Hp H8 H0 Hs.
  { cbn [store_chunk_table]. change (zlen []) with 0. rewrite !Z.mul_0_r, !Z.add_0_r, app_nil_r, <- Hp. by destruct s. }
  assert (zlen (c :: l) = zlen l + 1) as Hz by (unfold zlen; cbn [length]; lia). rewrite Hz in *. pose proof (zlen_nonneg l). cbn [store_chunk_table]. erewrite st_bind_run by exact (v6c_store_run c s Hp H8). rewrite uadd_in by (split; lia).
  erewrite st_bind_run by reflexivity. assert (zlen (v5c_bytes c) = 80) as Hc by (unfold zlen; by rewrite length_v5c_bytes). rewrite IH; cbn [du_bytes du_pos du_cache du_has_xattr]; [|by rewrite zlen_app, Hc, Hp|by rewrite Z.add_mod, H8 by lia|lia|lia].
  rewrite zlen_app, Hc. unfold chunks_bytes. rewrite fmap_cons. cbn [concat]. rewrite app_assoc. f_equal; [f_equal; lia|f_equal; lia].
Qed.

Lemma cache_chunks_in l : forall m k c, cache_chunks l m !! k = Some c -> c ∈ l \/ m !! k = Some c.
Proof.
  induction l as [|a l IH]; intros m k c Hc; [by right|]. cbn [cache_chunks foldl] in Hc. fold (cache_chunks l (<[(v5c_block_id a, v5c_blob_index a + 1) := a]> m)) in Hc. apply IH in Hc as [Hc|Hc]; [left; by right|].
  apply lookup_insert_Some in Hc as [[_ <-]|[_ Hc]]; [left; left|by right].
Qed.

Lemma cache_chunks_size l : forall m, (size (cache_chunks l m) <= size m + length l)%nat.
Proof.
  induction l as [|a l IH]; intros m; cbn [cache_chunks foldl length]; [lia|]. fold (cache_chunks l (<[(v5c_block_id a, v5c_blob_index a + 1) := a]> m)). etrans; [apply IH|].
  rewrite map_size_insert. case_match; unfold id; lia.
Qed.

Lemma sorted_chunks l : zlen (cache_chunks_sorted (cache_chunks l ∅)) <= zlen l /\ Forall (fun c => c ∈ l) (cache_chunks_sorted (cache_chunks l ∅)).
Proof.
  unfold cache_chunks_sorted. set (m := cache_chunks l ∅). pose proof (sort_by_key_perm cache_key (map_to_list m)) as Hp. split.
  - unfold zlen. rewrite length_fmap, (Permutation_length Hp). pose proof (cache_chunks_size l ∅) as Hs. fold m in Hs. rewrite map_size_empty in Hs. rewrite length_map_to_list. lia.
  - apply Forall_forall. intros c (kc & -> & Hin)%list_elem_of_fmap. rewrite Hp in Hin. destruct kc as [k c]. apply elem_of_map_to_list, cache_chunks_in in Hin as [Hin|Hin]; [done|by rewrite lookup_empty in Hin].
Qed.

(** ** The file of a builder *)

(** What a build provides: a chunk size and blobs the format knows, a prefetch table that fits, and recorded
    nodes that are nodes of the tree. [lim] is where the placement of the nodes ended. *)
Record v6_inputs (k : Z) (ctx : BuildContext) (t : list BlobInfo) (ns : list V6Node) (lim : Z) : Prop := {
  in_chunk_size : 12 <= k <= 24 /\ bc_chunk_size ctx = 2 ^ k;
  in_blobs : blobs6_valid 0 (2 ^ k) t /\ zlen t < 0xffff /\ blob_blocks t < 2 ^ 32;
  in_patterns : zlen (pf_patterns (bc_prefetch ctx)) < 2 ^ 30;
  in_hits : Forall (fun i => 1 <= i <= zlen ns) (prefetch_hits (bc_prefetch ctx));
  in_no_blobs : t = [] -> pf_policy (bc_prefetch ctx) = PrefetchFs -> prefetch_hits (bc_prefetch ctx) = [];
  in_nids : pf_policy (bc_prefetch ctx) = PrefetchFs -> lim < 2 ^ 37;
  in_chunks : zlen (concat (v6_chunks <$> ns)) < 2 ^ 56;
  in_nodes : zlen ns < 2 ^ 64
}.

Lemma zlen_pwrite_le f off data lim : 0 <= off -> zlen f <= lim -> (data <> [] -> off + zlen data <= lim) -> zlen (pwrite f off data) <= lim.
Proof. intros Ho Hf Hd. destruct (decide (data = [])) as [->|Hne]; [done|]. specialize (Hd Hne). rewrite zlen_pwrite by done. lia. Qed.

Lemma zlen_pwrite_ge f off data : 0 <= off -> zlen f <= zlen (pwrite f off data).
Proof. intros Ho. destruct (decide (data = [])) as [->|Hne]; [done|]. rewrite zlen_pwrite by done. lia. Qed.

Lemma zlen_apply_writes_le ws lim : forall f, Forall (fun w => 0 <= w.1 /\ w.1 + zlen w.2 <= lim) ws -> zlen f <= lim -> zlen (apply_writes ws f) <= lim.
Proof.
  induction ws as [|w ws IH]; intros f Hw Hf; [done|]. apply Forall_cons in Hw as [[H0 H1] Hw]. cbn [apply_writes foldl]. fold (apply_writes ws (pwrite f w.1 w.2)). apply IH; [done|]. by apply zlen_pwrite_le.
Qed.

Section image.
Context `{Profile} {k : Z} {ctx : BuildContext} {t : list BlobInfo} {ns nodes : list V6Node} {lim : Z} {ws : list (Z * list Z)}.
Notation p := (bc_prefetch ctx).
Notation m := (meta_place p t).
Context (Hi : v6_inputs k ctx t ns lim) (Hw : v6_written m lim ns nodes ws).

Definition super6 : RafsV6SuperBlock :=
  mkV6Super EROFS_SUPER_MAGIC_V1 0 EROFS_FEATURE_COMPAT_RAFS_V6 EROFS_BLOCK_BITS 0 128 (zlen nodes) 0 0 (blob_blocks t) (m / EROFS_BLOCK_SIZE) 0 0 0 12 0 (zlen t) 11 0.
Definition super6_area : list Z := replicate 1024 0 ++ sb6_bytes super6 ++ replicate 2944 0.
Definition prefetch_table6 : list Z := if bool_decide (pf_policy p = PrefetchFs) then prefetch_nids nodes (prefetch_hits p) else [].
Definition chunk_table6 : list RafsV5ChunkInfo := cache_chunks_sorted (cache_chunks (concat (v6_chunks <$> ns)) ∅).

Definition tables_file : list Z :=
  pwrite (pwrite (pwrite [] 0 super6_area) EROFS_DEVTABLE_OFFSET (concat (dev_bytes <$> (device_of <$> t)))) (blob_table_place t) (table6_bytes t).
Definition nodes_file : list Z := pwrite (apply_writes ws tables_file) (prefetch_place p t) (u32s_bytes prefetch_table6).
Definition ext6 : RafsV6SuperBlockExt :=
  let x := ext6_set_chunk_table (up 12 (zlen nodes_file)) (80 * zlen chunk_table6) (ext6_set_prefetch_table (prefetch_place p t) (prefetch_room p t) (v6_ext ctx (places p t))) in
  if existsb has_pairs ns then ext6_set_has_xattr x else x.
Definition chunks_file : list Z := padded nodes_file ++ chunks_bytes chunk_table6.
Definition v6_file : list Z := padded (pwrite chunks_file (EROFS_SUPER_OFFSET + EROFS_SUPER_BLOCK_SIZE) (ext6_bytes ext6)).

Lemma in_prefetch : 4 * Prefetch_len p < 2 ^ 32 /\ (pf_policy p = PrefetchFs -> Prefetch_len p = zlen (pf_patterns p)).
Proof.
  pose proof (in_patterns _ _ _ _ _ Hi) as Hp. pose proof (zlen_nonneg (pf_patterns p)). unfold Prefetch_len. case_bool_decide; [rewrite wrap_small by (split; lia)|]; split; [lia|done|lia|done].
Qed.

(** The table of recorded nodes fits into its place. *)
Lemma prefetch_table_fits : 4 * zlen prefetch_table6 <= prefetch_room p t.
Proof.
  destruct in_prefetch as [_ Hl]. unfold prefetch_table6, prefetch_room, has_prefetch. pose proof (prefetch_len_range p). case_bool_decide as Hp; [|change (zlen []) with 0; destruct (_ && _); lia]. rewrite (Hl Hp) in *.
  assert (zlen (prefetch_nids nodes (prefetch_hits p)) <= zlen (pf_patterns p)) as Hle. { unfold prefetch_nids, prefetch_hits, zlen. rewrite length_fmap. assert (forall l : list (list (list Z) * option Z), (length (omap snd l) <= length l)%nat) as Ho by (intros l; induction l as [|[f [v|]] l IH]; cbn; lia). specialize (Ho (pf_patterns p)). lia. }
  pose proof (zlen_nonneg (prefetch_nids nodes (prefetch_hits p))). pose proof (zlen_nonneg t). destruct (Z.ltb_spec 0 (zlen (pf_patterns p))), (Z.ltb_spec 0 (zlen t)); cbn [andb]; try lia.
  assert (t = []) as Ht by (destruct t; [done|]; unfold zlen in *; cbn [length] in *; lia). rewrite (in_no_blobs _ _ _ _ _ Hi Ht Hp). change (zlen (prefetch_nids nodes [])) with 0. lia.
Qed.

Lemma zlen_super6_area : zlen super6_area = EROFS_BLOCK_SIZE.
Proof. unfold super6_area. rewrite !zlen_app. unfold zlen. by rewrite length_sb6_bytes, !length_replicate. Qed.

Lemma zlen_u32s l : zlen (u32s_bytes l) = 4 * zlen l.
Proof. unfold zlen. rewrite length_u32s_bytes. lia. Qed.

Lemma zlen_tables_file : EROFS_BLOCK_SIZE <= zlen tables_file <= EROFS_BLOCK_SIZE + m.
Proof.
  destruct (in_blobs _ _ _ _ _ Hi) as (Hb & Hn & _). destruct in_prefetch as [Hp _]. destruct (places_bounds p t Hn Hp) as (B1 & B2 & B3 & B4 & B5 & B6 & B7). pose proof (zlen_nonneg t).
  unfold tables_file. rewrite (pwrite_end [] super6_area : pwrite [] 0 super6_area = super6_area). unfold EROFS_DEVTABLE_OFFSET, EROFS_BLOCK_SIZE in *. pose proof zlen_super6_area as Hz. unfold EROFS_BLOCK_SIZE in Hz. split.
  - rewrite <- zlen_pwrite_ge, <- zlen_pwrite_ge by lia. lia.
  - apply zlen_pwrite_le; [lia|apply zlen_pwrite_le; [lia|lia|]|]; intros Hne; [rewrite (zlen_devices _ _ _ Hb)|rewrite (length_table6 _ _ _ Hb)];
      (assert (0 < zlen t) as Hpos by (destruct t; [done|]; unfold zlen; cbn [length]; lia)); specialize (B7 Hpos); lia.
Qed.

Lemma zlen_nodes_file : EROFS_BLOCK_SIZE + m < zlen nodes_file < 2 ^ 45 /\ zlen nodes_file = zlen (apply_writes ws tables_file).
Proof.
  destruct (in_blobs _ _ _ _ _ Hi) as (Hb & Hn & _). destruct in_prefetch as [Hp _]. destruct (places_bounds p t Hn Hp) as (B1 & B2 & B3 & B4 & B5 & B6 & B7). pose proof (zlen_nonneg t). pose proof zlen_tables_file as [T1 T2]. pose proof prefetch_table_fits as Hfit.
  pose proof (vw_writes _ _ _ _ _ Hw) as Hws. pose proof (vw_room _ _ _ _ _ Hw) as Hroom. destruct (vw_some _ _ _ _ _ Hw) as (w & Hin & Hne). pose proof (proj1 (Forall_forall _ _) Hws w Hin) as (W0 & W1 & W2).
  assert (EROFS_BLOCK_SIZE + m < zlen (apply_writes ws tables_file)) as Hlo.
  { destruct (zlen_apply_writes ws tables_file) as [_ He]; [eapply Forall_impl; [exact Hws|]; by intros ? []|]. specialize (He w Hin Hne). assert (0 < zlen w.2) by (destruct w.2; [done|]; unfold zlen; cbn [length]; lia). lia. }
  assert (zlen (apply_writes ws tables_file) < 2 ^ 45) as Hhi.
  { pose proof (zlen_apply_writes_le ws (2 ^ 44 + 4096) tables_file) as He. unfold EROFS_BLOCK_SIZE in *. apply (Z.le_lt_trans _ (2 ^ 44 + 4096)); [|lia]. apply He; [|lia]. eapply Forall_impl; [exact Hws|]. cbn. lia. }
  assert (zlen nodes_file = zlen (apply_writes ws tables_file)) as E; [|split; [lia|done]]. unfold nodes_file. destruct (decide (u32s_bytes prefetch_table6 = [])) as [->|Hn0]; [done|].
  assert (0 < zlen (u32s_bytes prefetch_table6)) as Hpos by (destruct (u32s_bytes prefetch_table6); [done|]; unfold zlen; cbn [length]; lia). rewrite zlen_u32s in Hpos.
  rewrite zlen_pwrite; [|unfold prefetch_place, EROFS_BLOCK_SIZE in *; destruct (has_prefetch p t); lia|done]. rewrite zlen_u32s. unfold prefetch_room, prefetch_place, has_prefetch in *. destruct (Z.ltb_spec 0 (Prefetch_len p)), (Z.ltb_spec 0 (zlen t)); cbn [andb] in *; unfold EROFS_BLOCK_SIZE in *; lia.
Qed.

Lemma zlen_chunk_table6 : zlen chunk_table6 < 2 ^ 56.
Proof. destruct (sorted_chunks (concat (v6_chunks <$> ns))) as [Hs _]. pose proof (in_chunks _ _ _ _ _ Hi). unfold chunk_table6. lia. Qed.

Lemma v6_super_run : v6_super (blob_blocks t) t nodes (places p t) = Ok super6.
Proof.
  destruct (in_blobs _ _ _ _ _ Hi) as (Hb & Hn & _). destruct in_prefetch as [Hp _]. destruct (places_bounds p t Hn Hp) as (_ & _ & _ & _ & B5 & _). pose proof (zlen_nonneg t). unfold v6_super. cbv zeta. change (pl_root_nid (places p t)) with 128. change (pl_meta_addr (places p t)) with m.
  assert (0 <= m / EROFS_BLOCK_SIZE < 2 ^ 32) as Hr by (unfold EROFS_BLOCK_SIZE; split; [apply Z.div_pos; lia|apply Z.div_lt_upper_bound; lia]).
  unfold sb6_set_meta_addr, rassert. rewrite (proj2 (Z.leb_le _ _)) by (unfold u32_MAX; lia). cbn [mbind outcome_bind]. rewrite (wrap_small 32) by (unfold in_range; lia). rewrite (wrap_small 16) by (split; lia). reflexivity.
Qed.

Lemma get_prefetch_run : exists pt, get_rafsv6_prefetch_table p (shifted m <$> nodes) m = Ok pt /\ prefetch_table6 = default [] pt /\ Forall (in_range 32) prefetch_table6 /\
  (pt = None -> prefetch_place p t = 0 /\ prefetch_room p t = 0).
Proof.
  destruct (in_blobs _ _ _ _ _ Hi) as (_ & Hn & _). destruct in_prefetch as [Hpl _]. destruct (places_bounds p t Hn Hpl) as (_ & _ & _ & _ & B5 & _).
  unfold get_rafsv6_prefetch_table, prefetch_table6. case_bool_decide as Hp.
  - pose proof (in_hits _ _ _ _ _ Hi) as Hh. pose proof (in_nodes _ _ _ _ _ Hi) as Hnn. assert (zlen nodes = zlen ns) as Hz by (unfold zlen; by rewrite (vw_length _ _ _ _ _ Hw)). rewrite <- Hz in *.
    pose proof (vw_room _ _ _ _ _ Hw) as Hroom. pose proof (in_nids _ _ _ _ _ Hi Hp) as Hlim.
    destruct (prefetch_entries_v6_run nodes m (prefetch_hits p) [] ltac:(lia) Hh Hnn) as [E1 E2]. { eapply Forall_impl; [exact (vw_offsets _ _ _ _ _ Hw)|]. cbn. lia. }
    fold (prefetch_hits p). rewrite E1. cbn [mbind outcome_bind app]. eexists. split; [done|]. split; [done|]. split; [done|]. done.
  - exists None. split_and!; [done|done|done|]. intros _. unfold prefetch_place, prefetch_room, has_prefetch, Prefetch_len. rewrite bool_decide_eq_false_2 by done. done.
Qed.

Lemma prefetch_step pt ext s : prefetch_table6 = default [] pt -> (pt = None -> prefetch_place p t = 0 /\ prefetch_room p t = 0 /\ x_prefetch_table_offset ext = 0 /\ x_prefetch_table_size ext = 0) ->
  exists pos, (match pt with
   | Some pt => _ ← seek_offset (pl_prefetch_offset (places p t)); _ ← du_store (PrefetchTableV6_store pt); st_ret (ext6_set_prefetch_table (pl_prefetch_offset (places p t)) (pl_prefetch_size (places p t)) ext)
   | None => st_ret ext
   end) s = (Ok (ext6_set_prefetch_table (prefetch_place p t) (prefetch_room p t) ext), mkDump (pwrite (du_bytes s) (prefetch_place p t) (u32s_bytes prefetch_table6)) pos (du_cache s) (du_has_xattr s)).
Proof.
  intros Ht He. destruct pt as [pt|]; cbn [default from_option] in Ht.
  - rewrite Ht. eexists. erewrite st_bind_run by reflexivity. erewrite st_bind_run by reflexivity. reflexivity.
  - destruct (He eq_refl) as (-> & -> & E1 & E2). rewrite Ht. exists (du_pos s). unfold st_ret. destruct s, ext. cbn in *. by subst.
Qed.

Lemma zlen_chunks_file : zlen chunks_file = up 12 (zlen nodes_file) + 80 * zlen chunk_table6.
Proof. unfold chunks_file. by rewrite zlen_app, zlen_padded, zlen_chunks_bytes. Qed.

Lemma zlen_ext6_bytes x : zlen (ext6_bytes x) = 256.
Proof. unfold zlen. by rewrite length_ext6_bytes. Qed.

Lemma zlen_ext_file : zlen (pwrite chunks_file (EROFS_SUPER_OFFSET + EROFS_SUPER_BLOCK_SIZE) (ext6_bytes ext6)) = zlen chunks_file /\ zlen chunks_file < 2 ^ 63.
Proof.
  destruct zlen_nodes_file as [[L1 L2] _]. pose proof zlen_chunk_table6 as Hct. pose proof (zlen_nonneg chunk_table6). destruct (up_bounds 12 (zlen nodes_file) ltac:(lia)) as [U1 U2]. pose proof zlen_chunks_file as Hz.
  destruct (in_blobs _ _ _ _ _ Hi) as (_ & Hn & _). destruct in_prefetch as [Hp _]. destruct (places_bounds p t Hn Hp) as (_ & _ & _ & _ & B5 & _).
  rewrite zlen_pwrite; [|done|intros E; pose proof (zlen_ext6_bytes ext6) as Hx; by rewrite E in Hx]. rewrite zlen_ext6_bytes. unfold EROFS_SUPER_OFFSET, EROFS_SUPER_BLOCK_SIZE, EROFS_BLOCK_SIZE in *. split; lia.
Qed.

(** The dump of a whole bootstrap. *)
Lemma rafsv6_dump_run : (forall s, exists s', dump_nodes_v6 (2 ^ k) 0 m nodes s = (Ok (shifted m <$> nodes), s') /\ du_bytes s' = apply_writes ws (du_bytes s) /\
    collects (concat (v6_chunks <$> nodes)) (existsb has_pairs nodes) s s') ->
  exists s', rafsv6_dump ctx t nodes (mkDump [] 0 ∅ false) = (Ok tt, s') /\ du_bytes s' = v6_file.
Proof.
  intros Hdump. destruct (in_blobs _ _ _ _ _ Hi) as (Hb & Hn & Hbl). destruct in_prefetch as [Hp _]. destruct (vw_root _ _ _ _ _ Hw) as (root & Hr & Ho). destruct (in_chunk_size _ _ _ _ _ Hi) as [_ Hcs].
  unfold rafsv6_dump. rewrite (make_devtable_run t 0 (2 ^ k) [] 0 Hb ltac:(lia) ltac:(lia)). erewrite st_bind_run by reflexivity. rewrite Z.add_0_l. cbn [app].
  rewrite (v6_places_run p t _ nodes root Hn Hp (length_fmap _ _) Hr Ho). erewrite st_bind_run by reflexivity. rewrite v6_super_run. erewrite st_bind_run by reflexivity.
  erewrite st_bind_run by reflexivity. erewrite st_bind_run by reflexivity. cbv zeta. erewrite st_bind_run by reflexivity.
  erewrite st_bind_run by (unfold du_store; rewrite store_devices_run; reflexivity). erewrite st_bind_run by reflexivity.
  erewrite st_bind_run by (unfold du_store, BlobTableV6_store; erewrite st_bind_run by (exact (store_blobs_v6_run t 0 (2 ^ k) [] Hb)); reflexivity).
  change (pl_meta_addr (places p t)) with m. change (pl_orig_meta_addr (places p t)) with 0. rewrite Hcs.
  lazymatch goal with |- exists s', ?f ?s = _ /\ _ => assert (du_bytes s = tables_file) as Hs1 by reflexivity; assert (du_cache s = ∅ /\ du_has_xattr s = false) as [Hs2 Hs3] by done;
    destruct (Hdump s) as (s2 & E2 & Hb2 & Hc2 & Hx2); rewrite Hs1 in Hb2; rewrite Hs2 in Hc2; rewrite Hs3 in Hx2 end. erewrite st_bind_run by exact E2. clear E2 Hs1 Hs2 Hs3. rewrite (vw_chunks _ _ _ _ _ Hw) in Hc2. rewrite (vw_pairs _ _ _ _ _ Hw) in Hx2.
  destruct get_prefetch_run as (pt & E3 & Hpt & _ & Hnone). rewrite E3. erewrite st_bind_run by reflexivity.
  destruct (prefetch_step pt (v6_ext ctx (places p t)) s2 Hpt) as [pos E4]. { intros Hz. destruct (Hnone Hz) as [-> ->]. split_and!; [done|done| |]; unfold v6_ext; by destruct (bc_explicit_uidgid ctx). }
  erewrite st_bind_run by exact E4. clear E3 E4. destruct zlen_nodes_file as [[L1 L2] _]. rewrite Hb2. fold nodes_file.
  erewrite st_bind_run by (apply pad_to_block_run; cbn [du_bytes]; lia). cbn [du_bytes du_pos du_cache du_has_xattr]. erewrite st_bind_run by reflexivity. cbn [du_bytes du_pos du_cache du_has_xattr]. rewrite Hc2. fold chunk_table6.
  pose proof zlen_chunk_table6 as Hct. pose proof (zlen_nonneg chunk_table6). destruct (up_bounds 12 (zlen nodes_file) ltac:(lia)) as [U1 U2].
  erewrite st_bind_run by (apply store_chunk_table_run; cbn [du_bytes du_pos]; [by rewrite zlen_padded|exact (mod8_of 512 _ ltac:(lia) U2)|lia|lia]). cbn [du_bytes du_pos du_cache du_has_xattr].
  erewrite st_bind_run by reflexivity. cbn [du_bytes du_pos du_cache du_has_xattr]. rewrite Hx2, orb_false_l, Z.add_0_l. fold ext6. erewrite st_bind_run by reflexivity. erewrite st_bind_run by reflexivity. cbn [du_bytes du_pos du_cache du_has_xattr].
  fold chunks_file.
  destruct zlen_ext_file as [Z1 Z2]. erewrite st_bind_run by (apply pad_to_block_run; cbn [du_bytes]; lia). cbn [du_bytes]. eexists. split; [reflexivity|]. reflexivity.
Qed.

(** *** What the file holds *)

Lemma zlen_v6_file : zlen v6_file = up 12 (zlen chunks_file) /\ zlen v6_file mod EROFS_BLOCK_SIZE = 0 /\ zlen chunks_file <= zlen v6_file < 2 ^ 64 - 4096.
Proof. destruct zlen_ext_file as [Z1 Z2]. unfold v6_file. rewrite zlen_padded, Z1. destruct (up_bounds 12 (zlen chunks_file) ltac:(lia)) as [U1 U2]. split_and!; [done|exact U2|lia|lia]. Qed.

Lemma v6_file_byte i : 0 <= i < up 12 (zlen nodes_file) -> i < 1152 \/ 1408 <= i -> file_byte v6_file i = file_byte nodes_file i.
Proof.
  intros Hr Ho. unfold v6_file. rewrite file_byte_padded, byte_at_pwrite by (lia || done). rewrite zlen_ext6_bytes. unfold EROFS_SUPER_OFFSET, EROFS_SUPER_BLOCK_SIZE. replace ((1024 + 128 <=? i) && (i <? 1024 + 128 + 256)) with false by lia.
  unfold chunks_file. rewrite file_byte_app, zlen_padded by lia. rewrite (proj2 (Z.ltb_lt _ _)) by lia. apply file_byte_padded. lia.
Qed.

Lemma v6_file_holds off data : file_holds nodes_file off data -> off + zlen data <= zlen nodes_file -> off + zlen data <= 1152 \/ 1408 <= off -> file_holds v6_file off data.
Proof. intros [H0 Hf] Hl Ho. split; [done|]. intros i Hr. destruct (up_bounds 12 (zlen nodes_file) ltac:(lia)) as [U1 U2]. rewrite v6_file_byte by lia. by apply Hf. Qed.

(** The facts on the places and on the sizes of the parts that the lemmas below compute with. *)
Lemma v6_sizes : EROFS_BLOCK_SIZE <= blob_table_place t /\ 0 <= m /\ 1408 + 128 * zlen t <= blob_table_place t /\ 0 <= zlen t /\ 0 <= 4 * zlen prefetch_table6 <= prefetch_room p t /\
  (prefetch_room p t = 0 /\ prefetch_place p t = 0 \/ prefetch_place p t = blob_table_place t + 256 * zlen t /\ prefetch_place p t + prefetch_room p t <= m) /\
  (0 < zlen t -> blob_table_place t + 256 * zlen t <= m) /\ EROFS_BLOCK_SIZE + m < zlen nodes_file.
Proof.
  destruct (in_blobs _ _ _ _ _ Hi) as (_ & Hn & _). destruct in_prefetch as [Hp _]. destruct (places_bounds p t Hn Hp) as (B1 & B2 & B3 & B4 & B5 & B6 & B7). destruct zlen_nodes_file as [[L1 _] _]. pose proof prefetch_table_fits. pose proof (zlen_nonneg prefetch_table6). pose proof (zlen_nonneg t).
  unfold EROFS_DEVTABLE_OFFSET in B2. split_and!; try lia. unfold prefetch_place, prefetch_room in *. destruct (has_prefetch p t) eqn:E; [right|by left]. unfold has_prefetch in E. apply andb_prop in E as [_ E]. apply Z.ltb_lt in E. specialize (B7 E). split; [done|lia].
Qed.

Lemma nodes_file_holds off data : file_holds tables_file off data -> off + zlen data <= EROFS_BLOCK_SIZE + m ->
  off + zlen data <= blob_table_place t + 256 * zlen t -> file_holds nodes_file off data.
Proof.
  intros Hf He Hp. destruct v6_sizes as (S1 & S2 & S3 & S4 & S5 & S6 & S7 & S8). unfold nodes_file. destruct Hf as [H0 Hf]. unfold EROFS_BLOCK_SIZE in *.
  apply file_holds_pwrite; [apply file_holds_writes; [by split|]|lia|rewrite zlen_u32s; lia]. eapply Forall_impl; [exact (vw_writes _ _ _ _ _ Hw)|]. unfold EROFS_BLOCK_SIZE. cbn. lia.
Qed.

Lemma holds_super : file_holds v6_file EROFS_SUPER_OFFSET (sb6_bytes super6).
Proof.
  destruct v6_sizes as (S1 & S2 & S3 & S4 & S5 & S6 & S7 & S8). assert (zlen (sb6_bytes super6) = 128) as Hl by (unfold zlen; by rewrite length_sb6_bytes). unfold EROFS_SUPER_OFFSET, EROFS_BLOCK_SIZE in *.
  apply v6_file_holds; [|lia|lia]. apply nodes_file_holds; [|unfold EROFS_BLOCK_SIZE; lia|lia]. unfold tables_file, EROFS_DEVTABLE_OFFSET. apply file_holds_pwrite; [apply file_holds_pwrite; [|lia|lia]|lia|lia].
  change 1024 with (0 + zlen (replicate 1024 0)). eapply file_holds_sub. by apply file_holds_here.
Qed.

Lemma holds_ext : file_holds v6_file (EROFS_SUPER_OFFSET + EROFS_SUPER_BLOCK_SIZE) (ext6_bytes ext6).
Proof. destruct (file_holds_here chunks_file (EROFS_SUPER_OFFSET + EROFS_SUPER_BLOCK_SIZE) (ext6_bytes ext6) ltac:(done)) as [H0 Hf]. split; [done|]. intros i Hr. unfold v6_file. rewrite file_byte_padded by lia. by apply Hf. Qed.

Lemma holds_blobs : file_holds v6_file (blob_table_place t) (table6_bytes t) /\ zlen (table6_bytes t) = zlen t * 256.
Proof.
  destruct v6_sizes as (S1 & S2 & S3 & S4 & S5 & S6 & S7 & S8). destruct (in_blobs _ _ _ _ _ Hi) as (Hb & _ & _). pose proof (length_table6 _ _ _ Hb) as Hl. split; [|done]. unfold EROFS_BLOCK_SIZE in *.
  destruct (decide (t = [])) as [E|Hne]. { split; [lia|]. intros i Hr. rewrite Hl, E in Hr. change (zlen []) with 0 in Hr. lia. }
  assert (0 < zlen t) by (destruct t; [done|]; unfold zlen; cbn [length]; lia). apply v6_file_holds; [|lia|lia]. apply nodes_file_holds; [|unfold EROFS_BLOCK_SIZE; lia|lia]. unfold tables_file. apply file_holds_here. lia.
Qed.

Lemma tables_file_zero i : blob_table_place t + 256 * zlen t <= i -> file_byte tables_file i = 0.
Proof.
  intros Hr. destruct v6_sizes as (S1 & S2 & S3 & S4 & S5 & S6 & S7 & S8). destruct (in_blobs _ _ _ _ _ Hi) as (Hb & _ & _). unfold EROFS_BLOCK_SIZE in *. unfold tables_file.
  rewrite !byte_at_pwrite by (unfold EROFS_DEVTABLE_OFFSET; lia). rewrite (length_table6 _ _ _ Hb), (zlen_devices _ _ _ Hb), zlen_super6_area. unfold EROFS_DEVTABLE_OFFSET, EROFS_BLOCK_SIZE.
  replace ((blob_table_place t <=? i) && (i <? blob_table_place t + zlen t * 256)) with false by lia. replace ((1408 <=? i) && (i <? 1408 + zlen t * 128)) with false by lia. replace ((0 <=? i) && (i <? 0 + 4096)) with false by lia. done.
Qed.

(** The prefetch table, with the zeros for patterns that no node matched. *)
Definition prefetch_loaded : list Z := prefetch_table6 ++ replicate (Z.to_nat (prefetch_room p t / 4) - length prefetch_table6) 0.

Lemma u32s_bytes_app a b : u32s_bytes (a ++ b) = u32s_bytes a ++ u32s_bytes b.
Proof. unfold u32s_bytes. by rewrite fmap_app, concat_app. Qed.

Lemma u32s_bytes_zero n i : file_byte (u32s_bytes (replicate n 0)) i = 0.
Proof. unfold file_byte. destruct (_ !! _) as [x|] eqn:E; [|done]. cbn. apply list_elem_of_lookup_2 in E. revert E. induction n as [|n IH]; [by intros ?%elem_of_nil|]. change (u32s_bytes (replicate (S n) 0)) with ([0; 0; 0; 0] ++ u32s_bytes (replicate n 0)). intros [E|E]%elem_of_app; [set_solver|by apply IH]. Qed.

Lemma holds_prefetch : file_holds v6_file (prefetch_place p t) (u32s_bytes prefetch_loaded).
Proof.
  destruct v6_sizes as (S1 & S2 & S3 & S4 & S5 & S6 & S7 & S8). unfold EROFS_BLOCK_SIZE in *. assert (prefetch_room p t mod 4 = 0) as Hm4 by (unfold prefetch_room; destruct (has_prefetch p t); [rewrite Z.mul_comm; apply Z_mod_mult|done]). pose proof (proj2 (Z.div_exact (prefetch_room p t) 4 ltac:(lia)) Hm4) as H4.
  set (z := replicate (Z.to_nat (prefetch_room p t / 4) - length prefetch_table6) 0). assert (zlen z = prefetch_room p t / 4 - zlen prefetch_table6) as Hz.
  { unfold z, zlen. rewrite length_replicate. unfold zlen in S5. pose proof (Z.div_le_lower_bound (prefetch_room p t) 4 (Z.of_nat (length prefetch_table6)) ltac:(lia) ltac:(lia)). lia. }
  assert (zlen (u32s_bytes prefetch_loaded) = prefetch_room p t) as Hl by (unfold prefetch_loaded; fold z; rewrite zlen_u32s, zlen_app; lia).
  destruct S6 as [[S6 S6']|[S6 S6']]. { split; [lia|]. rewrite Hl, S6. lia. } apply v6_file_holds; [|lia|lia]. unfold prefetch_loaded. fold z. rewrite u32s_bytes_app. apply file_holds_app; [apply file_holds_here; lia|].
  rewrite zlen_u32s. split; [lia|]. intros i Hr. rewrite zlen_u32s in Hr. unfold z. rewrite u32s_bytes_zero. unfold nodes_file. rewrite byte_at_pwrite, zlen_u32s by lia.
  match goal with |- context [(?a <=? ?b) && (?c <? ?d)] => replace ((a <=? b) && (c <? d)) with false by lia end.
  rewrite byte_at_untouched; [apply tables_file_zero; lia|lia|]. eapply Forall_impl; [exact (vw_writes _ _ _ _ _ Hw)|]. unfold EROFS_BLOCK_SIZE. cbn. lia.
Qed.

Lemma holds_chunks : file_holds v6_file (up 12 (zlen nodes_file)) (chunks_bytes chunk_table6).
Proof.
  destruct v6_sizes as (S1 & S2 & S3 & S4 & S5 & S6 & S7 & S8). destruct (up_bounds 12 (zlen nodes_file) ltac:(lia)) as [U1 U2]. unfold EROFS_BLOCK_SIZE in *. pose proof (file_holds_app_r (padded nodes_file) (chunks_bytes chunk_table6)) as [H0 Hf]. rewrite zlen_padded in H0, Hf.
  split; [done|]. intros i Hr. unfold v6_file. rewrite file_byte_padded, byte_at_pwrite by (done || lia). rewrite zlen_ext6_bytes. unfold EROFS_SUPER_OFFSET, EROFS_SUPER_BLOCK_SIZE.
  replace ((1024 + 128 <=? up 12 (zlen nodes_file) + i) && (up 12 (zlen nodes_file) + i <? 1024 + 128 + 256)) with false by lia. by apply Hf.
Qed.

Lemma mapped_v6_file fm : mapped (mkMapping fm v6_file) (apply_writes ws tables_file) (EROFS_BLOCK_SIZE + m).
Proof.
  destruct v6_sizes as (S1 & S2 & S3 & S4 & S5 & S6 & S7 & S8). destruct zlen_v6_file as (V1 & V2 & V3 & _). destruct zlen_nodes_file as [_ En]. rewrite zlen_chunks_file in V3. pose proof (zlen_nonneg chunk_table6). destruct (up_bounds 12 (zlen nodes_file) ltac:(lia)) as [U1 U2].
  unfold mapped. cbn [mp_bytes]. split_and!; [lia|done|]. intros i Hr. rewrite <- En in Hr. unfold EROFS_BLOCK_SIZE in *. rewrite v6_file_byte by lia. unfold nodes_file. rewrite byte_at_pwrite, zlen_u32s by lia.
  match goal with |- context [(?a <=? ?b) && (?c <? ?d)] => replace ((a <=? b) && (c <? d)) with false by lia end. done.
Qed.

(** *** What is loaded *)

Lemma super6_wf : sb6_wf super6.
Proof.
  destruct (in_blobs _ _ _ _ _ Hi) as (Hb & Hn & Hbl). pose proof (blob_blocks_nonneg t _ _ Hb). pose proof (zlen_nonneg t). pose proof (zlen_nonneg nodes). assert (zlen nodes = zlen ns) as Hz by (unfold zlen; by rewrite (vw_length _ _ _ _ _ Hw)). pose proof (in_nodes _ _ _ _ _ Hi).
  destruct in_prefetch as [Hp _]. destruct (places_bounds p t Hn Hp) as (_ & _ & _ & _ & B5 & _). assert (0 <= m / EROFS_BLOCK_SIZE < 2 ^ 32) by (unfold EROFS_BLOCK_SIZE; split; [apply Z.div_pos; lia|apply Z.div_lt_upper_bound; lia]).
  unfold sb6_wf, super6. cbn [s6_magic s6_checksum s6_feature_compat s6_blkszbits s6_extslots s6_root_nid s6_inos s6_build_time s6_build_time_nsec s6_blocks s6_meta_blkaddr s6_xattr_blkaddr s6_uuid s6_volume_name s6_feature_incompat s6_u s6_extra_devices s6_devt_slotoff s6_reserved].
  unfold in_range. split_and!; try lia; try (vm_compute; done).
Qed.

Lemma load_super : (sb6_load v6_file).1 = Ok super6.
Proof.
  destruct v6_sizes as (S1 & S2 & S3 & S4 & S5 & S6 & S7 & S8). destruct zlen_v6_file as (V1 & V2 & V3 & _). rewrite zlen_chunks_file in V3. pose proof (zlen_nonneg chunk_table6). destruct (up_bounds 12 (zlen nodes_file) ltac:(lia)) as [U1 U2]. unfold EROFS_BLOCK_SIZE in *.
  destruct (holds_read _ _ _ holds_super) as [rest Hr]; [unfold zlen at 1; rewrite length_sb6_bytes; unfold EROFS_SUPER_OFFSET; lia|].
  unfold sb6_load. erewrite st_bind_run by (unfold read_exact at 1; rewrite (proj2 (Nat.leb_le _ _)) by (unfold EROFS_SUPER_OFFSET; unfold zlen in *; lia); reflexivity). rewrite Hr.
  erewrite st_bind_run by (apply read_exact_app, length_sb6_bytes). cbn [fst st_ret]. by rewrite (sb6_roundtrip _ super6_wf).
Qed.

Lemma super6_valid : sb6_validate super6 (zlen v6_file) = Ok tt.
Proof.
  destruct v6_sizes as (S1 & S2 & S3 & S4 & S5 & S6 & S7 & S8). destruct zlen_v6_file as (V1 & V2 & V3 & _). rewrite zlen_chunks_file in V3. pose proof (zlen_nonneg chunk_table6). destruct (up_bounds 12 (zlen nodes_file) ltac:(lia)) as [U1 U2].
  destruct (sb6_validate_cases super6 (zlen v6_file)) as [[E _]|[_ Hn]]; [exact E|]. exfalso. apply Hn. constructor; [split; [lia|done]|done|done|done| | |done|done|done].
  - cbn [super6 s6_inos]. destruct (vw_root _ _ _ _ _ Hw) as (root & Hr & _). destruct nodes; [done|]. unfold zlen. cbn [length]. lia.
  - cbn [super6 s6_extra_devices s6_blocks]. intros Hz. left. destruct t; [done|]. unfold zlen in Hz. cbn [length] in Hz. lia.
Qed.

Definition flags6 (c : CompressAlgorithm) (d : DigestAlgorithm) (explicit xattr : bool) : Z :=
  let f := Z.lor (compressor_flags c) (digester_flags d) in
  let f := if explicit then Z.lor f EXPLICIT_UID_GID else f in
  if xattr then Z.lor f HAS_XATTR else f.

Lemma ext6_fields : x_flags ext6 = flags6 (bc_compressor ctx) (bc_digester ctx) (bc_explicit_uidgid ctx) (existsb has_pairs ns) /\
  x_blob_table_offset ext6 = blob_table_place t /\ x_blob_table_size ext6 = 256 * zlen t /\ x_chunk_size ext6 = 2 ^ k /\
  x_chunk_table_offset ext6 = up 12 (zlen nodes_file) /\ x_chunk_table_size ext6 = 80 * zlen chunk_table6 /\
  x_prefetch_table_offset ext6 = prefetch_place p t /\ x_prefetch_table_size ext6 = prefetch_room p t /\ x_padding ext6 = 0 /\ x_reserved ext6 = 0.
Proof.
  destruct (in_blobs _ _ _ _ _ Hi) as (_ & Hn & _). pose proof (zlen_nonneg t). destruct (in_chunk_size _ _ _ _ _ Hi) as [_ Hcs]. assert (wrap 32 (256 * zlen t) = 256 * zlen t) as Hwr by (apply wrap_small; split; lia).
  rewrite <- Hcs, <- Hwr. unfold ext6, v6_ext. destruct (existsb has_pairs ns), (bc_explicit_uidgid ctx); (split_and!; [|reflexivity..]); destruct (bc_compressor ctx), (bc_digester ctx); vm_compute; reflexivity.
Qed.

Lemma flags6_facts c d e x : let f := flags6 c d e x in flags_from_bits f = Some f /\ flags_compressor f = c /\ flags_digester f = d /\
  flags_contain f EXPLICIT_UID_GID = e /\ flags_contain f HAS_XATTR = x /\ in_range 64 f /\
  Z.land f COMPRESSION_FLAGS = compressor_flags c /\ Z.land f (Z.lor HASH_BLAKE3 HASH_SHA256) = digester_flags d.
Proof. destruct c, d, e, x; (split_and!; [vm_compute; reflexivity..|split; vm_compute; done|vm_compute; reflexivity|vm_compute; reflexivity]). Qed.

Lemma chunk_size_power : is_power_of_two (2 ^ k) = true /\ EROFS_BLOCK_SIZE <= 2 ^ k <= RAFS_MAX_CHUNK_SIZE.
Proof.
  destruct (in_chunk_size _ _ _ _ _ Hi) as [Hk _]. change EROFS_BLOCK_SIZE with (2 ^ 12). change RAFS_MAX_CHUNK_SIZE with (2 ^ 24). split; [|split; apply Z.pow_le_mono_r; lia].
  assert (k ∈ seqZ 12 13) as Hin by (apply elem_of_seqZ; lia). assert (forallb (fun k => is_power_of_two (2 ^ k)) (seqZ 12 13) = true) as Hall by (vm_compute; reflexivity). rewrite forallb_forall in Hall. apply Hall. by apply list_elem_of_In.
Qed.

Lemma ext6_is_wf : ext6_wf ext6.
Proof.
  destruct ext6_fields as (F1 & F2 & F3 & F4 & F5 & F6 & F7 & F8 & F9 & F10). unfold ext6_wf. rewrite F1, F2, F3, F4, F5, F6, F7, F8, F9, F10. destruct (flags6_facts (bc_compressor ctx) (bc_digester ctx) (bc_explicit_uidgid ctx) (existsb has_pairs ns)) as (_ & _ & _ & _ & _ & Hf & _).
  destruct (in_blobs _ _ _ _ _ Hi) as (_ & Hn & _). destruct in_prefetch as [Hp _]. destruct (places_bounds p t Hn Hp) as (B1 & B2 & B3 & B4 & B5 & B6 & B7). destruct v6_sizes as (S1 & S2 & S3 & S4 & S5 & S6 & S7 & S8). destruct zlen_nodes_file as [[_ L2] _].
  destruct (up_bounds 12 (zlen nodes_file) ltac:(lia)) as [U1 _]. pose proof zlen_chunk_table6. pose proof (zlen_nonneg chunk_table6). destruct chunk_size_power as [_ Hcs]. unfold EROFS_BLOCK_SIZE in *. change RAFS_MAX_CHUNK_SIZE with (2 ^ 24) in Hcs.
  split; [exact Hf|]. unfold in_range. split_and!; try lia; vm_compute; done.
Qed.

Lemma ext6_is_valid : ext6_validate ext6 (zlen v6_file) = Ok tt.
Proof.
  destruct zlen_v6_file as (_ & _ & V3 & V4). rewrite zlen_chunks_file in V3. pose proof (zlen_nonneg v6_file). destruct (ext6_validate_cases ext6 (zlen v6_file) ext6_is_wf) as [[E _]|[_ Hno]]; [split; lia|exact E|]. exfalso. apply Hno.
  destruct ext6_fields as (F1 & F2 & F3 & F4 & F5 & F6 & F7 & F8 & _). destruct (flags6_facts (bc_compressor ctx) (bc_digester ctx) (bc_explicit_uidgid ctx) (existsb has_pairs ns)) as (_ & _ & _ & _ & _ & _ & Fc & Fd).
  destruct (in_blobs _ _ _ _ _ Hi) as (_ & Hn & _). destruct in_prefetch as [Hp _]. destruct (places_bounds p t Hn Hp) as (B1 & B2 & B3 & B4 & B5 & B6 & B7). destruct v6_sizes as (S1 & S2 & S3 & S4 & S5 & S6 & S7 & S8).
  destruct (up_bounds 12 (zlen nodes_file) ltac:(lia)) as [U1 U2]. pose proof (zlen_nonneg chunk_table6). constructor; rewrite ?F1, ?F2, ?F3, ?F4, ?F5, ?F6, ?F7, ?F8; unfold table_within, tables_disjoint.
  - by exists (bc_compressor ctx).
  - by exists (bc_digester ctx).
  - exact chunk_size_power.
  - split_and!; [done|rewrite Z.mul_comm; apply Z_mod_mult|lia|]. destruct (decide (zlen t = 0)); unfold EROFS_BLOCK_SIZE in *; [|specialize (S7 ltac:(lia)); lia]. replace (zlen t) with 0 by lia. pose proof (up12_mono (1408 + 128 * zlen t) 4096 ltac:(lia)) as Hm. change (up 12 4096) with 4096 in Hm. unfold blob_table_place, EROFS_DEVTABLE_OFFSET. lia.
  - intros _. split_and!; [exact U2|rewrite Z.mul_comm; apply Z_mod_mult|lia|lia|]. right. destruct (decide (zlen t = 0)); unfold EROFS_BLOCK_SIZE in *; [|specialize (S7 ltac:(lia)); lia]. pose proof (up12_mono (1408 + 128 * zlen t) 4096 ltac:(lia)) as Hm. change (up 12 4096) with 4096 in Hm. unfold blob_table_place, EROFS_DEVTABLE_OFFSET. lia.
  - intros Hr Hp0. destruct S6 as [[S6 _]|[S6 S6']]; [lia|]. unfold EROFS_BLOCK_SIZE in *. split_and!; [|unfold prefetch_room; destruct (has_prefetch p t); [rewrite Z.mul_comm; apply Z_mod_mult|done]|lia|lia|right; lia].
    rewrite S6. apply (mod8_of 32); [lia|]. rewrite Z.add_mod by lia. change (32 * 8) with 256. rewrite (Z.mul_comm 256), Z_mod_mult, Z.add_0_r, Z.mod_mod by lia. apply Z.mod_divide in B3 as [q ->]; [|lia]. replace (q * 4096) with (q * 16 * 256) by lia. apply Z_mod_mult.
Qed.

Lemma load_ext : ext6_load v6_file = Ok ext6.
Proof.
  destruct v6_sizes as (S1 & S2 & S3 & S4 & S5 & S6 & S7 & S8). destruct zlen_v6_file as (_ & _ & V3 & _). rewrite zlen_chunks_file in V3. pose proof (zlen_nonneg chunk_table6). destruct (up_bounds 12 (zlen nodes_file) ltac:(lia)) as [U1 _].
  unfold ext6_load. rewrite (holds_read_exact _ _ _ 256 holds_ext); [|rewrite zlen_ext6_bytes; unfold EROFS_SUPER_OFFSET, EROFS_SUPER_BLOCK_SIZE, EROFS_BLOCK_SIZE in *; lia|apply length_ext6_bytes].
  cbn [mbind outcome_bind]. by rewrite (ext6_roundtrip _ ext6_is_wf).
Qed.

Definition loaded_meta : RafsSuperMeta :=
  mkSuperMeta EROFS_SUPER_MAGIC_V1 RAFS_SUPER_VERSION_V6 0 0 (2 ^ k) (zlen nodes) (flags6 (bc_compressor ctx) (bc_digester ctx) (bc_explicit_uidgid ctx) (existsb has_pairs ns)) 0 0
    (256 * zlen t) (blob_table_place t) 0 0 (prefetch_place p t) (prefetch_room p t / 4) RAFS_DEFAULT_ATTR_TIMEOUT RAFS_DEFAULT_ENTRY_TIMEOUT false
    (m / EROFS_BLOCK_SIZE) 128 (up 12 (zlen nodes_file)) (80 * zlen chunk_table6).

Definition loaded_state (base : Z) : DirectMappingState :=
  mkMappingState loaded_meta (reloaded <$> t) (mkDirectV6 m 128 (2 ^ k) (mkMapping (mkFileMap base (zlen v6_file)) v6_file)).

Lemma update_state_run mmap base : mmap (zlen v6_file) = Ok base -> update_state mmap v6_file (DirectSuperBlockV6_new loaded_meta) = Ok (loaded_state base).
Proof.
  intros Hmm. destruct (in_blobs _ _ _ _ _ Hi) as (Hb & Hn & _). destruct in_prefetch as [Hp _]. destruct (places_bounds p t Hn Hp) as (B1 & B2 & B3 & B4 & B5 & B6 & B7).
  destruct v6_sizes as (S1 & S2 & S3 & S4 & S5 & S6 & S7 & S8). destruct zlen_v6_file as (V1 & V2 & V3 & V4). rewrite zlen_chunks_file in V3. pose proof (zlen_nonneg chunk_table6). destruct (up_bounds 12 (zlen nodes_file) ltac:(lia)) as [U1 _].
  assert (blob_table_place t + 256 * zlen t <= zlen v6_file) as Hend.
  { destruct (decide (zlen t = 0)); unfold EROFS_BLOCK_SIZE in *; [|specialize (S7 ltac:(lia)); lia]. pose proof (up12_mono (1408 + 128 * zlen t) 4096 ltac:(lia)) as Hm. change (up 12 4096) with 4096 in Hm. unfold blob_table_place, EROFS_DEVTABLE_OFFSET. lia. }
  unfold update_state, DirectSuperBlockV6_new. cbn [dm_meta dm_super loaded_meta sm_blob_table_offset sm_blob_table_size sm_chunk_size ds_meta_offset ds_root_ino ds_chunk_size sm_meta_blkaddr sm_root_nid].
  rewrite usub_in by (split; unfold EROFS_BLOCK_SIZE in *; lia). cbn [mbind outcome_bind].
  destruct (MetaRange_new_cases EROFS_BLOCK_SIZE (zlen v6_file - EROFS_BLOCK_SIZE) true) as [[-> _]|[_ Hno]].
  2:{ exfalso. apply Hno. split_and!; [done|lia|]. intros _. apply (mod8_of 512); [lia|]. change (512 * 8) with EROFS_BLOCK_SIZE. rewrite Zminus_mod, V2, Z.mod_same by done. done. }
  destruct (MetaRange_new_cases (blob_table_place t) (256 * zlen t) false) as [[-> _]|[_ Hno]].
  2:{ exfalso. apply Hno. split_and!; [exact (mod8_of 512 _ ltac:(lia) B3)|lia|done]. }
  cbn [mbind outcome_bind]. rewrite is_subrange_of_Ok by (unfold range_ok; cbn [mr_start mr_size]; unfold EROFS_BLOCK_SIZE in *; lia). cbn [mr_start mr_size mbind outcome_bind].
  replace ((EROFS_BLOCK_SIZE <=? blob_table_place t) && (blob_table_place t + 256 * zlen t <=? EROFS_BLOCK_SIZE + (zlen v6_file - EROFS_BLOCK_SIZE))) with true by lia. cbn [negb].
  destruct holds_blobs as [Hh Hl]. destruct (holds_read _ _ _ Hh ltac:(lia)) as [rest ->]. pose proof (BlobTableV6_load_run t (2 ^ k) rest Hb) as Hload. unfold BlobTableV6_size in Hload. replace (256 * zlen t) with (zlen t * 256) by lia. rewrite Hload. cbn [fst mbind outcome_bind].
  rewrite Hmm. cbn [mbind outcome_bind]. unfold loaded_state. replace (m / EROFS_BLOCK_SIZE * EROFS_BLOCK_SIZE) with m; [do 3 f_equal; lia|]. rewrite Z.mul_comm. by apply Z.div_exact.
Qed.

Lemma try_load_v6_run mmap base : mmap (zlen v6_file) = Ok base -> try_load_v6 mmap DirectMode v6_file = Ok (Some (loaded_state base)) /\ try_load_v6 mmap CachedMode v6_file = Err ENOSYS.
Proof.
  intros Hmm. unfold try_load_v6. rewrite load_super. change (is_rafs_v6 super6) with true. cbn [negb]. rewrite super6_valid, load_ext. cbn [mbind outcome_bind]. rewrite ext6_is_valid. cbn [mbind outcome_bind].
  destruct ext6_fields as (F1 & F2 & F3 & F4 & F5 & F6 & F7 & F8 & _). rewrite F1, F2, F3, F4, F5, F6, F7, F8. destruct (flags6_facts (bc_compressor ctx) (bc_digester ctx) (bc_explicit_uidgid ctx) (existsb has_pairs ns)) as (-> & _).
  cbn [ok_or mbind outcome_bind]. split; [|done]. cbn [super6 s6_magic s6_inos s6_meta_blkaddr s6_root_nid]. fold loaded_meta. by rewrite (update_state_run mmap base Hmm).
Qed.

Lemma load_prefetch : load_prefetch_table_v6 v6_file (prefetch_place p t) (Z.to_nat (prefetch_room p t / 4)) = Ok prefetch_loaded.
Proof.
  destruct v6_sizes as (S1 & S2 & S3 & S4 & S5 & S6 & S7 & S8). destruct zlen_v6_file as (V1 & V2 & V3 & V4). rewrite zlen_chunks_file in V3. pose proof (zlen_nonneg chunk_table6). destruct (up_bounds 12 (zlen nodes_file) ltac:(lia)) as [U1 _].
  assert (prefetch_room p t mod 4 = 0) as Hm4 by (unfold prefetch_room; destruct (has_prefetch p t); [rewrite Z.mul_comm; apply Z_mod_mult|done]). pose proof (proj2 (Z.div_exact (prefetch_room p t) 4 ltac:(lia)) Hm4) as H4.
  assert (length prefetch_loaded = Z.to_nat (prefetch_room p t / 4)) as Hl by (unfold prefetch_loaded; rewrite length_app, length_replicate; unfold zlen in S5; lia). assert (Forall (in_range 32) prefetch_loaded) as Hr.
  { destruct get_prefetch_run as (_ & _ & _ & Hf & _). apply Forall_app. split; [done|]. apply Forall_replicate. split; lia. }
  unfold load_prefetch_table_v6. rewrite (holds_read_exact _ _ _ _ holds_prefetch); [|rewrite zlen_u32s; unfold zlen at 1; rewrite Hl; unfold EROFS_BLOCK_SIZE in *; lia|rewrite length_u32s_bytes, Hl; done].
  cbn [mbind outcome_bind]. pose proof (u32s_roundtrip prefetch_loaded [] Hr) as Hu. rewrite app_nil_r, Hl in Hu. by rewrite Hu.
Qed.

Lemma load_chunk_bytes fm : up 12 (zlen nodes_file) mod EROFS_BLOCK_SIZE = 0 /\ stored (mkMapping fm v6_file) (up 12 (zlen nodes_file)) (chunks_bytes chunk_table6).
Proof.
  destruct zlen_v6_file as (V1 & V2 & V3 & V4). rewrite zlen_chunks_file in V3. split; [apply up_bounds; lia|]. apply (holds_stored (mkMapping fm v6_file) _ _ holds_chunks). cbn [mp_bytes]. rewrite zlen_chunks_bytes. lia.
Qed.
End image.

(** ** An image from the builder to the daemon *)

(** What a daemon has of an image after loading it. *)
Record v6_loaded `{Profile} (k : Z) (ctx : BuildContext) (t : list BlobInfo) (ns nodes : list V6Node) (T : V6Tree) (file : list Z) (st : DirectMappingState) : Prop := {
  vl_blobs : dm_blob_table st = reloaded <$> t;
  vl_algorithms : get_compressor (dm_meta st) = bc_compressor ctx /\ get_digester (dm_meta st) = bc_digester ctx;
  vl_sizes : sm_chunk_size (dm_meta st) = bc_chunk_size ctx /\ sm_inodes_count (dm_meta st) = zlen ns;
  vl_flags : meta_explicit_uidgid (dm_meta st) = bc_explicit_uidgid ctx /\ meta_has_xattr (dm_meta st) = existsb has_pairs ns;
  vl_prefetch : exists zeros, load_prefetch_table_v6 file (sm_prefetch_table_offset (dm_meta st)) (Z.to_nat (sm_prefetch_table_entries (dm_meta st))) =
      Ok ((if bool_decide (pf_policy (bc_prefetch ctx) = PrefetchFs) then prefetch_nids nodes (prefetch_hits (bc_prefetch ctx)) else []) ++ replicate zeros 0);
  vl_map : map_wf (ds_map (dm_super st)) /\ mp_bytes (ds_map (dm_super st)) = file /\ ds_chunk_size (dm_super st) = bc_chunk_size ctx;
  vl_chunks : let table := cache_chunks_sorted (cache_chunks (concat (v6_chunks <$> ns)) ∅) in sm_chunk_table_size (dm_meta st) = 80 * zlen table /\
      sm_chunk_table_offset (dm_meta st) mod EROFS_BLOCK_SIZE = 0 /\ stored (ds_map (dm_super st)) (sm_chunk_table_offset (dm_meta st)) (chunks_bytes table);
  vl_nodes : concat (v6_chunks <$> nodes) = concat (v6_chunks <$> ns);
  vl_tree : exists root_w, inode_wrapper (dm_super st) (ds_root_ino (dm_super st)) = Ok root_w /\
      tree_read k (meta_place (bc_prefetch ctx) t) (dm_super st) T nodes root_w
}.

(** The dump of an image and its loading. *)
Lemma v6_image_loads `{Profile} k ctx t l ns lp np c T : v6_inputs k ctx t ns (bx_offset c) ->
  v6_build k (meta_place (bc_prefetch ctx) t) l ns T -> v6_place_all lp BootstrapContext_new = Ok (np, c) -> placed_order lp np l ns ->
  exists nodes s, rafsv6_update_dirents T EROFS_BLOCK_SIZE ns = Ok nodes /\ rafsv6_dump ctx t nodes (mkDump [] 0 ∅ false) = (Ok tt, s) /\
  forall mmap base, mmap (zlen (du_bytes s)) = Ok base -> 0 < base -> base + zlen (du_bytes s) < 2 ^ 64 -> base mod EROFS_BLOCK_SIZE = 0 ->
    try_load_v6 mmap CachedMode (du_bytes s) = Err ENOSYS /\
    exists st, try_load_v6 mmap DirectMode (du_bytes s) = Ok (Some st) /\ v6_loaded k ctx t ns nodes T (du_bytes s) st.
Proof.
  intros Hi Hb Hpl Hord. destruct (in_blobs _ _ _ _ _ Hi) as (_ & Hn & _). destruct (in_prefetch Hi) as [Hp _]. destruct (places_bounds (bc_prefetch ctx) t Hn Hp) as (_ & _ & _ & _ & B5 & B6 & _). destruct (in_chunk_size _ _ _ _ _ Hi) as [Hk Hcs].
  destruct (v6_image_run k _ l ns lp np c T ltac:(lia) (proj1 B5) B6 Hb Hpl Hord) as (nodes & ws & Hup & Hw & Hdump & Hread). destruct (rafsv6_dump_run Hi Hw Hdump) as (s & Hd & Hbytes).
  exists nodes, s. split_and!; [done|done|]. rewrite Hbytes. intros mmap base Hmm H0 Hend Hal. destruct (try_load_v6_run Hi Hw mmap base Hmm) as [Hl Hc]. split; [exact Hc|]. eexists. split; [exact Hl|].
  destruct (flags6_facts (bc_compressor ctx) (bc_digester ctx) (bc_explicit_uidgid ctx) (existsb has_pairs ns)) as (_ & Fc & Fd & Fe & Fx & _).
  assert (zlen nodes = zlen ns) as Hz by (unfold zlen; by rewrite (vw_length _ _ _ _ _ Hw)). 
  assert (map_wf (mkMapping (mkFileMap base (zlen (v6_file (ctx:=ctx) (t:=t) (ns:=ns) (nodes:=nodes) (ws:=ws)))) v6_file)) as Hmap by (unfold map_wf, fm_wf; cbn [mp_map mp_bytes fm_base fm_size]; split_and!; [done|apply zlen_nonneg|done|done|done]).
  constructor; cbn [loaded_state dm_meta dm_blob_table dm_super ds_map ds_chunk_size].
  - done.
  - split; [exact Fc|exact Fd].
  - split; [symmetry; exact Hcs|exact Hz].
  - split; [exact Fe|exact Fx].
  - eexists. exact (load_prefetch Hi Hw).
  - split_and!; [exact Hmap|done|symmetry; exact Hcs].
  - split; [done|]. exact (load_chunk_bytes Hi Hw _).
  - exact (vw_chunks _ _ _ _ _ Hw).
  - apply (Hread (tables_file (ctx:=ctx) (t:=t) (nodes:=nodes))); [|exact Hmap|apply (mapped_v6_file Hi Hw)|done].
    intros i Hr. apply file_byte_end. pose proof (zlen_tables_file Hi Hw). lia.
Qed.

(** C2: a v6 image is read back, from the builder to the file system tree of the daemon. For every tree whose nodes
    can be represented, placed in any order of the directories, with the blob table and prefetch table of the build:
    the dump of the bootstrap succeeds, and a daemon that maps the file loads it. The super blocks validate;
    blobs, algorithms, flags, chunk size and number of inodes are those of the build, the prefetch table lists the
    nodes that matched a pattern and then zeros, and the chunk table has the chunks of all files, one for each digest and blob. From the
    root, every path of the tree leads to an inode with the attributes, extended attributes, symlink target
    and chunk addresses of its node, and a directory has exactly its children. In cached mode the image is
    refused. *)
Theorem v6_image_roundtrip `{Profile} k ctx t l ns lp np c T : v6_inputs k ctx t ns (bx_offset c) ->
  v6_build k (meta_place (bc_prefetch ctx) t) l ns T -> v6_place_all lp BootstrapContext_new = Ok (np, c) -> placed_order lp np l ns ->
  exists nodes s, rafsv6_update_dirents T EROFS_BLOCK_SIZE ns = Ok nodes /\ rafsv6_dump ctx t nodes (mkDump [] 0 ∅ false) = (Ok tt, s) /\
  forall mmap base, mmap (zlen (du_bytes s)) = Ok base -> 0 < base -> base + zlen (du_bytes s) < 2 ^ 64 -> base mod EROFS_BLOCK_SIZE = 0 ->
    try_load_v6 mmap CachedMode (du_bytes s) = Err ENOSYS /\
    exists st, try_load_v6 mmap DirectMode (du_bytes s) = Ok (Some st) /\ v6_loaded k ctx t ns nodes T (du_bytes s) st.
Proof. apply v6_image_loads. Qed.

(** [/d/f] is prefetched, and no node matches [/x]. *)
Definition v6_demo_prefetch : Prefetch := mkPrefetch PrefetchFs false [([[100]; [102]], Some 4); ([[120]], None)] ∅.
Definition v6_demo_build_ctx : BuildContext := mkBuildContext CZstd Sha256 0x100000 true false v6_demo_prefetch.

Lemma v6_demo_inputs : v6_inputs 20 v6_demo_build_ctx [v6_demo_blob] v6_demo_nodes (bx_offset v6_demo_ctx).
Proof.
  constructor; [by split|split_and!; [exact v6_demo_blob_valid|reflexivity|reflexivity]|reflexivity| |done|reflexivity|reflexivity|reflexivity].
  repeat constructor; demo_dec.
Qed.

Lemma v6_image_roundtrip_witness : exists nodes s st root_w w,
  rafsv6_update_dirents v6_demo_tree EROFS_BLOCK_SIZE v6_demo_nodes = Ok nodes /\
  @rafsv6_dump dev_profile v6_demo_build_ctx [v6_demo_blob] nodes (mkDump [] 0 ∅ false) = (Ok tt, s) /\
  @try_load_v6 dev_profile (fun _ => Ok 4096) DirectMode (du_bytes s) = Ok (Some st) /\ dm_blob_table st = [reloaded v6_demo_blob] /\
  @inode_wrapper dev_profile (dm_super st) (ds_root_ino (dm_super st)) = Ok root_w /\ @v6_resolve dev_profile (dm_super st) [[100]; [102]] root_w = Ok w /\
  @v6_get_xattr dev_profile (dm_super st) w (bytes_of_string "user.a") = Ok (Some [1; 2]).
Proof.
  destruct (@v6_image_roundtrip dev_profile 20 v6_demo_build_ctx [v6_demo_blob] v6_demo_array v6_demo_nodes v6_demo_placing v6_demo_placed v6_demo_ctx v6_demo_tree) as (nodes & s & Hup & Hd & Hload).
  - exact v6_demo_inputs.
  - exact v6_demo_build.
  - vm_compute. reflexivity.
  - split_and!; [|reflexivity|reflexivity|reflexivity]. cbn. constructor. apply perm_swap.
  - assert (zlen (du_bytes s) = 20480) as Hlen. { pose proof (f_equal (fun r => zlen (du_bytes r.2)) Hd) as E. vm_compute in Hup. injection Hup as <-. vm_compute in E. exact (eq_sym E). }
    destruct (Hload (fun _ => Ok 4096) 4096) as (_ & st & Hl & [Hb _ _ _ _ _ _ _ (root_w & Hr & Hpaths)]); [reflexivity|reflexivity|rewrite Hlen; reflexivity|reflexivity|].
    destruct (Hpaths [[100]; [102]] (mkV6Tree (v6_demo_f 4352) []) 4256) as (n & w & Hn & Hres & Hreads & _).
    + apply (v6_at_child v6_demo_tree EROFS_BLOCK_SIZE [[100]] (mkV6Tree (v6_demo_d 4256) [mkV6Tree (v6_demo_f 4352) []]) 4096 (mkV6Tree (v6_demo_f 4352) [])); [|reflexivity|left].
      apply (v6_at_child v6_demo_tree EROFS_BLOCK_SIZE [] v6_demo_tree 4096 (mkV6Tree (v6_demo_d 4256) [mkV6Tree (v6_demo_f 4352) []])); [constructor|reflexivity|left].
    + exists nodes, s, st, root_w, w. split_and!; [exact Hup|exact Hd|exact Hl|exact Hb|exact Hr|exact Hres|].
      rewrite (vr_xattr _ _ Hreads (bytes_of_string "user.a")). vm_compute in Hup. injection Hup as <-. injection Hn as <-. reflexivity.
Defined.

(** Without blobs the place of the prefetch table is 0, and the table is still written: the 257th entry is
    written over the magic number of the super block. *)
Section no_blobs.
#[local] Existing Instance dev_profile.

Definition no_blobs_ctx (n : nat) : BuildContext := mkBuildContext CZstd Sha256 0x100000 true false (mkPrefetch PrefetchFs false (replicate n ([[100]; [102]], Some 4)) ∅).
Definition no_blobs_load (n : nat) : option bool :=
  match rafsv6_update_dirents v6_demo_tree EROFS_BLOCK_SIZE v6_demo_nodes with
  | Ok nodes =>
      match rafsv6_dump (no_blobs_ctx n) [] nodes (mkDump [] 0 ∅ false) with
      | (Ok _, s) => match try_load_v6 (fun _ => Ok 4096) DirectMode (du_bytes s) with Ok st => Some (bool_decide (is_Some st)) | _ => None end
      | _ => None
      end
  | _ => None
  end.

Lemma prefetch_overwrites_super : no_blobs_load 256 = Some true /\ no_blobs_load 257 = Some false.
Proof. split; vm_compute; reflexivity. Qed.
End no_blobs.
