(* ===== verification/V6Io.v ===== *)
(** IO of RAFS v6 files ([rafs/src/metadata/direct_v6.rs]; [create_io_chunk] of
    [storage/src/device.rs]).

    A file of a mapped bootstrap has chunk addresses, a read becomes one descriptor per chunk of the
    range, in one IO vector per run of chunks of a blob. The chunk table at the end of the bootstrap
    leads from an address to the chunk. The theorems are that the descriptors of a read give the
    bytes of the file, and that the table leads every file to its own chunks. *)
From S2P Require Import Prelude Utils LittleEndian ChunkInfo Device BlobMeta MetaFile RafsLayout RafsV5 RafsBlobTable RafsV5Inode CachedInode CachedDir CachedSuper Overlay RafsV5Io Builder Prefetch Bootstrap RafsV6Inode DirectV6 RafsV6Xattr V6Layout V6Dump V6Update V6Image V6Trip RafsV6Super RafsV6Blob V6Demo V6Bootstrap.

(** ** Chunk table *)

Record DirectChunkInfoV6 := mkDirectChunk { dc_offset : Z; dc_digest : Z }.

(** [RafsV6InodeChunkAddr] as the key of a [HashMap]. *)
Definition addr_key (a : RafsV6InodeChunkAddr) : Z * Z * Z := (ca_blob_addr_lo a, ca_blob_addr_hi a, ca_blk_addr a).

Section direct.
Context `{Profile} (st : DirectMappingState).

Definition v5_chunk_at (offset : Z) : io RafsV5ChunkInfo := b ← get_ref (ds_map (dm_super st)) offset 80 8; Ok (v5c_of_bytes b).

Definition DirectChunkInfoV6_new (idx : Z) : io DirectChunkInfoV6 :=
  let table_offset := sm_chunk_table_offset (dm_meta st) in
  o ← umul 64 idx 80;
  offset ← uadd 64 table_offset o;
  chunk_tbl_end ← uadd 64 table_offset (sm_chunk_table_size (dm_meta st));
  bad ← (if offset <? table_offset then Ok true else e ← uadd 64 offset 80; Ok (chunk_tbl_end <? e));
  if (bad : bool) then Err EINVAL else
  chunk ← v5_chunk_at offset;
  Ok (mkDirectChunk offset (v5c_block_id chunk)).

Definition dc_v5_chunk (c : DirectChunkInfoV6) : io RafsV5ChunkInfo := unwrap (v5_chunk_at (dc_offset c)).

Fixpoint chunk_map_loop (n : nat) (idx : Z) (chunk_map : gmap (Z * Z * Z) Z) : io (gmap (Z * Z * Z) Z) :=
  match n with
  | O => Ok chunk_map
  | S n =>
      chunk ← DirectChunkInfoV6_new idx;
      i ← dc_v5_chunk chunk;
      v6_chunk ← ca_set_blob_index (v5c_blob_index i) ChunkAddr_new;
      v6_chunk ← ca_set_blob_ci_index (v5c_index i) v6_chunk;
      let v6_chunk := ca_set_block_addr (wrap 32 (v5c_uncompressed_offset i / EROFS_BLOCK_SIZE)) v6_chunk in
      chunk_map_loop n (idx + 1) (<[addr_key v6_chunk := idx]> chunk_map)
  end.

Definition load_chunk_map : io (gmap (Z * Z * Z) Z) :=
  let size := sm_chunk_table_size (dm_meta st) in
  if size =? 0 then Ok ∅
  else if negb (size mod 80 =? 0) then Err EINVAL
  else chunk_map_loop (Z.to_nat (size / 80)) 0 ∅.

(** [RafsSuperBlock::get_chunk_info]. *)
Definition sb_get_chunk_info (idx : Z) : io DirectChunkInfoV6 := DirectChunkInfoV6_new idx.

(** [RafsInodeExt::get_chunk_info]; the state is [chunk_map], which is loaded on the first use. *)
Definition v6_get_chunk_info (w : OndiskInodeWrapper) (idx : Z) : stM (option (gmap (Z * Z * Z) Z)) errno DirectChunkInfoV6 :=
  inode ← st_lift (ow_disk_inode (dm_super st) w);
  is_reg ← st_lift (ow_mode_is (dm_super st) S_IFREG w);
  valid ← (if (is_reg : bool) then count ← st_lift (v6_get_child_count (dm_super st) w); st_ret (idx <? count) else st_ret false);
  if negb valid then st_lift (Err ENOENT) else
  s ← st_lift (inode_xattr_size inode);
  o ← st_lift (uadd 64 (ow_offset w) s);
  i ← st_lift (umul 64 idx 8);
  offset ← st_lift (uadd 64 o i);
  b ← st_lift (get_ref (ds_map (dm_super st)) offset 8 4);
  let chunk_addr := chunk_addr_of_bytes b in
  cached ← st_get id;
  chunk_map ← (match cached with
               | Some chunk_map => st_ret chunk_map
               | None => chunk_map ← st_lift load_chunk_map; _ ← st_modify (fun _ => Some chunk_map); st_ret chunk_map
               end);
  match (chunk_map : gmap (Z * Z * Z) Z) !! addr_key chunk_addr with
  | None => st_lift (Err ENOENT)
  | Some idx => st_lift (DirectChunkInfoV6_new idx)
  end.
End direct.

(** ** Reads *)

(** [BlobDevice]: for each blob, [BlobCache::get_chunk_info]. *)
Record BlobDevice := mkBlobDevice { bd_blobs : list (Z -> option ChunkDesc) }.

Definition create_io_chunk (device : BlobDevice) (blob_index chunk_index : Z) : option ChunkDesc :=
  if blob_index <? zlen (bd_blobs device) then get_chunk_info ← bd_blobs device !! Z.to_nat blob_index; get_chunk_info chunk_index else None.

Section read.
Context `{Profile} (st : DirectMappingState) (device : BlobDevice).

Definition make_chunk_io (chunk_addr : RafsV6InodeChunkAddr) (content_offset content_len : Z) (user_io : bool) : io (option BlobIoDesc) :=
  blob_index ← ca_blob_index chunk_addr;
  let chunk_index := ca_blob_ci_index chunk_addr in
  match BlobTableV6_get blob_index (dm_blob_table st) with
  | Ok blob => Ok ((fun v => mkIoDesc blob v content_offset content_len user_io) <$> create_io_chunk device (bi_blob_index blob) chunk_index)
  | Err _ => Ok None
  | Panic => Panic
  end.

(** The chunks behind the first one, which are read from their start; what is left to read is the last result. *)
Fixpoint alloc_rest (user_io : bool) (chunk_size : Z) (chunks : list RafsV6InodeChunkAddr) (left : Z) (descs : BlobIoVec) (vec : list BlobIoVec)
    : io (list BlobIoVec * BlobIoVec * Z) :=
  match chunks with
  | [] => Ok (vec, descs, left)
  | c :: chunks =>
      let content_len := Z.min chunk_size left in
      desc ← make_chunk_io c 0 content_len user_io;
      desc ← ok_or desc EINVAL;
      let '(vec, descs) := if negb (bi_blob_index (io_blob desc) =? bi_blob_index (iov_blob descs)) then (vec ++ [descs], BlobIoVec_new (io_blob desc)) else (vec, descs) in
      descs ← BlobIoVec_push desc descs;
      left ← usub 32 left content_len;
      if left =? 0 then Ok (vec, descs, left) else alloc_rest user_io chunk_size chunks left descs vec
  end.

Definition v6_alloc_bio_vecs (w : OndiskInodeWrapper) (offset size : Z) (user_io : bool) : io (list BlobIoVec) :=
  let chunk_size := ds_chunk_size (dm_super st) in
  head_chunk_index ← udiv offset chunk_size;
  chunks ← err_invalidate_data (chunk_addresses (dm_super st) w (wrap 32 head_chunk_index));
  match chunks with
  | [] => Ok []
  | c :: rest =>
      let content_offset := wrap 32 (offset mod chunk_size) in
      file_size ← ow_size (dm_super st) w;
      remaining ← usub 64 file_size offset;
      let left := wrap 32 (Z.min remaining size) in
      room ← usub 32 chunk_size content_offset;
      let content_len := Z.min room left in
      desc ← make_chunk_io c content_offset content_len user_io;
      desc ← ok_or desc EINVAL;
      descs ← BlobIoVec_push desc (BlobIoVec_new (io_blob desc));
      left ← usub 32 left content_len;
      '(vec, descs, left) ← (if negb (left =? 0) then alloc_rest user_io chunk_size rest left descs [] else Ok ([], descs, left));
      let vec := match iov_vec descs with [] => vec | _ => vec ++ [descs] end in
      _ ← rassert (left =? 0);
      Ok vec
  end.
End read.

(** ** What a read asks for *)

(** The descriptors of a read: [len] bytes from offset [off] of the first chunk on. *)
Fixpoint io_plan (user : bool) (cs : Z) (chunks : list (BlobInfo * ChunkDesc)) (off len : Z) : list BlobIoDesc :=
  match chunks with
  | [] => []
  | (b, c) :: chunks =>
      if len <=? 0 then [] else
      let n := Z.min (cs - off) len in
      mkIoDesc b c off n user :: io_plan user cs chunks 0 (len - n)
  end.

(** The bytes the descriptors of a list ask for, with the uncompressed data of the chunks. *)
Definition read_data (content : ChunkDesc -> list Z) (l : list BlobIoDesc) : list Z :=
  concat ((fun d => slice (Z.to_nat (io_offset d)) (Z.to_nat (io_size d)) (content (io_chunk d))) <$> l).

(** Chunks of a file: all but the last one have the chunk size. *)
Fixpoint full_chunks (cs : Z) (l : list (list Z)) : Prop :=
  match l with
  | [] => True
  | d :: rest => match rest with [] => zlen d <= cs | _ => zlen d = cs /\ full_chunks cs rest end
  end.

Lemma slice_app_split (a b : list Z) off n m : (off + n = length a)%nat -> slice off (n + m) (a ++ b) = slice off n a ++ take m b.
Proof.
  intros Hl. unfold slice. rewrite drop_app_le by lia. rewrite take_app_ge by (rewrite length_drop; lia). rewrite length_drop. f_equal; [by rewrite take_ge by (rewrite length_drop; lia)|]. f_equal. lia.
Qed.

Lemma io_plan_data user cs content chunks : forall off len, full_chunks cs ((fun x => content x.2) <$> chunks) -> 0 <= off < cs -> 0 <= len ->
  off + len <= zlen (concat ((fun x => content x.2) <$> chunks)) ->
  read_data content (io_plan user cs chunks off len) = slice (Z.to_nat off) (Z.to_nat len) (concat ((fun x => content x.2) <$> chunks)).
Proof.
  induction chunks as [|[b c] chunks IH]; intros off len Hf Ho Hlen Hl.
  { cbn [fmap list_fmap concat] in Hl. change (zlen []) with 0 in Hl. replace len with 0 by lia. done. }
  cbn [io_plan]. destruct (Z.leb_spec len 0) as [H0|H0]. { replace len with 0 by lia. done. }
  rewrite fmap_cons in *. cbn [fst snd concat] in *. set (d := content c) in *. set (n := Z.min (cs - off) len). unfold read_data. rewrite fmap_cons. cbn [concat io_offset io_size io_chunk]. fold (read_data content (io_plan user cs chunks 0 (len - n))). fold d.
  destruct chunks as [|x chunks].
  - cbn [full_chunks fmap list_fmap] in Hf. cbn [fmap list_fmap concat] in Hl |- *. rewrite zlen_app in Hl. change (zlen []) with 0 in Hl. replace n with len by (unfold n; lia). rewrite Z.sub_diag. cbn [io_plan]. by rewrite !app_nil_r.
  - destruct Hf as [Hd Hf]. destruct (decide (len <= cs - off)) as [Hle|Hgt].
    + replace n with len by (unfold n; lia). rewrite Z.sub_diag. assert (io_plan user cs (x :: chunks) 0 0 = []) as -> by (by destruct x). cbn [read_data fmap list_fmap concat]. rewrite app_nil_r.
      unfold slice. unfold zlen in Hd. rewrite drop_app_le by lia. by rewrite take_app_le by (rewrite length_drop; lia).
    + replace n with (cs - off) by (unfold n; lia). rewrite zlen_app in Hl. rewrite IH by (done || lia). unfold slice at 2. rewrite drop_0. unfold zlen in Hd. rewrite <- slice_app_split by lia. f_equal. lia.
Qed.

Lemma full_chunks_drop cs h : forall l, 0 < cs -> full_chunks cs l -> (h < length l)%nat -> full_chunks cs (drop h l) /\ concat (drop h l) = drop (h * Z.to_nat cs) (concat l).
Proof.
  induction h as [|h IH]; intros l Hcs Hf Hh; [done|]. destruct l as [|d l]; [by apply Nat.nlt_0_r in Hh|]. cbn [length] in Hh. destruct l as [|e l]; [cbn in Hh; lia|]. destruct Hf as [Hd Hf].
  destruct (IH (e :: l) Hcs Hf ltac:(cbn [length] in *; lia)) as [I1 I2]. change (drop (S h) (d :: e :: l)) with (drop h (e :: l)). split; [done|]. rewrite I2. cbn [concat]. unfold zlen in Hd.
  rewrite (drop_app_ge d) by lia. f_equal. lia.
Qed.

Section read_spec.
Context `{Profile} (st : DirectMappingState) (device : BlobDevice) (user : bool).

Notation get_blob := (fun idx => BlobTableV6_get idx (dm_blob_table st)).

(** The blob and the chunk an address stands for. *)
Definition resolves (a : RafsV6InodeChunkAddr) (bc : BlobInfo * ChunkDesc) : Prop :=
  exists idx, ca_blob_index a = Ok idx /\ get_blob idx = Ok bc.1 /\ bi_blob_index bc.1 = idx /\ create_io_chunk device idx (ca_blob_ci_index a) = Some bc.2.

Lemma make_chunk_io_run a b c off len : resolves a (b, c) -> make_chunk_io st device a off len user = Ok (Some (mkIoDesc b c off len user)).
Proof. intros (idx & E1 & E2 & E3 & E4). cbn [fst snd] in *. unfold make_chunk_io. rewrite E1. cbn [mbind outcome_bind]. rewrite E2. rewrite E3, E4. done. Qed.

Lemma push_run d v : iov_ok v -> iov_blob v = io_blob d -> 0 <= io_size d -> iov_size v + io_size d < 2 ^ 32 ->
  BlobIoVec_push d v = Ok (mkIoVec (iov_blob v) (iov_size v + io_size d) (iov_vec v ++ [d])) /\ iov_ok (mkIoVec (iov_blob v) (iov_size v + io_size d) (iov_vec v ++ [d])).
Proof.
  intros (Hs1 & Hs2 & Hs3) Hb H0 Hl. assert (same_blob (iov_blob v) (io_blob d) = true) as Hsame by (unfold same_blob; rewrite Hb, Z.eqb_refl; by rewrite bool_decide_eq_true_2).
  unfold BlobIoVec_push. rewrite Hsame. cbn [rassert mbind outcome_bind]. rewrite (proj2 (checked_add_bd 32 (iov_size v) (io_size d))) by lia. split; [done|]. split_and!; cbn [iov_size iov_vec iov_blob].
  - rewrite io_total_app, Hs1. cbn. lia.
  - lia.
  - lia.
  - apply Forall_app. split; [done|]. by apply Forall_singleton.
Qed.

(** Vectors: filled, none empty, a new one where the blob changes, and of blobs of the table. *)
Definition vecs_ok (vs : list BlobIoVec) : Prop :=
  Forall iov_ok vs /\ Forall (fun v => iov_vec v <> []) vs /\ no_adjacent (blob_indexes vs) /\ Forall (blob_found get_blob) vs.

Lemma vecs_step vec descs d : vecs_ok (vec ++ [descs]) -> get_blob (bi_blob_index (io_blob d)) = Ok (io_blob d) -> 0 <= io_size d -> iov_size descs + io_size d < 2 ^ 32 ->
  let '(vec1, descs1) := if negb (bi_blob_index (io_blob d) =? bi_blob_index (iov_blob descs)) then (vec ++ [descs], BlobIoVec_new (io_blob d)) else (vec, descs) in
  exists descs2, BlobIoVec_push d descs1 = Ok descs2 /\ vecs_ok (vec1 ++ [descs2]) /\ all_descs (vec1 ++ [descs2]) = all_descs (vec ++ [descs]) ++ [d] /\ iov_size descs2 <= iov_size descs + io_size d.
Proof.
  intros (Hok & Hne & Hadj & Hf) Hb H0 Hl. pose proof Hok as Hok'. apply Forall_app in Hok' as [Hv Hd]. apply Forall_inv in Hd. pose proof Hne as Hne'. apply Forall_app in Hne' as [Nv Nd]. pose proof Hf as Hf'. apply Forall_app in Hf' as [Fv Fd]. apply Forall_inv in Fd.
  destruct (Z.eqb_spec (bi_blob_index (io_blob d)) (bi_blob_index (iov_blob descs))) as [E|E]; cbn [negb].
  - assert (iov_blob descs = io_blob d) as Eb. { unfold blob_found in Fd. rewrite <- E in Fd. congruence. }
    destruct (push_run d descs Hd Eb H0 Hl) as [-> Hp]. eexists. split; [done|]. cbn [iov_size]. split_and!; [| |lia].
    + split_and!; [by apply Forall_app; split; [|apply Forall_singleton]| | |].
      * apply Forall_app. split; [done|]. apply Forall_singleton. cbn. by destruct (iov_vec descs).
      * unfold blob_indexes in *. rewrite fmap_app in *. exact Hadj.
      * apply Forall_app. split; [done|]. apply Forall_singleton. exact Fd.
    + rewrite !all_descs_snoc. cbn [iov_vec]. by rewrite app_assoc.
  - destruct Hd as (S1 & S2 & S3). assert (iov_ok (BlobIoVec_new (io_blob d))) as Hn by (split_and!; [done|cbn; lia|cbn; lia|constructor]).
    destruct (push_run d (BlobIoVec_new (io_blob d)) Hn eq_refl H0 ltac:(cbn [BlobIoVec_new iov_size]; lia)) as [-> Hp]. eexists. split; [done|]. cbn [BlobIoVec_new iov_blob iov_size iov_vec] in *. split_and!; [| |lia].
    + split_and!; [by apply Forall_app; split; [|apply Forall_singleton]| | |].
      * apply Forall_app. split; [done|]. by apply Forall_singleton.
      * unfold blob_indexes in *. rewrite !fmap_app in *. apply no_adjacent_snoc; [exact Hadj|]. cbn [iov_blob]. congruence.
      * apply Forall_app. split; [done|]. by apply Forall_singleton.
    + rewrite all_descs_snoc. done.
Qed.

Lemma alloc_rest_run cs addrs bcs : Forall2 resolves addrs bcs -> forall left vec descs, 0 < cs < 2 ^ 32 -> 0 < left <= cs * zlen bcs -> vecs_ok (vec ++ [descs]) -> iov_size descs + left < 2 ^ 32 ->
  exists vec' descs', alloc_rest st device user cs addrs left descs vec = Ok (vec', descs', 0) /\ vecs_ok (vec' ++ [descs']) /\
    all_descs (vec' ++ [descs']) = all_descs (vec ++ [descs]) ++ io_plan user cs bcs 0 left.
Proof.
  induction 1 as [|a [b c] addrs bcs Hr _ IH]; intros left vec descs Hcs Hleft Hok Hsz; [change (zlen []) with 0 in Hleft; lia|].
  assert (zlen ((b, c) :: bcs) = zlen bcs + 1) as Hz by (unfold zlen; cbn [length]; lia). rewrite Hz in Hleft. cbn [alloc_rest io_plan]. rewrite (proj2 (Z.leb_gt left 0)), Z.sub_0_r by lia.
  set (n := Z.min cs left). rewrite (make_chunk_io_run a b c 0 n Hr). cbn [ok_or mbind outcome_bind]. assert (0 <= iov_size descs) as H0. { destruct Hok as (Hok & _). apply Forall_app in Hok as [_ Hd]. apply Forall_inv in Hd as (_ & S2 & _). lia. }
  set (d := mkIoDesc b c 0 n user). destruct Hr as (idx & _ & Hg & Hi & _). cbn [fst snd] in Hg, Hi.
  pose proof (vecs_step vec descs d Hok ltac:(cbn [d io_blob]; rewrite Hi; exact Hg) ltac:(cbn [d io_size]; lia) ltac:(cbn [d io_size]; lia)) as Hstep.
  destruct (if negb (bi_blob_index (io_blob d) =? bi_blob_index (iov_blob descs)) then (vec ++ [descs], BlobIoVec_new (io_blob d)) else (vec, descs)) as [vec1 descs1].
  destruct Hstep as (descs2 & -> & Hok2 & Hall & Hs2). cbn [mbind outcome_bind d io_size] in *. rewrite usub_in by (split; lia). cbn [mbind outcome_bind]. destruct (Z.eqb_spec (left - n) 0) as [E|E].
  - exists vec1, descs2. rewrite E. split_and!; [done|done|]. rewrite Hall. destruct bcs as [|[b' c'] bcs]; [done|]. done.
  - destruct (IH (left - n) vec1 descs2 Hcs ltac:(lia) Hok2 ltac:(lia)) as (vec' & descs' & -> & Hok' & Hall'). exists vec', descs'. split_and!; [done|done|]. rewrite Hall', Hall, <- app_assoc. done.
Qed.

(** What the IO code uses of a file: its size, its chunk addresses, and the chunks these stand for. *)
Record v6_file_ops (w : OndiskInodeWrapper) (cs fsize : Z) (addrs : list RafsV6InodeChunkAddr) (bcs : list (BlobInfo * ChunkDesc)) : Prop := {
  fo_chunk_size : ds_chunk_size (dm_super st) = cs /\ 0 < cs < 2 ^ 32;
  fo_size : ow_size (dm_super st) w = Ok fsize /\ 0 <= fsize < 2 ^ 63;
  fo_count : zlen addrs = (fsize + cs - 1) / cs /\ zlen addrs < 2 ^ 32;
  fo_addrs : forall head, 0 <= head <= zlen addrs -> chunk_addresses (dm_super st) w head = Ok (drop (Z.to_nat head) addrs);
  fo_chunks : Forall2 resolves addrs bcs
}.

Lemma v6_alloc_run w cs fsize addrs bcs offset size : v6_file_ops w cs fsize addrs bcs -> 0 <= offset < fsize -> 0 < size -> let len := Z.min (fsize - offset) size in len < 2 ^ 32 ->
  exists vs, v6_alloc_bio_vecs st device w offset size user = Ok vs /\ vecs_ok vs /\ all_descs vs = io_plan user cs (drop (Z.to_nat (offset / cs)) bcs) (offset mod cs) len.
Proof.
  intros [[Ecs Hcs] [Es Hs] [Hn Hn32] Ha Hr] Ho Hsz len Hlen. pose proof (Z.div_mod offset cs ltac:(lia)) as Hdm. pose proof (Z.mod_pos_bound offset cs ltac:(lia)) as Hmb. pose proof (Z.div_pos offset cs ltac:(lia) ltac:(lia)) as Hq. set (h := offset / cs) in *. set (o := offset mod cs) in *.
  assert (zlen bcs = zlen addrs) as Hlb by (unfold zlen; by rewrite (Forall2_length _ _ _ Hr)).
  assert (fsize <= cs * zlen addrs) as Hcov. { rewrite Hn. pose proof (Z.mul_succ_div_gt (fsize + cs - 1) cs ltac:(lia)). lia. }
  assert (h < zlen addrs) as Hh by nia. unfold v6_alloc_bio_vecs, udiv. rewrite Ecs, (proj2 (Z.eqb_neq cs 0)) by lia. cbn [mbind outcome_bind]. fold h o. rewrite (wrap_small 32 h) by (split; lia).
  rewrite Ha by lia. cbn [err_invalidate_data mbind outcome_bind].
  destruct (lookup_lt_is_Some_2 addrs (Z.to_nat h)) as [a Hla]; [unfold zlen in Hh; lia|]. destruct (Forall2_lookup_l _ _ _ _ _ Hr Hla) as ([b c] & Hlb' & Hres). pose proof (drop_S _ _ _ Hla) as Ed. rewrite Ed. rewrite (drop_S _ _ _ Hlb').
  rewrite Es. cbn [mbind outcome_bind]. rewrite (usub_in 64 fsize offset) by (split; lia). cbn [mbind outcome_bind]. fold len. rewrite (wrap_small 32 o), (wrap_small 32 len) by (split; lia). rewrite usub_in by (split; lia). cbn [mbind outcome_bind].
  set (n := Z.min (cs - o) len). rewrite (make_chunk_io_run a b c o n Hres). cbn [ok_or mbind outcome_bind]. set (d := mkIoDesc b c o n user).
  assert (iov_ok (BlobIoVec_new b)) as Hnew by (split_and!; [done|cbn; lia|cbn; lia|constructor]).
  destruct (push_run d (BlobIoVec_new b) Hnew eq_refl ltac:(cbn [d io_size]; lia) ltac:(cbn [d io_size BlobIoVec_new iov_size]; lia)) as [Ep Hp]. cbn [d io_blob]. fold d. rewrite Ep. cbn [mbind outcome_bind]. set (v := mkIoVec _ _ _) in *.
  assert (vecs_ok ([] ++ [v])) as Hok. { destruct Hres as (idx & _ & Hg & Hi & _). cbn [fst snd] in Hg, Hi. split_and!; [by apply Forall_singleton|by apply Forall_singleton|done|]. apply Forall_singleton. unfold blob_found, v. cbn [iov_blob BlobIoVec_new]. rewrite Hi. exact Hg. }
  rewrite usub_in by (split; lia). cbn [mbind outcome_bind]. cbn [io_plan]. rewrite (proj2 (Z.leb_gt len 0)) by lia. fold n. assert (iov_size v = n) as Hvs by (unfold v; cbn; lia).
  destruct (Z.eqb_spec (len - n) 0) as [E|E]; cbn [negb].
  - cbn [mbind outcome_bind v iov_vec BlobIoVec_new app]. fold v. rewrite E. cbn [Z.eqb rassert mbind outcome_bind]. exists [v]. split_and!; [done|exact Hok|]. by destruct (drop (S (Z.to_nat h)) bcs) as [|[] ?].
  - destruct (alloc_rest_run cs (drop (S (Z.to_nat h)) addrs) (drop (S (Z.to_nat h)) bcs) (Forall2_drop _ _ _ _ Hr) (len - n) [] v Hcs) as (vec & descs & Hal & Hok' & Hall); [|exact Hok|lia|].
    { split; [lia|]. unfold zlen. rewrite length_drop. unfold zlen in Hlb, Hcov, Hh. assert (fsize <= cs * (h + 1 + (Z.of_nat (length addrs) - (h + 1)))) by (replace (h + 1 + (Z.of_nat (length addrs) - (h + 1))) with (Z.of_nat (length addrs)) by lia; done). nia. }
    rewrite Hal. cbn [mbind outcome_bind]. exists (vec ++ [descs]). destruct Hok' as (O1 & O2 & O3 & O4). apply Forall_app in O2 as O2'. destruct O2' as [_ O2']. apply Forall_inv in O2'. cbn [Z.eqb rassert mbind outcome_bind].
    split_and!; [by destruct (iov_vec descs)|done|]. rewrite Hall. done.
Qed.
End read_spec.

(** ** The chunk table *)

Section chunk_table.
Context `{Profile} (st : DirectMappingState) (tbl : list RafsV5ChunkInfo).
Notation off := (sm_chunk_table_offset (dm_meta st)).

(** A mapped chunk table. *)
Record chunk_table_ok : Prop := {
  ct_map : map_wf (ds_map (dm_super st));
  ct_size : sm_chunk_table_size (dm_meta st) = 80 * zlen tbl /\ off mod 8 = 0;
  ct_stored : stored (ds_map (dm_super st)) off (chunks_bytes tbl);
  ct_chunks : Forall v5c_wf tbl
}.
Context (Ht : chunk_table_ok).

Lemma table_bounds : 0 <= off /\ off + 80 * zlen tbl < 2 ^ 64 - 80 /\ 0 <= zlen tbl.
Proof.
  pose proof (zlen_nonneg tbl). destruct (ct_stored Ht) as (S1 & S2 & _). destruct (ct_map Ht) as ((F1 & F2 & F3) & F4 & F5). rewrite zlen_chunks_bytes in S2. unfold EROFS_BLOCK_SIZE in F5.
  assert (4096 <= fm_base (mp_map (ds_map (dm_super st)))) by (apply Z.mod_divide in F5 as [q Hq]; [|lia]; lia). lia.
Qed.

Lemma chunk_at i c : tbl !! i = Some c -> v5_chunk_at st (off + 80 * Z.of_nat i) = Ok c.
Proof.
  intros Hc. pose proof (lookup_lt_Some _ _ _ Hc) as Hlt. assert (stored (ds_map (dm_super st)) (off + 80 * Z.of_nat i) (v5c_bytes c)) as Hs.
  { pose proof (ct_stored Ht) as Hs. rewrite <- (take_drop_middle _ _ _ Hc) in Hs. unfold chunks_bytes in Hs. rewrite fmap_app, fmap_cons, concat_app in Hs. cbn [concat] in Hs. apply stored_mid in Hs.
    fold (chunks_bytes (take i tbl)) in Hs. rewrite zlen_chunks_bytes in Hs. unfold zlen in Hs. rewrite length_take, Nat.min_l in Hs by lia. exact Hs. }
  unfold v5_chunk_at. change 8 with (2 ^ 3). rewrite (get_ref_stored _ _ _ 80 3 (ct_map Ht) Hs); [|unfold zlen; by rewrite length_v5c_bytes|lia|].
  - cbn [mbind outcome_bind]. f_equal. apply v5c_roundtrip. exact (Forall_lookup_1 _ _ _ _ (ct_chunks Ht) Hc).
  - change (2 ^ 3) with 8. destruct (ct_size Ht) as [_ H8]. rewrite Z.add_mod, H8 by lia. replace (80 * Z.of_nat i) with (10 * Z.of_nat i * 8) by lia. by rewrite Z_mod_mult.
Qed.

Lemma chunk_new_run i c : tbl !! i = Some c -> DirectChunkInfoV6_new st (Z.of_nat i) = Ok (mkDirectChunk (off + 80 * Z.of_nat i) (v5c_block_id c)) /\
  dc_v5_chunk st (mkDirectChunk (off + 80 * Z.of_nat i) (v5c_block_id c)) = Ok c.
Proof.
  intros Hc. pose proof (lookup_lt_Some _ _ _ Hc) as Hlt. destruct table_bounds as (B1 & B2 & B3). destruct (ct_size Ht) as [Hs _]. assert (Z.of_nat i < zlen tbl) by (unfold zlen; lia). pose proof (chunk_at i c Hc) as Ha.
  split; [|unfold dc_v5_chunk; cbn [dc_offset]; by rewrite Ha]. unfold DirectChunkInfoV6_new. rewrite umul_in by (split; lia). cbn [mbind outcome_bind]. rewrite uadd_in by (split; lia). cbn [mbind outcome_bind]. rewrite Hs, uadd_in by (split; lia). cbn [mbind outcome_bind].
  rewrite (proj2 (Z.ltb_ge _ off)) by lia. rewrite uadd_in by (split; lia). cbn [mbind outcome_bind]. rewrite (proj2 (Z.ltb_ge _ _)) by lia. replace (Z.of_nat i * 80) with (80 * Z.of_nat i) by lia. by rewrite Ha.
Qed.

(** The addresses of chunks, each with its last index. *)
Fixpoint addr_map (idx : Z) (l : list RafsV5ChunkInfo) (m : gmap (Z * Z * Z) Z) : gmap (Z * Z * Z) Z :=
  match l with [] => m | c :: l => addr_map (idx + 1) l (<[addr_key (chunk_addr_for c) := idx]> m) end.

Lemma addr_map_in l : forall idx m a j, addr_map idx l m !! a = Some j -> (exists i c, l !! i = Some c /\ addr_key (chunk_addr_for c) = a /\ j = idx + Z.of_nat i) \/ m !! a = Some j.
Proof.
  induction l as [|c l IH]; intros idx m a j Hj; [by right|]. cbn [addr_map] in Hj. apply IH in Hj as [(i & c' & Hl & Ha & ->)|Hj].
  - left. exists (S i), c'. split_and!; [done|done|lia].
  - apply lookup_insert_Some in Hj as [[Ha <-]|[_ Hj]]; [left; exists 0%nat, c; split_and!; [done|done|lia]|by right].
Qed.

Lemma addr_map_has l : forall idx m a, (is_Some (m !! a) \/ exists c, c ∈ l /\ addr_key (chunk_addr_for c) = a) -> is_Some (addr_map idx l m !! a).
Proof.
  induction l as [|c l IH]; intros idx m a Ha; cbn [addr_map]; [destruct Ha as [Ha|(c & Hc%elem_of_nil & _)]; done|]. apply IH.
  destruct Ha as [Ha|(c' & [->|Hc]%elem_of_cons & <-)]; [left; by rewrite lookup_insert_is_Some'; right|left; rewrite lookup_insert_eq; by eexists|right; by exists c'].
Qed.

Lemma chunk_map_loop_run n : forall i m, (i + n = length tbl)%nat -> Forall chunk_ok tbl -> chunk_map_loop st n (Z.of_nat i) m = Ok (addr_map (Z.of_nat i) (drop i tbl) m).
Proof.
  induction n as [|n IH]; intros i m Hi Hc; [by rewrite drop_ge by lia|]. destruct (lookup_lt_is_Some_2 tbl i) as [c Hl]; [lia|]. destruct (chunk_new_run i c Hl) as [E1 E2]. destruct (Forall_lookup_1 _ _ _ _ Hc Hl) as [C1 C2].
  cbn [chunk_map_loop]. rewrite E1. cbn [mbind outcome_bind]. rewrite E2. cbn [mbind outcome_bind]. rewrite (drop_S _ _ _ Hl). cbn [addr_map].
  pose proof (chunk_addr_set (v5c_blob_index c) (v5c_index c) (wrap 32 (v5c_uncompressed_offset c / EROFS_BLOCK_SIZE)) C1 C2) as Hset. fold (chunk_addr_for c) in Hset.
  destruct (ca_set_blob_index (v5c_blob_index c) ChunkAddr_new) as [a1| |]; [|done|done]. cbn [mbind outcome_bind] in Hset |- *. destruct (ca_set_blob_ci_index (v5c_index c) a1) as [a2| |]; [|done|done]. cbn [mbind outcome_bind] in Hset |- *.
  assert (ca_set_block_addr (wrap 32 (v5c_uncompressed_offset c / EROFS_BLOCK_SIZE)) a2 = chunk_addr_for c) as -> by congruence. replace (Z.of_nat i + 1) with (Z.of_nat (S i)) by lia. apply IH; [lia|done].
Qed.

Lemma load_chunk_map_run : Forall chunk_ok tbl -> load_chunk_map st = Ok (addr_map 0 tbl ∅).
Proof.
  intros Hc. destruct (ct_size Ht) as [Hs _]. unfold load_chunk_map. rewrite Hs. destruct (Z.eqb_spec (80 * zlen tbl) 0) as [E|E]; [by destruct tbl|]. rewrite Z.mul_comm, Z_mod_mult, Z.div_mul by lia. cbn [Z.eqb negb].
  unfold zlen. rewrite Nat2Z.id. exact (chunk_map_loop_run (length tbl) 0 ∅ eq_refl Hc).
Qed.
End chunk_table.

(** ** Files of an image *)

(** A file the builder can represent: its chunks cover its size. *)
Record file_node (k : Z) (n : V6Node) : Prop := {
  fn_reg : v5i_is_reg (v6_inode n) = true;
  fn_chunks : Forall chunk_ok (n_chunks (v6_node n));
  fn_count : zlen (n_chunks (v6_node n)) = v5i_child_count (v6_inode n) /\ v5i_child_count (v6_inode n) = (v5i_size (v6_inode n) + 2 ^ k - 1) / 2 ^ k /\ v5i_child_count (v6_inode n) < 2 ^ 32;
  fn_size : 0 <= v5i_size (v6_inode n) < 2 ^ 63
}.

(** All of a chunk but its place in a file. *)
Definition chunk_data (c : RafsV5ChunkInfo) : RafsV5ChunkInfo :=
  mkV5Chunk (v5c_block_id c) (v5c_blob_index c) (v5c_flags c) (v5c_compressed_size c) (v5c_uncompressed_size c) (v5c_compressed_offset c) (v5c_uncompressed_offset c) 0 (v5c_index c) (v5c_reserved c).

(** Chunks with the same digest in the same blob are one chunk, and so are chunks with the same address. *)
Definition chunks_numbered (l : list RafsV5ChunkInfo) : Prop :=
  forall c c', c ∈ l -> c' ∈ l -> (v5c_block_id c, v5c_blob_index c) = (v5c_block_id c', v5c_blob_index c') \/ chunk_addr_for c = chunk_addr_for c' -> chunk_data c = chunk_data c'.

Lemma cache_chunks_has l : forall m k, (is_Some (m !! k) \/ exists c, c ∈ l /\ (v5c_block_id c, v5c_blob_index c + 1) = k) -> is_Some (cache_chunks l m !! k).
Proof.
  induction l as [|c l IH]; intros m k Hk; [destruct Hk as [Hk|(c & Hc%elem_of_nil & _)]; done|]. cbn [cache_chunks foldl]. fold (cache_chunks l (<[(v5c_block_id c, v5c_blob_index c + 1) := c]> m)). apply IH.
  destruct Hk as [Hk|(c' & [->|Hc]%elem_of_cons & <-)]; [left; by rewrite lookup_insert_is_Some'; right|left; rewrite lookup_insert_eq; by eexists|right; by exists c'].
Qed.

Lemma cache_chunks_key l : forall m k c, cache_chunks l m !! k = Some c -> (v5c_block_id c, v5c_blob_index c + 1) = k \/ m !! k = Some c.
Proof.
  induction l as [|a l IH]; intros m k c Hc; [by right|]. cbn [cache_chunks foldl] in Hc. fold (cache_chunks l (<[(v5c_block_id a, v5c_blob_index a + 1) := a]> m)) in Hc. apply IH in Hc as [Hc|Hc]; [by left|].
  apply lookup_insert_Some in Hc as [[Hk <-]|[_ Hc]]; [by left|by right].
Qed.

(** The table has a chunk for every chunk that was dumped. *)
Lemma table_has l c : c ∈ l -> exists c', c' ∈ cache_chunks_sorted (cache_chunks l ∅) /\ c' ∈ l /\ (v5c_block_id c', v5c_blob_index c') = (v5c_block_id c, v5c_blob_index c).
Proof.
  intros Hc. destruct (cache_chunks_has l ∅ (v5c_block_id c, v5c_blob_index c + 1)) as [c' Hc']; [right; by exists c|]. exists c'. split_and!.
  - unfold cache_chunks_sorted. apply list_elem_of_fmap. exists ((v5c_block_id c, v5c_blob_index c + 1), c'). split; [done|]. rewrite sort_by_key_perm. by apply elem_of_map_to_list.
  - destruct (cache_chunks_in _ _ _ _ Hc') as [Hin|Hin]; [done|by rewrite lookup_empty in Hin].
  - destruct (cache_chunks_key _ _ _ _ Hc') as [Hk|Hin]; [|by rewrite lookup_empty in Hin]. injection Hk as -> Hb. f_equal. lia.
Qed.

Section lookup.
Context `{Profile} {k : Z} {st : DirectMappingState} {tbl : list RafsV5ChunkInfo} {n : V6Node} {w : OndiskInodeWrapper}.
Context (Hk : 12 <= k < 32) (Ht : chunk_table_ok st tbl) (Hok : Forall chunk_ok tbl) (Hr : v6_reads (k:=k) (ds:=dm_super st) n w) (Hn : file_node k n) (Hcs : ds_chunk_size (dm_super st) = 2 ^ k).

Lemma file_size_run : ow_size (dm_super st) w = Ok (v5i_size (v6_inode n)) /\ ow_mode_is (dm_super st) S_IFREG w = Ok true.
Proof. destruct (vr_inode _ _ Hr) as (inode & Hi & Ha). unfold ow_size, ow_mode_is. rewrite Hi. cbn [mbind outcome_bind]. rewrite (ha_size _ _ _ _ _ Ha), (ha_mode _ _ _ _ _ Ha). split; [done|]. f_equal. exact (fn_reg _ _ Hn). Qed.

Lemma file_count_run : v6_get_child_count (dm_super st) w = Ok (v5i_child_count (v6_inode n)).
Proof.
  destruct file_size_run as [Hs _]. destruct (vr_inode _ _ Hr) as (inode & Hi & Ha). destruct (fn_count _ _ Hn) as (C1 & C2 & C3). pose proof (fn_size _ _ Hn) as Hz. pose proof (zlen_nonneg (n_chunks (v6_node n))).
  unfold v6_get_child_count. unfold ow_mode_is. rewrite Hi. cbn [mbind outcome_bind]. rewrite (ha_mode _ _ _ _ _ Ha).
  assert (mode_is S_IFDIR (v5i_mode (v6_inode n)) = false) as ->. { destruct (mode_is S_IFDIR (v5i_mode (v6_inode n))) eqn:E; [|done]. destruct (mode_dir_not _ E) as [E' _]. pose proof (fn_reg _ _ Hn) as E2. change (v5i_is_dir (v6_inode n) = true) in E. destruct (mode_dir_not _ E) as [E3 _]. congruence. }
  cbn [negb]. rewrite Hs. cbn [mbind outcome_bind]. pose proof (Z.pow_lt_mono_r 2 k 32 ltac:(lia) ltac:(lia) ltac:(lia)) as Hk32. change (2 ^ 32) with 4294967296 in Hk32. rewrite Hcs, div_round_up_spec by lia. cbn [mbind outcome_bind]. rewrite <- C2. by rewrite wrap_small by (split; lia).
Qed.

Lemma addr_key_inj a b : addr_key a = addr_key b -> a = b.
Proof. destruct a, b. unfold addr_key. cbn. by intros [= -> -> ->]. Qed.

(** The chunk of a file at an index, through the address in the inode and the chunk table. *)
Lemma get_chunk_info_run i c cached : n_chunks (v6_node n) !! i = Some c -> (exists c', c' ∈ tbl /\ chunk_addr_for c' = chunk_addr_for c) -> cached = None \/ cached = Some (addr_map 0 tbl ∅) ->
  exists d c', v6_get_chunk_info st w (Z.of_nat i) cached = (Ok d, Some (addr_map 0 tbl ∅)) /\ dc_v5_chunk st d = Ok c' /\ c' ∈ tbl /\ chunk_addr_for c' = chunk_addr_for c.
Proof.
  intros Hc (c0 & Hin0 & Ha0) Hcached. destruct file_size_run as [_ Hreg]. destruct (vr_area _ _ Hr (fn_reg _ _ Hn)) as (inode & s & Hi & Hs & H8 & H0 & H1 & H2 & Hst). destruct (fn_count _ _ Hn) as (C1 & C2 & C3). pose proof (lookup_lt_Some _ _ _ Hc) as Hlt.
  assert (0 <= Z.of_nat i < v5i_child_count (v6_inode n)) as Hix by (rewrite <- C1; unfold zlen; lia).
  destruct (addr_map_has tbl 0 ∅ (addr_key (chunk_addr_for c))) as [j Hj]; [right; exists c0; by rewrite Ha0|]. pose proof Hj as Hj'. apply addr_map_in in Hj' as [(x & c' & Hx & Hax & Ej)|Hj']; [|by rewrite lookup_empty in Hj'].
  rewrite Z.add_0_l in Ej. destruct (chunk_new_run st tbl Ht x c' Hx) as [N1 N2]. eexists _, c'. split; [|split; [exact N2|split; [by eapply list_elem_of_lookup_2|by apply addr_key_inj]]].
  assert (stored (ds_map (dm_super st)) (ow_offset w + s + Z.of_nat i * 8) (chunk_addr_bytes (chunk_addr_for c))) as Hsa.
  { rewrite <- (take_drop_middle _ _ _ Hc) in Hst. unfold addrs_bytes in Hst. rewrite fmap_app, fmap_cons, fmap_app, fmap_cons, concat_app in Hst. cbn [concat] in Hst. apply stored_mid in Hst. fold (addrs_bytes (chunk_addr_for <$> take i (n_chunks (v6_node n)))) in Hst.
    rewrite length_addrs in Hst. unfold zlen in Hst at 1. rewrite length_fmap, length_take, Nat.min_l in Hst by lia. by rewrite (Z.mul_comm _ 8). }
  unfold v6_get_chunk_info. rewrite Hi. erewrite st_bind_run by reflexivity. rewrite Hreg. erewrite st_bind_run by reflexivity. rewrite file_count_run. erewrite st_bind_run by (erewrite st_bind_run by reflexivity; reflexivity). rewrite (proj2 (Z.ltb_lt _ _)) by lia. cbn [negb].
  rewrite Hs. erewrite st_bind_run by reflexivity. rewrite uadd_in by (split; lia). erewrite st_bind_run by reflexivity. rewrite umul_in by (split; lia). erewrite st_bind_run by reflexivity. rewrite uadd_in by (split; lia). erewrite st_bind_run by reflexivity.
  change 4 with (2 ^ 2) at 1. rewrite (get_ref_stored _ _ _ 8 2 (ct_map _ _ Ht) Hsa); [|unfold zlen; by rewrite length_chunk_addr_bytes|lia|].
  2:{ change (2 ^ 2) with 4. apply Z.mod_divide; [done|]. apply Z.mod_divide in H8 as [q Hq]; [|lia]. exists (2 * q + 2 * Z.of_nat i). lia. }
  erewrite st_bind_run by reflexivity. cbv zeta. destruct (Forall_lookup_1 _ _ _ _ (fn_chunks _ _ Hn) Hc) as [B1 B2].
  destruct (chunk_addr_get (v5c_blob_index c) (v5c_index c) (wrap 32 (v5c_uncompressed_offset c / EROFS_BLOCK_SIZE)) B1 B2) as (_ & _ & Hk' & A1 & A2 & _).
  rewrite (chunk_addr_of_bytes_bytes (chunk_addr_for c)); [|done|done|unfold chunk_addr_for; rewrite Hk'; by apply wrap_range]. erewrite st_bind_run by reflexivity.
  destruct Hcached as [->| ->]; [erewrite st_bind_run by (cbn [id]; rewrite (load_chunk_map_run st tbl Ht Hok); erewrite st_bind_run by reflexivity; erewrite st_bind_run by reflexivity; reflexivity)|erewrite st_bind_run by reflexivity]; rewrite Hj, Ej, N1; done.
Qed.
End lookup.

(** A path of a loaded image, and what is read of its node. *)
Lemma loaded_path `{Profile} k ctx t ns nodes T file st names tr q : v6_loaded k ctx t ns nodes T file st -> v6_at T EROFS_BLOCK_SIZE names tr q ->
  exists root_w n w, inode_wrapper (dm_super st) (ds_root_ino (dm_super st)) = Ok root_w /\ nodes !! Z.to_nat (vt_index tr - 1) = Some n /\
    v6_resolve (ds:=dm_super st) names root_w = Ok w /\ v6_reads (k:=k) (ds:=dm_super st) n w.
Proof. intros Hl Hat. destruct (vl_tree _ _ _ _ _ _ _ _ Hl) as (root_w & Hr & Ht). destruct (Ht names tr q Hat) as (n & w & Hn & Hres & Hreads & _). by exists root_w, n, w. Qed.

Definition blob_numbers (t : list BlobInfo) : Prop := forall i b, t !! i = Some b -> bi_blob_index b = Z.of_nat i.

(** The blob of a chunk, as loaded, and the chunk a device has for it. *)
Definition served (t : list BlobInfo) (device : BlobDevice) (c : RafsV5ChunkInfo) (bc : BlobInfo * ChunkDesc) : Prop :=
  t !! Z.to_nat (v5c_blob_index c) = Some bc.1 /\ create_io_chunk device (v5c_blob_index c) (v5c_index c) = Some bc.2.

Lemma served_resolves `{Profile} st t device c b d : dm_blob_table st = reloaded <$> t -> zlen t < 0xffff -> blob_numbers t -> chunk_ok c -> served t device c (b, d) -> resolves st device (chunk_addr_for c) (reloaded b, d).
Proof.
  intros Htb Hz Hnum [C1 C2] [Hb Hd]. cbn [fst snd] in *. destruct (chunk_addr_get (v5c_blob_index c) (v5c_index c) (wrap 32 (v5c_uncompressed_offset c / EROFS_BLOCK_SIZE)) C1 C2) as (A1 & A2 & _).
  pose proof (Hnum _ _ Hb) as Hi. pose proof (lookup_lt_Some _ _ _ Hb) as Hlt. exists (v5c_blob_index c). cbn [fst snd]. split_and!; [exact A1| |change (bi_blob_index b = v5c_blob_index c); lia|unfold chunk_addr_for; by rewrite A2].
  unfold BlobTableV6_get. rewrite Htb. assert (zlen (reloaded <$> t) = zlen t) as -> by (unfold zlen; by rewrite length_fmap). rewrite wrap_small by (split; [apply zlen_nonneg|lia]). rewrite (proj2 (Z.leb_gt _ _)) by (unfold zlen; lia).
  apply vec_index_Ok. split; [lia|]. by rewrite list_lookup_fmap, Hb.
Qed.

(** C23: a read of a file of a loaded v6 image asks for the bytes of the file. At every path of the tree that is a regular
    file, for every offset in the file and every size, [alloc_bio_vecs] returns IO vectors whose descriptors, in order,
    give the bytes of the file from the offset on, as many as were asked for and the file has: with the uncompressed
    data of the chunks that the blob device has for the builder's chunks, all but the last of the
    chunk size. The vectors are filled, none is empty, each has the blob of its chunks, and a new one
    starts where the blob changes. No error or panic is possible. *)
Theorem v6_file_read `{Profile} k ctx t ns nodes T file st names tr q device user n bcs content : 12 <= k < 32 -> bc_chunk_size ctx = 2 ^ k -> zlen t < 0xffff -> blob_numbers t ->
  v6_loaded k ctx t ns nodes T file st -> v6_at T EROFS_BLOCK_SIZE names tr q -> nodes !! Z.to_nat (vt_index tr - 1) = Some n -> file_node k n ->
  Forall2 (served t device) (n_chunks (v6_node n)) bcs -> let data := concat (content <$> bcs.*2) in
  full_chunks (2 ^ k) (content <$> bcs.*2) -> zlen data = v5i_size (v6_inode n) ->
  exists root_w w, inode_wrapper (dm_super st) (ds_root_ino (dm_super st)) = Ok root_w /\ v6_resolve (ds:=dm_super st) names root_w = Ok w /\
  forall offset size, 0 <= offset < v5i_size (v6_inode n) -> 0 < size -> let len := Z.min (v5i_size (v6_inode n) - offset) size in len < 2 ^ 32 ->
    exists vs, v6_alloc_bio_vecs st device w offset size user = Ok vs /\ vecs_ok st vs /\ Forall (fun d => io_user d = user) (all_descs vs) /\
      read_data content (all_descs vs) = slice (Z.to_nat offset) (Z.to_nat len) data.
Proof.
  intros Hk Hcs Hz Hnum Hl Hat Hn Hf Hserved data Hfull Hsize. destruct (loaded_path _ _ _ _ _ _ _ _ _ _ _ Hl Hat) as (root_w & n' & w & Hroot & Hn' & Hres & Hreads). rewrite Hn in Hn'. injection Hn' as <-.
  exists root_w, w. split_and!; [done|done|]. intros offset size Ho Hs len Hlen. pose proof (Z.pow_pos_nonneg 2 k ltac:(lia) ltac:(lia)) as Hp. pose proof (Z.pow_lt_mono_r 2 k 32 ltac:(lia) ltac:(lia) ltac:(lia)) as Hk32.
  destruct (vl_map _ _ _ _ _ _ _ _ Hl) as (_ & _ & Hds). rewrite Hcs in Hds. destruct (fn_count _ _ Hf) as (C1 & C2 & C3). set (rb := (fun x : BlobInfo * ChunkDesc => (reloaded x.1, x.2)) <$> bcs).
  assert (v6_file_ops st device w (2 ^ k) (v5i_size (v6_inode n)) (chunk_addr_for <$> n_chunks (v6_node n)) rb) as Hops.
  { assert (zlen (chunk_addr_for <$> n_chunks (v6_node n)) = v5i_child_count (v6_inode n)) as Hzl by (rewrite <- C1; unfold zlen; by rewrite length_fmap). constructor.
    - split; [exact Hds|lia].
    - split; [exact (proj1 (file_size_run Hreads Hf))|exact (fn_size _ _ Hf)].
    - rewrite Hzl. split; [exact C2|exact C3].
    - intros head Hh. rewrite Hzl in Hh. exact (vr_chunks _ _ Hreads head (fn_reg _ _ Hf) Hds Hh).
    - unfold rb. apply Forall2_fmap_2. eapply Forall2_impl; [|intros ? ? Hx; exact Hx]. pose proof (fn_chunks _ _ Hf) as Hco. clear -Hserved Hco Hl Hz Hnum. induction Hserved as [|c [b d] cs bs Hsv _ IH]; [constructor|]. apply Forall_cons in Hco as [Hc Hco].
      constructor; [|by apply IH]. by eapply served_resolves; [exact (vl_blobs _ _ _ _ _ _ _ _ Hl)|exact Hz|exact Hnum|exact Hc|exact Hsv]. }
  destruct (v6_alloc_run st device user w (2 ^ k) _ _ rb offset size Hops Ho Hs Hlen) as (vs & Hal & Hok & Hall). exists vs. split_and!; [exact Hal|exact Hok| |].
  - rewrite Hall. generalize (drop (Z.to_nat (offset / 2 ^ k)) rb), (offset mod 2 ^ k), (Z.min (v5i_size (v6_inode n) - offset) size). clear. induction l as [|[b c] l IH]; intros o x; [constructor|]. cbn [io_plan]. case_match; [constructor|]. constructor; [done|apply IH].
  - assert ((fun x : BlobInfo * ChunkDesc => content x.2) <$> rb = content <$> bcs.*2) as Econt by (unfold rb; rewrite <- !list_fmap_compose; done).
    pose proof (Z.div_mod offset (2 ^ k) ltac:(lia)) as Hdm. pose proof (Z.mod_pos_bound offset (2 ^ k) Hp) as Hmb. pose proof (Z.div_pos offset (2 ^ k) ltac:(lia) Hp) as Hq. set (h := offset / 2 ^ k) in *.
    assert (h < zlen (n_chunks (v6_node n))) as Hh. { pose proof (Z.mul_succ_div_gt (v5i_size (v6_inode n) + 2 ^ k - 1) (2 ^ k) Hp). rewrite C1, C2. nia. }
    destruct (full_chunks_drop (2 ^ k) (Z.to_nat h) (content <$> bcs.*2) Hp Hfull) as [Hfd Hcd]. { rewrite !length_fmap, <- (Forall2_length _ _ _ Hserved). unfold zlen in Hh. lia. }
    assert ((fun x : BlobInfo * ChunkDesc => content x.2) <$> drop (Z.to_nat h) rb = drop (Z.to_nat h) (content <$> bcs.*2)) as Edrop by (by rewrite fmap_drop, Econt).
    rewrite Hall, io_plan_data; rewrite ?Edrop; [|done|lia|unfold len; lia|]; rewrite Hcd; fold data.
    + unfold slice. rewrite drop_drop. do 2 f_equal. rewrite <- Z2Nat.inj_mul, <- Z2Nat.inj_add by lia. f_equal. lia.
    + unfold zlen in *. rewrite length_drop, <- Z2Nat.inj_mul by lia. unfold len. nia.
Qed.

(** C24: the chunk table leads every file to its chunks. In a loaded v6 image, for every chunk of every regular file,
    [get_chunk_info] finds the chunk: with the digest, blob, flags, sizes, offsets and index of the chunk the
    builder dumped, only the offset in a file may be that of another file with the chunk. The map of
    addresses is loaded on the first use, and later uses give the same result. *)
Theorem v6_chunk_lookup `{Profile} k ctx t ns nodes T file st names tr q n : 12 <= k < 32 -> bc_chunk_size ctx = 2 ^ k ->
  v6_loaded k ctx t ns nodes T file st -> v6_at T EROFS_BLOCK_SIZE names tr q -> nodes !! Z.to_nat (vt_index tr - 1) = Some n -> file_node k n ->
  let l := concat (v6_chunks <$> ns) in Forall v5c_wf l -> Forall chunk_ok l -> chunks_numbered l ->
  exists root_w w chunk_map, inode_wrapper (dm_super st) (ds_root_ino (dm_super st)) = Ok root_w /\ v6_resolve (ds:=dm_super st) names root_w = Ok w /\
  forall i c, n_chunks (v6_node n) !! i = Some c -> forall cached, cached = None \/ cached = Some chunk_map ->
    exists d c', v6_get_chunk_info st w (Z.of_nat i) cached = (Ok d, Some chunk_map) /\ dc_v5_chunk st d = Ok c' /\ chunk_data c' = chunk_data c.
Proof.
  intros Hk Hcs Hl Hat Hn Hf l Hwf Hok Hnum. destruct (loaded_path _ _ _ _ _ _ _ _ _ _ _ Hl Hat) as (root_w & n' & w & Hroot & Hn' & Hres & Hreads). rewrite Hn in Hn'. injection Hn' as <-.
  destruct (vl_map _ _ _ _ _ _ _ _ Hl) as (Hmap & _ & Hds). rewrite Hcs in Hds. destruct (vl_chunks _ _ _ _ _ _ _ _ Hl) as (T1 & T2 & T3). fold l in T1, T3. set (tbl := cache_chunks_sorted (cache_chunks l ∅)) in *. destruct (sorted_chunks l) as [_ Htl]. fold tbl in Htl. rewrite Forall_forall in Htl.
  assert (chunk_table_ok st tbl) as Ht. { constructor; [done|split; [done|exact (mod8_of 512 _ ltac:(lia) T2)]|done|]. apply Forall_forall. intros c Hc. exact (proj1 (Forall_forall _ _) Hwf c (Htl c Hc)). }
  assert (Forall chunk_ok tbl) as Hokt. { apply Forall_forall. intros c Hc. exact (proj1 (Forall_forall _ _) Hok c (Htl c Hc)). }
  exists root_w, w, (addr_map 0 tbl ∅). split_and!; [done|done|]. intros i c Hc cached Hcached. assert (c ∈ l) as Hin.
  { unfold l. rewrite <- (vl_nodes _ _ _ _ _ _ _ _ Hl). apply list_elem_of_In, in_concat. exists (v6_chunks n). split; [apply list_elem_of_In, list_elem_of_fmap_2; by eapply list_elem_of_lookup_2|]. apply list_elem_of_In. unfold v6_chunks. rewrite (fn_reg _ _ Hf).
    destruct (v5i_is_dir (v6_inode n)) eqn:E; [destruct (mode_dir_not _ E) as [E' _]; pose proof (fn_reg _ _ Hf); congruence|]. by eapply list_elem_of_lookup_2. }
  destruct (table_has l c Hin) as (c0 & Hin0 & Hl0 & Hkey). fold tbl in Hin0. assert (chunk_data c0 = chunk_data c) as Hd0 by (by apply Hnum; [| |left]).
  assert (chunk_addr_for c0 = chunk_addr_for c) as Ha0. { unfold chunk_addr_for. unfold chunk_data in Hd0. by injection Hd0 as _ -> _ _ _ _ -> ->. }
  destruct (get_chunk_info_run Hk Ht Hokt Hreads Hf Hds i c cached Hc ltac:(by exists c0) Hcached) as (d & c' & Hg & Hd & Hin' & Ha'). exists d, c'. split_and!; [done|done|]. apply Hnum; [by apply Htl|done|by right].
Qed.

(** ** The files of the small tree *)

Definition v6_demo_dumped : list V6Node := match rafsv6_update_dirents v6_demo_tree EROFS_BLOCK_SIZE v6_demo_nodes with Ok nodes => nodes | _ => [] end.

Lemma v6_demo_loaded : exists file st, @v6_loaded dev_profile 20 v6_demo_build_ctx [v6_demo_blob] v6_demo_nodes v6_demo_dumped v6_demo_tree file st.
Proof.
  destruct (@v6_image_loads dev_profile 20 v6_demo_build_ctx [v6_demo_blob] v6_demo_array v6_demo_nodes v6_demo_placing v6_demo_placed v6_demo_ctx v6_demo_tree) as (nodes & s & Hup & Hd & Hload).
  - exact v6_demo_inputs.
  - exact v6_demo_build.
  - vm_compute. reflexivity.
  - split_and!; [|reflexivity|reflexivity|reflexivity]. cbn. constructor. apply perm_swap.
  - assert (nodes = v6_demo_dumped) as -> by (unfold v6_demo_dumped; by rewrite Hup).
    assert (zlen (du_bytes s) = 20480) as Hlen by (pose proof (f_equal (fun r => zlen (du_bytes r.2)) Hd) as E; vm_compute in E; exact (eq_sym E)).
    destruct (Hload (fun _ => Ok 4096) 4096) as (_ & st & _ & Hl); [reflexivity|reflexivity|rewrite Hlen; reflexivity|reflexivity|]. by exists (du_bytes s), st.
Qed.

Lemma v6_demo_path : v6_at v6_demo_tree EROFS_BLOCK_SIZE [[100]; [102]] (mkV6Tree (v6_demo_f 4352) []) 4256.
Proof.
  apply (v6_at_child v6_demo_tree EROFS_BLOCK_SIZE [[100]] (mkV6Tree (v6_demo_d 4256) [mkV6Tree (v6_demo_f 4352) []]) 4096 (mkV6Tree (v6_demo_f 4352) [])); [|reflexivity|left].
  apply (v6_at_child v6_demo_tree EROFS_BLOCK_SIZE [] v6_demo_tree 4096 (mkV6Tree (v6_demo_d 4256) [mkV6Tree (v6_demo_f 4352) []])); [constructor|reflexivity|left].
Qed.

Lemma v6_demo_file n : v6_demo_dumped !! 3%nat = Some n -> file_node 20 n /\ n_chunks (v6_node n) = [v6_demo_chunk] /\ v5i_size (v6_inode n) = 4096.
Proof. intros Hn. vm_compute in Hn. injection Hn as <-. split_and!; [|reflexivity|reflexivity]. constructor; [reflexivity|repeat constructor; demo_dec|split_and!; [reflexivity|reflexivity|reflexivity]|split; demo_dec]. Qed.

(** A device with the chunk of [/d/f], whose data is 4096 times 7. *)
Definition v6_demo_desc : ChunkDesc := mkChunk (Some 7) 5 0 0 0x100 0x2000 0x1000 true.
Definition v6_demo_device : BlobDevice := mkBlobDevice [fun i => if i =? 5 then Some v6_demo_desc else None].

Lemma v6_file_read_witness : exists st w vs, @v6_alloc_bio_vecs dev_profile st v6_demo_device w 100 10 true = Ok vs /\ read_data (fun _ => replicate 4096 7) (all_descs vs) = replicate 10 7.
Proof.
  destruct v6_demo_loaded as (file & st & Hl). destruct (v6_demo_dumped !! 3%nat) as [n|] eqn:Hn; [|vm_compute in Hn; discriminate]. destruct (v6_demo_file n Hn) as (Hf & Hc & Hs).
  destruct (@v6_file_read dev_profile 20 v6_demo_build_ctx [v6_demo_blob] v6_demo_nodes v6_demo_dumped v6_demo_tree file st [[100]; [102]] (mkV6Tree (v6_demo_f 4352) []) 4256 v6_demo_device true n [(v6_demo_blob, v6_demo_desc)] (fun _ => replicate 4096 7)) as (root_w & w & _ & _ & Hread).
  - by split.
  - reflexivity.
  - reflexivity.
  - intros [|i] b Hb; [by injection Hb as <-|done].
  - exact Hl.
  - exact v6_demo_path.
  - exact Hn.
  - exact Hf.
  - rewrite Hc. repeat constructor.
  - vm_compute. discriminate.
  - rewrite Hs. reflexivity.
  - rewrite Hs in Hread. destruct (Hread 100 10) as (vs & Hal & _ & _ & Hd); [by split|reflexivity|reflexivity|]. exists st, w, vs. split; [exact Hal|]. rewrite Hd. vm_compute. reflexivity.
Defined.

Lemma v6_chunk_lookup_witness : exists st w d m c, @v6_get_chunk_info dev_profile st w 0 None = (Ok d, Some m) /\ dc_v5_chunk st d = Ok c /\ v5c_compressed_size c = 0x100.
Proof.
  destruct v6_demo_loaded as (file & st & Hl). destruct (v6_demo_dumped !! 3%nat) as [n|] eqn:Hn; [|vm_compute in Hn; discriminate]. destruct (v6_demo_file n Hn) as (Hf & Hc & Hs).
  destruct (@v6_chunk_lookup dev_profile 20 v6_demo_build_ctx [v6_demo_blob] v6_demo_nodes v6_demo_dumped v6_demo_tree file st [[100]; [102]] (mkV6Tree (v6_demo_f 4352) []) 4256 n) as (root_w & w & m & _ & _ & Hget).
  - by split.
  - reflexivity.
  - exact Hl.
  - exact v6_demo_path.
  - exact Hn.
  - exact Hf.
  - repeat constructor; demo_dec.
  - repeat constructor; demo_dec.
  - intros c c' Hin Hin' _. apply list_elem_of_singleton in Hin, Hin'. by subst.
  - destruct (Hget 0%nat v6_demo_chunk) with (cached := @None (gmap (Z * Z * Z) Z)) as (d & c & Hg & Hd & Hdata); [by rewrite Hc|by left|]. exists st, w, d, m, c. split_and!; [exact Hg|exact Hd|]. by injection Hdata.
Defined.
